(* ===== verification/_CoqProject ===== *)
-Q . S2P
Prelude.v
CArray.v
Common.v
Apdu.v
ApduSpec.v
ApduRound.v
Tpdu.v
Lpdu.v
LpduSpec.v
Emi.v
Link.v
LinkSpec.v
Router.v
RouterSpec.v
EibNetIp.v
EibNetIpSpec.v
EibNetIp6.v
EibNetIp6Spec.v
EibNetSocket.v
Filters.v
EmiDriver.v
EibNetServer.v
EibNetServerSpec.v
EibNetTunnelSpec.v
EibNet6Server.v
EibNet6ServerSpec.v
EibNetClient.v
EibNetClientSpec.v
EibNetEndToEnd.v
IoBuf.v
Layer4.v
Layer4Spec.v
EibTypes.v
GroupCache.v
GroupCacheSpec.v
Client.v
ClientSpec.v
Ft12.v
Ft12Spec.v
Ft12Stream.v
Ft12Link.v
Tpuart.v
TpuartSpec.v
Image.v
ImageSpec.v
ImageSafe.v
LoadImage.v
LoadImageSpec.v
Layer7.v
Layer7Spec.v
ManagementClient.v
ManagementClientSpec.v
Usb.v
UsbSpec.v
RouterRun.v
RouterRunSpec.v
Ini.v
IniSpec.v
Trace.v
Stack.v
StackSpec.v
RouterSetup.v
RouterSetupSpec.v
Args.v
ArgsSpec.v
ArgsRead.v
ArgsDaemon.v
NetServer.v
NetServerSpec.v
