(* ===== verification/Prelude.v ===== *)
(** * knxd: a verification development

    knxd is a daemon that connects KNX/EIB buses, interfaces and IP networks.
    Frames come in from drivers and clients, each behind a _link_; a _router_
    decides to which links each frame is sent on; codecs translate frames
    between the forms they have on the bus, in the messages of serial and USB
    interfaces (EMI, CEMI), and in EIBnet/IP datagrams.  This library models the
    daemon's code (C++, under src/src/) as executable Rocq definitions and proves
    the properties its parts rely on.

    ** The parts and their files

    - [Prelude] (this file): what a C++ function can end in (type [outcome]:
      a value or a [fault] such as an access outside a vector, a failed
      assertion, a call of [abort]), machine integers as [Z] with their
      conversions written out, proofs about bytes by exhaustion.
    - [CArray]: [class CArray] of common/types.h, the byte vector.
    - [Common]: addresses and their textual forms (libserver/common.cpp,
      [readaddr] of router.cpp).
    - [Apdu], [ApduSpec], [ApduRound]: application layer packets
      (libserver/apdu.cpp), their memory safety and round trips.
    - [Tpdu]: transport layer packets (libserver/tpdu.cpp).
    - [Lpdu], [LpduSpec]: link layer frames (libserver/lpdu.cpp): bus format,
      checksum, textual form.
    - [Emi]: the message formats of interfaces and of EIBnet/IP
      (libserver/emi.cpp).
    - [Link], [LinkSpec]: [LinkConnect] of libserver/link.cpp, the state machine
      through which the router starts, stops, retries and watches a link.  The
      stack of filters and driver behind it is the class [Link.Driver]; what a
      method of the stack calls back before it returns is part of its result;
      stacks that keep to the protocol of link.h are the class
      [Link.ProtocolDriver].
    - [Router], [RouterSpec]: libserver/router.cpp: receiving, ownership of
      addresses, the queue, suppression of repeated frames, hop counts,
      distribution, flow control, client addresses, busmonitors.  What the
      router assumes of drivers is stated by the classes
      [Link.DriverLaws] and [Link.QuietDriver] and proved for the
      drivers modelled.
    - [RouterRun], [RouterRunSpec]: the same file: bringing all links up and down,
      and the check after each change of a link's state.  What the methods of a
      link do to the table of links while it is started or stopped is the
      class [RouterRun.TableCalls], what is assumed of it [RouterRunSpec.TableLaws].
    - [EibNetIp], [EibNetIpSpec]: the packets of EIBnet/IP
      (libserver/eibnetip.cpp): header, address block, fourteen services.
    - [EibNetIp6], [EibNetIp6Spec]: the same for IPv6 (libserver/eibnetip6.cpp).
    - [EibNetSocket]: [class EIBNetIPSocket]: output queue, sender filter and
      receive buffer.
    - [Filters]: the filters that can stand between link and driver
      (backend/nat.cpp, fqueue.cpp, fpace.cpp), each an instance of
      [Link.Driver] over the driver below it.
    - [EmiDriver]: the drivers for EMI1, EMI2 and CEMI interfaces
      (libserver/emi_common.cpp, emi1.cpp, emi2.cpp, cemi.cpp, and the local
      commands of lowlevel.cpp).
    - [EibNetServer], [EibNetServerSpec], [EibNetTunnelSpec]: the EIBnet/IP server
      (libserver/eibnetserver.cpp): its table of connections, every kind of
      datagram, acknowledgements and time-outs.
    - [EibNet6Server], [EibNet6ServerSpec]: the same over IPv6
      (libserver/eibnet6server.cpp).
    - [EibNetClient], [EibNetClientSpec]: the EIBnet/IP clients
      (backend/eibnettunnel.cpp, eibnetrouter.cpp).
    - [EibNetEndToEnd]: a tunnelling client and a server's connection, put
      together over a network that loses datagrams.
    - [IoBuf]: the buffers of stream sockets (common/iobuf.cpp); what a reader of
      messages promises is the class [IoBuf.StreamReader].
    - [Layer4], [Layer4Spec]: transport layer sockets and connections
      (libserver/layer4.cpp).
    - [GroupCache], [GroupCacheSpec]: the cache of group values and its clients
      (libserver/groupcache.cpp, groupcacheclient.cpp).
    - [EibTypes], [Client], [ClientSpec]: the connections of local clients
      (libserver/client.cpp, connection.cpp, busmonitor.cpp), with the stream
      buffers, sockets, group cache and router they use.
    - [Ft12], [Ft12Spec], [Ft12Stream], [Ft12Link]: the FT1.2 line protocol
      (backend/ft12.cpp), for every driver above it.
    - [Tpuart], [TpuartSpec]: the bus transceivers TPUART and NCN5120
      (backend/tpuart.cpp, ncn5120.cpp): start-up, receiver, echo, time-outs.
    - [Usb], [UsbSpec]: USB interfaces (libserver/eibusb.cpp, usblowlevel.cpp):
      reports, discovery of the EMI version, transfers, start and stop; what
      libusb answers is an argument.
    - [Image], [ImageSpec], [ImageSafe]: files of BCU programs
      (common/image.cpp).
    - [LoadImage], [LoadImageSpec]: the checks on such a program and the plan of its
      download (common/loadimage.cpp).
    - [Layer7], [Layer7Spec]: requests to devices (libserver/layer7.cpp,
      management.cpp) over the class [Layer7.Layer4], and against the class
      [Layer7Spec.MemoryDevice].
    - [ManagementClient], [ManagementClientSpec]: the management requests of
      local clients (libserver/managementclient.cpp).
    - [Ini], [IniSpec]: configuration files (common/inih.c, inifile.cpp).
    - [Trace]: which messages are logged, and what a tracer reads from the
      configuration (libserver/trace.cpp).
    - [Stack], [StackSpec]: the stack of filters between a link and its driver
      (libserver/link.cpp), as objects of a heap that point to each other: linking,
      unlinking, search, calls along the stack, and its set up from the
      configuration.  What the classes of filters and drivers add to that set up is a
      parameter.
    - [RouterSetup], [RouterSetupSpec]: the set up of the router, of its links
      and of the group cache from the configuration (libserver/router.cpp,
      groupcacheclient.cpp), over the factories of drivers and servers.
    - [Args], [ArgsSpec], [ArgsRead], [ArgsDaemon]: the command line
      (server/knxd_args.cpp), which is turned into a configuration file.
    - [NetServer], [NetServerSpec]: the servers local clients connect to
      (libserver/server.cpp, inetserver.cpp, localserver.cpp, systemdserver.cpp),
      put together with their clients and the router's block of addresses: a heap of
      clients with the references to them, and a step relation over everything that
      can happen.  What system calls return is an argument.

    A function of the source is the definition of the same name; where several
    classes have a method of that name, the class comes first
    ([L_Data_PDU::ToPacket] is [L_Data_ToPacket]).  Objects are records, changed
    by returning a new one; a callback into another object is a value in the
    result (signals of a link, events of a socket), handled where the source
    handles it.  System calls are inputs: the time, the result of [sendto].
    Trace output is left out, the texts of [Decode] are not.

    ** What the theorems show

    - Parsers are memory safe: on every byte sequence the parsers of all layers
      return, read nothing outside their input, and accept only values within
      the ranges that encoders and printers assert; the exceptions are stated
      exactly ([parse_service_faults_iff], [L_Data_methods_return_iff],
      [CEMI_forward_iff]).
    - Codecs are inverse: what is encoded is parsed back, for application,
      transport and link layer, CEMI and EMI messages and EIBnet/IP services;
      where the source deviates, the theorem says how ([priority_swapped],
      [reread] of application packets, [readable] and [arrived] of EIBnet/IP
      services).  A corrupted byte of a bus frame is noticed.
    - The router delivers each frame to exactly the links that are to get it,
      never back to the sender, with its hop count reduced, and repetitions are
      dropped; no link can use an address of another; client addresses are
      unique; the queue is worked off and the router does not stall.  A needed
      link that failed ends the daemon with every link told to stop; starting and stopping
      all links and the check of the links end for every driver, also when drivers register
      and unregister links meanwhile.
    - A link's retries are bounded; with drivers that keep to the protocol,
      whether they answer at once or later, no state change aborts the daemon, and
      the changes that do are listed; nested callbacks end.
    - The UDP socket sends in order and loses nothing without at least seven
      failures; frames that arrive through it can be sent on.
    - The filters do what they are for: address translation is a finite map,
      the queue filter is a FIFO, the pace filter keeps its delay.
    - An EMI interface answers every frame once and repeats it a bounded number
      of times; the states in which a driver faults are listed.
    - No datagram makes the EIBnet/IP server fault; a frame that does not fit into
      a CEMI message ends it, and the tunnelling client, at the assertion of emi.cpp,
      and a bus-monitor message that is too short ends the client.  Connections
      have channels and addresses of their own; over a network that loses a
      datagram now and then a tunnel delivers every frame exactly once and in order.
    - Client messages are taken from the stream whatever its segmentation;
      payloads that end the daemon are characterised; links, monitors and
      addresses are given back; what one client sends to a group reaches another.
    - A transport connection is a stop-and-wait protocol once it is open, but the
      program never opens one; the group cache holds only last values and,
      as long as it is not cleared, is a least-recently-updated cache whose
      answers are those of an abstract machine.  Stream buffers keep the bytes
      given to them in order.
    - FT1.2: a stream is taken apart however it is cut, each message of a sender
      that keeps to the alternating bit is delivered once; runs end and do not
      fault.  The TPUART receiver acknowledges and delivers each frame
      once, and the inputs that make it leave its buffer are characterised.
    - USB: the discovery asks at most five times and fails no assertion; frames
      up to 48 bytes survive a report; repetitions are bounded; a stopped
      device is not started again, and losing the bus blocks the daemon.
    - Image files: reading is safe but for list parameters, a well-formed image is
      read back, an accepted program has disjoint segments and well-formed
      requests.  Reading memory in blocks gives the memory; the verified
      write does not write, so that a BCU 1 download never completes.
    - Stacks: adding a filter is an insertion, removing one a deletion, every frame
      passes all filters in order; a link that is set up has the filters of
      its section in their order and those its driver insists on, each set up
      once.  A router that is set up has at least two links and no unknown
      argument, and with drivers that answer at once it comes up and stops.
    - Command line: for plain arguments the only undefined behaviour is that of two
      options without what they need, and otherwise the daemon reads
      from the file what the command line said ([args_read_back],
      [args_connections]).
    - Servers: whatever happens, each client has an address of its own, the router's
      block is neither lost nor given out twice, a client is destroyed only after it was
      stopped ([clients_served]); a stop gives everything back and a start ends in one of
      two ways with every descriptor accounted for.
    - IPv6: services without an address are read as with IPv4; those with an
      address make the parser leave its vector, and as long as the behaviour is
      defined the server over IPv6 has no connections and answers nobody
      ([server6_undefined_or_silent]).
    - Configuration files: what is written is read back; maps stay in order; looking up
      a value ends unless sections use each other in a circle; long and
      continued lines and the entry [use] do not do what is documented.

    ** Bounds

    Recursion in the source that is not structural is given a bound, with a
    theorem that the bound is enough: [setState] calls itself through the
    driver's callbacks, and three levels suffice for a driver that answers at
    once ([immediate_driver_depth]) and for every driver that keeps to the
    protocol ([protocol_never_aborts]); [trigger_loop] takes the length of the queue, of which each
    round removes a frame ([queue_worked_off]), and a loop beyond its bound is the fault
    [Endless]; [free_channel] takes the number of
    connections, of which each round excludes one ([free_channel_spec]); telling
    all links something takes at most as many rounds as there are links, and one
    ([telling_ends]), and the queue of changed
    links is always worked off ([state_trigger_ends]); [read_loop] of FT1.2 takes
    the number of bytes, of which each round removes one ([ft12_safe]); a busmonitor frame is decoded one
    level deep, as no parsed frame contains another busmonitor frame.

    ** What is not modelled

    The process set-up of knxd.cpp, the search for USB devices and the opening of
    the sockets and devices of drivers are system calls; so is printing.  Tools, client
    libraries and examples are programs of their own. *)

From stdpp Require Export base list numbers strings option.
From stdpp Require Import pretty.

#[export] Set Default Proof Using "Type".

Declare Scope knx_scope.
Delimit Scope knx_scope with knx.
Global Open Scope Z_scope.

(** ** Outcomes of C++ code

    A C++ function of the daemon either returns or runs into one of the
    following faults.  [OutOfRange] is an access outside a [std::vector]
    (undefined behaviour), [AssertFailed] a failed [assert], [LengthError]
    the [std::length_error] of [vector::resize], [Aborted] a call of [abort],
    [Overflow] a signed conversion whose value does not fit, [NullPointer] a
    call through a null pointer, [StackOverflow] calls nested deeper than the
    stack a model was given, [Endless] a loop that has not ended within the number
    of rounds its model allows. *)

Inductive fault :=
| OutOfRange
| AssertFailed
| LengthError
| Aborted
| Overflow
| NullPointer
| StackOverflow
| Endless.

Inductive outcome (A : Type) :=
| Ret (a : A)
| Fault (f : fault).
Arguments Ret {A} a.
Arguments Fault {A} f.

#[export] Instance fault_eq_dec : EqDecision fault.
Proof. solve_decision. Defined.
#[export] Instance outcome_eq_dec `{EqDecision A} : EqDecision (outcome A).
Proof. solve_decision. Defined.

#[export] Instance outcome_ret : MRet outcome := @Ret.
#[export] Instance outcome_bind : MBind outcome :=
  fun A B f m => match m with Ret a => f a | Fault e => Fault e end.
#[export] Instance outcome_fmap : FMap outcome :=
  fun A B f m => match m with Ret a => Ret (f a) | Fault e => Fault e end.

(** [assert (b)]: with assertions enabled, as knxd is built by default. *)
Definition assert_ (b : bool) : outcome unit :=
  if b then Ret tt else Fault AssertFailed.

(** The computation returns. *)
Definition returns {A} (m : outcome A) : Prop := exists a, m = Ret a.

(** The computation returns a value with the property [P]. *)
Definition returns_with {A} (P : A -> Prop) (m : outcome A) : Prop :=
  exists a, m = Ret a /\ P a.

Lemma bind_Ret {A B} (f : A -> outcome B) a : Ret a ≫= f = f a.
Proof. reflexivity. Qed.

Lemma bind_Ret_inv {A B} (m : outcome A) (f : A -> outcome B) b :
  m ≫= f = Ret b -> exists a, m = Ret a /\ f a = Ret b.
Proof. destruct m; simpl; [eauto | discriminate]. Qed.

Lemma bind_assoc {A B C} (m : outcome A) (f : A -> outcome B) (g : B -> outcome C) :
  (m ≫= f) ≫= g = m ≫= (fun a => f a ≫= g).
Proof. by destruct m. Qed.

Lemma returns_with_Ret {A} (P : A -> Prop) a : P a -> returns_with P (Ret a).
Proof. by exists a. Qed.

Lemma returns_with_bind {A B} (P : A -> Prop) (Q : B -> Prop) m (f : A -> outcome B) :
  returns_with P m -> (forall a, P a -> returns_with Q (f a)) -> returns_with Q (m ≫= f).
Proof. intros (a & -> & Ha) Hf. simpl. eauto. Qed.

Lemma returns_with_mono {A} (P Q : A -> Prop) m :
  returns_with P m -> (forall a, P a -> Q a) -> returns_with Q m.
Proof. intros (a & -> & Ha) H. exists a. eauto. Qed.

Lemma returns_with_returns {A} (P : A -> Prop) m : returns_with P m -> returns m.
Proof. intros (a & -> & _). by exists a. Qed.

Lemma assert_true b : b = true -> assert_ b = Ret tt.
Proof. by intros ->. Qed.

(** ** Machine integers

    A [w]-bit unsigned integer is the integer of its value; a conversion to
    [uint8_t], [uint16_t] or [uint32_t] keeps the low bits. *)

Definition u8 (z : Z) : Z := Z.land z 0xff.
Definition u16 (z : Z) : Z := Z.land z 0xffff.
Definition u32 (z : Z) : Z := Z.land z 0xffffffff.

Definition is_u8 (z : Z) : Prop := 0 <= z < 256.
Definition is_u16 (z : Z) : Prop := 0 <= z < 65536.
Definition is_u32 (z : Z) : Prop := 0 <= z < 4294967296.

#[export] Instance is_u8_dec z : Decision (is_u8 z).
Proof. unfold is_u8; apply _. Defined.
#[export] Instance is_u16_dec z : Decision (is_u16 z).
Proof. unfold is_u16; apply _. Defined.
#[export] Instance is_u32_dec z : Decision (is_u32 z).
Proof. unfold is_u32; apply _. Defined.

(** C++ conditions on integers: [if (x & mask)]. *)
Definition nz (z : Z) : bool := negb (z =? 0).

Lemma u8_mod z : u8 z = z mod 256.
Proof. exact (Z.land_ones z 8 ltac:(lia)). Qed.
Lemma u16_mod z : u16 z = z mod 65536.
Proof. exact (Z.land_ones z 16 ltac:(lia)). Qed.
Lemma u32_mod z : u32 z = z mod 4294967296.
Proof. exact (Z.land_ones z 32 ltac:(lia)). Qed.

Lemma u8_small z : is_u8 z -> u8 z = z.
Proof. intros H. rewrite u8_mod. by apply Z.mod_small. Qed.
Lemma u16_small z : is_u16 z -> u16 z = z.
Proof. intros H. rewrite u16_mod. by apply Z.mod_small. Qed.
Lemma u32_small z : is_u32 z -> u32 z = z.
Proof. intros H. rewrite u32_mod. by apply Z.mod_small. Qed.

Lemma u8_bound z : is_u8 (u8 z).
Proof. rewrite u8_mod. apply Z.mod_pos_bound. lia. Qed.
Lemma u16_bound z : is_u16 (u16 z).
Proof. rewrite u16_mod. apply Z.mod_pos_bound. lia. Qed.
Lemma u32_bound z : is_u32 (u32 z).
Proof. rewrite u32_mod. apply Z.mod_pos_bound. lia. Qed.

(** A mask with its lowest [k] bits set keeps a [k]-bit value. *)
Lemma land_ones_small k z : 0 <= k -> 0 <= z < 2 ^ k -> Z.land z (Z.ones k) = z.
Proof. intros. rewrite Z.land_ones by lia. by apply Z.mod_small. Qed.

Lemma land_bound_r a m : 0 <= m -> 0 <= Z.land a m <= m.
Proof.
  intros Hm. split; [apply Z.land_nonneg; lia|].
  pose proof (Z.sub_nocarry_ldiff m (Z.land m a)) as Hs.
  rewrite Z.land_comm.
  assert (Z.ldiff (Z.land m a) m = 0) as Hd.
  { apply Z.bits_inj'. intros n Hn.
    rewrite Z.ldiff_spec, Z.land_spec, Z.bits_0.
    by destruct (Z.testbit m n), (Z.testbit a n). }
  specialize (Hs Hd).
  assert (0 <= Z.ldiff m (Z.land m a)) by (apply Z.ldiff_nonneg; lia).
  lia.
Qed.

Lemma shiftr8_bound z n : is_u16 z -> 0 <= n -> 0 <= Z.shiftr z n < 65536.
Proof.
  intros [H0 H1] Hn. rewrite Z.shiftr_div_pow2 by lia.
  pose proof (Z.pow_pos_nonneg 2 n ltac:(lia) Hn).
  split; [apply Z.div_pos; lia|].
  apply Z.le_lt_trans with z; [|lia].
  apply Z.div_le_upper_bound; nia.
Qed.

(** Byte-wise assembly: [(hi << 8) | lo] is [hi * 256 + lo]. *)
Lemma land_shiftl_small a b k : 0 <= k -> 0 <= b < 2 ^ k -> Z.land (a ≪ k) b = 0.
Proof.
  intros Hk Hb. apply Z.bits_inj'. intros n Hn.
  rewrite Z.land_spec, Z.bits_0, Z.shiftl_spec by lia.
  destruct (decide (n < k)); [by rewrite Z.testbit_neg_r by lia|].
  rewrite <-(Z.mod_small b (2 ^ k)) by lia.
  by rewrite Z.mod_pow2_bits_high, andb_false_r by lia.
Qed.

Lemma lor_shiftl_add a b k :
  0 <= k -> 0 <= b < 2 ^ k -> Z.lor (a ≪ k) b = a * 2 ^ k + b.
Proof.
  intros Hk Hb. pose proof (land_shiftl_small a b k Hk Hb) as Hl.
  rewrite <-Z.shiftl_mul_pow2 by lia.
  by rewrite Z.add_nocarry_lxor, Z.lxor_lor.
Qed.

Lemma land_ff z : Z.land z 0xff = u8 z.
Proof. reflexivity. Qed.
Lemma u8_u8 z : u8 (u8 z) = u8 z.
Proof. apply u8_small, u8_bound. Qed.
Lemma u16_u16 z : u16 (u16 z) = u16 z.
Proof. apply u16_small, u16_bound. Qed.
Lemma u32_u32 z : u32 (u32 z) = u32 z.
Proof. apply u32_small, u32_bound. Qed.

Lemma u8_shiftr z k : 0 <= k -> u8 (z ≫ k) = (z / 2 ^ k) mod 256.
Proof. intros. by rewrite u8_mod, Z.shiftr_div_pow2. Qed.

(** The bytes of a 16-bit and of a 32-bit value, reassembled. *)
Lemma be16_join z : Z.lor (u8 (z ≫ 8) ≪ 8) (u8 z) = u16 z.
Proof.
  rewrite lor_shiftl_add by (lia || apply u8_bound).
  rewrite u8_shiftr, u8_mod, u16_mod by lia.
  change 65536 with (256 * 2 ^ 8). change (2 ^ 8) with 256.
  rewrite Z.rem_mul_r by lia. lia.
Qed.

Lemma be32_join z :
  Z.lor (Z.lor (Z.lor (u8 (z ≫ 24) ≪ 24) (u8 (z ≫ 16) ≪ 16)) (u8 (z ≫ 8) ≪ 8)) (u8 z)
  = u32 z.
Proof.
  rewrite <-!Z.lor_assoc, be16_join.
  pose proof (u16_bound z) as Hz. unfold is_u16 in Hz.
  rewrite (lor_shiftl_add (u8 (z ≫ 16))) by lia.
  rewrite lor_shiftl_add by (pose proof (u8_bound (z ≫ 16)) as []; lia).
  rewrite !u8_shiftr, u16_mod, u32_mod by lia.
  change (2 ^ 16) with 65536. change (2 ^ 24) with (65536 * 256).
  rewrite <-Z.div_div by lia.
  change 4294967296 with (65536 * (256 * 256)).
  rewrite !Z.rem_mul_r by lia. lia.
Qed.

(** The other direction: the bytes of an assembled value. *)
Lemma be16_hi a b : is_u8 a -> is_u8 b -> u8 (Z.lor (a ≪ 8) b ≫ 8) = a.
Proof.
  unfold is_u8. intros Ha Hb. rewrite lor_shiftl_add, u8_shiftr by lia.
  change (2 ^ 8) with 256.
  rewrite Z.div_add_l, (Z.div_small b), Z.add_0_r by lia. by apply Z.mod_small.
Qed.

Lemma be16_lo a b : is_u8 a -> is_u8 b -> u8 (Z.lor (a ≪ 8) b) = b.
Proof.
  unfold is_u8. intros Ha Hb. rewrite lor_shiftl_add, u8_mod by lia.
  change (2 ^ 8) with 256. rewrite Z.add_comm, Z.mod_add by lia. by apply Z.mod_small.
Qed.

Lemma be16_bound a b : is_u8 a -> is_u8 b -> is_u16 (Z.lor (a ≪ 8) b).
Proof. unfold is_u8, is_u16. intros. rewrite lor_shiftl_add by lia. lia. Qed.

(** ** Facts about bytes by exhaustion

    A boolean property of a byte holds of every byte if it evaluates to [true]
    on all 256 of them; likewise for a value below any bound. *)
Definition below (n : Z) : list Z := seqZ 0 n.

Lemma below_forall (n : Z) (P : Z -> bool) :
  forallb P (below n) = true -> forall z, 0 <= z < n -> P z = true.
Proof.
  intros H z Hz. rewrite forallb_forall in H. apply H.
  apply list_elem_of_In, elem_of_seqZ. lia.
Qed.

Lemma byte_forall (P : Z -> Prop) `{!forall z, Decision (P z)} z :
  forallb (fun z => bool_decide (P z)) (below 256) = true -> is_u8 z -> P z.
Proof. intros Ha Hz. exact (bool_decide_eq_true_1 _ (below_forall 256 _ Ha z Hz)). Qed.

(** [by_bytes z] proves a decidable goal about the byte [z], hypotheses on it
    reverted, by evaluating it on all bytes. *)
Ltac by_bytes z :=
  pattern z;
  match goal with |- ?P _ => refine (byte_forall P z _ _) end;
  [vm_compute; reflexivity | assumption].

(** The same for two bounded values. *)
Lemma below2_forall (m n : Z) (P : Z -> Z -> Prop) `{!forall a b, Decision (P a b)} a b :
  forallb (fun a => forallb (fun b => bool_decide (P a b)) (below n)) (below m) = true ->
  0 <= a < m -> 0 <= b < n -> P a b.
Proof.
  intros Hall Ha Hb.
  pose proof (below_forall m (fun a => forallb (fun b => bool_decide (P a b)) (below n)) Hall a Ha)
    as H'. exact (bool_decide_eq_true_1 _ (below_forall n _ H' b Hb)).
Qed.

Ltac by_below2 m n a b :=
  pattern a, b;
  match goal with |- ?P _ _ => refine (below2_forall m n P a b _ _ _) end;
  [vm_compute; reflexivity | assumption || lia | assumption || lia].

(** [decided] proves a concrete instance of a decidable proposition. *)
Ltac decided :=
  match goal with |- ?P => refine (bool_decide_unpack P _) end; vm_compute; exact I.

(** [by_below n z] proves an equation about the one variable byte [z]. *)
Ltac by_below n z :=
  match goal with
  | H : 0 <= z < _ |- _ => revert z H
  | H : is_u8 z |- _ => unfold is_u8 in H; revert z H
  end;
  let z' := fresh in let H' := fresh in
  intros z' H';
  apply Z.eqb_eq; revert z' H';
  apply (below_forall n); vm_compute; reflexivity.

(** A two-bit tag above a six-bit field. *)
Definition tags : list Z := [0x00; 0x40; 0x80; 0xC0].

Lemma tag_field t d :
  t ∈ tags -> 0 <= d < 64 ->
  is_u8 (Z.lor t d) /\ Z.land (Z.lor t d) 0xC0 = t /\ Z.land (Z.lor t d) 0x3f = d.
Proof.
  intros Ht Hd.
  pose (f t d := bool_decide (is_u8 (Z.lor t d) /\ Z.land (Z.lor t d) 0xC0 = t /\
                              Z.land (Z.lor t d) 0x3f = d)).
  assert (forallb (fun t => forallb (f t) (below 64)) tags = true) as H by (vm_compute; reflexivity).
  rewrite forallb_forall in H. apply list_elem_of_In, H in Ht.
  apply (below_forall 64 (f t) Ht d), bool_decide_eq_true in Hd. exact Hd.
Qed.

(** Two nibbles in a byte. *)
Lemma nibbles h l :
  0 <= h < 16 -> 0 <= l < 16 ->
  is_u8 (Z.lor (h ≪ 4) l) /\ Z.land (Z.lor (h ≪ 4) l ≫ 4) 0x0f = h /\
  Z.land (Z.lor (h ≪ 4) l) 0x0f = l.
Proof.
  intros Hh Hl.
  pose (f h l := bool_decide (is_u8 (Z.lor (h ≪ 4) l) /\
     Z.land (Z.lor (h ≪ 4) l ≫ 4) 0x0f = h /\ Z.land (Z.lor (h ≪ 4) l) 0x0f = l)).
  assert (forallb (fun h => forallb (f h) (below 16)) (below 16) = true) as H
    by (vm_compute; reflexivity).
  apply (below_forall 16 (fun h => forallb (f h) (below 16)) H) in Hh.
  apply (below_forall 16 (f h) Hh l), bool_decide_eq_true in Hl. exact Hl.
Qed.

(** ** Lists *)

Lemma take_drop_3 {A} (l : list A) i j :
  l = take i l ++ take j (drop i l) ++ drop (i + j) l.
Proof. by rewrite <-drop_drop, take_drop, take_drop. Qed.
