(* ===== verification/CArray.v ===== *)
(** * Byte vectors

    Models [class CArray] of src/src/common/types.h, the byte vector every
    packet of the daemon is kept in.  A vector is the list of its bytes; an
    access outside it is the fault [OutOfRange].  The pointer arguments of the
    C++ methods are a vector and an offset into it. *)

From S2P Require Import Prelude.

Abbreviation CArray := (list Z).

(** Every element is a [uint8_t]. *)
Definition bytes (c : CArray) : Prop := Forall is_u8 c.

#[export] Instance bytes_dec c : Decision (bytes c).
Proof. unfold bytes; apply _. Defined.

Definition size (c : CArray) : nat := length c.

(** [std::vector::resize]: new elements are zero. *)
Definition resize (c : CArray) (n : nat) : CArray :=
  take n c ++ replicate (n - size c) 0.

(** [c[i]] as a value. *)
Definition at_ (c : CArray) (i : nat) : outcome Z :=
  match c !! i with
  | Some b => Ret b
  | None => Fault OutOfRange
  end.

(** [c[i] = v]: the value is converted to [uint8_t]. *)
Fixpoint put (c : CArray) (i : nat) (v : Z) : outcome CArray :=
  match c, i with
  | [], _ => Fault OutOfRange
  | _ :: c, O => Ret (u8 v :: c)
  | x :: c, S i => c' ← put c i v; Ret (x :: c')
  end.

(** [CArray (p + off, cnt)] and [set (p + off, cnt)]: copy [cnt] bytes that
    start at [off]. *)
Definition slice (c : CArray) (off cnt : nat) : outcome CArray :=
  if decide (off + cnt <= size c)%nat then Ret (take cnt (drop off c)) else Fault OutOfRange.

(** [setpart (elem, start, cnt)]: write the first [cnt] bytes of [elem] at
    [start], growing the vector to fit. *)
Definition setpart (c elem : CArray) (start cnt : nat) : outcome CArray :=
  let c := if decide (size c < cnt + start)%nat then resize c (cnt + start) else c in
  if decide (cnt <= size elem)%nat
  then Ret (take start c ++ take cnt elem ++ drop (start + cnt) c)
  else Fault OutOfRange.

(** [setpart (a, start)] *)
Definition setpart_all (c a : CArray) (start : nat) : outcome CArray :=
  setpart c a start (size a).

(** [operator+=] *)
Definition append (c a : CArray) : CArray := c ++ a.

(** [deletepart (start, cnt)] *)
Definition deletepart (c : CArray) (start cnt : nat) : CArray :=
  if decide (size c <= start)%nat then c
  else
    let cnt := if decide (size c <= start + cnt)%nat then (size c - start)%nat else cnt in
    if decide (cnt = 0%nat) then c else take start c ++ drop (start + cnt) c.

(** [add (elem)] *)
Definition add (c : CArray) (elem : Z) : CArray := c ++ [u8 elem].

(** The helpers [_sub] and [_min] on [unsigned int], and the two copying
    constructors that use them.  They size the new vector by
    [_sub (pos, str.size())], the distance of [pos] beyond the end. *)
Definition sub_ (a b : nat) : nat := if decide (b < a)%nat then (a - b)%nat else 0%nat.
Definition min_ (a b : nat) : nat := if decide (a < b)%nat then a else b.

Definition CArray_from (str : CArray) (pos : nat) : outcome CArray :=
  slice str pos (sub_ pos (size str)).

Definition CArray_part (str : CArray) (pos n : nat) : outcome CArray :=
  slice str pos (min_ n (sub_ pos (size str))).

(** ** Bytes *)

Lemma bytes_app c d : bytes (c ++ d) <-> bytes c /\ bytes d.
Proof. apply Forall_app. Qed.
Lemma bytes_cons b c : bytes (b :: c) <-> is_u8 b /\ bytes c.
Proof. apply Forall_cons_iff. Qed.
Lemma bytes_nil : bytes [].
Proof. constructor. Qed.
Lemma bytes_take n c : bytes c -> bytes (take n c).
Proof. apply Forall_take. Qed.
Lemma bytes_drop n c : bytes c -> bytes (drop n c).
Proof. apply Forall_drop. Qed.
Lemma bytes_replicate n : bytes (replicate n 0).
Proof. apply Forall_replicate. unfold is_u8; lia. Qed.
Lemma bytes_resize c n : bytes c -> bytes (resize c n).
Proof. intros. apply bytes_app; split; [by apply bytes_take | apply bytes_replicate]. Qed.

Create HintDb carray.
#[export] Hint Resolve bytes_nil bytes_take bytes_drop bytes_replicate bytes_resize
  u8_bound u16_bound u32_bound : carray.

Lemma bytes_lookup c i b : bytes c -> c !! i = Some b -> is_u8 b.
Proof. intros H. by apply Forall_lookup_1. Qed.

(** ** Access *)

Lemma at_lt c i : (i < size c)%nat -> exists b, at_ c i = Ret b /\ c !! i = Some b.
Proof.
  intros Hi. unfold at_. destruct (c !! i) as [b|] eqn:E; [by eauto|].
  apply lookup_ge_None in E. unfold size in Hi. lia.
Qed.

Lemma at_lookup (c : CArray) (i : nat) (b : Z) : c !! i = Some b -> at_ c i = Ret b.
Proof. intros H. unfold at_. by rewrite H. Qed.

Lemma at_byte c i : bytes c -> (i < size c)%nat -> returns_with is_u8 (at_ c i).
Proof.
  intros Hc Hi. destruct (at_lt c i Hi) as (b & -> & Hb).
  apply returns_with_Ret. by eapply bytes_lookup.
Qed.

Lemma slice_ok c off cnt :
  (off + cnt <= size c)%nat -> slice c off cnt = Ret (take cnt (drop off c)).
Proof. intros H. unfold slice. by rewrite decide_True. Qed.

Lemma slice_bytes c off cnt :
  bytes c -> (off + cnt <= size c)%nat -> returns_with bytes (slice c off cnt).
Proof.
  intros Hc H. rewrite slice_ok by done. apply returns_with_Ret. auto with carray.
Qed.

Lemma put_insert c i v : (i < size c)%nat -> put c i v = Ret (<[i := u8 v]> c).
Proof.
  revert i. induction c as [|x c IH]; intros [|i] Hi; simpl in *; try (unfold size in Hi; simpl in Hi; lia).
  - done.
  - rewrite IH; [done|]. unfold size in *. simpl in Hi. lia.
Qed.

Lemma put_out_of_range c i v : (size c <= i)%nat -> put c i v = Fault OutOfRange.
Proof.
  revert i. induction c as [|x c IH]; intros [|i] Hi; simpl in *; try done.
  - unfold size in Hi. simpl in Hi. lia.
  - rewrite IH; [done|]. unfold size in *. simpl in Hi. lia.
Qed.

(** ** Writing a part *)

Lemma setpart_cons x c elem start cnt :
  setpart (x :: c) elem (S start) cnt = (c' ← setpart c elem start cnt; Ret (x :: c')).
Proof.
  unfold setpart, size. simpl.
  destruct (decide (cnt <= length elem)%nat) as [He|He]; [|done]. simpl.
  destruct (decide (length c < cnt + start)%nat) as [H1|H1],
    (decide (S (length c) < cnt + S start)%nat) as [H2|H2]; try lia; [|done].
  unfold resize, size. by rewrite <-Nat.add_succ_comm.
Qed.

Lemma setpart_over c d n :
  n = size d -> (n <= size c)%nat -> setpart c d 0 n = Ret (d ++ drop n c).
Proof.
  intros -> Hc. unfold setpart, size in *.
  destruct (decide (length c < length d + 0)%nat); [lia|].
  rewrite decide_True by done. simpl. by rewrite firstn_all.
Qed.

Lemma setpart_exact d n : n = size d -> setpart (replicate n 0) d 0 n = Ret d.
Proof.
  intros H. rewrite setpart_over by (unfold size in *; rewrite ?length_replicate; lia).
  by rewrite drop_ge, app_nil_r by (rewrite length_replicate; lia).
Qed.

Lemma resize_nil n : resize [] n = replicate n 0.
Proof. unfold resize, size. by rewrite take_nil, Nat.sub_0_r. Qed.

Lemma setpart_grow d n : n = size d -> setpart [] d 0 n = Ret d.
Proof.
  intros ->. unfold setpart, size. simpl length. rewrite Nat.add_0_r.
  rewrite (decide_True (P := (length d <= length d)%nat)) by done.
  rewrite firstn_all, take_0, Nat.add_0_l.
  destruct (decide _); rewrite ?resize_nil, drop_ge, app_nil_r;
    rewrite ?length_replicate; simpl; done || lia.
Qed.

(** Writing behind a known front part. *)
Lemma setpart_app hd c d n :
  setpart (hd ++ c) d (size hd) n = (c' ← setpart c d 0 n; Ret (hd ++ c')).
Proof.
  induction hd as [|h hd IH]; simpl; [by destruct (setpart c d 0 n)|].
  rewrite setpart_cons, IH. by destruct (setpart c d 0 n).
Qed.

(** Two parts of equal length, one behind the other. *)
Lemma setpart_first am n :
  size am = n -> setpart (replicate (n + n) 0) am 0 n = Ret (am ++ replicate n 0).
Proof.
  intros Ha. rewrite setpart_over by (unfold size in *; rewrite ?length_replicate; lia).
  rewrite drop_replicate. do 3 f_equal. lia.
Qed.

Lemma setpart_second am xm n :
  size am = n -> size xm = n -> setpart (am ++ replicate n 0) xm n n = Ret (am ++ xm).
Proof.
  intros Ha Hx. rewrite <-Ha at 2. by rewrite setpart_app, setpart_exact.
Qed.

(** Appending. *)
Lemma setpart_end (a c : CArray) : setpart a c (size a) (size c) = Ret (a ++ c).
Proof.
  unfold setpart, size. rewrite (decide_True (P := (length c <= length c)%nat)) by lia.
  rewrite firstn_all. destruct (decide _) as [H|H].
  - unfold resize, size. rewrite !(take_ge a) by lia.
    rewrite take_app_length, drop_ge, app_nil_r by (rewrite length_app, length_replicate; lia). done.
  - destruct c; simpl in *; [|lia]. by rewrite take_ge, drop_ge by lia.
Qed.

(** Writing between known parts. *)
Lemma setpart_mid hd c d tl m n :
  m = size hd -> n = size d -> size c = size d ->
  setpart (hd ++ c ++ tl) d m n = Ret (hd ++ d ++ tl).
Proof.
  intros -> -> Hc. rewrite setpart_app.
  rewrite setpart_over by (unfold size in *; rewrite ?length_app; lia).
  unfold size in *. by rewrite drop_app_le, drop_ge, app_nil_l by lia.
Qed.

Lemma put_mid hd x tl v m : m = size hd -> put (hd ++ x :: tl) m v = Ret (hd ++ u8 v :: tl).
Proof.
  intros ->. induction hd as [|h hd IH]; [done|]. simpl. by rewrite IH.
Qed.

(** Reading between known parts. *)
Lemma slice_mid hd c tl m n : m = size hd -> n = size c -> slice (hd ++ c ++ tl) m n = Ret c.
Proof.
  intros -> ->. rewrite slice_ok by (unfold size; rewrite !length_app; lia).
  unfold size. by rewrite drop_app_length, take_app_length.
Qed.

Lemma at_mid hd x tl m : m = size hd -> at_ (hd ++ x :: tl) m = Ret x.
Proof. intros ->. unfold at_, size. by rewrite list_lookup_middle. Qed.

(** ** The two constructors that measure from the wrong side

    For every position inside the vector they return the empty vector,
    whatever length was asked for. *)
Lemma CArray_part_inside_empty str pos n :
  (pos <= size str)%nat -> CArray_part str pos n = Ret [].
Proof.
  intros H. unfold CArray_part, sub_, min_.
  rewrite (decide_False (P := (size str < pos)%nat)) by lia.
  destruct (decide (n < 0)%nat); [lia|].
  rewrite slice_ok by lia. done.
Qed.

(** ... and beyond the end they read outside the source. *)
Lemma CArray_from_beyond str pos :
  (size str < pos)%nat -> CArray_from str pos = Fault OutOfRange.
Proof.
  intros H. unfold CArray_from, sub_, slice.
  rewrite (decide_True (P := (size str < pos)%nat)) by done.
  by rewrite decide_False by lia.
Qed.

(** ** [deletepart] never faults and removes exactly the bytes in range. *)
Lemma deletepart_spec c start cnt :
  deletepart c start cnt = take start c ++ drop (start + cnt) c.
Proof.
  unfold deletepart, size. destruct (decide (length c <= start)%nat) as [H|H].
  { rewrite take_ge, drop_ge, app_nil_r by lia. done. }
  destruct (decide (length c <= start + cnt)%nat) as [H'|H'].
  - rewrite decide_False by lia. by rewrite !drop_ge by lia.
  - destruct (decide (cnt = 0%nat)) as [->|]; [|done].
    by rewrite Nat.add_0_r, take_drop.
Qed.

(** ** Automation

    [cstep] runs the straight-line code that fills a freshly resized vector:
    constant indices are computed, the part that is copied in last is found by
    [setpart_cons] and [setpart_exact]. *)
Ltac cstep :=
  repeat first
    [ progress cbn [put at_ mbind outcome_bind mret outcome_ret lookup list_lookup
                    replicate Nat.add app take drop]
    | rewrite resize_nil
    | rewrite setpart_cons
    | rewrite setpart_exact by reflexivity
    | rewrite setpart_grow by reflexivity
    | rewrite setpart_first by lia
    | rewrite setpart_second by lia
    | rewrite setpart_over by (reflexivity || (unfold size; simpl; lia)) ].

(** Split a vector of at least [n] bytes into its first bytes and the rest. *)
Ltac peel c n :=
  match n with
  | O => idtac
  | S ?m =>
      let b := fresh "b" in
      destruct c as [|b c]; [exfalso; unfold size in *; simpl in *; lia|];
      peel c m
  end.
