(* ===== verification/Common.v ===== *)
(** * Shared types and text formatting

    Models src/src/libserver/common.h (priorities, address types) and
    src/src/libserver/common.cpp ([FormatEIBAddr], [FormatGroupAddr],
    [FormatDomainAddr], [FormatEIBKey], [addHex], [add16Hex]), and the parsing
    of device addresses and address blocks by [Router::readaddr] and
    [Router::readaddrblock] in src/src/libserver/router.cpp.  The C library
    functions they call, [sprintf] and [sscanf], are modelled for the
    conversions that occur ([%d], [%02X], [%04X], [%08X]). *)

From S2P Require Import Prelude CArray.
From stdpp Require Import pretty.
From Stdlib Require Import Ascii.

Local Open Scope string_scope.
Local Open Scope Z_scope.

Inductive EIB_Priority := PRIO_LOW | PRIO_NORMAL | PRIO_URGENT | PRIO_SYSTEM.

Inductive EIB_AddrType := GroupAddress | IndividualAddress.

#[export] Instance EIB_Priority_eq_dec : EqDecision EIB_Priority.
Proof. solve_decision. Defined.
#[export] Instance EIB_AddrType_eq_dec : EqDecision EIB_AddrType.
Proof. solve_decision. Defined.

Definition isGroup (a : EIB_AddrType) : bool :=
  match a with GroupAddress => true | IndividualAddress => false end.
Definition isIndividual (a : EIB_AddrType) : bool := negb (isGroup a).

(** ** [sprintf] *)

Definition hexdigit (d : Z) : ascii :=
  if decide (d < 10) then ascii_of_nat (48 + Z.to_nat d) else ascii_of_nat (55 + Z.to_nat d).

(** [%0nX] of an unsigned value of at most [n] hexadecimal digits. *)
Fixpoint hexX (n : nat) (z : Z) : string :=
  match n with
  | O => ""
  | S n => hexX n (z ≫ 4) +:+ String (hexdigit (Z.land z 0xf)) ""
  end.

(** [%d] *)
Definition dec (z : Z) : string := pretty z.

Definition FormatEIBAddr (addr : Z) : string :=
  dec (Z.land (addr ≫ 12) 0xf) +:+ "." +:+ dec (Z.land (addr ≫ 8) 0xf) +:+ "." +:+
  dec (Z.land addr 0xff).

Definition FormatGroupAddr (addr : Z) : string :=
  dec (Z.land (addr ≫ 11) 0x1f) +:+ "/" +:+ dec (Z.land (addr ≫ 8) 0x7) +:+ "/" +:+
  dec (Z.land addr 0xff).

Definition FormatDomainAddr (addr : Z) : string := hexX 4 addr.

Definition FormatEIBKey (key : Z) : string := hexX 8 key.

(** The byte argument converts its actual parameter to [uchar]. *)
Definition addHex (s : string) (c : Z) : string := s +:+ hexX 2 (u8 c) +:+ " ".

Definition add16Hex (s : string) (c : Z) : string := s +:+ hexX 4 (u16 c) +:+ " ".

(** [ITER (i, pdu) addHex (s, *i)] *)
Definition addHexAll (s : string) (c : CArray) : string := fold_left addHex c s.

(** ** [sscanf] *)

Definition is_space (c : ascii) : bool :=
  let n := nat_of_ascii c in (n =? 32)%nat || ((9 <=? n)%nat && (n <=? 13)%nat).

Definition digit_of (c : ascii) : option Z :=
  let n := nat_of_ascii c in
  if (48 <=? n)%nat && (n <=? 57)%nat then Some (Z.of_nat (n - 48)) else None.

Fixpoint skip_space (s : string) : string :=
  match s with
  | String c s' => if is_space c then skip_space s' else s
  | EmptyString => s
  end.

(** The longest run of digits, with its value added to [acc]. *)
Fixpoint scan_digits (acc : Z) (s : string) : Z * string :=
  match s with
  | String c s' =>
      match digit_of c with
      | Some d => scan_digits (acc * 10 + d) s'
      | None => (acc, s)
      end
  | EmptyString => (acc, s)
  end.

(** A decimal number: at least one digit. *)
Definition scan_nat (s : string) : option (Z * string) :=
  match s with
  | String c _ =>
      match digit_of c with
      | Some _ => Some (scan_digits 0 s)
      | None => None
      end
  | EmptyString => None
  end.

(** [%d]: white space, an optional sign and a number.  A number that does not
    fit into an [int] is undefined behaviour. *)
Definition scan_int (s : string) : outcome (option (Z * string)) :=
  let '(sign, s') :=
    match skip_space s with
    | String c s' =>
        if decide (c = "-"%char) then (-1, s')
        else if decide (c = "+"%char) then (1, s')
        else (1, String c s')
    | EmptyString => (1, EmptyString)
    end in
  match scan_nat s' with
  | None => Ret None
  | Some (n, r) =>
      let v := sign * n in
      if decide (- 2147483648 <= v <= 2147483647) then Ret (Some (v, r)) else Fault Overflow
  end.

(** A literal character of the format. *)
Definition scan_char (c : ascii) (s : string) : option string :=
  match s with
  | String c' s' => if decide (c = c') then Some s' else None
  | EmptyString => None
  end.

(** [sscanf (s, "%d" c1 "%d" c2 "%d" ...)]: the numbers that were converted
    before the first mismatch. *)
Fixpoint sscanf_ints (seps : list ascii) (s : string) : outcome (list Z) :=
  r ← scan_int s;
  match r with
  | None => Ret []
  | Some (v, s') =>
      match seps with
      | [] => Ret [v]
      | c :: seps' =>
          match scan_char c s' with
          | None => Ret [v]
          | Some s'' => vs ← sscanf_ints seps' s''; Ret (v :: vs)
          end
      end
  end.

(** [Router::readaddr]: [None] is the error return. *)
Definition readaddr (addr : string) : outcome (option Z) :=
  vs ← sscanf_ints ["."%char; "."%char] addr;
  match vs with
  | [a; b; c] =>
      Ret (Some (u16 (Z.lor (Z.lor (Z.land a 0x0f ≪ 12) (Z.land b 0x0f ≪ 8)) (Z.land c 0xff))))
  | _ => Ret None
  end.

(** [Router::readaddrblock] *)
Definition readaddrblock (addr : string) : outcome (option (Z * Z)) :=
  vs ← sscanf_ints ["."%char; "."%char; ":"%char] addr;
  match vs with
  | [a; b; c; len] =>
      Ret (Some (u16 (Z.lor (Z.lor (Z.land a 0x0f ≪ 12) (Z.land b 0x0f ≪ 8)) (Z.land c 0xff)), len))
  | _ => Ret None
  end.

Example format_1_2_3 : FormatEIBAddr 0x1203 = "1.2.3".
Proof. reflexivity. Qed.
Example format_group : FormatGroupAddr 0x0a03 = "1/2/3".
Proof. reflexivity. Qed.
Example readaddr_ex : readaddr "1.2.3" = Ret (Some 0x1203).
Proof. reflexivity. Qed.
Example addHex_ex : addHex "x " 0xA5 = "x A5 ".
Proof. reflexivity. Qed.

(** ** Printing and scanning a device address *)

Definition no_digit (r : string) : Prop :=
  match r with String c _ => digit_of c = None | EmptyString => True end.

Lemma scan_digits_app s r acc v :
  scan_digits acc s = (v, "") -> no_digit r -> scan_digits acc (s +:+ r) = (v, r).
Proof.
  revert acc. induction s as [|c s IH]; intros acc Hs Hr.
  - simpl in Hs. injection Hs as ->. destruct r as [|c r]; simpl in *; [done|]. by rewrite Hr.
  - simpl in *. destruct (digit_of c); [by apply IH | discriminate].
Qed.

Lemma digit_not_special c d :
  digit_of c = Some d -> is_space c = false /\ c <> "-"%char /\ c <> "+"%char.
Proof. destruct c as [[][][][][][][][]]; vm_compute; intros; repeat split; congruence. Qed.

Definition scans_as (s : string) (v : Z) : bool :=
  match s with
  | String c _ => bool_decide (digit_of c <> None)
  | EmptyString => false
  end && bool_decide (scan_digits 0 s = (v, "")).

Lemma scan_int_printed s v r :
  scans_as s v = true -> - 2147483648 <= v <= 2147483647 -> no_digit r ->
  scan_int (s +:+ r) = Ret (Some (v, r)).
Proof.
  unfold scans_as. intros [Hc Hs]%andb_true_iff Hv Hr.
  destruct s as [|c s]; [done|].
  apply bool_decide_eq_true in Hc, Hs. destruct (digit_of c) as [d|] eqn:Hd; [|done].
  destruct (digit_not_special c d Hd) as (H1 & H2 & H3).
  pose proof (scan_digits_app _ r 0 v Hs Hr) as Happ. simpl in Happ. rewrite Hd in Happ.
  unfold scan_int. simpl. rewrite H1, decide_False, decide_False by done.
  unfold scan_nat. rewrite Hd. simpl. rewrite Hd, Happ, Z.mul_1_l.
  by rewrite decide_True by done.
Qed.

Lemma dec_scans n : is_u8 n -> scans_as (dec n) n = true.
Proof.
  unfold is_u8. revert n. apply (below_forall 256). vm_compute. reflexivity.
Qed.

Lemma scan_int_dec n r : is_u8 n -> no_digit r -> scan_int (dec n +:+ r) = Ret (Some (n, r)).
Proof.
  intros Hn Hr. apply scan_int_printed; [by apply dec_scans | unfold is_u8 in Hn; lia | done].
Qed.

Lemma string_app_assoc (a b c : string) : (a +:+ b) +:+ c = a +:+ (b +:+ c).
Proof. induction a as [|x a IH]; [done|]. exact (f_equal (String x) IH). Qed.

Lemma string_app_nil (a : string) : a +:+ "" = a.
Proof. induction a as [|x a IH]; [done|]. exact (f_equal (String x) IH). Qed.

Lemma scan_char_head c s : scan_char c (String c "" +:+ s) = Some s.
Proof. simpl. by rewrite decide_True. Qed.

Lemma nibble_u8 z : is_u8 (Z.land z 0xf).
Proof. pose proof (land_bound_r z 0xf ltac:(lia)). unfold is_u8. lia. Qed.

(** The three fields of an address, put together again. *)
Lemma addr_fields a :
  is_u16 a ->
  u16 (Z.lor (Z.lor (Z.land (Z.land (a ≫ 12) 0xf) 0x0f ≪ 12)
                    (Z.land (Z.land (a ≫ 8) 0xf) 0x0f ≪ 8)) (Z.land (Z.land a 0xff) 0xff)) = a.
Proof.
  intros Ha.
  rewrite <-!Z.land_assoc, !Z.land_diag, !land_ff.
  change 0xf with (Z.ones 4). rewrite !Z.land_ones by lia.
  rewrite !Z.shiftr_div_pow2, <-Z.lor_assoc by lia.
  pose proof (u8_bound a) as Hu. unfold is_u8, is_u16 in *.
  change (2 ^ 4) with 16. change (2 ^ 12) with 4096. change (2 ^ 8) with 256.
  pose proof (Z.mod_pos_bound (a / 256) 16 ltac:(lia)).
  rewrite (lor_shiftl_add (a / 256 mod 16)) by lia.
  rewrite lor_shiftl_add by lia.
  rewrite u8_mod. change (2 ^ 12) with 4096. change (2 ^ 8) with 256.
  rewrite u16_small; [|unfold is_u16]; Z.div_mod_to_equations; lia.
Qed.

(** Scanning a printed address, with whatever follows it. *)
Lemma sscanf_printed a seps r :
  no_digit r ->
  sscanf_ints ("."%char :: "."%char :: seps) (FormatEIBAddr a +:+ r) =
  (rest ← match seps with
          | [] => Ret []
          | c :: seps' => match scan_char c r with
                          | None => Ret []
                          | Some s'' => sscanf_ints seps' s''
                          end
          end;
   Ret (Z.land (a ≫ 12) 0xf :: Z.land (a ≫ 8) 0xf :: Z.land a 0xff :: rest)).
Proof.
  intros Hr. unfold FormatEIBAddr. rewrite !string_app_assoc.
  do 2 (unfold sscanf_ints at 1; fold sscanf_ints;
        rewrite scan_int_dec, bind_Ret, scan_char_head by (apply nibble_u8 || done)).
  destruct seps as [|c seps]; unfold sscanf_ints at 1; fold sscanf_ints;
    rewrite scan_int_dec, bind_Ret by (apply u8_bound || done); [done|].
  destruct (scan_char c r) as [s|]; [|done]. by destruct (sscanf_ints seps s).
Qed.

(** Printing a device address with [FormatEIBAddr] and reading it back with
    [Router::readaddr] gives the same address, for every 16-bit address. *)
Theorem readaddr_FormatEIBAddr a : is_u16 a -> readaddr (FormatEIBAddr a) = Ret (Some a).
Proof.
  intros Ha. unfold readaddr.
  rewrite <-(string_app_nil (FormatEIBAddr a)), sscanf_printed by done. simpl.
  by rewrite addr_fields.
Qed.

Lemma readaddr_FormatEIBAddr_witness : readaddr (FormatEIBAddr 0x11ff) = Ret (Some 0x11ff).
Proof. apply (readaddr_FormatEIBAddr 0x11ff). unfold is_u16. lia. Defined.

(** The same for an address block [X.Y.Z:N]. *)
Lemma readaddrblock_printed a n :
  is_u16 a -> is_u8 n ->
  readaddrblock (FormatEIBAddr a +:+ ":" +:+ dec n) = Ret (Some (a, n)).
Proof.
  intros Ha Hn. unfold readaddrblock. rewrite sscanf_printed by done.
  rewrite scan_char_head. unfold sscanf_ints.
  rewrite <-(string_app_nil (dec n)), scan_int_dec by done. simpl.
  by rewrite addr_fields.
Qed.

(** [readaddr] masks its fields instead of rejecting them: whatever is read is
    a 16-bit address. *)
Lemma readaddr_range s a : readaddr s = Ret (Some a) -> is_u16 a.
Proof.
  unfold readaddr. intros (vs & _ & H)%bind_Ret_inv.
  destruct vs as [|? [|? [|? [|]]]]; try discriminate.
  injection H as <-. apply u16_bound.
Qed.
