(* ===== verification/Apdu.v ===== *)
(** * Application layer packets

    Models src/src/libserver/apdu.h and src/src/libserver/apdu.cpp: the class
    hierarchy below [APDU] as one inductive type with a constructor per class,
    and for each class [init] (parse), [ToPacket] (encode), [Decode] (print) and
    [isResponse].  [init] returns [None] where the C++ returns [false]; the
    object it was called on is thrown away by the caller in that case. *)

From S2P Require Import Prelude CArray Common.

Local Open Scope string_scope.
Local Open Scope Z_scope.

Inductive APDU_type :=
| A_Unknown
| A_GroupValue_Read
| A_GroupValue_Response
| A_GroupValue_Write
| A_IndividualAddress_Read
| A_IndividualAddress_Response
| A_IndividualAddress_Write
| A_IndividualAddressSerialNumber_Read
| A_IndividualAddressSerialNumber_Response
| A_IndividualAddressSerialNumber_Write
| A_ServiceInformation_Indication_Write
| A_DomainAddress_Write
| A_DomainAddress_Read
| A_DomainAddress_Response
| A_DomainAddressSelective_Read
| A_PropertyValue_Read
| A_PropertyValue_Response
| A_PropertyValue_Write
| A_PropertyDescription_Read
| A_PropertyDescription_Response
| A_DeviceDescriptor_Read
| A_DeviceDescriptor_Response
| A_ADC_Read
| A_ADC_Response
| A_Memory_Read
| A_Memory_Response
| A_Memory_Write
| A_MemoryBit_Write
| A_UserMemory_Read
| A_UserMemory_Response
| A_UserMemory_Write
| A_UserMemoryBit_Write
| A_UserManufacturerInfo_Read
| A_UserManufacturerInfo_Response
| A_Restart
| A_Authorize_Request
| A_Authorize_Response
| A_Key_Write
| A_Key_Response.

#[export] Instance APDU_type_eq_dec : EqDecision APDU_type.
Proof. solve_decision. Defined.

Inductive APDU :=
| A_Unknown_PDU (pdu : CArray)
| A_GroupValue_Read_PDU
| A_GroupValue_Response_PDU (issmall : bool) (data : CArray)
| A_GroupValue_Write_PDU (issmall : bool) (data : CArray)
| A_IndividualAddress_Read_PDU
| A_IndividualAddress_Response_PDU
| A_IndividualAddress_Write_PDU (addr : Z)
| A_IndividualAddressSerialNumber_Read_PDU (serno : CArray)
| A_IndividualAddressSerialNumber_Response_PDU (serno : CArray) (addr : Z)
| A_IndividualAddressSerialNumber_Write_PDU (serno : CArray) (addr : Z)
| A_ServiceInformation_Indication_Write_PDU (verify_mode duplicate_address appl_stopped : bool)
| A_DomainAddress_Write_PDU (addr : Z)
| A_DomainAddress_Read_PDU
| A_DomainAddress_Response_PDU (addr : Z)
| A_DomainAddressSelective_Read_PDU (domainaddr addr range : Z)
| A_PropertyValue_Read_PDU (obj prop count start : Z)
| A_PropertyValue_Response_PDU (obj prop count start : Z) (data : CArray)
| A_PropertyValue_Write_PDU (obj prop count start : Z) (data : CArray)
| A_PropertyDescription_Read_PDU (obj prop property_index : Z)
| A_PropertyDescription_Response_PDU (obj prop property_index type count access : Z)
| A_DeviceDescriptor_Read_PDU (type : Z)
| A_DeviceDescriptor_Response_PDU (type descriptor : Z)
| A_ADC_Read_PDU (channel count : Z)
| A_ADC_Response_PDU (channel count val : Z)
| A_Memory_Read_PDU (count addr : Z)
| A_Memory_Response_PDU (count addr : Z) (data : CArray)
| A_Memory_Write_PDU (count addr : Z) (data : CArray)
| A_MemoryBit_Write_PDU (count addr : Z) (andmask xormask : CArray)
| A_UserMemory_Read_PDU (addr_extension count addr : Z)
| A_UserMemory_Response_PDU (addr_extension count addr : Z) (data : CArray)
| A_UserMemory_Write_PDU (addr_extension count addr : Z) (data : CArray)
| A_UserMemoryBit_Write_PDU (addr_extension count addr : Z) (andmask xormask : CArray)
| A_UserManufacturerInfo_Read_PDU
| A_UserManufacturerInfo_Response_PDU (manufacturerid data : Z)
| A_Restart_PDU
| A_Authorize_Request_PDU (key : Z)
| A_Authorize_Response_PDU (level : Z)
| A_Key_Write_PDU (level key : Z)
| A_Key_Response_PDU (level : Z).

#[export] Instance APDU_eq_dec : EqDecision APDU.
Proof. solve_decision. Defined.

Definition getType (a : APDU) : APDU_type :=
  match a with
  | A_Unknown_PDU _ => A_Unknown
  | A_GroupValue_Read_PDU => A_GroupValue_Read
  | A_GroupValue_Response_PDU _ _ => A_GroupValue_Response
  | A_GroupValue_Write_PDU _ _ => A_GroupValue_Write
  | A_IndividualAddress_Read_PDU => A_IndividualAddress_Read
  | A_IndividualAddress_Response_PDU => A_IndividualAddress_Response
  | A_IndividualAddress_Write_PDU _ => A_IndividualAddress_Write
  | A_IndividualAddressSerialNumber_Read_PDU _ => A_IndividualAddressSerialNumber_Read
  | A_IndividualAddressSerialNumber_Response_PDU _ _ => A_IndividualAddressSerialNumber_Response
  | A_IndividualAddressSerialNumber_Write_PDU _ _ => A_IndividualAddressSerialNumber_Write
  | A_ServiceInformation_Indication_Write_PDU _ _ _ => A_ServiceInformation_Indication_Write
  | A_DomainAddress_Write_PDU _ => A_DomainAddress_Write
  | A_DomainAddress_Read_PDU => A_DomainAddress_Read
  | A_DomainAddress_Response_PDU _ => A_DomainAddress_Response
  | A_DomainAddressSelective_Read_PDU _ _ _ => A_DomainAddressSelective_Read
  | A_PropertyValue_Read_PDU _ _ _ _ => A_PropertyValue_Read
  | A_PropertyValue_Response_PDU _ _ _ _ _ => A_PropertyValue_Response
  | A_PropertyValue_Write_PDU _ _ _ _ _ => A_PropertyValue_Write
  | A_PropertyDescription_Read_PDU _ _ _ => A_PropertyDescription_Read
  | A_PropertyDescription_Response_PDU _ _ _ _ _ _ => A_PropertyDescription_Response
  | A_DeviceDescriptor_Read_PDU _ => A_DeviceDescriptor_Read
  | A_DeviceDescriptor_Response_PDU _ _ => A_DeviceDescriptor_Response
  | A_ADC_Read_PDU _ _ => A_ADC_Read
  | A_ADC_Response_PDU _ _ _ => A_ADC_Response
  | A_Memory_Read_PDU _ _ => A_Memory_Read
  | A_Memory_Response_PDU _ _ _ => A_Memory_Response
  | A_Memory_Write_PDU _ _ _ => A_Memory_Write
  | A_MemoryBit_Write_PDU _ _ _ _ => A_MemoryBit_Write
  | A_UserMemory_Read_PDU _ _ _ => A_UserMemory_Read
  | A_UserMemory_Response_PDU _ _ _ _ => A_UserMemory_Response
  | A_UserMemory_Write_PDU _ _ _ _ => A_UserMemory_Write
  | A_UserMemoryBit_Write_PDU _ _ _ _ _ => A_UserMemoryBit_Write
  | A_UserManufacturerInfo_Read_PDU => A_UserManufacturerInfo_Read
  | A_UserManufacturerInfo_Response_PDU _ _ => A_UserManufacturerInfo_Response
  | A_Restart_PDU => A_Restart
  | A_Authorize_Request_PDU _ => A_Authorize_Request
  | A_Authorize_Response_PDU _ => A_Authorize_Response
  | A_Key_Write_PDU _ _ => A_Key_Write
  | A_Key_Response_PDU _ => A_Key_Response
  end.

(** Conversion to [int16_t], the type of an ADC value. *)
Definition s16 (z : Z) : Z :=
  let u := u16 z in if decide (u < 32768) then u else u - 65536.

(** Recurring expressions of the source. *)
Definition be16 (h l : Z) : Z := Z.lor (h ≪ 8) l.
Definition be32 (a b c d : Z) : Z :=
  Z.lor (Z.lor (Z.lor (a ≪ 24) (b ≪ 16)) (c ≪ 8)) d.

(** [if (c.size() != n) return false;] *)
Definition need (c : CArray) (n : nat) (k : outcome (option APDU)) : outcome (option APDU) :=
  if decide (size c = n) then k else Ret None.

(** [if (c.size() < n) return false;] *)
Definition atleast (c : CArray) (n : nat) (k : outcome (option APDU)) : outcome (option APDU) :=
  if decide (size c < n)%nat then Ret None else k.

(** ** Parsing: [init] of each class *)

Definition A_Unknown_init (c : CArray) : APDU := A_Unknown_PDU c.

Definition A_GroupValue_Read_init (c : CArray) : outcome (option APDU) :=
  need c 2 (Ret (Some A_GroupValue_Read_PDU)).

Definition A_GroupValue_Response_init (c : CArray) : outcome (option APDU) :=
  atleast c 2 (
    if decide (size c = 2)%nat
    then c1 ← at_ c 1; Ret (Some (A_GroupValue_Response_PDU true [Z.land c1 0x3f]))
    else data ← slice c 2 (size c - 2); Ret (Some (A_GroupValue_Response_PDU false data))).

Definition A_GroupValue_Write_init (c : CArray) : outcome (option APDU) :=
  atleast c 2 (
    if decide (size c = 2)%nat
    then c1 ← at_ c 1; Ret (Some (A_GroupValue_Write_PDU true [Z.land c1 0x3f]))
    else data ← slice c 2 (size c - 2); Ret (Some (A_GroupValue_Write_PDU false data))).

Definition A_IndividualAddress_Write_init (c : CArray) : outcome (option APDU) :=
  need c 4 (
    c2 ← at_ c 2; c3 ← at_ c 3;
    Ret (Some (A_IndividualAddress_Write_PDU (u16 (be16 c2 c3))))).

Definition A_IndividualAddress_Read_init (c : CArray) : outcome (option APDU) :=
  need c 2 (Ret (Some A_IndividualAddress_Read_PDU)).

Definition A_IndividualAddress_Response_init (c : CArray) : outcome (option APDU) :=
  need c 2 (Ret (Some A_IndividualAddress_Response_PDU)).

Definition A_IndividualAddressSerialNumber_Read_init (c : CArray) : outcome (option APDU) :=
  need c 8 (
    serno ← slice c 2 6;
    Ret (Some (A_IndividualAddressSerialNumber_Read_PDU serno))).

Definition A_IndividualAddressSerialNumber_Response_init (c : CArray) : outcome (option APDU) :=
  need c 12 (
    serno ← slice c 2 6; c8 ← at_ c 8; c9 ← at_ c 9;
    Ret (Some (A_IndividualAddressSerialNumber_Response_PDU serno (u16 (be16 c8 c9))))).

Definition A_IndividualAddressSerialNumber_Write_init (c : CArray) : outcome (option APDU) :=
  need c 14 (
    serno ← slice c 2 6; c8 ← at_ c 8; c9 ← at_ c 9;
    Ret (Some (A_IndividualAddressSerialNumber_Write_PDU serno (u16 (be16 c8 c9))))).

(** Note that [duplicate_address] comes from [c[3]], the other two flags from
    [c[2]]. *)
Definition A_ServiceInformation_Indication_Write_init (c : CArray) : outcome (option APDU) :=
  need c 5 (
    c2 ← at_ c 2; c3 ← at_ c 3;
    Ret (Some (A_ServiceInformation_Indication_Write_PDU
                 (nz (Z.land c2 0x04)) (nz (Z.land c3 0x02)) (nz (Z.land c2 0x01))))).

Definition A_DomainAddress_Write_init (c : CArray) : outcome (option APDU) :=
  need c 4 (
    c2 ← at_ c 2; c3 ← at_ c 3;
    Ret (Some (A_DomainAddress_Write_PDU (u16 (be16 c2 c3))))).

Definition A_DomainAddress_Read_init (c : CArray) : outcome (option APDU) :=
  need c 2 (Ret (Some A_DomainAddress_Read_PDU)).

Definition A_DomainAddress_Response_init (c : CArray) : outcome (option APDU) :=
  need c 4 (
    c2 ← at_ c 2; c3 ← at_ c 3;
    Ret (Some (A_DomainAddress_Response_PDU (u16 (be16 c2 c3))))).

Definition A_DomainAddressSelective_Read_init (c : CArray) : outcome (option APDU) :=
  need c 7 (
    c2 ← at_ c 2; c3 ← at_ c 3; c4 ← at_ c 4; c5 ← at_ c 5; c6 ← at_ c 6;
    Ret (Some (A_DomainAddressSelective_Read_PDU (u16 (be16 c2 c3)) (u16 (be16 c4 c5)) c6))).

Definition A_PropertyValue_Read_init (c : CArray) : outcome (option APDU) :=
  need c 6 (
    obj ← at_ c 2; prop ← at_ c 3; c4 ← at_ c 4; c5 ← at_ c 5;
    Ret (Some (A_PropertyValue_Read_PDU obj prop (Z.land (c4 ≫ 4) 0x0f)
                 (u16 (be16 (Z.land c4 0x0f) c5))))).

Definition A_PropertyValue_Response_init (c : CArray) : outcome (option APDU) :=
  atleast c 6 (
    obj ← at_ c 2; prop ← at_ c 3; c4 ← at_ c 4; c5 ← at_ c 5;
    data ← slice c 6 (size c - 6);
    Ret (Some (A_PropertyValue_Response_PDU obj prop (Z.land (c4 ≫ 4) 0x0f)
                 (u16 (be16 (Z.land c4 0x0f) c5)) data))).

Definition A_PropertyValue_Write_init (c : CArray) : outcome (option APDU) :=
  atleast c 6 (
    obj ← at_ c 2; prop ← at_ c 3; c4 ← at_ c 4; c5 ← at_ c 5;
    data ← slice c 6 (size c - 6);
    Ret (Some (A_PropertyValue_Write_PDU obj prop (Z.land (c4 ≫ 4) 0x0f)
                 (u16 (be16 (Z.land c4 0x0f) c5)) data))).

Definition A_PropertyDescription_Read_init (c : CArray) : outcome (option APDU) :=
  need c 5 (
    obj ← at_ c 2; prop ← at_ c 3; property_index ← at_ c 4;
    Ret (Some (A_PropertyDescription_Read_PDU obj prop property_index))).

Definition A_PropertyDescription_Response_init (c : CArray) : outcome (option APDU) :=
  need c 9 (
    obj ← at_ c 2; prop ← at_ c 3; property_index ← at_ c 4; type ← at_ c 5;
    c6 ← at_ c 6; c7 ← at_ c 7; access ← at_ c 8;
    Ret (Some (A_PropertyDescription_Response_PDU obj prop property_index type
                 (u16 (be16 c6 c7)) access))).

Definition A_DeviceDescriptor_Read_init (c : CArray) : outcome (option APDU) :=
  need c 2 (c1 ← at_ c 1; Ret (Some (A_DeviceDescriptor_Read_PDU (Z.land c1 0x3F)))).

Definition A_DeviceDescriptor_Response_init (c : CArray) : outcome (option APDU) :=
  need c 4 (
    c1 ← at_ c 1; c2 ← at_ c 2; c3 ← at_ c 3;
    Ret (Some (A_DeviceDescriptor_Response_PDU (Z.land c1 0x3F) (u16 (be16 c2 c3))))).

Definition A_ADC_Read_init (c : CArray) : outcome (option APDU) :=
  need c 3 (
    c1 ← at_ c 1; count ← at_ c 2;
    Ret (Some (A_ADC_Read_PDU (Z.land c1 0x3F) count))).

Definition A_ADC_Response_init (c : CArray) : outcome (option APDU) :=
  need c 5 (
    c1 ← at_ c 1; count ← at_ c 2; c3 ← at_ c 3; c4 ← at_ c 4;
    Ret (Some (A_ADC_Response_PDU (Z.land c1 0x3F) count (s16 (be16 c3 c4))))).

Definition A_Memory_Read_init (c : CArray) : outcome (option APDU) :=
  need c 4 (
    c1 ← at_ c 1; c2 ← at_ c 2; c3 ← at_ c 3;
    Ret (Some (A_Memory_Read_PDU (Z.land c1 0xf) (u16 (be16 c2 c3))))).

Definition A_Memory_Response_init (c : CArray) : outcome (option APDU) :=
  atleast c 4 (
    c1 ← at_ c 1; c2 ← at_ c 2; c3 ← at_ c 3;
    data ← slice c 4 (size c - 4);
    let count := Z.land c1 0xf in
    if decide (Z.of_nat (size data) <> count) then Ret None
    else Ret (Some (A_Memory_Response_PDU count (u16 (be16 c2 c3)) data))).

Definition A_Memory_Write_init (c : CArray) : outcome (option APDU) :=
  atleast c 4 (
    c1 ← at_ c 1; c2 ← at_ c 2; c3 ← at_ c 3;
    data ← slice c 4 (size c - 4);
    let count := Z.land c1 0xf in
    if decide (Z.of_nat (size data) <> count) then Ret None
    else Ret (Some (A_Memory_Write_PDU count (u16 (be16 c2 c3)) data))).

Definition A_MemoryBit_Write_init (c : CArray) : outcome (option APDU) :=
  atleast c 5 (
    count ← at_ c 2; c3 ← at_ c 3; c4 ← at_ c 4;
    if decide (Z.of_nat (size c - 5) <> count * 2) then Ret None
    else
      andmask ← slice c 5 (Z.to_nat count);
      xormask ← slice c (5 + Z.to_nat count) (Z.to_nat count);
      Ret (Some (A_MemoryBit_Write_PDU count (u16 (be16 c3 c4)) andmask xormask))).

Definition A_UserMemory_Read_init (c : CArray) : outcome (option APDU) :=
  need c 5 (
    c2 ← at_ c 2; c3 ← at_ c 3; c4 ← at_ c 4;
    Ret (Some (A_UserMemory_Read_PDU (Z.land (c2 ≫ 4) 0xf) (Z.land c2 0xf) (u16 (be16 c3 c4))))).

Definition A_UserMemory_Response_init (c : CArray) : outcome (option APDU) :=
  atleast c 5 (
    c2 ← at_ c 2; c3 ← at_ c 3; c4 ← at_ c 4;
    data ← slice c 5 (size c - 5);
    let count := Z.land c2 0xf in
    if decide (Z.of_nat (size data) <> count) then Ret None
    else Ret (Some (A_UserMemory_Response_PDU (Z.land (c2 ≫ 4) 0xf) count (u16 (be16 c3 c4)) data))).

Definition A_UserMemory_Write_init (c : CArray) : outcome (option APDU) :=
  atleast c 5 (
    c2 ← at_ c 2; c3 ← at_ c 3; c4 ← at_ c 4;
    data ← slice c 5 (size c - 5);
    let count := Z.land c2 0xf in
    if decide (Z.of_nat (size data) <> count) then Ret None
    else Ret (Some (A_UserMemory_Write_PDU (Z.land (c2 ≫ 4) 0xf) count (u16 (be16 c3 c4)) data))).

(** [addr_extension] keeps the zero of the constructor. *)
Definition A_UserMemoryBit_Write_init (c : CArray) : outcome (option APDU) :=
  atleast c 5 (
    count ← at_ c 2; c3 ← at_ c 3; c4 ← at_ c 4;
    if decide (Z.of_nat (size c - 5) <> count * 2) then Ret None
    else
      andmask ← slice c 5 (Z.to_nat count);
      xormask ← slice c (5 + Z.to_nat count) (Z.to_nat count);
      Ret (Some (A_UserMemoryBit_Write_PDU 0 count (u16 (be16 c3 c4)) andmask xormask))).

Definition A_UserManufacturerInfo_Read_init (c : CArray) : outcome (option APDU) :=
  need c 2 (Ret (Some A_UserManufacturerInfo_Read_PDU)).

Definition A_UserManufacturerInfo_Response_init (c : CArray) : outcome (option APDU) :=
  need c 5 (
    c2 ← at_ c 2; c3 ← at_ c 3; c4 ← at_ c 4;
    Ret (Some (A_UserManufacturerInfo_Response_PDU c2 (u16 (be16 c3 c4))))).

Definition A_Restart_init (c : CArray) : outcome (option APDU) :=
  need c 2 (Ret (Some A_Restart_PDU)).

Definition A_Authorize_Request_init (c : CArray) : outcome (option APDU) :=
  need c 7 (
    c3 ← at_ c 3; c4 ← at_ c 4; c5 ← at_ c 5; c6 ← at_ c 6;
    Ret (Some (A_Authorize_Request_PDU (u32 (be32 c3 c4 c5 c6))))).

Definition A_Authorize_Response_init (c : CArray) : outcome (option APDU) :=
  need c 3 (level ← at_ c 2; Ret (Some (A_Authorize_Response_PDU level))).

Definition A_Key_Write_init (c : CArray) : outcome (option APDU) :=
  need c 7 (
    level ← at_ c 2; c3 ← at_ c 3; c4 ← at_ c 4; c5 ← at_ c 5; c6 ← at_ c 6;
    Ret (Some (A_Key_Write_PDU level (u32 (be32 c3 c4 c5 c6))))).

Definition A_Key_Response_init (c : CArray) : outcome (option APDU) :=
  need c 3 (level ← at_ c 2; Ret (Some (A_Key_Response_PDU level))).

(** ** [APDU::fromPacket]

    The class chosen by the first two bytes; [None] where the C++ creates no
    object. *)
Definition APDU_select (c0 c1 : Z) : option (CArray -> outcome (option APDU)) :=
  let k := Z.land c0 0x03 in
  let f := Z.land c1 0xC0 in
  if decide (k = 0) then
    if decide (f = 0x00) then Some A_GroupValue_Read_init
    else if decide (f = 0x40) then Some A_GroupValue_Response_init
    else if decide (f = 0x80) then Some A_GroupValue_Write_init
    else if decide (f = 0xC0) then Some A_IndividualAddress_Write_init
    else None
  else if decide (k = 1) then
    if decide (f = 0x00) then Some A_IndividualAddress_Read_init
    else if decide (f = 0x40) then Some A_IndividualAddress_Response_init
    else if decide (f = 0x80) then Some A_ADC_Read_init
    else if decide (f = 0xC0) then Some A_ADC_Response_init
    else None
  else if decide (k = 2) then
    if decide (f = 0x00) then Some A_Memory_Read_init
    else if decide (f = 0x40) then Some A_Memory_Response_init
    else if decide (f = 0x80) then Some A_Memory_Write_init
    else if decide (f = 0xC0) then
      if decide (c1 = 0xC0) then Some A_UserMemory_Read_init
      else if decide (c1 = 0xC1) then Some A_UserMemory_Response_init
      else if decide (c1 = 0xC2) then Some A_UserMemory_Write_init
      else if decide (c1 = 0xC4) then Some A_UserMemoryBit_Write_init
      else if decide (c1 = 0xC5) then Some A_UserManufacturerInfo_Read_init
      else if decide (c1 = 0xC6) then Some A_UserManufacturerInfo_Response_init
      else None
    else None
  else if decide (k = 3) then
    if decide (f = 0x00) then Some A_DeviceDescriptor_Read_init
    else if decide (f = 0x40) then Some A_DeviceDescriptor_Response_init
    else if decide (f = 0x80) then Some A_Restart_init
    else if decide (f = 0xC0) then
      if decide (c1 = 0xD0) then Some A_MemoryBit_Write_init
      else if decide (c1 = 0xD1) then Some A_Authorize_Request_init
      else if decide (c1 = 0xD2) then Some A_Authorize_Response_init
      else if decide (c1 = 0xD3) then Some A_Key_Write_init
      else if decide (c1 = 0xD4) then Some A_Key_Response_init
      else if decide (c1 = 0xD5) then Some A_PropertyValue_Read_init
      else if decide (c1 = 0xD6) then Some A_PropertyValue_Response_init
      else if decide (c1 = 0xD7) then Some A_PropertyValue_Write_init
      else if decide (c1 = 0xD8) then Some A_PropertyDescription_Read_init
      else if decide (c1 = 0xD9) then Some A_PropertyDescription_Response_init
      else if decide (c1 = 0xDC) then Some A_IndividualAddressSerialNumber_Read_init
      else if decide (c1 = 0xDD) then Some A_IndividualAddressSerialNumber_Response_init
      else if decide (c1 = 0xDE) then Some A_IndividualAddressSerialNumber_Write_init
      else if decide (c1 = 0xDF) then Some A_ServiceInformation_Indication_Write_init
      else if decide (c1 = 0xE0) then Some A_DomainAddress_Write_init
      else if decide (c1 = 0xE1) then Some A_DomainAddress_Read_init
      else if decide (c1 = 0xE2) then Some A_DomainAddress_Response_init
      else if decide (c1 = 0xE3) then Some A_DomainAddressSelective_Read_init
      else None
    else None
  else None.

Definition APDU_fromPacket (c : CArray) : outcome APDU :=
  sel ← (if decide (2 <= size c)%nat
         then c0 ← at_ c 0; c1 ← at_ c 1; Ret (APDU_select c0 c1)
         else Ret None);
  match sel with
  | Some init =>
      r ← init c;
      match r with
      | Some a => Ret a
      | None => Ret (A_Unknown_init c)
      end
  | None => Ret (A_Unknown_init c)
  end.

(** ** Encoding: [ToPacket] of each class

    [resize] and the writes by index are those of the source, in its order. *)

Definition A_GroupValue_Read_ToPacket : outcome CArray := Ret [0x00; 0x00].

(** [!issmall || (data.size() == 1 && (data[0] & 0xC0) == 0)] *)
Definition small_ok (issmall : bool) (data : CArray) : outcome bool :=
  if issmall
  then if decide (size data = 1%nat)
       then d0 ← at_ data 0; Ret (bool_decide (Z.land d0 0xC0 = 0))
       else Ret false
  else Ret true.

Definition A_GroupValue_Response_ToPacket (issmall : bool) (data : CArray) : outcome CArray :=
  ok ← small_ok issmall data; _ ← assert_ ok;
  if issmall then
    d0 ← at_ data 0;
    pdu ← put (resize [] 2) 0 0x00;
    put pdu 1 (Z.lor 0x40 (Z.land d0 0x3f))
  else
    pdu ← put (resize [] (2 + size data)) 0 0x00;
    pdu ← put pdu 1 0x40;
    setpart pdu data 2 (size data).

Definition A_GroupValue_Write_ToPacket (issmall : bool) (data : CArray) : outcome CArray :=
  ok ← small_ok issmall data; _ ← assert_ ok;
  if issmall then
    d0 ← at_ data 0;
    pdu ← put (resize [] 2) 0 0x00;
    put pdu 1 (Z.lor 0x80 (Z.land d0 0x3F))
  else
    pdu ← put (resize [] (2 + size data)) 0 0x00;
    pdu ← put pdu 1 0x80;
    setpart pdu data 2 (size data).

Definition A_IndividualAddress_Write_ToPacket (addr : Z) : outcome CArray :=
  pdu ← put (resize [] 4) 0 0;
  pdu ← put pdu 1 0xC0;
  pdu ← put pdu 2 (Z.land (addr ≫ 8) 0xff);
  put pdu 3 (Z.land addr 0xff).

Definition A_IndividualAddress_Read_ToPacket : outcome CArray := Ret [0x01; 0x00].

Definition A_IndividualAddress_Response_ToPacket : outcome CArray := Ret [0x01; 0x40].

Definition A_IndividualAddressSerialNumber_Read_ToPacket (serno : CArray) : outcome CArray :=
  pdu ← put (resize [] 8) 0 0x03;
  pdu ← put pdu 1 0xDC;
  setpart pdu serno 2 6.

Definition A_IndividualAddressSerialNumber_Response_ToPacket (serno : CArray) (addr : Z)
  : outcome CArray :=
  pdu ← put (resize [] 12) 0 0x03;
  pdu ← put pdu 1 0xDD;
  pdu ← setpart pdu serno 2 6;
  pdu ← put pdu 8 (Z.land (addr ≫ 8) 0xff);
  pdu ← put pdu 9 (Z.land addr 0xff);
  pdu ← put pdu 10 0;
  put pdu 11 0.

Definition A_IndividualAddressSerialNumber_Write_ToPacket (serno : CArray) (addr : Z)
  : outcome CArray :=
  pdu ← put (resize [] 14) 0 0x03;
  pdu ← put pdu 1 0xDD;
  pdu ← setpart pdu serno 2 6;
  pdu ← put pdu 8 (Z.land (addr ≫ 8) 0xff);
  pdu ← put pdu 9 (Z.land addr 0xff);
  pdu ← put pdu 10 0;
  pdu ← put pdu 11 0;
  pdu ← put pdu 12 0;
  put pdu 13 0.

Definition A_ServiceInformation_Indication_Write_ToPacket
    (verify_mode duplicate_address appl_stopped : bool) : outcome CArray :=
  pdu ← put (resize [] 5) 0 0x03;
  pdu ← put pdu 1 0xDF;
  pdu ← put pdu 2 (Z.lor (Z.lor (Z.lor 0x00 (if verify_mode then 0x04 else 0x00))
                                (if duplicate_address then 0x02 else 0x00))
                         (if appl_stopped then 0x01 else 0x00));
  pdu ← put pdu 3 0x00;
  put pdu 4 0x00.

Definition A_DomainAddress_Write_ToPacket (addr : Z) : outcome CArray :=
  pdu ← put (resize [] 4) 0 0x03;
  pdu ← put pdu 1 0xE0;
  pdu ← put pdu 2 (Z.land (addr ≫ 8) 0xff);
  put pdu 3 (Z.land addr 0xff).

Definition A_DomainAddress_Read_ToPacket : outcome CArray := Ret [0x03; 0xE1].

Definition A_DomainAddress_Response_ToPacket (addr : Z) : outcome CArray :=
  pdu ← put (resize [] 4) 0 0x03;
  pdu ← put pdu 1 0xE2;
  pdu ← put pdu 2 (Z.land (addr ≫ 8) 0xff);
  put pdu 3 (Z.land addr 0xff).

Definition A_DomainAddressSelective_Read_ToPacket (domainaddr addr range : Z) : outcome CArray :=
  pdu ← put (resize [] 7) 0 0x03;
  pdu ← put pdu 1 0xE2;
  pdu ← put pdu 2 (Z.land (domainaddr ≫ 8) 0xff);
  pdu ← put pdu 3 (Z.land domainaddr 0xff);
  pdu ← put pdu 2 (Z.land (addr ≫ 8) 0xff);
  pdu ← put pdu 3 (Z.land addr 0xff);
  put pdu 6 range.

Definition A_PropertyValue_Read_ToPacket (obj prop count start : Z) : outcome CArray :=
  _ ← assert_ (bool_decide (Z.land count 0xf0 = 0));
  _ ← assert_ (bool_decide (Z.land start 0xf000 = 0));
  pdu ← put (resize [] 6) 0 0x03;
  pdu ← put pdu 1 0xD5;
  pdu ← put pdu 2 obj;
  pdu ← put pdu 3 prop;
  pdu ← put pdu 4 (Z.lor (Z.land count 0x0f ≪ 4) (Z.land (start ≫ 8) 0x0f));
  put pdu 5 (Z.land start 0xff).

Definition A_PropertyValue_Response_ToPacket (obj prop count start : Z) (data : CArray)
  : outcome CArray :=
  _ ← assert_ (bool_decide (Z.land count 0xf0 = 0));
  _ ← assert_ (bool_decide (Z.land start 0xf000 = 0));
  pdu ← put (resize [] (6 + size data)) 0 0x03;
  pdu ← put pdu 1 0xD6;
  pdu ← put pdu 2 obj;
  pdu ← put pdu 3 prop;
  pdu ← put pdu 4 (Z.lor (Z.land count 0x0f ≪ 4) (Z.land (start ≫ 8) 0x0f));
  pdu ← put pdu 5 (Z.land start 0xff);
  setpart pdu data 6 (size data).

Definition A_PropertyValue_Write_ToPacket (obj prop count start : Z) (data : CArray)
  : outcome CArray :=
  _ ← assert_ (bool_decide (Z.land count 0xf0 = 0));
  _ ← assert_ (bool_decide (Z.land start 0xf000 = 0));
  pdu ← put (resize [] (6 + size data)) 0 0x03;
  pdu ← put pdu 1 0xD7;
  pdu ← put pdu 2 obj;
  pdu ← put pdu 3 prop;
  pdu ← put pdu 4 (Z.lor (Z.land count 0x0f ≪ 4) (Z.land (start ≫ 8) 0x0f));
  pdu ← put pdu 5 (Z.land start 0xff);
  setpart pdu data 6 (size data).

Definition A_PropertyDescription_Read_ToPacket (obj prop property_index : Z) : outcome CArray :=
  pdu ← put (resize [] 5) 0 0x03;
  pdu ← put pdu 1 0xD8;
  pdu ← put pdu 2 obj;
  pdu ← put pdu 3 prop;
  put pdu 4 property_index.

Definition A_PropertyDescription_Response_ToPacket (obj prop property_index type count access : Z)
  : outcome CArray :=
  pdu ← put (resize [] 9) 0 0x03;
  pdu ← put pdu 1 0xD9;
  pdu ← put pdu 2 obj;
  pdu ← put pdu 3 prop;
  pdu ← put pdu 4 property_index;
  pdu ← put pdu 5 type;
  pdu ← put pdu 6 (Z.land (count ≫ 8) 0xff);
  pdu ← put pdu 7 (Z.land count 0xff);
  put pdu 8 access.

Definition A_DeviceDescriptor_Read_ToPacket (type : Z) : outcome CArray :=
  _ ← assert_ (bool_decide (Z.land type 0xC0 = 0));
  pdu ← put (resize [] 2) 0 0x03;
  put pdu 1 (Z.lor 0x00 (Z.land type 0x3f)).

Definition A_DeviceDescriptor_Response_ToPacket (type descriptor : Z) : outcome CArray :=
  _ ← assert_ (bool_decide (Z.land type 0xC0 = 0));
  pdu ← put (resize [] 4) 0 0x03;
  pdu ← put pdu 1 (Z.lor 0x01 (Z.land type 0x3f));
  pdu ← put pdu 2 (Z.land (descriptor ≫ 8) 0xFF);
  put pdu 3 (Z.land descriptor 0xff).

Definition A_ADC_Read_ToPacket (channel count : Z) : outcome CArray :=
  _ ← assert_ (bool_decide (Z.land channel 0xC0 = 0));
  pdu ← put (resize [] 3) 0 0x01;
  pdu ← put pdu 1 (Z.lor 0x80 (Z.land channel 0x3F));
  put pdu 2 count.

Definition A_ADC_Response_ToPacket (channel count val : Z) : outcome CArray :=
  _ ← assert_ (bool_decide (Z.land channel 0xC0 = 0));
  pdu ← put (resize [] 5) 0 0x01;
  pdu ← put pdu 1 (Z.lor 0xC0 (Z.land channel 0x3F));
  pdu ← put pdu 2 count;
  pdu ← put pdu 3 (Z.land (val ≫ 8) 0xff);
  put pdu 4 (Z.land val 0xff).

Definition A_Memory_Read_ToPacket (count addr : Z) : outcome CArray :=
  _ ← assert_ (bool_decide (Z.land count 0xf0 = 0));
  pdu ← put (resize [] 4) 0 0x02;
  pdu ← put pdu 1 (Z.lor 0x00 (Z.land count 0x0f));
  pdu ← put pdu 2 (Z.land (addr ≫ 8) 0xff);
  put pdu 3 (Z.land addr 0xff).

Definition A_Memory_Response_ToPacket (count addr : Z) (data : CArray) : outcome CArray :=
  _ ← assert_ (bool_decide (Z.land count 0xf0 = 0));
  _ ← assert_ (bool_decide (Z.of_nat (size data) = count));
  pdu ← put (resize [] (4 + size data)) 0 0x02;
  pdu ← put pdu 1 (Z.lor 0x40 (Z.land count 0x0f));
  pdu ← put pdu 2 (Z.land (addr ≫ 8) 0xff);
  pdu ← put pdu 3 (Z.land addr 0xff);
  setpart pdu data 4 (size data).

Definition A_Memory_Write_ToPacket (count addr : Z) (data : CArray) : outcome CArray :=
  _ ← assert_ (bool_decide (Z.land count 0xf0 = 0));
  _ ← assert_ (bool_decide (Z.of_nat (size data) = count));
  pdu ← put (resize [] (4 + size data)) 0 0x02;
  pdu ← put pdu 1 (Z.lor 0x80 (Z.land count 0x0f));
  pdu ← put pdu 2 (Z.land (addr ≫ 8) 0xff);
  pdu ← put pdu 3 (Z.land addr 0xff);
  setpart pdu data 4 (size data).

Definition A_MemoryBit_Write_ToPacket (count addr : Z) (andmask xormask : CArray)
  : outcome CArray :=
  _ ← assert_ (bool_decide (Z.of_nat (size andmask) = count));
  _ ← assert_ (bool_decide (Z.of_nat (size xormask) = count));
  let n := Z.to_nat count in
  pdu ← put (resize [] (5 + (n + n))) 0 0x03;
  pdu ← put pdu 1 0xD0;
  pdu ← put pdu 2 count;
  pdu ← put pdu 3 (Z.land (addr ≫ 8) 0xff);
  pdu ← put pdu 4 (Z.land addr 0xff);
  pdu ← setpart pdu andmask 5 n;
  setpart pdu xormask (5 + n) n.

Definition A_UserMemory_Read_ToPacket (addr_extension count addr : Z) : outcome CArray :=
  _ ← assert_ (bool_decide (Z.land count 0xf0 = 0));
  _ ← assert_ (bool_decide (Z.land addr_extension 0xf0 = 0));
  pdu ← put (resize [] 5) 0 0x02;
  pdu ← put pdu 1 0xC0;
  pdu ← put pdu 2 (Z.lor (Z.land addr_extension 0x0f ≪ 4) (Z.land count 0x0f));
  pdu ← put pdu 3 (Z.land (addr ≫ 8) 0xff);
  put pdu 4 (Z.land addr 0xff).

Definition A_UserMemory_Response_ToPacket (addr_extension count addr : Z) (data : CArray)
  : outcome CArray :=
  _ ← assert_ (bool_decide (Z.land count 0xf0 = 0));
  _ ← assert_ (bool_decide (Z.land addr_extension 0xf0 = 0));
  _ ← assert_ (bool_decide (Z.of_nat (size data) = count));
  pdu ← put (resize [] (5 + size data)) 0 0x02;
  pdu ← put pdu 1 0xC1;
  pdu ← put pdu 2 (Z.lor (Z.land addr_extension 0x0f ≪ 4) (Z.land count 0x0f));
  pdu ← put pdu 3 (Z.land (addr ≫ 8) 0xff);
  pdu ← put pdu 4 (Z.land addr 0xff);
  setpart pdu data 5 (size data).

Definition A_UserMemory_Write_ToPacket (addr_extension count addr : Z) (data : CArray)
  : outcome CArray :=
  _ ← assert_ (bool_decide (Z.land count 0xf0 = 0));
  _ ← assert_ (bool_decide (Z.land addr_extension 0xf0 = 0));
  _ ← assert_ (bool_decide (Z.of_nat (size data) = count));
  pdu ← put (resize [] (5 + size data)) 0 0x02;
  pdu ← put pdu 1 0xC2;
  pdu ← put pdu 2 (Z.lor (Z.land addr_extension 0x0f ≪ 4) (Z.land count 0x0f));
  pdu ← put pdu 3 (Z.land (addr ≫ 8) 0xff);
  pdu ← put pdu 4 (Z.land addr 0xff);
  setpart pdu data 5 (size data).

Definition A_UserMemoryBit_Write_ToPacket (count addr : Z) (andmask xormask : CArray)
  : outcome CArray :=
  _ ← assert_ (bool_decide (Z.of_nat (size andmask) = count));
  _ ← assert_ (bool_decide (Z.of_nat (size xormask) = count));
  let n := Z.to_nat count in
  pdu ← put (resize [] (5 + (n + n))) 0 0x02;
  pdu ← put pdu 1 0xC4;
  pdu ← put pdu 2 count;
  pdu ← put pdu 3 (Z.land (addr ≫ 8) 0xff);
  pdu ← put pdu 4 (Z.land addr 0xff);
  pdu ← setpart pdu andmask 5 n;
  setpart pdu xormask (5 + n) n.

Definition A_UserManufacturerInfo_Read_ToPacket : outcome CArray :=
  pdu ← put (resize [] 2) 0 0x02;
  put pdu 1 0xC5.

Definition A_UserManufacturerInfo_Response_ToPacket (manufacturerid data : Z) : outcome CArray :=
  pdu ← put (resize [] 5) 0 0x02;
  pdu ← put pdu 1 0xC6;
  pdu ← put pdu 2 manufacturerid;
  pdu ← put pdu 3 (Z.land (data ≫ 8) 0xff);
  put pdu 4 (Z.land data 0xff).

Definition A_Restart_ToPacket : outcome CArray :=
  pdu ← put (resize [] 2) 0 0x03;
  put pdu 1 0x80.

Definition A_Authorize_Request_ToPacket (key : Z) : outcome CArray :=
  pdu ← put (resize [] 7) 0 0x03;
  pdu ← put pdu 1 0xD1;
  pdu ← put pdu 2 0x00;
  pdu ← put pdu 3 (Z.land (key ≫ 24) 0xff);
  pdu ← put pdu 4 (Z.land (key ≫ 16) 0xff);
  pdu ← put pdu 5 (Z.land (key ≫ 8) 0xff);
  put pdu 6 (Z.land key 0xff).

Definition A_Authorize_Response_ToPacket (level : Z) : outcome CArray :=
  pdu ← put (resize [] 3) 0 0x03;
  pdu ← put pdu 1 0xD2;
  put pdu 2 level.

Definition A_Key_Write_ToPacket (level key : Z) : outcome CArray :=
  pdu ← put (resize [] 7) 0 0x03;
  pdu ← put pdu 1 0xD3;
  pdu ← put pdu 2 level;
  pdu ← put pdu 3 (Z.land (key ≫ 24) 0xff);
  pdu ← put pdu 4 (Z.land (key ≫ 16) 0xff);
  pdu ← put pdu 5 (Z.land (key ≫ 8) 0xff);
  put pdu 6 (Z.land key 0xff).

Definition A_Key_Response_ToPacket (level : Z) : outcome CArray :=
  pdu ← put (resize [] 3) 0 0x03;
  pdu ← put pdu 1 0xD4;
  put pdu 2 level.

(** The virtual method. *)
Definition APDU_ToPacket (a : APDU) : outcome CArray :=
  match a with
  | A_Unknown_PDU pdu => Ret pdu
  | A_GroupValue_Read_PDU => A_GroupValue_Read_ToPacket
  | A_GroupValue_Response_PDU s d => A_GroupValue_Response_ToPacket s d
  | A_GroupValue_Write_PDU s d => A_GroupValue_Write_ToPacket s d
  | A_IndividualAddress_Read_PDU => A_IndividualAddress_Read_ToPacket
  | A_IndividualAddress_Response_PDU => A_IndividualAddress_Response_ToPacket
  | A_IndividualAddress_Write_PDU a => A_IndividualAddress_Write_ToPacket a
  | A_IndividualAddressSerialNumber_Read_PDU s => A_IndividualAddressSerialNumber_Read_ToPacket s
  | A_IndividualAddressSerialNumber_Response_PDU s a =>
      A_IndividualAddressSerialNumber_Response_ToPacket s a
  | A_IndividualAddressSerialNumber_Write_PDU s a =>
      A_IndividualAddressSerialNumber_Write_ToPacket s a
  | A_ServiceInformation_Indication_Write_PDU v d a =>
      A_ServiceInformation_Indication_Write_ToPacket v d a
  | A_DomainAddress_Write_PDU a => A_DomainAddress_Write_ToPacket a
  | A_DomainAddress_Read_PDU => A_DomainAddress_Read_ToPacket
  | A_DomainAddress_Response_PDU a => A_DomainAddress_Response_ToPacket a
  | A_DomainAddressSelective_Read_PDU d a r => A_DomainAddressSelective_Read_ToPacket d a r
  | A_PropertyValue_Read_PDU o p c s => A_PropertyValue_Read_ToPacket o p c s
  | A_PropertyValue_Response_PDU o p c s d => A_PropertyValue_Response_ToPacket o p c s d
  | A_PropertyValue_Write_PDU o p c s d => A_PropertyValue_Write_ToPacket o p c s d
  | A_PropertyDescription_Read_PDU o p i => A_PropertyDescription_Read_ToPacket o p i
  | A_PropertyDescription_Response_PDU o p i t c a =>
      A_PropertyDescription_Response_ToPacket o p i t c a
  | A_DeviceDescriptor_Read_PDU t => A_DeviceDescriptor_Read_ToPacket t
  | A_DeviceDescriptor_Response_PDU t d => A_DeviceDescriptor_Response_ToPacket t d
  | A_ADC_Read_PDU ch c => A_ADC_Read_ToPacket ch c
  | A_ADC_Response_PDU ch c v => A_ADC_Response_ToPacket ch c v
  | A_Memory_Read_PDU c a => A_Memory_Read_ToPacket c a
  | A_Memory_Response_PDU c a d => A_Memory_Response_ToPacket c a d
  | A_Memory_Write_PDU c a d => A_Memory_Write_ToPacket c a d
  | A_MemoryBit_Write_PDU c a am xm => A_MemoryBit_Write_ToPacket c a am xm
  | A_UserMemory_Read_PDU e c a => A_UserMemory_Read_ToPacket e c a
  | A_UserMemory_Response_PDU e c a d => A_UserMemory_Response_ToPacket e c a d
  | A_UserMemory_Write_PDU e c a d => A_UserMemory_Write_ToPacket e c a d
  | A_UserMemoryBit_Write_PDU _ c a am xm => A_UserMemoryBit_Write_ToPacket c a am xm
  | A_UserManufacturerInfo_Read_PDU => A_UserManufacturerInfo_Read_ToPacket
  | A_UserManufacturerInfo_Response_PDU m d => A_UserManufacturerInfo_Response_ToPacket m d
  | A_Restart_PDU => A_Restart_ToPacket
  | A_Authorize_Request_PDU k => A_Authorize_Request_ToPacket k
  | A_Authorize_Response_PDU l => A_Authorize_Response_ToPacket l
  | A_Key_Write_PDU l k => A_Key_Write_ToPacket l k
  | A_Key_Response_PDU l => A_Key_Response_ToPacket l
  end.

(** ** Printing: [Decode] of each class *)

Definition A_Unknown_Decode (pdu : CArray) : outcome string :=
  if decide (size pdu = 0%nat) then Ret "empty APDU"
  else
    p0 ← at_ pdu 0;
    Ret (addHexAll (addHex "Unknown APDU: " (Z.land p0 0x03)) pdu).

Definition A_GroupValue_Response_Decode (issmall : bool) (data : CArray) : outcome string :=
  ok ← small_ok issmall data; _ ← assert_ ok;
  let s := "A_GroupValue_Response " in
  let s := if issmall then s +:+ "(small) " else s in
  Ret (addHexAll s data).

Definition A_GroupValue_Write_Decode (issmall : bool) (data : CArray) : outcome string :=
  ok ← small_ok issmall data; _ ← assert_ ok;
  let s := "A_GroupValue_Write " in
  let s := if issmall then s +:+ "(small) " else s in
  Ret (addHexAll s data).

Definition A_IndividualAddress_Write_Decode (addr : Z) : string :=
  "A_IndividualAddress_Write " +:+ FormatEIBAddr addr.

(** [addHex (s, serno[0]); ... addHex (s, serno[5]);] *)
Definition addSerno (s : string) (serno : CArray) : outcome string :=
  s0 ← at_ serno 0; s1 ← at_ serno 1; s2 ← at_ serno 2;
  s3 ← at_ serno 3; s4 ← at_ serno 4; s5 ← at_ serno 5;
  Ret (addHexAll s [s0; s1; s2; s3; s4; s5]).

Definition A_IndividualAddressSerialNumber_Read_Decode (serno : CArray) : outcome string :=
  addSerno "A_IndividualAddressSerialNumber_Read " serno.

Definition A_IndividualAddressSerialNumber_Response_Decode (serno : CArray) (addr : Z)
  : outcome string :=
  s ← addSerno "A_IndividualAddressSerialNumber_Response " serno;
  Ret (add16Hex (s +:+ "Addr: ") addr).

Definition A_IndividualAddressSerialNumber_Write_Decode (serno : CArray) (addr : Z)
  : outcome string :=
  s ← addSerno "A_IndividualAddressSerialNumber_Write " serno;
  Ret (s +:+ "Addr: " +:+ FormatEIBAddr addr).

Definition A_ServiceInformation_Indication_Write_Decode
    (verify_mode duplicate_address appl_stopped : bool) : string :=
  "A_ServiceInformation_Indication_Write " +:+
  (if verify_mode then "verify " else "") +:+
  (if duplicate_address then "dupplicate_address " else "") +:+
  (if appl_stopped then "appl_stopped " else "").

Definition A_DomainAddress_Write_Decode (addr : Z) : string :=
  "A_DomainAddress_Write " +:+ FormatDomainAddr addr.

Definition A_DomainAddress_Response_Decode (addr : Z) : string :=
  "A_DomainAddress_Response" +:+ FormatDomainAddr addr.

Definition A_DomainAddressSelective_Read_Decode (domainaddr addr range : Z) : string :=
  addHex ("A_DomainAddressSelective_Read " +:+ FormatDomainAddr domainaddr +:+ " " +:+
          FormatEIBAddr addr +:+ " ") range.

(** [Obj:.. Prop: .. start: .. max_nr: ..]; [start] is printed by [addHex],
    which takes a byte. *)
Definition addProperty (s : string) (obj prop count start : Z) : string :=
  let s := addHex s obj in
  let s := addHex (s +:+ " Prop: ") prop in
  let s := addHex (s +:+ " start: ") start in
  addHex (s +:+ " max_nr: ") count.

Definition A_PropertyValue_Read_Decode (obj prop count start : Z) : outcome string :=
  _ ← assert_ (bool_decide (Z.land count 0xf0 = 0));
  _ ← assert_ (bool_decide (Z.land start 0xf000 = 0));
  Ret (addProperty "A_PropertyValue_Read Obj:" obj prop count start).

Definition A_PropertyValue_Response_Decode (obj prop count start : Z) (data : CArray)
  : outcome string :=
  _ ← assert_ (bool_decide (Z.land count 0xf0 = 0));
  _ ← assert_ (bool_decide (Z.land start 0xf000 = 0));
  let s := addProperty "A_PropertyValue_Response Obj:" obj prop count start in
  Ret (addHexAll (s +:+ "data: ") data).

Definition A_PropertyValue_Write_Decode (obj prop count start : Z) (data : CArray)
  : outcome string :=
  _ ← assert_ (bool_decide (Z.land count 0xf0 = 0));
  _ ← assert_ (bool_decide (Z.land start 0xf000 = 0));
  let s := addProperty "A_PropertyValue_Write Obj:" obj prop count start in
  Ret (addHexAll (s +:+ "data: ") data).

Definition A_PropertyDescription_Read_Decode (obj prop property_index : Z) : string :=
  let s := addHex "A_PropertyDescription_Read Obj: " obj in
  let s := addHex (s +:+ " Property: ") prop in
  addHex (s +:+ " Property_index: ") property_index.

Definition A_PropertyDescription_Response_Decode (obj prop property_index type count access : Z)
  : string :=
  let s := addHex "A_PropertyDescription_Response Obj:" obj in
  let s := addHex (s +:+ " Property: ") prop in
  let s := addHex (s +:+ " Property_index: ") property_index in
  let s := addHex (s +:+ " Type: ") type in
  let s := add16Hex (s +:+ "max_elements: ") count in
  addHex (s +:+ " acces: ") access.

Definition A_DeviceDescriptor_Read_Decode (type : Z) : outcome string :=
  _ ← assert_ (bool_decide (Z.land type 0xC0 = 0));
  Ret (addHex "A_DeviceDescriptor_Read Type:" type).

Definition A_DeviceDescriptor_Response_Decode (type descriptor : Z) : outcome string :=
  _ ← assert_ (bool_decide (Z.land type 0xC0 = 0));
  let s := addHex "A_DeviceDescriptor_Response Type:" type in
  Ret (add16Hex (s +:+ " Descriptor: ") descriptor).

Definition A_ADC_Read_Decode (channel count : Z) : outcome string :=
  _ ← assert_ (bool_decide (Z.land channel 0xC0 = 0));
  let s := addHex "A_ADC_Read Channel:" channel in
  Ret (addHex (s +:+ " Count: ") count).

Definition A_ADC_Response_Decode (channel count val : Z) : outcome string :=
  _ ← assert_ (bool_decide (Z.land channel 0xC0 = 0));
  let s := addHex "A_ADC_Response Channel:" channel in
  let s := addHex (s +:+ " Count: ") count in
  Ret (addHex (s +:+ "Value: ") val).

Definition A_Memory_Read_Decode (count addr : Z) : outcome string :=
  _ ← assert_ (bool_decide (Z.land count 0xf0 = 0));
  let s := addHex "A_Memory_Read Len: " count in
  Ret (add16Hex (s +:+ " Addr: ") addr).

Definition A_Memory_Response_Decode (count addr : Z) (data : CArray) : outcome string :=
  _ ← assert_ (bool_decide (Z.land count 0xf0 = 0));
  _ ← assert_ (bool_decide (Z.of_nat (size data) = count));
  let s := addHex "A_Memory_Response Len:" count in
  let s := add16Hex (s +:+ " Addr: ") addr in
  Ret (addHexAll (s +:+ "Data: ") data).

Definition A_Memory_Write_Decode (count addr : Z) (data : CArray) : outcome string :=
  _ ← assert_ (bool_decide (Z.land count 0xf0 = 0));
  _ ← assert_ (bool_decide (Z.of_nat (size data) = count));
  let s := addHex "A_Memory_Write Len:" count in
  let s := add16Hex (s +:+ " Addr: ") addr in
  Ret (addHexAll (s +:+ "Data: ") data).

(** The tail of the two bit-write classes. *)
Definition addMasks (s : string) (count addr : Z) (andmask xormask : CArray) : outcome string :=
  _ ← assert_ (bool_decide (Z.of_nat (size andmask) = count));
  _ ← assert_ (bool_decide (Z.of_nat (size xormask) = count));
  let s := addHex s count in
  let s := add16Hex (s +:+ "Addr: ") addr in
  let s := addHexAll (s +:+ "And: ") andmask in
  Ret (addHexAll (s +:+ "xor: ") xormask).

Definition A_MemoryBit_Write_Decode (count addr : Z) (andmask xormask : CArray) : outcome string :=
  addMasks "A_MemoryBit_Write Len:" count addr andmask xormask.

(** [Addr_ext:.. Len: .. Addr: ..] *)
Definition addUserMemory (s : string) (addr_extension count addr : Z) : outcome string :=
  _ ← assert_ (bool_decide (Z.land count 0xf0 = 0));
  _ ← assert_ (bool_decide (Z.land addr_extension 0xf0 = 0));
  let s := addHex s addr_extension in
  let s := addHex (s +:+ " Len: ") count in
  Ret (add16Hex (s +:+ " Addr: ") addr).

Definition A_UserMemory_Read_Decode (addr_extension count addr : Z) : outcome string :=
  addUserMemory "A_UserMemory_Read Addr_ext:" addr_extension count addr.

Definition A_UserMemory_Response_Decode (addr_extension count addr : Z) (data : CArray)
  : outcome string :=
  s ← addUserMemory "A_UserMemory_Response Addr_ext:" addr_extension count addr;
  _ ← assert_ (bool_decide (Z.of_nat (size data) = count));
  Ret (addHexAll (s +:+ " Data: ") data).

Definition A_UserMemory_Write_Decode (addr_extension count addr : Z) (data : CArray)
  : outcome string :=
  s ← addUserMemory "A_UserMemory_Write Addr_ext:" addr_extension count addr;
  _ ← assert_ (bool_decide (Z.of_nat (size data) = count));
  Ret (addHexAll (s +:+ " Data: ") data).

Definition A_UserMemoryBit_Write_Decode (count addr : Z) (andmask xormask : CArray)
  : outcome string :=
  addMasks "A_UserMemoryBit_Write Len:" count addr andmask xormask.

Definition A_UserManufacturerInfo_Response_Decode (manufacturerid data : Z) : string :=
  let s := addHex "A_UserManufactueerInfo_Response Manufacturer:" manufacturerid in
  add16Hex (s +:+ " data: ") data.

Definition A_Authorize_Request_Decode (key : Z) : string :=
  "A_Authorize_Request Key:" +:+ FormatEIBKey key.

Definition A_Authorize_Response_Decode (level : Z) : string :=
  addHex "A_Authorize_Response Level:" level.

Definition A_Key_Write_Decode (level key : Z) : string :=
  addHex "A_Key_Write Level:" level +:+ " Key: " +:+ FormatEIBKey key.

Definition A_Key_Response_Decode (level : Z) : string :=
  addHex "A_Key_Response Level:" level.

Definition APDU_Decode (a : APDU) : outcome string :=
  match a with
  | A_Unknown_PDU pdu => A_Unknown_Decode pdu
  | A_GroupValue_Read_PDU => Ret "A_GroupValue_Read"
  | A_GroupValue_Response_PDU s d => A_GroupValue_Response_Decode s d
  | A_GroupValue_Write_PDU s d => A_GroupValue_Write_Decode s d
  | A_IndividualAddress_Read_PDU => Ret "A_IndividualAddress_Read"
  | A_IndividualAddress_Response_PDU => Ret "A_IndividualAddress_Response"
  | A_IndividualAddress_Write_PDU a => Ret (A_IndividualAddress_Write_Decode a)
  | A_IndividualAddressSerialNumber_Read_PDU s => A_IndividualAddressSerialNumber_Read_Decode s
  | A_IndividualAddressSerialNumber_Response_PDU s a =>
      A_IndividualAddressSerialNumber_Response_Decode s a
  | A_IndividualAddressSerialNumber_Write_PDU s a =>
      A_IndividualAddressSerialNumber_Write_Decode s a
  | A_ServiceInformation_Indication_Write_PDU v d a =>
      Ret (A_ServiceInformation_Indication_Write_Decode v d a)
  | A_DomainAddress_Write_PDU a => Ret (A_DomainAddress_Write_Decode a)
  | A_DomainAddress_Read_PDU => Ret "A_DomainAddress_Read"
  | A_DomainAddress_Response_PDU a => Ret (A_DomainAddress_Response_Decode a)
  | A_DomainAddressSelective_Read_PDU d a r => Ret (A_DomainAddressSelective_Read_Decode d a r)
  | A_PropertyValue_Read_PDU o p c s => A_PropertyValue_Read_Decode o p c s
  | A_PropertyValue_Response_PDU o p c s d => A_PropertyValue_Response_Decode o p c s d
  | A_PropertyValue_Write_PDU o p c s d => A_PropertyValue_Write_Decode o p c s d
  | A_PropertyDescription_Read_PDU o p i => Ret (A_PropertyDescription_Read_Decode o p i)
  | A_PropertyDescription_Response_PDU o p i t c a =>
      Ret (A_PropertyDescription_Response_Decode o p i t c a)
  | A_DeviceDescriptor_Read_PDU t => A_DeviceDescriptor_Read_Decode t
  | A_DeviceDescriptor_Response_PDU t d => A_DeviceDescriptor_Response_Decode t d
  | A_ADC_Read_PDU ch c => A_ADC_Read_Decode ch c
  | A_ADC_Response_PDU ch c v => A_ADC_Response_Decode ch c v
  | A_Memory_Read_PDU c a => A_Memory_Read_Decode c a
  | A_Memory_Response_PDU c a d => A_Memory_Response_Decode c a d
  | A_Memory_Write_PDU c a d => A_Memory_Write_Decode c a d
  | A_MemoryBit_Write_PDU c a am xm => A_MemoryBit_Write_Decode c a am xm
  | A_UserMemory_Read_PDU e c a => A_UserMemory_Read_Decode e c a
  | A_UserMemory_Response_PDU e c a d => A_UserMemory_Response_Decode e c a d
  | A_UserMemory_Write_PDU e c a d => A_UserMemory_Write_Decode e c a d
  | A_UserMemoryBit_Write_PDU _ c a am xm => A_UserMemoryBit_Write_Decode c a am xm
  | A_UserManufacturerInfo_Read_PDU => Ret "A_UserManufacturerInfo_Read"
  | A_UserManufacturerInfo_Response_PDU m d => Ret (A_UserManufacturerInfo_Response_Decode m d)
  | A_Restart_PDU => Ret "A_Restart"
  | A_Authorize_Request_PDU k => Ret (A_Authorize_Request_Decode k)
  | A_Authorize_Response_PDU l => Ret (A_Authorize_Response_Decode l)
  | A_Key_Write_PDU l k => Ret (A_Key_Write_Decode l k)
  | A_Key_Response_PDU l => Ret (A_Key_Response_Decode l)
  end.

(** ** Matching answers: [isResponse]

    Each method looks at the type of the request first and casts it then. *)

Definition A_IndividualAddressSerialNumber_isResponse (serno : CArray) (req : APDU) : bool :=
  match req with
  | A_IndividualAddressSerialNumber_Read_PDU s => bool_decide (s = serno)
  | _ => false
  end.

Definition A_PropertyValue_isResponse (obj prop count start : Z) (req : APDU) : bool :=
  match req with
  | A_PropertyValue_Write_PDU o p c s _ =>
      bool_decide (o = obj) && bool_decide (p = prop) && bool_decide (s = start) &&
      bool_decide (c = count)
  | A_PropertyValue_Read_PDU o p c s =>
      if decide (o <> obj) then false
      else if decide (p <> prop) then false
      else if decide (s <> start) then false
      else if decide (c <> count) then false
      else true
  | _ => false
  end.

Definition A_PropertyDescription_isResponse (obj : Z) (req : APDU) : bool :=
  match req with
  | A_PropertyDescription_Read_PDU o _ _ => if decide (o <> obj) then false else true
  | _ => false
  end.

Definition A_DeviceDescriptor_isResponse (type : Z) (req : APDU) : bool :=
  match req with
  | A_DeviceDescriptor_Read_PDU t => if decide (t <> type) then false else true
  | _ => false
  end.

Definition A_ADC_isResponse (channel count : Z) (req : APDU) : bool :=
  match req with
  | A_ADC_Read_PDU ch c =>
      if decide (c <> count) then false else if decide (ch <> channel) then false else true
  | _ => false
  end.

Definition A_Memory_isResponse (count addr : Z) (req : APDU) : bool :=
  match req with
  | A_Memory_Read_PDU c a =>
      if decide (c <> count) then false else if decide (a <> addr) then false else true
  | _ => false
  end.

Definition A_UserMemory_isResponse (addr_extension count addr : Z) (req : APDU) : bool :=
  match req with
  | A_UserMemory_Read_PDU e c a =>
      if decide (c <> count) then false
      else if decide (a <> addr) then false
      else if decide (e <> addr_extension) then false
      else true
  | _ => false
  end.

Definition A_Key_isResponse (level : Z) (req : APDU) : bool :=
  match req with
  | A_Key_Write_PDU l _ => bool_decide (l = level)
  | _ => false
  end.

Definition isResponse (a req : APDU) : bool :=
  match a with
  | A_GroupValue_Response_PDU _ _ => bool_decide (getType req = A_GroupValue_Read)
  | A_IndividualAddress_Response_PDU => bool_decide (getType req = A_IndividualAddress_Read)
  | A_IndividualAddressSerialNumber_Response_PDU s _ => A_IndividualAddressSerialNumber_isResponse s req
  | A_DomainAddress_Response_PDU _ => bool_decide (getType req = A_DomainAddress_Read)
  | A_PropertyValue_Response_PDU o p c s _ => A_PropertyValue_isResponse o p c s req
  | A_PropertyDescription_Response_PDU o _ _ _ _ _ => A_PropertyDescription_isResponse o req
  | A_DeviceDescriptor_Response_PDU t _ => A_DeviceDescriptor_isResponse t req
  | A_ADC_Response_PDU ch c _ => A_ADC_isResponse ch c req
  | A_Memory_Response_PDU c a _ => A_Memory_isResponse c a req
  | A_UserMemory_Response_PDU e c a _ => A_UserMemory_isResponse e c a req
  | A_UserManufacturerInfo_Response_PDU _ _ =>
      bool_decide (getType req = A_UserManufacturerInfo_Read)
  | A_Authorize_Response_PDU _ => bool_decide (getType req = A_Authorize_Request)
  | A_Key_Response_PDU l => A_Key_isResponse l req
  | _ => false
  end.

(** The methods, for [autounfold]. *)
Create HintDb topacket.
#[export] Hint Unfold
  A_GroupValue_Read_ToPacket A_GroupValue_Response_ToPacket A_GroupValue_Write_ToPacket
  A_IndividualAddress_Write_ToPacket A_IndividualAddress_Read_ToPacket
  A_IndividualAddress_Response_ToPacket A_IndividualAddressSerialNumber_Read_ToPacket
  A_IndividualAddressSerialNumber_Response_ToPacket
  A_IndividualAddressSerialNumber_Write_ToPacket A_ServiceInformation_Indication_Write_ToPacket
  A_DomainAddress_Write_ToPacket A_DomainAddress_Read_ToPacket
  A_DomainAddress_Response_ToPacket A_DomainAddressSelective_Read_ToPacket
  A_PropertyValue_Read_ToPacket A_PropertyValue_Response_ToPacket
  A_PropertyValue_Write_ToPacket A_PropertyDescription_Read_ToPacket
  A_PropertyDescription_Response_ToPacket A_DeviceDescriptor_Read_ToPacket
  A_DeviceDescriptor_Response_ToPacket A_ADC_Read_ToPacket A_ADC_Response_ToPacket
  A_Memory_Read_ToPacket A_Memory_Response_ToPacket A_Memory_Write_ToPacket
  A_MemoryBit_Write_ToPacket A_UserMemory_Read_ToPacket A_UserMemory_Response_ToPacket
  A_UserMemory_Write_ToPacket A_UserMemoryBit_Write_ToPacket
  A_UserManufacturerInfo_Read_ToPacket A_UserManufacturerInfo_Response_ToPacket
  A_Restart_ToPacket A_Authorize_Request_ToPacket A_Authorize_Response_ToPacket
  A_Key_Write_ToPacket A_Key_Response_ToPacket : topacket.
Create HintDb decode.
#[export] Hint Unfold
  A_Unknown_Decode A_GroupValue_Response_Decode A_GroupValue_Write_Decode
  A_IndividualAddress_Write_Decode addSerno A_IndividualAddressSerialNumber_Read_Decode
  A_IndividualAddressSerialNumber_Response_Decode A_IndividualAddressSerialNumber_Write_Decode
  A_ServiceInformation_Indication_Write_Decode A_DomainAddress_Write_Decode
  A_DomainAddress_Response_Decode A_DomainAddressSelective_Read_Decode
  A_PropertyValue_Read_Decode A_PropertyValue_Response_Decode A_PropertyValue_Write_Decode
  A_PropertyDescription_Read_Decode A_PropertyDescription_Response_Decode
  A_DeviceDescriptor_Read_Decode A_DeviceDescriptor_Response_Decode A_ADC_Read_Decode
  A_ADC_Response_Decode A_Memory_Read_Decode A_Memory_Response_Decode A_Memory_Write_Decode
  addMasks A_MemoryBit_Write_Decode addUserMemory A_UserMemory_Read_Decode
  A_UserMemory_Response_Decode A_UserMemory_Write_Decode A_UserMemoryBit_Write_Decode
  A_UserManufacturerInfo_Response_Decode A_Authorize_Request_Decode A_Authorize_Response_Decode
  A_Key_Write_Decode A_Key_Response_Decode : decode.
