(* ===== verification/ApduRound.v ===== *)
(** * Application layer packets: round trips

    Encoding with [ToPacket] and parsing with [APDU::fromPacket]. *)

From S2P Require Import Prelude CArray Common Apdu ApduSpec.

(** What the receiver makes of a packet that was written as [c].  Three encoders
    write a code that is not theirs, and the packet comes back unknown: a
    serial-number write (0xDD for 0xDE), a selective domain read (0xE2 for 0xE3)
    and a device descriptor response (tag 0x01 for 0x40).  Two lose a field: a
    service information its duplicate-address flag, a user memory bit write its
    address extension.  And a group value without data that is not marked small
    has the bytes of the small value zero. *)
Definition reread (a : APDU) (c : CArray) : APDU :=
  match a with
  | A_IndividualAddressSerialNumber_Write_PDU _ _
  | A_DomainAddressSelective_Read_PDU _ _ _
  | A_DeviceDescriptor_Response_PDU _ _ => A_Unknown_PDU c
  | A_ServiceInformation_Indication_Write_PDU v _ s =>
      A_ServiceInformation_Indication_Write_PDU v false s
  | A_UserMemoryBit_Write_PDU _ n addr am xm => A_UserMemoryBit_Write_PDU 0 n addr am xm
  | A_GroupValue_Response_PDU false [] => A_GroupValue_Response_PDU true [0]
  | A_GroupValue_Write_PDU false [] => A_GroupValue_Write_PDU true [0]
  | a => a
  end.

(** The packets that come back as they were sent; an unknown packet can hold the
    bytes of any other class. *)
Definition reencodes (a : APDU) : bool :=
  match a with
  | A_Unknown_PDU _ => false
  | A_IndividualAddressSerialNumber_Write_PDU _ _ => false
  | A_ServiceInformation_Indication_Write_PDU _ dup _ => negb dup
  | A_DomainAddressSelective_Read_PDU _ _ _ => false
  | A_DeviceDescriptor_Response_PDU _ _ => false
  | A_UserMemoryBit_Write_PDU e _ _ _ _ => bool_decide (e = 0)
  | A_GroupValue_Response_PDU false [] | A_GroupValue_Write_PDU false [] => false
  | _ => true
  end.

Lemma reencodes_reread a c : getType a <> A_Unknown -> reencodes a = true <-> reread a c = a.
Proof.
  intros Ht. destruct a; try done; simpl.
  - by destruct issmall, data.
  - by destruct issmall, data.
  - by destruct duplicate_address.
  - rewrite bool_decide_eq_true. split; [by intros ->|congruence].
Qed.

Lemma fromPacket_select c0 c1 c init :
  APDU_select c0 c1 = Some init ->
  APDU_fromPacket (c0 :: c1 :: c) =
  (r ← init (c0 :: c1 :: c);
   match r with Some a => Ret a | None => Ret (A_Unknown_PDU (c0 :: c1 :: c)) end).
Proof.
  intros H. unfold APDU_fromPacket. rewrite decide_True by (unfold size; simpl; lia).
  simpl. by rewrite H.
Qed.

(** The parser of a packet's own class. *)
Definition init_of (a : APDU) : CArray -> outcome (option APDU) :=
  match a with
  | A_Unknown_PDU _ => fun c => Ret (Some (A_Unknown_init c))
  | A_GroupValue_Read_PDU => A_GroupValue_Read_init
  | A_GroupValue_Response_PDU _ _ => A_GroupValue_Response_init
  | A_GroupValue_Write_PDU _ _ => A_GroupValue_Write_init
  | A_IndividualAddress_Read_PDU => A_IndividualAddress_Read_init
  | A_IndividualAddress_Response_PDU => A_IndividualAddress_Response_init
  | A_IndividualAddress_Write_PDU _ => A_IndividualAddress_Write_init
  | A_IndividualAddressSerialNumber_Read_PDU _ => A_IndividualAddressSerialNumber_Read_init
  | A_IndividualAddressSerialNumber_Response_PDU _ _ => A_IndividualAddressSerialNumber_Response_init
  | A_IndividualAddressSerialNumber_Write_PDU _ _ => A_IndividualAddressSerialNumber_Write_init
  | A_ServiceInformation_Indication_Write_PDU _ _ _ => A_ServiceInformation_Indication_Write_init
  | A_DomainAddress_Write_PDU _ => A_DomainAddress_Write_init
  | A_DomainAddress_Read_PDU => A_DomainAddress_Read_init
  | A_DomainAddress_Response_PDU _ => A_DomainAddress_Response_init
  | A_DomainAddressSelective_Read_PDU _ _ _ => A_DomainAddressSelective_Read_init
  | A_PropertyValue_Read_PDU _ _ _ _ => A_PropertyValue_Read_init
  | A_PropertyValue_Response_PDU _ _ _ _ _ => A_PropertyValue_Response_init
  | A_PropertyValue_Write_PDU _ _ _ _ _ => A_PropertyValue_Write_init
  | A_PropertyDescription_Read_PDU _ _ _ => A_PropertyDescription_Read_init
  | A_PropertyDescription_Response_PDU _ _ _ _ _ _ => A_PropertyDescription_Response_init
  | A_DeviceDescriptor_Read_PDU _ => A_DeviceDescriptor_Read_init
  | A_DeviceDescriptor_Response_PDU _ _ => A_DeviceDescriptor_Response_init
  | A_ADC_Read_PDU _ _ => A_ADC_Read_init
  | A_ADC_Response_PDU _ _ _ => A_ADC_Response_init
  | A_Memory_Read_PDU _ _ => A_Memory_Read_init
  | A_Memory_Response_PDU _ _ _ => A_Memory_Response_init
  | A_Memory_Write_PDU _ _ _ => A_Memory_Write_init
  | A_MemoryBit_Write_PDU _ _ _ _ => A_MemoryBit_Write_init
  | A_UserMemory_Read_PDU _ _ _ => A_UserMemory_Read_init
  | A_UserMemory_Response_PDU _ _ _ _ => A_UserMemory_Response_init
  | A_UserMemory_Write_PDU _ _ _ _ => A_UserMemory_Write_init
  | A_UserMemoryBit_Write_PDU _ _ _ _ _ => A_UserMemoryBit_Write_init
  | A_UserManufacturerInfo_Read_PDU => A_UserManufacturerInfo_Read_init
  | A_UserManufacturerInfo_Response_PDU _ _ => A_UserManufacturerInfo_Response_init
  | A_Restart_PDU => A_Restart_init
  | A_Authorize_Request_PDU _ => A_Authorize_Request_init
  | A_Authorize_Response_PDU _ => A_Authorize_Response_init
  | A_Key_Write_PDU _ _ => A_Key_Write_init
  | A_Key_Response_PDU _ => A_Key_Response_init
  end.

Lemma parse_back c0 c1 c a :
  APDU_select c0 c1 = Some (init_of a) -> init_of a (c0 :: c1 :: c) = Ret (Some a) ->
  APDU_fromPacket (c0 :: c1 :: c) = Ret a.
Proof. intros Hs Hi. by rewrite (fromPacket_select _ _ _ _ Hs), Hi. Qed.

(** A six-bit field below the two tag bits does not change the selection. *)
Lemma select_tagged k t d init :
  Forall (fun d => APDU_select k (u8 (Z.lor t d)) = Some init) (below 64) ->
  0 <= d < 64 -> APDU_select k (u8 (Z.lor t d)) = Some init.
Proof.
  intros H Hd. rewrite Forall_forall in H. apply H, list_elem_of_In, elem_of_seqZ. lia.
Qed.

Lemma land_0f_small d : 0 <= d < 16 -> Z.land d 0x0f = d.
Proof. exact (land_ones_small 4 d ltac:(lia)). Qed.
Lemma land_3f_small d : 0 <= d < 64 -> Z.land d 0x3f = d.
Proof. exact (land_ones_small 6 d ltac:(lia)). Qed.

(** Two nibbles written by [ToPacket] and read by [init]. *)
Lemma nibble_hi h l :
  0 <= h < 16 ->
  Z.land (u8 (Z.lor (Z.land h 0x0f ≪ 4) (Z.land l 0x0f)) ≫ 4) 0x0f = h.
Proof.
  intros Hh. destruct (nibbles h (Z.land l 0x0f) Hh (land_0f l)) as (H1 & H2 & H3).
  by rewrite (land_0f_small h), u8_small.
Qed.

Lemma nibble_lo h l :
  0 <= h < 16 ->
  Z.land (u8 (Z.lor (Z.land h 0x0f ≪ 4) (Z.land l 0x0f))) 0x0f = Z.land l 0x0f.
Proof.
  intros Hh. destruct (nibbles h (Z.land l 0x0f) Hh (land_0f l)) as (H1 & H2 & H3).
  by rewrite (land_0f_small h), u8_small.
Qed.

Lemma start_join s : 0 <= s < 4096 -> u16 (be16 (Z.land (s ≫ 8) 0x0f) (u8 s)) = s.
Proof.
  intros Hs. rewrite land_0f_small.
  - unfold be16. rewrite <-(u8_small (s ≫ 8)), be16_join, u16_u16, u16_small; [done|..];
      unfold is_u16, is_u8; rewrite ?Z.shiftr_div_pow2 by lia; change (2 ^ 8) with 256;
      Z.to_euclidean_division_equations; lia.
  - rewrite Z.shiftr_div_pow2 by lia. change (2 ^ 8) with 256.
    Z.to_euclidean_division_equations; lia.
Qed.

Lemma s16_join v : - 32768 <= v < 32768 -> s16 (be16 (u8 (v ≫ 8)) (u8 v)) = v.
Proof.
  intros Hv. unfold s16, be16. rewrite be16_join, u16_u16, u16_mod.
  destruct (decide _); Z.to_euclidean_division_equations; lia.
Qed.

Lemma be16_field z : is_u16 z -> u16 (be16 (u8 (z ≫ 8)) (u8 z)) = z.
Proof. intros. unfold be16. rewrite be16_join, u16_u16. by apply u16_small. Qed.

Lemma be32_field z :
  is_u32 z -> u32 (be32 (u8 (z ≫ 24)) (u8 (z ≫ 16)) (u8 (z ≫ 8)) (u8 z)) = z.
Proof. intros. unfold be32. rewrite be32_join, u32_u32. by apply u32_small. Qed.

(** A tagged byte keeps its field. *)
Lemma tagged_3f t d :
  t ∈ tags -> 0 <= d < 64 -> Z.land (u8 (Z.lor t (Z.land d 0x3f))) 0x3f = d.
Proof.
  intros Ht Hd. rewrite (land_3f_small d) by lia.
  destruct (tag_field t d Ht Hd) as (H1 & H2 & H3). by rewrite u8_small.
Qed.

Lemma tagged_0f t d :
  t ∈ tags -> 0 <= d < 16 -> Z.land (u8 (Z.lor t (Z.land d 0x0f))) 0x0f = d.
Proof.
  intros Ht Hd. rewrite (land_0f_small d) by lia.
  destruct (tag_field t d Ht ltac:(lia)) as (H1 & H2 & H3). rewrite u8_small by done.
  change (Z.land (Z.lor t d) (Z.land 0x3f 0x0f) = d).
  by rewrite Z.land_assoc, H3, land_0f_small by lia.
Qed.

Ltac fields :=
  rewrite ?land_ff, ?u8_u8;
  repeat first
    [ rewrite be16_field by (assumption || lia)
    | rewrite be32_field by (assumption || lia)
    | rewrite s16_join by (assumption || lia)
    | rewrite tagged_3f by (assumption || lia || (apply (bool_decide_unpack _); exact I))
    | rewrite tagged_0f by (assumption || lia || (apply (bool_decide_unpack _); exact I))
    | rewrite nibble_hi by (assumption || lia)
    | rewrite nibble_lo by (assumption || lia)
    | rewrite start_join by (assumption || lia)
    | rewrite land_0f_small by lia
    | rewrite u8_small by (assumption || (unfold is_u8; lia)) ].

Ltac find_class :=
  lazymatch goal with
  | |- APDU_select _ (u8 (Z.lor _ ?d)) = _ =>
      apply select_tagged;
      [ let l := eval vm_compute in (below 64) in change (below 64) with l;
        repeat (constructor; [reflexivity|]); constructor
      | first [apply land_3f | split; apply land_0f || (eapply Z.lt_trans; [apply land_0f|lia])] ]
  | _ => reflexivity
  end.

(** Reading back what was written. *)
Lemma slice_cons x c off n : slice (x :: c) (S off) n = slice c off n.
Proof.
  unfold slice, size. simpl. destruct (decide (off + n <= length c)%nat), (decide _); done || lia.
Qed.

Lemma slice_all c n : n = size c -> slice c 0 n = Ret c.
Proof. intros ->. rewrite slice_ok by lia. by rewrite drop_0, firstn_all. Qed.

Lemma slice_first a b n : n = size a -> slice (a ++ b) 0 n = Ret a.
Proof.
  intros ->. rewrite slice_ok by (unfold size; rewrite length_app; lia).
  rewrite drop_0. f_equal. apply take_app_length.
Qed.

Lemma slice_second a b m n : m = size a -> n = size b -> slice (a ++ b) m n = Ret b.
Proof.
  intros -> ->. rewrite slice_ok by (unfold size; rewrite length_app; lia).
  unfold size. rewrite drop_app_length. by rewrite firstn_all.
Qed.

Ltac in_sizes := unfold size in *; cbn [length] in *; rewrite ?length_app; (reflexivity || lia).

Ltac read_back :=
  repeat first
    [ progress cbn [at_ lookup list_lookup mbind outcome_bind Nat.add Nat.sub]
    | match goal with
      | |- context [decide ?P] =>
          first [ rewrite (decide_True (P := P)) by in_sizes
                | rewrite (decide_False (P := P)) by in_sizes ]
      end
    | rewrite slice_cons
    | rewrite slice_first by in_sizes
    | rewrite slice_second by in_sizes
    | rewrite slice_all by in_sizes ].

(** A selected parser that rejects the packet leaves it unknown. *)
Lemma parse_unknown c0 c1 c init :
  APDU_select c0 c1 = Some init -> init (c0 :: c1 :: c) = Ret None ->
  APDU_fromPacket (c0 :: c1 :: c) = Ret (A_Unknown_PDU (c0 :: c1 :: c)).
Proof. intros Hs Hi. by rewrite (fromPacket_select _ _ _ _ Hs), Hi. Qed.

Lemma parsed_as a c :
  apdu_wf a -> getType a <> A_Unknown -> APDU_ToPacket a = Ret c ->
  APDU_fromPacket c = Ret (reread a c).
Proof.
  intros H Ht. destruct a; try done; cbn [APDU_ToPacket reread]; run_method H; intros [= <-].
  all: try match goal with d : CArray |- context [match ?d with _ => _ end] => destruct d end.
  all: try (eapply parse_unknown; [find_class | reflexivity]).
  all: apply parse_back; cbn [init_of]; [find_class|].
  all: match goal with |- ?f _ = _ => unfold f, need, atleast end.
  all: try match goal with
       | |- context [nz] => destruct verify_mode, duplicate_address, appl_stopped; reflexivity
       end; read_back; fields; read_back; first [reflexivity | by subst].
Qed.

Lemma round_trip a :
  apdu_wf a -> reencodes a = true -> (c ← APDU_ToPacket a; APDU_fromPacket c) = Ret a.
Proof.
  intros H Hr. assert (getType a <> A_Unknown) as Ht by (by destruct a).
  destruct (APDU_ToPacket_returns a H) as [c Hc]. rewrite Hc, bind_Ret, (parsed_as a c) by done.
  f_equal. by apply reencodes_reread.
Qed.

(** C39: encoding and parsing are inverse but for the exceptions of [reread]: the
    bytes [ToPacket] writes for a packet of any class but the unknown one, with
    fields in the ranges of their types that satisfy the assertions of
    [ToPacket], are parsed to that packet, field by field. The exceptions: a
    serial-number write, a selective domain read and a device descriptor
    response are parsed as unknown packets, a service information loses its
    duplicate-address flag, a user memory bit write its address extension, and
    an empty group value that is not marked small comes back as the small value
    zero. *)
Theorem APDU_roundtrip a :
  apdu_wf a -> getType a <> A_Unknown ->
  exists c, APDU_ToPacket a = Ret c /\ APDU_fromPacket c = Ret (reread a c).
Proof.
  intros H Ht. destruct (APDU_ToPacket_returns a H) as [c Hc]. exists c.
  split; [done|]. by apply parsed_as.
Qed.

Lemma APDU_roundtrip_witness :
  exists c, APDU_ToPacket (A_PropertyValue_Write_PDU 1 56 3 0x123 [7; 8; 9]) = Ret c /\
    APDU_fromPacket c = Ret (A_PropertyValue_Write_PDU 1 56 3 0x123 [7; 8; 9]).
Proof.
  apply (APDU_roundtrip (A_PropertyValue_Write_PDU 1 56 3 0x123 [7; 8; 9])); [|discriminate].
  cbn [apdu_wf]. unfold prop_wf. split; decided.
Defined.

(** Exactly the packets [reencodes] leaves out are read as something else by the
    parser of this very daemon. *)
Theorem APDU_misencoded a :
  apdu_wf a -> getType a <> A_Unknown -> reencodes a = false ->
  exists c, APDU_ToPacket a = Ret c /\ APDU_fromPacket c = Ret (reread a c) /\ reread a c <> a.
Proof.
  intros H Ht Hr. destruct (APDU_ToPacket_returns a H) as [c Hc]. exists c.
  split_and!; [done|by apply parsed_as|].
  intros E%(reencodes_reread a c Ht). by rewrite E in Hr.
Qed.

Lemma APDU_misencoded_witness :
  exists c, APDU_ToPacket (A_DeviceDescriptor_Response_PDU 0 0x0701) = Ret c /\
    APDU_fromPacket c = Ret (A_Unknown_PDU c) /\
    A_Unknown_PDU c <> A_DeviceDescriptor_Response_PDU 0 0x0701.
Proof.
  apply (APDU_misencoded (A_DeviceDescriptor_Response_PDU 0 0x0701)).
  - decided.
  - discriminate.
  - reflexivity.
Defined.

(** ** Answers

    Which packet answers which request: the service and, where the request
    names an object, the same object. *)
Inductive answers : APDU -> APDU -> Prop :=
| ans_group s d : answers (A_GroupValue_Response_PDU s d) A_GroupValue_Read_PDU
| ans_individual : answers A_IndividualAddress_Response_PDU A_IndividualAddress_Read_PDU
| ans_serno s a :
    answers (A_IndividualAddressSerialNumber_Response_PDU s a)
            (A_IndividualAddressSerialNumber_Read_PDU s)
| ans_domain a : answers (A_DomainAddress_Response_PDU a) A_DomainAddress_Read_PDU
| ans_prop_read o p c s d :
    answers (A_PropertyValue_Response_PDU o p c s d) (A_PropertyValue_Read_PDU o p c s)
| ans_prop_write o p c s d d' :
    answers (A_PropertyValue_Response_PDU o p c s d) (A_PropertyValue_Write_PDU o p c s d')
| ans_descr o p i t c a p' i' :
    answers (A_PropertyDescription_Response_PDU o p i t c a)
            (A_PropertyDescription_Read_PDU o p' i')
| ans_device t d : answers (A_DeviceDescriptor_Response_PDU t d) (A_DeviceDescriptor_Read_PDU t)
| ans_adc ch c v : answers (A_ADC_Response_PDU ch c v) (A_ADC_Read_PDU ch c)
| ans_memory c a d : answers (A_Memory_Response_PDU c a d) (A_Memory_Read_PDU c a)
| ans_user e c a d : answers (A_UserMemory_Response_PDU e c a d) (A_UserMemory_Read_PDU e c a)
| ans_manufacturer m d :
    answers (A_UserManufacturerInfo_Response_PDU m d) A_UserManufacturerInfo_Read_PDU
| ans_auth l k : answers (A_Authorize_Response_PDU l) (A_Authorize_Request_PDU k)
| ans_key l k : answers (A_Key_Response_PDU l) (A_Key_Write_PDU l k).

(** [isResponse] holds exactly between a response and a request of the
    matching service for the same object; in particular no packet answers a
    response, and only requests have answers. *)
Theorem isResponse_answers a req : isResponse a req = true <-> answers a req.
Proof.
  split.
  - destruct a; try discriminate; destruct req; try discriminate; simpl;
      repeat case_decide; try discriminate; repeat rewrite andb_true_iff;
      rewrite ?bool_decide_eq_true; intros; destruct_and?; simplify_eq; try constructor.
    all: repeat match goal with H : ~ _ <> _ |- _ => apply dec_stable in H end; simplify_eq; constructor.
  - destruct 1; simpl; repeat case_decide; try done; by rewrite ?bool_decide_true by done.
Qed.
