(* ===== verification/Tpdu.v ===== *)
(** * Transport layer packets

    Models src/src/libserver/tpdu.h and src/src/libserver/tpdu.cpp: the classes
    below [TPDU] as the constructors of one type, with [init], [ToPacket] and
    [Decode] of each and [TPDU::fromPacket].  The payload kept by the two data
    classes is the whole packet, control bits included, as in the source. *)

From S2P Require Import Prelude CArray Common Apdu ApduSpec.

Local Open Scope string_scope.
Local Open Scope Z_scope.

Inductive TPDU_Type :=
| T_UNKNOWN
| T_DATA_XXX_REQ
| T_DATA_CONNECTED_REQ
| T_CONNECT_REQ
| T_DISCONNECT_REQ
| T_ACK
| T_NACK.

Inductive TPDU :=
| T_UNKNOWN_PDU (pdu : CArray)
| T_DATA_XXX_REQ_PDU (data : CArray)
| T_DATA_CONNECTED_REQ_PDU (serno : Z) (data : CArray)
| T_CONNECT_REQ_PDU
| T_DISCONNECT_REQ_PDU
| T_ACK_PDU (serno : Z)
| T_NACK_PDU (serno : Z).

#[export] Instance TPDU_Type_eq_dec : EqDecision TPDU_Type.
Proof. solve_decision. Defined.
#[export] Instance TPDU_eq_dec : EqDecision TPDU.
Proof. solve_decision. Defined.

Definition TPDU_getType (t : TPDU) : TPDU_Type :=
  match t with
  | T_UNKNOWN_PDU _ => T_UNKNOWN
  | T_DATA_XXX_REQ_PDU _ => T_DATA_XXX_REQ
  | T_DATA_CONNECTED_REQ_PDU _ _ => T_DATA_CONNECTED_REQ
  | T_CONNECT_REQ_PDU => T_CONNECT_REQ
  | T_DISCONNECT_REQ_PDU => T_DISCONNECT_REQ
  | T_ACK_PDU _ => T_ACK
  | T_NACK_PDU _ => T_NACK
  end.

(** ** Parsing *)

Definition T_UNKNOWN_init (c : CArray) : TPDU := T_UNKNOWN_PDU c.

Definition T_DATA_XXX_REQ_init (c : CArray) : outcome (option TPDU) :=
  if decide (size c < 1)%nat then Ret None else Ret (Some (T_DATA_XXX_REQ_PDU c)).

Definition T_DATA_CONNECTED_REQ_init (c : CArray) : outcome (option TPDU) :=
  if decide (size c < 1)%nat then Ret None
  else c0 ← at_ c 0; Ret (Some (T_DATA_CONNECTED_REQ_PDU (Z.land (c0 ≫ 2) 0x0f) c)).

Definition T_CONNECT_REQ_init (c : CArray) : outcome (option TPDU) :=
  if decide (size c <> 1%nat) then Ret None else Ret (Some T_CONNECT_REQ_PDU).

Definition T_DISCONNECT_REQ_init (c : CArray) : outcome (option TPDU) :=
  if decide (size c <> 1%nat) then Ret None else Ret (Some T_DISCONNECT_REQ_PDU).

Definition T_ACK_init (c : CArray) : outcome (option TPDU) :=
  if decide (size c <> 1%nat) then Ret None
  else c0 ← at_ c 0; Ret (Some (T_ACK_PDU (Z.land (c0 ≫ 2) 0x0f))).

Definition T_NACK_init (c : CArray) : outcome (option TPDU) :=
  if decide (size c <> 1%nat) then Ret None
  else c0 ← at_ c 0; Ret (Some (T_NACK_PDU (Z.land (c0 ≫ 2) 0x0f))).

Definition TPDU_fromPacket (c : CArray) : outcome TPDU :=
  t ← (if decide (1 <= size c)%nat then
         c0 ← at_ c 0;
         if decide (Z.land c0 0xfc = 0) then T_DATA_XXX_REQ_init c
         else if decide (c0 = 0x80) then T_CONNECT_REQ_init c
         else if decide (c0 = 0x81) then T_DISCONNECT_REQ_init c
         else if decide (Z.land c0 0xC3 = 0xC2) then T_ACK_init c
         else if decide (Z.land c0 0xC3 = 0xC3) then T_NACK_init c
         else if decide (Z.land c0 0xC0 = 0x40) then T_DATA_CONNECTED_REQ_init c
         else Ret None
       else Ret None);
  match t with
  | Some t => Ret t
  | None => Ret (T_UNKNOWN_init c)
  end.

(** ** Encoding *)

Definition T_DATA_XXX_REQ_ToPacket (data : CArray) : outcome CArray :=
  _ ← assert_ (bool_decide (0 < size data)%nat);
  p0 ← at_ data 0;
  put data 0 (Z.land p0 0x3).

Definition T_DATA_CONNECTED_REQ_ToPacket (serno : Z) (data : CArray) : outcome CArray :=
  _ ← assert_ (bool_decide (0 < size data)%nat);
  _ ← assert_ (bool_decide (Z.land serno 0xf0 = 0));
  p0 ← at_ data 0;
  put data 0 (Z.lor (Z.lor (Z.land p0 0x3) 0x40) (Z.land serno 0x0f ≪ 2)).

Definition T_CONNECT_REQ_ToPacket : outcome CArray := Ret [0x80].

Definition T_DISCONNECT_REQ_ToPacket : outcome CArray := Ret [0x81].

Definition T_ACK_ToPacket (serno : Z) : outcome CArray :=
  _ ← assert_ (bool_decide (Z.land serno 0xf0 = 0));
  Ret [u8 (Z.lor 0xC2 (Z.land serno 0x0f ≪ 2))].

Definition T_NACK_ToPacket (serno : Z) : outcome CArray :=
  _ ← assert_ (bool_decide (Z.land serno 0xf0 = 0));
  Ret [u8 (Z.lor 0xC3 (Z.land serno 0x0f ≪ 2))].

Definition TPDU_ToPacket (t : TPDU) : outcome CArray :=
  match t with
  | T_UNKNOWN_PDU pdu => Ret pdu
  | T_DATA_XXX_REQ_PDU data => T_DATA_XXX_REQ_ToPacket data
  | T_DATA_CONNECTED_REQ_PDU serno data => T_DATA_CONNECTED_REQ_ToPacket serno data
  | T_CONNECT_REQ_PDU => T_CONNECT_REQ_ToPacket
  | T_DISCONNECT_REQ_PDU => T_DISCONNECT_REQ_ToPacket
  | T_ACK_PDU serno => T_ACK_ToPacket serno
  | T_NACK_PDU serno => T_NACK_ToPacket serno
  end.

(** ** Printing *)

Definition T_UNKNOWN_Decode (pdu : CArray) : string :=
  if decide (size pdu = 0%nat) then "empty TPDU" else addHexAll "Unknown TPDU: " pdu.

Definition T_DATA_XXX_REQ_Decode (data : CArray) : outcome string :=
  a ← APDU_fromPacket data;
  d ← APDU_Decode a;
  Ret ("T_DATA_XXX_REQ " +:+ d).

Definition T_DATA_CONNECTED_REQ_Decode (serno : Z) (data : CArray) : outcome string :=
  _ ← assert_ (bool_decide (Z.land serno 0xf0 = 0));
  a ← APDU_fromPacket data;
  d ← APDU_Decode a;
  Ret (addHex "T_DATA_CONNECTED_REQ serno:" serno +:+ d).

Definition T_ACK_Decode (serno : Z) : outcome string :=
  _ ← assert_ (bool_decide (Z.land serno 0xf0 = 0));
  Ret (addHex "T_ACK Serno:" serno).

Definition T_NACK_Decode (serno : Z) : outcome string :=
  _ ← assert_ (bool_decide (Z.land serno 0xf0 = 0));
  Ret (addHex "T_NACK Serno:" serno).

Definition TPDU_Decode (t : TPDU) : outcome string :=
  match t with
  | T_UNKNOWN_PDU pdu => Ret (T_UNKNOWN_Decode pdu)
  | T_DATA_XXX_REQ_PDU data => T_DATA_XXX_REQ_Decode data
  | T_DATA_CONNECTED_REQ_PDU serno data => T_DATA_CONNECTED_REQ_Decode serno data
  | T_CONNECT_REQ_PDU => Ret "T_CONNECT_REQ"
  | T_DISCONNECT_REQ_PDU => Ret "T_DISCONNECT_REQ"
  | T_ACK_PDU serno => T_ACK_Decode serno
  | T_NACK_PDU serno => T_NACK_Decode serno
  end.

(** ** Well-formed packets *)

Definition tpdu_wf (t : TPDU) : Prop :=
  match t with
  | T_UNKNOWN_PDU pdu => bytes pdu
  | T_DATA_XXX_REQ_PDU data => bytes data /\ data <> []
  | T_DATA_CONNECTED_REQ_PDU serno data => bytes data /\ data <> [] /\ 0 <= serno < 16
  | T_CONNECT_REQ_PDU | T_DISCONNECT_REQ_PDU => True
  | T_ACK_PDU serno | T_NACK_PDU serno => 0 <= serno < 16
  end.

(** The control byte is rebuilt from the field that was read from it. *)
Lemma xxx_byte b : is_u8 b -> Z.land b 0xfc = 0 -> u8 (Z.land b 0x3) = b.
Proof. intros Hb. by_bytes b. Qed.
Lemma connected_byte b :
  is_u8 b -> Z.land b 0xC0 = 0x40 ->
  u8 (Z.lor (Z.lor (Z.land b 0x3) 0x40) (Z.land (Z.land (b ≫ 2) 0x0f) 0x0f ≪ 2)) = b.
Proof. intros Hb. by_bytes b. Qed.
Lemma ack_byte b :
  is_u8 b -> Z.land b 0xC3 = 0xC2 ->
  u8 (Z.lor 0xC2 (Z.land (Z.land (b ≫ 2) 0x0f) 0x0f ≪ 2)) = b.
Proof. intros Hb. by_bytes b. Qed.
Lemma nack_byte b :
  is_u8 b -> Z.land b 0xC3 = 0xC3 ->
  u8 (Z.lor 0xC3 (Z.land (Z.land (b ≫ 2) 0x0f) 0x0f ≪ 2)) = b.
Proof. intros Hb. by_bytes b. Qed.

Lemma serno_assert z : assert_ (bool_decide (Z.land (Z.land z 0x0f) 0xf0 = 0)) = Ret tt.
Proof. apply assert_f0, land_0f. Qed.

(** What the parser returns is well-formed and encodes to the packet. *)
Lemma TPDU_fromPacket_wf c :
  bytes c ->
  returns_with (fun t => tpdu_wf t /\ TPDU_ToPacket t = Ret c) (TPDU_fromPacket c).
Proof.
  intros Hc. destruct c as [|c0 c]; [by apply returns_with_Ret|].
  pose proof (proj1 (proj1 (bytes_cons _ _) Hc)) as Hb.
  pose proof (land_0f (c0 ≫ 2)) as Hs.
  unfold TPDU_fromPacket, T_DATA_XXX_REQ_init, T_CONNECT_REQ_init, T_DISCONNECT_REQ_init,
    T_ACK_init, T_NACK_init, T_DATA_CONNECTED_REQ_init, T_UNKNOWN_init, size; simpl.
  repeat case_decide; simpl; apply returns_with_Ret;
    (split; [by cbn|]); cbn [TPDU_ToPacket];
    unfold T_DATA_XXX_REQ_ToPacket, T_DATA_CONNECTED_REQ_ToPacket, T_ACK_ToPacket, T_NACK_ToPacket;
    rewrite ?serno_assert; cbn;
    rewrite ?xxx_byte, ?connected_byte, ?ack_byte, ?nack_byte by done;
    destruct c; simplify_eq; done.
Qed.

(** [TPDU::fromPacket] is total and loses nothing: every byte sequence is
    parsed without reading outside it, the result is well-formed, and encoding
    the result gives exactly the bytes that were parsed. *)
Theorem TPDU_parse_lossless c :
  bytes c ->
  exists t, TPDU_fromPacket c = Ret t /\ tpdu_wf t /\ TPDU_ToPacket t = Ret c.
Proof. apply TPDU_fromPacket_wf. Qed.

Lemma TPDU_parse_lossless_witness :
  exists t, TPDU_fromPacket [0x46; 0x80] = Ret t /\ tpdu_wf t /\
            TPDU_ToPacket t = Ret [0x46; 0x80].
Proof. apply TPDU_parse_lossless. decided. Defined.

Lemma APDU_print_returns c : bytes c -> returns (a ← APDU_fromPacket c; APDU_Decode a).
Proof.
  intros Hc. destruct (APDU_fromPacket_wf c Hc) as (a & -> & Ha). by apply APDU_Decode_returns.
Qed.

(** The text of a well-formed packet is always produced. *)
Lemma TPDU_Decode_returns t : tpdu_wf t -> returns (TPDU_Decode t).
Proof.
  destruct t; cbn [tpdu_wf TPDU_Decode]; intros H; try by eexists.
  - destruct (APDU_print_returns data) as [s Hs]; [apply H|].
    unfold T_DATA_XXX_REQ_Decode. apply bind_Ret_inv in Hs as (a & -> & Hs). simpl. rewrite Hs.
    by eexists.
  - destruct (APDU_print_returns data) as [s Hs]; [apply H|].
    unfold T_DATA_CONNECTED_REQ_Decode. rewrite assert_f0 by apply H.
    apply bind_Ret_inv in Hs as (a & -> & Hs). simpl. rewrite Hs. by eexists.
  - unfold T_ACK_Decode. rewrite assert_f0 by done. by eexists.
  - unfold T_NACK_Decode. rewrite assert_f0 by done. by eexists.
Qed.

(** Normal form of a data packet: the control bits above the APDU's first two
    are those [ToPacket] writes. *)
Definition tpdu_normal (t : TPDU) : Prop :=
  match t with
  | T_UNKNOWN_PDU _ => False
  | T_DATA_XXX_REQ_PDU (b :: _) => Z.land b 0xfc = 0
  | T_DATA_CONNECTED_REQ_PDU serno (b :: _) =>
      Z.land b 0xC0 = 0x40 /\ Z.land (b ≫ 2) 0x0f = serno
  | _ => True
  end.

Lemma ack_back s :
  0 <= s < 16 -> TPDU_fromPacket [u8 (Z.lor 0xC2 (Z.land s 0x0f ≪ 2))] = Ret (T_ACK_PDU s).
Proof. intros Hs. assert (is_u8 s) as Hb by (unfold is_u8; lia). revert Hs. by_bytes s. Qed.
Lemma nack_back s :
  0 <= s < 16 -> TPDU_fromPacket [u8 (Z.lor 0xC3 (Z.land s 0x0f ≪ 2))] = Ret (T_NACK_PDU s).
Proof. intros Hs. assert (is_u8 s) as Hb by (unfold is_u8; lia). revert Hs. by_bytes s. Qed.

Lemma connected_tag b :
  is_u8 b -> Z.land b 0xC0 = 0x40 ->
  Z.land b 0xfc <> 0 /\ b <> 0x80 /\ b <> 0x81 /\ Z.land b 0xC3 <> 0xC2 /\ Z.land b 0xC3 <> 0xC3.
Proof. intros Hb. by_bytes b. Qed.

(** The sequence number and the payload of a transport packet survive the
    wire: a well-formed packet whose payload carries its own control bits is
    parsed back from its encoding unchanged, acknowledgements included. *)
Theorem TPDU_roundtrip t :
  tpdu_wf t -> tpdu_normal t -> (c ← TPDU_ToPacket t; TPDU_fromPacket c) = Ret t.
Proof.
  destruct t as [p|d|s d| | |s|s]; cbn [tpdu_wf tpdu_normal]; intros Hw Hn; try done.
  - destruct d as [|b d]; [by destruct Hw|]. destruct Hw as [Hb _].
    apply bytes_cons in Hb as [Hb _].
    change (TPDU_fromPacket (u8 (Z.land b 0x3) :: d) = Ret (T_DATA_XXX_REQ_PDU (b :: d))).
    rewrite xxx_byte by done. unfold TPDU_fromPacket, T_DATA_XXX_REQ_init, size. simpl.
    rewrite (decide_True (P := Z.land b 0xfc = 0)) by done. done.
  - destruct d as [|b d]; [by destruct Hw as (_ & Hw & _)|]. destruct Hw as (Hb & _ & Hs), Hn as [Hn <-].
    apply bytes_cons in Hb as [Hb _].
    cbn [TPDU_ToPacket]. unfold T_DATA_CONNECTED_REQ_ToPacket. rewrite serno_assert.
    cbn [put at_ lookup list_lookup mbind outcome_bind].
    change (assert_ _) with (Ret tt). cbn [mbind outcome_bind].
    rewrite connected_byte by done. destruct (connected_tag b Hb Hn) as (?&?&?&?&?).
    unfold TPDU_fromPacket, T_DATA_CONNECTED_REQ_init, size. simpl.
    do 5 (rewrite decide_False by done). rewrite decide_True by done. done.
  - cbn [TPDU_ToPacket]. unfold T_ACK_ToPacket. rewrite assert_f0 by done. by apply ack_back.
  - cbn [TPDU_ToPacket]. unfold T_NACK_ToPacket. rewrite assert_f0 by done. by apply nack_back.
Qed.

Lemma TPDU_roundtrip_witness :
  (c ← TPDU_ToPacket (T_DATA_CONNECTED_REQ_PDU 5 [0x57; 0xD5; 1; 2; 0x10; 1]); TPDU_fromPacket c)
  = Ret (T_DATA_CONNECTED_REQ_PDU 5 [0x57; 0xD5; 1; 2; 0x10; 1]).
Proof.
  apply TPDU_roundtrip; [|by split]. split; [decided | by split].
Defined.
