(* ===== verification/Lpdu.v ===== *)
(** * Link layer frames

    Models src/src/libserver/lpdu.h and src/src/libserver/lpdu.cpp: the TP1
    frames as they appear on the bus.  [L_Data_PDU] is a record with the fields
    of the class; the other classes below [LPDU] are constructors. *)

From S2P Require Import Prelude CArray Common Apdu ApduSpec Tpdu.

Local Open Scope string_scope.
Local Open Scope Z_scope.

Record L_Data_PDU := mkL_Data {
  prio : EIB_Priority;
  repeated : bool;
  valid_checksum : bool;
  valid_length : bool;
  AddrType : EIB_AddrType;
  source : Z;
  dest : Z;
  hopcount : Z;
  data : CArray
}.

#[export] Instance L_Data_PDU_eq_dec : EqDecision L_Data_PDU.
Proof. solve_decision. Defined.

(** The constructor [L_Data_PDU ()]. *)
Definition L_Data_PDU_new : L_Data_PDU :=
  mkL_Data PRIO_LOW false true true IndividualAddress 0 0 0x06 [].

(** The two switches on priorities. *)
Definition prio_code (p : EIB_Priority) : Z :=
  match p with
  | PRIO_LOW => 0x3
  | PRIO_NORMAL => 0x1
  | PRIO_URGENT => 0x02
  | PRIO_SYSTEM => 0x00
  end.

Definition code_prio (c : Z) : EIB_Priority :=
  if decide (c = 0) then PRIO_SYSTEM
  else if decide (c = 1) then PRIO_URGENT
  else if decide (c = 2) then PRIO_NORMAL
  else PRIO_LOW.

(** The checksum loop: the bytes but the last, xored. *)
Definition xor_front (c : CArray) : Z := fold_left Z.lxor (take (size c - 1) c) 0.

(** [c1 = ~c1] on [uchar]. *)
Definition not8 (z : Z) : Z := u8 (Z.lnot z).

(** The header and payload of a standard frame, [c[0] & 0x80]. *)
Definition L_Data_standard (c : CArray) (p : EIB_Priority) (rep : bool)
  : outcome (option L_Data_PDU) :=
  c1 ← at_ c 1; c2 ← at_ c 2; c3 ← at_ c 3; c4 ← at_ c 4; c5 ← at_ c 5;
  let len := Z.land c5 0x0f + 1 in
  if decide (len + 7 <> Z.of_nat (size c)) then Ret None
  else
    d ← slice c 6 (Z.to_nat len);
    Ret (Some (mkL_Data p rep true true
                 (if nz (Z.land c5 0x80) then GroupAddress else IndividualAddress)
                 (u16 (be16 c1 c2)) (u16 (be16 c3 c4)) (Z.land (c5 ≫ 4) 0x07) d)).

(** ... and of an extended frame. *)
Definition L_Data_extended (c : CArray) (p : EIB_Priority) (rep : bool)
  : outcome (option L_Data_PDU) :=
  c1 ← at_ c 1;
  if decide (Z.land c1 0x0f <> 0) then Ret None
  else if decide (size c < 7)%nat then Ret None
  else
    c2 ← at_ c 2; c3 ← at_ c 3; c4 ← at_ c 4; c5 ← at_ c 5; c6 ← at_ c 6;
    let len := c6 + 1 in
    let pdu vl d :=
      mkL_Data p rep true vl
        (if nz (Z.land c1 0x80) then GroupAddress else IndividualAddress)
        (u16 (be16 c2 c3)) (u16 (be16 c4 c5)) (Z.land (c1 ≫ 4) 0x07) d in
    if decide (len + 8 <> Z.of_nat (size c)) then
      if decide (size c = 23%nat) then d ← slice c 7 8; Ret (Some (pdu false d))
      else Ret None
    else d ← slice c 7 (Z.to_nat len); Ret (Some (pdu true d)).

Definition set_valid_checksum (l : L_Data_PDU) (b : bool) : L_Data_PDU :=
  mkL_Data (prio l) (repeated l) b (valid_length l) (AddrType l) (source l) (dest l)
    (hopcount l) (data l).

Definition L_Data_init (c : CArray) : outcome (option L_Data_PDU) :=
  if decide (size c < 6)%nat then Ret None
  else
    c0 ← at_ c 0;
    if decide (Z.land c0 0x53 <> 0x10) then Ret None
    else
      let rep := if nz (Z.land c0 0x20) then false else true in
      let p := code_prio (Z.land (c0 ≫ 2) 0x3) in
      l ← (if nz (Z.land c0 0x80) then L_Data_standard c p rep else L_Data_extended c p rep);
      match l with
      | None => Ret None
      | Some l =>
          last ← at_ c (size c - 1);
          Ret (Some (set_valid_checksum l (bool_decide (last = not8 (xor_front c)))))
      end.

(** [1 + ((data.size() - 1) & mask)], the number of payload bytes copied. *)
Definition masked_len (d : CArray) (mask : Z) : nat :=
  Z.to_nat (1 + Z.land (Z.of_nat (size d) - 1) mask).

Definition group_bit (t : EIB_AddrType) : Z := if isGroup t then 0x80 else 0x00.

(** The bytes before the checksum is filled in. *)
Definition L_Data_frame (l : L_Data_PDU) : outcome CArray :=
  let c := prio_code (prio l) in
  let n := size (data l) in
  if decide (n - 1 <= 0x0f)%nat then
    pdu ← put (resize [] (7 + n)) 0
            (Z.lor (Z.lor 0x90 (c ≪ 2)) (if repeated l then 0x00 else 0x20));
    pdu ← put pdu 1 (Z.land (source l ≫ 8) 0xff);
    pdu ← put pdu 2 (Z.land (source l) 0xff);
    pdu ← put pdu 3 (Z.land (dest l ≫ 8) 0xff);
    pdu ← put pdu 4 (Z.land (dest l) 0xff);
    pdu ← put pdu 5 (Z.lor (Z.lor (Z.land (hopcount l) 0x07 ≪ 4)
                                  (Z.land (Z.of_nat n - 1) 0x0f))
                           (group_bit (AddrType l)));
    setpart pdu (data l) 6 (masked_len (data l) 0x0f)
  else
    pdu ← put (resize [] (8 + n)) 0
            (Z.lor (Z.lor 0x10 (c ≪ 2)) (if repeated l then 0x00 else 0x20));
    pdu ← put pdu 1 (Z.lor (Z.land (hopcount l) 0x07 ≪ 4) (group_bit (AddrType l)));
    pdu ← put pdu 2 (Z.land (source l ≫ 8) 0xff);
    pdu ← put pdu 3 (Z.land (source l) 0xff);
    pdu ← put pdu 4 (Z.land (dest l ≫ 8) 0xff);
    pdu ← put pdu 5 (Z.land (dest l) 0xff);
    pdu ← put pdu 6 (Z.land (Z.of_nat n - 1) 0xff);
    setpart pdu (data l) 7 (masked_len (data l) 0xff).

Definition L_Data_asserts (l : L_Data_PDU) : outcome unit :=
  _ ← assert_ (bool_decide (1 <= size (data l))%nat);
  _ ← assert_ (bool_decide (size (data l) <= 0xff)%nat);
  assert_ (bool_decide (Z.land (hopcount l) 0xf8 = 0)).

Definition L_Data_ToPacket (l : L_Data_PDU) : outcome CArray :=
  _ ← L_Data_asserts l;
  pdu ← L_Data_frame l;
  put pdu (size pdu - 1) (Z.lnot (xor_front pdu)).

Definition prio_text (p : EIB_Priority) : string :=
  match p with
  | PRIO_LOW => " low"
  | PRIO_NORMAL => " normal"
  | PRIO_URGENT => " urgent"
  | PRIO_SYSTEM => " system"
  end.

Definition L_Data_Decode (l : L_Data_PDU) : outcome string :=
  _ ← L_Data_asserts l;
  let s := "L_Data" +:+ (if valid_length l then "" else " (incomplete)")
             +:+ (if repeated l then " (repeated)" else "") +:+ prio_text (prio l)
             +:+ (if valid_checksum l then "" else " INVALID CHECKSUM")
             +:+ " from " +:+ FormatEIBAddr (source l) +:+ " to "
             +:+ (if isGroup (AddrType l) then FormatGroupAddr (dest l)
                  else FormatEIBAddr (dest l)) +:+ " hops: " in
  let s := addHex s (hopcount l) in
  d ← TPDU_fromPacket (data l);
  t ← TPDU_Decode d;
  Ret (s +:+ t).

(** ** The other frames *)

Inductive LPDU_Type :=
| L_Unknown | L_Data | L_Data_Part | L_ACK | L_NACK | L_BUSY | L_Busmonitor.

Record L_Busmonitor_PDU := mkL_Busmonitor {
  bm_pdu : CArray;
  bm_status : Z;
  bm_timestamp : Z
}.

Inductive LPDU :=
| L_Unknown_PDU (pdu : CArray)
| L_Data_LPDU (l : L_Data_PDU)
| L_Busmonitor_LPDU (l : L_Busmonitor_PDU)
| L_ACK_PDU
| L_NACK_PDU
| L_BUSY_PDU.

Definition LPDU_getType (l : LPDU) : LPDU_Type :=
  match l with
  | L_Unknown_PDU _ => L_Unknown
  | L_Data_LPDU l => if valid_length l then L_Data else L_Data_Part
  | L_Busmonitor_LPDU _ => L_Busmonitor
  | L_ACK_PDU => L_ACK
  | L_NACK_PDU => L_NACK
  | L_BUSY_PDU => L_BUSY
  end.

(** [L_Busmonitor_PDU ()] at a time of day given in seconds and microseconds. *)
Definition L_Busmonitor_PDU_new (tv_sec tv_usec : Z) : L_Busmonitor_PDU :=
  mkL_Busmonitor [] 0 (u32 (tv_sec * 65536 + tv_usec / (1000000 / 65536 + 1))).

Definition L_Busmonitor_init (b : L_Busmonitor_PDU) (c : CArray) : L_Busmonitor_PDU :=
  mkL_Busmonitor c (bm_status b) (bm_timestamp b).

Definition L_ACK_init (c : CArray) : option LPDU :=
  if decide (size c <> 1%nat) then None else Some L_ACK_PDU.
Definition L_NACK_init (c : CArray) : option LPDU :=
  if decide (size c <> 1%nat) then None else Some L_NACK_PDU.
Definition L_BUSY_init (c : CArray) : option LPDU :=
  if decide (size c <> 1%nat) then None else Some L_BUSY_PDU.

Definition LPDU_fromPacket (c : CArray) : outcome LPDU :=
  l ← (if decide (1 <= size c)%nat then
         c0 ← at_ c 0;
         if decide (c0 = 0xCC) then Ret (L_ACK_init c)
         else if decide (c0 = 0xC0) then Ret (L_BUSY_init c)
         else if decide (c0 = 0x0C) then Ret (L_NACK_init c)
         else if decide (Z.land c0 0x53 = 0x10) then
           l ← L_Data_init c; Ret (option_map L_Data_LPDU l)
         else Ret None
       else Ret None);
  match l with
  | Some l => Ret l
  | None => Ret (L_Unknown_PDU c)
  end.

Definition LPDU_ToPacket (l : LPDU) : outcome CArray :=
  match l with
  | L_Unknown_PDU pdu => Ret pdu
  | L_Data_LPDU l => L_Data_ToPacket l
  | L_Busmonitor_LPDU b => Ret (bm_pdu b)
  | L_ACK_PDU => Ret [0xCC]
  | L_NACK_PDU => Ret [0x0C]
  | L_BUSY_PDU => Ret [0xC0]
  end.

Definition L_Unknown_Decode (pdu : CArray) : string :=
  if decide (size pdu = 0%nat) then "empty LPDU" else addHexAll "Unknown LPDU: " pdu.

(** [Decode].  That of a busmonitor frame decodes the frame it carries in turn;
    [depth] bounds this nesting, and one level is all that occurs
    ([LPDU_fromPacket_no_busmonitor] in LpduSpec.v). *)
Fixpoint LPDU_Decode_at (depth : nat) (l : LPDU) : outcome string :=
  match l with
  | L_Unknown_PDU pdu => Ret (L_Unknown_Decode pdu)
  | L_Data_LPDU l => L_Data_Decode l
  | L_Busmonitor_LPDU b =>
      if decide (size (bm_pdu b) = 0%nat) then Ret "empty LPDU"
      else
        l ← LPDU_fromPacket (bm_pdu b);
        t ← match depth with O => Fault Aborted | S depth => LPDU_Decode_at depth l end;
        Ret (addHexAll "LPDU: " (bm_pdu b) +:+ ":" +:+ t)
  | L_ACK_PDU => Ret "ACK"
  | L_NACK_PDU => Ret "NACK"
  | L_BUSY_PDU => Ret "BUSY"
  end.

Definition LPDU_Decode (l : LPDU) : outcome string := LPDU_Decode_at 1 l.

Example ack_frame : LPDU_fromPacket [0xCC] = Ret L_ACK_PDU.
Proof. reflexivity. Qed.
Example group_frame :
  L_Data_init [0xBC; 0x11; 0x02; 0x0A; 0x03; 0xE1; 0x00; 0x81; 0x39] =
  Ret (Some (mkL_Data PRIO_LOW false true true GroupAddress 0x1102 0x0A03 6 [0x00; 0x81])).
Proof. reflexivity. Qed.
