(* ===== verification/LpduSpec.v ===== *)
(** * Link layer frames: theorems

    Memory safety of the frame parser, the checksum, and the round trip of an
    [L_Data] frame through its wire format. *)

From S2P Require Import Prelude CArray Common Apdu ApduSpec ApduRound Tpdu Lpdu.

(** ** Checksums *)

Definition xor_bytes (c : list Z) : Z := fold_left Z.lxor c 0.

Lemma xor_bytes_acc c a : fold_left Z.lxor c a = Z.lxor a (xor_bytes c).
Proof.
  unfold xor_bytes. revert a. induction c as [|x c IH]; intros a; simpl; [by rewrite Z.lxor_0_r|].
  rewrite IH, (IH (Z.lxor 0 x)). by rewrite Z.lxor_assoc, Z.lxor_0_l.
Qed.

Lemma xor_bytes_cons x c : xor_bytes (x :: c) = Z.lxor x (xor_bytes c).
Proof. unfold xor_bytes at 1. simpl. apply xor_bytes_acc. Qed.

Lemma xor_bytes_app c d : xor_bytes (c ++ d) = Z.lxor (xor_bytes c) (xor_bytes d).
Proof. unfold xor_bytes at 1. rewrite fold_left_app. apply xor_bytes_acc. Qed.

Lemma lxor_u8 a b : is_u8 a -> is_u8 b -> is_u8 (Z.lxor a b).
Proof.
  intros Ha Hb. rewrite <-(u8_small a Ha), <-(u8_small b Hb). unfold u8.
  replace (Z.lxor (Z.land a 255) (Z.land b 255)) with (u8 (Z.lxor a b)); [apply u8_bound|].
  apply Z.bits_inj'. intros n Hn. unfold u8. rewrite !Z.land_spec, !Z.lxor_spec, !Z.land_spec.
  by destruct (Z.testbit a n), (Z.testbit b n), (Z.testbit 255 n).
Qed.

Lemma xor_bytes_u8 c : bytes c -> is_u8 (xor_bytes c).
Proof.
  induction c as [|x c IH]; intros H; [done|]. apply bytes_cons in H as [Hx Hc].
  rewrite xor_bytes_cons. auto using lxor_u8.
Qed.

Lemma xor_bytes_insert c i x v :
  c !! i = Some x -> xor_bytes (<[i := v]> c) = Z.lxor (xor_bytes c) (Z.lxor x v).
Proof.
  revert i. induction c as [|y c IH]; intros [|i] H; simpl in H; simplify_eq.
  - change (<[0%nat := v]> (x :: c)) with (v :: c). rewrite !xor_bytes_cons.
    rewrite (Z.lxor_comm x (xor_bytes c)), Z.lxor_assoc, <-(Z.lxor_assoc x x v), Z.lxor_nilpotent.
    by rewrite Z.lxor_0_l, Z.lxor_comm.
  - change (<[S i := v]> (y :: c)) with (y :: <[i := v]> c).
    by rewrite !xor_bytes_cons, (IH i H), Z.lxor_assoc.
Qed.

Lemma not8_inj a b : is_u8 a -> is_u8 b -> not8 a = not8 b -> a = b.
Proof.
  intros Ha Hb H.
  assert (forall z, is_u8 z -> not8 (not8 z) = z) as Hi by (intros z Hz; by_bytes z).
  rewrite <-(Hi a Ha), <-(Hi b Hb). by f_equal.
Qed.

Lemma lxor_ne a b : a <> b -> Z.lxor a b <> 0.
Proof. intros H E. by apply Z.lxor_eq in E. Qed.

Lemma xor_front_snoc c x : xor_front (c ++ [x]) = xor_bytes c.
Proof.
  unfold xor_front, xor_bytes, size. rewrite length_app. simpl.
  by rewrite Nat.add_sub, take_app_length.
Qed.

(** The last byte is the complement of the xor of the others. *)
Definition checksum_ok (c : CArray) : Prop :=
  exists front last, c = front ++ [last] /\ last = not8 (xor_bytes front).

(** One changed byte makes a correct checksum wrong. *)
Lemma checksum_detects c i x v :
  bytes c -> checksum_ok c -> c !! i = Some x -> is_u8 v -> v <> x ->
  ~ checksum_ok (<[i := v]> c).
Proof.
  intros Hc (front & last & -> & ->) Hi Hv Hne (front' & last' & E & ->).
  apply bytes_app in Hc as [Hf Hl].
  destruct (decide (i < length front)%nat) as [Hlt|Hge].
  - rewrite insert_app_l in E by done. apply app_inj_tail in E as [<- E].
    rewrite lookup_app_l in Hi by done.
    rewrite (xor_bytes_insert _ _ x) in E by done.
    assert (is_u8 x) as Hx by exact (bytes_lookup _ _ _ Hf Hi).
    apply not8_inj in E; [|by auto using lxor_u8, xor_bytes_u8..].
    assert (Z.lxor x v = 0) as Hz.
    { rewrite <-(Z.lxor_0_r (xor_bytes front)) in E at 1.
      apply (f_equal (Z.lxor (xor_bytes front))) in E.
      by rewrite <-!Z.lxor_assoc, Z.lxor_nilpotent, !Z.lxor_0_l in E. }
    by apply Z.lxor_eq in Hz.
  - assert (i = length front) as ->.
    { apply lookup_lt_Some in Hi. rewrite length_app in Hi. simpl in Hi. lia. }
    rewrite insert_app_r_alt, Nat.sub_diag in E by lia. simpl in E.
    apply app_inj_tail in E as [<- E].
    rewrite lookup_app_r, Nat.sub_diag in Hi by lia. simpl in Hi. congruence.
Qed.

(** ** The parser is memory safe *)

Definition ldata_wf (l : L_Data_PDU) : Prop :=
  is_u16 (source l) /\ is_u16 (dest l) /\ 0 <= hopcount l < 8 /\
  bytes (data l) /\ (1 <= size (data l) <= 256)%nat.

Definition opt_ldata_wf (r : option L_Data_PDU) : Prop :=
  match r with Some l => ldata_wf l | None => True end.

Lemma land_07 a : 0 <= Z.land a 0x07 < 8.
Proof. exact (land_range a 3 ltac:(lia)). Qed.

Ltac ldata_fields :=
  cbn [opt_ldata_wf]; unfold ldata_wf; cbn [source dest hopcount data];
  split_and!; first [apply u16_bound | apply land_07 | assumption | lia].

Lemma L_Data_standard_safe c p rep :
  bytes c -> (6 <= size c)%nat -> returns_with opt_ldata_wf (L_Data_standard c p rep).
Proof.
  intros Hc Hs. unfold L_Data_standard. repeat parse_step; try exact I.
  all: pose proof (land_0f a3); repeat parse_step; ldata_fields.
Qed.

Lemma L_Data_extended_safe c p rep :
  bytes c -> (6 <= size c)%nat -> returns_with opt_ldata_wf (L_Data_extended c p rep).
Proof.
  intros Hc Hs. unfold L_Data_extended. repeat parse_step; try exact I.
  all: unfold is_u8 in *; ldata_fields.
Qed.

Lemma set_valid_checksum_wf l b : ldata_wf l -> ldata_wf (set_valid_checksum l b).
Proof. done. Qed.

Lemma L_Data_init_wf c : bytes c -> returns_with opt_ldata_wf (L_Data_init c).
Proof.
  intros Hc. unfold L_Data_init. parse_step; [by apply returns_with_Ret|].
  parse_step. parse_step; [by apply returns_with_Ret|]. cbv zeta.
  eapply returns_with_bind.
  { instantiate (1 := opt_ldata_wf).
    destruct (nz _); [apply L_Data_standard_safe | apply L_Data_extended_safe]; done || lia. }
  intros [l|] Hl; [|by apply returns_with_Ret].
  parse_step. apply returns_with_Ret. by apply set_valid_checksum_wf.
Qed.

(** [L_Data_PDU::init] is memory safe and total: on every byte sequence it
    accepts or rejects without reading outside the frame, and an accepted frame
    has 16-bit addresses, a hop count below 8 and between 1 and 256 payload
    bytes. *)
Theorem L_Data_init_safe c : bytes c -> returns_with opt_ldata_wf (L_Data_init c).
Proof. apply L_Data_init_wf. Qed.

Lemma L_Data_init_safe_witness :
  returns_with opt_ldata_wf (L_Data_init [0x3C; 0xE0; 0x11; 0x02; 0x0A; 0x03; 0x00; 0x00; 0x05]).
Proof. apply L_Data_init_safe. decided. Defined.

(** [valid_checksum] of an accepted frame. *)
Lemma L_Data_init_checksum c l :
  L_Data_init c = Ret (Some l) ->
  exists front last, c = front ++ [last] /\
    valid_checksum l = bool_decide (last = not8 (xor_bytes front)).
Proof.
  unfold L_Data_init. destruct (decide _) as [|Hs]; [done|].
  intros (c0 & _ & H)%bind_Ret_inv. destruct (decide _); [done|]. cbv zeta in H.
  apply bind_Ret_inv in H as ([l'|] & _ & H); [|done].
  apply bind_Ret_inv in H as (last & Hl & H). simplify_eq. simpl.
  destruct (exists_last (l := c)) as (front & x & ->).
  { intros ->. unfold size in Hs. simpl in Hs. lia. }
  exists front, x. split; [done|]. rewrite xor_front_snoc.
  unfold at_, size in Hl. rewrite length_app in Hl. simpl in Hl.
  rewrite lookup_app_r, Nat.add_sub, Nat.sub_diag in Hl by lia. simpl in Hl. by simplify_eq.
Qed.

Lemma L_Data_init_checksum_ok c l :
  L_Data_init c = Ret (Some l) -> valid_checksum l = true <-> checksum_ok c.
Proof.
  intros (front & last & -> & ->)%L_Data_init_checksum. rewrite bool_decide_eq_true.
  split; [by exists front, last|]. intros (f & x & E & ->).
  by apply app_inj_tail in E as [-> ->].
Qed.

(** C32: every change of a single byte of a frame is noticed: if a frame with a
    valid checksum is received with one byte altered, then [init] either rejects
    it or marks its checksum as invalid. *)
Theorem corrupted_frame_detected c l i x v l' :
  bytes c -> L_Data_init c = Ret (Some l) -> valid_checksum l = true ->
  c !! i = Some x -> is_u8 v -> v <> x ->
  L_Data_init (<[i := v]> c) = Ret (Some l') -> valid_checksum l' = false.
Proof.
  intros Hc Hl Hv Hi Hu Hne Hl'. apply (L_Data_init_checksum_ok c l Hl) in Hv.
  apply not_true_is_false. intros Ht. apply (L_Data_init_checksum_ok _ _ Hl') in Ht.
  by eapply checksum_detects.
Qed.

Lemma corrupted_frame_detected_witness :
  valid_checksum
    (mkL_Data PRIO_LOW false false true GroupAddress 0x1103 0x0A03 6 [0x00; 0x81]) = false.
Proof.
  apply (corrupted_frame_detected [0xBC; 0x11; 0x02; 0x0A; 0x03; 0xE1; 0x00; 0x81; 0x39]
    (mkL_Data PRIO_LOW false true true GroupAddress 0x1102 0x0A03 6 [0x00; 0x81]) 2 2 3);
    first [reflexivity | decided | discriminate].
Defined.

(** ** Encoding *)

(** The assertions hold exactly for 1 to 255 payload bytes. *)
Lemma L_Data_asserts_ok l :
  ldata_wf l -> (size (data l) <= 255)%nat -> L_Data_asserts l = Ret tt.
Proof.
  intros (_ & _ & Hh & _ & Hs) H. unfold L_Data_asserts.
  rewrite (bool_decide_eq_true_2 (1 <= size (data l))%nat) by lia.
  rewrite (bool_decide_eq_true_2 (size (data l) <= 0xff)%nat) by lia. simpl.
  exact (assert_mask 3 0x1f (hopcount l) ltac:(lia) Hh).
Qed.

Lemma L_Data_asserts_fail l :
  (256 <= size (data l))%nat -> L_Data_asserts l = Fault AssertFailed.
Proof.
  intros H. unfold L_Data_asserts.
  rewrite (bool_decide_eq_true_2 (1 <= size (data l))%nat) by lia.
  by rewrite (bool_decide_eq_false_2 (size (data l) <= 0xff)%nat) by lia.
Qed.

(** The header [ToPacket] writes. *)
Definition frame_header (l : L_Data_PDU) : CArray :=
  let n := size (data l) in
  let rep := if repeated l then 0x00 else 0x20 in
  let c := prio_code (prio l) in
  let addrs := [u8 (source l ≫ 8); u8 (source l); u8 (dest l ≫ 8); u8 (dest l)] in
  if decide (n - 1 <= 0x0f)%nat then
    u8 (Z.lor (Z.lor 0x90 (c ≪ 2)) rep) :: addrs ++
    [u8 (Z.lor (Z.lor (Z.land (hopcount l) 0x07 ≪ 4) (Z.land (Z.of_nat n - 1) 0x0f))
               (group_bit (AddrType l)))]
  else
    [u8 (Z.lor (Z.lor 0x10 (c ≪ 2)) rep);
     u8 (Z.lor (Z.land (hopcount l) 0x07 ≪ 4) (group_bit (AddrType l)))] ++ addrs ++
    [u8 (Z.of_nat n - 1)].

Lemma masked_len_ff l : (1 <= size (data l) <= 256)%nat -> masked_len (data l) 0xff = size (data l).
Proof.
  intros H. unfold masked_len. rewrite land_ff, u8_small by (unfold is_u8; lia). lia.
Qed.
Lemma masked_len_0f l : (1 <= size (data l) <= 16)%nat -> masked_len (data l) 0x0f = size (data l).
Proof. intros H. unfold masked_len. rewrite land_0f_small by lia. lia. Qed.

Lemma setpart_frame d n : n = size d -> setpart (replicate (1 + n) 0) d 0 n = Ret (d ++ [0]).
Proof.
  intros ->. rewrite setpart_over by (unfold size; rewrite ?length_replicate; lia).
  by rewrite drop_replicate, Nat.add_sub.
Qed.

Lemma L_Data_frame_eq l :
  (1 <= size (data l) <= 256)%nat ->
  L_Data_frame l = Ret (frame_header l ++ data l ++ [0]).
Proof.
  intros Hs. unfold L_Data_frame, frame_header. destruct (decide _) as [H|H].
  - rewrite masked_len_0f, resize_nil by lia. rewrite !land_ff.
    replace (7 + size (data l))%nat with (6 + (1 + size (data l)))%nat by lia.
    rewrite replicate_add. 
    cbn [put replicate app mbind outcome_bind]. do 6 rewrite setpart_cons.
    rewrite setpart_frame by done. cbn [mbind outcome_bind app]. by rewrite !u8_u8.
  - rewrite masked_len_ff, resize_nil by lia. rewrite !land_ff.
    replace (8 + size (data l))%nat with (7 + (1 + size (data l)))%nat by lia.
    rewrite replicate_add.
    cbn [put replicate app mbind outcome_bind]. do 7 rewrite setpart_cons.
    rewrite setpart_frame by done. cbn [mbind outcome_bind app]. by rewrite !u8_u8.
Qed.

Lemma put_last c x v : put (c ++ [x]) (size (c ++ [x]) - 1) v = Ret (c ++ [u8 v]).
Proof.
  unfold size. rewrite length_app, Nat.add_sub. simpl length.
  induction c as [|y c IH]; [done|]. simpl. by rewrite IH.
Qed.

(** The frame: header, payload and the checksum of both. *)
Definition frame_bytes (l : L_Data_PDU) : CArray :=
  (frame_header l ++ data l) ++ [not8 (xor_bytes (frame_header l ++ data l))].

Lemma L_Data_ToPacket_eq l :
  ldata_wf l -> (size (data l) <= 255)%nat -> L_Data_ToPacket l = Ret (frame_bytes l).
Proof.
  intros Hl H. unfold L_Data_ToPacket, frame_bytes. rewrite L_Data_asserts_ok by done.
  rewrite bind_Ret, L_Data_frame_eq by apply Hl. rewrite bind_Ret, app_assoc.
  by rewrite put_last, xor_front_snoc.
Qed.

(** ** The round trip of a frame *)

(** The parser's table of priorities has urgent and normal exchanged with
    respect to the encoder's. *)
Definition swap_prio (p : EIB_Priority) : EIB_Priority := code_prio (prio_code p).

Definition received (l : L_Data_PDU) : L_Data_PDU :=
  mkL_Data (swap_prio (prio l)) (repeated l) true true (AddrType l) (source l) (dest l)
    (hopcount l) (data l).

Definition control_byte (t : Z) (p : EIB_Priority) (rep : bool) : Z :=
  u8 (Z.lor (Z.lor t (prio_code p ≪ 2)) (if rep then 0x00 else 0x20)).

Lemma control_byte_fields t p rep :
  t = 0x90 \/ t = 0x10 ->
  let b := control_byte t p rep in
  Z.land b 0x53 = 0x10 /\ (if nz (Z.land b 0x20) then false else true) = rep /\
  code_prio (Z.land (b ≫ 2) 0x3) = swap_prio p /\ nz (Z.land b 0x80) = bool_decide (t = 0x90) /\
  b <> 0xCC /\ b <> 0xC0 /\ b <> 0x0C.
Proof. intros [-> | ->]; destruct p, rep; vm_compute; repeat split; discriminate. Qed.

Lemma npci_byte h k t :
  0 <= h < 8 -> 0 <= k < 16 ->
  let b := u8 (Z.lor (Z.lor (Z.land h 0x07 ≪ 4) (Z.land k 0x0f)) (group_bit t)) in
  Z.land b 0x0f = k /\ Z.land (b ≫ 4) 0x07 = h /\
  (if nz (Z.land b 0x80) then GroupAddress else IndividualAddress) = t.
Proof. intros Hh Hk. destruct t; cbv zeta; by_below2 8 16 h k. Qed.

Lemma ext_byte h t :
  0 <= h < 8 ->
  let b := u8 (Z.lor (Z.land h 0x07 ≪ 4) (group_bit t)) in
  Z.land b 0x0f = 0 /\ Z.land (b ≫ 4) 0x07 = h /\
  (if nz (Z.land b 0x80) then GroupAddress else IndividualAddress) = t.
Proof.
  intros Hh. pose proof (npci_byte h 0 t Hh ltac:(lia)) as H. simpl in H.
  by rewrite Z.lor_0_r in H.
Qed.

Lemma slice_front hd d ck m n :
  m = size hd -> n = size d -> slice (hd ++ d ++ [ck]) m n = Ret d.
Proof.
  intros -> ->. rewrite slice_ok by (unfold size; rewrite !length_app; lia).
  unfold size. by rewrite drop_app_length, take_app_length.
Qed.

Lemma standard_back l ck :
  ldata_wf l -> (size (data l) <= 16)%nat ->
  L_Data_standard (frame_header l ++ data l ++ [ck]) (swap_prio (prio l)) (repeated l)
  = Ret (Some (received l)).
Proof.
  intros (Hsrc & Hdst & Hh & Hb & Hs) H.
  assert (size (frame_header l ++ data l ++ [ck]) = (7 + size (data l))%nat) as Hsz.
  { unfold frame_header. rewrite decide_True by lia. unfold size. simpl.
    rewrite length_app. simpl. lia. }
  assert (slice (frame_header l ++ data l ++ [ck]) 6 (size (data l)) = Ret (data l)) as Hsl.
  { apply slice_front; [|done]. unfold frame_header. by rewrite decide_True by lia. }
  unfold L_Data_standard. rewrite Hsz. revert Hsl. unfold frame_header.
  rewrite decide_True by lia. intros Hsl.
  destruct (npci_byte (hopcount l) (Z.of_nat (size (data l)) - 1) (AddrType l)) as (H1 & H2 & H3);
    [lia..|].
  cbn [at_ app lookup list_lookup mbind outcome_bind] in *.
  rewrite H1, H2, H3, !be16_field by done. cbv zeta.
  rewrite decide_False by lia.
  replace (Z.to_nat _) with (size (data l)) by lia.
  by rewrite Hsl.
Qed.

Lemma extended_back l ck :
  ldata_wf l -> (16 < size (data l) <= 255)%nat ->
  L_Data_extended (frame_header l ++ data l ++ [ck]) (swap_prio (prio l)) (repeated l)
  = Ret (Some (received l)).
Proof.
  intros (Hsrc & Hdst & Hh & Hb & Hs) H.
  assert (size (frame_header l ++ data l ++ [ck]) = (8 + size (data l))%nat) as Hsz.
  { unfold frame_header. rewrite decide_False by lia. unfold size. simpl.
    rewrite length_app. simpl. lia. }
  assert (slice (frame_header l ++ data l ++ [ck]) 7 (size (data l)) = Ret (data l)) as Hsl.
  { apply slice_front; [|done]. unfold frame_header. by rewrite decide_False by lia. }
  unfold L_Data_extended. rewrite Hsz. revert Hsl. unfold frame_header.
  rewrite decide_False by lia. intros Hsl.
  destruct (ext_byte (hopcount l) (AddrType l)) as (H1 & H2 & H3); [lia|].
  rewrite (u8_small (_ - 1)) in * by (unfold is_u8; lia).
  cbn [at_ app lookup list_lookup mbind outcome_bind] in *.
  rewrite H1, H2, H3, !be16_field by done. cbv zeta.
  do 3 rewrite decide_False by lia.
  replace (Z.to_nat _) with (size (data l)) by lia.
  by rewrite Hsl.
Qed.

Lemma frame_snoc l : frame_bytes l = frame_header l ++ data l ++ [not8 (xor_bytes (frame_header l ++ data l))].
Proof. unfold frame_bytes. by rewrite <-app_assoc. Qed.

Lemma at_last c x : at_ (c ++ [x]) (size (c ++ [x]) - 1) = Ret x.
Proof.
  unfold at_, size. rewrite length_app, Nat.add_sub. by rewrite list_lookup_middle.
Qed.

Lemma frame_control l :
  exists r, frame_header l =
    control_byte (if decide (size (data l) - 1 <= 0x0f)%nat then 0x90 else 0x10)
      (prio l) (repeated l) :: r.
Proof. unfold frame_header, control_byte. destruct (decide _); eauto. Qed.

Lemma frame_size l : (6 <= size (frame_bytes l))%nat.
Proof.
  rewrite frame_snoc. unfold frame_header. destruct (decide _);
    unfold size; rewrite !length_app; simpl; lia.
Qed.

Lemma L_Data_init_back l :
  ldata_wf l -> (size (data l) <= 255)%nat ->
  L_Data_init (frame_bytes l) = Ret (Some (received l)).
Proof.
  intros Hl H. unfold L_Data_init. pose proof (frame_size l). rewrite decide_False by lia.
  destruct (frame_control l) as [r Hr].
  destruct (control_byte_fields (if decide (size (data l) - 1 <= 0x0f)%nat then 0x90 else 0x10)
    (prio l) (repeated l)) as (H1 & H2 & H3 & H4 & _); [destruct (decide _); auto|].
  assert (at_ (frame_bytes l) 0 = Ret (control_byte
     (if decide (size (data l) - 1 <= 0x0f)%nat then 0x90 else 0x10) (prio l) (repeated l))) as ->.
  { unfold frame_bytes. by rewrite Hr. }
  rewrite bind_Ret, decide_False by (rewrite H1; lia). cbv zeta. rewrite H2, H3, H4.
  assert ((if bool_decide ((if decide (size (data l) - 1 <= 15)%nat then 144 else 16) = 144)
           then L_Data_standard (frame_bytes l) (swap_prio (prio l)) (repeated l)
           else L_Data_extended (frame_bytes l) (swap_prio (prio l)) (repeated l))
          = Ret (Some (received l))) as ->.
  { rewrite frame_snoc. destruct (decide _); simpl;
      [apply standard_back | apply extended_back]; done || lia. }
  rewrite bind_Ret. unfold frame_bytes. rewrite at_last, bind_Ret, xor_front_snoc.
  by rewrite bool_decide_eq_true_2.
Qed.

Lemma LPDU_fromPacket_back l :
  ldata_wf l -> (size (data l) <= 255)%nat ->
  LPDU_fromPacket (frame_bytes l) = Ret (L_Data_LPDU (received l)).
Proof.
  intros Hl H. unfold LPDU_fromPacket. pose proof (frame_size l). rewrite decide_True by lia.
  rewrite L_Data_init_back by done.
  destruct (frame_control l) as [r Hr].
  destruct (control_byte_fields (if decide (size (data l) - 1 <= 0x0f)%nat then 0x90 else 0x10)
    (prio l) (repeated l)) as (H1 & _ & _ & _ & H2 & H3 & H4); [destruct (decide _); auto|].
  unfold frame_bytes. rewrite Hr.
  set (b := control_byte _ _ _) in *. clearbody b.
  cbn [app at_ lookup list_lookup mbind outcome_bind].
  do 3 rewrite decide_False by done. by rewrite decide_True.
Qed.

(** C31: a frame put on the bus is understood by another knxd: for every
    well-formed frame with at most 255 payload bytes, standard or extended, the
    bytes of [ToPacket] are parsed back by [LPDU::fromPacket] with every field
    equal and the checksum marked valid, except that the priorities urgent and
    normal are exchanged. *)
Theorem L_Data_roundtrip l :
  ldata_wf l -> (size (data l) <= 255)%nat ->
  (c ← L_Data_ToPacket l; LPDU_fromPacket c) = Ret (L_Data_LPDU (received l)).
Proof.
  intros Hl H. rewrite L_Data_ToPacket_eq by done. rewrite bind_Ret. by apply LPDU_fromPacket_back.
Qed.

Lemma L_Data_roundtrip_witness :
  (c ← L_Data_ToPacket
         (mkL_Data PRIO_NORMAL true true true GroupAddress 0x1102 0x0A03 5 (replicate 20 0x55));
   LPDU_fromPacket c)
  = Ret (L_Data_LPDU
      (mkL_Data PRIO_URGENT true true true GroupAddress 0x1102 0x0A03 5 (replicate 20 0x55))).
Proof.
  apply (L_Data_roundtrip
    (mkL_Data PRIO_NORMAL true true true GroupAddress 0x1102 0x0A03 5 (replicate 20 0x55))).
  - unfold ldata_wf. simpl. split_and!; decided.
  - decided.
Defined.

(** The priority tables of parser and encoder are inverse only for low and
    system priority; a frame with urgent or normal priority that is parsed and
    sent on changes its priority on the wire. *)
Theorem priority_swapped p :
  (swap_prio p = p <-> p = PRIO_LOW \/ p = PRIO_SYSTEM) /\ swap_prio (swap_prio p) = p.
Proof. destruct p; vm_compute; intuition congruence. Qed.

(** Printing a frame. *)
Lemma L_Data_Decode_returns l :
  ldata_wf l -> (size (data l) <= 255)%nat -> returns (L_Data_Decode l).
Proof.
  intros Hl H. unfold L_Data_Decode. rewrite L_Data_asserts_ok by done. rewrite bind_Ret. cbv zeta.
  destruct (TPDU_fromPacket_wf (data l)) as (t & -> & Ht & _); [apply Hl|].
  rewrite bind_Ret. destruct (TPDU_Decode_returns t Ht) as [s ->]. by eexists.
Qed.

(** A parsed frame can be sent on and printed exactly if it has at most 255
    payload bytes.  The parser also accepts an extended frame whose length byte
    is 255, which has 256: on such a frame [ToPacket] and [Decode] run into
    their assertions. *)
Theorem L_Data_methods_return_iff l :
  ldata_wf l ->
  (returns (L_Data_ToPacket l) <-> (size (data l) <= 255)%nat) /\
  (returns (L_Data_Decode l) <-> (size (data l) <= 255)%nat).
Proof.
  intros Hl. destruct (decide (size (data l) <= 255)%nat) as [H|H].
  - split; split; [done|..|done|]; intros _.
    + rewrite L_Data_ToPacket_eq by done. by eexists.
    + by apply L_Data_Decode_returns.
  - assert (L_Data_asserts l = Fault AssertFailed) as E by (apply L_Data_asserts_fail; lia).
    unfold L_Data_ToPacket, L_Data_Decode. rewrite E.
    split; split; [intros [? ?]; done | lia | intros [? ?]; done | lia].
Qed.

(** An extended frame with 256 payload bytes, accepted from the bus. *)
Definition long_frame : CArray :=
  [0x3C; 0xE0; 0x11; 0x02; 0x0A; 0x03; 0xFF] ++ replicate 256 0 ++ [0xC6].

Definition long_ldata : L_Data_PDU :=
  mkL_Data PRIO_LOW false true true GroupAddress 0x1102 0x0A03 6 (replicate 256 0).

Lemma long_ldata_wf : ldata_wf long_ldata.
Proof. unfold ldata_wf. cbn [long_ldata source dest hopcount data]. split_and!; decided. Qed.

Lemma L_Data_methods_return_iff_witness :
  L_Data_init long_frame = Ret (Some long_ldata) /\
  ~ returns (L_Data_ToPacket long_ldata) /\ ~ returns (L_Data_Decode long_ldata).
Proof.
  destruct (L_Data_methods_return_iff long_ldata long_ldata_wf) as [H1 H2].
  split; [vm_compute; reflexivity|].
  split; [intros R%H1 | intros R%H2]; vm_compute in R; lia.
Defined.

(** ** All frames *)

Definition lpdu_wf (l : LPDU) : Prop :=
  match l with
  | L_Unknown_PDU pdu => bytes pdu
  | L_Data_LPDU l => ldata_wf l
  | L_Busmonitor_LPDU b => bytes (bm_pdu b)
  | L_ACK_PDU | L_NACK_PDU | L_BUSY_PDU => True
  end.

Definition is_busmonitor (l : LPDU) : bool :=
  match l with L_Busmonitor_LPDU _ => true | _ => false end.

Lemma LPDU_fromPacket_wf c :
  bytes c -> returns_with (fun l => lpdu_wf l /\ is_busmonitor l = false) (LPDU_fromPacket c).
Proof.
  intros Hc. destruct c as [|c0 c]; [by apply returns_with_Ret|].
  unfold LPDU_fromPacket, L_ACK_init, L_BUSY_init, L_NACK_init. rewrite decide_True by (unfold size; simpl; lia).
  cbn [at_ lookup list_lookup]. rewrite bind_Ret.
  do 3 (destruct (decide (c0 = _)); [destruct (decide _); by apply returns_with_Ret|]).
  destruct (decide _); [|by apply returns_with_Ret].
  destruct (L_Data_init_wf (c0 :: c) Hc) as ([l|] & -> & Hl); by apply returns_with_Ret.
Qed.

Lemma LPDU_fromPacket_no_busmonitor c l :
  bytes c -> LPDU_fromPacket c = Ret l -> is_busmonitor l = false.
Proof. intros Hc. destruct (LPDU_fromPacket_wf c Hc) as (l' & -> & _ & H). by intros [= <-]. Qed.

(** More nesting changes nothing. *)
Lemma LPDU_Decode_depth d l : lpdu_wf l -> LPDU_Decode_at (S d) l = LPDU_Decode l.
Proof.
  intros Hl. unfold LPDU_Decode. destruct l as [| |b| | |]; try done. simpl in Hl |- *.
  destruct (decide _); [done|].
  destruct (LPDU_fromPacket_wf _ Hl) as (l & -> & _ & Hb). simpl.
  destruct l, d; done.
Qed.

(** [LPDU::fromPacket] is memory safe and total on every byte sequence, and
    the frame it returns is well-formed and never a busmonitor frame, so that
    the [Decode] of a busmonitor frame, which parses and decodes its content,
    nests one level deep. *)
Theorem LPDU_fromPacket_safe c :
  bytes c -> returns_with (fun l => lpdu_wf l /\ is_busmonitor l = false) (LPDU_fromPacket c).
Proof. apply LPDU_fromPacket_wf. Qed.

Lemma LPDU_fromPacket_safe_witness :
  returns_with (fun l => lpdu_wf l /\ is_busmonitor l = false) (LPDU_fromPacket [0x90; 1; 2; 3]).
Proof. apply LPDU_fromPacket_safe. decided. Defined.
