(* ===== verification/Emi.v ===== *)
(** * External message interface

    Models src/src/libserver/emi.cpp: the conversions between [L_Data] and
    busmonitor frames and the EMI1/EMI2 and CEMI messages that interfaces and
    KNXnet/IP connections exchange.  A [null] result is [None]. *)

From S2P Require Import Prelude CArray Common Apdu ApduSpec ApduRound Tpdu Lpdu LpduSpec.

Definition L_Data_ToCEMI (code : Z) (l1 : L_Data_PDU) : outcome CArray :=
  let n := size (data l1) in
  _ ← assert_ (bool_decide (1 <= n)%nat);
  _ ← assert_ (bool_decide (n < 0xff)%nat);
  _ ← assert_ (bool_decide (Z.land (hopcount l1) 0xf8 = 0));
  let c := prio_code (prio l1) in
  pdu ← put (resize [] (n + 9)) 0 code;
  pdu ← put pdu 1 0x00;
  pdu ← put pdu 2 (Z.lor (Z.lor 0x10 (c ≪ 2)) (if decide (n - 1 <= 0x0f)%nat then 0x80 else 0x00));
  p2 ← at_ pdu 2;
  pdu ← (if decide (code = 0x29)
         then put pdu 2 (Z.lor p2 (if repeated l1 then 0 else 0x20))
         else put pdu 2 (Z.lor p2 0x20));
  pdu ← put pdu 3 (Z.lor (Z.lor (group_bit (AddrType l1)) (Z.land (hopcount l1) 0x7 ≪ 4)) 0x0);
  pdu ← put pdu 4 (Z.land (source l1 ≫ 8) 0xff);
  pdu ← put pdu 5 (Z.land (source l1) 0xff);
  pdu ← put pdu 6 (Z.land (dest l1 ≫ 8) 0xff);
  pdu ← put pdu 7 (Z.land (dest l1) 0xff);
  pdu ← put pdu 8 (Z.of_nat n - 1);
  setpart pdu (data l1) 9 n.

Definition CEMI_to_L_Data (d : CArray) : outcome (option L_Data_PDU) :=
  if decide (size d < 2)%nat then Ret None
  else
    d1 ← at_ d 1;
    let start := (Z.to_nat d1 + 2)%nat in
    if decide (size d < 7 + start)%nat then Ret None
    else
      len ← at_ d (6 + start);
      if decide (size d < 7 + start + Z.to_nat len + 1)%nat then Ret None
      else
        s2 ← at_ d (start + 2); s3 ← at_ d (start + 3);
        s4 ← at_ d (start + 4); s5 ← at_ d (start + 5);
        payload ← slice d (start + 7) (Z.to_nat len + 1);
        d0 ← at_ d 0; c0 ← at_ d start; c1 ← at_ d (start + 1);
        let rep := if decide (d0 = 0x29) then (if nz (Z.land c0 0x20) then false else true)
                   else false in
        if negb (nz (Z.land c0 0x80)) && nz (Z.land c1 0x0f) then Ret None
        else
          Ret (Some (mkL_Data (code_prio (Z.land (c0 ≫ 2) 0x3)) rep true true
                       (if nz (Z.land c1 0x80) then GroupAddress else IndividualAddress)
                       (u16 (be16 s2 s3)) (u16 (be16 s4 s5)) (Z.land (c1 ≫ 4) 0x07) payload)).

(** The frame is stamped with the time of day it is created at. *)
Definition CEMI_to_Busmonitor (tv_sec tv_usec : Z) (d : CArray)
  : outcome (option L_Busmonitor_PDU) :=
  if decide (size d < 2)%nat then Ret None
  else
    d1 ← at_ d 1;
    let start := (Z.to_nat d1 + 2)%nat in
    if decide (size d < 1 + start)%nat then Ret None
    else
      p ← slice d start (size d - start);
      Ret (Some (L_Busmonitor_init (L_Busmonitor_PDU_new tv_sec tv_usec) p)).

Definition CEMI_ADD_HEADER_TYPE_STATUS : Z := 0x03.
Definition CEMI_ADD_HEADER_TYPE_TIMESTAMP : Z := 0x04.

Definition Busmonitor_to_CEMI (code : Z) (p : L_Busmonitor_PDU) (no : Z) : outcome CArray :=
  pdu ← put (resize [] (size (bm_pdu p) + 9)) 0 code;
  pdu ← put pdu 1 7;
  pdu ← put pdu 2 CEMI_ADD_HEADER_TYPE_STATUS;
  pdu ← put pdu 3 1;
  pdu ← put pdu 4 (Z.land no 0x7);
  pdu ← put pdu 5 CEMI_ADD_HEADER_TYPE_TIMESTAMP;
  pdu ← put pdu 6 2;
  pdu ← put pdu 7 (Z.land (bm_timestamp p) 0x0000ff00 ≫ 8);
  pdu ← put pdu 8 (Z.land (bm_timestamp p) 0x000000ff);
  setpart_all pdu (bm_pdu p) 9.

Definition L_Data_ToEMI (code : Z) (l1 : L_Data_PDU) : outcome CArray :=
  let n := size (data l1) in
  let c := prio_code (prio l1) in
  pdu ← put (resize [] (n + 7)) 0 code;
  pdu ← put pdu 1 (c ≪ 2);
  pdu ← put pdu 2 0;
  pdu ← put pdu 3 0;
  pdu ← put pdu 4 (Z.land (dest l1 ≫ 8) 0xff);
  pdu ← put pdu 5 (Z.land (dest l1) 0xff);
  pdu ← put pdu 6 (Z.lor (Z.lor (Z.land (hopcount l1) 0x07 ≪ 4) (Z.land (Z.of_nat n - 1) 0x0f))
                         (group_bit (AddrType l1)));
  setpart pdu (data l1) 7 n.

Definition EMI_to_L_Data (d : CArray) : outcome (option L_Data_PDU) :=
  if decide (size d < 8)%nat then Ret None
  else
    d2 ← at_ d 2; d3 ← at_ d 3; d4 ← at_ d 4; d5 ← at_ d 5; d1 ← at_ d 1; d6 ← at_ d 6;
    let len := (Z.to_nat (Z.land d6 0x0f) + 1)%nat in
    let len := if decide (size d - 7 < len)%nat then (size d - 7)%nat else len in
    payload ← slice d 7 len;
    Ret (Some (mkL_Data (code_prio (Z.land (d1 ≫ 2) 0x3)) (repeated L_Data_PDU_new) true true
                 (if nz (Z.land d6 0x80) then GroupAddress else IndividualAddress)
                 (u16 (be16 d2 d3)) (u16 (be16 d4 d5)) (Z.land (d6 ≫ 4) 0x07) payload)).

Example cemi_ex :
  L_Data_ToCEMI 0x29 (mkL_Data PRIO_LOW false true true GroupAddress 0x1102 0x0A03 6 [0x00; 0x81])
  = Ret [0x29; 0x00; 0xBC; 0xE0; 0x11; 0x02; 0x0A; 0x03; 0x01; 0x00; 0x81].
Proof. reflexivity. Qed.

(** ** Parsing is safe *)

Lemma CEMI_to_L_Data_wf d : bytes d -> returns_with opt_ldata_wf (CEMI_to_L_Data d).
Proof.
  intros Hd. unfold CEMI_to_L_Data. repeat parse_step; try exact I.
  all: unfold is_u8 in *; repeat parse_step.
  all: try (destruct (_ && _); apply returns_with_Ret; [exact I|]; ldata_fields).
Qed.

Lemma EMI_to_L_Data_wf d : bytes d -> returns_with opt_ldata_wf (EMI_to_L_Data d).
Proof.
  intros Hd. unfold EMI_to_L_Data. repeat parse_step; try exact I.
  all: pose proof (land_0f a4); destruct (decide _); repeat parse_step; ldata_fields.
Qed.

Lemma CEMI_to_Busmonitor_safe sec usec d : bytes d -> returns (CEMI_to_Busmonitor sec usec d).
Proof.
  intros Hd. apply (returns_with_returns (fun _ => True)).
  unfold CEMI_to_Busmonitor. repeat parse_step; exact I.
Qed.

(** The parsers of messages from interfaces and from the network are memory
    safe and total: on every byte sequence, whatever the additional-information
    length or the payload length in it claims, CEMI and EMI parsing stay inside
    the message, and an accepted frame is well-formed. *)
Theorem EMI_parsers_safe sec usec d :
  bytes d ->
  returns_with opt_ldata_wf (CEMI_to_L_Data d) /\
  returns_with opt_ldata_wf (EMI_to_L_Data d) /\
  returns (CEMI_to_Busmonitor sec usec d).
Proof. auto using CEMI_to_L_Data_wf, EMI_to_L_Data_wf, CEMI_to_Busmonitor_safe. Qed.

Lemma EMI_parsers_safe_witness :
  returns_with opt_ldata_wf (CEMI_to_L_Data [0x29; 0xFF; 1; 2]) /\
  returns_with opt_ldata_wf (EMI_to_L_Data [0x29; 0xFF; 1; 2]) /\
  returns (CEMI_to_Busmonitor 0 0 [0x29; 0xFF; 1; 2]).
Proof. apply EMI_parsers_safe. decided. Defined.

(** ** Encoding *)

Definition cemi_control (code : Z) (l : L_Data_PDU) : Z :=
  u8 (Z.lor (u8 (Z.lor (Z.lor 0x10 (prio_code (prio l) ≪ 2))
                       (if decide (size (data l) - 1 <= 0x0f)%nat then 0x80 else 0x00)))
            (if decide (code = 0x29) then (if repeated l then 0 else 0x20) else 0x20)).

Definition cemi_bytes (code : Z) (l : L_Data_PDU) : CArray :=
  [u8 code; 0; cemi_control code l;
   u8 (Z.lor (Z.lor (group_bit (AddrType l)) (Z.land (hopcount l) 0x7 ≪ 4)) 0x0);
   u8 (source l ≫ 8); u8 (source l); u8 (dest l ≫ 8); u8 (dest l);
   u8 (Z.of_nat (size (data l)) - 1)] ++ data l.

(** The frames that [L_Data_ToCEMI] does not end the daemon on: those for which its
    three assertions hold. *)
Definition cemi_fits (l : L_Data_PDU) : Prop :=
  (1 <= size (data l) <= 254)%nat /\ Z.land (hopcount l) 0xf8 = 0.

#[export] Instance cemi_fits_dec l : Decision (cemi_fits l).
Proof. unfold cemi_fits; apply _. Defined.

Lemma L_Data_ToCEMI_fits code l : cemi_fits l -> L_Data_ToCEMI code l = Ret (cemi_bytes code l).
Proof.
  intros [Hs Hh]. unfold L_Data_ToCEMI, cemi_bytes, cemi_control.
  rewrite (bool_decide_eq_true_2 (1 <= size (data l))%nat) by lia.
  rewrite (bool_decide_eq_true_2 (size (data l) < 0xff)%nat) by lia.
  rewrite (bool_decide_eq_true_2 (Z.land (hopcount l) 0xf8 = 0)) by done. cbn [assert_].
  rewrite !bind_Ret. cbv zeta. rewrite resize_nil, (Nat.add_comm _ 9).
  change (replicate (9 + size (data l)) 0) with (replicate 9 0 ++ replicate (size (data l)) 0).
  cbn [put at_ lookup list_lookup replicate app mbind outcome_bind].
  destruct (decide (code = 0x29)); cbn [put mbind outcome_bind];
    do 9 rewrite setpart_cons; rewrite setpart_exact by done;
    cbn [mbind outcome_bind app]; by rewrite !land_ff, !u8_u8.
Qed.

Lemma L_Data_ToCEMI_unfit code l : ~ cemi_fits l -> L_Data_ToCEMI code l = Fault AssertFailed.
Proof.
  intros Hn. unfold L_Data_ToCEMI.
  destruct (decide (1 <= size (data l))%nat) as [H1|H1]; [|by rewrite (bool_decide_eq_false_2 _ H1)].
  rewrite (bool_decide_eq_true_2 _ H1). cbn [assert_]. rewrite bind_Ret.
  destruct (decide (size (data l) < 0xff)%nat) as [H2|H2]; [|by rewrite (bool_decide_eq_false_2 _ H2)].
  rewrite (bool_decide_eq_true_2 _ H2). cbn [assert_]. rewrite bind_Ret.
  rewrite (bool_decide_eq_false_2 (Z.land (hopcount l) 0xf8 = 0)); [done|]. intros Hh. apply Hn. split; [lia|done].
Qed.

Lemma wf_fits l : ldata_wf l -> (size (data l) <= 254)%nat -> cemi_fits l.
Proof.
  intros (_ & _ & Hh & _ & Hs) H. split; [lia|].
  pose proof (assert_mask 3 0x1f (hopcount l) ltac:(lia) Hh) as Ha. change (0x1f ≪ 3) with 0xf8 in Ha.
  destruct (bool_decide_reflect (Z.land (hopcount l) 0xf8 = 0)); done.
Qed.

Lemma L_Data_ToCEMI_eq code l :
  ldata_wf l -> (size (data l) <= 254)%nat -> L_Data_ToCEMI code l = Ret (cemi_bytes code l).
Proof. intros Hl H. by apply L_Data_ToCEMI_fits, wf_fits. Qed.

(** What the other side of a CEMI connection sees: the repeat flag travels only
    in an indication, and urgent and normal are exchanged. *)
Definition cemi_received (code : Z) (l : L_Data_PDU) : L_Data_PDU :=
  mkL_Data (swap_prio (prio l)) (if decide (u8 code = 0x29) then repeated l else false)
    true true (AddrType l) (source l) (dest l) (hopcount l) (data l).

Lemma cemi_control_fields code l :
  is_u8 code ->
  code_prio (Z.land (cemi_control code l ≫ 2) 0x3) = swap_prio (prio l) /\
  (if decide (u8 code = 0x29) then (if nz (Z.land (cemi_control code l) 0x20) then false else true)
   else false) = (if decide (u8 code = 0x29) then repeated l else false).
Proof.
  intros Hc. rewrite u8_small by done. unfold cemi_control.
  destruct (decide (code = 0x29)), (decide (size _ - 1 <= _)%nat), (prio l), (repeated l);
    vm_compute; done.
Qed.

Lemma cemi_ctrl2_fields h t :
  0 <= h < 8 ->
  let b := u8 (Z.lor (Z.lor (group_bit t) (Z.land h 0x7 ≪ 4)) 0x0) in
  Z.land b 0x0f = 0 /\ Z.land (b ≫ 4) 0x07 = h /\
  (if nz (Z.land b 0x80) then GroupAddress else IndividualAddress) = t.
Proof.
  intros Hh. cbv zeta. rewrite Z.lor_0_r, Z.lor_comm. by apply ext_byte.
Qed.

Lemma CEMI_back code l :
  ldata_wf l -> is_u8 code -> (size (data l) <= 254)%nat ->
  CEMI_to_L_Data (cemi_bytes code l) = Ret (Some (cemi_received code l)).
Proof.
  intros (Hsrc & Hdst & Hh & Hb & Hs) Hc H.
  destruct (cemi_control_fields code l Hc) as [H1 H2].
  destruct (cemi_ctrl2_fields (hopcount l) (AddrType l) Hh) as (H3 & H4 & H5).
  assert (size (cemi_bytes code l) = (9 + size (data l))%nat) as Hsz by done.
  assert (slice (cemi_bytes code l) 9 (size (data l)) = Ret (data l)) as Hsl.
  { unfold cemi_bytes. cbn [app]. do 9 rewrite slice_cons. by apply slice_all. }
  assert (u8 (Z.of_nat (size (data l)) - 1) = Z.of_nat (size (data l)) - 1) as Hn
    by (apply u8_small; unfold is_u8; lia).
  unfold CEMI_to_L_Data. rewrite Hsz. unfold cemi_bytes in *. rewrite Hn in *.
  cbn [at_ app lookup list_lookup mbind outcome_bind] in *.
  change (Z.to_nat 0 + 2)%nat with 2%nat. cbv zeta.
  do 3 (rewrite decide_False by lia; cbn [at_ app lookup list_lookup mbind outcome_bind Nat.add]).
  replace (Z.to_nat _ + 1)%nat with (size (data l)) by lia. rewrite Hsl, bind_Ret, H1, H2.
  cbv zeta. rewrite H3, H4, H5, !be16_field by done. change (nz 0) with false.
  by rewrite andb_false_r.
Qed.

(** A frame sent over a CEMI connection arrives: for every message code and
    every well-formed frame of at most 254 payload bytes, the CEMI message
    parses back to the same addresses, address type, hop count and payload; the
    repeat flag survives in an indication (code 0x29) and is cleared otherwise,
    and urgent and normal priority are exchanged. *)
Theorem CEMI_roundtrip code l :
  ldata_wf l -> is_u8 code -> (size (data l) <= 254)%nat ->
  (c ← L_Data_ToCEMI code l; CEMI_to_L_Data c) = Ret (Some (cemi_received code l)).
Proof.
  intros Hl Hc H. rewrite L_Data_ToCEMI_eq by done. rewrite bind_Ret. by apply CEMI_back.
Qed.

Lemma CEMI_roundtrip_witness :
  (c ← L_Data_ToCEMI 0x29
         (mkL_Data PRIO_SYSTEM true true true IndividualAddress 0x1102 0x1103 6 (replicate 30 7));
   CEMI_to_L_Data c)
  = Ret (Some (mkL_Data PRIO_SYSTEM true true true IndividualAddress 0x1102 0x1103 6
                 (replicate 30 7))).
Proof.
  apply (CEMI_roundtrip 0x29
    (mkL_Data PRIO_SYSTEM true true true IndividualAddress 0x1102 0x1103 6 (replicate 30 7))).
  - unfold ldata_wf. simpl. split_and!; decided.
  - decided.
  - decided.
Defined.

(** A frame that was accepted from a CEMI connection can be sent on over
    another one exactly if it has at most 254 payload bytes; the parser accepts
    up to 256, and with 255 or 256 the assertion of [L_Data_ToCEMI] ends the
    daemon. *)
Theorem CEMI_forward_iff code l :
  ldata_wf l -> returns (L_Data_ToCEMI code l) <-> (size (data l) <= 254)%nat.
Proof.
  intros Hl. split.
  - intros [c Hc]. apply Nat.nlt_ge. intros H. unfold L_Data_ToCEMI in Hc.
    rewrite (bool_decide_eq_true_2 (1 <= size (data l))%nat) in Hc by lia.
    by rewrite (bool_decide_eq_false_2 (size (data l) < 0xff)%nat) in Hc by lia.
  - intros H. rewrite L_Data_ToCEMI_eq by done. by eexists.
Qed.

(** A routing message with a payload length byte of 254. *)
Definition long_cemi : CArray :=
  [0x29; 0; 0x3C; 0xE0; 0x11; 0x02; 0x0A; 0x03; 0xFE] ++ replicate 255 0.

Definition long_cemi_ldata : L_Data_PDU :=
  mkL_Data PRIO_LOW false true true GroupAddress 0x1102 0x0A03 6 (replicate 255 0).

Lemma CEMI_forward_iff_witness :
  CEMI_to_L_Data long_cemi = Ret (Some long_cemi_ldata) /\
  ~ returns (L_Data_ToCEMI 0x29 long_cemi_ldata).
Proof.
  split; [vm_compute; reflexivity|]. intros R.
  apply (CEMI_forward_iff 0x29 long_cemi_ldata) in R.
  - vm_compute in R. lia.
  - unfold ldata_wf. cbn [long_cemi_ldata source dest hopcount data]. split_and!; decided.
Defined.

(** *** EMI1 and EMI2 *)

Definition emi_bytes (code : Z) (l : L_Data_PDU) : CArray :=
  [u8 code; u8 (prio_code (prio l) ≪ 2); 0; 0; u8 (dest l ≫ 8); u8 (dest l);
   u8 (Z.lor (Z.lor (Z.land (hopcount l) 0x07 ≪ 4) (Z.land (Z.of_nat (size (data l)) - 1) 0x0f))
             (group_bit (AddrType l)))] ++ data l.

Lemma L_Data_ToEMI_eq code l : L_Data_ToEMI code l = Ret (emi_bytes code l).
Proof.
  unfold L_Data_ToEMI, emi_bytes. rewrite resize_nil, (Nat.add_comm _ 7).
  change (replicate (7 + size (data l)) 0) with (replicate 7 0 ++ replicate (size (data l)) 0).
  cbn [put at_ lookup list_lookup replicate app mbind outcome_bind].
  do 7 rewrite setpart_cons; rewrite setpart_exact by done.
  cbn [mbind outcome_bind app]. by rewrite !land_ff, !u8_u8.
Qed.

(** The interface fills in its own source address and the repeat flag. *)
Definition emi_received (l : L_Data_PDU) : L_Data_PDU :=
  mkL_Data (swap_prio (prio l)) false true true (AddrType l) 0 (dest l) (hopcount l) (data l).

(** For the frames the EMI1/EMI2 drivers send (at most 16 payload bytes)
    the message parses back to the same destination, address type, hop count
    and payload, with no source address. *)
Theorem EMI_roundtrip code l :
  ldata_wf l -> (size (data l) <= 16)%nat ->
  (c ← L_Data_ToEMI code l; EMI_to_L_Data c) = Ret (Some (emi_received l)).
Proof.
  intros (Hsrc & Hdst & Hh & Hb & Hs) H. rewrite L_Data_ToEMI_eq, bind_Ret.
  assert (size (emi_bytes code l) = (7 + size (data l))%nat) as Hsz by done.
  assert (slice (emi_bytes code l) 7 (size (data l)) = Ret (data l)) as Hsl.
  { unfold emi_bytes. cbn [app]. do 7 rewrite slice_cons. by apply slice_all. }
  destruct (npci_byte (hopcount l) (Z.of_nat (size (data l)) - 1) (AddrType l)) as (H1 & H2 & H3);
    [lia..|].
  unfold EMI_to_L_Data. rewrite Hsz, decide_False by lia. unfold emi_bytes in *.
  cbn [at_ app lookup list_lookup mbind outcome_bind] in *.
  rewrite H1, H2, H3, be16_field by done. cbv zeta. rewrite decide_False by lia.
  replace (Z.to_nat _ + 1)%nat with (size (data l)) by lia. rewrite Hsl, bind_Ret.
  unfold emi_received. do 3 f_equal. by destruct (prio l).
Qed.

Lemma EMI_roundtrip_witness :
  (c ← L_Data_ToEMI 0x11
         (mkL_Data PRIO_LOW true true true GroupAddress 0x1102 0x0A03 6 [0; 0x81]);
   EMI_to_L_Data c)
  = Ret (Some (mkL_Data PRIO_LOW false true true GroupAddress 0 0x0A03 6 [0; 0x81])).
Proof.
  apply (EMI_roundtrip 0x11
    (mkL_Data PRIO_LOW true true true GroupAddress 0x1102 0x0A03 6 [0; 0x81])).
  - unfold ldata_wf. simpl. split_and!; decided.
  - decided.
Defined.

(** *** Busmonitor frames *)

(** A busmonitor frame forwarded in CEMI keeps its content: every non-empty
    frame comes out of the message [Busmonitor_to_CEMI] builds (status and
    timestamp in the additional information) unchanged. *)
Theorem busmonitor_roundtrip code b no sec usec :
  bm_pdu b <> [] ->
  exists b', (c ← Busmonitor_to_CEMI code b no; CEMI_to_Busmonitor sec usec c) = Ret (Some b') /\
             bm_pdu b' = bm_pdu b.
Proof.
  intros Hne. unfold Busmonitor_to_CEMI, setpart_all.
  rewrite resize_nil, (Nat.add_comm _ 9).
  change (replicate (9 + size (bm_pdu b)) 0) with (replicate 9 0 ++ replicate (size (bm_pdu b)) 0).
  cbn [put at_ lookup list_lookup replicate app mbind outcome_bind].
  do 9 rewrite setpart_cons. rewrite setpart_exact by done.
  destruct (bm_pdu b) as [|x p] eqn:E; [done|].
  cbn [mbind outcome_bind]. unfold CEMI_to_Busmonitor.
  cbn [at_ lookup list_lookup mbind outcome_bind].
  change (Z.to_nat (u8 7) + 2)%nat with 9%nat. unfold size.
  rewrite (decide_False (P := (length _ < 2)%nat)) by (simpl; lia). cbv zeta.
  rewrite decide_False by (simpl; lia). do 9 rewrite slice_cons.
  rewrite slice_all by (unfold size; simpl; lia). by eexists.
Qed.

Lemma busmonitor_roundtrip_witness :
  exists b', (c ← Busmonitor_to_CEMI 0x2B (mkL_Busmonitor [0xCC] 0 77) 3; CEMI_to_Busmonitor 1 2 c)
             = Ret (Some b') /\ bm_pdu b' = [0xCC].
Proof. apply (busmonitor_roundtrip 0x2B (mkL_Busmonitor [0xCC] 0 77) 3 1 2). discriminate. Defined.
