(* ===== verification/Link.v ===== *)
(** * Link connections

    Models [class LinkConnect] of src/src/libserver/link.h and
    src/src/libserver/link.cpp: the state machine through which the router
    starts, stops, retries and watches an interface, and the interface to the
    stack of filters and the driver behind it.

    The stack below a link is known to it by the methods of [LinkBase] only,
    collected in the class [Driver].  A method of the stack may call back into
    the link before it returns ([started], [stopped], [errored], [send_Next]);
    these nested calls are part of what a method returns, in their order. *)

From stdpp Require Import gmap.
From S2P Require Import Prelude CArray Common Lpdu.

Inductive LConnState :=
| L_down
| L_going_down
| L_up
| L_going_up
| L_wait_retry
| L_error
| L_up_error
| L_going_down_error.

#[export] Instance LConnState_eq_dec : EqDecision LConnState.
Proof. solve_decision. Defined.

(** The value of the enumerator, for comparisons such as [state < L_wait_retry]. *)
Definition state_index (s : LConnState) : Z :=
  match s with
  | L_down => 0 | L_going_down => 1 | L_up => 2 | L_going_up => 3
  | L_wait_retry => 4 | L_error => 5 | L_up_error => 6 | L_going_down_error => 7
  end.

(** Calls from the stack into its link. *)
Inductive callback := C_started | C_stopped | C_errored | C_send_Next.

(** What the link's methods promise and use of the stack of filters and driver. *)
Class Driver (D : Type) := {
  drv_start : D -> D * list callback;
  drv_stop : D -> D * list callback;
  drv_send_L_Data : D -> L_Data_PDU -> D * list callback;
  drv_hasAddress : D -> Z -> bool;
  drv_addAddress : D -> Z -> D;
  drv_checkAddress : D -> Z -> bool;
  drv_checkGroupAddress : D -> Z -> bool
}.

(** Calls from the link into the router, in the order they are made. *)
Inductive signal := S_linkStateChanged | S_send_Next.

(** The subclasses of [LinkConnect] that override the address methods. *)
Inductive link_kind := K_LinkConnect | K_LinkConnectSingle | K_Server.

Record LinkConnect (D : Type) := mkLink {
  kind : link_kind;
  pos : Z;
  ignore : bool;
  transient : bool;
  may_fail : bool;
  is_local : bool;
  addr : Z;
  state : LConnState;
  seq : Z;
  retry_delay : Z;
  retries : Z;
  max_retries : Z;
  retry_timer : bool;
  send_more : bool;
  drv : D;
  signals : list signal
}.
Arguments mkLink {D}.
Arguments kind {D}.
Arguments pos {D}.
Arguments ignore {D}.
Arguments transient {D}.
Arguments may_fail {D}.
Arguments is_local {D}.
Arguments addr {D}.
Arguments state {D}.
Arguments seq {D}.
Arguments retry_delay {D}.
Arguments retries {D}.
Arguments max_retries {D}.
Arguments retry_timer {D}.
Arguments send_more {D}.
Arguments drv {D}.
Arguments signals {D}.

Section Link.
Context {D : Type} `{Driver D}.

Local Abbreviation link := (LinkConnect D).

(** Assignments to the members. *)
Definition set_state (l : link) (s : LConnState) : link :=
  mkLink (kind l) (pos l) (ignore l) (transient l) (may_fail l) (is_local l) (addr l) s (seq l)
    (retry_delay l) (retries l) (max_retries l) (retry_timer l) (send_more l) (drv l) (signals l).
Definition set_retries (l : link) (n : Z) : link :=
  mkLink (kind l) (pos l) (ignore l) (transient l) (may_fail l) (is_local l) (addr l) (state l)
    (seq l) (retry_delay l) n (max_retries l) (retry_timer l) (send_more l) (drv l) (signals l).
Definition set_timer (l : link) (b : bool) : link :=
  mkLink (kind l) (pos l) (ignore l) (transient l) (may_fail l) (is_local l) (addr l) (state l)
    (seq l) (retry_delay l) (retries l) (max_retries l) b (send_more l) (drv l) (signals l).
Definition set_send_more (l : link) (b : bool) : link :=
  mkLink (kind l) (pos l) (ignore l) (transient l) (may_fail l) (is_local l) (addr l) (state l)
    (seq l) (retry_delay l) (retries l) (max_retries l) (retry_timer l) b (drv l) (signals l).
Definition set_drv (l : link) (d : D) : link :=
  mkLink (kind l) (pos l) (ignore l) (transient l) (may_fail l) (is_local l) (addr l) (state l)
    (seq l) (retry_delay l) (retries l) (max_retries l) (retry_timer l) (send_more l) d (signals l).
Definition emit (l : link) (s : signal) : link :=
  mkLink (kind l) (pos l) (ignore l) (transient l) (may_fail l) (is_local l) (addr l) (state l)
    (seq l) (retry_delay l) (retries l) (max_retries l) (retry_timer l) (send_more l) (drv l)
    (signals l ++ [s]).
Definition set_seq (l : link) (n : Z) : link :=
  mkLink (kind l) (pos l) (ignore l) (transient l) (may_fail l) (is_local l) (addr l) (state l)
    n (retry_delay l) (retries l) (max_retries l) (retry_timer l) (send_more l) (drv l) (signals l).

(** [LinkConnect::send_Next]; the router's part is a signal. *)
Definition link_send_Next (l : link) : link :=
  let l := set_send_more l true in
  let l := if decide (state l = L_up) then set_timer l false else l in
  emit l S_send_Next.

(** The callbacks of one call into the stack, given [setState]. *)
Fixpoint run_callbacks (set : link -> LConnState -> outcome link) (cs : list callback) (l : link)
  : outcome link :=
  match cs with
  | [] => Ret l
  | c :: cs =>
      l ← match c with
          | C_started => set l L_up
          | C_stopped => set l L_down
          | C_errored => set l L_error
          | C_send_Next => Ret (link_send_Next l)
          end;
      run_callbacks set cs l
  end.

(** [LinkConnect::start] and [LinkConnect::stop], and the overriding methods of
    [Server], which has no driver. *)
Definition link_start (set : link -> LConnState -> outcome link) (l : link) : outcome link :=
  match kind l with
  | K_Server => set l L_up
  | _ =>
      let l := set_send_more l true in
      let '(d, cs) := drv_start (drv l) in
      run_callbacks set cs (set_drv l d)
  end.

Definition link_stop (set : link -> LConnState -> outcome link) (l : link) : outcome link :=
  match kind l with
  | K_Server => set l L_down
  | _ =>
      let '(d, cs) := drv_stop (drv l) in
      run_callbacks set cs (set_drv l d)
  end.

(** The code at the label [retry]. *)
Definition retry (l : link) : link :=
  if (bool_decide (retry_delay l > 0) && bool_decide (max_retries l = 0))
     || bool_decide (retries l < max_retries l)
  then set_timer (set_state l L_wait_retry) true
  else emit (set_state l L_error) S_linkStateChanged.

(** [LinkConnect::setState], with calls nested at most [depth] deep. *)
Fixpoint setState (depth : nat) (l : link) (new_state : LConnState) : outcome link :=
  match depth with
  | O => Fault StackOverflow
  | S depth =>
      if decide (state l = new_state) then Ret l
      else
        let old_state := state l in
        let l := set_state l new_state in
        let l := if bool_decide (old_state = L_wait_retry)
                    || (bool_decide (old_state = L_up) && bool_decide (new_state <> L_up))
                 then set_timer l false else l in
        let start := link_start (setState depth) in
        let stop := link_stop (setState depth) in
        let done (m : outcome link) := l ← m; Ret (emit l S_linkStateChanged) in
        let inval := Fault Aborted in
        match old_state with
        | L_down =>
            match new_state with
            | L_going_up => done (start l)
            | L_going_down => done (Ret (set_state l L_down))
            | _ => inval
            end
        | L_going_down =>
            match new_state with
            | L_error => done (Ret (set_state l L_going_down_error))
            | L_down => done (Ret l)
            | _ => inval
            end
        | L_up =>
            match new_state with
            | L_going_up => done (Ret (set_state l L_up))
            | L_going_down | L_down => done (stop l)
            | L_error => done (Ret (set_state l L_up_error))
            | _ => inval
            end
        | L_going_up =>
            match new_state with
            | L_up => done (Ret (set_retries l 0))
            | L_going_down => done (stop l)
            | L_down => Ret (retry l)
            | L_error => done (Ret (set_state l L_up_error))
            | _ => inval
            end
        | L_wait_retry =>
            match new_state with
            | L_going_up => done (start l)
            | L_going_down => done (Ret (set_state l L_down))
            | _ => inval
            end
        | L_error =>
            match new_state with
            | L_wait_retry => Ret (retry l)
            | L_error => done (Ret l)
            | L_going_down => done (Ret (set_state l L_error))
            | L_down => Ret (retry l)
            | _ => inval
            end
        | L_up_error =>
            match new_state with
            | L_going_down => done (stop (set_state l L_going_down_error))
            | L_down => Ret (retry l)
            | L_error => done (Ret l)
            | _ => inval
            end
        | L_going_down_error =>
            match new_state with
            | L_down => Ret (retry l)
            | L_error => done (Ret l)
            | L_going_down => done (Ret (set_state l L_going_down_error))
            | _ => inval
            end
        end
  end.

(** [LinkConnect::retry_timer_cb].  The timer is a one-shot timer. *)
Definition retry_timer_cb (depth : nat) (l : link) : outcome link :=
  let l := set_timer l false in
  if bool_decide (state l = L_up) && negb (send_more l) then setState depth l L_error
  else if decide (state l <> L_wait_retry) then Ret l
  else setState depth (set_retries l (retries l + 1)) L_going_up.

(** [LinkConnect::send_L_Data]; servers do not accept data. *)
Definition link_send_L_Data (depth : nat) (l : link) (p : L_Data_PDU) : outcome link :=
  match kind l with
  | K_Server => Ret l
  | _ =>
      let l := set_send_more l false in
      _ ← assert_ (bool_decide (state l = L_up));
      let l := set_timer l true in
      let '(d, cs) := drv_send_L_Data (drv l) p in
      run_callbacks (setState depth) cs (set_drv l d)
  end.

(** ** Addresses *)

Definition link_hasAddress (l : link) (a : Z) : bool :=
  match kind l with
  | K_Server => false
  | K_LinkConnectSingle => bool_decide (a = addr l)
  | K_LinkConnect => drv_hasAddress (drv l) a
  end.

Definition link_addAddress (l : link) (a : Z) : outcome link :=
  match kind l with
  | K_Server => Ret l
  | K_LinkConnectSingle =>
      _ ← assert_ (bool_decide (a = 0) || bool_decide (a = addr l)); Ret l
  | K_LinkConnect => Ret (set_drv l (drv_addAddress (drv l) a))
  end.

Definition link_checkAddress (l : link) (a : Z) : bool :=
  match kind l with K_Server => false | _ => drv_checkAddress (drv l) a end.

Definition link_checkGroupAddress (l : link) (a : Z) : bool :=
  match kind l with K_Server => false | _ => drv_checkGroupAddress (drv l) a end.

End Link.

(** ** Two drivers *)

(** [class BusDriver] with the methods of [DummyL2Driver]: the addresses seen so
    far, immediate [started] and [stopped], and every frame is sent at once. *)
Record BusDriver := mkBus { addrs : gset Z }.

Definition DummyL2Driver : Driver BusDriver := {|
  drv_start d := (d, [C_started]);
  drv_stop d := (d, [C_stopped]);
  drv_send_L_Data d _ := (d, [C_send_Next]);
  drv_hasAddress d a := bool_decide (a ∈ addrs d);
  drv_addAddress d a := mkBus ({[a]} ∪ addrs d);
  drv_checkAddress _ _ := true;
  drv_checkGroupAddress _ _ := true
|}.
#[export] Existing Instance DummyL2Driver.

(** ** The protocol between a link and the stack behind it *)

(** What a driver is doing. *)
Inductive phase := D_idle | D_starting | D_running | D_failed | D_stopping.

#[export] Instance phase_eq_dec : EqDecision phase.
Proof. solve_decision. Defined.

(** The calls the comments of link.h allow a driver to make, and the phase after
    each: [start] ultimately leads to [started] or [stopped], [stop] to [stopped],
    an error may be reported any time in between, and readiness for the next frame
    at any time. *)
Definition callback_phase (d : phase) (c : callback) : option phase :=
  match d, c with
  | _, C_send_Next => Some d
  | D_starting, C_started => Some D_running
  | D_starting, C_errored | D_running, C_errored | D_failed, C_errored => Some D_failed
  | D_stopping, C_errored => Some D_stopping
  | D_starting, C_stopped | D_running, C_stopped | D_failed, C_stopped
  | D_stopping, C_stopped => Some D_idle
  | _, _ => None
  end.

Fixpoint callbacks_phase (d : phase) (cs : list callback) : option phase :=
  match cs with
  | [] => Some d
  | c :: cs => match callback_phase d c with Some d => callbacks_phase d cs | None => None end
  end.

(** The stacks that keep to it.  A method may make any number of the calls it is
    allowed before it returns, or none of them, and the others later; a stack that
    is stopped while it is idle at most reports that it has stopped. *)
Class ProtocolDriver (D : Type) `{Driver D} := {
  drv_phase : D -> phase;
  drv_start_phase : forall d, drv_phase d = D_idle ->
    callbacks_phase D_starting (drv_start d).2 = Some (drv_phase (drv_start d).1);
  drv_stop_phase : forall d, drv_phase d <> D_idle ->
    callbacks_phase D_stopping (drv_stop d).2 = Some (drv_phase (drv_stop d).1);
  drv_stop_idle : forall d, drv_phase d = D_idle ->
    drv_phase (drv_stop d).1 = D_idle /\ Forall (fun c => c = C_stopped) (drv_stop d).2;
  drv_send_phase : forall d p, drv_phase d = D_running ->
    callbacks_phase D_running (drv_send_L_Data d p).2 = Some (drv_phase (drv_send_L_Data d p).1)
}.

(** Two samples: a driver that makes all its calls later, and one that makes them
    at once. *)
#[export] Instance LateDriver : Driver phase := {
  drv_start _ := (D_starting, []);
  drv_stop d := (match d with D_idle => D_idle | _ => D_stopping end, []);
  drv_send_L_Data d _ := (d, []);
  drv_hasAddress _ _ := false;
  drv_addAddress d _ := d;
  drv_checkAddress _ _ := true;
  drv_checkGroupAddress _ _ := true
}.

#[export] Instance LateDriver_protocol : ProtocolDriver phase.
Proof. refine {| drv_phase := fun d => d |}; by intros []. Defined.

Record Prompt := mkPrompt { prompt_phase : phase }.

#[export] Instance PromptDriver : Driver Prompt := {
  drv_start _ := (mkPrompt D_running, [C_started]);
  drv_stop _ := (mkPrompt D_idle, [C_stopped]);
  drv_send_L_Data d _ := (d, [C_send_Next]);
  drv_hasAddress _ _ := false;
  drv_addAddress d _ := d;
  drv_checkAddress _ _ := true;
  drv_checkGroupAddress _ _ := true
}.

#[export] Instance PromptDriver_protocol : ProtocolDriver Prompt.
Proof.
  refine {| drv_phase := prompt_phase |}; intros [[]]; cbn; try done.
  intros _. split; [done|]. by repeat constructor.
Defined.

(** ** What the users of a stack rely on *)

(** What the router relies on when it sends: a stack that is given a frame may
    report that it is ready for the next one, and nothing else, before it
    returns. *)
Class QuietDriver (D : Type) `{Driver D} := {
  drv_send_quiet : forall (d : D) (p : L_Data_PDU),
    Forall (fun c => c = C_send_Next) (drv_send_L_Data d p).2
}.

#[export] Instance DummyL2Driver_quiet : QuietDriver BusDriver.
Proof. constructor. intros d p. by repeat constructor. Qed.

#[export] Instance LateDriver_quiet : QuietDriver phase.
Proof. constructor. intros d p. constructor. Qed.

(** The law of the address table of a driver the router relies on: adding an
    address makes that address known and no other. *)
Class DriverLaws (D : Type) `{Driver D} := {
  drv_has_add : forall (d : D) (a b : Z),
    drv_hasAddress (drv_addAddress d a) b = true -> b = a \/ drv_hasAddress d b = true
}.

#[export] Instance DummyL2Driver_laws : DriverLaws BusDriver.
Proof.
  constructor. intros d a b. simpl. rewrite !bool_decide_eq_true. set_solver.
Qed.

#[export] Instance LateDriver_laws : DriverLaws phase.
Proof. constructor. done. Qed.

(** A link as its constructor leaves it. *)
Definition new_link {D} (k : link_kind) (p a delay maxr : Z) (d : D) : LinkConnect D :=
  mkLink k p false false false false a L_down 0 delay 0 maxr false true d [].

Example dummy_up :
  option_map state (match setState 3 (new_link K_LinkConnect 1 0 0 0 (mkBus ∅)) L_going_up with
                    | Ret l => Some l | Fault _ => None end) = Some L_up.
Proof. reflexivity. Qed.
