(* ===== verification/LinkSpec.v ===== *)
(** * Link connections: theorems

    Invariants of the state machine for every driver and every sequence of
    events; the transitions that end the daemon; and that none of them is
    reachable with a driver that keeps to the protocol described in link.h. *)

From stdpp Require Import gmap.
From S2P Require Import Prelude CArray Common Lpdu Link.

(** ** Events and runs *)

(** What happens to a link: the router or a callback sets its state, the timer
    expires, the router sends a frame, the driver is ready for the next one, the
    router stops a failed link. *)
Inductive link_event :=
| Ev_setState (s : LConnState)
| Ev_timer
| Ev_send (p : L_Data_PDU)
| Ev_send_Next
| Ev_stop.

Section Runs.
Context {D : Type} `{Driver D}.

Definition link_step (depth : nat) (l : LinkConnect D) (e : link_event)
  : outcome (LinkConnect D) :=
  match e with
  | Ev_setState s => setState depth l s
  | Ev_timer => retry_timer_cb depth l
  | Ev_send p => link_send_L_Data depth l p
  | Ev_send_Next => Ret (link_send_Next l)
  | Ev_stop => link_stop (setState depth) l
  end.

Fixpoint link_run (depth : nat) (l : LinkConnect D) (es : list link_event)
  : outcome (LinkConnect D) :=
  match es with
  | [] => Ret l
  | e :: es => l ← link_step depth l e; link_run depth l es
  end.

(** ** An invariant for every driver *)

Definition retries_ok (l : LinkConnect D) : Prop :=
  0 < max_retries l -> 0 <= retries l <= max_retries l.

Definition waiting_ok (l : LinkConnect D) : Prop :=
  state l = L_wait_retry ->
  retry_timer l = true /\ (0 < max_retries l -> retries l < max_retries l).

Definition link_inv (m : Z) (l : LinkConnect D) : Prop :=
  max_retries l = m /\ retries_ok l /\ waiting_ok l.

Create HintDb link.

Lemma retry_inv m l : max_retries l = m -> retries_ok l -> link_inv m (retry l).
Proof.
  intros Hm Hr. unfold retry, link_inv, waiting_ok, retries_ok in *.
  destruct (_ || _) eqn:E; simpl; [|by split_and!].
  split_and!; [done|done|]. intros _. split; [done|]. intros Hp.
  apply orb_true_iff in E as [E|E].
  - apply andb_true_iff in E as [_ E]. apply bool_decide_eq_true in E. lia.
  - by apply bool_decide_eq_true in E.
Qed.

Lemma away_inv m l : max_retries l = m -> retries_ok l -> state l <> L_wait_retry -> link_inv m l.
Proof. intros. by split_and!. Qed.

Lemma emit_inv m l s : link_inv m l -> link_inv m (emit l s).
Proof. done. Qed.

Lemma send_Next_inv m l : link_inv m l -> link_inv m (link_send_Next l).
Proof.
  intros (Hm & Hr & Hw). unfold link_send_Next. simpl.
  destruct (decide (state l = L_up)) as [E|E]; [|done].
  split_and!; [done|done|]. unfold waiting_ok. simpl. congruence.
Qed.

Lemma run_callbacks_inv m set :
  (forall l s l', link_inv m l -> set l s = Ret l' -> link_inv m l') ->
  forall cs l l', link_inv m l -> run_callbacks set cs l = Ret l' -> link_inv m l'.
Proof.
  intros Hset cs. induction cs as [|c cs IH]; simpl; intros l l' Hl Hrun; [by simplify_eq|].
  apply bind_Ret_inv in Hrun as (l1 & H1 & H2). eapply IH; [|done].
  destruct c; [eauto..|]. simplify_eq. by apply send_Next_inv.
Qed.

Lemma link_start_inv m set :
  (forall l s l', link_inv m l -> set l s = Ret l' -> link_inv m l') ->
  forall l l', link_inv m l -> link_start set l = Ret l' -> link_inv m l'.
Proof.
  intros Hset l l' Hl. unfold link_start. destruct (kind l); [| |by eauto].
  all: simpl; destruct (drv_start _) as [d cs]; apply run_callbacks_inv; done.
Qed.

Lemma link_stop_inv m set :
  (forall l s l', link_inv m l -> set l s = Ret l' -> link_inv m l') ->
  forall l l', link_inv m l -> link_stop set l = Ret l' -> link_inv m l'.
Proof.
  intros Hset l l' Hl. unfold link_stop. destruct (kind l); [| |by eauto].
  all: simpl; destruct (drv_stop _) as [d cs]; apply run_callbacks_inv; done.
Qed.

(** Entering [setState] from a state that need not be consistent yet, as the
    timer does. *)
Lemma setState_inv' m depth : forall l s l',
  max_retries l = m -> retries_ok l -> (state l = s -> link_inv m l) ->
  setState depth l s = Ret l' -> link_inv m l'.
Proof.
  induction depth as [|depth IH]; [done|]. intros l s l' Hm Hr Hs Hset.
  assert (forall l s l', link_inv m l -> setState depth l s = Ret l' -> link_inv m l') as Hrec.
  { intros ??? (?&?&?) ?. by eapply IH. }
  simpl in Hset. destruct (decide (state l = s)); [simplify_eq; auto|].
  set (l1 := if _ || _ then set_timer (set_state l s) false else set_state l s) in Hset.
  assert (max_retries l1 = m /\ retries_ok l1 /\ state l1 = s) as (Hm1 & Hr1 & Hs1).
  { unfold l1. destruct (_ || _); done. }
  clearbody l1.
  assert (s <> L_wait_retry -> link_inv m l1) as Hl1 by (intros; apply away_inv; [done|done|by rewrite Hs1]).
  destruct (state l), s; simplify_eq/=;
    repeat match goal with
    | Hb : _ ≫= _ = Ret _ |- _ =>
        let l2 := fresh "l2" in let H2 := fresh "H2" in
        apply bind_Ret_inv in Hb as (l2 & H2 & Hb)
    end; simplify_eq/=; try apply emit_inv;
    first
      [ by apply retry_inv
      | eapply link_start_inv; [exact Hrec| |eassumption]; by auto
      | eapply link_stop_inv; [exact Hrec| |eassumption]; by auto
      | by auto
      | by apply away_inv
      | idtac ].
  apply away_inv; [done| |by simpl; rewrite Hs1]. unfold retries_ok. simpl. lia.
Qed.

Lemma setState_inv m depth l s l' :
  link_inv m l -> setState depth l s = Ret l' -> link_inv m l'.
Proof. intros (?&?&?). by apply setState_inv'. Qed.

Lemma link_step_inv m depth l e l' :
  link_inv m l -> link_step depth l e = Ret l' -> link_inv m l'.
Proof.
  intros Hl. destruct e as [s| |p| |]; simpl.
  - by apply setState_inv.
  - unfold retry_timer_cb. simpl. destruct Hl as (Hm & Hr & Hw).
    destruct (_ && _) eqn:E.
    + apply andb_true_iff in E as [E _]. apply bool_decide_eq_true in E. simpl in E.
      apply setState_inv. apply away_inv; [done|done|]. simpl. congruence.
    + destruct (decide _) as [Hn|Hn]; [intros [= <-]; by apply away_inv|].
      apply dec_stable in Hn. apply setState_inv'; [done| |simpl; congruence].
      unfold retries_ok. simpl. intros Hp. destruct (Hw Hn) as [_ Hlt].
      specialize (Hr Hp). specialize (Hlt Hp). lia.
  - unfold link_send_L_Data. destruct (kind l); [| |by intros [= <-]].
    all: intros (u & Ha & Hb)%bind_Ret_inv; simpl in *; destruct (drv_send_L_Data _ _) as [d cs];
      eapply run_callbacks_inv; [by eauto using setState_inv | | exact Hb];
      destruct Hl as (Hm & Hr & Hw); split_and!; [done|done|];
      intros Hst; simpl in *; destruct (Hw Hst); done.
  - intros [= <-]. by apply send_Next_inv.
  - apply link_stop_inv; [|done]. eauto using setState_inv.
Qed.

Lemma link_run_inv m depth es : forall l l',
  link_inv m l -> link_run depth l es = Ret l' -> link_inv m l'.
Proof.
  induction es as [|e es IH]; simpl; intros l l' Hl Hr; [by simplify_eq|].
  apply bind_Ret_inv in Hr as (l1 & H1 & H2). eauto using link_step_inv.
Qed.

(** Retries are bounded and never forgotten: whatever the driver does and
    whatever sequence of events a link goes through, a link configured with
    [max-retry] > 0 makes at most that many retries since it was last up, and
    while it waits for its next retry the retry timer is running. *)
Theorem retries_bounded depth k p a delay maxr (d : D) es l :
  0 < maxr -> link_run depth (new_link k p a delay maxr d) es = Ret l ->
  0 <= retries l <= maxr /\
  (state l = L_wait_retry -> retry_timer l = true /\ retries l < maxr).
Proof.
  intros Hp Hrun. apply (link_run_inv maxr) in Hrun as (Hm & Hr & Hw).
  - unfold retries_ok, waiting_ok in *. rewrite Hm in *. split; [auto|].
    intros Hs. destruct (Hw Hs). auto.
  - split_and!; [done| |done]. intros _. simpl. lia.
Qed.

End Runs.

Definition failing_twice : list link_event :=
  [Ev_setState L_going_up; Ev_setState L_down; Ev_timer; Ev_setState L_down].

Lemma retries_bounded_witness :
  0 <= 1 <= 2 /\ (L_wait_retry = L_wait_retry -> true = true /\ 1 < 2).
Proof.
  apply (retries_bounded 2 K_LinkConnect 1 0 5 2 D_idle failing_twice
    (mkLink K_LinkConnect 1 false false false false 0 L_wait_retry 0 5 1 2 true true D_starting
       [S_linkStateChanged; S_linkStateChanged])).
  - lia.
  - reflexivity.
Defined.

(** ** Transitions that end the daemon *)

(** The pairs of states [setState] answers with [abort ()]. *)
Definition invalid (old new : LConnState) : bool :=
  match old, new with
  | L_down, (L_down | L_going_up | L_going_down) => false
  | L_going_down, (L_going_down | L_error | L_down) => false
  | L_up, (L_up | L_going_up | L_going_down | L_down | L_error) => false
  | L_going_up, (L_going_up | L_up | L_going_down | L_down | L_error) => false
  | L_wait_retry, (L_wait_retry | L_going_up | L_going_down) => false
  | L_error, (L_error | L_wait_retry | L_going_down | L_down) => false
  | L_up_error, (L_up_error | L_going_down | L_down | L_error) => false
  | L_going_down_error, (L_going_down_error | L_down | L_error | L_going_down) => false
  | _, _ => true
  end.

(** Exactly which state changes end the daemon: with a driver that answers
    later, [setState] returns unless the pair of old and new state is one of
    [invalid], and then it calls [abort].  Among them is [started] of a driver
    that was told to stop while it was still starting. *)
Theorem setState_aborts_iff depth (l : LinkConnect phase) s :
  kind l <> K_Server ->
  (invalid (state l) s = true -> setState (S depth) l s = Fault Aborted) /\
  (invalid (state l) s = false -> returns (setState (S depth) l s)).
Proof.
  intros Hk. simpl. unfold link_start, link_stop.
  destruct l as [k]. simpl in *. destruct state, s; simpl; (split; intros E; try discriminate E; try done);
    try (by eexists); destruct k; try done; by eexists.
Qed.

Lemma setState_aborts_iff_witness :
  setState 1 (set_state (new_link K_LinkConnect 1 0 0 0 D_stopping) L_going_down) L_up
  = Fault Aborted.
Proof.
  apply (setState_aborts_iff 0 (set_state (new_link K_LinkConnect 1 0 0 0 D_stopping) L_going_down)
           L_up); [discriminate | reflexivity].
Defined.

(** A driver that reports an error twice is forgotten: the second report takes its link from
    [L_up_error] to [L_error], where the router, which stops failed links, takes it for stopped, and
    where a request to go down leaves it: neither calls the driver's [stop]. *)
Theorem second_error_forgets_driver {D} `{Driver D} depth (l : LinkConnect D) :
  state l = L_up_error ->
  exists l1 l2, setState (S depth) l L_error = Ret l1 /\ setState (S depth) l1 L_going_down = Ret l2 /\
    state l1 = L_error /\ state l2 = L_error /\ drv l2 = drv l.
Proof. destruct l. cbn. intros ->. cbn. by eexists _, _. Qed.

(** ** Links with a driver that keeps to the protocol *)

(** The phase of the driver in each state of the link. *)
Definition phase_ok (s : LConnState) (d : phase) : bool :=
  match s, d with
  | (L_down | L_wait_retry), D_idle => true
  | (L_going_down | L_going_down_error), D_stopping => true
  | L_up, D_running => true
  | L_going_up, D_starting => true
  | L_error, D_starting => false
  | L_error, _ => true
  | L_up_error, (D_running | D_failed | D_stopping) => true
  | _, _ => false
  end.

(** A server has no driver; its own methods make the calls. *)
Definition server_phase (s : LConnState) : phase :=
  match s with
  | L_down | L_wait_retry | L_error => D_idle
  | L_going_down | L_going_down_error => D_stopping
  | L_up => D_running
  | L_going_up => D_starting
  | L_up_error => D_failed
  end.

Section Protocol.
Context {D : Type} `{PD : ProtocolDriver D}.

Local Abbreviation link := (LinkConnect D).

Definition link_phase (l : link) : phase :=
  match kind l with K_Server => server_phase (state l) | _ => drv_phase (drv l) end.

(** What the router and the driver may do to a link.  The router starts links
    that are down, up or starting, may tell any link to stop, calls [stop] on failed
    links and sends to links that are up; the retry timer expires when it runs; the
    driver makes a call its phase allows, which leaves it as [d]. *)
Inductive proto_event :=
| P_going_up | P_going_down | P_stop_failed | P_send (p : L_Data_PDU) | P_timer
| P_callback (c : callback) (d : D).

Definition may_happen (l : link) (e : proto_event) : Prop :=
  match e with
  | P_going_up => state l = L_down \/ state l = L_up \/ state l = L_going_up
  | P_going_down => True
  | P_stop_failed => state l = L_up_error \/ state l = L_going_down_error
  | P_send _ => state l = L_up
  | P_timer => retry_timer l = true
  | P_callback c d =>
      exists d', callback_phase (link_phase l) c = Some d' /\ (kind l <> K_Server -> drv_phase d = d')
  end.

Definition proto_step (l : link) (e : proto_event) : outcome link :=
  match e with
  | P_going_up => setState 3 l L_going_up
  | P_going_down => setState 3 l L_going_down
  | P_stop_failed => link_stop (setState 3) l
  | P_send p => link_send_L_Data 3 l p
  | P_timer => retry_timer_cb 3 l
  | P_callback c d => run_callbacks (setState 3) [c] (set_drv l d)
  end.

Inductive reachable (l0 : link) : link -> Prop :=
| reach_init : reachable l0 l0
| reach_step l e l' : reachable l0 l -> may_happen l e -> proto_step l e = Ret l' -> reachable l0 l'.

Definition proto_inv (l : link) : Prop := kind l <> K_Server -> phase_ok (state l) (drv_phase (drv l)) = true.

Lemma stopped_noop n cs (l : link) :
  Forall (fun c => c = C_stopped) cs -> state l = L_down -> run_callbacks (setState (S n)) cs l = Ret l.
Proof.
  intros Hc Hl. induction Hc as [|c cs -> _ IH]; [done|]. cbn [run_callbacks setState].
  rewrite decide_True by done. by rewrite bind_Ret.
Qed.

(** Stopping a driver that has stopped already. *)
Lemma stop_again n (l : link) :
  kind l <> K_Server -> state l = L_down -> drv_phase (drv l) = D_idle ->
  exists d, link_stop (setState (S n)) l = Ret (set_drv l d) /\ drv_phase d = D_idle.
Proof.
  intros Hk Hs Hp. destruct (drv_stop_idle (drv l) Hp) as [H1 H2]. exists (drv_stop (drv l)).1.
  split; [|done]. unfold link_stop. destruct (kind l); try done; destruct (drv_stop (drv l)) as [d cs];
    by rewrite stopped_noop.
Qed.

(** What a link is like after calls of a driver that is in phase [d] afterwards. *)
Definition ends_in (d : phase) (l l' : link) : Prop :=
  kind l' = kind l /\ phase_ok (state l') d = true /\ drv_phase (drv l') = drv_phase (drv l).

Lemma retry_state (l : link) d : d = D_idle -> phase_ok (state (retry l)) d = true.
Proof. intros ->. unfold retry. by destruct (_ || _). Qed.

Lemma retry_ends (l l' : link) : kind l' = kind l -> drv l' = drv l -> ends_in D_idle l (retry l').
Proof.
  intros Hk Hd. split_and!; [| by apply retry_state |]; unfold retry; destruct (_ || _); cbn; congruence.
Qed.

(** One call. *)
Lemma callback_ends n c (l : link) d d' :
  kind l <> K_Server -> phase_ok (state l) d = true -> callback_phase d c = Some d' ->
  (d' = D_idle -> drv_phase (drv l) = D_idle) ->
  returns_with (ends_in d' l) (run_callbacks (setState (S (S n))) [c] l).
Proof.
  intros Hk Hp Hc Hi.
  assert (forall m, returns_with (ends_in d' l) m -> returns_with (ends_in d' l) (m ≫= fun l => Ret l)) as Hb
    by (intros m [x [-> ?]]; by eexists).
  cbn [run_callbacks]. remember (S n) as k eqn:Ek. destruct c.
  1-3: apply Hb; cbn [setState];
    destruct (state l) eqn:Es, d; try discriminate Hp; try discriminate Hc; injection Hc as <-;
    try (rewrite decide_True by done; apply returns_with_Ret; unfold ends_in; by rewrite Es);
    rewrite decide_False by done; cbn [bool_decide orb andb];
    rewrite ?bind_Ret; try (apply returns_with_Ret; by apply retry_ends);
    try (apply returns_with_Ret; by split_and!).
  - match goal with |- context [link_stop _ ?x] => destruct (stop_again n x) as (d1 & E & Hd1) end; [done|done|by apply Hi|].
    subst k. rewrite E, bind_Ret. apply returns_with_Ret. split_and!; [done|done|]. cbn. by rewrite Hd1, Hi.
  - apply Hb, returns_with_Ret. assert (d' = d) as -> by (by destruct d; injection Hc).
    unfold link_send_Next. split_and!; by case_decide.
Qed.

Lemma callbacks_idle cs d : callbacks_phase D_idle cs = Some d -> d = D_idle.
Proof. induction cs as [|[] cs IH]; cbn; congruence || exact IH. Qed.

Lemma run_callbacks_cons set c cs (l : link) :
  run_callbacks set (c :: cs) l = (l ← run_callbacks set [c] l; run_callbacks set cs l).
Proof.
  cbn [run_callbacks].
  match goal with |- (?m ≫= _) = _ => destruct m end; [by rewrite !bind_Ret|done].
Qed.

(** All calls of one method. *)
Lemma callbacks_end n cs : forall d (l : link),
  kind l <> K_Server -> phase_ok (state l) d = true ->
  callbacks_phase d cs = Some (drv_phase (drv l)) ->
  returns_with (ends_in (drv_phase (drv l)) l) (run_callbacks (setState (S (S n))) cs l).
Proof.
  induction cs as [|c cs IH]; intros d l Hk Hp.
  { cbn [callbacks_phase run_callbacks]. intros [= <-]. by apply returns_with_Ret. }
  cbn [callbacks_phase]. destruct (callback_phase d c) as [d1|] eqn:Ec; [|done]. intros Hc.
  rewrite run_callbacks_cons. eapply returns_with_bind; [apply (callback_ends n c l d d1); try done|].
  { intros ->. by apply callbacks_idle in Hc. }
  intros l1 (Hk1 & Hp1 & Hd1). rewrite <-Hd1 in Hc.
  eapply returns_with_mono; [apply (IH d1 l1); congruence|].
  intros l2 (Hk2 & Hp2 & Hd2). unfold ends_in. rewrite <-Hd1. split_and!; congruence.
Qed.

(** The link and its driver are in step. *)
Definition in_step (k : link_kind) (l : link) : Prop := kind l = k /\ proto_inv l.

Lemma ends_in_step (l l' : link) d :
  d = drv_phase (drv l) -> ends_in d l l' -> in_step (kind l) l'.
Proof. intros -> (Hk & Hp & Hd). split; [done|]. intros _. by rewrite Hd. Qed.

Lemma link_start_in_step n (l : link) :
  kind l <> K_Server -> state l = L_going_up -> drv_phase (drv l) = D_idle ->
  returns_with (in_step (kind l)) (link_start (setState (S (S n))) l).
Proof.
  intros Hk Hs Hp. unfold link_start. pose proof (drv_start_phase (drv l) Hp) as Hc.
  destruct (kind l) eqn:Ek; try done; cbn [drv set_send_more]; destruct (drv_start (drv l)) as [d cs];
    (eapply returns_with_mono;
      [apply (callbacks_end n cs D_starting (set_drv (set_send_more l true) d));
        [cbn; congruence | cbn; by rewrite Hs | done]|]);
    intros l' Hl'; rewrite <-Ek; by eapply (ends_in_step (set_drv (set_send_more l true) d)).
Qed.

Lemma link_stop_in_step n (l : link) :
  kind l <> K_Server -> phase_ok (state l) D_stopping = true -> drv_phase (drv l) <> D_idle ->
  returns_with (in_step (kind l)) (link_stop (setState (S (S n))) l).
Proof.
  intros Hk Hs Hp. unfold link_stop. pose proof (drv_stop_phase (drv l) Hp) as Hc.
  destruct (kind l) eqn:Ek; try done; destruct (drv_stop (drv l)) as [d cs];
    (eapply returns_with_mono;
      [apply (callbacks_end n cs D_stopping (set_drv l d)); [cbn; congruence | done | done]|]);
    intros l' Hl'; rewrite <-Ek; by eapply (ends_in_step (set_drv l d)).
Qed.

Lemma emit_in_step k m :
  returns_with (in_step k) m -> returns_with (in_step k) (m ≫= fun l => Ret (emit l S_linkStateChanged)).
Proof. intros Hm. eapply returns_with_bind; [exact Hm|]. intros l [Hk Hp]. by apply returns_with_Ret. Qed.

(** The router's requests. *)
Lemma going_up_in_step (l : link) :
  kind l <> K_Server -> proto_inv l ->
  state l = L_down \/ state l = L_up \/ state l = L_going_up \/ state l = L_wait_retry ->
  returns_with (in_step (kind l)) (setState 3 l L_going_up).
Proof.
  intros Hk Hp Hs. specialize (Hp Hk). remember 2%nat as k eqn:E2. cbn [setState].
  destruct (state l) eqn:Es; destruct Hs as [|[|[|]]]; try done;
    (rewrite decide_False by done) || (rewrite decide_True by done); cbn [orb andb bool_decide].
  all: try (apply returns_with_Ret; split; [done|]; intros _; by rewrite Es).
  all: try (rewrite bind_Ret; apply returns_with_Ret; split; [done|]; intros _; done).
  all: apply emit_in_step; subst k; match goal with |- context [link_start _ ?x] => apply (link_start_in_step 0 x) end;
    try done; by destruct (drv_phase (drv l)) eqn:Ed.
Qed.

Lemma going_down_in_step (l : link) :
  kind l <> K_Server -> proto_inv l -> returns_with (in_step (kind l)) (setState 3 l L_going_down).
Proof.
  intros Hk Hp. specialize (Hp Hk). remember 2%nat as k eqn:E2. cbn [setState].
  destruct (state l) eqn:Es;
    (rewrite decide_False by done) || (rewrite decide_True by done); cbn [orb andb bool_decide].
  all: try (apply returns_with_Ret; split; [done|]; intros _; by rewrite Es).
  all: try (rewrite bind_Ret; apply returns_with_Ret; split; [done|]; intros _; done).
  all: apply emit_in_step; subst k; match goal with |- context [link_stop _ ?x] => apply (link_stop_in_step 0 x) end;
    try done; intros E; change (drv_phase (drv l) = D_idle) in E; by rewrite E in Hp.
Qed.

Lemma stop_failed_in_step (l : link) :
  kind l <> K_Server -> proto_inv l -> state l = L_up_error \/ state l = L_going_down_error ->
  returns_with (in_step (kind l)) (link_stop (setState 3) l).
Proof.
  intros Hk Hp Hs. specialize (Hp Hk). apply (link_stop_in_step 1); [done| |];
    destruct Hs as [Hs|Hs]; rewrite Hs in *; try done; intros E; by rewrite E in Hp.
Qed.

Lemma error_in_step (l : link) :
  kind l <> K_Server -> proto_inv l -> state l = L_up -> returns_with (in_step (kind l)) (setState 3 l L_error).
Proof.
  intros Hk Hp Hs. specialize (Hp Hk). rewrite Hs in Hp. cbn [setState]. rewrite Hs, decide_False by done.
  cbn [orb andb bool_decide]. rewrite bind_Ret. apply returns_with_Ret. split; [done|]. intros _. cbn.
  change (phase_ok L_up_error (drv_phase (drv l)) = true). revert Hp. by destruct (drv_phase (drv l)).
Qed.

Lemma proto_step_driver (l : link) e :
  kind l <> K_Server -> proto_inv l -> may_happen l e -> returns_with (in_step (kind l)) (proto_step l e).
Proof.
  intros Hk Hp. destruct e as [| | |p| |c d]; cbn [may_happen proto_step]; intros He.
  - apply going_up_in_step; tauto.
  - by apply going_down_in_step.
  - by apply stop_failed_in_step.
  - pose proof (Hp Hk) as Hr. rewrite He in Hr.
    assert (drv_phase (drv l) = D_running) as Hd by (revert Hr; by destruct (drv_phase (drv l))).
    pose proof (drv_send_phase (drv l) p Hd) as Hc.
    unfold link_send_L_Data. destruct (kind l) eqn:Ek; try done; cbn [state set_send_more drv set_timer];
      rewrite He, (assert_true (bool_decide _)), bind_Ret by (by apply bool_decide_eq_true);
      destruct (drv_send_L_Data (drv l) p) as [d cs];
      (eapply returns_with_mono;
       [eapply (callbacks_end 1 cs D_running (set_drv (set_timer (set_send_more l false) true) d));
         [cbn; congruence | cbn; by rewrite He | done]|]);
      intros l' Hl'; rewrite <-Ek; by eapply (ends_in_step (set_drv (set_timer (set_send_more l false) true) d)).
  - unfold retry_timer_cb. cbn [state set_timer send_more].
    destruct (bool_decide _ && _) eqn:E.
    + apply andb_true_iff in E as [E%bool_decide_eq_true _]. by apply (error_in_step (set_timer l false)).
    + clear E. destruct (decide (state l <> L_wait_retry)) as [Ew|Ew]; [apply returns_with_Ret; by split|].
      apply dec_stable in Ew.
      apply (going_up_in_step (set_retries (set_timer l false) _)); tauto.
  - assert (link_phase l = drv_phase (drv l)) as El by (unfold link_phase; by destruct (kind l)).
    destruct He as (d' & He & Hd). rewrite El in He. specialize (Hd Hk).
    eapply returns_with_mono; [apply (callback_ends 1 c (set_drv l d) (drv_phase (drv l)) d'); try done|].
    { by apply Hp. }
    { intros ->. done. }
    intros l' Hl'. by eapply (ends_in_step (set_drv l d)).
Qed.

(** A server goes up and down by itself. *)
Lemma proto_step_server (l : link) e :
  kind l = K_Server -> may_happen l e -> returns_with (in_step K_Server) (proto_step l e).
Proof.
  intros Hk He.
  assert (forall l' : link, kind l' = K_Server -> returns_with (in_step K_Server) (Ret l')) as Hr
    by (intros l' Hl; apply returns_with_Ret; split; [done|intros N; by destruct N]).
  destruct l as [k ? ? ? ? ? ? st ? delay ret maxr timer more dr ?]. cbn in Hk. subst k.
  destruct e as [| | |p| |c d]; cbn in He.
  - destruct He as [->|[->| ->]]; simpl; by apply Hr.
  - destruct st; simpl; try (by apply Hr); unfold retry; simpl; destruct (_ || _); by apply Hr.
  - unfold proto_step, link_stop, kind. destruct He as [->| ->]; simpl; unfold retry; simpl; destruct (_ || _); by apply Hr.
  - by apply Hr.
  - destruct st, more; simpl; by apply Hr.
  - destruct He as (d' & He & _). unfold link_phase in He. simpl in He.
    destruct st, c; try discriminate He; simpl; try (by apply Hr);
      unfold retry; simpl; destruct (_ || _); by apply Hr.
Qed.

Lemma proto_step_safe (l : link) e : proto_inv l -> may_happen l e -> returns_with proto_inv (proto_step l e).
Proof.
  intros Hp He. assert (kind l = K_Server \/ kind l <> K_Server) as [Hk|Hk] by (destruct (kind l); auto).
  - eapply returns_with_mono; [by apply proto_step_server|]. by intros ? [].
  - eapply returns_with_mono; [by apply proto_step_driver|]. by intros ? [].
Qed.

(** C34: drivers that keep to the protocol of link.h never make the daemon abort.
    Take any stack of filters and driver, whether it answers [start] and [stop]
    before they return (for stopping link.h asks for that), or later, or in part;
    or a server. In every state its link can reach from its construction, by any
    interleaving of the router starting it (a link that is down, starting or up),
    telling it to stop, stopping it after a failure and sending to it while it is
    up, of timeouts, and of calls the driver's phase allows, every further event
    of this kind returns: [setState] does not abort, the assertion of
    [send_L_Data] holds, and calls are nested at most three deep. Not covered:
    a driver that reports [started] after it was told to stop, which aborts
    ([setState_aborts_iff]), and a router that starts a link which has failed or
    is stopping, which this router, started once, does not do. *)
Theorem protocol_never_aborts k p a delay maxr (d : D) l e :
  drv_phase d = D_idle -> reachable (new_link k p a delay maxr d) l ->
  may_happen l e -> returns (proto_step l e).
Proof.
  intros Hd Hr He. apply (returns_with_returns proto_inv), proto_step_safe; [|done].
  clear He. induction Hr as [|l e' l' _ IH Hm Hs]; [intros _; cbn; by rewrite Hd|].
  destruct (proto_step_safe _ _ IH Hm) as (l'' & E & Hl). rewrite Hs in E. by injection E as ->.
Qed.
End Protocol.

(** A driver that answers at once, one that answers later, and a server. *)
Lemma protocol_never_aborts_witness :
  returns (setState 3 (new_link K_LinkConnect 1 0 5 2 (mkPrompt D_idle)) L_going_up) /\
  returns (setState 3 (new_link K_LinkConnectSingle 2 0 5 2 D_idle) L_going_up) /\
  returns (setState 3 (new_link K_Server 3 0 5 2 D_idle) L_going_up).
Proof.
  split; [|split].
  - apply (protocol_never_aborts K_LinkConnect 1 0 5 2 (mkPrompt D_idle) _ P_going_up);
      [reflexivity | apply reach_init | by left].
  - apply (protocol_never_aborts K_LinkConnectSingle 2 0 5 2 D_idle _ P_going_up);
      [reflexivity | apply reach_init | by left].
  - apply (protocol_never_aborts K_Server 3 0 5 2 D_idle _ P_going_up);
      [reflexivity | apply reach_init | by left].
Defined.

(** ** Drivers that answer at once *)

(** Nested callbacks end: with a driver that answers [start] and [stop]
    before they return, as most do, three nested calls are enough for every
    state change, whatever the state of the link. *)
Theorem immediate_driver_depth (l : LinkConnect BusDriver) s :
  setState 3 l s <> Fault StackOverflow.
Proof.
  destruct l as [k ? ? ? ? ? ? st ? delay ret maxr]. intros E.
  destruct st, s, k; vm_compute in E; try discriminate E;
    destruct (_ || _); discriminate E.
Qed.

(** Starting and stopping a link with such a driver takes effect at once:
    a link that is down is up afterwards with its retry count reset and ready to
    send, and down again after it is stopped. *)
Theorem immediate_driver_up_down (l : LinkConnect BusDriver) :
  state l = L_down -> kind l <> K_Server ->
  exists l1 l2, setState 3 l L_going_up = Ret l1 /\ state l1 = L_up /\ retries l1 = 0 /\
    send_more l1 = true /\
    setState 3 l1 L_going_down = Ret l2 /\ state l2 = L_down /\ retry_timer l2 = false.
Proof.
  destruct l as [k]. simpl. intros -> Hk. destruct k; try done;
    (eexists _, _; split; [vm_compute; reflexivity|]; repeat (split; [vm_compute; reflexivity|]);
     vm_compute; reflexivity).
Qed.

Lemma immediate_driver_up_down_witness :
  exists l1 l2, setState 3 (new_link K_LinkConnect 1 0 0 0 (mkBus ∅)) L_going_up = Ret l1 /\
    state l1 = L_up /\ retries l1 = 0 /\ send_more l1 = true /\
    setState 3 l1 L_going_down = Ret l2 /\ state l2 = L_down /\ retry_timer l2 = false.
Proof. apply immediate_driver_up_down; [reflexivity | discriminate]. Defined.
