(* ===== verification/Router.v ===== *)
(** * The router

    Models the packet path and the address bookkeeping of [class Router]
    (src/src/libserver/router.h and src/src/libserver/router.cpp): frames arrive
    from links in [recv_L_Data], are queued by [queue_L_Data], taken from the
    queue by [trigger_cb] and distributed to the links by [send_L_Data]; the
    router waits with the next frame until every link is ready ([send_Next]).

    The global filter chain between [RouterLow] and [RouterHigh] is empty, as in
    a configuration without global filters, so that their methods call each
    other directly.  [links] lists the links in the order the hash table of the
    source iterates over them.  Asynchronous triggers are flags that a call of
    [send] sets; [out] is what the busmonitor callbacks and the links are given,
    in order. *)

From stdpp Require Import gmap.
From S2P Require Import Prelude CArray Common Lpdu Link.

Record IgnoreInfo := mkIgnore { ig_data : CArray; ig_end : Z }.

(** What leaves the router: a frame to the link at a position, or a frame to
    the virtual busmonitor or busmonitor callback with a number. *)
Inductive output :=
| O_link (pos : Z) (l : L_Data_PDU)
| O_vbusmonitor (cb : Z) (pdu : CArray)
| O_busmonitor (cb : Z) (pdu : CArray).

(** The block of client addresses. *)
Record Pool := mkPool {
  client_addrs_start : Z;
  client_addrs_len : Z;
  client_addrs_pos : Z;
  client_addrs : list bool
}.

(** The markers to continue sending. *)
Record Flow := mkFlow {
  low_send_more : bool;
  high_send_more : bool;
  high_sending : bool;
  trigger : bool;
  mtrigger : bool;
  state_trigger : bool
}.

Record Running := mkRunning {
  some_running : bool;
  want_up : bool;
  all_running : bool;
  running_signal : bool
}.

Record Router (D : Type) := mkRouter {
  r_addr : Z;
  force_broadcast : bool;
  links : list (LinkConnect D);
  linkChanges : list Z;
  buf : list L_Data_PDU;
  mbuf : list L_Busmonitor_PDU;
  r_ignore : list IgnoreInfo;
  pool : Pool;
  flow : Flow;
  running : Running;
  busmonitor : list Z;
  vbusmonitor : list Z;
  r_seq : Z;
  out : list output
}.
Arguments mkRouter {D}.
Arguments r_addr {D}.
Arguments force_broadcast {D}.
Arguments links {D}.
Arguments linkChanges {D}.
Arguments buf {D}.
Arguments mbuf {D}.
Arguments r_ignore {D}.
Arguments pool {D}.
Arguments flow {D}.
Arguments running {D}.
Arguments busmonitor {D}.
Arguments vbusmonitor {D}.
Arguments r_seq {D}.
Arguments out {D}.

Definition set_low (f : Flow) (b : bool) : Flow :=
  mkFlow b (high_send_more f) (high_sending f) (trigger f) (mtrigger f) (state_trigger f).
Definition set_high (f : Flow) (b : bool) : Flow :=
  mkFlow (low_send_more f) b (high_sending f) (trigger f) (mtrigger f) (state_trigger f).
Definition set_sending (f : Flow) (b : bool) : Flow :=
  mkFlow (low_send_more f) (high_send_more f) b (trigger f) (mtrigger f) (state_trigger f).
Definition set_trigger (f : Flow) (b : bool) : Flow :=
  mkFlow (low_send_more f) (high_send_more f) (high_sending f) b (mtrigger f) (state_trigger f).
Definition set_mtrigger (f : Flow) (b : bool) : Flow :=
  mkFlow (low_send_more f) (high_send_more f) (high_sending f) (trigger f) b (state_trigger f).
Definition set_state_trigger (f : Flow) (b : bool) : Flow :=
  mkFlow (low_send_more f) (high_send_more f) (high_sending f) (trigger f) (mtrigger f) b.

Section Router.
Context {D : Type} `{Driver D}.

Local Abbreviation router := (Router D).
Local Abbreviation link := (LinkConnect D).

Definition set_links (r : router) (ls : list link) : router :=
  mkRouter (r_addr r) (force_broadcast r) ls (linkChanges r) (buf r) (mbuf r) (r_ignore r)
    (pool r) (flow r) (running r) (busmonitor r) (vbusmonitor r) (r_seq r) (out r).
Definition set_buf (r : router) (b : list L_Data_PDU) : router :=
  mkRouter (r_addr r) (force_broadcast r) (links r) (linkChanges r) b (mbuf r) (r_ignore r)
    (pool r) (flow r) (running r) (busmonitor r) (vbusmonitor r) (r_seq r) (out r).
Definition set_mbuf (r : router) (b : list L_Busmonitor_PDU) : router :=
  mkRouter (r_addr r) (force_broadcast r) (links r) (linkChanges r) (buf r) b (r_ignore r)
    (pool r) (flow r) (running r) (busmonitor r) (vbusmonitor r) (r_seq r) (out r).
Definition set_ignore (r : router) (i : list IgnoreInfo) : router :=
  mkRouter (r_addr r) (force_broadcast r) (links r) (linkChanges r) (buf r) (mbuf r) i
    (pool r) (flow r) (running r) (busmonitor r) (vbusmonitor r) (r_seq r) (out r).
Definition set_pool (r : router) (p : Pool) : router :=
  mkRouter (r_addr r) (force_broadcast r) (links r) (linkChanges r) (buf r) (mbuf r) (r_ignore r)
    p (flow r) (running r) (busmonitor r) (vbusmonitor r) (r_seq r) (out r).
Definition set_flow (r : router) (f : Flow) : router :=
  mkRouter (r_addr r) (force_broadcast r) (links r) (linkChanges r) (buf r) (mbuf r) (r_ignore r)
    (pool r) f (running r) (busmonitor r) (vbusmonitor r) (r_seq r) (out r).
Definition set_running (r : router) (x : Running) : router :=
  mkRouter (r_addr r) (force_broadcast r) (links r) (linkChanges r) (buf r) (mbuf r) (r_ignore r)
    (pool r) (flow r) x (busmonitor r) (vbusmonitor r) (r_seq r) (out r).
Definition set_changes (r : router) (c : list Z) : router :=
  mkRouter (r_addr r) (force_broadcast r) (links r) c (buf r) (mbuf r) (r_ignore r)
    (pool r) (flow r) (running r) (busmonitor r) (vbusmonitor r) (r_seq r) (out r).
Definition set_busmonitors (r : router) (b v : list Z) : router :=
  mkRouter (r_addr r) (force_broadcast r) (links r) (linkChanges r) (buf r) (mbuf r) (r_ignore r)
    (pool r) (flow r) (running r) b v (r_seq r) (out r).
Definition put_out (r : router) (o : list output) : router :=
  mkRouter (r_addr r) (force_broadcast r) (links r) (linkChanges r) (buf r) (mbuf r) (r_ignore r)
    (pool r) (flow r) (running r) (busmonitor r) (vbusmonitor r) (r_seq r) (out r ++ o).

(** ** Addresses *)

(** [Router::hasAddress (addr, link)] with [link] null: [Some None] if the
    address is the router's own, [Some (Some l)] if the link [l] knows it. *)
Definition hasAddress (r : router) (a : Z) : option (option link) :=
  if decide (a = r_addr r) then Some None
  else option_map Some (List.find (fun l => link_hasAddress l a) (links r)).

(** [Router::checkAddress] and [Router::checkGroupAddress]; the link at
    position [skip] is left out. *)
Definition checkAddress (r : router) (a : Z) (skip : option Z) : bool :=
  if decide (a = 0) then true
  else existsb (fun l => negb (bool_decide (Some (pos l) = skip)) && link_checkAddress l a) (links r).

Definition checkGroupAddress (r : router) (a : Z) (skip : option Z) : bool :=
  if decide (a = 0) then true
  else existsb (fun l => negb (bool_decide (Some (pos l) = skip)) && link_checkGroupAddress l a)
         (links r).

(** ** Client addresses *)

(** [Router::setup], the part on [client-addrs]: a negative length makes
    [vector::resize] throw. *)
Definition setup_client_addrs (start len : Z) : outcome Pool :=
  if decide (0 <= len) then Ret (mkPool start len (len - 1) (replicate (Z.to_nat len) false))
  else Fault LengthError.

(** The loop of [Router::get_client_addr] from its counter [i] on. *)
Fixpoint get_client_addr_from (n : nat) (i : Z) (r : router) : outcome (Z * router) :=
  match n with
  | O => Ret (0, r)
  | S n =>
      let p := pool r in
      let pos := (client_addrs_pos p + i) mod client_addrs_len p in
      match client_addrs p !! Z.to_nat pos with
      | None => Fault OutOfRange
      | Some true => get_client_addr_from n (i + 1) r
      | Some false =>
          let a := u16 (client_addrs_start p + pos) in
          if bool_decide (a <> r_addr r) && bool_decide (hasAddress r a = None)
          then Ret (a, set_pool r (mkPool (client_addrs_start p) (client_addrs_len p) pos
                                     (<[Z.to_nat pos := true]> (client_addrs p))))
          else get_client_addr_from n (i + 1) r
      end
  end.

Definition get_client_addr (r : router) : outcome (Z * router) :=
  get_client_addr_from (Z.to_nat (client_addrs_len (pool r))) 1 r.

Definition release_client_addr (r : router) (a : Z) : outcome router :=
  let p := pool r in
  if decide (a < client_addrs_start p) then Ret r
  else
    let pos := a - client_addrs_start p in
    if decide (client_addrs_len p <= pos) then Ret r
    else
      match client_addrs p !! Z.to_nat pos with
      | None => Fault OutOfRange
      | Some false => Ret r
      | Some true =>
          Ret (set_pool r (mkPool (client_addrs_start p) (client_addrs_len p) (client_addrs_pos p)
                             (<[Z.to_nat pos := false]> (client_addrs p))))
      end.

(** ** Receiving *)

Definition with_source (l : L_Data_PDU) (a : Z) : L_Data_PDU :=
  mkL_Data (prio l) (repeated l) (valid_checksum l) (valid_length l) (AddrType l) a (dest l)
    (hopcount l) (data l).
Definition with_dest (l : L_Data_PDU) (a : Z) : L_Data_PDU :=
  mkL_Data (prio l) (repeated l) (valid_checksum l) (valid_length l) (AddrType l) (source l) a
    (hopcount l) (data l).
Definition with_hopcount (l : L_Data_PDU) (h : Z) : L_Data_PDU :=
  mkL_Data (prio l) (repeated l) (valid_checksum l) (valid_length l) (AddrType l) (source l)
    (dest l) h (data l).
Definition with_repeated (l : L_Data_PDU) (b : bool) : L_Data_PDU :=
  mkL_Data (prio l) b (valid_checksum l) (valid_length l) (AddrType l) (source l) (dest l)
    (hopcount l) (data l).

(** A link object is changed in place: its entry in the table changes. *)
Definition update_link (r : router) (lk : link) : router :=
  set_links r (map (fun x => if decide (pos x = pos lk) then lk else x) (links r)).

(** [Router::queue_L_Data] *)
Definition queue_L_Data (r : router) (l : L_Data_PDU) : router :=
  if some_running (running r) || want_up (running r) then
    let r := set_buf r (buf r ++ [l]) in
    if running_signal (running r) then set_flow r (set_trigger (flow r) true) else r
  else r.

(** [l->source == 0]: the link's, or the router's, address. *)
Definition assigned_source (r : router) (lk : link) (l : L_Data_PDU) : L_Data_PDU :=
  if decide (source l = 0) then
    if decide (addr lk = 0) then with_source l (r_addr r) else with_source l (addr lk)
  else l.

(** [Router::recv_L_Data], for a frame from the link [lk]. *)
Definition recv_L_Data (r : router) (l : L_Data_PDU) (lk : link) : outcome router :=
  if bool_decide (AddrType l = IndividualAddress) && bool_decide (dest l = 0) then Ret r
  else
    let l := assigned_source r lk l in
    if decide (source l = r_addr r) then
      if is_local lk then Ret (queue_L_Data r l) else Ret r
    else
      match hasAddress r (source l) with
      | Some l2x =>
          if decide (option_map pos l2x = Some (pos lk)) then Ret (queue_L_Data r l) else Ret r
      | None =>
          let p := pool r in
          if bool_decide (client_addrs_len p <> 0) && bool_decide (client_addrs_start p <= source l)
             && bool_decide (source l < client_addrs_start p + client_addrs_len p)
          then Ret r
          else if decide (source l <> 0xFFFF) then
            lk ← link_addAddress lk (source l);
            Ret (queue_L_Data (update_link r lk) l)
          else Ret (queue_L_Data r l)
      end.

(** ** Sending *)

(** [RouterHigh::send_Next] and [RouterLow::send_Next]. *)
Definition low_send_Next (r : router) : router :=
  set_flow r (set_trigger (set_low (flow r) true) true).

(** The loop of [Router::send_Next]: is a link that is up still sending? *)
Definition still_waiting (ls : list link) : bool :=
  existsb (fun l => bool_decide (state l = L_up) && negb (send_more l)) ls.

(** [Router::send_Next] *)
Definition router_send_Next (r : router) : router :=
  if high_sending (flow r) then r
  else if high_send_more (flow r) then r
  else if still_waiting (links r) then r
  else low_send_Next (set_flow r (set_high (flow r) true)).

(** Calls a link made into the router while it was being worked on, in order.
    [linkStateChanged] queues the link and triggers [state_trigger_cb]. *)
Definition linkStateChanged (r : router) (p : Z) : router :=
  set_flow (set_changes r (linkChanges r ++ [p])) (set_state_trigger (flow r) true).

Fixpoint handle_signals (r : router) (p : Z) (ss : list signal) : router :=
  match ss with
  | [] => r
  | S_linkStateChanged :: ss => handle_signals (linkStateChanged r p) p ss
  | S_send_Next :: ss => handle_signals (router_send_Next r) p ss
  end.

Definition clear_signals (lk : link) : link :=
  mkLink (kind lk) (pos lk) (ignore lk) (transient lk) (may_fail lk) (is_local lk) (addr lk)
    (state lk) (seq lk) (retry_delay lk) (retries lk) (max_retries lk) (retry_timer lk)
    (send_more lk) (drv lk) [].

(** Is [l1] to be sent to the link?  The conditions of the two loops of
    [Router::send_L_Data]; the one for individual addresses is parsed as
    [(hopcount == 7 || found) ? hasAddress : checkAddress]. *)
Definition link_ready (ii : link) : bool := bool_decide (state ii = L_up) && send_more ii.

Definition wants_group (l1 : L_Data_PDU) (ii : link) : bool :=
  link_ready ii && negb (link_hasAddress ii (source l1)) &&
  (bool_decide (hopcount l1 = 7) || link_checkGroupAddress ii (dest l1)).

Definition wants_individual (found : bool) (l1 : L_Data_PDU) (ii : link) : bool :=
  link_ready ii && negb (link_hasAddress ii (source l1)) &&
  (if bool_decide (hopcount l1 = 7) || found then link_hasAddress ii (dest l1)
   else link_checkAddress ii (dest l1)).

(** The search for the interface on which the destination has appeared. *)
Definition dest_found (r : router) (l1 : L_Data_PDU) : bool :=
  bool_decide (dest l1 = r_addr r) ||
  (bool_decide (dest l1 <> 0xFFFF) &&
   existsb (fun i => negb (link_hasAddress i (source l1)) && link_hasAddress i (dest l1)) (links r)).

Definition wants (r : router) (l1 : L_Data_PDU) : link -> bool :=
  match AddrType l1 with
  | GroupAddress => wants_group l1
  | IndividualAddress => wants_individual (dest_found r l1) l1
  end.

(** The loops over the links: each link that wants the frame gets it, and what
    it tells the router meanwhile is handled. *)
Fixpoint send_to_links (depth : nat) (w : link -> bool) (l1 : L_Data_PDU) (todo : list link)
    (r : router) : outcome router :=
  match todo with
  | [] => Ret r
  | ii :: todo =>
      if w ii then
        ii' ← link_send_L_Data depth (clear_signals ii) l1;
        let r := put_out (update_link r (clear_signals ii')) [O_link (pos ii) l1] in
        send_to_links depth w l1 todo (handle_signals r (pos ii) (signals ii'))
      else send_to_links depth w l1 todo r
  end.

(** [Router::send_L_Data] *)
Definition send_L_Data (depth : nat) (r : router) (l1 : L_Data_PDU) : outcome router :=
  _ ← assert_ (high_send_more (flow r));
  let r := set_flow r (set_high (set_sending (flow r) true) false) in
  r ← send_to_links depth (wants r l1) l1 (links r) r;
  Ret (router_send_Next (set_flow r (set_sending (flow r) false))).

(** [ITER (i, ignore) if (d1 == i->data)] *)
Definition ignored (r : router) (d : CArray) : bool :=
  existsb (fun i => bool_decide (d = ig_data i)) (r_ignore r).

(** One round of the loop in [Router::trigger_cb], for the frame [l1] just taken
    from the queue, at time [now]. *)
Definition trigger_one (depth : nat) (now : Z) (r : router) (l1 : L_Data_PDU) : outcome router :=
  r ← (if decide (vbusmonitor r = []) then Ret r
       else d ← L_Data_ToPacket l1; Ret (put_out r (map (fun cb => O_vbusmonitor cb d) (vbusmonitor r))));
  if decide (hopcount l1 = 0) then Ret r
  else
    let l1 := if bool_decide (hopcount l1 < 7) || negb (force_broadcast r)
              then with_hopcount l1 (hopcount l1 - 1) else l1 in
    drop ← (if repeated l1 then d1 ← L_Data_ToPacket l1; Ret (ignored r d1) else Ret false);
    if drop : bool then Ret r
    else
      d ← L_Data_ToPacket (with_repeated l1 true);
      let r := set_ignore r (r_ignore r ++ [mkIgnore d (now + 1000000)]) in
      let l1 := with_repeated l1 false in
      let l1 := if bool_decide (AddrType l1 = IndividualAddress) && bool_decide (dest l1 = r_addr r)
                then with_dest l1 0 else l1 in
      send_L_Data depth (set_flow r (set_low (flow r) false)) l1.

(** The loop itself: it ends when the queue is empty or a frame is on its way. *)
Fixpoint trigger_loop (fuel : nat) (depth : nat) (now : Z) (r : router) : outcome router :=
  match buf r with
  | [] => Ret r
  | l1 :: rest =>
      if low_send_more (flow r) then
        match fuel with
        | O => Fault Endless
        | S fuel => r ← trigger_one depth now (set_buf r rest) l1; trigger_loop fuel depth now r
        end
      else Ret r
  end.

(** Drop the entries before the first one that has not expired. *)
Fixpoint drop_until (now : Z) (i : list IgnoreInfo) : option (list IgnoreInfo) :=
  match i with
  | [] => None
  | x :: rest => if decide (now <= ig_end x) then Some (x :: rest) else drop_until now rest
  end.

Definition expire (now : Z) (i : list IgnoreInfo) : list IgnoreInfo :=
  match drop_until now i with Some i' => i' | None => i end.

(** [Router::trigger_cb]; the queue bounds the number of rounds. *)
Definition trigger_cb (depth : nat) (now : Z) (r : router) : outcome router :=
  let r := set_flow r (set_trigger (flow r) false) in
  r ← trigger_loop (length (buf r)) depth now r;
  Ret (set_ignore r (expire now (r_ignore r))).

(** ** Busmonitors *)

Definition queue_L_Busmonitor (r : router) (l : L_Busmonitor_PDU) : router :=
  if some_running (running r) || want_up (running r) then
    let r := set_mbuf r (mbuf r ++ [l]) in
    if running_signal (running r) then set_flow r (set_mtrigger (flow r) true) else r
  else r.

Definition mtrigger_cb (r : router) : router :=
  let o := flat_map (fun l => map (fun cb => O_busmonitor cb (bm_pdu l)) (busmonitor r)) (mbuf r) in
  set_mbuf (put_out (set_flow r (set_mtrigger (flow r) false)) o) [].

Definition registerBusmonitor (r : router) (c : Z) : router :=
  set_busmonitors r (busmonitor r ++ [c]) (vbusmonitor r).
Definition registerVBusmonitor (r : router) (c : Z) : router :=
  set_busmonitors r (busmonitor r) (vbusmonitor r ++ [c]).

(** Erase the first entry. *)
Fixpoint erase_first (c : Z) (l : list Z) : option (list Z) :=
  match l with
  | [] => None
  | x :: l => if decide (x = c) then Some l else option_map (cons x) (erase_first c l)
  end.

Definition deregisterBusmonitor (r : router) (c : Z) : bool * router :=
  match erase_first c (busmonitor r) with
  | Some b => (true, set_busmonitors r b (vbusmonitor r))
  | None => (false, r)
  end.
Definition deregisterVBusmonitor (r : router) (c : Z) : bool * router :=
  match erase_first c (vbusmonitor r) with
  | Some v => (true, set_busmonitors r (busmonitor r) v)
  | None => (false, r)
  end.

(** ** The table of links *)

Definition find_link (r : router) (p : Z) : option link :=
  List.find (fun x => bool_decide (pos x = p)) (links r).

(** A state change of a link requested by the router. *)
Definition router_setState (depth : nat) (r : router) (lk : link) (s : LConnState)
  : outcome router :=
  lk' ← setState depth (clear_signals lk) s;
  Ret (handle_signals (update_link r (clear_signals lk')) (pos lk) (signals lk')).

Definition registerLink (depth : nat) (r : router) (lk : link) (trans : bool)
  : outcome (bool * router) :=
  match find_link r (pos lk) with
  | Some _ => Ret (false, r)
  | None =>
      let lk := if trans
                then mkLink (kind lk) (pos lk) (ignore lk) true (may_fail lk) (is_local lk)
                       (addr lk) (state lk) (seq lk) (retry_delay lk) (retries lk)
                       (max_retries lk) (retry_timer lk) (send_more lk) (drv lk) (signals lk)
                else lk in
      let r := set_links r (links r ++ [lk]) in
      if want_up (running r) then
        let x := running r in
        let r := set_running r (mkRunning (some_running x) (want_up x) false (running_signal x)) in
        r ← router_setState depth r (set_seq lk (r_seq r)) L_going_up;
        Ret (true, r)
      else Ret (true, r)
  end.

(** [in_link_loop] counts the loops over the table that are under way. *)
Definition unregisterLink (in_link_loop : Z) (r : router) (p : Z) : bool * router :=
  match find_link r p with
  | None => (false, r)
  | Some _ =>
      let r := set_links r (List.filter (fun x => negb (bool_decide (pos x = p))) (links r)) in
      (true, if decide (in_link_loop = 0) then set_flow r (set_state_trigger (flow r) true) else r)
  end.
End Router.
