(* ===== verification/RouterSpec.v ===== *)
(** * The router: theorems

    Allocation of client addresses, ownership of addresses, delivery of frames,
    hop counts, suppression of repeated frames, and progress of the queue. *)

From stdpp Require Import gmap.
From S2P Require Import Prelude CArray Common ApduSpec Lpdu LpduSpec Link Router.

Section RouterSpec.
Context {D : Type} `{Driver D} {HQ : QuietDriver D}.

Local Abbreviation router := (Router D).
Local Abbreviation link := (LinkConnect D).

(** ** Client addresses *)

Definition pool_wf (p : Pool) : Prop :=
  0 < client_addrs_start p /\ 0 <= client_addrs_len p /\
  client_addrs_start p + client_addrs_len p <= 65536 /\
  Z.of_nat (length (client_addrs p)) = client_addrs_len p /\
  - 1 <= client_addrs_pos p < client_addrs_len p.

Lemma setup_client_addrs_wf start len p :
  0 < start -> start + len <= 65536 -> setup_client_addrs start len = Ret p -> pool_wf p.
Proof.
  unfold setup_client_addrs. intros Hs Hl. destruct (decide _); [|done]. intros [= <-].
  unfold pool_wf. simpl. rewrite length_replicate. lia.
Qed.

(** Slot [i] of the block can not be given out. *)
Definition occupied (r : router) (i : Z) : Prop :=
  client_addrs (pool r) !! Z.to_nat i = Some true \/
  client_addrs_start (pool r) + i = r_addr r \/
  hasAddress r (client_addrs_start (pool r) + i) <> None.

(** The allocation of the address [a]. *)
Definition allocated (r : router) (a : Z) (r' : router) : Prop :=
  let p := pool r in
  client_addrs_start p <= a < client_addrs_start p + client_addrs_len p /\
  client_addrs p !! Z.to_nat (a - client_addrs_start p) = Some false /\
  a <> r_addr r /\ hasAddress r a = None /\
  r' = set_pool r (mkPool (client_addrs_start p) (client_addrs_len p) (a - client_addrs_start p)
                     (<[Z.to_nat (a - client_addrs_start p) := true]> (client_addrs p))).

Lemma get_client_addr_from_spec n : forall i r,
  pool_wf (pool r) -> (0 < n)%nat -> 0 < client_addrs_len (pool r) ->
  exists a r', get_client_addr_from n i r = Ret (a, r') /\
    ((a = 0 /\ r' = r /\
      forall k, i <= k < i + Z.of_nat n ->
        occupied r ((client_addrs_pos (pool r) + k) mod client_addrs_len (pool r)))
     \/ allocated r a r').
Proof.
  induction n as [|n IH]; [lia|]. intros i r Hp _ Hlen. simpl.
  pose proof Hp as (Hs & _ & Hb & Hn & _).
  set (ps := (client_addrs_pos (pool r) + i) mod client_addrs_len (pool r)).
  assert (0 <= ps < client_addrs_len (pool r)) as Hps by (apply Z.mod_pos_bound; lia).
  assert (is_Some (client_addrs (pool r) !! Z.to_nat ps)) as [b Eb].
  { apply lookup_lt_is_Some. lia. }
  assert (occupied r ps ->
    exists a r', get_client_addr_from n (i + 1) r = Ret (a, r') /\
    ((a = 0 /\ r' = r /\
      forall k, i <= k < i + Z.of_nat (S n) ->
        occupied r ((client_addrs_pos (pool r) + k) mod client_addrs_len (pool r)))
     \/ allocated r a r')) as Hnext.
  { intros Ho. destruct n as [|n].
    - exists 0, r. split; [done|]. left. split_and!; [done..|]. intros k Hk.
      by replace k with i by lia.
    - destruct (IH (i + 1) r Hp ltac:(lia) Hlen) as (a & r' & -> & [(-> & -> & Hall)|Ha]).
      + exists 0, r. split; [done|]. left. split_and!; [done..|]. intros k Hk.
        destruct (decide (k = i)) as [->|]; [done|]. apply Hall. lia.
      + eauto. }
  rewrite Eb. destruct b; [apply Hnext; by left|].
  rewrite u16_small by (unfold is_u16; lia).
  destruct (bool_decide (_ + _ <> _)) eqn:E1; simpl.
  2:{ apply bool_decide_eq_false, dec_stable in E1. apply Hnext. by right; left. }
  destruct (bool_decide (hasAddress _ _ = None)) eqn:E2.
  2:{ apply bool_decide_eq_false in E2. apply Hnext. by right; right. }
  apply bool_decide_eq_true in E1, E2.
  exists (client_addrs_start (pool r) + ps), (set_pool r (mkPool (client_addrs_start (pool r))
    (client_addrs_len (pool r)) ps (<[Z.to_nat ps := true]> (client_addrs (pool r))))).
  split; [done|]. right. unfold allocated.
  rewrite !Z.add_simpl_l. split_and!; try done; lia.
Qed.

Lemma mod_cover pos len j :
  0 < len -> 0 <= j < len -> exists k, 1 <= k < 1 + len /\ (pos + k) mod len = j.
Proof.
  intros Hl Hj. exists (1 + (j - pos - 1) mod len).
  pose proof (Z.mod_pos_bound (j - pos - 1) len Hl). split; [lia|].
  rewrite Z.add_assoc, Zplus_mod_idemp_r.
  replace (pos + 1 + (j - pos - 1)) with j by lia. by apply Z.mod_small.
Qed.

Lemma get_client_addr_spec r :
  pool_wf (pool r) ->
  exists a r', get_client_addr r = Ret (a, r') /\
    ((a = 0 /\ r' = r /\ forall j, 0 <= j < client_addrs_len (pool r) -> occupied r j)
     \/ allocated r a r').
Proof.
  intros Hp. unfold get_client_addr. pose proof Hp as (_ & Hl & _).
  destruct (decide (client_addrs_len (pool r) = 0)) as [E|E].
  { rewrite E. exists 0, r. split; [done|]. left. split_and!; [done..|]. lia. }
  destruct (get_client_addr_from_spec (Z.to_nat (client_addrs_len (pool r))) 1 r Hp) as
    (a & r' & -> & [(-> & -> & Hall)|Ha]); [lia..| |by eauto].
  exists 0, r. split; [done|]. left. split_and!; [done..|]. intros j Hj.
  destruct (mod_cover (client_addrs_pos (pool r)) (client_addrs_len (pool r)) j) as (k & Hk & <-);
    [lia..|]. apply Hall. lia.
Qed.

(** [get_client_addr] always returns, gives out an address of the configured
    block that is not the daemon's own, is known on no link and was not given
    out before, marks exactly that address as taken, and reports exhaustion only
    if every address of the block is taken or in use. *)
Theorem client_addr_fresh r :
  pool_wf (pool r) ->
  exists a r', get_client_addr r = Ret (a, r') /\
    ((a = 0 /\ r' = r /\ forall j, 0 <= j < client_addrs_len (pool r) -> occupied r j)
     \/ allocated r a r').
Proof. apply get_client_addr_spec. Qed.

(** A client that opens [n] connections and keeps them. *)
Fixpoint allocate (n : nat) (r : router) : outcome (list Z * router) :=
  match n with
  | O => Ret ([], r)
  | S n => '(a, r) ← get_client_addr r; '(rest, r) ← allocate n r; Ret (a :: rest, r)
  end.

Definition taken (r : router) (a : Z) : Prop :=
  client_addrs (pool r) !! Z.to_nat (a - client_addrs_start (pool r)) = Some true.

Lemma allocated_wf r a r' : pool_wf (pool r) -> allocated r a r' -> pool_wf (pool r').
Proof.
  intros (?&?&?&?&?) (?&?&?&?&->). unfold pool_wf. simpl. rewrite length_insert. lia.
Qed.

Lemma allocated_taken r a r' b :
  pool_wf (pool r) -> allocated r a r' -> client_addrs_start (pool r) <= b ->
  taken r' b <-> b = a \/ taken r b.
Proof.
  intros (?&?&?&?&?) (Ha&Hf&?&?&->) Hb. unfold taken. simpl.
  destruct (decide (b = a)) as [->|Hne].
  - rewrite list_lookup_insert_eq; [by intuition|]. by apply lookup_lt_Some in Hf.
  - rewrite list_lookup_insert_ne by lia. by intuition.
Qed.

Lemma allocate_fresh n : forall r as_ r',
  pool_wf (pool r) -> allocate n r = Ret (as_, r') ->
  client_addrs_start (pool r') = client_addrs_start (pool r) /\
  (forall a, a ∈ as_ -> a <> 0 -> client_addrs_start (pool r) <= a /\ ~ taken r a /\ taken r' a) /\
  (forall a, client_addrs_start (pool r) <= a -> taken r a -> taken r' a) /\
  NoDup (List.filter (fun a => negb (a =? 0)) as_).
Proof.
  induction n as [|n IH]; simpl; intros r as_ r' Hp Hr.
  { simplify_eq. split_and!; [done| |done|constructor]. intros a Ha. by apply not_elem_of_nil in Ha. }
  destruct (get_client_addr_spec r Hp) as (a & r1 & E & Hcase). rewrite E in Hr. simpl in Hr.
  apply bind_Ret_inv in Hr as ([rest r2] & Hr & [= <- <-]).
  destruct Hcase as [(-> & -> & _)|Ha].
  - destruct (IH _ _ _ Hp Hr) as (H1 & H2 & H3 & H4). split_and!; [done| |done|done].
    intros b [->|Hb]%elem_of_cons Hnz; [done|]. auto.
  - pose proof Ha as (Hrange & Hfree & _ & _ & Hr1). pose proof Hp as (Hst & _).
    assert (client_addrs_start (pool r1) = client_addrs_start (pool r)) as Hs by (by subst r1).
    destruct (IH _ _ _ (allocated_wf _ _ _ Hp Ha) Hr) as (H1 & H2 & H3 & H4).
    rewrite Hs in *.
    pose proof (fun b Hb => allocated_taken r a r1 b Hp Ha Hb) as Ht.
    split_and!; [congruence| | |].
    + intros b [->|Hb]%elem_of_cons Hnz.
      * split_and!; [lia| |]. { unfold taken. rewrite Hfree. done. }
        apply H3; [lia|]. apply Ht; [lia|]. by left.
      * destruct (H2 b Hb Hnz) as (Hb1 & Hb2 & Hb3). split_and!; [done| |done].
        intros Hbt. apply Hb2. apply Ht; [done|]. by right.
    + intros b Hb Hbt. apply H3; [done|]. apply Ht; [done|]. by right.
    + simpl. rewrite (proj2 (Z.eqb_neq a 0)) by lia. simpl.
      constructor; [|done]. intros Hin. apply list_elem_of_In, filter_In in Hin as [Hin Hnz].
      apply list_elem_of_In in Hin. apply negb_true_iff, Z.eqb_neq in Hnz.
      destruct (H2 a Hin Hnz) as (_ & Hn & _). apply Hn. apply Ht; [lia|]. by left.
Qed.

(** No two clients share an address: however many addresses are allocated,
    those that are given out are pairwise different. *)
Theorem client_addrs_distinct n r as_ r' :
  pool_wf (pool r) -> allocate n r = Ret (as_, r') ->
  NoDup (List.filter (fun a => negb (a =? 0)) as_).
Proof. intros Hp Hr. by destruct (allocate_fresh n r as_ r' Hp Hr) as (_ & _ & _ & Hn). Qed.

Lemma release_client_addr_spec r a :
  pool_wf (pool r) ->
  exists r', release_client_addr r a = Ret r' /\ pool_wf (pool r') /\
    (forall b, client_addrs_start (pool r) <= b -> taken r' b <-> taken r b /\ b <> a) /\
    client_addrs_start (pool r') = client_addrs_start (pool r) /\ (~ taken r a -> r' = r).
Proof.
  intros Hp. pose proof Hp as (Hs & Hl & Hb & Hn & Hpos). unfold release_client_addr.
  destruct (decide (a < _)) as [E1|E1].
  { exists r. split_and!; [done..| |done|done]. intros b Hb'. split; [|tauto]. intros ?. split; [done|lia]. }
  destruct (decide (_ <= _)) as [E2|E2].
  { exists r. split_and!; [done..| |done|done]. intros b Hb'. split; [|tauto]. intros Ht. split; [done|].
    unfold taken in Ht. apply lookup_lt_Some in Ht. lia. }
  destruct (client_addrs (pool r) !! Z.to_nat (a - client_addrs_start (pool r))) as [[]|] eqn:E.
  - eexists. split; [done|]. split_and!.
    + unfold pool_wf. simpl. rewrite length_insert. lia.
    + intros b Hb'. unfold taken. simpl. destruct (decide (b = a)) as [->|Hne].
      * rewrite list_lookup_insert_eq by (by apply lookup_lt_Some in E).
        split; [done | by intros [_ []]].
      * rewrite list_lookup_insert_ne by lia. by intuition.
    + done.
    + intros Ht. by destruct Ht.
  - exists r. split_and!; [done..| |done|done]. intros b Hb'. split; [|tauto]. intros Ht. split; [done|].
    intros ->. unfold taken in Ht. congruence.
  - apply lookup_ge_None in E. lia.
Qed.

(** A released address is free again, no other address changes, and
    releasing an address outside the block or one that is free does nothing;
    [release_client_addr] always returns. *)
Theorem client_addr_release r a :
  pool_wf (pool r) ->
  exists r', release_client_addr r a = Ret r' /\ pool_wf (pool r') /\
    (forall b, client_addrs_start (pool r) <= b -> taken r' b <-> taken r b /\ b <> a) /\
    (~ taken r a -> r' = r) .
Proof. intros Hp. destruct (release_client_addr_spec r a Hp) as (r' & ? & ? & ? & _ & ?). eauto 6. Qed.

(** ** Delivery *)

(** While the router is sending, what links report changes nothing but the
    queue of state changes. *)
Lemma handle_signals_sending (r : router) p ss :
  high_sending (flow r) = true ->
  let r' := handle_signals r p ss in
  out r' = out r /\ links r' = links r /\ buf r' = buf r /\ r_ignore r' = r_ignore r /\
  force_broadcast r' = force_broadcast r /\ vbusmonitor r' = vbusmonitor r /\
  high_sending (flow r') = true /\ high_send_more (flow r') = high_send_more (flow r) /\
  low_send_more (flow r') = low_send_more (flow r).
Proof.
  revert r. induction ss as [|s ss IH]; intros r Hs; simpl; [done|].
  destruct s; simpl.
  - destruct (IH (linkStateChanged r p) Hs) as (?&?&?&?&?&?&?&?&?). done.
  - unfold router_send_Next. rewrite Hs. by apply IH.
Qed.

Lemma send_to_links_spec depth w l1 todo : forall r r',
  high_sending (flow r) = true -> send_to_links depth w l1 todo r = Ret r' ->
  out r' = out r ++ ((fun ii => O_link (pos ii) l1) <$> List.filter w todo) /\
  buf r' = buf r /\ r_ignore r' = r_ignore r /\ force_broadcast r' = force_broadcast r /\
  vbusmonitor r' = vbusmonitor r /\ high_sending (flow r') = true /\
  high_send_more (flow r') = high_send_more (flow r) /\
  low_send_more (flow r') = low_send_more (flow r).
Proof.
  induction todo as [|ii todo IH]; simpl; intros r r' Hs Hr.
  { simplify_eq. by rewrite app_nil_r. }
  destruct (w ii); [|by apply IH].
  apply bind_Ret_inv in Hr as (ii' & _ & Hr). cbv zeta in Hr.
  set (r1 := put_out _ _) in Hr.
  destruct (handle_signals_sending r1 (pos ii) (signals ii') Hs) as (E1&_&E2&E3&E4&E5&E6&E7&E8).
  destruct (IH _ _ E6 Hr) as (F1&F2&F3&F4&F5&F6&F7&F8).
  rewrite F1, F2, F3, F4, F5, F7, F8, E1, E2, E3, E4, E5, E7, E8. simpl.
  rewrite <-app_assoc. by split_and!.
Qed.

(** [router_send_Next] touches the markers only. *)
Lemma router_send_Next_frame (r : router) :
  let r' := router_send_Next r in
  out r' = out r /\ links r' = links r /\ buf r' = buf r /\ r_ignore r' = r_ignore r /\
  force_broadcast r' = force_broadcast r /\ vbusmonitor r' = vbusmonitor r.
Proof. unfold router_send_Next. by repeat case_match. Qed.

Lemma send_L_Data_spec depth r l1 r' :
  send_L_Data depth r l1 = Ret r' ->
  out r' = out r ++ ((fun ii => O_link (pos ii) l1) <$> List.filter (wants r l1) (links r)) /\
  buf r' = buf r /\ r_ignore r' = r_ignore r /\ force_broadcast r' = force_broadcast r /\
  vbusmonitor r' = vbusmonitor r.
Proof.
  unfold send_L_Data. intros (u & _ & Hr)%bind_Ret_inv. cbv zeta in Hr.
  apply bind_Ret_inv in Hr as (r1 & H1 & [= <-]).
  apply send_to_links_spec in H1 as (E1&E2&E3&E4&E5&_); [|done].
  destruct (router_send_Next_frame (set_flow r1 (set_sending (flow r1) false)))
    as (F1&_&F2&F3&F4&F5).
  rewrite F1, F2, F3, F4, F5. simpl. by rewrite E1, E2, E3, E4, E5.
Qed.

(** A link that is ready accepts the frame. *)
Lemma run_callbacks_quiet set cs (lk : link) :
  Forall (fun c => c = C_send_Next) cs -> returns (run_callbacks set cs lk).
Proof.
  intros Hc. revert lk. induction Hc as [|c cs -> _ IH]; intros lk; [by eexists|].
  simpl. apply IH.
Qed.

Lemma link_send_returns depth (ii : link) l1 :
  link_ready ii = true -> returns (link_send_L_Data depth (clear_signals ii) l1).
Proof using HQ.
  intros [Hu _]%andb_true_iff. unfold link_send_L_Data. destruct (kind (clear_signals ii)); [| |by eexists].
  all: simpl; rewrite Hu; simpl; destruct (drv_send_L_Data (drv ii) l1) as [d cs] eqn:E;
    apply run_callbacks_quiet; pose proof (drv_send_quiet (drv ii) l1) as Hq; by rewrite E in Hq.
Qed.

Lemma send_to_links_returns depth w l1 todo r :
  (forall ii, w ii = true -> link_ready ii = true) -> returns (send_to_links depth w l1 todo r).
Proof using HQ.
  intros Hw. revert r. induction todo as [|ii todo IH]; intros r; simpl; [by eexists|].
  destruct (w ii) eqn:E; [|apply IH].
  destruct (link_send_returns depth ii l1 (Hw ii E)) as [ii' ->]. simpl. apply IH.
Qed.

Lemma wants_ready r l1 ii : wants r l1 ii = true -> link_ready ii = true.
Proof.
  unfold wants, wants_group, wants_individual.
  destruct (AddrType l1); intros [[Hr _]%andb_true_iff _]%andb_true_iff; done.
Qed.

Lemma send_L_Data_returns depth r l1 :
  high_send_more (flow r) = true -> returns (send_L_Data depth r l1).
Proof using HQ.
  intros Hh. unfold send_L_Data. rewrite Hh. cbn [assert_ mbind outcome_bind].
  match goal with |- returns (_ ← send_to_links _ ?w _ ?ls ?r; _) =>
    destruct (send_to_links_returns depth w l1 ls r) as [r' Hr] end.
  { intros ii. apply wants_ready. }
  rewrite Hr. by eexists.
Qed.

(** Who is to get a frame.  The interface of an individual address is known if
    some link but the sender's has seen it; a hop count of 7 counts as known. *)
Definition dest_known (r : router) (l1 : L_Data_PDU) : Prop :=
  hopcount l1 = 7 \/ dest l1 = r_addr r \/
  (dest l1 <> 0xFFFF /\
   exists o, o ∈ links r /\ link_hasAddress o (source l1) = false /\ link_hasAddress o (dest l1) = true).

Definition gets (r : router) (l1 : L_Data_PDU) (ii : link) : Prop :=
  state ii = L_up /\ send_more ii = true /\ link_hasAddress ii (source l1) = false /\
  match AddrType l1 with
  | GroupAddress => hopcount l1 = 7 \/ link_checkGroupAddress ii (dest l1) = true
  | IndividualAddress =>
      (dest_known r l1 -> link_hasAddress ii (dest l1) = true) /\
      (~ dest_known r l1 -> link_checkAddress ii (dest l1) = true)
  end.

Lemma dest_found_iff r l1 :
  bool_decide (hopcount l1 = 7) || dest_found r l1 = true <-> dest_known r l1.
Proof.
  unfold dest_found, dest_known. rewrite !orb_true_iff, andb_true_iff, !bool_decide_eq_true, existsb_exists.
  split.
  - intros [?|[?|[? (o & Ho & [Hs Hd]%andb_true_iff)]]]; [tauto..|]. right; right. split; [done|].
    exists o. rewrite list_elem_of_In. by apply negb_true_iff in Hs.
  - intros [?|[?|[? (o & Ho & Hs & Hd)]]]; [tauto..|]. right; right. split; [done|].
    exists o. rewrite <-list_elem_of_In. by rewrite Hs, Hd.
Qed.

Lemma wants_iff r l1 ii : wants r l1 ii = true <-> gets r l1 ii.
Proof.
  unfold wants, gets. destruct (AddrType l1).
  - unfold wants_group, link_ready.
    rewrite !andb_true_iff, orb_true_iff, negb_true_iff, !bool_decide_eq_true. tauto.
  - unfold wants_individual, link_ready.
    rewrite !andb_true_iff, negb_true_iff, bool_decide_eq_true.
    pose proof (dest_found_iff r l1) as Hf. destruct (_ || _).
    + assert (dest_known r l1) by (by apply Hf). tauto.
    + assert (~ dest_known r l1) by (by intros ?%Hf). tauto.
Qed.

Lemma filter_sublist {A} (f : A -> bool) l : sublist (List.filter f l) l.
Proof. induction l as [|x l IH]; simpl; [constructor|]. destruct (f x); by constructor. Qed.

(** C1: [send_L_Data] returns and hands a frame, once each and unchanged, to exactly the
    links that are up and ready, do not know the sender, and accept the destination.  A
    group address is accepted by the filters of the link, and with a hop count of 7 by
    every link.  An individual address is accepted by the links that know it, if the hop
    count is 7, the address is the daemon's own or, not being 0xFFFF, some link but the
    sender's knows it; otherwise it is accepted by the filters.  So a frame with hop count
    7 to an address no link knows goes nowhere; the comment in the source says that it
    goes to all interfaces. *)
Theorem delivery_exact depth r l1 :
  high_send_more (flow r) = true ->
  exists r' sent, send_L_Data depth r l1 = Ret r' /\
    out r' = out r ++ ((fun ii => O_link (pos ii) l1) <$> sent) /\
    sublist sent (links r) /\ (forall ii, ii ∈ links r -> ii ∈ sent <-> gets r l1 ii).
Proof using HQ.
  intros Hh. destruct (send_L_Data_returns depth r l1 Hh) as [r' Hr].
  exists r', (List.filter (wants r l1) (links r)). split_and!.
  - done.
  - by eapply send_L_Data_spec.
  - apply filter_sublist.
  - intros ii Hii. rewrite !list_elem_of_In, filter_In, wants_iff, <-list_elem_of_In. tauto.
Qed.

(** A frame never goes back to where it came from: no link on which the
    source address is known gets the frame, whatever its destination. *)
Theorem never_sent_back depth r l1 r' ii :
  send_L_Data depth r l1 = Ret r' -> NoDup (pos <$> links r) -> ii ∈ links r ->
  link_hasAddress ii (source l1) = true ->
  forall n, out r' !! (length (out r) + n)%nat <> Some (O_link (pos ii) l1).
Proof.
  intros Hr Hnd Hii Hsrc n Hn. apply send_L_Data_spec in Hr as (E & _). rewrite E in Hn.
  rewrite lookup_app_r, Nat.add_comm, Nat.add_sub in Hn by lia.
  rewrite list_lookup_fmap in Hn. destruct (_ !! n) as [jj|] eqn:Ej; [|done]. simpl in Hn.
  apply list_elem_of_lookup_2, list_elem_of_In, filter_In in Ej as [Hj Hw].
  apply list_elem_of_In in Hj. injection Hn as Hp.
  assert (jj = ii) as ->.
  { apply list_elem_of_lookup in Hj as [x Hx], Hii as [y Hy].
    assert (x = y) as <-; [|congruence].
    eapply NoDup_lookup; [exact Hnd| |]; rewrite list_lookup_fmap; [by rewrite Hx|].
    rewrite Hy. simpl. by rewrite Hp. }
  revert Hw. unfold wants, wants_group, wants_individual.
  destruct (AddrType l1); by rewrite Hsrc, andb_false_r.
Qed.

(** ** Hop counts and repeated frames *)

(** The frame that is passed on for [l1]. *)
Definition hopped (r : router) (l1 : L_Data_PDU) : L_Data_PDU :=
  if bool_decide (hopcount l1 < 7) || negb (force_broadcast r)
  then with_hopcount l1 (hopcount l1 - 1) else l1.

Definition forwarded (r : router) (l1 : L_Data_PDU) : L_Data_PDU :=
  let l := with_repeated (hopped r l1) false in
  if bool_decide (AddrType l = IndividualAddress) && bool_decide (dest l = r_addr r)
  then with_dest l 0 else l.

(** What one round of the loop does: the virtual busmonitors see the frame as it
    was received; then it is dropped, or remembered and sent. *)
Lemma trigger_one_cases depth now r l1 r' :
  trigger_one depth now r l1 = Ret r' ->
  exists v, (vbusmonitor r = [] -> v = []) /\
    (forall o, o ∈ v -> exists cb d, o = O_vbusmonitor cb d) /\
    let r0 := put_out r v in
    ((hopcount l1 = 0 /\ r' = r0) \/
     (hopcount l1 <> 0 /\ repeated l1 = true /\ r' = r0 /\
      exists d, L_Data_ToPacket (hopped r l1) = Ret d /\ ignored r d = true) \/
     (hopcount l1 <> 0 /\
      exists d, L_Data_ToPacket (with_repeated (hopped r l1) true) = Ret d /\
        send_L_Data depth
          (set_flow (set_ignore r0 (r_ignore r ++ [mkIgnore d (now + 1000000)]))
             (set_low (flow r) false))
          (forwarded r l1) = Ret r')).
Proof.
  unfold trigger_one. intros (r0 & Hv & Hr)%bind_Ret_inv.
  assert (exists v, (vbusmonitor r = [] -> v = []) /\
    (forall o, o ∈ v -> exists cb d, o = O_vbusmonitor cb d) /\ r0 = put_out r v) as (v & Hv1 & Hv2 & ->).
  { destruct (decide _) as [E|E].
    - simplify_eq. exists []. split_and!; [done| |destruct r0; unfold put_out; simpl; by rewrite app_nil_r].
      intros o Ho. by apply not_elem_of_nil in Ho.
    - apply bind_Ret_inv in Hv as (d & _ & [= <-]).
      exists (map (fun cb => O_vbusmonitor cb d) (vbusmonitor r)). split_and!; [done| |done].
      intros o (cb & <- & _)%list_elem_of_In%in_map_iff. eauto. }
  exists v. split; [done|]. split; [done|]. cbv zeta in Hr |- *.
  destruct (decide (hopcount l1 = 0)) as [E|E]; [left; by simplify_eq|].
  change (force_broadcast (put_out r v)) with (force_broadcast r) in Hr.
  fold (hopped r l1) in Hr.
  apply bind_Ret_inv in Hr as (dr & Hdr & Hr).
  assert (repeated (hopped r l1) = repeated l1) as Erep by (unfold hopped; by destruct (_ || _)).
  destruct dr.
  - right; left. rewrite Erep in Hdr. destruct (repeated l1); [|done].
    apply bind_Ret_inv in Hdr as (d & Hd & [= Hi]). simplify_eq. by eauto 10.
  - right; right. apply bind_Ret_inv in Hr as (d & Hd & Hr). split; [done|]. exists d. split; [done|]. exact Hr.
Qed.

(** C3: no frame circulates for ever: every frame the router passes on to a
    link has a hop count exactly one below that of the frame it received (a
    frame with hop count 7 keeps it if [force-broadcast] is set), with source
    and payload unchanged, and a frame received with hop count 0 is not passed on. *)
Theorem forwarded_hopcount depth now r l1 r' p f :
  0 <= hopcount l1 < 8 ->
  trigger_one depth now r l1 = Ret r' -> vbusmonitor r = [] ->
  O_link p f ∈ drop (length (out r)) (out r') ->
  hopcount l1 <> 0 /\ source f = source l1 /\ data f = data l1 /\
  ((hopcount l1 = 7 /\ force_broadcast r = true /\ hopcount f = 7) \/
   (hopcount f = hopcount l1 - 1 /\ 0 <= hopcount f < 7)).
Proof.
  intros Hh Ht Hnv Hin.
  apply trigger_one_cases in Ht as (v & Hv & _ & Hcases). rewrite (Hv Hnv) in Hcases. clear v Hv.
  destruct Hcases as [(_ & ->)|[(_ & _ & -> & _)|(Hnz & d & _ & Hs)]].
  1,2: exfalso; simpl in Hin; rewrite app_nil_r, drop_all in Hin; by apply not_elem_of_nil in Hin.
  split; [done|]. apply send_L_Data_spec in Hs as (E & _). rewrite E in Hin. simpl in Hin.
  rewrite app_nil_r, drop_app_length in Hin.
  apply list_elem_of_fmap in Hin as (ii & [= -> ->] & _).
  unfold forwarded, hopped. destruct (bool_decide (hopcount l1 < 7)) eqn:E7; simpl.
  - apply bool_decide_eq_true in E7. destruct (_ && _); simpl; split_and!; try done; right; lia.
  - apply bool_decide_eq_false in E7.
    destruct (force_broadcast r); destruct (_ && _); simpl; split_and!; try done;
      first [left; split_and!; done || lia | right; lia].
Qed.

(** C2: repetitions are suppressed: after a frame was passed on, the same frame
    received again with its repeat flag set is dropped as long as it is
    remembered. *)
Theorem repetition_dropped depth now r l1 r1 depth' now' r2 :
  hopcount l1 <> 0 -> repeated l1 = false ->
  trigger_one depth now r l1 = Ret r1 ->
  (forall i, i ∈ r_ignore r1 -> i ∈ r_ignore r2) ->
  force_broadcast r2 = force_broadcast r -> vbusmonitor r2 = [] ->
  trigger_one depth' now' r2 (with_repeated l1 true) = Ret r2.
Proof.
  intros Hh Hrep Ht Hsub Hfb Hvb.
  apply trigger_one_cases in Ht as (v & _ & _ & [(E & _)|[(_ & E & _)|(_ & d & Hd & Hs)]]);
    [done|congruence|].
  apply send_L_Data_spec in Hs as (_ & _ & Hig & _). simpl in Hig.
  unfold trigger_one. rewrite (decide_True (P := vbusmonitor r2 = [])) by done. rewrite bind_Ret.
  change (hopcount (with_repeated l1 true)) with (hopcount l1).
  rewrite (decide_False (P := hopcount l1 = 0)) by done. cbv zeta.
  replace (if bool_decide (hopcount l1 < 7) || negb (force_broadcast r2)
           then with_hopcount (with_repeated l1 true) (hopcount l1 - 1) else with_repeated l1 true)
    with (with_repeated (hopped r l1) true)
    by (unfold hopped; rewrite Hfb; by destruct (_ || _)).
  simpl repeated. rewrite Hd, !bind_Ret.
  assert (ignored r2 d = true) as ->; [|done].
  apply existsb_exists. exists (mkIgnore d (now + 1000000)). simpl. split.
  - apply list_elem_of_In, Hsub. rewrite Hig. apply elem_of_app. right. by left.
  - by apply bool_decide_eq_true.
Qed.

(** Entries that have not expired stay remembered. *)
Lemma drop_until_keeps now i x :
  x ∈ i -> now <= ig_end x -> exists i', drop_until now i = Some i' /\ x ∈ i'.
Proof.
  induction i as [|y i IH]; intros Hx Hend; [by apply not_elem_of_nil in Hx|]. simpl.
  destruct (decide (now <= ig_end y)) as [E|E]; [eauto|].
  apply elem_of_cons in Hx as [->|Hx]; [lia|]. auto.
Qed.

Lemma expire_keeps now i x : x ∈ i -> now <= ig_end x -> x ∈ expire now i.
Proof.
  intros Hx Hend. unfold expire. by destruct (drop_until_keeps now i x Hx Hend) as (i' & -> & ?).
Qed.

(** The list of remembered frames forgets nothing early, and it forgets
    nothing at all while every entry has expired: the entries are only erased up
    to one that is still valid. *)
Theorem ignore_list_expiry now i :
  (forall x, x ∈ i -> now <= ig_end x -> x ∈ expire now i) /\
  ((forall x, x ∈ i -> ig_end x < now) -> expire now i = i).
Proof.
  split; [intros; by apply expire_keeps|]. intros Hall. unfold expire.
  destruct (drop_until now i) as [i'|] eqn:E; [|done]. exfalso.
  induction i as [|y i IH]; [done|]. simpl in E. destruct (decide _) as [Hy|Hy].
  - specialize (Hall y (list_elem_of_here _ _)). lia.
  - apply IH; [|done]. intros x Hx. apply Hall. by right.
Qed.

(** ** Progress *)

(** Who waits for whom: the router takes frames from its queue only when its
    lower half is ready, and that is only so when its upper half is. *)
Definition flow_ok (r : router) : Prop :=
  low_send_more (flow r) = true -> high_send_more (flow r) = true.

(** Frames that can be encoded. *)
Definition sendable (l : L_Data_PDU) : Prop := ldata_wf l /\ (size (data l) <= 255)%nat.

Lemma hopped_sendable r l : sendable l -> hopcount l <> 0 -> sendable (hopped r l).
Proof.
  intros [(Hs & Hd & Hh & Hb & Hn) Hn'] H0. unfold hopped.
  destruct (_ || _); [|done]. split; [|done]. split_and!; simpl; done || lia.
Qed.

Lemma sendable_returns l : sendable l -> returns (L_Data_ToPacket l).
Proof. intros [Hw Hn]. rewrite L_Data_ToPacket_eq by done. by eexists. Qed.

(** What sending leaves of the markers. *)
Lemma send_L_Data_flow depth r l1 r' :
  send_L_Data depth r l1 = Ret r' ->
  (high_send_more (flow r') = true /\ low_send_more (flow r') = true /\ trigger (flow r') = true) \/
  (low_send_more (flow r') = low_send_more (flow r) /\
   exists ii, ii ∈ links r' /\ state ii = L_up /\ send_more ii = false).
Proof.
  unfold send_L_Data. intros (u & _ & Hr)%bind_Ret_inv. cbv zeta in Hr.
  apply bind_Ret_inv in Hr as (r1 & H1 & [= <-]).
  apply send_to_links_spec in H1 as (_ & _ & _ & _ & _ & _ & E & E'); [|done]. simpl in E, E'.
  unfold router_send_Next. simpl. rewrite E.
  destruct (still_waiting (links r1)) eqn:Ew; [right|by left]. split; [done|].
  apply existsb_exists in Ew as (ii & Hii & Hw). exists ii. simpl.
  apply andb_true_iff in Hw as [Hs Hm]. apply bool_decide_eq_true in Hs.
  apply negb_true_iff in Hm. by rewrite list_elem_of_In.
Qed.

(** A round returns, leaves the rest of the queue alone and the markers in order. *)
Definition round_post (r r' : router) : Prop := buf r' = buf r /\ flow_ok r'.

Lemma trigger_one_returns depth now r l1 :
  sendable l1 -> high_send_more (flow r) = true ->
  returns_with (round_post r) (trigger_one depth now r l1).
Proof using HQ.
  intros Hl Hh. assert (flow_ok r) as Hok by (by intros _). unfold trigger_one.
  assert (exists v, (if decide (vbusmonitor r = []) then Ret r
       else d ← L_Data_ToPacket l1; Ret (put_out r (map (fun cb => O_vbusmonitor cb d) (vbusmonitor r))))
       = Ret (put_out r v)) as [v ->].
  { destruct (decide _).
    - exists []. destruct r; unfold put_out; simpl. by rewrite app_nil_r.
    - destruct (sendable_returns l1 Hl) as [d ->]. by eexists. }
  rewrite bind_Ret. destruct (decide (hopcount l1 = 0)) as [|H0]; [apply returns_with_Ret; by split|].
  cbv zeta. change (force_broadcast (put_out r v)) with (force_broadcast r). fold (hopped r l1).
  pose proof (hopped_sendable r l1 Hl H0) as Hs. destruct (sendable_returns _ Hs) as [d1 Hd1].
  assert (sendable (with_repeated (hopped r l1) true)) as Hs' by exact Hs.
  destruct (sendable_returns _ Hs') as [d2 Hd2].
  assert (exists b : bool, (if repeated (hopped r l1) then d1 ← L_Data_ToPacket (hopped r l1);
     Ret (ignored (put_out r v) d1) else Ret false) = Ret b) as [b ->].
  { rewrite Hd1. destruct (repeated _); by eexists. }
  rewrite bind_Ret. destruct b; [apply returns_with_Ret; by split|]. rewrite Hd2, bind_Ret.
  match goal with |- returns_with _ (send_L_Data _ ?x ?l) =>
    destruct (send_L_Data_returns depth x l Hh) as [r' Hr] end.
  rewrite Hr. apply returns_with_Ret. pose proof (send_L_Data_flow _ _ _ _ Hr) as Hf.
  apply send_L_Data_spec in Hr as (_ & Hb & _). split; [done|]. unfold flow_ok.
  destruct Hf as [(-> & _)|(-> & _)]; done.
Qed.

Lemma trigger_loop_done fuel depth now : forall r,
  (length (buf r) <= fuel)%nat -> flow_ok r -> Forall sendable (buf r) ->
  exists r', trigger_loop fuel depth now r = Ret r' /\ flow_ok r' /\
    (buf r' = [] \/ low_send_more (flow r') = false).
Proof using HQ.
  induction fuel as [|fuel IH]; simpl; intros r Hf Hok Hs.
  { apply Nat.le_0_r, length_zero_iff_nil in Hf. rewrite Hf. exists r. auto. }
  destruct (buf r) as [|l1 rest] eqn:Eb; [exists r; by auto|].
  destruct (low_send_more (flow r)) eqn:El; [|exists r; by auto].
  apply Forall_cons_iff in Hs as [Hl Hs].
  destruct (trigger_one_returns depth now (set_buf r rest) l1 Hl (Hok El)) as (r1 & -> & Hb & Hok1).
  rewrite bind_Ret. simpl in Hb, Hf. apply IH; [rewrite Hb; lia|done|by rewrite Hb].
Qed.

(** [trigger_cb] works the queue off: if the queued frames can be encoded,
    it returns, and then no frame is left or one is on its way to a link that
    has not confirmed it. *)
Theorem queue_worked_off depth now r :
  flow_ok r -> Forall sendable (buf r) ->
  exists r', trigger_cb depth now r = Ret r' /\ flow_ok r' /\
    (buf r' = [] \/ low_send_more (flow r') = false).
Proof using HQ.
  intros Hok Hs. unfold trigger_cb.
  destruct (trigger_loop_done (length (buf r)) depth now (set_flow r (set_trigger (flow r) false)))
    as (r1 & E & Hok1 & Hd); [done..|].
  exists (set_ignore r1 (expire now (r_ignore r1))).
  change (buf (set_flow r (set_trigger (flow r) false))) with (buf r). by rewrite E.
Qed.

(** The router never stalls: sending a frame returns, and afterwards either
    the router is ready for the next one and its trigger is set, or some link is
    up and has not yet called [send_Next]. *)
Theorem no_stall depth r l1 :
  high_send_more (flow r) = true ->
  exists r', send_L_Data depth r l1 = Ret r' /\
  ((high_send_more (flow r') = true /\ low_send_more (flow r') = true /\ trigger (flow r') = true) \/
   exists ii, ii ∈ links r' /\ state ii = L_up /\ send_more ii = false).
Proof using HQ.
  intros Hh. destruct (send_L_Data_returns depth r l1 Hh) as [r' Hr]. exists r'. split; [done|].
  destruct (send_L_Data_flow _ _ _ _ Hr) as [?|[_ ?]]; auto.
Qed.

(** ** Ownership of addresses *)

(** At most one link knows an address. *)
Definition exclusive (r : router) : Prop :=
  forall x y a, x ∈ links r -> y ∈ links r ->
    link_hasAddress x a = true -> link_hasAddress y a = true -> pos x = pos y.

(** The router does not find the address: no link knows it. *)
Lemma hasAddress_None r a x :
  hasAddress r a = None -> x ∈ links r -> link_hasAddress x a = false.
Proof.
  unfold hasAddress. destruct (decide _); [done|]. intros Hn Hx.
  destruct (List.find _ _) eqn:E; [done|]. by apply (find_none _ _ E x), list_elem_of_In.
Qed.

Lemma hasAddress_Some r a x :
  a <> r_addr r -> hasAddress r a = Some x ->
  exists l, x = Some l /\ l ∈ links r /\ link_hasAddress l a = true.
Proof.
  intros Ha. unfold hasAddress. rewrite decide_False by done.
  destruct (List.find _ _) as [l|] eqn:E; [|done]. intros [= <-].
  apply find_some in E as [Hl Hh]. exists l. by rewrite list_elem_of_In.
Qed.

Lemma queue_L_Data_links (r : router) l : links (queue_L_Data r l) = links r.
Proof. unfold queue_L_Data. by repeat case_match. Qed.

Lemma queue_L_Data_buf (r : router) l :
  buf (queue_L_Data r l) = buf r \/ buf (queue_L_Data r l) = buf r ++ [l].
Proof. unfold queue_L_Data. repeat case_match; simpl; auto. Qed.

(** The frame that enters the queue when [l] comes from the link [lk]: [l] itself, but
    that a source of 0 is replaced by the address of the link or, if that is 0 too, of
    the daemon. *)
Definition enters_as (r : router) (lk : link) (l l' : L_Data_PDU) : Prop :=
  (source l <> 0 -> l' = l) /\
  (source l = 0 -> addr lk <> 0 -> l' = with_source l (addr lk)) /\
  (source l = 0 -> addr lk = 0 -> l' = with_source l (r_addr r)).

(** Who may use the source [a]: a local link if it is the daemon's own address, otherwise
    a link when no other one knows it; an address of the block for clients only if the
    link does know it. *)
Definition may_use (r : router) (lk : link) (a : Z) : Prop :=
  (a = r_addr r /\ is_local lk = true) \/
  (a <> r_addr r /\ (forall o, o ∈ links r -> link_hasAddress o a = true -> pos o = pos lk) /\
   (client_addrs_len (pool r) <> 0 ->
    client_addrs_start (pool r) <= a < client_addrs_start (pool r) + client_addrs_len (pool r) ->
    exists o, o ∈ links r /\ link_hasAddress o a = true /\ pos o = pos lk)).

Lemma assigned_enters r lk l : enters_as r lk l (assigned_source r lk l).
Proof. unfold enters_as, assigned_source. repeat case_decide; by split_and!. Qed.

Lemma queue_new (r q : router) l : buf q = buf r -> buf (queue_L_Data q l) <> buf r -> buf (queue_L_Data q l) = buf r ++ [l].
Proof. intros E. destruct (queue_L_Data_buf q l) as [->| ->]; by rewrite E. Qed.

(** C4: an address cannot be taken over.  Let at most one link know each address.  A frame
    from a link that is accepted enters the queue unchanged, but that a source of 0 is
    replaced by the address of the link or of the daemon; and its source is then the
    daemon's own address, on a local link only, or an address that no other link knows,
    which is in the block for clients only if the link knows it. *)
Theorem no_spoofing r l lk r' :
  exclusive r -> lk ∈ links r -> recv_L_Data r l lk = Ret r' -> buf r' <> buf r ->
  exists l', buf r' = buf r ++ [l'] /\ enters_as r lk l l' /\ may_use r lk (source l').
Proof.
  intros Hex Hlk. unfold recv_L_Data. destruct (_ && _); [by intros [= <-]|]. cbv zeta.
  pose proof (assigned_enters r lk l) as Hen. set (l' := assigned_source r lk l) in *. clearbody l'.
  assert (forall q : router, buf q = buf r -> may_use r lk (source l') -> buf (queue_L_Data q l') <> buf r ->
    exists l'', buf (queue_L_Data q l') = buf r ++ [l''] /\ enters_as r lk l l'' /\ may_use r lk (source l'')) as Hq.
  { intros q Hb Hm Hne. exists l'. split; [by apply queue_new|done]. }
  destruct (decide (source l' = r_addr r)) as [Ea|Ea].
  { destruct (is_local lk) eqn:El; [|by intros [= <-]]. intros [= <-]. apply Hq; [done|]. by left. }
  destruct (hasAddress r (source l')) as [x|] eqn:Ex.
  { destruct (hasAddress_Some _ _ _ Ea Ex) as (o & -> & Ho & Hoh). simpl.
    destruct (decide _) as [E|E]; [|by intros [= <-]]. intros [= <-]. injection E as E.
    apply Hq; [done|]. right. split_and!; [done| |by eauto]. intros o' Ho' Hoh'. rewrite <-E. by eapply Hex. }
  assert (forall o, o ∈ links r -> link_hasAddress o (source l') = true -> pos o = pos lk) as Hnone.
  { intros o Ho Hoh. by rewrite (hasAddress_None r (source l') o Ex Ho) in Hoh. }
  destruct (_ && _) eqn:Eb; [by intros [= <-]|].
  assert (may_use r lk (source l')) as Hm.
  { right. split_and!; [done..|]. intros Hl Hr. rewrite !bool_decide_true in Eb by (done || lia). done. }
  destruct (decide (source l' <> 0xFFFF)).
  - intros (lk' & _ & [= <-])%bind_Ret_inv. by apply Hq.
  - intros [= <-]. by apply Hq.
Qed.
End RouterSpec.

Section Ownership.
Context {D : Type} {HD : Driver D} {HL : DriverLaws D}.

Lemma link_has_add (lk lk' : LinkConnect D) a b :
  link_addAddress lk a = Ret lk' -> link_hasAddress lk' b = true ->
  b = a \/ link_hasAddress lk b = true.
Proof using HL.
  unfold link_addAddress, link_hasAddress. destruct (kind lk) eqn:Ek.
  - intros [= <-]. simpl. rewrite Ek. apply drv_has_add.
  - intros (u & _ & [= <-])%bind_Ret_inv. rewrite Ek. by right.
  - intros [= <-]. by rewrite Ek.
Qed.

Lemma link_addAddress_pos (lk lk' : LinkConnect D) a :
  link_addAddress lk a = Ret lk' -> pos lk' = pos lk.
Proof.
  unfold link_addAddress. destruct (kind lk); [by intros [= <-]| |by intros [= <-]].
  by intros (u & _ & [= <-])%bind_Ret_inv.
Qed.

(** C5: ownership is invariant: if at most one link knows each address, this
    holds again after any frame is received on any link, for every driver whose
    address table keeps the law [drv_has_add]. *)
Theorem exclusive_preserved (r : Router D) l lk r' :
  exclusive r -> lk ∈ links r -> recv_L_Data r l lk = Ret r' -> exclusive r'.
Proof using HL.
  intros Hex Hlk. unfold recv_L_Data. destruct (_ && _); [by intros [= <-]|]. cbv zeta.
  set (l' := assigned_source r lk l). clearbody l'.
  assert (forall q, links q = links r -> exclusive (queue_L_Data q l')) as Hq.
  { intros q Hl x y a. rewrite queue_L_Data_links, Hl. apply Hex. }
  destruct (decide (source l' = r_addr r)).
  { destruct (is_local lk); intros [= <-]; [by apply Hq|done]. }
  destruct (hasAddress r (source l')) as [x|] eqn:Ex.
  { destruct (decide _); intros [= <-]; [by apply Hq|done]. }
  destruct (_ && _); [by intros [= <-]|].
  destruct (decide (source l' <> 0xFFFF)); [|intros [= <-]; by apply Hq].
  intros (lk' & Hadd & [= <-])%bind_Ret_inv. pose proof (link_addAddress_pos _ _ _ Hadd) as Hpos.
  assert (forall z a, z ∈ links (update_link r lk') -> link_hasAddress z a = true ->
    (pos z = pos lk /\ a = source l') \/
    (exists z', z' ∈ links r /\ pos z' = pos z /\ link_hasAddress z' a = true)) as Hz.
  { intros z a (z0 & Ez & Hz0)%list_elem_of_fmap Hh. rewrite Ez in *. clear Ez.
    destruct (decide (pos z0 = pos lk')) as [E|E].
    - destruct (link_has_add lk lk' (source l') a Hadd Hh) as [->|Hold]; [by left|right].
      exists lk. by rewrite Hpos.
    - right. by exists z0. }
  intros x y a Hx Hy Hxa Hya. rewrite queue_L_Data_links in Hx, Hy.
  destruct (Hz x a Hx Hxa) as [[Hx1 Hx2]|(x' & Hx1 & Hx2 & Hx3)],
    (Hz y a Hy Hya) as [[Hy1 Hy2]|(y' & Hy1 & Hy2 & Hy3)].
  - congruence.
  - subst a. by rewrite (hasAddress_None r _ y' Ex Hy1) in Hy3.
  - subst a. by rewrite (hasAddress_None r _ x' Ex Hx1) in Hx3.
  - rewrite <-Hx2, <-Hy2. by eapply Hex.
Qed.
End Ownership.

(** ** A client that chooses its own source address *)

(** A frame whose source address is unknown to the router ends the daemon
    if it comes from a link with a single address: the address is neither the
    link's own nor zero, so the assertion of [LinkConnectSingle::addAddress]
    fails.  The TPDU connections of local clients let the client choose the
    source address of the frames it sends. *)
Theorem foreign_source_aborts {D} `{Driver D} (r : Router D) l lk :
  kind lk = K_LinkConnectSingle -> source l <> 0 -> source l <> addr lk ->
  source l <> r_addr r -> source l <> 0xFFFF -> hasAddress r (source l) = None ->
  ~ (client_addrs_start (pool r) <= source l
     < client_addrs_start (pool r) + client_addrs_len (pool r)) ->
  ~ (AddrType l = IndividualAddress /\ dest l = 0) ->
  recv_L_Data r l lk = Fault AssertFailed.
Proof.
  intros Hk H0 Ha Hr Hf Hn Hp Hd. unfold recv_L_Data, assigned_source.
  rewrite (decide_False (P := source l = 0)) by done. cbv zeta.
  rewrite <-bool_decide_and, (bool_decide_eq_false_2 _ Hd).
  rewrite (decide_False (P := source l = r_addr r)) by done. rewrite Hn.
  rewrite <-!bool_decide_and.
  rewrite (bool_decide_eq_false_2 (_ /\ _)) by (intros [[_ ?] ?]; apply Hp; lia).
  rewrite decide_True by done. unfold link_addAddress. rewrite Hk.
  by rewrite (bool_decide_eq_false_2 _ H0), (bool_decide_eq_false_2 _ Ha).
Qed.

(** ** An example: two buses and a client *)

Definition up_link (k : link_kind) (p a : Z) (known : list Z) : LinkConnect BusDriver :=
  mkLink k p false false false false a L_up 0 0 0 0 false true (mkBus (list_to_set known)) [].

Definition example_links : list (LinkConnect BusDriver) :=
  [up_link K_LinkConnect 1 0 [0x1101]; up_link K_LinkConnect 2 0 [0x1202];
   up_link K_LinkConnectSingle 3 0x1F01 []].

Definition example_router : Router BusDriver :=
  mkRouter 0x1F00 false example_links [] [] [] [] (mkPool 0x1F01 2 1 [true; false])
    (mkFlow true true false false false false) (mkRunning true true true true) [] [] 1 [].

Definition example_frame : L_Data_PDU :=
  mkL_Data PRIO_LOW false true true GroupAddress 0x1101 0x0A03 6 [0x00; 0x81].

(** The value of a computation that returns. *)
Definition result {A} (d : A) (m : outcome A) : A := match m with Ret a => a | Fault _ => d end.

Lemma example_exclusive : exclusive example_router.
Proof.
  assert (forall x a, x ∈ example_links -> link_hasAddress x a = true ->
    (pos x = 1 /\ a = 0x1101) \/ (pos x = 2 /\ a = 0x1202) \/ (pos x = 3 /\ a = 0x1F01)) as He.
  { intros x a Hx Hh. unfold example_links in Hx. rewrite !elem_of_cons in Hx.
    destruct Hx as [-> |[-> |[-> |Hx]]]; [..|by apply not_elem_of_nil in Hx];
      unfold link_hasAddress, up_link in Hh; simpl in Hh; apply bool_decide_eq_true in Hh;
      rewrite ?elem_of_union, ?elem_of_singleton, ?elem_of_empty in Hh; tauto. }
  intros x y a Hx Hy Hxa Hya. destruct (He x a Hx Hxa), (He y a Hy Hya); lia.
Qed.

Lemma client_addr_fresh_witness :
  exists a r', get_client_addr example_router = Ret (a, r') /\
    ((a = 0 /\ r' = example_router /\
      forall j, 0 <= j < client_addrs_len (pool example_router) -> occupied example_router j)
     \/ allocated example_router a r').
Proof. apply client_addr_fresh. unfold pool_wf. simpl. lia. Defined.

Lemma client_addrs_distinct_witness :
  NoDup (List.filter (fun a => negb (a =? 0)) [0x1F02; 0]).
Proof.
  apply (client_addrs_distinct 2 example_router [0x1F02; 0]
           (snd (result ([], example_router) (allocate 2 example_router)))).
  - unfold pool_wf. simpl. lia.
  - vm_compute. reflexivity.
Defined.

Lemma client_addr_release_witness :
  exists r', release_client_addr example_router 0x1F01 = Ret r' /\ pool_wf (pool r') /\
    (forall b, 0x1F01 <= b -> taken r' b <-> taken example_router b /\ b <> 0x1F01) /\
    (~ taken example_router 0x1F01 -> r' = example_router).
Proof. apply (client_addr_release example_router 0x1F01). unfold pool_wf. simpl. lia. Defined.

Definition example_sent : Router BusDriver :=
  result example_router (send_L_Data 3 example_router example_frame).

Lemma example_sent_eq : send_L_Data 3 example_router example_frame = Ret example_sent.
Proof. vm_compute. reflexivity. Qed.

Lemma delivery_exact_witness :
  out example_sent = [O_link 2 example_frame; O_link 3 example_frame] /\
  exists r' sent, send_L_Data 3 example_router example_frame = Ret r' /\
    out r' = out example_router ++ ((fun ii => O_link (pos ii) example_frame) <$> sent) /\
    sublist sent (links example_router) /\
    (forall ii, ii ∈ links example_router -> ii ∈ sent <-> gets example_router example_frame ii).
Proof.
  split; [vm_compute; reflexivity|].
  apply (delivery_exact 3 example_router example_frame). reflexivity.
Defined.

Lemma never_sent_back_witness :
  out example_sent !! 0%nat <> Some (O_link 1 example_frame).
Proof.
  apply (never_sent_back 3 example_router example_frame example_sent
           (up_link K_LinkConnect 1 0 [0x1101]) example_sent_eq).
  - apply (bool_decide_unpack _). vm_compute. exact I.
  - apply list_elem_of_here.
  - vm_compute. reflexivity.
Defined.

Lemma no_stall_witness :
  exists r', send_L_Data 3 example_router example_frame = Ret r' /\
  ((high_send_more (flow r') = true /\ low_send_more (flow r') = true /\ trigger (flow r') = true) \/
   exists ii, ii ∈ links r' /\ state ii = L_up /\ send_more ii = false).
Proof. apply (no_stall 3 example_router example_frame). reflexivity. Defined.

Definition example_round : Router BusDriver :=
  result example_router (trigger_one 3 1000 example_router example_frame).

Lemma example_round_eq : trigger_one 3 1000 example_router example_frame = Ret example_round.
Proof. vm_compute. reflexivity. Qed.

Lemma forwarded_hopcount_witness :
  exists f, O_link 2 f ∈ drop 0 (out example_round) /\ hopcount f = 5.
Proof.
  exists (with_hopcount example_frame 5). split; [|reflexivity].
  assert (O_link 2 (with_hopcount example_frame 5) ∈ drop (length (out example_router)) (out example_round))
    as Hin by (vm_compute; apply list_elem_of_here).
  destruct (forwarded_hopcount 3 1000 example_router example_frame example_round 2
    (with_hopcount example_frame 5)) as (_ & _ & _ & Hh);
    [simpl; lia | exact example_round_eq | reflexivity | exact Hin | exact Hin].
Defined.

Lemma repetition_dropped_witness :
  trigger_one 3 2000 example_round (with_repeated example_frame true) = Ret example_round.
Proof.
  apply (repetition_dropped 3 1000 example_router example_frame example_round).
  - discriminate.
  - reflexivity.
  - exact example_round_eq.
  - auto.
  - reflexivity.
  - reflexivity.
Defined.

Lemma ignore_list_expiry_witness : expire 5 [mkIgnore [1] 2; mkIgnore [2] 3] = [mkIgnore [1] 2; mkIgnore [2] 3].
Proof.
  apply (ignore_list_expiry 5 [mkIgnore [1] 2; mkIgnore [2] 3]).
  intros x Hx. rewrite !elem_of_cons in Hx.
  destruct Hx as [-> |[-> |Hx]]; [simpl; lia.. | by apply not_elem_of_nil in Hx].
Defined.

Definition example_queued : Router BusDriver := set_buf example_router [example_frame; example_frame].

Lemma queue_worked_off_witness :
  exists r', trigger_cb 3 1000 example_queued = Ret r' /\ flow_ok r' /\
    (buf r' = [] \/ low_send_more (flow r') = false).
Proof.
  apply (queue_worked_off 3 1000 example_queued); [done|].
  unfold sendable, ldata_wf. repeat constructor; simpl; lia.
Defined.

Definition example_recv : Router BusDriver :=
  result example_router (recv_L_Data example_router (with_source example_frame 0x1103)
    (up_link K_LinkConnect 1 0 [0x1101])).

Lemma example_recv_eq :
  recv_L_Data example_router (with_source example_frame 0x1103) (up_link K_LinkConnect 1 0 [0x1101])
  = Ret example_recv.
Proof. vm_compute. reflexivity. Qed.

Lemma no_spoofing_witness :
  exists l', buf example_recv = [] ++ [l'] /\
    enters_as example_router (up_link K_LinkConnect 1 0 [0x1101]) (with_source example_frame 0x1103) l' /\
    may_use example_router (up_link K_LinkConnect 1 0 [0x1101]) (source l').
Proof.
  apply (no_spoofing example_router (with_source example_frame 0x1103)
           (up_link K_LinkConnect 1 0 [0x1101]) example_recv).
  - exact example_exclusive.
  - apply list_elem_of_here.
  - exact example_recv_eq.
  - vm_compute. discriminate.
Defined.

Lemma exclusive_preserved_witness : exclusive example_recv.
Proof.
  apply (exclusive_preserved example_router (with_source example_frame 0x1103)
           (up_link K_LinkConnect 1 0 [0x1101]) example_recv).
  - exact example_exclusive.
  - apply list_elem_of_here.
  - exact example_recv_eq.
Defined.

Lemma foreign_source_aborts_witness :
  recv_L_Data example_router (with_source example_frame 0x1234)
    (up_link K_LinkConnectSingle 3 0x1F01 []) = Fault AssertFailed.
Proof.
  apply foreign_source_aborts; try discriminate; try reflexivity.
  - vm_compute. intuition congruence.
  - intros [? _]. discriminate.
Defined.
