(* ===== verification/EibNetIp.v ===== *)
(** * EIBnet/IP packets

    Models src/src/libserver/eibnetip.h and src/src/libserver/eibnetip.cpp: the
    packet header, the host protocol address information, and the bodies of the
    services with their [ToPacket] and [parseEIBnet_...] functions.  A parser
    returns [None] where the source returns 1; the record it fills starts with
    the values of the class's constructor.  An IP address and a port are kept in
    host order, the conversions of [ntohl] and [htonl] being inverse. *)

From S2P Require Import Prelude CArray Common Apdu ApduSpec ApduRound Lpdu LpduSpec Emi.

Definition SEARCH_REQUEST : Z := 0x0201.
Definition SEARCH_RESPONSE : Z := 0x0202.
Definition DESCRIPTION_REQUEST : Z := 0x0203.
Definition DESCRIPTION_RESPONSE : Z := 0x0204.
Definition CONNECTION_REQUEST : Z := 0x0205.
Definition CONNECTION_RESPONSE : Z := 0x0206.
Definition CONNECTIONSTATE_REQUEST : Z := 0x0207.
Definition CONNECTIONSTATE_RESPONSE : Z := 0x0208.
Definition DISCONNECT_REQUEST : Z := 0x0209.
Definition DISCONNECT_RESPONSE : Z := 0x020A.
Definition DEVICE_CONFIGURATION_REQUEST : Z := 0x0310.
Definition DEVICE_CONFIGURATION_ACK : Z := 0x0311.
Definition TUNNEL_REQUEST : Z := 0x0420.
Definition TUNNEL_RESPONSE : Z := 0x0421.

(** [struct sockaddr_in] of the family [AF_INET]. *)
Record sockaddr_in := mkSockaddr { sin_addr : Z; sin_port : Z }.

#[export] Instance sockaddr_in_eq_dec : EqDecision sockaddr_in.
Proof. solve_decision. Defined.

Definition no_addr : sockaddr_in := mkSockaddr 0 0.

Record EIBNetIPPacket := mkPacket { service : Z; p_data : CArray; src : sockaddr_in }.

Definition EIBNetIPPacket_fromPacket (c : CArray) (from : sockaddr_in)
  : outcome (option EIBNetIPPacket) :=
  if decide (size c < 6)%nat then Ret None
  else
    c0 ← at_ c 0; c1 ← at_ c 1;
    if bool_decide (c0 <> 0x6) || bool_decide (c1 <> 0x10) then Ret None
    else
      c4 ← at_ c 4; c5 ← at_ c 5;
      let len := be16 c4 c5 in
      if decide (len <> Z.of_nat (size c)) then Ret None
      else
        c2 ← at_ c 2; c3 ← at_ c 3;
        d ← slice c 6 (Z.to_nat len - 6);
        Ret (Some (mkPacket (be16 c2 c3) d from)).

Definition EIBNetIPPacket_ToPacket (p : EIBNetIPPacket) : outcome CArray :=
  let n := Z.of_nat (size (p_data p)) in
  c ← put (resize [] (6 + size (p_data p))) 0 0x06;
  c ← put c 1 0x10;
  c ← put c 2 (Z.land (service p ≫ 8) 0xff);
  c ← put c 3 (Z.land (service p) 0xff);
  c ← put c 4 (Z.land ((n + 6) ≫ 8) 0xff);
  c ← put c 5 (Z.land (n + 6) 0xff);
  setpart_all c (p_data p) 6.

(** Host protocol address information. *)
Definition IPtoEIBNetIP (a : sockaddr_in) (nat_ : bool) : outcome CArray :=
  buf ← put (resize [] 8) 0 0x08;
  buf ← put buf 1 0x01;
  if nat_ then
    buf ← put buf 2 0; buf ← put buf 3 0; buf ← put buf 4 0;
    buf ← put buf 5 0; buf ← put buf 6 0; put buf 7 0
  else
    buf ← put buf 2 (Z.land (sin_addr a ≫ 24) 0xff);
    buf ← put buf 3 (Z.land (sin_addr a ≫ 16) 0xff);
    buf ← put buf 4 (Z.land (sin_addr a ≫ 8) 0xff);
    buf ← put buf 5 (Z.land (sin_addr a ≫ 0) 0xff);
    buf ← put buf 6 (Z.land (sin_port a ≫ 8) 0xff);
    put buf 7 (Z.land (sin_port a ≫ 0) 0xff).

(** [None] is the error return; [nat_] is the flag before the call. *)
Definition EIBnettoIP (buf : CArray) (from : sockaddr_in) (nat_ : bool)
  : outcome (option (sockaddr_in * bool)) :=
  b0 ← at_ buf 0; b1 ← at_ buf 1;
  if bool_decide (b0 <> 0x8) || bool_decide (b1 <> 0x1) then Ret None
  else
    b2 ← at_ buf 2; b3 ← at_ buf 3; b4 ← at_ buf 4; b5 ← at_ buf 5;
    b6 ← at_ buf 6; b7 ← at_ buf 7;
    let ip := be32 b2 b3 b4 b5 in
    let port := be16 b6 b7 in
    let prt := if decide (port = 0) then sin_port from else port in
    if decide (ip = 0) then Ret (Some (mkSockaddr (sin_addr from) prt, true))
    else Ret (Some (mkSockaddr ip prt, nat_)).

(** [if (EIBnettoIP (...)) return 1;] *)
Definition with_addr {A} (m : outcome (option (sockaddr_in * bool)))
    (k : sockaddr_in -> bool -> outcome (option A)) : outcome (option A) :=
  r ← m;
  match r with
  | None => Ret None
  | Some (a, n) => k a n
  end.

(** A packet a [ToPacket] builds: its source address is not set. *)
Definition built (s : Z) (d : CArray) : EIBNetIPPacket := mkPacket s d no_addr.

(** ** Connections *)

Record EIBnet_ConnectRequest := mkConnectRequest {
  creq_caddr : sockaddr_in; creq_daddr : sockaddr_in; creq_CRI : CArray; creq_nat : bool }.

Definition ConnectRequest_ToPacket (r : EIBnet_ConnectRequest) : outcome EIBNetIPPacket :=
  ca ← IPtoEIBNetIP (creq_caddr r) (creq_nat r);
  da ← IPtoEIBNetIP (creq_daddr r) (creq_nat r);
  let d := resize [] (size ca + size da + 1 + size (creq_CRI r)) in
  d ← setpart_all d ca 0;
  d ← setpart_all d da (size ca);
  d ← put d (size ca + size da) (Z.of_nat (size (creq_CRI r)) + 1);
  d ← setpart_all d (creq_CRI r) (size ca + size da + 1);
  Ret (built CONNECTION_REQUEST d).

Definition parseEIBnet_ConnectRequest (p : EIBNetIPPacket) : outcome (option EIBnet_ConnectRequest) :=
  if decide (service p <> CONNECTION_REQUEST) then Ret None
  else if decide (size (p_data p) < 18)%nat then Ret None
  else
    c ← slice (p_data p) 0 8;
    with_addr (EIBnettoIP c (src p) false) (fun ca n =>
    d ← slice (p_data p) 8 8;
    with_addr (EIBnettoIP d (src p) n) (fun da n =>
    d16 ← at_ (p_data p) 16;
    if decide (Z.of_nat (size (p_data p) - 16) <> d16) then Ret None
    else
      cri ← slice (p_data p) 17 (size (p_data p) - 17);
      Ret (Some (mkConnectRequest ca da cri n)))).

Record EIBnet_ConnectResponse := mkConnectResponse {
  cresp_channel : Z; cresp_status : Z; cresp_daddr : sockaddr_in; cresp_nat : bool;
  cresp_CRD : CArray }.

Definition ConnectResponse_ToPacket (r : EIBnet_ConnectResponse) : outcome EIBNetIPPacket :=
  da ← IPtoEIBNetIP (cresp_daddr r) (cresp_nat r);
  let d := if decide (cresp_status r <> 0) then resize [] 2
           else resize [] (size da + size (cresp_CRD r) + 3) in
  d ← put d 0 (cresp_channel r);
  d ← put d 1 (cresp_status r);
  d ← (if decide (cresp_status r = 0) then
         d ← setpart_all d da 2;
         d ← put d (size da + 2) (Z.of_nat (size (cresp_CRD r)) + 1);
         setpart_all d (cresp_CRD r) (size da + 3)
       else Ret d);
  Ret (built CONNECTION_RESPONSE d).

Definition parseEIBnet_ConnectResponse (p : EIBNetIPPacket)
  : outcome (option EIBnet_ConnectResponse) :=
  if decide (service p <> CONNECTION_RESPONSE) then Ret None
  else if decide (size (p_data p) < 2)%nat then Ret None
  else
    d0 ← at_ (p_data p) 0; d1 ← at_ (p_data p) 1;
    if decide (d1 <> 0) then
      if decide (size (p_data p) <> 2%nat) then Ret None
      else Ret (Some (mkConnectResponse d0 d1 no_addr false []))
    else if decide (size (p_data p) < 12)%nat then Ret None
    else
      a ← slice (p_data p) 2 8;
      with_addr (EIBnettoIP a (src p) false) (fun da n =>
      d10 ← at_ (p_data p) 10;
      if decide (Z.of_nat (size (p_data p) - 10) <> d10) then Ret None
      else
        crd ← slice (p_data p) 11 (size (p_data p) - 11);
        Ret (Some (mkConnectResponse d0 d1 da n crd))).

Record EIBnet_ConnectionStateRequest := mkConnectionStateRequest {
  csreq_channel : Z; csreq_caddr : sockaddr_in; csreq_nat : bool }.

Definition ConnectionStateRequest_ToPacket (r : EIBnet_ConnectionStateRequest) : outcome EIBNetIPPacket :=
  ca ← IPtoEIBNetIP (csreq_caddr r) (csreq_nat r);
  d ← put (resize [] (size ca + 2)) 0 (csreq_channel r);
  d ← put d 1 0;
  d ← setpart_all d ca 2;
  Ret (built CONNECTIONSTATE_REQUEST d).

Definition parseEIBnet_ConnectionStateRequest (p : EIBNetIPPacket)
  : outcome (option EIBnet_ConnectionStateRequest) :=
  if decide (service p <> CONNECTIONSTATE_REQUEST) then Ret None
  else if decide (size (p_data p) <> 10%nat) then Ret None
  else
    a ← slice (p_data p) 2 8;
    with_addr (EIBnettoIP a (src p) false) (fun ca n =>
    d0 ← at_ (p_data p) 0;
    Ret (Some (mkConnectionStateRequest d0 ca n))).

Record EIBnet_ConnectionStateResponse := mkConnectionStateResponse { csresp_channel : Z; csresp_status : Z }.

Definition ConnectionStateResponse_ToPacket (r : EIBnet_ConnectionStateResponse) : outcome EIBNetIPPacket :=
  d ← put (resize [] 2) 0 (csresp_channel r);
  d ← put d 1 (csresp_status r);
  Ret (built CONNECTIONSTATE_RESPONSE d).

Definition parseEIBnet_ConnectionStateResponse (p : EIBNetIPPacket)
  : outcome (option EIBnet_ConnectionStateResponse) :=
  if decide (service p <> CONNECTIONSTATE_RESPONSE) then Ret None
  else if decide (size (p_data p) <> 2%nat) then Ret None
  else d0 ← at_ (p_data p) 0; d1 ← at_ (p_data p) 1; Ret (Some (mkConnectionStateResponse d0 d1)).

Record EIBnet_DisconnectRequest := mkDisconnectRequest {
  dreq_channel : Z; dreq_caddr : sockaddr_in; dreq_nat : bool }.

Definition DisconnectRequest_ToPacket (r : EIBnet_DisconnectRequest) : outcome EIBNetIPPacket :=
  ca ← IPtoEIBNetIP (dreq_caddr r) (dreq_nat r);
  d ← put (resize [] (size ca + 2)) 0 (dreq_channel r);
  d ← put d 1 0;
  d ← setpart_all d ca 2;
  Ret (built DISCONNECT_REQUEST d).

Definition parseEIBnet_DisconnectRequest (p : EIBNetIPPacket)
  : outcome (option EIBnet_DisconnectRequest) :=
  if decide (service p <> DISCONNECT_REQUEST) then Ret None
  else if decide (size (p_data p) <> 10%nat) then Ret None
  else
    a ← slice (p_data p) 2 8;
    with_addr (EIBnettoIP a (src p) false) (fun ca n =>
    d0 ← at_ (p_data p) 0;
    Ret (Some (mkDisconnectRequest d0 ca n))).

Record EIBnet_DisconnectResponse := mkDisconnectResponse { dresp_channel : Z; dresp_status : Z }.

Definition DisconnectResponse_ToPacket (r : EIBnet_DisconnectResponse) : outcome EIBNetIPPacket :=
  d ← put (resize [] 2) 0 (dresp_channel r);
  d ← put d 1 (dresp_status r);
  Ret (built DISCONNECT_RESPONSE d).

Definition parseEIBnet_DisconnectResponse (p : EIBNetIPPacket)
  : outcome (option EIBnet_DisconnectResponse) :=
  if decide (service p <> DISCONNECT_RESPONSE) then Ret None
  else if decide (size (p_data p) <> 2%nat) then Ret None
  else d0 ← at_ (p_data p) 0; d1 ← at_ (p_data p) 1; Ret (Some (mkDisconnectResponse d0 d1)).

(** ** Tunnels and device management *)

Record EIBnet_TunnelRequest := mkTunnelRequest { treq_channel : Z; treq_seqno : Z; treq_CEMI : CArray }.

Definition TunnelRequest_ToPacket (r : EIBnet_TunnelRequest) : outcome EIBNetIPPacket :=
  d ← put (resize [] (size (treq_CEMI r) + 4)) 0 4;
  d ← put d 1 (treq_channel r);
  d ← put d 2 (treq_seqno r);
  d ← put d 3 0;
  d ← setpart_all d (treq_CEMI r) 4;
  Ret (built TUNNEL_REQUEST d).

Definition parseEIBnet_TunnelRequest (p : EIBNetIPPacket) : outcome (option EIBnet_TunnelRequest) :=
  if decide (service p <> TUNNEL_REQUEST) then Ret None
  else if decide (size (p_data p) < 6)%nat then Ret None
  else
    d0 ← at_ (p_data p) 0;
    if decide (d0 <> 4) then Ret None
    else
      d1 ← at_ (p_data p) 1; d2 ← at_ (p_data p) 2;
      c ← slice (p_data p) 4 (size (p_data p) - 4);
      Ret (Some (mkTunnelRequest d1 d2 c)).

Record EIBnet_TunnelACK := mkTunnelACK { tack_channel : Z; tack_seqno : Z; tack_status : Z }.

Definition TunnelACK_ToPacket (r : EIBnet_TunnelACK) : outcome EIBNetIPPacket :=
  d ← put (resize [] 4) 0 4;
  d ← put d 1 (tack_channel r);
  d ← put d 2 (tack_seqno r);
  d ← put d 3 (tack_status r);
  Ret (built TUNNEL_RESPONSE d).

Definition parseEIBnet_TunnelACK (p : EIBNetIPPacket) : outcome (option EIBnet_TunnelACK) :=
  if decide (service p <> TUNNEL_RESPONSE) then Ret None
  else if decide (size (p_data p) <> 4%nat) then Ret None
  else
    d0 ← at_ (p_data p) 0;
    if decide (d0 <> 4) then Ret None
    else
      d1 ← at_ (p_data p) 1; d2 ← at_ (p_data p) 2; d3 ← at_ (p_data p) 3;
      Ret (Some (mkTunnelACK d1 d2 d3)).

Record EIBnet_ConfigRequest := mkConfigRequest { cfreq_channel : Z; cfreq_seqno : Z; cfreq_CEMI : CArray }.

Definition ConfigRequest_ToPacket (r : EIBnet_ConfigRequest) : outcome EIBNetIPPacket :=
  d ← put (resize [] (size (cfreq_CEMI r) + 4)) 0 4;
  d ← put d 1 (cfreq_channel r);
  d ← put d 2 (cfreq_seqno r);
  d ← put d 3 0;
  d ← setpart_all d (cfreq_CEMI r) 4;
  Ret (built DEVICE_CONFIGURATION_REQUEST d).

Definition parseEIBnet_ConfigRequest (p : EIBNetIPPacket) : outcome (option EIBnet_ConfigRequest) :=
  if decide (service p <> DEVICE_CONFIGURATION_REQUEST) then Ret None
  else if decide (size (p_data p) < 6)%nat then Ret None
  else
    d0 ← at_ (p_data p) 0;
    if decide (d0 <> 4) then Ret None
    else
      d1 ← at_ (p_data p) 1; d2 ← at_ (p_data p) 2;
      c ← slice (p_data p) 4 (size (p_data p) - 4);
      Ret (Some (mkConfigRequest d1 d2 c)).

Record EIBnet_ConfigACK := mkConfigACK { cfack_channel : Z; cfack_seqno : Z; cfack_status : Z }.

Definition ConfigACK_ToPacket (r : EIBnet_ConfigACK) : outcome EIBNetIPPacket :=
  d ← put (resize [] 4) 0 4;
  d ← put d 1 (cfack_channel r);
  d ← put d 2 (cfack_seqno r);
  d ← put d 3 (cfack_status r);
  Ret (built DEVICE_CONFIGURATION_ACK d).

Definition parseEIBnet_ConfigACK (p : EIBNetIPPacket) : outcome (option EIBnet_ConfigACK) :=
  if decide (service p <> DEVICE_CONFIGURATION_ACK) then Ret None
  else if decide (size (p_data p) <> 4%nat) then Ret None
  else
    d0 ← at_ (p_data p) 0;
    if decide (d0 <> 4) then Ret None
    else
      d1 ← at_ (p_data p) 1; d2 ← at_ (p_data p) 2; d3 ← at_ (p_data p) 3;
      Ret (Some (mkConfigACK d1 d2 d3)).

(** ** Discovery *)

Record EIBnet_DescriptionRequest := mkDescriptionRequest { descreq_caddr : sockaddr_in; descreq_nat : bool }.

Definition DescriptionRequest_ToPacket (r : EIBnet_DescriptionRequest) : outcome EIBNetIPPacket :=
  ca ← IPtoEIBNetIP (descreq_caddr r) (descreq_nat r); Ret (built DESCRIPTION_REQUEST ca).

Definition parseEIBnet_DescriptionRequest (p : EIBNetIPPacket) : outcome (option EIBnet_DescriptionRequest) :=
  if decide (service p <> DESCRIPTION_REQUEST) then Ret None
  else if decide (size (p_data p) <> 8%nat) then Ret None
  else with_addr (EIBnettoIP (p_data p) (src p) false) (fun ca n => Ret (Some (mkDescriptionRequest ca n))).

Record EIBnet_SearchRequest := mkSearchRequest { sreq_caddr : sockaddr_in; sreq_nat : bool }.

Definition SearchRequest_ToPacket (r : EIBnet_SearchRequest) : outcome EIBNetIPPacket :=
  ca ← IPtoEIBNetIP (sreq_caddr r) (sreq_nat r); Ret (built SEARCH_REQUEST ca).

Definition parseEIBnet_SearchRequest (p : EIBNetIPPacket) : outcome (option EIBnet_SearchRequest) :=
  if decide (service p <> SEARCH_REQUEST) then Ret None
  else if decide (size (p_data p) <> 8%nat) then Ret None
  else with_addr (EIBnettoIP (p_data p) (src p) false) (fun ca n => Ret (Some (mkSearchRequest ca n))).

Record DIB_service_Entry := mkService { family : Z; version : Z }.

(** The device information block: what a description and a search response have
    in common.  [multicastaddr] is the four bytes of the [struct in_addr]. *)
Record EIBnet_Device := mkDevice {
  KNXmedium : Z;
  devicestatus : Z;
  individual_addr : Z;
  installid : Z;
  serial : CArray;
  multicastaddr : CArray;
  MAC : CArray;
  dev_name : CArray;
  services : list DIB_service_Entry
}.

Record EIBnet_DescriptionResponse := mkDescriptionResponse {
  desc_device : EIBnet_Device; desc_optional : CArray }.

Record EIBnet_SearchResponse := mkSearchResponse {
  sr_caddr : sockaddr_in; sr_nat : bool; sr_device : EIBnet_Device }.

(** [for (i = 0; i < services.size(); i++)], from position [at0] on. *)
Fixpoint put_services (d : CArray) (at0 : nat) (ss : list DIB_service_Entry) : outcome CArray :=
  match ss with
  | [] => Ret d
  | s :: ss =>
      d ← put d at0 (family s);
      d ← put d (at0 + 1) (version s);
      put_services d (at0 + 2) ss
  end.

(** The statements that fill in the two blocks behind [o] bytes. *)
Definition put_device (d : CArray) (o : nat) (v : EIBnet_Device) : outcome CArray :=
  d ← put d o 54;
  d ← put d (o + 1) 1;
  d ← put d (o + 2) (KNXmedium v);
  d ← put d (o + 3) (devicestatus v);
  d ← put d (o + 4) (Z.land (individual_addr v ≫ 8) 0xff);
  d ← put d (o + 5) (Z.land (individual_addr v) 0xff);
  d ← put d (o + 6) (Z.land (installid v ≫ 8) 0xff);
  d ← put d (o + 7) (Z.land (installid v) 0xff);
  d ← setpart d (serial v) (o + 8) 6;
  d ← setpart d (multicastaddr v) (o + 14) 4;
  d ← setpart d (MAC v) (o + 18) 6;
  d ← setpart d (dev_name v) (o + 24) 30;
  d ← put d (o + 53) 0;
  d ← put d (o + 54) (Z.of_nat (length (services v)) * 2 + 2);
  d ← put d (o + 55) 2;
  put_services d (o + 56) (services v).

Definition DescriptionResponse_ToPacket (r : EIBnet_DescriptionResponse) : outcome EIBNetIPPacket :=
  let v := desc_device r in
  d ← put_device (resize [] (56 + length (services v) * 2)) 0 v;
  d ← setpart_all d (desc_optional r) (56 + length (services v) * 2);
  Ret (built DESCRIPTION_RESPONSE d).

Definition SearchResponse_ToPacket (r : EIBnet_SearchResponse) : outcome EIBNetIPPacket :=
  let v := sr_device r in
  ca ← IPtoEIBNetIP (sr_caddr r) (sr_nat r);
  d ← setpart_all (resize [] (64 + length (services v) * 2)) ca 0;
  d ← put_device d 8 v;
  Ret (built SEARCH_RESPONSE d).

(** [services.resize (n)] for a signed [n]: a negative count is a huge one. *)
Definition services_count (len : Z) : outcome nat :=
  let n := len / 2 - 1 in
  if decide (0 <= n) then Ret (Z.to_nat n) else Fault LengthError.

Fixpoint get_services (d : CArray) (at0 : nat) (n : nat) : outcome (list DIB_service_Entry) :=
  match n with
  | O => Ret []
  | S n =>
      f ← at_ d at0; v ← at_ d (at0 + 1);
      rest ← get_services d (at0 + 2) n;
      Ret (mkService f v :: rest)
  end.

(** The checks and reads of the two parsers behind [o] bytes: the device and the
    length of the second block. *)
Definition get_device (d : CArray) (o : nat) : outcome (option (EIBnet_Device * nat)) :=
  d0 ← at_ d o;
  if decide (d0 <> 54) then Ret None
  else
    d1 ← at_ d (o + 1);
    if decide (d1 <> 1) then Ret None
    else
      medium ← at_ d (o + 2); status ← at_ d (o + 3);
      d4 ← at_ d (o + 4); d5 ← at_ d (o + 5); d6 ← at_ d (o + 6); d7 ← at_ d (o + 7);
      ser ← slice d (o + 8) 6;
      mc ← slice d (o + 14) 4;
      mac ← slice d (o + 18) 6;
      nm ← slice d (o + 24) 30;
      nm ← put nm 29 0;
      d55 ← at_ d (o + 55);
      if decide (d55 <> 2) then Ret None
      else
        len ← at_ d (o + 54);
        if decide (len mod 2 <> 0) then Ret None
        else if decide (Z.of_nat (size d) < len + Z.of_nat (o + 54)) then Ret None
        else
          n ← services_count len;
          ss ← get_services d (o + 56) n;
          Ret (Some (mkDevice medium status (u16 (be16 d4 d5)) (u16 (be16 d6 d7)) ser mc mac nm ss,
                     Z.to_nat len)).

Definition parseEIBnet_DescriptionResponse (p : EIBNetIPPacket)
  : outcome (option EIBnet_DescriptionResponse) :=
  if decide (service p <> DESCRIPTION_RESPONSE) then Ret None
  else if decide (size (p_data p) < 56)%nat then Ret None
  else
    r ← get_device (p_data p) 0;
    match r with
    | None => Ret None
    | Some (v, len) =>
        o ← slice (p_data p) (len + 54) (size (p_data p) - len - 54);
        Ret (Some (mkDescriptionResponse v o))
    end.

Definition parseEIBnet_SearchResponse (p : EIBNetIPPacket)
  : outcome (option EIBnet_SearchResponse) :=
  if decide (service p <> SEARCH_RESPONSE) then Ret None
  else if decide (size (p_data p) < 64)%nat then Ret None
  else
    a ← slice (p_data p) 0 8;
    with_addr (EIBnettoIP a (src p) false) (fun ca n =>
    r ← get_device (p_data p) 8;
    match r with
    | None => Ret None
    | Some (v, _) => Ret (Some (mkSearchResponse ca n v))
    end).
