(* ===== verification/EibNetIpSpec.v ===== *)
(** * EIBnet/IP packets: theorems

    Memory safety of all parsers, round trips of all services, the length byte
    that makes two of the parsers throw, and that a tunnelled frame from the
    network can always be sent on. *)

From S2P Require Import Prelude CArray Common Apdu ApduSpec ApduRound Lpdu LpduSpec Emi EibNetIp.

(** ** The header *)

Definition packet_wf (p : EIBNetIPPacket) : Prop :=
  is_u16 (service p) /\ bytes (p_data p) /\ Z.of_nat (size (p_data p)) <= 65529.

Definition packet_bytes (p : EIBNetIPPacket) : CArray :=
  let n := Z.of_nat (size (p_data p)) + 6 in
  [0x06; 0x10; u8 (service p ≫ 8); u8 (service p); u8 (n ≫ 8); u8 n] ++ p_data p.

Lemma ToPacket_eq p : EIBNetIPPacket_ToPacket p = Ret (packet_bytes p).
Proof.
  unfold EIBNetIPPacket_ToPacket, packet_bytes, setpart_all. rewrite resize_nil.
  cbn [replicate Nat.add put mbind outcome_bind]. do 6 rewrite setpart_cons.
  rewrite setpart_exact by done. cbn [mbind outcome_bind app]. by rewrite !land_ff, !u8_u8.
Qed.

Lemma be16_split z : is_u16 z -> be16 (u8 (z ≫ 8)) (u8 z) = z.
Proof. intros Hz. unfold be16. rewrite be16_join. by apply u16_small. Qed.

Lemma fromPacket_back p from :
  packet_wf p -> EIBNetIPPacket_fromPacket (packet_bytes p) from
                 = Ret (Some (mkPacket (service p) (p_data p) from)).
Proof.
  intros (Hs & Hb & Hn). unfold EIBNetIPPacket_fromPacket.
  assert (size (packet_bytes p) = (6 + size (p_data p))%nat) as Hsz by done.
  assert (slice (packet_bytes p) 6 (size (p_data p)) = Ret (p_data p)) as Hsl.
  { unfold packet_bytes. cbn [app]. do 6 rewrite slice_cons. by apply slice_all. }
  rewrite Hsz, decide_False by lia. unfold packet_bytes in *.
  cbn [at_ app lookup list_lookup mbind outcome_bind] in *.
  rewrite (be16_split (service p)) by done. rewrite be16_split by (unfold is_u16; lia). cbv zeta.
  change (bool_decide (6 <> 0x6) || bool_decide (0x10 <> 0x10)) with false. cbv iota.
  rewrite decide_False by lia. replace (Z.to_nat _ - 6)%nat with (size (p_data p)) by lia.
  by rewrite Hsl.
Qed.

(** The packet header round trip: every packet of at most 65535 bytes in all
    is parsed back from its encoding with its service code and its body. *)
Theorem packet_roundtrip p from :
  packet_wf p ->
  (c ← EIBNetIPPacket_ToPacket p; EIBNetIPPacket_fromPacket c from)
  = Ret (Some (mkPacket (service p) (p_data p) from)).
Proof. intros Hp. rewrite ToPacket_eq, bind_Ret. by apply fromPacket_back. Qed.

Lemma packet_roundtrip_witness :
  (c ← EIBNetIPPacket_ToPacket (built 0x0420 [4; 1; 0; 0; 0x11; 0]);
   EIBNetIPPacket_fromPacket c (mkSockaddr 0x7F000001 3671))
  = Ret (Some (mkPacket 0x0420 [4; 1; 0; 0; 0x11; 0] (mkSockaddr 0x7F000001 3671))).
Proof.
  apply (packet_roundtrip (built 0x0420 [4; 1; 0; 0; 0x11; 0])).
  split_and!; simpl; decided || lia.
Defined.

(** A packet that is accepted is the datagram without its header. *)
Lemma fromPacket_inv c from p :
  bytes c -> EIBNetIPPacket_fromPacket c from = Ret (Some p) ->
  packet_wf p /\ (size c = 6 + size (p_data p))%nat /\ p_data p = drop 6 c /\ src p = from.
Proof.
  intros Hc. unfold EIBNetIPPacket_fromPacket. destruct (decide _) as [|Hs]; [done|].
  peel c 6%nat. cbn [at_ lookup list_lookup]. rewrite !bind_Ret.
  repeat match goal with Hb : bytes (_ :: _) |- _ => apply bytes_cons in Hb as [? Hb] end.
  destruct (_ || _); [done|]. cbv zeta. destruct (decide _) as [|E]; [done|]. apply dec_stable in E.
  rewrite ?bind_Ret. intros (d & Hd & [= <-])%bind_Ret_inv.
  do 6 rewrite slice_cons in Hd. unfold size in E, Hd. simpl in E, Hd.
  rewrite E, slice_all in Hd by (unfold size; lia). simplify_eq.
  assert (is_u16 (be16 b3 b4)) as Hl by (by apply be16_bound).
  unfold packet_wf. split_and!; simpl; [by apply be16_bound|done| |done|done|done].
  unfold is_u16 in Hl. unfold size. lia.
Qed.

(** ** Host protocol address information *)

Definition addr_wf (a : sockaddr_in) : Prop := is_u32 (sin_addr a) /\ is_u16 (sin_port a).

#[export] Instance addr_wf_dec a : Decision (addr_wf a).
Proof. unfold addr_wf; apply _. Defined.

Definition hpai (a : sockaddr_in) (nat_ : bool) : CArray :=
  let a := if nat_ then no_addr else a in
  [0x08; 0x01; u8 (sin_addr a ≫ 24); u8 (sin_addr a ≫ 16); u8 (sin_addr a ≫ 8);
   u8 (sin_addr a); u8 (sin_port a ≫ 8); u8 (sin_port a)].

(** What the receiver makes of an address that was sent as [a] with the flag
    [nat_] from the socket [from]: an absent address or port is that of the
    sender, and an absent address sets the flag. *)
Definition resolved (a : sockaddr_in) (nat_ : bool) (from : sockaddr_in) (flag : bool)
  : sockaddr_in * bool :=
  let a := if nat_ then no_addr else a in
  (mkSockaddr (if decide (sin_addr a = 0) then sin_addr from else sin_addr a)
              (if decide (sin_port a = 0) then sin_port from else sin_port a),
   if decide (sin_addr a = 0) then true else flag).

Lemma IPtoEIBNetIP_eq a n : IPtoEIBNetIP a n = Ret (hpai a n).
Proof.
  unfold IPtoEIBNetIP, hpai. rewrite resize_nil.
  destruct n; cbn [replicate put mbind outcome_bind]; [done|].
  by rewrite !Z.shiftr_0_r, !land_ff, !u8_u8.
Qed.

Lemma be32_split z : is_u32 z -> be32 (u8 (z ≫ 24)) (u8 (z ≫ 16)) (u8 (z ≫ 8)) (u8 z) = z.
Proof. intros Hz. unfold be32. rewrite be32_join. by apply u32_small. Qed.

Lemma EIBnettoIP_hpai a n from flag :
  addr_wf a -> EIBnettoIP (hpai a n) from flag = Ret (Some (resolved a n from flag)).
Proof.
  intros Ha. unfold EIBnettoIP, hpai, resolved.
  cbn [at_ lookup list_lookup mbind outcome_bind].
  assert (addr_wf (if n then no_addr else a)) as [Hi Hp].
  { destruct n; [|done]. split; unfold is_u32, is_u16; simpl; lia. }
  rewrite (be32_split (sin_addr _)), (be16_split (sin_port _)) by done.
  change (bool_decide (8 <> 8) || bool_decide (1 <> 1)) with false. cbv iota zeta.
  by destruct (decide (sin_addr _ = 0)).
Qed.

(** Reading an address block never leaves its eight bytes. *)
Lemma EIBnettoIP_total buf from flag :
  size buf = 8%nat -> returns (EIBnettoIP buf from flag).
Proof.
  intros Hs. peel buf 8%nat. unfold EIBnettoIP. cbn [at_ lookup list_lookup mbind outcome_bind].
  destruct (_ || _); [by eexists|]. cbv zeta. destruct (decide _); by eexists.
Qed.

(** The address block round trip: an IP address and port written by
    [IPtoEIBNetIP] are read back by [EIBnettoIP]; an address or port of zero, and
    every address under the NAT flag, is replaced by that of the sender. *)
Theorem address_roundtrip a n from flag :
  addr_wf a ->
  (c ← IPtoEIBNetIP a n; EIBnettoIP c from flag) = Ret (Some (resolved a n from flag)).
Proof. intros Ha. rewrite IPtoEIBNetIP_eq, bind_Ret. by apply EIBnettoIP_hpai. Qed.

Lemma address_roundtrip_witness :
  (c ← IPtoEIBNetIP (mkSockaddr 0xC0A80102 3671) false;
   EIBnettoIP c (mkSockaddr 0x0A000001 4000) false)
  = Ret (Some (mkSockaddr 0xC0A80102 3671, false)).
Proof.
  apply (address_roundtrip (mkSockaddr 0xC0A80102 3671) false (mkSockaddr 0x0A000001 4000) false).
  decided.
Defined.

(** ** All services *)

Inductive EIBnet_service :=
| SConnectRequest (r : EIBnet_ConnectRequest)
| SConnectResponse (r : EIBnet_ConnectResponse)
| SConnectionStateRequest (r : EIBnet_ConnectionStateRequest)
| SConnectionStateResponse (r : EIBnet_ConnectionStateResponse)
| SDisconnectRequest (r : EIBnet_DisconnectRequest)
| SDisconnectResponse (r : EIBnet_DisconnectResponse)
| STunnelRequest (r : EIBnet_TunnelRequest)
| STunnelACK (r : EIBnet_TunnelACK)
| SConfigRequest (r : EIBnet_ConfigRequest)
| SConfigACK (r : EIBnet_ConfigACK)
| SDescriptionRequest (r : EIBnet_DescriptionRequest)
| SSearchRequest (r : EIBnet_SearchRequest)
| SDescriptionResponse (r : EIBnet_DescriptionResponse)
| SSearchResponse (r : EIBnet_SearchResponse).

Definition service_ToPacket (b : EIBnet_service) : outcome EIBNetIPPacket :=
  match b with
  | SConnectRequest r => ConnectRequest_ToPacket r
  | SConnectResponse r => ConnectResponse_ToPacket r
  | SConnectionStateRequest r => ConnectionStateRequest_ToPacket r
  | SConnectionStateResponse r => ConnectionStateResponse_ToPacket r
  | SDisconnectRequest r => DisconnectRequest_ToPacket r
  | SDisconnectResponse r => DisconnectResponse_ToPacket r
  | STunnelRequest r => TunnelRequest_ToPacket r
  | STunnelACK r => TunnelACK_ToPacket r
  | SConfigRequest r => ConfigRequest_ToPacket r
  | SConfigACK r => ConfigACK_ToPacket r
  | SDescriptionRequest r => DescriptionRequest_ToPacket r
  | SSearchRequest r => SearchRequest_ToPacket r
  | SDescriptionResponse r => DescriptionResponse_ToPacket r
  | SSearchResponse r => SearchResponse_ToPacket r
  end.

Definition as_service {A} (inj : A -> EIBnet_service) (m : outcome (option A))
  : outcome (option EIBnet_service) := r ← m; Ret (option_map inj r).

(** The parsers by service code, and the one that a packet is given to. *)
Definition parsers (p : EIBNetIPPacket) : list (Z * outcome (option EIBnet_service)) :=
  [ (CONNECTION_REQUEST, as_service SConnectRequest (parseEIBnet_ConnectRequest p));
    (CONNECTION_RESPONSE, as_service SConnectResponse (parseEIBnet_ConnectResponse p));
    (CONNECTIONSTATE_REQUEST,
      as_service SConnectionStateRequest (parseEIBnet_ConnectionStateRequest p));
    (CONNECTIONSTATE_RESPONSE,
      as_service SConnectionStateResponse (parseEIBnet_ConnectionStateResponse p));
    (DISCONNECT_REQUEST, as_service SDisconnectRequest (parseEIBnet_DisconnectRequest p));
    (DISCONNECT_RESPONSE, as_service SDisconnectResponse (parseEIBnet_DisconnectResponse p));
    (TUNNEL_REQUEST, as_service STunnelRequest (parseEIBnet_TunnelRequest p));
    (TUNNEL_RESPONSE, as_service STunnelACK (parseEIBnet_TunnelACK p));
    (DEVICE_CONFIGURATION_REQUEST, as_service SConfigRequest (parseEIBnet_ConfigRequest p));
    (DEVICE_CONFIGURATION_ACK, as_service SConfigACK (parseEIBnet_ConfigACK p));
    (DESCRIPTION_REQUEST, as_service SDescriptionRequest (parseEIBnet_DescriptionRequest p));
    (SEARCH_REQUEST, as_service SSearchRequest (parseEIBnet_SearchRequest p));
    (DESCRIPTION_RESPONSE, as_service SDescriptionResponse (parseEIBnet_DescriptionResponse p));
    (SEARCH_RESPONSE, as_service SSearchResponse (parseEIBnet_SearchResponse p)) ].

Fixpoint pick (s : Z) (ps : list (Z * outcome (option EIBnet_service)))
  : outcome (option EIBnet_service) :=
  match ps with
  | [] => Ret None
  | (t, r) :: ps => if decide (s = t) then r else pick s ps
  end.

Definition parse_service (p : EIBNetIPPacket) : outcome (option EIBnet_service) :=
  pick (service p) (parsers p).

(** ** Parsing is total, but for one length byte *)

Lemma as_service_returns {A} inj (m : outcome (option A)) :
  returns m -> returns (as_service inj m).
Proof. intros [a ->]. by eexists. Qed.

Lemma with_addr_returns {A} m (k : sockaddr_in -> bool -> outcome (option A)) :
  returns m -> (forall a n, returns (k a n)) -> returns (with_addr m k).
Proof. intros [[[a n]|] ->] Hk; simpl; [apply Hk | by eexists]. Qed.

Lemma slice_returns {A} c off n (k : CArray -> outcome A) :
  (off + n <= size c)%nat ->
  (forall d, size d = n -> returns (k d)) -> returns (slice c off n ≫= k).
Proof.
  intros Hs Hk. rewrite slice_ok by done. apply Hk.
  unfold size in *. rewrite length_take, length_drop. lia.
Qed.

Lemma at_returns {A} c i (k : Z -> outcome A) :
  (i < size c)%nat -> (forall b, c !! i = Some b -> returns (k b)) -> returns (at_ c i ≫= k).
Proof. intros Hi Hk. destruct (at_lt c i Hi) as (b & -> & Hb). by apply Hk. Qed.

(** One statement of a parser at a time. *)
Ltac parse_step :=
  match goal with
  | |- returns (Ret _) => by eexists
  | |- returns (as_service _ _) => apply as_service_returns
  | |- returns (with_addr _ _) => apply with_addr_returns; [|intros]
  | |- returns (EIBnettoIP _ _ _) => apply EIBnettoIP_total; (assumption || lia)
  | |- returns (slice _ _ _ ≫= _) => apply slice_returns; [lia|intros]
  | |- returns (at_ _ _ ≫= _) => apply at_returns; [lia|intros]
  | |- returns (if decide ?P then _ else _) => destruct (decide P)
  | |- returns (if ?b then _ else _) => destruct b
  end.

(** The datagrams on which the count of services is computed from a length byte
    of zero: [services.resize (0 / 2 - 1)]. *)
Definition zero_block (d : CArray) (o : nat) : Prop :=
  (o + 56 <= size d)%nat /\ d !! o = Some 54 /\ d !! (o + 1)%nat = Some 1 /\
  d !! (o + 54)%nat = Some 0 /\ d !! (o + 55)%nat = Some 2.

#[export] Instance zero_block_dec d o : Decision (zero_block d o).
Proof. unfold zero_block; apply _. Defined.

Definition throws (p : EIBNetIPPacket) : Prop :=
  (service p = DESCRIPTION_RESPONSE /\ zero_block (p_data p) 0) \/
  (service p = SEARCH_RESPONSE /\ zero_block (p_data p) 8 /\
   p_data p !! 0%nat = Some 0x08 /\ p_data p !! 1%nat = Some 0x01).

#[export] Instance throws_dec p : Decision (throws p).
Proof. unfold throws; apply _. Defined.

Lemma get_services_returns d o n :
  (o + 2 * n <= size d)%nat -> returns (get_services d o n).
Proof.
  revert o. induction n as [|n IH]; intros o Hs; [by eexists|]. cbn [get_services].
  apply at_returns; [lia|intros f _]. apply at_returns; [lia|intros v _].
  destruct (IH (o + 2)%nat) as [r ->]; [lia|]. by eexists.
Qed.

Lemma services_count_pos len :
  is_u8 len -> len <> 0 -> len mod 2 = 0 ->
  services_count len = Ret (Z.to_nat (len / 2 - 1)).
Proof.
  intros [] ? ?. unfold services_count. cbv zeta. rewrite decide_True; [done|].
  pose proof (Z.div_mod len 2). lia.
Qed.

(** The block that throws, and that every other is parsed or refused. *)
Lemma get_device_zero d o : zero_block d o -> get_device d o = Fault LengthError.
Proof.
  intros (Hs & H0 & H1 & H54 & H55). unfold get_device, at_.
  rewrite H0, bind_Ret, decide_False by (by intros []).
  rewrite H1, bind_Ret, decide_False by (by intros []).
  do 6 (match goal with |- (match d !! ?i with _ => _ end ≫= _) = _ =>
    let b := fresh "b" in destruct (at_lt d i) as (b & _ & ->); [lia|] end; rewrite bind_Ret).
  rewrite !slice_ok by lia. rewrite !bind_Ret.
  rewrite put_insert by (unfold size in *; rewrite length_take, length_drop; lia).
  rewrite bind_Ret, H55, bind_Ret, decide_False by (by intros []).
  rewrite H54, bind_Ret, decide_False by (by intros []). by rewrite decide_False by lia.
Qed.

Definition device_size (o : nat) (d : CArray) (r : option (EIBnet_Device * nat)) : Prop :=
  match r with Some (_, len) => (len + (o + 54) <= size d)%nat | None => True end.

Lemma get_device_returns d o :
  bytes d -> (o + 56 <= size d)%nat -> ~ zero_block d o ->
  returns_with (device_size o d) (get_device d o).
Proof.
  intros Hb Hs Hz. unfold get_device.
  destruct (at_lt d o ltac:(lia)) as (b0 & -> & H0). rewrite bind_Ret.
  destruct (decide (b0 <> 54)) as [|E0]; [by eexists|]. apply dec_stable in E0 as ->.
  destruct (at_lt d (o + 1) ltac:(lia)) as (b1 & -> & H1). rewrite bind_Ret.
  destruct (decide (b1 <> 1)) as [|E1]; [by eexists|]. apply dec_stable in E1 as ->.
  do 6 (match goal with |- returns_with _ (at_ d ?i ≫= _) =>
    let b := fresh "b" in destruct (at_lt d i) as (b & -> & _); [lia|] end; rewrite bind_Ret).
  rewrite !slice_ok by lia. rewrite !bind_Ret.
  rewrite put_insert by (unfold size in *; rewrite length_take, length_drop; lia).
  rewrite bind_Ret. destruct (at_lt d (o + 55) ltac:(lia)) as (b55 & -> & H55). rewrite bind_Ret.
  destruct (decide (b55 <> 2)) as [|E2]; [by eexists|]. apply dec_stable in E2 as ->.
  destruct (at_lt d (o + 54) ltac:(lia)) as (len & -> & H54). rewrite bind_Ret.
  destruct (decide (len mod 2 <> 0)) as [|Em]; [by eexists|]. apply dec_stable in Em.
  destruct (decide (_ < _)) as [|El]; [by eexists|].
  assert (is_u8 len) as Hl by (by eapply bytes_lookup).
  assert (len <> 0) by (intros ->; by apply Hz).
  rewrite services_count_pos, bind_Ret by done. unfold is_u8 in Hl.
  destruct (get_services_returns d (o + 56) (Z.to_nat (len / 2 - 1))) as [ss ->];
    [pose proof (Z.div_mod len 2); lia|].
  rewrite bind_Ret. apply returns_with_Ret. simpl. lia.
Qed.

(** A packet that does not throw is parsed or refused. *)
Lemma DescriptionResponse_returns p :
  bytes (p_data p) -> ~ throws p -> returns (parseEIBnet_DescriptionResponse p).
Proof.
  intros Hb Ht. unfold parseEIBnet_DescriptionResponse.
  destruct (decide _) as [|E]; [by eexists|]. apply dec_stable in E.
  destruct (decide _) as [|Hs]; [by eexists|].
  destruct (get_device_returns (p_data p) 0) as ([[v len]|] & -> & Hd); [done|lia| | |by eexists].
  - intros Hz. apply Ht. by left.
  - rewrite bind_Ret. simpl in Hd. apply slice_returns; [lia|intros]. by eexists.
Qed.

Lemma EIBnettoIP_some buf from flag r :
  EIBnettoIP buf from flag = Ret (Some r) ->
  buf !! 0%nat = Some 0x08 /\ buf !! 1%nat = Some 0x01.
Proof.
  unfold EIBnettoIP, at_. destruct (buf !! 0%nat) as [b0|]; [|done].
  destruct (buf !! 1%nat) as [b1|]; [|done]. rewrite !bind_Ret.
  destruct (bool_decide_reflect (b0 <> 8)) as [|E0]; [done|].
  destruct (bool_decide_reflect (b1 <> 1)) as [|E1]; [done|].
  by apply dec_stable in E0 as ->, E1 as ->.
Qed.

Lemma SearchResponse_returns p :
  bytes (p_data p) -> ~ throws p -> returns (parseEIBnet_SearchResponse p).
Proof.
  intros Hb Ht. unfold parseEIBnet_SearchResponse.
  destruct (decide _) as [|E]; [by eexists|]. apply dec_stable in E.
  destruct (decide _) as [|Hs]; [by eexists|]. rewrite slice_ok, bind_Ret by lia.
  destruct (EIBnettoIP_total (take 8 (drop 0 (p_data p))) (src p) false) as [[[a n]|] Ha];
    [unfold size in *; rewrite length_take, length_drop; lia| |rewrite Ha; by eexists].
  rewrite Ha. simpl. apply EIBnettoIP_some in Ha as [H0 H1].
  rewrite lookup_take_lt, drop_0 in H0, H1 by lia.
  destruct (get_device_returns (p_data p) 8) as ([[v len]|] & -> & _);
    [done|lia| |by eexists|by eexists].
  intros Hz. apply Ht. by right.
Qed.


Lemma DescriptionResponse_zero p :
  service p = DESCRIPTION_RESPONSE -> zero_block (p_data p) 0 ->
  parseEIBnet_DescriptionResponse p = Fault LengthError.
Proof.
  intros E Hz. unfold parseEIBnet_DescriptionResponse. pose proof Hz as [Hs _].
  rewrite decide_False by (by intros []). rewrite decide_False by lia.
  by rewrite get_device_zero.
Qed.

Lemma SearchResponse_zero p :
  service p = SEARCH_RESPONSE -> zero_block (p_data p) 8 ->
  p_data p !! 0%nat = Some 0x08 -> p_data p !! 1%nat = Some 0x01 ->
  parseEIBnet_SearchResponse p = Fault LengthError.
Proof.
  intros E Hz H0 H1. unfold parseEIBnet_SearchResponse. pose proof Hz as [Hs _].
  rewrite decide_False by (by intros []). rewrite decide_False by lia.
  rewrite slice_ok, bind_Ret by lia.
  assert (exists r, EIBnettoIP (take 8 (drop 0 (p_data p))) (src p) false = Ret (Some r)) as [[a n] ->].
  { destruct (p_data p) as [|x0 d]; [done|]. destruct d as [|x1 d]; [done|]. simplify_eq/=.
    unfold size in Hs. simpl in Hs. do 6 (destruct d as [|? d]; [simpl in Hs; lia|]).
    unfold EIBnettoIP. cbn [drop take at_ lookup list_lookup mbind outcome_bind].
    change (bool_decide (8 <> 8) || bool_decide (1 <> 1)) with false. cbv iota zeta.
    destruct (decide _); by eexists. }
  simpl. by rewrite get_device_zero.
Qed.

Create HintDb eibnet.
#[export] Hint Unfold parseEIBnet_ConnectRequest parseEIBnet_ConnectResponse
  parseEIBnet_ConnectionStateRequest parseEIBnet_ConnectionStateResponse
  parseEIBnet_DisconnectRequest parseEIBnet_DisconnectResponse
  parseEIBnet_TunnelRequest parseEIBnet_TunnelACK parseEIBnet_ConfigRequest
  parseEIBnet_ConfigACK parseEIBnet_DescriptionRequest parseEIBnet_SearchRequest : eibnet.

Lemma parse_service_returns p : bytes (p_data p) -> ~ throws p -> returns (parse_service p).
Proof.
  intros Hb Ht. unfold parse_service, parsers. cbn [pick].
  repeat (destruct (decide (service p = _)) as [_|_];
    [apply as_service_returns;
     first [ by apply DescriptionResponse_returns | by apply SearchResponse_returns
           | autounfold with eibnet; repeat parse_step ]|]).
  by eexists.
Qed.

(** No datagram makes a parser of the EIBnet/IP services read outside it, and
    every parser returns, with one exception that is exactly characterised:
    a description or search response whose service block gives its length as
    zero, on which the number of services is [0 / 2 - 1] and [resize] throws. *)
Theorem parse_service_faults_iff p f :
  bytes (p_data p) -> parse_service p = Fault f <-> f = LengthError /\ throws p.
Proof.
  intros Hb. split.
  - intros Hf. destruct (decide (throws p)) as [Ht|Ht].
    2: { destruct (parse_service_returns p Hb Ht) as [r Hr]. congruence. }
    split; [|done]. destruct Ht as [[E Hz]|(E & Hz & H0 & H1)];
      unfold parse_service, parsers in Hf; rewrite E in Hf; simpl in Hf.
    + rewrite DescriptionResponse_zero in Hf by done. by injection Hf.
    + rewrite SearchResponse_zero in Hf by done. by injection Hf.
  - intros [-> [[E Hz]|(E & Hz & H0 & H1)]]; unfold parse_service, parsers; rewrite E; simpl.
    + by rewrite DescriptionResponse_zero.
    + by rewrite SearchResponse_zero.
Qed.

Definition zero_length_description : EIBNetIPPacket :=
  built DESCRIPTION_RESPONSE ([54; 1] ++ replicate 52 0 ++ [0; 2]).

Lemma parse_service_faults_iff_witness :
  parse_service zero_length_description = Fault LengthError.
Proof. apply parse_service_faults_iff; [decided|]. split; [done|]. left. split; [done|]. decided. Defined.

(** ** What is written is read *)

Definition device_wf (v : EIBnet_Device) : Prop :=
  is_u8 (KNXmedium v) /\ is_u8 (devicestatus v) /\ is_u16 (individual_addr v) /\
  is_u16 (installid v) /\ bytes (serial v) /\ size (serial v) = 6%nat /\
  bytes (multicastaddr v) /\ size (multicastaddr v) = 4%nat /\
  bytes (MAC v) /\ size (MAC v) = 6%nat /\
  bytes (dev_name v) /\ size (dev_name v) = 30%nat /\ dev_name v !! 29%nat = Some 0 /\
  Forall (fun s => is_u8 (family s) /\ is_u8 (version s)) (services v) /\
  (length (services v) <= 126)%nat.

Definition service_wf (b : EIBnet_service) : Prop :=
  match b with
  | SConnectRequest r =>
      addr_wf (creq_caddr r) /\ addr_wf (creq_daddr r) /\ bytes (creq_CRI r) /\
      (size (creq_CRI r) <= 254)%nat
  | SConnectResponse r =>
      is_u8 (cresp_channel r) /\ is_u8 (cresp_status r) /\ addr_wf (cresp_daddr r) /\
      bytes (cresp_CRD r) /\ (size (cresp_CRD r) <= 254)%nat
  | SConnectionStateRequest r => is_u8 (csreq_channel r) /\ addr_wf (csreq_caddr r)
  | SConnectionStateResponse r => is_u8 (csresp_channel r) /\ is_u8 (csresp_status r)
  | SDisconnectRequest r => is_u8 (dreq_channel r) /\ addr_wf (dreq_caddr r)
  | SDisconnectResponse r => is_u8 (dresp_channel r) /\ is_u8 (dresp_status r)
  | STunnelRequest r =>
      is_u8 (treq_channel r) /\ is_u8 (treq_seqno r) /\ bytes (treq_CEMI r) /\
      Z.of_nat (size (treq_CEMI r)) <= 65525
  | STunnelACK r => is_u8 (tack_channel r) /\ is_u8 (tack_seqno r) /\ is_u8 (tack_status r)
  | SConfigRequest r =>
      is_u8 (cfreq_channel r) /\ is_u8 (cfreq_seqno r) /\ bytes (cfreq_CEMI r) /\
      Z.of_nat (size (cfreq_CEMI r)) <= 65525
  | SConfigACK r => is_u8 (cfack_channel r) /\ is_u8 (cfack_seqno r) /\ is_u8 (cfack_status r)
  | SDescriptionRequest r => addr_wf (descreq_caddr r)
  | SSearchRequest r => addr_wf (sreq_caddr r)
  | SDescriptionResponse r =>
      device_wf (desc_device r) /\ bytes (desc_optional r) /\
      Z.of_nat (size (desc_optional r)) <= 65000
  | SSearchResponse r => addr_wf (sr_caddr r) /\ device_wf (sr_device r)
  end.

(** The services whose parser accepts what their [ToPacket] writes: a connect
    request needs connection data, and so does the response that accepts it; a
    frame in a request has at least two bytes. *)
Definition readable (b : EIBnet_service) : Prop :=
  match b with
  | SConnectRequest r => (1 <= size (creq_CRI r))%nat
  | SConnectResponse r => cresp_status r = 0 -> (1 <= size (cresp_CRD r))%nat
  | STunnelRequest r => (2 <= size (treq_CEMI r))%nat
  | SConfigRequest r => (2 <= size (cfreq_CEMI r))%nat
  | _ => True
  end.

#[export] Instance readable_dec b : Decision (readable b).
Proof. destruct b; unfold readable; apply _. Defined.

(** The service as the receiver sees it: addresses are resolved, and a refused
    connection has neither address nor data. *)
Definition arrived (from : sockaddr_in) (b : EIBnet_service) : EIBnet_service :=
  match b with
  | SConnectRequest r =>
      let '(ca, n) := resolved (creq_caddr r) (creq_nat r) from false in
      let '(da, n) := resolved (creq_daddr r) (creq_nat r) from n in
      SConnectRequest (mkConnectRequest ca da (creq_CRI r) n)
  | SConnectResponse r =>
      if decide (cresp_status r = 0) then
        let '(da, n) := resolved (cresp_daddr r) (cresp_nat r) from false in
        SConnectResponse (mkConnectResponse (cresp_channel r) 0 da n (cresp_CRD r))
      else SConnectResponse (mkConnectResponse (cresp_channel r) (cresp_status r) no_addr false [])
  | SConnectionStateRequest r =>
      let '(ca, n) := resolved (csreq_caddr r) (csreq_nat r) from false in
      SConnectionStateRequest (mkConnectionStateRequest (csreq_channel r) ca n)
  | SDisconnectRequest r =>
      let '(ca, n) := resolved (dreq_caddr r) (dreq_nat r) from false in
      SDisconnectRequest (mkDisconnectRequest (dreq_channel r) ca n)
  | SDescriptionRequest r =>
      let '(ca, n) := resolved (descreq_caddr r) (descreq_nat r) from false in
      SDescriptionRequest (mkDescriptionRequest ca n)
  | SSearchRequest r =>
      let '(ca, n) := resolved (sreq_caddr r) (sreq_nat r) from false in
      SSearchRequest (mkSearchRequest ca n)
  | SSearchResponse r =>
      let '(ca, n) := resolved (sr_caddr r) (sr_nat r) from false in
      SSearchResponse (mkSearchResponse ca n (sr_device r))
  | b => b
  end.

Fixpoint services_bytes (ss : list DIB_service_Entry) : CArray :=
  match ss with
  | [] => []
  | s :: ss => family s :: version s :: services_bytes ss
  end.

Definition device_bytes (v : EIBnet_Device) : CArray :=
  [54; 1; KNXmedium v; devicestatus v;
   u8 (individual_addr v ≫ 8); u8 (individual_addr v); u8 (installid v ≫ 8); u8 (installid v)]
  ++ serial v ++ multicastaddr v ++ MAC v ++ dev_name v
  ++ [Z.of_nat (length (services v)) * 2 + 2; 2] ++ services_bytes (services v).

(** The body of a service, with its code. *)
Definition service_body (b : EIBnet_service) : Z * CArray :=
  match b with
  | SConnectRequest r =>
      (CONNECTION_REQUEST, hpai (creq_caddr r) (creq_nat r) ++ hpai (creq_daddr r) (creq_nat r) ++
         (Z.of_nat (size (creq_CRI r)) + 1) :: creq_CRI r)
  | SConnectResponse r =>
      (CONNECTION_RESPONSE, cresp_channel r :: cresp_status r ::
         if decide (cresp_status r = 0)
         then hpai (cresp_daddr r) (cresp_nat r) ++
              (Z.of_nat (size (cresp_CRD r)) + 1) :: cresp_CRD r
         else [])
  | SConnectionStateRequest r =>
      (CONNECTIONSTATE_REQUEST, csreq_channel r :: 0 :: hpai (csreq_caddr r) (csreq_nat r))
  | SConnectionStateResponse r => (CONNECTIONSTATE_RESPONSE, [csresp_channel r; csresp_status r])
  | SDisconnectRequest r =>
      (DISCONNECT_REQUEST, dreq_channel r :: 0 :: hpai (dreq_caddr r) (dreq_nat r))
  | SDisconnectResponse r => (DISCONNECT_RESPONSE, [dresp_channel r; dresp_status r])
  | STunnelRequest r => (TUNNEL_REQUEST, [4; treq_channel r; treq_seqno r; 0] ++ treq_CEMI r)
  | STunnelACK r => (TUNNEL_RESPONSE, [4; tack_channel r; tack_seqno r; tack_status r])
  | SConfigRequest r =>
      (DEVICE_CONFIGURATION_REQUEST, [4; cfreq_channel r; cfreq_seqno r; 0] ++ cfreq_CEMI r)
  | SConfigACK r => (DEVICE_CONFIGURATION_ACK, [4; cfack_channel r; cfack_seqno r; cfack_status r])
  | SDescriptionRequest r => (DESCRIPTION_REQUEST, hpai (descreq_caddr r) (descreq_nat r))
  | SSearchRequest r => (SEARCH_REQUEST, hpai (sreq_caddr r) (sreq_nat r))
  | SDescriptionResponse r =>
      (DESCRIPTION_RESPONSE, device_bytes (desc_device r) ++ desc_optional r)
  | SSearchResponse r =>
      (SEARCH_RESPONSE, hpai (sr_caddr r) (sr_nat r) ++ device_bytes (sr_device r))
  end.

(** *** Services of a device *)

Lemma services_bytes_size ss : size (services_bytes ss) = (length ss * 2)%nat.
Proof. unfold size. induction ss as [|s ss IH]; [done|]. simpl. by rewrite IH. Qed.

Lemma put_services_cons x c m ss :
  put_services (x :: c) (S m) ss = (c' ← put_services c m ss; Ret (x :: c')).
Proof.
  revert c m. induction ss as [|s ss IH]; intros c m; [done|]. simpl.
  destruct (put c m (family s)) as [c'|]; [|done]. simpl.
  destruct (put c' (m + 1) (version s)) as [c''|]; [|done]. simpl. apply IH.
Qed.

Lemma put_services_eq ss :
  Forall (fun s => is_u8 (family s) /\ is_u8 (version s)) ss ->
  put_services (replicate (length ss * 2) 0) 0 ss = Ret (services_bytes ss).
Proof.
  induction 1 as [|s ss [Hf Hv] _ IH]; [done|]. simpl.
  by rewrite !put_services_cons, IH, !u8_small.
Qed.

Lemma get_services_cons x c m n : get_services (x :: c) (S m) n = get_services c m n.
Proof.
  revert m. induction n as [|n IH]; intros m; [done|]. simpl. by rewrite IH.
Qed.

Lemma get_services_eq ss tl n :
  n = length ss -> get_services (services_bytes ss ++ tl) 0 n = Ret ss.
Proof.
  intros ->. induction ss as [|[f v] ss IH]; [done|]. simpl. by rewrite !get_services_cons, IH.
Qed.

(** *** A device *)

(** Split the fixed-size fields of a device into their bytes. *)
Ltac split_device v :=
  destruct v as [md st ia ii ser mc mac nm ss];
  unfold device_wf in *; cbn [KNXmedium devicestatus individual_addr installid serial
    multicastaddr MAC dev_name services] in *; destruct_and?;
  peel ser 6%nat; destruct ser; [|done]; peel mc 4%nat; destruct mc; [|done];
  peel mac 6%nat; destruct mac; [|done]; peel nm 30%nat; destruct nm; [|done];
  simplify_eq/=;
  repeat match goal with Hb : bytes (_ :: _) |- _ => apply bytes_cons in Hb as [? Hb] end.

Ltac run_device :=
  cbn [KNXmedium devicestatus individual_addr installid serial multicastaddr MAC dev_name
       services]; cstep;
  rewrite ?put_services_cons, ?put_services_eq by done;
  cbn [mbind outcome_bind app]; rewrite ?land_ff, ?u8_u8, ?(u8_small (_ + _)) by (unfold is_u8; lia).

Lemma put_device_0 v :
  device_wf v ->
  put_device (replicate (56 + length (services v) * 2) 0) 0 v = Ret (device_bytes v).
Proof.
  intros Hv. split_device v. unfold put_device, device_bytes. run_device.
  by rewrite (u8_small md), (u8_small st).
Qed.

Lemma put_device_8 hd v :
  size hd = 8%nat -> device_wf v ->
  put_device (hd ++ replicate (56 + length (services v) * 2) 0) 8 v = Ret (hd ++ device_bytes v).
Proof.
  intros Hh Hv. split_device v. peel hd 8%nat. destruct hd; [|done].
  unfold put_device, device_bytes. run_device.
  by rewrite (u8_small md), (u8_small st).
Qed.

Lemma device_bytes_size v :
  device_wf v -> size (device_bytes v) = (56 + length (services v) * 2)%nat.
Proof.
  intros Hv. pose proof (services_bytes_size (services v)) as Hs. unfold size in Hs.
  split_device v. unfold size, device_bytes. simpl. by rewrite Hs.
Qed.

Lemma even_length k : (Z.of_nat k * 2 + 2) mod 2 = 0.
Proof. rewrite Z.add_comm, Z.mod_add; done. Qed.

Lemma services_count_even k : services_count (Z.of_nat k * 2 + 2) = Ret k.
Proof.
  unfold services_count. rewrite Z.div_add_l by done. change (2 / 2) with 1. cbv zeta.
  rewrite decide_True by lia. f_equal. lia.
Qed.

(** What is left of [get_device] once the fixed fields are read. *)
Ltac read_device :=
  rewrite even_length, (decide_False (P := 0 <> 0)) by (by intros []);
  rewrite decide_False by (unfold size; rewrite length_app; lia); rewrite services_count_even, bind_Ret;
  rewrite ?get_services_cons, get_services_eq by done;
  rewrite bind_Ret, !be16_split, !u16_small by done; do 3 f_equal; lia.

Lemma get_device_0 v tl :
  device_wf v ->
  get_device (device_bytes v ++ tl) 0 = Ret (Some (v, (length (services v) * 2 + 2)%nat)).
Proof.
  intros Hv. pose proof (services_bytes_size (services v)) as Hs. unfold size in Hs.
  unfold get_device, device_bytes. split_device v. read_device.
Qed.

Lemma get_device_8 hd v :
  size hd = 8%nat -> device_wf v ->
  get_device (hd ++ device_bytes v) 8 = Ret (Some (v, (length (services v) * 2 + 2)%nat)).
Proof.
  intros Hh Hv. pose proof (services_bytes_size (services v)) as Hs. unfold size in Hs.
  rewrite <-(app_nil_r (device_bytes v)). unfold get_device, device_bytes.
  peel hd 8%nat. destruct hd; [|done]. clear Hh. split_device v. read_device.
Qed.

(** *** Encoding *)

Definition encodes (b : EIBnet_service) : Prop :=
  service_ToPacket b = Ret (built (service_body b).1 (service_body b).2).

(** Run a [ToPacket] whose parts have known sizes. *)
Ltac encode :=
  unfold encodes; cbn [service_ToPacket service_body fst snd];
  rewrite ?IPtoEIBNetIP_eq, ?bind_Ret; cbv zeta; unfold setpart_all;
  rewrite ?resize_nil; change (size (hpai _ _)) with 8%nat; unfold hpai; cbn [Nat.add].

Lemma ConnectRequest_encodes r : service_wf (SConnectRequest r) -> encodes (SConnectRequest r).
Proof.
  intros (_ & _ & Hb & Hn). encode. unfold ConnectRequest_ToPacket. encode. cstep.
  by rewrite (u8_small (_ + 1)) by (unfold is_u8; lia).
Qed.

Lemma ConnectResponse_encodes r : service_wf (SConnectResponse r) -> encodes (SConnectResponse r).
Proof.
  intros (Hc & Hs & _ & Hb & Hn). encode. unfold ConnectResponse_ToPacket. encode.
  destruct (decide (cresp_status r <> 0)), (decide (cresp_status r = 0)); try done.
  - cstep. by rewrite !u8_small.
  - rewrite (Nat.add_comm _ 3). cstep. rewrite (u8_small (_ + 1)) by (unfold is_u8; lia).
    by rewrite (u8_small (cresp_channel r)), (u8_small (cresp_status r)).
Qed.

Lemma DescriptionResponse_encodes r :
  service_wf (SDescriptionResponse r) -> encodes (SDescriptionResponse r).
Proof.
  intros [Hv _]. unfold encodes. cbn [service_ToPacket service_body fst snd].
  unfold DescriptionResponse_ToPacket. rewrite resize_nil, put_device_0, bind_Ret by done.
  rewrite <-device_bytes_size by done. unfold setpart_all.
  rewrite <-(app_nil_r (device_bytes _)) at 1. by rewrite setpart_app, setpart_grow.
Qed.

Lemma SearchResponse_encodes r : service_wf (SSearchResponse r) -> encodes (SSearchResponse r).
Proof.
  intros [Ha Hv]. unfold encodes. cbn [service_ToPacket service_body fst snd].
  unfold SearchResponse_ToPacket. rewrite IPtoEIBNetIP_eq, bind_Ret, resize_nil.
  unfold setpart_all. rewrite setpart_over by (unfold size; rewrite ?length_replicate; simpl; lia).
  rewrite drop_replicate. change (64 + ?k - size _)%nat with (56 + k)%nat.
  by rewrite bind_Ret, put_device_8.
Qed.

#[export] Hint Unfold ConnectionStateRequest_ToPacket ConnectionStateResponse_ToPacket
  DisconnectRequest_ToPacket DisconnectResponse_ToPacket TunnelRequest_ToPacket
  TunnelACK_ToPacket ConfigRequest_ToPacket ConfigACK_ToPacket
  DescriptionRequest_ToPacket SearchRequest_ToPacket : eibnet.

Lemma service_encodes b : service_wf b -> encodes b.
Proof.
  destruct b as [r|r|r|r|r|r|r|r|r|r|r|r|r|r]; intros Hw;
    try (by apply ConnectRequest_encodes || by apply ConnectResponse_encodes ||
         by apply DescriptionResponse_encodes || by apply SearchResponse_encodes);
    cbn [service_wf] in Hw; encode; autounfold with eibnet; encode;
    rewrite ?(Nat.add_comm _ 4); cstep;
    repeat (rewrite u8_small by (apply Hw || (unfold is_u8; lia))); done.
Qed.

(** *** Decoding *)

Definition decodes (b : EIBnet_service) (from : sockaddr_in) : Prop :=
  parse_service (mkPacket (service_body b).1 (service_body b).2 from)
  = Ret (Some (arrived from b)).

(** Find the parser and run its checks on the size. *)
Ltac decode :=
  unfold decodes; cbn [service_body fst snd];
  unfold parse_service, parsers; cbn [service pick];
  repeat first [ rewrite decide_True by done | rewrite decide_False by done ];
  autounfold with eibnet; cbn [p_data src];
  repeat first [ rewrite decide_False by (by intros [])
               | rewrite decide_False by (unfold size in *; simpl; lia) ].

(** Read the address that comes next. *)
Ltac decode_addr :=
  rewrite ?slice_cons;
  match goal with
  | |- context [slice (hpai ?a ?n ++ ?t) 0 8] => rewrite (slice_first (hpai a n) t 8) by done
  | |- context [slice (hpai ?a ?n) 0 8] => rewrite (slice_all (hpai a n) 8) by done
  | |- context [slice (hpai ?b ?k ++ hpai ?a ?n ++ ?t) 8 8] =>
      rewrite (slice_mid (hpai b k) (hpai a n) t 8 8) by done
  | _ => idtac
  end;
  rewrite ?bind_Ret, EIBnettoIP_hpai by tauto;
  destruct (resolved _ _ _ _); cbn [with_addr mbind outcome_bind].

(** Read the length byte and the data behind it. *)
Ltac decode_rest :=
  unfold hpai; cbn [app at_ lookup list_lookup mbind outcome_bind];
  try (rewrite decide_False by (intros []; unfold size; simpl; lia));
  rewrite ?slice_cons, ?slice_all by (unfold size; simpl; lia).

Lemma ConnectRequest_decodes r from :
  service_wf (SConnectRequest r) -> readable (SConnectRequest r) -> decodes (SConnectRequest r) from.
Proof.
  intros (Ha & Hd & Hb & Hn) Hr. cbn [readable] in Hr. decode. unfold arrived. do 2 decode_addr. by decode_rest.
Qed.

Lemma ConnectResponse_decodes r from :
  service_wf (SConnectResponse r) -> readable (SConnectResponse r) -> decodes (SConnectResponse r) from.
Proof.
  intros (Hc & Hs & Hd & Hb & Hn) Hr. cbn [readable] in Hr. decode. unfold arrived.
  cbn [at_ lookup list_lookup mbind outcome_bind].
  destruct (decide (cresp_status r = 0)) as [E|E].
  - specialize (Hr E). rewrite E. rewrite decide_False by (by intros []).
    rewrite decide_False by (unfold size in *; simpl; lia). decode_addr. by decode_rest.
  - by rewrite decide_True.
Qed.

Lemma DescriptionResponse_decodes r from :
  service_wf (SDescriptionResponse r) -> decodes (SDescriptionResponse r) from.
Proof.
  intros (Hv & Hb & Hn). pose proof (device_bytes_size _ Hv) as Hs. decode.
  unfold parseEIBnet_DescriptionResponse. cbn [service p_data].
  rewrite decide_False by (by intros []).
  rewrite decide_False by (unfold size in *; rewrite length_app; lia).
  rewrite get_device_0, bind_Ret by done.
  rewrite slice_second by (unfold size in *; rewrite ?length_app; lia). by destruct r.
Qed.

Lemma SearchResponse_decodes r from :
  service_wf (SSearchResponse r) -> decodes (SSearchResponse r) from.
Proof.
  intros [Ha Hv]. pose proof (device_bytes_size _ Hv) as Hs. decode.
  unfold parseEIBnet_SearchResponse. cbn [service p_data src].
  rewrite decide_False by (by intros []).
  rewrite decide_False by (unfold size in *; rewrite length_app; change (length (hpai _ _)) with 8%nat; lia).
  unfold arrived. decode_addr. by rewrite get_device_8.
Qed.

Lemma service_decodes b from : service_wf b -> readable b -> decodes b from.
Proof.
  destruct b as [r|r|r|r|r|r|r|r|r|r|r|r|r|r]; intros Hw Hr;
    try (by apply ConnectRequest_decodes || by apply ConnectResponse_decodes ||
         by apply DescriptionResponse_decodes || by apply SearchResponse_decodes);
    cbn [service_wf readable] in Hw, Hr; decode; unfold arrived; try decode_addr; decode_rest;
    by destruct r.
Qed.

(** The other services are refused by their own parsers. *)
Lemma service_refused b from :
  ~ readable b -> parse_service (mkPacket (service_body b).1 (service_body b).2 from) = Ret None.
Proof.
  destruct b as [r|r|r|r|r|r|r|r|r|r|r|r|r|r]; cbn [readable]; intros Hr; try (by destruct Hr);
    decode.
  - by rewrite decide_True by (unfold size in *; simpl; lia).
  - destruct (decide (cresp_status r = 0)) as [E|E]; [|by destruct Hr].
    cbn [at_ lookup list_lookup mbind outcome_bind]. rewrite E, decide_False by (by intros []).
    by rewrite decide_True by (unfold size in *; simpl; lia).
  - by rewrite decide_True by (unfold size in *; simpl; lia).
  - by rewrite decide_True by (unfold size in *; simpl; lia).
Qed.

Lemma hpai_bytes a n : bytes (hpai a n).
Proof.
  unfold hpai. repeat (apply bytes_cons; split; [apply u8_bound || (unfold is_u8; lia)|]).
  apply bytes_nil.
Qed.

Lemma services_bytes_bytes ss :
  Forall (fun s => is_u8 (family s) /\ is_u8 (version s)) ss -> bytes (services_bytes ss).
Proof. induction 1 as [|s ss [Hf Hv] _ IH]; [apply bytes_nil|]. simpl. by rewrite !bytes_cons. Qed.

Lemma device_bytes_bytes v : device_wf v -> bytes (device_bytes v).
Proof.
  intros (Hm & Hs & _ & _ & Hb1 & _ & Hb2 & _ & Hb3 & _ & Hb4 & _ & _ & Hss & Hn).
  unfold device_bytes. rewrite !bytes_app, !bytes_cons.
  split_and!; auto using u8_bound, bytes_nil, services_bytes_bytes; unfold is_u8; lia.
Qed.

Lemma hpai_length a n : length (hpai a n) = 8%nat.
Proof. done. Qed.

Section Body.
Local Opaque hpai device_bytes.

Lemma service_body_bytes b : service_wf b -> bytes (service_body b).2.
Proof.
  destruct b as [r|r|r|r|r|r|r|r|r|r|r|r|r|r]; cbn [service_wf service_body snd]; intros Hw;
    destruct_and?; try (destruct (decide _)); rewrite ?bytes_app, ?bytes_cons;
    rewrite ?bytes_app, ?bytes_cons;
    split_and?; auto using hpai_bytes, bytes_nil, device_bytes_bytes; unfold is_u8 in *; lia.
Qed.

Lemma service_body_size b : service_wf b -> Z.of_nat (size (service_body b).2) <= 65529.
Proof.
  unfold size.
  destruct b as [r|r|r|r|r|r|r|r|r|r|r|r|r|r]; cbn [service_wf service_body snd]; intros Hw;
    try (pose proof (device_bytes_size (desc_device r)) as Hs);
    try (pose proof (device_bytes_size (sr_device r)) as Hs);
    unfold size in *; destruct_and?; try (destruct (decide _)); cbn [length];
    rewrite ?length_app; cbn [length]; rewrite ?hpai_length; rewrite ?length_app; cbn [length];
    rewrite ?hpai_length; try lia;
    match goal with Hv : device_wf _ |- _ =>
      specialize (Hs Hv); unfold device_wf in Hv; destruct_and?; lia end.
Qed.
End Body.

Lemma service_body_wf b :
  service_wf b -> packet_wf (built (service_body b).1 (service_body b).2).
Proof.
  intros Hw. split; [|split; [by apply service_body_bytes|by apply service_body_size]].
  destruct b; decided.
Qed.

(** C33: the round trip of every EIBnet/IP service: what [ToPacket] of a service
    writes never faults, and put into a datagram and received from the socket
    [from] it is parsed by the parser of that service to the same service, with
    the addresses in it resolved against [from]. Two things get lost. A connect
    response that refuses carries its channel and its status and nothing else:
    the encoder leaves out the address and the connection data. And four
    services that can be sent are refused by their own parser: a connect request
    and an accepting connect response without connection data, and a tunnelling
    or configuration request with a frame of fewer than two bytes. The fields
    are of their width and fit into the length fields of the packet; the name of a
    device ends in a zero byte, which its encoder writes. *)
Theorem service_roundtrip b from :
  service_wf b ->
  (p ← service_ToPacket b; c ← EIBNetIPPacket_ToPacket p;
   r ← EIBNetIPPacket_fromPacket c from;
   match r with Some p => parse_service p | None => Ret None end)
  = Ret (if decide (readable b) then Some (arrived from b) else None).
Proof.
  intros Hw. rewrite service_encodes, bind_Ret by done.
  rewrite ToPacket_eq, bind_Ret, fromPacket_back, bind_Ret by (by apply service_body_wf).
  destruct (decide (readable b)); [by apply service_decodes|by apply service_refused].
Qed.

Definition sample_device : EIBnet_Device :=
  mkDevice 2 0 0x1101 0 [0; 1; 2; 3; 4; 5] [224; 0; 23; 12] [1; 2; 3; 4; 5; 6]
    (107 :: 110 :: 120 :: 100 :: replicate 26 0) [mkService 2 1; mkService 4 1].

Lemma service_roundtrip_witness :
  (p ← service_ToPacket (SSearchResponse (mkSearchResponse (mkSockaddr 0xC0A80102 3671) false sample_device));
   c ← EIBNetIPPacket_ToPacket p;
   r ← EIBNetIPPacket_fromPacket c (mkSockaddr 0xC0A80102 4000);
   match r with Some p => parse_service p | None => Ret None end)
  = Ret (Some (SSearchResponse (mkSearchResponse (mkSockaddr 0xC0A80102 3671) false sample_device))).
Proof.
  apply (service_roundtrip
    (SSearchResponse (mkSearchResponse (mkSockaddr 0xC0A80102 3671) false sample_device))).
  split; [decided|]. unfold device_wf. split_and!; try decided; simpl; try done; try lia.
Defined.
