(* ===== verification/EibNetIp6.v ===== *)
(** * EIBnet/IP packets over IPv6

    Models src/src/libserver/eibnetip6.h and src/src/libserver/eibnetip6.cpp: the
    packet header, the address block of 18 bytes that [IPtoEIBNetIP] writes for a
    [sockaddr_in6], and the bodies of the services.  The classes without an
    address have the fields of their IPv4 classes and share their records; the
    functions are written out as the source has them.  A parser returns [None]
    where the source returns 1, and a read behind the end of a vector is the
    fault [OutOfRange]. *)

From S2P Require Import Prelude CArray Common Apdu ApduSpec ApduRound Lpdu LpduSpec Emi EibNetIp.

(** [struct sockaddr_in6] of the family [AF_INET6]: the sixteen bytes of
    [sin6_addr.s6_addr], and the port in host order. *)
Record sockaddr_in6 := mkSockaddr6 { sin6_addr : CArray; sin6_port : Z }.

#[export] Instance sockaddr_in6_eq_dec : EqDecision sockaddr_in6.
Proof. solve_decision. Defined.

(** [memset (&addr, 0, sizeof (addr))] *)
Definition no_addr6 : sockaddr_in6 := mkSockaddr6 (replicate 16 0) 0.

Record EIBNet6IPPacket := mkPacket6 { service6 : Z; p_data6 : CArray; src6 : sockaddr_in6 }.

Definition EIBNet6IPPacket_fromPacket (c : CArray) (from : sockaddr_in6)
  : outcome (option EIBNet6IPPacket) :=
  if decide (size c < 6)%nat then Ret None
  else
    c0 ← at_ c 0; c1 ← at_ c 1;
    if bool_decide (c0 <> 0x6) || bool_decide (c1 <> 0x10) then Ret None
    else
      c4 ← at_ c 4; c5 ← at_ c 5;
      let len := be16 c4 c5 in
      if decide (len <> Z.of_nat (size c)) then Ret None
      else
        c2 ← at_ c 2; c3 ← at_ c 3;
        d ← slice c 6 (Z.to_nat len - 6);
        Ret (Some (mkPacket6 (be16 c2 c3) d from)).

Definition EIBNet6IPPacket_ToPacket (p : EIBNet6IPPacket) : outcome CArray :=
  let n := Z.of_nat (size (p_data6 p)) in
  c ← put (resize [] (6 + size (p_data6 p))) 0 0x06;
  c ← put c 1 0x10;
  c ← put c 2 (Z.land (service6 p ≫ 8) 0xff);
  c ← put c 3 (Z.land (service6 p) 0xff);
  c ← put c 4 (Z.land ((n + 6) ≫ 8) 0xff);
  c ← put c 5 (Z.land (n + 6) 0xff);
  setpart_all c (p_data6 p) 6.

(** ** The address block *)

(** [memset (&buf[2], 0, n)] *)
Fixpoint zero_from (buf : CArray) (i n : nat) : outcome CArray :=
  match n with
  | O => Ret buf
  | S n => buf ← put buf i 0; zero_from buf (i + 1) n
  end.

(** [for (u8idx ...) buf[2+u8idx] = a->sin6_addr.s6_addr[15-u8idx]], from [i] on
    for [n] rounds. *)
Fixpoint put_addr6 (buf a : CArray) (i n : nat) : outcome CArray :=
  match n with
  | O => Ret buf
  | S n =>
      b ← at_ a (15 - i);
      buf ← put buf (2 + i) b;
      put_addr6 buf a (i + 1) n
  end.

Definition IPtoEIBNetIP6 (a : sockaddr_in6) (nat_ : bool) : outcome CArray :=
  buf ← put (resize [] 18) 0 0x08;
  buf ← put buf 1 0x01;
  if nat_ then zero_from buf 2 16
  else
    buf ← put_addr6 buf (sin6_addr a) 0 16;
    buf ← put buf 6 (Z.land (sin6_port a ≫ 8) 0xff);
    put buf 7 (Z.land (sin6_port a ≫ 0) 0xff).

(** The loop that fills [ip] and accumulates [u8ipCalc]. *)
Fixpoint get_addr6 (buf ip : CArray) (calc : Z) (i n : nat) : outcome (CArray * Z) :=
  match n with
  | O => Ret (ip, calc)
  | S n =>
      b ← at_ buf (2 + i);
      ip ← put ip (15 - i) b;
      get_addr6 buf ip (u8 (Z.lor calc b)) (i + 1) n
  end.

(** [None] is the error return; [nat_] is the flag before the call. *)
Definition EIBnettoIP6 (buf : CArray) (from : sockaddr_in6) (nat_ : bool)
  : outcome (option (sockaddr_in6 * bool)) :=
  b0 ← at_ buf 0; b1 ← at_ buf 1;
  if bool_decide (b0 <> 0x8) || bool_decide (b1 <> 0x1) then Ret None
  else
    r ← get_addr6 buf (replicate 16 0) 0 0 16;
    b6 ← at_ buf 6; b7 ← at_ buf 7;
    let port := be16 b6 b7 in
    let prt := if decide (port = 0) then sin6_port from else port in
    if decide (r.2 = 0) then Ret (Some (mkSockaddr6 (sin6_addr from) prt, true))
    else Ret (Some (mkSockaddr6 r.1 prt, nat_)).

(** [if (EIBnettoIP (...)) return 1;] *)
Definition with_addr6 {A} (m : outcome (option (sockaddr_in6 * bool)))
    (k : sockaddr_in6 -> bool -> outcome (option A)) : outcome (option A) :=
  r ← m;
  match r with
  | None => Ret None
  | Some (a, n) => k a n
  end.

(** A packet a [ToPacket] builds: its source address is not set. *)
Definition built6 (s : Z) (d : CArray) : EIBNet6IPPacket := mkPacket6 s d no_addr6.

(** ** Connections *)

Record EIBnet6_ConnectRequest := mkConnectRequest6 {
  creq6_caddr : sockaddr_in6; creq6_daddr : sockaddr_in6; creq6_CRI : CArray; creq6_nat : bool }.

Definition ConnectRequest6_ToPacket (r : EIBnet6_ConnectRequest) : outcome EIBNet6IPPacket :=
  ca ← IPtoEIBNetIP6 (creq6_caddr r) (creq6_nat r);
  da ← IPtoEIBNetIP6 (creq6_daddr r) (creq6_nat r);
  let d := resize [] (size ca + size da + 1 + size (creq6_CRI r)) in
  d ← setpart_all d ca 0;
  d ← setpart_all d da (size ca);
  d ← put d (size ca + size da) (Z.of_nat (size (creq6_CRI r)) + 1);
  d ← setpart_all d (creq6_CRI r) (size ca + size da + 1);
  Ret (built6 CONNECTION_REQUEST d).

Definition parseEIBnet6_ConnectRequest (p : EIBNet6IPPacket)
  : outcome (option EIBnet6_ConnectRequest) :=
  if decide (service6 p <> CONNECTION_REQUEST) then Ret None
  else if decide (size (p_data6 p) < 18)%nat then Ret None
  else
    c ← slice (p_data6 p) 0 8;
    with_addr6 (EIBnettoIP6 c (src6 p) false) (fun ca n =>
    d ← slice (p_data6 p) 8 8;
    with_addr6 (EIBnettoIP6 d (src6 p) n) (fun da n =>
    d16 ← at_ (p_data6 p) 16;
    if decide (Z.of_nat (size (p_data6 p) - 16) <> d16) then Ret None
    else
      cri ← slice (p_data6 p) 17 (size (p_data6 p) - 17);
      Ret (Some (mkConnectRequest6 ca da cri n)))).

Record EIBnet6_ConnectResponse := mkConnectResponse6 {
  cresp6_channel : Z; cresp6_status : Z; cresp6_daddr : sockaddr_in6; cresp6_nat : bool;
  cresp6_CRD : CArray }.

Definition ConnectResponse6_ToPacket (r : EIBnet6_ConnectResponse) : outcome EIBNet6IPPacket :=
  da ← IPtoEIBNetIP6 (cresp6_daddr r) (cresp6_nat r);
  let d := if decide (cresp6_status r <> 0) then resize [] 2
           else resize [] (size da + size (cresp6_CRD r) + 3) in
  d ← put d 0 (cresp6_channel r);
  d ← put d 1 (cresp6_status r);
  d ← (if decide (cresp6_status r = 0) then
         d ← setpart_all d da 2;
         d ← put d (size da + 2) (Z.of_nat (size (cresp6_CRD r)) + 1);
         setpart_all d (cresp6_CRD r) (size da + 3)
       else Ret d);
  Ret (built6 CONNECTION_RESPONSE d).

Definition parseEIBnet6_ConnectResponse (p : EIBNet6IPPacket)
  : outcome (option EIBnet6_ConnectResponse) :=
  if decide (service6 p <> CONNECTION_RESPONSE) then Ret None
  else if decide (size (p_data6 p) < 2)%nat then Ret None
  else
    d0 ← at_ (p_data6 p) 0; d1 ← at_ (p_data6 p) 1;
    if decide (d1 <> 0) then
      if decide (size (p_data6 p) <> 2%nat) then Ret None
      else Ret (Some (mkConnectResponse6 d0 d1 no_addr6 false []))
    else if decide (size (p_data6 p) < 12)%nat then Ret None
    else
      a ← slice (p_data6 p) 2 8;
      with_addr6 (EIBnettoIP6 a (src6 p) false) (fun da n =>
      d10 ← at_ (p_data6 p) 10;
      if decide (Z.of_nat (size (p_data6 p) - 10) <> d10) then Ret None
      else
        crd ← slice (p_data6 p) 11 (size (p_data6 p) - 11);
        Ret (Some (mkConnectResponse6 d0 d1 da n crd))).

Record EIBnet6_ConnectionStateRequest := mkConnectionStateRequest6 {
  csreq6_channel : Z; csreq6_caddr : sockaddr_in6; csreq6_nat : bool }.

Definition ConnectionStateRequest6_ToPacket (r : EIBnet6_ConnectionStateRequest)
  : outcome EIBNet6IPPacket :=
  ca ← IPtoEIBNetIP6 (csreq6_caddr r) (csreq6_nat r);
  d ← put (resize [] (size ca + 2)) 0 (csreq6_channel r);
  d ← put d 1 0;
  d ← setpart_all d ca 2;
  Ret (built6 CONNECTIONSTATE_REQUEST d).

Definition parseEIBnet6_ConnectionStateRequest (p : EIBNet6IPPacket)
  : outcome (option EIBnet6_ConnectionStateRequest) :=
  if decide (service6 p <> CONNECTIONSTATE_REQUEST) then Ret None
  else if decide (size (p_data6 p) <> 10%nat) then Ret None
  else
    a ← slice (p_data6 p) 2 8;
    with_addr6 (EIBnettoIP6 a (src6 p) false) (fun ca n =>
    d0 ← at_ (p_data6 p) 0;
    Ret (Some (mkConnectionStateRequest6 d0 ca n))).

Definition ConnectionStateResponse6_ToPacket (r : EIBnet_ConnectionStateResponse)
  : outcome EIBNet6IPPacket :=
  d ← put (resize [] 2) 0 (csresp_channel r);
  d ← put d 1 (csresp_status r);
  Ret (built6 CONNECTIONSTATE_RESPONSE d).

Definition parseEIBnet6_ConnectionStateResponse (p : EIBNet6IPPacket)
  : outcome (option EIBnet_ConnectionStateResponse) :=
  if decide (service6 p <> CONNECTIONSTATE_RESPONSE) then Ret None
  else if decide (size (p_data6 p) <> 2%nat) then Ret None
  else
    d0 ← at_ (p_data6 p) 0; d1 ← at_ (p_data6 p) 1;
    Ret (Some (mkConnectionStateResponse d0 d1)).

Record EIBnet6_DisconnectRequest := mkDisconnectRequest6 {
  dreq6_channel : Z; dreq6_caddr : sockaddr_in6; dreq6_nat : bool }.

Definition DisconnectRequest6_ToPacket (r : EIBnet6_DisconnectRequest)
  : outcome EIBNet6IPPacket :=
  ca ← IPtoEIBNetIP6 (dreq6_caddr r) (dreq6_nat r);
  d ← put (resize [] (size ca + 2)) 0 (dreq6_channel r);
  d ← put d 1 0;
  d ← setpart_all d ca 2;
  Ret (built6 DISCONNECT_REQUEST d).

Definition parseEIBnet6_DisconnectRequest (p : EIBNet6IPPacket)
  : outcome (option EIBnet6_DisconnectRequest) :=
  if decide (service6 p <> DISCONNECT_REQUEST) then Ret None
  else if decide (size (p_data6 p) <> 10%nat) then Ret None
  else
    a ← slice (p_data6 p) 2 8;
    with_addr6 (EIBnettoIP6 a (src6 p) false) (fun ca n =>
    d0 ← at_ (p_data6 p) 0;
    Ret (Some (mkDisconnectRequest6 d0 ca n))).

Definition DisconnectResponse6_ToPacket (r : EIBnet_DisconnectResponse)
  : outcome EIBNet6IPPacket :=
  d ← put (resize [] 2) 0 (dresp_channel r);
  d ← put d 1 (dresp_status r);
  Ret (built6 DISCONNECT_RESPONSE d).

Definition parseEIBnet6_DisconnectResponse (p : EIBNet6IPPacket)
  : outcome (option EIBnet_DisconnectResponse) :=
  if decide (service6 p <> DISCONNECT_RESPONSE) then Ret None
  else if decide (size (p_data6 p) <> 2%nat) then Ret None
  else
    d0 ← at_ (p_data6 p) 0; d1 ← at_ (p_data6 p) 1;
    Ret (Some (mkDisconnectResponse d0 d1)).

(** ** Tunnels and device management *)

Definition TunnelRequest6_ToPacket (r : EIBnet_TunnelRequest) : outcome EIBNet6IPPacket :=
  d ← put (resize [] (size (treq_CEMI r) + 4)) 0 4;
  d ← put d 1 (treq_channel r);
  d ← put d 2 (treq_seqno r);
  d ← put d 3 0;
  d ← setpart_all d (treq_CEMI r) 4;
  Ret (built6 TUNNEL_REQUEST d).

Definition parseEIBnet6_TunnelRequest (p : EIBNet6IPPacket)
  : outcome (option EIBnet_TunnelRequest) :=
  if decide (service6 p <> TUNNEL_REQUEST) then Ret None
  else if decide (size (p_data6 p) < 6)%nat then Ret None
  else
    d0 ← at_ (p_data6 p) 0;
    if decide (d0 <> 4) then Ret None
    else
      d1 ← at_ (p_data6 p) 1; d2 ← at_ (p_data6 p) 2;
      c ← slice (p_data6 p) 4 (size (p_data6 p) - 4);
      Ret (Some (mkTunnelRequest d1 d2 c)).

Definition TunnelACK6_ToPacket (r : EIBnet_TunnelACK) : outcome EIBNet6IPPacket :=
  d ← put (resize [] 4) 0 4;
  d ← put d 1 (tack_channel r);
  d ← put d 2 (tack_seqno r);
  d ← put d 3 (tack_status r);
  Ret (built6 TUNNEL_RESPONSE d).

Definition parseEIBnet6_TunnelACK (p : EIBNet6IPPacket) : outcome (option EIBnet_TunnelACK) :=
  if decide (service6 p <> TUNNEL_RESPONSE) then Ret None
  else if decide (size (p_data6 p) <> 4%nat) then Ret None
  else
    d0 ← at_ (p_data6 p) 0;
    if decide (d0 <> 4) then Ret None
    else
      d1 ← at_ (p_data6 p) 1; d2 ← at_ (p_data6 p) 2; d3 ← at_ (p_data6 p) 3;
      Ret (Some (mkTunnelACK d1 d2 d3)).

Definition ConfigRequest6_ToPacket (r : EIBnet_ConfigRequest) : outcome EIBNet6IPPacket :=
  d ← put (resize [] (size (cfreq_CEMI r) + 4)) 0 4;
  d ← put d 1 (cfreq_channel r);
  d ← put d 2 (cfreq_seqno r);
  d ← put d 3 0;
  d ← setpart_all d (cfreq_CEMI r) 4;
  Ret (built6 DEVICE_CONFIGURATION_REQUEST d).

Definition parseEIBnet6_ConfigRequest (p : EIBNet6IPPacket)
  : outcome (option EIBnet_ConfigRequest) :=
  if decide (service6 p <> DEVICE_CONFIGURATION_REQUEST) then Ret None
  else if decide (size (p_data6 p) < 6)%nat then Ret None
  else
    d0 ← at_ (p_data6 p) 0;
    if decide (d0 <> 4) then Ret None
    else
      d1 ← at_ (p_data6 p) 1; d2 ← at_ (p_data6 p) 2;
      c ← slice (p_data6 p) 4 (size (p_data6 p) - 4);
      Ret (Some (mkConfigRequest d1 d2 c)).

Definition ConfigACK6_ToPacket (r : EIBnet_ConfigACK) : outcome EIBNet6IPPacket :=
  d ← put (resize [] 4) 0 4;
  d ← put d 1 (cfack_channel r);
  d ← put d 2 (cfack_seqno r);
  d ← put d 3 (cfack_status r);
  Ret (built6 DEVICE_CONFIGURATION_ACK d).

Definition parseEIBnet6_ConfigACK (p : EIBNet6IPPacket) : outcome (option EIBnet_ConfigACK) :=
  if decide (service6 p <> DEVICE_CONFIGURATION_ACK) then Ret None
  else if decide (size (p_data6 p) <> 4%nat) then Ret None
  else
    d0 ← at_ (p_data6 p) 0;
    if decide (d0 <> 4) then Ret None
    else
      d1 ← at_ (p_data6 p) 1; d2 ← at_ (p_data6 p) 2; d3 ← at_ (p_data6 p) 3;
      Ret (Some (mkConfigACK d1 d2 d3)).

(** ** Discovery *)

Record EIBnet6_DescriptionRequest := mkDescriptionRequest6 {
  descreq6_caddr : sockaddr_in6; descreq6_nat : bool }.

Definition DescriptionRequest6_ToPacket (r : EIBnet6_DescriptionRequest)
  : outcome EIBNet6IPPacket :=
  ca ← IPtoEIBNetIP6 (descreq6_caddr r) (descreq6_nat r); Ret (built6 DESCRIPTION_REQUEST ca).

Definition parseEIBnet6_DescriptionRequest (p : EIBNet6IPPacket)
  : outcome (option EIBnet6_DescriptionRequest) :=
  if decide (service6 p <> DESCRIPTION_REQUEST) then Ret None
  else if decide (size (p_data6 p) <> 8%nat) then Ret None
  else with_addr6 (EIBnettoIP6 (p_data6 p) (src6 p) false)
         (fun ca n => Ret (Some (mkDescriptionRequest6 ca n))).

Record EIBnet6_SearchRequest := mkSearchRequest6 { sreq6_caddr : sockaddr_in6; sreq6_nat : bool }.

Definition SearchRequest6_ToPacket (r : EIBnet6_SearchRequest) : outcome EIBNet6IPPacket :=
  ca ← IPtoEIBNetIP6 (sreq6_caddr r) (sreq6_nat r); Ret (built6 SEARCH_REQUEST ca).

Definition parseEIBnet6_SearchRequest (p : EIBNet6IPPacket)
  : outcome (option EIBnet6_SearchRequest) :=
  if decide (service6 p <> SEARCH_REQUEST) then Ret None
  else if decide (size (p_data6 p) <> 8%nat) then Ret None
  else with_addr6 (EIBnettoIP6 (p_data6 p) (src6 p) false)
         (fun ca n => Ret (Some (mkSearchRequest6 ca n))).

(** The device: [multicastaddr] is here the sixteen bytes of a
    [struct in6_addr], of which four are written and read; the other twelve keep
    the zeros of the constructor. *)
Definition widen_multicast (v : EIBnet_Device) : EIBnet_Device :=
  mkDevice (KNXmedium v) (devicestatus v) (individual_addr v) (installid v) (serial v)
    (multicastaddr v ++ replicate 12 0) (MAC v) (dev_name v) (services v).

Record EIBnet6_SearchResponse := mkSearchResponse6 {
  sr6_caddr : sockaddr_in6; sr6_nat : bool; sr6_device : EIBnet_Device }.

Definition DescriptionResponse6_ToPacket (r : EIBnet_DescriptionResponse)
  : outcome EIBNet6IPPacket :=
  let v := desc_device r in
  d ← put_device (resize [] (56 + length (services v) * 2)) 0 v;
  d ← setpart_all d (desc_optional r) (56 + length (services v) * 2);
  Ret (built6 DESCRIPTION_RESPONSE d).

Definition parseEIBnet6_DescriptionResponse (p : EIBNet6IPPacket)
  : outcome (option EIBnet_DescriptionResponse) :=
  if decide (service6 p <> DESCRIPTION_RESPONSE) then Ret None
  else if decide (size (p_data6 p) < 56)%nat then Ret None
  else
    r ← get_device (p_data6 p) 0;
    match r with
    | None => Ret None
    | Some (v, len) =>
        o ← slice (p_data6 p) (len + 54) (size (p_data6 p) - len - 54);
        Ret (Some (mkDescriptionResponse (widen_multicast v) o))
    end.

Definition SearchResponse6_ToPacket (r : EIBnet6_SearchResponse) : outcome EIBNet6IPPacket :=
  let v := sr6_device r in
  ca ← IPtoEIBNetIP6 (sr6_caddr r) (sr6_nat r);
  d ← setpart_all (resize [] (64 + length (services v) * 2)) ca 0;
  d ← put_device d 8 v;
  Ret (built6 SEARCH_RESPONSE d).

Definition parseEIBnet6_SearchResponse (p : EIBNet6IPPacket)
  : outcome (option EIBnet6_SearchResponse) :=
  if decide (service6 p <> SEARCH_RESPONSE) then Ret None
  else if decide (size (p_data6 p) < 64)%nat then Ret None
  else
    a ← slice (p_data6 p) 0 8;
    with_addr6 (EIBnettoIP6 a (src6 p) false) (fun ca n =>
    r ← get_device (p_data6 p) 8;
    match r with
    | None => Ret None
    | Some (v, _) => Ret (Some (mkSearchResponse6 ca n (widen_multicast v)))
    end).
