(* ===== verification/EibNetIp6Spec.v ===== *)
(** * EIBnet/IP packets over IPv6: theorems

    The services without an address are those of IPv4: same datagrams, same
    results, same round trips.  The services with an address are not: the address
    block that is written has 18 bytes and loses two bytes of the address to the
    port, the parsers cut blocks of 8 bytes out of the datagram and read 18 of
    them, so none of these services is ever accepted.  The last section derives
    what that means for a client. *)

From S2P Require Import Prelude CArray Common Apdu ApduSpec ApduRound Lpdu LpduSpec Emi EibNetIp EibNetIpSpec EibNetIp6.

(** ** The header *)

(** A packet without its source address. *)
Definition as_ipv4 (p : EIBNet6IPPacket) : EIBNetIPPacket :=
  mkPacket (service6 p) (p_data6 p) no_addr.

Definition as_ipv6 (from : sockaddr_in6) (p : EIBNetIPPacket) : EIBNet6IPPacket :=
  mkPacket6 (service p) (p_data p) from.

Lemma ToPacket6_eq p : EIBNet6IPPacket_ToPacket p = Ret (packet_bytes (as_ipv4 p)).
Proof. rewrite <-ToPacket_eq. done. Qed.

Lemma fromPacket6_eq c from f4 :
  EIBNet6IPPacket_fromPacket c from
  = (r ← EIBNetIPPacket_fromPacket c f4; Ret (option_map (as_ipv6 from) r)).
Proof.
  unfold EIBNet6IPPacket_fromPacket, EIBNetIPPacket_fromPacket.
  destruct (decide _); [done|].
  destruct (at_ c 0) as [c0|]; [|done]. destruct (at_ c 1) as [c1|]; [|done]. rewrite !bind_Ret.
  destruct (_ || _); [done|].
  destruct (at_ c 4) as [c4|]; [|done]. destruct (at_ c 5) as [c5|]; [|done]. rewrite !bind_Ret.
  cbv zeta. destruct (decide (_ <> _)); [done|].
  destruct (at_ c 2) as [c2|]; [|done]. destruct (at_ c 3) as [c3|]; [|done]. rewrite !bind_Ret.
  by destruct (slice _ _ _).
Qed.

(** ** The services *)

Inductive EIBnet6_service :=
| S6ConnectRequest (r : EIBnet6_ConnectRequest)
| S6ConnectResponse (r : EIBnet6_ConnectResponse)
| S6ConnectionStateRequest (r : EIBnet6_ConnectionStateRequest)
| S6DisconnectRequest (r : EIBnet6_DisconnectRequest)
| S6DescriptionRequest (r : EIBnet6_DescriptionRequest)
| S6SearchRequest (r : EIBnet6_SearchRequest)
| S6SearchResponse (r : EIBnet6_SearchResponse)
| S6Shared (b : EIBnet_service).

Definition as_service6 {A} (inj : A -> EIBnet6_service) (m : outcome (option A))
  : outcome (option EIBnet6_service) := r ← m; Ret (option_map inj r).

(** The parsers by service code, and the one that a packet is given to. *)
Definition parsers6 (p : EIBNet6IPPacket) : list (Z * outcome (option EIBnet6_service)) :=
  [ (CONNECTION_REQUEST, as_service6 S6ConnectRequest (parseEIBnet6_ConnectRequest p));
    (CONNECTION_RESPONSE, as_service6 S6ConnectResponse (parseEIBnet6_ConnectResponse p));
    (CONNECTIONSTATE_REQUEST,
      as_service6 S6ConnectionStateRequest (parseEIBnet6_ConnectionStateRequest p));
    (DISCONNECT_REQUEST, as_service6 S6DisconnectRequest (parseEIBnet6_DisconnectRequest p));
    (DESCRIPTION_REQUEST, as_service6 S6DescriptionRequest (parseEIBnet6_DescriptionRequest p));
    (SEARCH_REQUEST, as_service6 S6SearchRequest (parseEIBnet6_SearchRequest p));
    (SEARCH_RESPONSE, as_service6 S6SearchResponse (parseEIBnet6_SearchResponse p));
    (CONNECTIONSTATE_RESPONSE,
      as_service6 (S6Shared ∘ SConnectionStateResponse) (parseEIBnet6_ConnectionStateResponse p));
    (DISCONNECT_RESPONSE,
      as_service6 (S6Shared ∘ SDisconnectResponse) (parseEIBnet6_DisconnectResponse p));
    (TUNNEL_REQUEST, as_service6 (S6Shared ∘ STunnelRequest) (parseEIBnet6_TunnelRequest p));
    (TUNNEL_RESPONSE, as_service6 (S6Shared ∘ STunnelACK) (parseEIBnet6_TunnelACK p));
    (DEVICE_CONFIGURATION_REQUEST,
      as_service6 (S6Shared ∘ SConfigRequest) (parseEIBnet6_ConfigRequest p));
    (DEVICE_CONFIGURATION_ACK, as_service6 (S6Shared ∘ SConfigACK) (parseEIBnet6_ConfigACK p));
    (DESCRIPTION_RESPONSE,
      as_service6 (S6Shared ∘ SDescriptionResponse) (parseEIBnet6_DescriptionResponse p)) ].

Fixpoint pick6 (s : Z) (ps : list (Z * outcome (option EIBnet6_service)))
  : outcome (option EIBnet6_service) :=
  match ps with
  | [] => Ret None
  | (t, r) :: ps => if decide (s = t) then r else pick6 s ps
  end.

Definition parse_service6 (p : EIBNet6IPPacket) : outcome (option EIBnet6_service) :=
  pick6 (service6 p) (parsers6 p).

(** The codes of the services that carry an address. *)
Definition addressed_service : list Z :=
  [CONNECTION_REQUEST; CONNECTION_RESPONSE; CONNECTIONSTATE_REQUEST; DISCONNECT_REQUEST;
   DESCRIPTION_REQUEST; SEARCH_REQUEST; SEARCH_RESPONSE].

(** ** The services without an address *)

Definition widened (b : EIBnet_service) : EIBnet_service :=
  match b with
  | SDescriptionResponse r =>
      SDescriptionResponse (mkDescriptionResponse (widen_multicast (desc_device r)) (desc_optional r))
  | b => b
  end.

(** The four bytes of the multicast address that go into a packet. *)
Definition narrow_multicast (v : EIBnet_Device) : EIBnet_Device :=
  mkDevice (KNXmedium v) (devicestatus v) (individual_addr v) (installid v) (serial v)
    (take 4 (multicastaddr v)) (MAC v) (dev_name v) (services v).

Definition narrowed (b : EIBnet_service) : EIBnet_service :=
  match b with
  | SDescriptionResponse r =>
      SDescriptionResponse (mkDescriptionResponse (narrow_multicast (desc_device r)) (desc_optional r))
  | b => b
  end.

(** Step two runs of the same statements together. *)
Ltac both_step :=
  match goal with
  | |- context [if decide ?P then _ else _] => destruct (decide P)
  | |- context [at_ ?c ?i] => destruct (at_ c i); [rewrite !bind_Ret|done]
  | |- context [slice ?c ?i ?n] => destruct (slice c i n); [rewrite !bind_Ret|done]
  end; try done.

Lemma DescriptionResponse6_eq p :
  as_service6 (S6Shared ∘ SDescriptionResponse) (parseEIBnet6_DescriptionResponse p)
  = (r ← as_service SDescriptionResponse (parseEIBnet_DescriptionResponse (as_ipv4 p));
     Ret (option_map (S6Shared ∘ widened) r)).
Proof.
  unfold parseEIBnet6_DescriptionResponse, parseEIBnet_DescriptionResponse.
  cbn [as_ipv4 service p_data]. do 2 both_step.
  destruct (get_device _ _) as [[[v len]|]|]; try done. rewrite !bind_Ret.
  by destruct (slice _ _ _).
Qed.

Create HintDb eibnet6.
#[export] Hint Unfold parseEIBnet6_ConnectionStateResponse parseEIBnet6_DisconnectResponse
  parseEIBnet6_TunnelRequest parseEIBnet6_TunnelACK parseEIBnet6_ConfigRequest
  parseEIBnet6_ConfigACK parseEIBnet_ConnectionStateResponse parseEIBnet_DisconnectResponse
  parseEIBnet_TunnelRequest parseEIBnet_TunnelACK parseEIBnet_ConfigRequest
  parseEIBnet_ConfigACK : eibnet6.

(** On a packet without an address the IPv6 parsers and those of IPv4 agree. *)
Lemma parse_shared6 p :
  service6 p ∉ addressed_service ->
  parse_service6 p
  = (r ← parse_service (as_ipv4 p); Ret (option_map (S6Shared ∘ widened) r)).
Proof.
  unfold addressed_service. rewrite !not_elem_of_cons. intros Hs. destruct_and?.
  unfold parse_service6, parse_service, parsers6, parsers. cbn [pick pick6 as_ipv4 service].
  repeat (rewrite (decide_False (P := service6 p = _)) by done).
  repeat (destruct (decide (service6 p = _)) as [E|_];
    [rewrite E; repeat first [ rewrite decide_False by done | rewrite decide_True by done ];
     first [apply DescriptionResponse6_eq
           | unfold as_service6, as_service; autounfold with eibnet6;
             cbn [as_ipv4 service p_data]; repeat both_step] |
     rewrite ?(decide_False (P := service6 p = _)) by done]).
  done.
Qed.

(** The IPv6 daemon reads the services that carry no address, the tunnel and
    device management traffic, exactly as the IPv4 one: a datagram that IPv4
    reads as a packet of such a service gives the same service, the same refusal
    or the same fault, only that the multicast address of a description response
    is padded with zeros to 16 bytes. *)
Theorem shared_services_as_ipv4 c from f4 p :
  EIBNetIPPacket_fromPacket c f4 = Ret (Some p) -> service p ∉ addressed_service ->
  (r ← EIBNet6IPPacket_fromPacket c from;
   match r with Some p6 => parse_service6 p6 | None => Ret None end)
  = (r ← parse_service (mkPacket (service p) (p_data p) no_addr);
     Ret (option_map (S6Shared ∘ widened) r)).
Proof.
  intros Hp Hs. rewrite (fromPacket6_eq c from f4), Hp, !bind_Ret. simpl option_map.
  cbv iota beta. by rewrite parse_shared6.
Qed.

Lemma shared_services_as_ipv4_witness :
  (r ← EIBNet6IPPacket_fromPacket [6; 16; 4; 33; 0; 10; 4; 1; 7; 0] no_addr6;
   match r with Some p6 => parse_service6 p6 | None => Ret None end)
  = Ret (Some (S6Shared (STunnelACK (mkTunnelACK 1 7 0)))).
Proof.
  rewrite (shared_services_as_ipv4 _ _ no_addr (mkPacket 0x0421 [4; 1; 7; 0] no_addr)); [done|done|].
  apply (bool_decide_unpack _). by vm_compute.
Defined.

(** The encoders of the shared services. *)
Definition shared6_ToPacket (b : EIBnet_service) : option (outcome EIBNet6IPPacket) :=
  match b with
  | SConnectionStateResponse r => Some (ConnectionStateResponse6_ToPacket r)
  | SDisconnectResponse r => Some (DisconnectResponse6_ToPacket r)
  | STunnelRequest r => Some (TunnelRequest6_ToPacket r)
  | STunnelACK r => Some (TunnelACK6_ToPacket r)
  | SConfigRequest r => Some (ConfigRequest6_ToPacket r)
  | SConfigACK r => Some (ConfigACK6_ToPacket r)
  | SDescriptionResponse r => Some (DescriptionResponse6_ToPacket r)
  | _ => None
  end.

Lemma setpart_take c mc start n :
  (n <= size mc)%nat -> setpart c (take n mc) start n = setpart c mc start n.
Proof.
  intros Hn. unfold setpart. unfold size in *. rewrite length_take, Nat.min_l by done.
  do 2 (rewrite (decide_True (P := (n <= _)%nat)) by lia). by rewrite take_take, Nat.min_id.
Qed.

Lemma put_device_narrow d o v :
  (4 <= size (multicastaddr v))%nat -> put_device d o (narrow_multicast v) = put_device d o v.
Proof.
  intros Hm. unfold put_device.
  cbn [narrow_multicast KNXmedium devicestatus individual_addr installid serial multicastaddr MAC
       dev_name services].
  do 9 (match goal with |- (?m ≫= _) = _ => destruct m; [rewrite !bind_Ret|done] end).
  by rewrite setpart_take.
Qed.

(** An encoder of IPv6 builds the packet of the encoder of IPv4. *)
Lemma shared6_encodes b m :
  shared6_ToPacket b = Some m -> service_wf (narrowed b) ->
  m = Ret (as_ipv6 no_addr6 (built (service_body (narrowed b)).1 (service_body (narrowed b)).2)).
Proof.
  intros Hm Hw. pose proof (service_encodes (narrowed b) Hw) as He. unfold encodes in He.
  transitivity (service_ToPacket (narrowed b) ≫= fun p => Ret (as_ipv6 no_addr6 p));
    [|by rewrite He].
  clear He. destruct b as [r|r|r|r|r|r|r|r|r|r|r|r|r|r]; try done;
    cbn [shared6_ToPacket narrowed service_ToPacket] in *; injection Hm as <-;
    unfold ConnectionStateResponse6_ToPacket, DisconnectResponse6_ToPacket,
      TunnelRequest6_ToPacket, TunnelACK6_ToPacket, ConfigRequest6_ToPacket, ConfigACK6_ToPacket,
      DescriptionResponse6_ToPacket, ConnectionStateResponse_ToPacket, DisconnectResponse_ToPacket,
      TunnelRequest_ToPacket, TunnelACK_ToPacket, ConfigRequest_ToPacket, ConfigACK_ToPacket,
      DescriptionResponse_ToPacket; cbv zeta; cbn [desc_device desc_optional].
  all: try rewrite put_device_narrow
         by (destruct Hw as [Hw _]; unfold device_wf in Hw; destruct_and?;
             simpl multicastaddr in *; unfold size in *; rewrite length_take in *; lia).
  all: cbn [narrow_multicast services].
  all: repeat (match goal with |- (?m ≫= _) = _ => destruct m; [rewrite !bind_Ret|done] end); done.
Qed.

Lemma shared_code b m :
  shared6_ToPacket b = Some m -> (service_body (narrowed b)).1 ∉ addressed_service.
Proof. destruct b; try done; intros _; apply (bool_decide_unpack _); by vm_compute. Qed.

(** The round trip of the services without an address over IPv6: what
    [ToPacket] writes, put into a datagram and received, is parsed to the same
    service, if it has the data its parser asks for; of the 16 bytes of a
    multicast address the first four arrive. *)
Theorem shared6_roundtrip b m from :
  shared6_ToPacket b = Some m -> service_wf (narrowed b) -> readable (narrowed b) ->
  (p ← m; c ← EIBNet6IPPacket_ToPacket p; r ← EIBNet6IPPacket_fromPacket c from;
   match r with Some p => parse_service6 p | None => Ret None end)
  = Ret (Some (S6Shared (widened (narrowed b)))).
Proof.
  intros Hm Hw Hr. rewrite (shared6_encodes b m) by done. rewrite bind_Ret, ToPacket6_eq, bind_Ret.
  change (as_ipv4 _) with (built (service_body (narrowed b)).1 (service_body (narrowed b)).2).
  rewrite (fromPacket6_eq _ from no_addr), fromPacket_back by (by apply service_body_wf).
  rewrite !bind_Ret. simpl option_map. cbv iota beta.
  rewrite parse_shared6 by (by eapply shared_code).
  change (as_ipv4 _) with (mkPacket (service_body (narrowed b)).1 (service_body (narrowed b)).2 no_addr).
  rewrite (service_decodes (narrowed b) no_addr Hw Hr). by destruct b.
Qed.

Lemma shared6_roundtrip_witness :
  (p ← DescriptionResponse6_ToPacket (mkDescriptionResponse sample_device []);
   c ← EIBNet6IPPacket_ToPacket p; r ← EIBNet6IPPacket_fromPacket c no_addr6;
   match r with Some p => parse_service6 p | None => Ret None end)
  = Ret (Some (S6Shared (SDescriptionResponse
           (mkDescriptionResponse (widen_multicast sample_device) [])))).
Proof.
  apply (shared6_roundtrip (SDescriptionResponse (mkDescriptionResponse sample_device [])) _ no_addr6
           eq_refl); [|done].
  cbn [narrowed service_wf]. unfold device_wf. split_and!; try decided; simpl; try done; try lia.
Defined.

(** ** The services with an address *)

Definition starts_block (d : CArray) (off : nat) : Prop :=
  d !! off = Some 0x08 /\ d !! (off + 1)%nat = Some 0x01.

#[export] Instance starts_block_dec d off : Decision (starts_block d off).
Proof. unfold starts_block; apply _. Defined.

(** The loop over the sixteen address bytes leaves a buffer that is too short. *)
Lemma get_addr6_short buf n : forall ip calc i,
  size ip = 16%nat -> (i + n <= 16)%nat -> (size buf < 2 + i + n)%nat -> n <> 0%nat ->
  (i + 2 <= size buf)%nat ->
  get_addr6 buf ip calc i n = Fault OutOfRange.
Proof.
  induction n as [|n IH]; intros ip calc i Hip Hn Hb Hnz Hi; [done|]. cbn [get_addr6].
  destruct (decide (2 + i < size buf)%nat) as [Hl|Hl].
  - destruct (at_lt buf (2 + i) Hl) as (b & -> & _). rewrite bind_Ret.
    rewrite put_insert, bind_Ret by lia. apply IH; try lia.
    unfold size in *. by rewrite length_insert.
  - unfold at_. by rewrite lookup_ge_None_2 by (unfold size in *; lia).
Qed.

(** Eight bytes are cut out as the address: they are refused or overrun. *)
Lemma cut_block {A} d off from flag (k : sockaddr_in6 -> bool -> outcome (option A)) :
  (off + 8 <= size d)%nat ->
  (c ← slice d off 8; with_addr6 (EIBnettoIP6 c from flag) k)
  = if decide (starts_block d off) then Fault OutOfRange else Ret None.
Proof.
  intros Hs. rewrite slice_ok, bind_Ret by done. unfold EIBnettoIP6.
  set (c := take 8 (drop off d)).
  assert (size c = 8%nat) as Hc
    by (unfold c, size in *; rewrite length_take, length_drop; lia).
  assert (forall i, (i < 8)%nat -> c !! i = d !! (off + i)%nat) as Hl.
  { intros i Hi. unfold c. by rewrite lookup_take_lt, lookup_drop by done. }
  destruct (at_lt c 0 ltac:(lia)) as (b0 & -> & H0). rewrite bind_Ret.
  destruct (at_lt c 1 ltac:(lia)) as (b1 & -> & H1). rewrite bind_Ret.
  rewrite Hl, Nat.add_0_r in H0 by lia. rewrite Hl in H1 by lia.
  destruct (bool_decide_reflect (b0 <> 8)) as [E0|E0].
  { rewrite decide_False by (intros [? _]; simplify_eq; done). done. }
  destruct (bool_decide_reflect (b1 <> 1)) as [E1|E1].
  { rewrite decide_False by (intros [_ ?]; simplify_eq; done). done. }
  apply dec_stable in E0 as ->, E1 as ->. rewrite (decide_True (P := starts_block d off)) by done. cbv iota delta [orb].
  rewrite get_addr6_short; [done|done|lia|lia|lia|lia].
Qed.

Lemma whole_block {A} d from flag (k : sockaddr_in6 -> bool -> outcome (option A)) :
  size d = 8%nat ->
  with_addr6 (EIBnettoIP6 d from flag) k
  = if decide (starts_block d 0) then Fault OutOfRange else Ret None.
Proof.
  intros Hs. rewrite <-(cut_block d 0 from flag k) by lia.
  by rewrite slice_all, bind_Ret.
Qed.

(** Where the parser of a packet looks for the first address, once the size of
    the packet is accepted. *)
Definition block_at (p : EIBNet6IPPacket) : option nat :=
  let d := p_data6 p in
  if decide (service6 p = CONNECTION_REQUEST) then
    if decide (18 <= size d)%nat then Some 0%nat else None
  else if decide (service6 p = CONNECTION_RESPONSE) then
    if decide ((12 <= size d)%nat /\ d !! 1%nat = Some 0) then Some 2%nat else None
  else if decide (service6 p ∈ [CONNECTIONSTATE_REQUEST; DISCONNECT_REQUEST]) then
    if decide (size d = 10)%nat then Some 2%nat else None
  else if decide (service6 p ∈ [DESCRIPTION_REQUEST; SEARCH_REQUEST]) then
    if decide (size d = 8)%nat then Some 0%nat else None
  else if decide (64 <= size d)%nat then Some 0%nat else None.

(** The one packet with a place for an address that is accepted without one: a
    connection response with an error status. *)
Definition refusal6 (p : EIBNet6IPPacket) : option EIBnet6_service :=
  match p_data6 p with
  | [ch; st] =>
      if decide (service6 p = CONNECTION_RESPONSE /\ st <> 0)
      then Some (S6ConnectResponse (mkConnectResponse6 ch st no_addr6 false [])) else None
  | _ => None
  end.

Definition addressed_result (p : EIBNet6IPPacket) : outcome (option EIBnet6_service) :=
  match block_at p with
  | Some off => if decide (starts_block (p_data6 p) off) then Fault OutOfRange else Ret None
  | None => Ret (refusal6 p)
  end.

Lemma refusal6_other p : service6 p <> CONNECTION_RESPONSE -> refusal6 p = None.
Proof.
  intros Hs. unfold refusal6. destruct (p_data6 p) as [|x [|y [|]]]; try done.
  by rewrite decide_False by tauto.
Qed.

Lemma ConnectResponse6_result p :
  service6 p = CONNECTION_RESPONSE ->
  as_service6 S6ConnectResponse (parseEIBnet6_ConnectResponse p) = addressed_result p.
Proof.
  intros Hs. unfold parseEIBnet6_ConnectResponse, addressed_result, block_at, refusal6.
  rewrite Hs. rewrite decide_False by (by intros []). cbv zeta.
  rewrite (decide_False (P := CONNECTION_RESPONSE = CONNECTION_REQUEST)) by done.
  rewrite (decide_True (P := CONNECTION_RESPONSE = CONNECTION_RESPONSE)) by done.
  destruct (p_data6 p) as [|d0 [|d1 d]] eqn:Ed; [done|done|].
  rewrite (decide_False (P := (size (d0 :: d1 :: d) < 2)%nat)) by (unfold size; simpl; lia).
  cbn [at_ lookup list_lookup]. rewrite !bind_Ret.
  destruct (decide (d1 <> 0)) as [H1|H1].
  - rewrite (decide_False (P := (12 <= _)%nat /\ _)) by (intros [_ [=]]; done).
    destruct d as [|x d]; simpl; [by rewrite decide_True|done].
  - apply dec_stable in H1 as ->. destruct (decide (_ < 12)%nat) as [Hl|Hl].
    + rewrite (decide_False (P := (12 <= _)%nat /\ _)) by (intros []; lia).
      destruct d; [|done]. by rewrite decide_False by (intros []; done).
    + rewrite (decide_True (P := (12 <= _)%nat /\ _)) by (split; [lia|done]).
      rewrite cut_block by lia. by destruct (decide (starts_block _ _)).
Qed.

(** Decide a comparison of two service codes. *)
Ltac pick_code :=
  repeat match goal with
  | |- context [decide (?s = ?t :> Z)] =>
      (rewrite (decide_False (P := s = t)) by done) || (rewrite (decide_True (P := s = t)) by done)
  | |- context [decide (?s ∈ ?l)] =>
      (rewrite (decide_False (P := s ∈ l)) by (apply (bool_decide_unpack _); by vm_compute)) ||
      (rewrite (decide_True (P := s ∈ l)) by (apply (bool_decide_unpack _); by vm_compute))
  end.

(** The other parsers check the size and cut the block. *)
Ltac addressed_tac Hs :=
  unfold addressed_result, block_at; cbv zeta; rewrite refusal6_other, Hs by (by rewrite Hs);
  rewrite (decide_False (P := _ <> _)) by (intros Hn; by apply Hn);
  pick_code.

Lemma ConnectRequest6_result p :
  service6 p = CONNECTION_REQUEST ->
  as_service6 S6ConnectRequest (parseEIBnet6_ConnectRequest p) = addressed_result p.
Proof.
  intros Hs. unfold parseEIBnet6_ConnectRequest. addressed_tac Hs.
  destruct (decide (_ < 18)%nat); [by rewrite (decide_False (P := (18 <= _)%nat)) by lia|].
  rewrite (decide_True (P := (18 <= _)%nat)), cut_block by lia.
  by destruct (decide (starts_block _ _)).
Qed.

Lemma ConnectionStateRequest6_result p :
  service6 p = CONNECTIONSTATE_REQUEST ->
  as_service6 S6ConnectionStateRequest (parseEIBnet6_ConnectionStateRequest p) = addressed_result p.
Proof.
  intros Hs. unfold parseEIBnet6_ConnectionStateRequest. addressed_tac Hs.
  destruct (decide (size _ <> 10%nat)) as [|E]; [by rewrite decide_False|]. apply dec_stable in E.
  rewrite (decide_True (P := size _ = _)), cut_block by lia. by destruct (decide (starts_block _ _)).
Qed.

Lemma DisconnectRequest6_result p :
  service6 p = DISCONNECT_REQUEST ->
  as_service6 S6DisconnectRequest (parseEIBnet6_DisconnectRequest p) = addressed_result p.
Proof.
  intros Hs. unfold parseEIBnet6_DisconnectRequest. addressed_tac Hs.
  destruct (decide (size _ <> 10%nat)) as [|E]; [by rewrite decide_False|]. apply dec_stable in E.
  rewrite (decide_True (P := size _ = _)), cut_block by lia. by destruct (decide (starts_block _ _)).
Qed.

Lemma DescriptionRequest6_result p :
  service6 p = DESCRIPTION_REQUEST ->
  as_service6 S6DescriptionRequest (parseEIBnet6_DescriptionRequest p) = addressed_result p.
Proof.
  intros Hs. unfold parseEIBnet6_DescriptionRequest. addressed_tac Hs.
  destruct (decide (size _ <> 8%nat)) as [|E]; [by rewrite decide_False|]. apply dec_stable in E.
  rewrite (decide_True (P := size _ = _)), whole_block by lia. by destruct (decide (starts_block _ _)).
Qed.

Lemma SearchRequest6_result p :
  service6 p = SEARCH_REQUEST ->
  as_service6 S6SearchRequest (parseEIBnet6_SearchRequest p) = addressed_result p.
Proof.
  intros Hs. unfold parseEIBnet6_SearchRequest. addressed_tac Hs.
  destruct (decide (size _ <> 8%nat)) as [|E]; [by rewrite decide_False|]. apply dec_stable in E.
  rewrite (decide_True (P := size _ = _)), whole_block by lia. by destruct (decide (starts_block _ _)).
Qed.

Lemma SearchResponse6_result p :
  service6 p = SEARCH_RESPONSE ->
  as_service6 S6SearchResponse (parseEIBnet6_SearchResponse p) = addressed_result p.
Proof.
  intros Hs. unfold parseEIBnet6_SearchResponse. addressed_tac Hs.
  destruct (decide (_ < 64)%nat); [by rewrite (decide_False (P := (64 <= _)%nat)) by lia|].
  rewrite (decide_True (P := (64 <= _)%nat)), cut_block by lia.
  by destruct (decide (starts_block _ _)).
Qed.

Lemma parse_addressed6 p : service6 p ∈ addressed_service -> parse_service6 p = addressed_result p.
Proof.
  intros Hs. unfold parse_service6, parsers6. cbn [pick6]. unfold addressed_service in Hs.
  repeat (apply elem_of_cons in Hs as [Hs|Hs];
    [repeat first [ rewrite (decide_True (P := service6 p = _)) by done
                  | rewrite (decide_False (P := service6 p = _)) by (by rewrite Hs) ];
     auto using ConnectRequest6_result, ConnectResponse6_result, ConnectionStateRequest6_result,
       DisconnectRequest6_result, DescriptionRequest6_result, SearchRequest6_result,
       SearchResponse6_result|]).
  by apply elem_of_nil in Hs.
Qed.

(** No service that carries an address is ever accepted over IPv6.  The parser
    of such a packet refuses it or reads behind the eight bytes it has cut out as
    the address block, and it does the latter exactly when the block starts with
    the length and protocol bytes 08 01 that the reader asks for; only a
    connection response with an error status, which has no address, is parsed. *)
Theorem addressed6_never_accepted p :
  service6 p ∈ addressed_service ->
  (parse_service6 p = Fault OutOfRange <->
     exists off, block_at p = Some off /\ starts_block (p_data6 p) off) /\
  (forall b, parse_service6 p = Ret (Some b) ->
     exists ch st, p_data6 p = [ch; st] /\ st <> 0 /\
       b = S6ConnectResponse (mkConnectResponse6 ch st no_addr6 false [])).
Proof.
  intros Hs. rewrite parse_addressed6 by done. unfold addressed_result. split.
  - destruct (block_at p) as [off|]; [|split; [done|by intros (? & [=] & _)]].
    destruct (decide (starts_block _ off)) as [Hb|Hb]; split; try done.
    + intros _. by exists off.
    + by intros (? & [= <-] & ?).
  - intros b. destruct (block_at p) as [off|]; [by destruct (decide (starts_block _ _))|].
    unfold refusal6. destruct (p_data6 p) as [|ch [|st [|]]]; try done.
    destruct (decide _) as [[_ Hst]|]; [|done]. intros [= <-]. eauto 6.
Qed.

Lemma addressed6_never_accepted_witness :
  parse_service6 (built6 SEARCH_REQUEST [8; 1; 0; 0; 0; 0; 0; 0]) = Fault OutOfRange.
Proof.
  apply (addressed6_never_accepted (built6 SEARCH_REQUEST [8; 1; 0; 0; 0; 0; 0; 0])).
  - apply (bool_decide_unpack _). by vm_compute.
  - exists 0%nat. split; [done|]. by split.
Defined.

(** ** The address block *)

Definition addr6_wf (a : sockaddr_in6) : Prop :=
  bytes (sin6_addr a) /\ size (sin6_addr a) = 16%nat /\ is_u16 (sin6_port a).

#[export] Instance addr6_wf_dec a : Decision (addr6_wf a).
Proof. unfold addr6_wf; apply _. Defined.

(** The address as it is put into the block: the port takes the place of its
    bytes 10 and 11. *)
Definition clobbered (a : sockaddr_in6) : CArray :=
  <[10%nat := u8 (sin6_port a)]> (<[11%nat := u8 (sin6_port a ≫ 8)]> (sin6_addr a)).

Definition hpai6 (a : sockaddr_in6) (nat_ : bool) : CArray :=
  0x08 :: 0x01 :: (if nat_ then replicate 16 0 else reverse (clobbered a)).

(** A list of sixteen bytes as its bytes. *)
Ltac sixteen c H := peel c 16%nat; destruct c; [|done]; clear H.

Lemma IPtoEIBNetIP6_eq a n : addr6_wf a -> IPtoEIBNetIP6 a n = Ret (hpai6 a n).
Proof.
  intros (Hb & Hs & Hp). destruct a as [ad pt]. cbn [sin6_addr sin6_port] in *.
  unfold IPtoEIBNetIP6, hpai6, clobbered. rewrite resize_nil. destruct n; [done|].
  sixteen ad Hs. cbn [sin6_addr sin6_port].
  repeat match goal with Hb : bytes (_ :: _) |- _ => apply bytes_cons in Hb as [? Hb] end.
  cbn [put_addr6 replicate put at_ lookup list_lookup mbind outcome_bind Nat.add Nat.sub insert
       list_insert].
  rewrite !Z.shiftr_0_r, !land_ff, !u8_u8. change (u8 8) with 8. change (u8 1) with 1.
  rewrite (u8_small b), (u8_small b0), (u8_small b1), (u8_small b2), (u8_small b3), (u8_small b4),
    (u8_small b5), (u8_small b6), (u8_small b7), (u8_small b8), (u8_small b11), (u8_small b12),
    (u8_small b13), (u8_small b14) by done. done.
Qed.

Lemma hpai6_size a n : addr6_wf a -> size (hpai6 a n) = 18%nat.
Proof.
  intros (_ & Hs & _). unfold hpai6, clobbered, size in *. simpl. destruct n; [done|].
  by rewrite length_reverse, !length_insert, Hs.
Qed.

Lemma lor_zero_step calc b :
  is_u8 calc -> is_u8 b -> u8 (Z.lor calc b) = 0 <-> calc = 0 /\ b = 0.
Proof.
  intros Hc Hb. rewrite <-(u8_small calc), <-(u8_small b) at 1 by done. unfold u8.
  rewrite <-!Z.land_lor_distr_l, <-Z.land_assoc. change (Z.land 255 255) with 255.
  rewrite Z.land_lor_distr_l. fold (u8 calc) (u8 b). rewrite !u8_small by done.
  apply Z.lor_eq_0_iff.
Qed.

(** The loop reads the bytes backwards, and [u8ipCalc] is zero when they all
    are. *)
Lemma get_addr6_eq buf n : forall ip calc i,
  bytes buf -> is_u8 calc -> size ip = 16%nat -> (i + n = 16)%nat -> (18 <= size buf)%nat ->
  exists calc', get_addr6 buf ip calc i n
    = Ret (reverse (take n (drop (2 + i) buf)) ++ drop n ip, calc') /\
  (calc' = 0 <-> calc = 0 /\ take n (drop (2 + i) buf) = replicate n 0).
Proof.
  induction n as [|n IH]; intros ip calc i Hb Hc Hip Hn Hs.
  { exists calc. split; [done|]. split; [done|tauto]. }
  cbn [get_addr6]. destruct (at_lt buf (2 + i)) as (b & -> & Hl); [lia|]. rewrite bind_Ret.
  assert (is_u8 b) as Hb' by (by eapply bytes_lookup).
  rewrite put_insert, bind_Ret, (u8_small b) by (done || lia).
  destruct (IH (<[(15 - i)%nat := b]> ip) (u8 (Z.lor calc b)) (i + 1)%nat) as (c' & -> & Hc');
    [done|apply u8_bound|unfold size in *; by rewrite length_insert|lia|done|].
  exists c'. rewrite (drop_S buf b (2 + i)) by done.
  replace (2 + (i + 1))%nat with (S (2 + i)) in * by lia. cbn [take replicate]. split.
  - do 2 f_equal. rewrite reverse_cons, <-app_assoc. f_equal. simpl.
    rewrite (drop_insert_ge ip n (15 - i)) by lia. replace (15 - i - n)%nat with 0%nat by lia.
    destruct (lookup_lt_is_Some_2 ip n) as [x Hx]; [unfold size in *; lia|].
    by rewrite (drop_S ip x n) by done.
  - rewrite Hc', lor_zero_step by done. split; [intros [[-> ->] ->]; done|].
    intros [-> Hq]. injection Hq as -> Hq. split; [done|exact Hq].
Qed.

(** What is left of an IPv6 address after it is written into an address block
    and read back: the port arrives, and it has overwritten the bytes 10 and 11
    of the address.  Under the NAT flag, and for an address that is zero with its
    port, the address of the sender is taken and the flag is set. *)
Theorem address6_read_back a n from flag :
  addr6_wf a ->
  (c ← IPtoEIBNetIP6 a n; EIBnettoIP6 c from flag)
  = Ret (Some (
      let ip := if n then replicate 16 0 else clobbered a in
      let pt := if n then 0 else sin6_port a in
      let pt := if decide (pt = 0) then sin6_port from else pt in
      if decide (ip = replicate 16 0) then (mkSockaddr6 (sin6_addr from) pt, true)
      else (mkSockaddr6 ip pt, flag))).
Proof.
  intros Ha. rewrite IPtoEIBNetIP6_eq, bind_Ret by done. pose proof (hpai6_size a n Ha) as Hs.
  set (ip := if n then replicate 16 0 else clobbered a).
  assert (hpai6 a n = 0x08 :: 0x01 :: reverse ip) as Hh by (unfold hpai6, ip; by destruct n).
  assert (size ip = 16%nat) as Hip
    by (rewrite Hh in Hs; unfold size in *; simpl in Hs; rewrite length_reverse in Hs; lia).
  assert (bytes ip) as Hb.
  { destruct Ha as (Hb & _ & _). unfold ip, clobbered. destruct n; [apply bytes_replicate|].
    unfold bytes. do 2 (apply Forall_insert; [|apply u8_bound]). done. }
  destruct (get_addr6_eq (hpai6 a n) 16 (replicate 16 0) 0 0) as (c' & Hg & Hc');
    [|done|done|lia|lia|].
  { rewrite Hh. apply bytes_cons. split; [done|]. apply bytes_cons. split; [done|]. by apply Forall_reverse. }
  rewrite Hh in *. cbn [drop Nat.add] in Hg, Hc'.
  rewrite (take_ge (reverse ip)) in Hg, Hc' by (rewrite length_reverse; unfold size in *; lia).
  rewrite reverse_involutive in Hg.
  unfold EIBnettoIP6. rewrite (at_lookup _ 0 8), (at_lookup _ 1 1), !bind_Ret by done.
  change (bool_decide (8 <> 8) || bool_decide (1 <> 1)) with false. cbv iota.
  rewrite Hg, bind_Ret. cbn [fst snd drop replicate]. rewrite app_nil_r.
  set (pt := if n then 0 else sin6_port a).
  rewrite (at_lookup _ 6 (u8 (pt ≫ 8))), (at_lookup _ 7 (u8 pt)), !bind_Ret.
  2,3: destruct Ha as (_ & Hl & _); unfold ip, pt, clobbered; destruct n; [done|];
       destruct a as [ad p]; cbn [sin6_addr sin6_port] in *; sixteen ad Hl; done.
  rewrite be16_split by (unfold pt; destruct n; [done|apply Ha]). cbv zeta.
  destruct (decide (c' = 0)) as [E|E].
  - rewrite (decide_True (P := ip = _)); [done|]. apply Hc' in E as [_ E].
    by rewrite <-(reverse_involutive ip), E.
  - rewrite (decide_False (P := ip = _)); [done|]. intros Ez. apply E, Hc'. split; [done|]. by rewrite Ez.
Qed.

Definition doc_addr6 : sockaddr_in6 :=
  mkSockaddr6 [0x20; 0x01; 0x0d; 0xb8; 0; 0; 0; 0; 0; 0; 0xaa; 0xbb; 0; 0; 0; 1] 3671.

Lemma address6_read_back_witness :
  (c ← IPtoEIBNetIP6 doc_addr6 false; EIBnettoIP6 c no_addr6 false)
  = Ret (Some (mkSockaddr6 [0x20; 0x01; 0x0d; 0xb8; 0; 0; 0; 0; 0; 0; 0x57; 0x0e; 0; 0; 0; 1] 3671,
               false)).
Proof. apply (address6_read_back doc_addr6 false no_addr6 false). decided. Defined.

(** ** What a client sends *)

Definition request6_ToPacket (b : EIBnet6_service) : option (outcome EIBNet6IPPacket) :=
  match b with
  | S6ConnectRequest r => Some (ConnectRequest6_ToPacket r)
  | S6ConnectionStateRequest r => Some (ConnectionStateRequest6_ToPacket r)
  | S6DisconnectRequest r => Some (DisconnectRequest6_ToPacket r)
  | S6DescriptionRequest r => Some (DescriptionRequest6_ToPacket r)
  | S6SearchRequest r => Some (SearchRequest6_ToPacket r)
  | _ => None
  end.

Definition request6_wf (b : EIBnet6_service) : Prop :=
  match b with
  | S6ConnectRequest r =>
      addr6_wf (creq6_caddr r) /\ addr6_wf (creq6_daddr r) /\ bytes (creq6_CRI r)
  | S6ConnectionStateRequest r => addr6_wf (csreq6_caddr r)
  | S6DisconnectRequest r => addr6_wf (dreq6_caddr r)
  | S6DescriptionRequest r => addr6_wf (descreq6_caddr r)
  | S6SearchRequest r => addr6_wf (sreq6_caddr r)
  | _ => True
  end.

Definition request6_code (b : EIBnet6_service) : Z :=
  match b with
  | S6ConnectRequest _ => CONNECTION_REQUEST
  | S6ConnectionStateRequest _ => CONNECTIONSTATE_REQUEST
  | S6DisconnectRequest _ => DISCONNECT_REQUEST
  | S6DescriptionRequest _ => DESCRIPTION_REQUEST
  | _ => SEARCH_REQUEST
  end.

(** The body of a request: its size, and for a connection request its start. *)
Definition request6_body (b : EIBnet6_service) (d : CArray) : Prop :=
  match b with
  | S6ConnectRequest _ => (37 <= size d)%nat /\ starts_block d 0
  | S6ConnectionStateRequest _ | S6DisconnectRequest _ => size d = 20%nat
  | _ => size d = 18%nat
  end.

Lemma channel_block {B} ch blk (k : CArray -> outcome B) :
  size blk = 18%nat ->
  (d ← put (resize [] (size blk + 2)) 0 ch; d ← put d 1 0; d ← setpart_all d blk 2; k d)
  = k (u8 ch :: 0 :: blk).
Proof.
  intros Hs. rewrite Hs, resize_nil. unfold setpart_all.
  change (replicate (18 + 2) 0) with (0 :: 0 :: replicate 18 0).
  cbn [put mbind outcome_bind]. by rewrite !setpart_cons, Hs, setpart_exact.
Qed.

(** Two blocks, a length byte and the rest, written one behind the other. *)
Lemma two_blocks {B} (x y z : CArray) v (k : CArray -> outcome B) :
  (d ← setpart_all (resize [] (size x + size y + 1 + size z)) x 0;
   d ← setpart_all d y (size x);
   d ← put d (size x + size y) v;
   d ← setpart_all d z (size x + size y + 1);
   k d)
  = k (x ++ y ++ u8 v :: z).
Proof.
  rewrite resize_nil. unfold setpart_all.
  rewrite <-Nat.add_assoc, !replicate_add, <-app_assoc. cbn [replicate app Nat.add].
  rewrite setpart_over, bind_Ret by (unfold size; rewrite ?length_app, ?length_replicate; lia).
  rewrite drop_app_length', <-app_assoc by (by rewrite length_replicate). cbn [app].
  rewrite (setpart_mid x (replicate (size y) 0) y) by (unfold size; rewrite ?length_replicate; done).
  rewrite bind_Ret, app_assoc, put_mid by (unfold size; by rewrite length_app). rewrite bind_Ret.
  replace (size x + (size y + 1))%nat with (size ((x ++ y) ++ [u8 v]))
    by (unfold size; rewrite !length_app; simpl; lia).
  change (u8 v :: replicate (size z) 0) with ([u8 v] ++ replicate (size z) 0).
  rewrite (app_assoc (x ++ y)), setpart_app, setpart_exact by done. rewrite !bind_Ret.
  by rewrite <-!app_assoc.
Qed.

Lemma request6_encodes b m :
  request6_ToPacket b = Some m -> request6_wf b ->
  exists d, m = Ret (built6 (request6_code b) d) /\ request6_body b d.
Proof.
  intros Hm Hw. destruct b as [r|r|r|r|r|r|r|r]; try done; injection Hm as <-;
    cbn [request6_wf request6_code request6_body] in *.
  - destruct Hw as (Hc & Hd & Hb). unfold ConnectRequest6_ToPacket.
    rewrite !IPtoEIBNetIP6_eq, !bind_Ret by done. cbv zeta. rewrite two_blocks.
    eexists. split; [done|]. split; [|done].
    pose proof (hpai6_size _ (creq6_nat r) Hc) as H1. pose proof (hpai6_size _ (creq6_nat r) Hd) as H2.
    unfold size in *. rewrite !length_app. simpl length at 3. lia.
  - unfold ConnectionStateRequest6_ToPacket. rewrite IPtoEIBNetIP6_eq, bind_Ret by done.
    pose proof (hpai6_size _ (csreq6_nat r) Hw) as Hs. rewrite channel_block by done.
    eexists. split; [done|]. unfold size in *. cbn [length]. by rewrite Hs.
  - unfold DisconnectRequest6_ToPacket. rewrite IPtoEIBNetIP6_eq, bind_Ret by done.
    pose proof (hpai6_size _ (dreq6_nat r) Hw) as Hs. rewrite channel_block by done.
    eexists. split; [done|]. unfold size in *. cbn [length]. by rewrite Hs.
  - unfold DescriptionRequest6_ToPacket. rewrite IPtoEIBNetIP6_eq, bind_Ret by done.
    eexists. split; [done|]. by apply hpai6_size.
  - unfold SearchRequest6_ToPacket. rewrite IPtoEIBNetIP6_eq, bind_Ret by done.
    eexists. split; [done|]. by apply hpai6_size.
Qed.

(** A client cannot use the IPv6 server: of the requests with an address that
    the IPv6 code itself writes, the connection request makes the receiving
    parser read out of bounds, and the others are refused for their size. *)
Theorem own_requests6_fail b m from :
  request6_ToPacket b = Some m -> request6_wf b ->
  (p ← m; parse_service6 (mkPacket6 (service6 p) (p_data6 p) from))
  = match b with S6ConnectRequest _ => Fault OutOfRange | _ => Ret None end.
Proof.
  intros Hm Hw. destruct (request6_encodes b m Hm Hw) as (d & -> & Hd). rewrite bind_Ret.
  cbn [built6 service6 p_data6].
  assert (request6_code b ∈ addressed_service) as Hc
    by (destruct b; apply (bool_decide_unpack _); by vm_compute).
  rewrite parse_addressed6 by done. unfold addressed_result, block_at, refusal6.
  cbn [service6 p_data6].
  destruct b as [r|r|r|r|r|r|r|r]; try discriminate Hm; cbn [request6_code request6_body] in *; pick_code.
  { destruct Hd as [Hd Hb]. rewrite (decide_True (P := (18 <= size d)%nat)) by lia.
    by rewrite decide_True. }
  1,2: rewrite (decide_False (P := size d = 10%nat)) by lia.
  3,4: rewrite (decide_False (P := size d = 8%nat)) by lia.
  all: destruct d as [|? [|? [|]]]; done.
Qed.

Lemma own_requests6_fail_witness :
  (p ← ConnectRequest6_ToPacket (mkConnectRequest6 doc_addr6 doc_addr6 [4; 2; 0] false);
   parse_service6 (mkPacket6 (service6 p) (p_data6 p) doc_addr6)) = Fault OutOfRange.
Proof.
  apply (own_requests6_fail (S6ConnectRequest (mkConnectRequest6 doc_addr6 doc_addr6 [4; 2; 0] false))
           _ doc_addr6 eq_refl).
  cbn [request6_wf]. split_and!; decided.
Defined.
