(* ===== verification/EibNetSocket.v ===== *)
(** * The UDP socket

    Models [class EIBNetIPSocket] of src/src/libserver/eibnetip.cpp: the output
    queue with its watcher, the filter on senders, and the receive buffer of 255
    bytes.  The results of [sendto] and [recvfrom] are inputs; the callbacks
    [on_recv], [on_next] and [on_error] and the datagrams that leave are events.

    The theorems: packets leave in the order they were given to [Send], none is
    lost but after seven failures, the queue never waits without its watcher, and
    a tunnelled frame that arrives here can always be sent on. *)

From S2P Require Import Prelude CArray Common Apdu ApduSpec ApduRound Lpdu LpduSpec Emi.
From S2P Require Import EibNetIp EibNetIpSpec.

(** The constructor leaves [send_error], [paused] and [localaddr] as they are. *)
Record EIBNetIPSocket := mkSocket {
  fd_open : bool;
  io_recv : bool;
  io_send : bool;
  send_error : Z;
  send_q : list (EIBNetIPPacket * sockaddr_in);
  recvaddr : sockaddr_in;
  recvaddr2 : sockaddr_in;
  localaddr : sockaddr_in;
  paused : bool;
  recvall : Z
}.

Inductive sock_event :=
| Sendto (c : CArray) (addr : sockaddr_in)
| OnNext
| OnError
| OnRecv (p : EIBNetIPPacket).

(** What [sendto] returned: a count, or -1 with an error that is transient
    ([EAGAIN], [EWOULDBLOCK], [EINTR]) or not. *)
Inductive send_result := Sent (i : nat) | SendAgain | SendFailed.

(** What [recvfrom] returned: a datagram and its sender, or an error. *)
Inductive recv_result := Received (c : CArray) (from : sockaddr_in) | RecvAgain | RecvFailed.

Definition set_watch (s : EIBNetIPSocket) (fd r w : bool) : EIBNetIPSocket :=
  mkSocket fd r w (send_error s) (send_q s) (recvaddr s) (recvaddr2 s) (localaddr s) (paused s)
    (recvall s).
Definition set_queue (s : EIBNetIPSocket) (w : bool) (e : Z) q : EIBNetIPSocket :=
  mkSocket (fd_open s) (io_recv s) w e q (recvaddr s) (recvaddr2 s) (localaddr s) (paused s)
    (recvall s).
Definition set_paused (s : EIBNetIPSocket) (p r : bool) : EIBNetIPSocket :=
  mkSocket (fd_open s) r (io_send s) (send_error s) (send_q s) (recvaddr s) (recvaddr2 s)
    (localaddr s) p (recvall s).

Definition sock_stop (s : EIBNetIPSocket) : EIBNetIPSocket :=
  if fd_open s then set_watch s false false false else s.

Definition sock_pause (s : EIBNetIPSocket) : EIBNetIPSocket :=
  if paused s then s else set_paused s true false.

Definition sock_unpause (s : EIBNetIPSocket) : EIBNetIPSocket :=
  if paused s then set_paused s false true else s.

Definition sock_init (s : EIBNetIPSocket) : EIBNetIPSocket * bool :=
  if fd_open s then (set_watch s (fd_open s) true (io_send s), true) else (s, false).

Definition sock_Send (s : EIBNetIPSocket) (p : EIBNetIPPacket) (addr : sockaddr_in)
  : EIBNetIPSocket :=
  set_queue s (match send_q s with [] => true | _ => io_send s end) (send_error s)
    (send_q s ++ [(p, addr)]).

Definition io_send_cb (s : EIBNetIPSocket) (r : send_result)
  : outcome (EIBNetIPSocket * list sock_event) :=
  match send_q s with
  | [] => Ret (set_queue s false (send_error s) [], [OnNext])
  | (p, addr) :: q =>
      c ← EIBNetIPPacket_ToPacket p;
      let failed :=
        if decide (send_error s > 5)
        then (set_queue s (io_send s) 0 q, [OnError])
        else (set_queue s (io_send s) (send_error s + 1) (send_q s), []) in
      match r with
      | Sent (S _) => Ret (set_queue s (io_send s) 0 q, [Sendto c addr])
      | SendAgain => Ret (s, [])
      | Sent O | SendFailed => Ret failed
      end
  end.

Definition sender_ok (s : EIBNetIPSocket) (r : sockaddr_in) : bool :=
  bool_decide (recvall s = 1) || bool_decide (r = recvaddr s) ||
  (bool_decide (recvall s = 2) && bool_decide (r <> localaddr s)) ||
  (bool_decide (recvall s = 3) && bool_decide (r = recvaddr2 s)).

(** [uchar buf[255]]: the rest of a longer datagram is discarded. *)
Definition recv_buffer : nat := 255.

Definition io_recv_cb (s : EIBNetIPSocket) (r : recv_result) : outcome (list sock_event) :=
  match r with
  | RecvFailed => Ret [OnError]
  | RecvAgain => Ret []
  | Received c from =>
      if sender_ok s from then
        p ← EIBNetIPPacket_fromPacket (take recv_buffer c) from;
        Ret (match p with Some p => [OnRecv p] | None => [] end)
      else Ret []
  end.

(** ** Runs *)

Inductive sock_input :=
| InSend (p : EIBNetIPPacket) (addr : sockaddr_in)
| InWritable (r : send_result).

(** The event loop calls [io_send_cb] only while the watcher is active. *)
Definition sock_step (s : EIBNetIPSocket) (i : sock_input)
  : outcome (EIBNetIPSocket * list sock_event) :=
  match i with
  | InSend p addr => Ret (sock_Send s p addr, [])
  | InWritable r => if io_send s then io_send_cb s r else Ret (s, [])
  end.

Fixpoint sock_run (s : EIBNetIPSocket) (ins : list sock_input)
  : outcome (EIBNetIPSocket * list sock_event) :=
  match ins with
  | [] => Ret (s, [])
  | i :: ins =>
      '(s, es) ← sock_step s i;
      '(s, es') ← sock_run s ins;
      Ret (s, es ++ es')
  end.

(** What [Send] was called with, and what left the queue: the datagrams that were
    sent, and a gap for each packet that was dropped. *)
Definition accepted (ins : list sock_input) : list (EIBNetIPPacket * sockaddr_in) :=
  omap (fun i => match i with InSend p a => Some (p, a) | _ => None end) ins.

Definition left_queue (es : list sock_event) : list (option (CArray * sockaddr_in)) :=
  omap (fun e => match e with
                 | Sendto c a => Some (Some (c, a))
                 | OnError => Some None
                 | _ => None end) es.

Definition is_failure (i : sock_input) : bool :=
  match i with InWritable SendFailed | InWritable (Sent O) => true | _ => false end.

Definition hard_failures (ins : list sock_input) : Z :=
  Z.of_nat (length (List.filter is_failure ins)).

Definition drops (es : list sock_event) : Z :=
  Z.of_nat (length (List.filter (fun e => match e with OnError => true | _ => false end) es)).

(** The first elements of a queue left it as the datagrams they encode to, or
    were dropped. *)
Definition left_as (l : option (CArray * sockaddr_in)) (e : EIBNetIPPacket * sockaddr_in) : Prop :=
  match l with
  | None => True
  | Some (c, a) => a = e.2 /\ EIBNetIPPacket_ToPacket e.1 = Ret c
  end.

Definition leaves (ls : list (option (CArray * sockaddr_in))) (q q' : list (EIBNetIPPacket * sockaddr_in)) : Prop :=
  exists front, q = front ++ q' /\ Forall2 left_as ls front.

Lemma leaves_nil q : leaves [] q q.
Proof. by exists []. Qed.

Lemma leaves_app l1 l2 q q1 q2 x :
  leaves l1 q q1 -> leaves l2 (q1 ++ x) q2 -> leaves (l1 ++ l2) (q ++ x) q2.
Proof.
  intros (f1 & -> & H1) (f2 & E & H2). exists (f1 ++ f2).
  rewrite <-!app_assoc, E. split; [done|]. by apply Forall2_app.
Qed.

(** One step: what it removes, what it counts, and that it returns. *)
Definition step_post (s : EIBNetIPSocket) (i : sock_input) (r : EIBNetIPSocket * list sock_event) : Prop :=
  let '(s', es) := r in
  leaves (left_queue es) (send_q s ++ accepted [i]) (send_q s') /\
  0 <= send_error s' <= 6 /\
  send_error s' + 7 * drops es <= send_error s + hard_failures [i] /\
  (send_q s' <> [] -> io_send s' = true).

Definition sock_inv (s : EIBNetIPSocket) : Prop :=
  0 <= send_error s <= 6 /\ (send_q s <> [] -> io_send s = true).

#[export] Instance sock_inv_dec s : Decision (sock_inv s).
Proof.
  unfold sock_inv. apply and_dec; [apply _|]. destruct (send_q s); [left; done|].
  destruct (io_send s) eqn:E; [left; done|right; intros H; by specialize (H ltac:(done))].
Defined.

Lemma sock_step_post s i : sock_inv s -> returns_with (step_post s i) (sock_step s i).
Proof.
  intros [He Hw]. destruct i as [p a|r]; cbn [sock_step].
  { apply returns_with_Ret. unfold step_post, sock_Send, drops, hard_failures. simpl. split_and!; try lia.
    - apply leaves_nil.
    - intros _. destruct (send_q s); [done|]. by apply Hw. }
  destruct (io_send s) eqn:Ew.
  2: { apply returns_with_Ret. unfold step_post. simpl. rewrite app_nil_r. split_and!; try lia; try done.
       - apply leaves_nil.
       - unfold drops, hard_failures. simpl. destruct r as [[]| |]; simpl; lia.
       - by rewrite Ew. }
  unfold io_send_cb. destruct (send_q s) as [|[p a] q] eqn:Eq.
  { apply returns_with_Ret. unfold step_post, drops, hard_failures. rewrite Eq. simpl. split_and!; try lia; try done.
    all: first [apply leaves_nil | destruct r as [[]| |]; simpl; lia]. }
  rewrite ToPacket_eq, bind_Ret.
  assert (leaves [Some (packet_bytes p, a)] ((p, a) :: q) q) as Hs.
  { exists [(p, a)]. split; [done|]. constructor; [|done]. split; [done|]. apply ToPacket_eq. }
  assert (leaves [None] ((p, a) :: q) q) as Hd by (exists [(p, a)]; by repeat constructor).
  destruct r as [[|n]| |]; try (destruct (decide (send_error s > 5))); apply returns_with_Ret;
    unfold step_post, drops, hard_failures; simpl; rewrite ?Eq, ?Ew, ?app_nil_r;
    split_and!; try lia; try done; apply leaves_nil.
Qed.

Lemma drops_app es es' : drops (es ++ es') = drops es + drops es'.
Proof. unfold drops. rewrite List.filter_app, length_app. lia. Qed.

Lemma hard_failures_cons i ins : hard_failures (i :: ins) = hard_failures [i] + hard_failures ins.
Proof. unfold hard_failures. simpl. destruct (is_failure i); simpl; lia. Qed.

(** The output queue of the UDP socket: whatever calls of [Send] come and
    however [sendto] fails, the packets leave in the order they were given to
    [Send], each as the datagram it encodes to; a packet is given up only after
    at least seven failures that are not transient; and while a packet is
    waiting the write watcher is active. *)
Theorem send_queue_fifo s ins :
  sock_inv s ->
  exists s' es, sock_run s ins = Ret (s', es) /\ sock_inv s' /\
    leaves (left_queue es) (send_q s ++ accepted ins) (send_q s') /\
    7 * drops es <= send_error s + hard_failures ins.
Proof.
  intros Hs. cut (exists s' es, sock_run s ins = Ret (s', es) /\ sock_inv s' /\
    leaves (left_queue es) (send_q s ++ accepted ins) (send_q s') /\
    send_error s' + 7 * drops es <= send_error s + hard_failures ins).
  { intros (s' & es & ? & Hi & ? & ?). exists s', es. split_and!; try done. destruct Hi. lia. }
  revert s Hs. induction ins as [|i ins IH]; intros s Hs.
  { exists s, []. split_and!; [done|done| |unfold drops, hard_failures; simpl; lia].
    simpl. rewrite app_nil_r. apply leaves_nil. }
  destruct (sock_step_post s i Hs) as ([s1 es1] & E1 & Hl & He & Hc & Hw).
  destruct (IH s1) as (s2 & es2 & E2 & Hi & Hl2 & Hc2); [by split|].
  exists s2, (es1 ++ es2). cbn [sock_run]. rewrite E1. cbn [mbind outcome_bind]. rewrite E2.
  split_and!; [done|done| |].
  - unfold left_queue. rewrite omap_app.
    change (i :: ins) with ([i] ++ ins). unfold accepted. rewrite omap_app, app_assoc.
    eapply leaves_app; [exact Hl | exact Hl2].
  - rewrite drops_app, hard_failures_cons. lia.
Qed.

Definition idle_socket : EIBNetIPSocket :=
  mkSocket true true false 0 [] no_addr no_addr no_addr false 1.

Definition two_sends : list sock_input :=
  [InSend (built SEARCH_REQUEST (hpai no_addr true)) no_addr; InWritable SendAgain;
   InSend (built TUNNEL_RESPONSE [4; 1; 0; 0]) no_addr] ++
  replicate 7 (InWritable SendFailed) ++ [InWritable (Sent 10)].

Lemma send_queue_fifo_witness :
  sock_run idle_socket two_sends
  = Ret (set_queue idle_socket true 0 [],
         [OnError; Sendto [6; 16; 4; 33; 0; 10; 4; 1; 0; 0] no_addr]) /\
  exists s' es, sock_run idle_socket two_sends = Ret (s', es) /\ sock_inv s' /\
    leaves (left_queue es) (send_q idle_socket ++ accepted two_sends) (send_q s') /\
    7 * drops es <= send_error idle_socket + hard_failures two_sends.
Proof. split; [vm_compute; reflexivity|]. apply (send_queue_fifo idle_socket two_sends). decided. Defined.

(** Once the network accepts datagrams, the output queue is emptied: as many
    calls of the write watcher as there are packets send all of them in order,
    and the next one stops the watcher and asks for more. *)
Theorem queue_flushes s :
  io_send s = true ->
  exists s', sock_run s (replicate (S (length (send_q s))) (InWritable (Sent 1)))
             = Ret (s', ((fun e => Sendto (packet_bytes e.1) e.2) <$> send_q s) ++ [OnNext]) /\
    send_q s' = [] /\ io_send s' = false.
Proof.
  remember (send_q s) as q eqn:Eq. revert s Eq.
  induction q as [|[p a] q IH]; intros s Eq Hw.
  - exists (set_queue s false (send_error s) []). cbn [length replicate sock_run sock_step].
    unfold io_send_cb. by rewrite Hw, <-Eq.
  - destruct (IH (set_queue s true 0 q)) as (s' & E & Hq & Hs); [done|done|].
    exists s'. split_and!; [|done|done]. cbn [length]. rewrite replicate_S.
    cbn [sock_run sock_step]. unfold io_send_cb. rewrite Hw, <-Eq, ToPacket_eq.
    cbn [mbind outcome_bind]. rewrite E. done.
Qed.

Lemma queue_flushes_witness :
  exists s', sock_run (sock_Send idle_socket (built TUNNEL_RESPONSE [4; 1; 0; 0]) no_addr)
               [InWritable (Sent 1); InWritable (Sent 1)]
             = Ret (s', [Sendto [6; 16; 4; 33; 0; 10; 4; 1; 0; 0] no_addr; OnNext]) /\
    send_q s' = [] /\ io_send s' = false.
Proof. apply (queue_flushes (sock_Send idle_socket (built TUNNEL_RESPONSE [4; 1; 0; 0]) no_addr)). reflexivity. Defined.

(** ** Receiving *)

Lemma io_recv_cb_inv s c from p es :
  bytes c -> io_recv_cb s (Received c from) = Ret (OnRecv p :: es) ->
  sender_ok s from = true /\ packet_wf p /\ (size (p_data p) <= 249)%nat /\ src p = from /\ es = [].
Proof.
  intros Hc. simpl. destruct (sender_ok s from); [|done].
  intros ([p'|] & E & [= -> <-])%bind_Ret_inv.
  apply fromPacket_inv in E as (Hp & Hs & _ & Hf); [|by apply bytes_take].
  split_and!; try done. unfold size in *. rewrite length_take in Hs. unfold recv_buffer in Hs. lia.
Qed.

Lemma CEMI_to_L_Data_size d l :
  bytes d -> CEMI_to_L_Data d = Ret (Some l) -> (size (data l) + 9 <= size d)%nat.
Proof.
  intros Hd. unfold CEMI_to_L_Data. destruct (decide _); [done|].
  intros (d1 & _ & H)%bind_Ret_inv. cbv zeta in H. destruct (decide _); [done|].
  apply bind_Ret_inv in H as (len & _ & H). destruct (decide _); [done|].
  do 4 apply bind_Ret_inv in H as (? & _ & H).
  apply bind_Ret_inv in H as (payload & Hp & H).
  do 3 apply bind_Ret_inv in H as (? & _ & H).
  destruct (_ && _); [done|]. simplify_eq/=.
  unfold slice in Hp. destruct (decide _); [|done]. simplify_eq.
  unfold size in *. rewrite length_take, length_drop. lia.
Qed.

Lemma TunnelRequest_inv p r :
  bytes (p_data p) -> parseEIBnet_TunnelRequest p = Ret (Some r) ->
  bytes (treq_CEMI r) /\ size (p_data p) = (4 + size (treq_CEMI r))%nat.
Proof.
  intros Hb. unfold parseEIBnet_TunnelRequest. destruct (decide _); [done|].
  destruct (decide _); [done|]. intros (d0 & _ & H)%bind_Ret_inv. destruct (decide _); [done|].
  do 2 apply bind_Ret_inv in H as (? & _ & H). apply bind_Ret_inv in H as (c & Hc & H).
  simplify_eq/=. rewrite slice_ok in Hc by lia. simplify_eq. unfold size in *.
  split; [by apply bytes_take, bytes_drop|]. rewrite length_take, length_drop. lia.
Qed.

(** A frame that arrives in a tunnelling request over UDP can be sent on: its
    datagram was cut at 255 bytes, so whatever it holds, if the request and the
    CEMI frame in it are accepted then [L_Data_ToCEMI], with which the server
    confirms and the tunnels forward it, does not fail its assertion, and neither
    do the encoders of the busses. *)
Theorem tunnelled_frame_forwardable s c from p es r l code :
  bytes c ->
  io_recv_cb s (Received c from) = Ret (OnRecv p :: es) ->
  parseEIBnet_TunnelRequest p = Ret (Some r) ->
  CEMI_to_L_Data (treq_CEMI r) = Ret (Some l) ->
  returns (L_Data_ToCEMI code l) /\ returns (L_Data_ToPacket l) /\ returns (L_Data_Decode l).
Proof.
  intros Hc Hrec Ht Hl. apply io_recv_cb_inv in Hrec as (_ & (_ & Hb & _) & Hs & _); [|done].
  apply TunnelRequest_inv in Ht as [Hcb Hsz]; [|done].
  pose proof (CEMI_to_L_Data_size _ _ Hcb Hl) as Hn.
  destruct (CEMI_to_L_Data_wf _ Hcb) as (o & E & Hw). rewrite Hl in E. simplify_eq.
  rewrite L_Data_ToCEMI_eq, L_Data_ToPacket_eq by (done || lia).
  split; [by eexists|]. split; [by eexists|]. apply L_Data_Decode_returns; [done|lia].
Qed.

(** A group write in a tunnelling request. *)
Definition tunnel_cemi : CArray := [0x11; 0; 0xBC; 0xE0; 0; 0; 0x08; 0x01; 1; 0; 0x81].
Definition tunnel_datagram : CArray := [6; 16; 4; 32; 0; 21; 4; 1; 0; 0] ++ tunnel_cemi.
Definition tunnel_packet : EIBNetIPPacket :=
  mkPacket TUNNEL_REQUEST ([4; 1; 0; 0] ++ tunnel_cemi) (mkSockaddr 0x0A000001 4000).
Definition tunnel_ldata : L_Data_PDU :=
  mkL_Data PRIO_LOW false true true GroupAddress 0 0x0801 6 [0; 0x81].

Lemma tunnelled_frame_forwardable_witness :
  returns (L_Data_ToCEMI 0x2E tunnel_ldata) /\ returns (L_Data_ToPacket tunnel_ldata) /\
  returns (L_Data_Decode tunnel_ldata).
Proof.
  apply (tunnelled_frame_forwardable idle_socket tunnel_datagram (mkSockaddr 0x0A000001 4000)
           tunnel_packet [] (mkTunnelRequest 1 0 tunnel_cemi) tunnel_ldata 0x2E);
    [decided|vm_compute; reflexivity..].
Defined.
