(* ===== verification/Filters.v ===== *)
(** * Filters

    Models the filters that change what flows between a link and its driver:
    [NatL2Filter] and [MapL2Filter] (src/src/backend/nat.cpp), [QueueFilter]
    (src/src/backend/fqueue.cpp) and [PaceFilter] (src/src/backend/fpace.cpp).

    A filter on top of a stack is a stack again: each filter is an instance of
    [Driver] over any stack below it, with the laws the router relies on, so that
    the theorems on links and router hold for every combination of them.  What
    a filter does with a callback from below is a function of its own; the
    callbacks it passes on are part of its result. *)

From stdpp Require Import gmap.
From S2P Require Import Prelude CArray Common Lpdu Link Router.

(** ** Address translation *)

Record phys_comm := mkPhys { pc_src : Z; pc_dest : Z }.

Fixpoint addReverseAddress (revaddr : list phys_comm) (src dest : Z) : list phys_comm :=
  match revaddr with
  | [] => [mkPhys src dest]
  | i :: revaddr =>
      if decide (pc_dest i = dest) then
        (if decide (pc_src i <> src) then mkPhys src (pc_dest i) else i) :: revaddr
      else i :: addReverseAddress revaddr src dest
  end.

Fixpoint getDestinationAddress (revaddr : list phys_comm) (src : Z) : Z :=
  match revaddr with
  | [] => 0
  | i :: revaddr => if decide (pc_dest i = src) then pc_src i else getDestinationAddress revaddr src
  end.

(** [NatL2Filter] and [MapL2Filter] with the stack below them. *)
Record NatFilter (D : Type) := mkNat {
  nat_remap : bool; revaddr : list phys_comm; nat_addr : Z; nat_drv : D }.
Arguments mkNat {D}.
Arguments nat_remap {D}.
Arguments revaddr {D}.
Arguments nat_addr {D}.
Arguments nat_drv {D}.

Definition set_revaddr {D} (f : NatFilter D) rs : NatFilter D :=
  mkNat (nat_remap f) rs (nat_addr f) (nat_drv f).
Definition set_nat_drv {D} (f : NatFilter D) d : NatFilter D :=
  mkNat (nat_remap f) (revaddr f) (nat_addr f) d.

(** [NatL2Filter::send_L_Data] up to the call of the next filter, and the rest of
    the methods in the same way; a receiver that drops the frame gives [None]. *)
Definition NatL2Filter_send {D} (f : NatFilter D) (l : L_Data_PDU) : NatFilter D * L_Data_PDU :=
  let f := if decide (AddrType l = IndividualAddress)
           then set_revaddr f (addReverseAddress (revaddr f) (source l) (dest l)) else f in
  (f, with_source l (nat_addr f)).

Definition NatL2Filter_recv {D} (f : NatFilter D) (l : L_Data_PDU) : option L_Data_PDU :=
  if decide (source l = nat_addr f) then None
  else Some (if decide (AddrType l = IndividualAddress)
             then with_dest l (getDestinationAddress (revaddr f) (source l)) else l).

Definition MapL2Filter_send {D} (f : NatFilter D) (l : L_Data_PDU) : L_Data_PDU :=
  if decide (AddrType l = IndividualAddress) then
    let d := getDestinationAddress (revaddr f) (source l) in
    with_dest l (if decide (d = 0) then nat_addr f else d)
  else l.

Definition MapL2Filter_recv {D} (f : NatFilter D) (l : L_Data_PDU) : NatFilter D * L_Data_PDU :=
  let f := if decide (AddrType l = IndividualAddress)
           then set_revaddr f (addReverseAddress (revaddr f) (source l) (dest l)) else f in
  (f, with_source l (nat_addr f)).

Section NatDriver.
Context {D : Type} `{Driver D}.

#[export] Instance NatDriver : Driver (NatFilter D) := {
  drv_start f := let '(d, cs) := drv_start (nat_drv f) in (set_nat_drv f d, cs);
  drv_stop f := let '(d, cs) := drv_stop (nat_drv f) in (set_nat_drv f d, cs);
  drv_send_L_Data f l :=
    let '(f, l) := if nat_remap f then (f, MapL2Filter_send f l) else NatL2Filter_send f l in
    let '(d, cs) := drv_send_L_Data (nat_drv f) l in (set_nat_drv f d, cs);
  drv_hasAddress f := drv_hasAddress (nat_drv f);
  drv_addAddress f a := set_nat_drv f (drv_addAddress (nat_drv f) a);
  drv_checkAddress f := drv_checkAddress (nat_drv f);
  drv_checkGroupAddress f := drv_checkGroupAddress (nat_drv f)
}.

#[export] Instance NatDriver_quiet `{!QuietDriver D} : QuietDriver (NatFilter D).
Proof.
  constructor. intros f p. simpl. destruct (nat_remap f); simpl;
    match goal with |- context [drv_send_L_Data ?d ?l] =>
      pose proof (drv_send_quiet d l); by destruct (drv_send_L_Data d l) end.
Qed.

#[export] Instance NatDriver_laws `{!DriverLaws D} : DriverLaws (NatFilter D).
Proof. constructor. intros f a b. apply (drv_has_add (nat_drv f)). Qed.

(** *** The table is a finite map *)

Fixpoint nat_table (rs : list phys_comm) : gmap Z Z :=
  match rs with
  | [] => ∅
  | i :: rs => <[pc_dest i := pc_src i]> (nat_table rs)
  end.

Lemma nat_table_add rs s d : nat_table (addReverseAddress rs s d) = <[d := s]> (nat_table rs).
Proof.
  induction rs as [|i rs IH]; [done|]. simpl.
  destruct (decide (pc_dest i = d)) as [<-|Hd]; simpl.
  - rewrite insert_insert_eq. by destruct (decide _) as [|E%dec_stable]; subst.
  - rewrite IH. by rewrite insert_insert_ne.
Qed.

Lemma getDestinationAddress_eq rs a :
  getDestinationAddress rs a = default 0 (nat_table rs !! a).
Proof.
  induction rs as [|i rs IH]; [done|]. simpl.
  destruct (decide (pc_dest i = a)) as [<-|Hd]; [by rewrite lookup_insert_eq|].
  by rewrite lookup_insert_ne.
Qed.

(** The frames to individual addresses a filter has seen, and the source of the
    last of them that went to [d]. *)
Fixpoint last_sender (ls : list L_Data_PDU) (d : Z) (z : Z) : Z :=
  match ls with
  | [] => z
  | l :: ls =>
      last_sender ls d (if decide (AddrType l = IndividualAddress /\ dest l = d) then source l else z)
  end.

Definition nat_sends (f : NatFilter D) (ls : list L_Data_PDU) : NatFilter D :=
  fold_left (fun f l => (NatL2Filter_send f l).1) ls f.

Lemma nat_sends_lookup f ls d :
  getDestinationAddress (revaddr (nat_sends f ls)) d
  = last_sender ls d (getDestinationAddress (revaddr f) d).
Proof.
  revert f. induction ls as [|l ls IH]; intros f; [done|]. simpl. rewrite IH. f_equal.
  unfold NatL2Filter_send. destruct (AddrType l); simpl; [done|].
  rewrite !getDestinationAddress_eq, nat_table_add.
  destruct (decide (IndividualAddress = IndividualAddress /\ dest l = d)) as [[_ Hd]|Hd].
  - rewrite Hd. by rewrite lookup_insert_eq.
  - rewrite lookup_insert_ne; [done|]. intros E. by apply Hd.
Qed.

Lemma nat_sends_addr f ls : nat_addr (nat_sends f ls) = nat_addr f.
Proof.
  revert f. induction ls as [|l ls IH]; intros f; [done|]. simpl. rewrite IH.
  unfold NatL2Filter_send. by destruct (decide _).
Qed.
End NatDriver.

(** C38: behind the [single] filter all senders share one address and still get
    their replies: every frame leaves with the filter's own address as source
    and is otherwise unchanged; and whatever was sent before, a frame that
    comes back from the device [d] to an individual address is delivered to the
    sender of the last frame to [d] (to nobody if there was none), while frames
    that carry the filter's own address are dropped. *)
Theorem nat_translates {D} `{Driver D} (f : NatFilter D) ls l :
  (NatL2Filter_send f l).2 = with_source l (nat_addr f) /\
  NatL2Filter_recv (nat_sends f ls) l =
    (if decide (source l = nat_addr f) then None
     else Some (if decide (AddrType l = IndividualAddress)
                then with_dest l (last_sender ls (source l) (getDestinationAddress (revaddr f) (source l)))
                else l)).
Proof.
  split.
  - unfold NatL2Filter_send. by destruct (decide _).
  - unfold NatL2Filter_recv. by rewrite nat_sends_addr, nat_sends_lookup.
Qed.

(** ** The queue *)

Inductive QSTATE := Q_DOWN | Q_IDLE | Q_BUSY | Q_SENDING.

#[export] Instance QSTATE_eq_dec : EqDecision QSTATE.
Proof. solve_decision. Defined.

Record QueueFilter (D : Type) := mkQueue {
  q_state : QSTATE; q_buf : list L_Data_PDU; q_trigger : bool; q_drv : D }.
Arguments mkQueue {D}.
Arguments q_state {D}.
Arguments q_buf {D}.
Arguments q_trigger {D}.
Arguments q_drv {D}.

Section Queue.
Context {D : Type} `{Driver D} {HQ : QuietDriver D} {HL : DriverLaws D}.

Local Abbreviation queue := (QueueFilter D).

Definition set_q (f : queue) (s : QSTATE) : queue := mkQueue s (q_buf f) (q_trigger f) (q_drv f).
Definition set_qbuf (f : queue) b : queue := mkQueue (q_state f) b (q_trigger f) (q_drv f).
Definition set_qtrigger (f : queue) t : queue := mkQueue (q_state f) (q_buf f) t (q_drv f).
Definition set_qdrv (f : queue) d : queue := mkQueue (q_state f) (q_buf f) (q_trigger f) d.

(** The callbacks from below; [q_send_Next] tells nobody above. *)
Definition q_started (f : queue) : queue :=
  match q_state f with Q_DOWN => set_q f Q_IDLE | _ => f end.

Definition q_stopped (f : queue) : queue := set_q (set_qbuf f []) Q_DOWN.

Definition q_send_Next (f : queue) : queue :=
  match q_state f with
  | Q_DOWN | Q_IDLE => f
  | Q_BUSY => set_q (set_qtrigger f true) Q_IDLE
  | Q_SENDING => set_q f Q_IDLE
  end.

Definition q_callback (f : queue) (c : callback) : queue * list callback :=
  match c with
  | C_started => (q_started f, [C_started])
  | C_stopped => (q_stopped f, [C_stopped])
  | C_errored => (f, [C_errored])
  | C_send_Next => (q_send_Next f, [])
  end.

Fixpoint q_callbacks (f : queue) (cs : list callback) : queue * list callback :=
  match cs with
  | [] => (f, [])
  | c :: cs =>
      let '(f, up) := q_callback f c in
      let '(f, up') := q_callbacks f cs in (f, up ++ up')
  end.

(** The loop of [QueueFilter::trigger_cb], with the frames it hands on. *)
Fixpoint q_loop (fuel : nat) (f : queue) : queue * list L_Data_PDU * list callback :=
  match fuel, q_buf f with
  | S fuel, l :: rest =>
      if decide (q_state f = Q_IDLE) then
        let f := set_q (set_qbuf f rest) Q_SENDING in
        let '(d, cs) := drv_send_L_Data (q_drv f) l in
        let '(f, up) := q_callbacks (set_qdrv f d) cs in
        let '(f, sent, up') := q_loop fuel f in (f, l :: sent, up ++ up')
      else (f, [], [])
  | _, _ => (f, [], [])
  end.

Definition q_trigger_cb (f : queue) : queue * list L_Data_PDU * list callback :=
  let f := set_qtrigger f false in
  let '(f, sent, up) := q_loop (length (q_buf f)) f in
  (if decide (q_state f = Q_SENDING) then set_q f Q_BUSY else f, sent, up).

Definition q_send_L_Data (f : queue) (l : L_Data_PDU) : queue * list callback :=
  match q_state f with
  | Q_DOWN => (f, [])
  | Q_IDLE => (set_qbuf (set_qtrigger f true) (q_buf f ++ [l]), [C_send_Next])
  | Q_BUSY | Q_SENDING => (set_qbuf f (q_buf f ++ [l]), [C_send_Next])
  end.

#[export] Instance QueueDriver : Driver (QueueFilter D) := {
  drv_start f := let '(d, cs) := drv_start (q_drv f) in q_callbacks (set_qdrv f d) cs;
  drv_stop f := let '(d, cs) := drv_stop (q_drv f) in q_callbacks (set_qdrv f d) cs;
  drv_send_L_Data := q_send_L_Data;
  drv_hasAddress f := drv_hasAddress (q_drv f);
  drv_addAddress f a := set_qdrv f (drv_addAddress (q_drv f) a);
  drv_checkAddress f := drv_checkAddress (q_drv f);
  drv_checkGroupAddress f := drv_checkGroupAddress (q_drv f)
}.

(** Whatever is below a queue, the router need not wait for it. *)
#[export] Instance QueueDriver_quiet : QuietDriver (QueueFilter D).
Proof.
  constructor. intros f l. simpl. unfold q_send_L_Data.
  destruct (q_state f); simpl; repeat constructor.
Qed.

#[export] Instance QueueDriver_laws : DriverLaws (QueueFilter D).
Proof using HL. constructor. intros f a b. apply (drv_has_add (q_drv f)). Qed.

(** *** Runs *)

Inductive q_event :=
| QE_send (l : L_Data_PDU)
| QE_driver (c : callback)
| QE_trigger.

(** The event loop calls [trigger_cb] if the trigger was sent. *)
Definition q_step (f : queue) (e : q_event) : queue * list L_Data_PDU :=
  match e with
  | QE_send l => ((q_send_L_Data f l).1, [])
  | QE_driver c => ((q_callback f c).1, [])
  | QE_trigger => if q_trigger f then (q_trigger_cb f).1 else (f, [])
  end.

Fixpoint q_run (f : queue) (es : list q_event) : queue * list L_Data_PDU :=
  match es with
  | [] => (f, [])
  | e :: es =>
      let '(f, sent) := q_step f e in
      let '(f, sent') := q_run f es in (f, sent ++ sent')
  end.

(** Between events the filter is not in its loop; a frame waits only while one is
    on its way or the trigger is set; while the link is down nothing waits. *)
Definition q_ok (f : queue) : Prop :=
  match q_state f with
  | Q_DOWN => q_buf f = []
  | Q_IDLE => q_buf f <> [] -> q_trigger f = true
  | Q_BUSY => True
  | Q_SENDING => False
  end.

(** The callbacks of a quiet stack while a frame is handed to it. *)
Lemma q_callbacks_idle (f : queue) cs :
  Forall (fun c => c = C_send_Next) cs -> q_state f = Q_IDLE -> q_callbacks f cs = (f, []).
Proof.
  intros Hc Hi. induction Hc as [|c cs -> _ IH]; [done|]. simpl. unfold q_send_Next.
  by rewrite Hi, IH.
Qed.

Lemma q_callbacks_quiet (f : queue) cs :
  Forall (fun c => c = C_send_Next) cs -> q_state f = Q_SENDING ->
  exists s, (s = Q_SENDING \/ s = Q_IDLE) /\ q_callbacks f cs = (set_q f s, []).
Proof.
  intros Hc Hs. destruct Hc as [|c cs -> Hc].
  - exists Q_SENDING. split; [by auto|]. destruct f; simpl in *. by subst.
  - exists Q_IDLE. split; [by auto|]. simpl. unfold q_send_Next. rewrite Hs.
    by rewrite q_callbacks_idle.
Qed.

(** The loop hands on a front part of the buffer, and stops only when the
    buffer is empty or a frame is on its way. *)
Lemma q_loop_spec fuel : forall f f' sent up,
  (length (q_buf f) <= fuel)%nat -> q_state f = Q_IDLE \/ q_state f = Q_SENDING ->
  q_loop fuel f = (f', sent, up) ->
  q_buf f = sent ++ q_buf f' /\ up = [] /\
  (q_state f' = Q_IDLE /\ q_buf f' = [] \/ q_state f' = Q_SENDING).
Proof using HQ.
  induction fuel as [|fuel IH]; intros f f' sent up Hf Hs; simpl.
  { intros [= <- <- <-]. destruct (q_buf f) eqn:E; [|simpl in Hf; lia]. simpl.
    rewrite ?E. split_and!; [done..|]. destruct Hs; auto. }
  destruct (q_buf f) as [|l rest] eqn:E.
  { intros [= <- <- <-]. simpl. rewrite ?E. split_and!; [done..|]. destruct Hs; auto. }
  destruct (decide (q_state f = Q_IDLE)) as [Hi|Hi].
  2: { intros [= <- <- <-]. simpl. rewrite ?E. split_and!; [done..|]. destruct Hs; [done|by right]. }
  destruct (drv_send_L_Data (q_drv f) l) as [d cs] eqn:Ed.
  assert (Forall (fun c => c = C_send_Next) cs) as Hq.
  { pose proof (drv_send_quiet (q_drv f) l) as Hq. by rewrite Ed in Hq. }
  destruct (q_callbacks_quiet (set_qdrv (set_q (set_qbuf f rest) Q_SENDING) d) cs Hq)
    as (s & Hst & ->); [done|].
  destruct (q_loop fuel _) as [[f2 sent2] up2] eqn:El. intros [= <- <- <-].
  apply IH in El as (Hb & -> & Hend); [|simpl in *; lia|simpl; tauto]. simpl in Hb.
  split_and!; [|done|done]. simpl. by rewrite Hb.
Qed.

(** The frames a run accepts: those sent while the filter is up. *)
Fixpoint q_accepted (f : queue) (es : list q_event) : list L_Data_PDU :=
  match es with
  | [] => []
  | e :: es =>
      match e with
      | QE_send l => if decide (q_state f = Q_DOWN) then [] else [l]
      | _ => []
      end ++ q_accepted (q_step f e).1 es
  end.

Definition no_stop (e : q_event) : Prop := match e with QE_driver C_stopped => False | _ => True end.

Lemma q_step_ok f e :
  q_ok f -> let '(f', sent) := q_step f e in
  q_ok f' /\ (no_stop e -> sent ++ q_buf f' = q_buf f ++
    match e with QE_send l => if decide (q_state f = Q_DOWN) then [] else [l] | _ => [] end).
Proof using HQ.
  unfold q_ok. intros Hok. destruct e as [l|c|]; simpl.
  - unfold q_send_L_Data. destruct (q_state f) eqn:E; simpl; rewrite ?E; simpl;
      rewrite ?app_nil_r; done.
  - destruct c; simpl; unfold q_started, q_stopped, q_send_Next;
      destruct (q_state f) eqn:E; simpl; rewrite ?E, ?app_nil_r; try done.
  - rewrite app_nil_r. destruct (q_trigger f) eqn:Et; [|cbv beta iota; rewrite Et; by split].
    unfold q_trigger_cb. destruct (q_state f) eqn:E; [..|done].
    + simpl. rewrite Hok. simpl. rewrite E, decide_False by done. simpl. by rewrite E, Hok.
    + destruct (q_loop _ _) as [[f2 sent] up] eqn:El.
      apply q_loop_spec in El as (Hb & -> & Hend); [|done|simpl; by left].
      simpl in Hb. rewrite Hb. destruct Hend as [[Hi Hn]|Hn].
      * rewrite decide_False by (by rewrite Hi). simpl. rewrite Hi, Hn. done.
      * rewrite decide_True by done. simpl. done.
    + assert (q_loop (length (q_buf f)) (set_qtrigger f false) = (set_qtrigger f false, [], [])) as El.
      { simpl. destruct (q_buf f) eqn:Eb; [done|]. simpl. rewrite Eb.
        by rewrite decide_False by (by rewrite E). }
      change (q_buf (set_qtrigger f false)) with (q_buf f). rewrite El.
      rewrite decide_False by (simpl; by rewrite E). simpl. by rewrite E.
Qed.

Lemma q_run_ok es : forall f,
  q_ok f -> let '(f', sent) := q_run f es in
  q_ok f' /\ (Forall no_stop es -> sent ++ q_buf f' = q_buf f ++ q_accepted f es).
Proof using HQ.
  induction es as [|e es IH]; intros f Hok; [split; [done|]; by rewrite app_nil_r|].
  cbn [q_run q_accepted]. pose proof (q_step_ok f e Hok) as Hst.
  destruct (q_step f e) as [f1 sent1]. destruct Hst as [Hok1 Hb1].
  specialize (IH f1 Hok1). destruct (q_run f1 es) as [f2 sent2]. destruct IH as [Hok2 Hb2].
  split; [done|]. intros [He Hes]%Forall_cons_iff. rewrite <-app_assoc, (Hb2 Hes), !app_assoc.
  f_equal. by apply Hb1.
Qed.
End Queue.

(** The queue filter is a lossless FIFO: whatever frames are sent, whenever the
    driver calls back and the trigger fires, as long as the driver does not stop,
    the frames handed to the driver followed by those still waiting are the
    frames accepted so far, in order; and a frame waits only while another one is
    on its way to the driver or the trigger is set, so that the queue cannot get
    stuck. *)
Theorem queue_filter_fifo {D} `{QuietDriver D} (f : QueueFilter D) es :
  q_ok f -> Forall no_stop es ->
  let '(f', sent) := q_run f es in
  sent ++ q_buf f' = q_buf f ++ q_accepted f es /\
  (q_buf f' <> [] -> q_state f' = Q_BUSY \/ (q_state f' = Q_IDLE /\ q_trigger f' = true)).
Proof.
  intros Hok Hes. pose proof (q_run_ok es f Hok) as Hr.
  destruct (q_run f es) as [f' sent]. destruct Hr as [Hok' Hb]. split; [by apply Hb|].
  unfold q_ok in Hok'. destruct (q_state f'); try done; auto.
Qed.

Definition sample_frame (d : Z) : L_Data_PDU :=
  mkL_Data PRIO_LOW false true true IndividualAddress 0x1101 d 6 [0x00; 0x81].

Definition sample_events : list q_event :=
  [QE_driver C_started; QE_send (sample_frame 1); QE_send (sample_frame 2); QE_trigger;
   QE_send (sample_frame 3); QE_driver C_send_Next].

Definition sample_queue : QueueFilter phase := mkQueue Q_DOWN [] false D_running.

Lemma queue_filter_fifo_witness :
  (q_run sample_queue sample_events).2 = [sample_frame 1] /\
  let '(f', sent) := q_run sample_queue sample_events in
  sent ++ q_buf f' = q_buf sample_queue ++ q_accepted sample_queue sample_events /\
  (q_buf f' <> [] -> q_state f' = Q_BUSY \/ (q_state f' = Q_IDLE /\ q_trigger f' = true)).
Proof.
  split; [vm_compute; reflexivity|].
  apply (queue_filter_fifo sample_queue sample_events); [reflexivity|repeat constructor].
Defined.

Lemma nat_translates_ex :
  let f := mkNat false [] 0x1101 (mkBus ∅) in
  NatL2Filter_recv (nat_sends f [sample_frame 0x1234]) (with_source (sample_frame 0x1101) 0x1234)
  = Some (with_source (sample_frame 0x1101) 0x1234).
Proof. reflexivity. Qed.

(** ** Pacing *)

Inductive PSTATE := P_DOWN | P_IDLE | P_BUSY.

#[export] Instance PSTATE_eq_dec : EqDecision PSTATE.
Proof. solve_decision. Defined.

(** What the timer was started for: [last_len*byte_delay + delay], or
    [(size_in*byte_delay + nr_in*delay) * factor_in]. *)
Inductive pace_delay := After_out (last_len : nat) | After_in (nr_in size_in : Z).

(** [factor_in] is known by whether it is positive. *)
Record PaceFilter (D : Type) := mkPace {
  p_state : PSTATE; want_next : bool; factor_in_pos : bool; nr_in : Z; size_in : Z;
  last_len : nat; p_timer : option pace_delay; p_drv : D }.
Arguments mkPace {D}.
Arguments p_state {D}.
Arguments want_next {D}.
Arguments factor_in_pos {D}.
Arguments nr_in {D}.
Arguments size_in {D}.
Arguments last_len {D}.
Arguments p_timer {D}.
Arguments p_drv {D}.

Section Pace.
Context {D : Type} `{Driver D} {HQ : QuietDriver D} {HL : DriverLaws D}.

Local Abbreviation pace := (PaceFilter D).

Definition set_p (f : pace) (s : PSTATE) (w : bool) (t : option pace_delay) : pace :=
  mkPace s w (factor_in_pos f) (nr_in f) (size_in f) (last_len f) t (p_drv f).
Definition set_in (f : pace) (n z : Z) : pace :=
  mkPace (p_state f) (want_next f) (factor_in_pos f) n z (last_len f) (p_timer f) (p_drv f).
Definition set_len (f : pace) (n : nat) : pace :=
  mkPace (p_state f) (want_next f) (factor_in_pos f) (nr_in f) (size_in f) n (p_timer f) (p_drv f).
Definition set_pdrv (f : pace) (d : D) : pace :=
  mkPace (p_state f) (want_next f) (factor_in_pos f) (nr_in f) (size_in f) (last_len f) (p_timer f) d.

Definition p_started (f : pace) : pace * list callback :=
  match p_state f with
  | P_DOWN => (set_p f P_IDLE (want_next f) (p_timer f),
               (if want_next f then [C_send_Next] else []) ++ [C_started])
  | _ => (f, [C_started])
  end.

Definition p_stopped (f : pace) : pace := set_p f P_DOWN false None.

Definition p_send_Next (f : pace) : pace :=
  match p_state f with
  | P_DOWN => set_p f P_DOWN true (p_timer f)
  | P_IDLE => set_p f P_BUSY (want_next f) (Some (After_out (last_len f)))
  | P_BUSY => f
  end.

Definition p_callback (f : pace) (c : callback) : pace * list callback :=
  match c with
  | C_started => p_started f
  | C_stopped => (p_stopped f, [C_stopped])
  | C_errored => (f, [C_errored])
  | C_send_Next => (p_send_Next f, [])
  end.

Fixpoint p_callbacks (f : pace) (cs : list callback) : pace * list callback :=
  match cs with
  | [] => (f, [])
  | c :: cs =>
      let '(f, up) := p_callback f c in
      let '(f, up') := p_callbacks f cs in (f, up ++ up')
  end.

(** [PaceFilter::timer_cb]; the timer is a one-shot timer. *)
Definition p_timer_cb (f : pace) : pace * list callback :=
  let f := set_p f (p_state f) (want_next f) None in
  if decide (p_state f <> P_BUSY) then (f, [])
  else if factor_in_pos f && bool_decide (0 < nr_in f) then
    (set_in (set_p f P_BUSY (want_next f) (Some (After_in (nr_in f) (size_in f)))) 0 0, [])
  else (set_p f P_IDLE (want_next f) None, [C_send_Next]).

Definition p_send_L_Data (f : pace) (l : L_Data_PDU) : pace * list callback :=
  let f := set_len f (size (data l)) in
  let '(d, cs) := drv_send_L_Data (p_drv f) l in p_callbacks (set_pdrv f d) cs.

(** [PaceFilter::recv_L_Data]; the frame is passed on as it is. *)
Definition p_recv_L_Data (f : pace) (l : L_Data_PDU) : pace :=
  set_in f (nr_in f + 1) (Z.of_nat (size (data l))).

Definition p_start (f : pace) : pace * list callback :=
  let f := set_in f 0 0 in
  let '(d, cs) := drv_start (p_drv f) in p_callbacks (set_pdrv f d) cs.

#[export] Instance PaceDriver : Driver (PaceFilter D) := {
  drv_start := p_start;
  drv_stop f := let '(d, cs) := drv_stop (p_drv f) in p_callbacks (set_pdrv f d) cs;
  drv_send_L_Data := p_send_L_Data;
  drv_hasAddress f := drv_hasAddress (p_drv f);
  drv_addAddress f a := set_pdrv f (drv_addAddress (p_drv f) a);
  drv_checkAddress f := drv_checkAddress (p_drv f);
  drv_checkGroupAddress f := drv_checkGroupAddress (p_drv f)
}.

#[export] Instance PaceDriver_laws : DriverLaws (PaceFilter D).
Proof using HL. constructor. intros f a b. apply (drv_has_add (p_drv f)). Qed.

Lemma p_callbacks_quiet (f : pace) cs :
  Forall (fun c => c = C_send_Next) cs -> (p_callbacks f cs).2 = [].
Proof.
  intros Hc. revert f. induction Hc as [|c cs -> _ IH]; intros f; [done|]. simpl.
  specialize (IH (p_send_Next f)). destruct (p_callbacks _ cs). simpl in *. by rewrite IH.
Qed.

#[export] Instance PaceDriver_quiet : QuietDriver (PaceFilter D).
Proof using HQ.
  constructor. intros f l. simpl. unfold p_send_L_Data. simpl.
  pose proof (drv_send_quiet (p_drv f) l) as Hq. destruct (drv_send_L_Data (p_drv f) l) as [d cs].
  rewrite p_callbacks_quiet by done. constructor.
Qed.

(** *** Runs *)

Inductive p_event :=
| PE_send (l : L_Data_PDU)
| PE_recv (l : L_Data_PDU)
| PE_driver (c : callback)
| PE_timer.

Definition p_step (f : pace) (e : p_event) : pace * list callback :=
  match e with
  | PE_send l => p_send_L_Data f l
  | PE_recv l => (p_recv_L_Data f l, [])
  | PE_driver c => p_callback f c
  | PE_timer => match p_timer f with Some _ => p_timer_cb f | None => (f, []) end
  end.

Fixpoint p_run (f : pace) (es : list p_event) : pace * list callback :=
  match es with
  | [] => (f, [])
  | e :: es =>
      let '(f, up) := p_step f e in
      let '(f, up') := p_run f es in (f, up ++ up')
  end.

(** The timer runs exactly while the filter makes the sender wait. *)
Definition p_ok (f : pace) : Prop := p_state f = P_BUSY <-> p_timer f <> None.

(** Calls of [send_Next] that reach the sender, and what can cause them. *)
Definition nexts (cs : list callback) : nat :=
  length (List.filter (fun c => match c with C_send_Next => true | _ => false end) cs).

Definition causes (es : list p_event) : nat :=
  length (List.filter (fun e => match e with PE_timer | PE_driver C_started => true | _ => false end) es).

Lemma p_callback_ok (f : pace) c : p_ok f -> p_ok (p_callback f c).1.
Proof.
  unfold p_ok. destruct f as [st w fi n z ln tm d]; simpl. intros Hok.
  destruct c, st; simpl in *; try done; unfold p_started, p_stopped, p_send_Next; simpl; try done;
    destruct tm; intuition congruence.
Qed.

Lemma p_callbacks_ok (f : pace) cs : p_ok f -> p_ok (p_callbacks f cs).1.
Proof.
  revert f. induction cs as [|c cs IH]; intros f Hok; [done|]. simpl.
  pose proof (p_callback_ok f c Hok) as H1. destruct (p_callback f c) as [f1 up1].
  specialize (IH f1 H1). by destruct (p_callbacks f1 cs).
Qed.

Lemma p_step_ok f e :
  p_ok f -> let '(f', up) := p_step f e in p_ok f' /\ (nexts up <= causes [e])%nat.
Proof using HQ.
  intros Hok. destruct e as [l|l|c|]; simpl.
  - unfold p_send_L_Data. simpl. pose proof (drv_send_quiet (p_drv f) l) as Hq.
    destruct (drv_send_L_Data (p_drv f) l) as [d cs].
    pose proof (p_callbacks_quiet (set_pdrv (set_len f (size (data l))) d) cs Hq) as Hn.
    pose proof (p_callbacks_ok (set_pdrv (set_len f (size (data l))) d) cs Hok) as H1.
    destruct (p_callbacks _ cs). simpl in *. by subst.
  - done.
  - pose proof (p_callback_ok f c Hok) as H1. destruct (p_callback f c) as [f1 up] eqn:E.
    split; [done|]. destruct c; simpl in E; try (injection E as _ <-; unfold nexts; simpl; lia).
    unfold p_started in E. destruct (p_state f), (want_next f); injection E as _ <-;
      unfold nexts, causes; simpl; lia.
  - destruct (p_timer f) eqn:Et; [|split; [done|unfold nexts; simpl; lia]].
    unfold p_timer_cb. simpl. destruct (decide (p_state f <> P_BUSY)) as [Hb|_].
    { split; [|unfold nexts; simpl; lia]. unfold p_ok. simpl. intuition congruence. }
    destruct (_ && _); split; unfold p_ok, nexts, causes; simpl; intuition (lia || congruence).
Qed.

Lemma nexts_app a b : nexts (a ++ b) = (nexts a + nexts b)%nat.
Proof. unfold nexts. by rewrite List.filter_app, length_app. Qed.

Lemma causes_cons e es : causes (e :: es) = (causes [e] + causes es)%nat.
Proof.
  unfold causes. change (e :: es) with ([e] ++ es). by rewrite List.filter_app, length_app.
Qed.

Lemma p_run_ok es : forall f,
  p_ok f -> let '(f', up) := p_run f es in p_ok f' /\ (nexts up <= causes es)%nat.
Proof using HQ.
  induction es as [|e es IH]; intros f Hok; [split; [done|unfold nexts; simpl; lia]|].
  cbn [p_run]. pose proof (p_step_ok f e Hok) as Hst. destruct (p_step f e) as [f1 up1].
  destruct Hst as [H1 Hn1]. specialize (IH f1 H1). destruct (p_run f1 es) as [f2 up2].
  destruct IH as [H2 Hn2]. split; [done|]. rewrite nexts_app, causes_cons. lia.
Qed.
End Pace.

(** The pacing filter delays and does not forget: the sender is asked for the
    next frame at most once per expiry of the timer (and once per start), however
    often the driver asks; the timer runs exactly while the sender waits; and if
    no frame comes in meanwhile, at the latest the second expiry asks for the
    next frame, once. *)
Theorem pace_filter_paces {D} `{QuietDriver D} (f : PaceFilter D) es :
  p_ok f ->
  (let '(f', up) := p_run f es in p_ok f' /\ (nexts up <= causes es)%nat) /\
  (p_state f = P_BUSY ->
   let '(f', up) := p_run f [PE_timer; PE_timer] in p_state f' = P_IDLE /\ up = [C_send_Next]).
Proof.
  intros Hok. split; [by apply p_run_ok|]. intros Hb.
  destruct (p_timer f) eqn:Et; [|exfalso; by apply Hok in Hb].
  cbn [p_run p_step]. rewrite Et. unfold p_timer_cb. cbv zeta.
  rewrite (decide_False (P := p_state (set_p f _ _ _) <> P_BUSY)) by (simpl; rewrite Hb; by intros []).
  simpl. destruct (factor_in_pos f && _) eqn:E; simpl; [|done].
  by rewrite andb_false_r.
Qed.

Definition sample_pace : PaceFilter BusDriver :=
  mkPace P_BUSY false true 2 4 3 (Some (After_out 3)) (mkBus ∅).

Lemma pace_filter_paces_witness :
  p_run sample_pace [PE_timer; PE_timer]
  = (mkPace P_IDLE false true 0 0 3 None (mkBus ∅), [C_send_Next]) /\
  (nexts (p_run sample_pace [PE_timer]).2 <= causes [PE_timer])%nat.
Proof.
  split; [vm_compute; reflexivity|].
  assert (p_ok sample_pace) as Hok by done.
  destruct (pace_filter_paces sample_pace [PE_timer] Hok) as [Hp _].
  destruct (p_run sample_pace [PE_timer]) as [f' up]. exact (proj2 Hp).
Defined.
