(* ===== verification/EmiDriver.v ===== *)
(** * Drivers for EMI interfaces

    Models src/src/libserver/emi_common.cpp with the three drivers built on it,
    src/src/libserver/emi1.cpp, src/src/libserver/emi2.cpp and
    src/src/libserver/cemi.cpp, and the methods [send_Local] and [send_Next] of
    [LowLevelIface] (src/src/libserver/lowlevel.cpp) they use: how an interface is
    opened and closed, how a frame is sent, repeated and confirmed, and how
    messages from the interface are taken apart.

    The driver sits between the link above it and the low-level interface below.
    What it tells either of them is a list of outputs; every call into the
    interface is the last thing a method does, so what the interface answers at
    once is the next input. *)

From S2P Require Import Prelude CArray Common ApduSpec Lpdu LpduSpec Emi.

Inductive EMIVer := vEMI1 | vEMI2 | vCEMI.

#[export] Instance EMIVer_eq_dec : EqDecision EMIVer.
Proof. solve_decision. Defined.

Inductive E_state := E_idle | E_timed_out | E_wait | E_wait_confirm.

#[export] Instance E_state_eq_dec : EqDecision E_state.
Proof. solve_decision. Defined.

(** [sendLocal_done_next] of the three classes. *)
Inductive done_next := N_bad | N_up | N_want_close | N_want_leave | N_down | N_open | N_enter | N_reset.

#[export] Instance done_next_eq_dec : EqDecision done_next.
Proof. solve_decision. Defined.

(** [reset_wait] is [after_reset] of [CEMIDriver], [reset_ack_wait] of
    [EMI2Driver]. *)
Record EMI_Common := mkEMI {
  ver : EMIVer;
  monitor : bool;
  max_retries : Z;
  e_state : E_state;
  out : CArray;
  retries : Z;
  timeout : bool;
  wait_confirm_low : bool;
  is_local : bool;
  local_timeout : bool;
  sendLocal_done_next : done_next;
  reset_wait : bool;
  reset_timer : bool
}.

(** Calls of the interface below and of the link above. *)
Inductive emi_output :=
| LO_start | LO_stop | LO_sendReset
| LO_send_Data (c : CArray)
| LO_send_Local (c : CArray)
| UP_started | UP_stopped | UP_errored | UP_send_Next
| UP_recv_L_Data (l : L_Data_PDU)
| UP_recv_L_Busmonitor (p : L_Busmonitor_PDU).

Definition result : Type := outcome (EMI_Common * list emi_output).

Definition set_e (d : EMI_Common) (s : E_state) (t : bool) : EMI_Common :=
  mkEMI (ver d) (monitor d) (max_retries d) s (out d) (retries d) t (wait_confirm_low d)
    (is_local d) (local_timeout d) (sendLocal_done_next d) (reset_wait d) (reset_timer d).
Definition set_out (d : EMI_Common) (o : CArray) (r : Z) : EMI_Common :=
  mkEMI (ver d) (monitor d) (max_retries d) (e_state d) o r (timeout d) (wait_confirm_low d)
    (is_local d) (local_timeout d) (sendLocal_done_next d) (reset_wait d) (reset_timer d).
Definition set_local (d : EMI_Common) (b : bool) : EMI_Common :=
  mkEMI (ver d) (monitor d) (max_retries d) (e_state d) (out d) (retries d) (timeout d)
    (wait_confirm_low d) b b (sendLocal_done_next d) (reset_wait d) (reset_timer d).
Definition set_next (d : EMI_Common) (n : done_next) : EMI_Common :=
  mkEMI (ver d) (monitor d) (max_retries d) (e_state d) (out d) (retries d) (timeout d)
    (wait_confirm_low d) (is_local d) (local_timeout d) n (reset_wait d) (reset_timer d).
Definition set_confirm_low (d : EMI_Common) (b : bool) : EMI_Common :=
  mkEMI (ver d) (monitor d) (max_retries d) (e_state d) (out d) (retries d) (timeout d)
    b (is_local d) (local_timeout d) (sendLocal_done_next d) (reset_wait d) (reset_timer d).
Definition set_reset (d : EMI_Common) (b : bool) : EMI_Common :=
  mkEMI (ver d) (monitor d) (max_retries d) (e_state d) (out d) (retries d) (timeout d)
    (wait_confirm_low d) (is_local d) (local_timeout d) (sendLocal_done_next d) b b.

(** ** What differs between the versions *)

Definition I_CONFIRM (v : EMIVer) : Z := match v with vEMI1 => 0x4E | _ => 0x2E end.
Definition I_DATA (v : EMIVer) : Z := match v with vEMI1 => 0x49 | _ => 0x29 end.
Definition I_BUSMON (v : EMIVer) : Z := match v with vEMI1 => 0x49 | _ => 0x2B end.

Definition maxPacketLen (v : EMIVer) : nat := match v with vCEMI => 50 | _ => 0x10 end.

Definition lData2EMI (v : EMIVer) (code : Z) (l : L_Data_PDU) : outcome CArray :=
  match v with vCEMI => L_Data_ToCEMI code l | _ => L_Data_ToEMI code l end.

Definition EMI2lData (v : EMIVer) (c : CArray) : outcome (option L_Data_PDU) :=
  match v with vCEMI => CEMI_to_L_Data c | _ => EMI_to_L_Data c end.

(** [LowLevelIface::send_Local] *)
Definition send_Local (d : EMI_Common) (c : CArray) : result :=
  _ ← assert_ (negb (is_local d));
  Ret (set_local d true, [LO_send_Local c]).

(** The array of five bytes [ta] is sent with [sizeof (t)] bytes, where [t] is a
    member, a shared pointer of sixteen bytes. *)
Definition sizeof_TracePtr : nat := 16.

Definition cmdEnterMonitor (d : EMI_Common) : result :=
  match ver d with
  | vEMI1 => send_Local (set_next d N_up) [0x46; 0x01; 0x00; 0x60; 0x90]
  | vEMI2 => send_Local (set_next d N_enter) [0xa9; 0x1E; 0x12; 0x34; 0x56; 0x78; 0x9a]
  | vCEMI => Ret (d, [UP_errored; UP_stopped])
  end.

Definition cmdLeaveMonitor (d : EMI_Common) : result :=
  match ver d with
  | vEMI1 => send_Local (set_next d N_down) [0x46; 0x01; 0x00; 0x60; 0xc0]
  | vEMI2 =>
      if wait_confirm_low d then Ret (set_next d N_want_leave, [])
      else send_Local (set_next d N_down) [0xa9; 0x1E; 0x12; 0x34; 0x56; 0x78; 0x9a]
  | vCEMI => Ret (d, [UP_errored; UP_stopped])
  end.

Definition cmdOpen (d : EMI_Common) : result :=
  match ver d with
  | vEMI1 =>
      c ← slice [0x46; 0x01; 0x01; 0x16; 0x00] 0 sizeof_TracePtr;
      send_Local (set_next d N_open) c
  | vEMI2 => send_Local (set_next d N_open) [0xa9; 0x1E; 0x12; 0x34; 0x56; 0x78; 0x9a]
  | vCEMI => Ret (d, [UP_started])
  end.

(** [LowLevelDriver::stop] of the CEMI driver only reports [stopped]. *)
Definition cmdClose (d : EMI_Common) : result :=
  match ver d with
  | vEMI1 =>
      if wait_confirm_low d then Ret (set_next d N_want_close, [])
      else send_Local (set_next d N_down) [0x46; 0x01; 0x00; 0x60; 0xc0]
  | vEMI2 =>
      if wait_confirm_low d then Ret (set_next d N_want_close, [])
      else send_Local (set_next d N_down) [0xa9; 0x1E; 0x12; 0x34; 0x56; 0x78; 0x9a]
  | vCEMI => Ret (d, [UP_stopped])
  end.

(** ** The common part *)

Definition EMI_started (d : EMI_Common) : result :=
  if monitor d then cmdEnterMonitor d else cmdOpen d.

Definition emi_start (d : EMI_Common) : result := Ret (set_e d E_idle (timeout d), [LO_start]).

Definition emi_stop (d : EMI_Common) : result :=
  if monitor d then cmdLeaveMonitor d else cmdClose d.

(** [started] from below: EMI2 and CEMI reset the interface first. *)
Definition emi_started (d : EMI_Common) : result :=
  match ver d with
  | vEMI1 => EMI_started d
  | _ => Ret (set_reset d true, [LO_sendReset])
  end.

Definition send_Data (d : EMI_Common) (pdu : CArray) : result :=
  Ret (set_e d E_wait true, [LO_send_Data pdu]).

Definition emi_send_L_Data (d : EMI_Common) (l : L_Data_PDU) : result :=
  if decide (e_state d <> E_idle) then Ret (d, [])
  else
    _ ← assert_ (bool_decide (1 <= size (data l))%nat);
    if decide (maxPacketLen (ver d) < size (data l))%nat then Ret (d, [UP_send_Next])
    else
      pdu ← lData2EMI (ver d) 0x11 l;
      send_Data (set_out d pdu 0) pdu.

Definition EMI_do_send_Next (d : EMI_Common) : result :=
  match e_state d with
  | E_wait => Ret (set_e d E_wait_confirm (timeout d), [])
  | E_idle => Ret (d, [UP_send_Next])
  | _ => Ret (d, [])
  end.

Definition timeout_cb (d : EMI_Common) : result :=
  let d := set_e d (e_state d) false in
  match e_state d with
  | E_idle | E_timed_out => Ret (d, [])
  | E_wait => Ret (set_e d E_timed_out false, [UP_errored])
  | E_wait_confirm =>
      let d := set_out d (out d) (retries d + 1) in
      if decide (retries d <= max_retries d) then send_Data d (out d)
      else Ret (set_e d E_idle false, [UP_send_Next])
  end.

(** [sendLocal_done_cb] *)
Definition sendLocal_done_cb (d : EMI_Common) (success : bool) : result :=
  let failed := Ret (d, [UP_errored; UP_stopped]) in
  if negb success || bool_decide (sendLocal_done_next d = N_bad) then failed
  else
    match sendLocal_done_next d with
    | N_down => Ret (d, [match ver d with vCEMI => UP_stopped | _ => LO_stop end])
    | N_up => Ret (d, [UP_started])
    | N_open =>
        match ver d with
        | vEMI1 => send_Local (set_next d N_up) [0x46; 0x01; 0x00; 0x60; 0x12]
        | vEMI2 => send_Local (set_next d N_up) [0xa9; 0x00; 0x18; 0x34; 0x56; 0x78; 0x0a]
        | vCEMI => Ret (d, [])
        end
    | N_enter =>
        match ver d with
        | vEMI2 => send_Local (set_next d N_up) [0xa9; 0x90; 0x18; 0x34; 0x45; 0x67; 0x8a]
        | _ => Ret (d, [])
        end
    | N_reset => match ver d with vCEMI => EMI_started d | _ => Ret (d, []) end
    | _ => Ret (d, [])
    end.

(** [do_send_Next] of the three drivers. *)
Definition emi_do_send_Next (d : EMI_Common) : result :=
  match ver d with
  | vEMI1 =>
      if decide (sendLocal_done_next d = N_want_close) then cmdClose (set_confirm_low d false)
      else EMI_do_send_Next d
  | vEMI2 =>
      if reset_wait d then EMI_started (set_reset d false)
      else if decide (sendLocal_done_next d = N_want_close) then cmdClose (set_confirm_low d false)
      else if decide (sendLocal_done_next d = N_want_leave) then cmdLeaveMonitor (set_confirm_low d false)
      else EMI_do_send_Next d
  | vCEMI => if reset_wait d then EMI_started (set_reset d false) else EMI_do_send_Next d
  end.

(** [LowLevelIface::send_Next] and [local_timeout_cb] *)
Definition emi_send_Next (d : EMI_Common) : result :=
  if is_local d then sendLocal_done_cb (set_local d false) true else emi_do_send_Next d.

Definition local_timeout_cb (d : EMI_Common) : result :=
  sendLocal_done_cb (set_local d false) false.

(** [EMI2Driver] never connects its timer to [reset_timer_cb], so that its expiry
    calls a null pointer. *)
Definition emi_reset_timer_cb (d : EMI_Common) : result :=
  match ver d with
  | vEMI2 => Fault Aborted
  | _ =>
      Ret (mkEMI (ver d) (monitor d) (max_retries d) (e_state d) (out d) (retries d) (timeout d)
             (wait_confirm_low d) (is_local d) (local_timeout d) (sendLocal_done_next d)
             (reset_wait d) false, [UP_errored])
  end.

Definition emi_recv_Data (d : EMI_Common) (c : CArray) : result :=
  let code := c !! 0%nat in
  if decide (code = Some 0xA0) then Ret (d, [UP_errored])
  else if decide (code = Some (I_CONFIRM (ver d))) then
    if decide (e_state d = E_wait_confirm) then Ret (set_e d E_idle false, [UP_send_Next])
    else Ret (d, [])
  else if bool_decide (code = Some (I_DATA (ver d))) && negb (monitor d) then
    p ← EMI2lData (ver d) c;
    Ret (d, match p with Some l => [UP_recv_L_Data l] | None => [] end)
  else if bool_decide (4 < size c)%nat && bool_decide (code = Some (I_BUSMON (ver d))) && monitor d then
    c1 ← at_ c 1; c2 ← at_ c 2; c3 ← at_ c 3;
    pdu ← slice c 4 (size c - 4);
    Ret (d, [UP_recv_L_Busmonitor (mkL_Busmonitor pdu c1 (u32 (Z.lor (c2 ≪ 24) (c3 ≪ 16))))])
  else Ret (d, []).

(** ** Runs *)

Inductive emi_event :=
| EV_start | EV_stop
| EV_send (l : L_Data_PDU)
| EV_started
| EV_stopped
| EV_errored
| EV_next
| EV_recv (c : CArray)
| EV_timeout | EV_local_timeout | EV_reset_timeout.

(** A timer's callback comes only while the timer runs. *)
Definition emi_step (d : EMI_Common) (e : emi_event) : result :=
  match e with
  | EV_start => emi_start d
  | EV_stop => emi_stop d
  | EV_send l => emi_send_L_Data d l
  | EV_started => emi_started d
  | EV_stopped => Ret (d, [UP_stopped])
  | EV_errored => Ret (d, [UP_errored])
  | EV_next => emi_send_Next d
  | EV_recv c => emi_recv_Data d c
  | EV_timeout => if timeout d then timeout_cb d else Ret (d, [])
  | EV_local_timeout => if local_timeout d then local_timeout_cb d else Ret (d, [])
  | EV_reset_timeout => if reset_timer d then emi_reset_timer_cb d else Ret (d, [])
  end.

Fixpoint emi_run (d : EMI_Common) (es : list emi_event) : result :=
  match es with
  | [] => Ret (d, [])
  | e :: es =>
      '(d, o) ← emi_step d e;
      '(d, o') ← emi_run d es;
      Ret (d, o ++ o')
  end.

Definition new_emi (v : EMIVer) (mon : bool) (maxr : Z) : EMI_Common :=
  mkEMI v mon maxr E_idle [] 0 false false false false N_bad false false.

Example emi2_opens :
  emi_run (new_emi vEMI2 false 3) [EV_start; EV_started; EV_next; EV_next; EV_next]
  = Ret (mkEMI vEMI2 false 3 E_idle [] 0 false false false false N_up false false,
         [LO_start; LO_sendReset; LO_send_Local [0xa9; 0x1E; 0x12; 0x34; 0x56; 0x78; 0x9a];
          LO_send_Local [0xa9; 0x00; 0x18; 0x34; 0x56; 0x78; 0x0a]; UP_started]).
Proof. reflexivity. Qed.

(** ** Sending *)

(** The interface is open and no local command is under way. *)
Definition emi_up (d : EMI_Common) : Prop :=
  is_local d = false /\ reset_wait d = false /\
  sendLocal_done_next d <> N_want_close /\ sendLocal_done_next d <> N_want_leave.

Definition waiting (d : EMI_Common) : bool :=
  match e_state d with E_wait | E_wait_confirm => true | _ => false end.

Definition emi_inv (d : EMI_Common) : Prop :=
  emi_up d /\ 0 <= max_retries d /\
  (waiting d = true -> timeout d = true /\ 0 <= retries d <= max_retries d).

(** What happens to an open interface: frames, its own acknowledgements, messages,
    and the time-out. *)
Definition traffic (e : emi_event) : Prop :=
  match e with
  | EV_send l => ldata_wf l
  | EV_recv c => bytes c
  | EV_next | EV_timeout => True
  | _ => False
  end.

Definition transmissions (o : list emi_output) : Z :=
  Z.of_nat (length (List.filter (fun x => match x with LO_send_Data _ => true | _ => false end) o)).

Definition answers (o : list emi_output) : Z :=
  Z.of_nat (length (List.filter (fun x => match x with UP_send_Next => true | _ => false end) o)).

(** A frame is accepted if none is under way. *)
Definition accepts (d : EMI_Common) (e : emi_event) : Z :=
  match e with EV_send _ => if decide (e_state d = E_idle) then 1 else 0 | _ => 0 end.

Definition outstanding (d : EMI_Common) : Z := if decide (e_state d = E_idle) then 0 else 1.

(** Transmissions of the frame under way that may still follow. *)
Definition budget (d : EMI_Common) : Z := if waiting d then max_retries d - retries d else 0.

(** The interface acknowledges only what it was given. *)
Definition solicited (d : EMI_Common) (e : emi_event) : Prop :=
  match e with EV_next => e_state d <> E_idle | _ => True end.

Definition step_post (d : EMI_Common) (e : emi_event) (r : EMI_Common * list emi_output) : Prop :=
  let '(d', o) := r in
  emi_inv d' /\ max_retries d' = max_retries d /\
  transmissions o + budget d' <= budget d + accepts d e * (1 + max_retries d) /\
  (solicited d e -> answers o + outstanding d' = accepts d e + outstanding d).

Lemma lData2EMI_returns v code l :
  ldata_wf l -> (size (data l) <= maxPacketLen v)%nat -> returns (lData2EMI v code l).
Proof.
  intros Hl Hs. destruct v; simpl in *.
  1,2: rewrite L_Data_ToEMI_eq; by eexists.
  rewrite L_Data_ToCEMI_eq by (done || lia). by eexists.
Qed.

Lemma EMI2lData_returns v c : bytes c -> returns (EMI2lData v c).
Proof.
  intros Hc. destruct v; simpl; eapply returns_with_returns;
    [by apply EMI_to_L_Data_wf | by apply EMI_to_L_Data_wf | by apply CEMI_to_L_Data_wf].
Qed.

Lemma emi_send_post d l :
  emi_inv d -> ldata_wf l -> returns_with (step_post d (EV_send l)) (emi_send_L_Data d l).
Proof.
  intros Hi Hl. pose proof Hi as (Hu & Hm & Hw). unfold emi_send_L_Data.
  destruct (decide (e_state d <> E_idle)) as [Hn|Hn].
  { apply returns_with_Ret. unfold step_post, transmissions, answers. simpl.
    rewrite decide_False by done. split_and!; done || lia. }
  apply dec_stable in Hn.
  rewrite (bool_decide_eq_true_2 (1 <= size (data l))%nat) by (destruct Hl as (_&_&_&_&?); lia).
  cbn [assert_ mbind outcome_bind]. destruct (decide _) as [|Hs].
  { apply returns_with_Ret. unfold step_post, transmissions, answers, outstanding, budget, waiting.
    simpl. rewrite Hn. simpl. split_and!; done || lia. }
  destruct (lData2EMI_returns (ver d) 0x11 l Hl) as [pdu ->]; [lia|].
  rewrite bind_Ret. apply returns_with_Ret.
  unfold step_post, transmissions, answers, outstanding, budget, waiting. simpl. rewrite Hn. simpl.
  split_and!; [|done|lia|done]. split_and!; [done|done|]. simpl. intros _. split; [done|lia].
Qed.

(** Steps that change only the state and the timer. *)
Ltac emi_post :=
  apply returns_with_Ret;
  unfold step_post, emi_inv, emi_up, transmissions, answers, outstanding, budget, waiting in *; simpl in *;
  repeat match goal with H : e_state _ = _ |- _ => rewrite H in * end; simpl in *;
  intuition (congruence || lia).

Lemma emi_next_post d : emi_inv d -> returns_with (step_post d EV_next) (emi_send_Next d).
Proof.
  intros Hi. pose proof Hi as ((Hl & Hr & Hc & Hv) & _). unfold emi_send_Next. rewrite Hl.
  assert (emi_do_send_Next d = EMI_do_send_Next d) as ->.
  { unfold emi_do_send_Next. rewrite Hr. destruct (ver d); [| |done];
      repeat rewrite decide_False by done; done. }
  unfold EMI_do_send_Next. destruct (e_state d) eqn:E; emi_post.
Qed.

Lemma emi_timeout_post d :
  emi_inv d -> returns_with (step_post d EV_timeout) (emi_step d EV_timeout).
Proof.
  intros Hi. pose proof Hi as (_ & _ & Hw). simpl. destruct (timeout d) eqn:Et.
  2: { apply returns_with_Ret. unfold step_post, transmissions, answers. simpl. split_and!; done || lia. }
  unfold timeout_cb. cbv zeta. simpl. destruct (e_state d) eqn:E; [emi_post..|].
  destruct (decide _); emi_post.
Qed.

Lemma emi_recv_post d c :
  emi_inv d -> bytes c -> returns_with (step_post d (EV_recv c)) (emi_recv_Data d c).
Proof.
  intros Hi Hc. pose proof Hi as (_ & _ & Hw). unfold emi_recv_Data. cbv zeta.
  assert (forall o, answers o = 0 -> transmissions o = 0 ->
    returns_with (step_post d (EV_recv c)) (Ret (d, o))) as Hsame.
  { intros o Ha Ht. apply returns_with_Ret. unfold step_post. rewrite Ha, Ht. simpl.
    split_and!; done || lia. }
  destruct (decide _); [by apply Hsame|]. destruct (decide _).
  { destruct (decide (e_state d = E_wait_confirm)) as [E|]; [emi_post|by apply Hsame]. }
  destruct (_ && negb (monitor d)).
  { destruct (EMI2lData_returns (ver d) c Hc) as [[l|] ->]; by apply Hsame. }
  destruct (bool_decide (4 < size c)%nat) eqn:E4; [|by apply Hsame].
  apply bool_decide_eq_true in E4. destruct (_ && monitor d); [|by apply Hsame].
  destruct (at_lt c 1 ltac:(lia)) as (b1 & -> & _), (at_lt c 2 ltac:(lia)) as (b2 & -> & _),
    (at_lt c 3 ltac:(lia)) as (b3 & -> & _). rewrite !bind_Ret.
  rewrite slice_ok by lia. by apply Hsame.
Qed.

Lemma emi_step_post d e :
  emi_inv d -> traffic e -> returns_with (step_post d e) (emi_step d e).
Proof.
  intros Hi Ht. destruct e; try done.
  - by apply emi_send_post.
  - by apply emi_next_post.
  - by apply emi_recv_post.
  - by apply emi_timeout_post.
Qed.

(** The frames a run accepts, and that the interface behaves in it. *)
Fixpoint accepted (d : EMI_Common) (es : list emi_event) : Z :=
  match es with
  | [] => 0
  | e :: es =>
      accepts d e + match emi_step d e with Ret (d', _) => accepted d' es | Fault _ => 0 end
  end.

Fixpoint all_solicited (d : EMI_Common) (es : list emi_event) : Prop :=
  match es with
  | [] => True
  | e :: es =>
      solicited d e /\ match emi_step d e with Ret (d', _) => all_solicited d' es | Fault _ => False end
  end.

Lemma count_app {A} (p : A -> bool) l m :
  Z.of_nat (length (List.filter p (l ++ m)))
  = Z.of_nat (length (List.filter p l)) + Z.of_nat (length (List.filter p m)).
Proof. rewrite List.filter_app, length_app. lia. Qed.

(** An EMI interface that is open never makes its driver fault, whatever frames
    are sent, messages arrive and time-outs expire; each frame is transmitted at
    most once more than the configured number of retries; and if the interface
    acknowledges only what it was given, every accepted frame is answered by
    exactly one [send_Next], but for the one still under way. *)
Theorem emi_traffic d es :
  emi_inv d -> Forall traffic es ->
  exists d' o, emi_run d es = Ret (d', o) /\ emi_inv d' /\
    transmissions o <= budget d + accepted d es * (1 + max_retries d) /\
    (all_solicited d es -> answers o + outstanding d' = accepted d es + outstanding d).
Proof.
  intros Hi Ht. cut (exists d' o, emi_run d es = Ret (d', o) /\ emi_inv d' /\
    transmissions o + budget d' <= budget d + accepted d es * (1 + max_retries d) /\
    (all_solicited d es -> answers o + outstanding d' = accepted d es + outstanding d)).
  { intros (d' & o & ? & Hi' & Hb & ?). exists d', o. split_and!; try done.
    destruct Hi' as (_ & Hm & Hw). unfold budget in Hb at 1. destruct (waiting d'); [|lia].
    destruct (Hw eq_refl). lia. }
  revert d Hi. induction Ht as [|e es He _ IH]; intros d Hi.
  { exists d, []. unfold transmissions, answers. simpl. split_and!; done || lia. }
  destruct (emi_step_post d e Hi He) as ([d1 o1] & E1 & Hi1 & Hm & Hb1 & Ha1).
  destruct (IH d1 Hi1) as (d2 & o2 & E2 & Hi2 & Hb2 & Ha2).
  exists d2, (o1 ++ o2). cbn [emi_run accepted all_solicited]. rewrite E1. cbn [mbind outcome_bind].
  rewrite E2. split_and!; [done|done| |].
  - unfold transmissions in *. rewrite count_app. rewrite Hm in Hb2. nia.
  - intros [Hs1 Hs2]. unfold answers in *. rewrite count_app. specialize (Ha1 Hs1). specialize (Ha2 Hs2). lia.
Qed.

Definition open_cemi : EMI_Common :=
  mkEMI vCEMI false 1 E_idle [] 0 false false false false N_bad false false.

Definition emi_frame : L_Data_PDU :=
  mkL_Data PRIO_LOW false true true GroupAddress 0x1101 0x0A03 6 [0x00; 0x81].

(** The confirmation gets lost twice: two transmissions, one answer. *)
Definition lost_confirms : list emi_event :=
  [EV_send emi_frame; EV_next; EV_timeout; EV_next; EV_timeout].

Lemma emi_traffic_witness :
  (exists d' o, emi_run open_cemi lost_confirms = Ret (d', o) /\ emi_inv d' /\
    transmissions o <= budget open_cemi + accepted open_cemi lost_confirms * (1 + max_retries open_cemi) /\
    (all_solicited open_cemi lost_confirms ->
     answers o + outstanding d' = accepted open_cemi lost_confirms + outstanding open_cemi)) /\
  accepted open_cemi lost_confirms = 1.
Proof.
  split; [|vm_compute; reflexivity].
  apply (emi_traffic open_cemi lost_confirms).
  - unfold emi_inv, emi_up. simpl. split_and!; done || lia.
  - unfold lost_confirms. repeat constructor; simpl; lia.
Defined.

(** ** Faults *)

Definition well_formed (e : emi_event) : Prop :=
  match e with EV_send l => ldata_wf l | EV_recv c => bytes c | _ => True end.

(** The events that end the daemon: a request to stop while a local command is
    under way (nothing ever sets [wait_confirm_low]); opening an EMI1 interface,
    which reads past an array; an EMI2 interface that does not answer a reset. *)
Definition emi_fault (d : EMI_Common) (e : emi_event) : option fault :=
  match e, ver d with
  | EV_stop, vEMI1 =>
      if is_local d && (monitor d || negb (wait_confirm_low d)) then Some AssertFailed else None
  | EV_stop, vEMI2 => if is_local d && negb (wait_confirm_low d) then Some AssertFailed else None
  | EV_started, vEMI1 =>
      if monitor d then if is_local d then Some AssertFailed else None else Some OutOfRange
  | EV_reset_timeout, vEMI2 => if reset_timer d then Some Aborted else None
  | _, _ => None
  end.

(** Keep the cases apart in which a method takes different branches. *)
Ltac emi_cases d :=
  destruct (ver d), (monitor d), (wait_confirm_low d), (is_local d); simpl;
    intros Hf; first [discriminate Hf | by eexists].

Lemma emi_no_fault d e :
  well_formed e -> emi_fault d e = None -> returns (emi_step d e).
Proof.
  intros Hw. destruct e; simpl in *.
  - by eexists.
  - unfold emi_stop, cmdLeaveMonitor, cmdClose, send_Local. simpl. emi_cases d.
  - intros _. unfold emi_send_L_Data. destruct (decide _); [by eexists|].
    rewrite (bool_decide_eq_true_2 (1 <= size (data l))%nat) by (destruct Hw as (_&_&_&_&?); lia).
    cbn [assert_ mbind outcome_bind]. destruct (decide _); [by eexists|].
    destruct (lData2EMI_returns (ver d) 0x11 l Hw) as [pdu ->]; [lia|]. by eexists.
  - unfold emi_started, EMI_started, cmdEnterMonitor, cmdOpen, send_Local. simpl. emi_cases d.
  - by eexists.
  - by eexists.
  - intros _. unfold emi_send_Next, sendLocal_done_cb, emi_do_send_Next, EMI_started, EMI_do_send_Next,
      cmdOpen, cmdEnterMonitor, cmdClose, cmdLeaveMonitor, send_Local. simpl.
    destruct (is_local d) eqn:El; simpl.
    + destruct (sendLocal_done_next d), (ver d), (monitor d); simpl; by eexists.
    + rewrite ?El. destruct (ver d), (sendLocal_done_next d), (reset_wait d), (monitor d), (e_state d);
        simpl; rewrite ?El; simpl; by eexists.
  - intros _. unfold emi_recv_Data. cbv zeta. destruct (decide _); [by eexists|]. destruct (decide _).
    { destruct (decide _); by eexists. }
    destruct (_ && negb (monitor d)).
    { destruct (EMI2lData_returns (ver d) c Hw) as [[l|] ->]; by eexists. }
    destruct (bool_decide (4 < size c)%nat) eqn:E4; [|by eexists].
    apply bool_decide_eq_true in E4. destruct (_ && monitor d); [|by eexists].
    destruct (at_lt c 1 ltac:(lia)) as (b1 & -> & _), (at_lt c 2 ltac:(lia)) as (b2 & -> & _),
      (at_lt c 3 ltac:(lia)) as (b3 & -> & _). rewrite !bind_Ret. rewrite slice_ok by lia. by eexists.
  - intros _. destruct (timeout d); [|by eexists]. unfold timeout_cb. simpl.
    destruct (e_state d); try by eexists. destruct (decide _); by eexists.
  - intros _. destruct (local_timeout d); by eexists.
  - intros Hf. destruct (reset_timer d); [|by eexists]. unfold emi_reset_timer_cb.
    destruct (ver d); [by eexists|done|by eexists].
Qed.

(** Exactly which events end the daemon in an EMI driver: stopping an EMI1 or
    EMI2 interface while one of its local commands is unanswered fails an
    assertion, opening an EMI1 interface reads past the end of an array, and the
    expiry of the reset timer of an EMI2 interface calls a callback that was
    never set; nothing else does, for any frame and any message. *)
Theorem emi_faults_iff d e f :
  well_formed e -> emi_step d e = Fault f <-> emi_fault d e = Some f.
Proof.
  intros Hw. split.
  - intros Hf. destruct (emi_fault d e) as [g|] eqn:E.
    2: { destruct (emi_no_fault d e Hw E) as [r Hr]. congruence. }
    f_equal. destruct e; try done; revert Hf E; simpl;
      unfold emi_stop, emi_started, EMI_started, cmdEnterMonitor, cmdOpen, cmdLeaveMonitor, cmdClose,
        send_Local, emi_reset_timer_cb; simpl;
      destruct (ver d), (monitor d), (wait_confirm_low d), (is_local d), (reset_timer d); simpl; congruence.
  - intros E. destruct e; try done; revert E; simpl;
      unfold emi_stop, emi_started, EMI_started, cmdEnterMonitor, cmdOpen, cmdLeaveMonitor, cmdClose,
        send_Local, emi_reset_timer_cb; simpl;
      destruct (ver d), (monitor d), (wait_confirm_low d), (is_local d), (reset_timer d); simpl; congruence.
Qed.

(** An EMI2 interface that is stopped before it is open. *)
Definition opening_emi2 : EMI_Common :=
  mkEMI vEMI2 false 3 E_idle [] 0 false false true true N_open false false.

Lemma opening_emi2_reached :
  exists o, emi_run (new_emi vEMI2 false 3) [EV_start; EV_started; EV_next] = Ret (opening_emi2, o).
Proof. eexists. reflexivity. Qed.

Lemma emi_faults_iff_witness : emi_step opening_emi2 EV_stop = Fault AssertFailed.
Proof. apply (emi_faults_iff opening_emi2 EV_stop AssertFailed I). reflexivity. Defined.
