(* ===== verification/EibNetServer.v ===== *)
(** * The EIBnet/IP server

    Models src/src/libserver/eibnetserver.cpp: the tunnelling and management
    connections of clients ([class ConnState]), with sequence numbers,
    acknowledgements and time-outs, the table of connections, and the handling of
    every kind of datagram ([EIBnetServer::handle_packet]).

    A connection object lives in the table until it is dropped; [cs_id] is its
    identity.  What a method tells a socket, the router or the link of a
    connection is a list of outputs, in order.  The local address the system
    would use towards a client ([GetSourceAddress]), the hardware address and
    the success of setting up a client's filter stack are inputs. *)

From S2P Require Import Prelude CArray Common Apdu ApduSpec ApduRound Lpdu LpduSpec Emi Link Router.
From S2P Require Import EibNetIp EibNetIpSpec.

Definition ROUTING_INDICATION : Z := 0x0530.

Definition E_NO_ERROR : Z := 0x00.
Definition E_CONNECTION_ID : Z := 0x21.
Definition E_CONNECTION_TYPE : Z := 0x22.
Definition E_NO_MORE_CONNECTIONS : Z := 0x24.
Definition E_DATA_CONNECTION : Z := 0x26.
Definition E_TUNNELING_LAYER : Z := 0x29.

Inductive ConnType := CT_NONE | CT_STANDARD | CT_BUSMONITOR | CT_CONFIG.

#[export] Instance ConnType_eq_dec : EqDecision ConnType.
Proof. solve_decision. Defined.

(** [cs_active]: the trigger is started; [send_trigger]: it was sent. *)
Record ConnState := mkConn {
  cs_id : nat;
  cs_addr : Z;
  channel : Z;
  sno : Z;
  rno : Z;
  cs_retries : Z;
  cs_type : ConnType;
  cs_no : Z;
  cs_nat : bool;
  cs_timeout : bool;
  sendtimeout : bool;
  cs_active : bool;
  send_trigger : bool;
  do_send_next : bool;
  cs_out : list CArray;
  cs_daddr : sockaddr_in;
  cs_caddr : sockaddr_in
}.

Inductive server_output :=
| SO_Send (p : EIBNetIPPacket) (a : sockaddr_in)
| SO_recv (id : nat) (l : L_Data_PDU)
| SO_mcast_recv (l : L_Data_PDU)
| SO_send_Next (id : nat)
| SO_stopped (id : nat)
| SO_register (id : nat)
| SO_unregister (id : nat)
| SO_registerVBusmonitor (id : nat)
| SO_deregisterVBusmonitor (id : nat)
| SO_mcast_send_Next
| SO_mcast_stop
| SO_mcast_unregister
| SO_server_stopped.

Definition conn_result : Type := outcome (ConnState * list server_output).

Definition set_seqs (c : ConnState) (s r : Z) : ConnState :=
  mkConn (cs_id c) (cs_addr c) (channel c) s r (cs_retries c) (cs_type c) (cs_no c) (cs_nat c)
    (cs_timeout c) (sendtimeout c) (cs_active c) (send_trigger c) (do_send_next c) (cs_out c)
    (cs_daddr c) (cs_caddr c).
Definition set_cretries (c : ConnState) (n : Z) (st : bool) : ConnState :=
  mkConn (cs_id c) (cs_addr c) (channel c) (sno c) (rno c) n (cs_type c) (cs_no c) (cs_nat c)
    (cs_timeout c) st (cs_active c) (send_trigger c) (do_send_next c) (cs_out c)
    (cs_daddr c) (cs_caddr c).
Definition set_cout (c : ConnState) (o : list CArray) : ConnState :=
  mkConn (cs_id c) (cs_addr c) (channel c) (sno c) (rno c) (cs_retries c) (cs_type c) (cs_no c)
    (cs_nat c) (cs_timeout c) (sendtimeout c) (cs_active c) (send_trigger c) (do_send_next c) o
    (cs_daddr c) (cs_caddr c).
Definition set_do_send_next (c : ConnState) (b : bool) : ConnState :=
  mkConn (cs_id c) (cs_addr c) (channel c) (sno c) (rno c) (cs_retries c) (cs_type c) (cs_no c)
    (cs_nat c) (cs_timeout c) (sendtimeout c) (cs_active c) (send_trigger c) b (cs_out c)
    (cs_daddr c) (cs_caddr c).
Definition set_cno (c : ConnState) (n : Z) : ConnState :=
  mkConn (cs_id c) (cs_addr c) (channel c) (sno c) (rno c) (cs_retries c) (cs_type c) n
    (cs_nat c) (cs_timeout c) (sendtimeout c) (cs_active c) (send_trigger c) (do_send_next c)
    (cs_out c) (cs_daddr c) (cs_caddr c).
Definition set_ctrigger (c : ConnState) (b : bool) : ConnState :=
  mkConn (cs_id c) (cs_addr c) (channel c) (sno c) (rno c) (cs_retries c) (cs_type c) (cs_no c)
    (cs_nat c) (cs_timeout c) (sendtimeout c) (cs_active c) b (do_send_next c) (cs_out c)
    (cs_daddr c) (cs_caddr c).

(** [send_trigger.send ()]: a stopped trigger is never delivered. *)
Definition cs_trigger (c : ConnState) : ConnState := set_ctrigger c (cs_active c).

(** [out.put (x); if (! retries) send_trigger.send ();] *)
Definition cs_put (c : ConnState) (x : CArray) : ConnState :=
  let c := set_cout c (cs_out c ++ [x]) in
  if decide (cs_retries c = 0) then cs_trigger c else c.

(** [out.get ()] *)
Definition cs_get (c : ConnState) : outcome ConnState :=
  match cs_out c with
  | [] => Fault OutOfRange
  | _ :: o => Ret (set_cout c o)
  end.

(** ** One connection *)

Definition cs_send_L_Busmonitor (c : ConnState) (l : L_Busmonitor_PDU) : outcome ConnState :=
  if decide (cs_type c = CT_BUSMONITOR) then
    x ← Busmonitor_to_CEMI 0x2B l (cs_no c);
    Ret (cs_put (set_cno c (cs_no c + 1)) x)
  else Ret c.

Definition cs_send_L_Data (c : ConnState) (l : L_Data_PDU) : outcome ConnState :=
  if decide (cs_type c = CT_STANDARD) then
    _ ← assert_ (negb (do_send_next c));
    x ← L_Data_ToCEMI 0x29 l;
    Ret (cs_put (set_do_send_next c true) x)
  else Ret c.

Definition send_trigger_cb (c : ConnState) : conn_result :=
  let c := set_ctrigger c false in
  match cs_out c with
  | [] => Ret (c, [])
  | x :: _ =>
      p ← (if decide (cs_type c = CT_CONFIG)
           then ConfigRequest_ToPacket (mkConfigRequest (channel c) (sno c) x)
           else TunnelRequest_ToPacket (mkTunnelRequest (channel c) (sno c) x));
      Ret (set_cretries c (cs_retries c + 1) true, [SO_Send p (cs_daddr c)])
  end.

Definition tunnel_request (c : ConnState) (r1 : EIBnet_TunnelRequest) : conn_result :=
  let ack status :=
    p ← TunnelACK_ToPacket (mkTunnelACK (treq_channel r1) (treq_seqno r1) status);
    Ret (SO_Send p (cs_daddr c)) in
  if decide (rno c = Z.land (treq_seqno r1 + 1) 0xff) then a ← ack 0; Ret (c, [a])
  else if decide (rno c <> treq_seqno r1) then Ret (c, [])
  else
    '(c, o, status) ←
      (if decide (cs_type c = CT_STANDARD) then
         l ← CEMI_to_L_Data (treq_CEMI r1);
         match l with
         | Some l =>
             code ← at_ (treq_CEMI r1) 0;
             c ← (if decide (code = 0x11) then x ← L_Data_ToCEMI 0x2E l; Ret (cs_put c x) else Ret c);
             let l := if decide (source l = 0) then with_source l (cs_addr c) else l in
             Ret (c, if bool_decide (code = 0x11) || bool_decide (code = 0x29)
                     then [SO_recv (cs_id c) l] else [], 0)
         | None => Ret (c, [], 0x29)
         end
       else Ret (c, [], 0x29));
    a ← ack status;
    Ret (set_seqs c (sno c) (u8 (rno c + 1)), o ++ [a]).

(** The part that [tunnel_response] and [config_response] have in common once the
    acknowledgement is accepted. *)
Definition cs_acked (c : ConnState) : conn_result :=
  c ← cs_get (set_seqs c (u8 (sno c + 1)) (rno c));
  let c := set_cretries c 0 false in
  match cs_out c with
  | _ :: _ => Ret (cs_trigger c, [])
  | [] =>
      if do_send_next c then Ret (set_do_send_next c false, [SO_send_Next (cs_id c)])
      else Ret (c, [])
  end.

Definition tunnel_response (c : ConnState) (r1 : EIBnet_TunnelACK) : conn_result :=
  if decide (sno c <> tack_seqno r1) then Ret (c, [])
  else if decide (tack_status r1 <> 0) then Ret (c, [])
  else if decide (cs_retries c = 0) then Ret (c, [])
  else if bool_decide (cs_type c <> CT_STANDARD) && bool_decide (cs_type c <> CT_BUSMONITOR)
  then Ret (c, [])
  else cs_acked c.

Definition config_response (c : ConnState) (r1 : EIBnet_ConfigACK) : conn_result :=
  if decide (sno c <> cfack_seqno r1) then Ret (c, [])
  else if decide (cfack_status r1 <> 0) then Ret (c, [])
  else if decide (cs_retries c = 0) then Ret (c, [])
  else if decide (cs_type c <> CT_CONFIG) then Ret (c, [])
  else cs_acked c.

(** The answer to a property read: only property 0 of object 0 exists. *)
Definition config_answer (cemi : CArray) : outcome CArray :=
  c1 ← at_ cemi 1; c2 ← at_ cemi 2; objno ← at_ cemi 3; prop ← at_ cemi 4;
  c5 ← at_ cemi 5; c6 ← at_ cemi 6;
  let obj := Z.lor (c1 ≪ 8) c2 in
  let count := Z.land (c5 ≫ 4) 0x0f in
  let start := Z.lor (Z.land c5 0x0f) c6 in
  let known := bool_decide (obj = 0) && bool_decide (objno = 0) && bool_decide (prop = 0) in
  let res := if known then [0; 0] else [0] in
  let start := if known then 0 else start in
  let count := if known then count else 0 in
  r ← put (resize [] (6 + size res)) 0 0xFB;
  r ← put r 1 (Z.land (obj ≫ 8) 0xff);
  r ← put r 2 (Z.land obj 0xff);
  r ← put r 3 objno;
  r ← put r 4 prop;
  r ← put r 5 (Z.lor (Z.land count 0x0f ≪ 4) (start ≫ 8));
  r ← put r 6 (Z.land start 0xff);
  setpart_all r res 7.

Definition config_request (c : ConnState) (r1 : EIBnet_ConfigRequest) : conn_result :=
  let ack status :=
    p ← ConfigACK_ToPacket (mkConfigACK (cfreq_channel r1) (cfreq_seqno r1) status);
    Ret (SO_Send p (cs_daddr c)) in
  if decide (rno c = Z.land (cfreq_seqno r1 + 1) 0xff) then a ← ack 0; Ret (c, [a])
  else if decide (rno c <> cfreq_seqno r1) then Ret (c, [])
  else
    '(c, status) ←
      (if bool_decide (cs_type c = CT_CONFIG) && bool_decide (1 < size (cfreq_CEMI r1))%nat then
         code ← at_ (cfreq_CEMI r1) 0;
         if bool_decide (code = 0xFC) && bool_decide (size (cfreq_CEMI r1) = 7%nat)
         then x ← config_answer (cfreq_CEMI r1); Ret (cs_put c x, E_NO_ERROR)
         else Ret (c, E_DATA_CONNECTION)
       else Ret (c, E_TUNNELING_LAYER));
    a ← ack status;
    Ret (set_seqs c (sno c) (u8 (rno c + 1)), [a]).

(** [ConnState::sendtimeout_cb], and whether the connection is to be stopped. *)
Definition cs_sendtimeout (c : ConnState) : outcome (ConnState * bool) :=
  let c := set_cretries c (cs_retries c + 1) false in
  if decide (cs_retries c <= 2) then Ret (cs_trigger c, false)
  else c ← cs_get c; Ret (c, true).

(** ** The server *)

(** [mcast]: the driver for routing, and with it the sockets, exist.
    [drop_active]: the trigger is started; [drop_trigger]: it was sent. *)
Record EIBnetServer (D : Type) := mkServer {
  tunnel : bool;
  route : bool;
  discover : bool;
  sv_port : Z;
  sv_maddr : CArray;
  servername : CArray;
  mcast : bool;
  connections : list ConnState;
  drop_q : list nat;
  drop_active : bool;
  drop_trigger : bool;
  next_id : nat;
  sv_router : Router D
}.
Arguments mkServer {D}.
Arguments tunnel {D}.
Arguments route {D}.
Arguments discover {D}.
Arguments sv_port {D}.
Arguments sv_maddr {D}.
Arguments servername {D}.
Arguments connections {D}.
Arguments mcast {D}.
Arguments drop_q {D}.
Arguments drop_active {D}.
Arguments drop_trigger {D}.
Arguments next_id {D}.
Arguments sv_router {D}.

(** The state of the links of the connections ([LinkConnect::state]) is not the server's:
    whether the link of a connection is up at the moment it is stopped, given the
    connections already dropped, can be anything. *)
Class LinkStates := link_up : list nat -> nat -> bool.

Section Server.
Context {D : Type} `{Driver D} {LS : LinkStates}.

(** [GetSourceAddress (t, &dest, &src)]: the address this host has towards [dest]. *)
Variable GetSourceAddress : sockaddr_in -> option sockaddr_in.

Local Abbreviation server := (EIBnetServer D).

Definition server_result : Type := outcome (server * list server_output).

Definition set_connections (sv : server) (cs : list ConnState) : server :=
  mkServer (tunnel sv) (route sv) (discover sv) (sv_port sv) (sv_maddr sv) (servername sv) (mcast sv)
    cs (drop_q sv) (drop_active sv) (drop_trigger sv) (next_id sv) (sv_router sv).
Definition set_drop (sv : server) (q : list nat) (act t : bool) : server :=
  mkServer (tunnel sv) (route sv) (discover sv) (sv_port sv) (sv_maddr sv) (servername sv) (mcast sv)
    (connections sv) q act t (next_id sv) (sv_router sv).
Definition set_router (sv : server) (r : Router D) : server :=
  mkServer (tunnel sv) (route sv) (discover sv) (sv_port sv) (sv_maddr sv) (servername sv) (mcast sv)
    (connections sv) (drop_q sv) (drop_active sv) (drop_trigger sv) (next_id sv) r.
Definition set_next_id (sv : server) (n : nat) : server :=
  mkServer (tunnel sv) (route sv) (discover sv) (sv_port sv) (sv_maddr sv) (servername sv) (mcast sv)
    (connections sv) (drop_q sv) (drop_active sv) (drop_trigger sv) n (sv_router sv).
Definition set_mcast (sv : server) (b : bool) : server :=
  mkServer (tunnel sv) (route sv) (discover sv) (sv_port sv) (sv_maddr sv) (servername sv) b
    (connections sv) (drop_q sv) (drop_active sv) (drop_trigger sv) (next_id sv) (sv_router sv).

(** A connection object changes in place. *)
Definition update_conn (sv : server) (c : ConnState) : server :=
  set_connections sv (map (fun x => if decide (cs_id x = cs_id c) then c else x) (connections sv)).

(** The loops over [connections] that look for a channel number. *)
Definition find_channel (sv : server) (ch : Z) : option ConnState :=
  List.find (fun c => bool_decide (channel c = ch)) (connections sv).

(** [drop_connection]; a stopped trigger is never delivered. *)
Definition drop_connection (sv : server) (i : nat) : server :=
  set_drop sv (drop_q sv ++ [i]) (drop_active sv) (drop_active sv).

(** A connection object that is stopped. *)
Definition conn_stopped (c : ConnState) : ConnState :=
  mkConn (cs_id c) 0 (channel c) (sno c) (rno c) 0 (cs_type c) (cs_no c) (cs_nat c)
    false false false false (do_send_next c) (cs_out c) (cs_daddr c) (cs_caddr c).

(** The body of [ConnState::stop]; the link is told last ([SO_stopped]). *)
Definition conn_stop_body (sv : server) (c : ConnState) : server_result :=
  let o := if decide (cs_type c = CT_BUSMONITOR) then [SO_deregisterVBusmonitor (cs_id c)] else [] in
  let sv := drop_connection (update_conn sv (conn_stopped c)) (cs_id c) in
  sv ← (if decide (cs_addr c = 0) then Ret sv
        else r ← release_client_addr (sv_router sv) (cs_addr c); Ret (set_router sv r));
  Ret (sv, o ++ [SO_stopped (cs_id c)]).

(** [ConnState::stop].  A link that is up, being told that its driver stopped, goes down by
    calling [stop] once more before the call returns ([LinkConnect::stopped], [setState]
    from [L_up] to [L_down]); it is down then, and the inner call goes no deeper. *)
Definition conn_stop (sv : server) (c : ConnState) : server_result :=
  let up := link_up (drop_q sv) (cs_id c) in
  '(sv, o) ← conn_stop_body sv c;
  if up then '(sv, o') ← conn_stop_body sv (conn_stopped c); Ret (sv, o ++ o')
  else Ret (sv, o).

(** [EIBnetServer::drop_trigger_cb] *)
Fixpoint drop_all (sv : server) (q : list nat) : server * list server_output :=
  match q with
  | [] => (sv, [])
  | i :: q =>
      let found := existsb (fun c => bool_decide (cs_id c = i)) (connections sv) in
      let sv := set_connections sv
                  (List.filter (fun c => negb (bool_decide (cs_id c = i))) (connections sv)) in
      let '(sv, o) := drop_all sv q in
      (sv, (if found then [SO_unregister i] else []) ++ o)
  end.

Definition drop_trigger_cb (sv : server) : server * list server_output :=
  drop_all (set_drop sv [] (drop_active sv) false) (drop_q sv).

(** [send_trigger_cb] at the server: what is sent goes through [mcast]. *)
Definition conn_send_trigger_cb (sv : server) (c : ConnState) : server_result :=
  '(c, o) ← send_trigger_cb c;
  _ ← (match o with [] => Ret tt | _ :: _ => assert_ (mcast sv) end);
  Ret (update_conn sv c, o).

Definition sendtimeout_cb (sv : server) (c : ConnState) : server_result :=
  '(c, gone) ← cs_sendtimeout c;
  let sv := update_conn sv c in
  if gone : bool then conn_stop sv c else Ret (sv, []).

Definition conn_timeout_cb (sv : server) (c : ConnState) : server_result :=
  o ← (if decide (0 < channel c) then
         match GetSourceAddress (cs_caddr c) with
         | Some a =>
             p ← DisconnectRequest_ToPacket
                   (mkDisconnectRequest (channel c) (mkSockaddr (sin_addr a) (sv_port sv)) (cs_nat c));
             Ret [SO_Send p (cs_caddr c)]
         | None => Ret []
         end
       else Ret []);
  '(sv, o') ← conn_stop sv c;
  Ret (sv, o ++ o').

(** The loop at the label [rt]: the first channel number that is not in use. *)
Fixpoint free_channel (fuel : nat) (cs : list ConnState) (id : Z) : Z :=
  match fuel with
  | O => id
  | S fuel => if existsb (fun c => bool_decide (channel c = id)) cs
              then free_channel fuel cs (id + 1) else id
  end.

(** [EIBnetServer::addClient]; [ok] is whether [setup] and [registerLink] succeed.
    [setup] of a bus monitor connection registers it with the router; a connection
    that is not registered as a link is forgotten. *)
Definition addClient (ok : bool * bool) (sv : server) (t : ConnType) (r1 : EIBnet_ConnectRequest)
  (a : Z) : server * Z * list server_output :=
  let id := free_channel (length (connections sv)) (connections sv) 1 in
  if decide (id <= 0xff) then
    let n := next_id sv in
    let c := mkConn n a (u8 id) 0 0 0 t 1 (creq_nat r1) true false true false false []
               (creq_daddr r1) (creq_caddr r1) in
    let sv := set_next_id sv (S n) in
    if fst ok then
      let o := if decide (t = CT_BUSMONITOR) then [SO_registerVBusmonitor n] else [] in
      if snd ok then (set_connections sv (connections sv ++ [c]), id, o ++ [SO_register n])
      else (sv, -1, o)
    else (sv, -1, [])
  else (sv, id, []).

(** *** Datagrams *)

(** What a search and a description answer have in common. *)
Definition server_device (sv : server) (mac ser : CArray) (ss : list DIB_service_Entry)
  : EIBnet_Device :=
  mkDevice 2 0 (r_addr (sv_router sv)) 0 ser (sv_maddr sv) mac (servername sv)
    (ss ++ (if tunnel sv then [mkService 4 1] else []) ++ (if route sv then [mkService 5 1] else [])).

Definition handle_search (mac : CArray) (sv : server) (p1 : EIBNetIPPacket) : server_result :=
  r1 ← parseEIBnet_SearchRequest p1;
  match r1 with
  | None => Ret (sv, [])
  | Some r1 =>
      if discover sv then
        match GetSourceAddress (sreq_caddr r1) with
        | None => Ret (sv, [])
        | Some a =>
            p ← SearchResponse_ToPacket
                  (mkSearchResponse (mkSockaddr (sin_addr a) (sv_port sv)) false
                     (server_device sv mac [1; 2; 3; 4; 5; 6] [mkService 2 1]));
            Ret (sv, [SO_Send p (sreq_caddr r1)])
        end
      else Ret (sv, [])
  end.

Definition handle_description (mac : CArray) (sv : server) (p1 : EIBNetIPPacket) : server_result :=
  r1 ← parseEIBnet_DescriptionRequest p1;
  match r1 with
  | None => Ret (sv, [])
  | Some r1 =>
      if discover sv then
        p ← DescriptionResponse_ToPacket
              (mkDescriptionResponse
                 (server_device sv mac [0; 0; 0; 0; 0; 0] [mkService 2 1; mkService 3 1]) []);
        Ret (sv, [SO_Send p (descreq_caddr r1)])
      else Ret (sv, [])
  end.

Definition handle_routing (sv : server) (p1 : EIBNetIPPacket) : server_result :=
  if decide (size (p_data p1) < 2)%nat then Ret (sv, [])
  else
    d0 ← at_ (p_data p1) 0;
    if decide (d0 <> 0x29) then Ret (sv, [])
    else
      c ← CEMI_to_L_Data (p_data p1);
      Ret (sv, match c with Some l => if route sv then [SO_mcast_recv l] else [] | None => [] end).

Definition handle_connectionstate (sv : server) (p1 : EIBNetIPPacket) : server_result :=
  r1 ← parseEIBnet_ConnectionStateRequest p1;
  match r1 with
  | None => Ret (sv, [])
  | Some r1 =>
      let status := match find_channel sv (csreq_channel r1) with Some _ => 0 | None => E_CONNECTION_ID end in
      p ← ConnectionStateResponse_ToPacket (mkConnectionStateResponse (csreq_channel r1) status);
      Ret (sv, [SO_Send p (csreq_caddr r1)])
  end.

Definition handle_disconnect (sv : server) (p1 : EIBNetIPPacket) : server_result :=
  r1 ← parseEIBnet_DisconnectRequest p1;
  match r1 with
  | None => Ret (sv, [])
  | Some r1 =>
      '(sv, o, status) ←
        match find_channel sv (dreq_channel r1) with
        | Some c => '(sv, o) ← conn_stop sv c; Ret (sv, o, 0)
        | None => Ret (sv, [], E_CONNECTION_ID)
        end;
      p ← DisconnectResponse_ToPacket (mkDisconnectResponse (dreq_channel r1) status);
      Ret (sv, o ++ [SO_Send p (dreq_caddr r1)])
  end.

(** The reply to a connection request: status, channel and the data block. *)
Definition handle_connect_type (ok : bool * bool) (sv : server) (r1 : EIBnet_ConnectRequest)
  : outcome (server * list server_output * Z * Z * CArray) :=
  cri0 ← at_ (creq_CRI r1) 0;
  if bool_decide (size (creq_CRI r1) = 3%nat) && bool_decide (cri0 = 4) then
    '(a, r) ← (if tunnel sv then get_client_addr (sv_router sv) else Ret (0, sv_router sv));
    let sv := set_router sv r in
    let crd := [0x04; u8 (Z.land (a ≫ 8) 0xff); u8 (Z.land (a ≫ 0) 0xff)] in
    cri1 ← at_ (creq_CRI r1) 1;
    if negb (tunnel sv) then Ret (sv, [], E_CONNECTION_TYPE, 0, crd)
    else if decide (a = 0) then Ret (sv, [], E_NO_MORE_CONNECTIONS, 0, crd)
    else if bool_decide (cri1 = 0x02) || bool_decide (cri1 = 0x80) then
      let '(sv, id, o) := addClient ok sv (if decide (cri1 = 0x80) then CT_BUSMONITOR else CT_STANDARD)
                            r1 a in
      if decide (id <= 0xff) then Ret (sv, o, E_NO_ERROR, u8 id, crd)
      else Ret (sv, o, E_CONNECTION_TYPE, 0, crd)
    else Ret (sv, [], E_TUNNELING_LAYER, 0, crd)
  else if bool_decide (size (creq_CRI r1) = 1%nat) && bool_decide (cri0 = 3) then
    let '(sv, id, o) := addClient ok sv CT_CONFIG r1 0 in
    if decide (id <= 0xff) then Ret (sv, o, E_NO_ERROR, u8 id, [0x03])
    else Ret (sv, o, E_CONNECTION_TYPE, 0, [0x03])
  else Ret (sv, [], E_CONNECTION_TYPE, 0, []).

Definition handle_connect (ok : bool * bool) (sv : server) (p1 : EIBNetIPPacket) : server_result :=
  r1 ← parseEIBnet_ConnectRequest p1;
  match r1 with
  | None => Ret (sv, [])
  | Some r1 =>
      '(sv, o, status, ch, crd) ← handle_connect_type ok sv r1;
      match GetSourceAddress (creq_caddr r1) with
      | None => Ret (sv, o)
      | Some a =>
          p ← ConnectResponse_ToPacket
                (mkConnectResponse ch status (mkSockaddr (sin_addr a) (sv_port sv)) (creq_nat r1) crd);
          Ret (sv, o ++ [SO_Send p (creq_caddr r1)])
      end
  end.

(** A request for an existing connection. *)
Definition on_channel (sv : server) (ch : Z) (k : ConnState -> conn_result) : server_result :=
  match find_channel sv ch with
  | None => Ret (sv, [])
  | Some c => '(c, o) ← k c; Ret (update_conn sv c, o)
  end.

Definition handle_tunnel_request (sv : server) (p1 : EIBNetIPPacket) : server_result :=
  r1 ← parseEIBnet_TunnelRequest p1;
  match r1 with
  | None => Ret (sv, [])
  | Some r1 =>
      if tunnel sv then on_channel sv (treq_channel r1) (fun c => tunnel_request c r1) else Ret (sv, [])
  end.

Definition handle_tunnel_response (sv : server) (p1 : EIBNetIPPacket) : server_result :=
  r1 ← parseEIBnet_TunnelACK p1;
  match r1 with
  | None => Ret (sv, [])
  | Some r1 =>
      if tunnel sv then on_channel sv (tack_channel r1) (fun c => tunnel_response c r1) else Ret (sv, [])
  end.

Definition handle_config_request (sv : server) (p1 : EIBNetIPPacket) : server_result :=
  r1 ← parseEIBnet_ConfigRequest p1;
  match r1 with
  | None => Ret (sv, [])
  | Some r1 => on_channel sv (cfreq_channel r1) (fun c => config_request c r1)
  end.

Definition handle_config_ack (sv : server) (p1 : EIBNetIPPacket) : server_result :=
  r1 ← parseEIBnet_ConfigACK p1;
  match r1 with
  | None => Ret (sv, [])
  | Some r1 => on_channel sv (cfack_channel r1) (fun c => config_response c r1)
  end.

Definition handle_packet (mac : CArray) (ok : bool * bool) (sv : server) (p1 : EIBNetIPPacket)
  : server_result :=
  if decide (service p1 = SEARCH_REQUEST) then handle_search mac sv p1
  else if decide (service p1 = DESCRIPTION_REQUEST) then handle_description mac sv p1
  else if decide (service p1 = ROUTING_INDICATION) then handle_routing sv p1
  else if decide (service p1 = CONNECTIONSTATE_REQUEST) then handle_connectionstate sv p1
  else if decide (service p1 = DISCONNECT_REQUEST) then handle_disconnect sv p1
  else if decide (service p1 = CONNECTION_REQUEST) then handle_connect ok sv p1
  else if decide (service p1 = TUNNEL_REQUEST) then handle_tunnel_request sv p1
  else if decide (service p1 = TUNNEL_RESPONSE) then handle_tunnel_response sv p1
  else if decide (service p1 = DEVICE_CONFIGURATION_REQUEST) then handle_config_request sv p1
  else if decide (service p1 = DEVICE_CONFIGURATION_ACK) then handle_config_ack sv p1
  else Ret (sv, []).

(** *** The router's side *)

(** [EIBnetDriver::send_L_Data] *)
Definition mcast_send_L_Data (maddr : sockaddr_in) (sv : server) (l : L_Data_PDU)
  : outcome (list server_output) :=
  if route sv then
    d ← L_Data_ToCEMI 0x29 l;
    Ret [SO_Send (mkPacket ROUTING_INDICATION d (mkSockaddr 0 0)) maddr; SO_mcast_send_Next]
  else Ret [SO_mcast_send_Next].

Definition conn_send_L_Data (sv : server) (c : ConnState) (l : L_Data_PDU) : server_result :=
  c ← cs_send_L_Data c l; Ret (update_conn sv c, []).

Definition conn_send_L_Busmonitor (sv : server) (c : ConnState) (l : L_Busmonitor_PDU)
  : server_result :=
  c ← cs_send_L_Busmonitor c l; Ret (update_conn sv c, []).

(** [R_ITER(i,connections) ( *i)->stop ();]; objects are found again by identity,
    since each call changes the table. *)
Fixpoint stop_conns (sv : server) (ids : list nat) : server_result :=
  match ids with
  | [] => Ret (sv, [])
  | i :: ids =>
      match List.find (fun c => bool_decide (cs_id c = i)) (connections sv) with
      | Some c => '(sv, o) ← conn_stop sv c; '(sv, o') ← stop_conns sv ids; Ret (sv, o ++ o')
      | None => stop_conns sv ids
      end
  end.

(** [EIBnetServer::stop], with [stop_]. *)
Definition server_stop (sv : server) : server_result :=
  let sv := set_drop sv (drop_q sv) false false in
  '(sv, o) ← stop_conns sv (rev (map cs_id (connections sv)));
  Ret (set_mcast sv false,
       o ++ (if mcast sv then SO_mcast_stop :: (if route sv then [SO_mcast_unregister] else []) else [])
         ++ [SO_server_stopped]).
End Server.
