(* ===== verification/EibNetServerSpec.v ===== *)
(** * The EIBnet/IP server: theorems

    No sequence of datagrams, time-outs and frames of the router makes the
    server fail; clients have their own channels and addresses; frames in a
    tunnel are delivered once, in order; frames to a client are sent one at a
    time, at most twice each, and none is forgotten while the client lives. *)

From S2P Require Import Prelude CArray Common ApduSpec Lpdu LpduSpec Emi Link Router RouterSpec.
From S2P Require Import EibNetIp EibNetIpSpec EibNetSocket EibNetServer.

(** ** Packets that are sent *)

(** A parser returns. *)
Ltac parses := autounfold with eibnet; repeat parse_step.

Definition request_packet (s ch n : Z) (x : CArray) : EIBNetIPPacket :=
  built s ([4; ch; n; 0] ++ x).

Lemma TunnelRequest_packet ch n x :
  is_u8 ch -> is_u8 n ->
  TunnelRequest_ToPacket (mkTunnelRequest ch n x) = Ret (request_packet TUNNEL_REQUEST ch n x).
Proof.
  intros Hc Hn. unfold TunnelRequest_ToPacket. encode. rewrite (Nat.add_comm _ 4).
  cbn [treq_channel treq_seqno treq_CEMI cfreq_channel cfreq_seqno cfreq_CEMI]. cstep.
  by rewrite (u8_small ch), (u8_small n).
Qed.

Lemma ConfigRequest_packet ch n x :
  is_u8 ch -> is_u8 n ->
  ConfigRequest_ToPacket (mkConfigRequest ch n x)
  = Ret (request_packet DEVICE_CONFIGURATION_REQUEST ch n x).
Proof.
  intros Hc Hn. unfold ConfigRequest_ToPacket. encode. rewrite (Nat.add_comm _ 4).
  cbn [treq_channel treq_seqno treq_CEMI cfreq_channel cfreq_seqno cfreq_CEMI]. cstep.
  by rewrite (u8_small ch), (u8_small n).
Qed.

Lemma Busmonitor_to_CEMI_returns code l no : returns (Busmonitor_to_CEMI code l no).
Proof.
  unfold Busmonitor_to_CEMI. rewrite resize_nil, (Nat.add_comm _ 9). unfold setpart_all. cstep.
  by eexists.
Qed.

Lemma ConnectResponse_returns r : returns (ConnectResponse_ToPacket r).
Proof.
  unfold ConnectResponse_ToPacket. encode.
  destruct (decide (cresp_status r <> 0)), (decide (cresp_status r = 0)); try done.
  - by eexists.
  - rewrite (Nat.add_comm _ 3). cstep. by eexists.
Qed.

Lemma DisconnectRequest_returns r : returns (DisconnectRequest_ToPacket r).
Proof. unfold DisconnectRequest_ToPacket. encode. cstep. by eexists. Qed.

(** ** One connection *)

(** What holds of a connection between two callbacks.  A packet is waiting for its
    acknowledgement iff [cs_retries] is not 0. *)
Definition conn_ok (c : ConnState) : Prop :=
  1 <= channel c <= 255 /\ is_u8 (sno c) /\ is_u8 (rno c) /\
  0 <= cs_retries c <= 3 /\
  (cs_retries c <> 0 -> cs_out c <> []) /\
  (sendtimeout c = true -> cs_retries c = 1 \/ cs_retries c = 3) /\
  (send_trigger c = true -> cs_retries c = 0 \/ cs_retries c = 2) /\
  (cs_active c = true -> cs_out c <> [] -> send_trigger c = true \/ sendtimeout c = true) /\
  (cs_active c = true -> do_send_next c = true -> cs_out c <> []) /\
  (cs_active c = false -> cs_retries c = 0 /\ send_trigger c = false).

(** What no operation on a connection changes, but for stopping it. *)
Definition same_conn (c c' : ConnState) : Prop :=
  cs_id c' = cs_id c /\ channel c' = channel c /\ cs_addr c' = cs_addr c /\
  cs_active c' = cs_active c /\ cs_type c' = cs_type c /\ cs_daddr c' = cs_daddr c.

Definition conn_post (c c' : ConnState) : Prop := same_conn c c' /\ conn_ok c'.

Ltac conn :=
  unfold conn_post, same_conn, conn_ok in *;
  cbn [cs_id cs_addr channel sno rno cs_retries cs_type cs_no cs_nat cs_timeout sendtimeout
       cs_active send_trigger do_send_next cs_out cs_daddr cs_caddr fst snd
       cs_trigger set_ctrigger set_cout set_seqs set_cretries set_do_send_next set_cno];
  repeat match goal with E : cs_out _ = _ |- _ => rewrite E in *; clear E end.

Lemma snoc_not_nil {A} (l : list A) x : l ++ [x] <> [].
Proof. by destruct l. Qed.

(** Use the implications whose premises are at hand. *)
Ltac forward :=
  repeat match goal with
    | H : ?P -> ?Q |- _ =>
        lazymatch type of P with Prop => idtac end;
        let HP := fresh in
        assert P as HP by first [assumption | reflexivity | discriminate | lia];
        specialize (H HP); clear HP
    | H : _ /\ _ |- _ => destruct H
    end.

Ltac conn_solve :=
  destruct_and?; split_and!; intros;
  first [ assumption | apply u8_bound | apply snoc_not_nil | done | lia
        | forward; first [done | lia | tauto | by left | by right | intuition congruence] ].

Lemma cs_put_ok c x : conn_ok c -> conn_post c (cs_put c x).
Proof.
  intros Hc. unfold cs_put. cbv zeta. cbn [cs_retries set_cout]. destruct (decide _); conn; conn_solve.
Qed.

Lemma send_trigger_ok c :
  conn_ok c -> send_trigger c = true ->
  returns_with (fun r => conn_post c r.1) (send_trigger_cb c).
Proof.
  intros Hc Ht. unfold send_trigger_cb. cbv zeta. pose proof Hc as (Hch & Hs & _).
  assert (is_u8 (channel c)) by (unfold is_u8; lia).
  change (cs_out (set_ctrigger c false)) with (cs_out c).
  destruct (cs_out c) as [|x o] eqn:Eo.
  - apply returns_with_Ret. cbn [fst]. conn; conn_solve.
  - cbn [channel sno set_ctrigger cs_type].
    destruct (decide _); [rewrite ConfigRequest_packet by done | rewrite TunnelRequest_packet by done];
      apply returns_with_Ret; cbn [fst]; conn; conn_solve.
Qed.

Lemma cs_acked_ok c :
  conn_ok c -> cs_retries c <> 0 -> returns_with (fun r => conn_post c r.1) (cs_acked c).
Proof.
  intros Hc Hr. unfold cs_acked, cs_get. generalize (u8_bound (sno c + 1)). generalize (u8 (sno c + 1)).
  intros n Hn. cbn [cs_out set_seqs].
  assert (cs_out c <> []) as Ho by (unfold conn_ok in Hc; tauto).
  destruct (cs_out c) as [|x o] eqn:Eo; [done|]. rewrite bind_Ret. cbv zeta.
  cbn [cs_out set_cretries set_cout]. destruct o as [|y o]; [|apply returns_with_Ret; cbn [fst]; conn; conn_solve].
  cbn [do_send_next set_cretries set_cout set_seqs].
  destruct (do_send_next c) eqn:Ed; apply returns_with_Ret; cbn [fst]; conn; conn_solve.
Qed.

Lemma conn_post_refl c : conn_ok c -> conn_post c c.
Proof. by split. Qed.

Lemma conn_post_trans c c' c'' : conn_post c c' -> conn_post c' c'' -> conn_post c c''.
Proof. unfold conn_post, same_conn. intuition congruence. Qed.

Lemma conn_skip c : conn_ok c -> returns_with (fun r => conn_post c r.1) (Ret (c, [] : list server_output)).
Proof. intros. by apply returns_with_Ret, conn_post_refl. Qed.

Lemma tunnel_response_ok c r :
  conn_ok c -> returns_with (fun r => conn_post c r.1) (tunnel_response c r).
Proof.
  intros Hc. unfold tunnel_response.
  repeat (destruct (decide _); [by apply conn_skip|]).
  destruct (_ && _); [by apply conn_skip | by apply cs_acked_ok].
Qed.

Lemma config_response_ok c r :
  conn_ok c -> returns_with (fun r => conn_post c r.1) (config_response c r).
Proof.
  intros Hc. unfold config_response.
  repeat (destruct (decide _); [by apply conn_skip|]). by apply cs_acked_ok.
Qed.

(** The last step of both requests: the next number is expected, and the answer
    is sent. *)
Lemma set_rno_ok c c' : conn_post c c' -> conn_post c (set_seqs c' (sno c') (u8 (rno c' + 1))).
Proof. pose proof (u8_bound (rno c' + 1)). conn. intuition. Qed.

Lemma TunnelACK_returns r : returns (TunnelACK_ToPacket r).
Proof. by eexists. Qed.
Lemma ConfigACK_returns r : returns (ConfigACK_ToPacket r).
Proof. by eexists. Qed.

(** A frame of a tunnel request that fits into a datagram can be converted back. *)
Lemma tunnelled_ToCEMI d l code :
  bytes d -> (size d <= 245)%nat -> CEMI_to_L_Data d = Ret (Some l) ->
  L_Data_ToCEMI code l = Ret (cemi_bytes code l).
Proof.
  intros Hb Hs Hl. pose proof (CEMI_to_L_Data_size _ _ Hb Hl) as Hn.
  destruct (CEMI_to_L_Data_wf _ Hb) as (o & E & Hw). rewrite Hl in E. simplify_eq.
  apply L_Data_ToCEMI_eq; [done|lia].
Qed.

(** What a tunnel request that is accepted does: the frame it holds, the
    confirmation that is queued, and the status of the acknowledgement. *)
Definition tunnel_effect (c : ConnState) (d : CArray)
  : option (L_Data_PDU) * option CArray * Z :=
  if decide (cs_type c = CT_STANDARD) then
    match CEMI_to_L_Data d with
    | Ret (Some l) =>
        let code := default 0 (head d) in
        ((if bool_decide (code = 0x11) || bool_decide (code = 0x29)
          then Some (if decide (source l = 0) then with_source l (cs_addr c) else l) else None),
         (if decide (code = 0x11) then Some (cemi_bytes 0x2E l) else None), 0)
    | _ => (None, None, 0x29)
    end
  else (None, None, 0x29).

Definition ack_packet (s ch n status : Z) : EIBNetIPPacket := built s [4; ch; n; status].

Lemma TunnelACK_packet ch n st :
  is_u8 ch -> is_u8 n -> is_u8 st ->
  TunnelACK_ToPacket (mkTunnelACK ch n st) = Ret (ack_packet TUNNEL_RESPONSE ch n st).
Proof.
  intros Hc Hn Hs. unfold TunnelACK_ToPacket, ack_packet. cstep.
  cbn [tack_channel tack_seqno tack_status]. by rewrite !u8_small.
Qed.

Definition put_opt (c : ConnState) (x : option CArray) : ConnState :=
  match x with Some x => cs_put c x | None => c end.

Definition to_router (c : ConnState) (l : option L_Data_PDU) : list server_output :=
  match l with Some l => [SO_recv (cs_id c) l] | None => [] end.

Lemma put_opt_ok c x : conn_ok c -> conn_post c (put_opt c x).
Proof. destruct x; [apply cs_put_ok | apply conn_post_refl]. Qed.

(** The whole of [tunnel_request], with no case left in which it fails. *)
Lemma tunnel_request_eq c r :
  is_u8 (treq_channel r) -> is_u8 (treq_seqno r) -> bytes (treq_CEMI r) ->
  (size (treq_CEMI r) <= 245)%nat ->
  tunnel_request c r =
    let ack st := SO_Send (ack_packet TUNNEL_RESPONSE (treq_channel r) (treq_seqno r) st) (cs_daddr c) in
    if decide (rno c = u8 (treq_seqno r + 1)) then Ret (c, [ack 0])
    else if decide (rno c <> treq_seqno r) then Ret (c, [])
    else let '(l, x, st) := tunnel_effect c (treq_CEMI r) in
         let c' := put_opt c x in
         Ret (set_seqs c' (sno c') (u8 (rno c' + 1)), to_router c l ++ [ack st]).
Proof.
  intros Hc Hn Hb Hs. unfold tunnel_request. cbv zeta. change (Z.land ?a 0xff) with (u8 a).
  assert (forall st, is_u8 st -> TunnelACK_ToPacket (mkTunnelACK (treq_channel r) (treq_seqno r) st)
    = Ret (ack_packet TUNNEL_RESPONSE (treq_channel r) (treq_seqno r) st)) as Hack
    by (intros; by apply TunnelACK_packet).
  destruct (decide _); [by rewrite Hack by done|]. destruct (decide _); [done|].
  unfold tunnel_effect. destruct (decide (cs_type c = CT_STANDARD)).
  2:{ rewrite bind_Ret, Hack by done. done. }
  destruct (CEMI_to_L_Data_wf _ Hb) as ([l|] & E & Hw); rewrite E.
  2:{ cbn [mbind outcome_bind]. by rewrite Hack. }
  rewrite bind_Ret.
  pose proof (CEMI_to_L_Data_size _ _ Hb E) as Hsz.
  destruct (treq_CEMI r) as [|code d] eqn:Ed; [unfold size in Hsz; simpl in Hsz; lia|].
  change (at_ (code :: d) 0) with (Ret code). rewrite bind_Ret. cbn [head default].
  rewrite (tunnelled_ToCEMI (code :: d) l 0x2E) by done.
  cbn [default head id]. destruct (decide (code = 0x11)) as [->|].
  - cbn [mbind outcome_bind]. rewrite Hack by done. cbn [mbind outcome_bind put_opt].
    rewrite bool_decide_eq_true_2 by done. cbn [orb to_router].
    replace (cs_id (cs_put c _)) with (cs_id c) by (unfold cs_put; by destruct (decide _)).
    replace (cs_addr (cs_put c _)) with (cs_addr c) by (unfold cs_put; by destruct (decide _)).
    done.
  - cbn [mbind outcome_bind]. rewrite Hack by done. cbn [mbind outcome_bind put_opt].
    by destruct (_ || _).
Qed.

Lemma tunnel_request_ok c r :
  conn_ok c -> is_u8 (treq_channel r) -> is_u8 (treq_seqno r) -> bytes (treq_CEMI r) ->
  (size (treq_CEMI r) <= 245)%nat ->
  returns_with (fun r => conn_post c r.1) (tunnel_request c r).
Proof.
  intros Hc ????. rewrite tunnel_request_eq by done. cbv zeta.
  destruct (decide _); [by apply returns_with_Ret, conn_post_refl|].
  destruct (decide _); [by apply conn_skip|].
  destruct (tunnel_effect _ _) as [[l x] st]. apply returns_with_Ret, set_rno_ok.
  by apply put_opt_ok.
Qed.

Lemma config_answer_returns d : size d = 7%nat -> returns (config_answer d).
Proof.
  intros Hd. peel d 7%nat. destruct d; [|done].
  unfold config_answer. cbn [at_ lookup list_lookup mbind outcome_bind]. cbv zeta.
  destruct (_ && _ && _); by eexists.
Qed.

Lemma config_request_ok c r :
  conn_ok c -> returns_with (fun r => conn_post c r.1) (config_request c r).
Proof.
  intros Hc. unfold config_request. cbv zeta.
  assert (forall st, exists p, ConfigACK_ToPacket (mkConfigACK (cfreq_channel r) (cfreq_seqno r) st) = Ret p)
    as Hack by (intros; apply ConfigACK_returns).
  destruct (decide _).
  { destruct (Hack 0) as [p ->]. by apply returns_with_Ret, conn_post_refl. }
  destruct (decide _); [by apply conn_skip|].
  apply (returns_with_bind (fun r : ConnState * Z => conn_post c r.1)).
  - destruct (_ && _) eqn:E; [|by apply returns_with_Ret, conn_post_refl].
    apply andb_true_iff in E as [_ E%bool_decide_eq_true].
    destruct (at_lt (cfreq_CEMI r) 0) as (b & -> & _); [lia|]. rewrite bind_Ret.
    destruct (_ && _) eqn:E'; [|by apply returns_with_Ret, conn_post_refl].
    apply andb_true_iff in E' as [_ E'%bool_decide_eq_true].
    destruct (config_answer_returns _ E') as [x ->]. by apply returns_with_Ret, cs_put_ok.
  - intros [c' st] Hc'. destruct (Hack st) as [p ->]. by apply returns_with_Ret, set_rno_ok.
Qed.

Lemma cs_send_L_Data_ok c l :
  conn_ok c -> do_send_next c = false ->
  (cs_type c = CT_STANDARD -> cemi_fits l) ->
  returns_with (conn_post c) (cs_send_L_Data c l).
Proof.
  intros Hc Hd Hx. unfold cs_send_L_Data. destruct (decide _).
  - rewrite Hd, (L_Data_ToCEMI_fits _ _ (Hx ltac:(done))). cbn [negb assert_ mbind outcome_bind]. apply returns_with_Ret.
    unfold cs_put. cbv zeta. cbn [cs_retries set_cout set_do_send_next].
    destruct (decide _); conn; conn_solve.
  - apply returns_with_Ret. by apply conn_post_refl.
Qed.

Lemma cs_send_L_Busmonitor_ok c l :
  conn_ok c -> returns_with (conn_post c) (cs_send_L_Busmonitor c l).
Proof.
  intros Hc. unfold cs_send_L_Busmonitor. destruct (decide _).
  - destruct (Busmonitor_to_CEMI_returns 0x2B l (cs_no c)) as [x ->]. apply returns_with_Ret.
    unfold cs_put. cbv zeta. cbn [cs_retries set_cout set_cno].
    destruct (decide _); conn; conn_solve.
  - apply returns_with_Ret. by apply conn_post_refl.
Qed.

(** ** The table of connections *)

Section Server.
Context {D : Type} `{Driver D} {LS : LinkStates}.
Variable GetSourceAddress : sockaddr_in -> option sockaddr_in.

Local Abbreviation server := (EIBnetServer D).
Local Abbreviation handle := (handle_packet GetSourceAddress).

(** Every connection is in order; connections differ in identity, in channel and
    in client address; a client address is marked as taken in the pool. *)
Definition server_ok (sv : server) : Prop :=
  let cs := connections sv in
  let r := sv_router sv in
  NoDup (cs_id <$> cs) /\
  (forall c, c ∈ cs -> conn_ok c /\ (cs_id c < next_id sv)%nat /\
                       (mcast sv = false -> cs_active c = false)) /\
  (forall c d, c ∈ cs -> d ∈ cs -> channel c = channel d -> c = d) /\
  (forall c, c ∈ cs -> cs_addr c <> 0 ->
             client_addrs_start (pool r) <= cs_addr c /\ taken r (cs_addr c)) /\
  (forall c d, c ∈ cs -> d ∈ cs -> cs_addr c = cs_addr d -> cs_addr c <> 0 -> c = d) /\
  pool_wf (pool r) /\
  size (sv_maddr sv) = 4%nat /\ size (servername sv) = 30%nat.

Definition replace (c' : ConnState) (cs : list ConnState) : list ConnState :=
  map (fun x => if decide (cs_id x = cs_id c') then c' else x) cs.

Lemma elem_of_replace c' cs x :
  x ∈ replace c' cs -> (x = c' /\ exists c, c ∈ cs /\ cs_id c = cs_id c') \/
                       (x ∈ cs /\ cs_id x <> cs_id c').
Proof.
  unfold replace. rewrite list_elem_of_In, in_map_iff.
  intros (y & Ey & Hy%list_elem_of_In). destruct (decide _); subst; eauto.
Qed.

Lemma replace_ids c' cs : cs_id <$> replace c' cs = cs_id <$> cs.
Proof.
  unfold replace. induction cs as [|c cs IH]; [done|]. rewrite map_cons, !fmap_cons, IH.
  by destruct (decide _) as [->|].
Qed.

Lemma id_inj (cs : list ConnState) c d :
  NoDup (cs_id <$> cs) -> c ∈ cs -> d ∈ cs -> cs_id c = cs_id d -> c = d.
Proof.
  intros Hn Hc Hd E. apply list_elem_of_lookup in Hc as [i Hi], Hd as [j Hj].
  assert (i = j) as ->; [|congruence].
  eapply NoDup_lookup; [exact Hn|rewrite list_lookup_fmap, Hi|rewrite list_lookup_fmap, Hj]; [done|].
  simpl. by rewrite E.
Qed.

(** What a change of one connection must keep. *)
Lemma server_ok_replace sv r c c' :
  server_ok sv -> c ∈ connections sv -> cs_id c' = cs_id c -> channel c' = channel c ->
  (cs_active c' = true -> cs_active c = true) -> conn_ok c' ->
  pool_wf (pool r) ->
  (forall a, client_addrs_start (pool r) <= a /\ taken r a \/
             ~ (client_addrs_start (pool (sv_router sv)) <= a /\ taken (sv_router sv) a) \/
             a = cs_addr c /\ cs_addr c' = 0) ->
  (cs_addr c' = cs_addr c \/ cs_addr c' = 0) ->
  server_ok (set_router (update_conn sv c') r).
Proof.
  intros (Hn & Hc & Hch & Ht & Ha & Hp & Hst) Hin Ei Ec Eact Hok Hp' Hrel Eaddr.
  assert (forall x, x ∈ replace c' (connections sv) ->
    x = c' \/ (x ∈ connections sv /\ x <> c)) as Hx.
  { intros x [[-> _]|[Hx Hne]]%elem_of_replace; [by left|]. right. split; [done|]. congruence. }
  assert (mcast sv = false -> cs_active c' = false) as Hm.
  { intros E. apply not_true_is_false. intros E'%Eact. destruct (Hc c Hin) as (_ & _ & Hi).
    rewrite Hi in E' by done. done. }
  unfold server_ok, set_router, update_conn, set_connections. cbn. fold (replace c' (connections sv)).
  rewrite replace_ids. split; [done|]. split; [|split; [|split; [|split]]]; [..|done].
  - intros x [->|[Hx' _]]%Hx; [|by apply Hc]. rewrite Ei.
    split_and!; [done|by apply Hc|done].
  - intros x y [->|[Hx' Hxn]]%Hx [->|[Hy' Hyn]]%Hx E; [done|..|by apply Hch].
    + destruct Hyn. symmetry. apply Hch; [done..|congruence].
    + destruct Hxn. apply Hch; [done..|congruence].
  - intros x [->|[Hx' Hxn]]%Hx E.
    + destruct Eaddr as [E'|E']; [|done]. rewrite E' in E |- *.
      destruct (Hrel (cs_addr c)) as [?|[[]|[_ ?]]]; [done|by apply Ht|congruence].
    + destruct (Hrel (cs_addr x)) as [?|[[]|[Ex _]]]; [done|by apply Ht|].
      destruct Hxn. by apply Ha.
  - intros x y [->|[Hx' Hxn]]%Hx [->|[Hy' Hyn]]%Hx E E0; [done|..|by apply Ha].
    + destruct Eaddr as [E'|E']; [|done]. destruct Hyn. symmetry. apply Ha; [done..|congruence|congruence].
    + destruct Eaddr as [E'|E']; [|congruence]. destruct Hxn. apply Ha; [done..|congruence|congruence].
Qed.

#[local] Instance taken_dec (r : Router D) a : Decision (taken r a).
Proof. unfold taken. apply _. Defined.

Lemma set_router_self (sv : server) : set_router sv (sv_router sv) = sv.
Proof. by destruct sv. Qed.

Lemma update_conn_ok sv c c' :
  server_ok sv -> c ∈ connections sv -> conn_post c c' -> server_ok (update_conn sv c').
Proof.
  intros Hs Hin [(Ei & Ec & Ea & Eact & _) Hok]. rewrite <-(set_router_self (update_conn sv c')).
  apply (server_ok_replace sv _ c c'); try done; [congruence|apply Hs| |by left].
  intros a. change (sv_router (update_conn sv c')) with (sv_router sv).
  destruct (decide (client_addrs_start (pool (sv_router sv)) <= a)); [|by right; left; intros []].
  destruct (decide (taken (sv_router sv) a)) as [Ht|Ht]; [by left|]. by right; left; intros [].
Qed.
Lemma set_drop_ok (sv : server) q act t : server_ok (set_drop sv q act t) <-> server_ok sv.
Proof. done. Qed.

(** The part of the pool that the connections rely on, when nothing is released. *)
Lemma pool_kept (r : Router D) c c' a :
  client_addrs_start (pool r) <= a /\ taken r a \/
  ~ (client_addrs_start (pool r) <= a /\ taken r a) \/ a = cs_addr c /\ cs_addr c' = 0.
Proof.
  destruct (decide (client_addrs_start (pool r) <= a)); [|by right; left; intros []].
  destruct (decide (taken r a)); [by left|]. by right; left; intros [].
Qed.

(** The server after a connection is stopped. *)
Definition stopped_post (sv : server) (c : ConnState) (sv' : server) : Prop :=
  server_ok sv' /\ mcast sv' = mcast sv /\
  cs_id <$> connections sv' = cs_id <$> connections sv /\
  (forall i, i ∈ drop_q sv' <-> i ∈ drop_q sv \/ i = cs_id c) /\
  forall d, d ∈ connections sv' ->
    (d ∈ connections sv /\ cs_id d <> cs_id c) \/ cs_active d = false.

(** A connection that is stopped gives its address back.  When it is stopped for
    lack of an acknowledgement, its queue has been changed before, [sv0] and [c2]. *)
Lemma conn_stop_body_gen sv sv0 c c2 :
  server_ok sv -> c ∈ connections sv -> same_conn c c2 ->
  is_u8 (sno c2) -> is_u8 (rno c2) ->
  (forall c', cs_id c' = cs_id c -> update_conn sv0 c' = update_conn sv c') ->
  drop_q sv0 = drop_q sv -> sv_router sv0 = sv_router sv ->
  returns_with (fun r => stopped_post sv c r.1 /\ conn_stopped c2 ∈ connections r.1) (conn_stop_body sv0 c2).
Proof.
  intros Hs Hin (Ei & Ech & Ea & _) Hsn Hrn Hup Hq Hrt. unfold conn_stop_body. cbv zeta.
  rewrite Ei, Ea. remember (conn_stopped c2) as c' eqn:Ec'.
  assert (cs_id c' = cs_id c) as Ei' by by rewrite Ec'.
  assert (conn_ok c') as Hc'.
  { destruct Hs as (_ & Hc & _). destruct (Hc c Hin) as [Hok _]. subst c'. unfold conn_stopped. rewrite Ech. conn. conn_solve. }
  rewrite Hup by done. set (sv1 := drop_connection (update_conn sv c') (cs_id c)).
  assert (forall r, server_ok (set_router (update_conn sv c') r) ->
                    stopped_post sv c (set_router sv1 r) /\ c' ∈ connections (set_router sv1 r)) as Hpost.
  { intros r Hr. split.
    - split_and!; try done; [apply replace_ids| |].
      + intros i. cbn. rewrite elem_of_app, list_elem_of_singleton. done.
      + intros d [[-> _]|[? ?]]%elem_of_replace; [right; by rewrite Ec'|left]. by rewrite <-Ei'.
    - cbn. apply list_elem_of_In, in_map_iff. exists c. rewrite decide_True by done. split; [done|by apply list_elem_of_In]. }
  assert (pool_wf (pool (sv_router sv))) as Hp by apply Hs.
  assert (cs_addr c' = 0 /\ cs_active c' = false /\ channel c' = channel c) as (Ea' & Eact & Ech') by by rewrite Ec'.
  destruct (decide (cs_addr c = 0)) as [E|E].
  - rewrite bind_Ret, <-(set_router_self sv1). apply returns_with_Ret, Hpost.
    apply (server_ok_replace sv _ c c'); try done; [by rewrite Eact|apply pool_kept|by right].
  - destruct (release_client_addr_spec (sv_router sv) (cs_addr c) Hp) as (r & Er & Hp' & Ht & Est & _).
    change (sv_router sv1) with (sv_router sv). rewrite Er. apply returns_with_Ret, Hpost.
    apply (server_ok_replace sv _ c c'); try done; [by rewrite Eact| |by right].
    intros a. destruct (pool_kept (sv_router sv) c c' a) as [[Hle Ht']|]; [|by right].
    destruct (decide (a = cs_addr c)) as [->|]; [by right; right|].
    left. rewrite Est. split; [done|]. by apply Ht.
Qed.

Lemma stopped_post_again sv c sv1 c1 sv2 :
  cs_id c1 = cs_id c -> stopped_post sv c sv1 -> stopped_post sv1 c1 sv2 -> stopped_post sv c sv2.
Proof.
  intros E (_ & Hm1 & Hi1 & Hq1 & Hd1) (Hs & Hm2 & Hi2 & Hq2 & Hd2). split_and!; [done|congruence..| |].
  - intros i. rewrite Hq2, Hq1, E. tauto.
  - intros d [[Hd _]|Hd]%Hd2; auto.
Qed.

Lemma conn_stop_gen sv sv0 c c2 :
  server_ok sv -> c ∈ connections sv -> same_conn c c2 ->
  is_u8 (sno c2) -> is_u8 (rno c2) ->
  (forall c', cs_id c' = cs_id c -> update_conn sv0 c' = update_conn sv c') ->
  drop_q sv0 = drop_q sv -> sv_router sv0 = sv_router sv ->
  returns_with (fun r => stopped_post sv c r.1) (conn_stop sv0 c2).
Proof.
  intros Hs Hin Hsame Hsn Hrn Hup Hq Hrt. unfold conn_stop. cbv zeta.
  destruct (conn_stop_body_gen sv sv0 c c2) as ([sv1 o1] & -> & Hp & Hin1); [done..|]. rewrite bind_Ret. cbn [fst] in *.
  destruct (link_up _ _); [|by apply returns_with_Ret].
  destruct (conn_stop_body_gen sv1 sv1 (conn_stopped c2) (conn_stopped c2)) as ([sv2 o2] & -> & Hp2 & _); try done; [by apply Hp|].
  rewrite bind_Ret. apply returns_with_Ret. cbn [fst] in *. apply (stopped_post_again sv c sv1 (conn_stopped c2)); [|done..].
  by destruct Hsame.
Qed.

Lemma conn_stop_ok sv c :
  server_ok sv -> c ∈ connections sv ->
  returns_with (fun r => stopped_post sv c r.1) (conn_stop sv c).
Proof.
  intros Hs Hin. assert (conn_ok c) as Hok by by apply Hs.
  apply conn_stop_gen; try done; unfold conn_ok in Hok; tauto.
Qed.

Lemma find_channel_in (sv : server) ch c :
  find_channel sv ch = Some c -> c ∈ connections sv /\ channel c = ch.
Proof.
  intros [Hin E%bool_decide_eq_true]%find_some. by rewrite list_elem_of_In.
Qed.

(** *** Dropping *)

Lemma filter_ids_NoDup f (cs : list ConnState) :
  NoDup (cs_id <$> cs) -> NoDup (cs_id <$> List.filter f cs).
Proof.
  induction cs as [|c cs IH]; [done|]. rewrite fmap_cons, list.NoDup_cons. intros [Hn Hd]. simpl.
  destruct (f c); [|by apply IH]. rewrite fmap_cons, list.NoDup_cons. split; [|by apply IH].
  contradict Hn. apply list_elem_of_fmap in Hn as (x & -> & Hx).
  apply list_elem_of_In, filter_In in Hx as [Hx _]. apply list_elem_of_In in Hx.
  by apply list_elem_of_fmap_2.
Qed.

Lemma filter_conns_ok (sv : server) f :
  server_ok sv -> server_ok (set_connections sv (List.filter f (connections sv))).
Proof.
  intros (Hn & Hc & Hch & Ht & Ha & Hp).
  assert (forall x, x ∈ List.filter f (connections sv) -> x ∈ connections sv) as Hin.
  { intros x. rewrite !list_elem_of_In, filter_In. tauto. }
  unfold server_ok. cbn [set_connections connections next_id mcast sv_router sv_maddr servername].
  split; [by apply filter_ids_NoDup|]. split_and!; eauto 7; apply Hp.
Qed.

Lemma drop_all_ok (sv : server) q : server_ok sv -> server_ok (drop_all sv q).1.
Proof.
  revert sv. induction q as [|i q IH]; intros sv Hs; [done|]. simpl.
  specialize (IH _ (filter_conns_ok sv (fun c => negb (bool_decide (cs_id c = i))) Hs)).
  by destruct (drop_all _ _).
Qed.

Lemma drop_all_removes q : forall (sv : server) c,
  c ∈ connections (drop_all sv q).1 <-> c ∈ connections sv /\ cs_id c ∉ q.
Proof.
  induction q as [|i q IH]; intros sv c; simpl.
  { split; [|tauto]. intros ?. split; [done|]. apply not_elem_of_nil. }
  pose proof (IH (set_connections sv
    (List.filter (fun c => negb (bool_decide (cs_id c = i))) (connections sv))) c) as IHc.
  destruct (drop_all _ _) as [sv' o]. cbn [fst] in *. rewrite IHc, not_elem_of_cons.
  cbn [set_connections connections]. rewrite !list_elem_of_In, filter_In, negb_true_iff, bool_decide_eq_false.
  tauto.
Qed.

(** *** Channels *)

Definition used (cs : list ConnState) (ch : Z) : Prop := exists c, c ∈ cs /\ channel c = ch.

Definition above (id : Z) (cs : list ConnState) : list ConnState :=
  List.filter (fun c => bool_decide (id <= channel c)) cs.

Lemma above_shrinks id cs :
  (length (above (id + 1) cs) <= length (above id cs))%nat /\
  (used cs id -> (length (above (id + 1) cs) < length (above id cs))%nat).
Proof.
  unfold above. induction cs as [|c cs [IH1 IH2]]; cbn [List.filter].
  { split; [done|]. intros (c & []%not_elem_of_nil & _). }
  assert (used (c :: cs) id -> channel c = id \/ used cs id) as Hu.
  { intros (d & [->|Hd]%elem_of_cons & E); [by left|]. right. by exists d. }
  repeat case_bool_decide; cbn [length]; split; try lia; intros [|]%Hu; forward; lia.
Qed.

(** The loop finds the least channel number that is free. *)
Lemma free_channel_spec fuel cs : forall id,
  (length (above id cs) <= fuel)%nat ->
  let n := free_channel fuel cs id in
  id <= n /\ ~ used cs n /\ forall k, id <= k < n -> used cs k.
Proof.
  assert (forall id, existsb (fun c => bool_decide (channel c = id)) cs = true <-> used cs id) as Hex.
  { intros id. rewrite existsb_exists. unfold used. setoid_rewrite bool_decide_eq_true.
    by setoid_rewrite list_elem_of_In. }
  induction fuel as [|fuel IH]; intros id Hl; cbn [free_channel].
  - split_and!; [lia| |lia]. intros Hu. apply above_shrinks in Hu. lia.
  - destruct (existsb _ cs) eqn:E.
    + apply Hex in E as Hu. pose proof (proj2 (above_shrinks id cs) Hu).
      destruct (IH (id + 1) ltac:(lia)) as (H1 & H2 & H3). split_and!; [lia|done|].
      intros k Hk. destruct (decide (k = id)) as [->|]; [done|]. apply H3. lia.
    + split_and!; [lia| |lia]. intros Hu%Hex. congruence.
Qed.

Lemma above_length id cs : (length (above id cs) <= length cs)%nat.
Proof. unfold above. induction cs as [|c cs IH]; simpl; [lia|]. destruct (bool_decide _); simpl; lia. Qed.

(** An address that no connection has. *)
Definition fresh_addr (sv : server) (a : Z) : Prop :=
  client_addrs_start (pool (sv_router sv)) <= a /\ taken (sv_router sv) a /\
  forall c, c ∈ connections sv -> cs_addr c <> a.

Lemma allocated_ok sv a r :
  server_ok sv -> allocated (sv_router sv) a r ->
  server_ok (set_router sv r) /\ fresh_addr (set_router sv r) a.
Proof.
  intros (Hn & Hc & Hch & Ht & Ha & Hp & Hst) Hr. pose proof Hr as (Hb & Hf & _ & _ & Er).
  assert (client_addrs_start (pool r) = client_addrs_start (pool (sv_router sv))) as Es by by rewrite Er.
  assert (forall b, client_addrs_start (pool (sv_router sv)) <= b -> taken (sv_router sv) b -> taken r b)
    as Hmono by (intros; eapply allocated_taken; eauto).
  split.
  - unfold server_ok. cbn [set_router connections next_id mcast sv_router sv_maddr servername].
    split_and!; try done; [|by eapply allocated_wf|apply Hst..].
    intros c Hin E. destruct (Ht c Hin E). rewrite Es. auto.
  - unfold fresh_addr. cbn [set_router connections sv_router]. rewrite Es. split; [lia|]. split.
    + eapply allocated_taken; eauto. lia.
    + intros c Hin <-. destruct (decide (cs_addr c = 0)) as [E|E].
      * pose proof Hp as (? & _). lia.
      * destruct (Ht c Hin E) as [_ Ht']. unfold taken in Ht'. congruence.
Qed.

Definition new_conn (sv : server) (t : ConnType) (r1 : EIBnet_ConnectRequest) (a id : Z) : ConnState :=
  mkConn (next_id sv) a id 0 0 0 t 1 (creq_nat r1) true false true false false []
    (creq_daddr r1) (creq_caddr r1).

Lemma add_conn_ok sv t r1 a id :
  server_ok sv -> mcast sv = true -> a = 0 \/ fresh_addr sv a -> 1 <= id <= 255 ->
  ~ used (connections sv) id ->
  server_ok (set_connections (set_next_id sv (S (next_id sv)))
               (connections sv ++ [new_conn sv t r1 a id])).
Proof.
  intros (Hn & Hc & Hch & Ht & Ha & Hp & Hst) Hm Hfr Hid Hu. set (c' := new_conn sv t r1 a id).
  assert (forall x, x ∈ connections sv ++ [c'] -> x ∈ connections sv \/ x = c') as Hx.
  { intros x. rewrite elem_of_app, list_elem_of_singleton. tauto. }
  unfold server_ok.
  cbn [set_connections set_next_id connections next_id mcast sv_router sv_maddr servername].
  split; [|split; [|split; [|split; [|split]]]]; [..|done].
  - rewrite fmap_app. change (cs_id <$> [c']) with [next_id sv]. apply list.NoDup_app. split; [done|]. split; [|apply NoDup_singleton].
    intros i (c & -> & Hin)%list_elem_of_fmap. rewrite list_elem_of_singleton. intros E.
    destruct (Hc c Hin) as (_ & Hlt & _). lia.
  - intros c [Hin| ->]%Hx.
    + destruct (Hc c Hin) as (? & ? & ?). split_and!; [done|lia|done].
    + split; [|split; [simpl; lia|congruence]].
      unfold c', new_conn. conn. split_and!; try (done || lia).
  - intros c d [Hin| ->]%Hx [Hin'| ->]%Hx E; [by apply Hch|..|done]; destruct Hu.
    + by exists c.
    + by exists d.
  - intros c [Hin| ->]%Hx E; [by apply Ht|]. destruct Hfr as [?|(? & ? & _)]; done.
  - intros c d [Hin| ->]%Hx [Hin'| ->]%Hx E E0; [by apply Ha|..|done];
      destruct Hfr as [->|(_ & _ & Hfr)]; simpl in E, E0; try congruence; by destruct (Hfr _ ltac:(eassumption)).
Qed.

Lemma next_id_ok (sv : server) : server_ok sv -> server_ok (set_next_id sv (S (next_id sv))).
Proof.
  intros (Hn & Hc & Hrest). split; [done|]. split; [|done]. intros c Hin.
  destruct (Hc c Hin) as (? & ? & ?). split_and!; [done| |done]. simpl. lia.
Qed.

Lemma addClient_ok ok sv t r1 a :
  server_ok sv -> mcast sv = true -> a = 0 \/ fresh_addr sv a ->
  let '(sv', id, o) := addClient ok sv t r1 a in
  server_ok sv' /\ mcast sv' = true.
Proof.
  intros Hs Hm Ha. unfold addClient. cbv zeta.
  destruct (free_channel_spec (length (connections sv)) (connections sv) 1 (above_length 1 _))
    as (H1 & H2 & _).
  destruct (decide _); [|done]. rewrite u8_small by (unfold is_u8; lia).
  destruct (fst ok); [|by split; [apply next_id_ok|]].
  destruct (snd ok); [|by split; [apply next_id_ok|]].
  split; [|done]. by apply (add_conn_ok sv t r1 a).
Qed.

(** *** Datagrams *)

Definition datagram_ok (p : EIBNetIPPacket) : Prop :=
  bytes (p_data p) /\ (size (p_data p) <= 249)%nat.

Definition handled (sv : server) (r : server * list server_output) : Prop :=
  server_ok r.1 /\ mcast r.1 = mcast sv.

Lemma handled_skip sv o : server_ok sv -> returns_with (handled sv) (Ret (sv, o)).
Proof. intros. by apply returns_with_Ret. Qed.

(** A parser of a request, followed by what is done with the request. *)
Lemma parsed {A} (m : outcome (option A)) (k : A -> outcome (server * list server_output)) sv :
  server_ok sv -> returns m -> (forall r, m = Ret (Some r) -> returns_with (handled sv) (k r)) ->
  returns_with (handled sv) (r1 ← m; match r1 with None => Ret (sv, []) | Some r1 => k r1 end).
Proof. intros Hs [[r|] ->] Hk; [by apply Hk | by apply handled_skip]. Qed.

Lemma sends {A} (m : outcome EIBNetIPPacket) (k : EIBNetIPPacket -> outcome A) (P : A -> Prop) :
  returns m -> (forall p, returns_with P (k p)) -> returns_with P (m ≫= k).
Proof. intros [p ->] Hk. apply Hk. Qed.

Lemma device_packet_returns sv mac ser ss a b :
  server_ok sv -> size mac = 6%nat -> size ser = 6%nat -> (length ss <= 2)%nat ->
  returns (SearchResponse_ToPacket (mkSearchResponse a b (server_device sv mac ser ss))) /\
  returns (DescriptionResponse_ToPacket (mkDescriptionResponse (server_device sv mac ser ss) [])).
Proof.
  intros (_ & _ & _ & _ & _ & _ & Hm & Hn) Hmac Hser Hss. unfold server_device.
  generalize (r_addr (sv_router sv)). revert Hm Hn. generalize (sv_maddr sv) (servername sv).
  intros maddr nm Hm Hn ra.
  peel maddr 4%nat. destruct maddr; [|done]. peel nm 30%nat. destruct nm; [|done].
  peel mac 6%nat. destruct mac; [|done]. peel ser 6%nat. destruct ser; [|done].
  destruct ss as [|s1 [|s2 [|]]]; simpl in Hss; [..|lia];
    destruct (tunnel sv), (route sv), b;
    (split; [unfold SearchResponse_ToPacket; rewrite IPtoEIBNetIP_eq|]); by eexists.
Qed.

Lemma on_channel_ok sv ch k :
  server_ok sv ->
  (forall c, c ∈ connections sv -> returns_with (fun r => conn_post c r.1) (k c)) ->
  returns_with (handled sv) (on_channel sv ch k).
Proof.
  intros Hs Hk. unfold on_channel. destruct (find_channel sv ch) as [c|] eqn:E; [|by apply handled_skip].
  apply find_channel_in in E as [Hin _].
  apply (returns_with_bind _ _ _ _ (Hk c Hin)). intros [c' o] Hc'.
  apply returns_with_Ret. split; [|done]. by apply (update_conn_ok sv c).
Qed.

Lemma with_addr_inv {A} m (k : sockaddr_in -> bool -> outcome (option A)) r :
  with_addr m k = Ret (Some r) -> exists a n, m = Ret (Some (a, n)) /\ k a n = Ret (Some r).
Proof. destruct m as [[[a n]|]|]; try done. simpl. eauto. Qed.

Lemma ConnectRequest_inv p r :
  parseEIBnet_ConnectRequest p = Ret (Some r) -> (1 <= size (creq_CRI r))%nat.
Proof.
  unfold parseEIBnet_ConnectRequest. destruct (decide _); [done|].
  destruct (decide _); [done|].
  intros (c & _ & (ca & n1 & _ & (c' & _ & (da & n2 & _ & Hp)%with_addr_inv)%bind_Ret_inv)
    %with_addr_inv)%bind_Ret_inv.
  apply bind_Ret_inv in Hp as (d16 & _ & Hp). destruct (decide _); [done|].
  apply bind_Ret_inv in Hp as (cri & Hs & [= <-]). cbn [creq_CRI].
  rewrite slice_ok in Hs by lia. simplify_eq. unfold size in *. rewrite length_take, length_drop. lia.
Qed.

Lemma TunnelRequest_fields p r :
  bytes (p_data p) -> parseEIBnet_TunnelRequest p = Ret (Some r) ->
  is_u8 (treq_channel r) /\ is_u8 (treq_seqno r).
Proof.
  intros Hb. unfold parseEIBnet_TunnelRequest. destruct (decide _); [done|].
  destruct (decide _) as [|Hs]; [done|]. intros (d0 & _ & Hp)%bind_Ret_inv. destruct (decide _); [done|].
  destruct (at_byte (p_data p) 1 Hb ltac:(lia)) as (x & Ex & Hx).
  destruct (at_byte (p_data p) 2 Hb ltac:(lia)) as (y & Ey & Hy).
  rewrite Ex, bind_Ret, Ey, bind_Ret in Hp. apply bind_Ret_inv in Hp as (c & _ & [= <-]). done.
Qed.

Lemma handle_search_ok mac sv p :
  server_ok sv -> size mac = 6%nat -> returns_with (handled sv) (handle_search GetSourceAddress mac sv p).
Proof.
  intros Hs Hm. apply parsed; [done|parses|]. intros r _. destruct (discover sv); [|by apply handled_skip].
  destruct (GetSourceAddress _); [|by apply handled_skip].
  apply sends; [|intros; by apply handled_skip]. 
  refine (proj1 (device_packet_returns _ _ [1; 2; 3; 4; 5; 6] _ _ _ Hs Hm eq_refl _)). simpl. lia.
Qed.

Lemma handle_description_ok mac sv p :
  server_ok sv -> size mac = 6%nat -> returns_with (handled sv) (handle_description mac sv p).
Proof.
  intros Hs Hm. apply parsed; [done|parses|]. intros r _. destruct (discover sv); [|by apply handled_skip].
  apply sends; [|intros; by apply handled_skip].
  refine (proj2 (device_packet_returns _ _ [0; 0; 0; 0; 0; 0] _ (mkSockaddr 0 0) false Hs Hm eq_refl _)). simpl. lia.
Qed.

Lemma handle_routing_ok sv p :
  server_ok sv -> datagram_ok p -> returns_with (handled sv) (handle_routing sv p).
Proof.
  intros Hs [Hb _]. unfold handle_routing. destruct (decide _); [by apply handled_skip|].
  destruct (at_lt (p_data p) 0) as (x & -> & _); [lia|]. rewrite bind_Ret.
  destruct (decide _); [by apply handled_skip|].
  destruct (CEMI_to_L_Data_wf _ Hb) as (l & -> & _). by apply handled_skip.
Qed.

Lemma handle_connectionstate_ok sv p :
  server_ok sv -> returns_with (handled sv) (handle_connectionstate sv p).
Proof.
  intros Hs. apply parsed; [done|parses|]. intros r _.
  apply sends; [by eexists|]. intros. by apply handled_skip.
Qed.

Lemma handle_disconnect_ok sv p :
  server_ok sv -> returns_with (handled sv) (handle_disconnect sv p).
Proof.
  intros Hs. apply parsed; [done|parses|]. intros r _.
  apply (returns_with_bind (fun x : server * list server_output * Z => handled sv x.1)).
  - destruct (find_channel _ _) as [c|] eqn:E; [|by apply returns_with_Ret].
    apply find_channel_in in E as [Hin _].
    destruct (conn_stop_ok sv c Hs Hin) as ([sv' o] & -> & Hok & Hm & _). by apply returns_with_Ret.
  - intros [[sv' o] st] Hh. apply sends; [by eexists|]. intros. by apply returns_with_Ret.
Qed.

Lemma handle_connect_type_ok ok sv r :
  server_ok sv -> mcast sv = true -> (1 <= size (creq_CRI r))%nat ->
  returns_with (fun x : server * list server_output * Z * Z * CArray => handled sv x.1.1.1)
    (handle_connect_type ok sv r).
Proof.
  intros Hs Hm Hcri. unfold handle_connect_type.
  destruct (at_lt (creq_CRI r) 0 ltac:(lia)) as (x & -> & _). rewrite bind_Ret.
  assert (forall sv' t a st1 st2 crd, server_ok sv' -> mcast sv' = true -> a = 0 \/ fresh_addr sv' a ->
    returns_with (fun x : server * list server_output * Z * Z * CArray => handled sv x.1.1.1)
      (let '(sv, id, o) := addClient ok sv' t r a in
       if decide (id <= 0xff) then Ret (sv, o, st1, u8 id, crd) else Ret (sv, o, st2, 0, crd))) as Hadd.
  { intros sv' t a st1 st2 crd Hs' Hm' Ha. pose proof (addClient_ok ok sv' t r a Hs' Hm' Ha) as Hok.
    destruct (addClient _ _ _ _ _) as [[sv'' id] o]. destruct Hok as [Hok Hm''].
    destruct (decide _); apply returns_with_Ret; (split; [done|]); cbn [fst]; congruence. }
  destruct (_ && _) eqn:E.
  2:{ destruct (bool_decide (_ = 1%nat) && _); [|by apply returns_with_Ret]. apply (Hadd sv CT_CONFIG 0); auto. }
  apply andb_true_iff in E as [E%bool_decide_eq_true _].
  destruct (at_lt (creq_CRI r) 1 ltac:(lia)) as (y & Ey & _).
  destruct (tunnel sv) eqn:Et.
  2:{ rewrite bind_Ret. cbv zeta. rewrite Ey, bind_Ret, set_router_self, Et. by apply returns_with_Ret. }
  destruct (get_client_addr_spec (sv_router sv)) as (a & r' & -> & Ha); [apply Hs|].
  rewrite bind_Ret. cbv zeta. rewrite Ey, bind_Ret.
  change (tunnel (set_router sv r')) with (tunnel sv). rewrite Et. cbn [negb].
  destruct Ha as [(-> & -> & _)|Ha].
  { rewrite set_router_self. by apply returns_with_Ret. }
  destruct (allocated_ok sv a r' Hs Ha) as [Hs' Hf].
  destruct (decide (a = 0)); [by apply returns_with_Ret|].
  destruct (_ || _); [|by apply returns_with_Ret]. apply Hadd; auto.
Qed.

Lemma handle_connect_ok ok sv p :
  server_ok sv -> mcast sv = true ->
  returns_with (handled sv) (handle_connect GetSourceAddress ok sv p).
Proof.
  intros Hs Hm. unfold handle_connect. apply parsed; [done| |].
  { unfold parseEIBnet_ConnectRequest. repeat parse_step. }
  intros r Hr%ConnectRequest_inv. apply (returns_with_bind _ _ _ _ (handle_connect_type_ok ok sv r Hs Hm Hr)).
  intros [[[[sv' o] st] ch] crd] Hh. destruct (GetSourceAddress _); [|by apply returns_with_Ret].
  apply sends; [apply ConnectResponse_returns|]. intros. by apply returns_with_Ret.
Qed.

Lemma handle_tunnel_request_ok sv p :
  server_ok sv -> datagram_ok p -> returns_with (handled sv) (handle_tunnel_request sv p).
Proof.
  intros Hs [Hb Hsz]. apply parsed; [done|parses|]. intros r Hr.
  pose proof (TunnelRequest_inv p r Hb Hr) as [Hc Hn]. pose proof (TunnelRequest_fields p r Hb Hr) as [Hch Hsq].
  destruct (tunnel sv); [|by apply handled_skip]. apply on_channel_ok; [done|]. intros c Hin.
  apply tunnel_request_ok; [by apply Hs|done..|lia].
Qed.

Lemma handle_tunnel_response_ok sv p :
  server_ok sv -> returns_with (handled sv) (handle_tunnel_response sv p).
Proof.
  intros Hs. apply parsed; [done|parses|]. intros r _. destruct (tunnel sv); [|by apply handled_skip].
  apply on_channel_ok; [done|]. intros c Hin. apply tunnel_response_ok. by apply Hs.
Qed.

Lemma handle_config_ok sv p :
  server_ok sv ->
  returns_with (handled sv) (handle_config_request sv p) /\
  returns_with (handled sv) (handle_config_ack sv p).
Proof.
  intros Hs. split; (apply parsed; [done|parses|]; intros r _; apply on_channel_ok; [done|]);
    intros c Hin; [apply config_request_ok | apply config_response_ok]; by apply Hs.
Qed.

Lemma handle_packet_ok mac ok sv p :
  server_ok sv -> mcast sv = true -> size mac = 6%nat -> datagram_ok p ->
  returns_with (handled sv) (handle mac ok sv p).
Proof.
  intros Hs Hm Hmac Hp. unfold handle_packet.
  repeat (destruct (decide _);
    [first [ by apply handle_search_ok | by apply handle_description_ok | by apply handle_routing_ok
           | by apply handle_connectionstate_ok | by apply handle_disconnect_ok
           | by apply handle_connect_ok | by apply handle_tunnel_request_ok
           | by apply handle_tunnel_response_ok | by apply handle_config_ok ]|]).
  by apply handled_skip.
Qed.

(** ** Everything that can happen to the server *)

(** [EvConnStop]: the link of a connection calls its [stop], as the router does when it
    stops the link, and as a link that is up does on being told [SO_stopped]. *)
Inductive server_event :=
| EvPacket (mac : CArray) (ok : bool * bool) (p : EIBNetIPPacket)
| EvSendTrigger (i : nat)
| EvSendTimeout (i : nat)
| EvTimeout (i : nat)
| EvConnStop (i : nat)
| EvDrop
| EvSend (i : nat) (l : L_Data_PDU)
| EvBusmon (i : nat) (l : L_Busmonitor_PDU)
| EvRoute (maddr : sockaddr_in) (l : L_Data_PDU)
| EvStop.

Definition find_conn (sv : server) (i : nat) : option ConnState :=
  List.find (fun c => bool_decide (cs_id c = i)) (connections sv).

Definition with_conn (sv : server) (i : nat) (k : ConnState -> server_result) : server_result :=
  match find_conn sv i with Some c => k c | None => Ret (sv, []) end.

Definition server_step (sv : server) (ev : server_event) : server_result :=
  match ev with
  | EvPacket mac ok p => handle mac ok sv p
  | EvSendTrigger i => with_conn sv i (conn_send_trigger_cb sv)
  | EvSendTimeout i => with_conn sv i (sendtimeout_cb sv)
  | EvTimeout i => with_conn sv i (conn_timeout_cb GetSourceAddress sv)
  | EvConnStop i => with_conn sv i (conn_stop sv)
  | EvDrop => Ret (drop_trigger_cb sv)
  | EvSend i l => with_conn sv i (fun c => conn_send_L_Data sv c l)
  | EvBusmon i l => with_conn sv i (fun c => conn_send_L_Busmonitor sv c l)
  | EvRoute maddr l => o ← mcast_send_L_Data maddr sv l; Ret (sv, o)
  | EvStop => server_stop sv
  end.

(** When it can happen: packets come while there is a socket, callbacks of timers
    and triggers that are set, a frame only after the connection asked for it. *)
Definition can_happen (sv : server) (ev : server_event) : Prop :=
  let conn i (P : ConnState -> Prop) := forall c, find_conn sv i = Some c -> P c in
  match ev with
  | EvPacket mac ok p => mcast sv = true /\ size mac = 6%nat /\ datagram_ok p
  | EvSendTrigger i => conn i (fun c => send_trigger c = true)
  | EvSendTimeout i => conn i (fun c => sendtimeout c = true)
  | EvTimeout i => conn i (fun c => cs_timeout c = true)
  | EvDrop => drop_trigger sv = true
  | EvSend i l => conn i (fun c => do_send_next c = false)
  | EvBusmon _ _ | EvRoute _ _ | EvConnStop _ | EvStop => True
  end.

(** The frames of the router that fail an assertion of [L_Data_ToCEMI], at a server that
    converts them: for a tunnel, or for routing. *)
Definition refuses (sv : server) (ev : server_event) : Prop :=
  match ev with
  | EvSend i l => ~ cemi_fits l /\ exists c, find_conn sv i = Some c /\ cs_type c = CT_STANDARD
  | EvRoute _ l => ~ cemi_fits l /\ route sv = true
  | _ => False
  end.

#[export] Instance refuses_dec sv ev : Decision (refuses sv ev).
Proof using Type.
  destruct ev; cbn [refuses]; try apply _.
  destruct (decide (cemi_fits l)); [by right; intros []|].
  destruct (find_conn sv i) as [c|]; [|by right; intros (_ & c & ? & _)].
  destruct (decide (cs_type c = CT_STANDARD)) as [Ht|Ht]; [left; eauto|].
  right. by intros (_ & ? & [= <-] & ?).
Defined.

Fixpoint server_run (sv : server) (evs : list server_event) : server_result :=
  match evs with
  | [] => Ret (sv, [])
  | ev :: evs => '(sv, o) ← server_step sv ev; '(sv, o') ← server_run sv evs; Ret (sv, o ++ o')
  end.

Fixpoint can_all_happen (sv : server) (evs : list server_event) : Prop :=
  match evs with
  | [] => True
  | ev :: evs =>
      can_happen sv ev /\ forall sv' o, server_step sv ev = Ret (sv', o) -> can_all_happen sv' evs
  end.

Lemma find_conn_in (sv : server) i c : find_conn sv i = Some c -> c ∈ connections sv /\ cs_id c = i.
Proof. intros [Hin E%bool_decide_eq_true]%find_some. by rewrite list_elem_of_In. Qed.

Lemma with_conn_ok sv i k :
  server_ok sv ->
  (forall c, find_conn sv i = Some c -> c ∈ connections sv ->
             returns_with (fun r => server_ok r.1) (k c)) ->
  returns_with (fun r => server_ok r.1) (with_conn sv i k).
Proof.
  intros Hs Hk. unfold with_conn. destruct (find_conn sv i) as [c|] eqn:E; [|by apply returns_with_Ret].
  apply Hk; [done|]. by apply find_conn_in in E as [].
Qed.

Lemma conn_send_trigger_ok sv c :
  server_ok sv -> c ∈ connections sv -> send_trigger c = true ->
  returns_with (fun r => server_ok r.1) (conn_send_trigger_cb sv c).
Proof.
  intros Hs Hin Ht. pose proof Hs as (_ & Hc & _). destruct (Hc c Hin) as (Hok & _ & Hm). clear Hc.
  assert (mcast sv = true) as Em.
  { destruct (mcast sv); [done|]. specialize (Hm eq_refl). unfold conn_ok in Hok. destruct_and?. forward. congruence. }
  unfold conn_send_trigger_cb.
  destruct (send_trigger_ok c Hok Ht) as ([c' o] & -> & Hp). rewrite bind_Ret, Em.
  assert ((match o with [] => Ret tt | _ :: _ => assert_ true end) = Ret tt) as -> by by destruct o.
  apply returns_with_Ret. by apply (update_conn_ok sv c).
Qed.

Lemma sendtimeout_ok sv c :
  server_ok sv -> c ∈ connections sv -> sendtimeout c = true ->
  returns_with (fun r => server_ok r.1) (sendtimeout_cb sv c).
Proof.
  intros Hs Hin Ht. assert (conn_ok c) as Hok by by apply Hs.
  unfold sendtimeout_cb, cs_sendtimeout. cbv zeta. cbn [cs_retries set_cretries].
  assert (cs_retries c = 1 \/ cs_retries c = 3) as Hr by (unfold conn_ok in Hok; tauto).
  destruct (decide _).
  - apply returns_with_Ret. apply (update_conn_ok sv c); [done..|]. cbn [fst]. conn. conn_solve.
  - unfold cs_get. cbn [cs_out set_cretries].
    assert (cs_out c <> []) as Ho by (unfold conn_ok in Hok; destruct_and?; forward; lia || done).
    destruct (cs_out c) as [|x o] eqn:Eo; [done|]. rewrite !bind_Ret.
    set (c2 := set_cout _ o).
    apply (returns_with_mono (fun r => stopped_post sv c r.1)); [|by intros r []].
    apply conn_stop_gen; try done; [unfold conn_ok in Hok; tauto..|].
    intros c' E. unfold update_conn, set_connections.
    cbn [tunnel route discover sv_port sv_maddr servername mcast connections drop_q drop_active
         drop_trigger next_id sv_router].
    f_equal. rewrite map_map. apply map_ext. intros d.
    change (cs_id c2) with (cs_id c). rewrite <-E. by repeat destruct (decide _).
Qed.

Lemma conn_timeout_ok sv c :
  server_ok sv -> c ∈ connections sv ->
  returns_with (fun r => server_ok r.1) (conn_timeout_cb GetSourceAddress sv c).
Proof.
  intros Hs Hin. unfold conn_timeout_cb.
  apply (returns_with_bind (fun _ => True)).
  - destruct (decide _); [|by apply returns_with_Ret].
    destruct (GetSourceAddress _); [|by apply returns_with_Ret].
    apply sends; [apply DisconnectRequest_returns|]. intros. by apply returns_with_Ret.
  - intros o _. destruct (conn_stop_ok sv c Hs Hin) as ([sv' o'] & -> & Hok & _). by apply returns_with_Ret.
Qed.

Lemma stop_conns_ok ids : forall sv,
  server_ok sv ->
  returns_with (fun r => server_ok r.1 /\ mcast r.1 = mcast sv /\
    forall d, d ∈ connections r.1 ->
      (d ∈ connections sv /\ cs_id d ∉ ids) \/ cs_active d = false) (stop_conns sv ids).
Proof.
  induction ids as [|i ids IH]; intros sv Hs; cbn [stop_conns].
  { apply returns_with_Ret. split_and!; [done..|]. intros d Hd. left. split; [done|apply not_elem_of_nil]. }
  change (List.find _ _) with (find_conn sv i). destruct (find_conn sv i) as [c|] eqn:E.
  - apply find_conn_in in E as [Hin <-].
    destruct (conn_stop_ok sv c Hs Hin) as ([sv' o] & -> & Hok & Hm & _ & _ & Hd). rewrite bind_Ret.
    destruct (IH sv' Hok) as ([sv'' o'] & -> & Hok' & Hm' & Hd'). apply returns_with_Ret.
    cbn [fst] in *. split_and!; [done|congruence|]. intros d [[Hd1 Hd2]|Hd1]%Hd'; [|by right].
    apply Hd in Hd1 as [[Hd1 Hne]|]; [|by right]. left. split; [done|]. by apply not_elem_of_cons.
  - destruct (IH sv Hs) as ([sv' o] & -> & Hok & Hm & Hd). apply returns_with_Ret. split_and!; [done..|].
    intros d [[Hd1 Hd2]|Hd1]%Hd; [|by right]. left. split; [done|]. apply not_elem_of_cons.
    split; [|done]. intros <-. unfold find_conn in E. apply list_elem_of_In in Hd1.
    apply (find_none _ _ E), bool_decide_eq_false in Hd1. done.
Qed.

Lemma server_stop_ok sv : server_ok sv -> returns_with (fun r => server_ok r.1) (server_stop sv).
Proof.
  intros Hs. unfold server_stop. cbv zeta.
  set (sv0 := set_drop sv (drop_q sv) false false).
  destruct (stop_conns_ok (rev (map cs_id (connections sv0))) sv0 Hs) as ([sv' o] & -> & Hok & Hm & Hd).
  rewrite bind_Ret. apply returns_with_Ret. cbn [fst] in *.
  destruct Hok as (Hn & Hc & Hrest). split; [done|]. split; [|done].
  cbn [connections set_mcast]. intros c Hin. destruct (Hc c Hin) as (? & ? & _). split_and!; [done..|].
  intros _. destruct (Hd c Hin) as [[Hin' []]|]; [|done].
  rewrite list_elem_of_In, <-in_rev. by apply in_map, list_elem_of_In.
Qed.

(** One event at a time. *)
Lemma server_step_ok sv ev :
  server_ok sv -> can_happen sv ev -> ~ refuses sv ev -> returns_with (fun r => server_ok r.1) (server_step sv ev).
Proof.
  intros Hs Hev Hr. destruct ev; cbn [server_step can_happen refuses] in *.
  - destruct Hev as (? & ? & ?). apply (returns_with_mono _ _ _ (handle_packet_ok mac ok sv p Hs ltac:(done) ltac:(done) ltac:(done))).
    by intros r [].
  - apply with_conn_ok; [done|]. intros c Hf Hin. apply conn_send_trigger_ok; eauto.
  - apply with_conn_ok; [done|]. intros c Hf Hin. apply sendtimeout_ok; eauto.
  - apply with_conn_ok; [done|]. intros c Hf Hin. by apply conn_timeout_ok.
  - apply with_conn_ok; [done|]. intros c Hf Hin. apply (returns_with_mono _ _ _ (conn_stop_ok sv c Hs Hin)). by intros r [].
  - apply returns_with_Ret. by apply drop_all_ok.
  - apply with_conn_ok; [done|]. intros c Hf Hin.
    destruct (cs_send_L_Data_ok c l) as (c' & Ec & Hp); [by apply Hs|eauto| |].
    { intros Ht. destruct (decide (cemi_fits l)) as [Hl|Hl]; [done|]. destruct Hr. eauto. }
    unfold conn_send_L_Data. rewrite Ec. apply returns_with_Ret. by apply (update_conn_ok sv c).
  - apply with_conn_ok; [done|]. intros c Hf Hin.
    destruct (cs_send_L_Busmonitor_ok c l) as (c' & Ec & Hp); [by apply Hs|].
    unfold conn_send_L_Busmonitor. rewrite Ec. apply returns_with_Ret. by apply (update_conn_ok sv c).
  - unfold mcast_send_L_Data. destruct (route sv); [|by apply returns_with_Ret].
    destruct (decide (cemi_fits l)) as [Hl|Hl]; [|tauto]. rewrite L_Data_ToCEMI_fits by done. by apply returns_with_Ret.
  - by apply server_stop_ok.
Qed.

(** A frame that is refused ends the server. *)
Lemma server_step_refused sv ev : can_happen sv ev -> refuses sv ev -> server_step sv ev = Fault AssertFailed.
Proof.
  destruct ev; cbn [server_step can_happen refuses]; try done.
  - intros Hd (Hl & c & Hf & Ht). unfold with_conn. rewrite Hf. unfold conn_send_L_Data, cs_send_L_Data.
    rewrite decide_True, (Hd c Hf) by done. cbn [negb assert_]. rewrite bind_Ret. by rewrite L_Data_ToCEMI_unfit.
  - intros _ [Hl Hr]. unfold mcast_send_L_Data. rewrite Hr. by rewrite L_Data_ToCEMI_unfit.
Qed.

Lemma can_prefix_happen evs evs' : forall sv, can_all_happen sv (evs ++ evs') -> can_all_happen sv evs.
Proof.
  induction evs as [|ev evs IH]; intros sv; [done|]. intros [Hev Hn]. split; [done|].
  intros sv' o E. apply IH. by eapply Hn.
Qed.

(** A run goes through, or up to a frame that is refused. *)
Definition goes_through (sv : server) (evs : list server_event) : Prop :=
  returns_with (fun r => server_ok r.1) (server_run sv evs).

Definition ends_at_frame (sv : server) (evs : list server_event) : Prop :=
  exists evs1 ev evs2 sv1 o1, evs = evs1 ++ ev :: evs2 /\
    server_run sv evs1 = Ret (sv1, o1) /\ server_ok sv1 /\ refuses sv1 ev /\
    server_run sv evs = Fault AssertFailed.

Lemma server_run_cases evs : forall sv,
  server_ok sv -> can_all_happen sv evs -> goes_through sv evs \/ ends_at_frame sv evs.
Proof.
  unfold goes_through. induction evs as [|ev evs IH]; intros sv Hs Hev; [left; by apply returns_with_Ret|].
  destruct Hev as [Hev Hnext]. destruct (decide (refuses sv ev)) as [Hr|Hr].
  - right. exists [], ev, evs, sv, []. cbn [server_run app]. by rewrite server_step_refused.
  - destruct (server_step_ok sv ev Hs Hev Hr) as ([sv' o] & E & Hs').
    destruct (IH sv' Hs' (Hnext _ _ E)) as [([sv'' o'] & E'' & Hs'')|(evs1 & ev' & evs2 & sv1 & o1 & -> & E1 & Hok & Hr1 & E2)];
      cbn [server_run]; rewrite E, bind_Ret.
    + left. rewrite E''. by apply returns_with_Ret.
    + right. exists (ev :: evs1), ev', evs2, sv1, (o ++ o1). cbn [server_run app]. rewrite E, !bind_Ret, E1, E2. by split_and!.
Qed.

Lemma fresh_server_ok (sv : server) :
  connections sv = [] -> pool_wf (pool (sv_router sv)) ->
  size (sv_maddr sv) = 4%nat -> size (servername sv) = 30%nat -> server_ok sv.
Proof.
  intros E Hp Hm Hn. unfold server_ok. rewrite E.
  split_and!; try done; try (apply NoDup_nil_2); intros c; try (by intros []%not_elem_of_nil).
  all: intros d []%not_elem_of_nil.
Qed.

(** C7: the EIBnet/IP server survives everything but one kind of frame.  Started without
    clients, let it go through any sequence of datagrams of any content, time-outs and
    triggers that are set, stops of connections and of the server, and frames of the
    router (to a connection only after it asked for the next one).  Then it never reads
    outside an array, takes from an empty queue, uses the routing driver after it is gone or
    fails an assertion, and every connection keeps its invariant; unless the router gives
    it, for a tunnel or for routing, a frame without payload, with more than 254 bytes of it
    or with a hop count above 7: exactly then the assertions of [L_Data_ToCEMI] end it. *)
Theorem server_safe sv evs :
  connections sv = [] -> pool_wf (pool (sv_router sv)) ->
  size (sv_maddr sv) = 4%nat -> size (servername sv) = 30%nat ->
  can_all_happen sv evs -> goes_through sv evs \/ ends_at_frame sv evs.
Proof.
  intros ???? Hev. apply server_run_cases; [|done]. by apply fresh_server_ok.
Qed.

Lemma NoDup_addrs (cs : list ConnState) :
  NoDup cs ->
  (forall c d, c ∈ cs -> d ∈ cs -> cs_addr c = cs_addr d -> cs_addr c <> 0 -> c = d) ->
  NoDup (List.filter (fun a => negb (a =? 0)) (cs_addr <$> cs)).
Proof.
  induction cs as [|c cs IH]; intros Hd Ha; [apply NoDup_nil_2|].
  apply list.NoDup_cons in Hd as [Hn Hd]. rewrite fmap_cons. cbn [List.filter].
  assert (NoDup (List.filter (fun a => negb (a =? 0)) (cs_addr <$> cs))) as Hf.
  { apply IH; [done|]. intros x y ??. apply Ha; by apply elem_of_cons; right. }
  destruct (cs_addr c =? 0) eqn:E; [done|]. apply Z.eqb_neq in E. apply list.NoDup_cons. split; [|done].
  intros (Hin & _)%list_elem_of_In%filter_In. apply list_elem_of_In, list_elem_of_fmap in Hin as (d & Ed & Hin).
  assert (c = d) as ->; [|done]. apply Ha; [apply elem_of_cons; by left|apply elem_of_cons; by right|done|done].
Qed.

(** C15: clients do not share anything: whatever happened since the server was started
    without clients (unless a frame of the router that does not fit into a CEMI message
    has ended the server), its connections have different channels from 1 to 255, so
    that there are at most 255 of them, different client addresses, each of the
    configured block and marked as taken, and a connection with a packet to send
    has its trigger sent or its timer running. *)
Theorem clients_isolated sv evs :
  connections sv = [] -> pool_wf (pool (sv_router sv)) ->
  size (sv_maddr sv) = 4%nat -> size (servername sv) = 30%nat ->
  can_all_happen sv evs -> ~ ends_at_frame sv evs ->
  exists sv' o, server_run sv evs = Ret (sv', o) /\
    NoDup (channel <$> connections sv') /\
    (length (connections sv') <= 255)%nat /\
    NoDup (List.filter (fun a => negb (a =? 0)) (cs_addr <$> connections sv')) /\
    forall c, c ∈ connections sv' ->
      1 <= channel c <= 255 /\
      (cs_addr c <> 0 -> client_addrs_start (pool (sv_router sv')) <= cs_addr c /\
                         taken (sv_router sv') (cs_addr c)) /\
      (cs_active c = true -> cs_out c <> [] -> send_trigger c = true \/ sendtimeout c = true).
Proof.
  intros ???? Hev Hfit.
  destruct (server_run_cases evs sv) as [([sv' o] & E & Hn & Hc & Hch & Ht & Ha & _)|]; [by apply fresh_server_ok|done| |done]. cbn [fst] in *. exists sv', o. split; [done|].
  assert (NoDup (connections sv')) as Hd by by apply (NoDup_fmap_1 cs_id).
  assert (NoDup (channel <$> connections sv')) as Hcd by by apply NoDup_fmap_2_strong.
  split; [done|]. split; [|split].
  - rewrite <-(length_fmap channel). change 255%nat with (length (seqZ 1 255)).
    apply submseteq_length, NoDup_submseteq; [done|].
    intros x (c & -> & Hin)%list_elem_of_fmap. apply elem_of_seqZ. destruct (Hc c Hin) as [(? & _) _]. lia.
  - by apply NoDup_addrs.
  - intros c Hin. destruct (Hc c Hin) as [Hok _]. split_and!; [apply Hok..|by apply Ht|].
    unfold conn_ok in Hok. tauto.
Qed.
End Server.

(** ** An example: a client connects, writes to a group and leaves *)

Definition demo_server : EIBnetServer BusDriver :=
  mkServer true true true 3671 [224; 0; 23; 12] (replicate 30 0) true [] [] true false 0 example_router.

(** The links are up until they are stopped. *)
#[local] Instance demo_links : LinkStates := fun q i => negb (existsb (Nat.eqb i) q).

Definition demo_source (a : sockaddr_in) : option sockaddr_in := Some (mkSockaddr 0x0A000002 0).

Definition demo_packet (s : Z) (d : CArray) : server_event :=
  EvPacket [0; 1; 2; 3; 4; 5] (true, true) (mkPacket s d (mkSockaddr 0x0A000001 4000)).

Definition demo_endpoint : CArray := [8; 1; 10; 0; 0; 1; 15; 160].

Definition demo_events : list server_event :=
  [demo_packet CONNECTION_REQUEST (demo_endpoint ++ demo_endpoint ++ [4; 4; 2; 0]);
   demo_packet TUNNEL_REQUEST ([4; 1; 0; 0] ++ tunnel_cemi);
   EvSendTrigger 0;
   EvSendTimeout 0;
   EvSendTrigger 0;
   demo_packet TUNNEL_RESPONSE [4; 1; 0; 0];
   demo_packet DISCONNECT_REQUEST ([1; 0] ++ demo_endpoint);
   EvConnStop 0;
   EvDrop;
   EvStop].

(** Go through the events, evaluating each state. *)
Ltac happens :=
  cbn [can_all_happen];
  repeat match goal with
    | |- True => exact I
    | |- _ /\ _ => split
    | |- forall sv' o, _ = Ret (sv', o) -> _ =>
        let E := fresh in intros ? ? E; vm_compute in E; injection E as <- <-
    end.

Lemma demo_happens : can_all_happen demo_source demo_server demo_events.
Proof.
  unfold demo_events. happens; cbn [can_happen demo_packet datagram_ok].
  all: try (split; [reflexivity|split; [reflexivity|split; [decided|vm_compute; lia]]]).
  all: try (intros c Ec; vm_compute in Ec; injection Ec as <-; reflexivity).
  all: reflexivity.
Qed.

Lemma server_safe_witness : goes_through demo_source demo_server demo_events \/ ends_at_frame demo_source demo_server demo_events.
Proof.
  apply server_safe; [reflexivity|unfold pool_wf; simpl; lia|reflexivity|reflexivity|apply demo_happens].
Defined.

Lemma clients_isolated_witness :
  exists sv' o, server_run demo_source demo_server (take 5 demo_events) = Ret (sv', o) /\
    NoDup (channel <$> connections sv') /\
    (length (connections sv') <= 255)%nat /\
    NoDup (List.filter (fun a => negb (a =? 0)) (cs_addr <$> connections sv')) /\
    forall c, c ∈ connections sv' ->
      1 <= channel c <= 255 /\
      (cs_addr c <> 0 -> client_addrs_start (pool (sv_router sv')) <= cs_addr c /\
                         taken (sv_router sv') (cs_addr c)) /\
      (cs_active c = true -> cs_out c <> [] -> send_trigger c = true \/ sendtimeout c = true).
Proof.
  apply clients_isolated; [reflexivity|unfold pool_wf; simpl; lia|reflexivity|reflexivity| |].
  - apply (can_prefix_happen _ _ (drop 5 demo_events)). rewrite take_drop. apply demo_happens.
  - intros (? & ? & ? & ? & ? & _ & _ & _ & _ & E). vm_compute in E. discriminate E.
Defined.
