(* ===== verification/EibNetTunnelSpec.v ===== *)
(** * Tunnels of the EIBnet/IP server: theorems

    Towards the bus: a client that repeats each request until it is acknowledged
    has each frame delivered exactly once, in order.  Towards the client: packets
    are sent one at a time, in order, each at most twice.  A refused connection
    keeps an address. *)

From S2P Require Import Prelude CArray Common ApduSpec Lpdu LpduSpec Emi Link Router RouterSpec.
From S2P Require Import EibNetIp EibNetIpSpec EibNetSocket EibNetServer EibNetServerSpec.

(** ** From the client to the bus *)

Definition request_ok (r : EIBnet_TunnelRequest) : Prop :=
  is_u8 (treq_channel r) /\ is_u8 (treq_seqno r) /\ bytes (treq_CEMI r) /\
  (size (treq_CEMI r) <= 245)%nat.

Fixpoint tunnel_requests (c : ConnState) (rs : list EIBnet_TunnelRequest) : conn_result :=
  match rs with
  | [] => Ret (c, [])
  | r :: rs => '(c, o) ← tunnel_request c r; '(c, o') ← tunnel_requests c rs; Ret (c, o ++ o')
  end.

(** The frames given to the router, and the acknowledgements. *)
Definition delivered (o : list server_output) : list L_Data_PDU :=
  omap (fun x => match x with SO_recv _ l => Some l | _ => None end) o.

Definition acknowledged (o : list server_output) : list CArray :=
  omap (fun x => match x with SO_Send p _ => Some (take 3 (p_data p)) | _ => None end) o.

Definition request_frame (c : ConnState) (r : EIBnet_TunnelRequest) : option L_Data_PDU :=
  (tunnel_effect c (treq_CEMI r)).1.1.

(** Requests are numbered [n], [n+1], ... modulo 256. *)
Fixpoint numbered (n : Z) (rs : list EIBnet_TunnelRequest) : Prop :=
  match rs with
  | [] => True
  | r :: rs => treq_seqno r = n /\ numbered (u8 (n + 1)) rs
  end.

(** Each request, with the number of its repetitions. *)
Definition repeated (rs : list (EIBnet_TunnelRequest * nat)) : list EIBnet_TunnelRequest :=
  mjoin ((fun '(r, k) => replicate (S k) r) <$> rs).

Lemma delivered_app o o' : delivered (o ++ o') = delivered o ++ delivered o'.
Proof. apply omap_app. Qed.
Lemma acknowledged_app o o' : acknowledged (o ++ o') = acknowledged o ++ acknowledged o'.
Proof. apply omap_app. Qed.

Lemma u8_succ_ne n : is_u8 n -> u8 (n + 1) <> n.
Proof. unfold is_u8. intros Hn. rewrite u8_mod. intros E. pose proof (Z.mod_small n 256 Hn).
  destruct (decide (n = 255)) as [->|]; [done|]. rewrite Z.mod_small in E; lia. Qed.

Lemma request_frame_same c c' r : same_conn c c' -> request_frame c' r = request_frame c r.
Proof.
  intros (_ & _ & Ea & _ & Et & _). unfold request_frame, tunnel_effect. rewrite Et, Ea. done.
Qed.

Lemma omap_frames c c' (rs : list EIBnet_TunnelRequest) :
  same_conn c c' -> omap (request_frame c') rs = omap (request_frame c) rs.
Proof.
  intros Hs. induction rs as [|r rs IH]; [done|]. cbn [omap list_omap] in *.
  by rewrite (request_frame_same c c'), IH.
Qed.

(** A request that was accepted before is acknowledged again, and nothing else. *)
Lemma requests_repeated c r k :
  request_ok r -> rno c = u8 (treq_seqno r + 1) ->
  exists o, tunnel_requests c (replicate k r) = Ret (c, o) /\ delivered o = [] /\
    acknowledged o = replicate k [4; treq_channel r; treq_seqno r].
Proof.
  intros (? & ? & ? & ?) E. induction k as [|k (o & IH & Hd & Ha)]; [by exists []|]. cbn [replicate tunnel_requests].
  rewrite tunnel_request_eq by done. cbv zeta. rewrite decide_True by done.
  rewrite bind_Ret, IH. cbn [mbind outcome_bind]. eexists. split; [done|].
  rewrite delivered_app, acknowledged_app, Hd, Ha. done.
Qed.

(** The request that is due. *)
Lemma request_due c r :
  conn_ok c -> request_ok r -> rno c = treq_seqno r ->
  exists c' o, tunnel_request c r = Ret (c', o) /\ conn_post c c' /\ rno c' = u8 (treq_seqno r + 1) /\
    delivered o = option_list (request_frame c r) /\
    acknowledged o = [[4; treq_channel r; treq_seqno r]].
Proof.
  intros Hc (? & Hn & ? & ?) E.
  destruct (tunnel_request_ok c r) as ([c' o] & Er & Hpost); [done..|].
  exists c', o. rewrite Er. split; [done|]. split; [done|].
  rewrite tunnel_request_eq in Er by done. cbv zeta in Er. rewrite E in Er.
  rewrite decide_False in Er by (intros E'; by apply (u8_succ_ne (treq_seqno r))).
  rewrite decide_False in Er by (by intros []).
  unfold request_frame. destruct (tunnel_effect c (treq_CEMI r)) as [[l x] st]. injection Er as <- <-.
  split; [|by destruct l]. cbn [rno set_seqs]. rewrite <-E. f_equal. f_equal.
  destruct x; [|done]. cbn [put_opt]. unfold cs_put. by destruct (decide _).
Qed.

Lemma tunnel_requests_app rs rs' : forall c,
  tunnel_requests c (rs ++ rs') =
  ('(c, o) ← tunnel_requests c rs; '(c, o') ← tunnel_requests c rs'; Ret (c, o ++ o')).
Proof.
  induction rs as [|r rs IH]; intros c; cbn [app tunnel_requests].
  { rewrite bind_Ret. by destruct (tunnel_requests c rs') as [[]|]. }
  destruct (tunnel_request c r) as [[c1 o1]|]; [|done]. rewrite !bind_Ret, IH.
  destruct (tunnel_requests c1 rs) as [[c2 o2]|]; [|done]. rewrite !bind_Ret.
  destruct (tunnel_requests c2 rs') as [[c3 o3]|]; [|done]. rewrite !bind_Ret. by rewrite app_assoc.
Qed.

(** A client that numbers its requests and repeats each, any number of times,
    before the next has every frame given to the router exactly once and in order,
    and every transmission acknowledged with its number. *)
Theorem tunnel_exactly_once c rs :
  conn_ok c -> Forall (fun r => request_ok r.1) rs -> numbered (rno c) rs.*1 ->
  exists c' o, tunnel_requests c (repeated rs) = Ret (c', o) /\ conn_post c c' /\
    delivered o = omap (request_frame c) rs.*1 /\
    acknowledged o = (fun r => [4; treq_channel r; treq_seqno r]) <$> repeated rs.
Proof.
  revert c. induction rs as [|[r k] rs IH]; intros c Hc Hok Hn.
  { exists c, []. split_and!; [done|by apply conn_post_refl|done|done]. }
  apply Forall_cons_iff in Hok as [Hr Hok]. destruct Hn as [E Hn]. cbn [fst] in *.
  destruct (request_due c r) as (c1 & o1 & E1 & Hp1 & Er1 & Hd1 & Ha1); [done..|].
  destruct (requests_repeated c1 r k) as (o2 & E2 & Hd2 & Ha2); [done..|].
  destruct (IH c1) as (c' & o3 & E3 & Hp3 & Hd3 & Ha3); [apply Hp1|done|by rewrite Er1, E|].
  change (repeated ((r, k) :: rs)) with (replicate (S k) r ++ repeated rs).
  rewrite tunnel_requests_app. cbn [replicate tunnel_requests].
  rewrite E1, bind_Ret, E2, !bind_Ret, E3, bind_Ret. eexists c', _. split; [done|].
  split; [by eapply conn_post_trans|]. rewrite !delivered_app, !acknowledged_app.
  rewrite Hd1, Hd2, Hd3, Ha1, Ha2, Ha3. split.
  - rewrite app_nil_r, fmap_cons. cbn [omap list_omap fst].
    rewrite (omap_frames c c1) by apply Hp1. by destruct (request_frame c r).
  - cbn [replicate app]. by rewrite fmap_cons, fmap_app, fmap_replicate.
Qed.

Definition demo_conn : ConnState :=
  mkConn 0 0x1F02 1 0 0 0 CT_STANDARD 1 false true false true false false []
    (mkSockaddr 0x0A000001 4000) (mkSockaddr 0x0A000001 4000).

Lemma demo_conn_ok : conn_ok demo_conn.
Proof. unfold conn_ok, is_u8. simpl. split_and!; try (done || lia). Qed.

Definition demo_requests : list (EIBnet_TunnelRequest * nat) :=
  [(mkTunnelRequest 1 0 tunnel_cemi, 2%nat); (mkTunnelRequest 1 1 tunnel_cemi, 0%nat)].

Lemma tunnel_exactly_once_witness :
  exists c' o, tunnel_requests demo_conn (repeated demo_requests) = Ret (c', o) /\ conn_post demo_conn c' /\
    delivered o = omap (request_frame demo_conn) demo_requests.*1 /\
    acknowledged o = [[4; 1; 0]; [4; 1; 0]; [4; 1; 0]; [4; 1; 1]].
Proof.
  apply (tunnel_exactly_once demo_conn demo_requests); [apply demo_conn_ok| |by split_and!].
  repeat constructor; try decided; vm_compute; lia.
Defined.

(** ** From the bus to the client *)

(** What drives the transmission: a packet is queued, the trigger fires, the timer
    expires, an acknowledgement arrives. *)
Inductive conn_event :=
| CPut (x : CArray)
| CTrigger
| CTimeout
| CAck (r : EIBnet_TunnelACK).

(** The flag tells that the connection was given up. *)
Definition conn_step (c : ConnState) (ev : conn_event)
  : outcome (ConnState * bool * list server_output) :=
  match ev with
  | CPut x => Ret (cs_put c x, false, [])
  | CTrigger =>
      if send_trigger c then '(c, o) ← send_trigger_cb c; Ret (c, false, o) else Ret (c, false, [])
  | CTimeout =>
      if sendtimeout c then '(c, gone) ← cs_sendtimeout c; Ret (c, gone, []) else Ret (c, false, [])
  | CAck r => '(c, o) ← tunnel_response c r; Ret (c, false, o)
  end.

Fixpoint conn_run (c : ConnState) (evs : list conn_event)
  : outcome (ConnState * bool * list server_output) :=
  match evs with
  | [] => Ret (c, false, [])
  | ev :: evs =>
      '(c, gone, o) ← conn_step c ev;
      if gone : bool then Ret (c, true, o)
      else '(c, gone, o') ← conn_run c evs; Ret (c, gone, o ++ o')
  end.

Definition puts (evs : list conn_event) : list CArray :=
  omap (fun ev => match ev with CPut x => Some x | _ => None end) evs.

Definition transmitted (o : list server_output) : list EIBNetIPPacket :=
  omap (fun x => match x with SO_Send p _ => Some p | _ => None end) o.

(** The transmissions of packets with consecutive numbers from [n] on, each
    packet with how often it is sent. *)
Fixpoint bursts (ch n : Z) (xs : list (CArray * nat)) : list EIBNetIPPacket :=
  match xs with
  | [] => []
  | (x, k) :: xs => replicate k (request_packet TUNNEL_REQUEST ch n x) ++ bursts ch (u8 (n + 1)) xs
  end.

(** The packet that waits for its acknowledgement was sent once, or twice. *)
Definition tries (c : ConnState) : nat :=
  if decide (cs_retries c = 0) then 0 else if decide (cs_retries c <= 2) then 1 else 2.

Definition pending (c : ConnState) : list EIBNetIPPacket :=
  replicate (tries c) (request_packet TUNNEL_REQUEST (channel c) (sno c) (default [] (head (cs_out c)))).

Definition sequence (n : Z) {A} (xs : list A) : Z := foldl (fun n _ => u8 (n + 1)) n xs.

Lemma bursts_app ch xs ys : forall n,
  bursts ch n (xs ++ ys) = bursts ch n xs ++ bursts ch (sequence n xs) ys.
Proof.
  induction xs as [|[x k] xs IH]; intros n; [done|]. simpl. by rewrite IH, app_assoc.
Qed.

Lemma transmitted_app o o' : transmitted (o ++ o') = transmitted o ++ transmitted o'.
Proof. apply omap_app. Qed.

Definition tunnelling (c : ConnState) : Prop := cs_type c = CT_STANDARD \/ cs_type c = CT_BUSMONITOR.

(** One step sends again, moves on to the next packet, or changes nothing that
    was sent. *)
Definition step_sends (c : ConnState) (ev : conn_event) (c' : ConnState)
  (o : list server_output) (acked : list (CArray * nat)) : Prop :=
  conn_post c c' /\
  cs_out c ++ puts [ev] = acked.*1 ++ cs_out c' /\
  Forall (fun k => 1 <= k <= 2)%nat acked.*2 /\
  sno c' = sequence (sno c) acked /\
  pending c ++ transmitted o = bursts (channel c) (sno c) acked ++ pending c'.

(** The connection is given up after the second transmission of a packet. *)
Definition step_gives_up (c c' : ConnState) (o : list server_output) : Prop :=
  exists x, cs_out c = x :: cs_out c' /\ o = [] /\
    pending c = bursts (channel c) (sno c) [(x, 2%nat)].

Lemma put_step c x : conn_ok c -> step_sends c (CPut x) (cs_put c x) [] [].
Proof.
  intros Hc. pose proof (cs_put_ok c x Hc) as Hp. unfold step_sends, pending, tries.
  assert (cs_retries c <> 0 -> cs_out c <> []) as Hr by (unfold conn_ok in Hc; tauto).
  assert (cs_out (cs_put c x) = cs_out c ++ [x] /\ cs_retries (cs_put c x) = cs_retries c /\
          sno (cs_put c x) = sno c /\ channel (cs_put c x) = channel c) as (-> & -> & -> & ->)
    by (unfold cs_put; by destruct (decide _)).
  split_and!; try done. simpl. rewrite app_nil_r.
  destruct (decide (cs_retries c = 0)); [done|]. destruct (cs_out c); [by destruct Hr|done].
Qed.

Lemma trigger_step c :
  conn_ok c -> tunnelling c -> send_trigger c = true ->
  exists c' o, send_trigger_cb c = Ret (c', o) /\ step_sends c CTrigger c' o [].
Proof.
  intros Hc Ht Hs. destruct (send_trigger_ok c Hc Hs) as ([c' o] & E & Hp). exists c', o. split; [done|].
  assert (cs_retries c = 0 \/ cs_retries c = 2) as Hr by (unfold conn_ok in Hc; tauto).
  unfold send_trigger_cb in E. cbv zeta in E. change (cs_out (set_ctrigger c false)) with (cs_out c) in E.
  unfold step_sends. rewrite app_nil_r. split; [done|]. cbn [fmap list_fmap app bursts sequence foldl].
  destruct (cs_out c) as [|x out] eqn:Eo.
  { injection E as <- <-. by rewrite app_nil_r. }
  rewrite decide_False in E by (cbn [cs_type set_ctrigger]; destruct Ht as [->| ->]; done).
  cbn [channel sno set_ctrigger] in E.
  rewrite TunnelRequest_packet in E by (unfold conn_ok, is_u8 in *; lia || tauto).
  injection E as <- <-. cbn [set_cretries set_ctrigger cs_out sno]. split_and!; try done.
  unfold pending, tries. cbn [set_cretries set_ctrigger cs_out sno cs_retries channel]. rewrite Eo.
  by destruct Hr as [->| ->].
Qed.

Lemma unchanged_step c ev :
  conn_ok c -> puts [ev] = [] -> step_sends c ev c [] [].
Proof.
  intros Hc E. unfold step_sends. rewrite E, !app_nil_r. split_and!; try done.
Qed.

Lemma timeout_step c :
  conn_ok c -> sendtimeout c = true ->
  exists c' gone, cs_sendtimeout c = Ret (c', gone) /\
    if gone : bool then step_gives_up c c' [] else step_sends c CTimeout c' [] [].
Proof.
  intros Hc Hs. unfold cs_sendtimeout. cbv zeta. cbn [cs_retries set_cretries].
  assert (cs_retries c = 1 \/ cs_retries c = 3) as Hr by (unfold conn_ok in Hc; tauto).
  destruct (decide _) as [Hle|Hle].
  - eexists _, false. split; [done|]. unfold step_sends. rewrite !app_nil_r. split_and!; try done.
    + conn. conn_solve.
    + unfold pending, tries. cbn [cs_trigger set_ctrigger set_cretries cs_retries channel sno cs_out].
      destruct Hr as [->|E]; [done|lia].
  - assert (cs_out c <> []) as Ho by (unfold conn_ok in Hc; destruct_and?; forward; lia || done).
    unfold cs_get. cbn [cs_out set_cretries]. destruct (cs_out c) as [|x out] eqn:Eo; [done|].
    eexists _, true. split; [done|]. exists x. split_and!; try done.
    unfold pending, tries. rewrite Eo. destruct Hr as [E| ->]; [lia|done].
Qed.

Lemma acked_step c r :
  conn_ok c -> tunnelling c ->
  exists c' o acked, tunnel_response c r = Ret (c', o) /\ step_sends c (CAck r) c' o acked.
Proof.
  intros Hc Ht. unfold tunnel_response.
  repeat (destruct (decide _); [eexists c, [], []; split; [done|by apply unchanged_step]|]).
  rewrite andb_comm. destruct (_ && _) eqn:E.
  { apply andb_true_iff in E as [E1%bool_decide_eq_true E2%bool_decide_eq_true]. by destruct Ht. }
  destruct (cs_acked_ok c Hc) as ([c' o] & Ea & Hp); [done|]. exists c', o, [(default [] (head (cs_out c)), tries c)].
  split; [done|]. split; [done|]. revert Ea. unfold cs_acked, cs_get. cbn [cs_out set_seqs].
  assert (tries c = 1 \/ tries c = 2)%nat as Htr.
  { unfold tries. destruct (decide _); [done|]. destruct (decide _); auto. }
  destruct (cs_out c) as [|x out] eqn:Eo; [done|]. rewrite bind_Ret. cbv zeta.
  assert (forall c'', cs_retries c'' = 0 -> pending c'' = []) as Hp0.
  { intros c'' E0. unfold pending, tries. by rewrite E0. }
  intros Ea.
  assert (cs_out c' = out /\ sno c' = u8 (sno c + 1) /\ cs_retries c' = 0 /\ transmitted o = []) as (-> & -> & Er & ->).
  { cbn [cs_out set_cretries set_cout] in Ea. destruct out as [|y out].
    - destruct (do_send_next _); by injection Ea as <- <-.
    - by injection Ea as <- <-. }
  rewrite (Hp0 c' Er), !app_nil_r. unfold pending. rewrite Eo. cbn. rewrite app_nil_r. split; [done|].
  split; [apply Forall_singleton; lia|done].
Qed.

Lemma conn_step_sends c ev :
  conn_ok c -> tunnelling c ->
  exists c' gone o, conn_step c ev = Ret (c', gone, o) /\
    if gone : bool then step_gives_up c c' o else exists acked, step_sends c ev c' o acked.
Proof.
  intros Hc Ht. destruct ev as [x| | |r]; cbn [conn_step].
  - eexists _, false, _. split; [done|]. exists []. by apply put_step.
  - destruct (send_trigger c) eqn:E.
    + destruct (trigger_step c Hc Ht E) as (c' & o & -> & Hs). eexists _, false, _. split; [done|]. eauto.
    + eexists _, false, _. split; [done|]. exists []. by apply unchanged_step.
  - destruct (sendtimeout c) eqn:E.
    + destruct (timeout_step c Hc E) as (c' & gone & -> & Hs). eexists _, gone, _. split; [done|].
      destruct gone; [done|by exists []].
    + eexists _, false, _. split; [done|]. exists []. by apply unchanged_step.
  - destruct (acked_step c r Hc Ht) as (c' & o & acked & -> & Hs). eexists _, false, _. split; [done|]. eauto.
Qed.

(** What a whole run sends. *)
Definition run_sends (c : ConnState) (evs : list conn_event) (c' : ConnState) (gone : bool)
  (o : list server_output) : Prop :=
  exists acked, Forall (fun k => 1 <= k <= 2)%nat acked.*2 /\
    if gone then
      exists x, (acked.*1 ++ x :: cs_out c') `prefix_of` cs_out c ++ puts evs /\
        pending c ++ transmitted o = bursts (channel c) (sno c) (acked ++ [(x, 2%nat)])
    else
      conn_ok c' /\ cs_out c ++ puts evs = acked.*1 ++ cs_out c' /\
      pending c ++ transmitted o = bursts (channel c) (sno c) acked ++ pending c'.

Lemma conn_run_sends evs : forall c,
  conn_ok c -> tunnelling c ->
  exists c' gone o, conn_run c evs = Ret (c', gone, o) /\ run_sends c evs c' gone o.
Proof.
  induction evs as [|ev evs IH]; intros c Hc Ht; cbn [conn_run].
  { eexists c, false, []. split; [done|]. exists []. rewrite !app_nil_r. by split_and!. }
  destruct (conn_step_sends c ev Hc Ht) as (c1 & gone1 & o1 & -> & Hstep). rewrite bind_Ret.
  assert (puts (ev :: evs) = puts [ev] ++ puts evs) as Hputs by (destruct ev; done).
  destruct gone1.
  - destruct Hstep as (x & Eo & -> & Ep). eexists _, true, _. split; [done|]. exists []. split; [done|].
    exists x. rewrite Eo, app_nil_r. split; [|done]. by apply prefix_app_r.
  - destruct Hstep as (acked & [Hs1 Hc1] & Eo & Hk & Es & Ep).
    destruct (IH c1) as (c' & gone & o & -> & acked' & Hk' & Hrest); [done|unfold tunnelling in *; by rewrite (proj1 (proj2 (proj2 (proj2 (proj2 Hs1)))))|].
    rewrite bind_Ret. eexists _, _, _. split; [done|]. exists (acked ++ acked').
    split; [by rewrite fmap_app, Forall_app|]. rewrite transmitted_app, Hputs, !app_assoc, Ep, <-!app_assoc.
    assert (channel c1 = channel c) as Ech by apply Hs1.
    rewrite (app_assoc (cs_out c)), Eo, <-!app_assoc. destruct gone.
    + destruct Hrest as (x & Hpre & Etx). exists x. rewrite Ech, Es in Etx.
      rewrite fmap_app, <-!app_assoc. split; [by apply prefix_app|]. by rewrite Etx, <-bursts_app.
    + destruct Hrest as (Hc' & Eo' & Etx). rewrite Ech, Es in Etx. split; [done|].
      rewrite fmap_app, <-!app_assoc. rewrite Eo', Etx. split; [done|]. by rewrite bursts_app, <-!app_assoc.
Qed.

(** C14: towards a client packets are sent one at a time and in order: whatever is
    queued, however triggers, time-outs and acknowledgements (of any number and
    status) come, what a new connection transmits is, for each packet in the order
    of the queue, one or two copies with the next number; every packet is
    acknowledged, still queued, or the one the connection is given up for after
    its second transmission; and while packets are queued a transmission or a
    time-out is due. *)
Theorem tunnel_stop_and_wait c evs :
  conn_ok c -> tunnelling c -> cs_active c = true -> cs_out c = [] ->
  exists c' gone o acked,
    conn_run c evs = Ret (c', gone, o) /\ Forall (fun k => 1 <= k <= 2)%nat acked.*2 /\
    (gone = false -> puts evs = acked.*1 ++ cs_out c' /\
      transmitted o = bursts (channel c) (sno c) acked ++ pending c' /\
      (cs_active c' = true -> cs_out c' <> [] -> send_trigger c' = true \/ sendtimeout c' = true)) /\
    (gone = true -> exists x, (acked.*1 ++ x :: cs_out c') `prefix_of` puts evs /\
      transmitted o = bursts (channel c) (sno c) (acked ++ [(x, 2%nat)])).
Proof.
  intros Hc Ht Ha Eo. destruct (conn_run_sends evs c Hc Ht) as (c' & gone & o & E & acked & Hk & Hrest).
  assert (pending c = []) as Ep.
  { assert (cs_retries c = 0) as Er.
    { destruct (decide (cs_retries c = 0)); [done|]. unfold conn_ok in Hc. tauto. }
    unfold pending, tries. by rewrite Er. }
  rewrite Ep, Eo in Hrest. exists c', gone, o, acked. split; [done|]. split; [done|].
  destruct gone; split; try done.
  intros _. destruct Hrest as (Hc' & ? & ?). split_and!; try done. unfold conn_ok in Hc'. tauto.
Qed.

Lemma tunnel_stop_and_wait_witness :
  conn_run demo_conn [CPut [0x29]; CTrigger; CTimeout; CTrigger; CAck (mkTunnelACK 1 0 0); CPut [0x2E]; CTrigger]
  = Ret (set_cretries (set_cout (set_seqs demo_conn 1 0) [[0x2E]]) 1 true, false,
         (fun p => SO_Send p (cs_daddr demo_conn)) <$>
           [request_packet TUNNEL_REQUEST 1 0 [0x29]; request_packet TUNNEL_REQUEST 1 0 [0x29];
            request_packet TUNNEL_REQUEST 1 1 [0x2E]]) /\
  exists c' gone o acked,
    conn_run demo_conn [CPut [0x29]; CTrigger] = Ret (c', gone, o) /\
    Forall (fun k => 1 <= k <= 2)%nat acked.*2 /\
    (gone = false -> puts [CPut [0x29]; CTrigger] = acked.*1 ++ cs_out c' /\
      transmitted o = bursts (channel demo_conn) (sno demo_conn) acked ++ pending c' /\
      (cs_active c' = true -> cs_out c' <> [] -> send_trigger c' = true \/ sendtimeout c' = true)) /\
    (gone = true -> exists x, (acked.*1 ++ x :: cs_out c') `prefix_of` puts [CPut [0x29]; CTrigger] /\
      transmitted o = bursts (channel demo_conn) (sno demo_conn) (acked ++ [(x, 2%nat)])).
Proof.
  split; [vm_compute; reflexivity|].
  apply tunnel_stop_and_wait; [apply demo_conn_ok|by left|reflexivity|reflexivity].
Defined.

(** ** Refused connections *)

Section Refused.
Context {D : Type} `{Driver D}.

(** A request for a tunnel with a layer the server does not know is refused, but
    an address has been allocated for it, and since there is no connection to
    give it back, it stays taken: such requests use up the block of client
    addresses. *)
Theorem refused_tunnel_keeps_address ok (sv : EIBnetServer D) r layer x :
  server_ok sv -> tunnel sv = true -> creq_CRI r = [4; layer; x] ->
  layer <> 0x02 -> layer <> 0x80 ->
  exists sv' status crd, handle_connect_type ok sv r = Ret (sv', [], status, 0, crd) /\
    status <> E_NO_ERROR /\ connections sv' = connections sv /\
    ((status = E_NO_MORE_CONNECTIONS /\ sv' = sv) \/
     (status = E_TUNNELING_LAYER /\
      exists a, crd = [4; u8 (Z.land (a ≫ 8) 0xff); u8 (Z.land a 0xff)] /\
        allocated (sv_router sv) a (sv_router sv') /\ fresh_addr sv' a)).
Proof.
  intros Hs Et Ecri H2 H80. unfold handle_connect_type. rewrite Ecri, Et.
  change (at_ [4; layer; x] 0) with (Ret 4). change (at_ [4; layer; x] 1) with (Ret layer).
  rewrite bind_Ret. change (bool_decide (size [4; layer; x] = 3%nat) && bool_decide (4 = 4)) with true.
  cbv iota.
  destruct (get_client_addr_spec (sv_router sv)) as (a & r' & -> & Ha); [apply Hs|].
  rewrite bind_Ret. cbv zeta. rewrite bind_Ret. cbn [tunnel set_router]. rewrite Et. cbn [negb].
  destruct Ha as [(-> & -> & _)|Ha].
  { rewrite set_router_self. eexists _, _, _. split; [done|]. split_and!; auto. }
  destruct (allocated_ok sv a r' Hs Ha) as [Hs' Hf].
  assert (a <> 0) as Ha0.
  { destruct Ha as (? & _). assert (pool_wf (pool (sv_router sv))) as (? & _) by apply Hs. lia. }
  rewrite decide_False by done.
  rewrite (bool_decide_eq_false_2 (layer = 0x02)), (bool_decide_eq_false_2 (layer = 0x80)) by done.
  eexists _, _, _. split; [done|]. split_and!; try done. right. split; [done|]. exists a.
  by rewrite Z.shiftr_0_r.
Qed.
End Refused.

Lemma refused_tunnel_keeps_address_witness :
  exists sv' status crd,
    handle_connect_type (true, true) demo_server
      (mkConnectRequest (mkSockaddr 0 0) (mkSockaddr 0 0) [4; 4; 0] false) = Ret (sv', [], status, 0, crd) /\
    status <> E_NO_ERROR /\ connections sv' = connections demo_server /\
    ((status = E_NO_MORE_CONNECTIONS /\ sv' = demo_server) \/
     (status = E_TUNNELING_LAYER /\
      exists a, crd = [4; u8 (Z.land (a ≫ 8) 0xff); u8 (Z.land a 0xff)] /\
        allocated (sv_router demo_server) a (sv_router sv') /\ fresh_addr sv' a)).
Proof.
  apply (refused_tunnel_keeps_address _ _ _ 4 0); try done.
  apply fresh_server_ok; [reflexivity|unfold pool_wf; simpl; lia|reflexivity|reflexivity].
Defined.
