(* ===== verification/EibNet6Server.v ===== *)
(** * The EIBnet/IP server over IPv6

    Models src/src/libserver/eibnet6server.cpp, which repeats
    src/src/libserver/eibnetserver.cpp for the packets of [EibNetIp6]: the connections
    of clients ([class ConnState_ipv6]), the table of connections and the handling of
    every kind of datagram ([EIBnet6Server::handle_packet]).  The definitions have the
    names of [EibNetServer] with a 6; the types of connections, the error codes and the
    answer to a property read are shared with it. *)

From S2P Require Import Prelude CArray Common Apdu ApduSpec ApduRound Lpdu LpduSpec Emi Link Router.
From S2P Require Import EibNetIp EibNetIpSpec EibNetIp6 EibNetServer.

(** [cs_active6]: the trigger is started; [send_trigger6]: it was sent. *)
Record ConnState_ipv6 := mkConn6 {
  cs_id6 : nat;
  cs_addr6 : Z;
  channel6 : Z;
  sno6 : Z;
  rno6 : Z;
  cs_retries6 : Z;
  cs_type6 : ConnType;
  cs_no6 : Z;
  cs_nat6 : bool;
  cs_timeout6 : bool;
  sendtimeout6 : bool;
  cs_active6 : bool;
  send_trigger6 : bool;
  do_send_next6 : bool;
  cs_out6 : list CArray;
  cs_daddr6 : sockaddr_in6;
  cs_caddr6 : sockaddr_in6
}.

Inductive server_output6 :=
| SO_Send6 (p : EIBNet6IPPacket) (a : sockaddr_in6)
| SO_recv6 (id : nat) (l : L_Data_PDU)
| SO_mcast_recv6 (l : L_Data_PDU)
| SO_send_Next6 (id : nat)
| SO_stopped6 (id : nat)
| SO_register6 (id : nat)
| SO_unregister6 (id : nat)
| SO_registerVBusmonitor6 (id : nat)
| SO_deregisterVBusmonitor6 (id : nat)
| SO_mcast_send_Next6
| SO_mcast_stop6
| SO_mcast_unregister6
| SO_server_stopped6.

Definition conn_result6 : Type := outcome (ConnState_ipv6 * list server_output6).

Definition set_seqs6 (c : ConnState_ipv6) (s r : Z) : ConnState_ipv6 :=
  mkConn6 (cs_id6 c) (cs_addr6 c) (channel6 c) s r (cs_retries6 c) (cs_type6 c) (cs_no6 c) (cs_nat6 c)
    (cs_timeout6 c) (sendtimeout6 c) (cs_active6 c) (send_trigger6 c) (do_send_next6 c) (cs_out6 c)
    (cs_daddr6 c) (cs_caddr6 c).
Definition set_cretries6 (c : ConnState_ipv6) (n : Z) (st : bool) : ConnState_ipv6 :=
  mkConn6 (cs_id6 c) (cs_addr6 c) (channel6 c) (sno6 c) (rno6 c) n (cs_type6 c) (cs_no6 c) (cs_nat6 c)
    (cs_timeout6 c) st (cs_active6 c) (send_trigger6 c) (do_send_next6 c) (cs_out6 c)
    (cs_daddr6 c) (cs_caddr6 c).
Definition set_cout6 (c : ConnState_ipv6) (o : list CArray) : ConnState_ipv6 :=
  mkConn6 (cs_id6 c) (cs_addr6 c) (channel6 c) (sno6 c) (rno6 c) (cs_retries6 c) (cs_type6 c) (cs_no6 c)
    (cs_nat6 c) (cs_timeout6 c) (sendtimeout6 c) (cs_active6 c) (send_trigger6 c) (do_send_next6 c) o
    (cs_daddr6 c) (cs_caddr6 c).
Definition set_do_send_next6 (c : ConnState_ipv6) (b : bool) : ConnState_ipv6 :=
  mkConn6 (cs_id6 c) (cs_addr6 c) (channel6 c) (sno6 c) (rno6 c) (cs_retries6 c) (cs_type6 c) (cs_no6 c)
    (cs_nat6 c) (cs_timeout6 c) (sendtimeout6 c) (cs_active6 c) (send_trigger6 c) b (cs_out6 c)
    (cs_daddr6 c) (cs_caddr6 c).
Definition set_cno6 (c : ConnState_ipv6) (n : Z) : ConnState_ipv6 :=
  mkConn6 (cs_id6 c) (cs_addr6 c) (channel6 c) (sno6 c) (rno6 c) (cs_retries6 c) (cs_type6 c) n
    (cs_nat6 c) (cs_timeout6 c) (sendtimeout6 c) (cs_active6 c) (send_trigger6 c) (do_send_next6 c)
    (cs_out6 c) (cs_daddr6 c) (cs_caddr6 c).
Definition set_ctrigger6 (c : ConnState_ipv6) (b : bool) : ConnState_ipv6 :=
  mkConn6 (cs_id6 c) (cs_addr6 c) (channel6 c) (sno6 c) (rno6 c) (cs_retries6 c) (cs_type6 c) (cs_no6 c)
    (cs_nat6 c) (cs_timeout6 c) (sendtimeout6 c) (cs_active6 c) b (do_send_next6 c) (cs_out6 c)
    (cs_daddr6 c) (cs_caddr6 c).

(** [send_trigger6.send ()]: a stopped trigger is never delivered. *)
Definition cs_trigger6 (c : ConnState_ipv6) : ConnState_ipv6 := set_ctrigger6 c (cs_active6 c).

(** [out.put (x); if (! retries) send_trigger6.send ();] *)
Definition cs_put6 (c : ConnState_ipv6) (x : CArray) : ConnState_ipv6 :=
  let c := set_cout6 c (cs_out6 c ++ [x]) in
  if decide (cs_retries6 c = 0) then cs_trigger6 c else c.

(** [out.get ()] *)
Definition cs_get6 (c : ConnState_ipv6) : outcome ConnState_ipv6 :=
  match cs_out6 c with
  | [] => Fault OutOfRange
  | _ :: o => Ret (set_cout6 c o)
  end.

(** ** One connection *)

Definition cs_send_L_Busmonitor6 (c : ConnState_ipv6) (l : L_Busmonitor_PDU) : outcome ConnState_ipv6 :=
  if decide (cs_type6 c = CT_BUSMONITOR) then
    x ← Busmonitor_to_CEMI 0x2B l (cs_no6 c);
    Ret (cs_put6 (set_cno6 c (cs_no6 c + 1)) x)
  else Ret c.

Definition cs_send_L_Data6 (c : ConnState_ipv6) (l : L_Data_PDU) : outcome ConnState_ipv6 :=
  if decide (cs_type6 c = CT_STANDARD) then
    _ ← assert_ (negb (do_send_next6 c));
    x ← L_Data_ToCEMI 0x29 l;
    Ret (cs_put6 (set_do_send_next6 c true) x)
  else Ret c.

Definition send_trigger_cb6 (c : ConnState_ipv6) : conn_result6 :=
  let c := set_ctrigger6 c false in
  match cs_out6 c with
  | [] => Ret (c, [])
  | x :: _ =>
      p ← (if decide (cs_type6 c = CT_CONFIG)
           then ConfigRequest6_ToPacket (mkConfigRequest (channel6 c) (sno6 c) x)
           else TunnelRequest6_ToPacket (mkTunnelRequest (channel6 c) (sno6 c) x));
      Ret (set_cretries6 c (cs_retries6 c + 1) true, [SO_Send6 p (cs_daddr6 c)])
  end.

Definition tunnel_request6 (c : ConnState_ipv6) (r1 : EIBnet_TunnelRequest) : conn_result6 :=
  let ack status :=
    p ← TunnelACK6_ToPacket (mkTunnelACK (treq_channel r1) (treq_seqno r1) status);
    Ret (SO_Send6 p (cs_daddr6 c)) in
  if decide (rno6 c = Z.land (treq_seqno r1 + 1) 0xff) then a ← ack 0; Ret (c, [a])
  else if decide (rno6 c <> treq_seqno r1) then Ret (c, [])
  else
    '(c, o, status) ←
      (if decide (cs_type6 c = CT_STANDARD) then
         l ← CEMI_to_L_Data (treq_CEMI r1);
         match l with
         | Some l =>
             code ← at_ (treq_CEMI r1) 0;
             c ← (if decide (code = 0x11) then x ← L_Data_ToCEMI 0x2E l; Ret (cs_put6 c x) else Ret c);
             let l := if decide (source l = 0) then with_source l (cs_addr6 c) else l in
             Ret (c, if bool_decide (code = 0x11) || bool_decide (code = 0x29)
                     then [SO_recv6 (cs_id6 c) l] else [], 0)
         | None => Ret (c, [], 0x29)
         end
       else Ret (c, [], 0x29));
    a ← ack status;
    Ret (set_seqs6 c (sno6 c) (u8 (rno6 c + 1)), o ++ [a]).

(** The part that [tunnel_response6] and [config_response6] have in common once the
    acknowledgement is accepted. *)
Definition cs_acked6 (c : ConnState_ipv6) : conn_result6 :=
  c ← cs_get6 (set_seqs6 c (u8 (sno6 c + 1)) (rno6 c));
  let c := set_cretries6 c 0 false in
  match cs_out6 c with
  | _ :: _ => Ret (cs_trigger6 c, [])
  | [] =>
      if do_send_next6 c then Ret (set_do_send_next6 c false, [SO_send_Next6 (cs_id6 c)])
      else Ret (c, [])
  end.

Definition tunnel_response6 (c : ConnState_ipv6) (r1 : EIBnet_TunnelACK) : conn_result6 :=
  if decide (sno6 c <> tack_seqno r1) then Ret (c, [])
  else if decide (tack_status r1 <> 0) then Ret (c, [])
  else if decide (cs_retries6 c = 0) then Ret (c, [])
  else if bool_decide (cs_type6 c <> CT_STANDARD) && bool_decide (cs_type6 c <> CT_BUSMONITOR)
  then Ret (c, [])
  else cs_acked6 c.

Definition config_response6 (c : ConnState_ipv6) (r1 : EIBnet_ConfigACK) : conn_result6 :=
  if decide (sno6 c <> cfack_seqno r1) then Ret (c, [])
  else if decide (cfack_status r1 <> 0) then Ret (c, [])
  else if decide (cs_retries6 c = 0) then Ret (c, [])
  else if decide (cs_type6 c <> CT_CONFIG) then Ret (c, [])
  else cs_acked6 c.

Definition config_request6 (c : ConnState_ipv6) (r1 : EIBnet_ConfigRequest) : conn_result6 :=
  let ack status :=
    p ← ConfigACK6_ToPacket (mkConfigACK (cfreq_channel r1) (cfreq_seqno r1) status);
    Ret (SO_Send6 p (cs_daddr6 c)) in
  if decide (rno6 c = Z.land (cfreq_seqno r1 + 1) 0xff) then a ← ack 0; Ret (c, [a])
  else if decide (rno6 c <> cfreq_seqno r1) then Ret (c, [])
  else
    '(c, status) ←
      (if bool_decide (cs_type6 c = CT_CONFIG) && bool_decide (1 < size (cfreq_CEMI r1))%nat then
         code ← at_ (cfreq_CEMI r1) 0;
         if bool_decide (code = 0xFC) && bool_decide (size (cfreq_CEMI r1) = 7%nat)
         then x ← config_answer (cfreq_CEMI r1); Ret (cs_put6 c x, E_NO_ERROR)
         else Ret (c, E_DATA_CONNECTION)
       else Ret (c, E_TUNNELING_LAYER));
    a ← ack status;
    Ret (set_seqs6 c (sno6 c) (u8 (rno6 c + 1)), [a]).

(** [ConnState_ipv6::sendtimeout_cb], and whether the connection is to be stopped. *)
Definition cs_sendtimeout6 (c : ConnState_ipv6) : outcome (ConnState_ipv6 * bool) :=
  let c := set_cretries6 c (cs_retries6 c + 1) false in
  if decide (cs_retries6 c <= 2) then Ret (cs_trigger6 c, false)
  else c ← cs_get6 c; Ret (c, true).

(** ** The server *)

(** [mcast6]: the driver for routing, and with it the sockets, exist.
    [drop_active6]: the trigger is started; [drop_trigger6]: it was sent. *)
Record EIBnet6Server (D : Type) := mkServer6 {
  tunnel6 : bool;
  route6 : bool;
  discover6 : bool;
  sv_port6 : Z;
  sv_maddr6 : CArray;
  servername6 : CArray;
  mcast6 : bool;
  connections6 : list ConnState_ipv6;
  drop_q6 : list nat;
  drop_active6 : bool;
  drop_trigger6 : bool;
  next_id6 : nat;
  sv_router6 : Router D
}.
Arguments mkServer6 {D}.
Arguments tunnel6 {D}.
Arguments route6 {D}.
Arguments discover6 {D}.
Arguments sv_port6 {D}.
Arguments sv_maddr6 {D}.
Arguments servername6 {D}.
Arguments connections6 {D}.
Arguments mcast6 {D}.
Arguments drop_q6 {D}.
Arguments drop_active6 {D}.
Arguments drop_trigger6 {D}.
Arguments next_id6 {D}.
Arguments sv_router6 {D}.

Section Server6.
Context {D : Type} `{Driver D} {LS : LinkStates}.

(** [GetSourceAddress (t, &dest, &src)]: the address this host has towards [dest]. *)
Variable GetSourceAddress : sockaddr_in6 -> option sockaddr_in6.

Local Abbreviation server := (EIBnet6Server D).

Definition server_result6 : Type := outcome (server * list server_output6).

Definition set_connections6 (sv : server) (cs : list ConnState_ipv6) : server :=
  mkServer6 (tunnel6 sv) (route6 sv) (discover6 sv) (sv_port6 sv) (sv_maddr6 sv) (servername6 sv) (mcast6 sv)
    cs (drop_q6 sv) (drop_active6 sv) (drop_trigger6 sv) (next_id6 sv) (sv_router6 sv).
Definition set_drop6 (sv : server) (q : list nat) (act t : bool) : server :=
  mkServer6 (tunnel6 sv) (route6 sv) (discover6 sv) (sv_port6 sv) (sv_maddr6 sv) (servername6 sv) (mcast6 sv)
    (connections6 sv) q act t (next_id6 sv) (sv_router6 sv).
Definition set_router6 (sv : server) (r : Router D) : server :=
  mkServer6 (tunnel6 sv) (route6 sv) (discover6 sv) (sv_port6 sv) (sv_maddr6 sv) (servername6 sv) (mcast6 sv)
    (connections6 sv) (drop_q6 sv) (drop_active6 sv) (drop_trigger6 sv) (next_id6 sv) r.
Definition set_next_id6 (sv : server) (n : nat) : server :=
  mkServer6 (tunnel6 sv) (route6 sv) (discover6 sv) (sv_port6 sv) (sv_maddr6 sv) (servername6 sv) (mcast6 sv)
    (connections6 sv) (drop_q6 sv) (drop_active6 sv) (drop_trigger6 sv) n (sv_router6 sv).
Definition set_mcast6 (sv : server) (b : bool) : server :=
  mkServer6 (tunnel6 sv) (route6 sv) (discover6 sv) (sv_port6 sv) (sv_maddr6 sv) (servername6 sv) b
    (connections6 sv) (drop_q6 sv) (drop_active6 sv) (drop_trigger6 sv) (next_id6 sv) (sv_router6 sv).

(** A connection object changes in place. *)
Definition update_conn6 (sv : server) (c : ConnState_ipv6) : server :=
  set_connections6 sv (map (fun x => if decide (cs_id6 x = cs_id6 c) then c else x) (connections6 sv)).

(** The loops over [connections6] that look for a channel6 number. *)
Definition find_channel6 (sv : server) (ch : Z) : option ConnState_ipv6 :=
  List.find (fun c => bool_decide (channel6 c = ch)) (connections6 sv).

(** [drop_connection6]; a stopped trigger is never delivered. *)
Definition drop_connection6 (sv : server) (i : nat) : server :=
  set_drop6 sv (drop_q6 sv ++ [i]) (drop_active6 sv) (drop_active6 sv).

(** A connection object that is stopped. *)
Definition conn_stopped6 (c : ConnState_ipv6) : ConnState_ipv6 :=
  mkConn6 (cs_id6 c) 0 (channel6 c) (sno6 c) (rno6 c) 0 (cs_type6 c) (cs_no6 c) (cs_nat6 c)
    false false false false (do_send_next6 c) (cs_out6 c) (cs_daddr6 c) (cs_caddr6 c).

(** The body of [ConnState_ipv6::stop]; the link is told last. *)
Definition conn_stop_body6 (sv : server) (c : ConnState_ipv6) : server_result6 :=
  let o := if decide (cs_type6 c = CT_BUSMONITOR) then [SO_deregisterVBusmonitor6 (cs_id6 c)] else [] in
  let sv := drop_connection6 (update_conn6 sv (conn_stopped6 c)) (cs_id6 c) in
  sv ← (if decide (cs_addr6 c = 0) then Ret sv
        else r ← release_client_addr (sv_router6 sv) (cs_addr6 c); Ret (set_router6 sv r));
  Ret (sv, o ++ [SO_stopped6 (cs_id6 c)]).

(** [ConnState_ipv6::stop], called once more by a link that is up. *)
Definition conn_stop6 (sv : server) (c : ConnState_ipv6) : server_result6 :=
  let up := link_up (drop_q6 sv) (cs_id6 c) in
  '(sv, o) ← conn_stop_body6 sv c;
  if up then '(sv, o') ← conn_stop_body6 sv (conn_stopped6 c); Ret (sv, o ++ o')
  else Ret (sv, o).

(** [EIBnet6Server::drop_trigger_cb] *)
Fixpoint drop_all6 (sv : server) (q : list nat) : server * list server_output6 :=
  match q with
  | [] => (sv, [])
  | i :: q =>
      let found := existsb (fun c => bool_decide (cs_id6 c = i)) (connections6 sv) in
      let sv := set_connections6 sv
                  (List.filter (fun c => negb (bool_decide (cs_id6 c = i))) (connections6 sv)) in
      let '(sv, o) := drop_all6 sv q in
      (sv, (if found then [SO_unregister6 i] else []) ++ o)
  end.

Definition drop_trigger_cb6 (sv : server) : server * list server_output6 :=
  drop_all6 (set_drop6 sv [] (drop_active6 sv) false) (drop_q6 sv).

(** [send_trigger_cb6] at the server: what is sent goes through [mcast6]. *)
Definition conn_send_trigger_cb6 (sv : server) (c : ConnState_ipv6) : server_result6 :=
  '(c, o) ← send_trigger_cb6 c;
  _ ← (match o with [] => Ret tt | _ :: _ => assert_ (mcast6 sv) end);
  Ret (update_conn6 sv c, o).

Definition sendtimeout_cb6 (sv : server) (c : ConnState_ipv6) : server_result6 :=
  '(c, gone) ← cs_sendtimeout6 c;
  let sv := update_conn6 sv c in
  if gone : bool then conn_stop6 sv c else Ret (sv, []).

Definition conn_timeout_cb6 (sv : server) (c : ConnState_ipv6) : server_result6 :=
  o ← (if decide (0 < channel6 c) then
         match GetSourceAddress (cs_caddr6 c) with
         | Some a =>
             p ← DisconnectRequest6_ToPacket
                   (mkDisconnectRequest6 (channel6 c) (mkSockaddr6 (sin6_addr a) (sv_port6 sv)) (cs_nat6 c));
             Ret [SO_Send6 p (cs_caddr6 c)]
         | None => Ret []
         end
       else Ret []);
  '(sv, o') ← conn_stop6 sv c;
  Ret (sv, o ++ o').

(** The loop at the label [rt]: the first channel6 number that is not in use. *)
Fixpoint free_channel6 (fuel : nat) (cs : list ConnState_ipv6) (id : Z) : Z :=
  match fuel with
  | O => id
  | S fuel => if existsb (fun c => bool_decide (channel6 c = id)) cs
              then free_channel6 fuel cs (id + 1) else id
  end.

(** [EIBnet6Server::addClient]; [ok] is whether [setup] and [registerLink] succeed.
    [setup] of a bus monitor connection registers it with the router; a connection
    that is not registered as a link is forgotten. *)
Definition addClient6 (ok : bool * bool) (sv : server) (t : ConnType) (r1 : EIBnet6_ConnectRequest)
  (a : Z) : server * Z * list server_output6 :=
  let id := free_channel6 (length (connections6 sv)) (connections6 sv) 1 in
  if decide (id <= 0xff) then
    let n := next_id6 sv in
    let c := mkConn6 n a (u8 id) 0 0 0 t 1 (creq6_nat r1) true false true false false []
               (creq6_daddr r1) (creq6_caddr r1) in
    let sv := set_next_id6 sv (S n) in
    if fst ok then
      let o := if decide (t = CT_BUSMONITOR) then [SO_registerVBusmonitor6 n] else [] in
      if snd ok then (set_connections6 sv (connections6 sv ++ [c]), id, o ++ [SO_register6 n])
      else (sv, -1, o)
    else (sv, -1, [])
  else (sv, id, []).

(** *** Datagrams *)

(** What a search and a description answer have in common. *)
Definition server_device6 (sv : server) (mac ser : CArray) (ss : list DIB_service_Entry)
  : EIBnet_Device :=
  mkDevice 2 0 (r_addr (sv_router6 sv)) 0 ser (sv_maddr6 sv) mac (servername6 sv)
    (ss ++ (if tunnel6 sv then [mkService 4 1] else []) ++ (if route6 sv then [mkService 5 1] else [])).

Definition handle_search6 (mac : CArray) (sv : server) (p1 : EIBNet6IPPacket) : server_result6 :=
  r1 ← parseEIBnet6_SearchRequest p1;
  match r1 with
  | None => Ret (sv, [])
  | Some r1 =>
      if discover6 sv then
        match GetSourceAddress (sreq6_caddr r1) with
        | None => Ret (sv, [])
        | Some a =>
            p ← SearchResponse6_ToPacket
                  (mkSearchResponse6 (mkSockaddr6 (sin6_addr a) (sv_port6 sv)) false
                     (server_device6 sv mac [1; 2; 3; 4; 5; 6] [mkService 2 1]));
            Ret (sv, [SO_Send6 p (sreq6_caddr r1)])
        end
      else Ret (sv, [])
  end.

Definition handle_description6 (mac : CArray) (sv : server) (p1 : EIBNet6IPPacket) : server_result6 :=
  r1 ← parseEIBnet6_DescriptionRequest p1;
  match r1 with
  | None => Ret (sv, [])
  | Some r1 =>
      if discover6 sv then
        p ← DescriptionResponse6_ToPacket
              (mkDescriptionResponse
                 (server_device6 sv mac [0; 0; 0; 0; 0; 0] [mkService 2 1; mkService 3 1]) []);
        Ret (sv, [SO_Send6 p (descreq6_caddr r1)])
      else Ret (sv, [])
  end.

Definition handle_routing6 (sv : server) (p1 : EIBNet6IPPacket) : server_result6 :=
  if decide (size (p_data6 p1) < 2)%nat then Ret (sv, [])
  else
    d0 ← at_ (p_data6 p1) 0;
    if decide (d0 <> 0x29) then Ret (sv, [])
    else
      c ← CEMI_to_L_Data (p_data6 p1);
      Ret (sv, match c with Some l => if route6 sv then [SO_mcast_recv6 l] else [] | None => [] end).

Definition handle_connectionstate6 (sv : server) (p1 : EIBNet6IPPacket) : server_result6 :=
  r1 ← parseEIBnet6_ConnectionStateRequest p1;
  match r1 with
  | None => Ret (sv, [])
  | Some r1 =>
      let status := match find_channel6 sv (csreq6_channel r1) with Some _ => 0 | None => E_CONNECTION_ID end in
      p ← ConnectionStateResponse6_ToPacket (mkConnectionStateResponse (csreq6_channel r1) status);
      Ret (sv, [SO_Send6 p (csreq6_caddr r1)])
  end.

Definition handle_disconnect6 (sv : server) (p1 : EIBNet6IPPacket) : server_result6 :=
  r1 ← parseEIBnet6_DisconnectRequest p1;
  match r1 with
  | None => Ret (sv, [])
  | Some r1 =>
      '(sv, o, status) ←
        match find_channel6 sv (dreq6_channel r1) with
        | Some c => '(sv, o) ← conn_stop6 sv c; Ret (sv, o, 0)
        | None => Ret (sv, [], E_CONNECTION_ID)
        end;
      p ← DisconnectResponse6_ToPacket (mkDisconnectResponse (dreq6_channel r1) status);
      Ret (sv, o ++ [SO_Send6 p (dreq6_caddr r1)])
  end.

(** The reply to a connection request: status, channel6 and the data block. *)
Definition handle_connect_type6 (ok : bool * bool) (sv : server) (r1 : EIBnet6_ConnectRequest)
  : outcome (server * list server_output6 * Z * Z * CArray) :=
  cri0 ← at_ (creq6_CRI r1) 0;
  if bool_decide (size (creq6_CRI r1) = 3%nat) && bool_decide (cri0 = 4) then
    '(a, r) ← (if tunnel6 sv then get_client_addr (sv_router6 sv) else Ret (0, sv_router6 sv));
    let sv := set_router6 sv r in
    let crd := [0x04; u8 (Z.land (a ≫ 8) 0xff); u8 (Z.land (a ≫ 0) 0xff)] in
    cri1 ← at_ (creq6_CRI r1) 1;
    if negb (tunnel6 sv) then Ret (sv, [], E_CONNECTION_TYPE, 0, crd)
    else if decide (a = 0) then Ret (sv, [], E_NO_MORE_CONNECTIONS, 0, crd)
    else if bool_decide (cri1 = 0x02) || bool_decide (cri1 = 0x80) then
      let '(sv, id, o) := addClient6 ok sv (if decide (cri1 = 0x80) then CT_BUSMONITOR else CT_STANDARD)
                            r1 a in
      if decide (id <= 0xff) then Ret (sv, o, E_NO_ERROR, u8 id, crd)
      else Ret (sv, o, E_CONNECTION_TYPE, 0, crd)
    else Ret (sv, [], E_TUNNELING_LAYER, 0, crd)
  else if bool_decide (size (creq6_CRI r1) = 1%nat) && bool_decide (cri0 = 3) then
    let '(sv, id, o) := addClient6 ok sv CT_CONFIG r1 0 in
    if decide (id <= 0xff) then Ret (sv, o, E_NO_ERROR, u8 id, [0x03])
    else Ret (sv, o, E_CONNECTION_TYPE, 0, [0x03])
  else Ret (sv, [], E_CONNECTION_TYPE, 0, []).

Definition handle_connect6 (ok : bool * bool) (sv : server) (p1 : EIBNet6IPPacket) : server_result6 :=
  r1 ← parseEIBnet6_ConnectRequest p1;
  match r1 with
  | None => Ret (sv, [])
  | Some r1 =>
      '(sv, o, status, ch, crd) ← handle_connect_type6 ok sv r1;
      match GetSourceAddress (creq6_caddr r1) with
      | None => Ret (sv, o)
      | Some a =>
          p ← ConnectResponse6_ToPacket
                (mkConnectResponse6 ch status (mkSockaddr6 (sin6_addr a) (sv_port6 sv)) (creq6_nat r1) crd);
          Ret (sv, o ++ [SO_Send6 p (creq6_caddr r1)])
      end
  end.

(** A request for an existing connection. *)
Definition on_channel6 (sv : server) (ch : Z) (k : ConnState_ipv6 -> conn_result6) : server_result6 :=
  match find_channel6 sv ch with
  | None => Ret (sv, [])
  | Some c => '(c, o) ← k c; Ret (update_conn6 sv c, o)
  end.

Definition handle_tunnel_request6 (sv : server) (p1 : EIBNet6IPPacket) : server_result6 :=
  r1 ← parseEIBnet6_TunnelRequest p1;
  match r1 with
  | None => Ret (sv, [])
  | Some r1 =>
      if tunnel6 sv then on_channel6 sv (treq_channel r1) (fun c => tunnel_request6 c r1) else Ret (sv, [])
  end.

Definition handle_tunnel_response6 (sv : server) (p1 : EIBNet6IPPacket) : server_result6 :=
  r1 ← parseEIBnet6_TunnelACK p1;
  match r1 with
  | None => Ret (sv, [])
  | Some r1 =>
      if tunnel6 sv then on_channel6 sv (tack_channel r1) (fun c => tunnel_response6 c r1) else Ret (sv, [])
  end.

Definition handle_config_request6 (sv : server) (p1 : EIBNet6IPPacket) : server_result6 :=
  r1 ← parseEIBnet6_ConfigRequest p1;
  match r1 with
  | None => Ret (sv, [])
  | Some r1 => on_channel6 sv (cfreq_channel r1) (fun c => config_request6 c r1)
  end.

Definition handle_config_ack6 (sv : server) (p1 : EIBNet6IPPacket) : server_result6 :=
  r1 ← parseEIBnet6_ConfigACK p1;
  match r1 with
  | None => Ret (sv, [])
  | Some r1 => on_channel6 sv (cfack_channel r1) (fun c => config_response6 c r1)
  end.

Definition handle_packet6 (mac : CArray) (ok : bool * bool) (sv : server) (p1 : EIBNet6IPPacket)
  : server_result6 :=
  if decide (service6 p1 = SEARCH_REQUEST) then handle_search6 mac sv p1
  else if decide (service6 p1 = DESCRIPTION_REQUEST) then handle_description6 mac sv p1
  else if decide (service6 p1 = ROUTING_INDICATION) then handle_routing6 sv p1
  else if decide (service6 p1 = CONNECTIONSTATE_REQUEST) then handle_connectionstate6 sv p1
  else if decide (service6 p1 = DISCONNECT_REQUEST) then handle_disconnect6 sv p1
  else if decide (service6 p1 = CONNECTION_REQUEST) then handle_connect6 ok sv p1
  else if decide (service6 p1 = TUNNEL_REQUEST) then handle_tunnel_request6 sv p1
  else if decide (service6 p1 = TUNNEL_RESPONSE) then handle_tunnel_response6 sv p1
  else if decide (service6 p1 = DEVICE_CONFIGURATION_REQUEST) then handle_config_request6 sv p1
  else if decide (service6 p1 = DEVICE_CONFIGURATION_ACK) then handle_config_ack6 sv p1
  else Ret (sv, []).

(** *** The router's side *)

(** [EIBnet6Driver::send_L_Data] *)
Definition mcast_send_L_Data6 (maddr : sockaddr_in6) (sv : server) (l : L_Data_PDU)
  : outcome (list server_output6) :=
  if route6 sv then
    d ← L_Data_ToCEMI 0x29 l;
    Ret [SO_Send6 (mkPacket6 ROUTING_INDICATION d no_addr6) maddr; SO_mcast_send_Next6]
  else Ret [SO_mcast_send_Next6].

Definition conn_send_L_Data6 (sv : server) (c : ConnState_ipv6) (l : L_Data_PDU) : server_result6 :=
  c ← cs_send_L_Data6 c l; Ret (update_conn6 sv c, []).

Definition conn_send_L_Busmonitor6 (sv : server) (c : ConnState_ipv6) (l : L_Busmonitor_PDU)
  : server_result6 :=
  c ← cs_send_L_Busmonitor6 c l; Ret (update_conn6 sv c, []).

(** [R_ITER(i,connections6) ( *i)->stop ();]; objects are found again by identity,
    since each call changes the table. *)
Fixpoint stop_conns6 (sv : server) (ids : list nat) : server_result6 :=
  match ids with
  | [] => Ret (sv, [])
  | i :: ids =>
      match List.find (fun c => bool_decide (cs_id6 c = i)) (connections6 sv) with
      | Some c => '(sv, o) ← conn_stop6 sv c; '(sv, o') ← stop_conns6 sv ids; Ret (sv, o ++ o')
      | None => stop_conns6 sv ids
      end
  end.

(** [EIBnet6Server::stop], with [stop_]. *)
Definition server_stop6 (sv : server) : server_result6 :=
  let sv := set_drop6 sv (drop_q6 sv) false false in
  '(sv, o) ← stop_conns6 sv (rev (map cs_id6 (connections6 sv)));
  Ret (set_mcast6 sv false,
       o ++ (if mcast6 sv then SO_mcast_stop6 :: (if route6 sv then [SO_mcast_unregister6] else []) else [])
         ++ [SO_server_stopped6]).
End Server6.
