(* ===== verification/EibNet6ServerSpec.v ===== *)
(** * The EIBnet/IP server over IPv6: theorems

    The parsers of [EibNetIp6] return no request that carries an address without reading
    outside the datagram, so that the server over IPv6 has no connection as long as its
    behaviour is defined: what is left of it is routing. *)

From S2P Require Import Prelude CArray Common Apdu ApduSpec ApduRound Lpdu LpduSpec Emi Link Router RouterSpec.
From S2P Require Import EibNetIp EibNetIpSpec EibNetIp6 EibNetIp6Spec EibNetServer EibNet6Server.

(** The requests that carry an address. *)
Definition request_service : list Z :=
  [SEARCH_REQUEST; DESCRIPTION_REQUEST; CONNECTIONSTATE_REQUEST; DISCONNECT_REQUEST; CONNECTION_REQUEST].

(** The datagram has an address block where its parser looks for one. *)
Definition has_block (p : EIBNet6IPPacket) : Prop :=
  match block_at p with Some off => starts_block (p_data6 p) off | None => False end.

#[export] Instance has_block_dec p : Decision (has_block p).
Proof. unfold has_block. destruct (block_at p); apply _. Defined.

Lemma addressed_parse {A} (inj : A -> EIBnet6_service) m p :
  service6 p <> CONNECTION_RESPONSE -> as_service6 inj m = addressed_result p ->
  m = if decide (has_block p) then Fault OutOfRange else Ret None.
Proof.
  intros Hs E. unfold addressed_result in E. rewrite (refusal6_other p Hs) in E.
  assert (as_service6 inj m = if decide (has_block p) then Fault OutOfRange else Ret None) as E'.
  { rewrite E. destruct (decide (has_block p)) as [Hb|Hb]; unfold has_block in Hb; destruct (block_at p) as [off|]; try done.
    - by rewrite decide_True.
    - by rewrite decide_False. }
  destruct m as [[a|]|f], (decide (has_block p)); cbn in E'; by simplify_eq.
Qed.

Section Server6Spec.
Context {D : Type} `{Driver D} {LS : LinkStates}.
Variable GetSourceAddress : sockaddr_in6 -> option sockaddr_in6.

Local Abbreviation server := (EIBnet6Server D).
Local Abbreviation handle mac ok := (handle_packet6 GetSourceAddress mac ok).

(** What routing gives on. *)
Definition routed (sv : server) (p : EIBNet6IPPacket) : list server_output6 :=
  match handle_routing6 sv p with Ret (_, o) => o | Fault _ => [] end.

Lemma handle_routing6_eq (sv : server) p :
  bytes (p_data6 p) -> handle_routing6 sv p = Ret (sv, routed sv p).
Proof.
  intros Hb. unfold routed. assert (exists o, handle_routing6 sv p = Ret (sv, o)) as [o ->]; [|done].
  unfold handle_routing6. destruct (decide _); [by eexists|].
  destruct (at_lt (p_data6 p) 0) as (x & -> & _); [lia|]. rewrite bind_Ret. destruct (decide _); [by eexists|].
  destruct (CEMI_to_L_Data_wf _ Hb) as (l & -> & _). rewrite bind_Ret. by eexists.
Qed.

(** Nothing is found on a channel when there are no connections. *)
Lemma no_channel (sv : server) ch k : connections6 sv = [] -> on_channel6 sv ch k = Ret (sv, []).
Proof. intros Hc. unfold on_channel6, find_channel6. by rewrite Hc. Qed.

(** The datagrams for a connection are read and ignored. *)
Ltac unread :=
  repeat match goal with
  | |- context [if decide ?P then _ else _] => destruct (decide P); [done|]
  | |- context [at_ ?c ?i] => destruct (at_lt c i) as (? & -> & _); [lia|]; rewrite ?bind_Ret
  | |- context [slice ?c ?i ?n] => rewrite (slice_ok c i n) by lia; rewrite ?bind_Ret
  end; rewrite ?bind_Ret; cbv beta iota.

Lemma ignored6 (sv : server) p :
  connections6 sv = [] ->
  handle_tunnel_request6 sv p = Ret (sv, []) /\ handle_tunnel_response6 sv p = Ret (sv, []) /\
  handle_config_request6 sv p = Ret (sv, []) /\ handle_config_ack6 sv p = Ret (sv, []).
Proof.
  intros Hc. split_and!.
  - unfold handle_tunnel_request6, parseEIBnet6_TunnelRequest. unread. rewrite no_channel by done. by destruct (tunnel6 sv).
  - unfold handle_tunnel_response6, parseEIBnet6_TunnelACK. unread. rewrite no_channel by done. by destruct (tunnel6 sv).
  - unfold handle_config_request6, parseEIBnet6_ConfigRequest. unread. by rewrite no_channel.
  - unfold handle_config_ack6, parseEIBnet6_ConfigACK. unread. by rewrite no_channel.
Qed.

(** A request that carries an address. *)
Lemma request6 mac ok (sv : server) p :
  service6 p ∈ request_service ->
  handle mac ok sv p = if decide (has_block p) then Fault OutOfRange else Ret (sv, []).
Proof.
  intros Hs. unfold handle_packet6.
  assert (service6 p <> CONNECTION_RESPONSE) as Hr.
  { intros E. rewrite E in Hs. revert Hs. apply (bool_decide_unpack _). by vm_compute. }
  unfold request_service in Hs.
  repeat (apply elem_of_cons in Hs as [Hs|Hs];
    [repeat first [ rewrite (decide_True (P := service6 p = _)) by done
                  | rewrite (decide_False (P := service6 p = _)) by (by rewrite Hs) ]|]);
    [..|by apply elem_of_nil in Hs].
  - unfold handle_search6. rewrite (addressed_parse _ _ p Hr (SearchRequest6_result p Hs)). by destruct (decide (has_block p)).
  - unfold handle_description6. rewrite (addressed_parse _ _ p Hr (DescriptionRequest6_result p Hs)). by destruct (decide (has_block p)).
  - unfold handle_connectionstate6. rewrite (addressed_parse _ _ p Hr (ConnectionStateRequest6_result p Hs)). by destruct (decide (has_block p)).
  - unfold handle_disconnect6. rewrite (addressed_parse _ _ p Hr (DisconnectRequest6_result p Hs)). by destruct (decide (has_block p)).
  - unfold handle_connect6. rewrite (addressed_parse _ _ p Hr (ConnectRequest6_result p Hs)). by destruct (decide (has_block p)).
Qed.

(** Every datagram, at a server without connections. *)
Lemma handle_packet6_eq mac ok (sv : server) p :
  connections6 sv = [] -> bytes (p_data6 p) ->
  handle mac ok sv p =
    if decide (service6 p ∈ request_service /\ has_block p) then Fault OutOfRange
    else Ret (sv, if decide (service6 p = ROUTING_INDICATION) then routed sv p else []).
Proof.
  intros Hc Hb. destruct (decide (service6 p ∈ request_service)) as [Hs|Hs].
  - rewrite request6 by done. assert (service6 p <> ROUTING_INDICATION) as Hr.
    { intros E. rewrite E in Hs. revert Hs. apply (bool_decide_unpack _). by vm_compute. }
    rewrite (decide_False (P := service6 p = _)) by done.
    destruct (decide (has_block p)); [by rewrite decide_True|]. by rewrite decide_False by tauto.
  - rewrite (decide_False (P := _ /\ _)) by tauto. unfold request_service in Hs. rewrite !not_elem_of_cons in Hs. destruct_and?.
    destruct (ignored6 sv p Hc) as (E1 & E2 & E3 & E4). unfold handle_packet6.
    repeat (rewrite (decide_False (P := service6 p = _)) by done).
    destruct (decide (service6 p = ROUTING_INDICATION)) as [E|E]; [by apply handle_routing6_eq|].
    repeat (rewrite (decide_False (P := service6 p = _)) by done).
    repeat (destruct (decide (service6 p = _)); [done|]). done.
Qed.

(** ** Everything that can happen *)

Inductive server6_event :=
| E6Packet (mac : CArray) (ok : bool * bool) (p : EIBNet6IPPacket)
| E6SendTrigger (i : nat)
| E6SendTimeout (i : nat)
| E6Timeout (i : nat)
| E6ConnStop (i : nat)
| E6Drop
| E6Send (i : nat) (l : L_Data_PDU)
| E6Busmon (i : nat) (l : L_Busmonitor_PDU)
| E6Route (maddr : sockaddr_in6) (l : L_Data_PDU)
| E6Stop.

Definition with_conn6 (sv : server) (i : nat) (k : ConnState_ipv6 -> server_result6) : server_result6 :=
  match List.find (fun c => bool_decide (cs_id6 c = i)) (connections6 sv) with Some c => k c | None => Ret (sv, []) end.

Definition server6_step (sv : server) (ev : server6_event) : server_result6 :=
  match ev with
  | E6Packet mac ok p => handle mac ok sv p
  | E6SendTrigger i => with_conn6 sv i (conn_send_trigger_cb6 sv)
  | E6SendTimeout i => with_conn6 sv i (sendtimeout_cb6 sv)
  | E6Timeout i => with_conn6 sv i (conn_timeout_cb6 GetSourceAddress sv)
  | E6ConnStop i => with_conn6 sv i (conn_stop6 sv)
  | E6Drop => Ret (drop_trigger_cb6 sv)
  | E6Send i l => with_conn6 sv i (fun c => conn_send_L_Data6 sv c l)
  | E6Busmon i l => with_conn6 sv i (fun c => conn_send_L_Busmonitor6 sv c l)
  | E6Route maddr l => o ← mcast_send_L_Data6 maddr sv l; Ret (sv, o)
  | E6Stop => server_stop6 sv
  end.

Fixpoint server6_run (sv : server) (evs : list server6_event) : server_result6 :=
  match evs with
  | [] => Ret (sv, [])
  | ev :: evs => '(sv, o) ← server6_step sv ev; '(sv, o') ← server6_run sv evs; Ret (sv, o ++ o')
  end.

(** Datagrams consist of bytes. *)
Definition of_bytes (ev : server6_event) : Prop :=
  match ev with E6Packet _ _ p => bytes (p_data6 p) | _ => True end.

(** Where the behaviour ends to be defined, or the server ends: a request whose address
    block the parser reads past its end, and, when routing, a frame that fails an assertion of
    [L_Data_ToCEMI]. *)
Definition failure (sv : server) (ev : server6_event) : option fault :=
  match ev with
  | E6Packet _ _ p => if decide (service6 p ∈ request_service /\ has_block p) then Some OutOfRange else None
  | E6Route _ l => if route6 sv && negb (bool_decide (cemi_fits l)) then Some AssertFailed else None
  | _ => None
  end.

(** What belongs to routing and to the end of the server, and nothing else. *)
Definition routing_output (o : server_output6) : Prop :=
  match o with
  | SO_Send6 p _ => service6 p = ROUTING_INDICATION
  | SO_mcast_recv6 _ | SO_mcast_send_Next6 | SO_mcast_stop6 | SO_mcast_unregister6 | SO_server_stopped6 => True
  | _ => False
  end.

(** No connection is there and none is to be dropped. *)
Definition unused (sv : server) : Prop := connections6 sv = [] /\ drop_q6 sv = [].

Lemma routed_output (sv : server) p : Forall routing_output (routed sv p).
Proof.
  unfold routed, handle_routing6. destruct (decide _); [constructor|].
  destruct (at_ _ 0) as [x|]; [|constructor]. rewrite bind_Ret. destruct (decide _); [constructor|].
  destruct (CEMI_to_L_Data _) as [[l|]|]; [|constructor..]. rewrite bind_Ret. destruct (route6 sv); by repeat constructor.
Qed.

Lemma server6_step_unused (sv : server) ev :
  unused sv -> of_bytes ev ->
  match failure sv ev with
  | Some f => server6_step sv ev = Fault f
  | None => exists sv' o, server6_step sv ev = Ret (sv', o) /\ unused sv' /\ sv_router6 sv' = sv_router6 sv /\
              route6 sv' = route6 sv /\ Forall routing_output o
  end.
Proof.
  intros [Hc Hd] Hok. destruct ev as [mac ok p|i|i|i|i| |i l|i l|maddr l|]; cbn [failure server6_step];
    unfold with_conn6; rewrite ?Hc; cbn [List.find];
    try (exists sv, []; by split_and!).
  - rewrite handle_packet6_eq by done. destruct (decide (_ /\ _)); [done|]. eexists sv, _. split_and!; [done..|].
    destruct (decide (service6 p = ROUTING_INDICATION)); [apply routed_output|constructor].
  - unfold drop_trigger_cb6. rewrite Hd. cbn [drop_all6]. eexists _, []. by split_and!.
  - unfold mcast_send_L_Data6. destruct (route6 sv) eqn:Er; cbn [andb].
    2: { eexists sv, _. split_and!; try done. by repeat constructor. }
    case_bool_decide as Hl; cbn [negb]; [|by rewrite L_Data_ToCEMI_unfit].
    rewrite L_Data_ToCEMI_fits by done. cbn. eexists sv, _; split_and!; try done; by repeat constructor.
  - unfold server_stop6. cbv zeta. cbn [connections6 set_drop6]. rewrite Hc. cbn. eexists _, _. split_and!; try done.
    destruct (mcast6 sv), (route6 sv); by repeat constructor.
Qed.

Lemma failure_kept (sv sv' : server) ev : route6 sv' = route6 sv -> failure sv' ev = failure sv ev.
Proof. intros E. destruct ev; cbn; by rewrite ?E. Qed.

Lemma server6_run_app evs1 evs2 : forall sv : server,
  server6_run sv (evs1 ++ evs2) =
  ('(sv, o) ← server6_run sv evs1; '(sv, o') ← server6_run sv evs2; Ret (sv, o ++ o')).
Proof.
  induction evs1 as [|ev evs1 IH]; intros sv; cbn [server6_run app].
  { rewrite bind_Ret. by destruct (server6_run sv evs2) as [[]|]. }
  destruct (server6_step sv ev) as [[sv1 o1]|]; [|done]. rewrite !bind_Ret, IH.
  destruct (server6_run sv1 evs1) as [[sv2 o2]|]; [|done]. rewrite !bind_Ret.
  destruct (server6_run sv2 evs2) as [[sv3 o3]|]; [|done]. rewrite !bind_Ret. by rewrite app_assoc.
Qed.

Lemma server6_run_unused evs : forall sv : server,
  unused sv -> Forall of_bytes evs -> Forall (fun ev => failure sv ev = None) evs ->
  exists sv' o, server6_run sv evs = Ret (sv', o) /\ unused sv' /\ sv_router6 sv' = sv_router6 sv /\
    route6 sv' = route6 sv /\ Forall routing_output o.
Proof.
  induction evs as [|ev evs IH]; intros sv Hu Hb Hf; cbn [server6_run]; [exists sv, []; by split_and!|].
  apply list.Forall_cons in Hb as [Hb Hbs]. apply list.Forall_cons in Hf as [Hf Hfs].
  pose proof (server6_step_unused sv ev Hu Hb) as Hstep. rewrite Hf in Hstep.
  destruct Hstep as (sv1 & o1 & -> & Hu1 & Hr1 & Ht1 & Ho1). rewrite bind_Ret.
  destruct (IH sv1 Hu1 Hbs) as (sv2 & o2 & -> & Hu2 & Hr2 & Ht2 & Ho2).
  { eapply list.Forall_impl; [exact Hfs|]. intros x. by rewrite (failure_kept sv sv1). }
  rewrite bind_Ret. exists sv2, (o1 ++ o2). split_and!; [done|apply Hu2..|congruence|congruence|by apply Forall_app].
Qed.

(** C18: as long as its behaviour is defined, the server over IPv6 answers nobody.  From its
    start on, over any datagrams and anything else, it has no connection, takes no client
    address, and sends nothing but routing indications, up to the first of two things.  One
    is a search, description, connection state, disconnect or connection request with an
    address block, as every client sends it: its parser reads outside the vector of bytes,
    which is undefined, and nothing is said of what follows (in practice the bytes behind
    may be read as an address and the request be answered).  The other, when routing, is a
    frame of the router that does not fit into a CEMI message: an assertion fails. *)
Theorem server6_undefined_or_silent (sv : server) (evs : list server6_event) :
  unused sv -> Forall of_bytes evs -> Forall (fun ev => failure sv ev = None) evs ->
  (exists sv' o, server6_run sv evs = Ret (sv', o) /\
     connections6 sv' = [] /\ sv_router6 sv' = sv_router6 sv /\ Forall routing_output o) /\
  (forall ev evs' f, of_bytes ev -> failure sv ev = Some f -> server6_run sv (evs ++ ev :: evs') = Fault f).
Proof.
  intros Hu Hb Hf. destruct (server6_run_unused evs sv Hu Hb Hf) as (sv' & o & E & Hu' & Hr & Ht & Ho). split.
  - exists sv', o. split_and!; [done|apply Hu'|done|done].
  - intros ev evs' f Hev Hfail. rewrite server6_run_app, E, bind_Ret. cbn [server6_run].
    pose proof (server6_step_unused sv' ev Hu' Hev) as Hstep.
    rewrite (failure_kept sv sv' ev Ht), Hfail in Hstep. by rewrite Hstep.
Qed.

End Server6Spec.

(** ** Examples *)

Definition demo_server6 : EIBnet6Server BusDriver :=
  mkServer6 true true true 3671 (replicate 16 0) [] true [] [] true false 0 example_router.

(** A search request as every client sends it, with the address block of IPv4. *)
Definition demo_search6 : EIBNet6IPPacket := mkPacket6 SEARCH_REQUEST [8; 1; 0; 0; 0; 0; 0; 0] no_addr6.

#[local] Instance demo_links6 : LinkStates := fun q i => negb (existsb (Nat.eqb i) q).

Definition demo_route6 : server6_event := E6Route no_addr6 example_frame.

Lemma server6_undefined_or_silent_witness :
  server6_run (fun _ => None) demo_server6
    [demo_route6; E6Packet [0; 0; 0; 0; 0; 0] (true, true) demo_search6; E6Stop] = Fault OutOfRange.
Proof.
  apply (server6_undefined_or_silent (fun _ => None) demo_server6 [demo_route6]).
  - by split.
  - by repeat constructor.
  - repeat constructor.
  - decided.
  - vm_compute. reflexivity.
Defined.
