(* ===== verification/EibNetClient.v ===== *)
(** * EIBnet/IP clients

    Models src/src/backend/eibnettunnel.cpp, the driver that connects the daemon to
    an EIBnet/IP server through a tunnel ([class EIBNetIPTunnel]), and
    src/src/backend/eibnetrouter.cpp, the driver for multicast routing
    ([class EIBNetIPRouter]).

    What a method sends and reports is a list of outputs, in order.  The results
    of the system calls in [start] are an input. *)

From S2P Require Import Prelude CArray Common ApduSpec Lpdu LpduSpec Emi.
From S2P Require Import EibNetIp EibNetIpSpec EibNetSocket EibNetServer.

(** ** The tunnel *)

(** [t_sock]: the socket exists; [t_recvall] and [t_recvaddr2] are its fields that
    the driver changes.  [t_active]: the trigger is started; [t_trigger]: it was
    sent.  [t_mod]: 0 not connected, 1 idle, 2 waiting for an acknowledgement. *)
Record EIBNetIPTunnel := mkTunnel {
  t_sock : bool;
  t_recvall : Z;
  t_recvaddr2 : sockaddr_in;
  t_caddr : sockaddr_in;
  t_daddr : sockaddr_in;
  t_saddr : sockaddr_in;
  t_out : CArray;
  t_NAT : bool;
  t_monitor : bool;
  t_dataport : Z;
  t_channel : Z;
  t_mod : Z;
  t_rno : Z;
  t_sno : Z;
  t_heartbeat : Z;
  t_heartbeat_time : Z;
  t_heartbeat_limit : Z;
  t_retry : Z;
  t_timeout : bool;
  t_conntimeout : bool;
  t_active : bool;
  t_trigger : bool
}.

Inductive tunnel_output :=
| TO_Send (p : EIBNetIPPacket) (a : sockaddr_in)
| TO_setAddress (a : Z)
| TO_recv (l : L_Data_PDU)
| TO_busmonitor (l : L_Busmonitor_PDU)
| TO_send_Next
| TO_started
| TO_stopped
| TO_errored.

Definition tunnel_result : Type := outcome (EIBNetIPTunnel * list tunnel_output).

Definition set_tmod (t : EIBNetIPTunnel) (m : Z) (trig : bool) : EIBNetIPTunnel :=
  mkTunnel (t_sock t) (t_recvall t) (t_recvaddr2 t) (t_caddr t) (t_daddr t) (t_saddr t) (t_out t)
    (t_NAT t) (t_monitor t) (t_dataport t) (t_channel t) m (t_rno t) (t_sno t) (t_heartbeat t)
    (t_heartbeat_time t) (t_heartbeat_limit t) (t_retry t) (t_timeout t) (t_conntimeout t)
    (t_active t) trig.
Definition set_tout (t : EIBNetIPTunnel) (o : CArray) : EIBNetIPTunnel :=
  mkTunnel (t_sock t) (t_recvall t) (t_recvaddr2 t) (t_caddr t) (t_daddr t) (t_saddr t) o
    (t_NAT t) (t_monitor t) (t_dataport t) (t_channel t) (t_mod t) (t_rno t) (t_sno t) (t_heartbeat t)
    (t_heartbeat_time t) (t_heartbeat_limit t) (t_retry t) (t_timeout t) (t_conntimeout t)
    (t_active t) (t_trigger t).
Definition set_tseq (t : EIBNetIPTunnel) (r s : Z) : EIBNetIPTunnel :=
  mkTunnel (t_sock t) (t_recvall t) (t_recvaddr2 t) (t_caddr t) (t_daddr t) (t_saddr t) (t_out t)
    (t_NAT t) (t_monitor t) (t_dataport t) (t_channel t) (t_mod t) r s (t_heartbeat t)
    (t_heartbeat_time t) (t_heartbeat_limit t) (t_retry t) (t_timeout t) (t_conntimeout t)
    (t_active t) (t_trigger t).
Definition set_tretry (t : EIBNetIPTunnel) (n : Z) (tm : bool) : EIBNetIPTunnel :=
  mkTunnel (t_sock t) (t_recvall t) (t_recvaddr2 t) (t_caddr t) (t_daddr t) (t_saddr t) (t_out t)
    (t_NAT t) (t_monitor t) (t_dataport t) (t_channel t) (t_mod t) (t_rno t) (t_sno t) (t_heartbeat t)
    (t_heartbeat_time t) (t_heartbeat_limit t) n tm (t_conntimeout t) (t_active t) (t_trigger t).
Definition set_theart (t : EIBNetIPTunnel) (n : Z) (ct : bool) : EIBNetIPTunnel :=
  mkTunnel (t_sock t) (t_recvall t) (t_recvaddr2 t) (t_caddr t) (t_daddr t) (t_saddr t) (t_out t)
    (t_NAT t) (t_monitor t) (t_dataport t) (t_channel t) (t_mod t) (t_rno t) (t_sno t) n
    (t_heartbeat_time t) (t_heartbeat_limit t) (t_retry t) (t_timeout t) ct (t_active t) (t_trigger t).
Definition set_trecvall (t : EIBNetIPTunnel) (n : Z) : EIBNetIPTunnel :=
  mkTunnel (t_sock t) n (t_recvaddr2 t) (t_caddr t) (t_daddr t) (t_saddr t) (t_out t)
    (t_NAT t) (t_monitor t) (t_dataport t) (t_channel t) (t_mod t) (t_rno t) (t_sno t) (t_heartbeat t)
    (t_heartbeat_time t) (t_heartbeat_limit t) (t_retry t) (t_timeout t) (t_conntimeout t)
    (t_active t) (t_trigger t).

(** [mod = m; trigger.send ();]: a stopped trigger is never delivered. *)
Definition mod_trigger (t : EIBNetIPTunnel) (m : Z) : EIBNetIPTunnel := set_tmod t m (t_active t).

(** [sock->Send (p, a)]: the socket must exist. *)
Definition t_send (t : EIBNetIPTunnel) (p : outcome EIBNetIPPacket) (a : sockaddr_in)
  : outcome tunnel_output :=
  p ← p; _ ← assert_ (t_sock t); Ret (TO_Send p a).

Definition is_stopped (t : EIBNetIPTunnel) : EIBNetIPTunnel :=
  mkTunnel false (t_recvall t) (t_recvaddr2 t) (t_caddr t) (t_daddr t) (t_saddr t) (t_out t)
    (t_NAT t) (t_monitor t) (t_dataport t) (t_channel t) (t_mod t) (t_rno t) (t_sno t) (t_heartbeat t)
    (t_heartbeat_time t) (t_heartbeat_limit t) (t_retry t) false false false false.

Definition restart (t : EIBNetIPTunnel) : tunnel_result :=
  if decide (t_mod t = 0) then Ret (t, [])
  else
    o ← (if decide (t_channel t <> -1) then
           s ← t_send t (DisconnectRequest_ToPacket (mkDisconnectRequest (t_channel t) (t_saddr t) false))
                 (t_caddr t);
           Ret [s]
         else Ret []);
    _ ← assert_ (t_sock t);
    let t := set_trecvall t 0 in
    Ret (set_theart (set_tmod t 0 (t_trigger t)) (t_heartbeat t) true, o).

Definition tunnel_stop (t : EIBNetIPTunnel) : tunnel_result :=
  '(t, o) ← restart t; Ret (is_stopped t, o ++ [TO_stopped]).

(** What the system calls of [start] deliver: the server's address, the address
    of this host towards it, the port of the socket, and, if [srcip] is set, the
    address it stands for. *)
Record start_env := mkStartEnv {
  se_host : option sockaddr_in;
  se_source : option sockaddr_in;
  se_port : option Z;
  se_srcip : option (option sockaddr_in)
}.

Definition get_creq (t : EIBNetIPTunnel) : EIBnet_ConnectRequest :=
  mkConnectRequest (t_saddr t) (t_saddr t) [0x04; 0x02; 0x00] (bool_decide (sin_addr (t_saddr t) = 0)).

(** [start]; [port] and [sport] are configured.  [NAT] is cleared, whatever was
    configured, unless [srcip] is set. *)
Definition tunnel_start (e : start_env) (port sport : Z) (t : EIBNetIPTunnel) : tunnel_result :=
  let fail t := Ret (is_stopped t, [TO_stopped]) in
  let upd sk ra ca sa nat_ out ct act :=
    mkTunnel sk ra (t_recvaddr2 t) ca (t_daddr t) sa out nat_ (t_monitor t) (t_dataport t)
      (t_channel t) (t_mod t) (t_rno t) (t_sno t) (t_heartbeat t) (t_heartbeat_time t)
      (t_heartbeat_limit t) (t_retry t) (t_timeout t) ct act (t_trigger t) in
  let keep ca nat_ := upd false (t_recvall t) ca (t_saddr t) nat_ (t_out t) (t_conntimeout t) true in
  match se_host e with
  | None => fail (keep (t_caddr t) (t_NAT t))
  | Some h =>
      let ca := mkSockaddr (sin_addr h) port in
      match se_source e with
      | None => fail (keep ca (t_NAT t))
      | Some r =>
          match se_port e with
          | None => fail (keep ca false)
          | Some sp =>
              let raddr := mkSockaddr (sin_addr r) sp in
              match se_srcip e with
              | Some None => fail (keep ca false)
              | srcip =>
                  let '(sa, nat_) := match srcip with
                                     | Some (Some s) => (mkSockaddr (sin_addr s) sport, true)
                                     | _ => (raddr, false)
                                     end in
                  let t := upd true 0 ca sa nat_ (t_out t) (t_conntimeout t) true in
                  s ← t_send t (ConnectRequest_ToPacket (get_creq t)) ca;
                  Ret (set_tout (set_theart t (t_heartbeat t) true) [], [s])
              end
          end
      end
  end.

Definition tunnel_send_L_Data (t : EIBNetIPTunnel) (l : L_Data_PDU) : tunnel_result :=
  _ ← assert_ (bool_decide (size (t_out t) = 0%nat));
  out ← L_Data_ToCEMI 0x11 l;
  Ret (mod_trigger (set_tout t out) (t_mod t), []).

Definition tunnel_trigger_cb (t : EIBNetIPTunnel) : tunnel_result :=
  let t := set_tmod t (t_mod t) false in
  if bool_decide (t_mod t <> 1) || bool_decide (size (t_out t) = 0%nat) then Ret (t, [])
  else
    s ← t_send t (TunnelRequest_ToPacket (mkTunnelRequest (u8 (t_channel t)) (u8 (t_sno t)) (t_out t)))
          (t_daddr t);
    Ret (set_tretry (set_tmod t 2 (t_trigger t)) (t_retry t) true, [s]).

Definition tunnel_conntimeout_cb (t : EIBNetIPTunnel) : tunnel_result :=
  let t := set_theart t (t_heartbeat t) false in
  if decide (t_mod t <> 0) then
    if decide (t_heartbeat t < t_heartbeat_limit t) then
      s ← t_send t (ConnectionStateRequest_ToPacket
             (mkConnectionStateRequest (u8 (t_channel t)) (t_saddr t)
                (bool_decide (sin_addr (t_saddr t) = 0)))) (t_caddr t);
      Ret (set_theart t (t_heartbeat t + 1) (bool_decide (t_heartbeat_time t <> 0)), [s])
    else restart t
  else Ret (is_stopped t, [TO_errored]).

(** After the last retry the connection is closed, and then [mod] is 1 again. *)
Definition tunnel_timeout_cb (t : EIBNetIPTunnel) : tunnel_result :=
  let t := set_tretry t (t_retry t) false in
  if decide (t_mod t <> 2) then Ret (t, [])
  else
    let r := t_retry t in
    let t := set_tretry t (r + 1) false in
    '(t, o) ← (if decide (3 < r) then restart (set_tout t []) else Ret (t, []));
    Ret (mod_trigger t 1, o).

Definition tunnel_error_cb (t : EIBNetIPTunnel) : tunnel_result := Ret (t, [TO_errored]).

(** *** Packets from the server *)

Definition connected (t : EIBNetIPTunnel) (r : EIBnet_ConnectResponse) : EIBNetIPTunnel :=
  let da := cresp_daddr r in
  let da := if negb (cresp_nat r) && t_NAT t
            then mkSockaddr (sin_addr (t_caddr t))
                   (if decide (t_dataport t <> 0) then t_dataport t else sin_port da)
            else da in
  mkTunnel (t_sock t) 3 da (t_caddr t) da (t_saddr t) (t_out t) (t_NAT t) (t_monitor t) (t_dataport t)
    (cresp_channel r) 1 0 0 0 (t_heartbeat_time t) (t_heartbeat_limit t) (t_retry t) (t_timeout t)
    (if decide (t_heartbeat_time t <> 0) then true else t_conntimeout t) (t_active t) (t_active t).

Definition read_connect_response (t : EIBNetIPTunnel) (p1 : EIBNetIPPacket) : tunnel_result :=
  if decide (t_mod t <> 0) then Ret (t, [])
  else
    cresp ← parseEIBnet_ConnectResponse p1;
    match cresp with
    | None => Ret (t, [])
    | Some r =>
        if decide (cresp_status r <> 0) then
          if bool_decide (cresp_status r = 0x23) && t_monitor t then restart t else Ret (t, [])
        else if decide (size (cresp_CRD r) <> 3%nat) then Ret (t, [])
        else
          d1 ← at_ (cresp_CRD r) 1; d2 ← at_ (cresp_CRD r) 2;
          _ ← assert_ (t_sock t);
          Ret (connected t r, [TO_setAddress (Z.lor (d1 ≪ 8) d2); TO_started])
    end.

(** The frame in a request that was accepted.  The result of [CEMI_to_Busmonitor] is passed
    on without a look: a null pointer goes through the filters into the queue of the router,
    where [Router::mtrigger_cb] uses it ([*l1], [l1->Decode]). *)
Definition read_cemi (now : Z * Z) (t : EIBNetIPTunnel) (d : CArray) : tunnel_result :=
  d0 ← at_ d 0;
  if decide (d0 = 0x2E) then
    Ret (if decide (t_mod t = 3) then mod_trigger t 1 else t, [])
  else if decide (d0 = 0x2B) then
    l ← CEMI_to_Busmonitor now.1 now.2 d;
    match l with Some l => Ret (t, [TO_busmonitor l]) | None => Fault NullPointer end
  else if decide (d0 <> 0x29) then Ret (t, [])
  else
    c ← CEMI_to_L_Data d;
    match c with
    | None => Ret (t, [])
    | Some c =>
        if t_monitor t then
          x ← L_Data_ToPacket c;
          Ret (t, [TO_busmonitor (L_Busmonitor_init (L_Busmonitor_PDU_new now.1 now.2) x)])
        else Ret (t, [TO_recv c])
    end.

(** [treq.seqno += 0x100] has no effect on a byte. *)
Definition read_tunnel_request (now : Z * Z) (t : EIBNetIPTunnel) (p1 : EIBNetIPPacket)
  : tunnel_result :=
  if decide (t_mod t = 0) then Ret (t, [])
  else
    treq ← parseEIBnet_TunnelRequest p1;
    match treq with
    | None => Ret (t, [])
    | Some r =>
        let ack := t_send t (TunnelACK_ToPacket (mkTunnelACK (u8 (t_channel t)) (treq_seqno r) 0))
                     (t_daddr t) in
        if decide (treq_channel r <> t_channel t) then Ret (t, [])
        else if decide (Z.land (treq_seqno r + 1) 0xff = t_rno t) then
          s ← ack; Ret (set_trecvall t 0, [s])
        else if decide (treq_seqno r <> t_rno t) then
          let seqno := if decide (treq_seqno r < t_rno t) then u8 (treq_seqno r + 0x100)
                       else treq_seqno r in
          if decide (t_rno t + 5 <= seqno) then restart t else Ret (t, [])
        else
          s ← ack;
          let rno := t_rno t + 1 in
          let t := set_tseq t (if decide (0xff < rno) then 0 else rno) (t_sno t) in
          '(t, o) ← read_cemi now t (treq_CEMI r);
          Ret (t, s :: o)
    end.

Definition read_tunnel_response (t : EIBNetIPTunnel) (p1 : EIBNetIPPacket) : tunnel_result :=
  if decide (t_mod t = 0) then Ret (t, [])
  else
    tresp ← parseEIBnet_TunnelACK p1;
    match tresp with
    | None => Ret (t, [])
    | Some r =>
        if decide (tack_channel r <> t_channel t) then Ret (t, [])
        else if decide (tack_seqno r <> t_sno t) then Ret (t, [])
        else if decide (tack_status r <> 0) then Ret (t, [])
        else if decide (t_mod t = 2) then
          let sno := t_sno t + 1 in
          let t := set_tseq t (t_rno t) (if decide (0xff < sno) then 0 else sno) in
          let t := mod_trigger (set_tout t []) 1 in
          Ret (set_tretry t 0 (t_timeout t), [TO_send_Next])
        else Ret (t, [])
    end.

Definition read_connectionstate_response (t : EIBNetIPTunnel) (p1 : EIBNetIPPacket) : tunnel_result :=
  csresp ← parseEIBnet_ConnectionStateResponse p1;
  match csresp with
  | None => Ret (t, [])
  | Some r =>
      if decide (csresp_channel r <> t_channel t) then Ret (t, [])
      else if decide (csresp_status r = 0) then
        Ret (if decide (0 < t_heartbeat t) then set_theart t 0 (t_conntimeout t) else t, [])
      else if decide (csresp_status r = 0x21) then restart t
      else Ret (t, [TO_errored])
  end.

Definition read_disconnect_request (t : EIBNetIPTunnel) (p1 : EIBNetIPPacket) : tunnel_result :=
  if decide (t_mod t = 0) then Ret (t, [])
  else
    dreq ← parseEIBnet_DisconnectRequest p1;
    match dreq with
    | None => Ret (t, [])
    | Some r =>
        if decide (dreq_channel r <> t_channel t) then Ret (t, [])
        else
          s ← t_send t (DisconnectResponse_ToPacket (mkDisconnectResponse (u8 (t_channel t)) 0)) (t_caddr t);
          let t := set_trecvall t 0 in
          Ret (set_theart (set_tmod t 0 (t_trigger t)) (t_heartbeat t) true, [s])
    end.

(** [restart] does nothing here, as [mod] is 0 already. *)
Definition read_disconnect_response (t : EIBNetIPTunnel) (p1 : EIBNetIPPacket) : tunnel_result :=
  if decide (t_mod t = 0) then Ret (t, [])
  else
    dresp ← parseEIBnet_DisconnectResponse p1;
    match dresp with
    | None => Ret (t, [])
    | Some r =>
        if decide (dresp_channel r <> t_channel t) then Ret (t, [])
        else
          let t := set_tmod t 0 (t_trigger t) in
          _ ← assert_ (t_sock t);
          let t := set_trecvall t 0 in
          '(t, o) ← restart t;
          Ret (set_theart t (t_heartbeat t) true, o)
    end.

Definition read_cb (now : Z * Z) (t : EIBNetIPTunnel) (p1 : EIBNetIPPacket) : tunnel_result :=
  if decide (service p1 = CONNECTION_RESPONSE) then read_connect_response t p1
  else if decide (service p1 = TUNNEL_REQUEST) then read_tunnel_request now t p1
  else if decide (service p1 = TUNNEL_RESPONSE) then read_tunnel_response t p1
  else if decide (service p1 = CONNECTIONSTATE_RESPONSE) then read_connectionstate_response t p1
  else if decide (service p1 = DISCONNECT_REQUEST) then read_disconnect_request t p1
  else if decide (service p1 = DISCONNECT_RESPONSE) then read_disconnect_response t p1
  else Ret (t, []).

(** ** Multicast routing *)

Record EIBNetIPRouter := mkIPRouter { ir_sock : bool; ir_sendaddr : sockaddr_in; ir_monitor : bool }.

Definition ip_router_send_L_Data (r : EIBNetIPRouter) (l : L_Data_PDU) : outcome (list tunnel_output) :=
  d ← L_Data_ToCEMI 0x29 l;
  _ ← assert_ (ir_sock r);
  Ret [TO_Send (mkPacket ROUTING_INDICATION d (mkSockaddr 0 0)) (ir_sendaddr r); TO_send_Next].

Definition ip_router_read_cb (now : Z * Z) (r : EIBNetIPRouter) (p : EIBNetIPPacket)
  : outcome (list tunnel_output) :=
  if decide (service p <> ROUTING_INDICATION) then Ret []
  else if decide (size (p_data p) < 2)%nat then Ret []
  else
    d0 ← at_ (p_data p) 0;
    if decide (d0 <> 0x29) then Ret []
    else
      c ← CEMI_to_L_Data (p_data p);
      match c with
      | None => Ret []
      | Some c =>
          if ir_monitor r then
            x ← L_Data_ToPacket c;
            Ret [TO_busmonitor (L_Busmonitor_init (L_Busmonitor_PDU_new now.1 now.2) x)]
          else Ret [TO_recv c]
      end.

Definition ip_router_stop (r : EIBNetIPRouter) : EIBNetIPRouter * list tunnel_output :=
  (mkIPRouter false (ir_sendaddr r) (ir_monitor r), [TO_stopped]).
