(* ===== verification/EibNetClientSpec.v ===== *)
(** * The tunnelling client: theorems

    What a server can send without making the client fail, and the one kind of request
    that does.  A frame is transmitted five times at most, and what happens then. *)

From S2P Require Import Prelude CArray Common ApduSpec Lpdu LpduSpec Emi.
From S2P Require Import EibNetIp EibNetIpSpec EibNetSocket EibNetServer EibNetServerSpec EibNetClient.

(** ** Safety *)

(** Without a socket nothing is active. *)
Definition tunnel_ok (t : EIBNetIPTunnel) : Prop :=
  0 <= t_mod t <= 2 /\
  (t_sock t = false -> t_mod t = 0 /\ t_timeout t = false /\ t_conntimeout t = false /\ t_trigger t = false /\
                       t_active t = false).

Inductive tunnel_event :=
| TE_start (e : start_env) (port sport : Z)
| TE_stop
| TE_packet (now : Z * Z) (p : EIBNetIPPacket)
| TE_trigger
| TE_timeout
| TE_conntimeout
| TE_send (l : L_Data_PDU)
| TE_error.

Definition tunnel_step (t : EIBNetIPTunnel) (ev : tunnel_event) : tunnel_result :=
  match ev with
  | TE_start e port sport => tunnel_start e port sport t
  | TE_stop => tunnel_stop t
  | TE_packet now p => read_cb now t p
  | TE_trigger => tunnel_trigger_cb t
  | TE_timeout => tunnel_timeout_cb t
  | TE_conntimeout => tunnel_conntimeout_cb t
  | TE_send l => tunnel_send_L_Data t l
  | TE_error => tunnel_error_cb t
  end.

(** Packets come while there is a socket, callbacks of what is active; the driver
    is started when it is not running and gets a frame when it has none. *)
Definition tunnel_can (t : EIBNetIPTunnel) (ev : tunnel_event) : Prop :=
  match ev with
  | TE_start _ _ _ => t_sock t = false
  | TE_packet _ p => t_sock t = true /\ datagram_ok p
  | TE_trigger => t_trigger t = true
  | TE_timeout => t_timeout t = true
  | TE_conntimeout => t_conntimeout t = true
  | TE_send _ => t_out t = []
  | TE_stop | TE_error => True
  end.

(** A message that claims to be from a bus monitor, too short for its additional information. *)
Definition short_busmon (d : CArray) : bool :=
  match d with
  | d0 :: d1 :: _ => bool_decide (d0 = 0x2B) && bool_decide (size d < Z.to_nat d1 + 3)%nat
  | _ => false
  end.

(** A request that is accepted and carries such a message. *)
Definition null_busmon (t : EIBNetIPTunnel) (p : EIBNetIPPacket) : bool :=
  bool_decide (service p = TUNNEL_REQUEST) && bool_decide (t_mod t <> 0) &&
  match parseEIBnet_TunnelRequest p with
  | Ret (Some r) =>
      bool_decide (treq_channel r = t_channel t) && bool_decide (treq_seqno r = t_rno t) &&
      short_busmon (treq_CEMI r)
  | _ => false
  end.

(** What ends the driver, and how: a frame that fails an assertion of [L_Data_ToCEMI], and a
    request that makes a null pointer of the frame it carries. *)
Definition tunnel_failure (t : EIBNetIPTunnel) (ev : tunnel_event) : option fault :=
  match ev with
  | TE_send l => if decide (cemi_fits l) then None else Some AssertFailed
  | TE_packet _ p => if null_busmon t p then Some NullPointer else None
  | _ => None
  end.

Fixpoint tunnel_run (t : EIBNetIPTunnel) (evs : list tunnel_event) : tunnel_result :=
  match evs with
  | [] => Ret (t, [])
  | ev :: evs => '(t, o) ← tunnel_step t ev; '(t, o') ← tunnel_run t evs; Ret (t, o ++ o')
  end.

Fixpoint tunnel_can_all (t : EIBNetIPTunnel) (evs : list tunnel_event) : Prop :=
  match evs with
  | [] => True
  | ev :: evs =>
      tunnel_can t ev /\ forall t' o, tunnel_step t ev = Ret (t', o) -> tunnel_can_all t' evs
  end.

Local Abbreviation good m := (returns_with (fun r : EIBNetIPTunnel * list tunnel_output => tunnel_ok r.1) m).

Ltac tunnel :=
  unfold tunnel_ok in *;
  cbn [t_sock t_mod t_timeout t_conntimeout t_trigger t_active t_out t_channel t_recvall fst
       is_stopped mod_trigger set_tmod set_tout set_tseq set_tretry set_theart set_trecvall connected] in *.

Ltac tunnel_solve :=
  apply returns_with_Ret; tunnel; intuition (congruence || lia).

Lemma t_send_returns {A} t m a (k : tunnel_output -> outcome A) P :
  t_sock t = true -> returns m -> (forall p, returns_with P (k (TO_Send p a))) ->
  returns_with P (t_send t m a ≫= k).
Proof. intros Hs [p ->] Hk. unfold t_send. cbn [mbind outcome_bind]. rewrite Hs. apply Hk. Qed.

Lemma connected_sock t : tunnel_ok t -> t_mod t <> 0 -> t_sock t = true.
Proof. intros [_ H] Hm. destruct (t_sock t); [done|]. by destruct H. Qed.

Lemma restart_post t :
  tunnel_ok t ->
  returns_with (fun r => tunnel_ok r.1 /\ t_mod r.1 = 0 /\ t_sock r.1 = t_sock t) (restart t).
Proof.
  intros Ht. unfold restart. destruct (decide _); [by apply returns_with_Ret|].
  pose proof (connected_sock t Ht ltac:(done)) as Hs.
  apply (returns_with_bind (fun _ => True)).
  - destruct (decide _); [|by apply returns_with_Ret].
    apply t_send_returns; [done|apply DisconnectRequest_returns|]. intros. by apply returns_with_Ret.
  - intros o _. rewrite Hs. cbn [assert_ mbind outcome_bind]. cbv zeta. tunnel_solve.
Qed.

Lemma restart_ok t : tunnel_ok t -> good (restart t).
Proof. intros Ht. apply (returns_with_mono _ _ _ (restart_post t Ht)). tauto. Qed.

Lemma tunnel_stop_ok t : tunnel_ok t -> good (tunnel_stop t).
Proof.
  intros Ht. apply (returns_with_bind _ _ _ _ (restart_post t Ht)). intros [t' o] (Ht' & Hm & _).
  tunnel_solve.
Qed.

Lemma skip_ok t o : tunnel_ok t -> good (Ret (t, o)).
Proof. intros. by apply returns_with_Ret. Qed.

Lemma ConnectRequest_returns r : returns (ConnectRequest_ToPacket r).
Proof. unfold ConnectRequest_ToPacket. encode. cstep. by eexists. Qed.

Lemma ConnectionStateRequest_returns r : returns (ConnectionStateRequest_ToPacket r).
Proof. unfold ConnectionStateRequest_ToPacket. encode. cstep. by eexists. Qed.

Lemma tunnel_start_ok e port sport t : tunnel_ok t -> t_sock t = false -> good (tunnel_start e port sport t).
Proof.
  intros Ht Hs. unfold tunnel_start. cbv zeta.
  assert (t_mod t = 0 /\ t_timeout t = false /\ t_conntimeout t = false /\ t_trigger t = false) as Hoff
    by (destruct Ht as [_ Ht]; tauto).
  destruct (se_host e); [|tunnel_solve]. destruct (se_source e); [|tunnel_solve].
  destruct (se_port e); [|tunnel_solve].
  destruct (se_srcip e) as [[sa|]|]; [| tunnel_solve |];
    (apply t_send_returns; [done|apply ConnectRequest_returns|]); intros; tunnel_solve.
Qed.

Lemma tunnel_callbacks_ok t :
  tunnel_ok t ->
  (t_trigger t = true -> good (tunnel_trigger_cb t)) /\
  (t_timeout t = true -> good (tunnel_timeout_cb t)) /\
  (t_conntimeout t = true -> good (tunnel_conntimeout_cb t)).
Proof.
  intros Ht. split_and!; intros He.
  - unfold tunnel_trigger_cb. cbv zeta. destruct (_ || _) eqn:E; [tunnel_solve|].
    apply orb_false_iff in E as [E%bool_decide_eq_false _]. cbn [t_mod set_tmod] in E.
    apply dec_stable in E. assert (t_sock t = true) as Hs by (apply connected_sock; [done|lia]).
    apply t_send_returns; [done| |intros; tunnel_solve].
    eexists. apply TunnelRequest_packet; apply u8_bound.
  - unfold tunnel_timeout_cb. cbv zeta. cbn [t_mod t_retry set_tretry]. destruct (decide _) as [|Em]; [tunnel_solve|].
    apply dec_stable in Em. assert (t_sock t = true) as Hs by (apply connected_sock; [done|lia]).
    destruct (decide _); [|rewrite bind_Ret; tunnel_solve].
    apply (returns_with_bind _ _ _ _ (restart_post (set_tout (set_tretry t (t_retry t + 1) false) [])
      ltac:(tunnel; intuition congruence))).
    intros [t' o] (Ht' & Hm & Hs'). tunnel_solve.
  - unfold tunnel_conntimeout_cb. cbv zeta. cbn [t_mod t_heartbeat t_heartbeat_limit set_theart].
    assert (t_sock t = true) as Hs by (destruct (t_sock t) eqn:E; [done|]; destruct Ht as [_ Ht]; intuition congruence).
    destruct (decide _); [|tunnel_solve]. destruct (decide _).
    + apply t_send_returns; [done|apply ConnectionStateRequest_returns|]. intros; tunnel_solve.
    + apply restart_ok. tunnel. intuition congruence.
Qed.

(** A parser of a packet, followed by what is done with it. *)
Lemma t_parsed {A} (m : outcome (option A)) (k : A -> outcome (EIBNetIPTunnel * list tunnel_output)) t :
  tunnel_ok t -> returns m -> (forall r, m = Ret (Some r) -> good (k r)) ->
  good (r1 ← m; match r1 with None => Ret (t, []) | Some r1 => k r1 end).
Proof. intros Ht [[r|] ->] Hk; [by apply Hk | by apply skip_ok]. Qed.

Lemma read_cemi_ok now t d :
  tunnel_ok t -> t_sock t = true -> bytes d -> (2 <= size d <= 245)%nat ->
  if short_busmon d then read_cemi now t d = Fault NullPointer else good (read_cemi now t d).
Proof.
  intros Ht Hs Hb Hsz. destruct d as [|d0 [|d1 d]]; [simpl in Hsz; lia..|].
  unfold read_cemi. cbn [at_ lookup list_lookup mbind outcome_bind short_busmon].
  destruct (bool_decide (d0 = 0x2B)) eqn:E0; cbn [andb].
  - apply bool_decide_eq_true in E0 as ->. rewrite decide_False, decide_True by done.
    unfold CEMI_to_Busmonitor. rewrite decide_False by lia. change (at_ (_ :: d1 :: d) 1) with (Ret d1 : outcome Z).
    rewrite bind_Ret. case_bool_decide.
    + by rewrite decide_True by lia.
    + rewrite decide_False, slice_ok by lia. by apply skip_ok.
  - apply bool_decide_eq_false in E0.
    destruct (decide _); [destruct (decide _); tunnel_solve|]. rewrite decide_False by done.
    destruct (decide _); [by apply skip_ok|].
    destruct (CEMI_to_L_Data_wf _ Hb) as ([l|] & E & Hw); rewrite E; [|by apply skip_ok].
    cbn [mbind outcome_bind]. destruct (t_monitor t); [|by apply skip_ok].
    pose proof (CEMI_to_L_Data_size _ l Hb E). rewrite L_Data_ToPacket_eq by (done || lia). by apply skip_ok.
Qed.

Lemma read_tunnel_request_ok now t p :
  tunnel_ok t -> t_sock t = true -> datagram_ok p -> service p = TUNNEL_REQUEST ->
  if null_busmon t p then read_tunnel_request now t p = Fault NullPointer else good (read_tunnel_request now t p).
Proof.
  intros Ht Hs [Hb Hsz] Hsv. unfold read_tunnel_request, null_busmon. rewrite (bool_decide_eq_true_2 _ Hsv).
  destruct (decide (t_mod t = 0)) as [Em|Em].
  { rewrite bool_decide_eq_false_2 by tauto. by apply skip_ok. }
  rewrite bool_decide_eq_true_2 by done. cbn [andb].
  destruct (parseEIBnet_TunnelRequest p) as [[r|]|f] eqn:Hr; cbn [mbind outcome_bind]; [|by apply skip_ok|].
  2: { assert (returns (parseEIBnet_TunnelRequest p)) as [? E] by parses. congruence. }
  pose proof (TunnelRequest_inv p r Hb Hr) as [Hc Hn]. cbv zeta.
  destruct (decide (treq_channel r <> _)) as [Ec|Ec%dec_stable].
  { rewrite bool_decide_eq_false_2 by done. by apply skip_ok. }
  rewrite (bool_decide_eq_true_2 _ Ec). cbn [andb].
  destruct (decide (Z.land _ _ = _)) as [El|El].
  { rewrite bool_decide_eq_false_2.
    - apply t_send_returns; [done|apply TunnelACK_returns|]. intros. tunnel_solve.
    - intros E. rewrite E in El. change 0xff with (Z.ones 8) in El. rewrite Z.land_ones in El by lia. change (2 ^ 8) with 256 in El. Z.to_euclidean_division_equations. lia. }
  destruct (decide (treq_seqno r <> _)) as [Es|Es%dec_stable].
  { rewrite bool_decide_eq_false_2 by done.
    destruct (decide (t_rno t + 5 <= _)); [by apply restart_ok|by apply skip_ok]. }
  rewrite (bool_decide_eq_true_2 _ Es). cbn [andb].
  destruct (TunnelACK_returns (mkTunnelACK (u8 (t_channel t)) (treq_seqno r) 0)) as [pk Epk].
  unfold t_send. rewrite Epk, Hs. cbn [mbind outcome_bind assert_].
  assert (2 <= size (treq_CEMI r) <= 245)%nat as Hsize.
  { revert Hr. unfold parseEIBnet_TunnelRequest. destruct (decide _); [done|]. destruct (decide _); [done|].
    intros _. lia. }
  pose proof (read_cemi_ok now (set_tseq t (if decide (255 < t_rno t + 1) then 0 else t_rno t + 1) (t_sno t))
                (treq_CEMI r) ltac:(tunnel; intuition congruence) Hs ltac:(done) Hsize) as Hg.
  destruct (short_busmon _); [by rewrite Hg|].
  apply (returns_with_bind _ _ _ _ Hg). intros [t' o] Ht'. by apply skip_ok.
Qed.

Lemma read_cb_ok now t p :
  tunnel_ok t -> t_sock t = true -> datagram_ok p ->
  if null_busmon t p then read_cb now t p = Fault NullPointer else good (read_cb now t p).
Proof.
  intros Ht Hs Hp. destruct (decide (service p = TUNNEL_REQUEST)) as [Hsv|Hsv].
  { unfold read_cb. rewrite decide_False, decide_True by (done || by rewrite Hsv). by apply read_tunnel_request_ok. }
  assert (null_busmon t p = false) as ->.
  { unfold null_busmon. by rewrite bool_decide_eq_false_2. }
  unfold read_cb. destruct (decide _).
  { unfold read_connect_response. destruct (decide _); [by apply skip_ok|].
    apply t_parsed; [done|unfold parseEIBnet_ConnectResponse; destruct Hp; repeat parse_step|].
    intros r _. destruct (decide _); [destruct (_ && _); [by apply restart_ok|by apply skip_ok]|].
    destruct (decide _) as [|E]; [by apply skip_ok|]. apply dec_stable in E.
    destruct (at_lt (cresp_CRD r) 1 ltac:(lia)) as (d1 & -> & _).
    destruct (at_lt (cresp_CRD r) 2 ltac:(lia)) as (d2 & -> & _).
    rewrite Hs. cbn [mbind outcome_bind assert_]. tunnel_solve. }
  rewrite decide_False by done.
  destruct (decide _).
  { unfold read_tunnel_response. destruct (decide _); [by apply skip_ok|].
    apply t_parsed; [done|parses|]. intros r _.
    repeat (destruct (decide _); [first [by apply skip_ok | cbv zeta; tunnel_solve]|]). by apply skip_ok. }
  destruct (decide _).
  { apply t_parsed; [done|parses|]. intros r _. destruct (decide _); [by apply skip_ok|].
    destruct (decide _); [destruct (decide _); tunnel_solve|].
    destruct (decide _); [by apply restart_ok|by apply skip_ok]. }
  destruct (decide _).
  { unfold read_disconnect_request. destruct (decide _); [by apply skip_ok|].
    apply t_parsed; [done|parses|]. intros r _. destruct (decide _); [by apply skip_ok|].
    apply t_send_returns; [done|by eexists|]. intros. cbv zeta. tunnel_solve. }
  destruct (decide _); [|by apply skip_ok].
  unfold read_disconnect_response. destruct (decide _); [by apply skip_ok|].
  apply t_parsed; [done|parses|]. intros r _. destruct (decide _); [by apply skip_ok|].
  cbn [t_sock set_tmod]. rewrite Hs. cbn [mbind outcome_bind assert_]. cbv zeta.
  unfold restart. cbn [t_mod set_trecvall set_tmod]. rewrite decide_True by done. tunnel_solve.
Qed.

Lemma tunnel_step_ok t ev :
  tunnel_ok t -> tunnel_can t ev ->
  match tunnel_failure t ev with
  | Some f => tunnel_step t ev = Fault f
  | None => good (tunnel_step t ev)
  end.
Proof.
  intros Ht Hev. destruct ev; cbn [tunnel_step tunnel_can tunnel_failure] in *.
  - by apply tunnel_start_ok.
  - by apply tunnel_stop_ok.
  - destruct Hev as [Hs Hp]. pose proof (read_cb_ok now t p Ht Hs Hp). by destruct (null_busmon t p).
  - by apply tunnel_callbacks_ok.
  - by apply tunnel_callbacks_ok.
  - by apply tunnel_callbacks_ok.
  - unfold tunnel_send_L_Data. rewrite Hev. destruct (decide _).
    + rewrite L_Data_ToCEMI_fits by done. cbn [mbind outcome_bind]. tunnel_solve.
    + by rewrite L_Data_ToCEMI_unfit.
  - by apply skip_ok.
Qed.

(** A run that goes up to the first event that ends the driver. *)
Definition tunnel_ends (t : EIBNetIPTunnel) (evs : list tunnel_event) : Prop :=
  exists evs1 ev evs2 t1 o1 f, evs = evs1 ++ ev :: evs2 /\
    tunnel_run t evs1 = Ret (t1, o1) /\ tunnel_ok t1 /\ tunnel_failure t1 ev = Some f /\
    tunnel_run t evs = Fault f.

(** C12: what the tunnelling client survives.  Over any sequence of packets of any content,
    time-outs and triggers that are active, starts (however the system calls in them end),
    stops, and frames, each given when it has none, it never uses a socket it does not have,
    reads outside a packet, uses a null pointer or fails an assertion, with two exceptions,
    which end it exactly when they come: a frame that does not fit into a CEMI message, and
    a tunnelling request of its server, on its channel and with the expected number, with a bus-monitor
    message shorter than its additional information (a null pointer is queued). *)
Theorem client_safe t evs :
  tunnel_ok t -> tunnel_can_all t evs ->
  returns_with (fun r => tunnel_ok r.1) (tunnel_run t evs) \/ tunnel_ends t evs.
Proof.
  revert t. induction evs as [|ev evs IH]; intros t Ht Hev; [left; by apply returns_with_Ret|].
  destruct Hev as [Hev Hnext]. pose proof (tunnel_step_ok t ev Ht Hev) as Hstep.
  destruct (tunnel_failure t ev) as [f|] eqn:Ef.
  - right. exists [], ev, evs, t, [], f. cbn [tunnel_run app]. by rewrite Hstep.
  - destruct Hstep as ([t' o] & E & Ht').
    destruct (IH t' Ht' (Hnext _ _ E)) as [([t'' o'] & E' & Ht'')|(evs1 & ev' & evs2 & t1 & o1 & f & -> & E1 & Hok & Hf & E2)];
      cbn [tunnel_run]; rewrite E, bind_Ret.
    + left. rewrite E'. by apply returns_with_Ret.
    + right. exists (ev :: evs1), ev', evs2, t1, (o ++ o1), f. cbn [tunnel_run app]. rewrite E, !bind_Ret, E1, E2. by split_and!.
Qed.

Definition new_tunnel : EIBNetIPTunnel :=
  mkTunnel false 0 no_addr no_addr no_addr no_addr [] false false 0 (-1) 0 0 0 0 30 3 0 false false false false.

Definition client_events : list tunnel_event :=
  [TE_start (mkStartEnv (Some (mkSockaddr 0x0A000002 0)) (Some (mkSockaddr 0x0A000001 0)) (Some 4000) None) 3671 0;
   TE_packet (0, 0) (built CONNECTION_RESPONSE [1; 0; 8; 1; 10; 0; 0; 2; 14; 87; 4; 4; 0x1F; 0x02]);
   TE_send tunnel_ldata;
   TE_trigger;
   TE_packet (0, 0) (built TUNNEL_RESPONSE [4; 1; 0; 0]);
   TE_packet (0, 0) (built TUNNEL_REQUEST ([4; 1; 0; 0; 0x29] ++ drop 1 tunnel_cemi));
   TE_conntimeout;
   TE_stop].

Lemma client_safe_witness :
  returns_with (fun r => tunnel_ok r.1) (tunnel_run new_tunnel client_events) \/ tunnel_ends new_tunnel client_events.
Proof.
  apply client_safe; [unfold tunnel_ok; simpl; split_and!; (lia || done)|].
  unfold client_events. cbn [tunnel_can_all].
  repeat match goal with
    | |- True => exact I
    | |- _ /\ _ => split
    | |- forall t' o, _ = Ret (t', o) -> _ =>
        let E := fresh in intros ? ? E; vm_compute in E; injection E as <- <-
    end.
  all: cbn [tunnel_can].
  all: first [ exact I | reflexivity
             | split; [reflexivity|split; [decided|vm_compute; lia]] ].
Defined.

(** The request of a server with a bus-monitor message that is too short. *)
Lemma busmon_null :
  tunnel_run new_tunnel (take 2 client_events ++
    [TE_packet (0, 0) (built TUNNEL_REQUEST [4; 1; 0; 0; 0x2B; 9])]) = Fault NullPointer.
Proof. vm_compute. reflexivity. Qed.

(** ** Retransmission *)

(** A client that is connected and has just been given a frame. *)
Definition ready_to_send (t : EIBNetIPTunnel) : Prop :=
  t_sock t = true /\ t_active t = true /\ t_mod t = 1 /\ t_trigger t = true /\
  is_u8 (t_channel t) /\ is_u8 (t_sno t) /\ t_out t <> [].

Definition the_request (t : EIBNetIPTunnel) : tunnel_output :=
  TO_Send (request_packet TUNNEL_REQUEST (t_channel t) (t_sno t) (t_out t)) (t_daddr t).

Definition send_round : list tunnel_event := [TE_trigger; TE_timeout].

Lemma trigger_sends t :
  ready_to_send t ->
  tunnel_trigger_cb t = Ret (set_tretry (set_tmod t 2 false) (t_retry t) true, [the_request t]).
Proof.
  intros (Hs & _ & Hm & _ & Hc & Hn & Ho). unfold tunnel_trigger_cb. cbv zeta.
  cbn [t_mod t_out set_tmod t_channel t_sno].
  rewrite Hm, (bool_decide_eq_false_2 (size (t_out t) = 0%nat)) by by destruct (t_out t).
  change (bool_decide (1 <> 1)) with false. cbn [orb].
  rewrite !u8_small, TunnelRequest_packet by done. unfold t_send. cbn [mbind outcome_bind t_sock set_tmod].
  by rewrite Hs.
Qed.

Lemma send_round_again t :
  ready_to_send t -> t_retry t <= 3 ->
  tunnel_run t send_round = Ret (set_tretry t (t_retry t + 1) false, [the_request t]).
Proof.
  intros Ht Hr. unfold send_round. cbn [tunnel_run tunnel_step]. rewrite trigger_sends, bind_Ret by done.
  destruct Ht as (_ & Ha & Hm & Htr & _). unfold tunnel_timeout_cb. cbv zeta.
  cbn [t_mod t_retry set_tretry set_tmod]. rewrite decide_False by (by intros []).
  rewrite decide_False by lia. cbn [mbind outcome_bind app].
  destruct t. cbn in *. by subst.
Qed.

Lemma send_round_last t :
  ready_to_send t -> 3 < t_retry t ->
  exists t' p, tunnel_run t send_round = Ret (t', [the_request t; TO_Send p (t_caddr t)]) /\
    DisconnectRequest_ToPacket (mkDisconnectRequest (t_channel t) (t_saddr t) false) = Ret p /\
    t_mod t' = 1 /\ t_out t' = [] /\ t_retry t' = t_retry t + 1 /\ t_conntimeout t' = true.
Proof.
  intros Ht Hr. unfold send_round. cbn [tunnel_run tunnel_step]. rewrite trigger_sends, bind_Ret by done.
  destruct Ht as (Hs & Ha & Hm & Htr & Hc & _). unfold tunnel_timeout_cb. cbv zeta.
  cbn [t_mod t_retry set_tretry set_tmod]. rewrite decide_False by (by intros []).
  rewrite decide_True by lia. unfold restart. cbn [t_mod set_tout set_tretry set_tmod t_channel t_saddr t_caddr].
  rewrite decide_False by done. rewrite decide_True by (unfold is_u8 in Hc; lia).
  destruct (DisconnectRequest_returns (mkDisconnectRequest (t_channel t) (t_saddr t) false)) as [p Hp].
  unfold t_send. rewrite Hp. cbn [mbind outcome_bind t_sock set_tout set_tretry set_tmod]. rewrite Hs.
  eexists _, p. by split_and!.
Qed.

Lemma tunnel_run_app evs evs' : forall t,
  tunnel_run t (evs ++ evs') =
  ('(t, o) ← tunnel_run t evs; '(t, o') ← tunnel_run t evs'; Ret (t, o ++ o')).
Proof.
  induction evs as [|ev evs IH]; intros t; cbn [app tunnel_run].
  { rewrite bind_Ret. by destruct (tunnel_run t evs') as [[]|]. }
  destruct (tunnel_step t ev) as [[t1 o1]|]; [|done]. rewrite !bind_Ret, IH.
  destruct (tunnel_run t1 evs) as [[t2 o2]|]; [|done]. rewrite !bind_Ret.
  destruct (tunnel_run t2 evs') as [[t3 o3]|]; [|done]. rewrite !bind_Ret. by rewrite app_assoc.
Qed.

Lemma rounds k : forall t,
  ready_to_send t -> t_retry t + Z.of_nat k <= 4 ->
  tunnel_run t (mjoin (replicate k send_round)) =
  Ret (match k with O => t | _ => set_tretry t (t_retry t + Z.of_nat k) false end,
       replicate k (the_request t)).
Proof.
  induction k as [|k IH]; intros t Ht Hr; [done|].
  cbn [replicate mjoin list_join]. rewrite tunnel_run_app, send_round_again by (done || lia).
  rewrite bind_Ret, IH; [|done|cbn [t_retry set_tretry]; lia]. rewrite bind_Ret.
  change (the_request (set_tretry _ _ _)) with (the_request t).
  destruct k; [done|]. cbn [t_retry set_tretry]. do 2 f_equal. unfold set_tretry. f_equal. lia.
Qed.

(** If no acknowledgement comes, the frame is transmitted five times, with the same
    number, and then a disconnect request is sent and the frame dropped.  But the
    client does not become disconnected: [mod] is 1 again at once, so that it takes
    the connection for established, and the link is not told that the frame is
    gone. *)
Theorem unanswered_frame t :
  ready_to_send t -> t_retry t = 0 ->
  exists t' p,
    tunnel_run t (mjoin (replicate 5 send_round))
    = Ret (t', replicate 5 (the_request t) ++ [TO_Send p (t_caddr t)]) /\
    DisconnectRequest_ToPacket (mkDisconnectRequest (t_channel t) (t_saddr t) false) = Ret p /\
    t_mod t' = 1 /\ t_out t' = [] /\ t_retry t' = 5 /\ t_conntimeout t' = true.
Proof.
  intros Ht Hr. change (replicate 5 send_round) with (replicate 4 send_round ++ [send_round]).
  rewrite join_app, tunnel_run_app, rounds by (done || lia). rewrite bind_Ret, Hr.
  destruct (send_round_last (set_tretry t 4 false)) as (t' & p & E & Hp & Hm & Ho & Hre & Hct); [done|done|].
  exists t', p. cbn [mjoin list_join]. rewrite app_nil_r. change (0 + Z.of_nat 4) with 4. rewrite E.
  by split_and!.
Qed.

Definition demo_tunnel : EIBNetIPTunnel :=
  mkTunnel true 3 (mkSockaddr 0x0A000002 3671) (mkSockaddr 0x0A000002 3671) (mkSockaddr 0x0A000002 3671)
    (mkSockaddr 0x0A000001 4000) [0x11; 0] false false 0 1 1 0 0 0 30 3 0 false true true true.

Lemma unanswered_frame_witness :
  exists t' p,
    tunnel_run demo_tunnel (mjoin (replicate 5 send_round))
    = Ret (t', replicate 5 (the_request demo_tunnel) ++ [TO_Send p (t_caddr demo_tunnel)]) /\
    DisconnectRequest_ToPacket (mkDisconnectRequest 1 (t_saddr demo_tunnel) false) = Ret p /\
    t_mod t' = 1 /\ t_out t' = [] /\ t_retry t' = 5 /\ t_conntimeout t' = true.
Proof. apply (unanswered_frame demo_tunnel); [|reflexivity]. repeat split; try decided. Defined.
