(* ===== verification/EibNetEndToEnd.v ===== *)
(** * Client and server together

    The tunnelling client of EibNetClient.v and a connection of the server of
    EibNetServer.v, joined by two channels that carry datagrams, keep their order
    and may lose any of them: frames given to the client reach the server's router
    exactly once and in order. *)

From S2P Require Import Prelude CArray Common ApduSpec Lpdu LpduSpec Emi Link Router.
From S2P Require Import EibNetIp EibNetIpSpec EibNetSocket EibNetServer EibNetServerSpec EibNetTunnelSpec.
From S2P Require Import EibNetClient EibNetClientSpec.

(** ** The system *)

(** [y_sent]: the frames given to the client; [y_done]: how many of them the client
    has reported as sent; [y_delivered]: the frames the server gave to its router. *)
Record system := mkSystem {
  y_client : EIBNetIPTunnel;
  y_server : ConnState;
  y_req : list CArray;
  y_ack : list CArray;
  y_sent : list L_Data_PDU;
  y_done : nat;
  y_delivered : list L_Data_PDU
}.

Inductive system_event :=
| YSend (l : L_Data_PDU)
| YTrigger
| YTimeout
| YReq
| YAck
| YLoseReq (i : nat)
| YLoseAck (i : nat).

(** A datagram on the wire, and the packet the socket makes of it. *)
Definition client_datagrams (o : list tunnel_output) : list CArray :=
  omap (fun x => match x with TO_Send p _ => Some (packet_bytes p) | _ => None end) o.
Definition server_datagrams (o : list server_output) : list CArray :=
  omap (fun x => match x with SO_Send p _ => Some (packet_bytes p) | _ => None end) o.
Definition nexts (o : list tunnel_output) : nat :=
  length (omap (fun x => match x with TO_send_Next => Some tt | _ => None end) o).

Definition receive (c : CArray) : outcome (option EIBNetIPPacket) :=
  EIBNetIPPacket_fromPacket (take recv_buffer c) no_addr.

Definition client_does (y : system) (m : tunnel_result) (ack : list CArray) (sent : list L_Data_PDU)
  : outcome system :=
  '(t, o) ← m;
  Ret (mkSystem t (y_server y) (y_req y ++ client_datagrams o) ack sent (y_done y + nexts o)
         (y_delivered y)).

Definition system_step (y : system) (ev : system_event) : outcome system :=
  match ev with
  | YSend l => client_does y (tunnel_send_L_Data (y_client y) l) (y_ack y) (y_sent y ++ [l])
  | YTrigger => client_does y (tunnel_trigger_cb (y_client y)) (y_ack y) (y_sent y)
  | YTimeout => client_does y (tunnel_timeout_cb (y_client y)) (y_ack y) (y_sent y)
  | YReq =>
      match y_req y with
      | [] => Ret y
      | c :: cs =>
          let y := mkSystem (y_client y) (y_server y) cs (y_ack y) (y_sent y) (y_done y) (y_delivered y) in
          p ← receive c;
          match p with
          | None => Ret y
          | Some p =>
              r ← parseEIBnet_TunnelRequest p;
              match r with
              | None => Ret y
              | Some r =>
                  if decide (treq_channel r = channel (y_server y)) then
                    '(s, o) ← tunnel_request (y_server y) r;
                    Ret (mkSystem (y_client y) s cs (y_ack y ++ server_datagrams o) (y_sent y) (y_done y)
                           (y_delivered y ++ delivered o))
                  else Ret y
              end
          end
      end
  | YAck =>
      match y_ack y with
      | [] => Ret y
      | c :: cs =>
          p ← receive c;
          match p with
          | None => Ret (mkSystem (y_client y) (y_server y) (y_req y) cs (y_sent y) (y_done y) (y_delivered y))
          | Some p => client_does y (read_cb (0, 0) (y_client y) p) cs (y_sent y)
          end
      end
  | YLoseReq i =>
      Ret (mkSystem (y_client y) (y_server y) (delete i (y_req y)) (y_ack y) (y_sent y) (y_done y) (y_delivered y))
  | YLoseAck i =>
      Ret (mkSystem (y_client y) (y_server y) (y_req y) (delete i (y_ack y)) (y_sent y) (y_done y) (y_delivered y))
  end.

(** A frame that fits into the receive buffer. *)
Definition frame_ok (l : L_Data_PDU) : Prop := ldata_wf l /\ (size (data l) <= 236)%nat.

(** The client gets a frame when it has none, and is not about to give up ([retry++ > 3] in
    [timeout_cb], where it clears the frame). *)
Definition system_can (y : system) (ev : system_event) : Prop :=
  match ev with
  | YSend l => t_out (y_client y) = [] /\ frame_ok l
  | YTrigger => t_trigger (y_client y) = true
  | YTimeout => t_timeout (y_client y) = true /\ t_retry (y_client y) <= 3
  | _ => True
  end.

Fixpoint system_run (y : system) (evs : list system_event) : outcome system :=
  match evs with
  | [] => Ret y
  | ev :: evs => y ← system_step y ev; system_run y evs
  end.

Fixpoint system_can_all (y : system) (evs : list system_event) : Prop :=
  match evs with
  | [] => True
  | ev :: evs => system_can y ev /\ forall y', system_step y ev = Ret y' -> system_can_all y' evs
  end.

(** ** Datagrams *)

Definition num (k : nat) : Z := u8 (Z.of_nat k).

Lemma num_u8 k : is_u8 (num k).
Proof. apply u8_bound. Qed.

Lemma num_S k : num (S k) = u8 (num k + 1).
Proof. unfold num. rewrite !u8_mod, Nat2Z.inj_succ, <-Z.add_1_r. by rewrite Z.add_mod_idemp_l by lia. Qed.

Lemma num_S_ne k : num (S k) <> num k.
Proof. rewrite num_S. apply u8_succ_ne, num_u8. Qed.

Lemma num_inc k : (if decide (0xff < num k + 1) then 0 else num k + 1) = num (S k).
Proof.
  rewrite num_S. pose proof (num_u8 k) as Hk. unfold is_u8 in Hk. destruct (decide _).
  - by replace (num k) with 255 by lia.
  - symmetry. apply u8_small. unfold is_u8. lia.
Qed.

Definition req_datagram (ch : Z) (k : nat) (l : L_Data_PDU) : CArray :=
  packet_bytes (request_packet TUNNEL_REQUEST ch (num k) (cemi_bytes 0x11 l)).
Definition ack_datagram (ch : Z) (k : nat) : CArray :=
  packet_bytes (ack_packet TUNNEL_RESPONSE ch (num k) 0).

Lemma cemi_bytes_ok code l : frame_ok l -> bytes (cemi_bytes code l) /\ size (cemi_bytes code l) = (9 + size (data l))%nat.
Proof.
  intros [(_ & _ & _ & Hb & _) _]. split; [|done]. unfold cemi_bytes, cemi_control. cbn [app].
  repeat (apply Forall_cons_iff; split; [first [apply u8_bound | unfold is_u8; lia]|]). done.
Qed.

(** What arrives when a datagram of at most 255 bytes was sent. *)
Lemma receive_bytes p :
  packet_wf p -> (size (p_data p) <= 249)%nat ->
  receive (packet_bytes p) = Ret (Some (mkPacket (service p) (p_data p) no_addr)).
Proof.
  intros Hw Hs. unfold receive. rewrite take_ge by (unfold recv_buffer, packet_bytes, size in *; simpl; lia).
  by apply fromPacket_back.
Qed.

Lemma request_received ch k l :
  is_u8 ch -> frame_ok l ->
  exists p, receive (req_datagram ch k l) = Ret (Some p) /\
    parseEIBnet_TunnelRequest p = Ret (Some (mkTunnelRequest ch (num k) (cemi_bytes 0x11 l))).
Proof.
  intros Hc Hl. pose proof (cemi_bytes_ok 0x11 l Hl) as [Hb Hs]. destruct Hl as [Hw Hsz].
  eexists. split.
  - apply receive_bytes; unfold request_packet, built; cbn [service p_data app].
    + split; [done|]. split.
      * repeat (apply Forall_cons_iff; split; [first [assumption | apply num_u8 | unfold is_u8; lia]|]). done.
      * unfold size in *. simpl length in *. lia.
    + unfold size in *. simpl length in *. lia.
  - unfold parseEIBnet_TunnelRequest, request_packet, built. cbn [service p_data app].
    rewrite decide_False by (by intros []).
    assert (size (4 :: ch :: num k :: 0 :: cemi_bytes 0x11 l) = (13 + size (data l))%nat) as -> by done.
    rewrite decide_False by lia. cbn [at_ lookup list_lookup mbind outcome_bind].
    rewrite decide_False by (by intros []). cbn [mbind outcome_bind].
    replace (13 + size (data l) - 4)%nat with (size (cemi_bytes 0x11 l)) by lia.
    change (4 :: ch :: num k :: 0 :: cemi_bytes 0x11 l) with ([4; ch; num k; 0] ++ cemi_bytes 0x11 l).
    rewrite <-(app_nil_r (cemi_bytes 0x11 l)) at 1. by rewrite slice_mid.
Qed.

Lemma ack_received ch k :
  is_u8 ch ->
  exists p, receive (ack_datagram ch k) = Ret (Some p) /\ service p = TUNNEL_RESPONSE /\
    parseEIBnet_TunnelACK p = Ret (Some (mkTunnelACK ch (num k) 0)).
Proof.
  intros Hc. exists (mkPacket TUNNEL_RESPONSE [4; ch; num k; 0] no_addr). split; [|done].
  apply (receive_bytes (ack_packet TUNNEL_RESPONSE ch (num k) 0)); unfold ack_packet, built; cbn [service p_data]; [|by vm_compute; lia].
  split; [done|]. split; [|by vm_compute].
  repeat (apply Forall_cons_iff; split; [first [assumption | apply num_u8 | unfold is_u8; lia]|]). done.
Qed.

(** ** The two ends *)

(** The frame as the router behind the server gets it. *)
Definition bridged (s : ConnState) (l : L_Data_PDU) : L_Data_PDU :=
  let l := cemi_received 0x11 l in
  if decide (source l = 0) then with_source l (cs_addr s) else l.

Lemma bridged_same s s' : same_conn s s' -> bridged s' = bridged s.
Proof. intros (_ & _ & E & _). unfold bridged. by rewrite E. Qed.

Lemma cs_put_rno s x : rno (cs_put s x) = rno s.
Proof. unfold cs_put. by destruct (decide _). Qed.

Lemma server_due s k l :
  conn_ok s -> cs_type s = CT_STANDARD -> frame_ok l -> rno s = num k ->
  exists s' o, tunnel_request s (mkTunnelRequest (channel s) (num k) (cemi_bytes 0x11 l)) = Ret (s', o) /\
    conn_post s s' /\ rno s' = num (S k) /\ delivered o = [bridged s l] /\
    server_datagrams o = [ack_datagram (channel s) k].
Proof.
  intros Hs Hty Hl Hr. pose proof (cemi_bytes_ok 0x11 l Hl) as [Hb Hsz]. destruct Hl as [Hw Hd].
  assert (is_u8 (channel s)) as Hch by (unfold conn_ok, is_u8 in *; lia).
  destruct (tunnel_request_ok s (mkTunnelRequest (channel s) (num k) (cemi_bytes 0x11 l)))
    as ([s' o] & E & Hp); cbn [treq_channel treq_seqno treq_CEMI]; [done|done|apply num_u8|done|lia|].
  exists s', o. split; [done|]. split; [done|].
  rewrite tunnel_request_eq in E; cbn [treq_channel treq_seqno treq_CEMI]; [|done|apply num_u8|done|lia].
  cbv zeta in E. cbn [treq_channel treq_seqno treq_CEMI] in E.
  rewrite decide_False in E by (rewrite Hr; intros E'; apply (u8_succ_ne (num k) (num_u8 k)); congruence).
  rewrite decide_False in E by (by intros []).
  unfold tunnel_effect in E. rewrite decide_True in E by done.
  rewrite CEMI_back in E by (done || (unfold is_u8; lia) || lia).
  change (default 0 (head (cemi_bytes 0x11 l))) with 0x11 in E. cbv iota zeta in E.
  rewrite (bool_decide_eq_true_2 (0x11 = 0x11)) in E by done. cbn [orb] in E.
  rewrite decide_True in E by done. injection E as <- <-.
  split; [|done]. rewrite num_S, <-Hr. cbn [rno set_seqs put_opt].
  by rewrite cs_put_rno.
Qed.

Lemma server_repeated s k l :
  conn_ok s -> frame_ok l -> rno s = num (S k) ->
  exists o, tunnel_request s (mkTunnelRequest (channel s) (num k) (cemi_bytes 0x11 l)) = Ret (s, o) /\
    delivered o = [] /\ server_datagrams o = [ack_datagram (channel s) k].
Proof.
  intros Hs Hl Hr. pose proof (cemi_bytes_ok 0x11 l Hl) as [Hb Hsz]. destruct Hl as [Hw Hd].
  assert (is_u8 (channel s)) as Hch by (unfold conn_ok, is_u8 in *; lia).
  rewrite tunnel_request_eq; cbn [treq_channel treq_seqno treq_CEMI]; [|done|apply num_u8|done|lia].
  cbv zeta. rewrite decide_True by (by rewrite Hr, num_S). by eexists.
Qed.

Lemma client_acked t p k n :
  t_mod t = 1 \/ t_mod t = 2 -> service p = TUNNEL_RESPONSE ->
  parseEIBnet_TunnelACK p = Ret (Some (mkTunnelACK (t_channel t) (num k) 0)) -> t_sno t = num n ->
  read_cb (0, 0) t p =
    if decide (num k = num n /\ t_mod t = 2)
    then Ret (set_tretry (mod_trigger (set_tout (set_tseq t (t_rno t) (num (S n))) []) 1) 0 (t_timeout t),
              [TO_send_Next])
    else Ret (t, []).
Proof.
  intros Hm Hsv Hp Hn. unfold read_cb. rewrite Hsv.
  rewrite decide_False, decide_False, decide_True by done. unfold read_tunnel_response.
  rewrite decide_False by lia. rewrite Hp, bind_Ret. cbn [tack_channel tack_seqno tack_status].
  rewrite decide_False by (by intros []). rewrite Hn, num_inc.
  destruct (decide (num k <> num n)).
  { rewrite decide_False; [done|]. by intros []. }
  rewrite decide_False by (by intros []). destruct (decide (t_mod t = 2)).
  - rewrite decide_True; [done|]. split; [|done]. by apply dec_stable.
  - rewrite decide_False; [done|]. by intros [].
Qed.

(** ** The invariant *)

(** The client is at frame [n], the server at frame [m]; the channels hold copies
    of frame [n - 1], then copies of frame [n]. *)
Definition req_of (y : system) (k : nat) : CArray :=
  match y_sent y !! k with
  | Some l => req_datagram (channel (y_server y)) k l
  | None => []
  end.

Definition ack_of (y : system) (k : nat) : CArray := ack_datagram (channel (y_server y)) k.

Definition ends_ok (y : system) (m : nat) : Prop :=
  let t := y_client y in
  let s := y_server y in
  let n := y_done y in
  conn_ok s /\ cs_type s = CT_STANDARD /\ t_sock t = true /\ t_active t = true /\
  (t_mod t = 1 \/ t_mod t = 2) /\ t_channel t = channel s /\ t_sno t = num n /\ rno s = num m /\
  Forall frame_ok (y_sent y) /\
  y_delivered y = bridged s <$> take m (y_sent y) /\
  (n <= length (y_sent y) <= S n)%nat /\ (m = n \/ m = S n) /\ (m <= length (y_sent y))%nat /\
  t_out t = match y_sent y !! n with Some l => cemi_bytes 0x11 l | None => [] end /\
  (t_mod t = 2 -> length (y_sent y) = S n).

Definition channels_ok (y : system) (m a b c d : nat) : Prop :=
  let n := y_done y in
  y_req y = replicate a (req_of y (n - 1)) ++ replicate b (req_of y n) /\
  y_ack y = replicate c (ack_of y (n - 1)) ++ replicate d (ack_of y n) /\
  (0 < a -> 1 <= n /\ m = n)%nat /\ (0 < b -> length (y_sent y) = S n)%nat /\
  (0 < c -> 1 <= n)%nat /\ (0 < d -> m = S n)%nat.

Definition system_ok (y : system) : Prop :=
  exists m a b c d, ends_ok y m /\ channels_ok y m a b c d.

Lemma delete_copies {A} i (x y : A) a b :
  exists a' b', delete i (replicate a x ++ replicate b y) = replicate a' x ++ replicate b' y /\
    (a' <= a /\ b' <= b)%nat.
Proof.
  rewrite delete_take_drop, take_app, drop_app, !take_replicate, !drop_replicate, length_replicate.
  destruct (decide (i < a)%nat).
  - replace (i - a)%nat with 0%nat by lia. replace (S i - a)%nat with 0%nat by lia.
    rewrite Nat.min_0_l, app_nil_r, Nat.sub_0_r, app_assoc, <-replicate_add.
    eexists _, b. split; [done|]. lia.
  - replace (a - S i)%nat with 0%nat by lia. cbn [replicate app].
    rewrite <-app_assoc, <-replicate_add, Nat.min_r by lia. eexists a, _. split; [done|]. lia.
Qed.

Ltac sys := cbn [y_client y_server y_req y_ack y_sent y_done y_delivered] in *.

Lemma sent_frame y m k :
  ends_ok y m -> (k < length (y_sent y))%nat -> exists l, y_sent y !! k = Some l /\ frame_ok l.
Proof.
  intros (_ & _ & _ & _ & _ & _ & _ & _ & HF & _) Hk.
  apply lookup_lt_is_Some in Hk as [l Hl]. exists l. split; [done|]. by eapply Forall_lookup_1.
Qed.

Lemma send_step y l :
  system_ok y -> system_can y (YSend l) -> returns_with system_ok (system_step y (YSend l)).
Proof.
  intros (m & a & b & c & d & He & Hc) [Eo Hl]. cbn [system_step].
  unfold client_does, tunnel_send_L_Data. rewrite Eo. destruct Hl as [Hw Hsz] eqn:El. clear El.
  rewrite L_Data_ToCEMI_eq by (done || lia). cbn [bool_decide decide_rel mbind outcome_bind assert_].
  apply returns_with_Ret. exists m, a, b, c, d.
  destruct He as (H1 & H2 & H3 & H4 & H5 & H6 & H7 & H8 & H9 & H10 & H11 & H12 & H13 & H14 & H15).
  assert (length (y_sent y) = y_done y) as Hlen.
  { destruct (y_sent y !! y_done y) eqn:E; [by rewrite H14 in Eo|]. apply lookup_ge_None in E. lia. }
  destruct Hc as (C1 & C2 & C3 & C4 & C5 & C6).
  split.
  - unfold ends_ok. sys. cbn [client_datagrams nexts omap list_omap length t_sock t_active t_mod t_channel t_sno t_out
      mod_trigger set_tmod set_tout]. rewrite Nat.add_0_r, length_app. cbn [length].
    split_and!; try done; try lia.
    + apply Forall_app. split; [done|]. by apply Forall_singleton.
    + by rewrite take_app_le by lia.
    + rewrite lookup_app_r by lia. by replace (y_done y - length (y_sent y))%nat with 0%nat by lia.
  - unfold channels_ok. sys. cbn [client_datagrams nexts omap list_omap length]. rewrite Nat.add_0_r, length_app.
    cbn [length]. assert (b = 0%nat) as -> by (destruct b; [done|]; specialize (C4 ltac:(lia)); lia).
    rewrite app_nil_r. unfold ack_of. sys. split_and!; try done; try lia.
    rewrite C1. cbn [replicate]. rewrite !app_nil_r. destruct a; [done|].
    f_equal. unfold req_of. sys. by rewrite lookup_app_l by (destruct (C3 ltac:(lia)); lia).
Qed.

Lemma trigger_step' y :
  system_ok y -> system_can y YTrigger -> returns_with system_ok (system_step y YTrigger).
Proof.
  intros (m & a & b & c & d & He & Hc) Ht. cbn [system_step system_can] in *.
  pose proof He as (H1 & H2 & H3 & H4 & H5 & H6 & H7 & H8 & H9 & H10 & H11 & H12 & H13 & H14 & H15).
  assert (is_u8 (channel (y_server y))) as Hch by (unfold conn_ok, is_u8 in *; lia).
  destruct (decide (t_mod (y_client y) = 1 /\ t_out (y_client y) <> [])) as [[Em Eout]|Hno].
  - unfold client_does. rewrite trigger_sends, bind_Ret.
    2:{ unfold ready_to_send. rewrite H6, H7. split_and!; try done. apply num_u8. }
    apply returns_with_Ret.
    assert (length (y_sent y) = S (y_done y)) as Hlen.
    { destruct (y_sent y !! y_done y) eqn:E; [|by rewrite H14 in Eout]. apply lookup_lt_Some in E. lia. }
    destruct (sent_frame y m (y_done y) He ltac:(lia)) as (l & El & Hl).
    exists m, a, (S b), c, d. destruct Hc as (C1 & C2 & C3 & C4 & C5 & C6).
    split.
    + unfold ends_ok. sys. cbn [nexts omap list_omap length t_sock t_active t_mod t_channel t_sno t_out
        set_tmod set_tretry]. rewrite Nat.add_0_r. split_and!; try done; try lia.
    + unfold channels_ok. sys. cbn [nexts omap list_omap length the_request client_datagrams].
      rewrite Nat.add_0_r. split_and!; try done.
      rewrite C1, replicate_S_end, <-!app_assoc. do 3 f_equal. unfold req_of. sys.
      rewrite El. unfold req_datagram. by rewrite H6, H7, H14, El.
  - unfold client_does, tunnel_trigger_cb. cbv zeta. cbn [t_mod t_out set_tmod].
    assert (bool_decide (t_mod (y_client y) <> 1) || bool_decide (size (t_out (y_client y)) = 0%nat) = true) as ->.
    { apply orb_true_iff. destruct (decide (t_mod (y_client y) = 1)) as [E|E].
      - right. apply bool_decide_eq_true. destruct (t_out (y_client y)) eqn:E'; [done|]. destruct Hno. by split.
      - left. by apply bool_decide_eq_true. }
    apply returns_with_Ret. exists m, a, b, c, d. cbn [client_datagrams nexts omap list_omap length].
    rewrite app_nil_r, Nat.add_0_r. by split.
Qed.

Lemma timeout_step' y :
  system_ok y -> system_can y YTimeout -> returns_with system_ok (system_step y YTimeout).
Proof.
  intros (m & a & b & c & d & He & Hc) [Ht Hr]. cbn [system_step].
  unfold client_does, tunnel_timeout_cb. cbv zeta. cbn [t_mod t_retry set_tretry].
  pose proof He as (H1 & H2 & H3 & H4 & H5 & H6 & H7 & H8 & H9 & H10 & H11 & H12 & H13 & H14 & H15).
  assert (forall t, t_sock t = true -> t_active t = true -> t_mod t = 1 \/ t_mod t = t_mod (y_client y) ->
    t_channel t = t_channel (y_client y) -> t_sno t = t_sno (y_client y) -> t_out t = t_out (y_client y) ->
    system_ok (mkSystem t (y_server y) (y_req y ++ []) (y_ack y) (y_sent y) (y_done y + 0) (y_delivered y))) as Hok.
  { intros t E1 E2 E3 E4 E5 E6. rewrite app_nil_r, Nat.add_0_r. exists m, a, b, c, d. split; [|done].
    unfold ends_ok. sys. rewrite E4, E5, E6. split_and!; try done; [|lia..].
    destruct E3 as [->| ->]; [by left|done]. }
  destruct (decide _).
  - apply returns_with_Ret. apply Hok; cbn [t_sock t_active t_mod t_channel t_sno t_out set_tretry]; auto.
  - rewrite decide_False by lia. rewrite bind_Ret. apply returns_with_Ret.
    apply Hok; cbn [t_sock t_active t_mod t_channel t_sno t_out set_tretry mod_trigger set_tmod]; auto.
Qed.

Lemma lose_step y ev :
  system_ok y -> (exists i, ev = YLoseReq i \/ ev = YLoseAck i) -> returns_with system_ok (system_step y ev).
Proof.
  intros (m & a & b & c & d & He & (C1 & C2 & C3 & C4 & C5 & C6)) [i [->| ->]]; apply returns_with_Ret.
  - rewrite C1. destruct (delete_copies i (req_of y (y_done y - 1)) (req_of y (y_done y)) a b)
      as (a' & b' & -> & Ha & Hb).
    exists m, a', b', c, d. split; [done|]. unfold channels_ok. sys.
    split_and!; try done; intros; first [apply C3; lia | apply C4; lia | apply C5; lia | apply C6; lia].
  - rewrite C2. destruct (delete_copies i (ack_of y (y_done y - 1)) (ack_of y (y_done y)) c d)
      as (c' & d' & -> & Ha & Hb).
    exists m, a, b, c', d'. split; [done|]. unfold channels_ok. sys.
    split_and!; try done; intros; first [apply C3; lia | apply C4; lia | apply C5; lia | apply C6; lia].
Qed.

(** The server takes a request for frame [k]. *)
Lemma take_request y k cs :
  (exists m, ends_ok y m) -> (k < length (y_sent y))%nat -> y_req y = req_of y k :: cs ->
  system_step y YReq =
    '(s, o) ← tunnel_request (y_server y)
                (mkTunnelRequest (channel (y_server y)) (num k)
                   (match y_sent y !! k with Some l => cemi_bytes 0x11 l | None => [] end));
    Ret (mkSystem (y_client y) s cs (y_ack y ++ server_datagrams o) (y_sent y) (y_done y)
           (y_delivered y ++ delivered o)).
Proof.
  intros [m He] Hk E. destruct (sent_frame y m k He Hk) as (l & El & Hl).
  assert (is_u8 (channel (y_server y))) as Hch
    by (destruct He as (H1 & _); unfold conn_ok, is_u8 in *; lia).
  cbn [system_step]. rewrite E. unfold req_of. rewrite El.
  destruct (request_received (channel (y_server y)) k l Hch Hl) as (p & -> & Hp).
  rewrite bind_Ret, Hp, bind_Ret. cbn [treq_channel y_server]. by rewrite decide_True.
Qed.

Lemma req_step y : system_ok y -> returns_with system_ok (system_step y YReq).
Proof.
  intros (m & a & b & c & d & He & (C1 & C2 & C3 & C4 & C5 & C6)).
  pose proof He as (H1 & H2 & H3 & H4 & H5 & H6 & H7 & H8 & H9 & H10 & H11 & H12 & H13 & H14 & H15).
  destruct a as [|a].
  - destruct b as [|b].
    { cbn [replicate app] in C1. cbn [system_step]. rewrite C1. apply returns_with_Ret.
      exists m, 0%nat, 0%nat, c, d. by split. }
    (* frame n *)
    assert (length (y_sent y) = S (y_done y)) as Hlen by (apply C4; lia).
    destruct (sent_frame y m (y_done y) He ltac:(lia)) as (l & El & Hl).
    rewrite (take_request y (y_done y) (replicate b (req_of y (y_done y)))) by (eauto || lia).
    rewrite El. destruct H12 as [->| ->].
    + destruct (server_due (y_server y) (y_done y) l) as (s' & o & -> & [Hsame Hok] & Hr & Hd & Ha); [done..|].
      rewrite bind_Ret, Hd, Ha. apply returns_with_Ret.
      assert (channel s' = channel (y_server y)) as Ech by apply Hsame.
      exists (S (y_done y)), 0%nat, b, c, 1%nat. split.
      * unfold ends_ok. sys. rewrite Ech, (bridged_same (y_server y) s') by done.
        assert (cs_type s' = cs_type (y_server y)) as -> by apply Hsame.
        split_and!; try done; try lia.
        by rewrite H10, (take_S_r _ _ l), fmap_app.
      * unfold channels_ok, req_of, ack_of. sys. rewrite Ech. split_and!; try done; try lia.
        rewrite C2. assert (d = 0%nat) as -> by (destruct d; [done|]; specialize (C6 ltac:(lia)); lia).
        cbn [replicate]. by rewrite app_nil_r.
    + destruct (server_repeated (y_server y) (y_done y) l) as (o & -> & Hd & Ha); [done..|].
      rewrite bind_Ret, Hd, Ha, app_nil_r. apply returns_with_Ret.
      exists (S (y_done y)), 0%nat, b, c, (S d). split; [done|].
      unfold channels_ok, req_of, ack_of. sys. split_and!; try done; try lia.
      by rewrite C2, replicate_S_end, app_assoc.
  - (* frame n - 1 *)
    destruct (C3 ltac:(lia)) as [Hn ->].
    destruct (sent_frame y (y_done y) (y_done y - 1) He ltac:(lia)) as (l & El & Hl).
    rewrite (take_request y (y_done y - 1) (replicate a (req_of y (y_done y - 1)) ++ replicate b (req_of y (y_done y))))
      by (eauto || lia).
    rewrite El. destruct (server_repeated (y_server y) (y_done y - 1) l) as (o & -> & Hd & Ha); [done..| |].
    { rewrite H8. f_equal. lia. }
    rewrite bind_Ret, Hd, Ha, app_nil_r. apply returns_with_Ret.
    exists (y_done y), a, b, (S c), d. split; [done|].
    assert (d = 0%nat) as -> by (destruct d; [done|]; specialize (C6 ltac:(lia)); lia).
    unfold channels_ok, req_of, ack_of. sys. split_and!; try done; try lia.
    rewrite C2, replicate_S_end. cbn [replicate]. by rewrite !app_nil_r.
Qed.

(** The client takes an acknowledgement of frame [k]. *)
Lemma take_ack y m k cs :
  ends_ok y m -> y_ack y = ack_of y k :: cs ->
  system_step y YAck =
    client_does y
      (if decide (num k = num (y_done y) /\ t_mod (y_client y) = 2)
       then Ret (set_tretry (mod_trigger (set_tout (set_tseq (y_client y) (t_rno (y_client y)) (num (S (y_done y)))) [])
                               1) 0 (t_timeout (y_client y)), [TO_send_Next])
       else Ret (y_client y, [])) cs (y_sent y).
Proof.
  intros (H1 & _ & _ & _ & H5 & H6 & H7 & _) E. cbn [system_step]. rewrite E. unfold ack_of.
  assert (is_u8 (channel (y_server y))) as Hch by (unfold conn_ok, is_u8 in *; lia).
  destruct (ack_received (channel (y_server y)) k Hch) as (p & -> & Hsv & Hp). rewrite bind_Ret.
  f_equal. apply client_acked; [done|done|by rewrite H6|done].
Qed.

Lemma ack_step y : system_ok y -> returns_with system_ok (system_step y YAck).
Proof.
  intros (m & a & b & c & d & He & (C1 & C2 & C3 & C4 & C5 & C6)).
  pose proof He as (H1 & H2 & H3 & H4 & H5 & H6 & H7 & H8 & H9 & H10 & H11 & H12 & H13 & H14 & H15).
  assert (forall c' d', (c' <= c)%nat -> (d' <= d)%nat ->
    system_ok (mkSystem (y_client y) (y_server y) (y_req y ++ [])
                 (replicate c' (ack_of y (y_done y - 1)) ++ replicate d' (ack_of y (y_done y)))
                 (y_sent y) (y_done y + 0) (y_delivered y))) as Hskip.
  { intros c' d' Hc Hd. rewrite app_nil_r, Nat.add_0_r. exists m, a, b, c', d'. split; [done|].
    unfold channels_ok. sys. split_and!; try done; intros; [apply C5; lia|apply C6; lia]. }
  destruct c as [|c].
  - destruct d as [|d].
    { cbn [replicate app] in C2. cbn [system_step]. rewrite C2. apply returns_with_Ret.
      exists m, a, b, 0%nat, 0%nat. by split. }
    rewrite (take_ack y m (y_done y) (replicate d (ack_of y (y_done y)))) by done.
    destruct (decide _) as [[_ Em]|_].
    2:{ apply returns_with_Ret. apply (Hskip 0%nat d); lia. }
    assert (m = S (y_done y)) as -> by (apply C6; lia).
    assert (a = 0%nat) as -> by (destruct a; [done|]; destruct (C3 ltac:(lia)); lia).
    assert (length (y_sent y) = S (y_done y)) as Hlen by by apply H15.
    apply returns_with_Ret. exists (S (y_done y)), b, 0%nat, d, 0%nat.
    cbn [client_datagrams nexts omap list_omap length]. rewrite app_nil_r, Nat.add_1_r. split.
    + unfold ends_ok. sys. cbn [t_sock t_active t_mod t_channel t_sno t_out set_tseq set_tout set_tretry mod_trigger
        set_tmod]. split_and!; try done; try lia.
      by rewrite (lookup_ge_None_2 _ (S (y_done y))) by lia.
    + unfold channels_ok, req_of, ack_of in *. sys. rewrite Nat.sub_succ, Nat.sub_0_r. cbn [replicate].
      rewrite !app_nil_r. split_and!; try done; lia.
  - rewrite (take_ack y m (y_done y - 1) (replicate c (ack_of y (y_done y - 1)) ++ replicate d (ack_of y (y_done y))))
      by done.
    rewrite decide_False.
    + apply returns_with_Ret. apply Hskip; lia.
    + intros [E _]. specialize (C5 ltac:(lia)). replace (y_done y) with (S (y_done y - 1)) in E at 2 by lia.
      by apply (num_S_ne (y_done y - 1)).
Qed.

Lemma system_step_ok y ev : system_ok y -> system_can y ev -> returns_with system_ok (system_step y ev).
Proof.
  intros Hy Hev. destruct ev.
  - by apply send_step.
  - by apply trigger_step'.
  - by apply timeout_step'.
  - by apply req_step.
  - by apply ack_step.
  - apply lose_step; [done|]. exists i. by left.
  - apply lose_step; [done|]. exists i. by right.
Qed.

Lemma system_run_ok evs : forall y,
  system_ok y -> system_can_all y evs -> returns_with system_ok (system_run y evs).
Proof.
  induction evs as [|ev evs IH]; intros y Hy Hev; cbn [system_run]; [by apply returns_with_Ret|].
  destruct Hev as [Hev Hn]. destruct (system_step_ok y ev Hy Hev) as (y' & E & Hy').
  rewrite E, bind_Ret. apply IH; [done|]. by apply Hn.
Qed.

(** A tunnel that was just set up. *)
Definition just_connected (y : system) : Prop :=
  let t := y_client y in
  let s := y_server y in
  conn_ok s /\ cs_type s = CT_STANDARD /\ rno s = 0 /\ t_sock t = true /\ t_active t = true /\
  t_mod t = 1 /\ t_channel t = channel s /\ t_sno t = 0 /\ t_out t = [] /\
  y_req y = [] /\ y_ack y = [] /\ y_sent y = [] /\ y_done y = 0%nat /\ y_delivered y = [].

(** C8: client, network and server together: through any sequence of frames of at most 236
    payload bytes (what fits into the receive buffer), triggers, deliveries in the order of
    sending and losses of datagrams in both directions (none is doubled or overtaken), and
    time-outs, at most four for a frame (at the fifth the client drops the frame), the frames
    the server has given to its router are exactly the first [m] frames given to
    the client, in order and each once, where [m] is the number of frames the
    client has reported as sent or one more. *)
Theorem tunnel_end_to_end y evs :
  just_connected y -> system_can_all y evs ->
  exists y' m, system_run y evs = Ret y' /\
    y_delivered y' = bridged (y_server y') <$> take m (y_sent y') /\
    (y_done y' <= m <= S (y_done y') /\ m <= length (y_sent y') <= S (y_done y'))%nat.
Proof.
  intros (H1 & H2 & H3 & H4 & H5 & H6 & H7 & H8 & H9 & H10 & H11 & H12 & H13 & H14) Hev.
  assert (system_ok y) as Hy.
  { exists 0%nat, 0%nat, 0%nat, 0%nat, 0%nat. unfold ends_ok, channels_ok.
    rewrite H10, H11, H12, H13, H14. split; split_and!; try done; try (cbn; lia). }
  destruct (system_run_ok evs y Hy Hev) as (y' & E & m & a & b & c & d & He & _).
  destruct He as (_ & _ & _ & _ & _ & _ & _ & _ & _ & Hd & ? & ? & ? & _).
  exists y', m. split_and!; try done; lia.
Qed.

Definition demo_system : system :=
  mkSystem (set_tmod (set_tout demo_tunnel []) 1 false) demo_conn [] [] [] 0 [].

Definition demo_traffic : list system_event :=
  [YSend tunnel_ldata; YTrigger; YLoseReq 0; YTimeout; YTrigger; YReq; YLoseAck 0; YTimeout; YTrigger;
   YReq; YAck; YSend tunnel_ldata; YTrigger; YReq; YAck].

Lemma tunnel_end_to_end_witness :
  exists y' m, system_run demo_system demo_traffic = Ret y' /\
    y_delivered y' = bridged (y_server y') <$> take m (y_sent y') /\
    (y_done y' <= m <= S (y_done y') /\ m <= length (y_sent y') <= S (y_done y'))%nat.
Proof.
  apply tunnel_end_to_end.
  - unfold just_connected. split; [apply demo_conn_ok|]. by split_and!.
  - unfold demo_traffic. cbn [system_can_all].
    repeat match goal with
      | |- True => exact I
      | |- _ /\ _ => split
      | |- forall y', _ = Ret y' -> _ => let E := fresh in intros ? E; vm_compute in E; injection E as <-
      end.
    all: cbn [system_can].
    all: first [ exact I | reflexivity | split; [reflexivity|vm_compute; congruence]
               | split; [reflexivity|split; [split_and!; decided|vm_compute; lia]] ].
Defined.
