(* ===== verification/IoBuf.v ===== *)
(** * Stream buffers

    Models src/src/common/iobuf.h and src/src/common/iobuf.cpp: [class SendBuf], the
    output queue of a stream socket or serial line, and [class RecvBuf], the fixed
    buffer in which its input is collected until the reader accepts it.

    What the system calls return is an input.  The reader behind a [RecvBuf] (its
    callbacks [on_read] and [on_error]) is a parameter, with a state of its own;
    what a reader that takes a stream apart has to satisfy is the class
    [StreamReader]. *)

From S2P Require Import Prelude CArray.

(** ** Sending *)

Record SendBuf := mkSendBuf {
  sb_io : bool;
  sendbuf : option CArray;
  sendpos : nat;
  sendqueue : list CArray;
  ready : bool
}.

(** What [write] on the descriptor returns: a count, or a failure that is
    temporary ([EAGAIN], [EWOULDBLOCK], [EINTR]) or not. *)
Inductive write_result := W_accepts (n : nat) | W_fails (temporary : bool).

(** The bytes that go to the system, and the calls of the callbacks. *)
Inductive send_output := SO_bytes (d : CArray) | SO_error | SO_next.

(** [write] never takes more than it is given. *)
Definition accepted_bytes (w : write_result) (d : CArray) : CArray :=
  match w with W_accepts n => take n d | W_fails _ => [] end.

Definition SendBuf_new : SendBuf := mkSendBuf false None 0 [] false.

Definition SendBuf_write (b : SendBuf) (data : CArray) (w : write_result) : SendBuf * list send_output :=
  if ready b then (mkSendBuf (sb_io b) (sendbuf b) (sendpos b) (sendqueue b ++ [data]) true, [])
  else
    let d := accepted_bytes w data in
    let wrote := match w with W_accepts _ => bool_decide (size d = size data) | W_fails _ => false end in
    if wrote then (b, [SO_bytes d])
    else (mkSendBuf true (Some data) (size d) (sendqueue b) true, [SO_bytes d]).

(** One call of [write] in [io_cb] for the buffer [d] of which [spos] bytes are gone:
    [None] when the buffer is finished, otherwise the state in which [io_cb]
    returns. *)
Definition SendBuf_chunk (d : CArray) (spos : nat) (q : list CArray) (w : write_result)
  : option SendBuf * list send_output :=
  let part := accepted_bytes w (drop spos d) in
  if decide (0 < size part)%nat then
    (if decide (spos + size part < size d)%nat
     then Some (mkSendBuf true (Some d) (spos + size part) q true) else None, [SO_bytes part])
  else
    match w with
    | W_fails true => (Some (mkSendBuf true (Some d) spos q true), [])
    | _ => (Some (mkSendBuf false (Some d) spos q true), [SO_error])
    end.

(** The loop of [io_cb] when no buffer is being written: each round takes one from the
    queue.  [ws]: the results of the calls of [write]; when they are used up, the
    descriptor accepts no more. *)
Fixpoint SendBuf_loop (q : list CArray) (ws : list write_result) : SendBuf * list send_output :=
  match q with
  | [] => (mkSendBuf false None 0 [] false, [SO_next])
  | d :: q' =>
      match SendBuf_chunk d 0 q' (default (W_fails true) (head ws)) with
      | (Some b, o) => (b, o)
      | (None, o) => let '(b, o') := SendBuf_loop q' (tail ws) in (b, o ++ o')
      end
  end.

Definition SendBuf_io_cb (b : SendBuf) (ws : list write_result) : SendBuf * list send_output :=
  match sendbuf b with
  | None => SendBuf_loop (sendqueue b) ws
  | Some d =>
      match SendBuf_chunk d (sendpos b) (sendqueue b) (default (W_fails true) (head ws)) with
      | (Some b', o) => (b', o)
      | (None, o) => let '(b', o') := SendBuf_loop (sendqueue b) (tail ws) in (b', o ++ o')
      end
  end.

Definition SendBuf_start (b : SendBuf) : SendBuf :=
  mkSendBuf true (sendbuf b) (sendpos b) (sendqueue b) (ready b).
Definition SendBuf_stop (b : SendBuf) : SendBuf :=
  mkSendBuf false (sendbuf b) (sendpos b) (sendqueue b) (ready b).

(** *** What is sent *)

Inductive send_event :=
| SE_write (data : CArray) (w : write_result)
| SE_io (ws : list write_result)
| SE_start
| SE_stop.

Definition send_step (b : SendBuf) (e : send_event) : SendBuf * list send_output :=
  match e with
  | SE_write d w => SendBuf_write b d w
  | SE_io ws => SendBuf_io_cb b ws
  | SE_start => (SendBuf_start b, [])
  | SE_stop => (SendBuf_stop b, [])
  end.

Fixpoint send_run (b : SendBuf) (es : list send_event) : SendBuf * list send_output :=
  match es with
  | [] => (b, [])
  | e :: es => let '(b, o) := send_step b e in let '(b, o') := send_run b es in (b, o ++ o')
  end.

(** The bytes given to the buffer, those that went to the system and those that wait. *)
Definition given (es : list send_event) : CArray :=
  concat (omap (fun e => match e with SE_write d _ => Some d | _ => None end) es).
Definition sent (os : list send_output) : CArray :=
  concat (omap (fun o => match o with SO_bytes d => Some d | _ => None end) os).
Definition unsent (b : SendBuf) : CArray :=
  match sendbuf b with Some d => drop (sendpos b) d | None => [] end ++ concat (sendqueue b).

#[local] Arguments sent : simpl never.
#[local] Arguments unsent : simpl never.
#[local] Arguments given : simpl never.

Definition sendbuf_ok (b : SendBuf) : Prop :=
  ready b = false -> sendbuf b = None /\ sendqueue b = [].

Lemma sent_app (o o' : list send_output) : sent (o ++ o') = sent o ++ sent o'.
Proof. unfold sent. by rewrite omap_app, concat_app. Qed.

Lemma accepted_prefix (w : write_result) (d : CArray) :
  accepted_bytes w d ++ drop (size (accepted_bytes w d)) d = d.
Proof.
  destruct w as [n|t]; [|done]. cbn. unfold size. rewrite length_take.
  destruct (decide (n <= length d)%nat) as [Hn|Hn].
  - by rewrite Nat.min_l, take_drop.
  - rewrite Nat.min_r, take_ge, drop_ge by lia. apply app_nil_r.
Qed.

(** A round of writing moves bytes from the front of the buffer to the system. *)
Lemma chunk_sends (d : CArray) (spos : nat) (q : list CArray) (w : write_result) :
  sent (SendBuf_chunk d spos q w).2 ++
    match (SendBuf_chunk d spos q w).1 with Some b => unsent b | None => concat q end
  = drop spos d ++ concat q /\
  (forall b, (SendBuf_chunk d spos q w).1 = Some b -> ready b = true).
Proof.
  unfold SendBuf_chunk. pose proof (accepted_prefix w (drop spos d)) as Hp.
  rewrite drop_drop in Hp. set (p := accepted_bytes w (drop spos d)) in *.
  destruct (decide (0 < size p)%nat) as [H0|H0].
  - destruct (decide (spos + size p < size d)%nat) as [H1|H1]; cbn; (split; [|by intros b [= <-]]).
    + unfold unsent, sent; cbn. by rewrite app_nil_r, app_assoc, Hp.
    + unfold sent; cbn. rewrite app_nil_r. rewrite drop_ge in Hp by (unfold size in *; lia).
      by rewrite app_nil_r in Hp; rewrite Hp.
  - by destruct w as [n|[]]; cbn; (split; [|by intros b [= <-]]).
Qed.

Lemma loop_sends (q : list CArray) (ws : list write_result) :
  sent (SendBuf_loop q ws).2 ++ unsent (SendBuf_loop q ws).1 = concat q /\
  sendbuf_ok (SendBuf_loop q ws).1.
Proof.
  revert ws; induction q as [|d q IH]; intros ws; [done|]. cbn.
  destruct (chunk_sends d 0 q (default (W_fails true) (head ws))) as [Hs Hr].
  destruct (SendBuf_chunk d 0 q _) as [[b|] o]; cbn in *.
  - split; [done|]. intros Hb. by rewrite (Hr b) in Hb.
  - destruct (IH (tail ws)) as [IH1 IH2]. destruct (SendBuf_loop q (tail ws)) as [b o']; cbn in *.
    split; [|done]. rewrite sent_app, <- app_assoc, IH1. done.
Qed.

Lemma io_cb_sends (b : SendBuf) (ws : list write_result) :
  sent (SendBuf_io_cb b ws).2 ++ unsent (SendBuf_io_cb b ws).1 = unsent b /\
  sendbuf_ok (SendBuf_io_cb b ws).1.
Proof.
  unfold SendBuf_io_cb. unfold unsent at 2. destruct (sendbuf b) as [d|]; [|apply loop_sends].
  destruct (chunk_sends d (sendpos b) (sendqueue b) (default (W_fails true) (head ws))) as [Hs Hr].
  destruct (SendBuf_chunk d _ _ _) as [[b'|] o]; cbn in *.
  - split; [done|]. intros Hb'. by rewrite (Hr b') in Hb'.
  - destruct (loop_sends (sendqueue b) (tail ws)) as [L1 L2].
    destruct (SendBuf_loop _ _) as [b' o']; cbn in *.
    split; [|done]. by rewrite sent_app, <- app_assoc, L1.
Qed.

Lemma write_sends (b : SendBuf) (d : CArray) (w : write_result) :
  sendbuf_ok b ->
  sent (SendBuf_write b d w).2 ++ unsent (SendBuf_write b d w).1 = unsent b ++ d /\
  sendbuf_ok (SendBuf_write b d w).1.
Proof.
  intros Hb. unfold SendBuf_write. destruct (ready b) eqn:Hr; cbn.
  - split; [|done]. unfold unsent, sent; cbn. rewrite concat_app; cbn. by rewrite app_nil_r, !app_assoc.
  - destruct (Hb Hr) as [H1 H2]. pose proof (accepted_prefix w d) as Hp.
    assert (unsent b = []) as -> by (unfold unsent; by rewrite H1, H2).
    assert (forall x, sent [SO_bytes x] = x) as Hx by (intros x; unfold sent; cbn; apply app_nil_r).
    destruct w as [n|t]; [case_bool_decide as Hw|]; cbn in *; rewrite Hx; (split; [|done]);
      unfold unsent; cbn; rewrite ?H1, ?H2, ?app_nil_r; cbn; [|done..].
    rewrite Hw in Hp. unfold size in Hp. rewrite drop_all, app_nil_r in Hp. done.
Qed.

Lemma send_step_sends (b : SendBuf) (e : send_event) :
  sendbuf_ok b ->
  sent (send_step b e).2 ++ unsent (send_step b e).1 = unsent b ++ given [e] /\
  sendbuf_ok (send_step b e).1.
Proof.
  intros Hb. unfold given. destruct e as [d w|ws| |]; cbn; rewrite ?app_nil_r;
    [by apply write_sends|apply io_cb_sends|done..].
Qed.

Lemma given_cons (e : send_event) (es : list send_event) : given (e :: es) = given [e] ++ given es.
Proof. unfold given. rewrite <- concat_app, <- omap_app. done. Qed.

Lemma send_run_sends (b : SendBuf) (es : list send_event) :
  sendbuf_ok b ->
  sent (send_run b es).2 ++ unsent (send_run b es).1 = unsent b ++ given es /\
  sendbuf_ok (send_run b es).1.
Proof.
  revert b; induction es as [|e es IH]; intros b Hb; [by rewrite app_nil_r|].
  destruct (send_step_sends b e Hb) as [S1 S2]. cbn.
  destruct (send_step b e) as [b1 o1]. cbn in *.
  destruct (IH b1 S2) as [I1 I2]. destruct (send_run b1 es) as [b2 o2]. cbn in *.
  split; [|done]. rewrite (given_cons e es), sent_app, <- app_assoc, I1, app_assoc, S1. symmetry. apply app_assoc.
Qed.

(** C17: the output buffer is a byte stream: whatever the system accepts and refuses and
    however writes, readiness events, stops and starts are interleaved, the bytes that went out
    are a prefix of the bytes given to the buffer, in order and without
    repetition, the rest is still in the buffer, and there is no rest when the
    buffer is not [ready]. *)
Theorem send_stream (es : list send_event) :
  let '(b, o) := send_run SendBuf_new es in
  sent o ++ unsent b = given es /\
  (ready b = false -> sent o = given es).
Proof.
  destruct (send_run_sends SendBuf_new es) as [H1 H2]; [done|].
  change (unsent SendBuf_new ++ given es) with (given es) in H1.
  destruct (send_run SendBuf_new es) as [b o]; cbn in *. split; [done|].
  intros Hr. destruct (H2 Hr) as [H3 H4]. rewrite <- H1. unfold unsent. rewrite H3, H4. cbn.
  by rewrite app_nil_r.
Qed.

Lemma loop_flushes (q : list CArray) (n : nat) :
  Forall (fun d => (0 < size d <= n)%nat) q ->
  ready (SendBuf_loop q (replicate (length q) (W_accepts n))).1 = false.
Proof.
  induction q as [|d q IH]; [done|]. intros [Hd Hq]%Forall_cons_iff. cbn.
  unfold SendBuf_chunk. cbn. rewrite drop_0, take_ge by (unfold size in *; lia).
  rewrite decide_True, decide_False by (unfold size in *; lia).
  specialize (IH Hq). by destruct (SendBuf_loop q _) as [b o].
Qed.

(** *** Receiving *)

(** [sizeof (recvbuf)] *)
Definition RECVBUF : nat := 1024.
#[global] Arguments RECVBUF : simpl never.

(** [recvbuf]: the array; [recvpos]: how many of its bytes are received and not yet
    taken by the reader.  The others keep what was there before. *)
Record RecvBuf := mkRecvBuf {
  rb_io : bool;
  quick : bool;
  running : bool;
  recvbuf : CArray;
  recvpos : nat
}.

(** What [read] on the descriptor returns: bytes, the end of the stream or a
    failure that is temporary or not. *)
Inductive read_result := R_bytes (d : CArray) | R_eof | R_fails (temporary : bool).

Definition RecvBuf_new (a : CArray) : RecvBuf := mkRecvBuf false false false a 0.

Definition set_rio (r : RecvBuf) (b : bool) : RecvBuf :=
  mkRecvBuf b (quick r) (running r) (recvbuf r) (recvpos r).

Section RecvBuf.

(** The reader: its state, [on_read] (given the array and how much of it is valid, it
    returns how many bytes it has taken) and [on_error]. *)
Context {S : Type} (on_read : S -> CArray -> nat -> outcome (S * nat)) (on_error : S -> outcome S).

(** The bytes the reader took are removed: [memmove] of the rest to the front. *)
Definition RecvBuf_consume (r : RecvBuf) (i : nat) : RecvBuf :=
  let rest := (recvpos r - i)%nat in
  mkRecvBuf (rb_io r) (quick r) (running r)
    (take rest (drop i (recvbuf r)) ++ drop rest (recvbuf r)) rest.

Fixpoint RecvBuf_loop (rounds : nat) (r : RecvBuf) (s : S) : outcome (RecvBuf * S) :=
  if running r && bool_decide (0 < recvpos r)%nat then
    match rounds with
    | O => Fault StackOverflow
    | Datatypes.S rounds =>
        '(s, i) ← on_read s (recvbuf r) (recvpos r);
        if decide (i = 0%nat) then
          if decide (recvpos r = RECVBUF) then s ← on_error s; Ret (set_rio r false, s) else Ret (r, s)
        else if decide (recvpos r < i)%nat then Fault OutOfRange
        else RecvBuf_loop rounds (RecvBuf_consume r i) s
    end
  else Ret (r, s).

Definition RecvBuf_feed_out (r : RecvBuf) (s : S) : outcome (RecvBuf * S) :=
  RecvBuf_loop (recvpos r) r s.

(** [recvpos += i] for the bytes [d] that were read. *)
Definition RecvBuf_append (r : RecvBuf) (d : CArray) : RecvBuf :=
  mkRecvBuf (rb_io r) (quick r) (running r)
    (take (recvpos r) (recvbuf r) ++ d ++ drop (recvpos r + size d) (recvbuf r)) (recvpos r + size d).

(** The loop of [io_cb] that reads, with what the calls of [read] return.  [read]
    never returns more than it was asked for, which is one byte for a [quick]
    buffer. *)
Fixpoint RecvBuf_read (some : bool) (r : RecvBuf) (s : S) (rs : list read_result) : outcome (RecvBuf * S) :=
  if decide (recvpos r < RECVBUF)%nat then
    match default (R_fails true) (head rs), rs with
    | R_bytes d, _ :: rs =>
        let d := take (if quick r then 1%nat else (RECVBUF - recvpos r)%nat) d in
        if decide (d = []) then
          if some then Ret (r, s) else s ← on_error s; Ret (set_rio r false, s)
        else if quick r then RecvBuf_read true (RecvBuf_append r d) s rs
        else Ret (RecvBuf_append r d, s)
    | R_fails true, _ => Ret (r, s)
    | _, _ => if some then Ret (r, s) else s ← on_error s; Ret (set_rio r false, s)
    end
  else Ret (r, s).

Definition RecvBuf_io_cb (r : RecvBuf) (s : S) (rs : list read_result) : outcome (RecvBuf * S) :=
  '(r, s) ← RecvBuf_read false r s rs;
  RecvBuf_feed_out r s.

Definition RecvBuf_start (r : RecvBuf) (s : S) : outcome (RecvBuf * S) :=
  if running r then Ret (r, s)
  else RecvBuf_feed_out (mkRecvBuf true (quick r) true (recvbuf r) (recvpos r)) s.

(** [if (!running) running = false;] *)
Definition RecvBuf_stop (r : RecvBuf) : RecvBuf :=
  let r := if negb (running r) then mkRecvBuf (rb_io r) (quick r) false (recvbuf r) (recvpos r) else r in
  set_rio r false.

End RecvBuf.

(** A full buffer from which the reader takes nothing is an error. *)
Lemma feed_full {S} (on_read : S -> CArray -> nat -> outcome (S * nat)) (on_error : S -> outcome S)
  (r : RecvBuf) (s s' : S) :
  running r = true -> recvpos r = RECVBUF -> on_read s (recvbuf r) RECVBUF = Ret (s', 0%nat) ->
  RecvBuf_feed_out on_read on_error r s = (s ← on_error s'; Ret (set_rio r false, s)).
Proof.
  intros Hr Hp Ho. unfold RecvBuf_feed_out. rewrite Hp.
  assert (exists k, RECVBUF = Datatypes.S k) as [k Hk] by (exists 1023%nat; reflexivity).
  rewrite Hk. cbn [RecvBuf_loop]. rewrite Hr, Hp, bool_decide_true, Ho, bind_Ret by lia. cbn [andb].
  rewrite !decide_True by done. done.
Qed.

Lemma app_split_longer {A} (l t f st : list A) :
  l ++ t = f ++ st -> (length f <= length l)%nat ->
  l = f ++ drop (length f) l /\ drop (length f) l ++ t = st.
Proof.
  intros H Hl. destruct (app_eq_inv _ _ _ _ H) as [(k & -> & ->)|(k & -> & ->)].
  - by rewrite drop_app_length.
  - rewrite length_app in Hl. destruct k as [|x k]; [|cbn in Hl; lia].
    by rewrite !app_nil_r, drop_all, app_nil_r.
Qed.

Lemma app_split_shorter {A} (l t f st : list A) :
  l ++ t = f ++ st -> (length l < length f)%nat -> exists x rest, f = l ++ x :: rest.
Proof.
  intros H Hl. destruct (app_eq_inv _ _ _ _ H) as [(k & -> & ->)|(k & -> & ->)].
  - rewrite length_app in Hl. lia.
  - destruct k as [|x k]; [rewrite app_nil_r in Hl; lia|]. by exists x, k.
Qed.

(** *** Taking a stream apart

    A reader of messages [M]: [frame] is how a message is encoded in the stream,
    [valid] the messages the buffer can hold, [handle] what the reader does with one. *)

Class StreamReader {S M : Type} (on_read : S -> CArray -> nat -> outcome (S * nat))
  (frame : M -> CArray) (valid : M -> Prop) (handle : S -> M -> outcome S) : Prop := {
  frame_size m : valid m -> (0 < size (frame m) <= RECVBUF)%nat;
  reader_complete s m a len rest :
    valid m -> size a = RECVBUF -> (len <= RECVBUF)%nat -> take len a = frame m ++ rest ->
    on_read s a len = (s' ← handle s m; Ret (s', size (frame m)));
  reader_partial s m a len x rest :
    valid m -> size a = RECVBUF -> (len <= RECVBUF)%nat -> frame m = take len a ++ x :: rest ->
    on_read s a len = Ret (s, 0%nat)
}.

Section Stream.
Context {S M : Type} {on_read : S -> CArray -> nat -> outcome (S * nat)} {frame : M -> CArray}
  {valid : M -> Prop} {handle : S -> M -> outcome S} `{!StreamReader on_read frame valid handle}
  (on_error : S -> outcome S).

(** The reader's state after some messages. *)
Fixpoint handle_all (s : S) (ms : list M) : outcome S :=
  match ms with
  | [] => Ret s
  | m :: ms => s ← handle s m; handle_all s ms
  end.

Definition stream (ms : list M) : CArray := concat (frame <$> ms).

Definition recvbuf_ok (r : RecvBuf) : Prop :=
  size (recvbuf r) = RECVBUF /\ (recvpos r <= RECVBUF)%nat /\ running r = true /\ quick r = false.

Definition received_part (r : RecvBuf) : CArray := take (recvpos r) (recvbuf r).

(** The buffer waits for the rest of the first of the messages [ms]. *)
Definition waits_for (r : RecvBuf) (ms : list M) : Prop :=
  match ms with [] => recvpos r = 0%nat | m :: _ => (recvpos r < size (frame m))%nat end.

Lemma received_size (r : RecvBuf) : recvbuf_ok r -> size (received_part r) = recvpos r.
Proof. intros (Ha & Hp & _). unfold received_part, size in *. rewrite length_take. lia. Qed.

Lemma consume_ok (r : RecvBuf) (i : nat) :
  recvbuf_ok r -> (i <= recvpos r)%nat ->
  recvbuf_ok (RecvBuf_consume r i) /\ received_part (RecvBuf_consume r i) = drop i (received_part r).
Proof.
  intros (Ha & Hp & Hr & Hq) Hi. unfold recvbuf_ok, received_part, RecvBuf_consume, size in *; cbn.
  rewrite length_app, length_take, !length_drop. split_and!; try done; try lia.
  rewrite skipn_firstn_comm. apply take_app_length'. rewrite length_take, length_drop. lia.
Qed.

Lemma append_ok (r : RecvBuf) (d : CArray) :
  recvbuf_ok r -> (recvpos r + size d <= RECVBUF)%nat ->
  recvbuf_ok (RecvBuf_append r d) /\ received_part (RecvBuf_append r d) = received_part r ++ d.
Proof.
  intros (Ha & Hp & Hr & Hq) Hd. unfold recvbuf_ok, received_part, RecvBuf_append, size in *; cbn.
  rewrite !length_app, length_take, !length_drop. split_and!; try done; try lia.
  rewrite app_assoc. apply take_app_length'. rewrite length_app, length_take. lia.
Qed.

(** [feed_out] hands the complete messages to the reader, and only those. *)
Lemma loop_feeds (rounds : nat) (r : RecvBuf) (ms : list M) (tl : CArray) :
  Forall valid ms -> recvbuf_ok r -> (recvpos r <= rounds)%nat -> received_part r ++ tl = stream ms ->
  exists ms1 ms2 r',
    ms = ms1 ++ ms2 /\
    (forall s, RecvBuf_loop on_read on_error rounds r s = (s' ← handle_all s ms1; Ret (r', s'))) /\
    recvbuf_ok r' /\ received_part r' ++ tl = stream ms2 /\ waits_for r' ms2.
Proof using All.
  revert r ms; induction rounds as [|rounds IH]; intros r ms Hv Hr Hn Hst.
  all: destruct (decide (recvpos r = 0%nat)) as [H0|H0]; [|try lia].
  1,2: exists [], ms, r; split_and!; try done;
    [cbn; rewrite bool_decide_false by lia; by rewrite andb_false_r
    |destruct ms as [|m ms]; [done|]; apply Forall_cons_iff in Hv as [Hm _];
     cbn; pose proof (frame_size m Hm); lia].
  pose proof Hr as (Ha & Hp & Hrun & Hq). pose proof (received_size r Hr) as Hsz.
  destruct ms as [|m ms]; [apply app_eq_nil in Hst as [Hst _]; rewrite Hst in Hsz; cbn in Hsz; lia|].
  pose proof Hv as [Hm Hv']%Forall_cons_iff. pose proof (frame_size m Hm) as Hf.
  change (stream (m :: ms)) with (frame m ++ stream ms) in Hst.
  destruct (decide (recvpos r < size (frame m))%nat) as [Hlt|Hge].
  - destruct (app_split_shorter _ _ _ _ Hst) as (x & k & Hk); [unfold size in *; lia|].
    exists [], (m :: ms), r. split_and!; try done. intros s. cbn [RecvBuf_loop].
    rewrite Hrun, bool_decide_true by lia. cbn [andb].
    rewrite (reader_partial s m _ _ x k Hm Ha Hp Hk). cbn. rewrite decide_True by done. by rewrite decide_False by lia.
  - destruct (app_split_longer _ _ _ _ Hst) as [H1 H2]; [unfold size in *; lia|].
    destruct (consume_ok r (size (frame m)) Hr) as [C1 C2]; [lia|].
    fold (size (frame m)) in H2. rewrite <- C2 in H2.
    destruct (IH _ _ Hv' C1 ltac:(cbn; lia) H2) as (ms1 & ms2 & r' & -> & Hloop & Hok & Hst' & Hw).
    exists (m :: ms1), ms2, r'. split_and!; try done. intros s. cbn [RecvBuf_loop].
    rewrite Hrun, bool_decide_true by lia. cbn [andb].
    rewrite (reader_complete s m _ _ _ Hm Ha Hp H1). cbn.
    destruct (handle s m) as [s1|f]; cbn; [|done].
    rewrite !decide_False by lia. apply Hloop.
Qed.

(** The system holds the bytes [incoming]; each call of [io_cb] reads up to [n] of them, or
    as many as it asks for, and finds the descriptor not ready when there are none. *)
Fixpoint read_run (r : RecvBuf) (s : S) (incoming : CArray) (ns : list nat)
  : outcome (RecvBuf * S * CArray) :=
  match ns with
  | [] => Ret (r, s, incoming)
  | n :: ns =>
      let d := take (Nat.min n (RECVBUF - recvpos r)) incoming in
      '(r, s) ← RecvBuf_io_cb on_read on_error r s [if decide (d = []) then R_fails true else R_bytes d];
      read_run r s (drop (size d) incoming) ns
  end.

Lemma handle_all_app (s : S) (ms1 ms2 : list M) :
  handle_all s (ms1 ++ ms2) = (s' ← handle_all s ms1; handle_all s' ms2).
Proof.
  revert s; induction ms1 as [|m ms1 IH]; intros s; [done|]. cbn.
  destruct (handle s m); cbn; [apply IH|done].
Qed.

(** One event: what was read is appended, the complete messages are handled. *)
Lemma io_cb_feeds (r : RecvBuf) (ms : list M) (d tl : CArray) :
  Forall valid ms -> recvbuf_ok r -> waits_for r ms -> (recvpos r + size d <= RECVBUF)%nat ->
  received_part r ++ d ++ tl = stream ms ->
  exists ms1 ms2 r',
    ms = ms1 ++ ms2 /\
    (forall s, RecvBuf_io_cb on_read on_error r s [if decide (d = []) then R_fails true else R_bytes d] =
       (s' ← handle_all s ms1; Ret (r', s'))) /\
    recvbuf_ok r' /\ received_part r' ++ tl = stream ms2 /\ waits_for r' ms2.
Proof using All.
  intros Hv Hr Hw Hd Hst. pose proof Hr as (Ha & Hp & Hrun & Hq).
  set (r1 := if decide (d = []) then r else RecvBuf_append r d).
  assert (recvbuf_ok r1 /\ received_part r1 = received_part r ++ d) as [Hr1 Hp1].
  { unfold r1. destruct (decide (d = [])) as [->|Hne]; [by rewrite app_nil_r|by apply append_ok]. }
  rewrite app_assoc, <- Hp1 in Hst.
  destruct (loop_feeds (recvpos r1) r1 ms tl Hv Hr1 ltac:(lia) Hst)
    as (ms1 & ms2 & r' & -> & Hloop & Hrest).
  exists ms1, ms2, r'. split_and!; try done; try apply Hrest. intros s.
  rewrite <- Hloop. unfold RecvBuf_io_cb. f_equal.
  unfold r1. destruct (decide (d = [])) as [->|Hne]; cbn.
  - by destruct (decide _).
  - destruct (decide (recvpos r < RECVBUF)%nat) as [Hlt|Hge].
    + rewrite Hq, take_ge by (unfold size in *; lia). by rewrite decide_False.
    + destruct d; [done|cbn in Hd; lia].
Qed.

(** A buffer that waits for a valid message has room for more. *)
Lemma waits_room (r : RecvBuf) (ms : list M) :
  Forall valid ms -> waits_for r ms -> (recvpos r < RECVBUF)%nat.
Proof using All.
  destruct ms as [|m ms]; cbn; [intros _ ->; unfold RECVBUF; lia|].
  intros [Hm _]%Forall_cons_iff. apply (frame_size (frame := frame)) in Hm. lia.
Qed.

Lemma read_run_feeds (ns : list nat) (r : RecvBuf) (ms : list M) (incoming : CArray) :
  Forall valid ms -> recvbuf_ok r -> waits_for r ms -> received_part r ++ incoming = stream ms ->
  exists ms1 ms2 r' rest,
    ms = ms1 ++ ms2 /\
    (forall s, read_run r s incoming ns = (s' ← handle_all s ms1; Ret (r', s', rest))) /\
    (Forall (fun n => 0 < n)%nat ns -> (size rest <= size incoming - length ns)%nat) /\
    recvbuf_ok r' /\ received_part r' ++ rest = stream ms2 /\ waits_for r' ms2.
Proof using All.
  revert r ms incoming; induction ns as [|n ns IH]; intros r ms incoming Hv Hr Hw Hst.
  - exists [], ms, r, incoming. split_and!; try done. cbn. lia.
  - set (d := take (Nat.min n (RECVBUF - recvpos r)) incoming).
    pose proof Hr as (Ha & Hp & Hrun & Hq).
    assert (incoming = d ++ drop (size d) incoming) as Hin.
    { unfold d, size. rewrite length_take. set (k := Nat.min n _).
      destruct (decide (k <= length incoming)%nat).
      - rewrite Nat.min_l by lia. by rewrite take_drop.
      - rewrite Nat.min_r, take_ge, drop_all by lia. by rewrite app_nil_r. }
    rewrite Hin in Hst.
    assert (recvpos r + size d <= RECVBUF)%nat as Hd.
    { unfold d, size. rewrite length_take. lia. }
    destruct (io_cb_feeds r ms d _ Hv Hr Hw Hd Hst)
      as (ms1 & ms2 & r' & -> & Hio & Hr' & Hst' & Hw').
    assert (recvpos r < RECVBUF)%nat as Hfull by (eapply waits_room; eauto).
    apply Forall_app in Hv as [_ Hv].
    destruct (IH r' ms2 _ Hv Hr' Hw' Hst') as (ms3 & ms4 & r'' & rest & -> & Hrun' & Hless & Hpost).
    exists (ms1 ++ ms3), ms4, r'', rest. split_and!; try apply Hpost; [by rewrite app_assoc| |].
    + intros s. cbn [read_run]. fold d. rewrite Hio, handle_all_app.
      destruct (handle_all s ms1) as [s1|f]; cbn; [apply Hrun'|done].
    + intros [Hn Hns]%Forall_cons_iff. specialize (Hless Hns).
      unfold d, size in Hless. rewrite length_drop, length_take in Hless. unfold size. cbn. lia.
Qed.

(** However the stream of the encoded messages is cut into reads, the reader handles
    the messages one after the other, each exactly once; when the system
    holds no more bytes, all of them, which is the case after as many reads as the stream
    has bytes. *)
Lemma stream_segmentation (ns : list nat) (a : CArray) (s : S) (ms : list M) :
  Forall valid ms -> size a = RECVBUF ->
  exists ms1 ms2 r rest,
    ms = ms1 ++ ms2 /\
    read_run (mkRecvBuf true false true a 0) s (stream ms) ns =
      (s' ← handle_all s ms1; Ret (r, s', rest)) /\
    (rest = [] -> ms2 = []) /\
    (Forall (fun n => 0 < n)%nat ns -> (size (stream ms) <= length ns)%nat -> rest = []).
Proof using All.
  intros Hv Ha.
  destruct (read_run_feeds ns (mkRecvBuf true false true a 0) ms (stream ms) Hv)
    as (ms1 & ms2 & r & rest & -> & Hrun & Hless & Hr & Hst & Hw); try done.
  { unfold recvbuf_ok; cbn. split_and!; try done. unfold RECVBUF. lia. }
  { destruct ms as [|m ms]; [done|]. apply Forall_cons_iff in Hv as [Hm _].
    apply (frame_size (frame := frame)) in Hm. cbn. lia. }
  exists ms1, ms2, r, rest. split_and!; [done|apply Hrun| |].
  2: { intros Hns Hl. specialize (Hless Hns). apply nil_length_inv. unfold size in *. lia. }
  intros ->.
  destruct ms2 as [|m ms2]; [done|]. cbn in Hw. rewrite app_nil_r in Hst.
  apply (f_equal length) in Hst. unfold stream in Hst. cbn in Hst. rewrite length_app in Hst.
  apply received_size in Hr. unfold size in *. lia.
Qed.
End Stream.
