(* ===== verification/Layer4.v ===== *)
(** * Transport layer sockets and connections

    Models src/src/libserver/layer4.h and src/src/libserver/layer4.cpp: the sockets
    for broadcasts, group and individual addresses, raw transport packets and
    group communication, and [class T_Connection], the connection-oriented
    transport with sequence numbers, acknowledgements and repetitions.

    A socket is a driver: [send_L_Data] is called by its link with a frame from
    the bus, [recv_Data] by the client with a payload for it.  What a method
    calls is a list of outputs, in order. *)

From S2P Require Import Prelude CArray Common ApduSpec Apdu Tpdu Lpdu LpduSpec.

(** ** What is exchanged with clients *)

Record BroadcastComm := mkBroadcastComm { bc_data : CArray; bc_src : Z }.
Record GroupComm := mkGroupComm { gc_data : CArray; gc_src : Z }.
Record TpduComm := mkTpduComm { tpc_data : CArray; tpc_addr : Z }.
Record GroupAPDU := mkGroupAPDU { ga_data : CArray; ga_src : Z; ga_dst : Z }.

(** [app->send], [recv->recv_L_Data] and [send_Next]. *)
Inductive l4_output (C : Type) :=
| L4_app (c : C)
| L4_recv (l : L_Data_PDU)
| L4_send_Next.
Arguments L4_app {C} c.
Arguments L4_recv {C} l.
Arguments L4_send_Next {C}.

#[export] Instance l4_output_eq_dec `{EqDecision C} : EqDecision (l4_output C).
Proof. solve_decision. Defined.

(** [Layer4commonWO]: the members that the address checks use.  [l4_addr] is what
    [getAddress ()] returns. *)
Record Layer4commonWO := mkLayer4 { l4_addr : Z; write_only : bool }.

Definition l4_checkAddress (c : Layer4commonWO) (a : Z) : bool :=
  negb (write_only c) && bool_decide (a = l4_addr c).
Definition l4_checkGroupAddress (c : Layer4commonWO) (a : Z) : bool := negb (write_only c).

(** ** Sockets

    [recv] points to the socket's link for as long as the socket is used. *)

(** A new frame with the members the sockets set. *)
Definition l4_frame (t : EIB_AddrType) (src dst hops : Z) (d : CArray) : L_Data_PDU :=
  mkL_Data PRIO_LOW false true true t src dst hops d.

(** The payload of an unnumbered data packet, which is what most sockets pass on. *)
Definition xxx_data (l : L_Data_PDU) : outcome (option CArray) :=
  t ← TPDU_fromPacket (data l);
  Ret (match t with T_DATA_XXX_REQ_PDU d => Some d | _ => None end).

(** A payload, encoded as an unnumbered data packet; it is printed before. *)
Definition xxx_packet (c : CArray) : outcome CArray :=
  _ ← T_DATA_XXX_REQ_Decode c;
  T_DATA_XXX_REQ_ToPacket c.

Definition T_Broadcast_send_L_Data (l : L_Data_PDU) : outcome (list (l4_output BroadcastComm)) :=
  d ← xxx_data l;
  Ret (match d with Some d => [L4_app (mkBroadcastComm d (source l))] | None => [] end ++ [L4_send_Next]).

Definition T_Broadcast_recv_Data (c : CArray) : outcome (list (l4_output BroadcastComm)) :=
  p ← xxx_packet c;
  Ret [L4_recv (l4_frame GroupAddress 0 0 0x07 p)].

Definition T_Group_send_L_Data (l : L_Data_PDU) : outcome (list (l4_output GroupComm)) :=
  d ← xxx_data l;
  Ret (match d with Some d => [L4_app (mkGroupComm d (source l))] | None => [] end ++ [L4_send_Next]).

Definition T_Group_recv_Data (groupaddr : Z) (c : CArray) : outcome (list (l4_output GroupComm)) :=
  p ← xxx_packet c;
  Ret [L4_recv (l4_frame GroupAddress 0 groupaddr 0x06 p)].

Definition T_TPDU_send_L_Data (l : L_Data_PDU) : list (l4_output TpduComm) :=
  [L4_app (mkTpduComm (data l) (source l)); L4_send_Next].

Definition T_TPDU_recv_Data (src : Z) (c : TpduComm) : list (l4_output TpduComm) :=
  [L4_recv (l4_frame IndividualAddress src (tpc_addr c) 0x06 (tpc_data c))].

Definition T_Individual_send_L_Data (l : L_Data_PDU) : outcome (list (l4_output CArray)) :=
  d ← xxx_data l;
  Ret (match d with Some d => [L4_app d] | None => [] end ++ [L4_send_Next]).

Definition T_Individual_recv_Data (dst : Z) (c : CArray) : outcome (list (l4_output CArray)) :=
  p ← xxx_packet c;
  Ret [L4_recv (l4_frame IndividualAddress 0 dst 0x06 p)].

Definition GroupSocket_send_L_Data (l : L_Data_PDU) : outcome (list (l4_output GroupAPDU)) :=
  d ← xxx_data l;
  Ret (match d with Some d => [L4_app (mkGroupAPDU d (source l) (dest l))] | None => [] end
       ++ [L4_send_Next]).

Definition GroupSocket_recv_Data (c : GroupAPDU) : outcome (list (l4_output GroupAPDU)) :=
  p ← xxx_packet (ga_data c);
  Ret [L4_recv (l4_frame GroupAddress 0 (ga_dst c) 0x06 p)].

(** ** Connections *)

(** [mode]: 0 closed, 1 idle, 2 waiting for an acknowledgement. *)
Record T_Connection := mkTConn {
  tc_in : list CArray;
  tc_current : CArray;
  tc_recvno : Z;
  tc_sendno : Z;
  tc_mode : Z;
  tc_repcount : Z;
  tc_dest : Z;
  tc_timer : bool
}.

Definition tc_result : Type := outcome (T_Connection * list (l4_output CArray)).

(** The constructor; it does not set [repcount]. *)
Definition T_Connection_new (d rep : Z) : T_Connection := mkTConn [] [] 0 0 0 rep d false.

Definition set_tc_in (c : T_Connection) (i : list CArray) (cur : CArray) : T_Connection :=
  mkTConn i cur (tc_recvno c) (tc_sendno c) (tc_mode c) (tc_repcount c) (tc_dest c) (tc_timer c).
Definition set_tc_seq (c : T_Connection) (r s : Z) : T_Connection :=
  mkTConn (tc_in c) (tc_current c) r s (tc_mode c) (tc_repcount c) (tc_dest c) (tc_timer c).
Definition set_tc_mode (c : T_Connection) (m : Z) (t : bool) : T_Connection :=
  mkTConn (tc_in c) (tc_current c) (tc_recvno c) (tc_sendno c) m (tc_repcount c) (tc_dest c) t.
Definition set_tc_rep (c : T_Connection) (n : Z) : T_Connection :=
  mkTConn (tc_in c) (tc_current c) (tc_recvno c) (tc_sendno c) (tc_mode c) n (tc_dest c) (tc_timer c).

(** A frame to the device at the other end. *)
Definition tc_frame (c : T_Connection) (p : EIB_Priority) (d : CArray) : L_Data_PDU :=
  mkL_Data p false true true IndividualAddress 0 (tc_dest c) 0x06 d.

Definition SendConnect (c : T_Connection) : tc_result :=
  d ← T_CONNECT_REQ_ToPacket;
  Ret (set_tc_rep (set_tc_seq (set_tc_mode c 1 (tc_timer c)) 0 0) 0,
       [L4_recv (tc_frame c PRIO_SYSTEM d)]).

Definition SendDisconnect (c : T_Connection) : outcome (list (l4_output CArray)) :=
  d ← T_DISCONNECT_REQ_ToPacket;
  Ret [L4_recv (tc_frame c PRIO_SYSTEM d)].

Definition SendAck (c : T_Connection) (serno : Z) : outcome (list (l4_output CArray)) :=
  d ← T_ACK_ToPacket serno;
  Ret [L4_recv (tc_frame c PRIO_LOW d)].

Definition SendData (c : T_Connection) (serno : Z) (x : CArray) : outcome (list (l4_output CArray)) :=
  d ← T_DATA_CONNECTED_REQ_ToPacket serno x;
  Ret [L4_recv (tc_frame c PRIO_LOW d)].

Definition tc_stop (c : T_Connection) : tc_result :=
  let c := set_tc_mode c 0 false in
  o ← SendDisconnect c;
  Ret (c, o ++ [L4_app []]).

Definition SendCheck (c : T_Connection) : tc_result :=
  if decide (tc_mode c <> 1) then Ret (c, [])
  else
    let c := set_tc_rep c 0 in
    match tc_in c with
    | [] => Ret (c, [])
    | x :: rest =>
        let c := set_tc_in c rest x in
        o ← SendData c (tc_sendno c) x;
        Ret (set_tc_mode c 2 true, o)
    end.

Definition tc_recv_Data (c : T_Connection) (x : CArray) : tc_result :=
  SendCheck (set_tc_in c (tc_in c ++ [x]) (tc_current c)).

Definition tc_timer_cb (c : T_Connection) : tc_result :=
  let c := set_tc_mode c (tc_mode c) false in
  if bool_decide (tc_mode c = 2) && bool_decide (tc_repcount c < 3) then
    let c := set_tc_rep c (tc_repcount c + 1) in
    o ← SendData c (tc_sendno c) (tc_current c);
    Ret (set_tc_mode c (tc_mode c) true, o)
  else tc_stop c.

(** A numbered data packet: the expected one is passed to the client and
    acknowledged, the one before is only acknowledged again. *)
Definition tc_data (c : T_Connection) (serno : Z) (x : CArray) : tc_result :=
  if bool_decide (serno <> tc_recvno c) && bool_decide (serno <> Z.land (tc_recvno c - 1) 0x0f) then tc_stop c
  else if decide (serno = tc_recvno c) then
    x0 ← at_ x 0;
    x ← put x 0 (Z.land x0 0x03);
    o ← SendAck c (tc_recvno c);
    Ret (set_tc_seq c (Z.land (tc_recvno c + 1) 0x0f) (tc_sendno c), L4_app x :: o)
  else if decide (serno = Z.land (tc_recvno c - 1) 0x0f) then
    o ← SendAck c serno; Ret (c, o)
  else Ret (c, []).

Definition tc_nack (c : T_Connection) (serno : Z) : tc_result :=
  if decide (serno <> tc_sendno c) then tc_stop c
  else if bool_decide (3 <= tc_repcount c) || bool_decide (tc_mode c <> 2) then tc_stop c
  else
    let c := set_tc_rep c (tc_repcount c + 1) in
    o ← SendData c (tc_sendno c) (tc_current c);
    Ret (c, o).

Definition tc_ack (c : T_Connection) (serno : Z) : tc_result :=
  if decide (serno <> tc_sendno c) then tc_stop c
  else if decide (tc_mode c <> 2) then tc_stop c
  else
    let c := set_tc_mode c 1 false in
    SendCheck (set_tc_seq c (tc_recvno c) (Z.land (tc_sendno c + 1) 0x0f)).

Definition tc_send_L_Data (c : T_Connection) (l : L_Data_PDU) : tc_result :=
  t ← TPDU_fromPacket (data l);
  '(c, o) ← match t with
            | T_DISCONNECT_REQ_PDU => tc_stop c
            | T_CONNECT_REQ_PDU => tc_stop c
            | T_DATA_CONNECTED_REQ_PDU serno x => tc_data c serno x
            | T_NACK_PDU serno => tc_nack c serno
            | T_ACK_PDU serno => tc_ack c serno
            | _ => Ret (c, [])
            end;
  Ret (c, o ++ [L4_send_Next]).
