(* ===== verification/Layer4Spec.v ===== *)
(** * Properties of transport layer connections

    What a connection of [Layer4] does over any sequence of frames from the bus,
    payloads from its client and time-outs: as the program uses it, it
    never opens; once opened it is a stop-and-wait protocol that repeats each
    packet at most three times; what it receives goes to the client once and in
    order. *)

From S2P Require Import Prelude CArray Common ApduSpec Apdu Tpdu Lpdu LpduSpec Layer4.

(** ** Runs *)

Inductive tc_event := TE_frame (l : L_Data_PDU) | TE_payload (x : CArray) | TE_timer | TE_stop.

Definition tc_step (c : T_Connection) (e : tc_event) : tc_result :=
  match e with
  | TE_frame l => tc_send_L_Data c l
  | TE_payload x => tc_recv_Data c x
  | TE_timer => if tc_timer c then tc_timer_cb c else Ret (c, [])
  | TE_stop => tc_stop c
  end.

Fixpoint tc_run (c : T_Connection) (es : list tc_event) : tc_result :=
  match es with
  | [] => Ret (c, [])
  | e :: es => '(c, o) ← tc_step c e; '(c, o') ← tc_run c es; Ret (c, o ++ o')
  end.

(** Frames consist of bytes and payloads are not empty. *)
Definition tc_event_ok (e : tc_event) : Prop :=
  match e with
  | TE_frame l => bytes (data l)
  | TE_payload x => bytes x /\ x <> []
  | _ => True
  end.

Definition frames_ok (e : tc_event) : Prop :=
  match e with TE_frame l => bytes (data l) | _ => True end.

Definition payloads (es : list tc_event) : list CArray :=
  omap (fun e => match e with TE_payload x => Some x | _ => None end) es.

(** The frames a run gives to the router, and what it gives to the client. *)
Definition tc_frames (o : list (l4_output CArray)) : list L_Data_PDU :=
  omap (fun x => match x with L4_recv l => Some l | _ => None end) o.
Definition tc_app (o : list (l4_output CArray)) : list CArray :=
  omap (fun x => match x with L4_app d => Some d | _ => None end) o.

(** Frames that carry numbered data. *)
Definition is_data (l : L_Data_PDU) : bool :=
  match data l with b :: _ => bool_decide (Z.land b 0xC0 = 0x40) | [] => false end.

Definition tc_sent (o : list (l4_output CArray)) : list L_Data_PDU := filter is_data (tc_frames o).

(** ** The packets *)

(** The control byte of a numbered packet and of an acknowledgement. *)
Definition connected_packet (serno : Z) (x : CArray) : CArray :=
  match x with
  | b :: x => Z.lor (Z.lor (Z.land b 0x3) 0x40) (Z.land serno 0x0f ≪ 2) :: x
  | [] => []
  end.
Definition ack_byte_of (serno : Z) : Z := Z.lor 0xC2 (Z.land serno 0x0f ≪ 2).

Lemma land3_nibble b : 0 <= Z.land b 0x3 < 4.
Proof. exact (land_range b 2 ltac:(lia)). Qed.

Lemma connected_small m s :
  0 <= m < 4 -> 0 <= s < 16 ->
  u8 (Z.lor (Z.lor m 0x40) (Z.land s 0x0f ≪ 2)) = Z.lor (Z.lor m 0x40) (Z.land s 0x0f ≪ 2) /\
  Z.land (Z.lor (Z.lor m 0x40) (Z.land s 0x0f ≪ 2)) 0xC0 = 0x40 /\
  Z.land (Z.lor (Z.lor m 0x40) (Z.land s 0x0f ≪ 2)) 0x03 = m /\
  Z.land (Z.lor (Z.lor m 0x40) (Z.land s 0x0f ≪ 2) ≫ 2) 0x0f = s /\
  is_u8 (Z.lor (Z.lor m 0x40) (Z.land s 0x0f ≪ 2)).
Proof.
  intros Hm Hs. assert (is_u8 s) as Hb by (unfold is_u8; lia).
  assert (m = 0 \/ m = 1 \/ m = 2 \/ m = 3) as Hm' by lia. clear Hm.
  destruct Hm' as [->|[->|[->| ->]]]; revert Hs; unfold is_u8; by_bytes s.
Qed.

Lemma SendData_eq c s x :
  x <> [] -> 0 <= s < 16 ->
  SendData c s x = Ret [L4_recv (tc_frame c PRIO_LOW (connected_packet s x))].
Proof.
  intros Hx Hs. destruct x as [|b x]; [done|].
  unfold SendData, T_DATA_CONNECTED_REQ_ToPacket. rewrite (assert_f0 s) by lia. cbn.
  by rewrite (proj1 (connected_small _ s (land3_nibble b) Hs)).
Qed.

Lemma ack_is_ack s : 0 <= s < 16 -> u8 (ack_byte_of s) = ack_byte_of s /\ Z.land (ack_byte_of s) 0xC0 = 0xC0.
Proof.
  intros Hs. assert (is_u8 s) as Hb by (unfold is_u8; lia). unfold ack_byte_of. revert Hs. by_bytes s.
Qed.

Lemma SendAck_eq c s :
  0 <= s < 16 -> SendAck c s = Ret [L4_recv (tc_frame c PRIO_LOW [ack_byte_of s])].
Proof.
  intros Hs. unfold SendAck, T_ACK_ToPacket. rewrite (assert_f0 s) by lia. cbn.
  fold (ack_byte_of s). by rewrite (proj1 (ack_is_ack s Hs)).
Qed.

Lemma tc_frames_app o o' : tc_frames (o ++ o') = tc_frames o ++ tc_frames o'.
Proof. apply omap_app. Qed.
Lemma tc_sent_app o o' : tc_sent (o ++ o') = tc_sent o ++ tc_sent o'.
Proof. unfold tc_sent. by rewrite tc_frames_app, list.filter_app. Qed.

(** ** The sender *)

(** Bursts of equal packets, numbered from [i]. *)
Fixpoint bursts (d : Z) (i : nat) (l : list (CArray * nat)) : list L_Data_PDU :=
  match l with
  | [] => []
  | (x, k) :: l =>
      replicate k (mkL_Data PRIO_LOW false true true IndividualAddress 0 d 0x06
                     (connected_packet (Z.of_nat i mod 16) x))
      ++ bursts d (S i) l
  end.

Lemma tc_bursts_app d i l l' : bursts d i (l ++ l') = bursts d i l ++ bursts d (i + length l) l'.
Proof.
  revert i; induction l as [|[x k] l IH]; intros i; cbn; [by rewrite Nat.add_0_r|].
  rewrite IH, Nat.add_succ_r. apply app_assoc.
Qed.

(** The packet that waits for its acknowledgement, with how often it was sent. *)
Definition open_burst (c : T_Connection) : list (CArray * nat) :=
  if decide (tc_mode c = 2) then [(tc_current c, S (Z.to_nat (tc_repcount c)))] else [].

Definition tc_ok (c : T_Connection) : Prop :=
  0 <= tc_recvno c < 16 /\ 0 <= tc_sendno c < 16 /\
  (tc_mode c = 0 \/
   (tc_mode c = 1 \/ tc_mode c = 2 /\ tc_current c <> [] /\ 0 <= tc_repcount c <= 3) /\
   Forall (fun x => x <> []) (tc_in c)).

Lemma open_burst_tries c : tc_ok c -> Forall (fun k => 1 <= k <= 4)%nat (open_burst c).*2.
Proof.
  intros (_ & _ & Hm). unfold open_burst. destruct (decide _) as [E|E]; [|constructor].
  apply Forall_singleton. cbn. destruct Hm as [?|[[?|(?&?&?)] ?]]; lia.
Qed.

(** [o]: what was transmitted, [p]: the payloads given, since the connection was opened. *)
Definition sender_inv (c : T_Connection) (o : list L_Data_PDU) (p : list CArray) : Prop :=
  tc_ok c /\
  exists done : list (CArray * nat),
    Forall (fun k => 1 <= k <= 4)%nat done.*2 /\
    o = bursts (tc_dest c) 0 (done ++ open_burst c) /\
    (if decide (tc_mode c = 0) then done.*1 `prefix_of` p
     else p = done.*1 ++ (open_burst c).*1 ++ tc_in c /\ tc_sendno c = Z.of_nat (length done) mod 16).

(** What a step does to the invariant. *)
Definition keeps (c : T_Connection) (x : list CArray) (r : tc_result) : Prop :=
  forall o p, sender_inv c o p ->
  exists c' o', r = Ret (c', o') /\ tc_dest c' = tc_dest c /\ sender_inv c' (o ++ tc_sent o') (p ++ x).

Lemma stop_keeps c : keeps c [] (tc_stop c).
Proof.
  intros o p (Hok & done & Hk & -> & Hp). eexists _, _. split; [done|]. split; [done|].
  pose proof Hok as (Hr & Hs & _). rewrite !app_nil_r. split; [split_and!; first [by left | cbn; lia]|].
  exists (done ++ open_burst c). split_and!.
  - rewrite fmap_app, Forall_app. split; [done|]. by apply open_burst_tries.
  - by rewrite app_nil_r.
  - rewrite decide_True by done. rewrite fmap_app. destruct (decide (tc_mode c = 0)) as [E|E].
    + unfold open_burst. rewrite decide_False by lia. by rewrite app_nil_r.
    + destruct Hp as [-> _]. rewrite app_assoc. by apply prefix_app_r.
Qed.

Lemma skip_keeps c : keeps c [] (Ret (c, [])).
Proof. intros o p H. eexists _, _. split; [done|]. split; [done|]. by rewrite !app_nil_r. Qed.

(** The end of a step that has transmitted nothing. *)
Lemma quiet_keeps c c' o' :
  tc_sent o' = [] -> tc_mode c' = tc_mode c -> tc_current c' = tc_current c ->
  tc_repcount c' = tc_repcount c -> tc_in c' = tc_in c -> tc_sendno c' = tc_sendno c ->
  tc_dest c' = tc_dest c -> 0 <= tc_recvno c' < 16 ->
  keeps c [] (Ret (c', o')).
Proof.
  intros Ho E1 E2 E3 E4 E5 E6 Hr o p [(_ & Hs & Hm) Hd]. eexists _, _. split; [done|]. split; [done|].
  rewrite Ho, !app_nil_r. unfold sender_inv, tc_ok, open_burst in *.
  rewrite E1, E2, E3, E4, E5, E6. done.
Qed.

Lemma sent_data c s x :
  x <> [] -> 0 <= s < 16 ->
  tc_sent [L4_recv (tc_frame c PRIO_LOW (connected_packet s x))] =
  [tc_frame c PRIO_LOW (connected_packet s x)].
Proof.
  intros Hx Hs. destruct x as [|b x]; [done|]. unfold tc_sent. cbn.
  rewrite decide_True; [done|]. unfold is_data; cbn.
  apply bool_decide_pack. by apply (connected_small _ s (land3_nibble b) Hs).
Qed.

Lemma sent_ack c s : 0 <= s < 16 -> tc_sent [L4_recv (tc_frame c PRIO_LOW [ack_byte_of s])] = [].
Proof.
  intros Hs. unfold tc_sent. cbn. rewrite decide_False; [done|]. unfold is_data; cbn.
  rewrite (proj2 (ack_is_ack s Hs)). by intros ?%bool_decide_unpack.
Qed.

(** An idle connection takes the next payload from its queue. *)
Lemma SendCheck_keeps c o p done :
  0 <= tc_recvno c < 16 -> tc_mode c = 1 -> Forall (fun x => x <> []) (tc_in c) ->
  Forall (fun k => 1 <= k <= 4)%nat done.*2 -> o = bursts (tc_dest c) 0 done ->
  p = done.*1 ++ tc_in c -> tc_sendno c = Z.of_nat (length done) mod 16 ->
  exists c' o', SendCheck c = Ret (c', o') /\ tc_dest c' = tc_dest c /\ sender_inv c' (o ++ tc_sent o') p.
Proof.
  intros Hr Hm Hin Hk -> -> Hs. pose proof (Z.mod_pos_bound (Z.of_nat (length done)) 16) as Hb.
  unfold SendCheck. rewrite decide_False by (intros []; done). cbn [tc_in set_tc_rep].
  destruct (tc_in c) as [|x rest] eqn:E.
  - eexists _, _. split; [done|]. split; [done|]. rewrite app_nil_r. split.
    { split_and!; cbn; try lia. right. split; [by left|]. by rewrite E. }
    exists done. unfold open_burst; cbn. rewrite Hm, !app_nil_r, E. cbn. by rewrite app_nil_r.
  - apply Forall_cons_iff in Hin as [Hx Hin]. cbn [tc_sendno set_tc_in set_tc_rep].
    rewrite SendData_eq by (done || lia). eexists _, _. split; [done|]. split; [done|]. rewrite sent_data by (done || lia).
    split. { split_and!; cbn; try lia. right. split; [|done]. right. split_and!; done || lia. }
    exists done. split_and!; [done| |].
    + unfold open_burst; cbn. rewrite tc_bursts_app. cbn. unfold tc_frame; cbn. by rewrite Hs.
    + cbn. unfold open_burst; cbn. done.
Qed.

Lemma recv_Data_keeps c x : x <> [] -> keeps c [x] (tc_recv_Data c x).
Proof.
  intros Hx o p (Hok & done & Hk & -> & Hp). pose proof Hok as (Hr & Hs & Hm). unfold tc_recv_Data.
  destruct (decide (tc_mode c = 1)) as [E|E].
  - rewrite decide_False in Hp by lia. destruct Hp as [-> Hsn].
    unfold open_burst in *. rewrite decide_False in * by lia. cbn [fmap list_fmap app] in *.
    rewrite app_nil_r. destruct Hm as [|[_ Hin]]; [lia|].
    apply (SendCheck_keeps (set_tc_in c (tc_in c ++ [x]) (tc_current c)) _ _ done); cbn; try done; [|by rewrite app_assoc].
    apply Forall_app. by rewrite Forall_singleton.
  - unfold SendCheck. rewrite decide_True by done. eexists _, _. split; [done|]. split; [done|]. rewrite app_nil_r.
    split.
    { split_and!; cbn; try lia. destruct Hm as [|[Hm Hin]]; [by left|]. right. split; [done|].
      apply Forall_app. by rewrite Forall_singleton. }
    exists done. split_and!; [done..|]. cbn [tc_mode set_tc_in].
    destruct (decide (tc_mode c = 0)); [by apply prefix_app_r|]. destruct Hp as [-> Hsn].
    split; [|done]. cbn. by rewrite <- !app_assoc.
Qed.

(** The packet that waits is sent once more. *)
Lemma again_keeps c t :
  tc_mode c = 2 -> tc_repcount c < 3 ->
  keeps c [] (o ← SendData (set_tc_rep c (tc_repcount c + 1)) (tc_sendno c) (tc_current c);
              Ret (set_tc_mode (set_tc_rep c (tc_repcount c + 1)) (tc_mode c) t, o)).
Proof.
  intros E Hrep o p (Hok & done & Hk & -> & Hp). pose proof Hok as (Hr & Hs & Hm).
  rewrite decide_False in Hp by lia. destruct Hp as [-> Hsn].
  destruct Hm as [|[[|(_ & Hcur & Hrc)] Hin]]; [lia..|].
  rewrite SendData_eq by done. eexists _, _. split; [done|]. split; [done|]. rewrite sent_data, app_nil_r by done.
  split. { split_and!; cbn; try lia. right. split; [|done]. right. split_and!; done || lia. }
  exists done. split_and!; [done| |].
  - unfold open_burst. cbn. rewrite E, !tc_bursts_app, <- app_assoc. f_equal.
    rewrite !decide_True by done. cbn [bursts]. rewrite !app_nil_r.
    replace (Z.to_nat (tc_repcount c + 1)) with (S (Z.to_nat (tc_repcount c))) by lia.
    rewrite Nat.add_0_l, <- Hsn. unfold tc_frame; cbn [tc_dest set_tc_rep].
    change [?x] with (replicate 1 x). rewrite <- replicate_add. f_equal. lia.
  - cbn. rewrite E. rewrite decide_False by done. unfold open_burst. cbn. by rewrite E.
Qed.

Lemma ack_keeps c s : keeps c [] (tc_ack c s).
Proof.
  unfold tc_ack. destruct (decide _) as [|Es]; [apply stop_keeps|].
  destruct (decide (tc_mode c <> 2)) as [|E]; [apply stop_keeps|].
  assert (tc_mode c = 2) as E2 by (destruct (decide (tc_mode c = 2)); done).
  intros o p (Hok & done & Hk & -> & Hp). pose proof Hok as (Hr & Hs & Hm).
  pose proof (open_burst_tries c Hok) as Ht.
  rewrite decide_False in Hp by lia. destruct Hp as [-> Hsn]. rewrite app_nil_r.
  apply (SendCheck_keeps (set_tc_seq (set_tc_mode c 1 false) (tc_recvno c) (Z.land (tc_sendno c + 1) 0x0f))
           _ _ (done ++ open_burst c)); cbn; try done.
  - destruct Hm as [|[_ Hin]]; [lia|done].
  - by rewrite fmap_app, Forall_app.
  - by rewrite fmap_app, <- app_assoc.
  - unfold open_burst. rewrite decide_True by done. rewrite Hsn, length_app.
    change 0x0f with (Z.ones 4). rewrite Z.land_ones by lia. cbn [length].
    change (2 ^ 4) with 16. rewrite Nat2Z.inj_add, Zplus_mod_idemp_l. done.
Qed.

Lemma data_keeps c s x : 0 <= s < 16 -> bytes x -> x <> [] -> keeps c [] (tc_data c s x).
Proof.
  intros Hs Hb Hx o p Hinv. revert Hinv. pose proof (fun H : sender_inv c o p => proj1 (proj1 H)) as Hr.
  intros Hinv. specialize (Hr Hinv). revert o p Hinv. change (keeps c [] (tc_data c s x)).
  destruct x as [|x0 x]; [done|].
  unfold tc_data. destruct (_ && _); [apply stop_keeps|]. destruct (decide _) as [E|E].
  - cbn. rewrite SendAck_eq by done. cbn. apply quiet_keeps; try done.
    + change (tc_sent ([L4_app (u8 (Z.land x0 3) :: x)] ++ [L4_recv (tc_frame c PRIO_LOW [ack_byte_of (tc_recvno c)])]) = []).
      rewrite tc_sent_app, sent_ack by done. done.
    + apply land_0f.
  - destruct (decide _); [|apply skip_keeps]. rewrite SendAck_eq by done. cbn.
    apply quiet_keeps; try done. by apply sent_ack.
Qed.

Lemma frame_keeps c l : bytes (data l) -> keeps c [] (tc_send_L_Data c l).
Proof.
  intros Hb o p Hinv. unfold tc_send_L_Data.
  destruct (TPDU_fromPacket_wf _ Hb) as (t & -> & Hw & _). rewrite bind_Ret.
  set (r := match t with T_DISCONNECT_REQ_PDU => _ | _ => _ end).
  assert (keeps c [] r) as Hk.
  { unfold r. destruct t; cbn in Hw; try apply skip_keeps; try apply stop_keeps.
    - apply data_keeps; apply Hw.
    - apply ack_keeps.
    - unfold tc_nack. destruct (decide _) as [|E]; [apply stop_keeps|].
      destruct (_ || _) eqn:E2; [apply stop_keeps|].
      apply orb_false_iff in E2 as [H1%bool_decide_eq_false H2%bool_decide_eq_false].
      exact (again_keeps c (tc_timer c) ltac:(lia) ltac:(lia)). }
  destruct (Hk o p Hinv) as (c' & o' & -> & Hd & Hinv'). eexists _, _. split; [done|]. split; [done|].
  rewrite tc_sent_app. change (tc_sent [L4_send_Next]) with (@nil L_Data_PDU). by rewrite app_nil_r.
Qed.

Lemma step_keeps c e : tc_event_ok e -> keeps c (payloads [e]) (tc_step c e).
Proof.
  destruct e as [l|x| |]; cbn [tc_event_ok tc_step]; intros He.
  - by apply frame_keeps.
  - apply recv_Data_keeps, He.
  - destruct (tc_timer c); [|apply skip_keeps]. unfold tc_timer_cb.
    destruct (_ && _) eqn:E.
    + apply andb_true_iff in E as [E1%bool_decide_eq_true E2%bool_decide_eq_true].
      intros o p Hinv. exact (again_keeps c true E1 E2 o p Hinv).
    + intros o p Hinv. exact (stop_keeps c o p Hinv).
  - apply stop_keeps.
Qed.

Lemma payloads_cons e es : payloads (e :: es) = payloads [e] ++ payloads es.
Proof. by destruct e. Qed.

Lemma run_keeps c es : Forall tc_event_ok es -> keeps c (payloads es) (tc_run c es).
Proof.
  revert c; induction es as [|e es IH]; intros c; [intros _; apply skip_keeps|].
  intros [He Hes]%Forall_cons_iff o p Hinv. cbn [tc_run].
  destruct (step_keeps c e He o p Hinv) as (c1 & o1 & -> & Hd1 & H1). rewrite bind_Ret.
  destruct (IH c1 Hes _ _ H1) as (c2 & o2 & -> & Hd2 & H2). rewrite bind_Ret. eexists _, _. split; [done|]. split; [congruence|].
  rewrite tc_sent_app, app_assoc, payloads_cons. by rewrite <- (app_assoc p) in H2.
Qed.

(** Once opened, a connection is a stop-and-wait protocol: on every sequence of
    frames, payloads, time-outs and stops no assertion fails, and the data packets it
    transmits are the payloads in the order they were given, each one to
    four times, numbered consecutively modulo 16; none is left out unless the
    connection is closed. In this daemon no connection is ever opened
    ([connection_never_opens]): nothing calls [SendConnect]. *)
Theorem connection_stop_and_wait (d rep : Z) (es : list tc_event) :
  Forall tc_event_ok es ->
  exists c0 o0 c o sent,
    SendConnect (T_Connection_new d rep) = Ret (c0, o0) /\
    tc_run c0 es = Ret (c, o) /\
    tc_sent o = bursts d 0 sent /\
    Forall (fun k => 1 <= k <= 4)%nat sent.*2 /\
    if decide (tc_mode c = 0) then sent.*1 `prefix_of` payloads es
    else sent.*1 ++ tc_in c = payloads es.
Proof.
  intros Hes. set (c0 := mkTConn [] [] 0 0 1 0 d false). exists c0. eexists.
  assert (sender_inv c0 [] []) as H0.
  { split; [split_and!; cbn; try lia; right; split; [by left|done]|]. by exists []. }
  destruct (run_keeps c0 es Hes [] [] H0) as (c & o & E & Hd & Hok & done & Hk & Ho & Hp).
  exists c, o, (done ++ open_burst c). split; [done|]. split; [done|].
  cbn in Ho, Hp. rewrite Hd in Ho. split; [done|]. split.
  { rewrite fmap_app, Forall_app. split; [done|]. by apply open_burst_tries. }
  rewrite fmap_app. destruct (decide (tc_mode c = 0)) as [E0|E0].
  - unfold open_burst. rewrite decide_False by lia. by rewrite app_nil_r.
  - destruct Hp as [-> _]. by rewrite <- app_assoc.
Qed.

(** ** A connection as the program uses it *)

(** The two kinds of frames a closed connection sends. *)
Definition closed_frame (d : Z) (l : L_Data_PDU) : Prop :=
  l = mkL_Data PRIO_SYSTEM false true true IndividualAddress 0 d 0x06 [0x81] \/
  exists s, 0 <= s < 16 /\ l = mkL_Data PRIO_LOW false true true IndividualAddress 0 d 0x06 [ack_byte_of s].

Definition closed (d : Z) (q : list CArray) (c : T_Connection) : Prop :=
  tc_mode c = 0 /\ tc_dest c = d /\ tc_in c = q /\ 0 <= tc_recvno c < 16.

Ltac closed_solve := unfold closed; cbn; split_and!; first [done | lia].

Lemma closed_stop d q c :
  closed d q c -> returns_with (fun r => closed d q r.1 /\ Forall (closed_frame d) (tc_frames r.2)) (tc_stop c).
Proof.
  intros (Hm & Hd & Hq & Hr). apply returns_with_Ret. cbn. split; [closed_solve|].
  apply Forall_singleton. left. unfold tc_frame; cbn. by rewrite Hd.
Qed.

Lemma closed_ack d q c s :
  closed d q c -> 0 <= s < 16 ->
  exists o, SendAck c s = Ret o /\ Forall (closed_frame d) (tc_frames o).
Proof.
  intros (Hm & Hd & Hq & Hr) Hs. rewrite SendAck_eq by done. eexists. split; [done|].
  apply Forall_singleton. right. exists s. unfold tc_frame. by rewrite Hd.
Qed.

Lemma closed_data d q c s x :
  closed d q c -> 0 <= s < 16 -> x <> [] ->
  returns_with (fun r => closed d q r.1 /\ Forall (closed_frame d) (tc_frames r.2)) (tc_data c s x).
Proof.
  intros Hc Hs Hx. pose proof Hc as (Hm & Hd & Hq & Hr). destruct x as [|x0 x]; [done|]. unfold tc_data.
  destruct (_ && _); [by apply closed_stop|]. destruct (decide _); [|destruct (decide _)].
  - destruct (closed_ack d q c (tc_recvno c) Hc Hr) as (o & -> & Ho). cbn. apply returns_with_Ret.
    split; [|done]. pose proof (land_0f (tc_recvno c + 1)). closed_solve.
  - destruct (closed_ack d q c s Hc Hs) as (o & -> & Ho). by apply returns_with_Ret.
  - by apply returns_with_Ret.
Qed.

Lemma closed_step d q c e :
  closed d q c -> frames_ok e ->
  returns_with (fun r => closed d (q ++ payloads [e]) r.1 /\ Forall (closed_frame d) (tc_frames r.2)) (tc_step c e).
Proof.
  intros Hc He. pose proof Hc as (Hm & Hd & Hq & Hr). destruct e as [l|x| |]; cbn [tc_step payloads omap list_omap];
    rewrite ?app_nil_r.
  - unfold tc_send_L_Data. destruct (TPDU_fromPacket_wf _ He) as (t & -> & Hw & _). rewrite bind_Ret.
    eapply returns_with_bind with (P := fun r => closed d q r.1 /\ Forall (closed_frame d) (tc_frames r.2)).
    + destruct t; cbn in Hw; try (by apply closed_stop); try (by apply returns_with_Ret).
      * destruct Hw as (_ & Hx & Hs). by apply closed_data.
      * unfold tc_ack. destruct (decide _); [by apply closed_stop|].
        rewrite decide_True by lia. by apply closed_stop.
      * unfold tc_nack. destruct (decide _); [by apply closed_stop|].
        rewrite (bool_decide_true (tc_mode c <> 2)), orb_true_r by lia. by apply closed_stop.
    + intros [c' o] [H1 H2]. apply returns_with_Ret. split; [done|]. cbn. rewrite tc_frames_app.
      apply Forall_app. by split.
  - unfold tc_recv_Data, SendCheck. rewrite decide_True by (cbn; lia). apply returns_with_Ret.
    split; [|constructor]. rewrite <- Hq. closed_solve.
  - destruct (tc_timer c); [|by apply returns_with_Ret]. unfold tc_timer_cb.
    rewrite bool_decide_false by (cbn; lia). cbn [andb]. by apply closed_stop.
  - by apply closed_stop.
Qed.

#[local] Arguments payloads : simpl never.

Lemma closed_run d q c es :
  closed d q c -> Forall frames_ok es ->
  returns_with (fun r => closed d (q ++ payloads es) r.1 /\ Forall (closed_frame d) (tc_frames r.2)) (tc_run c es).
Proof.
  revert q c; induction es as [|e es IH]; intros q c Hc.
  - intros _. apply returns_with_Ret. by rewrite app_nil_r.
  - intros [He Hes]%Forall_cons_iff. cbn [tc_run].
    eapply returns_with_bind; [by apply closed_step|]. intros [c1 o1] [H1 H2].
    eapply returns_with_bind; [by eapply IH|]. intros [c2 o2] [H3 H4]. apply returns_with_Ret. cbn in *.
    split; [|rewrite tc_frames_app; by apply Forall_app].
    rewrite payloads_cons. by rewrite app_assoc.
Qed.

(** A connection never opens: a client's connection starts closed, and no sequence
    of frames, payloads, time-outs and stops opens it.  It sends nothing but
    disconnect requests and acknowledgements; every payload the client gives it stays in
    its queue. *)
Theorem connection_never_opens (d rep : Z) (es : list tc_event) :
  Forall frames_ok es ->
  exists c o, tc_run (T_Connection_new d rep) es = Ret (c, o) /\
    tc_mode c = 0 /\ tc_in c = payloads es /\ Forall (closed_frame d) (tc_frames o).
Proof.
  intros Hes. destruct (closed_run d [] (T_Connection_new d rep) es) as ([c o] & E & (Hm & _ & Hq & _) & Ho); [|done|].
  - closed_solve.
  - by exists c, o.
Qed.

(** ** The receiver *)

(** What the client gets: the control bits are cleared. *)
Definition payload_of (x : CArray) : CArray :=
  match x with b :: x => Z.land b 0x03 :: x | [] => [] end.

Lemma connected_parsed s x :
  bytes x -> x <> [] -> 0 <= s < 16 ->
  TPDU_fromPacket (connected_packet s x) = Ret (T_DATA_CONNECTED_REQ_PDU s (connected_packet s x)).
Proof.
  intros Hb Hx Hs. destruct x as [|b x]; [done|]. apply bytes_cons in Hb as [_ Hb].
  destruct (connected_small _ s (land3_nibble b) Hs) as (H1 & H2 & H3 & H4 & H5).
  rewrite <- (TPDU_roundtrip (T_DATA_CONNECTED_REQ_PDU s (connected_packet s (b :: x)))).
  - cbn [TPDU_ToPacket]. unfold T_DATA_CONNECTED_REQ_ToPacket.
    rewrite (assert_f0 s) by lia. cbn. rewrite H3. by rewrite H1.
  - cbn. split_and!; try done; try lia. by apply bytes_cons.
  - cbn. by split.
Qed.

Definition receives (c : T_Connection) (s : Z) (x : CArray) (n : Z) (d : list CArray) : Prop :=
  forall l, data l = connected_packet s x ->
  exists o, tc_send_L_Data c l = Ret (set_tc_seq c n (tc_sendno c), o) /\
    tc_app o = d /\ tc_frames o = [tc_frame c PRIO_LOW [ack_byte_of s]].

(** The expected packet is delivered and acknowledged. *)
Lemma receives_due c x :
  0 <= tc_recvno c < 16 -> bytes x -> x <> [] ->
  receives c (tc_recvno c) x (Z.land (tc_recvno c + 1) 0x0f) [payload_of x].
Proof.
  intros Hr Hb Hx l Hl. unfold tc_send_L_Data. rewrite Hl, connected_parsed, bind_Ret by done.
  unfold tc_data. rewrite bool_decide_false by (intros []; done). cbn [andb]. rewrite decide_True by done.
  destruct x as [|b x]; [done|]. cbn. rewrite SendAck_eq by done. cbn.
  destruct (connected_small _ _ (land3_nibble b) Hr) as (_ & _ & -> & _).
  rewrite u8_small by (unfold is_u8; pose proof (land3_nibble b); lia). by eexists.
Qed.

(** The packet before is acknowledged once more. *)
Lemma receives_again c x s :
  0 <= tc_recvno c < 16 -> bytes x -> x <> [] -> 0 <= s < 16 ->
  s = Z.land (tc_recvno c - 1) 0x0f -> receives c s x (tc_recvno c) [].
Proof.
  intros Hr Hb Hx Hs E l Hl. unfold tc_send_L_Data. rewrite Hl, connected_parsed, bind_Ret by done.
  assert (s <> tc_recvno c) as Hne.
  { rewrite E. change 0x0f with (Z.ones 4). rewrite Z.land_ones by lia.
    pose proof (Z.mod_pos_bound (tc_recvno c - 1) 16 ltac:(lia)).
    change (2 ^ 4) with 16. intros F. Z.to_euclidean_division_equations; lia. }
  unfold tc_data. rewrite (bool_decide_false (s <> Z.land _ _)), andb_false_r by (intros []; done).
  rewrite decide_False, decide_True by done. rewrite SendAck_eq by done. cbn.
  eexists. split; [by destruct c|done].
Qed.

Lemma mod16_land z : Z.land z 0x0f = z mod 16.
Proof. change 0x0f with (Z.ones 4). by rewrite Z.land_ones. Qed.

Lemma set_seq_twice c a s b t : set_tc_seq (set_tc_seq c a s) b t = set_tc_seq c b t.
Proof. done. Qed.

Lemma tc_app_app o o' : tc_app (o ++ o') = tc_app o ++ tc_app o'.
Proof. apply omap_app. Qed.

Lemma tc_run_app c es es' c1 o1 :
  tc_run c es = Ret (c1, o1) ->
  tc_run c (es ++ es') = ('(c, o) ← tc_run c1 es'; Ret (c, o1 ++ o)).
Proof.
  revert c o1; induction es as [|e es IH]; intros c o1 E; cbn [tc_run app] in *.
  - injection E as <- <-. by destruct (tc_run c es') as [[? ?]|].
  - apply bind_Ret_inv in E as ([c2 o2] & -> & E). rewrite bind_Ret.
    apply bind_Ret_inv in E as ([c3 o3] & E3 & E). injection E as <- <-.
    rewrite (IH _ _ E3). destruct (tc_run c3 es') as [[c4 o4]|]; [|done].
    rewrite !bind_Ret. by rewrite app_assoc.
Qed.

(** The acknowledgements for bursts numbered from [i]. *)
Fixpoint acks (d : Z) (i : nat) (l : list (CArray * nat)) : list L_Data_PDU :=
  match l with
  | [] => []
  | (_, k) :: l =>
      replicate k (mkL_Data PRIO_LOW false true true IndividualAddress 0 d 0x06
                     [ack_byte_of (Z.of_nat i mod 16)])
      ++ acks d (S i) l
  end.

Lemma repeats_received c x i d k :
  bytes x -> x <> [] -> tc_recvno c = Z.of_nat (S i) mod 16 ->
  exists o, tc_run c (TE_frame <$> bursts d i [(x, k)]) = Ret (c, o) /\
    tc_app o = [] /\ tc_frames o = replicate k (tc_frame c PRIO_LOW [ack_byte_of (Z.of_nat i mod 16)]).
Proof.
  intros Hb Hx Hr. pose proof (Z.mod_pos_bound (Z.of_nat (S i)) 16 ltac:(lia)).
  pose proof (Z.mod_pos_bound (Z.of_nat i) 16 ltac:(lia)). cbn [bursts]. rewrite app_nil_r.
  induction k as [|k (o & E & Ha & Hf)]; [by exists []|]. cbn [replicate fmap list_fmap tc_run tc_step].
  destruct (receives_again c x (Z.of_nat i mod 16)) with (l := mkL_Data PRIO_LOW false true true
    IndividualAddress 0 d 6 (connected_packet (Z.of_nat i mod 16) x)) as (o1 & -> & Ha1 & Hf1); try done; try lia.
  { rewrite Hr, mod16_land. replace (Z.of_nat (S i)) with (Z.of_nat i + 1) by lia.
    rewrite Zminus_mod_idemp_l. f_equal. lia. }
  rewrite bind_Ret. replace (set_tc_seq c (tc_recvno c) (tc_sendno c)) with c by (by destruct c).
  rewrite E, bind_Ret. eexists. split; [done|].
  rewrite tc_app_app, tc_frames_app, Ha, Ha1, Hf, Hf1. done.
Qed.

(** What a connection receives reaches its client exactly once and in order: when the
    other side transmits numbered payloads in order, each at least once, the client gets each payload once, every copy is
    acknowledged with its number, and nothing else changes but the number
    of the packet expected next. *)
Theorem connection_receives_once (c : T_Connection) (i : nat) (d : Z) (xs : list (CArray * nat)) :
  tc_recvno c = Z.of_nat i mod 16 ->
  Forall (fun x => bytes x.1 /\ x.1 <> [] /\ (1 <= x.2)%nat) xs ->
  exists o,
    tc_run c (TE_frame <$> bursts d i xs) =
      Ret (set_tc_seq c (Z.of_nat (i + length xs) mod 16) (tc_sendno c), o) /\
    tc_app o = payload_of <$> xs.*1 /\
    tc_frames o = acks (tc_dest c) i xs.
Proof.
  revert c i; induction xs as [|[x k] xs IH]; intros c i Hr Hxs.
  - exists []. rewrite Nat.add_0_r, <- Hr. split; [by destruct c|done].
  - apply Forall_cons_iff in Hxs as [(Hb & Hx & Hk) Hxs]. cbn in Hb, Hx, Hk.
    destruct k as [|k]; [lia|]. pose proof (Z.mod_pos_bound (Z.of_nat i) 16 ltac:(lia)).
    set (c1 := set_tc_seq c (Z.of_nat (S i) mod 16) (tc_sendno c)).
    destruct (receives_due c x) with (l := mkL_Data PRIO_LOW false true true
      IndividualAddress 0 d 6 (connected_packet (tc_recvno c) x)) as (o1 & E1 & Ha1 & Hf1); try done; try lia.
    replace (Z.land (tc_recvno c + 1) 0x0f) with (Z.of_nat (S i) mod 16) in E1.
    2: { rewrite Hr, mod16_land, Zplus_mod_idemp_l. f_equal. lia. }
    fold c1 in E1. rewrite Hr in E1.
    destruct (repeats_received c1 x i d k) as (o2 & E2 & Ha2 & Hf2); try done.
    destruct (IH c1 (S i)) as (o3 & E3 & Ha3 & Hf3); try done.
    exists (o1 ++ o2 ++ o3). cbn [bursts] in *. rewrite app_nil_r in E2.
    rewrite fmap_app. cbn [replicate fmap list_fmap app tc_run tc_step]. rewrite E1, bind_Ret.
    rewrite (tc_run_app c1 _ _ _ _ E2), E3, bind_Ret. split_and!.
    + rewrite bind_Ret. unfold c1. rewrite set_seq_twice. cbn [length]. by rewrite <- plus_n_Sm.
    + rewrite !tc_app_app, Ha1, Ha2, Ha3. done.
    + rewrite !tc_frames_app, Hf1, Hf2, Hf3, Hr. done.
Qed.

Lemma connection_stop_and_wait_witness :
  exists c0 o0 c o sent,
    SendConnect (T_Connection_new 0x1103 0) = Ret (c0, o0) /\
    tc_run c0 [TE_payload [0x03; 0x00]; TE_timer; TE_payload [0x00; 0x80];
               TE_frame (l4_frame IndividualAddress 0x1103 0x1201 6 [0xC2])] = Ret (c, o) /\
    tc_sent o = bursts 0x1103 0 sent /\
    Forall (fun k => 1 <= k <= 4)%nat sent.*2 /\
    if decide (tc_mode c = 0) then sent.*1 `prefix_of` [[0x03; 0x00]; [0x00; 0x80]]
    else sent.*1 ++ tc_in c = [[0x03; 0x00]; [0x00; 0x80]].
Proof.
  apply (connection_stop_and_wait 0x1103 0 [TE_payload [0x03; 0x00]; TE_timer; TE_payload [0x00; 0x80];
    TE_frame (l4_frame IndividualAddress 0x1103 0x1201 6 [0xC2])]).
  repeat constructor; done || decided.
Defined.

Lemma connection_never_opens_witness :
  exists c o, tc_run (T_Connection_new 0x1103 0)
                [TE_payload [0x03; 0x00]; TE_frame (l4_frame IndividualAddress 0x1103 0x1201 6 [0x80])] = Ret (c, o) /\
    tc_mode c = 0 /\ tc_in c = [[0x03; 0x00]] /\ Forall (closed_frame 0x1103) (tc_frames o).
Proof. apply connection_never_opens. repeat constructor; decided. Defined.

Lemma connection_receives_once_witness :
  exists o,
    tc_run (T_Connection_new 0x1103 0) (TE_frame <$> bursts 0x1201 0 [([0x03; 0x00], 2%nat); ([0x00; 0x80], 1%nat)]) =
      Ret (set_tc_seq (T_Connection_new 0x1103 0) 2 0, o) /\
    tc_app o = [[0x03; 0x00]; [0x00; 0x80]] /\
    tc_frames o = acks 0x1103 0 [([0x03; 0x00], 2%nat); ([0x00; 0x80], 1%nat)].
Proof.
  apply (connection_receives_once (T_Connection_new 0x1103 0) 0 0x1201
           [([0x03; 0x00], 2%nat); ([0x00; 0x80], 1%nat)]); [done|].
  repeat constructor; done || decided.
Defined.
