(* ===== verification/EibTypes.v ===== *)
(** * Messages between the daemon and its clients

    The message types of src/src/include/eibtypes.h and the macros of
    src/src/libserver/client.h that read and set them. *)

From S2P Require Import Prelude CArray.

(** ** Message types *)

Definition EIB_INVALID_REQUEST : Z := 0x0000.
Definition EIB_CONNECTION_INUSE : Z := 0x0001.
Definition EIB_PROCESSING_ERROR : Z := 0x0002.
Definition EIB_CLOSED : Z := 0x0003.
Definition EIB_RESET_CONNECTION : Z := 0x0004.
Definition EIB_OPEN_BUSMONITOR : Z := 0x0010.
Definition EIB_OPEN_BUSMONITOR_TEXT : Z := 0x0011.
Definition EIB_OPEN_VBUSMONITOR : Z := 0x0012.
Definition EIB_OPEN_VBUSMONITOR_TEXT : Z := 0x0013.
Definition EIB_BUSMONITOR_PACKET : Z := 0x0014.
Definition EIB_BUSMONITOR_PACKET_TS : Z := 0x0015.
Definition EIB_OPEN_BUSMONITOR_TS : Z := 0x0016.
Definition EIB_OPEN_VBUSMONITOR_TS : Z := 0x0017.
Definition EIB_OPEN_T_CONNECTION : Z := 0x0020.
Definition EIB_OPEN_T_INDIVIDUAL : Z := 0x0021.
Definition EIB_OPEN_T_GROUP : Z := 0x0022.
Definition EIB_OPEN_T_BROADCAST : Z := 0x0023.
Definition EIB_OPEN_T_TPDU : Z := 0x0024.
Definition EIB_APDU_PACKET : Z := 0x0025.
Definition EIB_OPEN_GROUPCON : Z := 0x0026.
Definition EIB_GROUP_PACKET : Z := 0x0027.
Definition EIB_PROG_MODE : Z := 0x0030.
Definition EIB_MASK_VERSION : Z := 0x0031.
Definition EIB_M_INDIVIDUAL_ADDRESS_READ : Z := 0x0032.
Definition EIB_M_INDIVIDUAL_ADDRESS_WRITE : Z := 0x0040.
Definition EIB_ERROR_ADDR_EXISTS : Z := 0x0041.
Definition EIB_ERROR_MORE_DEVICE : Z := 0x0042.
Definition EIB_ERROR_TIMEOUT : Z := 0x0043.
Definition EIB_ERROR_VERIFY : Z := 0x0044.
Definition EIB_MC_INDIVIDUAL : Z := 0x0049.
Definition EIB_MC_CONNECTION : Z := 0x0050.
Definition EIB_MC_READ : Z := 0x0051.
Definition EIB_MC_WRITE : Z := 0x0052.
Definition EIB_MC_PROP_READ : Z := 0x0053.
Definition EIB_MC_PROP_WRITE : Z := 0x0054.
Definition EIB_MC_PEI_TYPE : Z := 0x0055.
Definition EIB_MC_ADC_READ : Z := 0x0056.
Definition EIB_MC_AUTHORIZE : Z := 0x0057.
Definition EIB_MC_KEY_WRITE : Z := 0x0058.
Definition EIB_MC_MASK_VERSION : Z := 0x0059.
Definition EIB_MC_RESTART : Z := 0x005a.
Definition EIB_MC_WRITE_NOVERIFY : Z := 0x005b.
Definition EIB_MC_PROG_MODE : Z := 0x0060.
Definition EIB_MC_PROP_DESC : Z := 0x0061.
Definition EIB_MC_PROP_SCAN : Z := 0x0062.
Definition EIB_LOAD_IMAGE : Z := 0x0063.
Definition EIB_CACHE_ENABLE : Z := 0x0070.
Definition EIB_CACHE_DISABLE : Z := 0x0071.
Definition EIB_CACHE_CLEAR : Z := 0x0072.
Definition EIB_CACHE_REMOVE : Z := 0x0073.
Definition EIB_CACHE_READ : Z := 0x0074.
Definition EIB_CACHE_READ_NOWAIT : Z := 0x0075.
Definition EIB_CACHE_LAST_UPDATES : Z := 0x0076.
Definition EIB_CACHE_LAST_UPDATES_2 : Z := 0x0077.

(** [EIBTYPE (buf)] *)
Definition EIBTYPE (buf : CArray) : outcome Z :=
  b0 ← at_ buf 0; b1 ← at_ buf 1; Ret (Z.lor (b0 ≪ 8) b1).

(** [EIBSETTYPE (buf, type)] *)
Definition EIBSETTYPE (buf : CArray) (t : Z) : outcome CArray :=
  buf ← put buf 0 (Z.land (t ≫ 8) 0xff);
  put buf 1 (Z.land t 0xff).

(** An address or another 16 bit number at a position of a message. *)
Definition be16_at (buf : CArray) (i : nat) : outcome Z :=
  b0 ← at_ buf i; b1 ← at_ buf (i + 1); Ret (Z.lor (b0 ≪ 8) b1).
