(* ===== verification/GroupCache.v ===== *)
(** * The group cache

    Models src/src/libserver/groupcache.h and src/src/libserver/groupcache.cpp: the
    cache of the last value sent to each group address, the readers that wait for
    an update, and src/src/libserver/groupcacheclient.cpp, the answers clients get.

    [cache] is a finite map, [cache_seq] (a [std::map]) an association list in ascending order of its
    keys.  The time is an input.  A client is known by a number; what is sent to it and to the bus
    is a list of outputs. *)

From stdpp Require Import gmap.
From S2P Require Import Prelude CArray Common ApduSpec Apdu Tpdu Lpdu EibTypes.

Record GroupCacheEntry := mkEntry {
  gce_data : CArray;
  gce_src : Z;
  gce_dst : Z;
  gce_recvtime : Z;
  gce_seq : Z
}.

#[export] Instance GroupCacheEntry_eq_dec : EqDecision GroupCacheEntry.
Proof. solve_decision. Defined.

(** [GroupCacheEntry (dst)]; the members it leaves unset are not read. *)
Definition GroupCacheEntry_new (dst : Z) : GroupCacheEntry := mkEntry [] 0 dst 0 0.

(** The two kinds of readers; [gt_stopped] is the member [GCTracker::stopped], which hides the one of the base class. *)
Inductive reader_kind :=
| GCReader (addr age : Z)
| GCTracker (start : Z) (a : list Z) (gt_stopped : bool) (wide : bool).

(** [rd_stopped]: the member [stopped] of [GroupCacheReader]. *)
Record GroupCacheReader := mkReader {
  rd_id : Z;
  rd_client : Z;
  rd_kind : reader_kind;
  rd_stopped : bool;
  rd_timeout : bool
}.

(** The calls of [cb] for a read and for a list of updates ([wide] for [LastUpdates2]),
    [recv_L_Data] and [send_Next]. *)
Inductive cache_output :=
| GC_read (e : GroupCacheEntry) (nowait : bool) (client : Z)
| GC_last (a : list Z) (seq_end : Z) (wide : bool) (client : Z)
| GC_recv (l : L_Data_PDU)
| GC_send_Next.

#[export] Instance cache_output_eq_dec : EqDecision cache_output.
Proof. solve_decision. Defined.

Record GroupCache := mkCache {
  gc_reader : list GroupCacheReader;
  gc_cache : gmap Z GroupCacheEntry;
  gc_enable : bool;
  gc_maxsize : Z;
  gc_seq : Z;
  gc_cache_seq : list (Z * Z);
  gc_remtrigger : bool;
  gc_next_reader : Z
}.

Definition set_readers (g : GroupCache) (r : list GroupCacheReader) (rem : bool) : GroupCache :=
  mkCache r (gc_cache g) (gc_enable g) (gc_maxsize g) (gc_seq g) (gc_cache_seq g) rem (gc_next_reader g).
Definition set_cache (g : GroupCache) (m : gmap Z GroupCacheEntry) (s : list (Z * Z)) (n : Z) : GroupCache :=
  mkCache (gc_reader g) m (gc_enable g) (gc_maxsize g) n s (gc_remtrigger g) (gc_next_reader g).
Definition set_enable (g : GroupCache) (b : bool) : GroupCache :=
  mkCache (gc_reader g) (gc_cache g) b (gc_maxsize g) (gc_seq g) (gc_cache_seq g) (gc_remtrigger g)
    (gc_next_reader g).

Definition cache_result : Type := outcome (GroupCache * list cache_output).

(** ** The map of sequence numbers *)

(** [cache_seq.emplace]: a key that exists is kept. *)
Fixpoint seq_emplace (k a : Z) (s : list (Z * Z)) : list (Z * Z) :=
  match s with
  | [] => [(k, a)]
  | (k', a') :: s' =>
      if decide (k < k') then (k, a) :: s
      else if decide (k = k') then s
      else (k', a') :: seq_emplace k a s'
  end.

(** [cache_seq.erase] *)
Definition seq_erase (k : Z) (s : list (Z * Z)) : list (Z * Z) := filter (fun x => x.1 <> k) s.

(** The loop that makes room; [begin ()] of an empty map must not be used. *)
Fixpoint evict (maxsize : Z) (m : gmap Z GroupCacheEntry) (s : list (Z * Z))
  : outcome (gmap Z GroupCacheEntry * list (Z * Z)) :=
  if decide (maxsize <= Z.of_nat (length s)) then
    match s with
    | [] => Fault OutOfRange
    | (_, a) :: s => evict maxsize (delete a m) s
    end
  else Ret (m, s).

(** ** Readers *)

(** [GroupCacheReader::stop]: marked, and removed later by [remtrigger_cb]. *)
Definition reader_stop (r : GroupCacheReader) : GroupCacheReader :=
  mkReader (rd_id r) (rd_client r) (rd_kind r) true (rd_timeout r).

(** The loop of [GCTracker::handler], over the map from its end. *)
Fixpoint updates_since (start : Z) (s : list (Z * Z)) : list Z :=
  match s with
  | [] => []
  | (k, a) :: s =>
      if decide (start <= k) then a :: (if decide (k = start) then [] else updates_since start s) else []
  end.

(** [GCTracker::handler], with [stop]; it always returns true. *)
Definition tracker_handler (g : GroupCache) (r : GroupCacheReader) (start : Z) (a : list Z) (own wide : bool)
  : GroupCacheReader * list cache_output :=
  let a := a ++ updates_since start (reverse (gc_cache_seq g)) in
  let o := [GC_last a (gc_seq g) wide (rd_client r)] in
  let r := mkReader (rd_id r) (rd_client r) (GCTracker start a own wide) (rd_stopped r) (rd_timeout r) in
  if own then (r, o)
  else (reader_stop (mkReader (rd_id r) (rd_client r) (rd_kind r) (rd_stopped r) false), o).

(** [GCReader::updated] and [GCTracker::updated] *)
Definition reader_updated (g : GroupCache) (c : GroupCacheEntry) (r : GroupCacheReader)
  : GroupCacheReader * list cache_output :=
  match rd_kind r with
  | GCReader addr _ =>
      if rd_stopped r then (r, [])
      else if decide (gce_dst c <> addr) then (r, [])
      else (reader_stop r, [GC_read c false (rd_client r)])
  | GCTracker start a own wide =>
      if own then (r, []) else tracker_handler g r start a own wide
  end.

(** [GCReader::timeout_cb] and [GCTracker::timeout_cb] *)
Definition reader_timeout_cb (g : GroupCache) (r : GroupCacheReader)
  : GroupCacheReader * list cache_output :=
  let r := mkReader (rd_id r) (rd_client r) (rd_kind r) (rd_stopped r) false in
  match rd_kind r with
  | GCReader addr _ =>
      if rd_stopped r then (r, [])
      else (reader_stop r, [GC_read (GroupCacheEntry_new addr) false (rd_client r)])
  | GCTracker start a own wide =>
      if own then (r, []) else tracker_handler g r start a own wide
  end.

(** [GroupCache::updated]: the readers from the last to the first.  A reader that stops
    sends [remtrigger]. *)
Definition newly_stopped (r r' : GroupCacheReader) : bool := rd_stopped r' && negb (rd_stopped r).

Definition cache_updated (g : GroupCache) (c : GroupCacheEntry) : GroupCache * list cache_output :=
  let rs := reader_updated g c <$> gc_reader g in
  (set_readers g rs.*1
     (gc_remtrigger g || existsb (fun x => newly_stopped x.1 x.2) (zip (gc_reader g) rs.*1)),
   concat (reverse rs.*2)).

(** [GroupCache::remtrigger_cb] *)
Definition remtrigger_cb (g : GroupCache) : GroupCache :=
  set_readers g (filter (fun r => rd_stopped r = false) (gc_reader g)) false.

(** A reader's timer runs out. *)
Definition cache_timeout (g : GroupCache) (id : Z) : GroupCache * list cache_output :=
  let rs := (fun r => if bool_decide (rd_id r = id) && rd_timeout r then reader_timeout_cb g r else (r, []))
              <$> gc_reader g in
  (set_readers g rs.*1
     (gc_remtrigger g || existsb (fun x => newly_stopped x.1 x.2) (zip (gc_reader g) rs.*1)),
   concat rs.*2).

(** [GroupCache::add] *)
Definition cache_add (g : GroupCache) (client : Z) (k : reader_kind) : GroupCache :=
  mkCache (gc_reader g ++ [mkReader (gc_next_reader g) client k false true]) (gc_cache g) (gc_enable g)
    (gc_maxsize g) (gc_seq g) (gc_cache_seq g) (gc_remtrigger g) (gc_next_reader g + 1).

(** ** Operations *)

(** The test for a response or a write. *)
Definition is_update (d : CArray) : outcome bool :=
  if decide (size d < 2)%nat then Ret false
  else
    d0 ← at_ d 0; d1 ← at_ d 1;
    Ret (bool_decide (Z.land d0 0x3 = 0) &&
         (bool_decide (Z.land d1 0xC0 = 0x40) || bool_decide (Z.land d1 0xC0 = 0x80))).

(** The frame's value is entered. *)
Definition cache_enter (now : Z) (g : GroupCache) (l : L_Data_PDU) (d : CArray) : cache_result :=
  '(m, s) ← match gc_cache g !! dest l with
            | None => evict (gc_maxsize g) (gc_cache g) (gc_cache_seq g)
            | Some c => Ret (gc_cache g, seq_erase (gce_seq c) (gc_cache_seq g))
            end;
  let n := u32 (gc_seq g + 1) in
  let e := mkEntry d (source l) (dest l) now n in
  Ret (cache_updated (set_cache g (<[dest l := e]> m) (seq_emplace n (dest l) s) n) e).

Definition cache_send_L_Data (now : Z) (g : GroupCache) (l : L_Data_PDU) : cache_result :=
  '(g, o) ← (if gc_enable g then
               t ← TPDU_fromPacket (data l);
               match t with
               | T_DATA_XXX_REQ_PDU d =>
                   b ← is_update d;
                   if b : bool then cache_enter now g l d else Ret (g, [])
               | _ => Ret (g, [])
               end
             else Ret (g, []));
  Ret (g, o ++ [GC_send_Next]).

Definition cache_start (g : GroupCache) : GroupCache := set_enable g true.
Definition cache_stop (g : GroupCache) : GroupCache := set_enable g false.
Definition cache_Start (g : GroupCache) : GroupCache * bool := (set_enable g true, true).
Definition cache_Clear (g : GroupCache) : GroupCache := set_cache g ∅ (gc_cache_seq g) (gc_seq g).
Definition cache_Stop (g : GroupCache) : GroupCache := set_enable (cache_Clear g) false.

Definition cache_remove (g : GroupCache) (ga : Z) : GroupCache :=
  match gc_cache g !! ga with
  | Some f => set_cache g (delete ga (gc_cache g)) (seq_erase (gce_seq f) (gc_cache_seq g)) (gc_seq g)
  | None => g
  end.

Definition cache_Read (now : Z) (g : GroupCache) (addr Timeout age client : Z) : cache_result :=
  if negb (gc_enable g) then Ret (g, [GC_read (GroupCacheEntry_new 0) (bool_decide (Timeout = 0)) client])
  else
    let c := match gc_cache g !! addr with
             | Some e => if bool_decide (age <> 0) && bool_decide (gce_recvtime e + age < now) then None else Some e
             | None => None
             end in
    match c with
    | Some e => Ret (g, [GC_read e (bool_decide (Timeout = 0)) client])
    | None =>
        if decide (Timeout = 0) then Ret (g, [GC_read (GroupCacheEntry_new addr) true client])
        else
          let g := cache_add g client (GCReader addr age) in
          a ← APDU_ToPacket A_GroupValue_Read_PDU;
          d ← T_DATA_XXX_REQ_ToPacket a;
          Ret (g, [GC_recv (mkL_Data PRIO_LOW false true true GroupAddress 0 addr 0x06 d)])
    end.

Definition LastUpdates (g : GroupCache) (start client : Z) : GroupCache :=
  let st := u32 (Z.land (gc_seq g) (u32 (Z.lnot 0xFFFF)) + start) in
  if decide (gc_seq g < st) then g
  else cache_add g client (GCTracker st [] false false).

Definition LastUpdates2 (g : GroupCache) (start client : Z) : GroupCache :=
  cache_add g client (GCTracker start [] false true).

(** ** Clients of the cache: src/src/libserver/groupcacheclient.cpp *)

Definition ReadCallback (e : GroupCacheEntry) (nowait : bool) : outcome CArray :=
  let erg := resize [] (6 + size (gce_data e)) in
  erg ← EIBSETTYPE erg (if nowait then EIB_CACHE_READ_NOWAIT else EIB_CACHE_READ);
  erg ← put erg 2 (Z.land (gce_src e ≫ 8) 0xff);
  erg ← put erg 3 (Z.land (gce_src e ≫ 0) 0xff);
  erg ← put erg 4 (Z.land (gce_dst e ≫ 8) 0xff);
  erg ← put erg 5 (Z.land (gce_dst e ≫ 0) 0xff);
  setpart_all erg (gce_data e) 6.

(** The loop that writes the addresses. *)
Fixpoint put_addrs (erg : CArray) (i : nat) (a : list Z) : outcome CArray :=
  match a with
  | [] => Ret erg
  | x :: a =>
      erg ← put erg i (Z.land (x ≫ 8) 0xff);
      erg ← put erg (i + 1) (Z.land x 0xff);
      put_addrs erg (i + 2) a
  end.

Definition LastUpdatesCallback (a : list Z) (seq_end : Z) : outcome CArray :=
  let erg := resize [] (length a * 2 + 4) in
  erg ← EIBSETTYPE erg EIB_CACHE_LAST_UPDATES;
  erg ← put erg 2 (Z.land (seq_end ≫ 8) 0xff);
  erg ← put erg 3 (Z.land (seq_end ≫ 0) 0xff);
  put_addrs erg 4 a.

Definition LastUpdates2Callback (a : list Z) (seq_end : Z) : outcome CArray :=
  let erg := resize [] (length a * 2 + 6) in
  erg ← EIBSETTYPE erg EIB_CACHE_LAST_UPDATES_2;
  erg ← put erg 2 (Z.land (seq_end ≫ 24) 0xff);
  erg ← put erg 3 (Z.land (seq_end ≫ 16) 0xff);
  erg ← put erg 4 (Z.land (seq_end ≫ 8) 0xff);
  erg ← put erg 5 (Z.land (seq_end ≫ 0) 0xff);
  put_addrs erg 6 a.

(** The message a call of [cb] sends. *)
Definition cache_message (o : cache_output) : outcome (option CArray) :=
  match o with
  | GC_read e nowait _ => m ← ReadCallback e nowait; Ret (Some m)
  | GC_last a n wide _ => m ← (if wide then LastUpdates2Callback a n else LastUpdatesCallback a n); Ret (Some m)
  | _ => Ret None
  end.

Definition request_result : Type := outcome (option GroupCache * list (Z + cache_output)).

(** [sendreject (code)] *)
Definition answer (g : option GroupCache) (code : Z) : request_result := Ret (g, [inl code]).

Definition proceed (g : GroupCache) (o : list cache_output) : request_result := Ret (Some g, inr <$> o).

(** [GroupCacheRequest]: [inl code] is [sendreject (code)].  [cache]: the router's cache, if there is one. *)
Definition GroupCacheRequest (now : Z) (cache : option GroupCache) (client : Z) (buf : CArray) (len : nat)
  : request_result :=
  match cache with
  | None => answer None EIB_INVALID_REQUEST
  | Some g =>
      let reject := answer (Some g) EIB_INVALID_REQUEST in
      t ← EIBTYPE buf;
      if decide (t = EIB_CACHE_ENABLE) then
        let r := cache_Start g in
        answer (Some r.1) (if r.2 then EIB_CACHE_ENABLE else EIB_CONNECTION_INUSE)
      else if decide (t = EIB_CACHE_DISABLE) then answer (Some (cache_Stop g)) EIB_CACHE_DISABLE
      else if decide (t = EIB_CACHE_CLEAR) then answer (Some (cache_Clear g)) EIB_CACHE_CLEAR
      else if decide (t = EIB_CACHE_REMOVE) then
        if decide (len < 4)%nat then reject
        else dst ← be16_at buf 2; answer (Some (cache_remove g dst)) EIB_CACHE_REMOVE
      else if bool_decide (t = EIB_CACHE_READ) || bool_decide (t = EIB_CACHE_READ_NOWAIT) then
        if decide (len < 4)%nat then reject
        else
          dst ← be16_at buf 2;
          if bool_decide (t = EIB_CACHE_READ) && bool_decide (len < 6)%nat then reject
          else
            age ← (if decide (t = EIB_CACHE_READ) then be16_at buf 4 else Ret 0);
            '(g, o) ← cache_Read now g dst (if decide (t = EIB_CACHE_READ_NOWAIT) then 0 else 1) age client;
            proceed g o
      else if decide (t = EIB_CACHE_LAST_UPDATES) then
        if decide (len < 5)%nat then reject
        else start ← be16_at buf 2; proceed (LastUpdates g start client) []
      else if decide (t = EIB_CACHE_LAST_UPDATES_2) then
        if decide (len < 7)%nat then reject
        else
          hi ← be16_at buf 2; lo ← be16_at buf 4;
          proceed (LastUpdates2 g (Z.lor (hi ≪ 16) lo) client) []
      else reject
  end.
