(* ===== verification/GroupCacheSpec.v ===== *)
(** * Properties of the group cache

    The cache of [GroupCache] with its readers refines a list of the most recently updated
    group addresses, newest first, cut off at the configured size: the answers to
    clients are those of that list.  Clearing the cache breaks this correspondence: what is
    found afterwards is still the last value of its address, but values are missing. *)

From stdpp Require Import gmap sorting.
From S2P Require Import Prelude CArray Common ApduSpec Apdu Tpdu Lpdu EibTypes GroupCache.

(** ** The specification *)

(** The entries, newest first.  An update moves its address to the front. *)
Definition lru_touch (m : nat) (e : GroupCacheEntry) (l : list GroupCacheEntry) : list GroupCacheEntry :=
  take m (e :: filter (fun x => gce_dst x <> gce_dst e) l).

Record lru := mkLru { lru_enable : bool; lru_seq : Z; lru_entries : list GroupCacheEntry }.

(** The value a frame carries, if it is a response or a write. *)
Definition frame_value (l : L_Data_PDU) : option CArray :=
  match TPDU_fromPacket (data l) with
  | Ret (T_DATA_XXX_REQ_PDU d) => match is_update d with Ret true => Some d | _ => None end
  | _ => None
  end.

(** What happens to a cache; [CE_Clear] and [CE_Stop] are requests of clients, [CE_enable] is
    the start and stop of the link and the request [Start]. *)
Inductive cache_event :=
| CE_frame (now : Z) (l : L_Data_PDU)
| CE_remove (ga : Z)
| CE_read (now addr Timeout age client : Z)
| CE_last (start client : Z)
| CE_last2 (start client : Z)
| CE_timeout (id : Z)
| CE_remtrigger
| CE_enable (b : bool)
| CE_Clear
| CE_Stop.

Definition cache_step (g : GroupCache) (e : cache_event) : cache_result :=
  match e with
  | CE_frame now l => cache_send_L_Data now g l
  | CE_remove ga => Ret (cache_remove g ga, [])
  | CE_read now addr Timeout age client => cache_Read now g addr Timeout age client
  | CE_last start client => Ret (LastUpdates g start client, [])
  | CE_last2 start client => Ret (LastUpdates2 g start client, [])
  | CE_timeout id => Ret (cache_timeout g id)
  | CE_remtrigger => Ret (remtrigger_cb g, [])
  | CE_enable b => Ret (if b then cache_start g else cache_stop g, [])
  | CE_Clear => Ret (cache_Clear g, [])
  | CE_Stop => Ret (cache_Stop g, [])
  end.

Fixpoint cache_run (g : GroupCache) (es : list cache_event) : cache_result :=
  match es with
  | [] => Ret (g, [])
  | e :: es => '(g, o) ← cache_step g e; '(g, o') ← cache_run g es; Ret (g, o ++ o')
  end.

Definition lru_step (m : nat) (s : lru) (e : cache_event) : lru :=
  match e with
  | CE_frame now l =>
      match frame_value l with
      | Some d =>
          if lru_enable s then
            let n := lru_seq s + 1 in
            mkLru true n (lru_touch m (mkEntry d (source l) (dest l) now n) (lru_entries s))
          else s
      | None => s
      end
  | CE_remove ga => mkLru (lru_enable s) (lru_seq s) (filter (fun x => gce_dst x <> ga) (lru_entries s))
  | CE_enable b => mkLru b (lru_seq s) (lru_entries s)
  | CE_Clear => mkLru (lru_enable s) (lru_seq s) []
  | CE_Stop => mkLru false (lru_seq s) []
  | _ => s
  end.

(** Without the requests that clear the cache. *)
Definition uncleared (e : cache_event) : Prop :=
  match e with CE_Clear | CE_Stop => False | _ => True end.

(** The addresses updated since [start], newest first. *)
Definition lru_since (s : lru) (start : Z) : list Z :=
  gce_dst <$> filter (fun e => start <= gce_seq e) (lru_entries s).

(** The entry of an address. *)
Definition lru_find (s : lru) (addr : Z) : option GroupCacheEntry :=
  List.find (fun e => bool_decide (gce_dst e = addr)) (lru_entries s).

(** What clients wait for: the list, with the readers. *)
Record waiting := mkWaiting {
  wt_lru : lru;
  wt_readers : list GroupCacheReader;
  wt_rem : bool;
  wt_next : Z
}.

(** A reader answers, at an update [Some e] or when its time is over, [None].  A reader of a value
    answers once, with the value or with none; a tracker, at each update until it is removed, with
    what it has answered so far and the addresses updated since its start. *)
Definition reader_answers (s : lru) (upd : option GroupCacheEntry) (r : GroupCacheReader)
  : GroupCacheReader * list cache_output :=
  let running := match upd with Some _ => rd_timeout r | None => false end in
  let wait := mkReader (rd_id r) (rd_client r) (rd_kind r) (rd_stopped r) running in
  match rd_kind r with
  | GCReader addr age =>
      let answered e := (mkReader (rd_id r) (rd_client r) (rd_kind r) true running, [GC_read e false (rd_client r)]) in
      if rd_stopped r then (wait, [])
      else match upd with
           | Some e => if decide (gce_dst e = addr) then answered e else (wait, [])
           | None => answered (GroupCacheEntry_new addr)
           end
  | GCTracker start a own wide =>
      if own then (wait, [])
      else let a := a ++ lru_since s start in
           (mkReader (rd_id r) (rd_client r) (GCTracker start a own wide) true false,
            [GC_last a (lru_seq s) wide (rd_client r)])
  end.

Definition some_stopped (rs rs' : list GroupCacheReader) : bool :=
  existsb (fun x => newly_stopped x.1 x.2) (zip rs rs').

Definition wait_add (w : waiting) (client : Z) (k : reader_kind) : waiting :=
  mkWaiting (wt_lru w) (wt_readers w ++ [mkReader (wt_next w) client k false true]) (wt_rem w) (wt_next w + 1).

(** The question for the value of a group address. *)
Definition read_request (addr : Z) : L_Data_PDU :=
  mkL_Data PRIO_LOW false true true GroupAddress 0 addr 0x06 [0; 0].

Definition waiting_step (m : nat) (w : waiting) (e : cache_event) : waiting * list cache_output :=
  let s := wt_lru w in
  let s' := lru_step m s e in
  let same := mkWaiting s' (wt_readers w) (wt_rem w) (wt_next w) in
  match e with
  | CE_frame now l =>
      match frame_value l with
      | Some d =>
          if lru_enable s then
            let rs := reader_answers s' (Some (mkEntry d (source l) (dest l) now (lru_seq s'))) <$> wt_readers w in
            (mkWaiting s' rs.*1 (wt_rem w || some_stopped (wt_readers w) rs.*1) (wt_next w),
             concat (reverse rs.*2) ++ [GC_send_Next])
          else (same, [GC_send_Next])
      | None => (same, [GC_send_Next])
      end
  | CE_read now addr Timeout age client =>
      let nowait := bool_decide (Timeout = 0) in
      if negb (lru_enable s) then (same, [GC_read (GroupCacheEntry_new 0) nowait client])
      else
        let unknown := if nowait then (same, [GC_read (GroupCacheEntry_new addr) true client])
                       else (wait_add w client (GCReader addr age), [GC_recv (read_request addr)]) in
        match lru_find s addr with
        | Some e => if decide (age <> 0 /\ gce_recvtime e + age < now) then unknown else (same, [GC_read e nowait client])
        | None => unknown
        end
  | CE_last start client =>
      let st := u32 (Z.land (lru_seq s) (u32 (Z.lnot 0xFFFF)) + start) in
      (if decide (lru_seq s < st) then same else wait_add w client (GCTracker st [] false false), [])
  | CE_last2 start client => (wait_add w client (GCTracker start [] false true), [])
  | CE_timeout id =>
      let rs := (fun r => if bool_decide (rd_id r = id) && rd_timeout r then reader_answers s None r else (r, []))
                  <$> wt_readers w in
      (mkWaiting s rs.*1 (wt_rem w || some_stopped (wt_readers w) rs.*1) (wt_next w), concat rs.*2)
  | CE_remtrigger => (mkWaiting s (filter (fun r => rd_stopped r = false) (wt_readers w)) false (wt_next w), [])
  | _ => (same, [])
  end.

Fixpoint waiting_run (m : nat) (w : waiting) (es : list cache_event) : waiting * list cache_output :=
  match es with
  | [] => (w, [])
  | e :: es =>
      let x := waiting_step m w e in
      let y := waiting_run m x.1 es in
      (y.1, x.2 ++ y.2)
  end.

(** The last value of every address since the cache was cleared. *)
Record last_values := mkLast { lv_enable : bool; lv_seq : Z; lv_map : gmap Z GroupCacheEntry }.

Definition last_step (v : last_values) (e : cache_event) : last_values :=
  match e with
  | CE_frame now l =>
      match frame_value l with
      | Some d =>
          if lv_enable v then
            let n := lv_seq v + 1 in
            mkLast true n (<[dest l := mkEntry d (source l) (dest l) now n]> (lv_map v))
          else v
      | None => v
      end
  | CE_remove ga => mkLast (lv_enable v) (lv_seq v) (delete ga (lv_map v))
  | CE_enable b => mkLast b (lv_seq v) (lv_map v)
  | CE_Clear => mkLast (lv_enable v) (lv_seq v) ∅
  | CE_Stop => mkLast false (lv_seq v) ∅
  | _ => v
  end.

Definition last_run (es : list cache_event) : last_values := foldl last_step (mkLast false 0 ∅) es.

Definition event_bytes (e : cache_event) : Prop :=
  match e with CE_frame _ l => bytes (data l) | _ => True end.

(** ** The correspondence *)

Definition seq_pair (e : GroupCacheEntry) : Z * Z := (gce_seq e, gce_dst e).

(** Addresses and sequence numbers are unique, the latter decrease and are at most [n]. *)
Definition entries_ok (n : Z) (l : list GroupCacheEntry) : Prop :=
  NoDup (gce_dst <$> l) /\ StronglySorted Z.gt (gce_seq <$> l) /\ Forall (fun e => gce_seq e <= n) l.

Definition represents (m : nat) (g : GroupCache) (s : lru) : Prop :=
  let l := lru_entries s in
  gc_enable g = lru_enable s /\ gc_seq g = lru_seq s /\ 0 <= lru_seq s /\
  gc_maxsize g = Z.of_nat m /\ (length l <= m)%nat /\ entries_ok (lru_seq s) l /\
  (forall d e, gc_cache g !! d = Some e <-> e ∈ l /\ gce_dst e = d) /\
  gc_cache_seq g = reverse (seq_pair <$> l).

Lemma filter_ext_in {A} (P Q : A -> Prop) {HP : forall x, Decision (P x)} {HQ : forall x, Decision (Q x)} (l : list A) :
  (forall x, x ∈ l -> P x <-> Q x) -> filter P l = filter Q l.
Proof.
  induction l as [|x l IH]; intros H; [done|]. rewrite !filter_cons.
  pose proof (H x (list_elem_of_here x l)) as Hx.
  rewrite IH by (intros y Hy; apply H; by right).
  destruct (decide (P x)), (decide (Q x)); tauto.
Qed.

Lemma filter_all {A} (P : A -> Prop) {HP : forall x, Decision (P x)} (l : list A) :
  (forall x, x ∈ l -> P x) -> filter P l = l.
Proof.
  intros H. induction l as [|x l IH]; [done|]. rewrite filter_cons, decide_True by (apply H; by left).
  f_equal. apply IH. intros y Hy. apply H. by right.
Qed.

Lemma filter_none {A} (P : A -> Prop) {HP : forall x, Decision (P x)} (l : list A) :
  (forall x, x ∈ l -> ~ P x) -> filter P l = [].
Proof.
  intros H. induction l as [|x l IH]; [done|]. rewrite filter_cons, decide_False by (apply H; by left).
  apply IH. intros y Hy. apply H. by right.
Qed.

Lemma filter_fmap_list {A B} (f : A -> B) (P : B -> Prop) {HP : forall x, Decision (P x)} (l : list A) :
  filter P (f <$> l) = f <$> filter (fun x => P (f x)) l.
Proof.
  induction l as [|x l IH]; [done|]. cbn [fmap list_fmap]. rewrite !filter_cons.
  destruct (decide (P (f x))); [cbn; by rewrite IH|done].
Qed.

(** Entries with the same address, or the same sequence number, are the same. *)
Lemma dst_inj (l : list GroupCacheEntry) x y :
  NoDup (gce_dst <$> l) -> x ∈ l -> y ∈ l -> gce_dst x = gce_dst y -> x = y.
Proof.
  intros Hn Hx Hy E. apply list_elem_of_lookup in Hx as [i Hi], Hy as [j Hj].
  assert (i = j) as ->; [|congruence].
  apply (NoDup_lookup _ _ _ (gce_dst x) Hn); rewrite list_lookup_fmap.
  - by rewrite Hi.
  - rewrite Hj. cbn. by rewrite E.
Qed.

Lemma sorted_NoDup (l : list Z) : StronglySorted Z.gt l -> NoDup l.
Proof.
  induction 1 as [|x l Hs IH Hx]; [constructor|]. constructor; [|done].
  intros Hin. rewrite Forall_forall in Hx. specialize (Hx x ltac:(by apply list_elem_of_In)). lia.
Qed.

Lemma seq_inj (l : list GroupCacheEntry) x y :
  StronglySorted Z.gt (gce_seq <$> l) -> x ∈ l -> y ∈ l -> gce_seq x = gce_seq y -> x = y.
Proof.
  intros Hs%sorted_NoDup Hx Hy E. apply list_elem_of_lookup in Hx as [i Hi], Hy as [j Hj].
  assert (i = j) as ->; [|congruence].
  apply (NoDup_lookup _ _ _ (gce_seq x) Hs); rewrite list_lookup_fmap.
  - by rewrite Hi.
  - rewrite Hj. cbn. by rewrite E.
Qed.

(** *** The map of sequence numbers *)

Lemma seq_emplace_last k a s : Forall (fun x => x.1 < k) s -> seq_emplace k a s = s ++ [(k, a)].
Proof.
  induction s as [|[k' a'] s IH]; [done|]. intros [Hk Hs]%Forall_cons_iff. cbn in *.
  rewrite decide_False, decide_False, IH by (done || lia). done.
Qed.

Lemma seq_erase_entry l c :
  NoDup (gce_dst <$> l) -> StronglySorted Z.gt (gce_seq <$> l) -> c ∈ l ->
  seq_erase (gce_seq c) (reverse (seq_pair <$> l)) =
  reverse (seq_pair <$> filter (fun x => gce_dst x <> gce_dst c) l).
Proof.
  intros Hn Hs Hc. unfold seq_erase. rewrite filter_reverse. f_equal.
  rewrite filter_fmap_list. f_equal. apply filter_ext_in. intros x Hx. cbn.
  split; intros Hne E; apply Hne.
  - by rewrite (dst_inj l x c).
  - by rewrite (seq_inj l x c).
Qed.

(** What the tracker reports: the addresses updated since, newest first. *)
Lemma updates_since_filter start l :
  StronglySorted Z.gt (gce_seq <$> l) ->
  updates_since start (seq_pair <$> l) = gce_dst <$> filter (fun x => start <= gce_seq x) l.
Proof.
  induction l as [|e l IH]; [done|]. rewrite fmap_cons. intros Hs. apply StronglySorted_inv in Hs as [Hs He].
  assert (forall k, (gce_seq e <= k) -> filter (fun x => k <= gce_seq x) l = []) as Hnone.
  { intros k Hk. apply filter_none. intros x Hx. rewrite Forall_fmap, Forall_forall in He.
    specialize (He x ltac:(by apply list_elem_of_In)). cbn in He. lia. }
  change (seq_pair <$> e :: l) with ((gce_seq e, gce_dst e) :: (seq_pair <$> l)). cbn [updates_since].
  rewrite filter_cons. destruct (decide (start <= gce_seq e)) as [H1|H1].
  - cbn [fmap list_fmap]. f_equal. destruct (decide (gce_seq e = start)) as [H2|H2]; [|by apply IH].
    by rewrite Hnone by lia.
  - by rewrite Hnone by lia.
Qed.

Lemma evict_none m c s : Z.of_nat (length s) < m -> evict m c s = Ret (c, s).
Proof. intros H. destruct s; cbn; by rewrite decide_False by (cbn in *; lia). Qed.

Lemma evict_one m c k a s :
  Z.of_nat (length s) + 1 = m -> evict m c ((k, a) :: s) = Ret (delete a c, s).
Proof. intros H. cbn. rewrite decide_True by lia. apply evict_none. lia. Qed.

(** *** The entries *)

Lemma Forall_sublist {A} (P : A -> Prop) (l l' : list A) : l' `sublist_of` l -> Forall P l -> Forall P l'.
Proof.
  induction 1; intros Hl; [done| |]; apply Forall_cons_iff in Hl as [Hx Hl]; [|by auto].
  apply Forall_cons_iff. auto.
Qed.

Lemma entries_ok_sublist n l l' : l' `sublist_of` l -> entries_ok n l -> entries_ok n l'.
Proof.
  intros Hsub (Hn & Hs & Hle).
  assert (forall (f : GroupCacheEntry -> Z), (f <$> l') `sublist_of` (f <$> l)) as Hf.
  { intros f. clear Hn Hs Hle. induction Hsub; cbn; [apply sublist_nil|by apply sublist_skip|by apply sublist_cons]. }
  split_and!.
  - eapply sublist_NoDup; [done|apply Hf].
  - clear Hn Hle. specialize (Hf gce_seq). induction Hf as [|x k k' Hk IH|x k k' Hk IH]; [done| |].
    + apply StronglySorted_cons in Hs as [Hx Hs]. apply StronglySorted_cons. split; [|by apply IH].
      by eapply Forall_sublist.
    + apply StronglySorted_cons in Hs as [Hx Hs]. by apply IH.
  - by eapply Forall_sublist.
Qed.

Lemma entries_add n e l :
  entries_ok n l -> gce_seq e = n + 1 -> (forall x, x ∈ l -> gce_dst x <> gce_dst e) ->
  entries_ok (n + 1) (e :: l).
Proof.
  intros (Hn & Hs & Hle) He Hd. split_and!; rewrite ?fmap_cons.
  - apply list.NoDup_cons. split; [|done]. intros (x & E & Hx)%list_elem_of_fmap. by apply (Hd x).
  - apply StronglySorted_cons. split; [|done]. rewrite Forall_fmap.
    eapply Forall_impl; [|exact Hle]. cbn. intros x Hx. lia.
  - apply Forall_cons_iff. split; [lia|]. eapply Forall_impl; [|exact Hle]. cbn. lia.
Qed.

(** The old entries that are kept when the address [d] is updated. *)
Lemma make_room m g s d :
  (1 <= m)%nat -> represents m g s ->
  exists k c',
    match gc_cache g !! d with
    | None => evict (gc_maxsize g) (gc_cache g) (gc_cache_seq g)
    | Some c => Ret (gc_cache g, seq_erase (gce_seq c) (gc_cache_seq g))
    end = Ret (c', reverse (seq_pair <$> k)) /\
    k `sublist_of` lru_entries s /\ (forall x, x ∈ k -> gce_dst x <> d) /\
    (forall d' x, d' <> d -> c' !! d' = Some x <-> x ∈ k /\ gce_dst x = d') /\
    (S (length k) <= m)%nat /\
    (forall e, gce_dst e = d -> lru_touch m e (lru_entries s) = e :: k).
Proof.
  intros Hm1 (He & Hq & H0 & Hm & Hl & (Hn & Hs & Hle) & Hc & Hcs). set (l := lru_entries s) in *.
  destruct (gc_cache g !! d) as [c|] eqn:E.
  - apply Hc in E as [Hcl Hcd]. rewrite Hcs, (seq_erase_entry l c Hn Hs Hcl). rewrite Hcd.
    exists (filter (fun x => gce_dst x <> d) l), (gc_cache g).
    assert (length (filter (fun x => gce_dst x <> d) l) < length l)%nat as Hlt
      by (eapply length_filter_lt; [done|]; cbn; tauto).
    split_and!; [done|apply sublist_filter| | |lia|].
    + intros x [Hx _]%list_elem_of_filter. done.
    + intros d' x Hd'. rewrite Hc, list_elem_of_filter. split; [intros [Hx <-]|intros [[_ Hx] <-]]; done.
    + intros e Hd. unfold lru_touch. rewrite Hd. apply take_ge. cbn. lia.
  - assert (forall x, x ∈ l -> gce_dst x <> d) as Hnone.
    { intros x Hx Hd. enough (gc_cache g !! d = Some x) by congruence. by apply Hc. }
    assert (forall e, gce_dst e = d -> lru_touch m e l = e :: take (m - 1) l) as Htouch.
    { intros e Hd. unfold lru_touch. rewrite Hd, (filter_all _ l Hnone).
      destruct m as [|m]; [lia|]. cbn. by rewrite Nat.sub_0_r. }
    destruct (decide (length l < m)%nat) as [Hlt|Hge].
    + exists l, (gc_cache g). rewrite Hcs, evict_none by (rewrite length_reverse, length_fmap, Hm; lia).
      split_and!; try done. intros e Hd. rewrite (Htouch e Hd), take_ge by lia. done.
    + destruct (exists_last (l := l)) as (k & z & Ek); [intros E0; rewrite E0 in Hge; cbn in Hge; lia|].
      rewrite Ek in *. rewrite length_app in Hl, Hge. cbn in Hl, Hge.
      exists k, (delete (gce_dst z) (gc_cache g)).
      rewrite Hcs, fmap_app, reverse_app. cbn [fmap list_fmap reverse app].
      change (reverse [seq_pair z] ++ ?r) with ((gce_seq z, gce_dst z) :: r).
      rewrite evict_one by (rewrite length_reverse, length_fmap, Hm; lia).
      split_and!; [done|by apply sublist_inserts_r| | |lia|].
      * intros x Hx. apply Hnone, elem_of_app. by left.
      * intros d' x Hd'. rewrite lookup_delete_Some, Hc, elem_of_app, list_elem_of_singleton.
        rewrite fmap_app, list.NoDup_app in Hn. destruct Hn as (_ & Hz & _).
        split; [intros [Hne [[Hx|Hx] Hd]]; [done|by subst]|]. intros [Hx Hd]. split_and!; [|by left|done].
        intros Ez. apply (Hz (gce_dst x)); [by apply list_elem_of_fmap_2|].
        rewrite Hd, <- Ez. by apply list_elem_of_singleton.
      * intros e Hd. rewrite (Htouch e Hd). f_equal. apply take_app_length'. lia.
Qed.

(** *** Steps *)

(** Readers and their removal do not touch the cache. *)
Lemma set_readers_represents m g s r rem : represents m g s -> represents m (set_readers g r rem) s.
Proof. done. Qed.

Lemma cache_add_represents m g s c k : represents m g s -> represents m (cache_add g c k) s.
Proof. done. Qed.

Lemma cache_enter_represents m now g s l d :
  (1 <= m)%nat -> represents m g s -> lru_seq s + 1 < 2 ^ 32 ->
  let e := mkEntry d (source l) (dest l) now (lru_seq s + 1) in
  exists g', cache_enter now g l d = Ret (cache_updated g' e) /\
    represents m g' (mkLru (lru_enable s) (lru_seq s + 1) (lru_touch m e (lru_entries s))) /\
    gc_reader g' = gc_reader g /\ gc_remtrigger g' = gc_remtrigger g /\ gc_next_reader g' = gc_next_reader g.
Proof.
  intros Hm Hrep Hseq. pose proof Hrep as (He & Hq & H0 & HM & Hl & Hok & Hc & Hcs).
  destruct (make_room m g s (dest l) Hm Hrep) as (k & c' & E & Hsub & Hd & Hc' & Hlen & Ht).
  unfold cache_enter. rewrite E, bind_Ret, Hq. cbv zeta.
  rewrite (u32_small (lru_seq s + 1)) by (unfold is_u32; lia). eexists. split; [done|]. split; [|done].
  apply (entries_ok_sublist _ _ _ Hsub) in Hok. pose proof Hok as (_ & _ & Hle).
  rewrite seq_emplace_last by (rewrite Forall_reverse, Forall_fmap; eapply Forall_impl; [|exact Hle]; cbn; lia).
  unfold represents. cbn [lru_entries lru_enable lru_seq set_cache gc_enable gc_seq gc_maxsize gc_cache gc_cache_seq].
  rewrite Ht by done. split_and!; try done; try lia.
  - by apply entries_add.
  - intros d' x. destruct (decide (d' = dest l)) as [->|Hne].
    + rewrite lookup_insert_eq, elem_of_cons. split; [intros [= <-]; auto|].
      intros [[->|Hx] Hdx]; [done|by apply Hd in Hx].
    + rewrite lookup_insert_ne, Hc', elem_of_cons by done. split; [tauto|].
      intros [[->|Hx] Hdx]; [by cbn in Hdx|done].
  - rewrite fmap_cons, reverse_cons. done.
Qed.

(** The test on the payload does not read outside it. *)
Lemma is_update_returns d : returns (is_update d).
Proof.
  unfold is_update. destruct (decide _) as [|Hd]; [by eexists|].
  destruct d as [|a [|b d]]; unfold size in Hd; cbn in Hd; try lia. by eexists.
Qed.

(** The cache with its readers. *)
Definition refines (m : nat) (g : GroupCache) (w : waiting) : Prop :=
  represents m g (wt_lru w) /\ gc_reader g = wt_readers w /\ gc_remtrigger g = wt_rem w /\
  gc_next_reader g = wt_next w.

Lemma since_answer m g s start :
  represents m g s -> updates_since start (reverse (gc_cache_seq g)) = lru_since s start.
Proof.
  intros (_ & _ & _ & _ & _ & (_ & Hs & _) & _ & Hcs). rewrite Hcs, reverse_involutive. by apply updates_since_filter.
Qed.

Lemma find_answer m g s addr : represents m g s -> gc_cache g !! addr = lru_find s addr.
Proof.
  intros (_ & _ & _ & _ & _ & (Hn & _) & Hc & _). unfold lru_find.
  destruct (List.find _ _) as [e|] eqn:E.
  - apply find_some in E as [Hin Hd%bool_decide_eq_true]. apply Hc. by rewrite list_elem_of_In.
  - apply eq_None_not_Some. intros (e & [Hin Hd]%Hc). apply list_elem_of_In in Hin.
    apply (find_none _ _ E), bool_decide_eq_false in Hin. done.
Qed.

Lemma tracker_answer m g s r start a own wide :
  represents m g s -> own = false ->
  tracker_handler g r start a own wide =
    (mkReader (rd_id r) (rd_client r) (GCTracker start (a ++ lru_since s start) own wide) true false,
     [GC_last (a ++ lru_since s start) (lru_seq s) wide (rd_client r)]).
Proof.
  intros Hrep ->. unfold tracker_handler. rewrite (since_answer m g s) by done.
  by destruct Hrep as (_ & -> & _).
Qed.

Lemma updated_answer m g s c r :
  represents m g s -> reader_updated g c r = reader_answers s (Some c) r.
Proof.
  intros Hrep. destruct r as [i cl k st t]. unfold reader_updated, reader_answers. cbn.
  destruct k as [addr age|start a own wide].
  - destruct st; [done|]. destruct (decide (gce_dst c <> addr)) as [Hd|Hd%dec_stable]; [by rewrite decide_False|].
    by rewrite decide_True.
  - destruct own; [done|]. by rewrite (tracker_answer m g s).
Qed.

Lemma timeout_answer m g s r : represents m g s -> reader_timeout_cb g r = reader_answers s None r.
Proof.
  intros Hrep. destruct r as [i cl k st t]. unfold reader_timeout_cb, reader_answers. cbn.
  destruct k as [addr age|start a own wide]; [by destruct st|].
  destruct own; [done|]. by rewrite (tracker_answer m g s).
Qed.

Local Abbreviation refined m w m' :=
  (returns_with (fun r => refines m r.1 (fst w) /\ r.2 = snd w) m').

Lemma frame_refines m now g w l :
  (1 <= m)%nat -> refines m g w -> lru_seq (wt_lru w) + 1 < 2 ^ 32 -> bytes (data l) ->
  refined m (waiting_step m w (CE_frame now l)) (cache_send_L_Data now g l).
Proof.
  intros Hm (Hrep & Hr & Ht & Hn) Hseq Hb. pose proof Hrep as (He & _). set (s := wt_lru w) in *.
  unfold cache_send_L_Data, waiting_step, lru_step, frame_value. fold s.
  destruct (TPDU_fromPacket_wf _ Hb) as (t & -> & _). rewrite He, bind_Ret.
  assert (forall o, returns_with (fun r => refines m r.1 (mkWaiting s (wt_readers w) (wt_rem w) (wt_next w)) /\ r.2 = o ++ [GC_send_Next])
            ('(g, o) ← Ret (g, o); Ret (g, o ++ [GC_send_Next]))) as Hsame.
  { intros o. apply returns_with_Ret. by split. }
  destruct (lru_enable s) eqn:Een.
  2: { destruct t as [p|d|n d| | |n|n]; try apply (Hsame []). destruct (is_update d) as [[]|]; apply (Hsame []). }
  destruct t as [p|d|n d| | |n|n]; try apply (Hsame []).
  destruct (is_update_returns d) as [b ->]. rewrite bind_Ret. destruct b; [|apply (Hsame [])].
  destruct (cache_enter_represents m now g s l d Hm Hrep Hseq) as (g' & -> & Hrep' & Hr' & Ht' & Hn').
  rewrite Een in Hrep'. unfold cache_updated. rewrite bind_Ret. apply returns_with_Ret. cbn [fst snd lru_seq].
  erewrite (list_fmap_ext (reader_updated g' _) (reader_answers _ (Some _)));
    [|intros i x _; exact (updated_answer m g' _ _ x Hrep')].
  rewrite Hr', Hr. split; [|done]. split; [by apply set_readers_represents|].
  cbn [set_readers gc_reader gc_remtrigger gc_next_reader wt_readers wt_rem wt_next].
  rewrite Ht', Ht, Hn', Hn. done.
Qed.

Lemma remove_represents m g s ga :
  represents m g s -> represents m (cache_remove g ga) (lru_step m s (CE_remove ga)).
Proof.
  intros Hrep. pose proof Hrep as (He & Hq & H0 & HM & Hl & Hok & Hc & Hcs).
  unfold cache_remove, represents. cbn [lru_step lru_entries lru_enable lru_seq].
  assert (length (filter (fun x => gce_dst x <> ga) (lru_entries s)) <= m)%nat as Hlen
    by (pose proof (length_filter (fun x => gce_dst x <> ga) (lru_entries s)); lia).
  pose proof (entries_ok_sublist _ _ _ (sublist_filter (fun x => gce_dst x <> ga) (lru_entries s)) Hok) as Hok'.
  destruct (gc_cache g !! ga) as [f|] eqn:E.
  - apply Hc in E as [Hf Hd]. cbn [set_cache gc_enable gc_seq gc_maxsize gc_cache gc_cache_seq].
    split_and!; try done.
    + intros d e. rewrite lookup_delete_Some, Hc, list_elem_of_filter. split; [intros (? & ? & <-)|intros ([] & <-)]; auto.
    + destruct Hok as (Hn & Hs & _). rewrite Hcs, (seq_erase_entry _ f Hn Hs Hf). by rewrite Hd.
  - rewrite (filter_all (fun x => gce_dst x <> ga)); [done|].
    intros x Hx Hd. enough (gc_cache g !! ga = Some x) by congruence. by apply Hc.
Qed.

Lemma Read_refines m now g w addr t age c :
  refines m g w -> refined m (waiting_step m w (CE_read now addr t age c)) (cache_Read now g addr t age c).
Proof.
  intros Hw. pose proof Hw as (Hrep & Hr & Ht & Hn). pose proof Hrep as (He & _).
  destruct w as [s rs rm nx]. cbn [wt_lru wt_readers wt_rem wt_next] in *.
  unfold cache_Read, waiting_step. cbn [wt_lru wt_readers wt_rem wt_next lru_step].
  rewrite He, (find_answer m g s addr Hrep). destruct (lru_enable s); cbn [negb]; [|apply returns_with_Ret; by split].
  assert (refined m (if bool_decide (t = 0) then (mkWaiting s rs rm nx, [GC_read (GroupCacheEntry_new addr) true c])
                     else (wait_add (mkWaiting s rs rm nx) c (GCReader addr age), [GC_recv (read_request addr)]))
            (if decide (t = 0) then Ret (g, [GC_read (GroupCacheEntry_new addr) true c])
             else a ← APDU_ToPacket A_GroupValue_Read_PDU; d ← T_DATA_XXX_REQ_ToPacket a;
                  Ret (cache_add g c (GCReader addr age),
                       [GC_recv (mkL_Data PRIO_LOW false true true GroupAddress 0 addr 0x06 d)]))) as Hunknown.
  { rewrite bool_decide_decide. destruct (decide (t = 0)); [apply returns_with_Ret; by split|].
    change (APDU_ToPacket A_GroupValue_Read_PDU) with (Ret [0; 0] : outcome CArray).
    rewrite bind_Ret. change (T_DATA_XXX_REQ_ToPacket [0; 0]) with (Ret [0; 0] : outcome CArray). rewrite bind_Ret.
    apply returns_with_Ret. split; [|done]. unfold refines, wait_add, cache_add. cbn. rewrite Hr, Hn. by split_and!. }
  cbv zeta. destruct (lru_find s addr) as [e|]; [|exact Hunknown].
  destruct (decide (age <> 0 /\ gce_recvtime e + age < now)) as [[H1 H2]|H1].
  - rewrite (bool_decide_eq_true_2 _ H1), (bool_decide_eq_true_2 _ H2). exact Hunknown.
  - assert (bool_decide (age <> 0) && bool_decide (gce_recvtime e + age < now) = false) as ->.
    { apply andb_false_iff. rewrite !bool_decide_eq_false. destruct (decide (age <> 0)); tauto. }
    apply returns_with_Ret. by split.
Qed.

Lemma step_refines m g w e :
  (1 <= m)%nat -> refines m g w -> lru_seq (wt_lru w) + 1 < 2 ^ 32 -> event_bytes e -> uncleared e ->
  refined m (waiting_step m w e) (cache_step g e).
Proof.
  intros Hm Hw Hseq He Hu. pose proof Hw as (Hrep & Hr & Ht & Hn).
  destruct e; cbn [cache_step event_bytes uncleared] in *; try done.
  - by apply frame_refines.
  - apply returns_with_Ret. split; [|done]. split; [by apply remove_represents|].
    unfold cache_remove. by destruct (gc_cache g !! ga).
  - by apply Read_refines.
  - apply returns_with_Ret. split; [|done]. unfold waiting_step, LastUpdates. cbn [fst lru_step].
    pose proof Hrep as (_ & -> & _). destruct (decide _); [by destruct w|].
    unfold refines, wait_add, cache_add. cbn. rewrite Hr, Hn. by split_and!.
  - apply returns_with_Ret. split; [|done]. unfold refines, wait_add, LastUpdates2, cache_add. cbn. rewrite Hr, Hn. by split_and!.
  - apply returns_with_Ret. unfold cache_timeout, waiting_step. cbn [fst snd].
    erewrite (list_fmap_ext _ (fun r => if bool_decide (rd_id r = id) && rd_timeout r then reader_answers (wt_lru w) None r else (r, [])));
      [|intros i x _; cbn beta; destruct (_ && _); [|done]; exact (timeout_answer m g _ x Hrep)].
    rewrite Hr, Ht. split; [|done]. split; [by apply set_readers_represents|]. by split_and!.
  - apply returns_with_Ret. split; [|done]. unfold remtrigger_cb. split; [by apply set_readers_represents|]. cbn. by rewrite Hr.
  - apply returns_with_Ret. split; [|done]. split; [|by destruct b].
    destruct Hrep as [_ Hrep]. by destruct b; split.
Qed.

Definition lru_run (m : nat) (s : lru) (es : list cache_event) : lru := foldl (lru_step m) s es.

Lemma lru_step_seq m s e : lru_seq (lru_step m s e) <= lru_seq s + 1.
Proof. destruct e; cbn; try lia. destruct (frame_value l), (lru_enable s); cbn; lia. Qed.

Lemma waiting_step_lru m w e : wt_lru (waiting_step m w e).1 = lru_step m (wt_lru w) e.
Proof.
  destruct e; cbn; try done.
  - destruct (frame_value l) as [d|]; [|done]. by destruct (lru_enable (wt_lru w)).
  - destruct (negb _); [done|]. destruct (lru_find _ _) as [e|]; [destruct (decide _)|]; try done; by destruct (bool_decide _).
  - by destruct (decide _).
Qed.

Lemma waiting_run_lru m es : forall w, wt_lru (waiting_run m w es).1 = lru_run m (wt_lru w) es.
Proof.
  induction es as [|e es IH]; intros w; [done|]. cbn [waiting_run fst]. rewrite IH, waiting_step_lru. done.
Qed.

Lemma run_refines m es : forall g w,
  (1 <= m)%nat -> refines m g w -> lru_seq (wt_lru w) + Z.of_nat (length es) < 2 ^ 32 ->
  Forall event_bytes es -> Forall uncleared es ->
  refined m (waiting_run m w es) (cache_run g es).
Proof.
  induction es as [|e es IH]; intros g w Hm Hw Hseq Hes Hus; [by apply returns_with_Ret|].
  apply Forall_cons_iff in Hes as [He Hes], Hus as [Hu Hus]. cbn [length] in Hseq. cbn [cache_run].
  destruct (step_refines m g w e) as ([g1 o1] & -> & H1 & E1); [done || lia..|]. rewrite bind_Ret.
  cbn [fst snd] in *. pose proof (lru_step_seq m (wt_lru w) e).
  destruct (IH g1 (waiting_step m w e).1) as ([g2 o2] & -> & H2 & E2); try done; [rewrite waiting_step_lru; lia|].
  rewrite bind_Ret. apply returns_with_Ret. cbn [waiting_run fst snd] in *. split; [done|congruence].
Qed.

(** *** What is found is the last value, cleared or not *)

(** Nothing but last values is held; the numbers agree. *)
Definition holds_last (g : GroupCache) (v : last_values) : Prop :=
  gc_enable g = lv_enable v /\ gc_seq g = lv_seq v /\ 0 <= lv_seq v /\ 1 <= gc_maxsize g /\
  gc_cache g ⊆ lv_map v.

Lemma evict_subseteq mx s : forall c,
  1 <= mx -> returns_with (fun r => r.1 ⊆ c) (evict mx c s).
Proof.
  induction s as [|[k a] s IH]; intros c Hm; cbn [evict].
  - rewrite decide_False by (cbn; lia). by apply returns_with_Ret.
  - destruct (decide _); [|by apply returns_with_Ret].
    apply (returns_with_mono _ _ _ (IH (delete a c) Hm)). intros r Hr. etrans; [exact Hr|]. apply delete_subseteq.
Qed.

Lemma enter_holds now g v l d :
  holds_last g v -> lv_seq v + 1 < 2 ^ 32 ->
  returns_with (fun r => holds_last r.1
    (mkLast (lv_enable v) (lv_seq v + 1) (<[dest l := mkEntry d (source l) (dest l) now (lv_seq v + 1)]> (lv_map v))))
    (cache_enter now g l d).
Proof.
  intros (He & Hq & H0 & Hm & Hc) Hseq. unfold cache_enter.
  eapply (returns_with_bind (fun r : gmap Z GroupCacheEntry * list (Z * Z) => r.1 ⊆ lv_map v)).
  - destruct (gc_cache g !! dest l); [by apply returns_with_Ret|].
    apply (returns_with_mono _ _ _ (evict_subseteq _ _ _ Hm)). intros r Hr. by etrans.
  - intros [c s] Hs. cbn in Hs. cbv zeta. rewrite Hq, (u32_small (lv_seq v + 1)) by (unfold is_u32; lia).
    apply returns_with_Ret. unfold holds_last. cbn. split_and!; [done|done|lia|done|by apply insert_mono].
Qed.

Lemma step_holds g v e :
  holds_last g v -> lv_seq v + 1 < 2 ^ 32 -> event_bytes e ->
  returns_with (fun r => holds_last r.1 (last_step v e)) (cache_step g e).
Proof.
  intros Hh Hseq Hb. pose proof Hh as (He & Hq & H0 & Hm & Hc).
  destruct e as [now l|ga|now addr t age c|start c|start c|id| |b| |]; cbn [cache_step last_step event_bytes] in *.
  - unfold cache_send_L_Data, frame_value. destruct (TPDU_fromPacket_wf _ Hb) as (t & -> & _). rewrite He, bind_Ret.
    assert (returns_with (fun r => holds_last r.1 v) ('(g, o) ← Ret (g, []); Ret (g, o ++ [GC_send_Next]))) as Hsame.
    { by apply returns_with_Ret. }
    destruct t as [p|d|n d| | |n|n]; try by destruct (lv_enable v).
    destruct (is_update_returns d) as [b Eb]. rewrite Eb. destruct b; [|by destruct (lv_enable v)].
    destruct (lv_enable v) eqn:Een; [|done]. rewrite bind_Ret.
    destruct (enter_holds now g v l d Hh Hseq) as ([g' o] & -> & Hh'). rewrite Een in Hh'. by apply returns_with_Ret.
  - apply returns_with_Ret. unfold cache_remove. destruct (gc_cache g !! ga) as [f|] eqn:E; unfold holds_last; cbn.
    + split_and!; try done. by apply delete_mono.
    + split_and!; try done. rewrite <-(delete_id _ _ E). by apply delete_mono.
  - unfold cache_Read. destruct (negb _); [by apply returns_with_Ret|]. cbv zeta.
    destruct (match gc_cache g !! addr with Some _ => _ | None => _ end); [by apply returns_with_Ret|].
    destruct (decide _); by apply returns_with_Ret.
  - apply returns_with_Ret. unfold LastUpdates. by destruct (decide _).
  - by apply returns_with_Ret.
  - by apply returns_with_Ret.
  - by apply returns_with_Ret.
  - apply returns_with_Ret. by destruct b.
  - apply returns_with_Ret. by split_and!.
  - apply returns_with_Ret. by split_and!.
Qed.

Lemma last_step_seq v e : lv_seq (last_step v e) <= lv_seq v + 1.
Proof. destruct e; cbn; try lia. destruct (frame_value l), (lv_enable v); cbn; lia. Qed.

Lemma run_holds es : forall g v,
  holds_last g v -> lv_seq v + Z.of_nat (length es) < 2 ^ 32 -> Forall event_bytes es ->
  returns_with (fun r => holds_last r.1 (foldl last_step v es)) (cache_run g es).
Proof.
  induction es as [|e es IH]; intros g v Hh Hseq Hes; [by apply returns_with_Ret|].
  apply Forall_cons_iff in Hes as [He Hes]. cbn [length] in Hseq. cbn [cache_run].
  eapply returns_with_bind; [apply (step_holds g v e); done || lia|].
  intros [g1 o1] H1. cbn in H1. pose proof (last_step_seq v e).
  eapply returns_with_bind; [apply (IH g1 (last_step v e)); done || lia|].
  intros [g2 o2] H2. by apply returns_with_Ret.
Qed.

Definition cache_new (m : nat) : GroupCache := mkCache [] ∅ false (Z.of_nat m) 0 [] false 0.

Lemma cache_new_represents m : represents m (cache_new m) (mkLru false 0 []).
Proof.
  assert (forall d e, (gc_cache (cache_new m)) !! d = Some e <-> e ∈ @nil GroupCacheEntry /\ gce_dst e = d) as Hc.
  { intros d e. cbn. rewrite lookup_empty. split; [done|]. intros [H _]. by apply not_elem_of_nil in H. }
  do 5 (split; [cbn; done || lia|]). split; [|by split]. split; [apply NoDup_nil_2|]. split; constructor.
Qed.


(** ** Requests for updates *)

Lemma high_part n : 0 <= n < 2 ^ 32 -> Z.land n (u32 (Z.lnot 0xFFFF)) = n - n mod 65536.
Proof.
  intros Hn. change (u32 (Z.lnot 0xFFFF)) with (Z.ones 32 - 65535).
  assert (Z.land n (Z.ones 32 - 65535) = Z.shiftl (Z.shiftr n 16) 16) as ->.
  { apply Z.bits_inj'. intros i Hi. rewrite Z.land_spec.
    change (Z.ones 32 - 65535) with (Z.shiftl (Z.ones 16) 16).
    destruct (decide (i < 16)).
    - rewrite !Z.shiftl_spec_low by lia. apply andb_false_r.
    - rewrite !Z.shiftl_spec by lia. rewrite Z.shiftr_spec, Z.sub_add by lia.
      destruct (decide (i < 32)).
      + rewrite (Z.ones_spec_low 16 (i - 16)) by lia. apply andb_true_r.
      + assert (Z.testbit n i = false) as ->; [|done].
        rewrite <- (Z.mod_small n (2 ^ 32)) by lia. apply Z.mod_pow2_bits_high. lia. }
  rewrite Z.shiftl_mul_pow2, Z.shiftr_div_pow2 by lia. change (2 ^ 16) with 65536.
  pose proof (Z.div_mod n 65536 ltac:(lia)). lia.
Qed.

(** A request with a 16 bit start number is taken up only if the number is not above
    the low half of the counter: such a request gets a reader that will answer it; any other
    request, which means an update before the low half wrapped around, is forgotten and its client
    waits for ever. *)
Theorem last_updates_forgotten (g : GroupCache) (start client : Z) :
  0 <= gc_seq g < 2 ^ 32 -> 0 <= start < 65536 ->
  if decide (start <= gc_seq g mod 65536)
  then LastUpdates g start client =
         cache_add g client (GCTracker (gc_seq g - gc_seq g mod 65536 + start) [] false false)
  else LastUpdates g start client = g.
Proof.
  intros Hs Hst. unfold LastUpdates. rewrite high_part by done.
  pose proof (Z.mod_pos_bound (gc_seq g) 65536 ltac:(lia)).
  pose proof (Z.div_mod (gc_seq g) 65536 ltac:(lia)) as Hdm.
  assert (gc_seq g / 65536 < 65536) by (apply Z.div_lt_upper_bound; lia).
  rewrite u32_small by (unfold is_u32; lia).
  destruct (decide (start <= _)); [rewrite decide_False|rewrite decide_True]; done || lia.
Qed.

(** ** Clearing *)

(** A write of one byte to a group address. *)
Definition sample_write (d : Z) : L_Data_PDU :=
  mkL_Data PRIO_LOW false true true GroupAddress 0x1101 d 0x06 [0x00; 0x80; 0x01].

Definition frames_to (ds : list Z) : list cache_event := (fun d => CE_frame 0 (sample_write d)) <$> ds.

(** Clearing the cache leaves its map of sequence numbers behind, so that later a
    current entry is thrown out: in a cache for three addresses that has seen 1 and 2, was
    cleared and has then seen 2, 3 and 4, the address 2 is missing. *)
Theorem cleared_cache_loses_entry :
  exists g1 o1 g2 o2,
    cache_run (cache_new 3) (CE_enable true :: frames_to [1; 2]) = Ret (g1, o1) /\
    cache_run (cache_Clear g1) (frames_to [2; 3; 4]) = Ret (g2, o2) /\
    gc_cache g2 !! 2 = None /\ dom (gc_cache g2) = {[3; 4]} /\
    gce_dst <$> lru_entries (lru_run 3 (mkLru true 0 []) (frames_to [2; 3; 4])) = [4; 3; 2].
Proof.
  eexists _, _, _, _. split; [vm_compute; reflexivity|]. split; [vm_compute; reflexivity|].
  split_and!; [vm_compute; reflexivity| |vm_compute; reflexivity].
  apply (bool_decide_unpack _). vm_compute. exact I.
Qed.

Definition cache_demo : list cache_event :=
  CE_enable true :: CE_last2 0 7 :: frames_to [1; 2; 1; 3] ++ [CE_read 0 3 0 0 8].


Lemma last_updates_forgotten_witness :
  LastUpdates (set_cache (cache_new 2) ∅ [] 0x10005) 0xFFFE 7 = set_cache (cache_new 2) ∅ [] 0x10005.
Proof.
  pose proof (last_updates_forgotten (set_cache (cache_new 2) ∅ [] 0x10005) 0xFFFE 7
                ltac:(cbn; lia) ltac:(lia)) as H.
  exact H.
Defined.
