(* ===== verification/Client.v ===== *)
(** * Clients of the daemon

    Models src/src/libserver/connection.h and src/src/libserver/connection.cpp (the
    objects [A_Broadcast] to [A_GroupSocket] that join a client to a transport layer
    socket), src/src/libserver/busmonitor.cpp (bus monitors for clients),
    and src/src/libserver/client.h and src/src/libserver/client.cpp
    ([class ClientConnection]: the messages of a client, taken from its stream).

    The configuration is the default one: bus monitors and group cache are built
    in, management is not.  What a method calls is a list of outputs, in order. *)

From S2P Require Import Prelude CArray Common ApduSpec Apdu Tpdu Lpdu LpduSpec.
From S2P Require Import Layer4 EibTypes GroupCache IoBuf.

(** ** The state *)

(** The object [a_conn] points to, with its transport layer socket.  The members are
    those of the socket and, for a bus monitor, its own. *)
Inductive A_conn :=
| A_Broadcast (write_only : bool)
| A_Group (groupaddr : Z) (write_only : bool)
| A_TPDU (src : Z)
| A_Individual (dst : Z) (write_only : bool)
| A_Connection (c : T_Connection)
| A_GroupSocket (write_only : bool)
| A_Busmonitor (v ts text mon_running : bool).

(** [cl_fd]: the descriptor is open.  [cl_lc]: [a_conn->lc] is set. *)
Record ClientConnection := mkClient {
  cl_fd : bool;
  cl_running : bool;
  cl_addr : Z;
  cl_id : Z;
  a_conn : option A_conn;
  cl_lc : bool
}.

(** [sendbuf.write]; calls into the link, the router and the server. *)
Inductive client_output :=
| CO_write (d : CArray)
| CO_recv (l : L_Data_PDU)
| CO_send_Next
| CO_registerLink (ok : bool)
| CO_unregisterLink
| CO_registerBusmonitor (v : bool)
| CO_deregisterBusmonitor (v : bool)
| CO_release_client_addr (a : Z)
| CO_deregister
| CO_close
| CO_cache (o : cache_output).

#[export] Instance client_output_eq_dec : EqDecision client_output.
Proof. solve_decision. Defined.

Definition set_conn (c : ClientConnection) (a : option A_conn) (lc : bool) : ClientConnection :=
  mkClient (cl_fd c) (cl_running c) (cl_addr c) (cl_id c) a lc.

(** ** Messages to the client *)

(** [sendmessage (size, msg)]: the length, then the message. *)
Definition sendmessage (n : nat) (msg : CArray) : outcome (list client_output) :=
  _ ← assert_ (bool_decide (2 <= n)%nat);
  m ← slice msg 0 n;
  Ret [CO_write [u8 (Z.land (Z.of_nat n ≫ 8) 0xff); u8 (Z.land (Z.of_nat n) 0xff)]; CO_write m].

Definition sendreject_code (t : Z) : outcome (list client_output) :=
  buf ← EIBSETTYPE [0; 0] t;
  sendmessage 2 buf.
Definition sendreject : outcome (list client_output) := sendreject_code EIB_INVALID_REQUEST.

Definition send_all (res : CArray) : outcome (list client_output) := sendmessage (size res) res.

(** A message with an address in front of the data, as [A_Broadcast], [A_Group] and [A_TPDU]
    build it. *)
Definition addressed (a : Z) (d : CArray) : outcome (list client_output) :=
  let res := resize [] (4 + size d) in
  res ← EIBSETTYPE res EIB_APDU_PACKET;
  res ← put res 2 (Z.land (a ≫ 8) 0xff);
  res ← put res 3 (Z.land a 0xff);
  res ← setpart res d 4 (size d);
  send_all res.

Definition A_Broadcast_send (e : BroadcastComm) : outcome (list client_output) := addressed (bc_src e) (bc_data e).
Definition A_Group_send (e : GroupComm) : outcome (list client_output) := addressed (gc_src e) (gc_data e).
Definition A_TPDU_send (e : TpduComm) : outcome (list client_output) := addressed (tpc_addr e) (tpc_data e).

Definition A_Individual_send (e : CArray) : outcome (list client_output) :=
  let res := resize [] (2 + size e) in
  res ← EIBSETTYPE res EIB_APDU_PACKET;
  res ← setpart res e 2 (size e);
  send_all res.

(** [A_Connection::send] is the same code. *)
Definition A_Connection_send (e : CArray) : outcome (list client_output) := A_Individual_send e.

Definition A_GroupSocket_send (e : GroupAPDU) : outcome (list client_output) :=
  let res := resize [] (6 + size (ga_data e)) in
  res ← EIBSETTYPE res EIB_GROUP_PACKET;
  res ← put res 2 (Z.land (ga_src e ≫ 8) 0xff);
  res ← put res 3 (Z.land (ga_src e) 0xff);
  res ← put res 4 (Z.land (ga_dst e ≫ 8) 0xff);
  res ← put res 5 (Z.land (ga_dst e) 0xff);
  res ← setpart res (ga_data e) 6 (size (ga_data e));
  send_all res.

(** [A_Busmonitor::send_L_Busmonitor] and [A_Text_Busmonitor::send_L_Busmonitor] *)
Definition A_Busmonitor_send (ts : bool) (status timestamp : Z) (pdu : CArray) : outcome (list client_output) :=
  buf ← (if ts then
           buf ← EIBSETTYPE (resize [] 7) EIB_BUSMONITOR_PACKET_TS;
           buf ← put buf 2 status;
           buf ← put buf 3 (Z.land (timestamp ≫ 24) 0xff);
           buf ← put buf 4 (Z.land (timestamp ≫ 16) 0xff);
           buf ← put buf 5 (Z.land (timestamp ≫ 8) 0xff);
           put buf 6 (Z.land timestamp 0xff)
         else EIBSETTYPE (resize [] 2) EIB_BUSMONITOR_PACKET);
  send_all (append buf pdu).

Definition A_Text_Busmonitor_send (p : L_Busmonitor_PDU) : outcome (list client_output) :=
  s ← LPDU_Decode (L_Busmonitor_LPDU p);
  let t := (fun c => Z.of_N (Ascii.N_of_ascii c)) <$> String.list_ascii_of_string s in
  let buf := resize [] (2 + size t + 1) in
  buf ← EIBSETTYPE buf EIB_BUSMONITOR_PACKET;
  buf ← setpart buf (t ++ [0]) 2 (size t + 1);
  send_all buf.

(** ** From the sockets *)

(** What a socket calls, with [app->send] given. *)
Fixpoint l4_outputs {C} (send : C -> outcome (list client_output)) (o : list (l4_output C))
  : outcome (list client_output) :=
  match o with
  | [] => Ret []
  | x :: o =>
      r ← match x with
          | L4_app c => send c
          | L4_recv l => Ret [CO_recv l]
          | L4_send_Next => Ret [CO_send_Next]
          end;
      r' ← l4_outputs send o;
      Ret (r ++ r')
  end.

(** A frame from the router, for the socket of the client. *)
Definition client_send_L_Data (a : A_conn) (l : L_Data_PDU) : outcome (A_conn * list client_output) :=
  match a with
  | A_Broadcast _ => o ← T_Broadcast_send_L_Data l; r ← l4_outputs A_Broadcast_send o; Ret (a, r)
  | A_Group _ _ => o ← T_Group_send_L_Data l; r ← l4_outputs A_Group_send o; Ret (a, r)
  | A_TPDU _ => r ← l4_outputs A_TPDU_send (T_TPDU_send_L_Data l); Ret (a, r)
  | A_Individual _ _ => o ← T_Individual_send_L_Data l; r ← l4_outputs A_Individual_send o; Ret (a, r)
  | A_Connection c =>
      '(c, o) ← tc_send_L_Data c l; r ← l4_outputs A_Connection_send o; Ret (A_Connection c, r)
  | A_GroupSocket _ => o ← GroupSocket_send_L_Data l; r ← l4_outputs A_GroupSocket_send o; Ret (a, r)
  | A_Busmonitor _ _ _ _ => Ret (a, [])
  end.

(** The timer of a connection. *)
Definition client_timer_cb (a : A_conn) : outcome (A_conn * list client_output) :=
  match a with
  | A_Connection c => '(c, o) ← tc_timer_cb c; r ← l4_outputs A_Connection_send o; Ret (A_Connection c, r)
  | _ => Ret (a, [])
  end.

(** A frame for a bus monitor. *)
Definition client_send_L_Busmonitor (a : A_conn) (p : L_Busmonitor_PDU) : outcome (list client_output) :=
  match a with
  | A_Busmonitor _ _ true _ => A_Text_Busmonitor_send p
  | A_Busmonitor _ ts false _ => A_Busmonitor_send ts (bm_status p) (bm_timestamp p) (bm_pdu p)
  | _ => Ret []
  end.

(** ** From the client *)

(** The test at the head of each [recv_Data]: the smallest length and the type expected. *)
Definition bad_data (buf : CArray) (len min : nat) (type : Z) : outcome bool :=
  if decide (len < min)%nat then Ret true else t ← EIBTYPE buf; Ret (bool_decide (t <> type)).

(** [recv_Data] of the objects; [None]: [on_error ()]. *)
Definition A_recv_Data (a : A_conn) (buf : CArray) (len : nat)
  : outcome (option (A_conn * list client_output)) :=
  match a with
  | A_Broadcast _ =>
      bad ← bad_data buf len 2 EIB_APDU_PACKET;
      if bad : bool then Ret None
      else
        d ← slice buf 2 (len - 2);
        o ← T_Broadcast_recv_Data d; r ← l4_outputs A_Broadcast_send o; Ret (Some (a, r))
  | A_Group g _ =>
      bad ← bad_data buf len 2 EIB_APDU_PACKET;
      if bad : bool then Ret None
      else
        d ← slice buf 2 (len - 2);
        o ← T_Group_recv_Data g d; r ← l4_outputs A_Group_send o; Ret (Some (a, r))
  | A_TPDU src =>
      bad ← bad_data buf len 4 EIB_APDU_PACKET;
      if bad : bool then Ret None
      else
        d ← slice buf 4 (len - 4);
        dst ← be16_at buf 2;
        r ← l4_outputs A_TPDU_send (T_TPDU_recv_Data src (mkTpduComm d dst)); Ret (Some (a, r))
  | A_Individual dst _ =>
      bad ← bad_data buf len 2 EIB_APDU_PACKET;
      if bad : bool then Ret None
      else
        d ← slice buf 2 (len - 2);
        o ← T_Individual_recv_Data dst d; r ← l4_outputs A_Individual_send o; Ret (Some (a, r))
  | A_Connection c =>
      bad ← bad_data buf len 2 EIB_APDU_PACKET;
      if bad : bool then Ret None
      else
        d ← slice buf 2 (len - 2);
        '(c, o) ← tc_recv_Data c d; r ← l4_outputs A_Connection_send o; Ret (Some (A_Connection c, r))
  | A_GroupSocket _ =>
      bad ← bad_data buf len 4 EIB_GROUP_PACKET;
      if bad : bool then Ret None
      else
        d ← slice buf 4 (len - 4);
        dst ← be16_at buf 2;
        o ← GroupSocket_recv_Data (mkGroupAPDU d 0 dst);
        r ← l4_outputs A_GroupSocket_send o; Ret (Some (a, r))
  | A_Busmonitor _ _ _ _ => Ret (Some (a, []))
  end.

(** [a_conn->stop ()]: only a bus monitor does something. *)
Definition A_stop (a : A_conn) : list client_output :=
  match a with
  | A_Busmonitor v _ _ true => [CO_deregisterBusmonitor v]
  | _ => []
  end.

(** The destructor.  The link is gone, so that the stop of a connection only
    tells the client; it is called by the destructors of [A_Connection] and
    of [T_Connection]. *)
Definition A_delete (a : A_conn) : outcome (list client_output) :=
  match a with
  | A_Connection _ => o ← A_Connection_send []; o' ← A_Connection_send []; Ret (o ++ o')
  | _ => Ret []
  end.

Definition exit_conn (c : ClientConnection) : outcome (ClientConnection * list client_output) :=
  match a_conn c with
  | None => Ret (c, [])
  | Some a =>
      o ← A_delete a;
      Ret (set_conn c None false,
           A_stop a ++ (if cl_lc c then [CO_unregisterLink] else []) ++ o)
  end.

Definition client_stop (c : ClientConnection) : outcome (ClientConnection * list client_output) :=
  let o1 := if decide (cl_addr c <> 0) then [CO_release_client_addr (cl_addr c)] else [] in
  let c := mkClient (cl_fd c) (cl_running c) 0 (cl_id c) (a_conn c) (cl_lc c) in
  '(c, o2) ← exit_conn c;
  if cl_fd c then
    Ret (mkClient false false (cl_addr c) (cl_id c) (a_conn c) (cl_lc c), o1 ++ o2 ++ [CO_deregister; CO_close])
  else Ret (c, o1 ++ o2 ++ [CO_deregister]).

Definition client_start (c : ClientConnection) : outcome (ClientConnection * list client_output) :=
  if cl_running c then Ret (c, [])
  else if negb (cl_fd c) then Ret (c, [])
  else if decide (cl_addr c = 0) then
    o ← sendreject_code EIB_RESET_CONNECTION;
    '(c, o') ← client_stop c;
    Ret (c, o ++ o')
  else Ret (mkClient (cl_fd c) true (cl_addr c) (cl_id c) (a_conn c) (cl_lc c), []).

(** [client_error_cb]: [ClientConnection::error_cb] *)
Definition client_error_cb (c : ClientConnection) : outcome (ClientConnection * list client_output) := client_stop c.

(** ** New connections *)

(** What the code around a client decides: the time of day, whether the new link can be
    set up and registered, the value of an uninitialised member. *)
Record client_env := mkEnv {
  env_sec : Z;
  env_usec : Z;
  env_setup : bool;
  env_register : bool;
  env_rep : Z
}.

(** The socket a request opens, given the three bytes behind its type. *)
Definition open_socket (e : client_env) (t b2 b3 b4 : Z) : option A_conn :=
  let a := Z.lor (b2 ≪ 8) b3 in
  let wo := bool_decide (b4 <> 0) in
  if decide (t = EIB_OPEN_T_BROADCAST) then Some (A_Broadcast wo)
  else if decide (t = EIB_OPEN_T_GROUP) then Some (A_Group a wo)
  else if decide (t = EIB_OPEN_T_INDIVIDUAL) then Some (A_Individual a wo)
  else if decide (t = EIB_OPEN_T_TPDU) then Some (A_TPDU a)
  else if decide (t = EIB_OPEN_T_CONNECTION) then Some (A_Connection (T_Connection_new a (env_rep e)))
  else if decide (t = EIB_OPEN_GROUPCON) then Some (A_GroupSocket wo)
  else None.

(** The bus monitor a request opens. *)
Definition open_busmonitor (t : Z) : option A_conn :=
  if decide (t = EIB_OPEN_BUSMONITOR) then Some (A_Busmonitor false false false false)
  else if decide (t = EIB_OPEN_BUSMONITOR_TEXT) then Some (A_Busmonitor false false true false)
  else if decide (t = EIB_OPEN_BUSMONITOR_TS) then Some (A_Busmonitor false true false false)
  else if decide (t = EIB_OPEN_VBUSMONITOR) then Some (A_Busmonitor true false false false)
  else if decide (t = EIB_OPEN_VBUSMONITOR_TEXT) then Some (A_Busmonitor true false true false)
  else if decide (t = EIB_OPEN_VBUSMONITOR_TS) then Some (A_Busmonitor true true false false)
  else None.

(** [A_Busmonitor::setup] *)
Definition busmonitor_setup (e : client_env) (ts : bool) (buf : CArray) (len : nat)
  : outcome (bool * list client_output) :=
  if decide (len <> 2%nat) then o ← sendreject; Ret (false, o)
  else
    resp ← setpart [] buf 0 2;
    resp ← (if ts then
              let resp := resize resp 6 in
              let tt := u32 (env_sec e * 65536 + env_usec e / (1000000 / 65536 + 1)) in
              resp ← put resp 2 (tt ≫ 24);
              resp ← put resp 3 (tt ≫ 16);
              resp ← put resp 4 (tt ≫ 8);
              put resp 5 tt
            else Ret resp);
    o ← send_all resp;
    Ret (true, o).

(** The end of a request that could not be served: [exit_conn (); sendreject ();] *)
Definition refuse (c : ClientConnection) : outcome (ClientConnection * list client_output) :=
  '(c, o) ← exit_conn c;
  o' ← sendreject;
  Ret (c, o ++ o').

(** [new_a_conn] for the sockets, with their [setup]. *)
Definition new_socket (e : client_env) (c : ClientConnection) (t : Z) (buf : CArray) (len : nat)
  : outcome (ClientConnection * list client_output) :=
  if decide (len <> 5%nat) then refuse c
  else
    b2 ← at_ buf 2; b3 ← at_ buf 3; b4 ← at_ buf 4;
    let c' := set_conn c (open_socket e t b2 b3 b4) true in
    if negb (env_setup e) then refuse c'
    else
      o ← sendmessage 2 buf;
      if env_register e then Ret (c', o ++ [CO_registerLink true])
      else '(c, o') ← refuse c'; Ret (c, o ++ CO_registerLink false :: o').

(** [new_a_conn] for bus monitors, with [A_Busmonitor::start]. *)
Definition new_busmonitor (e : client_env) (c : ClientConnection) (v ts text : bool) (buf : CArray) (len : nat)
  : outcome (ClientConnection * list client_output) :=
  '(ok, o) ← busmonitor_setup e ts buf len;
  if ok : bool then Ret (set_conn c (Some (A_Busmonitor v ts text true)) false, o ++ [CO_registerBusmonitor v])
  else '(c, o') ← refuse (set_conn c (Some (A_Busmonitor v ts text false)) false); Ret (c, o ++ o').

(** ** A message *)

Definition is_cache_request (t : Z) : bool :=
  bool_decide (EIB_CACHE_ENABLE <= t) && bool_decide (t <= EIB_CACHE_LAST_UPDATES_2).

(** The answers of the group cache: a call of [cb] sends a message. *)
Fixpoint cache_answers (o : list (Z + cache_output)) : outcome (list client_output) :=
  match o with
  | [] => Ret []
  | x :: o =>
      r ← match x with
          | inl code => sendreject_code code
          | inr y =>
              m ← cache_message y;
              match m with Some m => send_all m | None => Ret [CO_cache y] end
          end;
      r' ← cache_answers o;
      Ret (r ++ r')
  end.

(** A client with the router's group cache. *)
Definition client_state : Type := ClientConnection * option GroupCache.
Definition client_result : Type := outcome (client_state * list client_output).

(** The part of [read_cb] after the length: one message of [len] bytes at the front of [buf]. *)
Definition client_message (e : client_env) (s : client_state) (buf : CArray) (len : nat) : client_result :=
  let '(c, g) := s in
  msg ← EIBTYPE buf;
  match a_conn c with
  | Some a =>
      if decide (msg = EIB_RESET_CONNECTION) then
        '(c, o) ← exit_conn c; o' ← sendreject_code EIB_RESET_CONNECTION; Ret ((c, g), o ++ o')
      else
        r ← A_recv_Data a buf len;
        match r with
        | Some (a, o) => Ret ((set_conn c (Some a) (cl_lc c), g), o)
        | None => '(c, o) ← exit_conn c; Ret ((c, g), o)
        end
  | None =>
      match open_busmonitor msg with
      | Some (A_Busmonitor v ts text _) => '(c, o) ← new_busmonitor e c v ts text buf len; Ret ((c, g), o)
      | _ =>
          match open_socket e msg 0 0 0 with
          | Some _ => '(c, o) ← new_socket e c msg buf len; Ret ((c, g), o)
          | None =>
              if is_cache_request msg then
                '(g, o) ← GroupCacheRequest (env_sec e) g (cl_id c) buf len;
                r ← cache_answers o;
                Ret ((c, g), r)
              else if decide (msg = EIB_RESET_CONNECTION) then
                o ← sendreject_code EIB_RESET_CONNECTION; Ret (s, o)
              else o ← sendreject; Ret (s, o)
          end
      end
  end.

(** [ClientConnection::read_cb]: [a] is the array of the receive buffer, of which [len] bytes
    are received; the result is how many of them were taken. *)
Definition client_read_cb (e : client_env) (s : client_state) (a : CArray) (len : nat)
  : outcome (client_state * list client_output * nat) :=
  if decide (len < 2)%nat then Ret (s, [], 0%nat)
  else
    b0 ← at_ a 0; b1 ← at_ a 1;
    let xlen := Z.to_nat (Z.lor (b0 ≪ 8) b1) in
    if decide (len < xlen + 2)%nat then Ret (s, [], 0%nat)
    else
      '(s, o) ← client_message e s (drop 2 a) xlen;
      Ret (s, o, (xlen + 2)%nat).
