(* ===== verification/ClientSpec.v ===== *)
(** * Properties of client connections

    Messages are taken from the stream of a client however it is cut up; what a
    client sends becomes a frame exactly if it has a payload; what one client sends to a group
    reaches another unchanged; links, bus monitors and addresses are given back. *)

From S2P Require Import Prelude CArray Common ApduSpec Apdu Tpdu Lpdu LpduSpec.
From S2P Require Import Link Router RouterSpec Layer4 EibTypes GroupCache IoBuf Client.

(** ** A message at the front of a longer buffer *)

Section Front.
Context (m x : CArray).

Lemma at_front i : (i < size m)%nat -> at_ (m ++ x) i = at_ m i.
Proof. intros Hi. unfold at_. by rewrite lookup_app_l. Qed.

Lemma slice_in_front off cnt : (off + cnt <= size m)%nat -> slice (m ++ x) off cnt = slice m off cnt.
Proof.
  intros H. unfold slice. rewrite !decide_True by (unfold size in *; rewrite ?length_app; lia).
  unfold size in *. by rewrite drop_app_le, take_app_le by (rewrite ?length_drop; lia).
Qed.

Lemma be16_front i : (i + 1 < size m)%nat -> be16_at (m ++ x) i = be16_at m i.
Proof. intros H. unfold be16_at. by rewrite !at_front by lia. Qed.

Lemma EIBTYPE_front : (2 <= size m)%nat -> EIBTYPE (m ++ x) = EIBTYPE m.
Proof. intros H. unfold EIBTYPE. by rewrite !at_front by lia. Qed.

Lemma bad_data_front min t : (2 <= size m)%nat -> bad_data (m ++ x) (size m) min t = bad_data m (size m) min t.
Proof. intros H. unfold bad_data. by rewrite EIBTYPE_front. Qed.

Lemma sendmessage_front : (2 <= size m)%nat -> sendmessage 2 (m ++ x) = sendmessage 2 m.
Proof. intros H. unfold sendmessage. by rewrite slice_in_front by lia. Qed.

Lemma setpart_front : (2 <= size m)%nat -> setpart [] (m ++ x) 0 2 = setpart [] m 0 2.
Proof.
  intros H. unfold setpart. rewrite !(decide_True (P := (2 <= _)%nat)) by (unfold size in *; rewrite ?length_app; lia).
  by rewrite take_app_le by (unfold size in *; lia).
Qed.

Lemma A_recv_Data_front a : (2 <= size m)%nat -> A_recv_Data a (m ++ x) (size m) = A_recv_Data a m (size m).
Proof.
  intros H. destruct a; cbn [A_recv_Data]; rewrite ?bad_data_front by done; try done.
  all: unfold bad_data; destruct (decide (size m < _)%nat); [done|].
  all: rewrite ?slice_in_front, ?be16_front by lia; done.
Qed.

Lemma busmonitor_setup_front e ts :
  (2 <= size m)%nat -> busmonitor_setup e ts (m ++ x) (size m) = busmonitor_setup e ts m (size m).
Proof. intros H. unfold busmonitor_setup. by rewrite setpart_front. Qed.

Lemma new_socket_front e c t :
  (2 <= size m)%nat -> new_socket e c t (m ++ x) (size m) = new_socket e c t m (size m).
Proof.
  intros H. unfold new_socket. destruct (decide (size m <> 5%nat)) as [|H5]; [done|].
  assert (size m = 5%nat) as H5' by (destruct (decide (size m = 5%nat)); done).
  rewrite !at_front, sendmessage_front by lia. done.
Qed.

Lemma GroupCacheRequest_front now g id :
  (2 <= size m)%nat -> GroupCacheRequest now g id (m ++ x) (size m) = GroupCacheRequest now g id m (size m).
Proof.
  intros H. unfold GroupCacheRequest. destruct g as [g|]; [|done]. rewrite EIBTYPE_front by done.
  destruct (EIBTYPE m) as [t|f]; [|done]. rewrite !bind_Ret.
  destruct (decide (t = EIB_CACHE_ENABLE)); [done|]. destruct (decide (t = EIB_CACHE_DISABLE)); [done|].
  destruct (decide (t = EIB_CACHE_CLEAR)); [done|].
  destruct (decide (t = EIB_CACHE_REMOVE)).
  { destruct (decide (size m < 4)%nat); [done|]. by rewrite be16_front by lia. }
  destruct (_ || _).
  { destruct (decide (size m < 4)%nat); [done|]. rewrite (be16_front 2) by lia.
    destruct (be16_at m 2) as [d|f]; [|done]. rewrite !bind_Ret.
    case_bool_decide as Ht; cbn [andb].
    - case_bool_decide as H6; [done|]. rewrite !(decide_True (P := t = EIB_CACHE_READ)) by done. by rewrite be16_front by lia.
    - by rewrite !(decide_False (P := t = EIB_CACHE_READ)) by done. }
  destruct (decide (t = EIB_CACHE_LAST_UPDATES)).
  { destruct (decide (size m < 5)%nat); [done|]. by rewrite be16_front by lia. }
  destruct (decide (t = EIB_CACHE_LAST_UPDATES_2)); [|done].
  destruct (decide (size m < 7)%nat); [done|]. by rewrite !be16_front by lia.
Qed.

Lemma client_message_front e s :
  (2 <= size m)%nat -> client_message e s (m ++ x) (size m) = client_message e s m (size m).
Proof.
  intros H. destruct s as [c g]. unfold client_message. rewrite EIBTYPE_front by done.
  destruct (EIBTYPE m) as [t|f]; [|done]. rewrite !bind_Ret.
  destruct (a_conn c) as [a|]; [by rewrite A_recv_Data_front|].
  unfold new_busmonitor. rewrite GroupCacheRequest_front, new_socket_front by done.
  destruct (open_busmonitor t) as [[]|]; try done. by rewrite busmonitor_setup_front.
Qed.
End Front.

(** ** The end of a connection *)

(** What the destructor asserts, and no object is left behind. *)
Definition stopped_client (c : ClientConnection) : Prop :=
  cl_fd c = false /\ cl_addr c = 0 /\ a_conn c = None.

Lemma exit_conn_returns c :
  exists o, exit_conn c = Ret (match a_conn c with Some _ => set_conn c None false | None => c end, o).
Proof.
  unfold exit_conn. destruct (a_conn c) as [[]|]; by eexists.
Qed.

Lemma client_stop_post c :
  exists c' o, client_stop c = Ret (c', o) /\
    stopped_client c' /\ (cl_addr c <> 0 -> CO_release_client_addr (cl_addr c) ∈ o).
Proof.
  unfold client_stop. cbv zeta.
  set (c0 := mkClient (cl_fd c) (cl_running c) 0 (cl_id c) (a_conn c) (cl_lc c)).
  destruct (exit_conn_returns c0) as [o ->]. rewrite bind_Ret.
  set (c1 := match a_conn c0 with Some _ => _ | None => _ end).
  assert (cl_fd c1 = cl_fd c /\ cl_addr c1 = 0 /\ a_conn c1 = None) as (Hf & Ha & Hn).
  { unfold c1, c0; cbn. by destruct (a_conn c). }
  assert (cl_addr c <> 0 -> forall x, CO_release_client_addr (cl_addr c) ∈
            (if decide (cl_addr c <> 0) then [CO_release_client_addr (cl_addr c)] else []) ++ x) as Hrel.
  { intros H x. rewrite decide_True by done. by left. }
  rewrite Hf. destruct (cl_fd c) eqn:E; eexists _, _; (split; [done|]); split; auto.
  - by split_and!.
  - split_and!; [by rewrite Hf|done..].
Qed.

(** ** The stream of messages *)

(** A message in the stream: its length, then itself. *)
Definition framed (m : CArray) : CArray :=
  [u8 (Z.land (Z.of_nat (size m) ≫ 8) 0xff); u8 (Z.land (Z.of_nat (size m)) 0xff)] ++ m.

(** A message has at least its type, and fits into the receive buffer. *)
Definition message_ok (m : CArray) : Prop := bytes m /\ (2 <= size m <= RECVBUF - 2)%nat.

(** The connection with what it has sent, and what its surroundings decide for the next messages. *)
Definition served : Type := client_state * list client_output * list client_env.

Section Reader.
Context (e0 : client_env).

Definition serve (s : served) (m : CArray) : outcome served :=
  let '(st, o, es) := s in
  '(st, o') ← client_message (default e0 (head es)) st m (size m);
  Ret (st, o ++ o', tail es).

(** [read_cb] as the reader of a [RecvBuf]. *)
Definition on_read (s : served) (a : CArray) (len : nat) : outcome (served * nat) :=
  let '(st, o, es) := s in
  '(st, o', n) ← client_read_cb (default e0 (head es)) st a len;
  Ret ((st, o ++ o', if decide (n = 0%nat) then es else tail es), n).

Lemma framed_size m : size (framed m) = (size m + 2)%nat.
Proof. unfold framed, size. rewrite length_app. cbn. lia. Qed.

Lemma length_read n :
  Z.of_nat n < 65536 ->
  Z.to_nat (Z.lor (u8 (Z.land (Z.of_nat n ≫ 8) 0xff) ≪ 8) (u8 (Z.land (Z.of_nat n) 0xff))) = n.
Proof.
  intros Hn. rewrite !land_ff, !u8_u8, be16_join, u16_small by (unfold is_u16; lia). lia.
Qed.

#[export] Instance client_reader : StreamReader on_read framed message_ok serve.
Proof.
  split.
  - intros m [Hb Hm]. rewrite framed_size. unfold RECVBUF in *. lia.
  - intros [[st o] es] m a len rest [Hb Hm] Ha Hlen Ht.
    assert (a = framed m ++ rest ++ drop len a) as Ea by (rewrite app_assoc, <- Ht; by rewrite take_drop).
    assert (size m + 2 <= len)%nat as Hl.
    { apply (f_equal length) in Ht. rewrite length_take, length_app in Ht.
      pose proof (framed_size m). unfold size in *. lia. }
    unfold on_read, client_read_cb, serve. rewrite decide_False by lia.
    assert (at_ a 0 = Ret (u8 (Z.land (Z.of_nat (size m) ≫ 8) 0xff)) /\
            at_ a 1 = Ret (u8 (Z.land (Z.of_nat (size m)) 0xff)) /\
            drop 2 a = m ++ rest ++ drop len a) as (-> & -> & ->).
    { rewrite Ea at 1 2 3. split_and!; try done. }
    rewrite !bind_Ret. cbv zeta. rewrite length_read by (unfold RECVBUF in *; lia).
    rewrite decide_False by lia. rewrite client_message_front by lia.
    destruct (client_message _ st m (size m)) as [[st' o']|f]; [|done]. rewrite !bind_Ret.
    rewrite decide_False by lia. by rewrite framed_size.
  - intros [[st o] es] m a len x rest [Hb Hm] Ha Hlen Ht.
    unfold on_read, client_read_cb.
    assert (len < size m + 2)%nat as Hl.
    { rewrite <- framed_size, Ht. unfold size in *. rewrite length_app, length_take. cbn. lia. }
    destruct (decide (len < 2)%nat) as [H2|H2]; [cbn; by rewrite app_nil_r|].
    destruct len as [|[|len]]; [lia..|]. destruct a as [|a0 [|a1 a]]; try (unfold size, RECVBUF in Ha; cbn in Ha; lia).
    cbn [take app] in Ht. unfold framed in Ht. cbn [app] in Ht. injection Ht as E0 E1 Em.
    cbn [at_ lookup list_lookup]. rewrite !bind_Ret. cbv zeta. rewrite <- E0, <- E1, length_read by (unfold RECVBUF in *; lia).
    rewrite decide_True by lia. cbn. by rewrite app_nil_r.
Qed.

(** [on_error] *)
Definition on_error (s : served) : outcome served :=
  let '((c, g), o, es) := s in
  '(c, o') ← client_error_cb c;
  Ret ((c, g), o ++ o', es).

(** C9: messages survive the stream: however the bytes of a client's messages, each of 2 to
    1022 bytes (a type, and room in the receive buffer), are cut into reads, the daemon handles the messages one after the other, in order and each
    exactly once, as if each had come alone; when the system holds no more bytes none is left,
    and this is the case after as many reads as there are bytes. *)
Theorem client_stream (ns : list nat) (a : CArray) (s : served) (ms : list CArray) :
  Forall message_ok ms -> size a = RECVBUF ->
  exists ms1 ms2 r rest,
    ms = ms1 ++ ms2 /\
    read_run (on_read := on_read) on_error (mkRecvBuf true false true a 0) s (stream (frame := framed) ms) ns =
      (s' ← handle_all (handle := serve) s ms1; Ret (r, s', rest)) /\
    (rest = [] -> ms2 = []) /\
    (Forall (fun n => 0 < n)%nat ns -> (size (stream (frame := framed) ms) <= length ns)%nat -> rest = []).
Proof. intros Hms Ha. by apply (stream_segmentation on_error ns a s ms). Qed.

(** A message that does not fit into the receive buffer ends the connection: when the
    buffer is full and the length in front says that more is to come, the connection is
    stopped and its address given back. *)
Theorem client_message_too_long (r : RecvBuf) (c : ClientConnection) g o es b0 b1 :
  recvpos r = RECVBUF -> running r = true ->
  at_ (recvbuf r) 0 = Ret b0 -> at_ (recvbuf r) 1 = Ret b1 ->
  1022 < Z.lor (b0 ≪ 8) b1 ->
  exists c' o',
    RecvBuf_feed_out on_read on_error r ((c, g), o, es) = Ret (set_rio r false, ((c', g), o ++ o', es)) /\
    stopped_client c' /\ (cl_addr c <> 0 -> CO_release_client_addr (cl_addr c) ∈ o').
Proof.
  intros Hp Hr E0 E1 Hx.
  assert (on_read ((c, g), o, es) (recvbuf r) RECVBUF = Ret (((c, g), o, es), 0%nat)) as Ho.
  { unfold on_read, client_read_cb. rewrite decide_False by (unfold RECVBUF; lia).
    rewrite E0, E1, !bind_Ret. cbv zeta. rewrite decide_True by (unfold RECVBUF; lia).
    rewrite !bind_Ret. by rewrite app_nil_r. }
  rewrite (feed_full on_read on_error r _ _ Hr Hp Ho). unfold on_error, client_error_cb.
  destruct (client_stop_post c) as (c' & o' & -> & Hpost). exists c', o'. split; [done|]. apply Hpost.
Qed.


End Reader.

(** ** Payloads of clients *)

(** The objects that pass payloads on as they come. *)
Definition is_socket (a : A_conn) : Prop :=
  match a with A_Connection _ | A_Busmonitor _ _ _ _ => False | _ => True end.

(** The message with which a client sends the payload [p] (to [dst], where the message says
    so), and the frame it becomes. *)
Definition data_message (a : A_conn) (dst : Z) (p : CArray) : CArray :=
  match a with
  | A_TPDU _ => [0x00; 0x25; u8 (dst ≫ 8); u8 dst] ++ p
  | A_GroupSocket _ => [0x00; 0x27; u8 (dst ≫ 8); u8 dst] ++ p
  | _ => [0x00; 0x25] ++ p
  end.

Definition unnumbered (p : CArray) : CArray :=
  match p with b :: p => Z.land b 0x3 :: p | [] => [] end.

Definition data_frame (a : A_conn) (dst : Z) (p : CArray) : L_Data_PDU :=
  match a with
  | A_Broadcast _ => l4_frame GroupAddress 0 0 0x07 (unnumbered p)
  | A_Group g _ => l4_frame GroupAddress 0 g 0x06 (unnumbered p)
  | A_TPDU src => l4_frame IndividualAddress src dst 0x06 p
  | A_Individual d _ => l4_frame IndividualAddress 0 d 0x06 (unnumbered p)
  | _ => l4_frame GroupAddress 0 dst 0x06 (unnumbered p)
  end.

Lemma xxx_packet_eq p :
  bytes p -> xxx_packet p = if decide (p = []) then Fault AssertFailed else Ret (unnumbered p).
Proof.
  intros Hp. unfold xxx_packet, T_DATA_XXX_REQ_Decode.
  destruct (APDU_print_returns p Hp) as [t Ht]. apply bind_Ret_inv in Ht as (x & -> & Ht).
  rewrite bind_Ret, Ht, !bind_Ret. destruct p as [|b p]; [done|].
  rewrite decide_False by done. unfold T_DATA_XXX_REQ_ToPacket; cbn.
  rewrite u8_small; [done|]. unfold is_u8. pose proof (land_range b 2 ltac:(lia)) as H.
  change (Z.ones 2) with 3 in H. change (2 ^ 2) with 4 in H. lia.
Qed.

Lemma dst_read h0 h1 dst p : is_u16 dst -> be16_at ([h0; h1; u8 (dst ≫ 8); u8 dst] ++ p) 2 = Ret dst.
Proof. intros Hd. unfold be16_at; cbn. f_equal. rewrite be16_join. by apply u16_small. Qed.

Lemma payload_read (h p : CArray) : slice (h ++ p) (size h) (size (h ++ p) - size h) = Ret p.
Proof.
  rewrite slice_ok by (unfold size; rewrite length_app; lia). unfold size.
  rewrite drop_app_length, length_app. f_equal. apply take_ge. lia.
Qed.

(** What a client's message does to a socket. *)
Lemma socket_recv_Data a dst p :
  is_socket a -> is_u16 dst -> bytes p ->
  A_recv_Data a (data_message a dst p) (size (data_message a dst p)) =
  match a, p with
  | A_TPDU _, _ | _, _ :: _ => Ret (Some (a, [CO_recv (data_frame a dst p)]))
  | _, [] => Fault AssertFailed
  end.
Proof.
  intros Ha Hd Hp. pose proof (xxx_packet_eq p Hp) as Hx.
  destruct a as [wo|g wo|src|d wo|c|wo|]; try done; cbn [A_recv_Data data_message data_frame];
    unfold bad_data; rewrite decide_False by (unfold size; rewrite length_app; cbn; lia);
    cbn [EIBTYPE app at_ lookup list_lookup mbind outcome_bind];
    (rewrite bool_decide_false by (intros Hne; by apply Hne)); cbv iota.
  1,2,4: change (0 :: 37 :: p) with ([0; 37] ++ p); change 2%nat with (size [0; 37]) at 1 2;
    rewrite payload_read, bind_Ret; unfold T_Broadcast_recv_Data, T_Group_recv_Data, T_Individual_recv_Data;
    rewrite Hx; by destruct p.
  - change (0 :: 37 :: ?x :: ?y :: p) with ([0; 37; x; y] ++ p).
    change 4%nat with (size [0; 37; u8 (dst ≫ 8); u8 dst]) at 1 2.
    rewrite payload_read, dst_read, !bind_Ret by done. by destruct p.
  - change (0 :: 39 :: ?x :: ?y :: p) with ([0; 39; x; y] ++ p).
    change 4%nat with (size [0; 39; u8 (dst ≫ 8); u8 dst]) at 1 2.
    rewrite payload_read, dst_read, !bind_Ret by done. unfold GroupSocket_recv_Data. cbn [ga_data ga_dst].
    rewrite Hx. by destruct p.
Qed.

(** The addresses in an object are 16 bit numbers. *)
Definition conn_addrs_ok (a : A_conn) : Prop :=
  match a with
  | A_Group g _ => is_u16 g
  | A_TPDU s => is_u16 s
  | A_Individual d _ => is_u16 d
  | _ => True
  end.

Lemma unnumbered_bytes p : bytes p -> bytes (unnumbered p).
Proof.
  destruct p as [|b p]; [done|]. intros [Hb Hp]%bytes_cons. apply bytes_cons. split; [|done].
  pose proof (land_range b 2 ltac:(lia)) as H. change (Z.ones 2) with 3 in H. unfold is_u8. lia.
Qed.

Lemma unnumbered_size p : size (unnumbered p) = size p.
Proof. by destruct p. Qed.

Lemma data_frame_sendable a dst p :
  is_socket a -> conn_addrs_ok a -> is_u16 dst -> bytes p ->
  size (data (data_frame a dst p)) = size p /\ hopcount (data_frame a dst p) <> 0 /\
  repeated (data_frame a dst p) = false /\
  (sendable (data_frame a dst p) <-> (1 <= size p <= 255)%nat).
Proof.
  intros Ha Hok Hd Hp. pose proof (unnumbered_bytes p Hp) as Hu. pose proof (unnumbered_size p) as Hs.
  assert (is_u16 0) by (unfold is_u16; lia).
  destruct a; try done; unfold sendable, ldata_wf; cbn -[size]; rewrite ?Hs;
    (split_and!; [done..|]); (split; [lia|]); intros Hl; (split; [|lia]); split_and!; done || lia.
Qed.

(** The router fails on a frame without payload or with too long a payload. *)
Lemma unsendable_ToPacket l :
  ~ (1 <= size (data l) <= 255)%nat -> L_Data_ToPacket l = Fault AssertFailed.
Proof.
  intros Hl. unfold L_Data_ToPacket, L_Data_asserts.
  destruct (decide (1 <= size (data l))%nat).
  - rewrite (bool_decide_true (1 <= size (data l))%nat), (bool_decide_false (size (data l) <= 0xff)%nat) by lia. done.
  - by rewrite (bool_decide_false (1 <= size (data l))%nat) by lia.
Qed.

Lemma trigger_one_unsendable {D} `{Driver D} depth now (rt : Router D) l :
  hopcount l <> 0 -> repeated l = false -> ~ (1 <= size (data l) <= 255)%nat ->
  trigger_one depth now rt l = Fault AssertFailed.
Proof.
  intros Hh Hr Hl. unfold trigger_one. rewrite (unsendable_ToPacket l Hl).
  destruct (decide (vbusmonitor rt = [])); [|done]. rewrite bind_Ret, decide_False by done. cbv zeta.
  set (l1 := if _ || _ then _ else l).
  assert (repeated l1 = false /\ data l1 = data l) as [-> Hd] by (unfold l1; by destruct (_ || _)).
  rewrite bind_Ret, unsendable_ToPacket; [done|]. cbn. by rewrite Hd.
Qed.

(** The router takes the frame [l] of a link into its queue, as [l']. *)
Definition queued_as {D} `{Driver D} (l l' : L_Data_PDU) : Prop :=
  exists (rt : Router D) lk rt', recv_L_Data rt l lk = Ret rt' /\ buf rt' = buf rt ++ [l'].

Lemma queued_source {D} `{Driver D} l l' : queued_as (D := D) l l' -> exists a, l' = with_source l a.
Proof.
  intros (rt & lk & rt' & E & Hb).
  assert (buf rt <> buf rt ++ [l']) as Hne.
  { intros Hc%(f_equal length). rewrite length_app in Hc. cbn in Hc. lia. }
  assert (forall q l1, Ret (queue_L_Data q l1) = Ret rt' -> buf q = buf rt -> l' = l1) as Hq.
  { intros q l1 [= <-] Hq. destruct (queue_L_Data_buf q l1) as [Eq|Eq]; rewrite Eq, Hq in Hb; [done|].
    by apply app_inj_tail in Hb as [_ ->]. }
  assert (l' = assigned_source rt lk l) as ->.
  { revert E. unfold recv_L_Data. destruct (_ && _); [by intros [= <-]|]. cbv zeta.
    destruct (decide _); [destruct (is_local lk); [intros; by eapply Hq|by intros [= <-]]|].
    destruct (hasAddress _ _); [destruct (decide _); [intros; by eapply Hq|by intros [= <-]]|].
    destruct (_ && _); [by intros [= <-]|]. destruct (decide _); [|intros; by eapply Hq].
    intros (lk' & _ & E)%bind_Ret_inv. by apply (Hq _ _ E). }
  unfold assigned_source. repeat case_decide; eauto. exists (source l). by destruct l.
Qed.

(** The source of a frame does not matter to its packet. *)
Lemma sourced_ToPacket l a : sendable l -> returns (L_Data_ToPacket (with_source l a)).
Proof.
  intros [Hw Hsz]. unfold L_Data_ToPacket. change (L_Data_asserts (with_source l a)) with (L_Data_asserts l).
  rewrite L_Data_asserts_ok, bind_Ret, L_Data_frame_eq by (done || apply Hw).
  rewrite bind_Ret, app_assoc, put_last. by eexists.
Qed.


(** ** From client to client *)

(** What a message looks like on the stream. *)
Definition writes (m : CArray) : list client_output :=
  [CO_write [u8 (Z.land (Z.of_nat (size m) ≫ 8) 0xff); u8 (Z.land (Z.of_nat (size m)) 0xff)]; CO_write m].

Lemma send_all_writes m : (2 <= size m)%nat -> send_all m = Ret (writes m).
Proof.
  intros Hm. unfold send_all, sendmessage. rewrite bool_decide_true by done. cbn [assert_].
  rewrite bind_Ret, slice_ok by lia. rewrite bind_Ret, drop_0, take_ge by (unfold size; lia). done.
Qed.

(** The bytes written to the stream are the message in its frame. *)
Lemma writes_framed m :
  concat (omap (fun o => match o with CO_write d => Some d | _ => None end) (writes m)) = framed m.
Proof. cbn. by rewrite app_nil_r. Qed.

Lemma fill_in (hd d : CArray) : setpart (hd ++ replicate (size d) 0) d (size hd) (size d) = Ret (hd ++ d).
Proof. rewrite setpart_app, setpart_exact by done. done. Qed.

Lemma A_GroupSocket_send_eq e :
  A_GroupSocket_send e =
  Ret (writes ([0x00; 0x27; u8 (ga_src e ≫ 8); u8 (ga_src e); u8 (ga_dst e ≫ 8); u8 (ga_dst e)] ++ ga_data e)).
Proof.
  unfold A_GroupSocket_send. rewrite resize_nil. cbn [replicate Nat.add]. unfold EIBSETTYPE.
  cbn [put insert list_insert size length Nat.ltb]. cbn. rewrite !land_ff, !u8_u8.
  pose proof (fill_in [0; 39; u8 (ga_src e ≫ 8); u8 (ga_src e); u8 (ga_dst e ≫ 8); u8 (ga_dst e)] (ga_data e)) as Hf.
  cbn [app] in Hf. change (size [_; _; _; _; _; _]) with 6%nat in Hf.
  change (u8 (EIB_GROUP_PACKET ≫ 8)) with 0. change (u8 EIB_GROUP_PACKET) with 39.
  rewrite Hf, bind_Ret. apply send_all_writes. unfold size. cbn. lia.
Qed.

Lemma unnumbered_parsed p : bytes p -> p <> [] -> TPDU_fromPacket (unnumbered p) = Ret (T_DATA_XXX_REQ_PDU (unnumbered p)).
Proof.
  intros Hp Hne. destruct p as [|b p]; [done|]. apply bytes_cons in Hp as [Hb _].
  assert (Z.land (Z.land b 0x3) 0xfc = 0) as Hz by by_bytes b.
  unfold TPDU_fromPacket, T_DATA_XXX_REQ_init, size, unnumbered. cbn.
  by rewrite (decide_True (P := Z.land (Z.land b 3) 252 = 0)) by done.
Qed.

(** A group message passes from client to client: what one client sends through a
    group socket becomes a frame; when that frame, with the source address [s] that the router has
    assigned, comes to the group socket of another client, that client is sent
    a message with the source, the destination and the payload, of which only the
    control bits of the first byte are cleared. *)
Theorem group_message_roundtrip (wo wo' : bool) (dst s : Z) (p : CArray) :
  is_u16 dst -> is_u16 s -> bytes p -> p <> [] ->
  exists l,
    A_recv_Data (A_GroupSocket wo) ([0x00; 0x27; u8 (dst ≫ 8); u8 dst] ++ p) (4 + size p) =
      Ret (Some (A_GroupSocket wo, [CO_recv l])) /\
    client_send_L_Data (A_GroupSocket wo') (with_source l s) =
      Ret (A_GroupSocket wo',
           writes ([0x00; 0x27; u8 (s ≫ 8); u8 s; u8 (dst ≫ 8); u8 dst] ++ unnumbered p) ++ [CO_send_Next]).
Proof.
  intros Hd Hs Hp Hne. pose proof (socket_recv_Data (A_GroupSocket wo) dst p I Hd Hp) as Hr.
  destruct p as [|b p]; [done|]. exists (data_frame (A_GroupSocket wo) dst (b :: p)). split; [exact Hr|].
  unfold client_send_L_Data, GroupSocket_send_L_Data, xxx_data.
  change (data (with_source (data_frame (A_GroupSocket wo) dst (b :: p)) s)) with (unnumbered (b :: p)).
  rewrite (unnumbered_parsed _ Hp Hne), !bind_Ret.
  cbn [l4_outputs app]. rewrite A_GroupSocket_send_eq, !bind_Ret. done.
Qed.

(** ** What a client holds *)

(** A link, a bus monitor ([v]: virtual) and an address that were given out and
    not yet given back; [lg_unheld]: how often a link was unregistered that was not registered. *)
Record ledger := mkLedger { lg_link : bool; lg_monitor : option bool; lg_addr : bool; lg_unheld : nat }.

(** The account of one call; [None]: something is taken twice, or a monitor or an address given back
    without having been taken. *)
Definition account (g : ledger) (o : client_output) : option ledger :=
  match o with
  | CO_registerLink true => if lg_link g then None else Some (mkLedger true (lg_monitor g) (lg_addr g) (lg_unheld g))
  | CO_unregisterLink =>
      Some (mkLedger false (lg_monitor g) (lg_addr g) (if lg_link g then lg_unheld g else S (lg_unheld g)))
  | CO_registerBusmonitor v =>
      match lg_monitor g with
      | None => Some (mkLedger (lg_link g) (Some v) (lg_addr g) (lg_unheld g))
      | Some _ => None
      end
  | CO_deregisterBusmonitor v =>
      if decide (lg_monitor g = Some v) then Some (mkLedger (lg_link g) None (lg_addr g) (lg_unheld g)) else None
  | CO_release_client_addr _ =>
      if lg_addr g then Some (mkLedger (lg_link g) (lg_monitor g) false (lg_unheld g)) else None
  | _ => Some g
  end.

Definition accounts (g : ledger) (o : list client_output) : option ledger :=
  foldl (fun g x => g ≫= fun g => account g x) (Some g) o.

(** What the state of a connection says it holds. *)
Definition monitor_of (c : ClientConnection) : option bool :=
  match a_conn c with Some (A_Busmonitor v _ _ true) => Some v | _ => None end.
Definition holds (c : ClientConnection) (n : nat) : ledger :=
  mkLedger (cl_lc c) (monitor_of c) (bool_decide (cl_addr c <> 0)) n.

Definition neutral (o : client_output) : Prop :=
  match o with
  | CO_write _ | CO_recv _ | CO_send_Next | CO_cache _ | CO_registerLink false => True
  | _ => False
  end.

Lemma accounts_app g o o' : accounts g (o ++ o') = (accounts g o ≫= fun g => accounts g o').
Proof.
  unfold accounts. rewrite foldl_app. destruct (foldl _ (Some g) o) as [g'|]; [done|]. cbn.
  induction o' as [|x o' IH]; [done|]. exact IH.
Qed.

Lemma accounts_neutral g o : Forall neutral o -> accounts g o = Some g.
Proof.
  intros Ho. induction Ho as [|x o Hx Ho IH]; [done|].
  assert (account g x = Some g) as E by (destruct x as [| | |[]| | | | | | |]; done).
  unfold accounts in *. cbn. by rewrite E.
Qed.

Definition gives_neutral (r : outcome (list client_output)) : Prop := forall o, r = Ret o -> Forall neutral o.

Lemma sendmessage_neutral n m : gives_neutral (sendmessage n m).
Proof.
  intros o E. unfold sendmessage in E. apply bind_Ret_inv in E as (? & _ & E).
  apply bind_Ret_inv in E as (? & _ & E). injection E as <-. by repeat constructor.
Qed.

(** A computation that ends in a message. *)
Lemma bind_neutral {A} (m : outcome A) (f : A -> outcome (list client_output)) :
  (forall x, gives_neutral (f x)) -> gives_neutral (m ≫= f).
Proof. intros Hf o E. apply bind_Ret_inv in E as (x & _ & E). by eapply Hf. Qed.

Ltac neutral_solve := repeat first [apply sendmessage_neutral | apply bind_neutral; intros].

Lemma sendreject_neutral t : gives_neutral (sendreject_code t).
Proof. unfold sendreject_code. neutral_solve. Qed.
Lemma A_Broadcast_neutral e : gives_neutral (A_Broadcast_send e).
Proof. unfold A_Broadcast_send, addressed, send_all. neutral_solve. Qed.
Lemma A_Group_neutral e : gives_neutral (A_Group_send e).
Proof. unfold A_Group_send, addressed, send_all. neutral_solve. Qed.
Lemma A_TPDU_neutral e : gives_neutral (A_TPDU_send e).
Proof. unfold A_TPDU_send, addressed, send_all. neutral_solve. Qed.
Lemma A_Individual_neutral e : gives_neutral (A_Individual_send e).
Proof. unfold A_Individual_send, send_all. neutral_solve. Qed.
Lemma A_GroupSocket_neutral e : gives_neutral (A_GroupSocket_send e).
Proof. unfold A_GroupSocket_send, send_all. neutral_solve. Qed.
Lemma busmonitor_neutral a p : gives_neutral (client_send_L_Busmonitor a p).
Proof.
  destruct a as [| | | | | |v ts [] r]; cbn [client_send_L_Busmonitor]; try (intros o [= <-]; constructor);
    unfold A_Text_Busmonitor_send, A_Busmonitor_send, send_all; neutral_solve.
Qed.

Lemma l4_outputs_neutral {C} (send : C -> outcome (list client_output)) o :
  (forall c, gives_neutral (send c)) -> gives_neutral (l4_outputs send o).
Proof.
  intros Hs. induction o as [|x o IH]; intros r E; cbn in E; [injection E as <-; constructor|].
  apply bind_Ret_inv in E as (r1 & E1 & E). apply bind_Ret_inv in E as (r2 & E2 & E). injection E as <-.
  apply Forall_app. split; [|by apply IH].
  destruct x; [by eapply Hs|..]; injection E1 as <-; by repeat constructor.
Qed.

Lemma cache_answers_neutral o : gives_neutral (cache_answers o).
Proof.
  induction o as [|x o IH]; intros r E; cbn [cache_answers] in E; [injection E as <-; constructor|].
  apply bind_Ret_inv in E as (r1 & E1 & E). apply bind_Ret_inv in E as (r2 & E2 & E). injection E as <-.
  apply Forall_app. split; [|by apply IH].
  destruct x as [t|y]; [by eapply sendreject_neutral|].
  apply bind_Ret_inv in E1 as ([m|] & _ & E1); [by eapply sendmessage_neutral|].
  injection E1 as <-. by repeat constructor.
Qed.

(** A connection has a link exactly for a socket, and a monitor that is in place runs. *)
Definition client_wf (c : ClientConnection) : Prop :=
  match a_conn c with
  | None => cl_lc c = false
  | Some (A_Busmonitor _ _ _ r) => cl_lc c = false /\ r = true
  | Some _ => cl_lc c = true
  end.

(** [exit_conn] gives back the link and the monitor; a link is given back whether it was
    registered or not. *)
Lemma exit_conn_accounts c c' o g :
  exit_conn c = Ret (c', o) -> lg_monitor g = monitor_of c -> (a_conn c = None -> cl_lc c = false) ->
  accounts g o = Some (mkLedger (if cl_lc c then false else lg_link g) None (lg_addr g)
                         (if cl_lc c && negb (lg_link g) then S (lg_unheld g) else lg_unheld g)) /\
  a_conn c' = None /\ cl_lc c' = false /\ cl_addr c' = cl_addr c.
Proof.
  intros E Hm Hn. unfold exit_conn in E. destruct g as [gl gm ga gn]. cbn in Hm. subst gm.
  destruct (a_conn c) as [a|] eqn:Ea.
  - apply bind_Ret_inv in E as (o1 & E1 & E). injection E as <- <-. split; [|done].
    assert (Forall neutral o1) as Ho1.
    { destruct a; cbn [A_delete] in E1; try (injection E1 as <-; by constructor).
      apply bind_Ret_inv in E1 as (x & Ex & E1). apply bind_Ret_inv in E1 as (y & Ey & E1). injection E1 as <-.
      apply Forall_app; split; by eapply A_Individual_neutral. }
    rewrite accounts_app. unfold monitor_of. rewrite Ea.
    assert (accounts (mkLedger gl (match a with A_Busmonitor v _ _ true => Some v | _ => None end) ga gn) (A_stop a)
            = Some (mkLedger gl None ga gn)) as ->.
    { destruct a as [| | | | | |v ts tx []]; try done. unfold accounts; cbn. by rewrite decide_True. }
    cbn [mbind option_bind]. rewrite accounts_app.
    assert (accounts (mkLedger gl None ga gn) (if cl_lc c then [CO_unregisterLink] else [])
            = Some (mkLedger (if cl_lc c then false else gl) None ga (if cl_lc c && negb gl then S gn else gn))) as ->
      by (by destruct (cl_lc c), gl).
    cbn [mbind option_bind lg_link lg_addr lg_unheld]. by rewrite accounts_neutral.
  - injection E as <- <-. rewrite Hn by done. unfold monitor_of. by rewrite Ea.
Qed.

(** The books are kept, with at most [k] links unregistered that were not registered. *)
Definition books (k : nat) (c : ClientConnection) (c' : ClientConnection) (o : list client_output) : Prop :=
  client_wf c' /\ exists j, (j <= k)%nat /\ forall n, accounts (holds c n) o = Some (holds c' (j + n)).

Lemma books_le k k' c c' o : (k <= k')%nat -> books k c c' o -> books k' c c' o.
Proof. intros Hk (Hw & j & Hj & Ha). split; [done|]. exists j. split; [lia|done]. Qed.

Lemma books_app k k' c c1 c2 o o' : books k c c1 o -> books k' c1 c2 o' -> books (k' + k) c c2 (o ++ o').
Proof.
  intros (_ & j & Hj & Ha) (Hw & j' & Hj' & Ha'). split; [done|]. exists (j' + j)%nat. split; [lia|].
  intros n. rewrite accounts_app, Ha. cbn. by rewrite Ha', Nat.add_assoc.
Qed.

Lemma exit_conn_books c c' o : client_wf c -> exit_conn c = Ret (c', o) -> books 0 c c' o.
Proof.
  intros Hw E.
  assert (a_conn c = None -> cl_lc c = false) as Hl0.
  { intros Hn. unfold client_wf in Hw. by rewrite Hn in Hw. }
  assert (forall n, accounts (holds c n) o = Some (holds c' n) /\ a_conn c' = None /\ cl_lc c' = false) as Hall.
  { intros n. destruct (exit_conn_accounts c c' o (holds c n) E) as (Ha & Hn & Hl & Had); [done..|].
    split; [|done]. rewrite Ha. unfold holds, monitor_of. rewrite Hn, Hl, Had. cbn. by destruct (cl_lc c). }
  destruct (Hall 0%nat) as (_ & Hn & Hl). split; [unfold client_wf; by rewrite Hn|].
  exists 0%nat. split; [lia|]. apply Hall.
Qed.

Lemma books_neutral c c' o :
  client_wf c' -> Forall neutral o -> (forall n, holds c' n = holds c n) -> books 0 c c' o.
Proof. intros Hw Ho E. split; [done|]. exists 0%nat. split; [lia|]. intros n. by rewrite accounts_neutral, E. Qed.

Lemma books_then_neutral k c c' o o' : books k c c' o -> Forall neutral o' -> books k c c' (o ++ o').
Proof.
  intros (Hw & j & Hj & Ha) Ho. split; [done|]. exists j. split; [done|]. intros n.
  rewrite accounts_app, Ha. cbn. by apply accounts_neutral.
Qed.

Lemma books_after_neutral k c c' o o' : Forall neutral o -> books k c c' o' -> books k c c' (o ++ o').
Proof.
  intros Ho (Hw & j & Hj & Ha). split; [done|]. exists j. split; [done|]. intros n.
  rewrite accounts_app, accounts_neutral by done. cbn. by rewrite Ha.
Qed.

(** A request that is refused after a link was made for it: the link is unregistered. *)
Lemma refuse_books c a lc c' o :
  a_conn c = None -> cl_lc c = false -> monitor_of (set_conn c (Some a) lc) = None ->
  refuse (set_conn c (Some a) lc) = Ret (c', o) -> books (if lc then 1 else 0) c c' o.
Proof.
  intros Hn Hl Hm E. unfold refuse in E. apply bind_Ret_inv in E as ([c1 o1] & E1 & E).
  apply bind_Ret_inv in E as (o2 & E2 & E). injection E as <- <-.
  apply books_then_neutral; [|by eapply sendreject_neutral].
  assert (forall n, accounts (holds c n) o1 = Some (holds c1 ((if lc then 1 else 0) + n)) /\ a_conn c1 = None) as Hall.
  { intros n. destruct (exit_conn_accounts _ _ _ (holds c n) E1) as (Ha & Hn1 & Hl1 & Had); [|done|].
    { rewrite Hm. unfold holds, monitor_of. by rewrite Hn. }
    split; [|done]. rewrite Ha. unfold holds, monitor_of. rewrite Hn1, Hl1, Had, Hl. cbn. by destruct lc. }
  split; [unfold client_wf|].
  - destruct (Hall 0%nat) as [_ Hn1]. destruct (exit_conn_accounts _ _ _ (holds c 0) E1) as (_ & _ & Hl1 & _); [|done|by rewrite Hn1].
    rewrite Hm. unfold holds, monitor_of. by rewrite Hn.
  - eexists. split; [done|]. apply Hall.
Qed.

Lemma refuse_idle_books c c' o : a_conn c = None -> cl_lc c = false -> refuse c = Ret (c', o) -> books 0 c c' o.
Proof.
  intros Hn Hl E. unfold refuse, exit_conn in E. rewrite Hn, bind_Ret in E.
  apply bind_Ret_inv in E as (o2 & E2 & E). injection E as <- <-.
  apply books_neutral; [unfold client_wf; by rewrite Hn|by eapply sendreject_neutral|done].
Qed.

(** How often an unregistered link can be given back: once, if the setup of the
    connection or the registration of its link fails. *)
Definition fails (e : client_env) : nat := if env_setup e && env_register e then 0 else 1.

Lemma open_socket_monitor e t b2 b3 b4 a :
  open_socket e t b2 b3 b4 = Some a -> forall c lc, monitor_of (set_conn c (Some a) lc) = None /\
    (client_wf (set_conn c (Some a) true)).
Proof. unfold open_socket. intros E c lc. repeat case_decide; simplify_eq; done. Qed.

Lemma new_socket_books e c t buf len c' o a0 :
  a_conn c = None -> cl_lc c = false -> open_socket e t 0 0 0 = Some a0 ->
  new_socket e c t buf len = Ret (c', o) -> books (fails e) c c' o.
Proof.
  intros Hn Hl Hopen E. unfold new_socket in E. destruct (decide _); [apply (books_le 0); [lia|]; by eapply refuse_idle_books|].
  apply bind_Ret_inv in E as (b2 & _ & E). apply bind_Ret_inv in E as (b3 & _ & E).
  apply bind_Ret_inv in E as (b4 & _ & E).
  assert (exists a, open_socket e t b2 b3 b4 = Some a) as [a Ha].
  { unfold open_socket in *. repeat case_decide; by eauto. }
  rewrite Ha in E. destruct (open_socket_monitor _ _ _ _ _ _ Ha c true) as [Hm Hw].
  unfold fails. destruct (env_setup e); cbn [negb andb] in *; [|by apply (refuse_books c a true)].
  apply bind_Ret_inv in E as (o1 & E1 & E). apply sendmessage_neutral in E1. destruct (env_register e).
  - injection E as <- <-. apply books_after_neutral; [done|]. split; [done|]. exists 0%nat. split; [lia|]. intros k.
    change (accounts ?g [CO_registerLink true]) with (account g (CO_registerLink true)).
    unfold holds at 2. rewrite Hm. unfold account, holds, monitor_of; cbn [lg_link lg_monitor lg_addr lg_unheld].
    by rewrite Hl, Hn.
  - apply bind_Ret_inv in E as ([c1 o2] & E2 & E). injection E as <- <-.
    apply books_after_neutral; [done|]. change (CO_registerLink false :: o2) with ([CO_registerLink false] ++ o2).
    apply books_after_neutral; [by repeat constructor|]. by apply (refuse_books c a true).
Qed.

Lemma new_busmonitor_books e c v ts text buf len c' o :
  a_conn c = None -> cl_lc c = false -> new_busmonitor e c v ts text buf len = Ret (c', o) -> books 0 c c' o.
Proof.
  intros Hn Hl E. unfold new_busmonitor in E. apply bind_Ret_inv in E as ([ok o1] & E1 & E).
  assert (Forall neutral o1) as Ho1.
  { unfold busmonitor_setup in E1. destruct (decide _).
    - apply bind_Ret_inv in E1 as (o2 & E2 & E1). injection E1 as <- <-. by eapply sendreject_neutral.
    - apply bind_Ret_inv in E1 as (x & _ & E1). apply bind_Ret_inv in E1 as (y & _ & E1).
      apply bind_Ret_inv in E1 as (o2 & E2 & E1). injection E1 as <- <-. by eapply sendmessage_neutral. }
  destruct ok.
  - injection E as <- <-. apply books_after_neutral; [done|]. split; [by split|]. exists 0%nat. split; [lia|].
    intros n. unfold accounts, holds, monitor_of; cbn. by rewrite Hn, Hl.
  - apply bind_Ret_inv in E as ([c1 o2] & E2 & E). injection E as <- <-.
    apply books_after_neutral; [done|]. exact (refuse_books c (A_Busmonitor v ts text false) false c1 o2 Hn Hl eq_refl E2).
Qed.

(** Data does not change what is held. *)
Lemma same_kind_books c a a' o :
  client_wf c -> a_conn c = Some a -> Forall neutral o ->
  (match a, a' with
   | A_Connection _, A_Connection _ => True
   | _, _ => a' = a
   end) ->
  books 0 c (set_conn c (Some a') (cl_lc c)) o.
Proof.
  intros Hw Ea Ho Hk. apply books_neutral; [|done|].
  - unfold client_wf in *. cbn. rewrite Ea in Hw. destruct a, a'; simplify_eq; done.
  - intros n. unfold holds, monitor_of. cbn. rewrite Ea. destruct a, a'; simplify_eq; done.
Qed.

Ltac ret_inv E :=
  repeat lazymatch type of E with
         | (_ ≫= _) = Ret _ => let x := fresh "x" in let Ex := fresh "Ex" in apply bind_Ret_inv in E as (x & Ex & E)
         end.

Lemma recv_Data_kind a buf len a' o :
  A_recv_Data a buf len = Ret (Some (a', o)) ->
  Forall neutral o /\ match a, a' with A_Connection _, A_Connection _ => True | _, _ => a' = a end.
Proof.
  destruct a; cbn [A_recv_Data]; intros E; [..|by injection E as <- <-];
    apply bind_Ret_inv in E as ([] & _ & E); try done; ret_inv E;
    try (destruct x0 as [c' o']; ret_inv E); injection E as <- <-; (split; [|done]).
  all: match goal with H : l4_outputs _ _ = Ret _ |- _ => apply l4_outputs_neutral in H; [exact H|] end.
  all: intros; auto using A_Broadcast_neutral, A_Group_neutral, A_TPDU_neutral, A_Individual_neutral,
    A_GroupSocket_neutral.
Qed.

Lemma client_message_books e c g buf len c' g' o :
  client_wf c -> client_message e (c, g) buf len = Ret ((c', g'), o) -> books (fails e) c c' o.
Proof.
  intros Hw E. unfold client_message in E. apply bind_Ret_inv in E as (t & _ & E).
  destruct (a_conn c) as [a|] eqn:Ea.
  - destruct (decide _).
    + apply bind_Ret_inv in E as ([c1 o1] & E1 & E). apply bind_Ret_inv in E as (o2 & E2 & E).
      injection E as <- <- <-. apply (books_le 0); [lia|].
      apply books_then_neutral; [by apply exit_conn_books|by eapply sendreject_neutral].
    + apply bind_Ret_inv in E as ([[a' o1]|] & E1 & E).
      * injection E as <- <- <-. apply recv_Data_kind in E1 as [Ho Hk].
        apply (books_le 0); [lia|]. by eapply same_kind_books.
      * apply bind_Ret_inv in E as ([c1 o1] & E1' & E). injection E as <- <- <-.
        apply (books_le 0); [lia|]. by apply exit_conn_books.
  - assert (cl_lc c = false) as Hl by (unfold client_wf in Hw; by rewrite Ea in Hw).
    assert (forall o, Forall neutral o -> books (fails e) c c o) as Hsame
      by (intros; apply (books_le 0); [lia|]; by apply books_neutral).
    assert (match open_socket e t 0 0 0 with
            | Some _ => '(c, o) ← new_socket e c t buf len; Ret ((c, g), o)
            | None =>
              if is_cache_request t then
                '(g, o) ← GroupCacheRequest (env_sec e) g (cl_id c) buf len;
                r ← cache_answers o;
                Ret ((c, g), r)
              else if decide (t = EIB_RESET_CONNECTION) then
                o ← sendreject_code EIB_RESET_CONNECTION; Ret ((c, g), o)
              else o ← sendreject; Ret ((c, g), o)
            end = Ret ((c', g'), o) -> books (fails e) c c' o) as Hrest.
    { clear E. intros E. destruct (open_socket e t 0 0 0) as [a0|] eqn:Eo.
      - apply bind_Ret_inv in E as ([c1 o1] & E1 & E). injection E as <- <- <-. by eapply new_socket_books.
      - destruct (is_cache_request t).
        + apply bind_Ret_inv in E as ([g1 o1] & _ & E). apply bind_Ret_inv in E as (r & Er & E).
          injection E as <- <- <-. apply Hsame. by eapply cache_answers_neutral.
        + destruct (decide _); apply bind_Ret_inv in E as (r & Er & E); injection E as <- <- <-;
            apply Hsame; by eapply sendreject_neutral. }
    destruct (open_busmonitor t) as [[| | | | | |v ts text r]|]; try by apply Hrest.
    apply bind_Ret_inv in E as ([c1 o1] & E1 & E). injection E as <- <- <-.
    apply (books_le 0); [lia|]. by eapply new_busmonitor_books.
Qed.

(** *** Runs *)

Inductive client_event :=
| CL_message (e : client_env) (buf : CArray) (len : nat)
| CL_frame (l : L_Data_PDU)
| CL_busmonitor (p : L_Busmonitor_PDU)
| CL_timer
| CL_stop.

Definition on_conn (s : client_state) (f : A_conn -> outcome (A_conn * list client_output)) : client_result :=
  let '(c, g) := s in
  match a_conn c with
  | Some a => '(a, o) ← f a; Ret ((set_conn c (Some a) (cl_lc c), g), o)
  | None => Ret (s, [])
  end.

Definition client_step (s : client_state) (ev : client_event) : client_result :=
  match ev with
  | CL_message e buf len => client_message e s buf len
  | CL_frame l => on_conn s (fun a => client_send_L_Data a l)
  | CL_busmonitor p => on_conn s (fun a => o ← client_send_L_Busmonitor a p; Ret (a, o))
  | CL_timer => on_conn s client_timer_cb
  | CL_stop => let '(c, g) := s in '(c, o) ← client_stop c; Ret ((c, g), o)
  end.

Fixpoint client_run (s : client_state) (evs : list client_event) : client_result :=
  match evs with
  | [] => Ret (s, [])
  | ev :: evs => '(s, o) ← client_step s ev; '(s, o') ← client_run s evs; Ret (s, o ++ o')
  end.

Lemma client_stop_books c c' o : client_wf c -> client_stop c = Ret (c', o) -> books 0 c c' o.
Proof.
  intros Hw E. unfold client_stop in E. cbv zeta in E.
  set (c0 := mkClient (cl_fd c) (cl_running c) 0 (cl_id c) (a_conn c) (cl_lc c)) in *.
  apply bind_Ret_inv in E as ([c1 o2] & E1 & E).
  assert (books 0 c c0 (if decide (cl_addr c <> 0) then [CO_release_client_addr (cl_addr c)] else [])) as H0.
  { split; [exact Hw|]. exists 0%nat. split; [lia|]. intros n.
    unfold holds, monitor_of; cbn. destruct (decide (cl_addr c <> 0)) as [Hne|Hz].
    - unfold accounts; cbn. by rewrite bool_decide_true.
    - by rewrite bool_decide_false. }
  pose proof (books_app 0 0 _ _ _ _ _ H0 (exit_conn_books c0 c1 o2 Hw E1)) as (Hw1 & j & Hj & H1).
  assert (forall o3 c2, (forall n, accounts (holds c1 n) o3 = Some (holds c1 n)) -> client_wf c2 ->
    (forall n, holds c2 n = holds c1 n) ->
    books 0 c c2 ((if decide (cl_addr c <> 0) then [CO_release_client_addr (cl_addr c)] else []) ++ o2 ++ o3)) as H2.
  { intros o3 c2 Ho3 Hw2 Hh. split; [done|]. exists j. split; [lia|]. intros n.
    rewrite app_assoc, accounts_app, H1. cbn [mbind option_bind]. by rewrite Ho3, Hh. }
  destruct (cl_fd c1); injection E as <- <-; by apply H2.
Qed.

Lemma on_conn_books c g f c' g' o :
  client_wf c ->
  (forall a a' o, f a = Ret (a', o) ->
     Forall neutral o /\ match a, a' with A_Connection _, A_Connection _ => True | _, _ => a' = a end) ->
  on_conn (c, g) f = Ret ((c', g'), o) -> books 0 c c' o.
Proof.
  intros Hw Hf E. unfold on_conn in E. destruct (a_conn c) as [a|] eqn:Ea.
  - apply bind_Ret_inv in E as ([a' o'] & E1 & E). injection E as <- <- <-. apply Hf in E1 as [Ho Hk].
    by eapply same_kind_books.
  - injection E as <- <- <-. by apply books_neutral.
Qed.

Lemma send_L_Data_kind l a a' o :
  client_send_L_Data a l = Ret (a', o) ->
  Forall neutral o /\ match a, a' with A_Connection _, A_Connection _ => True | _, _ => a' = a end.
Proof.
  destruct a; cbn [client_send_L_Data]; intros E; [..|by injection E as <- <-]; ret_inv E;
    try (destruct x as [c' o']; ret_inv E); injection E as <- <-; (split; [|done]).
  all: match goal with H : l4_outputs _ _ = Ret _ |- _ => apply l4_outputs_neutral in H; [exact H|] end.
  all: intros; auto using A_Broadcast_neutral, A_Group_neutral, A_TPDU_neutral, A_Individual_neutral,
    A_GroupSocket_neutral.
Qed.

Definition event_fails (ev : client_event) : nat :=
  match ev with CL_message e _ _ => fails e | _ => 0 end.

Lemma client_step_books c g ev c' g' o :
  client_wf c -> client_step (c, g) ev = Ret ((c', g'), o) -> books (event_fails ev) c c' o.
Proof.
  intros Hw. destruct ev as [e buf len|l|p| |]; cbn [client_step]; intros E.
  - by eapply client_message_books.
  - eapply on_conn_books; [done| |exact E]. intros a a' o'. apply send_L_Data_kind.
  - eapply on_conn_books; [done| |exact E]. cbv beta. intros a a' o' E1. ret_inv E1. injection E1 as <- <-.
    split; [by eapply busmonitor_neutral|by destruct a].
  - eapply on_conn_books; [done| |exact E]. intros a a' o' E1.
    destruct a; cbn in E1; try (injection E1 as <- <-; split; [constructor|done]).
    apply bind_Ret_inv in E1 as ([c1 o1] & _ & E1). apply bind_Ret_inv in E1 as (r & Er & E1). injection E1 as <- <-.
    split; [|done]. eapply l4_outputs_neutral; [|exact Er]. apply A_Individual_neutral.
  - apply bind_Ret_inv in E as ([c1 o1] & E1 & E). injection E as <- <- <-. by apply client_stop_books.
Qed.

Lemma client_run_books evs : forall c g c' g' o,
  client_wf c -> client_run (c, g) evs = Ret ((c', g'), o) -> books (sum_list_with event_fails evs) c c' o.
Proof.
  induction evs as [|ev evs IH]; intros c g c' g' o Hw E; cbn [client_run] in E.
  - injection E as <- <- <-. by apply books_neutral.
  - apply bind_Ret_inv in E as ([[c1 g1] o1] & E1 & E). apply bind_Ret_inv in E as ([[c2 g2] o2] & E2 & E).
    injection E as <- <- <-. pose proof (client_step_books _ _ _ _ _ _ Hw E1) as Hb.
    pose proof (IH _ _ _ _ _ (proj1 Hb) E2) as Hb'. cbn [sum_list_with]. rewrite Nat.add_comm. by eapply books_app.
Qed.

(** C11: nothing is lost and nothing is given back twice.  Over any sequence of messages, frames,
    time-outs and stops, a client never registers a link or a bus monitor while it has one and
    never gives back a bus monitor or its address unheld; it unregisters a link that is not
    registered at most once for every message at which the setup of the connection or the
    registration of the link fails ([exit_conn] does not know that it failed), and never otherwise; at
    every point it holds exactly what its state says; and when it has been stopped it holds nothing. *)
Theorem client_holds (c : ClientConnection) (g : option GroupCache) (evs : list client_event) c' g' o :
  a_conn c = None -> cl_lc c = false -> cl_addr c <> 0 ->
  client_run (c, g) evs = Ret ((c', g'), o) ->
  exists n, (n <= sum_list_with event_fails evs)%nat /\
    accounts (mkLedger false None true 0) o = Some (holds c' n) /\
    forall c'' o', client_stop c' = Ret (c'', o') ->
      accounts (mkLedger false None true 0) (o ++ o') = Some (mkLedger false None false n) /\ stopped_client c''.
Proof.
  intros Hn Hl Ha E.
  assert (client_wf c) as Hw by (unfold client_wf; by rewrite Hn).
  assert (holds c 0 = mkLedger false None true 0) as Hh.
  { unfold holds, monitor_of. by rewrite Hl, Hn, bool_decide_true. }
  destruct (client_run_books evs c g c' g' o Hw E) as (Hw' & j & Hj & Ho).
  exists j. specialize (Ho 0%nat). rewrite Hh, Nat.add_0_r in Ho. split; [done|]. split; [done|]. intros c'' o' Es.
  destruct (client_stop_books c' c'' o' Hw' Es) as (Hw'' & j' & Hj' & Ho').
  destruct (client_stop_post c') as (c3 & o3 & Es' & (Hf & Hz & Hc) & _). rewrite Es in Es'. injection Es' as <- <-.
  split; [|done]. rewrite accounts_app, Ho. cbn [mbind option_bind]. rewrite Ho'.
  replace j' with 0%nat by lia.
  unfold client_wf in Hw''. rewrite Hc in Hw''. unfold holds, monitor_of. by rewrite Hw'', Hc, Hz.
Qed.

(** ** Examples *)

Definition demo_env : client_env := mkEnv 0 0 true true 0.
Definition demo_client : ClientConnection := mkClient true true 0x11F0 1 None false.

(** A client opens a group socket and sends a value to group 1/2/3. *)
Definition demo_open : CArray := [0x00; 0x26; 0; 0; 0].
Definition demo_send : CArray := [0x00; 0x27; 0x0A; 0x03; 0x00; 0x81].

Lemma demo_messages : Forall message_ok [demo_open; demo_send].
Proof.
  repeat constructor; try decided; unfold RECVBUF, size; cbn; lia.
Qed.

Example demo_served :
  handle_all (handle := serve demo_env) ((demo_client, None), [], []) [demo_open; demo_send] =
  Ret ((set_conn demo_client (Some (A_GroupSocket false)) true, None),
       [CO_write [0; 2]; CO_write [0x00; 0x26]; CO_registerLink true;
        CO_recv (l4_frame GroupAddress 0 0x0A03 6 [0x00; 0x81])], []).
Proof. reflexivity. Qed.

Lemma client_stream_witness :
  exists ms1 ms2 r rest,
    [demo_open; demo_send] = ms1 ++ ms2 /\
    read_run (on_read := on_read demo_env) on_error (mkRecvBuf true false true (replicate RECVBUF 0) 0)
      ((demo_client, None), [], []) (stream (frame := framed) [demo_open; demo_send]) (replicate 15 1%nat) =
      (s' ← handle_all (handle := serve demo_env) ((demo_client, None), [], []) ms1; Ret (r, s', rest)) /\
    (rest = [] -> ms2 = []) /\
    (Forall (fun n => 0 < n)%nat (replicate 15 1%nat) ->
     (size (stream (frame := framed) [demo_open; demo_send]) <= length (replicate 15 1%nat))%nat -> rest = []).
Proof.
  apply (client_stream demo_env (replicate 15 1%nat) (replicate RECVBUF 0)); [exact demo_messages|].
  unfold size. apply length_replicate.
Defined.

Lemma client_message_too_long_witness :
  exists c' o',
    RecvBuf_feed_out (on_read demo_env) on_error (mkRecvBuf true false true (4 :: replicate 1023 0) RECVBUF)
      ((demo_client, None), [], []) =
      Ret (set_rio (mkRecvBuf true false true (4 :: replicate 1023 0) RECVBUF) false, ((c', None), [] ++ o', [])) /\
    stopped_client c' /\ (cl_addr demo_client <> 0 -> CO_release_client_addr (cl_addr demo_client) ∈ o').
Proof.
  apply (client_message_too_long demo_env (mkRecvBuf true false true (4 :: replicate 1023 0) RECVBUF) demo_client None [] [] 4 0);
    reflexivity.
Defined.


Lemma group_message_roundtrip_witness :
  exists l,
    A_recv_Data (A_GroupSocket false) demo_send 6 = Ret (Some (A_GroupSocket false, [CO_recv l])) /\
    client_send_L_Data (A_GroupSocket false) (with_source l 0x1101) =
      Ret (A_GroupSocket false, writes [0x00; 0x27; 0x11; 0x01; 0x0A; 0x03; 0x00; 0x81] ++ [CO_send_Next]).
Proof.
  apply (group_message_roundtrip false false 0x0A03 0x1101 [0x00; 0x81]); try done; unfold is_u16; try lia. decided.
Defined.

Lemma client_holds_witness :
  exists n, (n <= 0)%nat /\
  accounts (mkLedger false None true 0)
    [CO_write [0; 2]; CO_write [0x00; 0x26]; CO_registerLink true] =
    Some (holds (set_conn demo_client (Some (A_GroupSocket false)) true) n).
Proof.
  destruct (client_holds demo_client None [CL_message demo_env demo_open 5]
           (set_conn demo_client (Some (A_GroupSocket false)) true) None
           [CO_write [0; 2]; CO_write [0x00; 0x26]; CO_registerLink true]) as (n & Hn & Ha & _);
    [reflexivity|reflexivity|discriminate|reflexivity|].
  exists n. split; [exact Hn|exact Ha].
Defined.
