(* ===== verification/Ft12.v ===== *)
(** * The FT1.2 line protocol

    Models [class FT12wrap] of src/src/backend/ft12.cpp, the filter between an EMI
    driver and a serial line: frames with a length, a control byte, a checksum and
    an alternating bit, each acknowledged by one byte.

    The driver above is a parameter: when the filter calls it ([recv_Data],
    [send_Next]) it moves to its next state and makes calls of its own, down into
    the filter, before it returns.  Theorems hold for every such driver.  Whether
    a timer or the wake-up [trigger] is set is part of the state, so an event that
    cannot happen is not taken. *)

From S2P Require Import Prelude CArray.

Record FT12wrap := mkFT12 {
  sendflag : bool;
  recvflag : bool;
  ft_out : CArray;
  akt : CArray;
  last_frame : CArray;
  repeatcount : Z;
  send_wait : bool;
  next_free : bool;
  in_reader : bool;
  ft_timer : bool;
  sendtimer : bool;
  trigger_on : bool;
  trigger_sent : bool
}.

(** Calls of the driver above, and its calls into the filter while it handles one. *)
Inductive up_call := UC_recv_Data (c : CArray) | UC_send_Next.
Inductive down_call := DC_send_Local (l : CArray) (raw : Z) | DC_sendReset | DC_stop.

(** What the filter does: bytes for the line, calls of the driver above, a message
    it does not take, calls that start and stop the line. *)
Inductive ft12_output :=
| FO_line (c : CArray)
| FO_up (u : up_call)
| FO_refused (l : CArray)
| FO_line_start
| FO_line_stop.

#[export] Instance up_call_eq_dec : EqDecision up_call.
Proof. solve_decision. Defined.
#[export] Instance ft12_output_eq_dec : EqDecision ft12_output.
Proof. solve_decision. Defined.

(** ** Fields *)

Definition set_send (s : FT12wrap) (f : bool) (o : CArray) : FT12wrap :=
  mkFT12 f (recvflag s) o (akt s) (last_frame s) (repeatcount s) (send_wait s) (next_free s)
    (in_reader s) (ft_timer s) (sendtimer s) (trigger_on s) (trigger_sent s).
Definition set_recv (s : FT12wrap) (f : bool) (l : CArray) : FT12wrap :=
  mkFT12 (sendflag s) f (ft_out s) (akt s) l (repeatcount s) (send_wait s) (next_free s)
    (in_reader s) (ft_timer s) (sendtimer s) (trigger_on s) (trigger_sent s).
Definition set_akt (s : FT12wrap) (a : CArray) : FT12wrap :=
  mkFT12 (sendflag s) (recvflag s) (ft_out s) a (last_frame s) (repeatcount s) (send_wait s)
    (next_free s) (in_reader s) (ft_timer s) (sendtimer s) (trigger_on s) (trigger_sent s).
Definition set_wait (s : FT12wrap) (w : bool) (r : Z) : FT12wrap :=
  mkFT12 (sendflag s) (recvflag s) (ft_out s) (akt s) (last_frame s) r w (next_free s)
    (in_reader s) (ft_timer s) (sendtimer s) (trigger_on s) (trigger_sent s).
Definition set_free (s : FT12wrap) (b : bool) : FT12wrap :=
  mkFT12 (sendflag s) (recvflag s) (ft_out s) (akt s) (last_frame s) (repeatcount s) (send_wait s) b
    (in_reader s) (ft_timer s) (sendtimer s) (trigger_on s) (trigger_sent s).
Definition set_reader (s : FT12wrap) (b : bool) (t : bool) : FT12wrap :=
  mkFT12 (sendflag s) (recvflag s) (ft_out s) (akt s) (last_frame s) (repeatcount s) (send_wait s)
    (next_free s) b t (sendtimer s) (trigger_on s) (trigger_sent s).
Definition set_sendtimer (s : FT12wrap) (b : bool) : FT12wrap :=
  mkFT12 (sendflag s) (recvflag s) (ft_out s) (akt s) (last_frame s) (repeatcount s) (send_wait s)
    (next_free s) (in_reader s) (ft_timer s) b (trigger_on s) (trigger_sent s).
Definition set_trigger (s : FT12wrap) (on sent : bool) : FT12wrap :=
  mkFT12 (sendflag s) (recvflag s) (ft_out s) (akt s) (last_frame s) (repeatcount s) (send_wait s)
    (next_free s) (in_reader s) (ft_timer s) (sendtimer s) on sent.

(** ** Sending *)

(** [trigger.send ()] is without effect while the watcher is stopped; starting a
    watcher forgets what was sent before, starting it again does nothing. *)
Definition trigger_send (s : FT12wrap) : FT12wrap :=
  if trigger_on s then set_trigger s true true else s.
Definition trigger_start (s : FT12wrap) : FT12wrap :=
  if trigger_on s then s else set_trigger s true false.

(** [c += l[i]] for all of [l]. *)
Definition sum_bytes (c : Z) (l : CArray) : Z := fold_left (fun c b => u8 (c + b)) l c.

Definition make_frame (flag : bool) (l : CArray) : outcome CArray :=
  out ← put (resize [] (size l + 7)) 0 0x68;
  out ← put out 1 (Z.of_nat (size l) + 1);
  out ← put out 2 (Z.of_nat (size l) + 1);
  out ← put out 3 0x68;
  out ← (if flag then put out 4 0x53 else put out 4 0x73);
  out ← setpart out l 5 (size l);
  c ← at_ out 4;
  out ← put out (size out - 2) (sum_bytes c l);
  put out (size out - 1) 0x16.

Definition do_send_Local (s : FT12wrap) (l : CArray) (raw : Z) : outcome (FT12wrap * list ft12_output) :=
  if decide (0 < size (ft_out s))%nat then Ret (s, [FO_refused l])
  else
    s ← (if decide (raw = 0) then
           out ← make_frame (sendflag s) l;
           Ret (set_send s (negb (sendflag s)) out)
         else
           _ ← assert_ (raw =? 1);
           Ret (set_send s (sendflag s) l));
    Ret (if send_wait s then s else trigger_send s, []).

Definition ft_send_Data (s : FT12wrap) (l : CArray) : outcome (FT12wrap * list ft12_output) :=
  do_send_Local s l 0.

Definition ft_sendReset (s : FT12wrap) : outcome (FT12wrap * list ft12_output) :=
  do_send_Local s [0x10; 0x40; 0x40; 0x16] 1.

Definition ft_start (s : FT12wrap) : FT12wrap * list ft12_output :=
  let s := trigger_start s in
  (mkFT12 false false (ft_out s) (akt s) (last_frame s) 0 false true false
     (ft_timer s) (sendtimer s) (trigger_on s) (trigger_sent s), [FO_line_start]).

Definition ft_stop_ (s : FT12wrap) : FT12wrap :=
  set_trigger (set_sendtimer (set_reader s (in_reader s) false) false) false false.

Definition ft_stop (s : FT12wrap) : FT12wrap * list ft12_output := (ft_stop_ s, [FO_line_stop]).

Definition ft_trigger_cb (s : FT12wrap) : FT12wrap * list ft12_output :=
  if send_wait s || negb (next_free s) then (s, [])
  else if decide (size (ft_out s) = 0%nat) then (s, [])
  else (set_reader (set_wait s true (repeatcount s + 1)) (in_reader s) true, [FO_line (ft_out s)]).

Definition sendtimer_cb (s : FT12wrap) : FT12wrap :=
  trigger_send (set_wait s false (repeatcount s)).

Definition down (s : FT12wrap) (c : down_call) : outcome (FT12wrap * list ft12_output) :=
  match c with
  | DC_send_Local l raw => do_send_Local s l raw
  | DC_sendReset => ft_sendReset s
  | DC_stop => Ret (ft_stop s)
  end.

Fixpoint downs (s : FT12wrap) (cs : list down_call) : outcome (FT12wrap * list ft12_output) :=
  match cs with
  | [] => Ret (s, [])
  | c :: cs =>
      '(s, o) ← down s c;
      '(s, o') ← downs s cs;
      Ret (s, o ++ o')
  end.

(** ** Receiving *)

(** [for (i = from; i < from + n; i++) c1 += akt[i];] *)
Fixpoint sum_from (c : CArray) (from n : nat) (c1 : Z) : outcome Z :=
  match n with
  | O => Ret c1
  | S n => b ← at_ c from; sum_from c (S from) n (u8 (c1 + b))
  end.

(** A count of bytes computed as an [int]: a negative one would be a huge [size_t]. *)
Definition slice_int (c : CArray) (off : nat) (cnt : Z) : outcome CArray :=
  if decide (cnt < 0) then Fault OutOfRange else slice c off (Z.to_nat cnt).

Section Master.
Context {M : Type} (master : M -> up_call -> M * list down_call).

Definition ft_result : Type := outcome (FT12wrap * M * list ft12_output).

(** A call of the driver above, with the calls it makes meanwhile. *)
Definition call_up (s : FT12wrap) (m : M) (u : up_call) : ft_result :=
  let '(m, cs) := master m u in
  '(s, o) ← downs s cs;
  Ret (s, m, FO_up u :: o).

Definition do__send_Next (s : FT12wrap) (m : M) : ft_result :=
  call_up (set_sendtimer (set_send s (sendflag s) []) false) m UC_send_Next.

(** Whether the loop of [process_read] goes on. *)
Definition round_result : Type := outcome (bool * FT12wrap * M * list ft12_output).

Definition drop_akt (s : FT12wrap) (n : nat) : FT12wrap := set_akt s (deletepart (akt s) 0 n).

(** The frame that starts with [0x10]. *)
Definition read_short (s : FT12wrap) (m : M) : round_result :=
  if decide (size (akt s) < 4)%nat then Ret (false, s, m, [])
  else
    a1 ← at_ (akt s) 1;
    a2 ← at_ (akt s) 2;
    a3 ← at_ (akt s) 3;
    if (a1 =? a2) && (a3 =? 0x16) then
      let s := if ((a1 =? 0xF3) && negb (recvflag s)) || ((a1 =? 0xD3) && recvflag s)
               then set_recv s (negb (recvflag s)) (last_frame s) else s in
      '(s, m, o) ← (if Z.land a1 0x0f =? 0 then call_up s m (UC_recv_Data [0xA0])
                    else Ret (s, m, []));
      Ret (true, drop_akt s 4, m, FO_line [0xE5] :: o)
    else Ret (true, drop_akt s 1, m, []).

(** A frame that is complete and whose checksum is right: [n] is the length in it. *)
Definition read_data (s : FT12wrap) (m : M) (n : Z) : ft_result :=
  a4 ← at_ (akt s) 4;
  if a4 =? (if recvflag s then 0xF3 else 0xD3) then
    d ← slice_int (akt s) 5 (n - 1);
    Ret (if decide (d = last_frame s) then s else set_recv s (negb (recvflag s)) (last_frame s), m, [])
  else if a4 =? (if recvflag s then 0xD3 else 0xF3) then
    c ← slice_int (akt s) 5 (n + 6 - 7);
    call_up (set_recv s (negb (recvflag s)) c) m (UC_recv_Data c)
  else Ret (s, m, []).

(** The frame that starts with [0x68]. *)
Definition read_long (s : FT12wrap) (m : M) (is_timeout : bool) : round_result :=
  if decide (size (akt s) < 7)%nat then Ret (false, s, m, [])
  else
    a1 ← at_ (akt s) 1;
    a2 ← at_ (akt s) 2;
    a3 ← at_ (akt s) 3;
    if negb (a1 =? a2) || negb (a3 =? 0x68) then
      let s := drop_akt s 1 in
      if is_timeout then Ret (true, drop_akt s 1, m, []) else Ret (false, s, m, [])
    else
      let n := Z.to_nat a1 in
      if decide (size (akt s) < n + 6)%nat then Ret (false, s, m, [])
      else
        c1 ← sum_from (akt s) 4 n 0;
        x ← at_ (akt s) (n + 4);
        y ← at_ (akt s) (n + 5);
        if negb (x =? c1) || negb (y =? 0x16) then Ret (true, drop_akt s (n + 6), m, [])
        else
          '(s, m, o) ← read_data s m a1;
          Ret (true, drop_akt s (n + 6), m, FO_line [0xE5] :: o).

(** One round of the loop. *)
Definition read_round (s : FT12wrap) (m : M) (is_timeout : bool) : round_result :=
  a0 ← at_ (akt s) 0;
  if (a0 =? 0xE5) && send_wait s then
    let s := drop_akt s 1 in
    '(s, m, o) ← do__send_Next (set_wait s false (repeatcount s)) m;
    Ret (true, set_wait s (send_wait s) 0, m, o)
  else if a0 =? 0xE5 then Ret (true, drop_akt s 1, m, [])
  else if a0 =? 0x10 then read_short s m
  else if a0 =? 0x68 then read_long s m is_timeout
  else Ret (true, drop_akt s 1, m, []).

Fixpoint read_loop (rounds : nat) (s : FT12wrap) (m : M) (is_timeout : bool) : ft_result :=
  if bool_decide (0 < size (akt s))%nat && next_free s then
    match rounds with
    | O => Fault Endless
    | S rounds =>
        '(go, s, m, o) ← read_round s m is_timeout;
        if (go : bool) then
          '(s, m, o') ← read_loop rounds s m is_timeout;
          Ret (s, m, o ++ o')
        else Ret (s, m, o)
    end
  else Ret (s, m, []).

(** Every round that goes on removes a byte, so [size akt] rounds are enough
    ([read_loop_ok]). *)
Definition process_read (s : FT12wrap) (m : M) (is_timeout : bool) : ft_result :=
  if in_reader s then Ret (s, m, [])
  else
    '(s, m, o) ← read_loop (size (akt s)) (set_reader s true false) m is_timeout;
    Ret (set_reader s false (ft_timer s || bool_decide (0 < size (akt s))%nat), m, o).

Definition ft_recv_Data (s : FT12wrap) (m : M) (c : CArray) : ft_result :=
  a ← setpart (akt s) c (size (akt s)) (size c);
  process_read (set_akt s a) m false.

Definition ft_timer_cb (s : FT12wrap) (m : M) : ft_result := process_read s m true.

(** The last part of [do_send_Next]. *)
Definition resume_send (s : FT12wrap) : FT12wrap :=
  if send_wait s then trigger_send (set_wait s false (repeatcount s)) else s.

Definition ft_do_send_Next (s : FT12wrap) (m : M) : ft_result :=
  let s := set_free s true in
  if decide (0 < size (akt s))%nat then
    '(s, m, o) ← process_read s m false;
    Ret (if next_free s then resume_send s else s, m, o)
  else Ret (resume_send s, m, []).

(** ** Events *)

Inductive ft12_event :=
| FE_start | FE_stop
| FE_send_Local (l : CArray) (raw : Z)
| FE_sendReset
| FE_recv_Data (c : CArray)
| FE_timer | FE_sendtimer | FE_trigger
| FE_send_Next.

Definition below_up (m : M) (r : outcome (FT12wrap * list ft12_output)) : ft_result :=
  '(s, o) ← r; Ret (s, m, o).

(** A timer that runs out, like a trigger that is delivered, is not set any more. *)
Definition ft_step (s : FT12wrap) (m : M) (e : ft12_event) : ft_result :=
  match e with
  | FE_start => below_up m (Ret (ft_start s))
  | FE_stop => below_up m (Ret (ft_stop s))
  | FE_send_Local l raw => below_up m (do_send_Local s l raw)
  | FE_sendReset => below_up m (ft_sendReset s)
  | FE_recv_Data c => ft_recv_Data s m c
  | FE_timer => if ft_timer s then ft_timer_cb (set_reader s (in_reader s) false) m else Ret (s, m, [])
  | FE_sendtimer =>
      if sendtimer s then Ret (sendtimer_cb (set_sendtimer s false), m, []) else Ret (s, m, [])
  | FE_trigger =>
      if trigger_on s && trigger_sent s then below_up m (Ret (ft_trigger_cb (set_trigger s true false)))
      else Ret (s, m, [])
  | FE_send_Next => ft_do_send_Next s m
  end.

Fixpoint ft_run (s : FT12wrap) (m : M) (es : list ft12_event) : ft_result :=
  match es with
  | [] => Ret (s, m, [])
  | e :: es =>
      '(s, m, o) ← ft_step s m e;
      '(s, m, o') ← ft_run s m es;
      Ret (s, m, o ++ o')
  end.
End Master.

(** A filter just constructed; the fields its constructor leaves unset are given by
    [start]. *)
Definition FT12wrap_new : FT12wrap :=
  mkFT12 false false [] [] [] 0 false true false false false false false.
