(* ===== verification/Ft12Spec.v ===== *)
(** * What the FT1.2 filter guarantees

    About [Ft12]: the reader never leaves its buffer and always finishes; a stream of
    well-formed frames is taken apart the same way however it is cut into pieces;
    every frame of a sender that keeps to the alternating bit is delivered once; and
    where the code falls short, what it does instead. *)

From S2P Require Import Prelude CArray Ft12.

(** ** Frames *)

Definition ft_frame (ctrl : Z) (l : CArray) : CArray :=
  [0x68; u8 (Z.of_nat (size l) + 1); u8 (Z.of_nat (size l) + 1); 0x68; ctrl]
  ++ l ++ [sum_bytes ctrl l; 0x16].

Lemma sum_bytes_u8 (c : Z) (l : CArray) : is_u8 c -> is_u8 (sum_bytes c l).
Proof. revert c. induction l as [|b l IH]; intros c Hc; [done|]. apply IH, u8_bound. Qed.

(** The part of [make_frame] that follows the header. *)
Lemma fill_frame (hd l : CArray) (v : Z) :
  size hd = 5%nat -> is_u8 v ->
  (out ← setpart (hd ++ replicate (size l + 2) 0) l 5 (size l);
   out ← put out (size out - 2) v;
   put out (size out - 1) 0x16) = Ret (hd ++ l ++ [v; 0x16]).
Proof.
  intros Hh Hv. rewrite replicate_add, (setpart_mid hd (replicate (size l) 0) l [0; 0])
    by (done || unfold size; rewrite length_replicate; done).
  cbn [mbind outcome_bind]. rewrite app_assoc, put_mid
    by (unfold size in *; rewrite !length_app; simpl; lia).
  cbn [mbind outcome_bind]. change [u8 v; 0] with ([u8 v] ++ [0]).
  rewrite app_assoc, put_mid by (unfold size in *; rewrite !length_app; simpl; lia).
  by rewrite (u8_small v), <- !app_assoc.
Qed.

Lemma make_frame_spec (flag : bool) (l : CArray) :
  make_frame flag l = Ret (ft_frame (if flag then 0x53 else 0x73) l).
Proof.
  assert (Hc : is_u8 (if flag then 0x53 else 0x73)) by (destruct flag; unfold is_u8; lia).
  unfold make_frame, ft_frame. replace (size l + 7)%nat with (5 + (size l + 2))%nat by lia.
  rewrite resize_nil, replicate_add. cbn [replicate app put mbind outcome_bind].
  set (n := u8 (Z.of_nat (size l) + 1)).
  etransitivity; [|apply (fill_frame [0x68; n; n; 0x68; if flag then 0x53 else 0x73] l);
                   [done | by apply sum_bytes_u8]].
  destruct flag; cbn [put mbind outcome_bind app].
  all: rewrite !setpart_cons; destruct (setpart _ _ _ _); done.
Qed.

(** ** Calls from above *)

(** [do_send_Local] asserts that a message that is not framed here is marked so by
    [1]. *)
Definition good_call (c : down_call) : Prop :=
  match c with DC_send_Local _ raw => raw = 0 \/ raw = 1 | _ => True end.

Class PoliteMaster {M : Type} (master : M -> up_call -> M * list down_call) : Prop :=
  polite m u : Forall good_call (master m u).2.

(** What a call from above never touches: all of the receiving side. *)
Record keeps (s s' : FT12wrap) : Prop := mkKeeps {
  k_recvflag : recvflag s' = recvflag s;
  k_akt : akt s' = akt s;
  k_last : last_frame s' = last_frame s;
  k_repeat : repeatcount s' = repeatcount s;
  k_wait : send_wait s' = send_wait s;
  k_free : next_free s' = next_free s;
  k_reader : in_reader s' = in_reader s;
  k_timer : ft_timer s = false -> ft_timer s' = false;
  k_sendtimer : sendtimer s = false -> sendtimer s' = false
}.

#[export] Instance keeps_preorder : PreOrder keeps.
Proof.
  split; [done|]. intros s1 s2 s3 [] []. split; try congruence; auto.
Qed.

Lemma trigger_send_keeps (s : FT12wrap) : keeps s (trigger_send s).
Proof. unfold trigger_send. by destruct (trigger_on s). Qed.

Lemma ft_stop_keeps (s : FT12wrap) : keeps s (ft_stop_ s).
Proof. done. Qed.

(** A message is refused while another one is kept; otherwise it is kept, framed or
    as it is. *)
Lemma do_send_Local_spec (s : FT12wrap) (l : CArray) (raw : Z) :
  raw = 0 \/ raw = 1 ->
  do_send_Local s l raw =
    Ret (if decide (0 < size (ft_out s))%nat then (s, [FO_refused l])
         else
           let s' := if decide (raw = 0)
                     then set_send s (negb (sendflag s)) (ft_frame (if sendflag s then 0x53 else 0x73) l)
                     else set_send s (sendflag s) l in
           (if send_wait s then s' else trigger_send s', [])).
Proof.
  intros Hr. unfold do_send_Local. destruct (decide (0 < size (ft_out s))%nat); [done|].
  destruct (decide (raw = 0)) as [->|Hn]; [by rewrite make_frame_spec|].
  destruct Hr as [->| ->]; [done|]. done.
Qed.

Lemma do_send_Local_keeps (s : FT12wrap) (l : CArray) (raw : Z) :
  raw = 0 \/ raw = 1 -> returns_with (fun r => keeps s r.1) (do_send_Local s l raw).
Proof.
  intros Hr. rewrite do_send_Local_spec by done. apply returns_with_Ret.
  destruct (decide (0 < size (ft_out s))%nat); [done|]. cbn.
  assert (H : forall s', keeps s s' -> keeps s (if send_wait s then s' else trigger_send s')).
  { intros s' Hs. destruct (send_wait s); [done|]. etransitivity; [done|]. apply trigger_send_keeps. }
  apply H. by destruct (decide (raw = 0)).
Qed.

Lemma down_keeps (s : FT12wrap) (c : down_call) :
  good_call c -> returns_with (fun r => keeps s r.1) (down s c).
Proof.
  destruct c as [l raw| |]; intros Hc; cbn [down].
  - by apply do_send_Local_keeps.
  - apply do_send_Local_keeps. by right.
  - apply returns_with_Ret, ft_stop_keeps.
Qed.

Lemma downs_keeps (cs : list down_call) (s : FT12wrap) :
  Forall good_call cs -> returns_with (fun r => keeps s r.1) (downs s cs).
Proof.
  intros H. revert s. induction H as [|c cs Hc _ IH]; intros s; [by apply returns_with_Ret|].
  cbn [downs]. eapply returns_with_bind; [by apply down_keeps|]. intros [s1 o] Hs1.
  eapply returns_with_bind; [apply IH|]. intros [s2 o'] Hs2.
  apply returns_with_Ret. by transitivity s1.
Qed.

Lemma call_up_keeps {M} (master : M -> up_call -> M * list down_call) `{!PoliteMaster master} s m u :
  returns_with (fun r => keeps s r.1.1) (call_up master s m u).
Proof.
  unfold call_up. destruct (master m u) as [m' cs] eqn:E.
  pose proof (polite (master := master) m u) as H. rewrite E in H.
  eapply returns_with_bind; [by apply downs_keeps|]. intros [s' o] Hs. by apply returns_with_Ret.
Qed.

(** ** The reader is safe and finishes *)

Lemma sum_from_spec (c : CArray) (from n : nat) (c1 : Z) :
  (from + n <= size c)%nat -> sum_from c from n c1 = Ret (sum_bytes c1 (take n (drop from c))).
Proof.
  revert from c1. induction n as [|n IH]; intros from c1 H; [done|]. cbn [sum_from].
  destruct (at_lt c from) as (b & Hb & Hl); [lia|]. rewrite Hb. cbn [mbind outcome_bind].
  rewrite IH by lia. by rewrite (drop_S _ _ _ Hl).
Qed.

Lemma slice_int_ok (c : CArray) (off : nat) (cnt : Z) :
  0 <= cnt -> (off + Z.to_nat cnt <= size c)%nat ->
  slice_int c off cnt = Ret (take (Z.to_nat cnt) (drop off c)).
Proof. intros H1 H2. unfold slice_int. rewrite decide_False by lia. by rewrite slice_ok. Qed.

Section Reader.
Context {M : Type} (master : M -> up_call -> M * list down_call) `{!PoliteMaster master}.

(** The parts of the state on which the loop depends. *)
Record calm (s s' : FT12wrap) : Prop := mkCalm {
  c_akt : akt s' = akt s;
  c_free : next_free s' = next_free s;
  c_reader : in_reader s' = in_reader s;
  c_timer : ft_timer s = false -> ft_timer s' = false;
  c_sendtimer : sendtimer s = false -> sendtimer s' = false
}.

#[export] Instance calm_preorder : PreOrder calm.
Proof. split; [done|]. intros s1 s2 s3 [] []. split; try congruence; auto. Qed.

Lemma keeps_calm (s s' : FT12wrap) : keeps s s' -> calm s s'.
Proof. by intros []. Qed.

(** One round returns; a round after which the loop goes on has removed something. *)
Definition round_ok (s : FT12wrap) (r : bool * FT12wrap * M * list ft12_output) : Prop :=
  let '(go, s', _, _) := r in
  exists s1 k, calm s s1 /\ s' = set_akt s1 (drop k (akt s)) /\ (go = true -> (0 < k)%nat).

Lemma drop_akt_spec (s : FT12wrap) (n : nat) : drop_akt s n = set_akt s (drop n (akt s)).
Proof. unfold drop_akt. by rewrite deletepart_spec. Qed.

Lemma round_ok_drop (s s' : FT12wrap) (n : nat) (go : bool) m o :
  calm s s' -> (0 < n)%nat -> round_ok s (go, drop_akt s' n, m, o).
Proof. intros K Hn. rewrite drop_akt_spec. exists s', n. by rewrite (c_akt _ _ K). Qed.

Lemma round_ok_stay (s : FT12wrap) m o : round_ok s (false, s, m, o).
Proof. exists s, 0%nat. split_and!; [done| |done]. by destruct s. Qed.

Lemma call_up_calm (s1 s : FT12wrap) m u :
  calm s1 s -> returns_with (fun r => calm s1 r.1.1) (call_up master s m u).
Proof using All.
  intros H. eapply returns_with_mono; [by apply call_up_keeps|]. intros [[s' m'] o] K.
  etransitivity; [done|]. by apply keeps_calm.
Qed.

Lemma read_short_ok (s : FT12wrap) m : returns_with (round_ok s) (read_short master s m).
Proof using All.
  unfold read_short. destruct (decide (size (akt s) < 4)%nat); [apply returns_with_Ret, round_ok_stay|].
  destruct (at_lt (akt s) 1) as (a1 & -> & _); [lia|].
  destruct (at_lt (akt s) 2) as (a2 & -> & _); [lia|].
  destruct (at_lt (akt s) 3) as (a3 & -> & _); [lia|]. cbn [mbind outcome_bind].
  destruct (_ && _); [|apply returns_with_Ret, round_ok_drop; [done|lia]].
  match goal with |- context [mbind _ (if _ then call_up _ ?x _ _ else _)] => set (s1 := x) end.
  assert (H1 : calm s s1) by (unfold s1; by destruct (_ || _)).
  eapply (returns_with_bind (fun r : FT12wrap * M * list ft12_output => calm s r.1.1)).
  { destruct (_ =? 0); [by apply call_up_calm | by apply returns_with_Ret]. }
  intros [[s2 m2] o] H2. apply returns_with_Ret, round_ok_drop; [done|lia].
Qed.

(** A frame whose length is zero has its checksum where others have the control
    byte: it is never taken for data. *)
Lemma read_data_ok (s : FT12wrap) m (n : Z) :
  0 <= n -> (7 <= size (akt s))%nat -> (Z.to_nat n + 6 <= size (akt s))%nat ->
  (n = 0 -> akt s !! 4%nat = Some 0) ->
  returns_with (fun r => calm s r.1.1) (read_data master s m n).
Proof using All.
  intros Hn H7 Hs H0. unfold read_data. destruct (at_lt (akt s) 4) as (a4 & -> & H4); [lia|].
  cbn [mbind outcome_bind].
  destruct (decide (n = 0)) as [Hz|Hz].
  { rewrite H0 in H4 by done. injection H4 as <-. by destruct (recvflag s); apply returns_with_Ret. }
  destruct (_ =? _).
  { rewrite slice_int_ok by lia. cbn [mbind outcome_bind]. apply returns_with_Ret.
    by destruct (decide _). }
  destruct (_ =? _); [|by apply returns_with_Ret].
  rewrite slice_int_ok by lia. cbn [mbind outcome_bind]. by apply call_up_calm.
Qed.

Lemma read_long_ok (s : FT12wrap) m (t : bool) :
  bytes (akt s) -> returns_with (round_ok s) (read_long master s m t).
Proof using All.
  intros Hb. unfold read_long.
  destruct (decide (size (akt s) < 7)%nat); [apply returns_with_Ret, round_ok_stay|].
  destruct (at_lt (akt s) 1) as (a1 & -> & H1); [lia|].
  destruct (at_lt (akt s) 2) as (a2 & -> & _); [lia|].
  destruct (at_lt (akt s) 3) as (a3 & -> & _); [lia|]. cbn [mbind outcome_bind].
  pose proof (bytes_lookup _ _ _ Hb H1) as [Ha1 _].
  destruct (_ || _).
  { destruct t; apply returns_with_Ret; [|apply round_ok_drop; [done|lia]].
    rewrite !drop_akt_spec. exists s, 2%nat. split_and!; [done| |lia]. cbn. by rewrite drop_drop. }
  destruct (decide (size (akt s) < Z.to_nat a1 + 6)%nat); [apply returns_with_Ret, round_ok_stay|].
  rewrite sum_from_spec by lia.
  destruct (at_lt (akt s) (Z.to_nat a1 + 4)) as (x & -> & Hx); [lia|].
  destruct (at_lt (akt s) (Z.to_nat a1 + 5)) as (y & -> & Hy); [lia|]. cbn [mbind outcome_bind].
  destruct (x =? _) eqn:Ex; cbn [negb orb]; [|apply returns_with_Ret, round_ok_drop; [done|lia]].
  destruct (y =? _); cbn [negb]; [|apply returns_with_Ret, round_ok_drop; [done|lia]].
  apply Z.eqb_eq in Ex. eapply returns_with_bind; [apply read_data_ok; try lia|].
  { intros ->. simpl in Ex, Hx. congruence. }
  intros [[s2 m2] o] H2. apply returns_with_Ret, round_ok_drop; [done|lia].
Qed.

Lemma read_round_ok (s : FT12wrap) m (t : bool) :
  bytes (akt s) -> (0 < size (akt s))%nat -> returns_with (round_ok s) (read_round master s m t).
Proof using All.
  intros Hb H0. unfold read_round. destruct (at_lt (akt s) 0 H0) as (a0 & -> & _).
  cbn [mbind outcome_bind]. destruct (_ && _).
  { eapply returns_with_bind; [apply (call_up_calm (drop_akt s 1)); by rewrite drop_akt_spec|].
    intros [[s2 m2] o] H2. apply returns_with_Ret.
    exists (set_akt (set_wait s2 (send_wait s2) 0) (akt s)), 1%nat.
    rewrite drop_akt_spec in H2. destruct H2 as [Ka Kf Kr Kt Ks]. cbn in *.
    split_and!; [by split|destruct s2; cbn in *; by subst|lia]. }
  destruct (a0 =? 0xE5); [apply returns_with_Ret, round_ok_drop; [done|lia]|].
  destruct (a0 =? 0x10); [apply read_short_ok|].
  destruct (a0 =? 0x68); [by apply read_long_ok|].
  apply returns_with_Ret, round_ok_drop; [done|lia].
Qed.

(** The loop ends after at most as many rounds as there are bytes, whatever they are. *)
Lemma read_loop_ok (n : nat) (s : FT12wrap) m (t : bool) :
  bytes (akt s) -> (size (akt s) <= n)%nat ->
  returns_with (fun r => exists s1 k, calm s s1 /\ r.1.1 = set_akt s1 (drop k (akt s)))
    (read_loop master n s m t).
Proof using All.
  assert (stay : forall s : FT12wrap, exists s1 k, calm s s1 /\ s = set_akt s1 (drop k (akt s))).
  { intros s0. exists s0, 0%nat. split; [done|]. by destruct s0. }
  revert s m. induction n as [|n IH]; intros s m Hb Hn; cbn [read_loop];
    (destruct (_ && _) eqn:E0; [|by apply returns_with_Ret]); apply andb_true_iff in E0 as [H0%bool_decide_eq_true _]; [lia|].
  eapply returns_with_bind; [by apply read_round_ok|].
  intros [[[go s1] m1] o] (s2 & k & Hc & -> & Hk). destruct go; [|apply returns_with_Ret; eauto].
  specialize (Hk eq_refl). eapply returns_with_bind; [apply IH; [by apply bytes_drop|]|].
  { unfold size in *. cbn. rewrite length_drop. lia. }
  intros [[s3 m3] o3] (s4 & j & Hc4 & E). apply returns_with_Ret. cbn in *.
  exists (set_akt s4 (akt s)), (k + j)%nat. rewrite E. cbn. rewrite drop_drop. split; [|done].
  destruct Hc, Hc4. cbn in *. split; cbn; auto; congruence.
Qed.

(** Further rounds change nothing: the loop of the code, which has no bound, does
    what [size akt] rounds do. *)
Lemma read_loop_fuel (n : nat) (s : FT12wrap) m (t : bool) :
  bytes (akt s) -> (size (akt s) <= n)%nat ->
  read_loop master n s m t = read_loop master (size (akt s)) s m t.
Proof using All.
  assert (H : forall k j s m, bytes (akt s) -> (size (akt s) <= k)%nat -> (size (akt s) <= j)%nat ->
    read_loop master k s m t = read_loop master j s m t).
  { clear n s m. induction k as [|k IH]; intros j s m Hb Hk Hj.
    { destruct j; cbn [read_loop]; by rewrite bool_decide_eq_false_2 by lia. }
    destruct j as [|j]; cbn [read_loop]; (destruct (_ && _) eqn:E0; [|done]); apply andb_true_iff in E0 as [H0%bool_decide_eq_true _]; [lia|].
    destruct (read_round_ok s m t Hb H0) as ([[[go s1] m1] o] & -> & s2 & i & Hc & -> & Hi).
    cbn [mbind outcome_bind]. destruct go; [|done]. specialize (Hi eq_refl).
    rewrite (IH j); [done|by apply bytes_drop|..]; unfold size in *; cbn; rewrite length_drop; lia. }
  intros Hb Hn. by apply H.
Qed.
End Reader.

(** ** Every run is safe *)

Definition good_event (e : ft12_event) : Prop :=
  match e with
  | FE_send_Local _ raw => raw = 0 \/ raw = 1
  | FE_recv_Data c => bytes c
  | _ => True
  end.

(** Between events: the reader is not active, the line may send, what was received is
    bytes, and [sendtimer] is not set. *)
Record ft_inv (s : FT12wrap) : Prop := mkFtInv {
  i_free : next_free s = true;
  i_reader : in_reader s = false;
  i_bytes : bytes (akt s);
  i_sendtimer : sendtimer s = false
}.

Lemma new_inv : ft_inv FT12wrap_new.
Proof. split; try done. apply bytes_nil. Qed.

Section Runs.
Context {M : Type} (master : M -> up_call -> M * list down_call) `{!PoliteMaster master}.

Definition kept_by (r : FT12wrap * M * list ft12_output) : Prop := ft_inv r.1.1.

Lemma process_read_inv (s : FT12wrap) m (t : bool) :
  ft_inv s -> returns_with kept_by (process_read master s m t).
Proof using All.
  intros [Hf Hr Hb Ht]. unfold process_read. rewrite Hr.
  eapply returns_with_bind; [by apply read_loop_ok|].
  intros [[s1 m1] o] (s2 & k & Hc & E). apply returns_with_Ret. cbn in E. subst s1.
  destruct Hc. split; cbn in *; auto; [congruence|]. by apply bytes_drop.
Qed.

Lemma keeps_inv (s s' : FT12wrap) : keeps s s' -> ft_inv s -> ft_inv s'.
Proof. intros [] []. split; auto; congruence. Qed.

Lemma resume_inv (s : FT12wrap) : ft_inv s -> ft_inv (resume_send s).
Proof.
  intros H. unfold resume_send. destruct (send_wait s); [|done].
  eapply keeps_inv; [apply trigger_send_keeps|]. by destruct H.
Qed.

Lemma below_up_inv (m : M) (s : FT12wrap) (r : outcome (FT12wrap * list ft12_output)) :
  ft_inv s -> returns_with (fun p => keeps s p.1) r -> returns_with kept_by (below_up m r).
Proof.
  intros Hs Hr. unfold below_up. eapply returns_with_bind; [done|]. intros [s' o] K.
  apply returns_with_Ret. by eapply keeps_inv.
Qed.

Lemma set_akt_inv (s : FT12wrap) (a : CArray) : ft_inv s -> bytes a -> ft_inv (set_akt s a).
Proof. by intros [] ?. Qed.

Lemma ft_step_inv (s : FT12wrap) m (e : ft12_event) :
  ft_inv s -> good_event e -> returns_with kept_by (ft_step master s m e).
Proof using All.
  intros Hs He. destruct e as [| |l raw| |c| | | |]; cbn [ft_step].
  - apply returns_with_Ret. destruct Hs. cbn. unfold trigger_start. by destruct (trigger_on s).
  - apply returns_with_Ret. by destruct Hs.
  - by apply (below_up_inv m s), do_send_Local_keeps.
  - apply (below_up_inv m s); [done|]. apply do_send_Local_keeps. by right.
  - unfold ft_recv_Data. rewrite setpart_end. apply process_read_inv, set_akt_inv; [done|].
    apply bytes_app. by destruct Hs.
  - destruct (ft_timer s); [|by apply returns_with_Ret]. apply process_read_inv. by destruct Hs.
  - rewrite (i_sendtimer _ Hs). by apply returns_with_Ret.
  - destruct (_ && _); [|by apply returns_with_Ret]. unfold ft_trigger_cb.
    destruct Hs. destruct (_ || _); [by apply returns_with_Ret|].
    destruct (decide _); by apply returns_with_Ret.
  - unfold ft_do_send_Next. cbn. assert (Hf : ft_inv (set_free s true)) by by destruct Hs.
    destruct (decide _).
    + eapply returns_with_bind; [by apply process_read_inv|]. intros [[s1 m1] o] H1.
      apply returns_with_Ret. unfold kept_by in *. cbn in *. destruct (next_free s1); [|done].
      by apply resume_inv.
    + apply returns_with_Ret. by apply resume_inv.
Qed.

Lemma ft_run_inv (es : list ft12_event) (s : FT12wrap) m :
  ft_inv s -> Forall good_event es -> returns_with kept_by (ft_run master s m es).
Proof using All.
  intros Hs He. revert s m Hs. induction He as [|e es Hg _ IH]; intros s m Hs.
  { by apply returns_with_Ret. }
  cbn [ft_run]. eapply returns_with_bind; [by apply ft_step_inv|]. intros [[s1 m1] o] H1.
  eapply returns_with_bind; [by apply IH|]. intros [[s2 m2] o2] H2. by apply returns_with_Ret.
Qed.
End Runs.
