(* ===== verification/Ft12Stream.v ===== *)
(** * FT1.2: the stream of frames

    Frames and acknowledgements arrive as a stream of bytes, cut anywhere.  This file
    relates [FT12wrap] to a machine without a receive buffer that is handed one item
    of the stream at a time, and shows with it that the messages of a sender that
    keeps to the alternating bit are delivered once each, and in order. *)

From S2P Require Import Prelude CArray Ft12 Ft12Spec.

(** ** Items of the stream *)

Inductive ft_item := IT_ack | IT_short (c : Z) | IT_data (c : Z) (d : CArray).

Definition item_bytes (i : ft_item) : CArray :=
  match i with
  | IT_ack => [0xE5]
  | IT_short c => [0x10; c; c; 0x16]
  | IT_data c d => ft_frame c d
  end.

(** A frame holds at most 254 bytes of data: its length byte counts the control byte
    too. *)
Definition valid_item (i : ft_item) : Prop :=
  match i with
  | IT_ack => True
  | IT_short c => is_u8 c
  | IT_data c d => is_u8 c /\ bytes d /\ (size d <= 254)%nat
  end.

Definition item_stream (its : list ft_item) : CArray := concat (map item_bytes its).

Lemma item_nonempty (i : ft_item) : (0 < size (item_bytes i))%nat.
Proof. destruct i; cbn; lia. Qed.

Lemma valid_item_bytes (i : ft_item) : valid_item i -> bytes (item_bytes i).
Proof.
  assert (B : forall z, 0 <= z < 256 -> is_u8 z) by done.
  destruct i as [|c|c d]; cbn [valid_item item_bytes].
  - intros _. repeat constructor; lia.
  - intros Hc. repeat constructor; try apply Hc; lia.
  - intros (Hc & Hd & _). unfold ft_frame.
    repeat (apply bytes_app; split); [|done|].
    + repeat constructor; try apply u8_bound; try apply Hc; lia.
    + repeat constructor; try apply (sum_bytes_u8 c d Hc); lia.
Qed.

Lemma item_stream_bytes (its : list ft_item) : Forall valid_item its -> bytes (item_stream its).
Proof.
  induction 1 as [|i its Hi _ IH]; [apply bytes_nil|]. apply bytes_app. split; [|done].
  by apply valid_item_bytes.
Qed.

(** ** The machine without a buffer *)

(** The state without the buffer, the timer of the reader and its guard. *)
Definition core (s : FT12wrap) : FT12wrap := set_akt (set_reader s false false) [].

Lemma core_core (s : FT12wrap) : core (core s) = core s.
Proof. done. Qed.

Section Items.
Context {M : Type} (master : M -> up_call -> M * list down_call).

Definition handle_item (s : FT12wrap) (m : M) (i : ft_item) : ft_result (M := M) :=
  match i with
  | IT_ack =>
      if send_wait s then
        '(s, m, o) ← do__send_Next master (set_wait s false (repeatcount s)) m;
        Ret (set_wait s (send_wait s) 0, m, o)
      else Ret (s, m, [])
  | IT_short c =>
      let s := if ((c =? 0xF3) && negb (recvflag s)) || ((c =? 0xD3) && recvflag s)
               then set_recv s (negb (recvflag s)) (last_frame s) else s in
      '(s, m, o) ← (if Z.land c 0x0f =? 0 then call_up master s m (UC_recv_Data [0xA0])
                    else Ret (s, m, []));
      Ret (s, m, FO_line [0xE5] :: o)
  | IT_data c d =>
      '(s, m, o) ←
        (if c =? (if recvflag s then 0xF3 else 0xD3) then
           Ret (if decide (d = last_frame s) then s
                else set_recv s (negb (recvflag s)) (last_frame s), m, [])
         else if c =? (if recvflag s then 0xD3 else 0xF3) then
           call_up master (set_recv s (negb (recvflag s)) d) m (UC_recv_Data d)
         else Ret (s, m, []));
      Ret (s, m, FO_line [0xE5] :: o)
  end.

Inductive abs_event := AB_item (i : ft_item) | AB_event (e : ft12_event).

Definition abs_step (s : FT12wrap) (m : M) (a : abs_event) : ft_result (M := M) :=
  '(s, m, o) ← match a with AB_item i => handle_item s m i | AB_event e => ft_step master s m e end;
  Ret (core s, m, o).

Fixpoint abs_run (s : FT12wrap) (m : M) (es : list abs_event) : ft_result (M := M) :=
  match es with
  | [] => Ret (s, m, [])
  | e :: es =>
      '(s, m, o) ← abs_step s m e;
      '(s, m, o') ← abs_run s m es;
      Ret (s, m, o ++ o')
  end.

Definition core_result (r : ft_result (M := M)) : ft_result (M := M) :=
  '(s, m, o) ← r; Ret (core s, m, o).

(** ** Calls from above do not see the buffer *)

(** A change [f] of the state that no call from above can see, and that touches
    neither the flags nor the messages. *)
Class Unseen (f : FT12wrap -> FT12wrap) : Prop := {
  unseen_send s l raw : do_send_Local (f s) l raw = '(s, o) ← do_send_Local s l raw; Ret (f s, o);
  unseen_stop s : ft_stop_ (f s) = f (ft_stop_ s);
  unseen_get s : (sendflag (f s), recvflag (f s), last_frame (f s), repeatcount (f s), send_wait (f s))
                 = (sendflag s, recvflag s, last_frame s, repeatcount s, send_wait s);
  unseen_recv s b l : set_recv (f s) b l = f (set_recv s b l);
  unseen_wait s b r : set_wait (f s) b r = f (set_wait s b r);
  unseen_out s b o : set_sendtimer (set_send (f s) b o) false = f (set_sendtimer (set_send s b o) false)
}.

#[local] Ltac unseen_tac :=
  split; try done; intros s l raw; unfold do_send_Local;
  cbn [ft_out sendflag core set_akt set_reader];
  destruct (decide (0 < size (ft_out s))%nat); [done|];
  unfold trigger_send;
  destruct (decide (raw = 0));
  [ destruct (make_frame _ _); [|done] | destruct (raw =? 1); [|done] ];
  destruct s as [? ? ? ? ? ? [] ? ? ? ? [] ?]; done.

#[export] Instance core_unseen : Unseen core.
Proof. unseen_tac. Qed.

#[export] Instance set_akt_unseen (a : CArray) : Unseen (fun s => set_akt s a).
Proof. unseen_tac. Qed.

#[export] Instance reading_unseen (b : bool) : Unseen (fun s => set_reader s b false).
Proof. unseen_tac. Qed.

Lemma unseen_downs (f : FT12wrap -> FT12wrap) `{!Unseen f} (cs : list down_call) (s : FT12wrap) :
  downs (f s) cs = '(s, o) ← downs s cs; Ret (f s, o).
Proof.
  revert s. induction cs as [|c cs IH]; intros s; [done|]. cbn [downs].
  assert (E : down (f s) c = '(s, o) ← down s c; Ret (f s, o)).
  { destruct c; [apply unseen_send|apply unseen_send|]. cbn [down]. unfold ft_stop. by rewrite unseen_stop. }
  rewrite E. destruct (down s c) as [[s1 o1]|]; [|done]. cbn [mbind outcome_bind].
  rewrite IH. destruct (downs s1 cs) as [[s2 o2]|]; done.
Qed.

Lemma unseen_call_up (f : FT12wrap -> FT12wrap) `{!Unseen f} (s : FT12wrap) m u :
  call_up master (f s) m u = '(s, m, o) ← call_up master s m u; Ret (f s, m, o).
Proof.
  unfold call_up. destruct (master m u) as [m' cs]. rewrite unseen_downs by done.
  by destruct (downs s cs) as [[s1 o1]|].
Qed.

Lemma akt_call_up (s : FT12wrap) (a : CArray) m u :
  call_up master (set_akt s a) m u = '(s, m, o) ← call_up master s m u; Ret (set_akt s a, m, o).
Proof. apply (unseen_call_up (fun s => set_akt s a)). Qed.

Lemma unseen_handle_item (f : FT12wrap -> FT12wrap) `{!Unseen f} (s : FT12wrap) m i :
  handle_item (f s) m i = '(s, m, o) ← handle_item s m i; Ret (f s, m, o).
Proof.
  assert (G := unseen_get s). injection G as G1 G2 G3 G4 G5.
  destruct i as [|c|c d]; cbn [handle_item].
  - rewrite G5, G4. destruct (send_wait s); [|done]. unfold do__send_Next.
    rewrite unseen_wait, unseen_out, unseen_call_up by done.
    assert (G' := unseen_get (f := f) (set_wait s false (repeatcount s))). injection G' as -> _ _ _ _.
    destruct (call_up _ _ _ _) as [[[s1 m1] o1]|]; [|done]. cbn [mbind outcome_bind].
    assert (G'' := unseen_get (f := f) s1). injection G'' as _ _ _ _ ->. by rewrite unseen_wait.
  - rewrite G2, G3. destruct (_ || _); rewrite ?unseen_recv; (destruct (_ =? 0); [|done]);
      rewrite unseen_call_up by done; by destruct (call_up _ _ _ _) as [[[s1 m1] o1]|].
  - rewrite G2, G3. destruct (c =? _); [destruct (decide _); rewrite ?unseen_recv; done|].
    destruct (c =? _); [|done]. rewrite unseen_recv, unseen_call_up by done.
    by destruct (call_up _ _ _ _) as [[[s1 m1] o1]|].
Qed.

Fixpoint handle_items (s : FT12wrap) (m : M) (its : list ft_item) : ft_result (M := M) :=
  match its with
  | [] => Ret (s, m, [])
  | i :: its =>
      '(s, m, o) ← handle_item s m i;
      '(s, m, o') ← handle_items s m its;
      Ret (s, m, o ++ o')
  end.

Lemma unseen_handle_items (f : FT12wrap -> FT12wrap) `{!Unseen f} (its : list ft_item) (s : FT12wrap) m :
  handle_items (f s) m its = '(s, m, o) ← handle_items s m its; Ret (f s, m, o).
Proof.
  revert s m. induction its as [|i its IH]; intros s m; [done|]. cbn [handle_items].
  rewrite unseen_handle_item by done. destruct (handle_item s m i) as [[[s1 m1] o1]|]; [|done].
  cbn [mbind outcome_bind]. rewrite IH. by destruct (handle_items s1 m1 its) as [[[s2 m2] o2]|].
Qed.

(** ** One round for one item *)

(** What the loop does with a complete item: it handles it and removes it. *)
Definition take_item (s : FT12wrap) (m : M) (i : ft_item) (rest : CArray) : round_result (M := M) :=
  '(s, m, o) ← handle_item s m i; Ret (true, set_akt s rest, m, o).

Lemma drop_item (s : FT12wrap) (a rest : CArray) (n : nat) :
  akt s = a ++ rest -> n = size a -> drop_akt s n = set_akt s rest.
Proof. intros E ->. rewrite drop_akt_spec, E. unfold size. by rewrite drop_app_length. Qed.

Lemma round_ack (s : FT12wrap) m (t : bool) (rest : CArray) :
  akt s = item_bytes IT_ack ++ rest -> read_round master s m t = take_item s m IT_ack rest.
Proof.
  intros E. unfold read_round, take_item. rewrite E. cbn [item_bytes app at_ lookup list_lookup
    mbind outcome_bind handle_item Z.eqb Pos.eqb andb].
  rewrite (drop_item s [0xE5] rest) by done.
  destruct (send_wait s); [|done]. unfold do__send_Next.
  change (set_sendtimer _ _) with (set_akt (set_sendtimer (set_send (set_wait s false (repeatcount s))
    (sendflag s) []) false) rest) at 1.
  rewrite akt_call_up.
  change (sendflag (set_wait s false (repeatcount s))) with (sendflag s).
  by destruct (call_up _ _ _ _) as [[[s1 m1] o1]|].
Qed.

Lemma call_up_akt (s s' : FT12wrap) m m' u o :
  call_up master s m u = Ret (s', m', o) -> akt s' = akt s.
Proof.
  intros H. assert (E : call_up master (set_akt s (akt s)) m u = Ret (s', m', o)) by by destruct s.
  rewrite akt_call_up, H in E. cbn in E. injection E as E. by rewrite <- E.
Qed.

(** Remove the item after a call from above. *)
Lemma drop_after_call (s : FT12wrap) m u (a rest : CArray) (n : nat) (o1 : list ft12_output) :
  akt s = a ++ rest -> n = size a ->
  ('(s, m, o) ← call_up master s m u; Ret (true, drop_akt s n, m, o1 ++ o))
  = ('(s, m, o) ← call_up master s m u; Ret (true, set_akt s rest, m, o1 ++ o)).
Proof.
  intros E Hn. destruct (call_up master s m u) as [[[s1 m1] o]|] eqn:Ec; [|done].
  cbn [mbind outcome_bind]. rewrite (drop_item s1 a rest); [done| |done].
  by rewrite (call_up_akt _ _ _ _ _ _ Ec).
Qed.

Lemma round_short (s : FT12wrap) m (t : bool) (c : Z) (rest : CArray) :
  akt s = item_bytes (IT_short c) ++ rest ->
  read_round master s m t = take_item s m (IT_short c) rest.
Proof.
  intros E. unfold read_round, read_short, take_item. rewrite E.
  cbn [item_bytes app at_ lookup list_lookup mbind outcome_bind handle_item Z.eqb Pos.eqb andb].
  rewrite decide_False by (unfold size; simpl; lia). rewrite Z.eqb_refl. cbn [andb].
  set (s1 := if (_ || _) then set_recv _ _ _ else s).
  assert (E1 : akt s1 = [0x10; c; c; 0x16] ++ rest) by (unfold s1; by destruct (_ || _)).
  destruct (_ =? 0).
  - pose proof (drop_after_call s1 m (UC_recv_Data [0xA0]) _ _ 4 [FO_line [0xE5]] E1 eq_refl) as H.
    cbn [app] in H. rewrite H. by destruct (call_up _ _ _ _) as [[[s2 m2] o2]|].
  - cbn [mbind outcome_bind]. by rewrite (drop_item s1 _ rest 4 E1).
Qed.

Lemma sum_bytes_cons (c1 b : Z) (l : CArray) : sum_bytes c1 (b :: l) = sum_bytes (u8 (c1 + b)) l.
Proof. done. Qed.

(** The header, the data and the checksum of a frame in the buffer. *)
Lemma frame_fields (c : Z) (d rest : CArray) :
  is_u8 c -> (size d <= 254)%nat ->
  let a := ft_frame c d ++ rest in
  let n := (size d + 1)%nat in
  size a = (n + 6 + size rest)%nat /\ a !! 1%nat = Some (Z.of_nat n) /\
  a !! 2%nat = Some (Z.of_nat n) /\ a !! 3%nat = Some 0x68 /\ a !! 4%nat = Some c /\
  take n (drop 4 a) = c :: d /\ take (size d) (drop 5 a) = d /\
  a !! (n + 4)%nat = Some (sum_bytes c d) /\ a !! (n + 5)%nat = Some 0x16.
Proof.
  intros Hc Hd a n.
  assert (E : u8 (Z.of_nat (size d) + 1) = Z.of_nat n) by (rewrite u8_small; unfold is_u8; lia).
  subst a n. unfold ft_frame, size in *. rewrite E. split_and!; try done.
  - rewrite !length_app. simpl. lia.
  - cbn [drop app]. rewrite Nat.add_1_r. cbn [take]. f_equal. rewrite <- app_assoc.
    apply take_app_length.
  - cbn [drop app]. rewrite <- app_assoc. apply take_app_length.
  - rewrite <- !app_assoc, app_assoc. apply list_lookup_middle. rewrite !length_app. simpl. lia.
  - rewrite <- !app_assoc. change ([sum_bytes c d; 0x16] ++ rest) with ([sum_bytes c d] ++ 0x16 :: rest).
    rewrite !app_assoc. apply list_lookup_middle. rewrite !length_app. simpl. lia.
Qed.

Lemma round_data (s : FT12wrap) m (t : bool) (c : Z) (d rest : CArray) :
  valid_item (IT_data c d) -> akt s = item_bytes (IT_data c d) ++ rest ->
  read_round master s m t = take_item s m (IT_data c d) rest.
Proof.
  intros (Hc & _ & Hd) E. cbn [item_bytes] in E.
  destruct (frame_fields c d rest Hc Hd) as (Fs & F1 & F2 & F3 & F4 & Ft & Fd & Fx & Fy).
  rewrite <- E in *. unfold read_round, read_long, take_item, read_data.
  assert (F0 : at_ (akt s) 0 = Ret 0x68) by (rewrite E; done).
  rewrite F0. cbn [mbind outcome_bind Z.eqb Pos.eqb andb].
  rewrite decide_False by (unfold size in *; lia).
  rewrite (at_lookup _ _ _ F1), (at_lookup _ _ _ F2), (at_lookup _ _ _ F3).
  cbn [mbind outcome_bind]. rewrite Z.eqb_refl. cbn [negb orb Z.eqb Pos.eqb]. rewrite Nat2Z.id.
  rewrite decide_False by (unfold size in *; lia).
  rewrite sum_from_spec, Ft by lia.
  rewrite (at_lookup _ _ _ Fx), (at_lookup _ _ _ Fy). cbn [mbind outcome_bind].
  rewrite sum_bytes_cons, (u8_small (0 + c)) by done. rewrite Z.add_0_l, Z.eqb_refl.
  cbn [negb orb Z.eqb Pos.eqb]. rewrite (at_lookup _ _ _ F4). cbn [mbind outcome_bind handle_item].
  assert (Sl : forall z, z = Z.of_nat (size d) -> slice_int (akt s) 5 z = Ret d).
  { intros z ->. rewrite slice_int_ok by lia. by rewrite Nat2Z.id, Fd. }
  rewrite !Sl by lia. cbn [mbind outcome_bind].
  assert (Hn : (size d + 1 + 6)%nat = size (ft_frame c d)).
  { unfold ft_frame, size. rewrite !length_app. simpl. lia. }
  rewrite Hn. destruct (c =? _).
  { destruct (decide _); cbn [mbind outcome_bind];
      by rewrite (drop_item _ (ft_frame c d) rest) by (exact E || done). }
  destruct (c =? _); [|cbn [mbind outcome_bind]; by rewrite (drop_item _ _ rest _ E)].
  pose proof (drop_after_call (set_recv s (negb (recvflag s)) d) m (UC_recv_Data d) _ rest _
    [FO_line [0xE5]] E eq_refl) as H. cbn [app] in H. rewrite H.
  by destruct (call_up _ _ _ _) as [[[s2 m2] o2]|].
Qed.

Lemma round_item (s : FT12wrap) m (t : bool) (i : ft_item) (rest : CArray) :
  valid_item i -> akt s = item_bytes i ++ rest -> read_round master s m t = take_item s m i rest.
Proof. destruct i; intros V E; [by apply round_ack|by apply round_short|by apply round_data]. Qed.

(** An item that is not complete is left alone, also by the timeout. *)
Lemma round_partial (s : FT12wrap) m (t : bool) (i : ft_item) (x : Z) (rest : CArray) :
  valid_item i -> akt s <> [] -> item_bytes i = akt s ++ x :: rest ->
  read_round master s m t = Ret (false, s, m, []).
Proof.
  intros V Hne E. unfold read_round. destruct i as [|c|c d].
  - destruct (akt s) as [|a [|]]; done.
  - assert (Hs : size (item_bytes (IT_short c)) = (size (akt s) + S (size rest))%nat).
    { rewrite E. unfold size. by rewrite length_app. }
    destruct (akt s) as [|a al] eqn:Ea; [done|]. cbn [item_bytes app] in E. injection E as <- E.
    cbn [at_ lookup list_lookup mbind outcome_bind Z.eqb Pos.eqb andb]. unfold read_short.
    rewrite Ea. by rewrite decide_True by (unfold size in *; simpl in *; lia).
  - destruct V as (Hc & _ & Hd). cbn [item_bytes] in E.
    destruct (frame_fields c d [] Hc Hd) as (Fs & F1 & F2 & F3 & _).
    rewrite app_nil_r, E in *.
    assert (L : forall k, (k < size (akt s))%nat -> akt s !! k = (akt s ++ x :: rest) !! k).
    { intros k Hk. by rewrite lookup_app_l. }
    assert (Hs : (size (akt s) < size d + 1 + 6)%nat).
    { unfold size in *. rewrite length_app in Fs. simpl in Fs. lia. }
    assert (Hz : (0 < size (akt s))%nat) by (destruct (akt s); [done|unfold size; simpl; lia]).
    rewrite (at_lookup _ _ 0x68) by (rewrite L by lia; rewrite <- E; done).
    cbn [mbind outcome_bind Z.eqb Pos.eqb andb]. unfold read_long.
    destruct (decide (size (akt s) < 7)%nat); [done|].
    rewrite <- L in F1, F2, F3 by lia.
    rewrite (at_lookup _ _ _ F1), (at_lookup _ _ _ F2), (at_lookup _ _ _ F3).
    cbn [mbind outcome_bind]. rewrite Z.eqb_refl. cbn [negb orb Z.eqb Pos.eqb]. rewrite Nat2Z.id.
    by rewrite decide_True by lia.
Qed.
End Items.

(** ** The loop and the stream *)

Section Stream.
Context {M : Type} (master : M -> up_call -> M * list down_call) `{!PoliteMaster master}.

Lemma handle_item_calm (s : FT12wrap) m i :
  returns_with (fun r => calm s r.1.1) (handle_item master s m i).
Proof using All.
  destruct i as [|c|c d]; cbn [handle_item].
  - destruct (send_wait s); [|by apply returns_with_Ret]. unfold do__send_Next.
    eapply returns_with_bind; [by apply (call_up_calm master s)|].
    intros [[s1 m1] o] H1. apply returns_with_Ret. by destruct H1.
  - eapply (returns_with_bind (fun r : FT12wrap * M * list ft12_output => calm s r.1.1)).
    + destruct (_ || _), (_ =? 0); (by apply (call_up_calm master s)) || by apply returns_with_Ret.
    + intros [[s1 m1] o] H1. by apply returns_with_Ret.
  - eapply (returns_with_bind (fun r : FT12wrap * M * list ft12_output => calm s r.1.1)).
    + destruct (c =? _); [by destruct (decide _); apply returns_with_Ret|].
      destruct (c =? _); [by apply (call_up_calm master s) | by apply returns_with_Ret].
    + intros [[s1 m1] o] H1. by apply returns_with_Ret.
Qed.

(** What is left over is the beginning of a further item. *)
Definition begins_item (p : CArray) : Prop :=
  p = [] \/ exists i x r, valid_item i /\ item_bytes i = p ++ x :: r.

Lemma loop_items (its : list ft_item) (n : nat) (s : FT12wrap) m (t : bool) (p : CArray) :
  Forall valid_item its -> begins_item p -> next_free s = true ->
  akt s = item_stream its ++ p -> (size (akt s) <= n)%nat ->
  read_loop master n s m t = '(s', m', o) ← handle_items master s m its; Ret (set_akt s' p, m', o).
Proof using All.
  intros V Hp. revert n s m. induction V as [|i its Vi _ IH]; intros n s m Hf E Hn.
  - cbn in E. cbn [handle_items mbind outcome_bind].
    assert (Es : set_akt s p = s) by (rewrite <- E; by destruct s). rewrite Es.
    destruct (decide (0 < size (akt s))%nat) as [H0|H0].
    2: { destruct n; cbn [read_loop]; by rewrite bool_decide_eq_false_2 by done. }
    destruct n as [|n]; [lia|]. cbn [read_loop]. rewrite Hf, bool_decide_eq_true_2 by done. cbn [andb].
    destruct Hp as [->|(i & x & r & V & Ei)]; [rewrite E in H0; unfold size in H0; simpl in H0; lia|].
    rewrite (round_partial master s m t i x r); [done..| |by rewrite E].
    intros Ez. rewrite Ez in H0. unfold size in H0. simpl in H0. lia.
  - unfold item_stream in E. cbn [map concat] in E. rewrite <- app_assoc in E.
    fold (item_stream its) in E. pose proof (item_nonempty i) as Hi.
    assert (Hs : size (akt s) = (size (item_bytes i) + size (item_stream its ++ p))%nat).
    { rewrite E. unfold size. by rewrite length_app. }
    destruct n as [|n]; [lia|]. cbn [read_loop handle_items].
    rewrite bool_decide_eq_true_2 by lia. rewrite Hf. cbn [andb]. rewrite (round_item master s m t i _ Vi E).
    unfold take_item. destruct (handle_item_calm s m i) as ([[s1 m1] o1] & -> & C).
    cbn [mbind outcome_bind]. rewrite IH; [|cbn in *; by rewrite (c_free _ _ C)|done|cbn [akt set_akt]; lia].
    rewrite (unseen_handle_items master (fun s => set_akt s _)).
    by destruct (handle_items master s1 m1 its) as [[[s2 m2] o2]|].
Qed.

Lemma handle_items_calm (its : list ft_item) (s : FT12wrap) m :
  returns_with (fun r => calm s r.1.1) (handle_items master s m its).
Proof using All.
  revert s m. induction its as [|i its IH]; intros s m; [by apply returns_with_Ret|].
  cbn [handle_items]. eapply returns_with_bind; [apply handle_item_calm|]. intros [[s1 m1] o1] H1.
  eapply returns_with_bind; [apply IH|]. intros [[s2 m2] o2] H2. apply returns_with_Ret.
  cbn in *. by transitivity s1.
Qed.

(** [process_read] on complete items and the beginning of one more. *)
Lemma process_read_items (its : list ft_item) (s : FT12wrap) m (t : bool) (p : CArray) :
  Forall valid_item its -> begins_item p -> ft_inv s -> akt s = item_stream its ++ p ->
  exists s' m' o,
    process_read master s m t = Ret (s', m', o) /\
    handle_items master (core s) m its = Ret (core s', m', o) /\ akt s' = p.
Proof using All.
  intros V Hp [Hf Hr _ _] E. unfold process_read. rewrite Hr.
  rewrite (loop_items its _ _ _ _ p) by done.
  rewrite (unseen_handle_items master (fun s => set_reader s true false)).
  rewrite (unseen_handle_items master core).
  destruct (handle_items_calm its s m) as ([[s1 m1] o1] & -> & C). cbn [mbind outcome_bind].
  by eexists _, _, _.
Qed.

(** *** Events of the line and events of the machine *)

Definition received (e : ft12_event) : CArray :=
  match e with FE_recv_Data c => c | _ => [] end.

(** The events that are events of the machine without a buffer too. *)
Definition outside (e : ft12_event) : bool :=
  match e with FE_recv_Data _ | FE_timer => false | _ => true end.

Definition item_of (a : abs_event) : list ft_item :=
  match a with AB_item i => [i] | AB_event _ => [] end.
Definition event_of (a : abs_event) : list ft12_event :=
  match a with AB_item _ => [] | AB_event e => [e] end.

(** The buffer holds the beginning of the first of the items [its], the rest of which
    is still to come. *)
Record pending (s : FT12wrap) (its : list ft_item) (rest : CArray) : Prop := mkPending {
  p_inv : ft_inv s;
  p_valid : Forall valid_item its;
  p_stream : akt s ++ rest = item_stream its;
  p_first : match its with [] => akt s = [] | i :: _ => (size (akt s) < size (item_bytes i))%nat end
}.

Lemma pending_begins (s : FT12wrap) its rest : pending s its rest -> begins_item (akt s).
Proof.
  intros [_ V E F]. destruct its as [|i its]; [by left|]. right.
  unfold item_stream in E. cbn [map concat] in E.
  apply app_eq_inv in E as [(k & E1 & E2)|(k & E1 & E2)].
  - destruct k as [|x r].
    + rewrite app_nil_r in E1. rewrite E1 in F. lia.
    + rewrite E1 in F. unfold size in F. rewrite length_app in F. simpl in F. lia.
  - destruct k as [|x r].
    + rewrite app_nil_r in E1. rewrite E1 in F. lia.
    + exists i, x, r. split; [by inversion V | done].
Qed.

Lemma split_stream (its : list ft_item) (a rest : CArray) :
  a ++ rest = item_stream its ->
  exists its1 its2 p, its = its1 ++ its2 /\ a = item_stream its1 ++ p /\ p ++ rest = item_stream its2 /\
    match its2 with [] => p = [] | i :: _ => (size p < size (item_bytes i))%nat end.
Proof.
  revert a. induction its as [|i its IH]; intros a E.
  { exists [], [], []. apply app_eq_nil in E as [-> ->]. done. }
  destruct (decide (size a < size (item_bytes i))%nat) as [H|H]; [by exists [], (i :: its), a|].
  unfold item_stream in E. cbn [map concat] in E. fold (item_stream its) in E.
  assert (Ea : a = item_bytes i ++ drop (size (item_bytes i)) a).
  { rewrite <- (take_drop (size (item_bytes i)) a) at 1. f_equal.
    transitivity (take (size (item_bytes i)) (a ++ rest)).
    - rewrite take_app_le; [done|]. unfold size in *. lia.
    - rewrite E. apply take_app_length. }
  rewrite Ea, <- app_assoc in E. apply app_inv_head in E.
  destruct (IH _ E) as (its1 & its2 & p & -> & E1 & E2 & F).
  exists (i :: its1), its2, p. split_and!; try done.
  rewrite Ea, E1. unfold item_stream. cbn [map concat]. by rewrite <- app_assoc.
Qed.

Lemma abs_run_items (its : list ft_item) (s : FT12wrap) m :
  abs_run master (core s) m (map AB_item its) = core_result (handle_items master s m its).
Proof.
  revert s m. induction its as [|i its IH]; intros s m; [done|]. cbn [map abs_run handle_items].
  unfold abs_step at 1. rewrite (unseen_handle_item master core).
  destruct (handle_item master s m i) as [[[s1 m1] o1]|]; [|done]. cbn [mbind outcome_bind].
  rewrite core_core, IH. unfold core_result.
  by destruct (handle_items master s1 m1 its) as [[[s2 m2] o2]|].
Qed.

(** A reader with nothing to do leaves all but its own fields alone. *)
Lemma process_read_idle (s : FT12wrap) m (t : bool) :
  ft_inv s -> begins_item (akt s) ->
  exists s', process_read master s m t = Ret (s', m, []) /\ core s' = core s /\ akt s' = akt s /\ ft_inv s'.
Proof using All.
  intros Hi Hp. destruct (process_read_items [] s m t (akt s)) as (s' & m' & o & E & H & Ha); try done.
  cbn [handle_items] in H.
  assert (core s = core s' /\ m = m' /\ [] = o) as (H1 & <- & <-) by (split_and!; congruence).
  exists s'. split_and!; try done.
  destruct (process_read_inv master s m t Hi) as ([[s1 m1] o1] & E1 & H1').
  rewrite E in E1. by injection E1 as -> _ _.
Qed.

(** Events other than input: the machine without a buffer does the same. *)
Lemma outside_step (s : FT12wrap) m (e : ft12_event) :
  ft_inv s -> begins_item (akt s) -> good_event e -> outside e = true ->
  exists s' m' o, ft_step master s m e = Ret (s', m', o) /\
    abs_step master (core s) m (AB_event e) = Ret (core s', m', o) /\ akt s' = akt s.
Proof using All.
  intros Hi Hp Hg Ho. unfold abs_step.
  assert (L : forall l raw, raw = 0 \/ raw = 1 ->
    exists s' m' o, below_up m (do_send_Local s l raw) = Ret (s', m', o) /\
      ('(s, m, o) ← below_up m (do_send_Local (core s) l raw); Ret (core s, m, o)) = Ret (core s', m', o) /\
      akt s' = akt s).
  { intros l raw Hr. rewrite (unseen_send (f := core)).
    destruct (do_send_Local_keeps s l raw Hr) as ([s1 o1] & -> & K).
    exists s1, m, o1. split_and!; try done. apply (k_akt _ _ K). }
  destruct e as [| |l raw| |c| | | |]; try discriminate Ho; cbn [ft_step].
  - unfold ft_start, trigger_start. exists (ft_start s).1, m, [FO_line_start].
    unfold ft_start, trigger_start. by destruct s as [? ? ? ? ? ? ? ? ? ? ? [] ?].
  - by exists (ft_stop_ s), m, [FO_line_stop].
  - by apply L.
  - apply L. by right.
  - exists s, m, []. cbn. by rewrite (i_sendtimer _ Hi).
  - change (trigger_on (core s)) with (trigger_on s). change (trigger_sent (core s)) with (trigger_sent s).
    destruct (_ && _); [|by exists s, m, []]. unfold ft_trigger_cb.
    cbn [send_wait next_free ft_out set_trigger core set_akt set_reader].
    destruct (_ || _); [by eexists _, _, _|].
    destruct (decide (size (ft_out s) = 0%nat)); by eexists _, _, _.
  - assert (R : forall s, core (resume_send s) = core (resume_send (core s)) /\ akt (resume_send s) = akt s).
    { unfold resume_send, trigger_send. by intros [? ? ? ? ? ? [] ? ? ? ? [] ?]. }
    assert (Hf : ft_inv (set_free s true)) by by destruct Hi.
    unfold ft_do_send_Next. rewrite (decide_False (P := (0 < size (akt (set_free (core s) true)))%nat))
      by (cbn; lia).
    destruct (decide _) as [H0|H0].
    + destruct (process_read_idle _ m false Hf Hp) as (s1 & -> & E1 & Ea & I1).
      cbn [mbind outcome_bind]. rewrite (i_free _ I1).
      exists (resume_send s1), m, []. destruct (R s1) as [-> ->]. rewrite E1. split_and!; try done.
    + exists (resume_send (set_free s true)), m, []. destruct (R (set_free s true)) as [-> ->].
      by split_and!.
Qed.

(** One event of the line is some events of the machine. *)
Lemma stream_step (s : FT12wrap) m (e : ft12_event) its rest :
  pending s its (received e ++ rest) -> good_event e ->
  exists its1 its2 s' m' o aes,
    its = its1 ++ its2 /\ ft_step master s m e = Ret (s', m', o) /\
    abs_run master (core s) m aes = Ret (core s', m', o) /\ pending s' its2 rest /\
    aes ≫= item_of = its1 /\ aes ≫= event_of = filter outside [e].
Proof using All.
  intros P Hg. pose proof (pending_begins _ _ _ P) as Hb. pose proof P as [Hi V E F].
  assert (I : forall s' m' o, ft_step master s m e = Ret (s', m', o) -> ft_inv s').
  { intros s' m' o Es. destruct (ft_step_inv master s m e Hi Hg) as ([[s1 m1] o1] & E1 & H1).
    rewrite Es in E1. by injection E1 as -> _ _. }
  destruct (outside e) eqn:Ho.
  - destruct (outside_step s m e Hi Hb Hg Ho) as (s' & m' & o & Es & Ea & Ek).
    assert (Er : received e = []) by by destruct e. rewrite Er in E.
    exists [], its, s', m', o, [AB_event e]. split_and!; try done.
    + cbn [abs_run]. rewrite Ea. cbn. by rewrite app_nil_r.
    + split; rewrite ?Ek; eauto.
    + cbn. by rewrite Ho.
  - assert (Ef : filter outside [e] = []) by (cbn; by rewrite Ho). rewrite Ef.
    destruct e as [| |l raw| |c| | | |]; try discriminate Ho; cbn [received] in E.
    + rewrite app_assoc in E. destruct (split_stream _ _ _ E) as (its1 & its2 & p & -> & E1 & E2 & F2).
      apply Forall_app in V as [V1 V2].
      assert (Hi' : ft_inv (set_akt s (akt s ++ c))).
      { apply set_akt_inv; [done|]. apply bytes_app. by destruct Hi. }
      assert (Hp : begins_item p).
      { apply (pending_begins (set_akt s p) its2 rest). split; try done.
        apply set_akt_inv; [done|]. apply i_bytes in Hi'. cbn in Hi'. rewrite E1 in Hi'.
        by apply bytes_app in Hi' as [_ ?]. }
      destruct (process_read_items its1 _ m false p V1 Hp Hi' E1) as (s' & m' & o & Es & Eh & Ea).
      assert (Es' : ft_step master s m (FE_recv_Data c) = Ret (s', m', o)).
      { cbn [ft_step]. unfold ft_recv_Data. by rewrite setpart_end. }
      exists its1, its2, s', m', o, (map AB_item its1). split_and!; try done.
      * rewrite <- core_core, abs_run_items. change (core (set_akt s (akt s ++ c))) with (core s) in Eh.
        by rewrite Eh.
      * split; rewrite ?Ea; eauto.
      * clear. by induction its1 as [|i its1 IH]; [|cbn; rewrite IH].
      * clear. by induction its1 as [|i its1 IH]; [|cbn; rewrite IH].
    + cbn [ft_step] in *. exists [], its. destruct (ft_timer s).
      * assert (Hi' : ft_inv (set_reader s (in_reader s) false)) by by destruct Hi.
        destruct (process_read_idle _ m true Hi' Hb) as (s1 & E1 & Ec & Ea & I1).
        exists s1, m, [], []. cbn in *. unfold ft_timer_cb. split_and!; try done; [by rewrite Ec|].
        split; rewrite ?Ea; done.
      * exists s, m, [], []. by split_and!.
Qed.

Lemma ft_run_app (e1 e2 : list ft12_event) (s : FT12wrap) m :
  ft_run master s m (e1 ++ e2) =
    '(s, m, o) ← ft_run master s m e1; '(s, m, o') ← ft_run master s m e2; Ret (s, m, o ++ o').
Proof.
  revert s m. induction e1 as [|e e1 IH]; intros s m; cbn [app ft_run mbind outcome_bind].
  { by destruct (ft_run master s m e2) as [[[? ?] ?]|]. }
  destruct (ft_step master s m e) as [[[s1 m1] o1]|]; [|done]. cbn [mbind outcome_bind]. rewrite IH.
  destruct (ft_run master s1 m1 e1) as [[[s2 m2] o2]|]; [|done]. cbn [mbind outcome_bind].
  destruct (ft_run master s2 m2 e2) as [[[s3 m3] o3]|]; [|done]. cbn. by rewrite app_assoc.
Qed.

Lemma abs_run_app (a1 a2 : list abs_event) (s : FT12wrap) m :
  abs_run master s m (a1 ++ a2) =
    '(s, m, o) ← abs_run master s m a1; '(s, m, o') ← abs_run master s m a2; Ret (s, m, o ++ o').
Proof.
  revert s m. induction a1 as [|a a1 IH]; intros s m; cbn [app abs_run mbind outcome_bind].
  { by destruct (abs_run master s m a2) as [[[? ?] ?]|]. }
  destruct (abs_step master s m a) as [[[s1 m1] o1]|]; [|done]. cbn [mbind outcome_bind]. rewrite IH.
  destruct (abs_run master s1 m1 a1) as [[[s2 m2] o2]|]; [|done]. cbn [mbind outcome_bind].
  destruct (abs_run master s2 m2 a2) as [[[s3 m3] o3]|]; [|done]. cbn. by rewrite app_assoc.
Qed.

Lemma stream_run (es : list ft12_event) (s : FT12wrap) m its rest :
  pending s its (concat (map received es) ++ rest) -> Forall good_event es ->
  exists its1 its2 s' m' o aes,
    its = its1 ++ its2 /\ ft_run master s m es = Ret (s', m', o) /\
    abs_run master (core s) m aes = Ret (core s', m', o) /\ pending s' its2 rest /\
    aes ≫= item_of = its1 /\ aes ≫= event_of = filter outside es.
Proof using All.
  intros P Hg. revert s m its P. induction Hg as [|e es He _ IH]; intros s m its P.
  { exists [], its, s, m, [], []. by split_and!. }
  cbn [map concat] in P. rewrite <- app_assoc in P.
  destruct (stream_step s m e its _ P He)
    as (i1 & i2 & s1 & m1 & o1 & a1 & -> & E1 & A1 & P1 & I1 & V1).
  destruct (IH s1 m1 i2 P1) as (i3 & i4 & s2 & m2 & o2 & a2 & -> & E2 & A2 & P2 & I2 & V2).
  exists (i1 ++ i3), i4, s2, m2, (o1 ++ o2), (a1 ++ a2). split_and!; try done.
  - by rewrite app_assoc.
  - cbn [ft_run]. by rewrite E1; cbn [mbind outcome_bind]; rewrite E2.
  - by rewrite abs_run_app, A1; cbn [mbind outcome_bind]; rewrite A2.
  - by rewrite bind_app, I1, I2.
  - rewrite bind_app, V1, V2. by rewrite <- list.filter_app.
Qed.

(** The whole stream has arrived: all of its items are handled. *)
Lemma stream_all (es : list ft12_event) (s : FT12wrap) m its :
  ft_inv s -> akt s = [] -> Forall valid_item its -> Forall good_event es ->
  concat (map received es) = item_stream its ->
  exists s' m' o aes,
    ft_run master s m es = Ret (s', m', o) /\ akt s' = [] /\
    abs_run master (core s) m aes = Ret (core s', m', o) /\
    aes ≫= item_of = its /\ aes ≫= event_of = filter outside es.
Proof using All.
  intros Hi Ha V G E.
  destruct (stream_run es s m its []) as (i1 & i2 & s' & m' & o & aes & -> & R & A & Q & I & W); [|done|].
  { split; try done; [by rewrite Ha, app_nil_r|].
    destruct its as [|i its]; [done|]. rewrite Ha. apply item_nonempty. }
  destruct Q as [_ _ Q1 Q2]. destruct i2 as [|i i2].
  { rewrite app_nil_r. exists s', m', o, aes. by split_and!. }
  exfalso. rewrite app_nil_r in Q1. rewrite Q1 in Q2. unfold item_stream in Q2. cbn [map concat] in Q2.
  unfold size in Q2. rewrite length_app in Q2. lia.
Qed.
End Stream.
