(* ===== verification/Ft12Link.v ===== *)
(** * FT1.2: what the filter promises

    The theorems about the filter of src/src/backend/ft12.cpp that its users depend on,
    from the lemmas of [Ft12Spec] and [Ft12Stream]: runs are safe, a stream is taken
    apart however it is cut, messages are delivered once; and the two situations
    from which the code does not recover: a lost acknowledgement, and a sender whose
    alternating bit is out of phase. *)

From S2P Require Import Prelude CArray Ft12 Ft12Spec Ft12Stream.

(** ** What is visible from outside *)

Definition delivered_one (o : ft12_output) : option CArray :=
  match o with FO_up (UC_recv_Data d) => Some d | _ => None end.
Definition delivered (o : list ft12_output) : list CArray := omap delivered_one o.

Definition line_one (o : ft12_output) : option CArray := match o with FO_line c => Some c | _ => None end.
Definition lines (o : list ft12_output) : list CArray := omap line_one o.

Definition data_of (i : ft_item) : list (Z * CArray) :=
  match i with IT_data c d => [(c, d)] | _ => [] end.

(** The control byte of a message with the bit [flag]. *)
Definition ctrl (flag : bool) : Z := if flag then 0xD3 else 0xF3.

(** A sender that keeps to the protocol: each message is sent, repeated some times, and
    the bit changes. *)
Fixpoint device_frames (flag : bool) (msgs : list (CArray * nat)) : list (Z * CArray) :=
  match msgs with
  | [] => []
  | (d, k) :: msgs => replicate (S k) (ctrl flag, d) ++ device_frames (negb flag) msgs
  end.

(** ** What a receiver does with the data frames alone *)

Definition rx_step (st : bool * CArray) (f : Z * CArray) : bool * CArray * list CArray :=
  let '(flag, last) := st in
  let '(c, d) := f in
  if c =? ctrl (negb flag) then (if decide (d = last) then flag else negb flag, last, [])
  else if c =? ctrl flag then (negb flag, d, [d])
  else (flag, last, []).

Fixpoint rx (st : bool * CArray) (fs : list (Z * CArray)) : list CArray :=
  match fs with
  | [] => []
  | f :: fs => let '(st, o) := rx_step st f in o ++ rx st fs
  end.

Definition rx_state (s : FT12wrap) : bool * CArray := (recvflag s, last_frame s).

Definition plain_item (i : ft_item) : Prop := match i with IT_short _ => False | _ => True end.

Lemma downs_up_free (cs : list down_call) (s s' : FT12wrap) o :
  Forall good_call cs -> downs s cs = Ret (s', o) -> delivered o = [] /\ lines o = [].
Proof.
  intros H. revert s o. induction H as [|c cs Hc _ IH]; intros s o E.
  { by injection E as <- <-. }
  cbn [downs] in E. apply bind_Ret_inv in E as ([s1 o1] & E1 & E).
  apply bind_Ret_inv in E as ([s2 o2] & E2 & E). injection E as -> <-.
  destruct (IH _ _ E2) as [D L]. unfold delivered, lines in *. rewrite !omap_app, D, L.
  destruct c as [l raw| |]; cbn [down] in E1; [| |by injection E1 as <- <-];
    unfold ft_sendReset in E1; rewrite do_send_Local_spec in E1 by (done || by right);
    destruct (decide (0 < size (ft_out s))%nat); by injection E1 as <- <-.
Qed.

Section Link.
Context {M : Type} (master : M -> up_call -> M * list down_call) `{!PoliteMaster master}.

Lemma call_up_visible (s s' : FT12wrap) m m' u o :
  call_up master s m u = Ret (s', m', o) ->
  delivered o = delivered [FO_up u] /\ lines o = [] /\ rx_state s' = rx_state s.
Proof using All.
  intros E. destruct (call_up_keeps master s m u) as ([[s1 m1] o1] & E1 & K).
  rewrite E in E1. injection E1 as <- <- <-. cbn in K. unfold rx_state.
  rewrite (k_recvflag _ _ K), (k_last _ _ K).
  unfold call_up in E. pose proof (polite (master := master) m u) as P.
  destruct (master m u) as [m2 cs]. apply bind_Ret_inv in E as ([s2 o2] & E2 & E).
  injection E as -> -> <-. destruct (downs_up_free _ _ _ _ P E2) as [D L].
  unfold delivered, lines in *. cbn. rewrite D, L. by destruct u.
Qed.

(** An item other than a short frame, on the receiving side. *)
Lemma item_visible (s s' : FT12wrap) m m' i o :
  plain_item i -> handle_item master s m i = Ret (s', m', o) ->
  rx (rx_state s) (data_of i) = delivered o /\
  rx_state s' = foldl (fun st f => (rx_step st f).1) (rx_state s) (data_of i) /\
  Forall (eq [0xE5]) (lines o).
Proof using All.
  intros Hp E. destruct i as [|c|c d]; [| destruct Hp |]; cbn [handle_item] in E.
  - destruct (send_wait s); [|by injection E as <- <- <-].
    apply bind_Ret_inv in E as ([[s1 m1] o1] & E1 & E). injection E as <- <- <-.
    apply call_up_visible in E1 as (D & L & R). cbn in D. rewrite L. split_and!; [done| |done].
    unfold rx_state in *. cbn in *. done.
  - apply bind_Ret_inv in E as ([[s1 m1] o1] & E1 & E). injection E as <- <- <-.
    cbn [data_of rx foldl rx_step rx_state]. unfold ctrl.
    change (delivered (FO_line [0xE5] :: o1)) with (delivered o1).
    change (lines (FO_line [0xE5] :: o1)) with ([0xE5] :: lines o1).
    replace (if negb (recvflag s) then 0xD3 else 0xF3) with (if recvflag s then 0xF3 else 0xD3)
      by by destruct (recvflag s).
    destruct (c =? (if recvflag s then 0xF3 else 0xD3)).
    { injection E1 as <- <- <-. destruct (decide _); cbn; split_and!; try done; by repeat constructor. }
    destruct (c =? _).
    + apply call_up_visible in E1 as (D & L & R). rewrite D, L, R. cbn.
      split_and!; try done; by repeat constructor.
    + injection E1 as <- <- <-. split_and!; try done; by repeat constructor.
Qed.

(** The events of the machine that leave the receiving side alone. *)
Definition calm_event (e : ft12_event) : Prop := e <> FE_start /\ outside e = true /\ good_event e.

Lemma event_visible (s s' : FT12wrap) m m' e o :
  ft_inv s -> akt s = [] -> calm_event e -> ft_step master s m e = Ret (s', m', o) ->
  delivered o = [] /\ rx_state s' = rx_state s.
Proof using All.
  intros Hi Ha (Hs & Ho & Hg) E.
  assert (L : forall l raw, raw = 0 \/ raw = 1 -> below_up m (do_send_Local s l raw) = Ret (s', m', o) ->
    delivered o = [] /\ rx_state s' = rx_state s).
  { intros l raw Hr El. rewrite do_send_Local_spec in El by done. unfold rx_state.
    destruct (do_send_Local_keeps s l raw Hr) as ([s1 o1] & E1 & K).
    rewrite do_send_Local_spec in E1 by done. cbn [below_up mbind outcome_bind] in El.
    destruct (decide (0 < size (ft_out s))%nat); injection E1 as <- <-; injection El as <- <- <-; [done|].
    pose proof (k_recvflag _ _ K) as K1. pose proof (k_last _ _ K) as K2. cbn [fst] in K1, K2.
    by rewrite K1, K2. }
  destruct e as [| |l raw| |c| | | |]; try discriminate Ho; cbn [ft_step] in E.
  - done.
  - by injection E as <- <- <-.
  - by apply (L l raw).
  - apply (L _ _ (or_intror eq_refl) E).
  - rewrite (i_sendtimer _ Hi) in E. by injection E as <- <- <-.
  - destruct (_ && _); [|by injection E as <- <- <-]. unfold ft_trigger_cb in E.
    destruct (_ || _); [by injection E as <- <- <-|].
    destruct (decide (_ = 0%nat)); by injection E as <- <- <-.
  - unfold ft_do_send_Next in E. rewrite decide_False in E by (cbn; rewrite Ha; cbn; lia).
    injection E as <- <- <-. unfold resume_send, trigger_send, rx_state. cbn.
    destruct (send_wait s), (trigger_on s); done.
Qed.

Definition buffer_free (s : FT12wrap) : Prop := ft_inv s /\ akt s = [].

Lemma core_free (s : FT12wrap) : ft_inv s -> buffer_free (core s).
Proof. intros []. split; [split|]; try done. apply bytes_nil. Qed.

Lemma abs_step_free (s s' : FT12wrap) m m' a o :
  ft_inv s -> Forall good_event (event_of a) -> abs_step master s m a = Ret (s', m', o) -> buffer_free s'.
Proof using All.
  intros Hi Hg E. apply bind_Ret_inv in E as ([[s1 m1] o1] & E1 & E). injection E as <- <- <-.
  apply core_free. destruct a as [i|e].
  - destruct (handle_item_calm master s m i) as ([[s2 m2] o2] & E2 & C). rewrite E1 in E2.
    injection E2 as <- <- <-. cbn in C. destruct Hi, C. split; auto; congruence.
  - apply Forall_cons_1 in Hg as [Hg _].
    destruct (ft_step_inv master s m e Hi Hg) as ([[s2 m2] o2] & E2 & I). rewrite E1 in E2.
    by injection E2 as <- <- <-.
Qed.

Definition run_data (aes : list abs_event) : list (Z * CArray) := (aes ≫= item_of) ≫= data_of.

Lemma abs_run_delivers (aes : list abs_event) (s s' : FT12wrap) m m' o :
  buffer_free s -> Forall plain_item (aes ≫= item_of) -> Forall calm_event (aes ≫= event_of) ->
  abs_run master s m aes = Ret (s', m', o) -> delivered o = rx (rx_state s) (run_data aes).
Proof using All.
  revert s m o. induction aes as [|a aes IH]; intros s m o [Hi Ha] Hp He E.
  { by injection E as <- <- <-. }
  cbn [abs_run] in E. apply bind_Ret_inv in E as ([[s1 m1] o1] & E1 & E).
  apply bind_Ret_inv in E as ([[s2 m2] o2] & E2 & E). injection E as <- <- <-.
  rewrite bind_cons in Hp. rewrite bind_cons in He. apply Forall_app in Hp as [Hp1 Hp]. apply Forall_app in He as [He1 He].
  assert (F : buffer_free s1).
  { apply (abs_step_free s s1 m m1 a o1); [done| |done]. refine (Forall_impl _ _ He1). by intros e (_ & _ & ?). }
  unfold delivered. rewrite omap_app. fold (delivered o1) (delivered o2).
  rewrite (IH _ _ _ F Hp He E2). unfold run_data. rewrite bind_cons, bind_app.
  fold (run_data aes). clear IH E2 F Hp He.
  apply bind_Ret_inv in E1 as ([[s3 m3] o3] & E3 & E1). injection E1 as <- <- <-.
  change (rx_state (core s3)) with (rx_state s3). destruct a as [i|e]; cbn [item_of event_of] in *.
  - apply Forall_cons_1 in Hp1 as [Hp1 _].
    destruct (item_visible _ _ _ _ _ _ Hp1 E3) as (D & R & _). rewrite <- D, R.
    destruct i as [|c|c d]; try done.
    cbn [mbind list_bind data_of app foldl rx]. destruct (rx_step _ _) as [st out]. cbn. by rewrite app_nil_r.
  - apply Forall_cons_1 in He1 as [He1 _].
    destruct (event_visible _ _ _ _ _ _ Hi Ha He1 E3) as [-> ->]. done.
Qed.
End Link.

(** ** The receiver and an alternating sender *)

Lemma ctrl_neq (b : bool) : (ctrl b =? ctrl (negb b)) = false.
Proof. by destruct b. Qed.

Lemma rx_device (msgs : list (CArray * nat)) (flag : bool) (last : CArray) :
  rx (flag, last) (device_frames flag msgs) = map fst msgs.
Proof.
  revert flag last. induction msgs as [|[d k] msgs IH]; intros flag last; [done|].
  cbn [device_frames replicate app rx rx_step map fst]. rewrite ctrl_neq, Z.eqb_refl. cbn [app]. f_equal.
  induction k as [|k IHk]; [apply IH|]. cbn [replicate app rx rx_step].
  rewrite negb_involutive, Z.eqb_refl, decide_True by done. apply IHk.
Qed.

(** Out of phase: frames that differ from the last one are all taken for repetitions. *)
Lemma rx_deaf (msgs : list CArray) (flag : bool) (last : CArray) :
  Forall (fun d => d <> last) msgs ->
  rx (flag, last) (device_frames (negb flag) (map (fun d => (d, 0%nat)) msgs)) = [].
Proof.
  intros H. revert flag. induction H as [|d msgs Hd _ IH]; intros flag; [done|].
  cbn [map device_frames replicate app rx rx_step]. rewrite Z.eqb_refl, decide_False by done. cbn [app].
  apply IH.
Qed.

Section Promises.
Context {M : Type} (master : M -> up_call -> M * list down_call) `{!PoliteMaster master}.

(** What the driver above gets from a stream of acknowledgements and data frames is
    what [rx] makes of the frames. *)
Lemma stream_delivers (es : list ft12_event) (its : list ft_item) (s : FT12wrap) m :
  buffer_free s -> Forall valid_item its -> Forall plain_item its ->
  Forall good_event es -> ~ In FE_start es -> concat (map received es) = item_stream its ->
  exists s' m' o, ft_run master s m es = Ret (s', m', o) /\
    delivered o = rx (rx_state s) (its ≫= data_of).
Proof using All.
  intros [Hi Ha] V P G S E.
  destruct (stream_all master es s m its) as (s' & m' & o & aes & R & _ & A & I & W); try done.
  exists s', m', o. split; [done|].
  rewrite (abs_run_delivers master aes (core s) (core s') m m' o); try done.
  - change (rx_state (core s)) with (rx_state s). unfold run_data. by rewrite I.
  - by apply core_free.
  - by rewrite I.
  - rewrite W. apply Forall_forall. intros e He.
    apply list_elem_of_In, list_elem_of_filter in He as [Ho He]. apply list_elem_of_In in He.
    apply Is_true_true in Ho. split_and!; [|done|].
    + by intros ->.
    + rewrite Forall_forall in G. by apply G.
Qed.

(** ** A message that is not acknowledged *)

(** A message is kept, and nothing will wake the sender up. *)
Record blocked (w : CArray) (s : FT12wrap) : Prop := mkBlocked {
  b_free : buffer_free s;
  b_out : ft_out s = w;
  b_sent : trigger_sent s = false
}.

Definition quiet (o : list ft12_output) : Prop := Forall (eq [0xE5]) (lines o).

Lemma quiet_app (o o' : list ft12_output) : quiet o -> quiet o' -> quiet (o ++ o').
Proof. unfold quiet, lines. rewrite omap_app, Forall_app. done. Qed.

(** The part of [blocked] that calls from above can reach. *)
Definition stuck (w : CArray) (s : FT12wrap) : Prop := ft_out s = w /\ trigger_sent s = false.

Lemma do_send_Local_stuck (w : CArray) (s : FT12wrap) l raw :
  w <> [] -> stuck w s -> do_send_Local s l raw = Ret (s, [FO_refused l]).
Proof.
  intros Hw [E _]. unfold do_send_Local. rewrite decide_True; [done|]. rewrite E.
  destruct w; [done|]. unfold size. simpl. lia.
Qed.

Lemma downs_stuck (w : CArray) (cs : list down_call) (s : FT12wrap) :
  w <> [] -> stuck w s -> returns_with (fun r => stuck w r.1 /\ quiet r.2) (downs s cs).
Proof.
  intros Hw. revert s. induction cs as [|c cs IH]; intros s Hs.
  { apply returns_with_Ret. split; [done|]. constructor. }
  cbn [downs]. apply (returns_with_bind (fun r => stuck w r.1 /\ quiet r.2)).
  - destruct c; cbn [down]; unfold ft_sendReset; rewrite ?(do_send_Local_stuck w) by done;
      apply returns_with_Ret; (split; [|by constructor]); by destruct Hs.
  - intros [s1 o1] [H1 Q1]. eapply returns_with_bind; [by apply IH|]. intros [s2 o2] [H2 Q2].
    apply returns_with_Ret. split; [done|]. by apply quiet_app.
Qed.

Lemma call_up_stuck (w : CArray) (s : FT12wrap) m u :
  w <> [] -> stuck w s -> returns_with (fun r => stuck w r.1.1 /\ quiet r.2) (call_up master s m u).
Proof.
  intros Hw Hs. unfold call_up. destruct (master m u) as [m' cs].
  eapply returns_with_bind; [by apply (downs_stuck w)|]. intros [s1 o1] [H Q]. by apply returns_with_Ret.
Qed.

Lemma item_stuck (w : CArray) (s : FT12wrap) m i :
  w <> [] -> stuck w s -> i <> IT_ack ->
  returns_with (fun r => stuck w r.1.1 /\ quiet r.2) (handle_item master s m i).
Proof.
  intros Hw Hs Hi.
  assert (B : forall r : ft_result (M := M), returns_with (fun r => stuck w r.1.1 /\ quiet r.2) r ->
    returns_with (fun r => stuck w r.1.1 /\ quiet r.2)
      ('(s, m, o) ← (r : outcome _); Ret (s, m, FO_line [0xE5] :: o))).
  { intros r Hr. eapply returns_with_bind; [done|]. intros [[s1 m1] o1] [H Q]. apply returns_with_Ret.
    split; [done|]. by constructor. }
  assert (N : forall s, stuck w s -> returns_with (fun r => stuck w r.1.1 /\ quiet r.2)
    (Ret (s, m, []) : ft_result (M := M))).
  { intros s0 H0. apply returns_with_Ret. split; [done|]. constructor. }
  destruct i as [|c|c d]; [done| |]; cbn [handle_item]; apply B.
  - destruct (_ || _), (_ =? 0); (by apply call_up_stuck) || by apply N.
  - destruct (c =? _); [by destruct (decide _); apply N|].
    destruct (c =? _); [by apply call_up_stuck | by apply N].
Qed.

(** Everything but an acknowledgement and a call of [do_send_Next]. *)
Definition no_wakeup (a : abs_event) : Prop :=
  a <> AB_item IT_ack /\ a <> AB_event FE_send_Next /\
  Forall (fun e => good_event e /\ outside e = true) (event_of a).

Lemma event_stuck (w : CArray) (s : FT12wrap) m e :
  w <> [] -> ft_inv s -> stuck w s -> e <> FE_send_Next -> outside e = true ->
  returns_with (fun r => stuck w r.1.1 /\ quiet r.2) (ft_step master s m e).
Proof.
  intros Hw Hi Hs Hn Ho. pose proof Hs as [E T].
  assert (N : forall s o, stuck w s -> lines o = [] -> returns_with (fun r => stuck w r.1.1 /\ quiet r.2)
    (Ret (s, m, o) : ft_result (M := M))).
  { intros s0 o H0 Q. apply returns_with_Ret. split; [done|]. unfold quiet. cbn [snd]. by rewrite Q. }
  destruct e as [| |l raw| |c| | | |]; try discriminate Ho; cbn [ft_step below_up mbind outcome_bind].
  - unfold ft_start, trigger_start. destruct (trigger_on s) eqn:Et; by apply N.
  - by apply N.
  - rewrite (do_send_Local_stuck w) by done. by apply N.
  - unfold ft_sendReset. rewrite (do_send_Local_stuck w) by done. by apply N.
  - rewrite (i_sendtimer _ Hi). by apply N.
  - rewrite T, andb_false_r. by apply N.
  - done.
Qed.

Lemma abs_step_blocked (w : CArray) (s : FT12wrap) m a :
  w <> [] -> blocked w s -> no_wakeup a ->
  returns_with (fun r => blocked w r.1.1 /\ quiet r.2) (abs_step master s m a).
Proof using All.
  intros Hw [[Hi Ha] E T] (Na & Nn & Hg).
  assert (H : returns_with (fun r => stuck w r.1.1 /\ quiet r.2)
    match a with AB_item i => handle_item master s m i | AB_event e => ft_step master s m e end).
  { destruct a as [i|e]; [apply item_stuck; [done..|congruence]|].
    apply Forall_cons_1 in Hg as [[Hg Ho] _]. by apply event_stuck; [..|congruence|]. }
  destruct H as ([[s1 m1] o1] & E1 & [S1 S2] & Q).
  assert (E2 : abs_step master s m a = Ret (core s1, m1, o1)) by (unfold abs_step; by rewrite E1).
  exists (core s1, m1, o1). split; [done|]. split; [|done]. split; [|done..].
  apply (abs_step_free master s _ m m1 a o1); [done| |done].
  refine (Forall_impl _ _ Hg). by intros e [].
Qed.

Lemma abs_run_blocked (w : CArray) (aes : list abs_event) (s : FT12wrap) m :
  w <> [] -> blocked w s -> Forall no_wakeup aes ->
  returns_with (fun r => blocked w r.1.1 /\ quiet r.2) (abs_run master s m aes).
Proof using All.
  intros Hw Hs Ha. revert s m Hs. induction Ha as [|a aes Ha _ IH]; intros s m Hs.
  { apply returns_with_Ret. split; [done|]. constructor. }
  cbn [abs_run]. eapply returns_with_bind; [by apply abs_step_blocked|]. intros [[s1 m1] o1] [H1 Q1].
  eapply returns_with_bind; [by apply IH|]. intros [[s2 m2] o2] [H2 Q2].
  apply returns_with_Ret. split; [done|]. by apply quiet_app.
Qed.

Lemma no_wakeup_all (aes : list abs_event) (es : list ft12_event) :
  ~ In IT_ack (aes ≫= item_of) -> aes ≫= event_of = filter outside es ->
  ~ In FE_send_Next es -> Forall good_event es -> Forall no_wakeup aes.
Proof.
  intros Hi He Hn Hg. apply Forall_forall. intros a Ha.
  assert (E : forall e, In e (event_of a) -> In e es /\ outside e = true).
  { intros e H. assert (H' : In e (aes ≫= event_of)).
    { apply list_elem_of_In, list_elem_of_bind. exists a. by rewrite !list_elem_of_In. }
    rewrite He in H'. apply list_elem_of_In, list_elem_of_filter in H' as [H1 H2].
    apply list_elem_of_In in H2. split; [done|]. by apply Is_true_true. }
  split_and!.
  - intros ->. apply Hi. apply list_elem_of_In, list_elem_of_bind. exists (AB_item IT_ack).
    rewrite !list_elem_of_In. split; [by left|done].
  - intros ->. apply Hn. apply (E FE_send_Next). by left.
  - apply Forall_forall. intros e H. rewrite Forall_forall in Hg.
    destruct (E e H) as [? ?]. auto.
Qed.

(** ** The theorems *)

(** C24: whatever arrives on the line, in whatever order with the calls from above and the
    timers, the filter does not leave its buffers, and the loop of its reader ends (within as many
    rounds as there are bytes; a round more would be the fault [Endless]); between two
    events its reader is not active. *)
Theorem ft12_safe (m : M) (es : list ft12_event) :
  Forall good_event es -> returns_with (fun r => ft_inv r.1.1) (ft_run master FT12wrap_new m es).
Proof using All. intros H. apply ft_run_inv; [done|apply new_inv|done]. Qed.

(** C23: a stream of acknowledgements and frames is handled item by item, however the line
    cuts it into pieces and whatever else happens in between: the run is a run of the
    machine that has no buffer, with the same items, the same other events, the same
    output and the same state. *)
Theorem ft12_stream (s : FT12wrap) (m : M) (es : list ft12_event) (its : list ft_item) :
  ft_inv s -> akt s = [] -> Forall valid_item its -> Forall good_event es ->
  concat (map received es) = item_stream its ->
  exists s' m' o aes,
    ft_run master s m es = Ret (s', m', o) /\ akt s' = [] /\
    abs_run master (core s) m aes = Ret (core s', m', o) /\
    aes ≫= item_of = its /\ aes ≫= event_of = filter outside es.
Proof using All.
  intros Hi Ha V G E. destruct (stream_all master es s m its) as (s' & m' & o & aes & H); try done.
  by exists s', m', o, aes.
Qed.

(** C22: every message of a sender that keeps to the alternating bit is handed to the driver
    above exactly once and in order, however often its frames are repeated, however the
    stream is cut, with acknowledgements and messages in the other direction in
    between. *)
Theorem ft12_receives_once (s : FT12wrap) (m : M) (es : list ft12_event) (its : list ft_item) msgs :
  ft_inv s -> akt s = [] -> Forall valid_item its -> Forall plain_item its ->
  Forall good_event es -> ~ In FE_start es -> concat (map received es) = item_stream its ->
  its ≫= data_of = device_frames (recvflag s) msgs ->
  exists s' m' o, ft_run master s m es = Ret (s', m', o) /\ delivered o = map fst msgs.
Proof using All.
  intros Hi Ha V P G S E D.
  destruct (stream_delivers es its s m) as (s' & m' & o & R & O); try done.
  exists s', m', o. split; [done|]. rewrite O, D. apply rx_device.
Qed.

(** When the sender's bit is out of phase, every message that differs from the last one
    delivered is acknowledged and thrown away, for as long as the sender goes on: the
    bit is changed with each of them, so it never comes right. *)
Theorem ft12_out_of_phase (s : FT12wrap) (m : M) (es : list ft12_event) (its : list ft_item) msgs :
  ft_inv s -> akt s = [] -> Forall valid_item its -> Forall plain_item its ->
  Forall good_event es -> ~ In FE_start es -> concat (map received es) = item_stream its ->
  its ≫= data_of = device_frames (negb (recvflag s)) (map (fun d => (d, 0%nat)) msgs) ->
  Forall (fun d => d <> last_frame s) msgs ->
  exists s' m' o, ft_run master s m es = Ret (s', m', o) /\ delivered o = [].
Proof using All.
  intros Hi Ha V P G S E D N.
  destruct (stream_delivers es its s m) as (s' & m' & o & R & O); try done.
  exists s', m', o. split; [done|]. rewrite O, D. by apply rx_deaf.
Qed.

(** A message whose acknowledgement is lost is never sent again and blocks the filter for
    good: whatever is received but an acknowledgement, whichever timers run out, and
    also when the filter is stopped and started again, the message stays, and nothing
    but acknowledgements goes out. *)
Theorem ft12_lost_ack (s : FT12wrap) (m : M) (es : list ft12_event) (its : list ft_item) :
  ft_inv s -> akt s = [] -> ft_out s <> [] -> trigger_sent s = false ->
  Forall valid_item its -> ~ In IT_ack its -> Forall good_event es -> ~ In FE_send_Next es ->
  concat (map received es) = item_stream its ->
  exists s' m' o, ft_run master s m es = Ret (s', m', o) /\
    ft_out s' = ft_out s /\ Forall (eq [0xE5]) (lines o).
Proof using All.
  intros Hi Ha Hw Ht V Na G Nn E.
  destruct (stream_all master es s m its) as (s' & m' & o & aes & R & _ & A & I & W); try done.
  exists s', m', o. split; [done|]. rewrite <- I in Na.
  destruct (abs_run_blocked (ft_out s) aes (core s) m Hw) as ([[s1 m1] o1] & A1 & [_ B _] & Q).
  { split; [by apply core_free|done..]. }
  { by apply (no_wakeup_all aes es). }
  rewrite A in A1. assert (core s' = s1 /\ o = o1) as [<- <-] by (split; congruence). by split.
Qed.
End Promises.

(** ** Sending *)

(** A message, the wake-up, the acknowledgement. *)
Definition exchange (l : CArray) : list ft12_event :=
  [FE_send_Local l 0; FE_trigger; FE_recv_Data [0xE5]].

(** Frames with alternating control bytes. *)
Fixpoint sent_frames (flag : bool) (ls : list CArray) : list CArray :=
  match ls with
  | [] => []
  | l :: ls => ft_frame (if flag then 0x53 else 0x73) l :: sent_frames (negb flag) ls
  end.

Record idle_line (s : FT12wrap) : Prop := mkIdleLine {
  il_inv : ft_inv s;
  il_akt : akt s = [];
  il_out : ft_out s = [];
  il_wait : send_wait s = false;
  il_on : trigger_on s = true
}.

Section Sending.
Context {M : Type} (master : M -> up_call -> M * list down_call) (passive : forall m u, (master m u).2 = []).

#[local] Instance passive_polite : PoliteMaster master.
Proof using passive. intros m u. by rewrite passive. Qed.

Lemma exchange_step (s : FT12wrap) m (l : CArray) :
  idle_line s ->
  exists s' m', ft_run master s m (exchange l) =
      Ret (s', m', [FO_line (ft_frame (if sendflag s then 0x53 else 0x73) l); FO_up UC_send_Next]) /\
    sendflag s' = negb (sendflag s) /\ idle_line s'.
Proof using passive.
  intros [Hi Ha Ho Hw Ht]. set (f := ft_frame (if sendflag s then 0x53 else 0x73) l).
  set (s1 := mkFT12 (negb (sendflag s)) (recvflag s) [] [] (last_frame s) 0 false true false false false
    true false).
  exists s1, (master m UC_send_Next).1. split; [|split; [done|]].
  2:{ split; try done. split; try done. apply bytes_nil. }
  subst s1. destruct Hi as [Hf Hr _ Hs].
  destruct s as [sf rf out ak la rep w fr rd ti st on sn]. cbn in Ha, Ho, Hw, Ht, Hf, Hr, Hs. subst.
  cbn [sendflag recvflag last_frame] in f |- *.
  unfold exchange. cbn [ft_run ft_step]. rewrite do_send_Local_spec by by left.
  cbn [ft_out sendflag send_wait]. fold f.
  rewrite (decide_False (P := (0 < size [])%nat)), (decide_True (P := 0 = 0)) by (done || cbn; lia).
  assert (Hz : exists x g, f = x :: g) by by eexists _, _.
  clearbody f. destruct Hz as (x & g & ->).
  pose proof (passive m UC_send_Next) as P. destruct (master m UC_send_Next) as [m2 cs] eqn:Em.
  cbn in P. subst cs. vm_compute. by rewrite Em.
Qed.

(** Messages that are acknowledged one after the other go out in order, framed, with
    alternating control bytes, and the driver above is told after each. *)
Theorem ft12_sends (s : FT12wrap) (m : M) (ls : list CArray) :
  idle_line s ->
  exists s' m' o, ft_run master s m (ls ≫= exchange) = Ret (s', m', o) /\
    lines o = sent_frames (sendflag s) ls /\ idle_line s' /\
    filter (eq (FO_up UC_send_Next)) o = replicate (length ls) (FO_up UC_send_Next).
Proof using passive.
  revert s m. induction ls as [|l ls IH]; intros s m Hs; [by exists s, m, []|].
  destruct (exchange_step s m l Hs) as (s1 & m1 & E1 & F1 & H1).
  destruct (IH s1 m1 H1) as (s2 & m2 & o2 & E2 & L2 & H2 & N2).
  exists s2, m2, ([FO_line (ft_frame (if sendflag s then 0x53 else 0x73) l); FO_up UC_send_Next] ++ o2).
  split_and!; try done.
  - rewrite bind_cons, ft_run_app, E1. cbn [mbind outcome_bind]. by rewrite E2.
  - unfold lines in *. rewrite omap_app, L2, F1. done.
  - rewrite list.filter_app, N2. done.
Qed.
End Sending.

(** ** Instances *)

(** A driver above that makes no calls. *)
Definition silent_master (m : unit) (u : up_call) : unit * list down_call := (tt, []).

#[export] Instance silent_polite : PoliteMaster silent_master.
Proof. intros m u. constructor. Qed.

Definition open_filter : FT12wrap := (ft_start FT12wrap_new).1.

Lemma open_inv : ft_inv open_filter.
Proof. split; try done. apply bytes_nil. Qed.

(** A driver above that answers each message with one of its own. *)
Definition echo_master (m : nat) (u : up_call) : nat * list down_call :=
  match u with
  | UC_recv_Data d => (S m, [DC_send_Local d 0])
  | UC_send_Next => (m, [])
  end.

#[export] Instance echo_polite : PoliteMaster echo_master.
Proof. intros m u. destruct u; repeat constructor. Qed.

Lemma ft12_safe_witness :
  returns_with (fun r => ft_inv r.1.1)
    (ft_run echo_master FT12wrap_new 0%nat
       [FE_start; FE_recv_Data [0x68; 0x00; 0x00; 0x68; 0x00; 0x16; 0x68]; FE_timer; FE_send_Local [1; 2] 0; FE_trigger]).
Proof. apply (ft12_safe echo_master). repeat constructor; lia. Defined.

(** Two messages, the first sent twice, cut in the middle of frames. *)
Definition sample_items : list ft_item :=
  [IT_data 0xF3 [7; 8]; IT_data 0xF3 [7; 8]; IT_ack; IT_data 0xD3 [9]].

Definition sample_events : list ft12_event :=
  [FE_recv_Data (take 3 (item_stream sample_items)); FE_timer;
   FE_recv_Data (take 10 (drop 3 (item_stream sample_items))); FE_trigger;
   FE_recv_Data (drop 13 (item_stream sample_items))].

Lemma sample_good : Forall good_event sample_events.
Proof. repeat constructor; vm_compute; intuition congruence. Qed.

Lemma sample_valid : Forall valid_item sample_items.
Proof. repeat constructor; vm_compute; intuition congruence. Qed.

Lemma ft12_stream_witness :
  exists s' m' o aes,
    ft_run echo_master open_filter 0%nat sample_events = Ret (s', m', o) /\ akt s' = [] /\
    abs_run echo_master (core open_filter) 0%nat aes = Ret (core s', m', o) /\
    aes ≫= item_of = sample_items /\ aes ≫= event_of = filter outside sample_events.
Proof.
  apply (ft12_stream echo_master open_filter 0%nat sample_events sample_items).
  - apply open_inv.
  - reflexivity.
  - apply sample_valid.
  - apply sample_good.
  - vm_compute; reflexivity.
Defined.

Lemma ft12_receives_once_witness :
  exists s' m' o, ft_run echo_master open_filter 0%nat sample_events = Ret (s', m', o) /\
    delivered o = [[7; 8]; [9]].
Proof.
  apply (ft12_receives_once echo_master open_filter 0%nat sample_events sample_items
    [([7; 8], 1%nat); ([9], 0%nat)]).
  - apply open_inv.
  - reflexivity.
  - apply sample_valid.
  - repeat constructor.
  - apply sample_good.
  - unfold sample_events; simpl; intuition discriminate.
  - vm_compute; reflexivity.
  - vm_compute; reflexivity.
Defined.

(** The same stream with the other bit: nothing gets through. *)
Definition jumped_items : list ft_item := [IT_data 0xD3 [7]; IT_data 0xF3 [8]; IT_data 0xD3 [9]].

Lemma ft12_out_of_phase_witness :
  exists s' m' o, ft_run echo_master open_filter 0%nat [FE_recv_Data (item_stream jumped_items)] = Ret (s', m', o) /\
    delivered o = [].
Proof.
  apply (ft12_out_of_phase echo_master open_filter 0%nat [FE_recv_Data (item_stream jumped_items)]
    jumped_items [[7]; [8]; [9]]).
  - apply open_inv.
  - reflexivity.
  - repeat constructor; vm_compute; intuition congruence.
  - repeat constructor.
  - repeat constructor; vm_compute; intuition congruence.
  - simpl; intuition discriminate.
  - vm_compute; reflexivity.
  - vm_compute; reflexivity.
  - repeat constructor; discriminate.
Defined.

(** A filter that waits for an acknowledgement. *)
Definition waiting_filter : FT12wrap :=
  mkFT12 true false (ft_frame 0x73 [1]) [] [] 1 true true false true false true false.

Lemma ft12_lost_ack_witness :
  exists s' m' o,
    ft_run echo_master waiting_filter 0%nat
      [FE_timer; FE_recv_Data (item_stream [IT_data 0xF3 [7]]); FE_stop; FE_start; FE_trigger; FE_send_Local [2] 0;
       FE_trigger] = Ret (s', m', o) /\
    ft_out s' = ft_out waiting_filter /\ Forall (eq [0xE5]) (lines o).
Proof.
  apply (ft12_lost_ack echo_master waiting_filter 0%nat _ [IT_data 0xF3 [7]]).
  - split; try reflexivity. apply bytes_nil.
  - reflexivity.
  - discriminate.
  - reflexivity.
  - repeat constructor; vm_compute; intuition congruence.
  - simpl; intuition discriminate.
  - repeat constructor; try (vm_compute; intuition congruence).
  - simpl; intuition discriminate.
  - reflexivity.
Defined.

Lemma ft12_sends_witness :
  exists s' m' o,
    ft_run silent_master open_filter tt ([[1]; [2; 3]; [4]] ≫= exchange) = Ret (s', m', o) /\
    lines o = sent_frames false [[1]; [2; 3]; [4]] /\ idle_line s' /\
    filter (eq (FO_up UC_send_Next)) o = replicate 3 (FO_up UC_send_Next).
Proof.
  apply (ft12_sends silent_master (fun _ _ => eq_refl) open_filter tt [[1]; [2; 3]; [4]]).
  split; try reflexivity. apply open_inv.
Defined.
