(* ===== verification/Tpuart.v ===== *)
(** * The TPUART and NCN5120 bus transceivers

    Models [class TPUARTwrap] of src/src/backend/tpuart.cpp and [class NCN5120wrap] of
    src/src/backend/ncn5120.cpp, which overrides two of its methods: the start-up of
    the chip, the encoding of frames for it, the byte-wise receiver with its
    acknowledgements, the recognition of the chip's echo, the time-outs.

    The link above never sends from within a call of the driver ([send_Next],
    [started]): it wakes itself up, and sends later.  So what the driver tells it is
    a list of outputs.  The line below reports [stopped] from within [stop], as
    [FDdriver::stop] does.  Which addresses the rest of the daemon knows is a
    parameter. *)

From S2P Require Import Prelude CArray Common Lpdu.

Inductive TSTATE :=
| T_new | T_error | T_start | T_in_reset | T_in_setaddr | T_in_getstate
| T_is_online | T_wait | T_wait_more | T_wait_keepalive | T_busmonitor.

#[export] Instance TSTATE_eq_dec : EqDecision TSTATE.
Proof. solve_decision. Defined.

(** The value of the enumeration constant: the code compares states by [<]. *)
Definition TSTATE_value (s : TSTATE) : Z :=
  match s with
  | T_new => 0 | T_error => 1
  | T_start => 11 | T_in_reset => 12 | T_in_setaddr => 13 | T_in_getstate => 14
  | T_is_online => 19 | T_wait => 20 | T_wait_more => 21 | T_wait_keepalive => 22
  | T_busmonitor => 30
  end.

Definition state_lt (a b : TSTATE) : bool := TSTATE_value a <? TSTATE_value b.
Definition state_le (a b : TSTATE) : bool := TSTATE_value a <=? TSTATE_value b.

(** Which of the two classes the driver is an object of. *)
Inductive chip := TPUART_chip | NCN5120_chip.

Record TPUARTwrap := mkTPUART {
  tp_chip : chip;
  ackallgroup : bool;
  ackallindividual : bool;
  tp_monitor : bool;
  my_addr : Z;
  tp_next_free : bool;
  tp_send_wait : bool;
  tp_in : CArray;
  tp_out : CArray;
  tp_retry : Z;
  send_retry : Z;
  acked : bool;
  recvecho : bool;
  skip_char : bool;
  tp_state : TSTATE;
  tp_timer : bool;
  tp_sendtimer : bool
}.

Inductive tp_output :=
| TO_line (c : CArray)
| TO_line_stop
| TO_started | TO_stopped | TO_errored | TO_send_Next
| TO_recv_L_Data (l : L_Data_PDU)
| TO_recv_L_Busmonitor (c : CArray).

#[export] Instance tp_output_eq_dec : EqDecision tp_output.
Proof. solve_decision. Defined.

(** ** Fields *)

Definition set_tin (s : TPUARTwrap) (i : CArray) : TPUARTwrap :=
  mkTPUART (tp_chip s) (ackallgroup s) (ackallindividual s) (tp_monitor s) (my_addr s) (tp_next_free s)
    (tp_send_wait s) i (tp_out s) (tp_retry s) (send_retry s) (acked s) (recvecho s) (skip_char s)
    (tp_state s) (tp_timer s) (tp_sendtimer s).
Definition set_tpout (s : TPUARTwrap) (o : CArray) (r : Z) (t : bool) : TPUARTwrap :=
  mkTPUART (tp_chip s) (ackallgroup s) (ackallindividual s) (tp_monitor s) (my_addr s) (tp_next_free s)
    (tp_send_wait s) (tp_in s) o (tp_retry s) r (acked s) (recvecho s) (skip_char s)
    (tp_state s) (tp_timer s) t.
Definition set_tflow (s : TPUARTwrap) (free wait : bool) : TPUARTwrap :=
  mkTPUART (tp_chip s) (ackallgroup s) (ackallindividual s) (tp_monitor s) (my_addr s) free
    wait (tp_in s) (tp_out s) (tp_retry s) (send_retry s) (acked s) (recvecho s) (skip_char s)
    (tp_state s) (tp_timer s) (tp_sendtimer s).
Definition set_tack (s : TPUARTwrap) (a e : bool) : TPUARTwrap :=
  mkTPUART (tp_chip s) (ackallgroup s) (ackallindividual s) (tp_monitor s) (my_addr s) (tp_next_free s)
    (tp_send_wait s) (tp_in s) (tp_out s) (tp_retry s) (send_retry s) a e (skip_char s)
    (tp_state s) (tp_timer s) (tp_sendtimer s).
Definition set_skip (s : TPUARTwrap) (b : bool) : TPUARTwrap :=
  mkTPUART (tp_chip s) (ackallgroup s) (ackallindividual s) (tp_monitor s) (my_addr s) (tp_next_free s)
    (tp_send_wait s) (tp_in s) (tp_out s) (tp_retry s) (send_retry s) (acked s) (recvecho s) b
    (tp_state s) (tp_timer s) (tp_sendtimer s).
Definition set_tstate (s : TPUARTwrap) (st : TSTATE) (t : bool) : TPUARTwrap :=
  mkTPUART (tp_chip s) (ackallgroup s) (ackallindividual s) (tp_monitor s) (my_addr s) (tp_next_free s)
    (tp_send_wait s) (tp_in s) (tp_out s) (tp_retry s) (send_retry s) (acked s) (recvecho s) (skip_char s)
    st t (tp_sendtimer s).
Definition set_tpretry (s : TPUARTwrap) (r : Z) : TPUARTwrap :=
  mkTPUART (tp_chip s) (ackallgroup s) (ackallindividual s) (tp_monitor s) (my_addr s) (tp_next_free s)
    (tp_send_wait s) (tp_in s) (tp_out s) r (send_retry s) (acked s) (recvecho s) (skip_char s)
    (tp_state s) (tp_timer s) (tp_sendtimer s).

Definition tp_result : Type := outcome (TPUARTwrap * list tp_output).

(** ** Sending *)

(** The loop of [send_again]: each byte is preceded by its position. *)
Fixpoint tp_fill (i : Z) (out : CArray) : CArray :=
  match out with
  | [] => []
  | b :: out => u8 (Z.lor 0x80 (Z.land i 0x3f)) :: b :: tp_fill (i + 1) out
  end.

(** The last position is marked as the end. *)
Definition tp_encode (out : CArray) : outcome CArray :=
  let w := tp_fill 0 out in
  let z := ((size out - 1) * 2)%nat in
  x ← at_ w z;
  put w z (Z.lor (Z.land x 0x3f) 0x40).

(** Clear the flag of the first transmission, and correct the checksum. *)
Definition clear_repeat_flag (out : CArray) : outcome CArray :=
  c0 ← at_ out 0;
  if nz (Z.land c0 0x20) then
    out ← put out 0 (Z.lxor c0 0x20);
    x ← at_ out (size out - 1);
    put out (size out - 1) (Z.lxor x 0x20)
  else Ret out.

Definition send_again (s : TPUARTwrap) : tp_result :=
  if bool_decide (0 < size (tp_out s))%nat && state_lt T_is_online (tp_state s)
     && state_lt (tp_state s) T_busmonitor then
    if negb (tp_next_free s) then Ret (set_tflow s (tp_next_free s) true, [])
    else
      w ← tp_encode (tp_out s);
      out ← clear_repeat_flag (tp_out s);
      Ret (set_tpout s out (send_retry s) true, [TO_line w])
  else Ret (s, []).

Definition tp_send_L_Data (s : TPUARTwrap) (l : L_Data_PDU) : tp_result :=
  _ ← assert_ (bool_decide (size (tp_out s) = 0%nat));
  out ← L_Data_ToPacket l;
  send_again (set_tpout s out (send_retry s) (tp_sendtimer s)).

Definition tp_do_send_Next (s : TPUARTwrap) : tp_result :=
  let s := set_tflow s true (tp_send_wait s) in
  if tp_send_wait s then send_again (set_tflow s true false) else Ret (s, []).

Definition tp_do__send_Next (s : TPUARTwrap) : TPUARTwrap * list tp_output :=
  (set_tpout s [] 0 false, [TO_send_Next]).

(** ** States *)

(** What entering a state does; the state may be another one afterwards. *)
Definition enter_state (s : TPUARTwrap) (n : TSTATE) : TPUARTwrap * list tp_output :=
  match n with
  | T_start | T_in_reset =>
      let s := set_tpretry s (if decide (tp_state s = T_in_reset) then tp_retry s + 1 else 1) in
      (set_tstate s T_in_reset true, [TO_line [0x01]])
  | T_in_setaddr =>
      (set_tstate s T_in_getstate true,
       (if nz (my_addr s)
        then [TO_line [0x28; Z.land (my_addr s ≫ 8) 0xff; Z.land (my_addr s) 0xff]] else [])
       ++ [TO_line [0x02]])
  | T_in_getstate => (set_tstate s T_in_getstate true, [TO_line [0x02]])
  | T_busmonitor => (set_tstate s T_busmonitor (tp_timer s), [TO_line [0x05]])
  | T_is_online =>
      let '(s, o) := tp_do__send_Next s in
      (set_tstate (set_tack s false false) T_wait true, o)
  | T_wait => (set_tstate (set_tack s false false) T_wait true, [])
  | T_wait_more => (set_tstate s T_wait_more true, [])
  | T_wait_keepalive => (set_tstate s T_wait_keepalive true, [TO_line [0x02]])
  | T_error => (set_tstate s T_error true, [])
  | T_new => (set_tstate s T_new (tp_timer s), [])
  end.

(** [TPUARTwrap::setstate] *)
Definition setstate_base (s : TPUARTwrap) (n : TSTATE) : tp_result :=
  '(s, n, o) ←
    (if state_lt (tp_state s) T_is_online && state_le T_is_online n then
       if tp_monitor s then Ret (s, T_busmonitor, [TO_started])
       else if state_lt n T_busmonitor then
         '(s, o) ← send_again s; Ret (s, n, TO_started :: o)
       else Ret (s, n, [TO_started])
     else Ret (s, n, []));
  let '(s, o') := enter_state s n in
  Ret (s, o ++ o').

(** [setstate] is virtual: [NCN5120wrap::setstate] sends the address its own way. *)
Definition setstate (s : TPUARTwrap) (n : TSTATE) : tp_result :=
  match tp_chip s with
  | TPUART_chip => setstate_base s n
  | NCN5120_chip =>
      if bool_decide (n = T_in_setaddr) && nz (my_addr s) then
        '(s, o) ← setstate_base s T_in_getstate;
        Ret (s, TO_line [0xF1; Z.land (my_addr s ≫ 8) 0xff; Z.land (my_addr s) 0xff; 0x00] :: o)
      else setstate_base s n
  end.

Definition tp_started (s : TPUARTwrap) : tp_result :=
  '(s, o) ← setstate s T_new;
  '(s, o') ← setstate s T_start;
  Ret (s, o ++ o').

Definition tp_stopped (s : TPUARTwrap) : tp_result :=
  '(s, o) ← setstate s T_new; Ret (s, o ++ [TO_stopped]).

(** [LowLevelFilter::stop] *)
Definition tp_stop (s : TPUARTwrap) : tp_result :=
  '(s, o) ← tp_stopped s; Ret (s, TO_line_stop :: o).

(** ** Receiving *)

(** [TPUARTwrap::RecvLPDU], and [NCN5120wrap::RecvLPDU] which calls it. *)
Definition RecvLPDU (s : TPUARTwrap) (data : CArray) : tp_result :=
  let s := match tp_chip s with NCN5120_chip => set_skip s true | TPUART_chip => s end in
  if decide (tp_state s = T_busmonitor) then Ret (s, [TO_recv_L_Busmonitor data])
  else if state_lt T_start (tp_state s) then
    l ← LPDU_fromPacket data;
    Ret (s, match LPDU_getType l, l with
            | L_Data, L_Data_LPDU l => if valid_checksum l then [TO_recv_L_Data l] else []
            | _, _ => []
            end)
  else Ret (s, []).

Section Receiver.
Context (checkSysAddress checkSysGroupAddress : Z -> bool).

(** Whether the frame that is arriving is the one being sent: the header is compared,
    but for the repeat flag. *)
Definition is_echo (inb out : CArray) (ext : nat) : outcome bool :=
  if decide (6 + ext <= size out)%nat then
    i0 ← at_ inb 0;
    o0 ← at_ out 0;
    if Z.land (Z.lxor i0 o0) (Z.lnot 0x20) =? 0 then
      a ← slice inb 1 (5 + ext);
      b ← slice out 1 (5 + ext);
      Ret (bool_decide (a = b))
    else Ret false
  else Ret false.

(** The acknowledgement for the frame that is arriving. *)
Definition ack_byte (s : TPUARTwrap) (ext : nat) : outcome Z :=
  t ← at_ (tp_in s) (if decide (ext = 0%nat) then 5 else 1);
  hi ← at_ (tp_in s) (3 + ext);
  lo ← at_ (tp_in s) (4 + ext);
  let addr := Z.lor (hi ≪ 8) lo in
  let known := if Z.land t 0x80 =? 0 then ackallindividual s || checkSysAddress addr
               else ackallgroup s || checkSysGroupAddress addr in
  Ret (if known then Z.lor 0x10 0x1 else 0x10).

(** Acknowledge the frame or recognise the echo, once the header is there. *)
Definition check_header (s : TPUARTwrap) (ext : nat) : tp_result :=
  if negb (acked s) && negb (recvecho s) && (my_addr s =? 0) && state_le T_is_online (tp_state s)
     && state_lt (tp_state s) T_busmonitor then
    e ← is_echo (tp_in s) (tp_out s) ext;
    if (e : bool) then Ret (set_tack s (acked s) true, [])
    else c ← ack_byte s ext; Ret (set_tack s true (recvecho s), [TO_line [c]])
  else Ret (s, []).

Definition in_check (s : TPUARTwrap) : tp_result :=
  i0 ← at_ (tp_in s) 0;
  let ext := if nz (Z.land i0 0x80) then 0%nat else 1%nat in
  '(s, o) ←
    (if decide (6 + ext <= size (tp_in s))%nat then
       '(s, o) ← check_header s ext;
       x ← at_ (tp_in s) (if decide (ext = 0%nat) then 5 else 6);
       let len := ((if decide (ext = 0%nat) then Z.to_nat (Z.land x 0x0f) else Z.to_nat x) + 6 + ext + 2)%nat in
       if decide (len <= size (tp_in s))%nat then
         '(s, o') ← (if recvecho s then Ret (s, []) else RecvLPDU s (tp_in s));
         Ret (set_tin s [], o ++ o')
       else Ret (s, o)
     else Ret (s, []));
  if state_lt T_is_online (tp_state s) && state_lt (tp_state s) T_busmonitor then
    '(s, o') ← setstate s (if decide (size (tp_in s) = 0%nat) then T_wait else T_wait_more);
    Ret (s, o ++ o')
  else Ret (s, o).

(** A confirmation, positive or negative, of the frame being sent. *)
Definition confirmed (s : TPUARTwrap) : tp_result :=
  if bool_decide (size (tp_out s) = 0%nat) || state_lt (tp_state s) T_is_online then Ret (s, [])
  else Ret (tp_do__send_Next s).

Definition state_indication (s : TPUARTwrap) : tp_result :=
  match tp_state s with
  | T_wait_keepalive => setstate s T_wait
  | T_in_setaddr => setstate s T_in_getstate
  | T_in_getstate => setstate s T_is_online
  | _ => Ret (s, [])
  end.

(** One round of the loop of [recv_Data]. *)
Definition recv_byte (s : TPUARTwrap) (c : Z) : tp_result :=
  if decide (0 < size (tp_in s))%nat then
    i ← setpart (tp_in s) [c] (size (tp_in s)) 1;
    in_check (set_tin s i)
  else if skip_char s then Ret (set_skip s false, [])
  else if c =? 0x03 then
    if decide (tp_state s = T_in_reset) then setstate s T_in_setaddr else Ret (s, [])
  else if c =? 0x8B then confirmed s
  else if c =? 0xCB then Ret (s, [])
  else if c =? 0x0B then confirmed s
  else if Z.land c 0x17 =? 0x13 then Ret (s, [])
  else if Z.land c 0x07 =? 0x07 then state_indication s
  else if (c =? 0xCC) || (c =? 0xC0) || (c =? 0x0C) then
    d ← slice (tp_in s) 0 1;
    RecvLPDU s d
  else if Z.land c 0x50 =? 0x10 then
    _ ← assert_ (bool_decide (size (tp_in s) = 0%nat));
    i ← setpart (tp_in s) [c] (size (tp_in s)) 1;
    Ret (set_tin s i, [])
  else Ret (set_tack s false (recvecho s), []).

Fixpoint recv_bytes (s : TPUARTwrap) (c : CArray) : tp_result :=
  match c with
  | [] => Ret (s, [])
  | b :: c =>
      '(s, o) ← recv_byte s b;
      '(s, o') ← recv_bytes s c;
      Ret (s, o ++ o')
  end.

Definition tp_recv_Data (s : TPUARTwrap) (c : CArray) : tp_result :=
  if state_lt (tp_state s) T_start then Ret (s, []) else recv_bytes s c.

(** ** Time-outs *)

Definition tp_sendtimer_cb (s : TPUARTwrap) : tp_result :=
  let s' := set_tpout s (tp_out s) (send_retry s + 1) (tp_sendtimer s) in
  if 3 <? send_retry s then setstate s' T_error else send_again s'.

Definition tp_timer_cb (s : TPUARTwrap) : tp_result :=
  match tp_state s with
  | T_error => tp_stop s
  | T_in_reset => if tp_retry s <? 3 then setstate s T_in_reset else setstate s T_error
  | T_in_getstate =>
      if 5 <? tp_retry s then '(s, o) ← setstate s T_new; Ret (s, TO_errored :: o)
      else setstate s (tp_state s)
  | T_in_setaddr =>
      '(s, o) ← setstate s T_in_getstate;
      Ret (s, TO_line [Z.land (my_addr s ≫ 8) 0xff; Z.land (my_addr s) 0xff] :: o)
  | T_wait => setstate s T_wait_keepalive
  | T_wait_more => setstate (set_tin s []) T_wait
  | T_wait_keepalive => if tp_retry s <? 3 then setstate s T_in_reset else setstate s T_wait_keepalive
  | _ => Ret (s, [])
  end.

(** ** Events *)

Inductive tp_event :=
| TE_started | TE_stopped | TE_stop
| TE_send_L_Data (l : L_Data_PDU)
| TE_send_Next
| TE_recv_Data (c : CArray)
| TE_timer | TE_sendtimer.

(** A timer that has run out is not active any more. *)
Definition tp_step (s : TPUARTwrap) (e : tp_event) : tp_result :=
  match e with
  | TE_started => tp_started s
  | TE_stopped => tp_stopped s
  | TE_stop => tp_stop s
  | TE_send_L_Data l => tp_send_L_Data s l
  | TE_send_Next => tp_do_send_Next s
  | TE_recv_Data c => tp_recv_Data s c
  | TE_timer => if tp_timer s then tp_timer_cb (set_tstate s (tp_state s) false) else Ret (s, [])
  | TE_sendtimer =>
      if tp_sendtimer s then tp_sendtimer_cb (set_tpout s (tp_out s) (send_retry s) false) else Ret (s, [])
  end.

Fixpoint tp_run (s : TPUARTwrap) (es : list tp_event) : tp_result :=
  match es with
  | [] => Ret (s, [])
  | e :: es =>
      '(s, o) ← tp_step s e;
      '(s, o') ← tp_run s es;
      Ret (s, o ++ o')
  end.
End Receiver.

(** A driver just set up. *)
Definition TPUARTwrap_new (c : chip) (ackg acki mon : bool) (addr : Z) : TPUARTwrap :=
  mkTPUART c ackg acki mon addr true false [] [] 0 0 false false false T_new false false.
