(* ===== verification/TpuartSpec.v ===== *)
(** * What the TPUART driver guarantees

    About [Tpuart]: exactly which input makes the receiver leave its buffer; that
    every frame on the bus is acknowledged once and delivered once, and the chip's
    echo of a frame neither; how a frame is encoded for the chip, repeated and given
    up; the start-up. *)

From S2P Require Import Prelude CArray Common ApduSpec Lpdu LpduSpec Tpuart.

(** ** Safety *)

Definition tp_inv (s : TPUARTwrap) : Prop := bytes (tp_in s) /\ bytes (tp_out s).

Definition tp_kept (r : TPUARTwrap * list tp_output) : Prop := tp_inv r.1.

Lemma tp_fill_size (out : CArray) (i : Z) : size (tp_fill i out) = (2 * size out)%nat.
Proof.
  revert i. unfold size. induction out as [|b out IH]; intros i; [done|]. cbn [tp_fill length].
  rewrite IH. lia.
Qed.

Lemma tp_encode_returns (out : CArray) : (0 < size out)%nat -> returns (tp_encode out).
Proof.
  intros H. unfold tp_encode. pose proof (tp_fill_size out 0) as Hs.
  destruct (at_lt (tp_fill 0 out) ((size out - 1) * 2)) as (x & -> & _); [lia|].
  rewrite bind_Ret, put_insert by lia. by eexists.
Qed.

Lemma bytes_insert (c : CArray) (i : nat) (v : Z) : bytes c -> bytes (<[i := u8 v]> c).
Proof. intros H. apply Forall_insert; [done|]. apply u8_bound. Qed.

Lemma clear_repeat_returns (out : CArray) :
  bytes out -> (0 < size out)%nat -> returns_with bytes (clear_repeat_flag out).
Proof.
  intros Hb H. unfold clear_repeat_flag. destruct (at_lt out 0 H) as (c0 & -> & _). rewrite bind_Ret.
  destruct (nz _); [|by apply returns_with_Ret]. rewrite put_insert by done. rewrite bind_Ret.
  set (o := <[0%nat := _]> out). assert (Ho : size o = size out) by apply length_insert.
  destruct (at_lt o (size o - 1)) as (x & -> & _); [lia|]. rewrite bind_Ret, put_insert by lia.
  apply returns_with_Ret. by apply bytes_insert, bytes_insert.
Qed.

Lemma send_again_kept (s : TPUARTwrap) : tp_inv s -> returns_with tp_kept (send_again s).
Proof.
  intros [Hi Ho]. unfold send_again. destruct (bool_decide _) eqn:E; cbn [andb]; [|by apply returns_with_Ret].
  apply bool_decide_eq_true in E.
  destruct (_ && _); [|by apply returns_with_Ret]. destruct (negb _); [by apply returns_with_Ret|].
  destruct (tp_encode_returns (tp_out s) E) as (w & ->). rewrite bind_Ret.
  destruct (clear_repeat_returns (tp_out s) Ho E) as (o & -> & Hb). rewrite bind_Ret.
  by apply returns_with_Ret.
Qed.

Lemma enter_state_kept (s : TPUARTwrap) (n : TSTATE) : tp_inv s -> tp_kept (enter_state s n).
Proof. intros [Hi Ho]. destruct n; try done. split; [done|]. apply bytes_nil. Qed.

Lemma setstate_base_kept (s : TPUARTwrap) (n : TSTATE) :
  tp_inv s -> returns_with tp_kept (setstate_base s n).
Proof.
  intros H. unfold setstate_base.
  apply (returns_with_bind (fun r : TPUARTwrap * TSTATE * list tp_output => tp_inv r.1.1)).
  - destruct (_ && _); [|by apply returns_with_Ret]. destruct (tp_monitor s); [by apply returns_with_Ret|].
    destruct (state_lt _ _); [|by apply returns_with_Ret].
    eapply returns_with_bind; [by apply send_again_kept|]. intros [s1 o1] H1. by apply returns_with_Ret.
  - intros [[s1 n1] o1] H1. pose proof (enter_state_kept s1 n1 H1) as H2.
    destruct (enter_state s1 n1) as [s2 o2]. by apply returns_with_Ret.
Qed.

Lemma setstate_kept (s : TPUARTwrap) (n : TSTATE) : tp_inv s -> returns_with tp_kept (setstate s n).
Proof.
  intros H. unfold setstate. destruct (tp_chip s); [by apply setstate_base_kept|].
  destruct (_ && _); [|by apply setstate_base_kept].
  eapply returns_with_bind; [by apply setstate_base_kept|]. intros [s1 o1] H1. by apply returns_with_Ret.
Qed.

Lemma RecvLPDU_kept (s : TPUARTwrap) (d : CArray) :
  tp_inv s -> bytes d -> returns_with tp_kept (RecvLPDU s d).
Proof.
  intros H Hd. unfold RecvLPDU.
  set (s1 := match tp_chip s with TPUART_chip => s | _ => _ end).
  assert (H1 : tp_inv s1) by (unfold s1; by destruct (tp_chip s)).
  destruct (decide _); [by apply returns_with_Ret|]. destruct (state_lt _ _); [|by apply returns_with_Ret].
  destruct (LPDU_fromPacket_wf d Hd) as (l & -> & _). rewrite bind_Ret. by apply returns_with_Ret.
Qed.

Section Receiver.
Context (sysaddr sysgroup : Z -> bool).

Lemma is_echo_returns (i o : CArray) (ext : nat) : (6 + ext <= size i)%nat -> returns (is_echo i o ext).
Proof.
  intros H. unfold is_echo. destruct (decide _) as [Ho|]; [|by eexists].
  destruct (at_lt i 0) as (a & -> & _); [lia|]. destruct (at_lt o 0) as (b & -> & _); [lia|].
  rewrite !bind_Ret. destruct (_ =? 0); [|by eexists]. rewrite !slice_ok by lia. by eexists.
Qed.

Lemma ack_byte_returns (s : TPUARTwrap) (ext : nat) :
  (6 + ext <= size (tp_in s))%nat -> returns (ack_byte sysaddr sysgroup s ext).
Proof.
  intros H. unfold ack_byte.
  destruct (at_lt (tp_in s) (if decide (ext = 0%nat) then 5 else 1)) as (a & -> & _); [destruct (decide _); lia|].
  destruct (at_lt (tp_in s) (3 + ext)) as (b & -> & _); [lia|].
  destruct (at_lt (tp_in s) (4 + ext)) as (c & -> & _); [lia|]. by eexists.
Qed.

Lemma check_header_kept (s : TPUARTwrap) (ext : nat) :
  tp_inv s -> (6 + ext <= size (tp_in s))%nat ->
  returns_with (fun r => tp_inv r.1 /\ tp_in r.1 = tp_in s) (check_header sysaddr sysgroup s ext).
Proof.
  intros H Hs. unfold check_header. destruct (_ && _ && _ && _ && _); [|by apply returns_with_Ret].
  destruct (is_echo_returns (tp_in s) (tp_out s) ext Hs) as (e & ->). rewrite bind_Ret.
  destruct e; [by apply returns_with_Ret|].
  destruct (ack_byte_returns s ext Hs) as (c & ->). rewrite bind_Ret. by apply returns_with_Ret.
Qed.

Lemma in_check_kept (s : TPUARTwrap) :
  tp_inv s -> (0 < size (tp_in s))%nat -> returns_with tp_kept (in_check sysaddr sysgroup s).
Proof.
  intros H Hs. unfold in_check. destruct (at_lt (tp_in s) 0 Hs) as (i0 & -> & _). rewrite bind_Ret.
  set (ext := if nz _ then 0%nat else 1%nat).
  apply (returns_with_bind (fun r : TPUARTwrap * list tp_output => tp_inv r.1)).
  - destruct (decide _) as [Hh|]; [|by apply returns_with_Ret].
    eapply returns_with_bind; [by apply check_header_kept|]. intros [s1 o1] [H1 E1]. cbn in H1, E1.
    rewrite E1. destruct (at_lt (tp_in s) (if decide (ext = 0%nat) then 5 else 6)) as (x & -> & _);
      [destruct (decide (ext = 0%nat)); lia|]. rewrite bind_Ret.
    destruct (decide _); [|by apply returns_with_Ret].
    apply (returns_with_bind (fun r : TPUARTwrap * list tp_output => tp_inv r.1)).
    + destruct (recvecho s1); [by apply returns_with_Ret|]. apply RecvLPDU_kept; [done|]. by destruct H.
    + intros [s2 o2] H2. apply returns_with_Ret. destruct H2. split; [apply bytes_nil|done].
  - intros [s1 o1] H1. cbn in H1. destruct (_ && _); [|by apply returns_with_Ret].
    eapply returns_with_bind; [by apply setstate_kept|]. intros [s2 o2] H2. by apply returns_with_Ret.
Qed.

(** The bytes of acknowledgements on the bus. *)
Definition bus_ack (c : Z) : bool := (c =? 0xCC) || (c =? 0xC0) || (c =? 0x0C).

Lemma bus_ack_path (c : Z) :
  bus_ack c = true ->
  (c =? 0x03) = false /\ (c =? 0x8B) = false /\ (c =? 0xCB) = false /\ (c =? 0x0B) = false /\
  (Z.land c 0x17 =? 0x13) = false /\ (Z.land c 0x07 =? 0x07) = false.
Proof.
  unfold bus_ack. rewrite !orb_true_iff, !Z.eqb_eq. intros [[-> | ->] | ->]; done.
Qed.

Lemma setpart_byte (a : CArray) (c : Z) : setpart a [c] (size a) 1 = Ret (a ++ [c]).
Proof. apply (setpart_end a [c]). Qed.

(** Where the receiver reads a byte that is not there: [RecvLPDU (in.data(), 1)] with an
    empty buffer. *)
Definition reads_nothing (s : TPUARTwrap) (c : Z) : bool :=
  bool_decide (tp_in s = []) && negb (skip_char s) && bus_ack c.

Lemma recv_byte_kept (s : TPUARTwrap) (c : Z) :
  tp_inv s -> is_u8 c -> reads_nothing s c = false ->
  returns_with tp_kept (recv_byte sysaddr sysgroup s c).
Proof.
  intros H Hc Hn. unfold recv_byte. pose proof H as [Hi Ho]. destruct (decide (0 < size (tp_in s))%nat) as [Hs|Hs].
  { rewrite setpart_byte, bind_Ret. apply in_check_kept.
    - split; [|done]. apply bytes_app. split; [done|]. by constructor.
    - cbn. unfold size. rewrite length_app. simpl. lia. }
  assert (E : tp_in s = []) by (destruct (tp_in s); [done|unfold size in Hs; simpl in Hs; lia]).
  assert (Cf : returns_with tp_kept (confirmed s)).
  { unfold confirmed. destruct (_ || _); [by apply returns_with_Ret|]. apply returns_with_Ret.
    split; [done|]. apply bytes_nil. }
  destruct (skip_char s) eqn:Ek; [by apply returns_with_Ret|].
  destruct (c =? 0x03); [destruct (decide _); [by apply setstate_kept|by apply returns_with_Ret]|].
  destruct (c =? 0x8B); [done|]. destruct (c =? 0xCB); [by apply returns_with_Ret|].
  destruct (c =? 0x0B); [done|]. destruct (Z.land c 0x17 =? 0x13); [by apply returns_with_Ret|].
  destruct (Z.land c 0x07 =? 0x07).
  { unfold state_indication. destruct (tp_state s); (by apply setstate_kept) || by apply returns_with_Ret. }
  unfold reads_nothing in Hn. rewrite bool_decide_eq_true_2, Ek in Hn by done. cbn [negb andb] in Hn.
  fold (bus_ack c). rewrite Hn. destruct (_ =? 0x10); [|by apply returns_with_Ret].
  rewrite E, assert_true, bind_Ret, setpart_byte by done. rewrite bind_Ret. apply returns_with_Ret.
  split; [|done]. by constructor.
Qed.

Lemma recv_byte_faults (s : TPUARTwrap) (c : Z) :
  reads_nothing s c = true -> recv_byte sysaddr sysgroup s c = Fault OutOfRange.
Proof.
  unfold reads_nothing. rewrite !andb_true_iff, bool_decide_eq_true, negb_true_iff. intros [[E Ek] Hc].
  destruct (bus_ack_path c Hc) as (E1 & E2 & E3 & E4 & E5 & E6). unfold recv_byte.
  rewrite decide_False by (rewrite E; cbn; lia). rewrite Ek, E1, E2, E3, E4, E5, E6.
  fold (bus_ack c). by rewrite Hc, E.
Qed.
End Receiver.

(** ** Frames on the wire *)

(** One byte more in the header of an extended frame. *)
Definition ext_of (l : L_Data_PDU) : nat := if decide (size (data l) - 1 <= 0x0f)%nat then 0 else 1.

(** What the receiver looks at in a frame: the control byte, the header with the address
    and its type, the length. *)
Record wire_frame (f : CArray) (ext : nat) (c0 : Z) (group : bool) (addr : Z) : Prop := mkWire {
  w_ext : ext = if nz (Z.land c0 0x80) then 0%nat else 1%nat;
  w_first : f !! 0%nat = Some c0;
  w_bytes : bytes f;
  w_start : Z.land c0 0x50 = 0x10;
  w_other : (c0 =? 0x03) = false /\ (c0 =? 0x8B) = false /\ (c0 =? 0xCB) = false /\ (c0 =? 0x0B) = false /\
            (Z.land c0 0x17 =? 0x13) = false /\ (Z.land c0 0x07 =? 0x07) = false /\ bus_ack c0 = false;
  w_type : exists t, f !! (if decide (ext = 0%nat) then 5 else 1)%nat = Some t /\ (Z.land t 0x80 =? 0) = negb group;
  w_addr : exists hi lo, f !! (3 + ext)%nat = Some hi /\ f !! (4 + ext)%nat = Some lo /\ Z.lor (hi ≪ 8) lo = addr;
  w_len : exists x, f !! (if decide (ext = 0%nat) then 5 else 6)%nat = Some x /\
            ((if decide (ext = 0%nat) then Z.to_nat (Z.land x 0x0f) else Z.to_nat x) + 6 + ext + 2 = size f)%nat
}.

Lemma control_byte_start (t : Z) (p : EIB_Priority) (rep : bool) :
  t = 0x90 \/ t = 0x10 ->
  let c0 := control_byte t p rep in
  is_u8 c0 /\ Z.land c0 0x50 = 0x10 /\ nz (Z.land c0 0x80) = bool_decide (t = 0x90) /\
  (c0 =? 0x03) = false /\ (c0 =? 0x8B) = false /\ (c0 =? 0xCB) = false /\ (c0 =? 0x0B) = false /\
  (Z.land c0 0x17 =? 0x13) = false /\ (Z.land c0 0x07 =? 0x07) = false /\ bus_ack c0 = false.
Proof. intros [-> | ->]; destruct p, rep; vm_compute; intuition congruence. Qed.

Lemma group_test (b : Z) (t : EIB_AddrType) :
  (if nz (Z.land b 0x80) then GroupAddress else IndividualAddress) = t -> (Z.land b 0x80 =? 0) = negb (isGroup t).
Proof. unfold nz. destruct (Z.land b 0x80 =? 0); by intros <-. Qed.

Lemma frame_bytes_bytes (l : L_Data_PDU) : ldata_wf l -> bytes (frame_bytes l).
Proof.
  intros (_ & _ & _ & Hd & _). unfold frame_bytes.
  assert (Hh : bytes (frame_header l)).
  { unfold frame_header, group_bit. destruct (decide _); repeat constructor; apply u8_bound. }
  apply bytes_app. split; [by apply bytes_app|]. constructor; [|done]. apply u8_bound.
Qed.

Lemma ldata_wire (l : L_Data_PDU) :
  ldata_wf l ->
  wire_frame (frame_bytes l) (ext_of l)
    (control_byte (if decide (size (data l) - 1 <= 0x0f)%nat then 0x90 else 0x10) (prio l) (repeated l))
    (isGroup (AddrType l)) (dest l).
Proof.
  intros Hl. pose proof Hl as (_ & Hd & Hh & _ & Hn). unfold ext_of.
  destruct (control_byte_start (if decide (size (data l) - 1 <= 0x0f)%nat then 0x90 else 0x10) (prio l) (repeated l))
    as (C1 & C2 & C3 & C4); [destruct (decide _); auto|].
  assert (A : Z.lor (u8 (dest l ≫ 8) ≪ 8) (u8 (dest l)) = dest l) by (rewrite be16_join; by apply u16_small).
  assert (S : forall hd, frame_header l = hd -> size (frame_bytes l) = (length hd + size (data l) + 1)%nat).
  { intros hd <-. unfold frame_bytes, size. by rewrite !length_app. }
  destruct (decide (size (data l) - 1 <= 0x0f)%nat) as [Hs|Hs].
  - destruct (npci_byte (hopcount l) (Z.of_nat (size (data l)) - 1) (AddrType l) Hh ltac:(lia)) as (N1 & _ & N3).
    unfold frame_bytes, frame_header in *. rewrite decide_True in * by done.
    split; try done; [by rewrite C3 | | | |].
    + apply (frame_bytes_bytes l) in Hl. unfold frame_bytes, frame_header in Hl. by rewrite decide_True in Hl.
    + eexists. split; [reflexivity|]. by apply group_test.
    + by eexists _, _.
    + eexists. split; [reflexivity|]. rewrite (S _ eq_refl), decide_True, N1 by done. cbn [length app]. lia.
  - destruct (ext_byte (hopcount l) (AddrType l) Hh) as (_ & _ & N3).
    unfold frame_bytes, frame_header in *. rewrite decide_False in * by done.
    split; try done; [by rewrite C3 | | | |].
    + apply (frame_bytes_bytes l) in Hl. unfold frame_bytes, frame_header in Hl. by rewrite decide_False in Hl.
    + eexists. split; [reflexivity|]. by apply group_test.
    + by eexists _, _.
    + eexists. split; [reflexivity|]. rewrite (S _ eq_refl), decide_False by done. cbn [length app].
      rewrite u8_small by (unfold is_u8; lia). lia.
Qed.

(** ** Receiving one frame *)

(** The chip is on line and not in bus monitor mode. *)
Definition online (st : TSTATE) : bool := state_lt T_is_online st && state_lt st T_busmonitor.

Lemma setstate_waiting (s : TPUARTwrap) (n : TSTATE) :
  online (tp_state s) = true -> n = T_wait \/ n = T_wait_more -> setstate s n = Ret (enter_state s n).
Proof.
  intros Ho Hn.
  assert (E : state_lt (tp_state s) T_is_online = false) by (destruct (tp_state s); done).
  unfold setstate, setstate_base. rewrite E. destruct Hn as [-> | ->]; by destruct (tp_chip s).
Qed.

(** Between two frames. *)
Record settled (s : TPUARTwrap) : Prop := mkSettled {
  st_in : tp_in s = [];
  st_online : online (tp_state s) = true;
  st_skip : skip_char s = false;
  st_acked : acked s = false;
  st_echo : recvecho s = false
}.

Section Frame.
Context (sysaddr sysgroup : Z -> bool).

Definition knows (s : TPUARTwrap) (group : bool) (addr : Z) : bool :=
  if group then ackallgroup s || sysgroup addr else ackallindividual s || sysaddr addr.

(** The header of the frame is that of the frame being sent, but for the repeat flag. *)
Definition echoes (out f : CArray) (ext : nat) : bool :=
  match f, out with
  | i0 :: f', o0 :: out' =>
      bool_decide (6 + ext <= size out)%nat && (Z.land (Z.lxor i0 o0) (Z.lnot 0x20) =? 0) &&
      bool_decide (take (5 + ext) f' = take (5 + ext) out')
  | _, _ => false
  end.

(** [acked] and [recvecho] after the header, and what was sent for it. *)
Definition verdict (s : TPUARTwrap) (f : CArray) (ext : nat) (group : bool) (addr : Z)
  : bool * bool * list tp_output :=
  if my_addr s =? 0 then
    if echoes (tp_out s) f ext then (false, true, [])
    else (true, false, [TO_line [if knows s group addr then 0x11 else 0x10]])
  else (false, false, []).

Context {f : CArray} {ext : nat} {c0 : Z} {group : bool} {addr : Z} (W : wire_frame f ext c0 group addr).

Lemma wire_size : (6 + ext + 2 <= size f)%nat.
Proof using W. destruct (w_len _ _ _ _ _ W) as (x & _ & H). lia. Qed.

Lemma at_prefix (k i : nat) (b : Z) : f !! i = Some b -> (i < k)%nat -> at_ (take k f) i = Ret b.
Proof. intros H Hi. unfold at_. by rewrite lookup_take_lt, H. Qed.

Lemma is_echo_prefix (out : CArray) (k : nat) :
  (6 + ext <= k <= size f)%nat -> is_echo (take k f) out ext = Ret (echoes out f ext).
Proof using W.
  intros Hk. unfold is_echo. rewrite (at_prefix k 0 c0) by (apply (w_first _ _ _ _ _ W) || lia).
  pose proof (w_first _ _ _ _ _ W) as E0. destruct f as [|i0 f']; [done|]. injection E0 as ->.
  destruct out as [|o0 out']; [rewrite decide_False by (cbn; lia); done|]. cbn [echoes].
  destruct (decide _) as [Hs|Hs]; [rewrite bool_decide_eq_true_2 by done | by rewrite bool_decide_eq_false_2 by done].
  cbn [at_ lookup list_lookup andb]. rewrite !bind_Ret. destruct (_ =? 0); [|done]. cbn [andb].
  unfold size in *. rewrite !slice_ok by (unfold size; rewrite ?length_take; lia). rewrite !bind_Ret.
  destruct k as [|k]; [lia|]. cbn [take drop].
  by rewrite !drop_0, take_take, Nat.min_l by lia.
Qed.

Lemma ack_byte_prefix (s : TPUARTwrap) (k : nat) :
  (6 + ext <= k)%nat -> tp_in s = take k f ->
  ack_byte sysaddr sysgroup s ext = Ret (if knows s group addr then 0x11 else 0x10).
Proof using W.
  intros Hk E. unfold ack_byte. rewrite E.
  destruct (w_type _ _ _ _ _ W) as (t & Et & Hg). destruct (w_addr _ _ _ _ _ W) as (hi & lo & Eh & El & Ea).
  rewrite (at_prefix k _ t Et), (at_prefix k _ hi Eh), (at_prefix k _ lo El) by (try destruct (decide _); lia).
  rewrite !bind_Ret, Hg, Ea. unfold knows. by destruct group.
Qed.

(** After [k] bytes of the frame. *)
Definition mid (s : TPUARTwrap) (k : nat) : TPUARTwrap :=
  let '(a, e, _) := verdict s f ext group addr in
  if decide (k <= 1)%nat then set_tin s (take k f)
  else if decide (k < 6 + ext)%nat then set_tstate (set_tin s (take k f)) T_wait_more true
  else set_tstate (set_tack (set_tin s (take k f)) a e) T_wait_more true.

Lemma mid_online (s : TPUARTwrap) (k : nat) : online (tp_state s) = true -> online (tp_state (mid s k)) = true.
Proof. intros H. unfold mid. destruct (verdict _ _ _ _ _) as [[a e] o]. by repeat destruct (decide _). Qed.

Lemma check_header_online (s : TPUARTwrap) (k : nat) :
  online (tp_state s) = true -> tp_in s = take k f -> (6 + ext <= k <= size f)%nat ->
  check_header sysaddr sysgroup s ext =
    Ret (if negb (acked s) && negb (recvecho s) && (my_addr s =? 0) then
           if echoes (tp_out s) f ext then (set_tack s (acked s) true, [])
           else (set_tack s true (recvecho s), [TO_line [if knows s group addr then 0x11 else 0x10]])
         else (s, [])).
Proof using W.
  intros Ho Hi Hk. unfold check_header.
  assert (L : state_le T_is_online (tp_state s) = true /\ state_lt (tp_state s) T_busmonitor = true).
  { by destruct (tp_state s). }
  destruct L as [-> ->]. rewrite !andb_true_r. destruct (_ && _ && _); [|done].
  rewrite Hi, is_echo_prefix by done. rewrite bind_Ret. destruct (echoes _ _ _); [done|].
  rewrite (ack_byte_prefix s k) by (done || lia). done.
Qed.

(** The header is judged when it is complete, and only then. *)
Lemma check_header_at (s : TPUARTwrap) (k : nat) :
  settled s -> (6 + ext <= S k <= size f)%nat ->
  let '(a, e, o) := verdict s f ext group addr in
  check_header sysaddr sysgroup (set_tin (mid s k) (take (S k) f)) ext =
    Ret (set_tack (set_tin (mid s k) (take (S k) f)) a e, if decide (S k = 6 + ext)%nat then o else []).
Proof using W.
  intros [Hi Ho Hsk Ha He] Hk. unfold mid.
  destruct (verdict s f ext group addr) as [[a e] o] eqn:V. unfold verdict in V.
  rewrite (decide_False (P := (k <= 1)%nat)) by lia.
  destruct (decide (S k = 6 + ext)%nat) as [Hh|Hh].
  - rewrite (decide_True (P := (k < 6 + ext)%nat)) by lia.
    rewrite (check_header_online _ (S k)) by done.
    cbn [acked recvecho my_addr tp_out set_tin set_tstate]. rewrite Ha, He. cbn [negb andb].
    change (knows (set_tin _ _) group addr) with (knows s group addr).
    destruct (my_addr s =? 0); [destruct (echoes _ _ _)|]; injection V as <- <- <-; try done.
    do 2 f_equal. destruct s; cbn in *. by subst.
  - rewrite (decide_False (P := (k < 6 + ext)%nat)) by lia.
    rewrite (check_header_online _ (S k)) by done.
    cbn [acked recvecho my_addr tp_out set_tin set_tstate set_tack].
    destruct (my_addr s =? 0); [destruct (echoes _ _ _)|]; by injection V as <- <- <-.
Qed.

Lemma recv_byte_in (s : TPUARTwrap) (k : nat) (b : Z) :
  (1 <= k)%nat -> f !! k = Some b -> tp_in s = take k f ->
  recv_byte sysaddr sysgroup s b = in_check sysaddr sysgroup (set_tin s (take (S k) f)).
Proof.
  intros Hk Hb Hi. apply lookup_lt_Some in Hb as Hl. unfold recv_byte. rewrite Hi.
  rewrite decide_True by (unfold size; rewrite length_take; lia). rewrite setpart_byte, bind_Ret.
  by rewrite (take_S_r _ _ _ Hb).
Qed.

Lemma mid_in (s : TPUARTwrap) (k : nat) : tp_in (mid s k) = take k f.
Proof. unfold mid. destruct (verdict _ _ _ _ _) as [[a e] o]. by repeat destruct (decide _). Qed.

(** A byte that does not complete the frame. *)
Lemma mid_step (s : TPUARTwrap) (k : nat) (b : Z) :
  settled s -> (1 <= k)%nat -> (S k < size f)%nat -> f !! k = Some b ->
  recv_byte sysaddr sysgroup (mid s k) b =
    Ret (mid s (S k), if decide (S k = 6 + ext)%nat then (verdict s f ext group addr).2 else []).
Proof using W.
  intros Hs Hk Hl Hb. rewrite (recv_byte_in _ k) by (done || apply mid_in). pose proof wire_size as Hw.
  unfold in_check. cbn [tp_in set_tin].
  rewrite (at_prefix (S k) 0 c0) by (apply (w_first _ _ _ _ _ W) || lia).
  rewrite bind_Ret. rewrite <- (w_ext _ _ _ _ _ W).
  assert (Sz : size (take (S k) f) = S k) by (unfold size in *; rewrite length_take; lia). rewrite Sz.
  assert (R : forall s', online (tp_state s') = true -> tp_in s' = take (S k) f -> forall o,
    (if state_lt T_is_online (tp_state s') && state_lt (tp_state s') T_busmonitor then
       '(s, o') ← setstate s' (if decide (size (tp_in s') = 0%nat) then T_wait else T_wait_more);
       Ret (s, o ++ o')
     else Ret (s', o)) = Ret (set_tstate s' T_wait_more true, o)).
  { intros s' Ho Hi o. fold (online (tp_state s')). rewrite Ho, Hi, Sz. cbn [decide decide_rel Nat.eq_dec].
    rewrite decide_False by lia. rewrite setstate_waiting by auto. cbn. by rewrite app_nil_r. }
  pose proof (mid_online s k (st_online _ Hs)) as Hm.
  destruct (decide (6 + ext <= S k)%nat) as [Hh|Hh].
  - pose proof (check_header_at s k Hs ltac:(lia)) as C.
    destruct (verdict s f ext group addr) as [[a e] o] eqn:V. rewrite C. cbn [mbind outcome_bind tp_in set_tack set_tin].
    destruct (w_len _ _ _ _ _ W) as (x & Ex & Hx).
    rewrite (at_prefix (S k) _ x Ex) by (destruct (decide (ext = 0%nat)); lia). rewrite bind_Ret, Sz.
    rewrite (decide_False (P := (_ <= S k)%nat)) by lia. rewrite bind_Ret, R by done. cbn [snd].
    f_equal. f_equal. unfold mid. rewrite V. rewrite (decide_False (P := (S k <= 1)%nat)), (decide_False (P := (S k < 6 + ext)%nat)) by lia.
    by repeat destruct (decide _).
  - rewrite bind_Ret, R by done. rewrite (decide_False (P := (S k = 6 + ext)%nat)) by lia. f_equal. f_equal.
    unfold mid. destruct (verdict s f ext group addr) as [[a e] o].
    rewrite (decide_False (P := (S k <= 1)%nat)), (decide_True (P := (S k < 6 + ext)%nat)) by lia.
    rewrite (decide_True (P := (k < 6 + ext)%nat)) by lia. by destruct (decide _).
Qed.

Lemma first_byte (s : TPUARTwrap) : settled s -> recv_byte sysaddr sysgroup s c0 = Ret (mid s 1, []).
Proof using W.
  intros [Hi Ho Hsk Ha He]. unfold recv_byte. rewrite decide_False by (rewrite Hi; cbn; lia). rewrite Hsk.
  destruct (w_other _ _ _ _ _ W) as (-> & -> & -> & -> & -> & -> & Hb). unfold bus_ack in Hb. rewrite Hb.
  rewrite (w_start _ _ _ _ _ W), Hi. cbn [Z.eqb Pos.eqb]. rewrite assert_true, bind_Ret, setpart_byte by done.
  rewrite bind_Ret. unfold mid. destruct (verdict _ _ _ _ _) as [[a e] o].
  rewrite decide_True by lia. pose proof (w_first _ _ _ _ _ W) as E0. destruct f; [done|].
  by injection E0 as ->.
Qed.

Definition is_ncn (c : chip) : bool := match c with NCN5120_chip => true | TPUART_chip => false end.

(** After the frame: the NCN5120 sends one byte more, which will be skipped. *)
Definition rested (s : TPUARTwrap) (e : bool) : TPUARTwrap :=
  set_skip (set_tstate (set_tack (set_tin s []) false false) T_wait true) (is_ncn (tp_chip s) && negb e).

Lemma RecvLPDU_frame (s : TPUARTwrap) (d : CArray) (l : L_Data_PDU) :
  online (tp_state s) = true ->
  LPDU_fromPacket d = Ret (L_Data_LPDU l) -> valid_length l = true -> valid_checksum l = true ->
  RecvLPDU s d = Ret (if is_ncn (tp_chip s) then set_skip s true else s, [TO_recv_L_Data l]).
Proof.
  intros Ho Hp Hv Hc. unfold RecvLPDU.
  assert (E : tp_state s <> T_busmonitor /\ state_lt T_start (tp_state s) = true) by by destruct (tp_state s).
  destruct E as [E1 E2]. destruct (tp_chip s); cbn [is_ncn].
  all: rewrite decide_False by done; cbn [tp_state set_skip]; rewrite E2, Hp, bind_Ret.
  all: unfold LPDU_getType; by rewrite Hv, Hc.
Qed.

Lemma last_byte (s : TPUARTwrap) (k : nat) (b : Z) (l : L_Data_PDU) :
  settled s -> S k = size f -> f !! k = Some b ->
  LPDU_fromPacket f = Ret (L_Data_LPDU l) -> valid_length l = true -> valid_checksum l = true ->
  let '(a, e, _) := verdict s f ext group addr in
  recv_byte sysaddr sysgroup (mid s k) b = Ret (rested s e, if e then [] else [TO_recv_L_Data l]).
Proof using W.
  intros Hs Hk Hb Hp Hv Hc. pose proof wire_size as Hw.
  rewrite (recv_byte_in _ k) by (done || apply mid_in || lia). unfold in_check. cbn [tp_in set_tin].
  rewrite (at_prefix (S k) 0 c0) by (apply (w_first _ _ _ _ _ W) || lia).
  rewrite bind_Ret. rewrite <- (w_ext _ _ _ _ _ W).
  assert (T : take (S k) f = f) by (rewrite Hk; apply firstn_all).
  pose proof (check_header_at s k Hs ltac:(lia)) as C. pose proof (mid_online s k (st_online _ Hs)) as Hm.
  rewrite (decide_True (P := (6 + ext <= size (take (S k) f))%nat)) by (rewrite T; lia).
  unfold mid in *. destruct (verdict s f ext group addr) as [[a e] o] eqn:V. rewrite C. clear C.
  rewrite (decide_False (P := (S k = 6 + ext)%nat)) by lia.
  rewrite (decide_False (P := (k <= 1)%nat)), (decide_False (P := (k < 6 + ext)%nat)) in * by lia.
  cbn [mbind outcome_bind tp_in set_tack set_tin]. rewrite T.
  destruct (w_len _ _ _ _ _ W) as (x & Ex & Hx). rewrite (at_lookup f _ x Ex). rewrite bind_Ret.
  rewrite (decide_True (P := (_ <= size f)%nat)) by lia. cbn [recvecho set_tack set_tstate set_tin tp_in].
  assert (R : forall s', online (tp_state s') = true -> tp_in s' = [] -> forall o,
    (if state_lt T_is_online (tp_state s') && state_lt (tp_state s') T_busmonitor then
       '(s, o') ← setstate s' (if decide (size (tp_in s') = 0%nat) then T_wait else T_wait_more);
       Ret (s, o ++ o')
     else Ret (s', o)) = Ret (set_tstate (set_tack s' false false) T_wait true, o)).
  { intros s' Ho Hi o'. fold (online (tp_state s')). rewrite Ho, Hi, decide_True by done.
    rewrite setstate_waiting by auto. cbn. by rewrite app_nil_r. }
  destruct Hs as [Si So Ss Sa Se]. unfold rested. destruct e.
  - rewrite !bind_Ret, R by done. rewrite andb_false_r. destruct s; cbn in *. by subst.
  - rewrite (RecvLPDU_frame _ f l) by done. rewrite !bind_Ret.
    cbn [tp_chip set_tack set_tin set_tstate]. destruct (tp_chip s) eqn:Ec; cbn [is_ncn].
    all: rewrite R by done; destruct s; cbn in *; by subst.
Qed.

Lemma rest_of_frame (s : TPUARTwrap) (l : L_Data_PDU) :
  settled s -> LPDU_fromPacket f = Ret (L_Data_LPDU l) -> valid_length l = true -> valid_checksum l = true ->
  forall n k, (1 <= k)%nat -> (k + S n = size f)%nat ->
  let '(_, e, o) := verdict s f ext group addr in
  recv_bytes sysaddr sysgroup (mid s k) (drop k f) =
    Ret (rested s e, (if decide (k < 6 + ext)%nat then o else []) ++ (if e then [] else [TO_recv_L_Data l])).
Proof using W.
  intros Hs Hp Hv Hc n. pose proof wire_size as Hw. induction n as [|n IH]; intros k Hk Hn.
  - destruct (lookup_lt_is_Some_2 f k) as [b Hb]; [unfold size in *; lia|].
    rewrite (drop_S _ _ _ Hb), drop_ge by (unfold size in *; lia). cbn [recv_bytes].
    pose proof (last_byte s k b l Hs ltac:(lia) Hb Hp Hv Hc) as L.
    destruct (verdict s f ext group addr) as [[a e] o]. rewrite L. cbn [mbind outcome_bind].
    rewrite decide_False by lia. by rewrite app_nil_r.
  - destruct (lookup_lt_is_Some_2 f k) as [b Hb]; [unfold size in *; lia|].
    rewrite (drop_S _ _ _ Hb). cbn [recv_bytes]. rewrite (mid_step s k b) by (done || lia).
    specialize (IH (S k) ltac:(lia) ltac:(lia)).
    destruct (verdict s f ext group addr) as [[a e] o]. cbn [mbind outcome_bind snd]. rewrite IH.
    cbn [mbind outcome_bind]. rewrite app_assoc. do 3 f_equal.
    repeat destruct (decide _); try lia; by rewrite ?app_nil_r.
Qed.

(** A whole frame: judged once, delivered unless it is the echo. *)
Lemma frame_received (s : TPUARTwrap) (l : L_Data_PDU) :
  settled s -> LPDU_fromPacket f = Ret (L_Data_LPDU l) -> valid_length l = true -> valid_checksum l = true ->
  let '(_, e, o) := verdict s f ext group addr in
  recv_bytes sysaddr sysgroup s f = Ret (rested s e, o ++ (if e then [] else [TO_recv_L_Data l])).
Proof using W.
  intros Hs Hp Hv Hc. pose proof wire_size as Hw.
  pose proof (rest_of_frame s l Hs Hp Hv Hc (size f - 2) 1 ltac:(lia) ltac:(lia)) as R.
  destruct (verdict s f ext group addr) as [[a e] o].
  pose proof (w_first _ _ _ _ _ W) as E0.
  assert (Ef : f = c0 :: drop 1 f) by (destruct f; [done|]; injection E0 as ->; by rewrite skipn_cons, drop_0).
  rewrite Ef at 1. cbn [recv_bytes]. rewrite first_byte by done. cbn [mbind outcome_bind]. rewrite R.
  cbn [mbind outcome_bind]. by rewrite decide_True by lia.
Qed.
End Frame.

(** ** Any number of frames *)

Lemma received_valid (l : L_Data_PDU) : valid_length (received l) = true /\ valid_checksum (received l) = true.
Proof. done. Qed.

Section Bus.
Context (sysaddr sysgroup : Z -> bool).

(** What one frame on the bus makes the driver do. *)
Definition on_frame (s : TPUARTwrap) (l : L_Data_PDU) : list tp_output :=
  if (my_addr s =? 0) && echoes (tp_out s) (frame_bytes l) (ext_of l) then []
  else (if my_addr s =? 0
        then [TO_line [if knows sysaddr sysgroup s (isGroup (AddrType l)) (dest l) then 0x11 else 0x10]] else [])
       ++ [TO_recv_L_Data (received l)].

(** What the chip sends for it: the NCN5120 adds a byte after a frame that is not the
    echo. *)
Definition wire_bytes (s : TPUARTwrap) (lx : L_Data_PDU * Z) : CArray :=
  let '(l, x) := lx in
  frame_bytes l ++
  (if is_ncn (tp_chip s) && negb ((my_addr s =? 0) && echoes (tp_out s) (frame_bytes l) (ext_of l)) then [x] else []).

Definition waiting_state (s : TPUARTwrap) : TPUARTwrap :=
  set_skip (set_tstate (set_tack (set_tin s []) false false) T_wait true) false.

Lemma recv_bytes_app (c1 c2 : CArray) (s : TPUARTwrap) :
  recv_bytes sysaddr sysgroup s (c1 ++ c2) =
    '(s, o) ← recv_bytes sysaddr sysgroup s c1; '(s, o') ← recv_bytes sysaddr sysgroup s c2; Ret (s, o ++ o').
Proof.
  revert s. induction c1 as [|b c1 IH]; intros s; cbn [app recv_bytes mbind outcome_bind].
  { by destruct (recv_bytes _ _ s c2) as [[? ?]|]. }
  destruct (recv_byte _ _ s b) as [[s1 o1]|]; [|done]. cbn [mbind outcome_bind]. rewrite IH.
  destruct (recv_bytes _ _ s1 c1) as [[s2 o2]|]; [|done]. cbn [mbind outcome_bind].
  destruct (recv_bytes _ _ s2 c2) as [[s3 o3]|]; [|done]. cbn. by rewrite app_assoc.
Qed.

Lemma one_frame (s : TPUARTwrap) (l : L_Data_PDU) (x : Z) :
  settled s -> ldata_wf l -> (size (data l) <= 255)%nat ->
  recv_bytes sysaddr sysgroup s (wire_bytes s (l, x)) = Ret (waiting_state s, on_frame s l).
Proof.
  intros Hs Hl Hd. pose proof (ldata_wire l Hl) as W.
  pose proof (frame_received sysaddr sysgroup W s (received l) Hs (LPDU_fromPacket_back l Hl Hd) eq_refl eq_refl) as R.
  unfold wire_bytes, on_frame, verdict in *. rewrite recv_bytes_app.
  assert (K : forall b, is_ncn (tp_chip s) && negb b = false ->
    rested s b = waiting_state s).
  { intros b E. unfold rested, waiting_state. by rewrite E. }
  destruct (my_addr s =? 0); [destruct (echoes _ _ _)|]; cbn [andb negb] in *; rewrite R; cbn [mbind outcome_bind];
    rewrite ?andb_false_r, ?andb_true_r.
  - by rewrite K by apply andb_false_r.
  - destruct (tp_chip s) eqn:Ec; [by rewrite K|].
    cbn [recv_bytes is_ncn]. unfold recv_byte, rested. rewrite Ec. done.
  - destruct (tp_chip s) eqn:Ec; [by rewrite K|].
    cbn [recv_bytes is_ncn]. unfold recv_byte, rested. rewrite Ec. done.
Qed.

(** Input never takes the driver back before the reset of the chip. *)
Definition began (s : TPUARTwrap) : Prop := state_lt (tp_state s) T_start = false.

Lemma send_again_state (s s' : TPUARTwrap) o : send_again s = Ret (s', o) -> tp_state s' = tp_state s.
Proof.
  unfold send_again. destruct (_ && _ && _); [|by intros [= <- <-]]. destruct (negb _); [by intros [= <- <-]|].
  intros E. apply bind_Ret_inv in E as (w & _ & E). apply bind_Ret_inv in E as (out & _ & E).
  by injection E as <- <-.
Qed.

Lemma setstate_began (s s' : TPUARTwrap) n o :
  setstate s n = Ret (s', o) -> state_lt n T_start = false -> began s'.
Proof.
  assert (B : forall s s' n o, setstate_base s n = Ret (s', o) -> state_lt n T_start = false -> began s').
  { clear. intros s s' n o E Hn. unfold setstate_base in E.
    apply bind_Ret_inv in E as ([[s1 n1] o1] & E1 & E).
    assert (H1 : state_lt n1 T_start = false).
    { destruct (_ && _); [|by injection E1 as <- <- <-]. destruct (tp_monitor s); [by injection E1 as <- <- <-|].
      destruct (state_lt n T_busmonitor); [|by injection E1 as <- <- <-].
      apply bind_Ret_inv in E1 as ([s2 o2] & _ & E1). by injection E1 as <- <- <-. }
    destruct n1; try discriminate H1; by injection E as <- <-. }
  unfold setstate. destruct (tp_chip s); [apply B|]. destruct (_ && _); [|apply B].
  intros E Hn. apply bind_Ret_inv in E as ([s1 o1] & E1 & E). injection E as <- <-. by eapply B.
Qed.

Lemma RecvLPDU_state (s s' : TPUARTwrap) (d : CArray) o : RecvLPDU s d = Ret (s', o) -> tp_state s' = tp_state s.
Proof.
  unfold RecvLPDU. destruct (tp_chip s); (destruct (decide _); [by intros [= <- <-]|]);
    (destruct (state_lt _ _); [|by intros [= <- <-]]); intros E;
    apply bind_Ret_inv in E as (l & _ & E); by injection E as <- <-.
Qed.

Lemma recv_byte_began (s s' : TPUARTwrap) b o :
  began s -> recv_byte sysaddr sysgroup s b = Ret (s', o) -> began s'.
Proof.
  intros Hs. unfold recv_byte. destruct (decide _).
  { intros E. apply bind_Ret_inv in E as (i & _ & E). unfold in_check in E.
    apply bind_Ret_inv in E as (i0 & _ & E). apply bind_Ret_inv in E as ([s1 o1] & E1 & E).
    assert (H1 : began s1).
    { destruct (decide _); [|by injection E1 as <- <-].
      apply bind_Ret_inv in E1 as ([s2 o2] & E2 & E1).
      assert (H2 : began s2).
      { unfold check_header in E2. destruct (_ && _ && _ && _ && _); [|by injection E2 as <- <-].
        apply bind_Ret_inv in E2 as (e & _ & E2). destruct e; [by injection E2 as <- <-|].
        apply bind_Ret_inv in E2 as (c & _ & E2). by injection E2 as <- <-. }
      apply bind_Ret_inv in E1 as (x & _ & E1). destruct (decide _); [|by injection E1 as <- <-].
      apply bind_Ret_inv in E1 as ([s3 o3] & E3 & E1). injection E1 as <- <-.
      destruct (recvecho s2); [by injection E3 as <- <-|]. apply RecvLPDU_state in E3.
      unfold began in *. cbn. by rewrite E3. }
    destruct (_ && _); [|by injection E as <- <-].
    apply bind_Ret_inv in E as ([s2 o2] & E2 & E). injection E as <- <-.
    apply (setstate_began _ _ _ _ E2). by destruct (decide (size (tp_in s1) = 0%nat)). }
  destruct (skip_char s); [by intros [= <- <-]|].
  assert (C : confirmed s = Ret (s', o) -> began s').
  { unfold confirmed. destruct (_ || _); by intros [= <- <-]. }
  destruct (b =? 0x03). { destruct (decide _); [|by intros [= <- <-]]. intros E. by apply (setstate_began _ _ _ _ E). }
  destruct (b =? 0x8B); [done|]. destruct (b =? 0xCB); [by intros [= <- <-]|]. destruct (b =? 0x0B); [done|].
  destruct (_ =? 0x13); [by intros [= <- <-]|]. destruct (_ =? 0x07).
  { unfold state_indication. destruct (tp_state s); try (by intros [= <- <-]);
      intros E; by apply (setstate_began _ _ _ _ E). }
  destruct (_ || _).
  { intros E. apply bind_Ret_inv in E as (d & _ & E). apply RecvLPDU_state in E.
    unfold began in *. by rewrite E. }
  destruct (_ =? 0x10); [|by intros [= <- <-]]. intros E.
  apply bind_Ret_inv in E as (u & _ & E). apply bind_Ret_inv in E as (i & _ & E). by injection E as <- <-.
Qed.

(** How the line cuts its bytes into pieces does not matter. *)
Lemma chunks_received (chunks : list CArray) (s : TPUARTwrap) :
  began s -> tp_run sysaddr sysgroup s (map TE_recv_Data chunks) = recv_bytes sysaddr sysgroup s (concat chunks).
Proof.
  assert (P : forall c s s' o, began s -> recv_bytes sysaddr sysgroup s c = Ret (s', o) -> began s').
  { clear. induction c as [|b c IH]; intros s s' o Hs E; [by injection E as <- <-|]. cbn [recv_bytes] in E.
    apply bind_Ret_inv in E as ([s1 o1] & E1 & E). apply bind_Ret_inv in E as ([s2 o2] & E2 & E).
    injection E as <- <-. apply (IH s1 _ o2); [|done]. by apply (recv_byte_began s _ b o1). }
  revert s. induction chunks as [|c chunks IH]; intros s Hs; [done|]. cbn [map concat tp_run tp_step].
  unfold tp_recv_Data. rewrite Hs, recv_bytes_app.
  destruct (recv_bytes sysaddr sysgroup s c) as [[s1 o1]|] eqn:E; [|done]. cbn [mbind outcome_bind].
  rewrite IH; [done|]. by apply (P c s s1 o1).
Qed.

Lemma waiting_settled (s : TPUARTwrap) : settled (waiting_state s).
Proof. done. Qed.

Lemma frames_received (lxs : list (L_Data_PDU * Z)) (s : TPUARTwrap) :
  settled s -> Forall (fun lx => ldata_wf lx.1 /\ (size (data lx.1) <= 255)%nat) lxs ->
  exists s', recv_bytes sysaddr sysgroup s (concat (map (wire_bytes s) lxs)) =
      Ret (s', concat (map (fun lx => on_frame s lx.1) lxs)) /\ settled s' /\ tp_out s' = tp_out s.
Proof.
  intros Hs H. revert s Hs. induction H as [|[l x] lxs [Hl Hd] _ IH]; intros s Hs; [by exists s|].
  cbn [map concat]. rewrite recv_bytes_app, (one_frame s l x) by done. cbn [mbind outcome_bind].
  destruct (IH (waiting_state s) (waiting_settled s)) as (s' & E & H' & O).
  change (map (wire_bytes (waiting_state s)) lxs) with (map (wire_bytes s) lxs) in E. rewrite E.
  exists s'. split; [done|]. by split.
Qed.

(** C19: what the driver does with frames on the bus, in order and however the bytes are cut,
    when it is online and between two frames.  If the chip was given no address ([my_addr] is
    0), a frame is answered with one acknowledgement, which tells whether the daemon
    knows the destination, and delivered once; a frame with the header of the frame being
    sent, but for the repeat flag, is taken for its echo and neither acknowledged nor
    delivered.  If the chip has an address, every frame is delivered once, the echo too, and
    none is acknowledged by the driver. *)
Theorem tpuart_receives (s : TPUARTwrap) (chunks : list CArray) (lxs : list (L_Data_PDU * Z)) :
  settled s -> Forall (fun lx => ldata_wf lx.1 /\ (size (data lx.1) <= 255)%nat) lxs ->
  concat chunks = concat (map (wire_bytes s) lxs) ->
  exists s', tp_run sysaddr sysgroup s (map TE_recv_Data chunks) =
      Ret (s', concat (map (fun lx => on_frame s lx.1) lxs)) /\ settled s' /\ tp_out s' = tp_out s.
Proof.
  intros Hs H E. rewrite chunks_received, E by (unfold began; destruct Hs as [_ Ho _ _ _]; by destruct (tp_state s)).
  by apply frames_received.
Qed.

(** C21: the receiver stays within its buffer on all input but one kind: the byte of an
    acknowledgement on the bus, between frames, makes it read a byte from the empty
    buffer. *)
Theorem tpuart_faults_iff (s : TPUARTwrap) (c : CArray) :
  tp_inv s -> bytes c -> state_lt (tp_state s) T_start = false ->
  (tp_recv_Data sysaddr sysgroup s c = Fault OutOfRange <->
   exists c1 b c2 s1 o, c = c1 ++ b :: c2 /\ recv_bytes sysaddr sysgroup s c1 = Ret (s1, o) /\
     tp_in s1 = [] /\ skip_char s1 = false /\ bus_ack b = true) /\
  (tp_recv_Data sysaddr sysgroup s c <> Fault OutOfRange ->
   returns_with tp_kept (tp_recv_Data sysaddr sysgroup s c)).
Proof.
  intros Hi Hc Hb. unfold tp_recv_Data. rewrite Hb. clear Hb.
  assert (N : forall s b, reads_nothing s b = true <-> tp_in s = [] /\ skip_char s = false /\ bus_ack b = true).
  { intros s0 b0. unfold reads_nothing. rewrite !andb_true_iff, bool_decide_eq_true, negb_true_iff. tauto. }
  revert s Hi. induction Hc as [|b c Hb _ IH]; intros s Hi.
  { split; [|intros _; by apply returns_with_Ret]. split; [done|]. by intros ([] & b & c2 & s1 & o & E & _). }
  cbn [recv_bytes]. destruct (reads_nothing s b) eqn:R.
  { rewrite (recv_byte_faults sysaddr sysgroup s b R). split; [|done]. split; [intros _|done].
    exists [], b, c, s, []. split_and!; try done; by apply N in R as (? & ? & ?). }
  destruct (recv_byte_kept sysaddr sysgroup s b Hi Hb R) as ([s1 o1] & E1 & H1). rewrite E1.
  destruct (IH s1 H1) as [IH1 IH2]. cbn [mbind outcome_bind]. split.
  - split.
    + intros E. destruct (recv_bytes sysaddr sysgroup s1 c) as [[? ?]|ft] eqn:Ec; [done|]. cbn in E.
      destruct (proj1 IH1 E) as (c1 & x & c2 & s2 & o2 & -> & E2 & H2). exists (b :: c1), x, c2, s2, (o1 ++ o2).
      split_and!; try apply H2; [done|]. cbn [recv_bytes]. rewrite E1. cbn. by rewrite E2.
    + intros (c1 & x & c2 & s2 & o2 & E & E2 & H2). destruct c1 as [|y c1].
      * injection E as <- <-. injection E2 as <- <-. apply N in H2. congruence.
      * injection E as <- ->. cbn [recv_bytes] in E2. rewrite E1 in E2. cbn [mbind outcome_bind] in E2.
        apply bind_Ret_inv in E2 as ([s3 o3] & E3 & E2). injection E2 as -> <-.
        rewrite (proj2 IH1); [done|]. by exists c1, x, c2, s2, o3.
  - intros E. destruct (recv_bytes sysaddr sysgroup s1 c) as [[s2 o2]|ft] eqn:Ec.
    + apply returns_with_Ret. destruct (IH2 ltac:(done)) as ([s3 o3] & [= <- <-] & H3). done.
    + cbn in E. destruct (IH2 E) as (r & ? & _). done.
Qed.
End Bus.

(** ** Sending a frame *)

(** How the chip reads what it is sent: every byte comes with its position, the last
    one with the mark of the end. *)
Fixpoint tp_decode (i : Z) (w : CArray) : option CArray :=
  match w with
  | [c; b] => if c =? 0x40 + i then Some [b] else None
  | c :: b :: w => if c =? 0x80 + i then option_map (cons b) (tp_decode (i + 1) w) else None
  | _ => None
  end.

Lemma tp_fill_snoc (d : CArray) (b i : Z) :
  tp_fill i (d ++ [b]) = tp_fill i d ++ [u8 (Z.lor 0x80 (Z.land (i + Z.of_nat (size d)) 0x3f)); b].
Proof.
  revert i. induction d as [|x d IH]; intros i; cbn [tp_fill app].
  { by rewrite Z.add_0_r. }
  rewrite IH. unfold size. cbn [length app]. by replace (i + 1 + Z.of_nat (length d)) with (i + Z.of_nat (S (length d))) by lia.
Qed.

Lemma tp_encode_eq (d : CArray) (b : Z) :
  tp_encode (d ++ [b]) = Ret (tp_fill 0 d ++ [Z.lor 0x40 (Z.land (Z.of_nat (size d)) 0x3f); b]).
Proof.
  unfold tp_encode. rewrite tp_fill_snoc, Z.add_0_l.
  assert (E : ((size (d ++ [b]) - 1) * 2)%nat = size (tp_fill 0 d)).
  { rewrite tp_fill_size. unfold size. rewrite length_app. simpl. lia. }
  rewrite E, at_mid, bind_Ret, put_mid by done. do 3 f_equal.
  pose proof (land_bound_r (Z.of_nat (size d)) 0x3f ltac:(lia)) as Hb.
  set (k := Z.land _ _) in *. clearbody k. assert (Hk : 0 <= k < 64) by lia. clear -Hk. by_below 64 k.
Qed.

Lemma tp_decode_cons (i c b : Z) (w : CArray) :
  w <> [] -> tp_decode i (c :: b :: w) = if c =? 0x80 + i then option_map (cons b) (tp_decode (i + 1) w) else None.
Proof. by destruct w. Qed.

Lemma decode_fill (d : CArray) (i : Z) (w : CArray) :
  0 <= i -> i + Z.of_nat (size d) <= 64 -> (2 <= size w)%nat ->
  tp_decode i (tp_fill i d ++ w) = option_map (app d) (tp_decode (i + Z.of_nat (size d)) w).
Proof.
  intros Hi Hd Hw. revert i Hi Hd. induction d as [|b d IH]; intros i Hi Hd.
  { cbn. rewrite Z.add_0_r. by destruct (tp_decode i w). }
  cbn [tp_fill app]. unfold size in *. cbn [length] in *.
  assert (Hk : u8 (Z.lor 0x80 (Z.land i 0x3f)) = 0x80 + i).
  { assert (Hr : 0 <= i < 64) by lia. clear -Hr. by_below 64 i. }
  rewrite tp_decode_cons by (intros E; apply app_eq_nil in E as [_ ->]; simpl in Hw; lia).
  rewrite Hk, Z.eqb_refl, IH by lia.
  replace (i + 1 + Z.of_nat (length d)) with (i + Z.of_nat (S (length d))) by lia.
  by destruct (tp_decode _ w).
Qed.

(** The first position beyond 63 is not what the chip expects. *)
Lemma decode_wrapped (d : CArray) (w : CArray) (i : Z) :
  w <> [] -> 0 <= i <= 64 -> 64 < i + Z.of_nat (size d) -> tp_decode i (tp_fill i d ++ w) = None.
Proof.
  intros Hw. revert i. induction d as [|b d IH]; intros i Hi Hd; [cbn in Hd; lia|].
  cbn [tp_fill app]. unfold size in *. cbn [length] in Hd.
  destruct (decide (i = 64)) as [-> | Hn].
  - rewrite tp_decode_cons by (destruct d; done). done.
  - rewrite tp_decode_cons by (destruct d; [simpl in Hd; lia|done]).
    rewrite IH by lia. by destruct (_ =? _).
Qed.

(** The encoding of a frame for the chip can be read back exactly when the frame has at
    most 64 bytes: positions are kept modulo 64. *)
Theorem tpuart_encoding (out : CArray) :
  out <> [] -> exists w, tp_encode out = Ret w /\ (tp_decode 0 w = Some out <-> (size out <= 64)%nat).
Proof.
  intros Hn. destruct (exists_last Hn) as (d & b & ->). rewrite tp_encode_eq. eexists. split; [done|].
  assert (Hs : size (d ++ [b]) = S (size d)) by (unfold size; rewrite length_app; simpl; lia). rewrite Hs.
  split.
  - intros E. destruct (decide (size d <= 64)%nat) as [Hd|Hd].
    + destruct (decide (size d = 64%nat)) as [Hk|]; [|lia]. rewrite decode_fill in E by (cbn; lia).
      rewrite Hk in E. discriminate E.
    + rewrite decode_wrapped in E by (done || lia). done.
  - intros H. rewrite decode_fill by (cbn; lia). rewrite Z.add_0_l. cbn [tp_decode].
    rewrite (land_ones_small 6) by lia.
    assert (E : Z.lor 0x40 (Z.of_nat (size d)) = 0x40 + Z.of_nat (size d)).
    { set (k := Z.of_nat (size d)). assert (Hk : 0 <= k < 64) by lia. clearbody k. clear -Hk. by_below 64 k. }
    by rewrite E, Z.eqb_refl.
Qed.

(** What the chip is sent for a frame: each byte after its position modulo 64, with 0x80,
    and at the last byte 0x40. *)
Fixpoint chip_stream (i : Z) (out : CArray) : CArray :=
  match out with
  | [] => []
  | [b] => [0x40 + i mod 64; b]
  | b :: out => 0x80 + i mod 64 :: b :: chip_stream (i + 1) out
  end.

Lemma fill_chip_stream (d : CArray) (b : Z) : forall i, 0 <= i ->
  tp_fill i d ++ [Z.lor 0x40 (Z.land (i + Z.of_nat (size d)) 0x3f); b] = chip_stream i (d ++ [b]).
Proof.
  assert (M : forall j, 0 <= j -> Z.land j 0x3f = j mod 64) by (intros j Hj; change 0x3f with (Z.ones 6); by apply Z.land_ones).
  induction d as [|x d IH]; intros i Hi; cbn [tp_fill app].
  - cbn [chip_stream size length Z.of_nat]. rewrite Z.add_0_r, M by done. do 2 f_equal.
    pose proof (Z.mod_pos_bound i 64 ltac:(lia)) as Hk. set (k := i mod 64) in *. clearbody k. clear -Hk. by_below 64 k.
  - rewrite M by done. replace (i + Z.of_nat (size (x :: d))) with (i + 1 + Z.of_nat (size d)) by (unfold size; cbn [length]; lia).
    rewrite IH by lia. destruct (d ++ [b]) as [|y r] eqn:E; [by destruct d|]. cbn [chip_stream]. f_equal.
    pose proof (Z.mod_pos_bound i 64 ltac:(lia)) as Hk. set (k := i mod 64) in *. clearbody k. clear -Hk. by_below 64 k.
Qed.

Lemma tp_encode_stream (out : CArray) : out <> [] -> tp_encode out = Ret (chip_stream 0 out).
Proof.
  intros Hn. destruct (exists_last Hn) as (d & b & ->). rewrite tp_encode_eq, <-fill_chip_stream by lia. by rewrite Z.add_0_l.
Qed.

Definition as_repeated (l : L_Data_PDU) : L_Data_PDU :=
  mkL_Data (prio l) true (valid_checksum l) (valid_length l) (AddrType l) (source l) (dest l) (hopcount l) (data l).

Lemma not8_flip (x : Z) : is_u8 x -> u8 (Z.lxor (not8 x) 0x20) = not8 (Z.lxor x 0x20).
Proof. intros H. by_bytes x. Qed.

(** Clearing the flag turns the frame into its repetition, with a valid checksum. *)
Lemma clear_repeat_frame (l : L_Data_PDU) :
  ldata_wf l -> clear_repeat_flag (frame_bytes l) = Ret (frame_bytes (as_repeated l)).
Proof.
  intros Hl. pose proof (frame_bytes_bytes l Hl) as Hb. unfold frame_bytes in *.
  destruct (frame_control l) as [r Hr].
  assert (Hr' : frame_header (as_repeated l) =
    control_byte (if decide (size (data l) - 1 <= 0x0f)%nat then 0x90 else 0x10) (prio l) true :: r).
  { revert Hr. unfold frame_header, control_byte, as_repeated. cbn. destruct (decide _); by intros [= <-]. }
  rewrite Hr in *. rewrite Hr'. cbn [data as_repeated app]. set (t := if decide _ then 0x90 else 0x10) in *.
  assert (Ht : t = 0x90 \/ t = 0x10) by (unfold t; destruct (decide _); auto).
  set (d := r ++ data l) in *. unfold clear_repeat_flag. cbn [at_ lookup list_lookup app]. rewrite bind_Ret.
  assert (F : if repeated l then nz (Z.land (control_byte t (prio l) (repeated l)) 0x20) = false
              else nz (Z.land (control_byte t (prio l) (repeated l)) 0x20) = true /\
                   u8 (Z.lxor (control_byte t (prio l) (repeated l)) 0x20) = control_byte t (prio l) true /\
                   control_byte t (prio l) true = Z.lxor (control_byte t (prio l) (repeated l)) 0x20).
  { destruct Ht as [-> | ->], (prio l), (repeated l); vm_compute; auto. }
  destruct (repeated l); [by rewrite F|]. destruct F as (F1 & F2 & F3). rewrite F1.
  match goal with |- context [put (?c :: ?x) 0 ?v] => change (put (c :: x) 0 v) with (Ret (u8 v :: x)) end. cbn [app]. rewrite bind_Ret, F2. set (c0 := control_byte t (prio l) false) in *. set (c1 := control_byte t (prio l) true) in *.
  rewrite app_comm_cons, at_last, bind_Ret, put_last.
  rewrite not8_flip.
  - rewrite !xor_bytes_cons, F3, !Z.lxor_assoc. by rewrite (Z.lxor_comm (xor_bytes d)).
  - apply xor_bytes_u8. by apply bytes_app in Hb as [Hb _].
Qed.

(** The frame has been sent and repeated [k] times. *)
Definition in_flight (s : TPUARTwrap) (l : L_Data_PDU) (k : nat) : TPUARTwrap :=
  set_tpout s (frame_bytes (as_repeated l)) (Z.of_nat k) true.

Lemma frame_bytes_encodes (l : L_Data_PDU) : tp_encode (frame_bytes l) = Ret (chip_stream 0 (frame_bytes l)).
Proof. apply tp_encode_stream. pose proof (frame_size l) as Hs. intros E. rewrite E in Hs. cbn in Hs. lia. Qed.

Lemma send_again_frame (s : TPUARTwrap) (l : L_Data_PDU) (w : CArray) :
  online (tp_state s) = true -> tp_next_free s = true -> ldata_wf l -> tp_out s = frame_bytes l ->
  tp_encode (frame_bytes l) = Ret w ->
  send_again s = Ret (set_tpout s (frame_bytes (as_repeated l)) (send_retry s) true, [TO_line w]).
Proof.
  intros Ho Hn Hl E Ew. unfold send_again. pose proof (frame_size l) as Hs.
  rewrite E, bool_decide_eq_true_2 by lia. cbn [andb]. fold (online (tp_state s)). rewrite Ho, Hn. cbn [negb].
  by rewrite Ew, bind_Ret, clear_repeat_frame.
Qed.

Section Transmission.
Context (sysaddr sysgroup : Z -> bool).

Lemma tp_run_snoc (es : list tp_event) (e : tp_event) (s : TPUARTwrap) :
  tp_run sysaddr sysgroup s (es ++ [e]) =
    '(s, o) ← tp_run sysaddr sysgroup s es; '(s, o') ← tp_step sysaddr sysgroup s e; Ret (s, o ++ o').
Proof.
  revert s. induction es as [|x es IH]; intros s; cbn [app tp_run mbind outcome_bind].
  { destruct (tp_step _ _ s e) as [[s1 o1]|]; [|done]. cbn. by rewrite app_nil_r. }
  destruct (tp_step _ _ s x) as [[s1 o1]|]; [|done]. cbn [mbind outcome_bind]. rewrite IH.
  destruct (tp_run _ _ s1 es) as [[s2 o2]|]; [|done]. cbn [mbind outcome_bind].
  destruct (tp_step _ _ s2 e) as [[s3 o3]|]; [|done]. cbn. by rewrite app_assoc.
Qed.

Lemma repeat_step (s : TPUARTwrap) (l : L_Data_PDU) (k : nat) (w' : CArray) :
  online (tp_state s) = true -> tp_next_free s = true -> ldata_wf l -> (k <= 3)%nat ->
  tp_encode (frame_bytes (as_repeated l)) = Ret w' ->
  tp_step sysaddr sysgroup (in_flight s l k) TE_sendtimer = Ret (in_flight s l (S k), [TO_line w']).
Proof.
  intros Ho Hn Hl Hk Ew. cbn [tp_step in_flight tp_sendtimer set_tpout]. unfold tp_sendtimer_cb.
  cbn [send_retry set_tpout in_flight]. assert (E : (3 <? Z.of_nat k) = false) by (apply Z.ltb_ge; lia). rewrite E.
  rewrite (send_again_frame _ (as_repeated l) w') by done. unfold in_flight. cbn.
  do 3 f_equal. lia.
Qed.

(** C20: sending.  Let the driver be online, the chip ready for a frame, no frame being sent or
    received.  A frame the link then hands over is sent at once, as the bytes of the frame with
    their positions and the mark of the end; it is repeated every time the chip does
    not confirm it in time, marked as a repetition and with its checksum corrected, at
    most four times; after that the driver goes into its error state.  A confirmation
    at any time, positive or negative, ends the transmission, and the link is told. *)
Theorem tpuart_transmits (s : TPUARTwrap) (l : L_Data_PDU) (k : nat) :
  online (tp_state s) = true -> tp_next_free s = true -> tp_out s = [] -> send_retry s = 0 ->
  tp_in s = [] -> skip_char s = false -> ldata_wf l -> (size (data l) <= 255)%nat -> (k <= 4)%nat ->
  let w := chip_stream 0 (frame_bytes l) in
  let w' := chip_stream 0 (frame_bytes (as_repeated l)) in
  tp_run sysaddr sysgroup s (TE_send_L_Data l :: replicate k TE_sendtimer) =
    Ret (in_flight s l k, TO_line w :: replicate k (TO_line w')) /\
  (forall b, b = 0x8B \/ b = 0x0B ->
    tp_step sysaddr sysgroup (in_flight s l k) (TE_recv_Data [b]) = Ret (set_tpout s [] 0 false, [TO_send_Next])) /\
  returns_with (fun r => tp_state r.1 = T_error /\ tp_timer r.1 = true /\ r.2 = [])
    (tp_step sysaddr sysgroup (in_flight s l 4) TE_sendtimer).
Proof.
  intros Ho Hn He Hr Hi Hsk Hl Hd Hk.
  pose proof (frame_bytes_encodes l) as Ew. pose proof (frame_bytes_encodes (as_repeated l)) as Ew'.
  intros w w'. fold w in Ew. fold w' in Ew'. clearbody w w'. split_and!.
  - induction k as [|k IH].
    + cbn [replicate tp_run tp_step]. unfold tp_send_L_Data. rewrite He, assert_true, bind_Ret by done.
      rewrite L_Data_ToPacket_eq, bind_Ret by done.
      rewrite (send_again_frame _ l w) by done. cbn. unfold in_flight. by rewrite Hr.
    + replace (TE_send_L_Data l :: replicate (S k) TE_sendtimer)
        with ((TE_send_L_Data l :: replicate k TE_sendtimer) ++ [TE_sendtimer])
        by (cbn [app]; f_equal; by rewrite <- replicate_cons_app).
      rewrite tp_run_snoc, IH by lia. cbn [mbind outcome_bind].
      rewrite (repeat_step s l k w') by (done || lia). cbn [mbind outcome_bind app]. do 3 f_equal.
      by rewrite <- replicate_cons_app.
  - intros b Hb. cbn [tp_step]. unfold tp_recv_Data.
    assert (E : state_lt (tp_state (in_flight s l k)) T_start = false) by (cbn; by destruct (tp_state s)).
    rewrite E. cbn [recv_bytes]. unfold recv_byte. cbn [tp_in skip_char in_flight set_tpout].
    rewrite Hi, Hsk, decide_False by (cbn; lia).
    assert (C : confirmed (in_flight s l k) = Ret (set_tpout s [] 0 false, [TO_send_Next])).
    { unfold confirmed. pose proof (frame_size (as_repeated l)) as Hs. cbn [tp_out in_flight set_tpout tp_state].
      rewrite bool_decide_eq_false_2 by lia.
      assert (E' : state_lt (tp_state s) T_is_online = false) by by destruct (tp_state s). by rewrite E'. }
    destruct Hb as [-> | ->]; cbn [Z.eqb Pos.eqb]; by rewrite C.
  - cbn [tp_step in_flight tp_sendtimer set_tpout]. unfold tp_sendtimer_cb. cbn [send_retry set_tpout].
    change (3 <? Z.of_nat 4) with true. cbn [negb]. unfold setstate, setstate_base. cbn.
    rewrite andb_false_r. destruct (tp_chip s); by apply returns_with_Ret.
Qed.
End Transmission.

(** ** Start-up *)

Section Startup.
Context (sysaddr sysgroup : Z -> bool).

(** How the chip is told the address it shall acknowledge by itself. *)
Definition address_command (c : chip) (addr : Z) : list tp_output :=
  if nz addr then
    match c with
    | TPUART_chip => [TO_line [0x28; Z.land (addr ≫ 8) 0xff; Z.land addr 0xff]]
    | NCN5120_chip => [TO_line [0xF1; Z.land (addr ≫ 8) 0xff; Z.land addr 0xff; 0x00]]
    end
  else [].

Lemma reset_acknowledged (c : chip) (ackg acki mon : bool) (addr : Z) :
  tp_run sysaddr sysgroup (TPUARTwrap_new c ackg acki mon addr) [TE_started; TE_recv_Data [0x03]] =
    Ret (mkTPUART c ackg acki mon addr true false [] [] 1 0 false false false T_in_getstate true false,
         [TO_line [0x01]] ++ address_command c addr ++ [TO_line [0x02]]).
Proof. destruct c, addr; vm_compute; reflexivity. Qed.

(** The line is up: reset, address, state request; with the answers the link is started
    and asked for the first frame, or the bus monitor is opened. *)
Theorem tpuart_starts (c : chip) (ackg acki mon : bool) (addr : Z) :
  returns_with
    (fun r => r.2 = [TO_line [0x01]] ++ address_command c addr ++ [TO_line [0x02]; TO_started] ++
                    (if mon then [TO_line [0x05]] else [TO_send_Next]) /\
              if mon then tp_state r.1 = T_busmonitor else settled r.1 /\ tp_out r.1 = [])
    (tp_run sysaddr sysgroup (TPUARTwrap_new c ackg acki mon addr)
       [TE_started; TE_recv_Data [0x03]; TE_recv_Data [0x07]]).
Proof.
  change [TE_started; TE_recv_Data [0x03]; TE_recv_Data [0x07]]
    with ([TE_started; TE_recv_Data [0x03]] ++ [TE_recv_Data [0x07]]).
  rewrite tp_run_snoc, reset_acknowledged. destruct c, mon; cbn; (eexists; split; [done|]); cbn;
    rewrite <- ?app_assoc; (split; [done|]); done.
Qed.

(** A chip that answers the reset but not the state request is asked for ever: the counter
    that would end it is never incremented. *)
Theorem tpuart_asks_for_ever (c : chip) (ackg acki mon : bool) (addr : Z) (n : nat) :
  exists s,
    tp_run sysaddr sysgroup (TPUARTwrap_new c ackg acki mon addr)
      ([TE_started; TE_recv_Data [0x03]] ++ replicate n TE_timer) =
    Ret (s, [TO_line [0x01]] ++ address_command c addr ++ replicate (S n) (TO_line [0x02])) /\
    tp_state s = T_in_getstate.
Proof.
  set (s := mkTPUART c ackg acki mon addr true false [] [] 1 0 false false false T_in_getstate true false).
  exists s. split; [|done]. induction n as [|n IH].
  - rewrite app_nil_r. apply reset_acknowledged.
  - rewrite replicate_S_end, app_assoc, tp_run_snoc, IH. cbn [mbind outcome_bind].
    assert (E : tp_step sysaddr sysgroup s TE_timer = Ret (s, [TO_line [0x02]])) by by destruct c.
    rewrite E. cbn [mbind outcome_bind]. do 2 f_equal. rewrite <- !app_assoc. do 2 f_equal.
    symmetry. apply (replicate_S_end (S n)).
Qed.
End Startup.

(** ** Instances *)

Definition no_addr_known (a : Z) : bool := false.
Definition group_known (a : Z) : bool := a =? 0x0A03.

Definition idle_tpuart : TPUARTwrap :=
  mkTPUART TPUART_chip false false false 0 true false [] [] 1 0 false false false T_wait true false.

Definition bus_frame : L_Data_PDU :=
  mkL_Data PRIO_LOW false true true GroupAddress 0x1102 0x0A03 6 [0x00; 0x81].

Lemma bus_frame_wf : ldata_wf bus_frame.
Proof. unfold ldata_wf. simpl. split_and!; decided. Qed.

Lemma idle_settled : settled idle_tpuart.
Proof. done. Qed.

Lemma tpuart_receives_witness :
  exists s', tp_run no_addr_known group_known idle_tpuart
      (map TE_recv_Data [take 3 (frame_bytes bus_frame); drop 3 (frame_bytes bus_frame) ++ frame_bytes bus_frame]) =
      Ret (s', [TO_line [0x11]; TO_recv_L_Data (received bus_frame); TO_line [0x11]; TO_recv_L_Data (received bus_frame)]) /\
    settled s' /\ tp_out s' = tp_out idle_tpuart.
Proof.
  apply (tpuart_receives no_addr_known group_known idle_tpuart
    [take 3 (frame_bytes bus_frame); drop 3 (frame_bytes bus_frame) ++ frame_bytes bus_frame]
    [(bus_frame, 0); (bus_frame, 0)]).
  - apply idle_settled.
  - repeat constructor; (apply bus_frame_wf || (unfold size; simpl; lia)).
  - vm_compute; reflexivity.
Defined.

Lemma tpuart_faults_iff_witness :
  (tp_recv_Data no_addr_known group_known idle_tpuart [0x8B; 0xCC] = Fault OutOfRange <->
   exists c1 b c2 s1 o, [0x8B; 0xCC] = c1 ++ b :: c2 /\
     recv_bytes no_addr_known group_known idle_tpuart c1 = Ret (s1, o) /\
     tp_in s1 = [] /\ skip_char s1 = false /\ bus_ack b = true) /\
  (tp_recv_Data no_addr_known group_known idle_tpuart [0x8B; 0xCC] <> Fault OutOfRange ->
   returns_with tp_kept (tp_recv_Data no_addr_known group_known idle_tpuart [0x8B; 0xCC])).
Proof.
  apply (tpuart_faults_iff no_addr_known group_known idle_tpuart [0x8B; 0xCC]).
  - split; apply bytes_nil.
  - decided.
  - reflexivity.
Defined.

Lemma tpuart_encoding_witness :
  exists w, tp_encode (frame_bytes bus_frame) = Ret w /\
    (tp_decode 0 w = Some (frame_bytes bus_frame) <-> (size (frame_bytes bus_frame) <= 64)%nat).
Proof. apply (tpuart_encoding (frame_bytes bus_frame)). discriminate. Defined.

Lemma tpuart_transmits_witness :
  let w := chip_stream 0 (frame_bytes bus_frame) in
  let w' := chip_stream 0 (frame_bytes (as_repeated bus_frame)) in
  tp_run no_addr_known group_known idle_tpuart [TE_send_L_Data bus_frame; TE_sendtimer; TE_sendtimer] =
    Ret (in_flight idle_tpuart bus_frame 2, [TO_line w; TO_line w'; TO_line w']) /\
  (forall b, b = 0x8B \/ b = 0x0B ->
    tp_step no_addr_known group_known (in_flight idle_tpuart bus_frame 2) (TE_recv_Data [b]) =
      Ret (set_tpout idle_tpuart [] 0 false, [TO_send_Next])) /\
  returns_with (fun r => tp_state r.1 = T_error /\ tp_timer r.1 = true /\ r.2 = [])
    (tp_step no_addr_known group_known (in_flight idle_tpuart bus_frame 4) TE_sendtimer).
Proof.
  apply (tpuart_transmits no_addr_known group_known idle_tpuart bus_frame 2); try reflexivity.
  - apply bus_frame_wf.
  - unfold size; simpl; lia.
  - lia.
Defined.
