(* ===== verification/Image.v ===== *)
(** * Images of BCU programs

    Models src/src/common/image.cpp and src/src/common/image.h: the classes derived from
    [STR_Stream], each with [init], [toArray] and [decode], and [class Image], a file
    of such streams; with the numbers of src/src/common/loadctl.h.

    A [String] is the list of its bytes.  [sprintf] into a buffer on the stack is
    [printed]: text that does not fit is a fault. *)

From S2P Require Import Prelude CArray Common Apdu.
From Stdlib Require Import Ascii.

Local Open Scope string_scope.
Local Open Scope Z_scope.

(** ** Numbers of streams *)

Definition L_CODE : Z := 1.
Definition L_BCU1_SIZE : Z := 2.
Definition L_BCU2_SIZE : Z := 3.
Definition L_BCU_TYPE : Z := 100.
Definition L_BCU2_INIT : Z := 101.
Definition L_BCU2_KEY : Z := 102.
Definition L_STRING_PAR : Z := 500.
Definition L_INT_PAR : Z := 501.
Definition L_FLOAT_PAR : Z := 502.
Definition L_LIST_PAR : Z := 503.
Definition L_GROUP_OBJECT : Z := 504.

(** ** Streams *)

Record BCU1Size := mkBCU1Size {
  b1_textsize : Z; b1_stacksize : Z; b1_datasize : Z; b1_bsssize : Z
}.

Record BCU2Size := mkBCU2Size {
  b2_textsize : Z; b2_stacksize : Z; lo_datasize : Z; lo_bsssize : Z; hi_datasize : Z; hi_bsssize : Z
}.

Record BCU2Start := mkBCU2Start {
  addrtab_start : Z; addrtab_size : Z; assoctab_start : Z; assoctab_size : Z;
  readonly_start : Z; readonly_end : Z; param_start : Z; param_end : Z;
  obj_ptr : Z; obj_count : Z; appcallback : Z; groupobj_ptr : Z;
  seg0 : Z; seg1 : Z; sphandler : Z; initaddr : Z; runaddr : Z; saveaddr : Z;
  eeprom_start : Z; eeprom_end : Z; poll_addr : Z; poll_slot : Z
}.

Inductive STR_Stream :=
| STR_Invalid (data : CArray)
| STR_Unknown (type : Z) (data : CArray)
| STR_BCUType (bcutype : Z)
| STR_Code (code : CArray)
| STR_StringParameter (addr length : Z) (name : CArray)
| STR_ListParameter (addr : Z) (name : CArray) (elements : list CArray)
| STR_IntParameter (addr type : Z) (name : CArray)
| STR_FloatParameter (addr : Z) (name : CArray)
| STR_GroupObject (no : Z) (name : CArray)
| STR_BCU1Size (s : BCU1Size)
| STR_BCU2Size (s : BCU2Size)
| STR_BCU2Start (s : BCU2Start)
| STR_BCU2Key (installkey : Z) (keys : list Z).

Inductive STR_Type :=
| S_Invalid | S_Unknown | S_BCUType | S_Code | S_StringParameter | S_IntParameter | S_FloatParameter
| S_ListParameter | S_GroupObject | S_BCU1Size | S_BCU2Size | S_BCU2Start | S_BCU2Key.

#[export] Instance STR_Type_eq_dec : EqDecision STR_Type.
Proof. solve_decision. Defined.
#[export] Instance BCU1Size_eq_dec : EqDecision BCU1Size.
Proof. solve_decision. Defined.
#[export] Instance BCU2Size_eq_dec : EqDecision BCU2Size.
Proof. solve_decision. Defined.
#[export] Instance BCU2Start_eq_dec : EqDecision BCU2Start.
Proof. solve_decision. Defined.
#[export] Instance STR_Stream_eq_dec : EqDecision STR_Stream.
Proof. solve_decision. Defined.

Definition STR_getType (s : STR_Stream) : STR_Type :=
  match s with
  | STR_Invalid _ => S_Invalid
  | STR_Unknown _ _ => S_Unknown
  | STR_BCUType _ => S_BCUType
  | STR_Code _ => S_Code
  | STR_StringParameter _ _ _ => S_StringParameter
  | STR_ListParameter _ _ _ => S_ListParameter
  | STR_IntParameter _ _ _ => S_IntParameter
  | STR_FloatParameter _ _ => S_FloatParameter
  | STR_GroupObject _ _ => S_GroupObject
  | STR_BCU1Size _ => S_BCU1Size
  | STR_BCU2Size _ => S_BCU2Size
  | STR_BCU2Start _ => S_BCU2Start
  | STR_BCU2Key _ _ => S_BCU2Key
  end.

(** ** Reading *)

(** [c[i] << 8 | c[i + 1]] *)
Definition word (c : CArray) (i : nat) : outcome Z :=
  h ← at_ c i; l ← at_ c (i + 1); Ret (be16 h l).

Fixpoint nul_in (l : CArray) (i : nat) : outcome nat :=
  match l with
  | [] => Fault OutOfRange
  | b :: l => if b =? 0 then Ret i else nul_in l (S i)
  end.

(** The loop that advances [d] to a zero byte, for a pointer to [c[i]]. *)
Definition find_nul (c : CArray) (i : nat) : outcome nat := nul_in (drop i c) i.

Definition STR_Unknown_init (c : CArray) : outcome (option STR_Stream) :=
  d ← slice c 4 (size c - 4);
  t ← word c 2;
  Ret (Some (STR_Unknown t d)).

Definition STR_BCUType_init (c : CArray) : outcome (option STR_Stream) :=
  if decide (size c <> 6%nat) then Ret None
  else t ← word c 4; Ret (Some (STR_BCUType t)).

Definition STR_Code_init (c : CArray) : outcome (option STR_Stream) :=
  d ← slice c 4 (size c - 4); Ret (Some (STR_Code d)).

(** The common end of four [init] methods: the rest of the stream from [off] is one
    string with its terminating zero. *)
Definition last_name (c : CArray) (off : nat) : outcome (option CArray) :=
  z ← at_ c (size c - 1);
  if nz z then Ret None
  else
    d ← find_nul c off;
    if decide (d <> (size c - 1)%nat) then Ret None
    else Ret (Some (take (d - off) (drop off c))).

Definition STR_StringParameter_init (c : CArray) : outcome (option STR_Stream) :=
  if decide (size c < 9)%nat then Ret None
  else
    addr ← word c 4;
    length ← word c 6;
    n ← last_name c 8;
    Ret (option_map (STR_StringParameter addr length) n).

(** A conversion to [int8_t]. *)
Definition s8 (z : Z) : Z := let u := u8 z in if decide (u < 128) then u else u - 256.

Definition STR_IntParameter_init (c : CArray) : outcome (option STR_Stream) :=
  if decide (size c < 8)%nat then Ret None
  else
    addr ← word c 4;
    t ← at_ c 6;
    n ← last_name c 7;
    Ret (option_map (STR_IntParameter addr (s8 t)) n).

Definition STR_FloatParameter_init (c : CArray) : outcome (option STR_Stream) :=
  if decide (size c < 7)%nat then Ret None
  else
    addr ← word c 4;
    n ← last_name c 6;
    Ret (option_map (STR_FloatParameter addr) n).

Definition STR_GroupObject_init (c : CArray) : outcome (option STR_Stream) :=
  if decide (size c < 6)%nat then Ret None
  else
    no ← at_ c 4;
    n ← last_name c 5;
    Ret (option_map (STR_GroupObject no) n).

(** The loop over the elements, of which [el] are missing: [None] where the code returns
    false, otherwise the elements and where the pointer is in the end. *)
Fixpoint list_elements (c : CArray) (el : nat) (d : nat) : outcome (option (list CArray * nat)) :=
  match el with
  | O => Ret (Some ([], d))
  | S el =>
      e ← find_nul c d;
      if decide (size c - 1 < e)%nat then Ret None
      else if decide (size c < e + 1)%nat then Ret None
      else
        r ← list_elements c el (e + 1);
        Ret (option_map (fun '(es, d') => (take (e - d) (drop d c) :: es, d')) r)
  end.

Definition STR_ListParameter_init (c : CArray) : outcome (option STR_Stream) :=
  if decide (size c < 9)%nat then Ret None
  else
    addr ← word c 4;
    el ← word c 6;
    z ← at_ c (size c - 1);
    if nz z then Ret None
    else
      d ← find_nul c 8;
      if decide (size c - 1 < d)%nat then Ret None
      else if decide (size c - 1 < d + 1)%nat then Ret None
      else
        r ← list_elements c (Z.to_nat el) (d + 1);
        Ret (match r with
             | Some (es, d') =>
                 if decide (d' <> size c) then None
                 else Some (STR_ListParameter addr (take (d - 8) (drop 8 c)) es)
             | None => None
             end).

Definition STR_BCU1Size_init (c : CArray) : outcome (option STR_Stream) :=
  if decide (size c <> 12%nat) then Ret None
  else
    textsize ← word c 4;
    stacksize ← word c 6;
    datasize ← word c 8;
    bsssize ← word c 10;
    Ret (Some (STR_BCU1Size (mkBCU1Size textsize stacksize datasize bsssize))).

Definition STR_BCU2Size_init (c : CArray) : outcome (option STR_Stream) :=
  if decide (size c <> 16%nat) then Ret None
  else
    textsize ← word c 4;
    stacksize ← word c 6;
    lo_data ← word c 8;
    lo_bss ← word c 10;
    hi_data ← word c 12;
    hi_bss ← word c 14;
    Ret (Some (STR_BCU2Size (mkBCU2Size textsize stacksize lo_data lo_bss hi_data hi_bss))).

Definition STR_BCU2Start_init (c : CArray) : outcome (option STR_Stream) :=
  if decide (size c <> 47%nat) then Ret None
  else
    addrtab_start ← word c 4;
    addrtab_size ← word c 6;
    assoctab_start ← word c 8;
    assoctab_size ← word c 10;
    readonly_start ← word c 12;
    readonly_end ← word c 14;
    param_start ← word c 16;
    param_end ← word c 18;
    obj_ptr ← word c 20;
    obj_count ← word c 22;
    appcallback ← word c 24;
    groupobj_ptr ← word c 26;
    seg0 ← word c 28;
    seg1 ← word c 30;
    sphandler ← word c 32;
    initaddr ← word c 34;
    runaddr ← word c 36;
    saveaddr ← word c 38;
    eeprom_start ← word c 40;
    eeprom_end ← word c 42;
    poll_addr ← word c 44;
    poll_slot ← at_ c 46;
    Ret (Some (STR_BCU2Start (mkBCU2Start addrtab_start addrtab_size assoctab_start assoctab_size
      readonly_start readonly_end param_start param_end obj_ptr obj_count appcallback groupobj_ptr
      seg0 seg1 sphandler initaddr runaddr saveaddr eeprom_start eeprom_end poll_addr poll_slot))).

Definition key_at (c : CArray) (i : nat) : outcome Z :=
  a ← at_ c i; b ← at_ c (i + 1); d ← at_ c (i + 2); e ← at_ c (i + 3);
  Ret (u32 (be32 a b d e)).

(** [for (i = 8; i < c.size(); i += 4) keys.push_back (...)], [n] rounds of it. *)
Fixpoint keys_from (c : CArray) (i n : nat) : outcome (list Z) :=
  match n with
  | O => Ret []
  | S n => k ← key_at c i; ks ← keys_from c (i + 4) n; Ret (k :: ks)
  end.

Definition STR_BCU2Key_init (c : CArray) : outcome (option STR_Stream) :=
  if decide (size c mod 4 <> 0)%nat then Ret None
  else if decide (size c < 8)%nat then Ret None
  else
    installkey ← key_at c 4;
    keys ← keys_from c 8 ((size c - 8) / 4);
    Ret (Some (STR_BCU2Key installkey keys)).

Definition STR_init (t : Z) (c : CArray) : outcome (option STR_Stream) :=
  if t =? L_STRING_PAR then STR_StringParameter_init c
  else if t =? L_INT_PAR then STR_IntParameter_init c
  else if t =? L_FLOAT_PAR then STR_FloatParameter_init c
  else if t =? L_LIST_PAR then STR_ListParameter_init c
  else if t =? L_GROUP_OBJECT then STR_GroupObject_init c
  else if t =? L_BCU_TYPE then STR_BCUType_init c
  else if t =? L_BCU2_INIT then STR_BCU2Start_init c
  else if t =? L_CODE then STR_Code_init c
  else if t =? L_BCU1_SIZE then STR_BCU1Size_init c
  else if t =? L_BCU2_SIZE then STR_BCU2Size_init c
  else if t =? L_BCU2_KEY then STR_BCU2Key_init c
  else STR_Unknown_init c.

Definition STR_fromArray (c : CArray) : outcome STR_Stream :=
  _ ← assert_ (bool_decide (4 <= size c)%nat);
  len ← word c 0;
  _ ← assert_ (len + 2 =? Z.of_nat (size c));
  t ← word c 2;
  r ← STR_init t c;
  Ret (match r with Some s => s | None => STR_Invalid c end).

(** ** Writing *)

(** [d[i] = (v >> 8) & 0xff; d[i + 1] = v & 0xff;] *)
Definition put_word (d : CArray) (i : nat) (v : Z) : outcome CArray :=
  d ← put d i (Z.land (v ≫ 8) 0xff); put d (i + 1) (Z.land v 0xff).

Definition put_key (d : CArray) (i : nat) (v : Z) : outcome CArray :=
  d ← put d i (Z.land (v ≫ 24) 0xff);
  d ← put d (i + 1) (Z.land (v ≫ 16) 0xff);
  d ← put d (i + 2) (Z.land (v ≫ 8) 0xff);
  put d (i + 3) (Z.land v 0xff).

(** A stream with its length, a [uint16_t], and its type. *)
Definition stream_header (len t : Z) : outcome CArray :=
  let len := u16 len in
  d ← put_word (resize [] (2 + Z.to_nat len)) 0 len;
  put_word d 2 t.

(** [setpart (name, start)] copies the terminating zero too. *)
Definition set_string (d name : CArray) (start : nat) : outcome CArray :=
  setpart d (name ++ [0]) start (size name + 1).

Fixpoint put_keys (d : CArray) (i : nat) (ks : list Z) : outcome CArray :=
  match ks with
  | [] => Ret d
  | k :: ks => d ← put_key d i k; put_keys d (i + 4) ks
  end.

(** The loop over the elements; the position is a [uint16_t]. *)
Fixpoint set_strings (d : CArray) (p : Z) (es : list CArray) : outcome CArray :=
  match es with
  | [] => Ret d
  | e :: es => d ← set_string d e (Z.to_nat p); set_strings d (u16 (p + Z.of_nat (size e) + 1)) es
  end.

Fixpoint put_words (d : CArray) (i : nat) (vs : list Z) : outcome CArray :=
  match vs with
  | [] => Ret d
  | v :: vs => d ← put_word d i v; put_words d (i + 2) vs
  end.

(** The fields of [STR_BCU2Start] in the order in which they are written. *)
Definition start_words (s : BCU2Start) : list Z :=
  [addrtab_start s; addrtab_size s; assoctab_start s; assoctab_size s; readonly_start s; readonly_end s;
   param_start s; param_end s; obj_ptr s; obj_count s; appcallback s; groupobj_ptr s; seg0 s; seg1 s;
   sphandler s; initaddr s; runaddr s; saveaddr s; eeprom_start s; eeprom_end s; poll_addr s].

(** [len] of [STR_ListParameter::toArray], added up in a [uint16_t]. *)
Definition list_len (name : CArray) (es : list CArray) : Z :=
  fold_left (fun n e => u16 (n + Z.of_nat (size e) + 1)) es (u16 (7 + Z.of_nat (size name))).

Definition STR_Invalid_toArray (data : CArray) : outcome CArray := Ret data.

Definition STR_Unknown_toArray (type : Z) (data : CArray) : outcome CArray :=
  d ← stream_header (2 + Z.of_nat (size data)) type;
  setpart_all d data 4.

Definition STR_BCUType_toArray (bcutype : Z) : outcome CArray := d ← stream_header 4 L_BCU_TYPE; put_word d 4 bcutype.

Definition STR_Code_toArray (code : CArray) : outcome CArray :=
  d ← stream_header (2 + Z.of_nat (size code)) L_CODE;
  setpart_all d code 4.

Definition STR_StringParameter_toArray (addr : Z) (length : Z) (name : CArray) : outcome CArray :=
  d ← stream_header (7 + Z.of_nat (size name)) L_STRING_PAR;
  d ← put_word d 4 addr;
  d ← put_word d 6 length;
  set_string d name 8.

Definition STR_IntParameter_toArray (addr : Z) (type : Z) (name : CArray) : outcome CArray :=
  d ← stream_header (6 + Z.of_nat (size name)) L_INT_PAR;
  d ← put_word d 4 addr;
  d ← put d 6 (Z.land type 0xff);
  set_string d name 7.

Definition STR_FloatParameter_toArray (addr : Z) (name : CArray) : outcome CArray :=
  d ← stream_header (5 + Z.of_nat (size name)) L_FLOAT_PAR;
  d ← put_word d 4 addr;
  set_string d name 6.

Definition STR_ListParameter_toArray (addr : Z) (name : CArray) (elements : list CArray) : outcome CArray :=
  d ← stream_header (list_len name elements) L_LIST_PAR;
  d ← put_word d 4 addr;
  d ← put_word d 6 (Z.of_nat (length elements));
  d ← set_string d name 8;
  set_strings d (u16 (8 + Z.of_nat (size name) + 1)) elements.

Definition STR_GroupObject_toArray (no : Z) (name : CArray) : outcome CArray :=
  d ← stream_header (4 + Z.of_nat (size name)) L_GROUP_OBJECT;
  d ← put d 4 (Z.land no 0xff);
  set_string d name 5.

Definition STR_BCU1Size_toArray (s : BCU1Size) : outcome CArray :=
  d ← stream_header 10 L_BCU1_SIZE;
  put_words d 4 [b1_textsize s; b1_stacksize s; b1_datasize s; b1_bsssize s].

Definition STR_BCU2Size_toArray (s : BCU2Size) : outcome CArray :=
  d ← stream_header 14 L_BCU2_SIZE;
  put_words d 4 [b2_textsize s; b2_stacksize s; lo_datasize s; lo_bsssize s; hi_datasize s; hi_bsssize s].

Definition STR_BCU2Start_toArray (s : BCU2Start) : outcome CArray :=
  d ← stream_header 45 L_BCU2_INIT;
  d ← put_words d 4 (start_words s);
  put d 46 (Z.land (poll_slot s) 0xff).

Definition STR_BCU2Key_toArray (installkey : Z) (keys : list Z) : outcome CArray :=
  d ← stream_header (Z.of_nat (length keys) * 4 + 4 + 2) L_BCU2_KEY;
  d ← put_key d 4 installkey;
  put_keys d 8 keys.

(** The virtual method. *)
Definition STR_toArray (s : STR_Stream) : outcome CArray :=
  match s with
  | STR_Invalid data => STR_Invalid_toArray data
  | STR_Unknown type data => STR_Unknown_toArray type data
  | STR_BCUType bcutype => STR_BCUType_toArray bcutype
  | STR_Code code => STR_Code_toArray code
  | STR_StringParameter addr length name => STR_StringParameter_toArray addr length name
  | STR_IntParameter addr type name => STR_IntParameter_toArray addr type name
  | STR_FloatParameter addr name => STR_FloatParameter_toArray addr name
  | STR_ListParameter addr name elements => STR_ListParameter_toArray addr name elements
  | STR_GroupObject no name => STR_GroupObject_toArray no name
  | STR_BCU1Size s => STR_BCU1Size_toArray s
  | STR_BCU2Size s => STR_BCU2Size_toArray s
  | STR_BCU2Start s => STR_BCU2Start_toArray s
  | STR_BCU2Key installkey keys => STR_BCU2Key_toArray installkey keys
  end.

(** ** Files *)

Definition Image : Type := list STR_Stream.

Fixpoint append_streams (data : CArray) (im : Image) : outcome CArray :=
  match im with
  | [] => Ret data
  | s :: im => a ← STR_toArray s; data ← setpart_all data a (size data); append_streams data im
  end.

(** The size is stored before the streams are appended. *)
Definition Image_toArray (im : Image) : outcome CArray :=
  let data := resize [] 10 in
  data ← put data 0 0xbc;
  data ← put data 1 0x68;
  data ← put data 2 0x0c;
  data ← put data 3 0x05;
  data ← put data 4 0xbc;
  data ← put data 5 0x68;
  data ← put data 6 0x0c;
  data ← put data 7 0x05;
  data ← put_word data 8 (Z.of_nat (size data));
  append_streams data im.

(** The loop of [Image::fromArray] at [pos]; every round advances by at least four
    bytes. *)
Fixpoint streams_from (rounds : nat) (c : CArray) (pos : nat) : outcome (option Image) :=
  if decide (size c <= pos)%nat then Ret (Some [])
  else
    match rounds with
    | O => Fault Endless
    | S rounds =>
        if decide (size c <= pos + 4)%nat then Ret None
        else
          len ← word c pos;
          let len := Z.to_nat len in
          if bool_decide (size c < pos + 2 + len)%nat || bool_decide (len < 2)%nat then Ret None
          else
            d ← slice c pos (len + 2);
            s ← STR_fromArray d;
            r ← streams_from rounds c (pos + (len + 2));
            Ret (option_map (cons s) r)
    end.

Definition magic : CArray := [0xbc; 0x68; 0x0c; 0x05; 0xbc; 0x68; 0x0c; 0x05].

Definition Image_fromArray (c : CArray) : outcome (option Image) :=
  if decide (size c < 10)%nat then Ret None
  else
    m ← slice c 0 8;
    if decide (m <> magic) then Ret None
    else
      h ← at_ c 8;
      l ← at_ c 9;
      if negb (h =? Z.land (Z.of_nat (size c) ≫ 8) 0xff) then Ret None
      else if negb (l =? Z.land (Z.of_nat (size c)) 0xff) then Ret None
      else streams_from (size c) c 10.

Definition Image_findStreamNumber (im : Image) (t : STR_Type) : Z :=
  match list_find (fun s => STR_getType s = t) im with
  | Some (i, _) => Z.of_nat i
  | None => -1
  end.

Definition Image_findStream (im : Image) (t : STR_Type) : outcome (option STR_Stream) :=
  let i := Image_findStreamNumber im t in
  if i =? -1 then Ret None
  else match im !! Z.to_nat i with Some s => Ret (Some s) | None => Fault OutOfRange end.

Definition Image_isValid (im : Image) : bool := Image_findStreamNumber im S_Invalid =? -1.

(** ** Text *)

Definition hexdigit_lower (d : Z) : ascii :=
  if decide (d < 10) then ascii_of_nat (48 + Z.to_nat d) else ascii_of_nat (87 + Z.to_nat d).

(** [%0nx] of an unsigned value of at most [n] hexadecimal digits. *)
Fixpoint hexx (n : nat) (z : Z) : string :=
  match n with
  | O => ""
  | S n => hexx n (z ≫ 4) +:+ String (hexdigit_lower (Z.land z 0xf)) ""
  end.

(** [%04X] of an unsigned value, which is longer when the value is. *)
Definition hexX4 (z : Z) : string := hexX (max 4 (Z.to_nat (Z.log2 z / 4 + 1))) z.

(** [%s] of [c_str ()]: the bytes before the first zero. *)
Fixpoint text_of (c : CArray) : string :=
  match c with
  | [] => ""
  | b :: c => if b =? 0 then "" else String (ascii_of_nat (Z.to_nat b)) (text_of c)
  end.

(** [sprintf] into [char buf[n]]: the text and its terminating zero have to fit. *)
Definition printed (n : nat) (s : string) : outcome string :=
  if decide (String.length s + 1 <= n)%nat then Ret s else Fault OutOfRange.

Definition nl : string := String (ascii_of_nat 10) "".

(** The loop of [HexDump] from [i] on. *)
Fixpoint HexDump_loop (i : nat) (c : CArray) (s : string) : outcome string :=
  match c with
  | [] => Ret s
  | b :: c =>
      t ← printed 200 (hexx 2 b +:+ " ");
      let s := s +:+ t in
      s ← (if (i mod 16 =? 15)%nat
           then t ← printed 200 (nl +:+ hexX4 (Z.of_nat (i + 1)) +:+ " "); Ret (s +:+ t)
           else Ret s);
      HexDump_loop (S i) c s
  end.

Definition HexDump (data : CArray) : outcome string :=
  s ← printed 200 (hexX4 0 +:+ " ");
  s ← HexDump_loop 0 data s;
  Ret (s +:+ nl).

(** [1 << n] of an [int], undefined for a shift outside the width. *)
Definition shl1 (n : Z) : outcome Z :=
  if decide (0 <= n < 32) then Ret (if decide (n = 31) then - 2 ^ 31 else 2 ^ n) else Fault Overflow.

Fixpoint elements_text (es : list CArray) (s : string) : outcome string :=
  match es with
  | [] => Ret s
  | e :: es => t ← printed 200 (text_of e +:+ ","); elements_text es (s +:+ t)
  end.

Fixpoint keys_text (i : nat) (ks : list Z) (s : string) : outcome string :=
  match ks with
  | [] => Ret s
  | k :: ks =>
      t ← printed 200 ("level" +:+ dec (Z.of_nat i) +:+ ": " +:+ hexX 8 k +:+ " ");
      keys_text (S i) ks (s +:+ t)
  end.

Definition STR_Invalid_decode (data : CArray) : outcome string :=
  s ← printed 200 ("Invalid:" +:+ nl); h ← HexDump data; Ret (s +:+ h).

Definition STR_Unknown_decode (type : Z) (data : CArray) : outcome string :=
  s ← printed 200 ("Unknown " +:+ hexx 4 type +:+ ":" +:+ nl); h ← HexDump data; Ret (s +:+ h).

Definition STR_BCUType_decode (bcutype : Z) : outcome string := printed 200 ("Maskversion: " +:+ hexx 4 bcutype +:+ nl).

Definition STR_Code_decode (code : CArray) : outcome string :=
  s ← printed 200 ("Code:" +:+ nl); h ← HexDump code; Ret (s +:+ h).

Definition STR_StringParameter_decode (addr : Z) (length : Z) (name : CArray) : outcome string :=
  printed 200 ("StringParameter: addr=" +:+ hexx 4 addr +:+ " id=" +:+ text_of name +:+
               " length=" +:+ dec length +:+ nl).

Definition STR_IntParameter_decode (addr : Z) (type : Z) (name : CArray) : outcome string :=
  n ← shl1 (Z.abs type - 1);
  printed 200 ("IntParameter: addr=" +:+ hexx 4 addr +:+ " id=" +:+ text_of name +:+ " type=" +:+
               (if decide (type < 0) then "signed" else "unsigned") +:+ " " +:+ dec n +:+
               " bytes" +:+ nl).

Definition STR_FloatParameter_decode (addr : Z) (name : CArray) : outcome string :=
  printed 200 ("FloatParameter: addr=" +:+ hexx 4 addr +:+ " id=" +:+ text_of name +:+ nl).

Definition STR_ListParameter_decode (addr : Z) (name : CArray) (elements : list CArray) : outcome string :=
  s ← printed 200 ("ListParameter: addr=" +:+ hexx 4 addr +:+ " id=" +:+ text_of name +:+
                   " elements=");
  s ← elements_text elements s;
  Ret (s +:+ nl).

Definition STR_GroupObject_decode (no : Z) (name : CArray) : outcome string :=
  printed 200 ("GROUP_OBJECT " +:+ dec no +:+ ": id=" +:+ text_of name +:+ nl).

Definition STR_BCU1Size_decode (s : BCU1Size) : outcome string :=
  printed 200 ("BCU1_SIZE: text:" +:+ dec (b1_textsize s) +:+ " stack:" +:+ dec (b1_stacksize s) +:+
               " data:" +:+ dec (b1_datasize s) +:+ " bss:" +:+ dec (b1_bsssize s) +:+ nl).

Definition STR_BCU2Size_decode (s : BCU2Size) : outcome string :=
  printed 200 ("BCU2_SIZE: text:" +:+ dec (b2_textsize s) +:+ " stack:" +:+ dec (b2_stacksize s) +:+
               " lo_data:" +:+ dec (lo_datasize s) +:+ " lo_bss:" +:+ dec (lo_bsssize s) +:+
               " hi_data:" +:+ dec (hi_datasize s) +:+ " hi_bss:" +:+ dec (hi_bsssize s) +:+ nl).

Definition STR_BCU2Start_decode (s : BCU2Start) : outcome string :=
  printed 600 ("BCU2_INIT: init:" +:+ hexX 4 (initaddr s) +:+ " run:" +:+ hexX 4 (runaddr s) +:+
               " save:" +:+ hexX 4 (saveaddr s) +:+ " addr_tab:" +:+ hexX 4 (addrtab_start s) +:+
               "(" +:+ dec (addrtab_size s) +:+ ") assoc_tab:" +:+ hexX 4 (assoctab_start s) +:+
               "(" +:+ dec (assoctab_size s) +:+ ") text:" +:+ hexX 4 (readonly_start s) +:+
               "-" +:+ hexX 4 (readonly_end s) +:+ nl +:+
               " param:" +:+ hexX 4 (param_start s) +:+ "-" +:+ hexX 4 (param_end s) +:+
               " obj:" +:+ hexX 4 (obj_ptr s) +:+ "(" +:+ dec (obj_count s) +:+
               ") appcallback:" +:+ hexX 4 (appcallback s) +:+ nl +:+
               " groupobj:" +:+ hexX 4 (groupobj_ptr s) +:+ " seg0:" +:+ hexX 4 (seg0 s) +:+
               " seg1:" +:+ hexX 4 (seg1 s) +:+ " sphandler:" +:+ hexX 4 (sphandler s) +:+
               " eeprom:" +:+ hexX 4 (eeprom_start s) +:+ "-" +:+ hexX 4 (eeprom_end s) +:+
               " poll_addr:" +:+ hexX 4 (poll_addr s) +:+ " poll_slot:" +:+ dec (poll_slot s) +:+ nl).

Definition STR_BCU2Key_decode (installkey : Z) (keys : list Z) : outcome string :=
  s ← printed 200 ("BCU2_KEY: install:" +:+ hexX 8 installkey +:+ " "); keys_text 0 keys s.

(** The virtual method. *)
Definition STR_decode (s : STR_Stream) : outcome string :=
  match s with
  | STR_Invalid data => STR_Invalid_decode data
  | STR_Unknown type data => STR_Unknown_decode type data
  | STR_BCUType bcutype => STR_BCUType_decode bcutype
  | STR_Code code => STR_Code_decode code
  | STR_StringParameter addr length name => STR_StringParameter_decode addr length name
  | STR_IntParameter addr type name => STR_IntParameter_decode addr type name
  | STR_FloatParameter addr name => STR_FloatParameter_decode addr name
  | STR_ListParameter addr name elements => STR_ListParameter_decode addr name elements
  | STR_GroupObject no name => STR_GroupObject_decode no name
  | STR_BCU1Size s => STR_BCU1Size_decode s
  | STR_BCU2Size s => STR_BCU2Size_decode s
  | STR_BCU2Start s => STR_BCU2Start_decode s
  | STR_BCU2Key installkey keys => STR_BCU2Key_decode installkey keys
  end.

Fixpoint streams_text (im : Image) (s : string) : outcome string :=
  match im with
  | [] => Ret s
  | x :: im => t ← STR_decode x; streams_text im (s +:+ t)
  end.

Definition Image_decode (im : Image) : outcome string := streams_text im ("BCU Memory Image" +:+ nl).

(** The methods, for [autounfold]. *)
Create HintDb image.
#[export] Hint Unfold
  STR_Invalid_toArray STR_Unknown_toArray STR_BCUType_toArray STR_Code_toArray STR_StringParameter_toArray STR_IntParameter_toArray STR_FloatParameter_toArray STR_ListParameter_toArray STR_GroupObject_toArray STR_BCU1Size_toArray STR_BCU2Size_toArray STR_BCU2Start_toArray STR_BCU2Key_toArray
  STR_Invalid_decode STR_Unknown_decode STR_BCUType_decode STR_Code_decode STR_StringParameter_decode STR_IntParameter_decode STR_FloatParameter_decode STR_ListParameter_decode STR_GroupObject_decode STR_BCU1Size_decode STR_BCU2Size_decode STR_BCU2Start_decode STR_BCU2Key_decode : image.
