(* ===== verification/ImageSpec.v ===== *)
(** * Images of BCU programs: reading and writing

    What [STR_fromArray], [STR_toArray], [Image_fromArray] and [Image_toArray] of
    [Image] promise.  A stream that is well formed is written as its length, its type
    and its contents and read back; reading is safe for every kind of stream but one, the
    list parameter, whose element count is trusted; a file written by
    [Image::toArray] states the size ten and is not read back. *)

From S2P Require Import Prelude CArray Common Apdu Image.

Local Open Scope Z_scope.

(** ** The written form *)

Definition w16 (v : Z) : CArray := [u8 (v ≫ 8); u8 v].
Definition w32 (v : Z) : CArray := [u8 (v ≫ 24); u8 (v ≫ 16); u8 (v ≫ 8); u8 v].

Definition stream_code (s : STR_Stream) : Z :=
  match s with
  | STR_Invalid _ => 0
  | STR_Unknown t _ => t
  | STR_BCUType _ => L_BCU_TYPE
  | STR_Code _ => L_CODE
  | STR_StringParameter _ _ _ => L_STRING_PAR
  | STR_ListParameter _ _ _ => L_LIST_PAR
  | STR_IntParameter _ _ _ => L_INT_PAR
  | STR_FloatParameter _ _ => L_FLOAT_PAR
  | STR_GroupObject _ _ => L_GROUP_OBJECT
  | STR_BCU1Size _ => L_BCU1_SIZE
  | STR_BCU2Size _ => L_BCU2_SIZE
  | STR_BCU2Start _ => L_BCU2_INIT
  | STR_BCU2Key _ _ => L_BCU2_KEY
  end.

Definition terminated (n : CArray) : CArray := n ++ [0].

Definition payload (s : STR_Stream) : CArray :=
  match s with
  | STR_Invalid d => d
  | STR_Unknown _ d => d
  | STR_BCUType b => w16 b
  | STR_Code d => d
  | STR_StringParameter a l n => w16 a ++ w16 l ++ terminated n
  | STR_ListParameter a n es => w16 a ++ w16 (Z.of_nat (length es)) ++ terminated n ++ concat (terminated <$> es)
  | STR_IntParameter a t n => w16 a ++ [u8 t] ++ terminated n
  | STR_FloatParameter a n => w16 a ++ terminated n
  | STR_GroupObject i n => [u8 i] ++ terminated n
  | STR_BCU1Size s => concat (w16 <$> [b1_textsize s; b1_stacksize s; b1_datasize s; b1_bsssize s])
  | STR_BCU2Size s =>
      concat (w16 <$> [b2_textsize s; b2_stacksize s; lo_datasize s; lo_bsssize s; hi_datasize s; hi_bsssize s])
  | STR_BCU2Start s => concat (w16 <$> start_words s) ++ [u8 (poll_slot s)]
  | STR_BCU2Key k ks => w32 k ++ concat (w32 <$> ks)
  end.

Definition framed (t : Z) (p : CArray) : CArray := w16 (2 + Z.of_nat (size p)) ++ w16 t ++ p.

Definition stream_bytes (s : STR_Stream) : CArray := framed (stream_code s) (payload s).

Definition is_invalid (s : STR_Stream) : bool := match s with STR_Invalid _ => true | _ => false end.

(** The length is stored in sixteen bits, and positions of list elements are computed in
    sixteen bits. *)
Definition fits (s : STR_Stream) : Prop := is_invalid s = false /\ Z.of_nat (size (payload s)) < 65532.

(** A name is stored with a terminating zero. *)
Definition cstring (n : CArray) : Prop := Forall (fun b => 0 < b < 256) n.

Definition known_codes : list Z :=
  [L_CODE; L_BCU1_SIZE; L_BCU2_SIZE; L_BCU_TYPE; L_BCU2_INIT; L_BCU2_KEY; L_STRING_PAR; L_INT_PAR;
   L_FLOAT_PAR; L_LIST_PAR; L_GROUP_OBJECT].

(** The values the fields of each class can hold, with the two restrictions of the
    format: an unknown stream has none of the known types, and a list is not empty. *)
Definition well_formed (s : STR_Stream) : Prop :=
  match s with
  | STR_Invalid _ => False
  | STR_Unknown t d => is_u16 t /\ t ∉ known_codes
  | STR_BCUType b => is_u16 b
  | STR_Code d => True
  | STR_StringParameter a l n => is_u16 a /\ is_u16 l /\ cstring n
  | STR_ListParameter a n es => is_u16 a /\ cstring n /\ es <> [] /\ Forall cstring es
  | STR_IntParameter a t n => is_u16 a /\ -128 <= t < 128 /\ cstring n
  | STR_FloatParameter a n => is_u16 a /\ cstring n
  | STR_GroupObject i n => is_u8 i /\ cstring n
  | STR_BCU1Size s => Forall is_u16 [b1_textsize s; b1_stacksize s; b1_datasize s; b1_bsssize s]
  | STR_BCU2Size s =>
      Forall is_u16 [b2_textsize s; b2_stacksize s; lo_datasize s; lo_bsssize s; hi_datasize s; hi_bsssize s]
  | STR_BCU2Start s => Forall is_u16 (start_words s) /\ is_u8 (poll_slot s)
  | STR_BCU2Key k ks => is_u32 k /\ Forall is_u32 ks
  end.

#[export] Instance cstring_dec n : Decision (cstring n).
Proof. unfold cstring. apply _. Defined.
#[export] Instance well_formed_dec s : Decision (well_formed s).
Proof. destruct s; simpl; apply _. Defined.
#[export] Instance fits_dec s : Decision (fits s).
Proof. unfold fits. apply _. Defined.

(** ** Writing *)

Ltac sizes := unfold size in *; rewrite ?length_app, ?length_replicate in *; simpl length in *; try lia.

Lemma put_word_zero hd n v m :
  m = size hd ->
  put_word (hd ++ replicate (2 + n) 0) m v = Ret ((hd ++ w16 v) ++ replicate n 0).
Proof.
  intros ->. unfold put_word. simpl replicate. rewrite put_mid by done. simpl.
  change (hd ++ ?x :: 0 :: ?l) with (hd ++ [x] ++ 0 :: l). rewrite app_assoc, put_mid by sizes.
  unfold w16. rewrite !land_ff, !u8_u8. by rewrite <-!app_assoc.
Qed.

Lemma put_key_zero hd n v m :
  m = size hd ->
  put_key (hd ++ replicate (4 + n) 0) m v = Ret ((hd ++ w32 v) ++ replicate n 0).
Proof.
  intros ->. unfold put_key. simpl replicate. rewrite put_mid by done. simpl.
  change (hd ++ ?x :: 0 :: 0 :: ?l) with (hd ++ [x] ++ 0 :: 0 :: l). rewrite app_assoc, put_mid by sizes.
  simpl. change ((hd ++ ?y) ++ ?x :: 0 :: ?l) with ((hd ++ y) ++ [x] ++ 0 :: l).
  rewrite app_assoc, put_mid by sizes. simpl.
  change (((hd ++ ?z) ++ ?y) ++ ?x :: 0 :: ?l) with (((hd ++ z) ++ y) ++ [x] ++ 0 :: l).
  rewrite app_assoc, put_mid by sizes.
  unfold w32. rewrite !land_ff, !u8_u8. by rewrite <-!app_assoc.
Qed.

Lemma put_zero hd n v m :
  m = size hd -> put (hd ++ replicate (1 + n) 0) m v = Ret ((hd ++ [u8 v]) ++ replicate n 0).
Proof. intros ->. simpl replicate. rewrite put_mid by done. by rewrite <-app_assoc. Qed.

Lemma size_w16s vs : size (concat (w16 <$> vs)) = (2 * length vs)%nat.
Proof. induction vs as [|v vs IH]; [done|]. rewrite fmap_cons, concat_cons. sizes. Qed.

Lemma size_w32s vs : size (concat (w32 <$> vs)) = (4 * length vs)%nat.
Proof. induction vs as [|v vs IH]; [done|]. rewrite fmap_cons, concat_cons. sizes. Qed.

Lemma put_words_zero vs hd n m :
  m = size hd ->
  put_words (hd ++ replicate (2 * length vs + n) 0) m vs =
  Ret ((hd ++ concat (w16 <$> vs)) ++ replicate n 0).
Proof.
  revert hd m. induction vs as [|v vs IH]; intros hd m ->; simpl concat.
  - by rewrite app_nil_r.
  - change (put_words ?d ?i (v :: vs)) with (d' ← put_word d i v; put_words d' (i + 2) vs).
    replace (2 * length (v :: vs) + n)%nat with (2 + (2 * length vs + n))%nat by (simpl; lia).
    rewrite put_word_zero by done. rewrite bind_Ret. rewrite IH by sizes. by rewrite <-!app_assoc.
Qed.

Lemma put_keys_zero vs hd n m :
  m = size hd ->
  put_keys (hd ++ replicate (4 * length vs + n) 0) m vs =
  Ret ((hd ++ concat (w32 <$> vs)) ++ replicate n 0).
Proof.
  revert hd m. induction vs as [|v vs IH]; intros hd m ->; simpl concat.
  - by rewrite app_nil_r.
  - change (put_keys ?d ?i (v :: vs)) with (d' ← put_key d i v; put_keys d' (i + 4) vs).
    replace (4 * length (v :: vs) + n)%nat with (4 + (4 * length vs + n))%nat by (simpl; lia).
    rewrite put_key_zero by done. rewrite bind_Ret. rewrite IH by sizes. by rewrite <-!app_assoc.
Qed.

Lemma setpart_zero hd d n m k :
  m = size hd -> k = size d ->
  setpart (hd ++ replicate (size d + n) 0) d m k = Ret ((hd ++ d) ++ replicate n 0).
Proof.
  intros -> ->. rewrite replicate_add, setpart_mid by (done || sizes). by rewrite app_assoc.
Qed.

Lemma size_terminated e : size (terminated e) = (size e + 1)%nat.
Proof. unfold terminated. sizes. Qed.

Lemma set_string_zero hd s n m :
  m = size hd ->
  set_string (hd ++ replicate (size s + 1 + n) 0) s m = Ret ((hd ++ terminated s) ++ replicate n 0).
Proof.
  intros ->. unfold set_string. change (s ++ [0]) with (terminated s).
  rewrite <-size_terminated. by rewrite setpart_zero.
Qed.

Lemma header_zero (n : nat) t :
  Z.of_nat n < 65534 ->
  stream_header (2 + Z.of_nat n) t = Ret ((w16 (2 + Z.of_nat n) ++ w16 t) ++ replicate n 0).
Proof.
  intros Hn. unfold stream_header. rewrite u16_small by (unfold is_u16; lia).
  rewrite resize_nil. replace (2 + Z.to_nat (2 + Z.of_nat n))%nat with (2 + (2 + n))%nat by lia.
  pose proof (put_word_zero [] (2 + n) (2 + Z.of_nat n) 0 eq_refl) as E. rewrite !app_nil_l in E.
  rewrite E. rewrite bind_Ret. by rewrite put_word_zero.
Qed.

Lemma set_strings_zero es hd m :
  m = Z.of_nat (size hd) -> Z.of_nat (size hd + size (concat (terminated <$> es))) < 65537 ->
  set_strings (hd ++ replicate (size (concat (terminated <$> es))) 0) m es =
  Ret (hd ++ concat (terminated <$> es)).
Proof.
  revert hd m. induction es as [|e es IH]; intros hd m ->; [done|].
  rewrite fmap_cons, concat_cons. intros Hs.
  assert (size (terminated e ++ concat (terminated <$> es))
          = size e + 1 + size (concat (terminated <$> es)))%nat as E
    by (rewrite <-size_terminated; sizes).
  rewrite E in *. change (set_strings ?d ?p (e :: es)) with
    (d' ← set_string d e (Z.to_nat p); set_strings d' (u16 (p + Z.of_nat (size e) + 1)) es).
  rewrite set_string_zero by lia. rewrite bind_Ret.
  destruct es as [|e' es']; [simpl; by rewrite !app_nil_r|].
  rewrite IH; [by rewrite <-app_assoc| |].
  - rewrite u16_small; unfold is_u16; rewrite fmap_cons, concat_cons in Hs;
      pose proof (size_terminated e); pose proof (size_terminated e'); sizes.
  - pose proof (size_terminated e). sizes.
Qed.

Lemma len_strings es n :
  0 <= n -> n + Z.of_nat (size (concat (terminated <$> es))) < 65536 ->
  fold_left (fun n e => u16 (n + Z.of_nat (size e) + 1)) es n =
  n + Z.of_nat (size (concat (terminated <$> es))).
Proof.
  revert n. induction es as [|e es IH]; intros n Hn; [simpl; unfold size; simpl; lia|].
  rewrite fmap_cons, concat_cons.
  assert (size (terminated e ++ concat (terminated <$> es))
          = size e + 1 + size (concat (terminated <$> es)))%nat as E
    by (rewrite <-size_terminated; sizes).
  rewrite E. intros Hs. simpl fold_left.
  rewrite u16_small by (unfold is_u16; lia). rewrite IH; lia.
Qed.

(** The same steps into [k] zeros left. *)
Section into_zeros.
Context (hd : CArray) (k m : nat).
Hypothesis Hm : m = size hd.

Lemma put_into v : (1 <= k)%nat -> put (hd ++ replicate k 0) m v = Ret ((hd ++ [u8 v]) ++ replicate (k - 1) 0).
Proof using All. intros. replace k with (1 + (k - 1))%nat at 1 by lia. by apply put_zero. Qed.

Lemma put_word_into v :
  (2 <= k)%nat -> put_word (hd ++ replicate k 0) m v = Ret ((hd ++ w16 v) ++ replicate (k - 2) 0).
Proof using All. intros. replace k with (2 + (k - 2))%nat at 1 by lia. by apply put_word_zero. Qed.

Lemma put_key_into v :
  (4 <= k)%nat -> put_key (hd ++ replicate k 0) m v = Ret ((hd ++ w32 v) ++ replicate (k - 4) 0).
Proof using All. intros. replace k with (4 + (k - 4))%nat at 1 by lia. by apply put_key_zero. Qed.

Lemma put_words_into vs :
  (2 * length vs <= k)%nat ->
  put_words (hd ++ replicate k 0) m vs =
  Ret ((hd ++ concat (w16 <$> vs)) ++ replicate (k - 2 * length vs) 0).
Proof using All.
  intros. replace k with (2 * length vs + (k - 2 * length vs))%nat at 1 by lia. by apply put_words_zero.
Qed.

Lemma put_keys_into vs :
  (4 * length vs <= k)%nat ->
  put_keys (hd ++ replicate k 0) m vs =
  Ret ((hd ++ concat (w32 <$> vs)) ++ replicate (k - 4 * length vs) 0).
Proof using All.
  intros. replace k with (4 * length vs + (k - 4 * length vs))%nat at 1 by lia. by apply put_keys_zero.
Qed.

Lemma setpart_into d :
  (size d <= k)%nat -> setpart_all (hd ++ replicate k 0) d m = Ret ((hd ++ d) ++ replicate (k - size d) 0).
Proof using All.
  intros. replace k with (size d + (k - size d))%nat at 1 by lia. by apply setpart_zero.
Qed.

Lemma set_string_into s :
  (size s + 1 <= k)%nat ->
  set_string (hd ++ replicate k 0) s m = Ret ((hd ++ terminated s) ++ replicate (k - (size s + 1)) 0).
Proof using All.
  intros. replace k with (size s + 1 + (k - (size s + 1)))%nat at 1 by lia. by apply set_string_zero.
Qed.
End into_zeros.

Lemma header_into len (n : nat) t :
  len = 2 + Z.of_nat n -> Z.of_nat n < 65534 ->
  stream_header len t = Ret ((w16 (2 + Z.of_nat n) ++ w16 t) ++ replicate n 0).
Proof. intros ->. apply header_zero. Qed.

Lemma size_payload s :
  size (payload s) =
  match s with
  | STR_Invalid d | STR_Unknown _ d | STR_Code d => size d
  | STR_BCUType _ => 2
  | STR_StringParameter _ _ n => 4 + (size n + 1)
  | STR_ListParameter _ n es => 4 + (size n + 1) + size (concat (terminated <$> es))
  | STR_IntParameter _ _ n => 3 + (size n + 1)
  | STR_FloatParameter _ n => 2 + (size n + 1)
  | STR_GroupObject _ n => 1 + (size n + 1)
  | STR_BCU1Size _ => 8
  | STR_BCU2Size _ => 12
  | STR_BCU2Start _ => 43
  | STR_BCU2Key _ ks => 4 + 4 * length ks
  end%nat.
Proof.
  destruct s; cbn [payload]; rewrite <-?size_terminated, <-?size_w32s; try done; sizes.
Qed.

(** Run the writing steps of [STR_toArray] and compare with the frame. *)
Ltac written :=
  rewrite ?bind_Ret;
  repeat (first [rewrite put_into | rewrite put_word_into | rewrite put_key_into | rewrite put_words_into
                | rewrite put_keys_into | rewrite setpart_into | rewrite set_string_into];
          [rewrite ?bind_Ret | by sizes | by sizes]);
  rewrite ?land_ff, ?u8_u8, <-?app_assoc;
  match goal with |- context [replicate ?k 0] => replace k with 0%nat by sizes end;
  cbn [replicate]; rewrite ?app_nil_r; reflexivity.

(** A stream whose length fits is written as its frame. *)
Lemma toArray_bytes s : fits s -> STR_toArray s = Ret (stream_bytes s).
Proof.
  intros [Hi Hs]. unfold stream_bytes, framed. pose proof (size_payload s) as E. rewrite E in *.
  destruct s as [d|t d|b|d|a l n|a n es|a t n|a n|i n|z|z|z|k ks]; [done|..];
    cbn [stream_code STR_toArray payload] in *; autounfold with image.
  all: match goal with |- _ = Ret (w16 (2 + Z.of_nat ?n) ++ _) => rewrite (header_into _ n) end;
    [|try (clear; unfold size; cbn; lia)|lia]; unfold start_words; try written.
  2: { unfold list_len. rewrite u16_small by (unfold is_u16; lia). rewrite len_strings; lia. }
  rewrite bind_Ret.
  rewrite put_word_into, bind_Ret, put_word_into, bind_Ret, set_string_into, bind_Ret by sizes.
  set (ss := concat (terminated <$> es)) in *.
  replace (_ - _)%nat with (size ss) by sizes.
  rewrite u16_small by (clear - Hs; clearbody ss; unfold is_u16; lia).
  subst ss. clear E. rewrite set_strings_zero by (pose proof (size_terminated n); sizes). by rewrite <-!app_assoc.
Qed.

(** ** Reading back *)

Lemma be16_w16 v : is_u16 v -> be16 (u8 (v ≫ 8)) (u8 v) = v.
Proof. intros H. unfold be16. rewrite be16_join. by apply u16_small. Qed.

Lemma key_w32 v : is_u32 v -> u32 (be32 (u8 (v ≫ 24)) (u8 (v ≫ 16)) (u8 (v ≫ 8)) (u8 v)) = v.
Proof. intros H. unfold be32. rewrite be32_join, u32_u32. by apply u32_small. Qed.

Lemma word_mid hd v tl m : m = size hd -> is_u16 v -> word (hd ++ w16 v ++ tl) m = Ret v.
Proof.
  intros -> Hv. unfold word. change (w16 v ++ tl) with (u8 (v ≫ 8) :: u8 v :: tl).
  rewrite (at_mid _ _ _ (size hd) eq_refl), bind_Ret, cons_middle, app_assoc, at_mid by sizes.
  by rewrite bind_Ret, be16_w16.
Qed.

Lemma key_mid hd v tl m : m = size hd -> is_u32 v -> key_at (hd ++ w32 v ++ tl) m = Ret v.
Proof.
  intros -> Hv. unfold key_at.
  change (w32 v ++ tl) with (u8 (v ≫ 24) :: u8 (v ≫ 16) :: u8 (v ≫ 8) :: u8 v :: tl).
  rewrite (at_mid _ _ _ (size hd) eq_refl), bind_Ret, cons_middle, app_assoc.
  rewrite (at_mid _ _ _ (size hd + 1)) by sizes. rewrite bind_Ret, cons_middle, app_assoc.
  rewrite (at_mid _ _ _ (size hd + 2)) by sizes. rewrite bind_Ret, cons_middle, app_assoc.
  rewrite at_mid by sizes. by rewrite bind_Ret, key_w32.
Qed.

Lemma nul_in_name n tl i : cstring n -> nul_in (n ++ 0 :: tl) i = Ret (i + size n)%nat.
Proof.
  intros H. revert i. induction H as [|b n Hb _ IH]; intros i; simpl.
  - by rewrite Nat.add_0_r.
  - destruct (Z.eqb_spec b 0); [lia|]. rewrite IH. f_equal. unfold size. simpl. lia.
Qed.

Lemma find_nul_name hd n tl m :
  m = size hd -> cstring n -> find_nul (hd ++ terminated n ++ tl) m = Ret (m + size n)%nat.
Proof.
  intros -> H. unfold find_nul, terminated. unfold size at 1. rewrite drop_app_length, <-app_assoc.
  by apply nul_in_name.
Qed.

Lemma last_name_ok hd n m :
  m = size hd -> cstring n -> last_name (hd ++ terminated n) m = Ret (Some n).
Proof.
  intros -> H. pose proof (size_terminated n) as En. unfold last_name.
  assert (at_ (hd ++ terminated n) (size (hd ++ terminated n) - 1) = Ret 0) as ->.
  { unfold terminated. rewrite app_assoc. apply at_mid. sizes. }
  rewrite bind_Ret. pose proof (find_nul_name hd n [] (size hd) eq_refl H) as E.
  rewrite app_nil_r in E. rewrite E, bind_Ret.
  change (nz 0) with false. cbv beta iota.
  rewrite decide_False by (sizes; lia). rewrite Nat.add_comm, Nat.add_sub.
  unfold size. rewrite drop_app_length. unfold terminated. by rewrite take_app_length.
Qed.

Lemma list_elements_ok es hd m :
  m = size hd -> Forall cstring es ->
  list_elements (hd ++ concat (terminated <$> es)) (length es) m =
  Ret (Some (es, size (hd ++ concat (terminated <$> es)))).
Proof.
  intros Hm H. revert hd m Hm. induction H as [|e es He _ IH]; intros hd m ->.
  - simpl. by rewrite app_nil_r.
  - rewrite fmap_cons, concat_cons. pose proof (size_terminated e) as Ee. simpl list_elements.
    rewrite find_nul_name by done. rewrite bind_Ret.
    rewrite !decide_False by sizes.
    rewrite app_assoc, IH by sizes. rewrite bind_Ret. simpl. do 5 f_equal.
    rewrite Nat.add_comm, Nat.add_sub. unfold size. rewrite <-app_assoc, drop_app_length.
    unfold terminated. by rewrite <-app_assoc, take_app_length.
Qed.

Lemma keys_from_ok ks hd tl m :
  m = size hd -> Forall is_u32 ks ->
  keys_from (hd ++ concat (w32 <$> ks) ++ tl) m (length ks) = Ret ks.
Proof.
  intros Hm H. revert hd m Hm. induction H as [|k ks Hk _ IH]; intros hd m ->; [done|].
  rewrite fmap_cons, concat_cons, <-app_assoc.
  change (keys_from ?c ?i (length (k :: ks))) with
    (k' ← key_at c i; ks' ← keys_from c (i + 4) (length ks); Ret (k' :: ks')).
  rewrite key_mid, bind_Ret by done. rewrite app_assoc, IH by sizes. done.
Qed.

Lemma word_here v tl : is_u16 v -> word (w16 v ++ tl) 0 = Ret v.
Proof. by apply (word_mid []). Qed.

Lemma word_last v : is_u16 v -> word (w16 v) 0 = Ret v.
Proof. intros H. rewrite <-(app_nil_r (w16 v)). by apply word_here. Qed.

Lemma word_skip v tl i : word (w16 v ++ tl) (S (S i)) = word tl i.
Proof. reflexivity. Qed.

Lemma at_skip v tl i : at_ (w16 v ++ tl) (S (S i)) = at_ tl i.
Proof. reflexivity. Qed.

Lemma s8_u8 t : -128 <= t < 128 -> s8 (u8 t) = t.
Proof.
  intros H. unfold s8. rewrite u8_u8, u8_mod. destruct (decide (0 <= t)).
  - rewrite Z.mod_small, decide_True by lia. done.
  - rewrite <-(Z.mod_add t 1), Z.mod_small by lia. rewrite decide_False by lia. lia.
Qed.

(** Read the fields of a frame one after the other. *)
Ltac fields :=
  repeat (first [rewrite word_skip | rewrite at_skip]);
  rewrite ?word_here, ?word_last, ?bind_Ret by done.

Lemma size_frame s : size (stream_bytes s) = (4 + size (payload s))%nat.
Proof. unfold stream_bytes, framed. sizes. Qed.

Lemma frame_rest x t d k : k = size d -> slice (w16 x ++ w16 t ++ d) 4 (4 + k - 4) = Ret d.
Proof.
  intros ->. pose proof (slice_mid (w16 x ++ w16 t) d [] 4 (size d) eq_refl eq_refl) as E.
  rewrite app_nil_r, <-app_assoc in E. by rewrite Nat.add_comm, Nat.add_sub.
Qed.

Lemma count_strings es : (length es <= size (concat (terminated <$> es)))%nat.
Proof.
  induction es as [|e es IH]; [done|]. rewrite fmap_cons, concat_cons. pose proof (size_terminated e). sizes.
Qed.

Lemma last_zero hd es :
  es <> [] ->
  at_ (hd ++ concat (terminated <$> es)) (size (hd ++ concat (terminated <$> es)) - 1) = Ret 0.
Proof.
  destruct es as [|e es _] using rev_ind; [done|]. intros _.
  rewrite fmap_app, concat_app. simpl. unfold terminated at 2 4. rewrite app_nil_r, !app_assoc.
  apply at_mid. sizes.
Qed.

(** The class of stream [t] reads the frame [c]. *)
Ltac class_init f :=
  match goal with |- STR_init _ ?c = ?r => change (f c = r) end; unfold f;
  rewrite ?decide_False by lia; fields.

(** The type of a well-formed stream selects its class again. *)
Lemma init_bytes s :
  well_formed s -> fits s -> STR_init (stream_code s) (stream_bytes s) = Ret (Some s).
Proof.
  intros Hw [_ Hf]. pose proof (size_frame s) as Hsz. rewrite (size_payload s) in Hsz, Hf.
  unfold stream_bytes, framed in *.
  destruct s as [d|t d|b|d|a l n|a n es|a t n|a n|i n|z|z|z|k ks];
    cbn [well_formed stream_code payload] in *; [done|..].
  2: class_init STR_BCUType_init; done.
  2: { class_init STR_Code_init. by rewrite Hsz, frame_rest. }
  1: { destruct Hw as [Ht Hk].
       assert (forall k, k ∈ known_codes -> (t =? k) = false) as Hne
         by (intros k Hin; apply Z.eqb_neq; intros ->; done).
       unfold STR_init. rewrite !Hne by decided.
       unfold STR_Unknown_init. rewrite Hsz, frame_rest, bind_Ret by done. by fields. }
  - destruct Hw as (Ha & Hl & Hn). class_init STR_StringParameter_init.
    rewrite !app_assoc, last_name_ok by done. done.
  - destruct Hw as (Ha & Hn & Hne & Hes).
    pose proof (count_strings es) as Hc. assert (length es <> 0%nat) by (by destruct es).
    assert (is_u16 (Z.of_nat (length es))) as Hl by (unfold is_u16; lia).
    class_init STR_ListParameter_init. rewrite !app_assoc in Hsz |- *.
    set (hd := (((w16 _ ++ _) ++ _) ++ w16 _)) in *.
    assert (terminated n ++ concat (terminated <$> es) = concat (terminated <$> (n :: es))) as En by done.
    rewrite <-app_assoc, En in Hsz |- *. rewrite last_zero, bind_Ret by done. change (nz 0) with false.
    cbv beta iota. rewrite <-En, find_nul_name, bind_Ret by done.
    rewrite En, Hsz. rewrite !decide_False by sizes.
    rewrite <-Hsz, <-En, Nat2Z.id, app_assoc, list_elements_ok by (done || (pose proof (size_terminated n); change (size hd) with 8%nat in *; sizes)).
    rewrite bind_Ret, <-app_assoc, decide_False by (intros Hx; by apply Hx).
    do 3 f_equal. rewrite Nat.add_comm, Nat.add_sub. change 8%nat with (size hd).
    unfold size. rewrite drop_app_length. unfold terminated. by rewrite <-app_assoc, take_app_length.
  - destruct Hw as (Ha & Ht & Hn). class_init STR_IntParameter_init.
    change (at_ (([u8 t] ++ terminated n)) 0) with (Ret (u8 t)). rewrite bind_Ret, s8_u8 by done.
    rewrite !app_assoc, last_name_ok by done. done.
  - destruct Hw as (Ha & Hn). class_init STR_FloatParameter_init.
    rewrite !app_assoc, last_name_ok by done. done.
  - destruct Hw as (Ha & Hn). class_init STR_GroupObject_init.
    change (at_ (([u8 i] ++ terminated n)) 0) with (Ret (u8 i)). rewrite bind_Ret, u8_small by done.
    rewrite !app_assoc, last_name_ok by done. done.
  - cbn [fmap list_fmap concat] in *. rewrite !Forall_cons_iff in Hw. destruct Hw as (H1 & H2 & H3 & H4 & _).
    class_init STR_BCU1Size_init. by destruct z.
  - cbn [fmap list_fmap concat] in *. rewrite !Forall_cons_iff in Hw.
    destruct Hw as (H1 & H2 & H3 & H4 & H5 & H6 & _).
    class_init STR_BCU2Size_init. by destruct z.
  - unfold start_words in *.
    cbn [fmap list_fmap concat] in *. rewrite !Forall_cons_iff in Hw. destruct_and!.
    rewrite <-!app_assoc in Hsz |- *. rewrite app_nil_l in Hsz |- *. class_init STR_BCU2Start_init.
    change (at_ ([u8 (poll_slot z)]) 0) with (Ret (u8 (poll_slot z))). rewrite bind_Ret, u8_small by done.
    by destruct z.
  - destruct Hw as [Hk Hks].
    match goal with |- STR_init _ ?c = ?r => change (STR_BCU2Key_init c = r) end.
    unfold STR_BCU2Key_init. rewrite Hsz. replace (4 + (4 + 4 * length ks))%nat with ((2 + length ks) * 4)%nat by lia.
    rewrite Nat.Div0.mod_mul, decide_False, decide_False by lia.
    replace ((2 + length ks) * 4 - 8)%nat with (length ks * 4)%nat by lia.
    rewrite Nat.div_mul, app_assoc, key_mid, bind_Ret by done.
    set (x := 2 + Z.of_nat _). pose proof (keys_from_ok ks ((w16 x ++ w16 L_BCU2_KEY) ++ w32 k) [] 8 eq_refl Hks) as E.
    rewrite app_nil_r, <-!app_assoc in E. rewrite <-!app_assoc, E. done.
Qed.

Lemma frame_size_word t p : Z.of_nat (size p) < 65534 -> word (framed t p) 0 = Ret (2 + Z.of_nat (size p)).
Proof. intros H. apply word_here. unfold is_u16. lia. Qed.

Lemma frame_type_word t p : is_u16 t -> word (framed t p) 2 = Ret t.
Proof. exact (word_here t p). Qed.

Lemma fromArray_frame t p :
  is_u16 t -> Z.of_nat (size p) < 65534 ->
  STR_fromArray (framed t p) =
  (r ← STR_init t (framed t p); Ret (match r with Some s => s | None => STR_Invalid (framed t p) end)).
Proof.
  intros Ht Hp. unfold STR_fromArray. rewrite frame_size_word by done.
  assert (size (framed t p) = 4 + size p)%nat as E by (unfold framed; sizes).
  rewrite E, assert_true, bind_Ret, bind_Ret by (apply bool_decide_eq_true; lia).
  rewrite assert_true, bind_Ret by (apply Z.eqb_eq; lia).
  by rewrite frame_type_word, bind_Ret.
Qed.

Lemma code_u16 s : well_formed s -> is_u16 (stream_code s).
Proof. destruct s; intros H; [done|apply H|..]; vm_compute; split; congruence. Qed.

Lemma fromArray_bytes s : well_formed s -> fits s -> STR_fromArray (stream_bytes s) = Ret s.
Proof.
  intros Hw Hf. unfold stream_bytes. pose proof Hf as [_ Hs].
  rewrite fromArray_frame by (by apply code_u16 || lia). by rewrite init_bytes.
Qed.

(** Every stream of an image that is well formed (fields within their widths, names
    without zero bytes, a list with at least one element) and not longer than its length
    field can state is written by [toArray] of its class and read back by
    [STR_Stream::fromArray] unchanged. *)
Theorem stream_roundtrip (s : STR_Stream) :
  well_formed s -> fits s -> exists c, STR_toArray s = Ret c /\ STR_fromArray c = Ret s.
Proof.
  intros Hw Hf. exists (stream_bytes s). by rewrite toArray_bytes, fromArray_bytes.
Qed.

Lemma stream_roundtrip_witness :
  let s := STR_ListParameter 0x119 [65; 66] [[67]; []; [68; 69]] in
  exists c, STR_toArray s = Ret c /\ STR_fromArray c = Ret s.
Proof. apply stream_roundtrip; decided. Defined.

(** ** Files *)

Lemma append_bytes im data :
  Forall fits im -> append_streams data im = Ret (data ++ concat (stream_bytes <$> im)).
Proof.
  intros H. revert data. induction H as [|s im Hs _ IH]; intros data; simpl append_streams.
  - by rewrite app_nil_r.
  - rewrite toArray_bytes, bind_Ret by done. unfold setpart_all. rewrite setpart_end, bind_Ret, IH.
    by rewrite fmap_cons, concat_cons, app_assoc.
Qed.

Lemma Image_toArray_bytes im :
  Forall fits im -> Image_toArray im = Ret (magic ++ w16 10 ++ concat (stream_bytes <$> im)).
Proof. intros H. unfold Image_toArray. simpl. by rewrite append_bytes. Qed.

(** A round of the loop in [Image::fromArray]. *)
Lemma streams_from_step n hd s tl :
  well_formed s -> fits s -> (5 <= size (stream_bytes s ++ tl))%nat ->
  streams_from (S n) (hd ++ stream_bytes s ++ tl) (size hd) =
  (r ← streams_from n (hd ++ stream_bytes s ++ tl) (size (hd ++ stream_bytes s)); Ret (option_map (cons s) r)).
Proof.
  intros Hw Hf H5. pose proof Hf as [_ Hp]. pose proof (size_frame s) as Es.
  cbn [streams_from]. rewrite !decide_False by sizes.
  assert (word (hd ++ stream_bytes s ++ tl) (size hd) = Ret (2 + Z.of_nat (size (payload s)))) as ->.
  { unfold stream_bytes, framed. rewrite <-!app_assoc. apply word_mid; [done|]. unfold is_u16. lia. }
  rewrite bind_Ret. replace (Z.to_nat _) with (2 + size (payload s))%nat by lia.
  rewrite !bool_decide_false by sizes. cbn [orb].
  rewrite slice_mid by (done || lia). rewrite bind_Ret, fromArray_bytes, bind_Ret by done.
  do 2 f_equal. sizes.
Qed.

(** The last stream is longer than its header: [pos + 4 >= c.size ()] ends the file
    otherwise. *)
Definition closed (im : Image) : Prop :=
  match list.last im with Some s => payload s <> [] | None => True end.

#[export] Instance closed_dec im : Decision (closed im).
Proof. unfold closed. destruct (list.last im); apply _. Defined.

Lemma streams_end n c pos : (size c <= pos)%nat -> streams_from n c pos = Ret (Some []).
Proof. intros H. destruct n; cbn [streams_from]; by rewrite decide_True. Qed.

Lemma streams_all n im hd :
  Forall well_formed im -> Forall fits im -> (size (concat (stream_bytes <$> im)) <= n)%nat ->
  streams_from n (hd ++ concat (stream_bytes <$> im)) (size hd) =
  Ret (if bool_decide (closed im) then Some im else None).
Proof.
  intros Hw Hf. revert n hd. induction im as [|s im IH]; intros n hd Hn.
  - simpl. rewrite app_nil_r. by apply streams_end.
  - rewrite Forall_cons_iff in Hw, Hf. destruct Hw as [Hs Hw], Hf as [Fs Hf].
    rewrite fmap_cons, concat_cons in Hn |- *. pose proof (size_frame s) as Es.
    destruct n as [|n]; [sizes|].
    destruct (decide (5 <= size (stream_bytes s ++ concat (stream_bytes <$> im)))%nat) as [H5|H5].
    + rewrite streams_from_step by done. rewrite app_assoc, IH by (done || sizes). rewrite bind_Ret.
      destruct im as [|s' im']; cycle 1.
      { unfold closed. change (list.last (s :: s' :: im')) with (list.last (s' :: im')). by destruct (bool_decide _). }
      change (concat (stream_bytes <$> [])) with (@nil Z) in H5. rewrite app_nil_r in H5.
      rewrite bool_decide_true by done. simpl option_map. rewrite bool_decide_true; [done|].
      unfold closed. simpl. intros E. rewrite E in Es. clear - H5 Es. sizes.
    + destruct im as [|s' im']; cycle 1.
      { rewrite fmap_cons, concat_cons in H5. pose proof (size_frame s'). sizes. }
      simpl concat in *. rewrite app_nil_r in *. cbn [streams_from].
      rewrite decide_False, decide_True by sizes. rewrite bool_decide_false; [done|].
      unfold closed. simpl. intros H. apply H. apply length_zero_iff_nil. sizes.
Qed.

(** The check of the size field. *)
Lemma Image_fromArray_bytes im v :
  Forall well_formed im -> Forall fits im ->
  let c := magic ++ w16 v ++ concat (stream_bytes <$> im) in
  Image_fromArray c =
  Ret (if bool_decide (u16 v = u16 (Z.of_nat (size c)) /\ closed im) then Some im else None).
Proof.
  intros Hw Hf c.
  assert (size c = 10 + size (concat (stream_bytes <$> im)))%nat as Ec by (subst c; sizes).
  unfold Image_fromArray. rewrite decide_False by lia.
  assert (slice c 0 8 = Ret magic) as ->
    by (pose proof (slice_mid [] magic (w16 v ++ concat (stream_bytes <$> im)) 0 8 eq_refl eq_refl) as E; exact E).
  rewrite bind_Ret, decide_False by (intros H; by apply H).
  change (at_ c 8) with (Ret (u8 (v ≫ 8))). change (at_ c 9) with (Ret (u8 v)). rewrite !bind_Ret.
  rewrite !land_ff.
  pose proof (be16_join v) as Jv. pose proof (be16_join (Z.of_nat (size c))) as Jc.
  destruct (Z.eqb_spec (u8 (v ≫ 8)) (u8 (Z.of_nat (size c) ≫ 8))) as [E1|E1]; cycle 1.
  { cbn [negb]. rewrite bool_decide_false; [done|]. intros [H _]. apply E1.
    rewrite <-Jv, <-Jc in H.
    pose proof (f_equal (fun z => u8 (z ≫ 8)) H) as H'. cbv beta in H'.
    rewrite !be16_hi in H' by apply u8_bound. done. }
  destruct (Z.eqb_spec (u8 v) (u8 (Z.of_nat (size c)))) as [E2|E2]; cycle 1.
  { cbn [negb]. rewrite bool_decide_false; [done|]. intros [H _]. apply E2.
    rewrite <-Jv, <-Jc in H. pose proof (f_equal u8 H) as H'. rewrite !be16_lo in H' by apply u8_bound. done. }
  cbn [negb]. rewrite (bool_decide_ext (u16 v = u16 (Z.of_nat (size c)) /\ closed im) (closed im)).
  - subst c. rewrite app_assoc. change 10%nat with (size (magic ++ w16 v)) at 1.
    by rewrite streams_all by (done || sizes).
  - split; [tauto|]. intros Hc. split; [|done]. by rewrite <-Jv, <-Jc, E1, E2.
Qed.

Definition file_size (im : Image) : nat := (10 + size (concat (stream_bytes <$> im)))%nat.

(** [Image::toArray] stores the size before it appends the streams, so that the size field
    of every file it writes is ten; [Image::fromArray] compares that field with the size of
    the file and rejects every written image of less than 64 KiB that has a stream. *)
Theorem written_image_rejected (im : Image) :
  Forall well_formed im -> Forall fits im -> im <> [] -> Z.of_nat (file_size im) < 65536 ->
  exists c, Image_toArray im = Ret c /\ size c = file_size im /\ Image_fromArray c = Ret None.
Proof.
  intros Hw Hf Hne Hs. exists (magic ++ w16 10 ++ concat (stream_bytes <$> im)).
  assert (size (magic ++ w16 10 ++ concat (stream_bytes <$> im)) = file_size im) as E
    by (unfold file_size; sizes).
  rewrite Image_toArray_bytes, Image_fromArray_bytes, E by done. split_and!; [done..|].
  rewrite bool_decide_false; [done|]. intros [H _]. revert H. rewrite (u16_small (Z.of_nat _)) by (unfold is_u16; lia).
  change (u16 10) with 10. destruct im as [|s im]; [done|].
  unfold file_size. rewrite fmap_cons, concat_cons. pose proof (size_frame s). sizes.
Qed.

Lemma written_image_rejected_witness :
  exists c, Image_toArray [STR_BCUType 0x12] = Ret c /\ size c = file_size [STR_BCUType 0x12] /\
            Image_fromArray c = Ret None.
Proof. apply written_image_rejected; decided. Defined.

(** With the size of the whole file in bytes 8 and 9 of what [Image::toArray] writes,
    [Image::fromArray] reads every image back, stream by stream; except that a file which
    ends with a stream of four bytes (an empty one) is rejected. *)
Theorem image_roundtrip (im : Image) :
  Forall well_formed im -> Forall fits im ->
  exists c, Image_toArray im = Ret c /\
            Image_fromArray (take 8 c ++ w16 (Z.of_nat (size c)) ++ drop 10 c) =
            Ret (if bool_decide (closed im) then Some im else None).
Proof.
  intros Hw Hf. eexists. split; [by apply Image_toArray_bytes|].
  set (c := magic ++ _). set (v := Z.of_nat (size c)).
  change (take 8 c) with magic. change (drop 10 c) with (concat (stream_bytes <$> im)).
  rewrite Image_fromArray_bytes by done. do 2 f_equal. 
  rewrite (bool_decide_ext (u16 v = _ /\ closed im) (closed im)); [done|].
  subst v c. sizes. tauto.
Qed.

Lemma image_roundtrip_witness :
  exists c, Image_toArray [STR_BCUType 0x12; STR_Code [1; 2]] = Ret c /\
            Image_fromArray (take 8 c ++ w16 (Z.of_nat (size c)) ++ drop 10 c) =
            Ret (if bool_decide (closed [STR_BCUType 0x12; STR_Code [1; 2]])
                 then Some [STR_BCUType 0x12; STR_Code [1; 2]] else None).
Proof. apply image_roundtrip; decided. Defined.
