(* ===== verification/ImageSafe.v ===== *)
(** * Images of BCU programs: untrusted files

    [Image_fromArray] is given a file from a client.  Which files make it fault, and that
    what it accepts holds everything that was in the file: writing the streams again
    gives the same bytes.  Last, which streams [decode] can print into its buffers. *)

From S2P Require Import Prelude CArray Common Apdu Image ImageSpec.

Local Open Scope Z_scope.

(** ** Strings in a row *)

Definition zeros (l : CArray) : nat := length (filter (fun b => b = 0) l).

Lemma zeros_app l k : zeros (l ++ k) = (zeros l + zeros k)%nat.
Proof. unfold zeros. by rewrite list.filter_app, length_app. Qed.

Lemma zeros_cstring n : cstring n -> zeros n = 0%nat.
Proof.
  intros H. induction H as [|b n Hb _ IH]; [done|]. unfold zeros in *.
  rewrite filter_cons_False by lia. done.
Qed.

Lemma zeros_strings ss : Forall cstring ss -> zeros (concat (terminated <$> ss)) = length ss.
Proof.
  intros H. induction H as [|n ss Hn _ IH]; [done|]. rewrite fmap_cons, concat_cons.
  unfold terminated at 1. rewrite !zeros_app, IH, zeros_cstring by done. done.
Qed.

(** Bytes that end with a zero are strings in a row. *)
Lemma split_strings l :
  bytes l -> (l <> [] -> list.last l = Some 0) ->
  exists ss, l = concat (terminated <$> ss) /\ Forall cstring ss.
Proof.
  intros H. induction H as [|b l Hb Hl IH]; intros Hz; [by exists []|].
  assert (l <> [] -> list.last l = Some 0) as Hl0
    by (intros Hne; specialize (Hz ltac:(done)); by destruct l).
  destruct (IH Hl0) as (ss & -> & Hss).
  destruct (decide (b = 0)) as [->|Hb0].
  - exists ([] :: ss). split; [done|]. constructor; [constructor|done].
  - destruct Hss as [|s ss Hs Hss].
    + simpl in Hz. specialize (Hz ltac:(done)). congruence.
    + exists ((b :: s) :: ss). split; [done|]. constructor; [|done].
      constructor; [|done]. unfold is_u8 in Hb. lia.
Qed.

Lemma list_elements_outcome es hd el m :
  m = size hd -> Forall cstring es ->
  list_elements (hd ++ concat (terminated <$> es)) el m =
  if decide (el <= length es)%nat
  then Ret (Some (take el es, size (hd ++ concat (terminated <$> take el es))))
  else Fault OutOfRange.
Proof.
  intros Hm H. revert hd m el Hm. induction H as [|e es He _ IH]; intros hd m [|el] ->.
  - simpl. by rewrite app_nil_r.
  - simpl. unfold find_nul, size. by rewrite drop_ge by (rewrite app_nil_r; lia).
  - simpl. by rewrite app_nil_r.
  - rewrite fmap_cons, concat_cons. pose proof (size_terminated e) as Ee. simpl list_elements.
    rewrite find_nul_name, bind_Ret by done. rewrite !decide_False by sizes.
    rewrite app_assoc, IH by sizes. simpl length.
    destruct (decide (el <= length es)%nat), (decide (S el <= S (length es))%nat); try lia; [|done].
    rewrite bind_Ret. simpl. do 4 f_equal.
    + rewrite Nat.add_comm, Nat.add_sub. unfold size. rewrite <-app_assoc, drop_app_length.
      unfold terminated. by rewrite <-app_assoc, take_app_length.
    + by rewrite <-app_assoc.
Qed.

Lemma find_nul_last (c : CArray) i :
  bytes c -> (i < size c)%nat -> c !! (size c - 1)%nat = Some 0 ->
  exists n tl, find_nul c i = Ret (i + size n)%nat /\ drop i c = terminated n ++ tl /\ cstring n.
Proof.
  intros Hb Hi Hz. destruct (split_strings (drop i c)) as ([|n ss] & E & Hss).
  - auto with carray.
  - intros _. rewrite last_lookup, lookup_drop, <-Hz, length_drop. f_equal. unfold size in *. lia.
  - apply (f_equal length) in E. rewrite length_drop in E. unfold size in *. simpl in E. lia.
  - rewrite Forall_cons_iff in Hss. destruct Hss as [Hn _]. rewrite fmap_cons, concat_cons in E.
    exists n, (concat (terminated <$> ss)). split_and!; [|done|done].
    unfold find_nul. rewrite E. unfold terminated at 1. rewrite <-app_assoc. by apply nul_in_name.
Qed.

(** ** What each class reads *)

Lemma w16_be16 a b : is_u8 a -> is_u8 b -> w16 (be16 a b) = [a; b].
Proof. intros Ha Hb. unfold w16, be16. by rewrite be16_hi, be16_lo. Qed.

Lemma be16_u16 a b : is_u8 a -> is_u8 b -> is_u16 (be16 a b).
Proof. apply be16_bound. Qed.

Lemma word_cons a b tl : word (a :: b :: tl) 0 = Ret (be16 a b).
Proof. reflexivity. Qed.

Lemma word_cons_skip a b tl i : word (a :: b :: tl) (S (S i)) = word tl i.
Proof. reflexivity. Qed.

Lemma word_framed t p i : word (framed t p) (4 + i) = word p i.
Proof. reflexivity. Qed.

Lemma at_framed t p i : at_ (framed t p) (4 + i) = at_ p i.
Proof. reflexivity. Qed.

Lemma at_cons_skip a b tl i : at_ (a :: b :: tl) (S (S i)) = at_ tl i.
Proof. reflexivity. Qed.

Lemma at_cons a tl : at_ (a :: tl) 0 = Ret a.
Proof. reflexivity. Qed.

#[local] Hint Resolve be16_u16 : core.

Lemma s8_bound b : is_u8 b -> -128 <= s8 b < 128 /\ u8 (s8 b) = b.
Proof.
  intros Hb. unfold s8. rewrite (u8_small b Hb). unfold is_u8 in Hb. destruct (decide (b < 128)).
  - rewrite u8_small by (unfold is_u8; lia). lia.
  - rewrite u8_mod, <-(Z.mod_add (b - 256) 1), Z.mod_small by lia. lia.
Qed.

(** The stream read, if any, is well formed and has the type and the contents it was read
    from. *)
Definition reads (m : outcome (option STR_Stream)) (t : Z) (p : CArray) : Prop :=
  exists r, m = Ret r /\ forall s, r = Some s -> stream_code s = t /\ payload s = p /\ well_formed s.

Lemma reads_none t p : reads (Ret None) t p.
Proof. by exists None. Qed.

Lemma reads_some s t p : stream_code s = t -> payload s = p -> well_formed s -> reads (Ret (Some s)) t p.
Proof. intros. exists (Some s). split; [done|]. by intros ? [= <-]. Qed.

Lemma last_name_reads c off :
  bytes c -> (off < size c)%nat ->
  exists r, last_name c off = Ret r /\ forall n, r = Some n -> cstring n /\ drop off c = terminated n.
Proof.
  intros Hb Ho. unfold last_name. destruct (at_lt c (size c - 1)) as (z & -> & Hz); [lia|]. rewrite bind_Ret.
  unfold nz. destruct (Z.eqb_spec z 0) as [->|Hne]; [|by exists None]. cbn [negb].
  destruct (find_nul_last c off Hb Ho Hz) as (n & tl & -> & E & Hn). rewrite bind_Ret.
  destruct (decide _) as [_|He]; [by exists None|]. eexists. split; [done|].
  apply dec_stable in He.
  assert (tl = []) as ->.
  { apply (f_equal length) in E. rewrite length_drop, length_app in E. pose proof (size_terminated n).
    apply length_zero_iff_nil. unfold size in *. lia. }
  rewrite app_nil_r in E. rewrite E, Nat.add_comm, Nat.add_sub.
  intros n' [= <-]. unfold terminated, size. by rewrite take_app_length.
Qed.

(** The classes that end with a name. *)
Lemma name_reads c off (f : CArray -> STR_Stream) t p :
  bytes c -> (off < size c)%nat ->
  (forall n, cstring n -> drop off c = terminated n ->
             stream_code (f n) = t /\ payload (f n) = p /\ well_formed (f n)) ->
  reads (n ← last_name c off; Ret (option_map f n)) t p.
Proof.
  intros Hb Ho Hf. destruct (last_name_reads c off Hb Ho) as ([n|] & -> & Hn); rewrite bind_Ret.
  - destruct (Hn n eq_refl) as [Hc Hd]. destruct (Hf n Hc Hd) as (H1 & H2 & H3).
    by apply reads_some.
  - apply reads_none.
Qed.

Ltac frame_bytes :=
  lazymatch goal with
  | H : bytes ?p |- bytes _ =>
      unfold framed; rewrite ?bytes_app, ?bytes_cons in *; unfold w16; rewrite ?bytes_cons;
      intuition auto using u8_bound, bytes_nil
  end.

(** Take the contents apart to [n] bytes. *)
Ltac contents p n :=
  lazymatch n with
  | O => idtac
  | S ?n =>
      let b := fresh "b" in let Hb := fresh "Hb" in
      destruct p as [|b p]; [exfalso; unfold framed in *; sizes|];
      match goal with H : bytes (b :: p) |- _ => apply bytes_cons in H; destruct H as [Hb H] end;
      contents p n
  end.

Ltac all_words :=
  rewrite ?word_framed, ?at_framed, ?word_cons_skip, ?word_cons, ?at_cons_skip, ?at_cons, ?bind_Ret.

Lemma BCUType_reads p : bytes p -> reads (STR_BCUType_init (framed L_BCU_TYPE p)) L_BCU_TYPE p.
Proof.
  intros Hp. unfold STR_BCUType_init. destruct (decide _) as [_|Hs]; [apply reads_none|].
  apply dec_stable in Hs. contents p 2%nat. destruct p; [|unfold framed in *; sizes].
  all_words. apply reads_some; [done|..]; simpl; auto using w16_be16.
Qed.

Lemma StringParameter_reads p : bytes p -> reads (STR_StringParameter_init (framed L_STRING_PAR p)) L_STRING_PAR p.
Proof.
  intros Hp. unfold STR_StringParameter_init. destruct (decide _) as [_|Hs]; [apply reads_none|].
  assert (bytes (framed L_STRING_PAR p)) as Hf by frame_bytes.
  contents p 4%nat. all_words. apply name_reads; [done|lia|].
  intros n Hn Hd. split_and!; [done| |simpl; auto].
  cbn [payload]. rewrite !w16_be16 by done. rewrite <-Hd. done.
Qed.

Lemma IntParameter_reads p : bytes p -> reads (STR_IntParameter_init (framed L_INT_PAR p)) L_INT_PAR p.
Proof.
  intros Hp. unfold STR_IntParameter_init. destruct (decide _) as [_|Hs]; [apply reads_none|].
  assert (bytes (framed L_INT_PAR p)) as Hf by frame_bytes.
  contents p 3%nat. all_words. apply name_reads; [done|lia|].
  intros n Hn Hd. pose proof (s8_bound b1 ltac:(done)) as [H1 H2]. split_and!; [done| |simpl; auto].
  cbn [payload]. rewrite !w16_be16, H2 by done. rewrite <-Hd. done.
Qed.

Lemma FloatParameter_reads p : bytes p -> reads (STR_FloatParameter_init (framed L_FLOAT_PAR p)) L_FLOAT_PAR p.
Proof.
  intros Hp. unfold STR_FloatParameter_init. destruct (decide _) as [_|Hs]; [apply reads_none|].
  assert (bytes (framed L_FLOAT_PAR p)) as Hf by frame_bytes.
  contents p 2%nat. all_words. apply name_reads; [done|lia|].
  intros n Hn Hd. split_and!; [done| |simpl; auto].
  cbn [payload]. rewrite !w16_be16 by done. rewrite <-Hd. done.
Qed.

Lemma GroupObject_reads p : bytes p -> reads (STR_GroupObject_init (framed L_GROUP_OBJECT p)) L_GROUP_OBJECT p.
Proof.
  intros Hp. unfold STR_GroupObject_init. destruct (decide _) as [_|Hs]; [apply reads_none|].
  assert (bytes (framed L_GROUP_OBJECT p)) as Hf by frame_bytes.
  contents p 1%nat. all_words. apply name_reads; [done|lia|].
  intros n Hn Hd. split_and!; [done| |simpl; auto].
  cbn [payload]. rewrite u8_small by done. rewrite <-Hd. done.
Qed.

Lemma Code_reads p : bytes p -> reads (STR_Code_init (framed L_CODE p)) L_CODE p.
Proof.
  intros Hp. unfold STR_Code_init. unfold framed.
  replace (size _ - 4)%nat with (4 + size p - 4)%nat by sizes.
  rewrite frame_rest, bind_Ret by done. by apply reads_some.
Qed.

Lemma Unknown_reads t p : is_u16 t -> t ∉ known_codes -> reads (STR_Unknown_init (framed t p)) t p.
Proof.
  intros Ht Hk. unfold STR_Unknown_init. rewrite frame_type_word by done. unfold framed.
  replace (size _ - 4)%nat with (4 + size p - 4)%nat by sizes.
  rewrite frame_rest, !bind_Ret by done. by apply reads_some.
Qed.

Ltac fixed_reads p n :=
  destruct (decide _) as [_|Hs]; [apply reads_none|];
  apply dec_stable in Hs; contents p n; destruct p; [|unfold framed in *; sizes];
  all_words; apply reads_some;
  [done
  |cbn -[w16 be16 u8]; rewrite ?w16_be16 by done;
   rewrite ?u8_small by done; reflexivity
  |cbn -[is_u16 is_u8 be16]; cbv [start_words]; cbn -[is_u16 is_u8 be16]; rewrite ?Forall_cons_iff; split_and?; auto].

Lemma BCU1Size_reads p : bytes p -> reads (STR_BCU1Size_init (framed L_BCU1_SIZE p)) L_BCU1_SIZE p.
Proof. intros Hp. unfold STR_BCU1Size_init. fixed_reads p 8%nat. Qed.

Lemma BCU2Size_reads p : bytes p -> reads (STR_BCU2Size_init (framed L_BCU2_SIZE p)) L_BCU2_SIZE p.
Proof. intros Hp. unfold STR_BCU2Size_init. fixed_reads p 12%nat. Qed.

Lemma BCU2Start_reads p : bytes p -> reads (STR_BCU2Start_init (framed L_BCU2_INIT p)) L_BCU2_INIT p.
Proof. intros Hp. unfold STR_BCU2Start_init. fixed_reads p 43%nat. Qed.

Lemma be32_value a b c d :
  is_u8 a -> is_u8 b -> is_u8 c -> is_u8 d ->
  be32 a b c d = a * 16777216 + b * 65536 + c * 256 + d.
Proof.
  unfold is_u8, be32. intros Ha Hb Hc Hd. rewrite <-!Z.lor_assoc.
  rewrite (lor_shiftl_add c d 8), (lor_shiftl_add b _ 16), (lor_shiftl_add a _ 24) by lia. lia.
Qed.

Lemma w32_be32 a b c d :
  is_u8 a -> is_u8 b -> is_u8 c -> is_u8 d ->
  w32 (u32 (be32 a b c d)) = [a; b; c; d] /\ is_u32 (u32 (be32 a b c d)).
Proof.
  intros Ha Hb Hc Hd. pose proof (be32_value a b c d Ha Hb Hc Hd) as E. unfold is_u8 in *.
  rewrite u32_small by (unfold is_u32; lia). split; [|unfold is_u32; lia].
  unfold w32. rewrite E, !u8_shiftr, u8_mod by lia. change (2 ^ 24) with 16777216.
  change (2 ^ 16) with 65536. change (2 ^ 8) with 256.
  repeat f_equal; Z.div_mod_to_equations; lia.
Qed.

Lemma keys_reads n hd rest m :
  m = size hd -> bytes rest -> size rest = (4 * n)%nat ->
  exists ks, keys_from (hd ++ rest) m n = Ret ks /\ concat (w32 <$> ks) = rest /\ Forall is_u32 ks.
Proof.
  revert hd rest m. induction n as [|n IH]; intros hd rest m -> Hb Hs.
  - exists []. destruct rest; [|sizes]. done.
  - destruct rest as [|a [|b [|c [|d rest]]]]; try (exfalso; clear -Hs; sizes; fail).
    rewrite !bytes_cons in Hb. destruct Hb as (Ha & Hb & Hc & Hd & Hr).
    destruct (w32_be32 a b c d) as [Ew Eu]; [done..|].
    destruct (IH (hd ++ [a; b; c; d]) rest (size hd + 4)%nat) as (ks & Ek & Ec & Hk); [sizes|done|clear -Hs; sizes|].
    rewrite <-app_assoc in Ek. exists (u32 (be32 a b c d) :: ks). split_and!.
    + cbn [keys_from]. change ([a; b; c; d] ++ rest) with (a :: b :: c :: d :: rest) in Ek.
      rewrite Ek.
      replace (a :: b :: c :: d :: rest) with (w32 (u32 (be32 a b c d)) ++ rest) by (by rewrite Ew).
      by rewrite key_mid.
    + rewrite fmap_cons, concat_cons, Ew, Ec. done.
    + by constructor.
Qed.

Lemma BCU2Key_reads p : bytes p -> reads (STR_BCU2Key_init (framed L_BCU2_KEY p)) L_BCU2_KEY p.
Proof.
  intros Hp. unfold STR_BCU2Key_init.
  destruct (decide _) as [_|Hm]; [apply reads_none|]. apply dec_stable in Hm.
  destruct (decide _) as [_|Hs]; [apply reads_none|].
  apply Nat.Div0.div_exact in Hm. set (k := (size (framed L_BCU2_KEY p) / 4)%nat) in *.
  assert (size (framed L_BCU2_KEY p) = 4 + size p)%nat as Es by (unfold framed; sizes).
  replace (size (framed L_BCU2_KEY p) - 8)%nat with ((k - 2) * 4)%nat by lia. rewrite Nat.div_mul by lia.
  destruct p as [|a [|b [|c [|d p]]]]; try (exfalso; clear -Hs; unfold framed in *; sizes; fail).
  rewrite !bytes_cons in Hp. destruct Hp as (Ha & Hb & Hc & Hd & Hr).
  destruct (w32_be32 a b c d) as [Ew Eu]; [done..|].
  destruct (keys_reads (k - 2) (w16 (2 + Z.of_nat (size (a :: b :: c :: d :: p))) ++ w16 L_BCU2_KEY ++ [a; b; c; d]) p 8)
    as (ks & Ek & Ec & Hk); [done|done|clear -Hm Es; sizes|].
  rewrite <-!app_assoc in Ek. change (key_at (framed L_BCU2_KEY (a :: b :: c :: d :: p)) 4) with (Ret (u32 (be32 a b c d))).
  rewrite bind_Ret. unfold framed. change (a :: b :: c :: d :: p) with ([a; b; c; d] ++ p) at 2. rewrite Ek.
  apply reads_some; [done| |done]. cbn [payload]. by rewrite Ew, Ec.
Qed.

(** A list parameter that states more elements than strings follow its name: with at least
    one string after the name, the loop of [STR_ListParameter::init] looks for the end of
    a string behind the last byte of the stream. *)
Definition overcounted (c : CArray) : Prop :=
  word c 2 = Ret L_LIST_PAR /\ (9 <= size c)%nat /\ list.last c = Some 0 /\
  (2 <= zeros (drop 8 c))%nat /\
  match word c 6 with Ret el => Z.of_nat (zeros (drop 8 c)) <= el | Fault _ => False end.

#[export] Instance overcounted_dec c : Decision (overcounted c).
Proof. unfold overcounted. destruct (word c 6); apply _. Defined.

(** The class on strings in a row, the first being the name. *)
Lemma ListParameter_strings hd a el n es :
  size hd = 8%nat -> word hd 4 = Ret a -> word hd 6 = Ret el -> 0 <= el -> cstring n -> Forall cstring es ->
  STR_ListParameter_init (hd ++ concat (terminated <$> n :: es)) =
  if decide (es = []) then Ret None
  else if decide (Z.of_nat (length es) < el) then Fault OutOfRange
  else Ret (if decide (Z.of_nat (length es) = el) then Some (STR_ListParameter a n es) else None).
Proof.
  intros Hh Ha He Hel Hn Hes. set (c := hd ++ _).
  assert (size c = 8 + (size n + 1) + size (concat (terminated <$> es)))%nat as Ec.
  { subst c. rewrite fmap_cons, concat_cons. pose proof (size_terminated n). sizes. }
  assert (forall i, (i < 7)%nat -> word c i = word hd i) as Hw.
  { intros i Hi. unfold word, at_. subst c. by rewrite !lookup_app_l by (unfold size in Hh; lia). }
  unfold STR_ListParameter_init. rewrite decide_False by lia.
  rewrite !Hw, Ha, He, !bind_Ret by lia.
  assert (at_ c (size c - 1) = Ret 0) as -> by (by apply last_zero).
  assert (find_nul c 8 = Ret (8 + size n)%nat) as ->
    by (unfold c; rewrite fmap_cons, concat_cons; by apply find_nul_name).
  rewrite !bind_Ret. change (nz 0) with false. cbv beta iota.
  rewrite decide_False by lia. pose proof (count_strings es) as Hc.
  destruct (decide (es = [])) as [->|Hne].
  { unfold size in Ec at 3. simpl in Ec. by rewrite decide_True by lia. }
  assert (length es <> 0%nat) by (by destruct es). rewrite decide_False by lia.
  assert (c = (hd ++ terminated n) ++ concat (terminated <$> es)) as Ec'
    by (subst c; by rewrite fmap_cons, concat_cons, app_assoc).
  rewrite Ec' at 1. rewrite list_elements_outcome by (done || (pose proof (size_terminated n); sizes)).
  destruct (decide (Z.to_nat el <= length es)%nat) as [Hle|Hgt]; cycle 1.
  { by rewrite decide_True by lia. }
  rewrite (decide_False (P := Z.of_nat (length es) < el)), bind_Ret by lia.
  f_equal. destruct (decide (Z.of_nat (length es) = el)) as [Heq|Hneq].
  - rewrite !take_ge by lia. rewrite <-Ec', decide_False by (intros H'; by apply H').
    do 2 f_equal. rewrite Nat.add_comm, Nat.add_sub. rewrite Ec', <-Hh. unfold size.
    rewrite <-app_assoc, drop_app_length. unfold terminated. by rewrite <-app_assoc, take_app_length.
  - rewrite decide_True; [done|]. rewrite Ec'. 
    rewrite <-(take_drop (Z.to_nat el) es) at 2. rewrite fmap_app, concat_app.
    pose proof (count_strings (drop (Z.to_nat el) es)) as Hd. rewrite length_drop in Hd. sizes.
Qed.

Lemma ListParameter_reads p :
  bytes p ->
  let c := framed L_LIST_PAR p in
  if decide (overcounted c) then STR_ListParameter_init c = Fault OutOfRange
  else reads (STR_ListParameter_init c) L_LIST_PAR p.
Proof.
  intros Hp c. assert (size c = 4 + size p)%nat as Es by (unfold c, framed; sizes).
  destruct (decide (size c < 9)%nat) as [Hs|Hs].
  { rewrite decide_False by (unfold overcounted; lia). unfold STR_ListParameter_init.
    rewrite decide_True by done. apply reads_none. }
  contents p 4%nat. pose (hd := w16 (2 + Z.of_nat (size (b :: b0 :: b1 :: b2 :: p))) ++ w16 L_LIST_PAR ++ [b; b0; b1; b2]).
  assert (word c 4 = Ret (be16 b b0) /\ word c 6 = Ret (be16 b1 b2)) as [W4 W6] by done.
  assert (list.last c = list.last p) as El.
  { change c with (hd ++ p). rewrite list.last_app. destruct p as [|x p]; [unfold size in *; simpl in *; lia|].
    destruct (list.last (x :: p)) eqn:E; [done|]. by apply list.last_None in E. }
  destruct (decide (list.last p = Some 0)) as [Hz|Hz]; cycle 1.
  { rewrite decide_False by (unfold overcounted; rewrite El; tauto). unfold STR_ListParameter_init.
    rewrite decide_False, W4, W6, !bind_Ret by done.
    destruct (at_lt c (size c - 1)) as (z & -> & Hl); [lia|]. rewrite bind_Ret.
    unfold nz. destruct (Z.eqb_spec z 0) as [->|]; [|apply reads_none].
    exfalso. apply Hz. rewrite <-El, last_lookup, <-Hl. f_equal. }
  destruct (split_strings p) as ([|n es] & E & Hss); [done|done|subst p; unfold size in *; simpl in *; lia|].
  rewrite Forall_cons_iff in Hss. destruct Hss as [Hn Hes].
  assert (overcounted c <-> es <> [] /\ Z.of_nat (length es) < be16 b1 b2) as Ho.
  { unfold overcounted. rewrite W6, El. change (drop 8 c) with p. rewrite E, zeros_strings by (by constructor).
    rewrite <-E. simpl length. split.
    - intros (_ & _ & _ & H1 & H2). split; [intros ->; simpl in *; lia|lia].
    - intros [H1 H2]. split_and!; try done; [lia| |lia]. destruct es; [done|]. simpl. lia. }
  change c with (hd ++ p). rewrite E.
  pose proof (be16_u16 b1 b2 ltac:(done) ltac:(done)) as [Hel _].
  rewrite (ListParameter_strings hd (be16 b b0) (be16 b1 b2)) by done.
  rewrite <-E. change (hd ++ p) with c.
  destruct (decide (es = [])) as [->|Hne]; [rewrite decide_False by tauto; apply reads_none|].
  destruct (decide (Z.of_nat (length es) < be16 b1 b2)) as [Hlt|Hge].
  { by rewrite decide_True by tauto. }
  rewrite decide_False by tauto. destruct (decide _) as [Heq|_]; [|apply reads_none].
  apply reads_some; [done| |simpl; auto].
  cbn [payload]. rewrite Heq, !w16_be16 by done. by rewrite E.
Qed.

Lemma init_reads t p :
  is_u16 t -> bytes p ->
  let c := framed t p in
  if decide (overcounted c) then STR_init t c = Fault OutOfRange else reads (STR_init t c) t p.
Proof.
  intros Ht Hp c. destruct (decide (t = L_LIST_PAR)) as [->|Hl]; [by apply ListParameter_reads|].
  rewrite decide_False; cycle 1.
  { unfold overcounted, c. rewrite frame_type_word by done. intros [[= E] _]. done. }
  unfold STR_init. rewrite (proj2 (Z.eqb_neq t L_LIST_PAR) Hl).
  repeat match goal with |- context [Z.eqb t ?k] => destruct (Z.eqb_spec t k) as [E|?]; [subst c; rewrite E in *|] end.
  - by apply StringParameter_reads.
  - by apply IntParameter_reads.
  - by apply FloatParameter_reads.
  - by apply GroupObject_reads.
  - by apply BCUType_reads.
  - by apply BCU2Start_reads.
  - by apply Code_reads.
  - by apply BCU1Size_reads.
  - by apply BCU2Size_reads.
  - by apply BCU2Key_reads.
  - apply Unknown_reads; [done|]. unfold known_codes. rewrite !not_elem_of_cons. split_and!; try done. apply not_elem_of_nil.
Qed.

(** What [STR_Stream::fromArray] asserts of its argument. *)
Definition frame_ok (c : CArray) : Prop :=
  (4 <= size c)%nat /\ word c 0 = Ret (Z.of_nat (size c) - 2).

#[export] Instance frame_ok_dec c : Decision (frame_ok c).
Proof. unfold frame_ok. apply _. Defined.

Lemma frame_ok_framed c :
  bytes c -> frame_ok c ->
  exists t p, c = framed t p /\ is_u16 t /\ bytes p /\ Z.of_nat (size p) < 65534.
Proof.
  intros Hb [H4 Hw]. destruct c as [|x0 [|x1 [|x2 [|x3 p]]]]; try (exfalso; clear -H4; sizes; fail).
  rewrite !bytes_cons in Hb. destruct Hb as (H0 & H1 & H2 & H3 & Hp).
  rewrite word_cons in Hw. injection Hw as Hw. pose proof (be16_u16 x0 x1 H0 H1) as Hu.
  assert (be16 x0 x1 = 2 + Z.of_nat (size p)) as Hs by (rewrite Hw; unfold size; simpl length; lia).
  exists (be16 x2 x3), p. split_and!; [|auto|done|unfold is_u16 in Hu; lia].
  unfold framed. by rewrite <-Hs, !w16_be16.
Qed.

(** A list parameter written with more elements than it has is read beyond its end; every other
    stream is read to a well-formed stream, or kept as an invalid one, and written again
    byte by byte. *)
Lemma stream_reads c :
  bytes c -> frame_ok c -> Z.of_nat (size c) < 65536 ->
  if decide (overcounted c) then STR_fromArray c = Fault OutOfRange
  else exists s, STR_fromArray c = Ret s /\ STR_toArray s = Ret c /\ (s = STR_Invalid c \/ well_formed s).
Proof.
  intros Hb Hf Hs. destruct (frame_ok_framed c Hb Hf) as (t & p & -> & Ht & Hp & _).
  assert (size (framed t p) = 4 + size p)%nat as Es by (unfold framed; sizes).
  rewrite fromArray_frame by (done || lia). pose proof (init_reads t p Ht Hp) as Hi. cbv zeta in Hi.
  destruct (decide _); [by rewrite Hi|]. destruct Hi as (r & -> & Hr). rewrite bind_Ret.
  destruct r as [s|]; [|by exists (STR_Invalid (framed t p)); auto].
  destruct (Hr s eq_refl) as (Hc & Hpl & Hw). exists s. split_and!; [done| |by right].
  rewrite toArray_bytes; [unfold stream_bytes; by rewrite Hc, Hpl|].
  split; [by destruct s|rewrite Hpl; lia].
Qed.

(** Reading one stream.  For any bytes with a correct length field,
    [STR_Stream::fromArray] faults exactly for a list parameter whose element count exceeds
    the strings that follow its name: it then reads behind the end of the stream. *)
Theorem stream_parse_faults_iff (c : CArray) :
  bytes c -> frame_ok c -> Z.of_nat (size c) < 65536 ->
  (STR_fromArray c = Fault OutOfRange <-> overcounted c) /\
  (returns (STR_fromArray c) <-> ~ overcounted c).
Proof.
  intros Hb Hf Hs. pose proof (stream_reads c Hb Hf Hs) as H. unfold returns.
  destruct (decide (overcounted c)); [rewrite H|destruct H as (s & -> & _)]; naive_solver.
Qed.

Lemma stream_parse_faults_iff_witness :
  let c := [0; 12; 1; 247; 1; 25; 0; 3; 65; 0; 66; 0; 67; 0] in
  (STR_fromArray c = Fault OutOfRange <-> overcounted c) /\
  (returns (STR_fromArray c) <-> ~ overcounted c).
Proof. apply stream_parse_faults_iff; decided. Defined.

Lemma streams_read n c pos :
  bytes c -> Z.of_nat (size c) < 65536 -> (pos <= size c)%nat -> (size c - pos <= n)%nat ->
  (streams_from n c pos = Fault OutOfRange /\ exists q len, overcounted (take len (drop q c))) \/
  streams_from n c pos = Ret None \/
  exists im, streams_from n c pos = Ret (Some im) /\
             Forall (fun s => is_invalid s = true \/ well_formed s) im /\
             forall data, append_streams data im = Ret (data ++ drop pos c).
Proof.
  intros Hb Hs. revert pos. induction n as [|n IH]; intros pos Hp Hn.
  { right. right. exists []. split_and!; [cbn [streams_from]; by rewrite decide_True by lia|constructor|]. intros data. simpl.
    unfold size in *. by rewrite drop_ge, app_nil_r by lia. }
  cbn [streams_from]. destruct (decide (size c <= pos)%nat) as [He|He].
  { right. right. exists []. split_and!; [done|constructor|]. intros data. simpl.
    unfold size in *. by rewrite drop_ge, app_nil_r by lia. }
  destruct (decide (size c <= pos + 4)%nat) as [H4|H4]; [by auto|].
  destruct (at_lt c pos) as (h & Eh & Lh); [lia|]. destruct (at_lt c (pos + 1)) as (l & El & Ll); [lia|].
  assert (word c pos = Ret (be16 h l)) as -> by (unfold word; by rewrite Eh, El). rewrite bind_Ret.
  assert (is_u16 (be16 h l)) as Hw by (eauto using be16_u16, bytes_lookup). unfold is_u16 in Hw.
  set (len := Z.to_nat (be16 h l)) in *. destruct (_ || _) eqn:Eo; [by auto|].
  apply orb_false_iff in Eo as [E1 E2]. apply bool_decide_eq_false in E1, E2.
  rewrite slice_ok, bind_Ret by lia. set (d := take (len + 2) (drop pos c)).
  assert (size d = len + 2)%nat as Ed.
  { unfold d, size. rewrite length_take, length_drop. unfold size in *. lia. }
  assert (bytes d) as Hd by (unfold d; auto with carray).
  assert (frame_ok d) as Hf.
  { split; [lia|]. rewrite Ed. unfold word, at_, d.
    rewrite !lookup_take_lt, !lookup_drop, Nat.add_0_r, Lh by lia. rewrite (Nat.add_0_l 1), Ll. simpl.
    f_equal. lia. }
  pose proof (stream_reads d Hd Hf ltac:(lia)) as H. destruct (decide (overcounted d)) as [Ho|_].
  { left. rewrite H. split; [done|]. by exists pos, (len + 2)%nat. }
  destruct H as (s & -> & Ha & Hcase). rewrite bind_Ret.
  destruct (IH (pos + (len + 2))%nat) as [[-> Hq]|[->|(im & -> & Hi & Happ)]]; [lia|lia|by auto|by auto|].
  right. right. exists (s :: im). split_and!; [done| |].
  - constructor; [|done]. destruct Hcase as [->|?]; auto.
  - intros data. simpl. rewrite Ha, bind_Ret. unfold setpart_all. rewrite setpart_end, bind_Ret, Happ.
    unfold d. by rewrite <-app_assoc, <-drop_drop, take_drop.
Qed.

Lemma image_reads (c : CArray) :
  bytes c -> Z.of_nat (size c) < 65536 ->
  (Image_fromArray c = Fault OutOfRange /\ exists pos len, overcounted (take len (drop pos c))) \/
  Image_fromArray c = Ret None \/
  exists im, Image_fromArray c = Ret (Some im) /\
             Forall (fun s => is_invalid s = true \/ well_formed s) im /\
             Image_toArray im = Ret (take 8 c ++ w16 10 ++ drop 10 c).
Proof.
  intros Hb Hs. unfold Image_fromArray. destruct (decide (size c < 10)%nat) as [|H10]; [by auto|].
  rewrite slice_ok, bind_Ret by lia. destruct (decide _) as [|Hm]; [by auto|]. apply dec_stable in Hm.
  destruct (at_lt c 8) as (h & -> & _); [lia|]. destruct (at_lt c 9) as (l & -> & _); [lia|].
  rewrite !bind_Ret. destruct (negb (h =? _)); [by auto|]. destruct (negb (l =? _)); [by auto|].
  destruct (streams_read (size c) c 10) as [H|[H|(im & E & Hi & Ha)]]; [done|done|lia|lia|by auto|by auto|].
  right. right. exists im. split_and!; [done..|].
  rewrite drop_0 in Hm. rewrite Hm. unfold Image_toArray. simpl. by rewrite Ha.
Qed.

(** C25: reading an image from a client.  For any bytes (less than 64 KiB)
    [Image::fromArray] rejects the file, or accepts it and then holds all of it (each
    stream is well formed or kept as invalid, and writing them gives the bytes of the
    file again, but that bytes 8 and 9, its length, are written as 10), or reads out of
    bounds, and then the file contains a list parameter with too large a count. *)
Theorem image_parse (c : CArray) :
  bytes c -> Z.of_nat (size c) < 65536 ->
  (Image_fromArray c = Fault OutOfRange /\ exists pos len, overcounted (take len (drop pos c))) \/
  Image_fromArray c = Ret None \/
  exists im, Image_fromArray c = Ret (Some im) /\
             Forall (fun s => is_invalid s = true \/ well_formed s) im /\
             Image_toArray im = Ret (take 8 c ++ w16 10 ++ drop 10 c).
Proof. apply image_reads. Qed.

Lemma image_parse_witness :
  let c := magic ++ [0; 16; 0; 4; 0; 100; 0; 18] in
  (Image_fromArray c = Fault OutOfRange /\ exists pos len, overcounted (take len (drop pos c))) \/
  Image_fromArray c = Ret None \/
  exists im, Image_fromArray c = Ret (Some im) /\
             Forall (fun s => is_invalid s = true \/ well_formed s) im /\
             Image_toArray im = Ret (take 8 c ++ w16 10 ++ drop 10 c).
Proof. apply image_parse; decided. Defined.

(** A file of 24 bytes that is read out of bounds. *)
Example overcounted_file :
  Image_fromArray (magic ++ [0; 24] ++ [0; 12; 1; 247; 1; 25; 0; 3; 65; 0; 66; 0; 67; 0]) =
  Fault OutOfRange.
Proof. vm_compute. reflexivity. Qed.

(** ** Printing *)

Lemma length_append (s t : string) : String.length (s +:+ t) = (String.length s + String.length t)%nat.
Proof. induction s as [|a s IH]; simpl; [done|]. by rewrite IH. Qed.

Lemma length_hexx n z : String.length (hexx n z) = n.
Proof. revert z. induction n as [|n IH]; intros z; simpl; [done|]. rewrite length_append, IH. simpl. lia. Qed.

Lemma length_hexX n z : String.length (hexX n z) = n.
Proof. revert z. induction n as [|n IH]; intros z; simpl; [done|]. rewrite length_append, IH. simpl. lia. Qed.

Lemma length_text n : (String.length (text_of n) <= size n)%nat.
Proof. induction n as [|b n IH]; simpl; [done|]. unfold size in *. destruct (b =? 0); simpl; lia. Qed.

Lemma length_cstring n : cstring n -> String.length (text_of n) = size n.
Proof.
  intros H. induction H as [|b n Hb _ IH]; [done|]. simpl.
  destruct (Z.eqb_spec b 0); [lia|]. simpl. by rewrite IH.
Qed.

Lemma length_pretty_go k x s :
  (x < 10 ^ N.of_nat k)%N -> (String.length (pretty.pretty_N_go x s) <= k + String.length s)%nat.
Proof.
  revert x s. induction k as [|k IH]; intros x s Hx.
  - simpl in Hx. assert (x = 0%N) as -> by lia. by rewrite pretty.pretty_N_go_0.
  - destruct (decide (x = 0%N)) as [->|Hne]; [rewrite pretty.pretty_N_go_0; lia|].
    rewrite pretty.pretty_N_go_step by lia.
    etransitivity; [apply IH|simpl; lia].
    apply N.Div0.div_lt_upper_bound. rewrite <-N.pow_succ_r'. by replace (N.succ (N.of_nat k)) with (N.of_nat (S k)) by lia.
Qed.

Lemma length_dec_pow (k : nat) z :
  (1 <= k)%nat -> Z.abs z < 10 ^ Z.of_nat k -> (String.length (dec z) <= k + (if decide (z < 0)%Z then 1 else 0))%nat.
Proof.
  intros Hk Hz.
  assert (forall p, Z.pos p < 10 ^ Z.of_nat k -> (String.length (pretty.pretty (N.pos p)) <= k)%nat) as HN.
  { intros p Hp. unfold pretty.pretty, pretty.pretty_N. rewrite decide_False by lia.
    etransitivity; [apply (length_pretty_go k)|simpl; lia]. lia. }
  destruct z as [|p|p].
  - change (dec 0) with "0"%string. simpl. lia.
  - change (dec (Z.pos p)) with (pretty.pretty (N.pos p)). specialize (HN p ltac:(lia)). lia.
  - change (dec (Z.neg p)) with (String.append "-" (pretty.pretty (N.pos p))).
    specialize (HN p ltac:(lia)). rewrite length_append, decide_True by lia. simpl. lia.
Qed.

Lemma length_dec z : is_u16 z -> (String.length (dec z) <= 5)%nat.
Proof.
  unfold is_u16. intros Hz. etransitivity; [apply (length_dec_pow 5); lia|]. rewrite decide_False by lia. lia.
Qed.

Lemma length_hexX4 z : 0 <= z <= 65536 -> (String.length (hexX4 z) <= 5)%nat.
Proof.
  intros Hz. unfold hexX4. rewrite length_hexX.
  pose proof (Z.log2_le_mono z 65536 ltac:(lia)) as H. change (Z.log2 65536) with 16 in H.
  pose proof (Z.log2_nonneg z). assert (Z.log2 z / 4 <= 4) by (Z.div_mod_to_equations; lia). lia.
Qed.

Lemma printed_fits n s : (String.length s + 1 <= n)%nat -> printed n s = Ret s.
Proof. intros H. unfold printed. by rewrite decide_True. Qed.

Lemma printed_overflow n s : (n < String.length s + 1)%nat -> printed n s = Fault OutOfRange.
Proof. intros H. unfold printed. by rewrite decide_False by lia. Qed.

Lemma HexDump_loop_returns c i s : Z.of_nat (i + size c) <= 65536 -> returns (HexDump_loop i c s).
Proof.
  revert i s. induction c as [|b c IH]; intros i s Hi; [by eexists|]. unfold size in Hi. simpl in Hi. cbn [HexDump_loop].
  rewrite (printed_fits 200 (hexx 2 b +:+ " ")) by (rewrite length_append, length_hexx; simpl; lia).
  rewrite bind_Ret.
  destruct (i mod 16 =? 15)%nat.
  - pose proof (length_hexX4 (Z.of_nat (i + 1)) ltac:(lia)). rewrite printed_fits.
    + rewrite !bind_Ret. apply IH. unfold size. lia.
    + rewrite !length_append. simpl. lia.
  - rewrite bind_Ret. apply IH. unfold size. lia.
Qed.

Lemma HexDump_returns c : Z.of_nat (size c) <= 65536 -> returns (HexDump c).
Proof.
  intros H. unfold HexDump. rewrite printed_fits by (vm_compute; lia). rewrite bind_Ret.
  destruct (HexDump_loop_returns c 0 (hexX4 0 +:+ " ")) as [t ->]; [lia|]. by eexists.
Qed.

(** Names and elements that leave room for the rest of the line, and an integer type
    whose width can be computed. *)
Definition printable (s : STR_Stream) : Prop :=
  match s with
  | STR_StringParameter _ _ n | STR_FloatParameter _ n | STR_GroupObject _ n => (size n <= 130)%nat
  | STR_IntParameter _ t n => (size n <= 130)%nat /\ 1 <= Z.abs t <= 32
  | STR_ListParameter _ n es => (size n <= 130)%nat /\ Forall (fun e => size e <= 198)%nat es
  | _ => True
  end.

#[export] Instance printable_dec s : Decision (printable s).
Proof. destruct s; simpl; apply _. Defined.

Lemma shl1_returns n : 0 <= n < 32 -> exists k, shl1 n = Ret k /\ (String.length (dec k) <= 11)%nat.
Proof.
  intros Hn. unfold shl1. rewrite (decide_True (P := 0 <= n < 32)) by done. eexists. split; [done|].
  assert (2 ^ n <= 2 ^ 31) by (apply Z.pow_le_mono_r; lia). assert (0 < 2 ^ n) by (apply Z.pow_pos_nonneg; lia).
  etransitivity; [apply (length_dec_pow 10); [lia|destruct (decide _); lia]|]. destruct (decide (_ < _)); lia.
Qed.

Lemma elements_text_returns es s : Forall (fun e => size e <= 198)%nat es -> returns (elements_text es s).
Proof.
  intros H. revert s. induction H as [|e es He _ IH]; intros s; [by eexists|]. cbn [elements_text].
  pose proof (length_text e). rewrite printed_fits by (rewrite length_append; simpl; lia). apply IH.
Qed.

Lemma keys_text_returns ks i s : Z.of_nat (i + length ks) < 65536 -> returns (keys_text i ks s).
Proof.
  revert i s. induction ks as [|k ks IH]; intros i s Hi; [by eexists|]. cbn [keys_text]. simpl in Hi.
  pose proof (length_dec (Z.of_nat i) ltac:(unfold is_u16; lia)).
  rewrite printed_fits by (rewrite !length_append, length_hexX; simpl; lia). apply IH. lia.
Qed.

(** Bound every piece of a line. *)
Ltac line_fits :=
  repeat match goal with
  | |- context [dec ?z] =>
      lazymatch goal with
      | H : (String.length (dec z) <= _)%nat |- _ => fail
      | _ => pose proof (length_dec z ltac:(assumption || (unfold is_u16, is_u8 in *; lia)))
      end
  | |- context [text_of ?n] =>
      lazymatch goal with
      | H : (String.length (text_of n) <= _)%nat |- _ => fail
      | _ => pose proof (length_text n)
      end
  end;
  rewrite !length_append, ?length_hexx, ?length_hexX; simpl String.length; lia.

(** [decode] prints each stream into buffers of fixed size on the stack.  It stays inside
    them for every well-formed stream with names of up to 130 bytes, list elements of up to 198
    bytes, and an integer type whose width fits an [int]. *)
Theorem decode_fits (s : STR_Stream) :
  well_formed s -> fits s -> printable s -> returns (STR_decode s).
Proof.
  intros Hw [_ Hf] Hp. rewrite size_payload in Hf.
  destruct s as [d|t d|b|d|a l n|a n es|a t n|a n|i n|z|z|z|k ks]; cbn [well_formed printable STR_decode] in *; autounfold with image; [done|..].
  - rewrite printed_fits, bind_Ret by line_fits. destruct (HexDump_returns d) as [x ->]; [lia|]. by eexists.
  - rewrite printed_fits by line_fits. by eexists.
  - rewrite printed_fits, bind_Ret by (vm_compute; lia). destruct (HexDump_returns d) as [x ->]; [lia|]. by eexists.
  - rewrite printed_fits by (destruct_and!; line_fits). by eexists.
  - destruct Hp as [Hn Hes]. rewrite printed_fits, bind_Ret by line_fits.
    edestruct (elements_text_returns es) as [x ->]; [done|]. by eexists.
  - destruct Hp as [Hn Ht]. destruct (shl1_returns (Z.abs t - 1)) as (x & -> & Hx); [lia|]. rewrite bind_Ret.
    rewrite printed_fits; [by eexists|]. destruct (decide (t < 0)); line_fits.
  - rewrite printed_fits by line_fits. by eexists.
  - rewrite printed_fits by (destruct_and!; line_fits). by eexists.
  - rewrite !Forall_cons_iff in Hw. destruct_and!. rewrite printed_fits by line_fits. by eexists.
  - rewrite !Forall_cons_iff in Hw. destruct_and!. rewrite printed_fits by line_fits. by eexists.
  - unfold start_words in Hw. rewrite !Forall_cons_iff in Hw. destruct_and!.
    rewrite printed_fits by line_fits. by eexists.
  - rewrite printed_fits, bind_Ret by line_fits. apply keys_text_returns. lia.
Qed.

Lemma decode_fits_witness : returns (STR_decode (STR_IntParameter 0x119 (-2) [65; 66])).
Proof. apply decode_fits; decided. Defined.

(** A parameter or group object with a name of 200 bytes or more, which
    [STR_Stream::fromArray] accepts, makes [decode] write beyond its buffer. *)
Theorem decode_overflows (n : CArray) :
  cstring n -> (200 <= size n)%nat -> Z.of_nat (size n) <= 60000 ->
  forall s, s ∈ [STR_StringParameter 0 0 n; STR_FloatParameter 0 n; STR_ListParameter 0 n [[]];
                 STR_GroupObject 0 n] ->
  exists c, STR_toArray s = Ret c /\ STR_fromArray c = Ret s /\ STR_decode s = Fault OutOfRange.
Proof.
  intros Hn Hs Hs' s Hin. exists (stream_bytes s). pose proof (length_cstring n Hn) as Hl.
  assert (well_formed s /\ fits s) as [Hw Hf].
  { unfold fits. rewrite size_payload. rewrite !elem_of_cons in Hin.
    destruct Hin as [->|[->|[->|[->|[]%not_elem_of_nil]]]]; simpl; unfold is_u16, is_u8;
      repeat split; try done; try lia; repeat constructor. }
  rewrite toArray_bytes, fromArray_bytes by done. split_and!; [done..|].
  rewrite !elem_of_cons in Hin. destruct Hin as [->|[->|[->|[->|[]%not_elem_of_nil]]]];
    cbn [STR_decode]; autounfold with image; rewrite printed_overflow; try done; rewrite !length_append, Hl; lia.
Qed.

Lemma decode_overflows_witness :
  exists c, STR_toArray (STR_GroupObject 0 (replicate 200 65)) = Ret c /\
            STR_fromArray c = Ret (STR_GroupObject 0 (replicate 200 65)) /\
            STR_decode (STR_GroupObject 0 (replicate 200 65)) = Fault OutOfRange.
Proof. apply (decode_overflows (replicate 200 65)); decided. Defined.
