(* ===== verification/LoadImage.v ===== *)
(** * Checking an image and planning its download

    Models src/src/common/loadimage.cpp, loadimage.h and eibloadresult.h:
    [AddSegmentOverlap], [GenAlloc], [PrepareLoadImage] with the list of load
    requests it builds for a BCU 2, and [decodeBCULoadResult].

    [EIBLoadRequest::len] of the local request is not set before the first four requests
    are stored, and [BCUImage::installkey] is not set for a BCU 1: what they hold then
    is a parameter. *)

From S2P Require Import Prelude CArray Common Apdu Image.

Local Open Scope Z_scope.

(** ** Results *)

Definition IMG_UNKNOWN_ERROR : Z := 0.
Definition IMG_UNRECOG_FORMAT : Z := 1.
Definition IMG_INVALID_FORMAT : Z := 2.
Definition IMG_NO_BCUTYPE : Z := 3.
Definition IMG_UNKNOWN_BCUTYPE : Z := 4.
Definition IMG_NO_CODE : Z := 5.
Definition IMG_NO_SIZE : Z := 6.
Definition IMG_LODATA_OVERFLOW : Z := 7.
Definition IMG_HIDATA_OVERFLOW : Z := 8.
Definition IMG_TEXT_OVERFLOW : Z := 9.
Definition IMG_NO_ADDRESS : Z := 10.
Definition IMG_WRONG_SIZE : Z := 11.
Definition IMG_IMAGE_LOADABLE : Z := 12.
Definition IMG_NO_DEVICE_CONNECTION : Z := 13.
Definition IMG_MASK_READ_FAILED : Z := 14.
Definition IMG_WRONG_MASK_VERSION : Z := 15.
Definition IMG_CLEAR_ERROR : Z := 16.
Definition IMG_RESET_ADDR_TAB : Z := 17.
Definition IMG_LOAD_HEADER : Z := 18.
Definition IMG_LOAD_MAIN : Z := 19.
Definition IMG_ZERO_RAM : Z := 20.
Definition IMG_FINALIZE_ADDR_TAB : Z := 21.
Definition IMG_PREPARE_RUN : Z := 22.
Definition IMG_RESTART : Z := 23.
Definition IMG_LOADED : Z := 24.
Definition IMG_NO_START : Z := 25.
Definition IMG_WRONG_ADDRTAB : Z := 26.
Definition IMG_ADDRTAB_OVERFLOW : Z := 27.
Definition IMG_OVERLAP_ASSOCTAB : Z := 28.
Definition IMG_OVERLAP_TEXT : Z := 29.
Definition IMG_NEGATIV_TEXT_SIZE : Z := 30.
Definition IMG_OVERLAP_PARAM : Z := 31.
Definition IMG_OVERLAP_EEPROM : Z := 32.
Definition IMG_OBJTAB_OVERFLOW : Z := 33.
Definition IMG_WRONG_LOADCTL : Z := 34.
Definition IMG_UNLOAD_ADDR : Z := 35.
Definition IMG_UNLOAD_ASSOC : Z := 36.
Definition IMG_UNLOAD_PROG : Z := 37.
Definition IMG_LOAD_ADDR : Z := 38.
Definition IMG_WRITE_ADDR : Z := 39.
Definition IMG_SET_ADDR : Z := 40.
Definition IMG_FINISH_ADDR : Z := 41.
Definition IMG_LOAD_ASSOC : Z := 42.
Definition IMG_WRITE_ASSOC : Z := 43.
Definition IMG_SET_ASSOC : Z := 44.
Definition IMG_FINISH_ASSOC : Z := 45.
Definition IMG_LOAD_PROG : Z := 46.
Definition IMG_ALLOC_LORAM : Z := 47.
Definition IMG_ALLOC_HIRAM : Z := 48.
Definition IMG_ALLOC_INIT : Z := 49.
Definition IMG_ALLOC_RO : Z := 50.
Definition IMG_ALLOC_EEPROM : Z := 51.
Definition IMG_ALLOC_PARAM : Z := 52.
Definition IMG_SET_PROG : Z := 53.
Definition IMG_SET_TASK_PTR : Z := 54.
Definition IMG_SET_OBJ : Z := 55.
Definition IMG_SET_TASK2 : Z := 56.
Definition IMG_FINISH_PROC : Z := 57.
Definition IMG_WRONG_CHECKLIM : Z := 58.
Definition IMG_INVALID_KEY : Z := 59.
Definition IMG_AUTHORIZATION_FAILED : Z := 60.
Definition IMG_KEY_WRITE : Z := 61.

Definition decodeBCULoadResult (r : Z) : string :=
  if r =? IMG_UNKNOWN_ERROR then "unknown error"
  else if r =? IMG_UNRECOG_FORMAT then "data not regcognized as image"
  else if r =? IMG_INVALID_FORMAT then "invalid streams in the image"
  else if r =? IMG_NO_BCUTYPE then "no bcu type specified"
  else if r =? IMG_UNKNOWN_BCUTYPE then "don't know how to load the bcutype"
  else if r =? IMG_NO_CODE then "no text segment found"
  else if r =? IMG_NO_SIZE then "size information not found"
  else if r =? IMG_LODATA_OVERFLOW then "too many data for low-ram"
  else if r =? IMG_HIDATA_OVERFLOW then "too many data for hi-ram"
  else if r =? IMG_TEXT_OVERFLOW then "too many data for eeprom"
  else if r =? IMG_IMAGE_LOADABLE then "Image is loadable"
  else if r =? IMG_NO_ADDRESS then "no address found in the image"
  else if r =? IMG_WRONG_SIZE then "unexpected size of the text segment"
  else if r =? IMG_NO_DEVICE_CONNECTION then "connection to the device failed"
  else if r =? IMG_MASK_READ_FAILED then "read of mask version failed"
  else if r =? IMG_WRONG_MASK_VERSION then "incompatible mask version"
  else if r =? IMG_CLEAR_ERROR then "reseting of RunFlags failed"
  else if r =? IMG_RESET_ADDR_TAB then "reseting of the address table failed"
  else if r =? IMG_LOAD_HEADER then "loading of the header failed"
  else if r =? IMG_LOAD_MAIN then "loading of the code in the eeprom failed"
  else if r =? IMG_ZERO_RAM then "cleaning the ram failed"
  else if r =? IMG_FINALIZE_ADDR_TAB then "finalizing the address table failed"
  else if r =? IMG_PREPARE_RUN then "setting the RunFlags failed"
  else if r =? IMG_RESTART then "restart failed"
  else if r =? IMG_LOADED then "image successful loaded"
  else if r =? IMG_NO_START then "no BCU2 load control information present"
  else if r =? IMG_WRONG_ADDRTAB then "wrong start address of the address table"
  else if r =? IMG_ADDRTAB_OVERFLOW then "address table too big"
  else if r =? IMG_OVERLAP_ASSOCTAB then "association table overlaps with an other segment"
  else if r =? IMG_OVERLAP_TEXT then "text segement overlaps with an other segment"
  else if r =? IMG_NEGATIV_TEXT_SIZE then "segment end < text segment"
  else if r =? IMG_OVERLAP_PARAM then "param segment overlaps with an other segment"
  else if r =? IMG_OVERLAP_EEPROM then "eeprom segment overlaps with an other segment"
  else if r =? IMG_OBJTAB_OVERFLOW then "too many objects"
  else if r =? IMG_WRONG_LOADCTL then "param end not in the text segment"
  else if r =? IMG_UNLOAD_ADDR then "error unloading address table"
  else if r =? IMG_UNLOAD_ASSOC then "error unloading assocation table"
  else if r =? IMG_UNLOAD_PROG then "error unloading user programm"
  else if r =? IMG_LOAD_ADDR then "error start loading address table"
  else if r =? IMG_WRITE_ADDR then "error allocation address table"
  else if r =? IMG_SET_ADDR then "error setting address table start"
  else if r =? IMG_FINISH_ADDR then "error finishing address table"
  else if r =? IMG_LOAD_ASSOC then "error start loading association table"
  else if r =? IMG_WRITE_ASSOC then "error allocation assocation table"
  else if r =? IMG_SET_ASSOC then "error setting assocation table start"
  else if r =? IMG_FINISH_ASSOC then "error finishing assocation table"
  else if r =? IMG_LOAD_PROG then "error start loading programm"
  else if r =? IMG_ALLOC_LORAM then "error allocation low ram"
  else if r =? IMG_ALLOC_HIRAM then "error allocation high ram"
  else if r =? IMG_ALLOC_INIT then "error allocation config section"
  else if r =? IMG_ALLOC_RO then "error loading text segment"
  else if r =? IMG_ALLOC_EEPROM then "error loading eeprom segment"
  else if r =? IMG_ALLOC_PARAM then "error loading parameter segement"
  else if r =? IMG_SET_PROG then "error setting programm entry"
  else if r =? IMG_SET_TASK_PTR then "error setting task pointer"
  else if r =? IMG_SET_OBJ then "error setting object pointer"
  else if r =? IMG_SET_TASK2 then "error setting group object pointer"
  else if r =? IMG_FINISH_PROC then "error finishing application programm"
  else if r =? IMG_WRONG_CHECKLIM then "wrong check limit"
  else if r =? IMG_AUTHORIZATION_FAILED then "authorization failed"
  else if r =? IMG_INVALID_KEY then "invalid key information"
  else if r =? IMG_KEY_WRITE then "key write failed"
  else "errorcode not defined".

(** ** Segments *)

Record Segment := mkSegment { seg_start : Z; seg_len : Z }.

(** The two conditions of the loop, for one segment that is there already. *)
Definition overlaps (s : Segment) (start len : Z) : bool :=
  (bool_decide (seg_start s <= start) && bool_decide (start < seg_start s + seg_len s)) ||
  (bool_decide (start <= seg_start s) && bool_decide (seg_start s < start + len)).

Definition AddSegmentOverlap (s : list Segment) (start len : Z) : bool * list Segment :=
  if len =? 0 then (true, s)
  else if existsb (fun s => overlaps s start len) s then (false, s)
  else (true, s ++ [mkSegment start len]).

(** ** Requests *)

Record EIBLoadRequest := mkEIBLoadRequest {
  error : Z; obj : Z; prop : Z; start : Z; req : CArray; result : CArray; memaddr : Z; len : Z
}.

Definition with_error r v := mkEIBLoadRequest v (obj r) (prop r) (start r) (req r) (result r) (memaddr r) (len r).
Definition with_obj r v := mkEIBLoadRequest (error r) v (prop r) (start r) (req r) (result r) (memaddr r) (len r).
Definition with_req r v := mkEIBLoadRequest (error r) (obj r) (prop r) (start r) v (result r) (memaddr r) (len r).
Definition with_result r v := mkEIBLoadRequest (error r) (obj r) (prop r) (start r) (req r) v (memaddr r) (len r).
Definition with_memaddr r v := mkEIBLoadRequest (error r) (obj r) (prop r) (start r) (req r) (result r) (u16 v) (len r).
Definition with_len r v := mkEIBLoadRequest (error r) (obj r) (prop r) (start r) (req r) (result r) (memaddr r) (u16 v).

Definition zero10 : CArray := replicate 10 0.

(** The high and the low byte of a word. *)
Definition hi8 (v : Z) : Z := Z.land (v ≫ 8) 0xff.
Definition lo8 (v : Z) : Z := Z.land v 0xff.

Definition GenAlloc (start len access type : Z) (check : bool) : CArray :=
  let start := u16 start in
  let len := u16 len in
  [0x03; 0; hi8 start; lo8 start; hi8 len; lo8 len; u8 access; u8 type; if check then 0x80 else 0x00; 0].

(** A request of ten zeros of which the first ones are set. *)
Definition request (bs : CArray) : CArray := bs ++ replicate (10 - size bs) 0.

Inductive BCUType := B_bcu1 | B_bcu20 | B_bcu21.

Record BCUImage := mkBCUImage {
  img_BCUType : BCUType; img_code : CArray; img_load : list EIBLoadRequest; img_addr : Z;
  img_installkey : Z; img_keys : list Z
}.

#[export] Instance EIBLoadRequest_eq_dec : EqDecision EIBLoadRequest.
Proof. solve_decision. Defined.
#[export] Instance BCUType_eq_dec : EqDecision BCUType.
Proof. solve_decision. Defined.
#[export] Instance BCUImage_eq_dec : EqDecision BCUImage.
Proof. solve_decision. Defined.

(** *** Requests for the address table *)

Definition addr_requests (s1 : BCU2Start) (cfg : CArray) (r : EIBLoadRequest) : list EIBLoadRequest * EIBLoadRequest :=
  let r := with_error (with_result (with_obj (with_req r (request [0x01])) 1) [0x02]) IMG_LOAD_ADDR in
  let load := [r] in
  let r := with_req r (GenAlloc (addrtab_start s1) (addrtab_size s1) 0x31 0x03 true) in
  let r := with_error (with_len (with_memaddr r (addrtab_start s1)) 1) IMG_WRITE_ADDR in
  let load := load ++ [r] in
  let r := with_obj r 0xff in
  let r := with_memaddr r (memaddr r + 3) in
  let r := with_len r (addrtab_size s1 - 4) in
  let load := load ++ [r] in
  let r := with_memaddr (with_obj r 1) 0xffff in
  let r := with_req r ([0x03; 0x02; hi8 (addrtab_start s1); lo8 (addrtab_start s1)] ++ cfg) in
  let r := with_error r IMG_SET_ADDR in
  let load := load ++ [r] in
  let r := with_error (with_result (with_req r (request [0x02])) [0x01]) IMG_FINISH_ADDR in
  (load ++ [r], r).

(** *** Requests for the association table *)

Definition assoc_requests (s1 : BCU2Start) (cfg : CArray) (r : EIBLoadRequest) : list EIBLoadRequest * EIBLoadRequest :=
  let r := with_error (with_result (with_obj (with_req r (request [0x01])) 2) [0x02]) IMG_LOAD_ASSOC in
  let load := [r] in
  let r := with_req r (GenAlloc (assoctab_start s1) (assoctab_size s1) 0x31 0x03 true) in
  let r := with_error (with_len (with_memaddr r (assoctab_start s1)) (assoctab_size s1 - 1)) IMG_WRITE_ASSOC in
  let load := load ++ [r] in
  let r := with_memaddr r 0xffff in
  let r := with_req r ([0x03; 0x02; hi8 (assoctab_start s1); lo8 (assoctab_start s1)] ++ cfg) in
  let r := with_error r IMG_SET_ASSOC in
  let load := load ++ [r] in
  let r := with_error (with_result (with_req r (request [0x02])) [0x01]) IMG_FINISH_ASSOC in
  (load ++ [r], r).

(** *** Requests for the application program *)

Definition prog_requests (s1 : BCU2Start) (cfg : CArray) (r : EIBLoadRequest) : list EIBLoadRequest :=
  let r := with_error (with_result (with_obj (with_req r (request [0x01])) 3) [0x02]) IMG_LOAD_PROG in
  let load := [r] in
  let r := with_error (with_req r (GenAlloc 0x00C8 0x0018 0x32 0x01 false)) IMG_ALLOC_LORAM in
  let load := load ++ [r] in
  let r := with_error (with_req r (GenAlloc 0x0972 0x004A 0x32 0x02 false)) IMG_ALLOC_HIRAM in
  let load := load ++ [r] in
  let r := with_error (with_req r (GenAlloc 0x0100 0x0016 0x32 0x03 false)) IMG_ALLOC_INIT in
  let r := with_memaddr (with_len r 0x001) 0x100 in
  let load := load ++ [r] in
  let r := with_len (with_memaddr (with_obj r 0xff) 0x103) 0x13 in
  let load := load ++ [r] in
  let r := with_obj r 3 in
  let r := with_req r (GenAlloc (readonly_start s1) (readonly_end s1 - readonly_start s1) 0x30 0x03 true) in
  let r := with_error r IMG_ALLOC_RO in
  let r := with_len r (readonly_end s1 - readonly_start s1 - 1) in
  let r := with_memaddr r (readonly_start s1) in
  let load := load ++ (if nz (len r) then [r] else []) in
  let r := with_req r (GenAlloc (eeprom_start s1) (eeprom_end s1 - eeprom_start s1) 0x31 0x03 false) in
  let r := with_error r IMG_ALLOC_EEPROM in
  let r := with_len r (eeprom_end s1 - eeprom_start s1) in
  let r := with_memaddr r (eeprom_start s1) in
  let load := load ++ (if nz (len r) then [r] else []) in
  let r := with_req r (GenAlloc (param_start s1) (param_end s1 - param_start s1) 0x32 0x03 true) in
  let r := with_error r IMG_ALLOC_PARAM in
  let r := with_len r (param_end s1 - param_start s1) in
  let r := with_memaddr r (param_start s1) in
  let load := load ++ (if bool_decide (1 < len r) then [r] else []) in
  let r := with_memaddr r 0xffff in
  let r := with_req r ([0x03; 0x02; hi8 (runaddr s1); lo8 (runaddr s1)] ++ cfg) in
  let r := with_error r IMG_SET_PROG in
  let load := load ++ [r] in
  let r := with_req r (request [0x03; 0x03; hi8 (initaddr s1); lo8 (initaddr s1); hi8 (saveaddr s1);
                                lo8 (saveaddr s1); hi8 (sphandler s1); lo8 (sphandler s1)]) in
  let r := with_error r IMG_SET_TASK_PTR in
  let load := load ++ [r] in
  let r := with_req r (request [0x03; 0x04; hi8 (obj_ptr s1); lo8 (obj_ptr s1); lo8 (obj_count s1)]) in
  let r := with_error r IMG_SET_OBJ in
  let load := load ++ [r] in
  let r := with_req r (request [0x03; 0x05; hi8 (appcallback s1); lo8 (appcallback s1); hi8 (groupobj_ptr s1);
                                lo8 (groupobj_ptr s1); hi8 (seg0 s1); lo8 (seg0 s1); hi8 (seg1 s1);
                                lo8 (seg1 s1)]) in
  let r := with_error r IMG_SET_TASK2 in
  let load := load ++ [r] in
  let r := with_error (with_result (with_req r (request [0x02])) [0x01]) IMG_FINISH_PROC in
  load ++ [r].

(** The whole list.  [cfg] are the six bytes from the code ([code[9]] and [code[3]] to
    [code[7]]) that end the requests which set a start address. *)
Definition load_requests (len0 : Z) (s1 : BCU2Start) (cfg : CArray) : list EIBLoadRequest :=
  let r := mkEIBLoadRequest IMG_UNLOAD_ADDR 1 5 1 (request [0x04]) [0x00] 0xffff len0 in
  let load := [r] in
  let r := with_error (with_obj r 2) IMG_UNLOAD_ASSOC in
  let load := load ++ [r] in
  let r := with_error (with_obj r 3) IMG_UNLOAD_PROG in
  let load := load ++ [r] in
  let (addr, r) := addr_requests s1 cfg r in
  let (assoc, r) := assoc_requests s1 cfg r in
  load ++ addr ++ assoc ++ prog_requests s1 cfg r.

(** ** Streams of an image by class *)

Definition find_BCUType (i : Image) : outcome (option Z) :=
  s ← Image_findStream i S_BCUType;
  match s with Some (STR_BCUType b) => Ret (Some b) | None => Ret None | _ => Fault Aborted end.

Definition find_Code (i : Image) : outcome (option CArray) :=
  s ← Image_findStream i S_Code;
  match s with Some (STR_Code c) => Ret (Some c) | None => Ret None | _ => Fault Aborted end.

Definition find_BCU1Size (i : Image) : outcome (option BCU1Size) :=
  s ← Image_findStream i S_BCU1Size;
  match s with Some (STR_BCU1Size c) => Ret (Some c) | None => Ret None | _ => Fault Aborted end.

Definition find_BCU2Size (i : Image) : outcome (option BCU2Size) :=
  s ← Image_findStream i S_BCU2Size;
  match s with Some (STR_BCU2Size c) => Ret (Some c) | None => Ret None | _ => Fault Aborted end.

Definition find_BCU2Start (i : Image) : outcome (option BCU2Start) :=
  s ← Image_findStream i S_BCU2Start;
  match s with Some (STR_BCU2Start c) => Ret (Some c) | None => Ret None | _ => Fault Aborted end.

Definition find_BCU2Key (i : Image) : outcome (option (Z * list Z)) :=
  s ← Image_findStream i S_BCU2Key;
  match s with Some (STR_BCU2Key k ks) => Ret (Some (k, ks)) | None => Ret None | _ => Fault Aborted end.

(** ** [PrepareLoadImage] *)

Definition bcu2_start_checks (s1 : BCU2Start) (codesize : Z) : option Z :=
  if negb (addrtab_start s1 =? 0x116) || bool_decide (addrtab_size s1 < 4) then Some IMG_WRONG_ADDRTAB
  else if bool_decide (0xff < addrtab_size s1) then Some IMG_ADDRTAB_OVERFLOW
  else
    let (_, seg) := AddSegmentOverlap [] (addrtab_start s1) (addrtab_size s1) in
    let (ok, seg) := AddSegmentOverlap seg (assoctab_start s1) (assoctab_size s1) in
    if negb ok then Some IMG_OVERLAP_ASSOCTAB
    else if bool_decide (0xff < assoctab_size s1) then Some IMG_ADDRTAB_OVERFLOW
    else if bool_decide (readonly_end s1 < readonly_start s1) then Some IMG_NEGATIV_TEXT_SIZE
    else
      let (ok, seg) := AddSegmentOverlap seg (readonly_start s1) (u16 (readonly_end s1 - readonly_start s1)) in
      if negb ok then Some IMG_OVERLAP_TEXT
      else if bool_decide (param_end s1 < param_start s1) then Some IMG_NEGATIV_TEXT_SIZE
      else if bool_decide (eeprom_end s1 < eeprom_start s1) then Some IMG_NEGATIV_TEXT_SIZE
      else
        let (ok, seg) := AddSegmentOverlap seg (eeprom_start s1) (u16 (eeprom_end s1 - eeprom_start s1)) in
        if negb ok then Some IMG_OVERLAP_EEPROM
        else
          let (ok, seg) := AddSegmentOverlap seg (param_start s1) (u16 (param_end s1 - param_start s1)) in
          if negb ok then Some IMG_OVERLAP_PARAM
          else if bool_decide (0xff < obj_count s1) then Some IMG_OBJTAB_OVERFLOW
          else if bool_decide (codesize + 0x100 < param_end s1) then Some IMG_WRONG_LOADCTL
          else None.

(** [(c->code[0x17] << 8) | (c->code[0x18])] *)
Definition image_addr (code : CArray) : outcome Z :=
  h ← at_ code 0x17; l ← at_ code 0x18; Ret (be16 h l).

Section PrepareLoadImage.
(** What the fields that are not set hold. *)
Context (len0 key0 : Z).

Definition PrepareLoadImage_bcu1 (i : Image) (code : CArray) : outcome (Z * option BCUImage) :=
  s ← find_BCU1Size i;
  match s with
  | None => Ret (IMG_NO_SIZE, None)
  | Some s =>
      if bool_decide (18 < b1_datasize s + b1_bsssize s + b1_stacksize s) then Ret (IMG_LODATA_OVERFLOW, None)
      else if bool_decide (0xfe < b1_textsize s) then Ret (IMG_TEXT_OVERFLOW, None)
      else if negb (b1_textsize s =? Z.of_nat (size code)) then Ret (IMG_WRONG_SIZE, None)
      else if bool_decide (b1_textsize s < 0x18) then Ret (IMG_NO_ADDRESS, None)
      else
        lim ← at_ code 8;
        if bool_decide (lim < 8) || bool_decide (Z.of_nat (size code) + 1 < lim) then Ret (IMG_WRONG_CHECKLIM, None)
        else
          addr ← image_addr code;
          Ret (IMG_IMAGE_LOADABLE, Some (mkBCUImage B_bcu1 code [] addr key0 []))
  end.

(** The image that is returned for a BCU 2, once everything is checked. *)
Definition bcu2_image (bcutype : Z) (code : CArray) (s1 : BCU2Start) (installkey : Z) (keys : list Z)
  : outcome (Z * option BCUImage) :=
  addr ← image_addr code;
  c9 ← at_ code 0x09;
  c3 ← slice code 0x03 5;
  Ret (IMG_IMAGE_LOADABLE,
       Some (mkBCUImage (if bcutype =? 0x0020 then B_bcu20 else B_bcu21) code
               (load_requests len0 s1 (c9 :: c3)) addr installkey keys)).

Definition PrepareLoadImage_bcu2 (i : Image) (bcutype : Z) (code : CArray) : outcome (Z * option BCUImage) :=
  s ← find_BCU2Size i;
  match s with
  | None => Ret (IMG_NO_SIZE, None)
  | Some s =>
      if bool_decide (18 < lo_datasize s + lo_bsssize s) then Ret (IMG_LODATA_OVERFLOW, None)
      else if bool_decide (24 < hi_datasize s + hi_bsssize s) then Ret (IMG_HIDATA_OVERFLOW, None)
      else if bool_decide (0x36f < b2_textsize s) then Ret (IMG_TEXT_OVERFLOW, None)
      else if negb (b2_textsize s =? Z.of_nat (size code)) then Ret (IMG_WRONG_SIZE, None)
      else if bool_decide (b2_textsize s < 0x18) then Ret (IMG_NO_ADDRESS, None)
      else
        s1 ← find_BCU2Start i;
        match s1 with
        | None => Ret (IMG_NO_START, None)
        | Some s1 =>
            match bcu2_start_checks s1 (Z.of_nat (size code)) with
            | Some e => Ret (e, None)
            | None =>
                s2 ← find_BCU2Key i;
                match s2 with
                | Some (k, ks) =>
                    if negb (length ks =? 3)%nat then Ret (IMG_INVALID_KEY, None)
                    else bcu2_image bcutype code s1 k ks
                | None => bcu2_image bcutype code s1 0xFFFFFFFF [0xFFFFFFFF; 0xFFFFFFFF; 0xFFFFFFFF]
                end
            end
        end
  end.
Definition PrepareLoadImage (im : CArray) : outcome (Z * option BCUImage) :=
  i ← Image_fromArray im;
  match i with
  | None => Ret (IMG_UNRECOG_FORMAT, None)
  | Some i =>
      if negb (Image_isValid i) then Ret (IMG_INVALID_FORMAT, None)
      else
        b ← find_BCUType i;
        match b with
        | None => Ret (IMG_NO_BCUTYPE, None)
        | Some b =>
            c ← find_Code i;
            match c with
            | None => Ret (IMG_NO_CODE, None)
            | Some code =>
                if b =? 0x0012 then PrepareLoadImage_bcu1 i code
                else if (b =? 0x0020) || (b =? 0x0021) then PrepareLoadImage_bcu2 i b code
                else Ret (IMG_UNKNOWN_BCUTYPE, None)
            end
        end
  end.
End PrepareLoadImage.
