(* ===== verification/LoadImageSpec.v ===== *)
(** * Checking an image: what is accepted

    What [PrepareLoadImage] of [LoadImage] promises about an image it calls loadable: its
    segments do not overlap and its requests are well formed; and what it does not:
    the code may be one byte too short for the address that is read from it, and an
    empty association table or text segment gives a request for 65535 bytes. *)

From S2P Require Import Prelude CArray Common Apdu Image ImageSpec ImageSafe LoadImage.

Local Open Scope Z_scope.

(** ** Segments *)

Definition covers (s : Segment) (a : Z) : Prop := seg_start s <= a < seg_start s + seg_len s.

Definition apart (s t : Segment) : Prop := forall a, covers s a -> covers t a -> False.

Definition disjoint_segments (ss : list Segment) : Prop := ForallOrdPairs apart ss.

Lemma overlaps_false s start len :
  overlaps s start len = false -> apart s (mkSegment start len).
Proof.
  unfold overlaps, apart, covers. simpl. rewrite orb_false_iff, !andb_false_iff, !bool_decide_eq_false.
  intros [H1 H2] a Ha Hb. lia.
Qed.

Lemma ForallOrdPairs_snoc {A} (R : A -> A -> Prop) l x :
  ForallOrdPairs R l -> Forall (fun y => R y x) l -> ForallOrdPairs R (l ++ [x]).
Proof.
  induction 1 as [|y l Hy _ IH]; intros Hx; [repeat constructor|].
  rewrite Forall_cons_iff in Hx. destruct Hx as [Hyx Hx]. simpl. constructor; [|auto].
  apply Forall_app. auto.
Qed.

(** An accepted segment is apart from all before it; an empty one always is. *)
Lemma AddSegmentOverlap_apart ss start len ss' all :
  0 <= len -> AddSegmentOverlap ss start len = (true, ss') ->
  disjoint_segments all -> (forall s, In s all -> seg_len s = 0 \/ In s ss) ->
  disjoint_segments (all ++ [mkSegment start len]) /\
  (forall s, In s (all ++ [mkSegment start len]) -> seg_len s = 0 \/ In s ss').
Proof.
  intros Hl Ha Hd Hin. unfold AddSegmentOverlap in Ha. destruct (Z.eqb_spec len 0) as [->|Hne].
  - injection Ha as <-. split.
    + apply ForallOrdPairs_snoc; [done|]. apply Forall_forall. intros s _ a _ Hc.
      unfold covers in Hc. simpl in Hc. lia.
    + intros s [H|[<-|[]]]%in_app_or; auto.
  - destruct (existsb _ ss) eqn:E; [done|]. injection Ha as <-. split.
    + apply ForallOrdPairs_snoc; [done|]. apply Forall_forall. intros s Hs.
      destruct (Hin s Hs) as [H0|Hs']; [intros a Hc; unfold covers in Hc; lia|].
      apply overlaps_false. destruct (overlaps s start len) eqn:Eo; [|done].
      enough (existsb (fun s => overlaps s start len) ss = true) by congruence.
      apply existsb_exists. eauto.
    + intros s [H|[<-|[]]]%in_app_or; [|right; apply in_or_app; simpl; auto].
      destruct (Hin s H); [auto|]. right. apply in_or_app. auto.
Qed.

Definition segments (s1 : BCU2Start) : list Segment :=
  [mkSegment (addrtab_start s1) (addrtab_size s1); mkSegment (assoctab_start s1) (assoctab_size s1);
   mkSegment (readonly_start s1) (readonly_end s1 - readonly_start s1);
   mkSegment (eeprom_start s1) (eeprom_end s1 - eeprom_start s1);
   mkSegment (param_start s1) (param_end s1 - param_start s1)].

(** What the checks on the load control stream establish. *)
Record start_ok (s1 : BCU2Start) (codesize : Z) : Prop := {
  ok_addrtab : addrtab_start s1 = 0x116;
  ok_addrtab_size : 4 <= addrtab_size s1 <= 0xff;
  ok_assoctab_size : assoctab_size s1 <= 0xff;
  ok_text : readonly_start s1 <= readonly_end s1;
  ok_eeprom : eeprom_start s1 <= eeprom_end s1;
  ok_param : param_start s1 <= param_end s1;
  ok_objects : obj_count s1 <= 0xff;
  ok_end : param_end s1 <= codesize + 0x100;
  ok_disjoint : disjoint_segments (segments s1)
}.

(** The values of the stream are words. *)
Definition start_words_ok (s1 : BCU2Start) : Prop := Forall is_u16 (start_words s1).

Lemma bcu2_start_checks_ok s1 codesize :
  start_words_ok s1 -> bcu2_start_checks s1 codesize = None -> start_ok s1 codesize.
Proof.
  unfold start_words_ok, start_words. rewrite !Forall_cons_iff. unfold is_u16. intros Hw.
  unfold bcu2_start_checks.
  destruct (negb (addrtab_start s1 =? 0x116)) eqn:E1; [done|].
  destruct (bool_decide (addrtab_size s1 < 4)) eqn:E2; [done|].
  destruct (bool_decide (0xff < addrtab_size s1)) eqn:E3; [done|]. cbn [orb].
  apply negb_false_iff, Z.eqb_eq in E1. apply bool_decide_eq_false in E2, E3.
  destruct (AddSegmentOverlap [] _ _) as [ok0 seg0] eqn:A0.
  assert (ok0 = true) as ->.
  { unfold AddSegmentOverlap in A0. destruct (_ =? 0); simpl in A0; congruence. }
  apply (AddSegmentOverlap_apart [] _ _ _ []) in A0 as [D0 I0]; [|lia|constructor|simpl; tauto].
  destruct (AddSegmentOverlap seg0 _ _) as [[] seg1] eqn:A1; [|done]. cbn [negb].
  eapply AddSegmentOverlap_apart in A1 as [D1 I1]; [|lia|exact D0|exact I0].
  destruct (bool_decide (0xff < assoctab_size s1)) eqn:E4; [done|].
  destruct (bool_decide (readonly_end s1 < readonly_start s1)) eqn:E5; [done|].
  apply bool_decide_eq_false in E4, E5.
  rewrite u16_small by (unfold is_u16; lia).
  destruct (AddSegmentOverlap seg1 _ _) as [[] seg2] eqn:A2; [|done]. cbn [negb].
  eapply AddSegmentOverlap_apart in A2 as [D2 I2]; [|lia|exact D1|exact I1].
  destruct (bool_decide (param_end s1 < param_start s1)) eqn:E6; [done|].
  destruct (bool_decide (eeprom_end s1 < eeprom_start s1)) eqn:E7; [done|].
  apply bool_decide_eq_false in E6, E7.
  rewrite u16_small by (unfold is_u16; lia).
  destruct (AddSegmentOverlap seg2 _ _) as [[] seg3] eqn:A3; [|done]. cbn [negb].
  eapply AddSegmentOverlap_apart in A3 as [D3 I3]; [|lia|exact D2|exact I2].
  rewrite u16_small by (unfold is_u16; lia).
  destruct (AddSegmentOverlap seg3 _ _) as [[] seg4] eqn:A4; [|done]. cbn [negb].
  eapply AddSegmentOverlap_apart in A4 as [D4 I4]; [|lia|exact D3|exact I3].
  destruct (bool_decide (0xff < obj_count s1)) eqn:E8; [done|].
  destruct (bool_decide (codesize + 0x100 < param_end s1)) eqn:E9; [done|].
  apply bool_decide_eq_false in E8, E9. intros _. split; try lia. exact D4.
Qed.

(** ** Streams of a class *)

Lemma findStream_spec i t :
  exists r, Image_findStream i t = Ret r /\ forall s, r = Some s -> In s i /\ STR_getType s = t.
Proof.
  unfold Image_findStream, Image_findStreamNumber.
  destruct (list_find _ i) as [[k s]|] eqn:E; [|by exists None].
  apply list_find_Some in E as (Hk & Ht & _).
  destruct (Z.eqb_spec (Z.of_nat k) (-1)); [lia|]. rewrite Nat2Z.id. exists (Some s).
  split; [unfold Image in *; by rewrite Hk|]. intros s' [= <-]. split; [|done]. eapply list_elem_of_In, list_elem_of_lookup_2, Hk.
Qed.

(** A search returns, and what it finds is in the image. *)
Ltac found i t :=
  let r := fresh in let Hr := fresh in
  destruct (findStream_spec i t) as (r & -> & Hr); rewrite bind_Ret;
  destruct r as [s|]; [|by exists None];
  destruct (Hr s eq_refl) as [Hin Ht]; destruct s; try discriminate Ht; eexists; (split; [done|]);
  intros ? [= <-]; exact Hin.

Lemma find_BCUType_spec i : exists r, find_BCUType i = Ret r /\ forall b, r = Some b -> In (STR_BCUType b) i.
Proof. unfold find_BCUType. found i S_BCUType. Qed.

Lemma find_Code_spec i : exists r, find_Code i = Ret r /\ forall b, r = Some b -> In (STR_Code b) i.
Proof. unfold find_Code. found i S_Code. Qed.

Lemma find_BCU1Size_spec i : exists r, find_BCU1Size i = Ret r /\ forall b, r = Some b -> In (STR_BCU1Size b) i.
Proof. unfold find_BCU1Size. found i S_BCU1Size. Qed.

Lemma find_BCU2Size_spec i : exists r, find_BCU2Size i = Ret r /\ forall b, r = Some b -> In (STR_BCU2Size b) i.
Proof. unfold find_BCU2Size. found i S_BCU2Size. Qed.

Lemma find_BCU2Start_spec i : exists r, find_BCU2Start i = Ret r /\ forall b, r = Some b -> In (STR_BCU2Start b) i.
Proof. unfold find_BCU2Start. found i S_BCU2Start. Qed.

Lemma find_BCU2Key_spec i :
  exists r, find_BCU2Key i = Ret r /\ forall b, r = Some b -> In (STR_BCU2Key (fst b) (snd b)) i.
Proof. unfold find_BCU2Key. found i S_BCU2Key. Qed.

(** ** Outcomes *)

Lemma image_addr_outcome code :
  (0x18 <= size code)%nat ->
  if decide (size code = 0x18%nat) then image_addr code = Fault OutOfRange
  else exists a, image_addr code = Ret a.
Proof.
  intros Hs. unfold image_addr. destruct (at_lt code 0x17) as (h & -> & _); [lia|]. rewrite bind_Ret.
  destruct (decide _) as [E|E].
  - unfold at_. by rewrite lookup_ge_None_2 by (unfold size in E; lia).
  - destruct (at_lt code 0x18) as (l & -> & _); [lia|]. by eexists.
Qed.

(** Refused with a result below the ones of the download, accepted, or reading the
    twenty-fifth byte of a code of twenty-four. *)
Definition prepared (code : CArray) (m : outcome (Z * option BCUImage)) : Prop :=
  (exists r, m = Ret (r, None) /\ r <> IMG_IMAGE_LOADABLE) \/
  (exists img, m = Ret (IMG_IMAGE_LOADABLE, Some img) /\ img_code img = code /\ (0x19 <= size code)%nat) \/
  (m = Fault OutOfRange /\ size code = 0x18%nat).

Lemma prepared_refused code r : r <> IMG_IMAGE_LOADABLE -> prepared code (Ret (r, None)).
Proof. left. by exists r. Qed.

Ltac refused := by apply prepared_refused.

Lemma bcu1_prepared key0 i code : prepared code (PrepareLoadImage_bcu1 key0 i code).
Proof.
  unfold PrepareLoadImage_bcu1. destruct (find_BCU1Size_spec i) as ([s|] & -> & _); rewrite bind_Ret; [|refused].
  destruct (bool_decide _); [refused|]. destruct (bool_decide _); [refused|].
  destruct (Z.eqb_spec (b1_textsize s) (Z.of_nat (size code))) as [Es|]; [|refused]. cbn [negb].
  case_bool_decide as H18; [refused|].
  destruct (at_lt code 8) as (lim & -> & _); [lia|]. rewrite bind_Ret. destruct (_ || _); [refused|].
  pose proof (image_addr_outcome code ltac:(lia)) as Ha. destruct (decide _).
  - right. right. by rewrite Ha.
  - right. left. destruct Ha as [a ->]. eexists. split_and!; [done..|lia].
Qed.

Lemma bcu2_image_prepared len0 b code s1 k ks :
  (0x18 <= size code)%nat -> prepared code (bcu2_image len0 b code s1 k ks).
Proof.
  intros Hs. unfold bcu2_image. pose proof (image_addr_outcome code Hs) as Ha. destruct (decide _).
  - right. right. by rewrite Ha.
  - right. left. destruct Ha as [a ->]. rewrite bind_Ret.
    destruct (at_lt code 9) as (c9 & -> & _); [lia|]. rewrite bind_Ret, slice_ok, bind_Ret by lia.
    eexists. split_and!; [done..|lia].
Qed.

Lemma start_checks_refuse s1 n e : bcu2_start_checks s1 n = Some e -> e <> IMG_IMAGE_LOADABLE.
Proof.
  unfold bcu2_start_checks. intros H.
  repeat (case_match; simplify_eq; try done).
Qed.

Lemma bcu2_prepared len0 i b code : prepared code (PrepareLoadImage_bcu2 len0 i b code).
Proof.
  unfold PrepareLoadImage_bcu2. destruct (find_BCU2Size_spec i) as ([s|] & -> & _); rewrite bind_Ret; [|refused].
  do 3 (destruct (bool_decide _); [refused|]).
  destruct (Z.eqb_spec (b2_textsize s) (Z.of_nat (size code))) as [Es|]; [|refused]. cbn [negb].
  case_bool_decide as H18; [refused|].
  destruct (find_BCU2Start_spec i) as ([s1|] & -> & _); rewrite bind_Ret; [|refused].
  destruct (bcu2_start_checks _ _) eqn:Ec; [apply prepared_refused; by eapply start_checks_refuse|].
  destruct (find_BCU2Key_spec i) as ([[k ks]|] & -> & _); rewrite bind_Ret; [|apply bcu2_image_prepared; lia].
  destruct (negb _); [refused|]. apply bcu2_image_prepared. lia.
Qed.

(** The file is refused before its code is looked at, or prepared with the code of the image. *)
Lemma prepare_cases len0 key0 im i :
  Image_fromArray im = Ret (Some i) ->
  (exists r, PrepareLoadImage len0 key0 im = Ret (r, None) /\ r <> IMG_IMAGE_LOADABLE) \/
  exists code, In (STR_Code code) i /\ Image_isValid i = true /\
    (PrepareLoadImage len0 key0 im = PrepareLoadImage_bcu1 key0 i code \/
     exists b, PrepareLoadImage len0 key0 im = PrepareLoadImage_bcu2 len0 i b code).
Proof.
  intros E. unfold PrepareLoadImage. rewrite E, bind_Ret.
  destruct (Image_isValid i) eqn:Hv; cbn [negb]; [|left; by eexists].
  destruct (find_BCUType_spec i) as ([b|] & -> & _); rewrite bind_Ret; [|left; by eexists].
  destruct (find_Code_spec i) as ([code|] & -> & Hc); rewrite bind_Ret; [|left; by eexists].
  destruct (b =? 0x0012); [right; exists code; eauto|].
  destruct (_ || _); [right; exists code; eauto 6|left; by eexists].
Qed.

(** [PrepareLoadImage] on any file that [Image::fromArray] returns from: it refuses
    it with a result, accepts it, and then the code has the address at 0x117 and 0x118, or
    reads beyond the code, and then the code has 0x18 bytes: the check that should
    guarantee the address admits a code one byte too short. *)
Theorem prepare_outcome (len0 key0 : Z) (im : CArray) :
  returns (Image_fromArray im) ->
  let m := PrepareLoadImage len0 key0 im in
  (exists r, m = Ret (r, None) /\ r <> IMG_IMAGE_LOADABLE) \/
  (exists img, m = Ret (IMG_IMAGE_LOADABLE, Some img) /\ (0x19 <= size (img_code img))%nat) \/
  (m = Fault OutOfRange /\
   exists i code, Image_fromArray im = Ret (Some i) /\ In (STR_Code code) i /\ size code = 0x18%nat).
Proof.
  intros [[i|] E] m; subst m; cycle 1.
  { left. unfold PrepareLoadImage. rewrite E. by eexists. }
  destruct (prepare_cases len0 key0 im i E) as [H|(code & Hc & _ & H)]; [by left|].
  assert (prepared code (PrepareLoadImage len0 key0 im)) as Hp
    by (destruct H as [->|[b ->]]; auto using bcu1_prepared, bcu2_prepared).
  destruct Hp as [?|[(img & -> & <- & ?)|[-> ?]]]; [by left|right; left; by eexists|].
  right. right. split; [done|]. by exists i, code.
Qed.

(** A BCU 1 program of 0x18 bytes. *)
Definition short_file : CArray :=
  magic ++ [0; 56] ++ stream_bytes (STR_BCUType 0x12) ++
  stream_bytes (STR_Code ([0; 0; 0; 0; 0; 0; 0; 0; 8] ++ replicate 15 0)) ++
  stream_bytes (STR_BCU1Size (mkBCU1Size 0x18 0 0 0)).

Lemma prepare_outcome_witness :
  PrepareLoadImage 0 0 short_file = Fault OutOfRange /\
  ((exists r, PrepareLoadImage 0 0 short_file = Ret (r, None) /\ r <> IMG_IMAGE_LOADABLE) \/
  (exists img, PrepareLoadImage 0 0 short_file = Ret (IMG_IMAGE_LOADABLE, Some img) /\ (0x19 <= size (img_code img))%nat) \/
  (PrepareLoadImage 0 0 short_file = Fault OutOfRange /\
   exists i code, Image_fromArray short_file = Ret (Some i) /\ In (STR_Code code) i /\ size code = 0x18%nat)).
Proof. split; [vm_compute; reflexivity|]. apply prepare_outcome. by eexists. Defined.

(** ** Requests *)

(** The parts of memory that are loaded: address and length.  The code computes the lengths
    for the association table and the text segment as one less than their size. *)
Definition loaded_parts (s1 : BCU2Start) : list (Z * Z) :=
  [(addrtab_start s1, 1); (addrtab_start s1 + 3, addrtab_size s1 - 4);
   (assoctab_start s1, assoctab_size s1 - 1);
   (0x100, 1); (0x103, 0x13);
   (readonly_start s1, readonly_end s1 - readonly_start s1 - 1);
   (eeprom_start s1, eeprom_end s1 - eeprom_start s1);
   (param_start s1, param_end s1 - param_start s1)].

(** A request loads no memory, or one of the parts; the length -1, for an empty table or
    segment, is the number 65535. *)
Definition loads (s1 : BCU2Start) (r : EIBLoadRequest) : Prop :=
  memaddr r = 0xffff \/
  Exists (fun p => memaddr r = p.1 /\ (len r = p.2 \/ (p.2 = -1 /\ len r = 0xffff))) (loaded_parts s1).

(** What the download relies on: ten bytes to write, one byte to compare, the memory to load. *)
Definition request_ok (s1 : BCU2Start) (r : EIBLoadRequest) : Prop :=
  size (req r) = 10%nat /\ size (result r) = 1%nat /\ prop r = 5 /\ start r = 1 /\
  (obj r = 1 \/ obj r = 2 \/ obj r = 3 \/ obj r = 0xff) /\ is_u16 (memaddr r) /\
  IMG_UNLOAD_ADDR <= error r <= IMG_FINISH_PROC /\ loads s1 r.

Lemma u16_length x : -1 <= x < 65536 -> u16 x = x \/ (x = -1 /\ u16 x = 0xffff).
Proof. intros H. destruct (decide (x = -1)) as [->|]; [by right|]. left. apply u16_small. unfold is_u16. lia. Qed.

Ltac part :=
  right; repeat first [ apply List.Exists_cons_hd; split; [reflexivity|assumption] | apply List.Exists_cons_tl ].

Lemma load_requests_ok len0 s1 codesize cfg :
  start_words_ok s1 -> start_ok s1 codesize -> size cfg = 6%nat -> Forall (request_ok s1) (load_requests len0 s1 cfg).
Proof.
  intros Hw [Ha Has Hts Ht He Hp _ _ _] Hc.
  unfold start_words_ok, start_words in Hw. rewrite !Forall_cons_iff in Hw. unfold is_u16 in Hw.
  cbv [load_requests addr_requests assoc_requests prog_requests with_error with_obj with_req with_result
       with_memaddr with_len error obj prop start req result memaddr len].
  rewrite !(u16_small (addrtab_start s1)), !(u16_small (addrtab_start s1 + 3)), !(u16_small (assoctab_start s1)),
    !(u16_small (readonly_start s1)), !(u16_small (eeprom_start s1)), !(u16_small (param_start s1)) by (unfold is_u16; lia).
  change (u16 1) with 1. change (u16 0x100) with 0x100. change (u16 0x103) with 0x103. change (u16 0x13) with 0x13. change (u16 0xffff) with 0xffff.
  assert (1 = 1 \/ (1 = -1 /\ 1 = 0xffff)) as H1 by lia. assert (0x13 = 0x13 \/ (0x13 = -1 /\ 0x13 = 0xffff)) as H13 by lia.
  pose proof (u16_length (addrtab_size s1 - 4) ltac:(lia)) as L1.
  pose proof (u16_length (assoctab_size s1 - 1) ltac:(lia)) as L2.
  pose proof (u16_length (readonly_end s1 - readonly_start s1 - 1) ltac:(lia)) as L3.
  pose proof (u16_length (eeprom_end s1 - eeprom_start s1) ltac:(lia)) as L4.
  pose proof (u16_length (param_end s1 - param_start s1) ltac:(lia)) as L5.
  repeat (apply Forall_app; split);
    repeat match goal with |- context [if ?b then _ else _] => destruct b end;
    rewrite ?Forall_cons_iff; repeat split; simpl; auto; try (unfold size in *; simpl; lia); try (unfold is_u16; lia);
    try apply u16_bound; try done; first [by left|part].
Qed.

Lemma valid_well_formed i :
  Image_isValid i = true -> Forall (fun s => is_invalid s = true \/ well_formed s) i ->
  forall s, In s i -> well_formed s.
Proof.
  unfold Image_isValid, Image_findStreamNumber. intros Hv Hf s Hs.
  destruct (list_find _ i) as [[k x]|] eqn:E; [apply Z.eqb_eq in Hv; lia|].
  apply list_find_None in E. rewrite List.Forall_forall in E, Hf.
  destruct (Hf s Hs) as [Hi|]; [|done]. exfalso. apply (E s Hs). by destruct s.
Qed.

(** C27: an image (of less than 64 KiB) for a BCU 2 that [PrepareLoadImage] accepts: its five
    segments are within the address space and no two of them share an address, the address
    table starts at 0x116, the parameters end within the code, there are three keys, and every
    load request has ten bytes of request and one byte of expected result, and loads no
    memory or one of eight parts, with its length, except that for an empty association table and an
    empty text segment the length is 65535, more than there is. *)
Theorem accepted_bcu2 (len0 key0 : Z) (im : CArray) (img : BCUImage) :
  bytes im -> Z.of_nat (size im) < 65536 ->
  PrepareLoadImage len0 key0 im = Ret (IMG_IMAGE_LOADABLE, Some img) -> img_BCUType img <> B_bcu1 ->
  exists i s1, Image_fromArray im = Ret (Some i) /\ In (STR_BCU2Start s1) i /\ In (STR_Code (img_code img)) i /\
    start_ok s1 (Z.of_nat (size (img_code img))) /\ length (img_keys img) = 3%nat /\
    Forall (request_ok s1) (img_load img) /\
    exists cfg, img_load img = load_requests len0 s1 cfg.
Proof.
  intros Hb Hs HP Hne. destruct (image_reads im Hb Hs) as [[E _]|[E|(i & E & Hf & _)]].
  1, 2: unfold PrepareLoadImage in HP; rewrite E in HP; discriminate HP.
  destruct (prepare_cases len0 key0 im i E) as [(r & Hr & _)|(code & Hc & Hv & H)];
    [rewrite Hr in HP; discriminate HP|].
  pose proof (valid_well_formed i Hv Hf) as Hw. destruct H as [H|[b H]]; rewrite H in HP; clear H.
  { exfalso. unfold PrepareLoadImage_bcu1 in HP.
    destruct (find_BCU1Size_spec i) as ([s|] & Es & _); rewrite Es, bind_Ret in HP; [|discriminate HP].
    repeat (case_match; try discriminate HP). apply bind_Ret_inv in HP as (lim & _ & HP).
    case_match; [discriminate HP|]. apply bind_Ret_inv in HP as (a & _ & HP). injection HP as <-. done. }
  unfold PrepareLoadImage_bcu2 in HP.
  destruct (find_BCU2Size_spec i) as ([s|] & Es & _); rewrite Es, bind_Ret in HP; [|discriminate HP].
  repeat (case_match; try discriminate HP). 
  destruct (find_BCU2Start_spec i) as ([s1|] & Es1 & Hin); rewrite Es1, bind_Ret in HP; [|discriminate HP].
  destruct (bcu2_start_checks _ _) eqn:Ec; [injection HP as -> ; by apply start_checks_refuse in Ec|].
  pose proof (Hin s1 eq_refl) as Hin1. pose proof (Hw _ Hin1) as [Hsw _].
  apply bcu2_start_checks_ok in Ec; [|done].
  assert (exists k ks, length ks = 3%nat /\ bcu2_image len0 b code s1 k ks = Ret (IMG_IMAGE_LOADABLE, Some img))
    as (k & ks & Hk & HI).
  { destruct (find_BCU2Key_spec i) as ([[k ks]|] & Ek & _); rewrite Ek, bind_Ret in HP;
      [|eexists _, _; by split; [|exact HP]].
    destruct (Nat.eqb_spec (length ks) 3); [by exists k, ks|discriminate HP]. }
  unfold bcu2_image in HI. apply bind_Ret_inv in HI as (a & _ & HI). apply bind_Ret_inv in HI as (c9 & _ & HI).
  apply bind_Ret_inv in HI as (c3 & Hc3 & HI). injection HI as <-.
  assert (size c3 = 5%nat) as S3.
  { unfold slice in Hc3. destruct (decide _) in Hc3; [|discriminate Hc3]. injection Hc3 as <-.
    unfold size in *. rewrite length_take, length_drop. lia. }
  exists i, s1. cbn [img_code img_keys img_load]. split_and!; try done.
  - eapply load_requests_ok; [done|done|]. unfold size in *. simpl. lia.
  - by eexists.
Qed.

(** A program for a BCU 2 of 0x30 bytes, without association table, text, EEPROM and
    parameter segments. *)
Definition bare_start : BCU2Start :=
  mkBCU2Start 0x116 4 0 0 0 0 0 0 0 0 0 0 0 0 0 0 0 0 0 0 0 0.

Definition bare_file : CArray :=
  magic ++ [0; 131] ++ stream_bytes (STR_BCUType 0x20) ++ stream_bytes (STR_Code (replicate 0x30 0)) ++
  stream_bytes (STR_BCU2Size (mkBCU2Size 0x30 0 0 0 0 0)) ++ stream_bytes (STR_BCU2Start bare_start).

Definition bare_image : BCUImage :=
  mkBCUImage B_bcu20 (replicate 0x30 0) (load_requests 0 bare_start (replicate 6 0)) 0
    0xFFFFFFFF [0xFFFFFFFF; 0xFFFFFFFF; 0xFFFFFFFF].

Lemma accepted_bcu2_witness :
  exists i s1, Image_fromArray bare_file = Ret (Some i) /\ In (STR_BCU2Start s1) i /\
    In (STR_Code (img_code bare_image)) i /\
    start_ok s1 (Z.of_nat (size (img_code bare_image))) /\ length (img_keys bare_image) = 3%nat /\
    Forall (request_ok s1) (img_load bare_image) /\
    exists cfg, img_load bare_image = load_requests 0 s1 cfg.
Proof.
  apply (accepted_bcu2 0 0 bare_file bare_image); [decided|decided|vm_compute; reflexivity|done].
Defined.

(** An accepted image whose association table or text segment is empty gets a request to write
    65535 bytes of code to the device, more than any accepted code has. *)
Theorem empty_segment_request (len0 : Z) (s1 : BCU2Start) (cfg : CArray) :
  (assoctab_size s1 = 0 -> exists r, In r (load_requests len0 s1 cfg) /\ error r = IMG_WRITE_ASSOC /\
                                     len r = 0xffff /\ memaddr r = u16 (assoctab_start s1)) /\
  (readonly_end s1 = readonly_start s1 ->
   exists r, In r (load_requests len0 s1 cfg) /\ error r = IMG_ALLOC_RO /\
             len r = 0xffff /\ memaddr r = u16 (readonly_start s1)).
Proof.
  unfold load_requests, addr_requests, assoc_requests, prog_requests. cbv zeta. split.
  - intros ->. eexists. split; [do 9 right; left; reflexivity|]. done.
  - intros ->. cbn [len with_len with_memaddr with_error]. rewrite Z.sub_diag. cbn -[In].
    eexists. split; [do 17 right; left; reflexivity|]. done.
Qed.
