(* ===== verification/Layer7.v ===== *)
(** * Layer 7: requests to a device

    Models src/src/libserver/layer7.cpp, layer7.h and management.cpp:
    [Layer7_Connection] with [Request_Response] and the services built on it (properties,
    device descriptor, ADC, memory, keys), the block transfers, [Layer7_Individual],
    [Layer7_Broadcast], and [Management_Connection].

    The transport below is the class [Layer4]: [l4_recv] hands a packet to it, and
    [l4_Get] gives the next packet that arrives, or [None] when the deadline has
    passed.  A loop that waits ends after at most [arrivals] packets, those that arrive before
    the deadline.  A service returns [None] where the code returns -1. *)

From S2P Require Import Prelude CArray Common Apdu.

Local Open Scope Z_scope.

Class Layer4 (W : Type) := {
  l4_recv : CArray -> W -> W;
  l4_Get : W -> option CArray * W
}.

(** ** Computations on a connection *)

Definition m7 (W A : Type) : Type := W -> outcome (A * W).

#[export] Instance m7_ret W : MRet (m7 W) := fun A a w => Ret (a, w).
#[export] Instance m7_bind W : MBind (m7 W) :=
  fun A B f m w => match m w with Ret (a, w) => f a w | Fault e => Fault e end.

Definition lift {W A} (m : outcome A) : m7 W A :=
  fun w => match m with Ret a => Ret (a, w) | Fault e => Fault e end.

Section Layer7.
Context {W : Type} `{!Layer4 W} (arrivals : nat).

Definition send (c : CArray) : m7 W unit := fun w => Ret (tt, l4_recv c w).
Definition Get : m7 W (option CArray) := fun w => let (c, w) := l4_Get w in Ret (c, w).

(** The loop of [Layer7_Connection::Request_Response]. *)
Fixpoint await (n : nat) (r : APDU) : m7 W (option APDU) :=
  match n with
  | O => mret None
  | S n =>
      c ← Get;
      match c with
      | None => mret None
      | Some [] => await n r
      | Some c =>
          a ← lift (APDU_fromPacket c);
          if isResponse a r then mret (Some a) else await n r
      end
  end.

Definition Request_Response (r : APDU) : m7 W (option APDU) :=
  p ← lift (APDU_ToPacket r);
  _ ← send p;
  await arrivals r.

(** ** [Layer7_Connection] *)

Definition A_Restart_ : m7 W unit := p ← lift (APDU_ToPacket A_Restart_PDU); send p.

Definition A_Property_Read (obj propertyid start count : Z) : m7 W (option CArray) :=
  let r := A_PropertyValue_Read_PDU obj propertyid (Z.land count 0x0f) (Z.land start 0x0fff) in
  a ← Request_Response r;
  match a with
  | None => mret None
  | Some (A_PropertyValue_Response_PDU _ _ _ _ data) => mret (Some data)
  | Some _ => lift (Fault Aborted)
  end.

Definition A_Property_Write (obj propertyid start count : Z) (data : CArray) : m7 W (option CArray) :=
  let r := A_PropertyValue_Write_PDU obj propertyid (Z.land count 0x0f) (Z.land start 0x0fff) data in
  a ← Request_Response r;
  match a with
  | None => mret None
  | Some (A_PropertyValue_Response_PDU _ _ _ _ data) => mret (Some data)
  | Some _ => lift (Fault Aborted)
  end.

(** The property, its type, the number of elements and the access levels. *)
Definition A_Property_Desc (obj property property_index : Z) : m7 W (option (Z * Z * Z * Z)) :=
  let r := A_PropertyDescription_Read_PDU obj property property_index in
  a ← Request_Response r;
  match a with
  | None => mret None
  | Some (A_PropertyDescription_Response_PDU _ prop _ type count access) =>
      mret (Some (prop, type, count, access))
  | Some _ => lift (Fault Aborted)
  end.

Definition A_Device_Descriptor_Read (type : Z) : m7 W (option Z) :=
  let r := A_DeviceDescriptor_Read_PDU (Z.land type 0x3f) in
  a ← Request_Response r;
  match a with
  | None => mret None
  | Some (A_DeviceDescriptor_Response_PDU _ descriptor) => mret (Some descriptor)
  | Some _ => lift (Fault Aborted)
  end.

Definition A_ADC_Read_ (channel readcount : Z) : m7 W (option Z) :=
  let r := A_ADC_Read_PDU (Z.land channel 0x3f) readcount in
  a ← Request_Response r;
  match a with
  | None => mret None
  | Some (A_ADC_Response_PDU _ _ val) => mret (Some val)
  | Some _ => lift (Fault Aborted)
  end.

(** The arguments are converted to [memaddr_t] and [uchar]. *)
Definition A_Memory_Read_ (addr len : Z) : m7 W (option CArray) :=
  let r := A_Memory_Read_PDU (Z.land (u8 len) 0x0f) (u16 addr) in
  a ← Request_Response r;
  match a with
  | None => mret None
  | Some (A_Memory_Response_PDU _ _ data) => mret (Some data)
  | Some _ => lift (Fault Aborted)
  end.

Definition A_Memory_Write_ (addr : Z) (data : CArray) : m7 W unit :=
  let n := Z.land (Z.of_nat (size data)) 0x0f in
  d ← lift (slice data 0 (Z.to_nat n));
  p ← lift (APDU_ToPacket (A_Memory_Write_PDU n (u16 addr) d));
  send p.

Definition A_Authorize (key : Z) : m7 W (option Z) :=
  a ← Request_Response (A_Authorize_Request_PDU key);
  match a with
  | None => mret None
  | Some (A_Authorize_Response_PDU level) => mret (Some level)
  | Some _ => lift (Fault Aborted)
  end.

Definition A_KeyWrite (key level : Z) : m7 W (option Z) :=
  a ← Request_Response (A_Key_Write_PDU level key);
  match a with
  | None => mret None
  | Some (A_Key_Response_PDU level) => mret (Some level)
  | Some _ => lift (Fault Aborted)
  end.

Definition X_Property_Write (obj propertyid start count : Z) (data : CArray) : m7 W Z :=
  d1 ← A_Property_Write obj propertyid start count data;
  match d1 with
  | None => mret (-1)
  | Some _ =>
      d1 ← A_Property_Read obj propertyid start count;
      match d1 with
      | None => mret (-1)
      | Some d1 => mret (if decide (d1 <> data) then -1 else 0)
      end
  end.

Definition X_Memory_Write (addr : Z) (data : CArray) : m7 W Z :=
  _ ← A_Memory_Write_ addr data;
  d1 ← A_Memory_Read_ addr (Z.of_nat (size data));
  match d1 with
  | None => mret (-1)
  | Some d1 => mret (if decide (d1 <> data) then -2 else 0)
  end.

(** The loop of [X_Memory_Read_Block] at [i] with the current [blocksize]; the second try of a
    round that failed, with [blocksize] 2, is part of the round. *)
Fixpoint read_blocks (rounds : nat) (addr : Z) (len blocksize i : nat) (erg : CArray) : m7 W (option CArray) :=
  match rounds with
  | O => mret (Some erg)
  | S rounds =>
      if decide (len <= i)%nat then mret (Some erg)
      else
        let block b := if decide (b < len - i)%nat then b else (len - i)%nat in
        e ← A_Memory_Read_ (addr + Z.of_nat i) (Z.of_nat (block blocksize));
        match e with
        | Some e => erg ← lift (setpart_all erg e i); read_blocks rounds addr len blocksize (i + blocksize) erg
        | None =>
            if decide (blocksize = 12)%nat then
              e ← A_Memory_Read_ (addr + Z.of_nat i) (Z.of_nat (block 2%nat));
              match e with
              | Some e => erg ← lift (setpart_all erg e i); read_blocks rounds addr len 2 (i + 2) erg
              | None => mret None
              end
            else mret None
        end
  end.

Definition X_Memory_Read_Block (addr : Z) (len : nat) : m7 W (option CArray) :=
  read_blocks len addr len 12 0 (resize [] len).

(** [while (data[i + j] != prev[i + j] && j < blocksize && i + j < data.size ()) j++;] *)
Fixpoint differing (fuel : nat) (data prev : CArray) (i j : nat) : outcome nat :=
  match fuel with
  | O => Ret j
  | S fuel =>
      d ← at_ data (i + j);
      p ← at_ prev (i + j);
      if (negb (d =? p) && bool_decide (j < 12)%nat && bool_decide (i + j < size data)%nat)
      then differing fuel data prev i (S j)
      else Ret j
  end.

(** The loop of [X_Memory_Write_Block] at [i]; every round advances. *)
Fixpoint write_blocks (rounds : nat) (addr : Z) (data prev : CArray) (i : nat) (res : Z) : m7 W Z :=
  match rounds with
  | O => mret res
  | S rounds =>
      if decide (size data <= i)%nat then mret res
      else
        d ← lift (at_ data i);
        p ← lift (at_ prev i);
        if d =? p then write_blocks rounds addr data prev (i + 1) res
        else
          j ← lift (differing 13 data prev i 0);
          part ← lift (CArray_part data i j);
          k ← X_Memory_Write (addr + Z.of_nat i) part;
          if k =? -1 then mret (-1)
          else write_blocks rounds addr data prev (i + j) (if k =? -2 then -2 else res)
  end.

Definition X_Memory_Write_Block (addr : Z) (data : CArray) : m7 W Z :=
  prev ← X_Memory_Read_Block addr (size data);
  match prev with
  | None => mret (-1)
  | Some prev => write_blocks (size data) addr data prev 0 0
  end.

Fixpoint put_blocks (rounds : nat) (addr : Z) (data : CArray) (i : nat) : m7 W Z :=
  match rounds with
  | O => mret 0
  | S rounds =>
      if decide (size data <= i)%nat then mret 0
      else
        let j := if decide (size data < i + 12)%nat then (size data - i)%nat else 12%nat in
        d ← lift (slice data i j);
        _ ← A_Memory_Write_ (addr + Z.of_nat i) d;
        put_blocks rounds addr data (i + 12)
  end.

Definition A_Memory_Write_Block (addr : Z) (data : CArray) : m7 W Z := put_blocks (size data) addr data 0.

(** ** [Layer7_Individual]: the first packet decides *)

Definition await_first (r : APDU) : m7 W (option APDU) :=
  c ← Get;
  match c with
  | None => mret None
  | Some [] => mret None
  | Some c =>
      a ← lift (APDU_fromPacket c);
      mret (if isResponse a r then Some a else None)
  end.

Definition Individual_Request_Response (r : APDU) : m7 W (option APDU) :=
  p ← lift (APDU_ToPacket r);
  _ ← send p;
  await_first r.

Definition Individual_A_Property_Read (obj propertyid start count : Z) : m7 W (option CArray) :=
  let r := A_PropertyValue_Read_PDU obj propertyid (Z.land count 0x0f) (Z.land start 0x0fff) in
  a ← Individual_Request_Response r;
  match a with
  | None => mret None
  | Some (A_PropertyValue_Response_PDU _ _ _ _ data) => mret (Some data)
  | Some _ => lift (Fault Aborted)
  end.

Definition Individual_A_Property_Write (obj propertyid start count : Z) (data : CArray) : m7 W (option CArray) :=
  let r := A_PropertyValue_Write_PDU obj propertyid (Z.land count 0x0f) (Z.land start 0x0fff) data in
  a ← Individual_Request_Response r;
  match a with
  | None => mret None
  | Some (A_PropertyValue_Response_PDU _ _ _ _ data) => mret (Some data)
  | Some _ => lift (Fault Aborted)
  end.

(** ** [Layer7_Broadcast] *)

Definition Broadcast_A_IndividualAddress_Write (addr : Z) : m7 W unit :=
  p ← lift (APDU_ToPacket (A_IndividualAddress_Write_PDU addr)); send p.

(** The sources of the answers among what arrived in time. *)
Fixpoint collect_addresses (arrived : list (Z * CArray)) : outcome (list Z) :=
  match arrived with
  | [] => Ret []
  | (src, data) :: arrived =>
      a ← APDU_fromPacket data;
      addrs ← collect_addresses arrived;
      Ret (if isResponse a A_IndividualAddress_Read_PDU then src :: addrs else addrs)
  end.

(** ** [Management_Connection] *)

(** The address of the programming flag. *)
Definition progmode_addr : Z := 0x60.

Definition progmode_write (f : Z -> Z) : m7 W Z :=
  d ← A_Memory_Read_ progmode_addr 1;
  match d with
  | None => mret (-1)
  | Some d =>
      d0 ← lift (at_ d 0);
      d ← lift (put d 0 (f d0));
      k ← X_Memory_Write progmode_addr d;
      mret (if k =? 0 then 0 else -1)
  end.

Definition X_Progmode_On : m7 W Z :=
  progmode_write (fun d => if nz (Z.land d 0x01) then d else Z.lxor d 0x81).

Definition X_Progmode_Off : m7 W Z :=
  progmode_write (fun d => if nz (Z.land d 0x01) then Z.lxor d 0x81 else d).

Definition X_Progmode_Toggle : m7 W Z := progmode_write (fun d => Z.lxor d 0x81).

Definition X_Progmode_Status : m7 W Z :=
  d ← A_Memory_Read_ progmode_addr 1;
  match d with
  | None => mret (-1)
  | Some d => d0 ← lift (at_ d 0); mret (if nz (Z.land d0 0x01) then 1 else 0)
  end.

(** [val = (v * 10 + 16) / 128], a division that truncates. *)
Definition X_Get_PEIType : m7 W (option Z) :=
  v ← A_ADC_Read_ 4 1;
  match v with
  | None => mret None
  | Some v => mret (Some (Z.quot (v * 10 + 16) 128))
  end.

Record PropertyInfo := mkPropertyInfo {
  pi_obj : Z; pi_property : Z; pi_type : Z; pi_count : Z; pi_access : Z
}.

(** The inner loop of [X_PropertyScan]: the properties of an object, and the index in
    the end. *)
Fixpoint scan_object (fuel : nat) (obj i : Z) (p : list PropertyInfo) : m7 W (option (list PropertyInfo * Z)) :=
  match fuel with
  | O => lift (Fault StackOverflow)
  | S fuel =>
      d ← A_Property_Desc obj 0 i;
      match d with
      | None => mret None
      | Some (property, type, count, access) =>
          count ← (if (property =? 1) && (type =? 4) then
                     a ← A_Property_Read obj 1 1 1;
                     match a with
                     | None => mret None
                     | Some a =>
                         if decide (size a <> 2%nat) then mret None
                         else h ← lift (at_ a 0); l ← lift (at_ a 1); mret (Some (be16 h l))
                     end
                   else mret (Some count));
          match count with
          | None => mret None
          | Some count =>
              let p := if nz property then p ++ [mkPropertyInfo obj property type count access] else p in
              let i := u8 (i + 1) in
              if nz property then scan_object fuel obj i p else mret (Some (p, i))
          end
      end
  end.

Fixpoint scan_objects (fuel : nat) (obj : Z) (p : list PropertyInfo) : m7 W (option (list PropertyInfo)) :=
  match fuel with
  | O => lift (Fault StackOverflow)
  | S fuel =>
      r ← scan_object fuel obj 0 p;
      match r with
      | None => mret None
      | Some (p, i) => if i =? 1 then mret (Some p) else scan_objects fuel (u8 (obj + 1)) p
      end
  end.

Definition X_PropertyScan (fuel : nat) : m7 W (option (list PropertyInfo)) := scan_objects fuel 0 [].
End Layer7.
