(* ===== verification/Layer7Spec.v ===== *)
(** * Layer 7 with a device that works

    The services of [Layer7] against an interface: [MemoryDevice] says what a device
    with memory does with the packets it gets, on the bytes of those packets.  Reading a
    block gives the memory whatever block size the device supports; writing a block without
    verifying writes it; the verified write does not write at all; and the
    programming mode is switched as asked for. *)

From S2P Require Import Prelude CArray Common Apdu ApduSpec ApduRound Layer7.

Local Open Scope Z_scope.

(** ** The interface *)

Fixpoint bytes_at (m : Z -> Z) (a : Z) (n : nat) : CArray :=
  match n with O => [] | S n => m a :: bytes_at m (a + 1) n end.

(** The number of bytes of the answer to a request for [n]: a device answers a request it cannot
    serve with the number zero. *)
Definition served (limit n : nat) : nat := if decide (n <= limit)%nat then n else 0%nat.

(** Memory with [d] stored from [a] on. *)
Definition stored (m : Z -> Z) (a : Z) (d : CArray) : Z -> Z :=
  fun x => match (if decide (a <= x) then d !! Z.to_nat (x - a) else None) with Some b => b | None => m x end.

Class MemoryDevice (W : Type) `{!Layer4 W} := {
  mem : W -> Z -> Z;
  (** No packet is on its way. *)
  idle : W -> Prop;
  (** The longest transfer the device supports. *)
  limit : nat;
  mem_byte w a : is_u8 (mem w a);
  dev_silent w : idle w -> exists w', l4_Get w = (None, w') /\ idle w' /\ mem w' = mem w;
  dev_read w (n : nat) a p :
    idle w -> (n < 16)%nat -> is_u16 a ->
    APDU_ToPacket (A_Memory_Read_PDU (Z.of_nat n) a) = Ret p ->
    let k := served limit n in
    exists q w', APDU_ToPacket (A_Memory_Response_PDU (Z.of_nat k) a (bytes_at (mem w) a k)) = Ret q /\
                 l4_Get (l4_recv p w) = (Some q, w') /\ idle w' /\ mem w' = mem w;
  dev_write w a d p :
    idle w -> (size d <= limit)%nat -> (size d < 16)%nat -> is_u16 a -> bytes d ->
    APDU_ToPacket (A_Memory_Write_PDU (Z.of_nat (size d)) a d) = Ret p ->
    idle (l4_recv p w) /\ forall x, mem (l4_recv p w) x = stored (mem w) a d x
}.

(** ** Lists of memory bytes *)

Lemma size_bytes_at m a n : size (bytes_at m a n) = n.
Proof. revert a. induction n as [|n IH]; intros a; [done|]. unfold size in *. simpl. by rewrite IH. Qed.

Lemma bytes_at_app m a n k : bytes_at m a (n + k) = bytes_at m a n ++ bytes_at m (a + Z.of_nat n) k.
Proof.
  revert a. induction n as [|n IH]; intros a; [simpl; f_equal; lia|].
  simpl. rewrite IH. do 3 f_equal. lia.
Qed.

Lemma lookup_bytes_at m a n i : (i < n)%nat -> bytes_at m a n !! i = Some (m (a + Z.of_nat i)).
Proof.
  revert a i. induction n as [|n IH]; intros a [|i] Hi; [lia|lia|simpl; do 2 f_equal; lia|].
  simpl. rewrite IH by lia. do 2 f_equal. lia.
Qed.

Lemma bytes_at_bytes m a n : (forall x, is_u8 (m x)) -> bytes (bytes_at m a n).
Proof.
  intros H. revert a. induction n as [|n IH]; intros a; simpl; [apply bytes_nil|apply bytes_cons; auto].
Qed.

Lemma bytes_at_ext m m' a n : (forall x, m x = m' x) -> bytes_at m a n = bytes_at m' a n.
Proof. intros H. revert a. induction n as [|n IH]; intros a; simpl; [done|]. by rewrite H, IH. Qed.

Lemma bytes_at_stored m a d : bytes_at (stored m a d) a (size d) = d.
Proof.
  apply list_eq. intros i. destruct (decide (i < size d)%nat) as [Hi|Hi].
  - rewrite lookup_bytes_at by done. unfold stored. rewrite decide_True by lia.
    replace (Z.to_nat (a + Z.of_nat i - a)) with i by lia.
    destruct (lookup_lt_is_Some_2 d i Hi) as [b ->]. done.
  - rewrite !lookup_ge_None_2; [done|unfold size in *; lia|].
    pose proof (size_bytes_at (stored m a d) a (size d)). unfold size in *. lia.
Qed.

Lemma stored_outside m a d x : ~ (a <= x < a + Z.of_nat (size d)) -> stored m a d x = m x.
Proof.
  intros H. unfold stored. destruct (decide (a <= x)); [|done].
  by rewrite lookup_ge_None_2 by (unfold size in H; lia).
Qed.

Lemma stored_ext m m' a d x : (forall x, m x = m' x) -> stored m a d x = stored m' a d x.
Proof. intros H. unfold stored. by rewrite H. Qed.

(** Storing two parts one behind the other. *)
Lemma stored_app m a d e x :
  stored (stored m a d) (a + Z.of_nat (size d)) e x = stored m a (d ++ e) x.
Proof.
  unfold stored. destruct (decide (a <= x)) as [Ha|Ha]; cycle 1.
  { by rewrite decide_False by lia. }
  destruct (decide (a + Z.of_nat (size d) <= x)) as [Hb|Hb].
  - rewrite lookup_app_r by (unfold size in *; lia).
    replace (Z.to_nat (x - a) - length d)%nat with (Z.to_nat (x - (a + Z.of_nat (size d)))) by (unfold size in *; lia).
    destruct (e !! _); [done|]. by rewrite lookup_ge_None_2 by (unfold size in *; lia).
  - rewrite lookup_app_l by (unfold size in *; lia).
    destruct (lookup_lt_is_Some_2 d (Z.to_nat (x - a))) as [b ->]; [unfold size in *; lia|done].
Qed.

(** ** Single requests *)

Section device.
Context {W : Type} `{D : MemoryDevice W} (arrivals : nat).
Hypothesis Harr : (1 <= arrivals)%nat.

Lemma bind_lift {A B} (m : outcome A) a (f : A -> m7 W B) w :
  m = Ret a -> (lift m ≫= f) w = f a w.
Proof using Type. by intros ->. Qed.

Lemma bind_m7 {A B} (m : m7 W A) (f : A -> m7 W B) a w w' :
  m w = Ret (a, w') -> (m ≫= f) w = f a w'.
Proof using Type. intros H. unfold mbind, m7_bind. by rewrite H. Qed.

Lemma bind_m7_fault {A B} (m : m7 W A) (f : A -> m7 W B) e w :
  m w = Fault e -> (m ≫= f) w = Fault e.
Proof using Type. intros H. unfold mbind, m7_bind. by rewrite H. Qed.

Lemma packet_parsed a p : apdu_wf a -> reencodes a = true -> APDU_ToPacket a = Ret p -> APDU_fromPacket p = Ret a.
Proof using Type. intros Hw Hr Hp. pose proof (round_trip a Hw Hr) as H. by rewrite Hp, bind_Ret in H. Qed.

(** The packet that arrives first answers the request. *)
Lemma Request_Response_answer r b p q w w1 :
  APDU_ToPacket r = Ret p -> l4_Get (l4_recv p w) = (Some q, w1) -> APDU_fromPacket q = Ret b ->
  q <> [] -> isResponse b r = true -> Request_Response arrivals r w = Ret (Some b, w1).
Proof using Harr.
  intros Hp Hg Hb Hq Hr. unfold Request_Response. rewrite (bind_lift _ p) by done.
  rewrite (bind_m7 _ _ tt _ (l4_recv p w)) by done. destruct arrivals as [|n]; [lia|]. cbn [await].
  rewrite (bind_m7 _ _ (Some q) _ w1) by (unfold Get; by rewrite Hg).
  destruct q as [|x q]; [done|]. rewrite (bind_lift _ b) by done. by rewrite Hr.
Qed.

(** It does not, and no other arrives. *)
Lemma Request_Response_no_answer r b p q w w1 :
  APDU_ToPacket r = Ret p -> l4_Get (l4_recv p w) = (Some q, w1) -> APDU_fromPacket q = Ret b ->
  q <> [] -> isResponse b r = false -> idle w1 ->
  exists w2, Request_Response arrivals r w = Ret (None, w2) /\ idle w2 /\ mem w2 = mem w1.
Proof using Harr.
  intros Hp Hg Hb Hq Hr Hi. unfold Request_Response. rewrite (bind_lift _ p) by done.
  rewrite (bind_m7 _ _ tt _ (l4_recv p w)) by done. destruct arrivals as [|n]; [lia|]. cbn [await].
  rewrite (bind_m7 _ _ (Some q) _ w1) by (unfold Get; by rewrite Hg).
  destruct q as [|x q]; [done|]. rewrite (bind_lift _ b) by done. rewrite Hr.
  destruct n as [|n]; [by exists w1|]. destruct (dev_silent w1 Hi) as (w2 & Hs & Hi2 & Hm2).
  exists w2. split; [|done]. cbn [await]. by rewrite (bind_m7 _ _ None _ w2) by (unfold Get; by rewrite Hs).
Qed.

(** A read of up to fifteen bytes: what the device can serve is returned, the rest fails. *)
Lemma Memory_Read_outcome w (n : nat) a :
  idle w -> (n < 16)%nat -> is_u16 a ->
  exists w', A_Memory_Read_ arrivals a (Z.of_nat n) w =
             Ret (if decide (n <= limit)%nat then Some (bytes_at (mem w) a n) else None, w') /\
             idle w' /\ mem w' = mem w.
Proof using Harr.
  intros Hi Hn Ha. unfold A_Memory_Read_.
  rewrite (u8_small (Z.of_nat n)) by (unfold is_u8; lia). rewrite (u16_small a Ha).
  change 0x0f with (Z.ones 4). rewrite (land_ones_small 4 (Z.of_nat n)) by lia.
  set (r := A_Memory_Read_PDU (Z.of_nat n) a).
  assert (apdu_wf r) as Hr by (simpl; split; [lia|done]).
  destruct (APDU_ToPacket_returns r Hr) as [p Hp].
  destruct (dev_read w n a p Hi Hn Ha Hp) as (q & w1 & Hq & Hg & Hi1 & Hm1).
  set (k := served limit n) in *. set (b := A_Memory_Response_PDU (Z.of_nat k) a (bytes_at (mem w) a k)) in *.
  assert (k <= n)%nat as Hk by (unfold k, served; case_decide; lia).
  assert (apdu_wf b) as Hb.
  { simpl. unfold mem_wf. rewrite size_bytes_at. split_and!; try lia; try apply Ha.
    apply bytes_at_bytes. intros x. apply mem_byte. }
  pose proof (packet_parsed b q Hb eq_refl Hq) as Hpq.
  assert (q <> []) as Hne by (intros ->; discriminate Hpq).
  assert (isResponse b r = bool_decide (n = k)) as Hres.
  { simpl. destruct (decide (Z.of_nat n <> Z.of_nat k)); [rewrite bool_decide_false by lia; done|].
    rewrite bool_decide_true by lia. by rewrite decide_False by (intros H; by apply H). }
  destruct (decide (n <= limit)%nat) as [Hl|Hl].
  - assert (k = n) as Ek by (unfold k, served; by rewrite decide_True).
    rewrite bool_decide_true in Hres by done.
    exists w1. split; [|done]. rewrite (bind_m7 _ _ (Some b) _ w1) by (by eapply Request_Response_answer).
    unfold b. by rewrite Ek.
  - assert (k = 0%nat) as Ek by (unfold k, served; by rewrite decide_False).
    assert (n <> 0%nat) by (intros ->; lia).
    rewrite bool_decide_false in Hres by lia.
    destruct (Request_Response_no_answer r b p q w w1) as (w2 & E & Hi2 & Hm2); [done..|].
    exists w2. rewrite (bind_m7 _ _ None _ w2) by done. split_and!; [done..|congruence].
Qed.

Lemma Memory_Write_outcome w a d :
  idle w -> (size d <= limit)%nat -> (size d < 16)%nat -> is_u16 a -> bytes d ->
  exists w', A_Memory_Write_ a d w = Ret (tt, w') /\ idle w' /\ forall x, mem w' x = stored (mem w) a d x.
Proof using Type.
  clear Harr. intros Hi Hl Hs Ha Hd. unfold A_Memory_Write_.
  change 0x0f with (Z.ones 4). rewrite land_ones_small by lia. rewrite Nat2Z.id, (u16_small a Ha).
  rewrite (bind_lift _ d) by (by apply slice_all).
  set (r := A_Memory_Write_PDU (Z.of_nat (size d)) a d).
  assert (apdu_wf r) as Hr by (simpl; unfold mem_wf; split_and!; try lia; apply Ha || done).
  destruct (APDU_ToPacket_returns r Hr) as [p Hp]. rewrite (bind_lift _ p) by done.
  destruct (dev_write w a d p Hi Hl Hs Ha Hd Hp) as [Hi' Hm]. by exists (l4_recv p w).
Qed.

(** ** Blocks *)

(** Reading a block, at the byte [i] of it. *)
Lemma read_blocks_outcome rounds addr len bs i w :
  idle w -> (2 <= limit)%nat -> (bs = 12 \/ bs = 2)%nat -> 0 <= addr -> addr + Z.of_nat len <= 65536 ->
  (len - i <= rounds)%nat ->
  exists w', read_blocks arrivals rounds addr len bs i (bytes_at (mem w) addr (min i len) ++ replicate (len - i) 0) w =
             Ret (Some (bytes_at (mem w) addr len), w') /\ idle w' /\ mem w' = mem w.
Proof using Harr.
  intros Hi Hl Hbs Ha Hal. revert bs i w Hi Hbs. induction rounds as [|rounds IH]; intros bs i w Hi Hbs Hr.
  { exists w. split; [|done]. cbn [read_blocks]. rewrite Nat.min_r by lia.
    replace (len - i)%nat with 0%nat by lia. by rewrite app_nil_r. }
  cbn [read_blocks]. destruct (decide (len <= i)%nat) as [He|He].
  { exists w. split; [|done]. rewrite Nat.min_r by lia.
    replace (len - i)%nat with 0%nat by lia. by rewrite app_nil_r. }
  (* a block of [b] bytes that is served *)
  assert (forall b w1, (b = 12 \/ b = 2)%nat -> idle w1 -> mem w1 = mem w ->
    let k := if decide (b < len - i)%nat then b else (len - i)%nat in
    exists w', (erg ← lift (setpart_all (bytes_at (mem w) addr (min i len) ++ replicate (len - i) 0)
                              (bytes_at (mem w) (addr + Z.of_nat i) k) i);
                read_blocks arrivals rounds addr len b (i + b) erg) w1 =
               Ret (Some (bytes_at (mem w) addr len), w') /\ idle w' /\ mem w' = mem w) as Hstep.
  { intros b w1 Hb Hi1 Hm1 k.
    assert (k <= len - i)%nat as Hk by (unfold k; case_decide; lia).
    rewrite (bind_lift _ (bytes_at (mem w) addr (min (i + b) len) ++ replicate (len - (i + b)) 0)).
    - destruct (IH b (i + b)%nat w1 Hi1 Hb) as (w' & E & Hi' & Hm'); [lia|]. rewrite Hm1 in E, Hm'. by exists w'.
    - rewrite Nat.min_l by lia. unfold setpart_all.
      replace (len - i)%nat with (k + (len - i - k))%nat at 1 by lia. rewrite replicate_add.
      rewrite setpart_mid by (rewrite ?size_bytes_at; unfold size; rewrite ?length_replicate; done || lia).
      rewrite app_assoc, <-bytes_at_app.
      replace (i + k)%nat with (min (i + b) len) by (unfold k; case_decide; lia).
      by replace (len - i - k)%nat with (len - (i + b))%nat by (unfold k; case_decide; lia). }
  set (block b := if decide (b < len - i)%nat then b else (len - i)%nat) in *.
  assert (block bs < 16)%nat as Hb16 by (unfold block; case_decide; lia).
  destruct (Memory_Read_outcome w (block bs) (addr + Z.of_nat i)) as (w1 & E1 & Hi1 & Hm1);
    [done|done|unfold is_u16; lia|].
  rewrite (bind_m7 _ _ _ _ _ E1). destruct (decide (block bs <= limit)%nat) as [Hserved|Hrefused].
  { by apply Hstep. }
  rewrite decide_True by (destruct Hbs as [->| ->]; [done|]; unfold block in Hrefused; case_decide; lia).
  destruct (Memory_Read_outcome w1 (block 2%nat) (addr + Z.of_nat i)) as (w2 & E2 & Hi2 & Hm2);
    [done|unfold block; case_decide; lia|unfold is_u16; lia|].
  assert (block 2 <= 2)%nat as H2 by (unfold block; destruct (decide (2 < len - i)%nat); lia).
  assert (block 2 <= limit)%nat as Hb2 by (etransitivity; [exact H2|exact Hl]).
  rewrite (decide_True (P := (block 2 <= limit)%nat)) in E2 by done. rewrite (bind_m7 _ _ _ _ _ E2).
  rewrite Hm1. apply Hstep; [by right|done|congruence].
Qed.

Lemma Read_Block_outcome w addr len :
  idle w -> (2 <= limit)%nat -> 0 <= addr -> addr + Z.of_nat len <= 65536 ->
  exists w', X_Memory_Read_Block arrivals addr len w = Ret (Some (bytes_at (mem w) addr len), w') /\
             idle w' /\ mem w' = mem w.
Proof using Harr.
  intros Hi Hl Ha Hal. unfold X_Memory_Read_Block. rewrite resize_nil.
  destruct (read_blocks_outcome len addr len 12 0 w) as (w' & E & H); [done|done|by left|done|done|lia|].
  rewrite Nat.min_l in E by lia. simpl in E. rewrite Nat.sub_0_r in E. by exists w'.
Qed.

(** Writing a block without verification, at the byte [i] of it. *)
Lemma put_blocks_outcome rounds addr data i w m0 :
  idle w -> (12 <= limit)%nat -> 0 <= addr -> addr + Z.of_nat (size data) <= 65536 -> bytes data ->
  (i <= size data)%nat -> (size data - i <= rounds)%nat ->
  (forall x, mem w x = stored m0 addr (take i data) x) ->
  exists w', put_blocks rounds addr data i w = Ret (0, w') /\ idle w' /\
             forall x, mem w' x = stored m0 addr data x.
Proof using Type.
  clear Harr. intros Hi Hl Ha Hal Hb. revert i w Hi. induction rounds as [|rounds IH]; intros i w Hi His Hr Hm.
  { exists w. split_and!; [done..|]. intros x. rewrite Hm, take_ge by (unfold size in *; lia). done. }
  cbn [put_blocks]. destruct (decide (size data <= i)%nat) as [He|He].
  { exists w. split_and!; [done..|]. intros x. rewrite Hm, take_ge by (unfold size in *; lia). done. }
  set (j := if decide (size data < i + 12)%nat then (size data - i)%nat else 12%nat).
  assert (j <= 12 /\ i + j <= size data)%nat as [Hj1 Hj2] by (unfold j; destruct (decide _); lia).
  set (d := take j (drop i data)).
  assert (size d = j) as Hd by (unfold d, size in *; rewrite length_take, length_drop; lia).
  rewrite (bind_lift _ d) by (by apply slice_ok).
  destruct (Memory_Write_outcome w (addr + Z.of_nat i) d) as (w1 & E & Hi1 & Hm1);
    [done|etransitivity; [|exact Hl]; lia|lia|unfold is_u16; lia|unfold d; auto with carray|].
  rewrite (bind_m7 _ _ _ _ _ E).
  assert (forall x, mem w1 x = stored m0 addr (take (i + j) data) x) as Hm1'.
  { intros x. rewrite Hm1. replace (take (i + j) data) with (take i data ++ d)
      by (unfold d; by rewrite take_take_drop).
    rewrite <-stored_app. replace (Z.of_nat (size (take i data))) with (Z.of_nat i)
      by (unfold size in *; rewrite length_take; lia).
    by apply stored_ext. }
  destruct (decide (i + 12 <= size data)%nat) as [Hfull|Hpart].
  - replace j with 12%nat in Hm1' by (unfold j; rewrite decide_False by lia; done).
    apply IH; [done|lia|lia|done].
  - exists w1. replace (i + j)%nat with (size data) in Hm1' by (unfold j; rewrite decide_True by lia; lia).
    split_and!; [|done|].
    + destruct rounds as [|r]; [done|]. cbn [put_blocks]. by rewrite decide_True by lia.
    + intros x. by rewrite Hm1', take_ge by (unfold size; lia).
Qed.

(** Writing and verifying at most twelve bytes. *)
Lemma Memory_Write_verified w a d :
  idle w -> (size d <= limit)%nat -> (size d <= 12)%nat -> 0 <= a -> a < 65536 -> bytes d ->
  exists w', X_Memory_Write arrivals a d w = Ret (0, w') /\ idle w' /\
             forall x, mem w' x = stored (mem w) a d x.
Proof using Harr.
  intros Hi Hl Hs Ha1 Ha2 Hb. unfold X_Memory_Write.
  destruct (Memory_Write_outcome w a d) as (w1 & E1 & Hi1 & Hm1); [done|done|lia|done|done|].
  rewrite (bind_m7 _ _ _ _ _ E1).
  destruct (Memory_Read_outcome w1 (size d) a) as (w2 & E2 & Hi2 & Hm2); [done|lia|done|].
  rewrite (decide_True (P := (size d <= limit)%nat)) in E2 by done. rewrite (bind_m7 _ _ _ _ _ E2).
  rewrite (bytes_at_ext _ _ _ _ Hm1), bytes_at_stored, decide_False by (intros H; by apply H).
  exists w2. split_and!; [done..|]. intros x. by rewrite Hm2.
Qed.

(** The part that is passed on by the verified write of a block is empty. *)
Lemma Memory_Write_part w a data i j :
  idle w -> (i <= size data)%nat -> 0 <= a -> a < 65536 ->
  exists w', (part ← lift (CArray_part data i j); X_Memory_Write arrivals a part) w = Ret (0, w') /\
             idle w' /\ forall x, mem w' x = mem w x.
Proof using Harr.
  intros Hi Hs Ha1 Ha2. rewrite (bind_lift _ []) by (by apply CArray_part_inside_empty).
  destruct (Memory_Write_verified w a []) as (w' & E & Hi' & Hm'); [done|unfold size; simpl; lia..|done|done|apply bytes_nil|].
  exists w'. split_and!; [done..|]. intros x. rewrite Hm'. apply stored_outside. unfold size. simpl. lia.
Qed.
End device.

(** The bytes of [data] and [prev] at [i]. *)
Definition differ (data prev : CArray) (i : nat) : Prop := data !! i <> prev !! i.

#[export] Instance differ_dec data prev i : Decision (differ data prev i).
Proof. unfold differ. apply _. Defined.

Lemma differing_outcome fuel data prev i j :
  size prev = size data -> (i + j <= size data)%nat -> (j <= 12)%nat -> (13 - j <= fuel)%nat ->
  (exists j', differing fuel data prev i j = Ret j' /\ (j <= j')%nat /\ (i + j' < size data)%nat /\
              (differ data prev (i + j) -> (j < 12)%nat -> (j < j')%nat)) \/
  (differing fuel data prev i j = Fault OutOfRange /\
   forall k, (i + j <= k < size data)%nat -> differ data prev k).
Proof.
  intros Hp. revert j. induction fuel as [|fuel IH]; intros j Hi Hj Hf; [lia|]. cbn [differing].
  destruct (decide (i + j = size data)%nat) as [He|He].
  { right. assert (at_ data (i + j) = Fault OutOfRange) as ->
      by (unfold at_; by rewrite lookup_ge_None_2 by (unfold size in *; lia)).
    split; [done|]. intros k. lia. }
  destruct (at_lt data (i + j)) as (d & -> & Ld); [lia|]. destruct (at_lt prev (i + j)) as (p & -> & Lp); [lia|].
  rewrite !bind_Ret. rewrite (bool_decide_true (i + j < size data)%nat) by lia. rewrite andb_true_r.
  destruct (Z.eqb_spec d p) as [->|Hne]; cbn [negb andb].
  { left. exists j. split_and!; [done|lia|lia|]. intros H. unfold differ in H. by rewrite Ld, Lp in H. }
  destruct (decide (j < 12)%nat) as [H12|H12]; cycle 1.
  { rewrite bool_decide_false by lia. left. exists j. split_and!; [done|lia|lia|lia]. }
  rewrite bool_decide_true by lia.
  destruct (IH (S j)) as [(j' & E & Hj' & Hs & _)|[E Hd]]; [lia|lia|lia|..].
  - left. exists j'. split_and!; [done|lia|lia|]. intros _ _. lia.
  - right. split; [done|]. intros k Hk. destruct (decide (k = i + j)%nat) as [->|]; [|apply Hd; lia].
    unfold differ. rewrite Ld, Lp. congruence.
Qed.

Lemma flag_bit b : is_u8 b -> (if nz (Z.land b 1) then 1 else 0) = Z.land b 1.
Proof. intros Hb. by_bytes b. Qed.

(** What the three operations make of the flag byte. *)
Definition parity (b : Z) : bool := foldr xorb false (Z.testbit b <$> [0; 1; 2; 3; 4; 5; 6; 7]).

Definition switches (f : Z -> Z) (target : bool -> bool) : Prop :=
  forall b, is_u8 b -> is_u8 (f b) /\ Z.land (f b) 1 = (if target (nz (Z.land b 1)) then 1 else 0) /\ parity (f b) = parity b.

Lemma switches_on : switches (fun d => if nz (Z.land d 0x01) then d else Z.lxor d 0x81) (fun _ => true).
Proof. intros b Hb. by_bytes b. Qed.

Lemma switches_off : switches (fun d => if nz (Z.land d 0x01) then Z.lxor d 0x81 else d) (fun _ => false).
Proof. intros b Hb. by_bytes b. Qed.

Lemma switches_toggle : switches (fun d => Z.lxor d 0x81) negb.
Proof. intros b Hb. by_bytes b. Qed.

Section blocks.
Context {W : Type} `{D : MemoryDevice W} (arrivals : nat).
Hypothesis Harr : (1 <= arrivals)%nat.

Lemma write_blocks_outcome rounds addr data prev i w :
  idle w -> 0 <= addr -> addr + Z.of_nat (size data) <= 65536 -> size prev = size data ->
  (i < size data)%nat -> (size data - i <= rounds)%nat ->
  if decide (differ data prev (size data - 1)) then
    write_blocks arrivals rounds addr data prev i 0 w = Fault OutOfRange
  else exists w', write_blocks arrivals rounds addr data prev i 0 w = Ret (0, w') /\ idle w' /\
                  forall x, mem w' x = mem w x.
Proof using Harr.
  intros Hi Ha Hal Hp. revert i w Hi. induction rounds as [|rounds IH]; intros i w Hi His Hr; [lia|].
  cbn [write_blocks]. rewrite (decide_False (P := (size data <= i)%nat)) by lia.
  destruct (at_lt data i) as (d & Ed & Ld); [lia|]. destruct (at_lt prev i) as (p & Ep & Lp); [lia|].
  rewrite (bind_lift _ d), (bind_lift _ p) by done.
  destruct (Z.eqb_spec d p) as [->|Hne].
  { destruct (decide (i + 1 < size data)%nat) as [Hlt|Hge]; [apply IH; [done|lia|lia]|].
    assert (i = size data - 1)%nat as <- by lia.
    rewrite decide_False by (unfold differ; rewrite Ld, Lp; tauto). exists w. split; [|done].
    destruct rounds as [|r]; [done|]. cbn [write_blocks]. by rewrite decide_True by lia. }
  destruct (differing_outcome 13 data prev i 0) as [(j & Ej & _ & Hs & Hj)|[Ej Hall]]; [done|lia|lia|lia|..].
  - rewrite Nat.add_0_r in Hj. specialize (Hj ltac:(unfold differ; rewrite Ld, Lp; congruence) ltac:(lia)).
    rewrite (bind_lift _ j) by done.
    destruct (Memory_Write_part arrivals Harr w (addr + Z.of_nat i) data i j) as (w1 & E1 & Hi1 & Hm1);
      [done|lia|lia|lia|].
    rewrite (bind_lift _ []) in E1 |- * by (apply CArray_part_inside_empty; lia).
    rewrite (bind_m7 _ _ _ _ _ E1). cbv beta iota. change (0 =? -1) with false. change (0 =? -2) with false. cbv iota.
    specialize (IH (i + j)%nat w1 Hi1 Hs ltac:(lia)). destruct (decide _); [done|].
    destruct IH as (w' & E & Hi' & Hm'). exists w'. split_and!; [done..|]. intros x. by rewrite Hm', Hm1.
  - rewrite decide_True by (apply Hall; lia). by apply bind_m7_fault; rewrite Ej.
Qed.

Lemma write_block_outcome w (addr : Z) (data : CArray) :
  idle w -> (2 <= limit)%nat -> 0 <= addr -> addr + Z.of_nat (size data) <= 65536 -> (0 < size data)%nat ->
  if decide (differ data (bytes_at (mem w) addr (size data)) (size data - 1)) then
    X_Memory_Write_Block arrivals addr data w = Fault OutOfRange
  else exists w', X_Memory_Write_Block arrivals addr data w = Ret (0, w') /\ idle w' /\
                  forall x, mem w' x = mem w x.
Proof using Harr.
  intros Hi Hl Ha Hal Hs. unfold X_Memory_Write_Block.
  destruct (Read_Block_outcome arrivals Harr w addr (size data)) as (w1 & E & Hi1 & Hm1); [done..|].
  rewrite (bind_m7 _ _ _ _ _ E).
  pose proof (write_blocks_outcome (size data) addr data (bytes_at (mem w) addr (size data)) 0 w1 Hi1 Ha Hal
                (size_bytes_at _ _ _) Hs ltac:(lia)) as H.
  destruct (decide _); [done|]. by rewrite Hm1 in H.
Qed.

(** The verified write of a memory block ([X_Memory_Write_Block]) never changes the memory of
    the device.  When the last byte is to be changed it reads beyond the data; otherwise it
    reports success, having sent writes of length zero only (the parts are cut
    out by a constructor that returns the empty vector). *)
Theorem write_block_writes_nothing w (addr : Z) (data : CArray) :
  idle w -> (2 <= limit)%nat -> 0 <= addr -> addr + Z.of_nat (size data) <= 65536 -> (0 < size data)%nat ->
  if decide (differ data (bytes_at (mem w) addr (size data)) (size data - 1)) then
    X_Memory_Write_Block arrivals addr data w = Fault OutOfRange
  else exists w', X_Memory_Write_Block arrivals addr data w = Ret (0, w') /\ idle w' /\
                  forall x, mem w' x = mem w x.
Proof using Harr. apply write_block_outcome. Qed.

(** Reading a block gives the memory of the device, whatever transfer length of two bytes or
    more it supports: a device that refuses twelve bytes at a time is read two bytes
    at a time, from where the refusal came on. *)
Theorem read_block_reads w (addr : Z) (len : nat) :
  idle w -> (2 <= limit)%nat -> 0 <= addr -> addr + Z.of_nat len <= 65536 ->
  exists w', X_Memory_Read_Block arrivals addr len w = Ret (Some (bytes_at (mem w) addr len), w') /\
             idle w' /\ mem w' = mem w.
Proof using Harr. apply Read_Block_outcome. exact Harr. Qed.

(** Writing a block without verification ([A_Memory_Write_Block]) stores it: afterwards the
    memory of the device holds the data from the address on, and is as before
    elsewhere. *)
Theorem write_block_stores w (addr : Z) (data : CArray) :
  idle w -> (12 <= limit)%nat -> 0 <= addr -> addr + Z.of_nat (size data) <= 65536 -> bytes data ->
  exists w', A_Memory_Write_Block addr data w = Ret (0, w') /\ idle w' /\
             forall x, mem w' x = stored (mem w) addr data x.
Proof using Type.
  clear Harr. intros Hi Hl Ha Hal Hb. apply put_blocks_outcome; try done; [lia|lia|].
  intros x. symmetry. rewrite take_0. apply stored_outside. unfold size. simpl. lia.
Qed.

(** ** Programming mode *)

Lemma progmode_outcome f w :
  idle w -> (1 <= limit)%nat -> (forall b, is_u8 b -> is_u8 (f b)) ->
  exists w', progmode_write arrivals f w = Ret (0, w') /\ idle w' /\
             forall x, mem w' x = stored (mem w) progmode_addr [f (mem w progmode_addr)] x.
Proof using Harr.
  intros Hi Hl Hf. unfold progmode_write.
  destruct (Memory_Read_outcome arrivals Harr w 1 progmode_addr) as (w1 & E1 & Hi1 & Hm1); [done|lia|done|].
  rewrite (decide_True (P := (1 <= limit)%nat)) in E1 by done. rewrite (bind_m7 _ _ _ _ _ E1). cbn [bytes_at].
  rewrite (bind_lift _ (mem w progmode_addr)) by done.
  rewrite (bind_lift _ [f (mem w progmode_addr)])
    by (simpl; by rewrite u8_small by (apply Hf, mem_byte)).
  destruct (Memory_Write_verified arrivals Harr w1 progmode_addr [f (mem w progmode_addr)])
    as (w2 & E2 & Hi2 & Hm2); [done|done|unfold size; simpl; lia|done|done|..].
  { apply bytes_cons. split; [apply Hf, mem_byte|apply bytes_nil]. }
  rewrite (bind_m7 _ _ _ _ _ E2). exists w2. split_and!; [done..|]. intros x. rewrite Hm2. apply stored_ext.
  intros y. by rewrite Hm1.
Qed.

Lemma status_outcome w :
  idle w -> (1 <= limit)%nat ->
  exists w', X_Progmode_Status arrivals w = Ret (Z.land (mem w progmode_addr) 1, w') /\ idle w' /\ mem w' = mem w.
Proof using Harr.
  intros Hi Hl. unfold X_Progmode_Status.
  destruct (Memory_Read_outcome arrivals Harr w 1 progmode_addr) as (w1 & E1 & Hi1 & Hm1); [done|lia|done|].
  rewrite (decide_True (P := (1 <= limit)%nat)) in E1 by done. rewrite (bind_m7 _ _ _ _ _ E1). cbn [bytes_at].
  rewrite (bind_lift _ (mem w progmode_addr)) by done. exists w1. split; [|done].
  by rewrite flag_bit by apply mem_byte.
Qed.

Lemma progmode_switches f target w :
  switches f target -> idle w -> (1 <= limit)%nat ->
  exists w' w'', progmode_write arrivals f w = Ret (0, w') /\
    X_Progmode_Status arrivals w' = Ret ((if target (nz (Z.land (mem w progmode_addr) 1)) then 1 else 0), w'') /\
    parity (mem w' progmode_addr) = parity (mem w progmode_addr) /\
    forall x, x <> progmode_addr -> mem w' x = mem w x.
Proof using Harr.
  intros Hf Hi Hl. destruct (progmode_outcome f w Hi Hl) as (w1 & E1 & Hi1 & Hm1); [intros b Hb; by apply Hf|].
  destruct (status_outcome w1 Hi1 Hl) as (w2 & E2 & _). exists w1, w2.
  assert (mem w1 progmode_addr = f (mem w progmode_addr)) as Em by (by rewrite Hm1).
  destruct (Hf (mem w progmode_addr) (mem_byte w _)) as (_ & Hl1 & Hp).
  rewrite Em in E2 |- *. rewrite Hl1 in E2. split_and!; [done..|].
  intros x Hx. rewrite Hm1. apply stored_outside. unfold size. simpl. lia.
Qed.

(** Switching the programming mode.  [X_Progmode_On] and [X_Progmode_Off] set and clear bit
    0 of the flag byte at 0x60 and [X_Progmode_Toggle] inverts it, as the status read
    afterwards shows; the parity of the byte is kept, and no other byte of the memory
    changes. *)
Theorem progmode_switched w (op : m7 W Z) (target : bool -> bool) :
  idle w -> (1 <= limit)%nat ->
  (op, target) = (X_Progmode_On arrivals, fun _ => true) \/
  (op, target) = (X_Progmode_Off arrivals, fun _ => false) \/
  (op, target) = (X_Progmode_Toggle arrivals, negb) ->
  exists w' w'', op w = Ret (0, w') /\
    X_Progmode_Status arrivals w' = Ret ((if target (nz (Z.land (mem w progmode_addr) 1)) then 1 else 0), w'') /\
    parity (mem w' progmode_addr) = parity (mem w progmode_addr) /\
    forall x, x <> progmode_addr -> mem w' x = mem w x.
Proof using Harr.
  intros Hi Hl [H|[H|H]]; injection H as -> ->.
  - exact (progmode_switches _ _ w switches_on Hi Hl).
  - exact (progmode_switches _ _ w switches_off Hi Hl).
  - exact (progmode_switches _ _ w switches_toggle Hi Hl).
Qed.
End blocks.

(** ** A device

    Memory, the longest transfer it serves, and the answers on their way. *)
Record device := mkDevice { dev_mem : Z -> Z; dev_limit : nat; pending : list CArray }.

Definition dev_byte (d : device) (a : Z) : Z := u8 (dev_mem d a).

Definition dev_answer (d : device) (a : APDU) : device :=
  match APDU_ToPacket a with
  | Ret q => mkDevice (dev_mem d) (dev_limit d) (pending d ++ [q])
  | Fault _ => d
  end.

Definition dev_recv (p : CArray) (d : device) : device :=
  match APDU_fromPacket p with
  | Ret (A_Memory_Read_PDU n a) =>
      let k := served (dev_limit d) (Z.to_nat n) in
      dev_answer d (A_Memory_Response_PDU (Z.of_nat k) a (bytes_at (dev_byte d) a k))
  | Ret (A_Memory_Write_PDU n a data) =>
      mkDevice (stored (dev_mem d) a data) (dev_limit d) (pending d)
  | _ => d
  end.

Definition dev_get (d : device) : option CArray * device :=
  match pending d with
  | [] => (None, d)
  | q :: qs => (Some q, mkDevice (dev_mem d) (dev_limit d) qs)
  end.

Section instance.
Context (l : nat).

(** The devices with the limit [l]. *)
#[local] Instance device_Layer4 : Layer4 device := { l4_recv := dev_recv; l4_Get := dev_get }.

Lemma device_read d (n : nat) a p :
  pending d = [] /\ dev_limit d = l -> (n < 16)%nat -> is_u16 a ->
  APDU_ToPacket (A_Memory_Read_PDU (Z.of_nat n) a) = Ret p ->
  exists q d', APDU_ToPacket (A_Memory_Response_PDU (Z.of_nat (served l n)) a (bytes_at (dev_byte d) a (served l n))) = Ret q /\
               dev_get (dev_recv p d) = (Some q, d') /\ (pending d' = [] /\ dev_limit d' = l) /\ dev_byte d' = dev_byte d.
Proof using Type.
  intros [Hq Hl] Hn Ha Hp. unfold dev_recv.
  rewrite (packet_parsed (A_Memory_Read_PDU (Z.of_nat n) a) p) by (done || (split; [lia|done])).
  rewrite Nat2Z.id, Hl. set (k := served l n).
  assert (k < 16)%nat by (unfold k, served; case_decide; lia).
  destruct (APDU_ToPacket_returns (A_Memory_Response_PDU (Z.of_nat k) a (bytes_at (dev_byte d) a k))) as [q Eq].
  { simpl. unfold mem_wf. rewrite size_bytes_at. split_and!; try lia; try apply Ha.
    apply bytes_at_bytes. intros x. apply u8_bound. }
  unfold dev_answer. rewrite Eq, Hq. exists q. eexists. done.
Qed.

Lemma device_write d a c p :
  pending d = [] /\ dev_limit d = l -> (size c < 16)%nat -> is_u16 a -> bytes c ->
  APDU_ToPacket (A_Memory_Write_PDU (Z.of_nat (size c)) a c) = Ret p ->
  (pending (dev_recv p d) = [] /\ dev_limit (dev_recv p d) = l) /\
  forall x, dev_byte (dev_recv p d) x = stored (dev_byte d) a c x.
Proof using Type.
  intros Hi Hs Ha Hb Hp. unfold dev_recv.
  rewrite (packet_parsed (A_Memory_Write_PDU (Z.of_nat (size c)) a c) p)
    by (done || (simpl; unfold mem_wf; split_and!; try lia; apply Ha || done)).
  split; [done|]. intros x. unfold dev_byte, stored. simpl.
  destruct (decide (a <= x)); [|done]. destruct (c !! _) eqn:E; [|done].
  apply u8_small. by eapply bytes_lookup.
Qed.

#[local] Instance device_MemoryDevice : MemoryDevice device.
Proof using l.
  refine {| mem := dev_byte; idle d := pending d = [] /\ dev_limit d = l; limit := l |}.
  - intros d a. apply u8_bound.
  - intros d [Hq Hl]. exists d. simpl. unfold dev_get. by rewrite Hq.
  - intros d n a p Hi Hn Ha Hp. by apply device_read.
  - intros d a c p Hi _ Hs Ha Hb Hp. by apply device_write.
Defined.
End instance.

#[export] Existing Instance device_Layer4.

(** A device that serves twelve bytes at a time, one that serves four, and their memory. *)
Definition device12 : device := mkDevice (fun a => a) 12 [].
Definition device4 : device := mkDevice (fun a => a) 4 [].

Lemma read_block_reads_witness :
  exists w', X_Memory_Read_Block 2 0x100 30 device4 = Ret (Some (bytes_at (dev_byte device4) 0x100 30), w') /\
             (pending w' = [] /\ dev_limit w' = 4%nat) /\ dev_byte w' = dev_byte device4.
Proof.
  apply (read_block_reads (D := device_MemoryDevice 4) 2 ltac:(lia) device4 0x100 30); [done|simpl; lia|lia|lia].
Defined.

Lemma write_block_stores_witness :
  exists w', A_Memory_Write_Block 0x100 (replicate 30 7) device12 = Ret (0, w') /\
             (pending w' = [] /\ dev_limit w' = 12%nat) /\
             forall x, dev_byte w' x = stored (dev_byte device12) 0x100 (replicate 30 7) x.
Proof.
  apply (write_block_stores (D := device_MemoryDevice 12) device12 0x100 (replicate 30 7)); [done|simpl; lia|lia|decided|decided].
Defined.

(** Ten bytes of which the last is in the memory already: success, and nothing stored. *)
Lemma write_block_writes_nothing_witness :
  exists w', X_Memory_Write_Block 2 0x100 (replicate 9 0x55 ++ [9]) device12 = Ret (0, w') /\
             (pending w' = [] /\ dev_limit w' = 12%nat) /\ forall x, dev_byte w' x = dev_byte device12 x.
Proof.
  pose proof (write_block_writes_nothing (D := device_MemoryDevice 12) 2 ltac:(lia) device12 0x100 (replicate 9 0x55 ++ [9])) as H.
  apply H; [done|simpl; lia|lia|decided|simpl; unfold size; simpl; lia].
Defined.

Lemma progmode_switched_witness :
  exists w' w'', X_Progmode_On 2 device12 = Ret (0, w') /\
    X_Progmode_Status 2 w' = Ret (1, w'') /\
    parity (dev_byte w' progmode_addr) = parity (dev_byte device12 progmode_addr) /\
    forall x, x <> progmode_addr -> dev_byte w' x = dev_byte device12 x.
Proof.
  apply (progmode_switched (D := device_MemoryDevice 12) 2 ltac:(lia) device12 (X_Progmode_On 2) (fun _ => true));
    [done|simpl; lia|by left].
Defined.
