(* ===== verification/ManagementClient.v ===== *)
(** * Management requests of a client

    Models src/src/libserver/managementclient.cpp: the handlers [ReadIndividualAddresses],
    [ChangeProgMode], [GetMaskVersion], [WriteIndividualAddress], [LoadImage], and the
    loops [ManagementConnection] and [ManagementIndividual] over the messages of
    a client.

    A handler gets the message (its type first) and gives the messages it sends back, as
    [sendmessage] and [sendreject] send them.  Whether the connection to the device
    could be set up ([init]) and what arrives on the broadcast connection are arguments. *)

From S2P Require Import Prelude CArray Common Apdu Image LoadImage EibTypes Layer7.

Local Open Scope Z_scope.

(** [sendreject (t)]: a message that consists of the type. *)
Definition reject (t : Z) : CArray := [hi8 t; lo8 t].

Definition invalid : CArray := reject EIB_INVALID_REQUEST.

(** [EIBSETTYPE (res, t)] and bytes after it. *)
Definition message (t : Z) (d : CArray) : CArray := reject t ++ d.

(** [buf[i] << 8 | buf[i + 1]] *)
Definition buf_word (c : CArray) (i : nat) : outcome Z := h ← at_ c i; l ← at_ c (i + 1); Ret (be16 h l).

Definition buf_key (c : CArray) (i : nat) : outcome Z :=
  a ← at_ c i; b ← at_ c (i + 1); d ← at_ c (i + 2); e ← at_ c (i + 3); Ret (u32 (be32 a b d e)).

(** [erg.resize (n); EIBSETTYPE (erg, t); erg.setpart (data, 2);] *)
Definition sized_message (n : nat) (t : Z) (data : CArray) : outcome CArray :=
  erg ← put (resize [] n) 0 (hi8 t);
  erg ← put erg 1 (lo8 t);
  setpart_all erg data 2.

Section Management.
Context {W : Type} `{!Layer4 W} (arrivals : nat).

(** Whether [init] of the connections succeeds, and what arrives as broadcast. *)
Context (init : bool) (arrived : list (Z * CArray)).

Definition ReadIndividualAddresses : outcome (list CArray) :=
  if negb init then Ret [reject EIB_PROCESSING_ERROR]
  else
    e ← collect_addresses arrived;
    Ret [message EIB_M_INDIVIDUAL_ADDRESS_READ (concat ((fun a => [hi8 a; lo8 a]) <$> e))].

(** The switch on the requested mode, which two handlers have: the messages and, for a status
    request, the value of [i]. *)
Definition prog_mode (t mode i : Z) : m7 W (list CArray * Z) :=
  let done k i := mret ([if k =? -1 then invalid else message t [0]], i) in
  if mode =? 0 then k ← X_Progmode_Off arrivals; done k i
  else if mode =? 1 then k ← X_Progmode_On arrivals; done k i
  else if mode =? 2 then k ← X_Progmode_Toggle arrivals; done k i
  else if mode =? 3 then
    k ← X_Progmode_Status arrivals;
    mret ([if k =? -1 then invalid else message t [u8 k]], k)
  else mret ([invalid], i).

Definition ChangeProgMode (buf : CArray) : m7 W (list CArray) :=
  if decide (size buf < 5)%nat then mret [invalid]
  else if negb init then mret [reject EIB_PROCESSING_ERROR]
  else
    mode ← lift (at_ buf 4);
    '(o, _) ← prog_mode EIB_PROG_MODE mode 0;
    mret o.

Definition GetMaskVersion (buf : CArray) : m7 W (list CArray) :=
  if decide (size buf < 4)%nat then mret [invalid]
  else if negb init then mret [reject EIB_PROCESSING_ERROR]
  else
    v ← A_Device_Descriptor_Read arrivals 0;
    match v with
    | None => mret [invalid]
    | Some v => mret [message EIB_MASK_VERSION [hi8 v; lo8 v]]
    end.

(** The connections of this handler are separate ones; they all act on the same bus. *)
Definition WriteIndividualAddress (buf : CArray) : m7 W (list CArray) :=
  if decide (size buf < 4)%nat then mret [invalid]
  else
    dest ← lift (buf_word buf 2);
    if negb init then mret [reject EIB_PROCESSING_ERROR]
    else
      v ← A_Device_Descriptor_Read arrivals 0;
      match v with
      | Some _ => mret [reject EIB_ERROR_ADDR_EXISTS]
      | None =>
          addr ← lift (collect_addresses arrived);
          if decide (1 < length addr)%nat then mret [reject EIB_ERROR_MORE_DEVICE]
          else if decide (length addr = 0%nat) then mret [reject EIB_ERROR_TIMEOUT]
          else
            _ ← Broadcast_A_IndividualAddress_Write dest;
            v ← A_Device_Descriptor_Read arrivals 0;
            match v with
            | None => mret [reject EIB_PROCESSING_ERROR]
            | Some _ =>
                k ← X_Progmode_Off arrivals;
                mret [if k =? -1 then reject EIB_PROCESSING_ERROR else reject EIB_M_INDIVIDUAL_ADDRESS_WRITE]
            end
      end.

(** ** The loop of a management connection

    One round: the messages sent and [i], which ends the loop when it is -1. *)

(** A request that answers with two bytes. *)
Definition answer_word (t : Z) (m : m7 W (option Z)) (i : Z) : m7 W (list CArray * Z) :=
  v ← m;
  mret ([match v with None => invalid | Some v => message t [hi8 v; lo8 v] end], i).

Definition mc_read (buf : CArray) (i : Z) : m7 W (list CArray * Z) :=
  if decide (size buf < 6)%nat then mret ([invalid], i)
  else
    addr ← lift (buf_word buf 2);
    len ← lift (buf_word buf 4);
    data ← X_Memory_Read_Block arrivals addr (Z.to_nat len);
    match data with
    | None => mret ([invalid], i)
    | Some data => erg ← lift (sized_message 6 EIB_MC_READ data); mret ([erg], i)
    end.

Definition mc_write (buf : CArray) (i : Z) : m7 W (list CArray * Z) :=
  if decide (size buf < 6)%nat then mret ([invalid], i)
  else
    addr ← lift (buf_word buf 2);
    len ← lift (buf_word buf 4);
    if decide (size buf < Z.to_nat len + 6)%nat then mret ([invalid], i)
    else
      d ← lift (slice buf 6 (Z.to_nat len));
      i ← X_Memory_Write_Block arrivals addr d;
      mret ([if i =? -2 then reject EIB_ERROR_VERIFY
             else if negb (i =? 0) then reject EIB_PROCESSING_ERROR
             else reject EIB_MC_WRITE], i).

Definition mc_write_noverify (buf : CArray) (i : Z) : m7 W (list CArray * Z) :=
  if decide (size buf < 6)%nat then mret ([invalid], i)
  else
    addr ← lift (buf_word buf 2);
    len ← lift (buf_word buf 4);
    if decide (size buf < Z.to_nat len + 6)%nat then mret ([invalid], i)
    else
      d ← lift (slice buf 6 (Z.to_nat len));
      i ← A_Memory_Write_Block addr d;
      mret ([if negb (i =? 0) then reject EIB_PROCESSING_ERROR else reject EIB_MC_WRITE_NOVERIFY], i).

(** [read] and [write] are those of the connection or of the individual one. *)
Definition mc_prop_read (read : Z -> Z -> Z -> Z -> m7 W (option CArray)) (buf : CArray) (i : Z) :
    m7 W (list CArray * Z) :=
  if decide (size buf < 7)%nat then mret ([invalid], i)
  else
    o ← lift (at_ buf 2);
    p ← lift (at_ buf 3);
    s ← lift (buf_word buf 4);
    n ← lift (at_ buf 6);
    data ← read o p s n;
    match data with
    | None => mret ([invalid], i)
    | Some data => erg ← lift (sized_message 2 EIB_MC_PROP_READ data); mret ([erg], i)
    end.

(** The answer is built from [data], which is empty, not from the result. *)
Definition mc_prop_write (write : Z -> Z -> Z -> Z -> CArray -> m7 W (option CArray)) (buf : CArray) (i : Z) :
    m7 W (list CArray * Z) :=
  if decide (size buf < 7)%nat then mret ([invalid], i)
  else
    o ← lift (at_ buf 2);
    p ← lift (at_ buf 3);
    s ← lift (buf_word buf 4);
    n ← lift (at_ buf 6);
    d ← lift (slice buf 7 (size buf - 7));
    erg ← write o p s n d;
    match erg with
    | None => mret ([invalid], i)
    | Some _ => erg ← lift (sized_message 2 EIB_MC_PROP_WRITE []); mret ([erg], i)
    end.

Definition scan_bytes (p : PropertyInfo) : CArray :=
  [u8 (pi_obj p); u8 (pi_property p); u8 (pi_type p); hi8 (pi_count p); lo8 (pi_count p); u8 (pi_access p)].

Definition mc_step (fuel : nat) (buf : CArray) (i : Z) : m7 W (list CArray * Z) :=
  t ← lift (buf_word buf 0);
  if t =? EIB_MC_PROG_MODE then
    if decide (size buf < 3)%nat then mret ([invalid], i)
    else mode ← lift (at_ buf 2); prog_mode EIB_MC_PROG_MODE mode i
  else if t =? EIB_MC_MASK_VERSION then answer_word t (A_Device_Descriptor_Read arrivals 0) i
  else if t =? EIB_MC_PEI_TYPE then answer_word t (X_Get_PEIType arrivals) i
  else if t =? EIB_MC_ADC_READ then
    if decide (size buf < 4)%nat then mret ([invalid], i)
    else ch ← lift (at_ buf 2); n ← lift (at_ buf 3); answer_word t (A_ADC_Read_ arrivals ch n) i
  else if t =? EIB_MC_READ then mc_read buf i
  else if t =? EIB_MC_WRITE then mc_write buf i
  else if t =? EIB_MC_PROP_READ then mc_prop_read (A_Property_Read arrivals) buf i
  else if t =? EIB_MC_PROP_WRITE then mc_prop_write (A_Property_Write arrivals) buf i
  else if t =? EIB_MC_AUTHORIZE then
    if decide (size buf < 6)%nat then mret ([invalid], i)
    else
      key ← lift (buf_key buf 2);
      l ← A_Authorize arrivals key;
      mret ([match l with None => invalid | Some l => message EIB_MC_AUTHORIZE [u8 l] end], i)
  else if t =? EIB_MC_KEY_WRITE then
    if decide (size buf < 7)%nat then mret ([invalid], i)
    else
      key ← lift (buf_key buf 2);
      level ← lift (at_ buf 6);
      l ← A_KeyWrite arrivals key level;
      mret ([match l with None => invalid | Some _ => reject EIB_MC_KEY_WRITE end], i)
  else if t =? EIB_MC_PROP_DESC then
    if decide (size buf < 4)%nat then mret ([invalid], i)
    else
      o ← lift (at_ buf 2);
      p ← lift (at_ buf 3);
      d ← A_Property_Desc arrivals o p 0;
      mret ([match d with
             | None => invalid
             | Some (_, type, count, access) =>
                 message EIB_MC_PROP_DESC [u8 type; hi8 count; lo8 count; u8 access]
             end], i)
  else if t =? EIB_MC_PROP_SCAN then
    p ← X_PropertyScan arrivals fuel;
    mret ([match p with
           | None => invalid
           | Some p => message EIB_MC_PROP_SCAN (concat (scan_bytes <$> p))
           end], i)
  else if t =? EIB_RESET_CONNECTION then mret ([], -1)
  else if t =? EIB_MC_RESTART then _ ← A_Restart_; mret ([reject EIB_MC_RESTART], i)
  else if t =? EIB_MC_WRITE_NOVERIFY then mc_write_noverify buf i
  else mret ([invalid], i).

(** The rounds, over the messages the client sends; [readmessage] returns -1 after the
    last one. *)
Fixpoint mc_loop (step : CArray -> Z -> m7 W (list CArray * Z)) (msgs : list CArray) : m7 W (list CArray) :=
  match msgs with
  | [] => mret []
  | buf :: msgs =>
      '(o, i) ← step buf 0;
      if i =? -1 then mret o
      else o' ← mc_loop step msgs; mret (o ++ o')
  end.

Definition ManagementConnection (fuel : nat) (buf : CArray) (msgs : list CArray) : m7 W (list CArray) :=
  if decide (size buf < 4)%nat then mret [invalid]
  else if negb init then mret [reject EIB_PROCESSING_ERROR]
  else
    v ← A_Device_Descriptor_Read arrivals 0;
    match v with
    | None => mret [invalid]
    | Some _ => o ← mc_loop (mc_step fuel) msgs; mret (reject EIB_MC_CONNECTION :: o)
    end.

Definition mi_step (buf : CArray) (i : Z) : m7 W (list CArray * Z) :=
  t ← lift (buf_word buf 0);
  if t =? EIB_MC_PROP_READ then mc_prop_read Individual_A_Property_Read buf i
  else if t =? EIB_MC_PROP_WRITE then mc_prop_write Individual_A_Property_Write buf i
  else if t =? EIB_RESET_CONNECTION then mret ([], -1)
  else mret ([invalid], i).

Definition ManagementIndividual (buf : CArray) (msgs : list CArray) : m7 W (list CArray) :=
  if decide (size buf < 4)%nat then mret [invalid]
  else if negb init then mret [reject EIB_PROCESSING_ERROR]
  else o ← mc_loop mi_step msgs; mret (reject EIB_MC_INDIVIDUAL :: o).

(** ** [LoadImage] *)

(** [if (m.X_Memory_Write_Block (addr, d) != 0) goto out;] with [r] as the result, for a list of
    blocks; each names the value of [r] at that point. *)
Fixpoint load_blocks (blocks : list (Z * Z * outcome CArray)) (k : m7 W Z) : m7 W Z :=
  match blocks with
  | [] => k
  | (r, addr, d) :: blocks =>
      d ← lift d;
      e ← X_Memory_Write_Block arrivals addr d;
      if negb (e =? 0) then mret r else load_blocks blocks k
  end.

Definition bcu1_blocks (code : CArray) : list (Z * Z * outcome CArray) :=
  [(IMG_CLEAR_ERROR, 0x010d, Ret [0]);
   (IMG_RESET_ADDR_TAB, 0x0116, Ret [0x01]);
   (IMG_LOAD_HEADER, 0x0100, Ret [0xff]);
   (IMG_LOAD_HEADER, 0x0103, slice code 0x03 10);
   (IMG_LOAD_HEADER, 0x010E, slice code 0x0E 8);
   (IMG_LOAD_MAIN, 0x119, slice code 0x19 (size code - 0x19));
   (IMG_LOAD_MAIN, 0x0100, slice code 0 1);
   (IMG_ZERO_RAM, 0x00ce, Ret (replicate 18 0));
   (IMG_FINALIZE_ADDR_TAB, 0x0116, slice code 0x16 1);
   (IMG_PREPARE_RUN, 0x010d, Ret [0xff])].

(** [CArray (i->code.data () + j->memaddr - 0x100, j->len)] *)
Definition code_part (code : CArray) (memaddr len : Z) : outcome CArray :=
  if decide (memaddr < 0x100) then Fault OutOfRange
  else slice code (Z.to_nat (memaddr - 0x100)) (Z.to_nat len).

(** The three keys: each is written at its level. *)
Fixpoint write_keys (keys : list Z) (j : Z) (k : m7 W Z) : m7 W Z :=
  match keys with
  | [] => k
  | key :: keys =>
      l ← A_KeyWrite arrivals key j;
      match l with
      | None => mret IMG_KEY_WRITE
      | Some l => if negb (j =? l) then mret IMG_KEY_WRITE else write_keys keys (j + 1) k
      end
  end.

Fixpoint load_loop (code : CArray) (load : list EIBLoadRequest) (k : m7 W Z) : m7 W Z :=
  match load with
  | [] => k
  | j :: load =>
      let r := error j in
      ok ← (if obj j =? 0xff then mret true
            else
              erg ← A_Property_Write arrivals (obj j) (prop j) (start j) 1 (req j);
              mret (match erg with None => false | Some erg => bool_decide (erg = result j) end));
      if negb ok then mret r
      else if memaddr j =? 0xffff then load_loop code load k
      else
        d ← lift (code_part code (memaddr j) (len j));
        e ← X_Memory_Write_Block arrivals (memaddr j) d;
        if negb (e =? 0) then mret r else load_loop code load k
  end.

Definition restart_device : m7 W Z := _ ← A_Restart_; mret IMG_LOADED.

(** From the connection to the device on. *)
Definition load_device (i : BCUImage) : m7 W Z :=
  if negb init then mret IMG_NO_DEVICE_CONNECTION
  else
    v ← A_Device_Descriptor_Read arrivals 0;
    match v with
    | None => mret IMG_MASK_READ_FAILED
    | Some maskver =>
        match img_BCUType i with
        | B_bcu1 =>
            if negb (maskver =? 0x0012) then mret IMG_WRONG_MASK_VERSION
            else load_blocks (bcu1_blocks (img_code i)) restart_device
        | t =>
            if negb (maskver =? match t with B_bcu20 => 0x0020 | _ => 0x0021 end) then mret IMG_WRONG_MASK_VERSION
            else
              l ← A_Authorize arrivals (img_installkey i);
              match l with
              | None => mret IMG_AUTHORIZATION_FAILED
              | Some level =>
                  if nz level then mret IMG_AUTHORIZATION_FAILED
                  else
                    ks ← lift (slice (img_keys i) 0 3);
                    write_keys ks 0 (load_loop (img_code i) (img_load i) restart_device)
              end
        end
    end.

Definition LoadImage (len0 key0 : Z) (buf : CArray) : m7 W (list CArray) :=
  img ← lift (slice buf 2 (size buf - 2));
  '(r, i) ← lift (PrepareLoadImage len0 key0 img);
  if negb (r =? IMG_IMAGE_LOADABLE) then mret [message EIB_LOAD_IMAGE [hi8 r; lo8 r]]
  else
    match i with
    | None => lift (Fault Aborted)
    | Some i => r ← load_device i; mret [message EIB_LOAD_IMAGE [hi8 r; lo8 r]]
    end.
End Management.
