(* ===== verification/ManagementClientSpec.v ===== *)
(** * Management requests of a client: what they do

    The handlers of [ManagementClient] on a device that works ([MemoryDevice]) and on one that
    does not answer.  The download of a BCU 1 program, the answer to a memory read, and the end of
    a management connection after a failed write. *)

From S2P Require Import Prelude CArray Common Apdu ApduSpec ApduRound Image LoadImage EibTypes Layer7 Layer7Spec ManagementClient.

Local Open Scope Z_scope.

Lemma buf_word_ok hd v tl m : m = size hd -> is_u16 v -> buf_word (hd ++ hi8 v :: lo8 v :: tl) m = Ret v.
Proof.
  intros -> Hv. unfold buf_word, hi8, lo8. rewrite !land_ff, (at_mid _ _ _ (size hd) eq_refl), bind_Ret.
  rewrite cons_middle, app_assoc, at_mid by (unfold size; rewrite length_app; done).
  rewrite bind_Ret. unfold be16. by rewrite be16_join, u16_small.
Qed.

Lemma setpart_answer n data :
  setpart (replicate n 0) data 0 (size data) = Ret (data ++ replicate (n - size data) 0).
Proof.
  destruct (decide (size data <= n)%nat) as [H|H].
  - rewrite setpart_over by (unfold size in *; rewrite ?length_replicate; done || lia). by rewrite drop_replicate.
  - unfold setpart. rewrite (decide_True (P := (size data <= size data)%nat)) by lia.
    rewrite decide_True by (unfold size in *; rewrite length_replicate; lia).
    rewrite take_0, drop_ge; [unfold size; rewrite firstn_all; replace (n - length data)%nat with 0%nat by (unfold size in *; lia); done|].
    unfold resize, size in *. rewrite length_app, length_take, !length_replicate. lia.
Qed.

Lemma sized_message_ok n t data :
  (2 <= n)%nat -> sized_message n t data = Ret (reject t ++ data ++ replicate (n - 2 - size data) 0).
Proof.
  intros Hn. unfold sized_message. rewrite resize_nil. destruct n as [|[|n]]; [lia|lia|].
  assert ((erg ← put (replicate (S (S n)) 0) 0 (hi8 t); put erg 1 (lo8 t)) = Ret (reject t ++ replicate n 0)) as E.
  { simpl. unfold reject, hi8, lo8. by rewrite !land_ff, !u8_u8. }
  rewrite <-bind_assoc, E, bind_Ret. unfold setpart_all.
  pose proof (setpart_app (reject t) (replicate n 0) data (size data)) as E2.
  change (size (reject t)) with 2%nat in E2. rewrite E2, setpart_answer, bind_Ret.
  by replace (S (S n) - 2)%nat with n by lia.
Qed.

(** ** Downloading a BCU 1 program *)

Section device.
Context {W : Type} `{D : MemoryDevice W} (arrivals : nat).
Hypothesis Harr : (1 <= arrivals)%nat.
Hypothesis Hlimit : (2 <= limit)%nat.

(** A block of the download: read out of bounds, or reported as written without being so. *)
Lemma block_outcome w addr d :
  idle w -> 0 <= addr -> addr + Z.of_nat (size d) <= 65536 ->
  X_Memory_Write_Block arrivals addr d w = Fault OutOfRange \/
  (exists w', X_Memory_Write_Block arrivals addr d w = Ret (0, w') /\ idle w' /\ (forall x, mem w' x = mem w x)) /\
  forall b, d = [b] -> mem w addr = b.
Proof using All.
  intros Hi Ha Hal. destruct (decide (size d = 0%nat)) as [H0|H0].
  { right. destruct d; [|unfold size in H0; simpl in H0; lia]. split; [|done]. unfold X_Memory_Write_Block.
    destruct (Read_Block_outcome arrivals Harr w addr 0) as (w' & E & Hi' & Hm'); [done|done|lia|lia|].
    exists w'. change (size []) with 0%nat. rewrite (bind_m7 _ _ _ _ _ E). by rewrite Hm'. }
  pose proof (write_block_outcome arrivals Harr w addr d Hi Hlimit Ha Hal ltac:(lia)) as H.
  destruct (decide _) as [|Hnd]; [by left|]. right. split; [done|].
  intros b ->. unfold differ in Hnd. apply dec_stable in Hnd.
  change (size [b] - 1)%nat with 0%nat in Hnd. simpl in Hnd. congruence.
Qed.

(** Two blocks of one byte each that ask for different values at the same address cannot
    both get past. *)
Lemma load_blocks_fault blocks k w addr b :
  idle w -> mem w addr <> b ->
  Forall (fun '(r, a, d) => 0 <= a /\ exists c, d = Ret c /\ a + Z.of_nat (size c) <= 65536) blocks ->
  In (addr, Ret [b]) ((fun '(r, a, d) => (a, d)) <$> blocks) ->
  load_blocks arrivals blocks k w = Fault OutOfRange.
Proof using All.
  intros Hi Hb Hall. revert w Hi Hb. induction Hall as [|[[r a] d] blocks [Ha (c & -> & Hc)] _ IH]; intros w Hi Hb Hin; [done|].
  cbn [load_blocks]. rewrite (bind_lift _ c) by done.
  destruct (block_outcome w a c Hi Ha Hc) as [E|[(w' & E & Hi' & Hm') Hone]].
  - by rewrite (bind_m7_fault _ _ _ _ E).
  - rewrite (bind_m7 _ _ _ _ _ E). change (negb (0 =? 0)) with false. cbv iota.
    rewrite fmap_cons in Hin. destruct Hin as [[= -> ->]|Hin]; [by destruct Hb; apply Hone|].
    apply IH; [done|by rewrite Hm'|done].
Qed.

(** The download of a BCU 1 program to a device that works never completes: it clears the error
    flags at 0x10d with a verified write of one byte first and sets them to 0xff in the end, and
    one of the two changes the byte, which makes the write read beyond its data. *)
Theorem bcu1_download_faults w w1 (i : BCUImage) :
  img_BCUType i = B_bcu1 -> (0x19 <= size (img_code i))%nat -> Z.of_nat (size (img_code i)) <= 0xfe ->
  A_Device_Descriptor_Read arrivals 0 w = Ret (Some 0x0012, w1) -> idle w1 ->
  load_device arrivals true i w = Fault OutOfRange.
Proof using All.
  intros Ht Hs Hs' Hd Hi. unfold load_device. cbn [negb]. rewrite (bind_m7 _ _ _ _ _ Hd), Ht.
  change (negb (0x0012 =? 0x0012)) with false. cbv iota. set (code := img_code i) in *.
  assert (Forall (fun '(r, a, d) => 0 <= a /\ exists c, d = Ret c /\ a + Z.of_nat (size c) <= 65536)
            (bcu1_blocks code)) as Hall.
  { unfold bcu1_blocks.
    repeat (constructor; [split; [lia|]; first [eexists; split; [reflexivity|]|
      eexists; split; [apply slice_ok; lia|]]; unfold size in *; rewrite ?length_take, ?length_drop, ?length_replicate;
      simpl length; lia|]). constructor. }
  destruct (decide (mem w1 0x10d = 0)) as [E|E].
  - apply (load_blocks_fault _ _ _ 0x10d 0xff); [done|by rewrite E|done|]. unfold bcu1_blocks. cbn. tauto.
  - apply (load_blocks_fault _ _ _ 0x10d 0); [done|done|done|]. unfold bcu1_blocks. cbn. tauto.
Qed.

(** ** Reading memory *)

(** The answer to a memory read ([EIB_MC_READ]) of a management connection: the type, the memory of
    the device from the requested address on, and, when fewer than four bytes were asked for,
    zeros that make it four. *)
Theorem mc_read_answer w (addr len i : Z) (rest : CArray) :
  idle w -> is_u16 addr -> is_u16 len -> addr + len <= 65536 ->
  exists w', mc_read arrivals (reject EIB_MC_READ ++ [hi8 addr; lo8 addr; hi8 len; lo8 len] ++ rest) i w =
    Ret (([reject EIB_MC_READ ++ bytes_at (mem w) addr (Z.to_nat len) ++ replicate (4 - Z.to_nat len) 0], i), w') /\
    idle w' /\ mem w' = mem w.
Proof using All.
  intros Hi Ha Hl Hal. unfold mc_read. rewrite decide_False by (unfold size; simpl; lia).
  rewrite (bind_lift _ addr) by (by apply (buf_word_ok (reject EIB_MC_READ))).
  rewrite (bind_lift _ len) by (by apply (buf_word_ok (reject EIB_MC_READ ++ [hi8 addr; lo8 addr]))).
  destruct (Read_Block_outcome arrivals Harr w addr (Z.to_nat len)) as (w' & E & Hi' & Hm');
    [done|done|apply Ha|unfold is_u16 in *; lia|].
  rewrite (bind_m7 _ _ _ _ _ E). exists w'. split; [|done].
  rewrite (bind_lift _ _ _ _ (sized_message_ok 6 EIB_MC_READ _ ltac:(lia))). rewrite size_bytes_at. done.
Qed.
End device.

Lemma mc_read_answer_witness :
  exists w', mc_read 2 (reject EIB_MC_READ ++ [hi8 0x100; lo8 0x100; hi8 2; lo8 2] ++ []) 0 device12 =
    Ret (([reject EIB_MC_READ ++ bytes_at (dev_byte device12) 0x100 2 ++ replicate 2 0], 0), w') /\
    (pending w' = [] /\ dev_limit w' = 12%nat) /\ dev_byte w' = dev_byte device12.
Proof.
  apply (mc_read_answer (D := device_MemoryDevice 12) 2 ltac:(lia) ltac:(simpl; lia) device12 0x100 2 0 []); [done|done|done|lia].
Defined.

(** A device whose mask version is on its way, and a program of 25 bytes. *)
Definition device_masked : device := mkDevice (fun a => a) 12 [[0x03; 0x40; 0x00; 0x12]].
Definition program : BCUImage := mkBCUImage B_bcu1 (replicate 0x19 0) [] 0 0 [].

Lemma bcu1_download_faults_witness : load_device 2 true program device_masked = Fault OutOfRange.
Proof.
  apply (bcu1_download_faults (D := device_MemoryDevice 12) 2 ltac:(lia) ltac:(simpl; lia) device_masked device12 program);
    [done|decided|decided|vm_compute; reflexivity|done].
Defined.

(** ** Devices that do not answer *)

Class SilentDevice (W : Type) `{!Layer4 W} := { silent w : exists w', l4_Get w = (None, w') }.

Section silence.
Context {W : Type} `{D : SilentDevice W} (arrivals : nat).

Lemma Request_Response_silent r p w :
  APDU_ToPacket r = Ret p -> exists w', Request_Response arrivals r w = Ret (None, w').
Proof using D.
  intros Hp. unfold Request_Response. rewrite (bind_lift _ p) by done.
  rewrite (bind_m7 _ _ tt _ (l4_recv p w)) by done. destruct arrivals as [|n]; [by eexists|]. cbn [await].
  destruct (silent (l4_recv p w)) as [w' Hw']. exists w'.
  by rewrite (bind_m7 _ _ None _ w') by (unfold Get; by rewrite Hw').
Qed.

Lemma Memory_Read_silent a (n : nat) w :
  is_u16 a -> (n < 16)%nat -> exists w', A_Memory_Read_ arrivals a (Z.of_nat n) w = Ret (None, w').
Proof using D.
  intros Ha Hn. unfold A_Memory_Read_.
  rewrite (u8_small (Z.of_nat n)) by (unfold is_u8; lia). rewrite (u16_small a Ha).
  change 0x0f with (Z.ones 4). rewrite (land_ones_small 4 (Z.of_nat n)) by lia.
  destruct (APDU_ToPacket_returns (A_Memory_Read_PDU (Z.of_nat n) a)) as [p Hp]; [simpl; split; [lia|done]|].
  destruct (Request_Response_silent _ p w Hp) as [w' E]. exists w'. by rewrite (bind_m7 _ _ _ _ _ E).
Qed.

Lemma Read_Block_silent addr len w :
  is_u16 addr -> (0 < len)%nat -> exists w', X_Memory_Read_Block arrivals addr len w = Ret (None, w').
Proof using D.
  intros Ha Hl. unfold X_Memory_Read_Block. destruct len as [|len]; [lia|]. cbn [read_blocks].
  rewrite decide_False by lia. rewrite Z.add_0_r.
  set (n := S len) in *.
  assert (forall b, (b <= 12)%nat -> (if decide (b < n - 0)%nat then b else n - 0) < 16)%nat as Hb
    by (intros b Hb'; destruct (decide _); lia).
  destruct (Memory_Read_silent addr _ w Ha (Hb 12%nat ltac:(lia))) as [w1 E1]. rewrite (bind_m7 _ _ _ _ _ E1).
  rewrite decide_True by done.
  destruct (Memory_Read_silent addr _ w1 Ha (Hb 2%nat ltac:(lia))) as [w2 E2]. exists w2.
  by rewrite (bind_m7 _ _ _ _ _ E2).
Qed.

Lemma mc_read_silent addr len d i w :
  is_u16 addr -> is_u16 len -> 0 < len ->
  exists w', mc_read arrivals (reject EIB_MC_READ ++ [hi8 addr; lo8 addr; hi8 len; lo8 len] ++ d) i w =
             Ret (([invalid], i), w').
Proof using D.
  intros Ha Hl Hl0. unfold mc_read. rewrite decide_False by (unfold size; simpl; lia).
  rewrite (bind_lift _ addr) by (by apply (buf_word_ok (reject EIB_MC_READ))).
  rewrite (bind_lift _ len) by (by apply (buf_word_ok (reject EIB_MC_READ ++ [hi8 addr; lo8 addr]))).
  destruct (Read_Block_silent addr (Z.to_nat len) w Ha ltac:(lia)) as [w' E]. exists w'.
  by rewrite (bind_m7 _ _ _ _ _ E).
Qed.

Lemma mc_write_silent addr len d i w :
  is_u16 addr -> is_u16 len -> 0 < len -> (Z.to_nat len <= size d)%nat ->
  exists w', mc_write arrivals (reject EIB_MC_WRITE ++ [hi8 addr; lo8 addr; hi8 len; lo8 len] ++ d) i w =
             Ret (([reject EIB_PROCESSING_ERROR], -1), w').
Proof using D.
  intros Ha Hl Hl0 Hd. unfold mc_write. set (buf := reject EIB_MC_WRITE ++ _ ++ d).
  assert (size buf = 6 + size d)%nat as Es by done.
  rewrite decide_False by lia.
  rewrite (bind_lift _ addr) by (by apply (buf_word_ok (reject EIB_MC_WRITE))).
  rewrite (bind_lift _ len) by (by apply (buf_word_ok (reject EIB_MC_WRITE ++ [hi8 addr; lo8 addr]))).
  rewrite decide_False by lia. rewrite (bind_lift _ (take (Z.to_nat len) d)) by (rewrite slice_ok by lia; done).
  destruct (Read_Block_silent addr (size (take (Z.to_nat len) d)) w Ha) as [w' E];
    [unfold size in *; rewrite length_take; lia|].
  exists w'. rewrite (bind_m7 _ _ (-1) _ w'); [done|]. unfold X_Memory_Write_Block.
  by rewrite (bind_m7 _ _ _ _ _ E).
Qed.

(** A device that stops answering.  A memory read of a management connection is rejected and the
    connection goes on; a memory write is answered with a processing error and ends the
    connection, because the loop takes the result of the write for the end of the input:
    the messages behind it are not handled. *)
Theorem failed_write_ends_connection w (fuel : nat) (addr len : Z) (d : CArray) (msgs : list CArray) :
  is_u16 addr -> is_u16 len -> 0 < len -> (Z.to_nat len <= size d)%nat ->
  let req t := reject t ++ [hi8 addr; lo8 addr; hi8 len; lo8 len] ++ d in
  (exists w', mc_loop (mc_step arrivals fuel) (req EIB_MC_WRITE :: msgs) w = Ret ([reject EIB_PROCESSING_ERROR], w')) /\
  (exists w', mc_loop (mc_step arrivals fuel) (req EIB_MC_READ :: msgs) w =
              (o ← mc_loop (mc_step arrivals fuel) msgs; mret (invalid :: o)) w').
Proof using D.
  intros Ha Hl Hl0 Hd req. split.
  - destruct (mc_write_silent addr len d 0 w Ha Hl Hl0 Hd) as [w' E]. exists w'. cbn [mc_loop].
    assert (mc_step arrivals fuel (req EIB_MC_WRITE) 0 w = Ret ([reject EIB_PROCESSING_ERROR], -1, w')) as Es
      by (rewrite <-E; reflexivity).
    by rewrite (bind_m7 _ _ _ _ _ Es).
  - destruct (mc_read_silent addr len d 0 w Ha Hl Hl0) as [w' E]. exists w'. cbn [mc_loop].
    assert (mc_step arrivals fuel (req EIB_MC_READ) 0 w = Ret ([invalid], 0, w')) as Es
      by (rewrite <-E; reflexivity).
    by rewrite (bind_m7 _ _ _ _ _ Es).
Qed.
End silence.

(** A connection to nothing. *)
#[export] Instance nothing_Layer4 : Layer4 unit := { l4_recv _ w := w; l4_Get w := (None, w) }.
#[export] Instance nothing_SilentDevice : SilentDevice unit := { silent w := ex_intro _ w eq_refl }.

Lemma failed_write_ends_connection_witness :
  let req t := reject t ++ [hi8 0x100; lo8 0x100; hi8 2; lo8 2] ++ [7; 8] in
  (exists w', mc_loop (mc_step 2 10) (req EIB_MC_WRITE :: [[0; 4]]) tt = Ret ([reject EIB_PROCESSING_ERROR], w')) /\
  (exists w', mc_loop (mc_step 2 10) (req EIB_MC_READ :: [[0; 4]]) tt =
              (o ← mc_loop (mc_step 2 10) [[0; 4]]; mret (invalid :: o)) w').
Proof. apply (failed_write_ends_connection 2 tt 10 0x100 2 [7; 8] [[0; 4]]); done. Defined.
