(* ===== verification/Usb.v ===== *)
(** * USB interfaces

    Models src/src/libserver/eibusb.cpp and eibusb.h: [USBConverterInterface], which wraps
    EMI frames in reports of 64 bytes, and the discovery of the EMI version by [USBDriver], with
    the local transmissions of src/src/libserver/lowlevel.cpp they use; and, of
    src/src/libserver/usblowlevel.cpp, the transmission of reports with its repetitions and the
    reaction to connection reports.  The calls of libusb are events and outputs.

    The timers: [local_timeout] of a local transmission runs for 0.9 seconds, [timeout] of the
    discovery for one second from the same moment, so that [timeout] never expires
    while the transmission is on its way. *)

From S2P Require Import Prelude CArray Common Lpdu Link EmiDriver.

Local Open Scope Z_scope.

(** ** Versions *)

Inductive EMIVersion := ver_ERROR | ver_EMI (v : EMIVer) | ver_Raw | ver_Unknown | ver_Discovery | ver_TIMEOUT.

#[export] Instance EMIVersion_eq_dec : EqDecision EMIVersion.
Proof. solve_decision. Defined.

(** The numbers of the enumeration, which are compared and sent. *)
Definition ver_value (v : EMIVersion) : Z :=
  match v with
  | ver_ERROR => 0
  | ver_EMI vEMI1 => 1
  | ver_EMI vEMI2 => 2
  | ver_EMI vCEMI => 3
  | ver_Raw => 4
  | ver_Unknown => 5
  | ver_Discovery => 6
  | ver_TIMEOUT => 7
  end.

(** ** [USBConverterInterface] *)

(** The loop that copies [l1] bytes of [l] behind the header. *)
Fixpoint copy_bytes (l out : CArray) (j n : nat) : outcome CArray :=
  match n with
  | O => Ret out
  | S n => b ← at_ l j; out ← put out (j + 11) b; copy_bytes l out (S j) n
  end.

(** What is passed on to the device, if anything. *)
Definition conv_send_Data (version : EMIVersion) (l : CArray) : outcome (option CArray) :=
  if decide (version = ver_Raw) then Ret (Some l)
  else if bool_decide (ver_value version < 1) || bool_decide (3 < ver_value version) then Ret None
  else
    let l1 := if decide (64 < size l + 11)%nat then (64 - 11)%nat else size l in
    out ← copy_bytes l (replicate 64 0) 0 l1;
    out ← put out 0 1;
    out ← put out 1 0x13;
    out ← put out 2 (Z.of_nat l1 + 8);
    out ← put out 3 0;
    out ← put out 4 0x08;
    out ← put out 5 0x00;
    out ← put out 6 (Z.of_nat l1);
    out ← put out 7 0x01;
    out ← put out 8 (ver_value version);
    Ret (Some out).

(** What is passed up, if anything. *)
Definition conv_recv_Data (version : EMIVersion) (res : CArray) : outcome (option CArray) :=
  if decide (version = ver_Raw) then Ret (Some res)
  else if decide (size res <> 64%nat) then Ret None
  else
    r0 ← at_ res 0;
    if negb (r0 =? 0x01) then Ret None
    else
      r1 ← at_ res 1;
      if negb (Z.land r1 0x0f =? 3) then Ret None
      else
        r2 ← at_ res 2;
        if bool_decide (64 - 8 < r2) then Ret None
        else
          r3 ← at_ res 3;
          if negb (r3 =? 0) then Ret None
          else
            r4 ← at_ res 4;
            if negb (r4 =? 8) then Ret None
            else
              r5 ← at_ res 5;
              if negb (r5 =? 0) then Ret None
              else
                r6 ← at_ res 6;
                if bool_decide (64 < r6 + 11) then Ret None
                else
                  r7 ← at_ res 7;
                  if negb (r7 =? 1) then Ret None
                  else
                    r8 ← at_ res 8;
                    match version with
                    | ver_EMI v =>
                        if negb (r8 =? ver_value (ver_EMI v)) then Ret None
                        else d ← slice res 11 (Z.to_nat r6); Ret (Some d)
                    | _ => Ret None
                    end.

(** The initialisation that selects the version. *)
Definition init_report (version : EMIVersion) : CArray :=
  [0x01; 0x13; 0x0a; 0x00; 0x08; 0x00; 0x02; 0x0f; 0x03; 0x00; 0x00; 0x05; ver_value version] ++ replicate 51 0.

(** ** [USBDriver] *)

Record USBDriver := mkUSBDriver {
  version : EMIVersion;
  cnt : Z;
  wait_make : bool;
  (** [is_local] of the driver and of the converter below. *)
  is_local : bool;
  conv_local : bool;
  (** [timeout] runs. *)
  timeout_on : bool;
  (** [USBConverterInterface::version] and the EMI driver in between, once there is one. *)
  conv_version : EMIVersion;
  emi : option EMIVer
}.

Definition set_version s v := mkUSBDriver v (cnt s) (wait_make s) (is_local s) (conv_local s) (timeout_on s) (conv_version s) (emi s).
Definition set_cnt s v := mkUSBDriver (version s) v (wait_make s) (is_local s) (conv_local s) (timeout_on s) (conv_version s) (emi s).
Definition set_wait s v := mkUSBDriver (version s) (cnt s) v (is_local s) (conv_local s) (timeout_on s) (conv_version s) (emi s).
Definition set_local s v := mkUSBDriver (version s) (cnt s) (wait_make s) v (conv_local s) (timeout_on s) (conv_version s) (emi s).
Definition set_conv_local s v := mkUSBDriver (version s) (cnt s) (wait_make s) (is_local s) v (timeout_on s) (conv_version s) (emi s).
Definition set_timeout s v := mkUSBDriver (version s) (cnt s) (wait_make s) (is_local s) (conv_local s) v (conv_version s) (emi s).
Definition set_conv s v := mkUSBDriver (version s) (cnt s) (wait_make s) (is_local s) (conv_local s) (timeout_on s) v (emi s).
Definition set_emi s v := mkUSBDriver (version s) (cnt s) (wait_make s) (is_local s) (conv_local s) (timeout_on s) (conv_version s) v.

(** The driver as it is created, with the configured version. *)
Definition usb_new (v : EMIVersion) : USBDriver := mkUSBDriver v 0 false false false false ver_Raw None.

Inductive usb_output :=
| UO_report (c : CArray)     (* passed to the device *)
| UO_up                      (* LowLevelAdapter::started: the link is up *)
| UO_down                    (* LowLevelAdapter::stopped *)
| UO_error                   (* errored *)
| UO_emi_started             (* started of the EMI driver *)
| UO_emi_next                (* send_Next of the EMI driver *)
| UO_emi_data (c : CArray)   (* recv_Data of the EMI driver *)
| UO_data (c : CArray)       (* LowLevelAdapter::recv_Data, which reports unknown data *)
| UO_next.                   (* BusDriver::send_Next *)

#[export] Instance usb_output_eq_dec : EqDecision usb_output.
Proof. solve_decision. Defined.

Definition usb_result : Type := outcome (USBDriver * list usb_output).

Definition ask : CArray :=
  [0x01; 0x13; 0x09; 0x00; 0x08; 0x00; 0x01; 0x0f; 0x01; 0x00; 0x00; 0x01] ++ replicate 52 0.

(** [send_Local (ask, 1)]: by way of [send_Data] of the converter. *)
Definition xmit (s : USBDriver) : usb_result :=
  let s := set_timeout s true in
  _ ← assert_ (negb (is_local s));
  let s := set_local s true in
  o ← conv_send_Data (conv_version s) ask;
  Ret (s, match o with Some c => [UO_report c] | None => [] end).

(** [USBConverterInterface::send_Init]: past the converter. *)
Definition send_Init (s : USBDriver) : usb_result :=
  _ ← assert_ (negb (conv_local s));
  Ret (set_conv_local s true, [UO_report (init_report (conv_version s))]).

(** The new EMI driver is set up on the converter, which may fail. *)
Definition make_EMI (setup_ok : bool) (s : USBDriver) : outcome (USBDriver * list usb_output * bool) :=
  '(s, o) ← (if decide (version s <> ver_Unknown) then send_Init (set_conv s (version s)) else (Ret (s, []) : usb_result));
  Ret (match version s with
       | ver_EMI v => if setup_ok then (set_emi s (Some v), o, true) else (s, o, false)
       | ver_Raw => (s, o, true)
       | ver_Unknown => (s, o, true)
       | _ => (s, o, false)
       end).

Definition make_or_error (setup_ok : bool) (s : USBDriver) : usb_result :=
  '(s, o, ok) ← make_EMI setup_ok s;
  Ret (s, o ++ (match ok with true => [] | false => [UO_error] end)).

Definition usb_started (s : USBDriver) : usb_result :=
  if decide (version s = ver_Unknown) then xmit (set_version s ver_Discovery) else Ret (s, [UO_up]).

Definition usb_timeout_cb (s : USBDriver) : usb_result :=
  let s := set_cnt (set_timeout s false) (cnt s + 1) in
  if decide (cnt s < 5) then xmit s else Ret (set_version s ver_TIMEOUT, [UO_error]).

Definition usb_stopped (s : USBDriver) : usb_result :=
  Ret (if decide (version s = ver_Discovery) then set_timeout s false else s, [UO_down]).

Definition usb_do_send_Next (s : USBDriver) : usb_result :=
  Ret (s, if bool_decide (1 <= ver_value (version s)) && bool_decide (ver_value (version s) <= 3) then [UO_next] else []).

Definition sendLocal_done_cb (setup_ok success : bool) (s : USBDriver) : usb_result :=
  if negb success then Ret (set_timeout s false, [UO_error])
  else if wait_make s then make_or_error setup_ok (set_wait s false)
  else if bool_decide (0 < ver_value (version s)) && bool_decide (ver_value (version s) < 4)
  then Ret (s, [UO_emi_started])
  else (Ret (s, []) : usb_result).

(** The checks on the answer; the version bits otherwise. *)
Definition discovery_answer (c : CArray) : outcome (option Z) :=
  if decide (size c <> 64%nat) then Ret None
  else
    c0 ← at_ c 0; c1 ← at_ c 1; c2 ← at_ c 2; c3 ← at_ c 3; c4 ← at_ c 4; c5 ← at_ c 5; c6 ← at_ c 6;
    c7 ← at_ c 7; c8 ← at_ c 8; c11 ← at_ c 11; c13 ← at_ c 13;
    Ret (if (c0 =? 1) && (Z.land c1 0x0f =? 3) && (c2 =? 0x0b) && (c3 =? 0) && (c4 =? 8) && (c5 =? 0) &&
            (c6 =? 3) && (c7 =? 0x0f) && (c8 =? 2) && (c11 =? 1)
         then Some c13 else None).

Definition usb_recv_Data (setup_ok : bool) (c : CArray) (s : USBDriver) : usb_result :=
  if bool_decide (0 < ver_value (version s)) && bool_decide (ver_value (version s) <= 4) then Ret (s, [UO_data c])
  else if decide (version s <> ver_Discovery) then (Ret (s, []) : usb_result)
  else
    a ← discovery_answer c;
    match a with
    | None => Ret (s, [])
    | Some bits =>
        let found v : usb_result :=
          let s := set_timeout (set_version s (ver_EMI v)) false in
          if is_local s then Ret (set_wait s true, []) else make_or_error setup_ok s in
        if nz (Z.land bits 0x2) then found vEMI2
        else if nz (Z.land bits 0x1) then found vEMI1
        else if nz (Z.land bits 0x4) then found vCEMI
        else Ret (set_timeout (set_version s ver_ERROR) false, [UO_error])
    end.

(** A report came from the device: through the converter to the EMI driver, or to the driver
    itself while there is none. *)
Definition usb_report (setup_ok : bool) (c : CArray) (s : USBDriver) : usb_result :=
  d ← conv_recv_Data (conv_version s) c;
  match d with
  | None => (Ret (s, []) : usb_result)
  | Some d => match emi s with Some _ => Ret (s, [UO_emi_data d]) | None => usb_recv_Data setup_ok d s end
  end.

(** [LowLevelIface::send_Next] of the converter and of the driver: a report was passed to the
    device.  The end of the initialisation makes the converter report that it has started; this
    and the end of other reports go to the EMI driver above, or to the driver itself if there is
    none. *)
Definition usb_send_Next (setup_ok : bool) (s : USBDriver) : usb_result :=
  if conv_local s then
    let s := set_conv_local s false in
    match emi s with Some _ => Ret (s, [UO_emi_started]) | None => usb_started s end
  else
    match emi s with
    | Some _ => Ret (s, [UO_emi_next])
    | None => if is_local s then sendLocal_done_cb setup_ok true (set_local s false) else usb_do_send_Next s
    end.

(** [LowLevelIface::local_timeout_cb] of the driver. *)
Definition usb_local_timeout (s : USBDriver) : usb_result := sendLocal_done_cb true false (set_local s false).

(** ... and of the converter. *)
Definition conv_local_timeout (s : USBDriver) : usb_result := Ret (set_conv_local s false, [UO_error]).

(** [USBDriver::setup] after the converter is set up: a configured version is used at once. *)
Definition usb_setup (setup_ok : bool) (v : EMIVersion) : outcome (option (USBDriver * list usb_output)) :=
  if decide (v = ver_ERROR) then Ret None
  else
    '(s, o, ok) ← make_EMI setup_ok (usb_new v);
    Ret (match ok with true => Some (s, o) | false => None end).

(** ** [USBLowLevelDriver] *)

Inductive UState := sNone | sStarted | sClaimed | sRunning | sConnected.

#[export] Instance UState_eq_dec : EqDecision UState.
Proof. solve_decision. Defined.

Definition UState_value (s : UState) : Z :=
  match s with sNone => 0 | sStarted => 1 | sClaimed => 2 | sRunning => 3 | sConnected => 4 end.

(** [loop] and [recvh] are there or not; [out] is the report to send, [sendh] the transfer that is
    under way (what [sendbuf] held when it was submitted). *)
Record USBLowLevel := mkUSBLowLevel {
  ustate : UState; stopping : bool; loop : bool; recvh : bool;
  out : CArray; sendh : option CArray; send_retry : Z
}.

Definition set_ustate u v := mkUSBLowLevel v (stopping u) (loop u) (recvh u) (out u) (sendh u) (send_retry u).
Definition set_stopping u v := mkUSBLowLevel (ustate u) v (loop u) (recvh u) (out u) (sendh u) (send_retry u).
Definition set_loop u v := mkUSBLowLevel (ustate u) (stopping u) v (recvh u) (out u) (sendh u) (send_retry u).
Definition set_recvh u v := mkUSBLowLevel (ustate u) (stopping u) (loop u) v (out u) (sendh u) (send_retry u).
Definition set_out u v := mkUSBLowLevel (ustate u) (stopping u) (loop u) (recvh u) v (sendh u) (send_retry u).
Definition set_sendh u v := mkUSBLowLevel (ustate u) (stopping u) (loop u) (recvh u) (out u) v (send_retry u).
Definition set_retry u v := mkUSBLowLevel (ustate u) (stopping u) (loop u) (recvh u) (out u) (sendh u) v.

Definition low_new : USBLowLevel := mkUSBLowLevel sNone false false false [] None 0.

Inductive transfer_status := T_COMPLETED | T_TIMED_OUT | T_FAILED.

Inductive low_output :=
| LO_submit (c : CArray)     (* libusb_submit_transfer of a report *)
| LO_receive                 (* libusb_submit_transfer of the receiver *)
| LO_open | LO_close         (* libusb_open, libusb_close *)
| LO_release                 (* libusb_release_interface *)
| LO_send_Next               (* send_Next *)
| LO_errored
| LO_recv (c : CArray)       (* master->recv_Data *)
| LO_started                 (* started *)
| LO_stopped.                (* LowLevelDriver::stop *)

#[export] Instance low_output_eq_dec : EqDecision low_output.
Proof. solve_decision. Defined.

Definition low_result : Type := USBLowLevel * list low_output.

(** [memset] and [memcpy] into the buffer of 64 bytes. *)
Definition sendbuf (o : CArray) : CArray :=
  let n := if decide (64 < size o)%nat then 64%nat else size o in
  take n o ++ replicate (64 - n) 0.

(** What libusb says: whether it gives and takes a transfer.  A transfer that was not submitted
    stays in [sendh]. *)
Record libusb := mkLibusb {
  u_alloc : bool; u_submit : bool;
  u_context : bool; u_found : bool;                                   (* context and device *)
  u_open : bool; u_config : bool; u_claim : bool; u_altsetting : bool (* the steps of start *)
}.

Definition libusb_ok : libusb := mkLibusb true true true true true true true true.

Definition do_send (l : libusb) (u : USBLowLevel) : low_result :=
  if bool_decide (sendh u <> None) || bool_decide (UState_value (ustate u) < 2) || bool_decide (out u = [])
  then (u, [])
  else if negb (u_alloc l) then (u, [])
  else (set_sendh u (Some (sendbuf (out u))), if u_submit l then [LO_submit (sendbuf (out u))] else []).

Definition low_send_Data (l : libusb) (d : CArray) (u : USBLowLevel) : low_result :=
  match sendh u with
  | Some _ => (u, [LO_errored])
  | None => do_send l (set_out u d)
  end.

(** [do_send_Next] is what [send_Next] comes to, since the low-level driver has no local
    transmissions: the report is forgotten. *)
Definition low_do_send_Next (u : USBLowLevel) : low_result := (set_out u [], [LO_send_Next]).

Definition write_trigger_cb (l : libusb) (st : transfer_status) (u : USBLowLevel) : low_result :=
  match sendh u with
  | None => (u, [])
  | Some _ =>
      match st with
      | T_COMPLETED => low_do_send_Next (set_sendh (set_retry u 0) None)
      | T_TIMED_OUT =>
          let u := set_retry u (send_retry u + 1) in
          if decide (send_retry u < 3) then do_send l (set_sendh u None)
          else (set_sendh u None, [LO_errored])
      | T_FAILED => (set_sendh u None, [LO_errored])
      end
  end.

Definition StartUsbRecvTransfer (l : libusb) (u : USBLowLevel) : low_result :=
  (u, [if u_submit l then LO_receive else LO_errored]).

Definition connection_report : CArray := [0x01; 0x13; 0x0A; 0x00; 0x08; 0x00; 0x02; 0x0F; 0x04; 0x00; 0x00; 0x03].

Definition is_connection_state (recvbuf : CArray) : bool := bool_decide (take 12 recvbuf = connection_report).

(** [get_connection_state]; the buffer has 64 bytes. *)
Definition get_connection_state (recvbuf : CArray) : bool := nz (Z.land (default 0 (recvbuf !! 12%nat)) 0x1).

(** A completion that the event loop reports. *)
Inductive usb_event :=
| UE_sent (l : libusb) (st : transfer_status)
| UE_received (l : libusb) (st : transfer_status) (recvbuf : CArray).

(** [read_trigger_cb] while stopping: [HandleReceiveUsb] only passes the report on. *)
Definition read_stopping (st : transfer_status) (recvbuf : CArray) (u : USBLowLevel) : low_result :=
  if recvh u then (set_recvh u false, [match st with T_COMPLETED => LO_recv recvbuf | _ => LO_errored end])
  else (u, []).

(** The loop of [stop_] that runs the event loop until both transfers have ended; [None] if it
    is still waiting after the given events. *)
Fixpoint drain (evs : list usb_event) (u : USBLowLevel) : option low_result :=
  if bool_decide (sendh u = None) && negb (recvh u) then Some (u, [])
  else
    match evs with
    | [] => None
    | e :: evs =>
        let (u, o) := match e with
                      | UE_sent l st => write_trigger_cb l st u
                      | UE_received _ st buf => read_stopping st buf u
                      end in
        '(u, o') ← drain evs u; Some (u, o ++ o')
    end.

Definition low_stop_ (evs : list usb_event) (u : USBLowLevel) : option low_result :=
  let u := set_stopping u true in
  let u := if decide (2 < UState_value (ustate u)) then set_ustate u sClaimed else u in
  '(u, o) ← drain evs u;
  Some (set_ustate (set_loop u false) sNone,
        o ++ (if decide (1 < UState_value (ustate u)) then [LO_release] else []) ++
             (if decide (0 < UState_value (ustate u)) then [LO_close] else [])).

Definition low_stop (evs : list usb_event) (u : USBLowLevel) : option low_result :=
  '(u, o) ← low_stop_ evs u; Some (u, o ++ [LO_stopped]).

(** [setup]: the loop is made, the device looked up. *)
Definition low_setup (l : libusb) (evs : list usb_event) (u : USBLowLevel) : option (bool * low_result) :=
  let u := set_loop u true in
  if negb (u_context l) || negb (u_found l) then r ← low_stop_ evs u; Some (false, r) else Some (true, (u, [])).

(** [start], the steps up to the failing one. *)
Definition low_start (l : libusb) (evs : list usb_event) (u : USBLowLevel) : option low_result :=
  let u := set_stopping u false in
  let ex (u : USBLowLevel) (o : list low_output) := '(u, o') ← low_stop evs u; Some (u, o ++ o') in
  if decide (1 <= UState_value (ustate u)) then Some (u, [])
  else if negb (loop u) then ex u []
  else if negb (u_open l) then ex u []
  else
    let u := set_ustate u sStarted in
    if negb (u_config l) || negb (u_claim l) || negb (u_altsetting l) then ex u [LO_open]
    else
      let u := set_ustate u sClaimed in
      if negb (u_alloc l) then ex (set_recvh u false) [LO_open]
      else
        let (u, o) := StartUsbRecvTransfer l (set_recvh u true) in
        Some (set_ustate u sRunning, LO_open :: o ++ [LO_started]).

(** [HandleReceiveUsb]; [evs] are the completions during a [stop]. *)
Definition HandleReceiveUsb (evs : list usb_event) (recvbuf : CArray) (u : USBLowLevel) : option low_result :=
  if stopping u || negb (is_connection_state recvbuf) then Some (u, [LO_recv recvbuf])
  else if get_connection_state recvbuf then
    if decide (ustate u = sRunning) then Some (set_ustate u sConnected, [LO_recv recvbuf; LO_started])
    else Some (u, [LO_recv recvbuf])
  else
    if decide (ustate u = sConnected) then
      '(u, o) ← low_stop evs (set_ustate u sRunning); Some (u, LO_recv recvbuf :: o)
    else Some (u, [LO_recv recvbuf]).

Definition read_trigger_cb (l : libusb) (evs : list usb_event) (st : transfer_status) (recvbuf : CArray) (u : USBLowLevel)
  : option low_result :=
  if negb (recvh u) then Some (u, [])
  else
    match st with
    | T_COMPLETED =>
        '(u, o) ← HandleReceiveUsb evs recvbuf u;
        if bool_decide (0 < UState_value (ustate u)) && negb (stopping u)
        then let (u, o') := StartUsbRecvTransfer l u in Some (u, o ++ o')
        else Some (set_recvh u false, o)
    | _ => Some (set_recvh u false, [LO_errored])
    end.
