(* ===== verification/UsbSpec.v ===== *)
(** * USB interfaces: framing, discovery, transmission

    What the converter, the driver and the low-level driver of [Usb] do: frames of up to 48 bytes
    survive the way through a report and longer ones do not; reports of any content are
    handled; the discovery asks at most five times and, once it has failed, is not repeated;
    a report is submitted at most three times. *)

From S2P Require Import Prelude CArray Common Lpdu Link EmiDriver Usb.

Local Open Scope Z_scope.

(** ** Framing *)

Lemma put_at hd x tl v m : m = size hd -> put (hd ++ x :: tl) m v = Ret ((hd ++ [u8 v]) ++ tl).
Proof. intros ->. rewrite put_mid by done. by rewrite <-app_assoc. Qed.

(** The copy loop, when [j] bytes are copied. *)
Lemma copy_bytes_ok l n j hd z :
  size hd = 11%nat -> (j + n <= size l)%nat -> bytes l ->
  copy_bytes l (hd ++ take j l ++ replicate (n + z) 0) j n =
  Ret (hd ++ take (j + n) l ++ replicate z 0).
Proof.
  intros Hh. revert j. induction n as [|n IH]; intros j Hj Hb; [by rewrite Nat.add_0_r|].
  cbn [copy_bytes]. destruct (at_lt l j) as (b & -> & Lb); [lia|]. rewrite bind_Ret.
  change (replicate (S n + z) 0) with (0 :: replicate (n + z) 0).
  rewrite (app_assoc hd), put_at by (unfold size in *; rewrite length_app, length_take; lia).
  rewrite bind_Ret, u8_small by (by eapply bytes_lookup).
  replace ((hd ++ take j l) ++ [b]) with (hd ++ take (S j) l)
    by (rewrite <-app_assoc; f_equal; by erewrite take_S_r).
  rewrite <-app_assoc, IH by (done || lia). do 3 f_equal. f_equal. lia.
Qed.

Definition usb_header (l1 : nat) (v : EMIVersion) : CArray :=
  [1; 0x13; Z.of_nat l1 + 8; 0; 0x08; 0; Z.of_nat l1; 0x01; ver_value v; 0; 0].

Definition usb_max : nat := 53.

Lemma conv_send_report v l :
  bytes l ->
  conv_send_Data (ver_EMI v) l =
  Ret (Some (usb_header (min usb_max (size l)) (ver_EMI v) ++ take usb_max l ++ replicate (usb_max - size l) 0)).
Proof.
  intros Hb. unfold conv_send_Data. rewrite decide_False by done.
  replace (bool_decide (ver_value (ver_EMI v) < 1) || bool_decide (3 < ver_value (ver_EMI v))) with false
    by (by destruct v).
  replace (if decide (64 < size l + 11)%nat then (64 - 11)%nat else size l) with (min usb_max (size l))
    by (unfold usb_max; case_decide; lia).
  set (n := min usb_max (size l)). assert (n <= 53 /\ n <= size l)%nat as [Hn Hn'] by (unfold n, usb_max; lia).
  pose proof (copy_bytes_ok l n 0 (replicate 11 0) (53 - n) eq_refl ltac:(lia) Hb) as E.
  rewrite take_0, app_nil_l, <-replicate_add in E. replace (11 + (n + (53 - n)))%nat with 64%nat in E by lia.
  rewrite E, bind_Ret, Nat.add_0_l.
  assert (take n l = take usb_max l) as Et.
  { unfold n. destruct (decide (size l <= usb_max)%nat).
    - rewrite Nat.min_r by lia. rewrite !take_ge by (unfold size in *; lia). done.
    - by rewrite Nat.min_l by lia. }
  assert (53 - n = usb_max - size l)%nat as -> by (unfold n, usb_max; lia). rewrite Et.
  clearbody n. generalize (take usb_max l ++ replicate (usb_max - size l) 0). intros tl. cbn -[u8 Z.add ver_value].
  rewrite !u8_small by (unfold is_u8; destruct v; simpl; lia). done.
Qed.

(** The receiver bounds the length of the whole by 56, not 61, so that a body has up to 48 bytes. *)
Lemma conv_recv_report v n d tl :
  (n <= 53)%nat -> size d = n -> size tl = (53 - n)%nat ->
  conv_recv_Data (ver_EMI v) (usb_header n (ver_EMI v) ++ d ++ tl) =
  Ret (if decide (n <= 48)%nat then Some d else None).
Proof.
  intros Hn Hd Ht. unfold conv_recv_Data. rewrite decide_False by done.
  assert (size (usb_header n (ver_EMI v) ++ d ++ tl) = 64%nat) as Es
    by (unfold size in *; rewrite !length_app, Hd, Ht; change (length (usb_header n (ver_EMI v))) with 11%nat; lia).
  rewrite decide_False by (intros H; by apply H).
  unfold usb_header. cbn -[Z.add slice size decide]. rewrite (bool_decide_false (64 < _)) by lia.
  destruct (decide (n <= 48)%nat); [|by rewrite bool_decide_true by lia].
  rewrite bool_decide_false, Nat2Z.id by lia.
  pose proof (slice_mid (usb_header n (ver_EMI v)) d tl 11 n eq_refl (eq_sym Hd)) as E.
  unfold usb_header in E. cbn [app ver_value] in E. rewrite E. by destruct v.
Qed.

(** An EMI frame sent as a USB report is always sent as 64 bytes and, if it has at most 48
    bytes, read back as it is.  A longer frame is not: up to 53 bytes are put into the
    report, the rest is left out without any sign of it, and the converter's own check of the
    length on reception drops the report. *)
Theorem usb_frames (v : EMIVer) (l : CArray) :
  bytes l ->
  exists out, conv_send_Data (ver_EMI v) l = Ret (Some out) /\ size out = 64%nat /\
              drop 11 out = take 53 l ++ replicate (53 - size l) 0 /\
              conv_recv_Data (ver_EMI v) out = Ret (if decide (size l <= 48)%nat then Some l else None).
Proof.
  intros Hb. rewrite conv_send_report by done. eexists. split; [done|]. split_and!.
  - unfold size, usb_max. rewrite !length_app, length_take, length_replicate. simpl length. lia.
  - done.
  - rewrite conv_recv_report by (unfold size, usb_max; rewrite ?length_take, ?length_replicate; lia).
    destruct (decide (size l <= 48)%nat).
    + rewrite decide_True by (unfold usb_max; lia). by rewrite take_ge by (unfold size, usb_max in *; lia).
    + by rewrite decide_False by (unfold usb_max; lia).
Qed.

Definition short_frame : CArray := [0x29; 0; 0xbc].

Lemma usb_frames_witness :
  exists out, conv_send_Data (ver_EMI vCEMI) short_frame = Ret (Some out) /\ size out = 64%nat /\
              drop 11 out = take 53 short_frame ++ replicate (53 - size short_frame) 0 /\
              conv_recv_Data (ver_EMI vCEMI) out =
              Ret (if decide (size short_frame <= 48)%nat then Some short_frame else None).
Proof. apply usb_frames. decided. Defined.

(** Reading the first bytes of a report that is long enough. *)
Ltac read_report :=
  match goal with
  | |- context [mbind ?k (at_ ?c ?i)] => let b := fresh "b" in let L := fresh "L" in
      destruct (at_lt c i) as (b & -> & L); [lia|]; rewrite ?bind_Ret
  end.

Lemma conv_recv_safe version res :
  bytes res -> exists r, conv_recv_Data version res = Ret r /\
    forall d, r = Some d -> version <> ver_Raw -> (size d <= 53)%nat.
Proof.
  intros Hb. unfold conv_recv_Data. destruct (decide (version = ver_Raw)); [by (eexists; split; [reflexivity|])|].
  destruct (decide (size res <> 64%nat)) as [|Hs]; [by (eexists; split; [reflexivity|])|]. apply dec_stable in Hs.
  repeat (read_report; match goal with |- exists r, (if ?b then Ret None else _) = _ /\ _ => destruct b eqn:?; [by (eexists; split; [reflexivity|])|] end).
  read_report. destruct version; try (by (eexists; split; [reflexivity|])). destruct (negb (_ =? ver_value (ver_EMI _))); [by eexists|].
  match goal with H : bool_decide (64 < ?r + 11) = false, L : res !! 6%nat = Some ?r |- _ =>
    apply bool_decide_eq_false in H; pose proof (bytes_lookup _ _ _ Hb L) as Hr; unfold is_u8 in Hr end.
  rewrite slice_ok by lia. rewrite bind_Ret. eexists. split; [done|]. intros d [= <-] _. unfold size. rewrite length_take. lia.
Qed.

(** ** Discovery *)

Lemma discovery_answer_ret c : exists a, discovery_answer c = Ret a.
Proof.
  unfold discovery_answer. destruct (decide _) as [|Hs]; [by eexists|]. apply dec_stable in Hs.
  repeat read_report. by eexists.
Qed.

(** What happens to the driver. *)
Inductive drv_event :=
| DE_started | DE_stopped                     (* from below *)
| DE_report (setup_ok : bool) (c : CArray)    (* a report came *)
| DE_next (setup_ok : bool)                   (* a report was sent *)
| DE_timeout | DE_local_timeout | DE_conv_timeout.

(** A timer that does not run does not expire; [timeout] is later than the one of the
    transmission started with it. *)
Definition drv_step (e : drv_event) (s : USBDriver) : usb_result :=
  match e with
  | DE_started => usb_started s
  | DE_stopped => usb_stopped s
  | DE_report ok c => usb_report ok c s
  | DE_next ok => usb_send_Next ok s
  | DE_timeout => if timeout_on s && negb (is_local s) then usb_timeout_cb s else Ret (s, [])
  | DE_local_timeout => if is_local s then usb_local_timeout s else Ret (s, [])
  | DE_conv_timeout => if conv_local s then conv_local_timeout s else Ret (s, [])
  end.

Fixpoint drv_run (evs : list drv_event) (s : USBDriver) : usb_result :=
  match evs with
  | [] => Ret (s, [])
  | e :: evs => '(s, o) ← drv_step e s; '(s, o') ← drv_run evs s; Ret (s, o ++ o')
  end.

Definition event_bytes (e : drv_event) : Prop :=
  match e with DE_report _ c => bytes c | _ => True end.

(** How often the device was asked. *)
Definition asks (o : list usb_output) : nat := length (filter (fun x => x = UO_report ask) o).

Lemma asks_app o o' : asks (o ++ o') = (asks o + asks o')%nat.
Proof. unfold asks. by rewrite list.filter_app, length_app. Qed.

(** [n] asks have been sent. *)
Record discovery_inv (n : nat) (s : USBDriver) : Prop := {
  di_timeout : timeout_on s = true -> version s = ver_Discovery /\ cnt s < 5;
  di_wait : wait_make s = true -> exists v, version s = ver_EMI v;
  di_fresh : version s = ver_Unknown \/ version s = ver_Discovery \/ wait_make s = true ->
             conv_local s = false /\ conv_version s = ver_Raw /\ emi s = None;
  di_unknown : version s = ver_Unknown -> is_local s = false /\ cnt s = 0 /\ n = 0%nat;
  di_asks : 0 <= cnt s /\ Z.of_nat n <= cnt s + 1 /\ (n <= 5)%nat
}.

Ltac inv_fields :=
  constructor; cbn in *;
  try (intuition (congruence || lia || eauto || match goal with H : exists _, _ |- _ => destruct H; congruence end)).

Lemma xmit_ok s :
  is_local s = false -> conv_version s = ver_Raw ->
  xmit s = Ret (set_local (set_timeout s true) true, [UO_report ask]).
Proof. destruct s. cbn. intros -> ->. done. Qed.

(** Once the version is known the driver is set up above the converter, which is initialised. *)
Lemma make_or_error_ok ok v s :
  version s = ver_EMI v -> conv_local s = false ->
  make_or_error ok s =
  Ret (let s' := set_conv_local (set_conv s (ver_EMI v)) true in if ok then set_emi s' (Some v) else s',
       UO_report (init_report (ver_EMI v)) :: (if ok then [] else [UO_error])).
Proof. destruct s. cbn. intros -> ->. by destruct ok. Qed.

Definition keeps (n : nat) (r : usb_result) : Prop :=
  exists s o, r = Ret (s, o) /\ discovery_inv (n + asks o) s.

Lemma keeps_quiet n s o : asks o = 0%nat -> discovery_inv n s -> keeps n (Ret (s, o)).
Proof. intros Ho I. exists s, o. by rewrite Ho, Nat.add_0_r. Qed.

Lemma keeps_ask n s : discovery_inv (S n) s -> keeps n (Ret (s, [UO_report ask])).
Proof. intros I. eexists _, _. split; [done|]. change (asks _) with 1%nat. by rewrite Nat.add_1_r. Qed.

Lemma asks_init v o : asks (UO_report (init_report v) :: o) = asks o.
Proof. by destruct v as [|[]| | | |]. Qed.

Lemma usb_started_inv n s : discovery_inv n s -> keeps n (usb_started s).
Proof.
  intros []. unfold usb_started. case_decide as E; [|by apply keeps_quiet].
  destruct (di_unknown0 E) as (El & Ec & ->), (di_fresh0 ltac:(tauto)) as (? & Ev & ?).
  rewrite xmit_ok by done. apply keeps_ask. inv_fields.
Qed.

Lemma usb_timeout_inv n s :
  discovery_inv n s -> timeout_on s = true -> is_local s = false -> keeps n (usb_timeout_cb s).
Proof.
  intros [] Ht Hl. destruct (di_timeout0 Ht) as [E Hc], (di_fresh0 ltac:(tauto)) as (? & Ev & ?).
  unfold usb_timeout_cb. cbn [cnt set_cnt set_timeout]. case_decide.
  - rewrite xmit_ok by done. apply keeps_ask. inv_fields.
  - apply keeps_quiet; [done|]. inv_fields.
Qed.

Lemma make_or_error_inv ok n v s :
  discovery_inv n s -> version s = ver_EMI v -> conv_local s = false -> wait_make s = false ->
  keeps n (make_or_error ok s).
Proof.
  intros [] E Hc Hw. rewrite (make_or_error_ok ok v) by done. cbv zeta.
  apply keeps_quiet; [by rewrite asks_init; destruct ok|]. destruct ok; inv_fields.
Qed.

Lemma sendLocal_done_inv ok n b s :
  discovery_inv n s -> keeps n (sendLocal_done_cb ok b (set_local s false)).
Proof.
  intros I. pose proof I as []. unfold sendLocal_done_cb. destruct b; cbn [negb].
  2: { apply keeps_quiet; [done|]. inv_fields. }
  cbn [wait_make set_local]. destruct (wait_make s) eqn:Hw.
  - destruct (di_wait0 eq_refl) as [v E], (di_fresh0 ltac:(tauto)) as (? & Ev & ?).
    apply (make_or_error_inv ok n v); try done. inv_fields.
  - destruct (_ && _); (apply keeps_quiet; [done|]; inv_fields).
Qed.

Lemma usb_recv_inv ok n c s : discovery_inv n s -> keeps n (usb_recv_Data ok c s).
Proof.
  intros I. pose proof I as []. unfold usb_recv_Data. destruct (_ && _); [by apply keeps_quiet|].
  destruct (decide (version s <> ver_Discovery)) as [|E]; [by apply keeps_quiet|]. apply dec_stable in E.
  destruct (di_fresh0 ltac:(tauto)) as (Hc & Ev & He).
  assert (wait_make s = false) as Hw
    by (destruct (wait_make s); [destruct (di_wait0 eq_refl); congruence|done]).
  destruct (discovery_answer_ret c) as [[bits|] ->]; rewrite bind_Ret; [|by apply keeps_quiet]. cbv zeta.
  assert (forall v, keeps n
    (let s := set_timeout (set_version s (ver_EMI v)) false in
     if is_local s then Ret (set_wait s true, []) else make_or_error ok s)) as Hv.
  { intros v. cbv zeta. destruct (is_local _).
    - apply keeps_quiet; [done|]. inv_fields.
    - apply (make_or_error_inv ok n v); try done. inv_fields. }
  cbv zeta in Hv. repeat destruct (nz _); try apply Hv. apply keeps_quiet; [done|]. inv_fields.
Qed.

(** Every event is handled, and keeps the invariant. *)
Lemma drv_step_inv e n s : event_bytes e -> discovery_inv n s -> keeps n (drv_step e s).
Proof.
  intros Hb I. pose proof I as []. destruct e as [| |ok c|ok| | |]; cbn [drv_step].
  - by apply usb_started_inv.
  - apply keeps_quiet; [done|]. case_decide; [inv_fields|done].
  - unfold usb_report. destruct (conv_recv_safe (conv_version s) c Hb) as ([d|] & -> & _); rewrite bind_Ret.
    + destruct (emi s); [by apply keeps_quiet|by apply usb_recv_inv].
    + by apply keeps_quiet.
  - unfold usb_send_Next. destruct (conv_local s) eqn:Hc; cbv zeta; cbn [emi set_conv_local].
    + assert (discovery_inv n (set_conv_local s false)) by inv_fields.
      destruct (emi s); [by apply keeps_quiet|by apply usb_started_inv].
    + destruct (emi s); [by apply keeps_quiet|]. destruct (is_local s); [by apply sendLocal_done_inv|].
      apply keeps_quiet; [by destruct (_ && _)|done].
  - destruct (timeout_on s) eqn:?, (is_local s) eqn:?; cbn [andb negb]; try by apply keeps_quiet.
    by apply usb_timeout_inv.
  - destruct (is_local s); [by apply sendLocal_done_inv|by apply keeps_quiet].
  - destruct (conv_local s) eqn:?; [|by apply keeps_quiet]. apply keeps_quiet; [done|]. inv_fields.
Qed.

Lemma drv_run_inv evs n s : Forall event_bytes evs -> discovery_inv n s -> keeps n (drv_run evs s).
Proof.
  revert n s. induction evs as [|e evs IH]; intros n s Hb I; cbn [drv_run]; [by apply keeps_quiet|].
  apply Forall_cons_iff in Hb as [He Hb]. destruct (drv_step_inv e n s He I) as (s1 & o1 & -> & I1).
  rewrite bind_Ret. cbv beta iota. destruct (IH _ _ Hb I1) as (s2 & o2 & -> & I2). rewrite bind_Ret.
  eexists _, _. split; [done|]. by rewrite asks_app, Nat.add_assoc.
Qed.

Lemma usb_setup_inv ok v s o : usb_setup ok v = Ret (Some (s, o)) -> discovery_inv 0 s.
Proof.
  unfold usb_setup. case_decide; [done|]. intros E.
  destruct v as [|v| | | |], ok; try (by vm_compute in E); try destruct v; vm_compute in E; injection E as <- <-; inv_fields.
Qed.

(** C30: whatever the device sends and whichever timers expire in which order, the USB driver
    never fails an assertion or reads outside a report, and it asks the device for its EMI version
    at most five times. *)
Theorem discovery_bounded (ok : bool) (v : EMIVersion) (s : USBDriver) (o : list usb_output) (evs : list drv_event) :
  usb_setup ok v = Ret (Some (s, o)) -> Forall event_bytes evs ->
  exists s' o', drv_run evs s = Ret (s', o') /\ (asks o' <= 5)%nat.
Proof.
  intros E Hb. destruct (drv_run_inv evs 0 s Hb (usb_setup_inv _ _ _ _ E)) as (s' & o' & -> & []).
  eexists _, _. split; [done|]. lia.
Qed.

(** Seven timeouts, each after the question was passed on. *)
Lemma discovery_bounded_witness :
  exists s' o', drv_run (DE_started :: concat (replicate 7 [DE_next true; DE_timeout])) (usb_new ver_Unknown) = Ret (s', o') /\
    (asks o' <= 5)%nat.
Proof. apply (discovery_bounded true ver_Unknown _ []); [done|]. repeat constructor. Defined.

(** The version taken from the bits of the answer. *)
Definition offered (bits : Z) : option EMIVer :=
  if nz (Z.land bits 0x2) then Some vEMI2
  else if nz (Z.land bits 0x1) then Some vEMI1
  else if nz (Z.land bits 0x4) then Some vCEMI
  else None.

(** The discovery sets up the EMI driver for the version the device offers (EMI2 before EMI1
    before cEMI), initialises the device for it and starts the EMI driver when this is done,
    whether the answer comes before or after the end of the transmission of the question; an
    answer without a known version is an error. *)
Theorem discovery_finds (c : CArray) (bits : Z) (answer_first : bool) :
  discovery_answer c = Ret (Some bits) ->
  let evs := if answer_first then [DE_started; DE_report true c; DE_next true; DE_next true]
             else [DE_started; DE_next true; DE_report true c; DE_next true] in
  exists s o, drv_run evs (usb_new ver_Unknown) = Ret (s, o) /\
    match offered bits with
    | Some v => version s = ver_EMI v /\ conv_version s = ver_EMI v /\ emi s = Some v /\
                o = [UO_report ask; UO_report (init_report (ver_EMI v)); UO_emi_started]
    | None => emi s = None /\ o = [UO_report ask; UO_error]
    end.
Proof.
  intros E. unfold offered. destruct answer_first; lazy -[discovery_answer ask init_report nz Z.land];
    rewrite E; lazy -[ask init_report nz Z.land];
    destruct (nz (Z.land bits 2)), (nz (Z.land bits 1)), (nz (Z.land bits 4)); (eexists _, _; split; [reflexivity|done]).
Qed.

Definition device_answer : CArray :=
  [1; 0x13; 0x0b; 0; 8; 0; 3; 0x0f; 2; 0; 0; 1; 0; 4] ++ replicate 50 0.

Lemma discovery_finds_witness :
  exists s o, drv_run [DE_started; DE_report true device_answer; DE_next true; DE_next true] (usb_new ver_Unknown) = Ret (s, o) /\
    match offered 4 with
    | Some v => version s = ver_EMI v /\ conv_version s = ver_EMI v /\ emi s = Some v /\
                o = [UO_report ask; UO_report (init_report (ver_EMI v)); UO_emi_started]
    | None => emi s = None /\ o = [UO_report ask; UO_error]
    end.
Proof. apply (discovery_finds device_answer 4 true). reflexivity. Defined.

(** ** The low-level driver *)

(** [k] transfers end with a timeout. *)
Fixpoint timeouts (k : nat) (l : libusb) (u : USBLowLevel) : low_result :=
  match k with
  | O => (u, [])
  | S k => let (u, o) := write_trigger_cb l T_TIMED_OUT u in let (u, o') := timeouts k l u in (u, o ++ o')
  end.

Lemma timeouts_idle k l u : sendh u = None -> timeouts k l u = (u, []).
Proof.
  intros H. induction k as [|k IH]; [done|]. cbn [timeouts]. unfold write_trigger_cb. by rewrite H, IH.
Qed.

Lemma do_send_ok l u :
  u_alloc l = true -> u_submit l = true -> sendh u = None -> out u <> [] -> 2 <= UState_value (ustate u) ->
  do_send l u = (set_sendh u (Some (sendbuf (out u))), [LO_submit (sendbuf (out u))]).
Proof.
  intros Ha Hs Hn Ho Hu. unfold do_send.
  rewrite Hn, Ha, Hs, (bool_decide_false (None <> None)), (bool_decide_false (_ < 2)), bool_decide_false by (done || lia || auto).
  done.
Qed.

Lemma timeouts_S k l u :
  timeouts (S k) l u = let (u, o) := write_trigger_cb l T_TIMED_OUT u in let (u, o') := timeouts k l u in (u, o ++ o').
Proof. done. Qed.

Lemma timeouts_add j k l u :
  timeouts (j + k) l u = let (u, o) := timeouts j l u in let (u, o') := timeouts k l u in (u, o ++ o').
Proof.
  revert u. induction j as [|j IH]; intros u; cbn [Nat.add timeouts]; [by destruct (timeouts k l u)|].
  destruct (write_trigger_cb l T_TIMED_OUT u) as [u1 o1]. rewrite IH. destruct (timeouts j l u1) as [u2 o2].
  destruct (timeouts k l u2) as [u3 o3]. by rewrite app_assoc.
Qed.

(** The repetitions that are left, and the error. *)
Lemma timeouts_run m l u :
  u_alloc l = true -> u_submit l = true -> sendh u <> None -> out u <> [] -> 2 <= UState_value (ustate u) ->
  m = Z.to_nat (2 - send_retry u) ->
  exists u', timeouts (S m) l u = (u', replicate m (LO_submit (sendbuf (out u))) ++ [LO_errored]) /\
             sendh u' = None /\ 3 <= send_retry u'.
Proof.
  intros Ha Hs. revert u. induction m as [|m IH]; intros u Hn Ho Hu E; destruct (sendh u) eqn:Es; try done;
    rewrite timeouts_S; unfold write_trigger_cb at 1; rewrite Es; cbn [send_retry set_retry]; cbv zeta.
  - rewrite decide_False by (cbn; lia). eexists. split; [done|]. cbn. split; [done|lia].
  - rewrite decide_True by (cbn; lia). rewrite do_send_ok by done. cbn [out set_sendh set_retry].
    edestruct (IH (set_sendh (set_sendh (set_retry u (send_retry u + 1)) None) (Some (sendbuf (out u))))) as (u' & E' & ?);
      [done|done|done|cbn; lia|]. rewrite E'. eexists. split; [done|done].
Qed.

(** A report that times out again and again is submitted once more for each repetition left,
    which are two when the report before it was sent, and then given up with an error; since the counter
    is only reset by a success, there is no repetition left for the next report. *)
Theorem usb_repetitions (l : libusb) (u : USBLowLevel) (d : CArray) (k : nat) :
  u_alloc l = true -> u_submit l = true -> sendh u = None -> d <> [] -> 2 <= UState_value (ustate u) ->
  0 <= send_retry u -> (3 <= k)%nat ->
  exists u' u'',
    low_send_Data l d u = (u', [LO_submit (sendbuf d)]) /\
    timeouts k l u' = (u'', replicate (Z.to_nat (2 - send_retry u)) (LO_submit (sendbuf d)) ++ [LO_errored]) /\
    sendh u'' = None /\ 3 <= send_retry u''.
Proof.
  intros Ha Hs Hn Hd Hu Hr Hk. unfold low_send_Data. rewrite Hn, do_send_ok by done.
  set (u1 := set_sendh (set_out u d) (Some (sendbuf d))).
  destruct (timeouts_run (Z.to_nat (2 - send_retry u)) l u1) as (u2 & E & Hs2 & Hr2); try done.
  exists u1, u2. split; [done|]. split; [|done].
  replace k with (S (Z.to_nat (2 - send_retry u)) + (k - S (Z.to_nat (2 - send_retry u))))%nat by lia.
  rewrite timeouts_add, E, timeouts_idle by done. by rewrite app_nil_r.
Qed.

Definition low_running : USBLowLevel := mkUSBLowLevel sRunning false true true [] None 0.

Lemma usb_repetitions_witness :
  exists u' u'',
    low_send_Data libusb_ok [1; 2] low_running = (u', [LO_submit (sendbuf [1; 2])]) /\
    timeouts 3 libusb_ok u' = (u'', replicate 2 (LO_submit (sendbuf [1; 2])) ++ [LO_errored]) /\
    sendh u'' = None /\ 3 <= send_retry u''.
Proof. by apply (usb_repetitions libusb_ok low_running [1; 2] 3). Defined.

Lemma drain_ended evs u u' o : drain evs u = Some (u', o) -> sendh u' = None /\ recvh u' = false.
Proof.
  revert u o. induction evs as [|e evs IH]; intros u o; cbn [drain];
    destruct (bool_decide (sendh u = None)) eqn:Es, (recvh u) eqn:Er; cbn [andb negb]; try done.
  all: try (intros [= <- <-]; split; [by apply bool_decide_eq_true in Es|done]).
  all: destruct (match e with UE_sent _ _ => _ | UE_received _ _ _ => _ end) as [u1 o1];
       destruct (drain evs u1) as [[u2 o2]|] eqn:E; [|done]; intros [= <- <-]; eauto.
Qed.

(** Once the low-level USB driver has been stopped it cannot be started again: [stop_] deletes the
    loop that only [setup] makes, so that the device is not even opened. *)
Theorem usb_no_restart (evs : list usb_event) (u u' : USBLowLevel) (o : list low_output) :
  low_stop evs u = Some (u', o) ->
  forall l evs', exists u'', low_start l evs' u' = Some (u'', [LO_stopped]) /\ ustate u'' = sNone.
Proof.
  unfold low_stop, low_stop_. cbv zeta.
  destruct (drain evs _) as [[u1 o1]|] eqn:E; [|done]. apply drain_ended in E as [Es Er].
  intros [= <- _] l evs'. destruct u1 as [? ? ? ? ? sh ?]. cbn in Es, Er. subst. by destruct evs'; eexists.
Qed.

Lemma usb_no_restart_witness :
  exists u', low_stop [UE_received libusb_ok T_FAILED []] low_running = Some (u', [LO_errored; LO_release; LO_close; LO_stopped]) /\
    exists u'', low_start libusb_ok [] u' = Some (u'', [LO_stopped]) /\ ustate u'' = sNone.
Proof.
  eexists. split; [reflexivity|].
  apply (usb_no_restart [UE_received libusb_ok T_FAILED []] low_running _ [LO_errored; LO_release; LO_close; LO_stopped]). reflexivity.
Defined.

(** When the device reports that it lost the bus, the driver stops from within the handling of
    the received report, whose transfer has ended and is not started again: no completion of
    it can come, and however many reports end meanwhile, the stop waits for it for ever. *)
Theorem usb_disconnect_waits (evs : list usb_event) (recvbuf : CArray) (u : USBLowLevel) :
  Forall (fun e => match e with UE_sent _ _ => True | UE_received _ _ _ => False end) evs ->
  stopping u = false -> recvh u = true -> ustate u = sConnected ->
  is_connection_state recvbuf = true -> get_connection_state recvbuf = false ->
  HandleReceiveUsb evs recvbuf u = None.
Proof.
  intros Hf Hs Hr Hu Hc Hg. unfold HandleReceiveUsb. rewrite Hs, Hc, Hg. cbn [orb negb].
  rewrite decide_True by done. unfold low_stop, low_stop_. cbv zeta. cbn -[drain].
  assert (forall v, recvh v = true -> drain evs v = None) as H.
  { clear - Hf. induction Hf as [|[l st|] evs He _ IH]; intros v Hr; cbn [drain]; rewrite Hr, ?andb_false_r; [done| |done].
    assert (recvh (write_trigger_cb l st v).1 = true) as H.
    { unfold write_trigger_cb, do_send. destruct (sendh v), st; cbn; try done. case_decide; [|done]. by repeat case_match. }
    destruct (write_trigger_cb l st v) as [v1 o1]. cbn in H. by rewrite (IH v1). }
  by rewrite H.
Qed.

Lemma usb_disconnect_waits_witness :
  HandleReceiveUsb [UE_sent libusb_ok T_COMPLETED] (connection_report ++ replicate 52 0)
    (mkUSBLowLevel sConnected false true true [1] (Some [1]) 0) = None.
Proof. by apply usb_disconnect_waits; [repeat constructor|..]. Defined.

(** The initialisation of a configured version is passed on before the device is started,
    and lost. *)
Lemma early_report_lost l d u :
  sendh u = None -> ustate u = sNone -> low_send_Data l d u = (set_out u d, []).
Proof.
  intros Hn Hu. unfold low_send_Data, do_send. rewrite Hn. cbn [sendh set_out ustate].
  by rewrite Hn, Hu, (bool_decide_false (None <> None)) by auto.
Qed.
