(* ===== verification/RouterRun.v ===== *)
(** * The router: start and stop

    Models how [class Router] of src/src/libserver/router.cpp brings its links up and
    down: [start] and [start_], [stop] and [stop_], [started], [stopped] and [errored],
    and [state_trigger_cb], which looks at every link after one of them has
    changed its state and decides whether the daemon runs, fails or has ended; with the
    methods of [RouterLow] and [RouterHigh] these calls go through.

    As in [Router] there are no global filters.  A link takes part in a loop as long as
    it is in the table; a changed link that has been unregistered since is not looked at
    any more.  While a link is started or stopped its methods may change the table:
    [EIBnetServer::start] registers the link of its multicast connection,
    [EIBnetServer::stop] stops it and unregisters it (eibnetserver.cpp:226, 833).  These
    calls are a parameter of the model, [table_calls]; the loops of [start_] and [stop_]
    begin again when the table was changed under them. *)

From S2P Require Import Prelude CArray Common Lpdu Link Router.

Local Open Scope Z_scope.

Record RouterRun (D : Type) := mkRun {
  rt : Router D;
  is_started : bool;          (* of RouterHigh *)
  exitcode : Z;
  start_timeout : Z;
  start_timer : bool;         (* runs *)
  broken : bool               (* ev_break was called: the event loop ends *)
}.
Arguments mkRun {D}.
Arguments rt {D}.
Arguments is_started {D}.
Arguments exitcode {D}.
Arguments start_timeout {D}.
Arguments start_timer {D}.
Arguments broken {D}.

(** What the methods of a link do to the table of links. *)
Inductive table_call (D : Type) :=
| T_register (lk : LinkConnect D) (trans : bool)
| T_stop (p : Z)
| T_unregister (p : Z).
Arguments T_register {D}.
Arguments T_stop {D}.
Arguments T_unregister {D}.

(** The calls a link makes while its [start] or its [stop] runs, by the state it is
    told to go to, in their order. *)
Class TableCalls (D : Type) := { table_calls : LinkConnect D -> LConnState -> list (table_call D) }.

Section RouterRun.
Context {D : Type} `{Driver D} `{TC : TableCalls D}.

Local Abbreviation router := (Router D).
Local Abbreviation run := (RouterRun D).

Definition set_rt (s : run) (r : router) : run :=
  mkRun r (is_started s) (exitcode s) (start_timeout s) (start_timer s) (broken s).
Definition set_is_started (s : run) (b : bool) : run :=
  mkRun (rt s) b (exitcode s) (start_timeout s) (start_timer s) (broken s).
Definition set_exitcode (s : run) (e : Z) : run :=
  mkRun (rt s) (is_started s) e (start_timeout s) (start_timer s) (broken s).
Definition set_start_timer (s : run) (b : bool) : run :=
  mkRun (rt s) (is_started s) (exitcode s) (start_timeout s) b (broken s).
Definition ev_break (s : run) : run :=
  mkRun (rt s) (is_started s) (exitcode s) (start_timeout s) (start_timer s) true.

Definition set_some (r : router) (b : bool) : router :=
  let x := running r in set_running r (mkRunning b (want_up x) (all_running x) (running_signal x)).
Definition set_want (r : router) (b : bool) : router :=
  let x := running r in set_running r (mkRunning (some_running x) b (all_running x) (running_signal x)).
Definition set_all (r : router) (b : bool) : router :=
  let x := running r in set_running r (mkRunning (some_running x) (want_up x) b (running_signal x)).
Definition set_signal (r : router) (b : bool) : router :=
  let x := running r in set_running r (mkRunning (some_running x) (want_up x) (all_running x) b).
Definition set_r_seq (r : router) (n : Z) : router :=
  mkRouter (r_addr r) (force_broadcast r) (links r) (linkChanges r) (buf r) (mbuf r) (r_ignore r)
    (pool r) (flow r) (running r) (busmonitor r) (vbusmonitor r) n (out r).

(** ** Telling a link *)

(** [link->stop()], called from outside of [setState]. *)
Definition router_stop_link (depth : nat) (r : router) (lk : LinkConnect D) : outcome router :=
  lk' ← link_stop (setState depth) (clear_signals lk);
  Ret (handle_signals (update_link r (clear_signals lk')) (pos lk) (signals lk')).

(** The calls of a link in their order.  The flag is [links_changed]. *)
Fixpoint do_calls (depth : nat) (in_link_loop : Z) (cs : list (table_call D)) (changed : bool) (r : router)
  : outcome (router * bool) :=
  match cs with
  | [] => Ret (r, changed)
  | T_register lk trans :: cs =>
      '(ok, r) ← registerLink depth r lk trans;
      do_calls depth in_link_loop cs (changed || ok) r
  | T_stop p :: cs =>
      match find_link r p with
      | None => do_calls depth in_link_loop cs changed r
      | Some lk => r ← router_stop_link depth r lk; do_calls depth in_link_loop cs changed r
      end
  | T_unregister p :: cs =>
      let '(ok, r) := unregisterLink in_link_loop r p in
      do_calls depth in_link_loop cs (changed || ok) r
  end.

(** The state changes in which [setState] calls [start] or [stop]. *)
Definition invokes (old new : LConnState) : bool :=
  match old, new with
  | (L_down | L_wait_retry), L_going_up => true
  | (L_up | L_going_up | L_up_error), L_going_down => true
  | _, _ => false
  end.

(** [ii->setState(s)] for a link of the table, with the calls its [start] or [stop]
    makes before it reports back. *)
Definition tell_link (depth : nat) (in_link_loop : Z) (r : router) (ii : LinkConnect D) (s : LConnState)
  : outcome (router * bool) :=
  '(r, changed) ← (if invokes (state ii) s then do_calls depth in_link_loop (table_calls ii s) false r
                   else Ret (r, false));
  r ← router_setState depth r ii s;
  Ret (r, changed).

(** [ii->stop()] for a link of the table. *)
Definition stop_link (depth : nat) (r : router) (ii : LinkConnect D) : outcome router :=
  '(r, _) ← do_calls depth 0 (table_calls ii L_going_down) false r;
  router_stop_link depth r ii.

(** ** Telling every link *)

(** One round of the loops of [start_] and [stop_]: the links that have not been told yet are
    told to go to the state [s], until the table is changed.  [skip] are the links left
    out.  The result says whether there was one. *)
Fixpoint tell_links (depth : nat) (s : LConnState) (skip : LinkConnect D -> bool) (todo : list Z) (seen : bool) (r : router)
  : outcome (router * bool) :=
  match todo with
  | [] => Ret (r, seen)
  | p :: todo =>
      match find_link r p with
      | None => tell_links depth s skip todo seen r
      | Some ii =>
          if skip ii || bool_decide (r_seq r <= seq ii) then tell_links depth s skip todo seen r
          else
            '(r, links_changed) ← tell_link depth 1 r (set_seq ii (r_seq r)) s;
            if (links_changed : bool) then Ret (r, true)
            else tell_links depth s skip todo true r
      end
  end.

(** The rounds, at most [fuel] of them. *)
Fixpoint tell_rounds (fuel depth : nat) (s : LConnState) (skip : LinkConnect D -> bool) (r : router)
  : outcome router :=
  match fuel with
  | O => Fault Endless
  | S fuel =>
      '(r, seen) ← tell_links depth s skip (map pos (links r)) false r;
      if (seen : bool) then tell_rounds fuel depth s skip r else Ret r
  end.

(** A round that does not find every link told tells one of them: there are at most as
    many such rounds as links. *)
Definition tell_all (depth : nat) (s : LConnState) (skip : LinkConnect D -> bool) (r : router) : outcome router :=
  tell_rounds (S (length (links r))) depth s skip (set_r_seq r (r_seq r + 1)).

Definition start_ (depth : nat) (r : router) : outcome router :=
  tell_all depth L_going_up (fun ii => ignore ii || transient ii) (set_some r true).

(** [stop_] with the call of [stop] that comes back to it. *)
Definition stop_ (depth : nat) (r : router) : outcome router :=
  let r := set_all r false in
  let r := if want_up (running r) then set_want r false else r in
  tell_all depth L_going_down (fun _ => false) r.

(** [RouterLow::stop] and [RouterHigh::stop] lead to [stop_]. *)
Definition stop (depth : nat) (s : run) : outcome run :=
  if negb (want_up (running (rt s))) then Ret s
  else r ← stop_ depth (set_want (rt s) false); Ret (set_rt s r).

Definition start (depth : nat) (s : run) : outcome run :=
  if want_up (running (rt s)) then Ret s
  else
    r ← start_ depth (set_want (rt s) true);
    let s := set_rt s r in
    Ret (if decide (0 < start_timeout s) then set_start_timer s true else s).

(** ** The last step *)

Definition started (r : router) : router :=
  let r := set_flow r (set_mtrigger (set_trigger (set_high (set_low (flow r) true) true) true) true) in
  if all_running (running r) && negb (running_signal (running r)) then set_signal r true else r.

Definition stopped (depth : nat) (s : run) : outcome run :=
  if want_up (running (rt s)) then stop depth s else Ret (ev_break s).

(** [RouterHigh]: [started] is passed on once. *)
Definition high_started (s : run) : run :=
  if is_started s then s else set_rt (set_is_started s true) (started (rt s)).

Definition high_stopped (depth : nat) (s : run) : outcome run := stopped depth (set_is_started s false).

(** [RouterHigh::errored]; [Router::errored] does what [Router::stopped] does. *)
Definition high_errored (depth : nat) (s : run) : outcome run := stopped depth (set_is_started s false).

Definition start_timer_cb (depth : nat) (s : run) : outcome run := stop depth (set_start_timer s false).

(** ** [state_trigger_cb] *)

(** The queue of changed links, at most [fuel] entries of it. *)
Fixpoint work_changes (fuel depth : nat) (r : router) : option (outcome router) :=
  match linkChanges r with
  | [] => Some (Ret r)
  | p :: rest =>
      match fuel with
      | O => None
      | S fuel =>
          let r := set_changes r rest in
          match find_link r p with
          | None => work_changes fuel depth r
          | Some l =>
              if negb (want_up (running r)) && bool_decide (state l <> L_down) && bool_decide (state_index (state l) < state_index L_wait_retry)
              then
                match tell_link depth 0 r l L_going_down with
                | Fault f => Some (Fault f)
                | Ret (r, _) => work_changes fuel depth r
                end
              else work_changes fuel depth r
          end
      end
  end.

Record counts := mkCounts { n_up : Z; n_going : Z; n_down : Z }.

Definition up1 (n : counts) := mkCounts (n_up n + 1) (n_going n) (n_down n).
Definition going1 (n : counts) := mkCounts (n_up n) (n_going n + 1) (n_down n).
Definition down1 (n : counts) := mkCounts (n_up n) (n_going n) (n_down n + 1).

(** The body of the loop over the links, for a link that is not transient, after a failed one
    was stopped. *)
Definition count_link (depth : nat) (ii : LinkConnect D) (r : router) (n : counts) : outcome (router * counts) :=
  let going :=
    if negb (want_up (running r)) then '(r, _) ← tell_link depth 0 r ii L_going_down; Ret (r, going1 n)
    else Ret (r, going1 n) in
  match state ii with
  | L_down | L_error => Ret (r, if negb (may_fail ii) && negb (ignore ii) then down1 n else n)
  | L_up => Ret (r, up1 n)
  | L_up_error | L_going_down_error | L_wait_retry => if may_fail ii then Ret (r, n) else going
  | L_going_down | L_going_up => going
  end.

Definition check_link (depth : nat) (p : Z) (r : router) (n : counts) : outcome (router * counts) :=
  match find_link r p with
  | None => Ret (r, n)
  | Some ii =>
      if transient ii then
        if negb (want_up (running r)) && bool_decide (state ii <> L_down) && bool_decide (state ii <> L_error)
        then '(r, _) ← tell_link depth 0 r ii L_going_down; Ret (r, going1 n)
        else Ret (r, n)
      else
        r ← (if bool_decide (state ii = L_up_error) || bool_decide (state ii = L_going_down_error)
             then stop_link depth r ii else Ret r);
        match find_link r p with
        | None => Ret (r, n)
        | Some ii => count_link depth ii r n
        end
  end.

Fixpoint check_links (depth : nat) (todo : list Z) (r : router) (n : counts) : outcome (router * counts) :=
  match todo with
  | [] => Ret (r, n)
  | p :: todo => '(r, n) ← check_link depth p r n; check_links depth todo r n
  end.

(** What the numbers say: [some_running] and [all_running]. *)
Definition judge (n : counts) : bool * bool :=
  if bool_decide (n_going n = 0) && bool_decide (n_down n = 0) && bool_decide (0 < n_up n) then (true, true)
  else if bool_decide (n_going n = 0) && bool_decide (n_up n = 0) then (false, false)
  else (true, false).

(** The part after the queue of changes. *)
Definition check_state (depth : nat) (s : run) : outcome run :=
  let oarn := all_running (running (rt s)) in
  let osrn := some_running (running (rt s)) in
  '(r, n) ← check_links depth (map pos (links (rt s))) (rt s) (mkCounts 0 0 0);
  let (some, all) := judge n in
  let s := set_rt s (set_all (set_some r some) all) in
  s ← (if want_up (running (rt s)) && bool_decide (0 < n_down n) then stop depth (set_exitcode s 1) else Ret s);
  if osrn && negb (some_running (running (rt s))) then high_stopped depth s
  else if negb oarn && all_running (running (rt s)) then Ret (set_start_timer (high_started s) false)
  else Ret s.

Definition state_trigger_cb (fuel depth : nat) (s : run) : option (outcome run) :=
  match work_changes fuel depth (set_flow (rt s) (set_state_trigger (flow (rt s)) false)) with
  | None => None
  | Some (Fault f) => Some (Fault f)
  | Some (Ret r) => Some (check_state depth (set_rt s r))
  end.

End RouterRun.
