(* ===== verification/RouterRunSpec.v ===== *)
(** * The router: start and stop, theorems

    About [RouterRun], for every kind of driver, also those that register, stop and unregister
    links while they are started or stopped ([TableLaws]): the loops end; after [stop] no link is up
    or on its way up; a needed link that is down ends the daemon with an exit code.  For
    drivers that answer at once: the daemon comes up, and stops when it is told to. *)

From stdpp Require Import gmap.
From S2P Require Import Prelude CArray Common Lpdu Link LinkSpec Router RouterRun.

Local Open Scope Z_scope.

Section Links.
Context {D : Type} `{Driver D}.

Local Abbreviation link := (LinkConnect D).

(** ** What a state change leaves alone *)

(** A property of links that no assignment made during a state change affects is kept. *)
Section Preserved.
Variable P : link -> Prop.
Hypothesis P_state : forall l s, P l -> P (set_state l s).
Hypothesis P_timer : forall l b, P l -> P (set_timer l b).
Hypothesis P_retries : forall l n, P l -> P (set_retries l n).
Hypothesis P_send_more : forall l b, P l -> P (set_send_more l b).
Hypothesis P_drv : forall l d, P l -> P (set_drv l d).
Hypothesis P_emit : forall l s, P l -> P (emit l s).

Lemma send_Next_preserves l : P l -> P (link_send_Next l).
Proof using All. intros Hl. unfold link_send_Next. case_decide; auto. Qed.

Lemma retry_preserves l : P l -> P (retry l).
Proof using All. intros Hl. unfold retry. destruct (_ || _); auto. Qed.

Lemma run_callbacks_preserves set cs l l' :
  (forall l s l', P l -> set l s = Ret l' -> P l') -> P l -> run_callbacks set cs l = Ret l' -> P l'.
Proof using All.
  intros Hs. revert l. induction cs as [|c cs IH]; intros l Hl; cbn [run_callbacks]; [by intros [= <-]|].
  intros (l1 & E & E')%bind_Ret_inv. apply (IH l1); [|done].
  destruct c; try (by eapply Hs). injection E as <-. by apply send_Next_preserves.
Qed.

Lemma link_start_preserves set l l' :
  (forall l s l', P l -> set l s = Ret l' -> P l') -> P l -> link_start set l = Ret l' -> P l'.
Proof using All.
  intros Hs Hl. unfold link_start. destruct (kind l); [| |by eapply Hs].
  all: cbn [drv set_send_more]; destruct (drv_start (drv l)) as [d cs]; (eapply run_callbacks_preserves; [done|]; auto).
Qed.

Lemma link_stop_preserves set l l' :
  (forall l s l', P l -> set l s = Ret l' -> P l') -> P l -> link_stop set l = Ret l' -> P l'.
Proof using All.
  intros Hs Hl. unfold link_stop. destruct (kind l); [| |by eapply Hs].
  all: destruct (drv_stop (drv l)) as [d cs]; (eapply run_callbacks_preserves; [done|]; auto).
Qed.

Lemma setState_preserves depth : forall l s l', P l -> setState depth l s = Ret l' -> P l'.
Proof using All.
  induction depth as [|depth IH]; [done|]. intros l s l' Hl. cbn [setState].
  case_decide; [by intros [= <-]|].
  match goal with |- context [if ?b then set_timer _ false else _] => generalize b end. intros b.
  assert (forall m, (forall l1, m = Ret l1 -> P l1) -> (l ← m; Ret (emit l S_linkStateChanged)) = Ret l' -> P l') as Hd.
  { intros m Hm (l1 & E & [= <-])%bind_Ret_inv. auto. }
  assert (P (if b then set_timer (set_state l s) false else set_state l s)) as H1 by (destruct b; auto).
  destruct (state l), s; try done; try (intros [= <-]; by apply retry_preserves);
    apply Hd; intros l1;
    try (intros [= <-]; auto; fail);
    try (apply link_start_preserves; auto; fail); try (apply link_stop_preserves; auto; fail).
Qed.
End Preserved.

(** Which link it is, and when it was last told something. *)
Definition ident (l : link) := (kind l, pos l, ignore l, transient l, may_fail l).

Lemma setState_ident depth l s l' : setState depth l s = Ret l' -> ident l' = ident l /\ seq l' = seq l.
Proof.
  apply (setState_preserves (fun x => ident x = ident l /\ seq x = seq l)); auto.
Qed.

Lemma link_stop_ident depth l l' :
  link_stop (setState depth) l = Ret l' -> ident l' = ident l /\ seq l' = seq l.
Proof.
  apply (link_stop_preserves (fun x => ident x = ident l /\ seq x = seq l)); auto.
  apply setState_preserves; auto.
Qed.

(** ** Going down *)

(** The states of a link that has been told to stop. *)
Definition is_down (s : LConnState) : bool :=
  match s with L_up | L_going_up | L_up_error => false | _ => true end.

Lemma retry_is_down (l : link) : is_down (state (retry l)) = true.
Proof. unfold retry. by destruct (_ || _). Qed.

(** Nothing a driver reports brings a stopped link up. *)
Lemma setState_stays_down depth l s l' :
  is_down (state l) = true -> s <> L_going_up -> setState depth l s = Ret l' -> is_down (state l') = true.
Proof.
  destruct depth as [|depth]; [done|]. intros Hl Hs. cbn [setState]. case_decide; [by intros [= <-]|].
  destruct (state l), s; try done; try (intros [= <-]; apply retry_is_down);
    (by intros [= <-]) || (by destruct (_ || _); intros [= <-]).
Qed.

Lemma run_callbacks_down depth cs l l' :
  is_down (state l) = true -> run_callbacks (setState depth) cs l = Ret l' -> is_down (state l') = true.
Proof.
  revert l. induction cs as [|c cs IH]; intros l Hl; cbn [run_callbacks]; [by intros [= <-]|].
  intros (l1 & E & E')%bind_Ret_inv. apply (IH l1); [|done].
  destruct c; try (eapply setState_stays_down in E; done). injection E as <-. unfold link_send_Next. by case_decide.
Qed.

Lemma link_stop_down depth l l' :
  is_down (state l) = true -> link_stop (setState depth) l = Ret l' -> is_down (state l') = true.
Proof.
  intros Hl. unfold link_stop. destruct (kind l); [| |by apply setState_stays_down].
  all: destruct (drv_stop (drv l)) as [d cs]; by apply run_callbacks_down.
Qed.

(** A link told to go down is down or on its way, whatever the driver does meanwhile. *)
Lemma setState_down depth l l' : setState depth l L_going_down = Ret l' -> is_down (state l') = true.
Proof.
  destruct (is_down (state l)) eqn:Hl; [by apply setState_stays_down|].
  destruct depth as [|depth]; [done|]. cbn [setState]. case_decide as E; [by rewrite E in Hl|].
  destruct (state l); try done; intros (l1 & E1 & [= <-])%bind_Ret_inv;
    (eapply link_stop_down in E1; [done|]); by destruct (_ || _).
Qed.

End Links.

Section Table.
Context {D : Type} `{Driver D} `{TC : TableCalls D}.

Local Abbreviation router := (Router D).
Local Abbreviation link := (LinkConnect D).

(** ** The table *)

(** What a link tells the router while it is worked on changes queues and triggers. *)
Lemma handle_signals_frame (r : router) p ss :
  links (handle_signals r p ss) = links r /\ r_seq (handle_signals r p ss) = r_seq r /\
  running (handle_signals r p ss) = running r.
Proof.
  revert r. induction ss as [|[] ss IH]; intros r; cbn [handle_signals]; [done|apply (IH (linkStateChanged r p))|].
  destruct (IH (router_send_Next r)) as (-> & -> & ->). unfold router_send_Next.
  by repeat case_match.
Qed.

Lemma find_link_spec (r : router) p ii : find_link r p = Some ii -> ii ∈ links r /\ pos ii = p.
Proof.
  intros E. apply List.find_some in E as [Hi Hp]. apply list_elem_of_In in Hi. by apply bool_decide_eq_true in Hp.
Qed.

Lemma find_link_update (r : router) lk p ii :
  find_link (update_link r lk) p = Some ii ->
  (p = pos lk /\ ii = lk) \/ (p <> pos lk /\ find_link r p = Some ii).
Proof.
  unfold find_link, update_link. cbn [links set_links].
  induction (links r) as [|x xs IH]; cbn [map List.find]; [done|].
  destruct (decide (pos x = pos lk)) as [E|E]; case_bool_decide as E2.
  - intros [= <-]. by left.
  - intros Hf. rewrite bool_decide_false by congruence. auto.
  - intros [= <-]. right. split; [congruence|done].
  - auto.
Qed.

(** A change of the state of a link of the table, or its being stopped. *)
Inductive link_changed (r r' : router) (lk lk' : link) : Prop :=
| LC (_ : ident lk' = ident lk) (_ : seq lk' = seq lk)
     (_ : links r' = links (update_link r (clear_signals lk'))) (_ : r_seq r' = r_seq r) (_ : running r' = running r).

Lemma router_setState_changed depth r lk s r' :
  router_setState depth r lk s = Ret r' ->
  exists lk', setState depth (clear_signals lk) s = Ret lk' /\ link_changed r r' lk lk'.
Proof.
  intros (lk' & E & [= <-])%bind_Ret_inv. exists lk'. split; [done|]. apply setState_ident in E as [Ei Es].
  destruct (handle_signals_frame (update_link r (clear_signals lk')) (pos lk) (signals lk')) as (? & ? & ?).
  by constructor.
Qed.

Lemma router_stop_link_changed depth r lk r' :
  router_stop_link depth r lk = Ret r' ->
  exists lk', link_stop (setState depth) (clear_signals lk) = Ret lk' /\ link_changed r r' lk lk'.
Proof.
  intros (lk' & E & [= <-])%bind_Ret_inv. exists lk'. split; [done|]. apply link_stop_ident in E as [Ei Es].
  destruct (handle_signals_frame (update_link r (clear_signals lk')) (pos lk) (signals lk')) as (? & ? & ?).
  by constructor.
Qed.

Lemma link_changed_find r r' lk lk' p ii :
  link_changed r r' lk lk' -> find_link r' p = Some ii ->
  (p = pos lk /\ ii = clear_signals lk') \/ (p <> pos lk /\ find_link r p = Some ii).
Proof.
  intros [Ei _ El _ _] Hf. injection Ei as _ Ep _ _ _. rewrite <-Ep. apply (find_link_update r (clear_signals lk')).
  unfold find_link in *. by rewrite El in Hf.
Qed.

Lemma find_link_in (r : router) p ii : find_link r p = Some ii -> p ∈ map pos (links r).
Proof. intros [Hi <-]%find_link_spec. apply list_elem_of_In, List.in_map. by apply list_elem_of_In. Qed.

Lemma find_link_some (r : router) p : p ∈ map pos (links r) -> exists ii, find_link r p = Some ii.
Proof.
  intros Hp. unfold find_link. destruct (List.find _ _) as [ii|] eqn:E; [by eauto|]. exfalso.
  apply list_elem_of_In, List.in_map_iff in Hp as (x & <- & Hx). apply (List.find_none _ _ E) in Hx.
  by apply bool_decide_eq_false in Hx.
Qed.

Lemma find_link_update_other (r : router) lk q : q <> pos lk -> find_link (update_link r lk) q = find_link r q.
Proof.
  intros Hq. unfold find_link, update_link. cbn [links set_links].
  induction (links r) as [|x xs IH]; cbn [map List.find]; [done|].
  destruct (decide (pos x = pos lk)) as [E|E]; [|by rewrite IH].
  rewrite !bool_decide_false by congruence. done.
Qed.

Lemma link_changed_other r r' lk lk' q :
  link_changed r r' lk lk' -> q <> pos lk -> find_link r' q = find_link r q.
Proof.
  intros [Ei _ El _ _] Hq. injection Ei as _ Ep _ _ _. unfold find_link. rewrite El.
  apply (find_link_update_other r (clear_signals lk')). cbn [pos clear_signals]. congruence.
Qed.

(** *** Calls that change the table *)

Definition call_pos (c : table_call D) : Z :=
  match c with T_register lk _ => pos lk | T_stop p | T_unregister p => p end.

Definition registers (c : table_call D) : bool := match c with T_register _ _ => true | _ => false end.

Lemma find_link_unregister loop (r : router) p q x :
  find_link (unregisterLink loop r p).2 q = Some x -> find_link r q = Some x.
Proof.
  unfold unregisterLink. destruct (find_link r p); [|done].
  set (r1 := set_links _ _). assert (find_link r1 q = Some x -> find_link r q = Some x) as Hr; [|by case_decide].
  unfold r1, find_link. cbn [links set_links]. induction (links r) as [|y ys IH]; [done|]. cbn [List.filter List.find].
  destruct (bool_decide (pos y = p)) eqn:Ep; cbn [negb List.find].
  - intros Hx. destruct (bool_decide (pos y = q)) eqn:Eq; [|auto]. exfalso.
    apply bool_decide_eq_true in Ep, Eq. subst. apply List.find_some in Hx as [Hin Hx].
    apply List.filter_In in Hin as [_ Hn]. rewrite Hx in Hn. done.
  - destruct (bool_decide (pos y = q)); [done|auto].
Qed.

Lemma unregister_frame loop (r : router) p :
  r_seq (unregisterLink loop r p).2 = r_seq r /\ running (unregisterLink loop r p).2 = running r.
Proof. unfold unregisterLink. destruct (find_link r p); [|done]. by case_decide. Qed.

Lemma unregister_other loop (r : router) p q : q <> p -> find_link (unregisterLink loop r p).2 q = find_link r q.
Proof.
  intros Hq. unfold unregisterLink. destruct (find_link r p); [|done].
  set (r1 := set_links _ _). assert (find_link r1 q = find_link r q) as Hr; [|by case_decide].
  unfold r1, find_link. cbn [links set_links]. induction (links r) as [|y ys IH]; [done|]. cbn [List.filter List.find].
  destruct (bool_decide (pos y = p)) eqn:Ep; cbn [negb List.find].
  - apply bool_decide_eq_true in Ep. rewrite (bool_decide_false (pos y = q)) by congruence. exact IH.
  - by rewrite IH.
Qed.

(** The link [registerLink] puts into the table, when the daemon is wanted. *)
Definition registered (r : router) (lk : link) (trans : bool) : link :=
  set_seq (if trans then mkLink (kind lk) (pos lk) (ignore lk) true (may_fail lk) (is_local lk)
                           (addr lk) (state lk) (seq lk) (retry_delay lk) (retries lk)
                           (max_retries lk) (retry_timer lk) (send_more lk) (drv lk) (signals lk)
           else lk) (r_seq r).

Lemma registerLink_wanted depth (r r' : router) lk trans ok :
  want_up (running r) = true -> registerLink depth r lk trans = Ret (ok, r') ->
  (ok = false /\ r' = r) \/
  (find_link r (pos lk) = None /\ exists lk' r1,
     setState depth (clear_signals (registered r lk trans)) L_going_up = Ret lk' /\
     links r1 = links r ++ [if trans then mkLink (kind lk) (pos lk) (ignore lk) true (may_fail lk) (is_local lk)
                           (addr lk) (state lk) (seq lk) (retry_delay lk) (retries lk)
                           (max_retries lk) (retry_timer lk) (send_more lk) (drv lk) (signals lk) else lk] /\
     r_seq r1 = r_seq r /\ want_up (running r1) = true /\ all_running (running r1) = false /\
     some_running (running r1) = some_running (running r) /\ running_signal (running r1) = running_signal (running r) /\
     link_changed r1 r' (registered r lk trans) lk').
Proof.
  intros Hw. unfold registerLink. destruct (find_link r (pos lk)); [intros [= <- <-]; by left|].
  cbn [running set_links]. rewrite Hw. intros (r2 & E & [= <- <-])%bind_Ret_inv. right. split; [done|].
  apply router_setState_changed in E as (lk' & E & Hc). exists lk'. eexists. split; [exact E|].
  split_and!; [..|exact Hc]; done.
Qed.

(** An invariant of the calls. *)
Lemma do_calls_inv (Q : router -> Prop) depth loop cs changed (r r' : router) b :
  (forall lk tr r r' ok, T_register lk tr ∈ cs -> Q r -> registerLink depth r lk tr = Ret (ok, r') -> Q r') ->
  (forall p lk r r', T_stop p ∈ cs -> Q r -> find_link r p = Some lk -> router_stop_link depth r lk = Ret r' -> Q r') ->
  (forall p r, T_unregister p ∈ cs -> Q r -> Q (unregisterLink loop r p).2) ->
  Q r -> do_calls depth loop cs changed r = Ret (r', b) -> Q r'.
Proof.
  revert changed r. induction cs as [|c cs IH]; intros changed r Hreg Hstop Hun Hq; cbn [do_calls]; [by intros [= <- <-]|].
  assert (forall changed r, Q r -> do_calls depth loop cs changed r = Ret (r', b) -> Q r') as Hrest.
  { intros ch r1 Hq1. apply IH; try done.
    - intros lk tr r2 r3 ok Hc. apply (Hreg lk tr), list_elem_of_further, Hc.
    - intros p lk r2 r3 Hc. apply (Hstop p lk), list_elem_of_further, Hc.
    - intros p r2 Hc. apply (Hun p), list_elem_of_further, Hc. }
  destruct c as [lk tr|p|p].
  - intros ([ok r1] & E1 & E)%bind_Ret_inv. eapply Hrest; [|exact E]. eapply Hreg; [apply list_elem_of_here|exact Hq|exact E1].
  - destruct (find_link r p) as [lk|] eqn:Ef; [|by apply Hrest].
    intros (r1 & E1 & E)%bind_Ret_inv. eapply Hrest; [|exact E]. eapply Hstop; [apply list_elem_of_here|exact Hq|exact Ef|exact E1].
  - pose proof (Hun p r (list_elem_of_here _ _) Hq) as Hq1. destruct (unregisterLink loop r p) as [ok r1].
    by apply Hrest.
Qed.

(** *** Counting links *)

Definition count (f : link -> bool) (xs : list link) : nat := length (List.filter f xs).

Lemma count_replace (f : link -> bool) (lk : link) xs :
  f lk = false ->
  (count f (map (fun x => if decide (pos x = pos lk) then lk else x) xs) <= count f xs)%nat /\
  (forall x, x ∈ xs -> pos x = pos lk -> f x = true ->
   count f (map (fun x => if decide (pos x = pos lk) then lk else x) xs) < count f xs)%nat.
Proof.
  intros Hf. unfold count. induction xs as [|y xs [IH1 IH2]]; [split; [done|by intros x ?%elem_of_nil]|].
  cbn [map List.filter]. destruct (decide (pos y = pos lk)) as [Ep|Ep].
  - rewrite Hf. destruct (f y) eqn:Ey; cbn [length].
    + split; [lia|]. intros; lia.
    + split; [done|]. intros x [->|Hx]%elem_of_cons E1 E2; [congruence|]. by apply (IH2 x).
  - destruct (f y) eqn:Ey; cbn [length].
    + split; [lia|]. intros x [->|Hx]%elem_of_cons E1 E2; [congruence|]. specialize (IH2 x Hx E1 E2). lia.
    + split; [done|]. intros x [->|Hx]%elem_of_cons E1 E2; [congruence|]. by apply (IH2 x).
Qed.

Lemma count_replace_same (f : link -> bool) (lk : link) xs :
  (forall x, x ∈ xs -> pos x = pos lk -> f lk = true -> f x = true) ->
  (count f (map (fun x => if decide (pos x = pos lk) then lk else x) xs) <= count f xs)%nat.
Proof.
  unfold count. induction xs as [|y xs IH]; intros Hx; [done|]. cbn [map List.filter].
  assert (length (List.filter f (map (fun x => if decide (pos x = pos lk) then lk else x) xs)) <=
          length (List.filter f xs))%nat as Hxs by (apply IH; intros x ?; apply Hx, elem_of_cons; auto).
  destruct (decide (pos y = pos lk)) as [Ep|Ep]; [|destruct (f y); cbn; lia].
  destruct (f lk) eqn:Ef; [rewrite (Hx y (list_elem_of_here _ _) Ep eq_refl); cbn; lia|].
  destruct (f y); cbn [length]; lia.
Qed.

Lemma count_filter (f g : link -> bool) xs : (count f (List.filter g xs) <= count f xs)%nat.
Proof.
  unfold count. induction xs as [|x xs IH]; [done|]. cbn [List.filter].
  destruct (g x); cbn [List.filter]; destruct (f x); cbn [length]; lia.
Qed.

Lemma count_unregister (f : link -> bool) loop (r : router) p :
  (count f (links (unregisterLink loop r p).2) <= count f (links r))%nat.
Proof.
  unfold unregisterLink. destruct (find_link r p); [|done]. case_decide; apply count_filter.
Qed.

End Table.

(** ** What the methods of a link may do to the table *)

(** A link changes the table for other links than itself, and registers none while it is
    stopped; the links of [EIBnetServer] and [EIBnet6Server] do. *)
Class TableLaws (D : Type) `{TableCalls D} := {
  calls_other : forall (l : LinkConnect D) s c, c ∈ table_calls l s -> call_pos c <> pos l;
  stop_registers : forall (l : LinkConnect D) c, c ∈ table_calls l L_going_down -> registers c = false
}.

Section Tell.
Context {D : Type} `{Driver D} `{TL : TableLaws D}.
Local Set Default Proof Using "All".

Local Abbreviation router := (Router D).
Local Abbreviation link := (LinkConnect D).

(** What calls made while a link is stopped leave alone. *)
Record calls_kept (r r' : router) : Prop := {
  ck_seq : r_seq r' = r_seq r;
  ck_running : running r' = running r;
  ck_find : forall q x', find_link r' q = Some x' ->
            exists x, find_link r q = Some x /\ ident x' = ident x /\ seq x' = seq x /\
                      (is_down (state x) = true -> is_down (state x') = true)
}.

#[export] Instance calls_kept_preorder : PreOrder calls_kept.
Proof.
  split; [intros r; constructor; eauto 7|]. intros r1 r2 r3 [S1 R1 F1] [S2 R2 F2]. constructor; try congruence.
  intros q x' Hx'. destruct (F2 _ _ Hx') as (x2 & H2 & ? & ? & ?), (F1 _ _ H2) as (x & ? & ? & ? & ?).
  exists x. split_and!; try congruence. auto.
Qed.

Lemma stop_link_kept depth (r r' : router) lk :
  find_link r (pos lk) = Some lk -> router_stop_link depth r lk = Ret r' ->
  calls_kept r r' /\ (forall q, q <> pos lk -> find_link r' q = find_link r q).
Proof.
  intros Hf (lk' & El & Hc)%router_stop_link_changed. split; [|intros q; by eapply link_changed_other].
  pose proof Hc as [Ei Eq _ Es Er]. constructor; [done|done|]. intros q x' Hx'.
  destruct (link_changed_find _ _ _ _ _ _ Hc Hx') as [[-> ->]|[_ Hx]]; [|by eauto 7].
  exists lk. split_and!; [done|exact Ei|done|]. intros Hd. by apply (link_stop_down depth (clear_signals lk) lk').
Qed.

Lemma do_calls_kept depth loop cs changed (r r' : router) b :
  (forall c, c ∈ cs -> registers c = false) -> do_calls depth loop cs changed r = Ret (r', b) ->
  calls_kept r r' /\ (forall q, (forall c, c ∈ cs -> call_pos c <> q) -> find_link r' q = find_link r q).
Proof.
  intros Hn E.
  apply (do_calls_inv (fun r1 => calls_kept r r1 /\
    (forall q, (forall c, c ∈ cs -> call_pos c <> q) -> find_link r1 q = find_link r q)) _ _ _ _ _ _ _) with (5 := E); [..|done].
  - intros lk tr r1 r2 ok Hc. by apply Hn in Hc.
  - intros p lk r1 r2 Hc [K O] Hf E1. pose proof (find_link_spec _ _ _ Hf) as [_ Ep]. rewrite <-Ep in Hf.
    destruct (stop_link_kept _ _ _ _ Hf E1) as [K1 O1]. split; [by etransitivity|].
    intros q Hq. rewrite O1, O; [done|done|]. intros ->. by apply (Hq _ Hc).
  - intros p r1 Hc [K O]. destruct (unregister_frame loop r1 p) as [Es Er]. split.
    + etransitivity; [exact K|]. constructor; [done|done|]. intros q x' Hx'%find_link_unregister. eauto 7.
    + intros q Hq. rewrite unregister_other, O; [done|done|]. intros ->. by apply (Hq _ Hc).
Qed.

(** A link that is told to stop. *)
Lemma tell_link_down depth loop (r r' : router) lk b :
  tell_link depth loop r lk L_going_down = Ret (r', b) ->
  exists r1 lk', calls_kept r r1 /\ find_link r1 (pos lk) = find_link r (pos lk) /\
    (forall q, (forall c, c ∈ table_calls lk L_going_down -> call_pos c <> q) -> find_link r1 q = find_link r q) /\
    setState depth (clear_signals lk) L_going_down = Ret lk' /\ link_changed r1 r' lk lk'.
Proof.
  intros ([r1 ch] & E1 & (r2 & E2 & [= <- <-])%bind_Ret_inv)%bind_Ret_inv.
  apply router_setState_changed in E2 as (lk' & El & Hc). exists r1, lk'.
  assert (calls_kept r r1 /\ (forall q, (forall c, c ∈ table_calls lk L_going_down -> call_pos c <> q) ->
    find_link r1 q = find_link r q)) as [K O].
  { destruct (invokes _ _); [|by injection E1 as <- <-].
    eapply do_calls_kept; [|exact E1]. intros c. apply stop_registers. }
  split_and!; try done. apply O. intros c. apply calls_other.
Qed.

Lemma stop_link_stops depth (r r' : router) lk :
  find_link r (pos lk) = Some lk -> stop_link depth r lk = Ret r' ->
  calls_kept r r' /\
  (forall q, q <> pos lk -> (forall c, c ∈ table_calls lk L_going_down -> call_pos c <> q) -> find_link r' q = find_link r q).
Proof.
  intros Hf ([r1 ch] & E1 & E2)%bind_Ret_inv.
  apply do_calls_kept in E1 as [K O]; [|intros c; apply stop_registers].
  assert (find_link r1 (pos lk) = Some lk) as Hf1 by (rewrite O; [exact Hf|intros c; apply calls_other]).
  destruct (stop_link_kept _ _ _ _ Hf1 E2) as [K2 O2]. split; [by etransitivity|].
  intros q Hq Hc. by rewrite O2, O.
Qed.

(** ** The loops end *)

(** Every link has a place of its own in the table. *)
Definition distinct (r : router) : Prop := NoDup (map pos (links r)).

Lemma find_link_unique (r : router) x : distinct r -> x ∈ links r -> find_link r (pos x) = Some x.
Proof.
  unfold distinct, find_link. induction (links r) as [|y ys IH]; [by intros _ ?%elem_of_nil|].
  cbn [map List.find]. intros [Hn Hd]%list.NoDup_cons [->|Hx]%elem_of_cons; [by rewrite bool_decide_true|].
  rewrite bool_decide_false; [auto|]. intros E. apply Hn. rewrite E. apply list_elem_of_In, List.in_map.
  by apply list_elem_of_In.
Qed.

Lemma link_changed_pos r r' (lk lk' : link) : link_changed r r' lk lk' -> map pos (links r') = map pos (links r).
Proof.
  intros [_ _ El _ _]. rewrite El. unfold update_link. cbn [links set_links]. rewrite map_map.
  apply map_ext. intros x. by case_decide.
Qed.

Lemma distinct_changed r r' (lk lk' : link) : link_changed r r' lk lk' -> distinct r -> distinct r'.
Proof. intros Hc. unfold distinct. by rewrite (link_changed_pos _ _ _ _ Hc). Qed.

Lemma distinct_unregister loop (r : router) p : distinct r -> distinct (unregisterLink loop r p).2.
Proof.
  unfold distinct, unregisterLink. destruct (find_link r p); [|done].
  assert (NoDup (map pos (links r)) -> NoDup (map pos (List.filter (fun x => negb (bool_decide (pos x = p))) (links r)))) as Hf;
    [|by case_decide].
  induction (links r) as [|x xs IH]; [done|]. cbn [map List.filter]. intros [Hn Hd]%list.NoDup_cons.
  destruct (negb _); [|auto]. cbn [map]. apply list.NoDup_cons. split; [|auto].
  intros Hx. apply Hn. apply list_elem_of_In, List.in_map_iff in Hx as (y & <- & [Hy _]%List.filter_In).
  by apply list_elem_of_In, List.in_map.
Qed.

Section Measure.
Context (f : link -> bool) (k : Z).
Hypothesis f_ident : forall x x', ident x' = ident x -> seq x' = seq x -> f x' = f x.
Hypothesis f_told : forall x, k <= seq x -> f x = false.

(** Where the loops are: their number, whether the daemon is wanted, and how much there is to do. *)
Definition at_most (n : nat) (w : bool) (r : router) : Prop :=
  r_seq r = k /\ distinct r /\ want_up (running r) = w /\ (count f (links r) <= n)%nat.

Lemma changed_at_most n w (r r' : router) lk lk' :
  find_link r (pos lk) = Some lk -> link_changed r r' lk lk' -> at_most n w r -> at_most n w r'.
Proof.
  intros Hf Hc (Hk & Hd & Hw & Hn). pose proof Hc as [Ei Eq El Es Er]. split_and!; [congruence| |by rewrite Er|].
  { by eapply distinct_changed. }
  etransitivity; [|exact Hn]. rewrite El. apply count_replace_same. intros x Hx Hp Hlk.
  cbn [pos clear_signals] in Hp. assert (pos x = pos lk) as Ep by (injection Ei as _ Ep _ _ _; congruence).
  pose proof (find_link_unique r x Hd Hx) as E. rewrite Ep, Hf in E. injection E as <-.
  rewrite <-Hlk. symmetry. by apply (f_ident lk (clear_signals lk')).
Qed.

Lemma register_at_most n depth (r r' : router) lk trans ok :
  registerLink depth r lk trans = Ret (ok, r') -> at_most n true r -> at_most n true r'.
Proof.
  intros E (Hk & Hd & Hw & Hn). apply registerLink_wanted in E as [[_ ->]|(Hf & lk' & r1 & _ & El & Es & Ew & _ & _ & _ & Hc)]; [done| |done].
  set (raw := if trans then _ else lk) in El. assert (pos raw = pos lk) as Eraw by (unfold raw; by destruct trans).
  pose proof Hc as [Ei Eq El' Es' Er']. assert (pos lk' = pos lk) as Ep.
  { injection Ei as _ -> _ _ _. by destruct trans. }
  assert (pos lk ∉ map pos (links r)) as Hni by (intros [x Hx]%find_link_some; congruence).
  split_and!; [congruence| |by rewrite Er'|].
  - eapply distinct_changed; [exact Hc|]. unfold distinct. rewrite El, map_app. apply list.NoDup_app. split_and!; [done| |apply NoDup_singleton].
    intros q Hq Hq'. apply list_elem_of_singleton in Hq'. congruence.
  - etransitivity; [|exact Hn]. rewrite El'. unfold update_link. cbn [links set_links]. rewrite El.
    unfold count. rewrite map_app, List.filter_app, length_app. cbn [map List.filter pos clear_signals].
    rewrite (decide_True (P := pos raw = pos lk')) by congruence. rewrite f_told; [|cbn [seq clear_signals]; rewrite Eq; cbn; lia].
    cbn [length]. rewrite Nat.add_0_r. apply (count_replace_same f (clear_signals lk')). intros x Hx Hp. exfalso. apply Hni. cbn in Hp.
    rewrite <-Ep, <-Hp. by apply list_elem_of_In, List.in_map, list_elem_of_In.
Qed.

Lemma register_other depth (r r' : router) lk trans ok q :
  want_up (running r) = true -> registerLink depth r lk trans = Ret (ok, r') -> q <> pos lk -> find_link r' q = find_link r q.
Proof.
  intros Hw E Hq. apply registerLink_wanted in E as [[_ ->]|(_ & lk' & r1 & _ & El & _ & _ & _ & _ & _ & Hc)]; [done| |done].
  rewrite (link_changed_other _ _ _ _ _ Hc) by (by destruct trans). unfold find_link. rewrite El. clear El Hc.
  induction (links r) as [|x xs IH]; cbn [app List.find].
  - rewrite bool_decide_false; [done|]. by destruct trans.
  - by rewrite IH.
Qed.

(** Calls leave no more to do, and the links alone that they do not name. *)
Lemma do_calls_at_most n w depth loop cs changed (r r' : router) b :
  (w = true \/ forall c, c ∈ cs -> registers c = false) -> at_most n w r ->
  do_calls depth loop cs changed r = Ret (r', b) ->
  at_most n w r' /\ (forall q, (forall c, c ∈ cs -> call_pos c <> q) -> find_link r' q = find_link r q).
Proof.
  intros Hw Hr E.
  apply (do_calls_inv (fun r1 => at_most n w r1 /\
    (forall q, (forall c, c ∈ cs -> call_pos c <> q) -> find_link r1 q = find_link r q)) depth loop cs changed r r' b) in E; try done.
  - intros lk tr r1 r2 ok Hc [K O] E1. destruct Hw as [->|Hn]; [|by apply Hn in Hc]. split; [by eapply register_at_most|].
    intros q Hq. rewrite <-O by done. eapply register_other; [apply K|exact E1|]. intros ->. by apply (Hq _ Hc).
  - intros p lk r1 r2 Hc [K O] Hf E1. pose proof (find_link_spec _ _ _ Hf) as [_ Ep]. rewrite <-Ep in Hf.
    apply router_stop_link_changed in E1 as (lk' & _ & Hch). split; [by eapply changed_at_most|].
    intros q Hq. rewrite <-O by done. eapply link_changed_other; [exact Hch|]. rewrite Ep. intros ->. by apply (Hq _ Hc).
  - intros p r1 Hc [(Hk & Hd & Hwu & Hn) O]. destruct (unregister_frame loop r1 p) as [Es Er]. split.
    + split_and!; [congruence|by apply distinct_unregister|by rewrite Er|]. by etransitivity; [apply count_unregister|].
    + intros q Hq. rewrite unregister_other, O; [done|done|]. intros ->. by apply (Hq _ Hc).
Qed.

(** Telling a link takes it off the list. *)
Lemma tell_link_at_most n w depth s (r r' : router) ii b :
  (w = true \/ s = L_going_down) -> find_link r (pos ii) = Some ii -> f ii = true -> at_most (S n) w r ->
  tell_link depth 1 r (set_seq ii k) s = Ret (r', b) -> at_most n w r'.
Proof.
  intros Hw Hf Hi Hr ([r1 ch] & E1 & (r2 & E2 & [= <- <-])%bind_Ret_inv)%bind_Ret_inv.
  assert (at_most (S n) w r1 /\ find_link r1 (pos ii) = Some ii) as [(Hk & Hd & Hwu & Hn) Hf1].
  { destruct (invokes _ _); [|by injection E1 as <- <-].
    apply (do_calls_at_most (S n) w) in E1 as [K O]; [|destruct Hw as [->| ->]; [by left|right; intros c; apply stop_registers]|done].
    split; [done|]. rewrite O; [done|]. intros c. apply (calls_other (set_seq ii k)). }
  apply router_setState_changed in E2 as (lk' & _ & Hc). pose proof Hc as [Ei Eq El Es Er].
  split_and!; [congruence|by eapply distinct_changed|by rewrite Er|].
  pose proof (find_link_spec _ _ _ Hf1) as [Hin _].
  assert (pos ii = pos lk') as Ep by (injection Ei as _ <- _ _ _; done).
  assert (count f (links r2) < count f (links r1))%nat; [|lia]. rewrite El.
  apply (proj2 (count_replace f (clear_signals lk') (links r1)
    (f_told (clear_signals lk') ltac:(cbn; rewrite Eq; cbn; lia))) ii); done.
Qed.
End Measure.

Section Rounds.
Context (depth : nat) (s : LConnState) (skip : link -> bool) (w : bool).
Hypothesis skip_ident : forall l l', ident l = ident l' -> skip l = skip l'.
Hypothesis calls_ok : w = true \/ s = L_going_down.

(** The links that have not been told yet. *)
Definition untold (k : Z) (l : link) : bool := negb (skip l) && bool_decide (seq l < k).

Lemma untold_ident k x x' : ident x' = ident x -> seq x' = seq x -> untold k x' = untold k x.
Proof. intros Ei Es. unfold untold. by rewrite Es, (skip_ident x' x Ei). Qed.

Lemma untold_told k x : k <= seq x -> untold k x = false.
Proof. intros Hk. unfold untold. rewrite bool_decide_false by lia. apply andb_false_r. Qed.

(** The link at a position has been told, or is left out. *)
Definition told (r : router) (p : Z) : Prop :=
  forall ii, find_link r p = Some ii -> skip ii = true \/ r_seq r <= seq ii.

(** A round tells a link, or finds all of them told. *)
Lemma tell_links_round k n todo seen (r r' : router) b :
  at_most (untold k) k n w r -> tell_links depth s skip todo seen r = Ret (r', b) ->
  at_most (untold k) k n w r' /\
  (b = true -> seen = true \/ exists m, n = S m /\ at_most (untold k) k m w r') /\
  (b = false -> seen = false /\ r' = r /\ forall p, p ∈ todo -> told r p).
Proof.
  revert n seen r. induction todo as [|p todo IH]; intros n seen r Hr; cbn [tell_links].
  { intros [= <- <-]. split_and!; [done|by left|]. intros ->. split_and!; try done. by intros p ?%elem_of_nil. }
  assert (forall r, told r p -> (forall q, q ∈ todo -> told r q) -> forall q, q ∈ p :: todo -> told r q) as Hcons
    by (intros r1 Hp Ht q [->|Hq]%elem_of_cons; auto).
  destruct (find_link r p) as [ii|] eqn:Ef.
  2: { intros E. destruct (IH _ _ _ Hr E) as (H1 & H2 & H3). split_and!; try done.
       intros Hb. destruct (H3 Hb) as (-> & -> & Ht). split_and!; try done. apply Hcons; [|done]. intros x. by rewrite Ef. }
  destruct (skip ii || bool_decide (r_seq r <= seq ii)) eqn:Eb.
  - intros E. destruct (IH _ _ _ Hr E) as (H1 & H2 & H3). split_and!; try done.
    intros Hb. destruct (H3 Hb) as (-> & -> & Ht). split_and!; try done. apply Hcons; [|done]. intros x. rewrite Ef. intros [= <-].
    apply orb_true_iff in Eb as [?|?%bool_decide_eq_true]; auto.
  - apply orb_false_iff in Eb as [Esk Eseq%bool_decide_eq_false]. pose proof Hr as (Hk & Hd & Hwu & Hn).
    pose proof (find_link_spec _ _ _ Ef) as [Hin Ep].
    assert (untold k ii = true) as Hu by (unfold untold; rewrite Esk, bool_decide_true by lia; done).
    assert (exists m, n = S m) as [m ->].
    { destruct n as [|m]; [|by eauto]. exfalso. unfold count in Hn.
      assert (ii ∈ List.filter (untold k) (links r)) as Hi
        by (apply list_elem_of_In, List.filter_In; split; [by apply list_elem_of_In|done]).
      destruct (List.filter _ _); [by apply elem_of_nil in Hi|cbn in Hn; lia]. }
    intros ([r1 ch] & E1 & E)%bind_Ret_inv. rewrite Hk in E1. rewrite <-Ep in Ef.
    pose proof (tell_link_at_most (untold k) k (untold_ident k) (untold_told k) m w depth s r r1 ii ch calls_ok Ef Hu Hr E1) as H1.
    assert (forall r2, at_most (untold k) k m w r2 -> at_most (untold k) k (S m) w r2) as Hle
      by (intros r2 (? & ? & ? & ?); split_and!; try done; lia).
    destruct ch.
    + injection E as <- <-. split_and!; [auto|eauto|done].
    + destruct (IH m true r1 H1 E) as (H2 & H3 & H4). split_and!; [auto|eauto|].
      intros Hb. by destruct (H4 Hb).
Qed.

(** More rounds than links to be told change nothing. *)
Lemma tell_rounds_enough k n fuel1 fuel2 (r : router) :
  at_most (untold k) k n w r -> (n < fuel1)%nat -> (n < fuel2)%nat ->
  tell_rounds fuel1 depth s skip r = tell_rounds fuel2 depth s skip r.
Proof.
  revert fuel1 fuel2 r. induction n as [n IH] using lt_wf_ind. intros [|fuel1] [|fuel2] r Hr H1 H2; try lia.
  cbn [tell_rounds]. destruct (tell_links depth s skip _ false r) as [[r1 b]|] eqn:E; [|done]. rewrite !bind_Ret.
  destruct (tell_links_round k n _ _ _ _ _ Hr E) as (_ & Hb & _). destruct b; [|done].
  destruct (Hb eq_refl) as [?|(m & -> & Hm)]; [done|]. apply (IH m); lia || done.
Qed.

(** An invariant of telling a link is one of the loops; and they end with all links told. *)
Lemma tell_links_inv (Q : router -> Prop) todo seen (r r' : router) b :
  (forall r r' ii b, Q r -> find_link r (pos ii) = Some ii -> tell_link depth 1 r (set_seq ii (r_seq r)) s = Ret (r', b) -> Q r') ->
  Q r -> tell_links depth s skip todo seen r = Ret (r', b) -> Q r'.
Proof.
  intros Hq. revert seen r. induction todo as [|p todo IH]; intros seen r Hr; cbn [tell_links]; [by intros [= <- <-]|].
  destruct (find_link r p) as [ii|] eqn:Ef; [|by apply IH]. destruct (_ || _); [by apply IH|].
  intros ([r1 ch] & E1 & E)%bind_Ret_inv. pose proof (find_link_spec _ _ _ Ef) as [_ Ep]. rewrite <-Ep in Ef.
  pose proof (Hq _ _ _ _ Hr Ef E1) as Hr1. destruct ch; [by injection E as <- <-|by eapply IH].
Qed.

Lemma tell_rounds_inv (Q : router -> Prop) k n fuel (r r' : router) :
  (forall r r' ii b, Q r -> find_link r (pos ii) = Some ii -> tell_link depth 1 r (set_seq ii (r_seq r)) s = Ret (r', b) -> Q r') ->
  Q r -> at_most (untold k) k n w r -> tell_rounds fuel depth s skip r = Ret r' ->
  Q r' /\ at_most (untold k) k n w r' /\ forall p, told r' p.
Proof.
  intros Hq. revert n r. induction fuel as [|fuel IH]; intros n r Hr Ha; [done|]. cbn [tell_rounds].
  intros ([r1 b] & E1 & E)%bind_Ret_inv. destruct (tell_links_round k n _ _ _ _ _ Ha E1) as (Ha1 & _ & Hb).
  destruct b.
  - apply (IH n r1); [by eapply tell_links_inv|done|done].
  - injection E as <-. destruct (Hb eq_refl) as (_ & -> & Ht). split_and!; [done|done|].
    intros p ii Hf. by apply (Ht p (find_link_in _ _ _ Hf)).
Qed.

(** If telling a link returns, so do the loops. *)
Definition telling_returns (Q : router -> Prop) : Prop :=
  forall r p ii, Q r -> find_link r p = Some ii -> skip ii = false -> seq ii < r_seq r ->
  exists r' b, tell_link depth 1 r (set_seq ii (r_seq r)) s = Ret (r', b) /\ Q r'.

Lemma tell_links_total (Q : router -> Prop) todo seen (r : router) :
  telling_returns Q -> Q r -> exists r' b, tell_links depth s skip todo seen r = Ret (r', b) /\ Q r'.
Proof.
  intros Hq. revert seen r. induction todo as [|p todo IH]; intros seen r Hr; cbn [tell_links]; [by eauto|].
  destruct (find_link r p) as [ii|] eqn:Ef; [|auto]. destruct (_ || _) eqn:Eb; [auto|].
  apply orb_false_iff in Eb as [Esk Eseq%bool_decide_eq_false].
  destruct (Hq r p ii Hr Ef Esk ltac:(lia)) as (r1 & b & -> & Hr1). rewrite bind_Ret. destruct b; [by eauto|auto].
Qed.

Lemma tell_rounds_total (Q : router -> Prop) k n : forall fuel (r : router),
  telling_returns Q -> at_most (untold k) k n w r -> (n < fuel)%nat -> Q r ->
  exists r', tell_rounds fuel depth s skip r = Ret r' /\ Q r' /\ distinct r' /\ forall p, told r' p.
Proof.
  induction n as [n IH] using lt_wf_ind. intros [|fuel] r Hq Ha Hf Hr; [lia|]. cbn [tell_rounds].
  destruct (tell_links_total Q (map pos (links r)) false r Hq Hr) as (r1 & b & E & Hr1). rewrite E, bind_Ret.
  destruct (tell_links_round k n _ _ _ _ _ Ha E) as (_ & Hb & Hn).
  destruct b.
  - destruct (Hb eq_refl) as [?|(m & -> & Hm)]; [done|]. apply (IH m); try done; lia.
  - destruct (Hn eq_refl) as (_ & -> & Ht). exists r. split_and!; try done; [apply Ha|].
    intros p ii Hp. by apply (Ht p (find_link_in _ _ _ Hp)).
Qed.
End Rounds.

Lemma count_le (f : link -> bool) xs : (count f xs <= length xs)%nat.
Proof. apply List.filter_length_le. Qed.

(** Starting and stopping all links ends, for every driver: a round that does not find every link
    told tells one of them, and calls that change the table leave no more of them.
    Rounds beyond those allowed change nothing. *)
Theorem telling_ends depth s (skip : link -> bool) (r : router) fuel :
  (forall l l', ident l = ident l' -> skip l = skip l') -> distinct r ->
  want_up (running r) = true \/ s = L_going_down -> (length (links r) < fuel)%nat ->
  tell_rounds fuel depth s skip (set_r_seq r (r_seq r + 1)) = tell_all depth s skip r.
Proof.
  intros Hi Hd Hw Hf. unfold tell_all.
  apply (tell_rounds_enough depth s skip (want_up (running r)) Hi Hw (r_seq r + 1) (length (links r))); [|done|lia].
  split_and!; [done|exact Hd|done|apply count_le].
Qed.

(** ** Stopping *)

Lemma skip_started (l l' : link) : ident l = ident l' -> ignore l || transient l = ignore l' || transient l'.
Proof. intros [= _ _ -> -> _]. done. Qed.

Definition no_skip (l : link) : bool := false.

(** No link has been told in a round that is yet to come. *)
Definition seq_ok (r : router) : Prop := forall p ii, find_link r p = Some ii -> seq ii <= r_seq r.

(** While the links are stopped those that have been told are down. *)
Definition told_down (k : Z) (x : Running) (r : router) : Prop :=
  r_seq r = k /\ running r = x /\
  forall q ii, find_link r q = Some ii -> k <= seq ii -> is_down (state ii) = true.

Lemma tell_link_told_down k x depth loop (r r' : router) ii b :
  told_down k x r -> tell_link depth loop r ii L_going_down = Ret (r', b) -> told_down k x r'.
Proof.
  intros (Hk & Hx & Hd) E. apply tell_link_down in E as (r1 & lk' & [Ks Kr Kf] & _ & _ & El & Hc).
  pose proof Hc as [_ Eq _ Es Er]. split_and!; [congruence|congruence|]. intros q y Hy Hle.
  destruct (link_changed_find _ _ _ _ _ _ Hc Hy) as [[_ ->]|[_ Hy']]; [by apply setState_down in El|].
  destruct (Kf _ _ Hy') as (z & Hz & _ & Ez & Hzy). apply Hzy, (Hd q z Hz). congruence.
Qed.

Lemma stop_down depth (r r' : router) :
  distinct r -> seq_ok r -> stop_ depth r = Ret r' ->
  (forall p ii, find_link r' p = Some ii -> is_down (state ii) = true) /\
  want_up (running r') = false /\ all_running (running r') = false.
Proof.
  intros Hdi Hs. unfold stop_. cbv zeta. set (r0 := if want_up _ then _ else _).
  assert (links r0 = links r /\ r_seq r0 = r_seq r /\ want_up (running r0) = false /\ all_running (running r0) = false) as (El & Eq & Ew & Ea)
    by (unfold r0; destruct (want_up (running (set_all r false))) eqn:?; done).
  unfold tell_all. intros E.
  destruct (tell_rounds_inv depth L_going_down no_skip false (fun _ _ _ => eq_refl) (or_intror eq_refl)
    (told_down (r_seq r0 + 1) (running r0)) (r_seq r0 + 1) (length (links r0)) (S (length (links r0)))
    (set_r_seq r0 (r_seq r0 + 1)) r') as ((Hk & Hx & Hd) & _ & Ht); [..|exact E|].
  - intros r1 r2 ii b Hr1 _ E1. by eapply tell_link_told_down.
  - split_and!; [done|done|]. intros q ii Hf Hle. unfold find_link in Hf. cbn [links set_r_seq] in Hf.
    rewrite El in Hf. specialize (Hs q ii Hf). lia.
  - split_and!; [done| |done|apply count_le]. unfold distinct. cbn [links set_r_seq]. by rewrite El.
  - split; [|by rewrite Hx]. intros p ii Hf. apply (Hd p ii Hf). destruct (Ht p ii Hf) as [?|?]; [done|]. congruence.
Qed.

(** ** The queue of changes *)

(** The links that are up or on their way up. *)
Definition active (l : link) : bool := negb (is_down (state l)).

Lemma link_stop_active depth (l l' : link) : link_stop (setState depth) l = Ret l' -> active l' = true -> active l = true.
Proof.
  unfold active. intros E Ha. destruct (is_down (state l)) eqn:Hd; [|done].
  apply (link_stop_down depth l l' Hd) in E. by rewrite E in Ha.
Qed.

Lemma do_calls_active n depth loop cs changed (r r' : router) b :
  (forall c, c ∈ cs -> registers c = false) -> distinct r -> (count active (links r) <= n)%nat ->
  do_calls depth loop cs changed r = Ret (r', b) -> distinct r' /\ (count active (links r') <= n)%nat.
Proof.
  intros Hn Hd Ha E.
  apply (do_calls_inv (fun r => distinct r /\ (count active (links r) <= n)%nat) depth loop cs changed r r' b) in E; try done.
  - intros lk tr r1 r2 ok Hc. by apply Hn in Hc.
  - intros p lk r1 r2 Hc [D1 A1] Hf E1. pose proof (find_link_spec _ _ _ Hf) as [_ Ep]. rewrite <-Ep in Hf.
    apply router_stop_link_changed in E1 as (lk' & El & Hch). split; [by eapply distinct_changed|].
    pose proof Hch as [Ei _ -> _ _]. etransitivity; [|exact A1]. apply count_replace_same. intros x Hx Hp Hl.
    cbn [pos clear_signals] in Hp. assert (pos x = pos lk) as Epx by (injection Ei as _ Epx _ _ _; congruence).
    pose proof (find_link_unique r1 x D1 Hx) as E'. rewrite Epx, Hf in E'. injection E' as <-.
    by apply (link_stop_active depth (clear_signals lk) lk').
  - intros p r1 Hc [D1 A1]. split; [by apply distinct_unregister|]. etransitivity; [apply count_unregister|done].
Qed.

(** Telling a link that is going down already does nothing; another one is not active afterwards. *)
Lemma changes_measure depth (r r' : router) l b :
  distinct r -> find_link r (pos l) = Some l -> state l <> L_down -> state_index (state l) < state_index L_wait_retry ->
  tell_link depth 0 r l L_going_down = Ret (r', b) ->
  distinct r' /\
  ((count active (links r') < count active (links r))%nat \/
   (count active (links r') <= count active (links r))%nat /\ linkChanges r' = linkChanges r).
Proof.
  intros Hdi Hf Hn Hi E. destruct (is_down (state l)) eqn:Hd.
  - destruct depth as [|depth]; [by apply bind_Ret_inv in E as ([r1 ch] & _ & (r2 & E2 & _)%bind_Ret_inv)|].
    assert (state l = L_going_down) as Es by (destruct (state l); done || (cbn in Hi; lia)).
    unfold tell_link, router_setState in E. rewrite Es in E. cbn [invokes] in E. rewrite bind_Ret in E. cbn [setState] in E.
    rewrite decide_True in E by done. rewrite !bind_Ret in E. injection E as <- <-.
    assert (link_changed r (update_link r (clear_signals (clear_signals l))) l (clear_signals l)) as Hc by (by constructor).
    split; [by eapply distinct_changed|right]. split; [|done].
    apply (proj1 (count_replace active (clear_signals (clear_signals l)) (links r) ltac:(unfold active; cbn; by rewrite Hd))).
  - apply bind_Ret_inv in E as ([r1 ch] & E1 & (r2 & E2 & [= <- <-])%bind_Ret_inv).
    assert ((distinct r1 /\ (count active (links r1) <= count active (links r))%nat) /\ find_link r1 (pos l) = Some l) as [[D1 A1] F1].
    { destruct (invokes _ _); [|by injection E1 as <- <-]. split.
      - eapply do_calls_active; [|exact Hdi|done|exact E1]. intros c. apply stop_registers.
      - apply do_calls_kept in E1 as [_ O]; [|intros c; apply stop_registers]. rewrite O; [done|].
        intros c. apply calls_other. }
    apply router_setState_changed in E2 as (lk & El & Hc). split; [by eapply distinct_changed|left].
    destruct Hc as [Ei _ -> _ _]. apply setState_down in El. injection Ei as _ Ep _ _ _.
    pose proof (find_link_spec _ _ _ F1) as [Hin _]. eapply Nat.lt_le_trans; [|exact A1].
    apply (proj2 (count_replace active (clear_signals lk) (links r1) ltac:(unfold active; cbn; by rewrite El)) l);
      [done|done|unfold active; by rewrite Hd].
Qed.

Lemma work_changes_ends depth (r : router) : distinct r -> exists fuel o, work_changes fuel depth r = Some o.
Proof.
  remember (count active (links r)) as a eqn:Ea. assert (count active (links r) <= a)%nat as Ha by lia. clear Ea.
  revert r Ha. induction (lt_wf a) as [a _ IHa]. intros r Ha.
  remember (linkChanges r) as q eqn:Eq. revert r Ha Eq. induction q as [|p q IHq]; intros r Ha Eq Hdi.
  { exists 0%nat. cbn [work_changes]. rewrite <-Eq. by eexists. }
  assert (forall r', (count active (links r') <= a)%nat -> linkChanges r' = q -> distinct r' ->
    exists fuel o, work_changes fuel depth r' = Some o) as Hq by (intros r' ? E ?; by apply (IHq r')).
  destruct (find_link (set_changes r q) p) as [l|] eqn:Ef.
  2: { destruct (Hq (set_changes r q) Ha eq_refl Hdi) as (fuel & o & E). exists (S fuel), o.
       cbn [work_changes]. rewrite <-Eq. cbv zeta. by rewrite Ef. }
  destruct (negb (want_up (running (set_changes r q))) && bool_decide (state l <> L_down) &&
            bool_decide (state_index (state l) < state_index L_wait_retry)) eqn:Eb.
  2: { destruct (Hq (set_changes r q) Ha eq_refl Hdi) as (fuel & o & E). exists (S fuel), o.
       cbn [work_changes]. rewrite <-Eq. cbv zeta. by rewrite Ef, Eb. }
  destruct (tell_link depth 0 (set_changes r q) l L_going_down) as [[r' ch]|f] eqn:Es.
  2: { exists 1%nat. cbn [work_changes]. rewrite <-Eq. cbv zeta. rewrite Ef, Eb, Es. by eexists. }
  assert (exists fuel o, work_changes fuel depth r' = Some o) as (fuel & o & E).
  { apply andb_true_iff in Eb as [[_ H1%bool_decide_eq_true]%andb_true_iff H2%bool_decide_eq_true].
    destruct (find_link_spec _ _ _ Ef) as [_ Ep]. rewrite <-Ep in Ef.
    destruct (changes_measure depth (set_changes r q) r' l ch Hdi Ef H1 H2 Es) as [Hd' [Hlt|[Hle Hc]]]; cbn [links set_changes linkChanges] in *.
    - apply (IHa (count active (links r'))); lia || done.
    - apply Hq; [lia|done|done]. }
  exists (S fuel), o. cbn [work_changes]. rewrite <-Eq. cbv zeta. by rewrite Ef, Eb, Es.
Qed.

Lemma work_changes_more fuel fuel' depth (r : router) o :
  work_changes fuel depth r = Some o -> (fuel <= fuel')%nat -> work_changes fuel' depth r = Some o.
Proof.
  revert fuel' r. induction fuel as [|fuel IH]; intros fuel' r.
  { cbn [work_changes]. intros E _. destruct (linkChanges r) eqn:Eq; [|done]. destruct fuel'; cbn [work_changes]; by rewrite Eq. }
  destruct fuel' as [|fuel']; [lia|]. cbn [work_changes]. intros E Hf. assert (fuel <= fuel')%nat as Hf' by lia.
  destruct (linkChanges r); [done|]. cbv zeta in *. destruct (find_link _ _); [|by apply IH].
  destruct (_ && _); [|by apply IH]. destruct (tell_link _ _ _ _ _) as [[]|]; [by apply IH|done].
Qed.

(** ** Looking at every link *)

Lemma seq_ok_kept (r r' : router) : calls_kept r r' -> seq_ok r -> seq_ok r'.
Proof. intros [Es _ Hf] Hs p x Hx. destruct (Hf _ _ Hx) as (y & Hy & _ & -> & _). rewrite Es. by apply (Hs p). Qed.

(** A link the daemon needs. *)
Definition required (l : link) : bool := negb (transient l) && negb (may_fail l) && negb (ignore l).

(** The calls of other links leave the link at [p] alone. *)
Definition spared (p : Z) : Prop :=
  forall (l : link) c, c ∈ table_calls l L_going_down -> call_pos c <> p.

(** What a look at the links does while the daemon is wanted: failed links are stopped. *)
Record looked (p : Z) (r r' : router) : Prop := {
  lo_kept : calls_kept r r';
  lo_distinct : distinct r -> distinct r';
  lo_find : find_link r' p = find_link r p
}.

#[local] Instance looked_preorder p : PreOrder (looked p).
Proof. split; [done|]. intros r1 r2 r3 [] []. constructor; [by etransitivity|auto|congruence]. Qed.

Lemma do_calls_distinct depth loop cs changed (r r' : router) b :
  (forall c, c ∈ cs -> registers c = false) -> do_calls depth loop cs changed r = Ret (r', b) -> distinct r -> distinct r'.
Proof. intros Hn E Hd. by eapply do_calls_active in E as [? _]. Qed.

Lemma stop_link_looked p depth (r r' : router) lk :
  spared p -> pos lk <> p -> find_link r (pos lk) = Some lk -> stop_link depth r lk = Ret r' -> looked p r r'.
Proof.
  intros Hp Hn Hf E. destruct (stop_link_stops _ _ _ _ Hf E) as [K O]. constructor; [done| |apply O; [done|by apply Hp]].
  intros Hd. apply bind_Ret_inv in E as ([r1 ch] & E1 & E2). apply router_stop_link_changed in E2 as (lk' & _ & Hc).
  eapply distinct_changed; [exact Hc|]. eapply do_calls_distinct; [|exact E1|done]. intros c. apply stop_registers.
Qed.

Definition counts_le (n n' : counts) : Prop :=
  n_up n <= n_up n' /\ n_going n <= n_going n' /\ n_down n <= n_down n'.

Lemma count_link_wanted depth ii (r r' : router) n n' :
  want_up (running r) = true -> count_link depth ii r n = Ret (r', n') ->
  r' = r /\ counts_le n n' /\
  (state ii = L_down \/ state ii = L_error -> may_fail ii = false -> ignore ii = false -> n_down n < n_down n').
Proof.
  intros Hw. unfold count_link. rewrite Hw. cbn [negb]. unfold counts_le, up1, going1, down1.
  destruct (state ii), (may_fail ii), (ignore ii); cbn; intros [= <- <-]; cbn; split_and!; try done; try lia;
    intros [|]; done || (intros; lia).
Qed.

Lemma check_link_wanted p depth q (r r' : router) n n' :
  spared p -> want_up (running r) = true ->
  (forall ii, find_link r p = Some ii -> state ii = L_down \/ state ii = L_error) ->
  check_link depth q r n = Ret (r', n') ->
  looked p r r' /\ counts_le n n' /\
  (q = p -> forall ii, find_link r p = Some ii -> required ii = true -> n_down n < n_down n').
Proof.
  intros Hp Hw Hd. unfold check_link. destruct (find_link r q) as [ii|] eqn:Ef.
  2: { intros [= <- <-]. split_and!; [done|unfold counts_le; lia..|]. intros -> ii Hi. congruence. }
  pose proof (find_link_spec _ _ _ Ef) as [_ Ep]. destruct (transient ii) eqn:Et.
  { rewrite Hw. cbn [negb andb]. intros [= <- <-]. split_and!; [done|unfold counts_le; lia..|].
    intros -> x Hx. rewrite Ef in Hx. injection Hx as <-. unfold required. by rewrite Et. }
  intros (r1 & E1 & E)%bind_Ret_inv.
  assert (looked p r r1 /\ (q = p -> r1 = r)) as [L1 Hsame].
  { destruct (_ || _) eqn:Eb; [|by injection E1 as <-]. assert (q <> p) as Hqp.
    { intros ->. destruct (Hd ii Ef) as [Es|Es]; rewrite Es in Eb; done. }
    split; [|done]. rewrite <-Ep in Ef. apply (stop_link_looked p depth r r1 ii); [done|congruence|exact Ef|exact E1]. }
  pose proof (lo_kept _ _ _ L1) as [_ Kr Kf]. destruct (find_link r1 q) as [i1|] eqn:Ef1.
  - apply count_link_wanted in E as (-> & Hc & Hdn); [|by rewrite Kr]. split_and!; [done|done|].
    intros -> x Hx Hq. rewrite (Hsame eq_refl) in Ef1. rewrite Hx in Ef1. injection Ef1 as <-.
    unfold required in Hq. apply andb_true_iff in Hq as [[_ ?%negb_true_iff]%andb_true_iff ?%negb_true_iff]. auto.
  - injection E as <- <-. split_and!; [done|unfold counts_le; lia..|].
    intros -> x Hx. rewrite (Hsame eq_refl) in Ef1. congruence.
Qed.

Lemma check_links_wanted p depth todo (r r' : router) n n' :
  spared p -> want_up (running r) = true ->
  (forall ii, find_link r p = Some ii -> state ii = L_down \/ state ii = L_error) ->
  check_links depth todo r n = Ret (r', n') ->
  looked p r r' /\ counts_le n n' /\
  (p ∈ todo -> forall ii, find_link r p = Some ii -> required ii = true -> n_down n < n_down n').
Proof.
  intros Hp. revert r n. induction todo as [|q todo IH]; intros r n Hw Hd; cbn [check_links].
  { intros [= <- <-]. split_and!; [done|unfold counts_le; lia..|]. by intros ?%elem_of_nil. }
  intros ([r1 n1] & E1 & E)%bind_Ret_inv.
  apply (check_link_wanted p) in E1 as (L1 & C1 & D1); [|done..]. pose proof (lo_kept _ _ _ L1) as [_ Kr _].
  pose proof (lo_find _ _ _ L1) as Kp.
  apply IH in E as (L2 & C2 & D2); [|by rewrite Kr|by rewrite Kp].
  unfold counts_le in *. split_and!; [by etransitivity|lia..|].
  intros [->|Ht]%elem_of_cons ii Hi Hq; [specialize (D1 eq_refl ii Hi Hq); lia|].
  rewrite <-Kp in Hi. specialize (D2 Ht ii Hi Hq). lia.
Qed.

(** ** What [state_trigger_cb] concludes *)

Local Abbreviation run := (RouterRun D).

(** Looking at the links after a change ends: the queue of changed links is worked off
    although links that are told to go down report changes themselves, for every driver, and
    more time does not change the result. *)
Theorem state_trigger_ends (depth : nat) (s : run) :
  distinct (rt s) -> exists fuel o, forall fuel', (fuel <= fuel')%nat -> state_trigger_cb fuel' depth s = Some o.
Proof.
  intros Hd. destruct (work_changes_ends depth (set_flow (rt s) (set_state_trigger (flow (rt s)) false)) Hd) as (fuel & o & E).
  exists fuel, (match o with Fault f => Fault f | Ret r => check_state depth (set_rt s r) end).
  intros fuel' Hf. unfold state_trigger_cb. rewrite (work_changes_more _ _ _ _ _ E Hf). by destruct o.
Qed.

(** The end of [check_state], once the links were counted. *)
Definition conclude (depth : nat) (oarn osrn : bool) (n : counts) (s : run) : outcome run :=
  s ← (if want_up (running (rt s)) && bool_decide (0 < n_down n) then stop depth (set_exitcode s 1) else Ret s);
  if osrn && negb (some_running (running (rt s))) then high_stopped depth s
  else if negb oarn && all_running (running (rt s)) then Ret (set_start_timer (high_started s) false)
  else Ret s.

Lemma check_state_conclude depth (s : run) :
  check_state depth s =
  ('(r, n) ← check_links depth (map pos (links (rt s))) (rt s) (mkCounts 0 0 0);
   conclude depth (all_running (running (rt s))) (some_running (running (rt s))) n
     (set_rt s (set_all (set_some r (judge n).1) (judge n).2))).
Proof.
  unfold check_state. cbv zeta. destruct (check_links _ _ _ _) as [[r n]|]; [|done]. rewrite !bind_Ret.
  by destruct (judge n) as [some all].
Qed.

(** After [stop] the daemon neither runs nor wants to, and no link is up. *)
Lemma stop_stops depth (s s' : run) :
  want_up (running (rt s)) = true -> distinct (rt s) -> seq_ok (rt s) -> stop depth s = Ret s' ->
  want_up (running (rt s')) = false /\ all_running (running (rt s')) = false /\ exitcode s' = exitcode s /\
  forall p ii, find_link (rt s') p = Some ii -> is_down (state ii) = true.
Proof.
  intros Hw Hd Hs. unfold stop. rewrite Hw. cbn [negb]. intros (r & E & [= <-])%bind_Ret_inv. cbn [rt set_rt exitcode].
  by eapply stop_down in E as (? & ? & ?).
Qed.

Definition ended (s : run) : Prop :=
  want_up (running (rt s)) = false /\ exitcode s = 1 /\
  forall q x, find_link (rt s) q = Some x -> is_down (state x) = true.

Lemma failed_link_concludes depth (s s' : run) oarn osrn n :
  want_up (running (rt s)) = true -> distinct (rt s) -> seq_ok (rt s) -> 0 < n_down n ->
  conclude depth oarn osrn n s = Ret s' -> ended s'.
Proof.
  intros Hw Hd Hs Hn. unfold conclude. rewrite Hw, (bool_decide_true (0 < _)) by done. cbn [andb].
  intros (s2 & E2 & E)%bind_Ret_inv. apply stop_stops in E2 as (Hw2 & Ha2 & He2 & Hd2); [|done..].
  destruct (_ && _) in E.
  - unfold high_stopped, stopped in E. cbn [rt set_is_started] in E. rewrite Hw2 in E. injection E as <-. by split_and!.
  - rewrite Ha2, andb_false_r in E. injection E as <-. by split_and!.
Qed.

Lemma failed_ends depth (s s' : run) p ii :
  want_up (running (rt s)) = true -> distinct (rt s) -> seq_ok (rt s) ->
  find_link (rt s) p = Some ii -> required ii = true -> state ii = L_down \/ state ii = L_error -> spared p ->
  check_state depth s = Ret s' -> ended s'.
Proof.
  intros Hw Hdi Hs Hf Hq Hd Hp. rewrite check_state_conclude. intros ([r n] & E1 & E)%bind_Ret_inv.
  apply (check_links_wanted p) in E1 as (L & C & Dn); [|done|done|intros x Hx; congruence].
  pose proof (lo_kept _ _ _ L) as K. eapply failed_link_concludes; [..|exact E].
  - cbn. by rewrite (ck_running _ _ K).
  - by apply (lo_distinct _ _ _ L).
  - intros q x Hx. by apply (seq_ok_kept _ _ K Hs q).
  - apply (Dn (find_link_in _ _ _ Hf) ii Hf Hq).
Qed.

End Tell.

(** ** Drivers that keep to the protocol *)

Section Returning.
Context {D : Type} `{Driver D} `{TL : TableLaws D} {PD : ProtocolDriver D}.
Local Set Default Proof Using "All".

Local Abbreviation router := (Router D).
Local Abbreviation link := (LinkConnect D).
Local Abbreviation run := (RouterRun D).

(** Every link is in step with its driver. *)
Definition links_ok (r : router) : Prop := forall q x, find_link r q = Some x -> proto_inv x.

(** A link that is stopped unregisters others at most. *)
Definition only_unregisters : Prop :=
  forall (l : link) c, c ∈ table_calls l L_going_down -> exists p, c = T_unregister p.

Hypothesis unregisters : only_unregisters.

Lemma do_calls_returns cs loop changed (r : router) :
  (forall c, c ∈ cs -> exists p, c = T_unregister p) -> links_ok r ->
  exists r' b, do_calls 3 loop cs changed r = Ret (r', b) /\ links_ok r'.
Proof.
  revert changed r. induction cs as [|c cs IH]; intros changed r Hc Hr; cbn [do_calls]; [by eauto|].
  destruct (Hc c (list_elem_of_here _ _)) as [p ->].
  assert (links_ok (unregisterLink loop r p).2) as Hr1 by (intros q x Hx%find_link_unregister; by apply (Hr q)).
  destruct (unregisterLink loop r p) as [ok r1]. apply IH; [|done]. intros c Hi. apply Hc, list_elem_of_further, Hi.
Qed.

Lemma changed_ok (r r' : router) lk lk' : link_changed r r' lk lk' -> proto_inv lk' -> links_ok r -> links_ok r'.
Proof.
  intros Hc Hl Hr q x Hx. destruct (link_changed_find _ _ _ _ _ _ Hc Hx) as [[_ ->]|[_ Hx']]; [done|by apply (Hr q)].
Qed.

Lemma setState_ok (r : router) lk :
  proto_inv lk -> links_ok r -> exists r', router_setState 3 r lk L_going_down = Ret r' /\ links_ok r'.
Proof.
  intros Hl Hr. destruct (proto_step_safe (clear_signals lk) P_going_down Hl I) as (lk' & E & Hl').
  assert (router_setState 3 r lk L_going_down = Ret (handle_signals (update_link r (clear_signals lk')) (pos lk) (signals lk'))) as E1.
  { unfold router_setState. cbn [proto_step] in E. by rewrite E. }
  eexists. split; [exact E1|]. apply router_setState_changed in E1 as (lk2 & E2 & Hc).
  cbn [proto_step] in E. rewrite E in E2. injection E2 as <-. by eapply changed_ok.
Qed.

Lemma tell_link_returns loop (r : router) lk :
  proto_inv lk -> links_ok r -> exists r' b, tell_link 3 loop r lk L_going_down = Ret (r', b) /\ links_ok r'.
Proof.
  intros Hl Hr. unfold tell_link.
  assert (exists r' b, (if invokes (state lk) L_going_down then do_calls 3 loop (table_calls lk L_going_down) false r
                        else Ret (r, false)) = Ret (r', b) /\ links_ok r') as (r1 & b & -> & Hr1).
  { destruct (invokes _ _); [|by eauto]. apply do_calls_returns; [|done]. intros c. apply unregisters. }
  rewrite bind_Ret. destruct (setState_ok r1 lk Hl Hr1) as (r2 & -> & Hr2). rewrite bind_Ret. by eauto.
Qed.

Lemma stop_link_returns (r : router) lk :
  proto_inv lk -> state lk = L_up_error \/ state lk = L_going_down_error -> links_ok r ->
  exists r', stop_link 3 r lk = Ret r' /\ links_ok r'.
Proof.
  intros Hl Hs Hr. unfold stop_link.
  destruct (do_calls_returns (table_calls lk L_going_down) 0 false r (fun c => unregisters lk c) Hr) as (r1 & b & -> & Hr1).
  rewrite bind_Ret. destruct (proto_step_safe (clear_signals lk) P_stop_failed Hl Hs) as (lk' & E & Hl'). cbn [proto_step] in E.
  assert (router_stop_link 3 r1 lk = Ret (handle_signals (update_link r1 (clear_signals lk')) (pos lk) (signals lk'))) as E1.
  { unfold router_stop_link. by rewrite E. }
  eexists. split; [exact E1|]. apply router_stop_link_changed in E1 as (lk2 & E2 & Hc).
  rewrite E in E2. injection E2 as <-. by eapply changed_ok.
Qed.

Lemma stop_returns (s : run) : distinct (rt s) -> links_ok (rt s) -> exists s', stop 3 s = Ret s'.
Proof.
  intros Hd Hl. unfold stop. destruct (negb _); [by eauto|]. unfold stop_. cbv zeta. set (r0 := if want_up _ then _ else _).
  assert (links r0 = links (rt s) /\ want_up (running r0) = false) as [El Ew]
    by (unfold r0; destruct (want_up (running (set_all _ false))) eqn:?; done).
  unfold tell_all.
  destruct (tell_rounds_total 3 L_going_down no_skip false (fun _ _ _ => eq_refl) (or_intror eq_refl) links_ok
    (r_seq r0 + 1) (length (links r0)) (S (length (links r0))) (set_r_seq r0 (r_seq r0 + 1))) as (r1 & E & _).
  - intros r p ii Hr Hf _ _. apply tell_link_returns; [by apply (Hr p ii)|done].
  - split_and!; [done| |done|apply count_le]. unfold distinct. cbn [links set_r_seq]. by rewrite El.
  - lia.
  - intros q x Hx. apply (Hl q). unfold find_link in *. cbn [links set_r_seq] in Hx. by rewrite El in Hx.
  - unfold no_skip in E. rewrite E, bind_Ret. by eauto.
Qed.

Lemma check_links_returns todo (r : router) n :
  want_up (running r) = true -> links_ok r -> exists r' n', check_links 3 todo r n = Ret (r', n') /\ links_ok r'.
Proof.
  revert r n. induction todo as [|p todo IH]; intros r n Hw Hr; cbn [check_links]; [by eauto|].
  assert (exists r1 n1, check_link 3 p r n = Ret (r1, n1) /\ links_ok r1 /\ want_up (running r1) = true) as (r1 & n1 & -> & Hr1 & Hw1);
    [|rewrite bind_Ret; by apply IH].
  unfold check_link. destruct (find_link r p) as [ii|] eqn:Ef; [|by eauto 6].
  destruct (transient ii); [rewrite Hw; cbn [negb andb]; by eauto 6|].
  assert (exists r1, (if bool_decide (state ii = L_up_error) || bool_decide (state ii = L_going_down_error)
                      then stop_link 3 r ii else Ret r) = Ret r1 /\ links_ok r1 /\ want_up (running r1) = true) as (r1 & -> & Hr1 & Hw1).
  { destruct (_ || _) eqn:Eb; [|by eauto]. apply orb_true_iff in Eb.
    destruct (stop_link_returns r ii (Hr p ii Ef)) as (r1 & E & Hr1); [|done|].
    { destruct Eb as [?%bool_decide_eq_true|?%bool_decide_eq_true]; auto. }
    exists r1. split_and!; [done|done|]. pose proof (find_link_spec _ _ _ Ef) as [_ Ep]. rewrite <-Ep in Ef.
    destruct (stop_link_stops _ _ _ _ Ef E) as [[_ Kr _] _]. by rewrite Kr. }
  rewrite bind_Ret. destruct (find_link r1 p) as [i1|]; [|by eauto 6]. unfold count_link. rewrite Hw1. cbn [negb].
  destruct (state i1), (may_fail i1); by eauto 6.
Qed.

Lemma failed_returns (s : run) p ii :
  want_up (running (rt s)) = true -> distinct (rt s) -> seq_ok (rt s) -> links_ok (rt s) ->
  find_link (rt s) p = Some ii -> required ii = true -> state ii = L_down \/ state ii = L_error -> spared p ->
  returns (check_state 3 s).
Proof.
  intros Hw Hd Hs Hl Hf Hq Hst Hp. rewrite check_state_conclude.
  destruct (check_links_returns (map pos (links (rt s))) (rt s) (mkCounts 0 0 0) Hw Hl) as (r & n & E & Hr). rewrite E, bind_Ret.
  apply (check_links_wanted p) in E as (L & _ & Dn); [|done|done|intros x Hx; congruence].
  pose proof (lo_kept _ _ _ L) as K. set (s1 := set_rt s _).
  assert (0 < n_down n) as Hn by (apply (Dn (find_link_in _ _ _ Hf) ii Hf Hq)).
  assert (want_up (running (rt s1)) = true) as Hw1 by (cbn; by rewrite (ck_running _ _ K)).
  assert (distinct (rt s1)) as Hd1 by (by apply (lo_distinct _ _ _ L)).
  assert (seq_ok (rt s1)) as Hs1 by (intros q x Hx; by apply (seq_ok_kept _ _ K Hs q)).
  unfold conclude. rewrite Hw1, (bool_decide_true (0 < _)) by done. cbn [andb].
  destruct (stop_returns (set_exitcode s1 1) Hd1 Hr) as [s2 E2]. rewrite E2, bind_Ret.
  apply stop_stops in E2 as (Hw2 & Ha2 & _); [|done..].
  destruct (_ && _); [|rewrite Ha2, andb_false_r; by eexists].
  unfold high_stopped, stopped. cbn [rt set_is_started]. rewrite Hw2. by eexists.
Qed.

End Returning.

(** C35: a link the daemon needs that is down or has failed ends the daemon. When the daemon looks at its
    links and one that is neither transient, nor ignored, nor allowed to fail is down or in error, then
    the daemon is no longer wanted, the exit code is 1, and no link is up or on its way up: each has
    been told to stop, whatever the drivers reported meanwhile and whatever the methods of other links
    did to the table (that link itself they leave alone, and a link that is stopped registers none).
    That the look returns at all is shown for drivers that keep to the protocol of link.h and, when they
    are stopped, at most unregister other links; a driver that does not may abort the daemon instead. *)
Theorem failed_link_ends {D} `{Driver D} `{TL : TableLaws D} (s : RouterRun D) (p : Z) (ii : LinkConnect D) :
  want_up (running (rt s)) = true -> distinct (rt s) -> seq_ok (rt s) ->
  find_link (rt s) p = Some ii -> required ii = true -> state ii = L_down \/ state ii = L_error -> spared (D := D) p ->
  (forall depth s', check_state depth s = Ret s' ->
     want_up (running (rt s')) = false /\ exitcode s' = 1 /\
     forall q x, find_link (rt s') q = Some x -> is_down (state x) = true) /\
  (forall PD : ProtocolDriver D, links_ok (rt s) -> only_unregisters (D := D) -> returns (check_state 3 s)).
Proof.
  intros Hw Hd Hs Hf Hq Hst Hp. split; [intros depth s'; by apply (failed_ends depth s s' p ii)|].
  intros PD Hl Hu. by apply (failed_returns Hu s p ii).
Qed.

(** ** Drivers that answer at once *)

Section Immediate.
Context `{TL : TableLaws BusDriver}.
Local Set Default Proof Using "All".

Local Abbreviation router := (Router BusDriver).
Local Abbreviation link := (LinkConnect BusDriver).
Local Abbreviation run := (RouterRun BusDriver).

Lemma bus_setState_up (l : link) :
  state l = L_down -> exists l', setState 3 (clear_signals l) L_going_up = Ret l' /\ state l' = L_up.
Proof. destruct l as [k]. cbn. intros ->. destruct k; (eexists; split; [vm_compute; reflexivity|done]). Qed.

Lemma bus_setState_down (l : link) :
  state l = L_up \/ state l = L_down -> exists l', setState 3 (clear_signals l) L_going_down = Ret l' /\ state l' = L_down.
Proof. destruct l as [k]. cbn. intros [->| ->]; destruct k; (eexists; split; [vm_compute; reflexivity|done]). Qed.

Lemma bus_stop (l : link) :
  state l = L_up \/ state l = L_down -> exists l', link_stop (setState 3) (clear_signals l) = Ret l' /\ state l' = L_down.
Proof. destruct l as [k]. cbn. intros [->| ->]; destruct k; (eexists; split; [vm_compute; reflexivity|done]). Qed.

(** The links that are registered while others are started are new and take part. *)
Definition starts_new : Prop :=
  forall (l : link) c, c ∈ table_calls l L_going_up ->
  exists lk, c = T_register lk false /\ state lk = L_down /\ ignore lk || transient lk = false.

(** A router at which links are being started: those that were told are up, the others down. *)
Definition going_up (k : Z) (sig : bool) (r : router) : Prop :=
  r_seq r = k /\ running r = mkRunning true true false sig /\ links r <> [] /\
  forall q x, find_link r q = Some x ->
    ignore x || transient x = false /\ seq x <= k /\ state x = (if decide (k <= seq x) then L_up else L_down).

Lemma links_map (f : link -> link) (xs : list link) : map f xs <> [] <-> xs <> [].
Proof. by destruct xs. Qed.

Lemma going_up_changed k sig (r r' : router) lk lk' :
  going_up k sig r -> link_changed r r' lk lk' -> ignore lk || transient lk = false -> seq lk = k -> state lk' = L_up ->
  going_up k sig r'.
Proof.
  intros (Hk & Hr & Hl & Hx) Hc Hi Hs Hu. pose proof Hc as [Ei Eq El Es Er]. split_and!; [congruence|congruence| |].
  - rewrite El. unfold update_link. cbn [links set_links]. by apply links_map.
  - intros q x Hq. destruct (link_changed_find _ _ _ _ _ _ Hc Hq) as [[_ ->]|[_ Hq']]; [|by apply (Hx q)].
    injection Ei as _ _ E1 E2 _. cbn [ignore transient seq state clear_signals]. rewrite E1, E2, Eq, Hs, decide_True by done.
    by split_and!.
Qed.

Lemma register_going_up k sig (r : router) lk :
  going_up k sig r -> state lk = L_down -> ignore lk || transient lk = false ->
  exists ok r', registerLink 3 r lk false = Ret (ok, r') /\ going_up k sig r'.
Proof.
  intros Hr Hd Hi. pose proof Hr as (Hk & Hrn & Hl & Hx). unfold registerLink.
  destruct (find_link r (pos lk)) as [y|] eqn:Ef; [by eauto|]. cbn [running set_links]. rewrite Hrn. cbn [want_up some_running running_signal].
  set (r1 := set_running (set_links r (links r ++ [lk])) (mkRunning true true false sig)).
  destruct (bus_setState_up (set_seq lk (r_seq r1)) Hd) as (lk' & El & Hu).
  assert (exists r2, router_setState 3 r1 (set_seq lk (r_seq r1)) L_going_up = Ret r2) as [r2 E2]
    by (unfold router_setState; rewrite El, bind_Ret; by eexists).
  rewrite E2, bind_Ret. exists true, r2. split; [done|].
  apply router_setState_changed in E2 as (lk2 & E2 & Hc). rewrite El in E2. injection E2 as <-.
  assert (forall q x, find_link r1 q = Some x -> find_link r q = Some x \/ (q = pos lk /\ x = lk)) as Hr1.
  { intros q x. unfold r1, find_link. cbn [links set_links set_running].
    generalize (links r). intros xs. clear. induction xs as [|y ys IH]; cbn [app List.find].
    - case_bool_decide as E; [|done]. intros [= <-]. by right.
    - destruct (bool_decide _); [by left|exact IH]. }
  pose proof Hc as [Ei Eq El2 Es Er]. split_and!; [by rewrite Es|by rewrite Er| |].
  - rewrite El2. unfold update_link. cbn [links set_links]. apply links_map. unfold r1. cbn [links set_links set_running].
    by destruct (links r).
  - intros q x Hq. destruct (link_changed_find _ _ _ _ _ _ Hc Hq) as [[_ ->]|[Hn Hq']].
    + injection Ei as _ _ E1 E2 _. cbn [ignore transient seq state clear_signals set_seq] in *.
      rewrite E1, E2, Eq, decide_True by (change (r_seq r1) with (r_seq r); lia). change (r_seq r1) with (r_seq r). split_and!; [done|lia|done].
    + destruct (Hr1 q x Hq') as [?|[-> _]]; [by apply (Hx q)|done].
Qed.

Lemma do_calls_going_up k sig cs : forall ch (r : router),
  (forall c, c ∈ cs -> exists lk, c = T_register lk false /\ state lk = L_down /\ ignore lk || transient lk = false) ->
  going_up k sig r -> exists r' b, do_calls 3 1 cs ch r = Ret (r', b) /\ going_up k sig r'.
Proof.
  induction cs as [|c cs IH]; intros ch r Hn Hr; cbn [do_calls]; [by eauto|].
  destruct (Hn c (list_elem_of_here _ _)) as (lk & -> & Hd & Hi).
  destruct (register_going_up k sig r lk Hr Hd Hi) as (ok & r1 & -> & Hr1). rewrite bind_Ret.
  apply IH; [|done]. intros c Hc. apply Hn, list_elem_of_further, Hc.
Qed.

Lemma tell_going_up k sig (new : starts_new) :
  telling_returns 3 L_going_up (fun ii => ignore ii || transient ii) (going_up k sig).
Proof.
  intros r p ii Hr Hf Hsk Hlt. pose proof Hr as (Hk & _ & _ & Hx). unfold tell_link.
  destruct (Hx p ii Hf) as (Hi & _ & Hst). rewrite Hk in Hlt |- *. rewrite decide_False in Hst by lia.
  assert (exists r1 b, (if invokes (state (set_seq ii k)) L_going_up
                        then do_calls 3 1 (table_calls (set_seq ii k) L_going_up) false r else Ret (r, false))
                       = Ret (r1, b) /\ going_up k sig r1) as (r1 & b & -> & Hr1).
  { destruct (invokes _ _); [|by eauto]. apply do_calls_going_up; [|done]. intros c. apply new. }
  rewrite bind_Ret. destruct (bus_setState_up (set_seq ii k) Hst) as (lk' & El & Hu).
  assert (exists r2, router_setState 3 r1 (set_seq ii k) L_going_up = Ret r2) as [r2 E2]
    by (unfold router_setState; rewrite El, bind_Ret; by eexists).
  rewrite E2, bind_Ret. exists r2, b. split; [done|].
  apply router_setState_changed in E2 as (lk2 & E2 & Hc). rewrite El in E2. injection E2 as <-.
  by eapply going_up_changed.
Qed.

(** A router at which links are being stopped. *)
Definition being_stopped (k : Z) (x : Running) (r : router) : Prop :=
  r_seq r = k /\ running r = x /\
  forall q l, find_link r q = Some l ->
    ignore l || transient l = false /\ (state l = L_up \/ state l = L_down) /\ (k <= seq l -> state l = L_down).

Lemma being_stopped_changed k x (r r' : router) lk lk' :
  being_stopped k x r -> link_changed r r' lk lk' -> ignore lk || transient lk = false -> state lk' = L_down ->
  being_stopped k x r'.
Proof.
  intros (Hk & Hr & Hx) Hc Hi Hd. pose proof Hc as [Ei Eq El Es Er]. split_and!; [congruence|congruence|].
  intros q l Hq. destruct (link_changed_find _ _ _ _ _ _ Hc Hq) as [[_ ->]|[_ Hq']]; [|by apply (Hx q)].
  injection Ei as _ _ E1 E2 _. cbn [ignore transient seq state clear_signals]. rewrite E1, E2. split_and!; auto.
Qed.

Lemma do_calls_stopped k x cs : forall ch (r : router),
  (forall c, c ∈ cs -> registers c = false) -> being_stopped k x r ->
  exists r' b, do_calls 3 1 cs ch r = Ret (r', b) /\ being_stopped k x r'.
Proof.
  induction cs as [|c cs IH]; intros ch r Hn Hr; cbn [do_calls]; [by eauto|].
  assert (forall c, c ∈ cs -> registers c = false) as Hn' by (intros c' Hc; apply Hn, list_elem_of_further, Hc).
  pose proof (Hn c (list_elem_of_here _ _)) as Hc. pose proof Hr as (Hk & Hrn & Hx). destruct c as [lk tr|p|p]; [done| |].
  - destruct (find_link r p) as [lk|] eqn:Ef; [|by apply IH]. destruct (Hx p lk Ef) as (Hi & Hs & _).
    destruct (bus_stop lk Hs) as (lk' & El & Hd).
    assert (exists r1, router_stop_link 3 r lk = Ret r1) as [r1 E1] by (unfold router_stop_link; rewrite El, bind_Ret; by eexists).
    rewrite E1, bind_Ret. apply IH; [done|]. apply router_stop_link_changed in E1 as (lk2 & E2 & Hch). rewrite El in E2.
    injection E2 as <-. by eapply being_stopped_changed.
  - assert (being_stopped k x (unregisterLink 1 r p).2) as Hr1.
    { destruct (unregister_frame 1 r p) as [Es Er]. split_and!; [congruence|congruence|].
      intros q l Hq%find_link_unregister. by apply (Hx q). }
    destruct (unregisterLink 1 r p) as [ok r1]. by apply IH.
Qed.

Lemma tell_being_stopped k x : telling_returns 3 L_going_down no_skip (being_stopped k x).
Proof.
  intros r p ii Hr Hf _ Hlt. pose proof Hr as (Hk & _ & Hx). unfold tell_link.
  destruct (Hx p ii Hf) as (Hi & Hst & _). rewrite Hk in Hlt |- *.
  assert (exists r1 b, (if invokes (state (set_seq ii k)) L_going_down
                        then do_calls 3 1 (table_calls (set_seq ii k) L_going_down) false r else Ret (r, false))
                       = Ret (r1, b) /\ being_stopped k x r1) as (r1 & b & -> & Hr1).
  { destruct (invokes _ _); [|by eauto]. apply do_calls_stopped; [|done]. intros c. apply stop_registers. }
  rewrite bind_Ret. destruct (bus_setState_down (set_seq ii k) Hst) as (lk' & El & Hd).
  assert (exists r2, router_setState 3 r1 (set_seq ii k) L_going_down = Ret r2) as [r2 E2]
    by (unfold router_setState; rewrite El, bind_Ret; by eexists).
  rewrite E2, bind_Ret. exists r2, b. split; [done|].
  apply router_setState_changed in E2 as (lk2 & E2 & Hc). rewrite El in E2. injection E2 as <-.
  by eapply being_stopped_changed.
Qed.

(** Queued changes are only forgotten while the daemon is wanted, and when every link is down. *)
Lemma work_changes_idle (r : router) :
  (want_up (running r) = true \/ forall p ii, find_link r p = Some ii -> state ii = L_down) ->
  exists r', (forall fuel, (length (linkChanges r) <= fuel)%nat -> work_changes fuel 3 r = Some (Ret r')) /\
             links r' = links r /\ running r' = running r /\ r_seq r' = r_seq r.
Proof.
  remember (linkChanges r) as q eqn:Eq. revert r Eq. induction q as [|p q IH]; intros r Eq Hr.
  { exists r. split; [|done]. intros [|fuel] _; cbn [work_changes]; by rewrite <-Eq. }
  destruct (IH (set_changes r q) eq_refl Hr) as (r' & Hw & Hl & Hrn & Hq).
  exists r'. split; [|done]. intros [|fuel] Hf; [cbn in Hf; lia|]. cbn [work_changes]. rewrite <-Eq. cbv zeta.
  rewrite Hw by (cbn in Hf; lia). destruct (find_link (set_changes r q) p) as [l|] eqn:Ef; [|done].
  destruct Hr as [Hr|Hr]; [cbn [running set_changes]; by rewrite Hr|].
  rewrite (bool_decide_false (state l <> L_down)); [by rewrite andb_false_r|]. intros N. by apply N, (Hr p).
Qed.

(** Counting links that are all up, or all down while nothing is wanted. *)
Lemma check_links_up todo (r : router) n :
  (forall p, p ∈ todo -> exists ii, find_link r p = Some ii /\ transient ii = false /\ state ii = L_up) ->
  check_links 3 todo r n = Ret (r, mkCounts (n_up n + Z.of_nat (length todo)) (n_going n) (n_down n)).
Proof.
  revert n. induction todo as [|p todo IH]; intros n Hr; cbn [check_links length].
  { rewrite Z.add_0_r. by destruct n. }
  destruct (Hr p (list_elem_of_here _ _)) as (ii & Ef & Ht & Hs). unfold check_link.
  rewrite Ef, Ht, Hs. cbn [bool_decide orb]. rewrite !bool_decide_false by done. cbn [orb]. rewrite !bind_Ret, Ef.
  unfold count_link. rewrite Hs. rewrite bind_Ret, IH by (intros q Hq; apply Hr, elem_of_cons; auto).
  cbn [n_up n_going n_down up1]. do 3 f_equal. lia.
Qed.

Lemma check_links_down todo (r : router) n :
  (forall p ii, find_link r p = Some ii -> transient ii = false /\ state ii = L_down) ->
  exists k, check_links 3 todo r n = Ret (r, mkCounts (n_up n) (n_going n) k).
Proof.
  intros Hr. revert n. induction todo as [|p todo IH]; intros n; cbn [check_links]; [destruct n; by eexists|].
  unfold check_link. destruct (find_link r p) as [ii|] eqn:Ef; [|rewrite bind_Ret; apply IH].
  destruct (Hr p ii Ef) as [Ht Hs]. rewrite Ht, Hs. rewrite !bool_decide_false by done. cbn [orb]. rewrite !bind_Ret, Ef.
  unfold count_link. rewrite Hs, bind_Ret. destruct (_ && _); [|apply IH].
  destruct (IH (down1 n)) as [k ->]. by exists k.
Qed.

(** Every link takes part and is in the given state. *)
Definition all_in (st : LConnState) (r : router) : Prop :=
  forall p ii, find_link r p = Some ii -> ignore ii || transient ii = false /\ state ii = st.

Lemma all_in_links st (r r' : router) : links r' = links r -> all_in st r -> all_in st r'.
Proof. intros El Ha p ii Hf. apply (Ha p). unfold find_link in *. by rewrite El in Hf. Qed.

Lemma seq_ok_links (r r' : router) : links r' = links r -> r_seq r' = r_seq r -> seq_ok r -> seq_ok r'.
Proof. intros El Eq Hs p ii Hf. rewrite Eq. apply (Hs p). unfold find_link in *. by rewrite El in Hf. Qed.

Lemma start_brings_up (s : run) :
  starts_new -> want_up (running (rt s)) = false -> all_running (running (rt s)) = false ->
  links (rt s) <> [] -> distinct (rt s) -> seq_ok (rt s) -> all_in L_down (rt s) ->
  exists s1, start 3 s = Ret s1 /\ all_in L_up (rt s1) /\ seq_ok (rt s1) /\ distinct (rt s1) /\ links (rt s1) <> [] /\
    running (rt s1) = mkRunning true true false (running_signal (running (rt s))) /\
    is_started s1 = is_started s /\ exitcode s1 = exitcode s.
Proof.
  intros Hnew Hw Hall Hl Hd Hs Ha. unfold start. rewrite Hw. unfold start_, tell_all.
  set (r0 := set_some (set_want (rt s) true) true).
  destruct (tell_rounds_total 3 L_going_up (fun ii => ignore ii || transient ii) true skip_started (or_introl eq_refl)
    (going_up (r_seq r0 + 1) (running_signal (running (rt s)))) (r_seq r0 + 1) (length (links r0))
    (S (length (links r0))) (set_r_seq r0 (r_seq r0 + 1))) as (r & -> & (Hk & Hr & Hl' & Hx) & Hd' & Ht).
  - by apply tell_going_up.
  - split_and!; [done|done|done|apply count_le].
  - lia.
  - split_and!; [done| |done|].
    + unfold r0. cbn. by rewrite Hall.
    + intros q x Hq. destruct (Ha q x Hq) as [Hi Hst]. specialize (Hs q x Hq). change (r_seq r0) with (r_seq (rt s)).
      rewrite decide_False by lia. split_and!; [done|lia|done].
  - rewrite bind_Ret. eexists. split; [done|].
    assert (all_in L_up r) as Hu.
    { intros q x Hq. destruct (Hx q x Hq) as (Hi & _ & Hst). split; [done|]. destruct (Ht q x Hq) as [?|Hle]; [congruence|].
      rewrite Hk in Hle. by rewrite decide_True in Hst. }
    assert (seq_ok r) as Hso by (intros q x Hq; rewrite Hk; apply (Hx q x Hq)).
    case_decide; by split_and!.
Qed.

Lemma stop_brings_down (s : run) :
  want_up (running (rt s)) = true -> distinct (rt s) -> seq_ok (rt s) -> all_in L_up (rt s) ->
  exists s1, stop 3 s = Ret s1 /\ all_in L_down (rt s1) /\
    running (rt s1) = mkRunning (some_running (running (rt s))) false false (running_signal (running (rt s))) /\
    is_started s1 = is_started s /\ exitcode s1 = exitcode s.
Proof.
  intros Hw Hd Hs Ha. unfold stop. rewrite Hw. cbn [negb]. unfold stop_. cbv zeta. cbn [want_up running set_all set_want set_running].
  unfold tell_all. set (r0 := set_all (set_want (rt s) false) false).
  destruct (tell_rounds_total 3 L_going_down no_skip false (fun _ _ _ => eq_refl) (or_intror eq_refl)
    (being_stopped (r_seq r0 + 1) (running r0)) (r_seq r0 + 1) (length (links r0))
    (S (length (links r0))) (set_r_seq r0 (r_seq r0 + 1))) as (r & E & (Hk & Hr & Hx) & _ & Ht).
  - apply tell_being_stopped.
  - split_and!; [done|done|done|apply count_le].
  - lia.
  - split_and!; [done|done|]. intros q x Hq. destruct (Ha q x Hq) as [Hi Hst]. specialize (Hs q x Hq).
    split_and!; [done|by left|]. change (r_seq r0) with (r_seq (rt s)). lia.
  - unfold no_skip in E. rewrite E, bind_Ret. eexists. split; [done|]. split_and!; try done.
    intros q x Hq. destruct (Hx q x Hq) as (Hi & _ & Hst). split; [done|]. apply Hst.
    destruct (Ht q x Hq) as [?|Hle]; [done|]. congruence.
Qed.

Lemma state_trigger_checks (s : run) :
  (want_up (running (rt s)) = true \/ all_in L_down (rt s)) ->
  exists r, (forall fuel, (length (linkChanges (rt s)) <= fuel)%nat -> state_trigger_cb fuel 3 s = Some (check_state 3 (set_rt s r))) /\
            links r = links (rt s) /\ running r = running (rt s) /\ r_seq r = r_seq (rt s).
Proof.
  intros Hw. destruct (work_changes_idle (set_flow (rt s) (set_state_trigger (flow (rt s)) false))) as (r & Hr & Hl & Hn & Hq).
  { destruct Hw as [Hw|Hw]; [by left|right]. intros p ii Hi. by apply (Hw p). }
  exists r. split; [|done]. intros fuel Hf. unfold state_trigger_cb. by rewrite Hr.
Qed.

Lemma check_state_up (s : run) :
  all_in L_up (rt s) -> links (rt s) <> [] -> all_running (running (rt s)) = false -> is_started s = false ->
  exists s', check_state 3 s = Ret s' /\ links (rt s') = links (rt s) /\ r_seq (rt s') = r_seq (rt s) /\
    running (rt s') = mkRunning true (want_up (running (rt s))) true true /\ exitcode s' = exitcode s.
Proof.
  intros Ha Hn Hall Hst. rewrite check_state_conclude, check_links_up.
  2: { intros p Hp. destruct (find_link_some _ _ Hp) as [ii Hf]. exists ii. destruct (Ha p ii Hf) as [Hs ?].
       apply orb_false_iff in Hs as [_ ?]. done. }
  rewrite bind_Ret, length_map. assert (0 < Z.of_nat (length (links (rt s)))) as Hl by (destruct (links (rt s)); [done|cbn; lia]).
  unfold judge. cbn [n_up n_going n_down]. rewrite !Z.add_0_l, (bool_decide_true (0 < Z.of_nat _)), (bool_decide_true (0 = 0)) by done.
  cbn [andb fst snd]. unfold conclude. cbn [n_down]. rewrite andb_false_r, bind_Ret, Hall.
  cbn [rt set_rt running set_all set_some set_running some_running all_running negb andb]. rewrite andb_false_r.
  unfold high_started. cbn [is_started set_rt]. rewrite Hst. eexists. split; [done|].
  unfold started. cbn. destruct (running_signal (running (rt s))) eqn:Esig; cbn; by rewrite ?Esig.
Qed.

Lemma check_state_down (s : run) :
  all_in L_down (rt s) -> want_up (running (rt s)) = false -> all_running (running (rt s)) = false ->
  some_running (running (rt s)) = true ->
  exists s', check_state 3 s = Ret s' /\ links (rt s') = links (rt s) /\ broken s' = true /\ exitcode s' = exitcode s.
Proof.
  intros Ha Hw Hall Hsome. rewrite check_state_conclude.
  destruct (check_links_down (map pos (links (rt s))) (rt s) (mkCounts 0 0 0)) as [k ->].
  { intros p ii Hf. destruct (Ha p ii Hf) as [Hs ?]. by apply orb_false_iff in Hs as [_ ?]. }
  rewrite bind_Ret. unfold judge. cbn [n_up n_going n_down]. rewrite (bool_decide_false (0 < 0)), !andb_false_r by lia.
  rewrite !bool_decide_true by done. cbn [andb fst snd]. unfold conclude.
  cbn [rt set_rt running set_all set_some set_running some_running all_running want_up n_down]. rewrite Hw. cbn [andb].
  rewrite bind_Ret, Hsome. cbn [rt set_rt running set_all set_some set_running some_running negb andb].
  unfold high_stopped, stopped. cbn [rt set_is_started set_rt running set_all set_some set_running want_up]. rewrite Hw.
  eexists. split; [done|]. done.
Qed.

Lemma lifecycle (s : run) :
  starts_new -> running (rt s) = mkRunning false false false false -> is_started s = false -> exitcode s = 0 ->
  links (rt s) <> [] -> distinct (rt s) -> seq_ok (rt s) -> all_in L_down (rt s) ->
  exists s1 s2 s3 s4 fuel,
    start 3 s = Ret s1 /\ state_trigger_cb fuel 3 s1 = Some (Ret s2) /\
    all_in L_up (rt s2) /\ running (rt s2) = mkRunning true true true true /\
    stop 3 s2 = Ret s3 /\ state_trigger_cb fuel 3 s3 = Some (Ret s4) /\
    all_in L_down (rt s4) /\ broken s4 = true /\ exitcode s4 = 0.
Proof.
  intros Hnew Hr Hst He Hn Hd Hs Ha.
  destruct (start_brings_up s) as (s1 & E1 & Hu1 & Hs1 & Hd1 & Hl1 & Hr1 & Hst1 & He1); [done|by rewrite Hr..|done|done|done|done|].
  rewrite Hr in Hr1. cbn in Hr1.
  destruct (state_trigger_checks s1) as (r1 & Ht1 & Hl1' & Hrr1 & Hq1); [left; by rewrite Hr1|].
  destruct (check_state_up (set_rt s1 r1)) as (s2 & E2 & Hl2 & Hq2 & Hr2 & He2); cbn [rt set_rt is_started] in *.
  { by apply (all_in_links _ (rt s1)). }
  { by rewrite Hl1'. }
  { by rewrite Hrr1, Hr1. }
  { congruence. }
  rewrite Hrr1, Hr1 in Hr2. cbn in Hr2.
  assert (all_in L_up (rt s2)) as Hu2 by (apply (all_in_links _ (rt s1)); [congruence|done]).
  assert (distinct (rt s2)) as Hd2 by (unfold distinct; by rewrite Hl2, Hl1').
  destruct (stop_brings_down s2) as (s3 & E3 & Hd3 & Hr3 & _ & He3); [by rewrite Hr2|done| |done|].
  { apply (seq_ok_links (rt s1)); [congruence|congruence|done]. }
  rewrite Hr2 in Hr3. cbn in Hr3.
  destruct (state_trigger_checks s3) as (r3 & Ht3 & Hl3 & Hrr3 & _); [by right|].
  destruct (check_state_down (set_rt s3 r3)) as (s4 & E4 & Hl4 & Hb4 & He4); cbn [rt set_rt] in *.
  { by apply (all_in_links _ (rt s3)). }
  { by rewrite Hrr3, Hr3. }
  { by rewrite Hrr3, Hr3. }
  { by rewrite Hrr3, Hr3. }
  exists s1, s2, s3, s4, (max (length (linkChanges (rt s1))) (length (linkChanges (rt s3)))).
  rewrite Ht1, Ht3, E2, E4 by lia. split_and!; try done.
  - apply (all_in_links _ (rt s3)); [congruence|done].
  - cbn in *. congruence.
Qed.

End Immediate.

(** ** An example *)

(** A server registers a link of its own while it is started, and stops and unregisters it while
    it is stopped. *)
#[export] Instance demo_calls : TableCalls BusDriver := {|
  table_calls l s :=
    match kind l, s with
    | K_Server, L_going_up => [T_register (new_link K_LinkConnect (pos l + 100) 0 0 0 (mkBus ∅)) false]
    | K_Server, L_going_down => [T_stop (pos l + 100); T_unregister (pos l + 100)]
    | _, _ => []
    end |}.

#[export] Instance demo_laws : TableLaws BusDriver.
Proof.
  split.
  - intros l s c. cbn. destruct (kind l), s; intros Hc; try (by apply elem_of_nil in Hc);
      repeat (apply elem_of_cons in Hc as [->|Hc]; [cbn; lia|]); by apply elem_of_nil in Hc.
  - intros l c. cbn. destruct (kind l); intros Hc; try (by apply elem_of_nil in Hc);
      repeat (apply elem_of_cons in Hc as [->|Hc]; [done|]); by apply elem_of_nil in Hc.
Qed.

Lemma demo_starts_new : starts_new.
Proof.
  intros l c. cbn. destruct (kind l); intros Hc; try (by apply elem_of_nil in Hc).
  apply elem_of_cons in Hc as [->|Hc]; [by eexists|]. by apply elem_of_nil in Hc.
Qed.

(** A daemon with three links, as [setup] leaves it. *)
Definition demo_run : RouterRun BusDriver :=
  mkRun (mkRouter 0x1101 false
           [new_link K_LinkConnect 1 0 0 0 (mkBus ∅); new_link K_Server 2 0 0 0 (mkBus ∅);
            new_link K_LinkConnectSingle 3 0x1102 0 0 (mkBus ∅)]
           [] [] [] [] (mkPool 0 0 0 []) (mkFlow false false false false false false)
           (mkRunning false false false false) [] [] 1 [])
        false 0 0 false false.

(** The server's link comes and goes with it. *)
Example demo_start_stop :
  match start 3 demo_run with
  | Ret s1 =>
      (map pos (links (rt s1)), map state (links (rt s1)),
       match stop 3 s1 with Ret s2 => (map pos (links (rt s2)), map state (links (rt s2))) | Fault _ => ([], []) end)
  | Fault _ => ([], [], ([], []))
  end = ([1; 2; 3; 102], [L_up; L_up; L_up; L_up], ([1; 2; 3], [L_down; L_down; L_down])).
Proof. vm_compute. reflexivity. Qed.

(** A daemon in which the third link has failed; its drivers answer at once. *)
#[export] Instance prompt_calls : TableCalls Prompt := {|
  table_calls l s :=
    match s with L_going_down => if decide (pos l = 2) then [T_unregister 102] else [] | _ => [] end |}.

Lemma prompt_calls_102 (l : LinkConnect Prompt) s c : c ∈ table_calls l s -> c = T_unregister 102 /\ pos l = 2.
Proof.
  cbn. destruct s; try (by intros ?%elem_of_nil). case_decide; [|by intros ?%elem_of_nil].
  intros [->|?%elem_of_nil]%elem_of_cons; done.
Qed.

#[export] Instance prompt_laws : TableLaws Prompt.
Proof.
  split; [intros l s c [-> Hp]%prompt_calls_102; cbn; lia|]. by intros l c [-> _]%prompt_calls_102.
Qed.

Definition demo_failed : RouterRun Prompt :=
  mkRun (mkRouter 0x1101 false
           [set_state (new_link K_LinkConnect 1 0 0 0 (mkPrompt D_running)) L_up;
            set_state (new_link K_Server 2 0 0 0 (mkPrompt D_idle)) L_up;
            set_state (new_link K_LinkConnect 102 0 0 0 (mkPrompt D_running)) L_up;
            set_state (new_link K_LinkConnectSingle 3 0x1102 0 0 (mkPrompt D_idle)) L_error]
           [] [] [] [] (mkPool 0 0 0 []) (mkFlow false false false false false false)
           (mkRunning true true false false) [] [] 1 [])
        false 0 0 false false.

Lemma demo_failed_links (P : LinkConnect Prompt -> Prop) :
  Forall P (links (rt demo_failed)) -> forall p ii, find_link (rt demo_failed) p = Some ii -> P ii.
Proof. intros Hf p ii [Hi _]%find_link_spec. by eapply (proj1 (list.Forall_forall _ _)) in Hf. Qed.

Lemma failed_link_ends_witness :
  exists s', check_state 3 demo_failed = Ret s' /\
    want_up (running (rt s')) = false /\ exitcode s' = 1 /\
    forall q x, find_link (rt s') q = Some x -> is_down (state x) = true.
Proof.
  destruct (failed_link_ends demo_failed 3
    (set_state (new_link K_LinkConnectSingle 3 0x1102 0 0 (mkPrompt D_idle)) L_error)) as [He Hr].
  - reflexivity.
  - apply (bool_decide_unpack _). vm_compute. exact I.
  - intros p ii. apply (demo_failed_links (fun l => seq l <= 1)). by repeat constructor.
  - reflexivity.
  - reflexivity.
  - by right.
  - by intros l c [-> _]%prompt_calls_102.
  - destruct (Hr _) as [s' E].
    + intros p ii. apply (demo_failed_links proto_inv).
      repeat (apply list.Forall_cons; split; [first [intros _; reflexivity | intros N; by destruct N]|]). apply Forall_nil.
    + intros l c [-> _]%prompt_calls_102. by eexists.
    + exists s'. split; [done|]. by apply (He 3%nat).
Defined.
