(* ===== verification/Ini.v ===== *)
(** * Configuration files

    Models src/src/common/inih.c, the parser of INI files, with the settings of inih.h that knxd
    compiles it with, and src/src/common/inifile.cpp: [IniSection] and [IniData], the
    typed look-ups of values, [write], and the list of arguments nobody asked for.

    A string is the list of its characters ([text]).  A [std::map] is the list of its
    entries in the order of their keys.  A section of an [IniData] is known by its name;
    the sections of [add_auto] are not part of the data.  [strtod], which reads
    numbers with fractions and exponents, is a parameter of the look-up that uses it. *)

From Stdlib Require Import Ascii QArith.QArith.
From S2P Require Import Prelude CArray Common.

Local Open Scope Z_scope.

Definition text : Type := list ascii.

Definition str (s : string) : text := String.list_ascii_of_string s.

Definition newline : ascii := "010"%char.
Definition nul : ascii := "000"%char.

(** ** inih.c *)

Definition MAX_SECTION : nat := 50.
Definition MAX_NAME : nat := 50.
Definition INI_MAX_LINE : nat := 300.
Definition INI_INLINE_COMMENT_PREFIXES : text := str "#;".

Fixpoint lskip (s : text) : text :=
  match s with
  | c :: s' => if is_space c then lskip s' else s
  | [] => []
  end.

(** The loop from the end of the string. *)
Definition rstrip (s : text) : text := rev (lskip (rev s)).

(** The string in front of the place that is returned, and the string from there on. *)
Fixpoint find_chars_or_comment (was_space : bool) (chars s : text) : text * text :=
  match s with
  | [] => ([], [])
  | c :: s' =>
      if bool_decide (c ∈ chars) || (was_space && bool_decide (c ∈ INI_INLINE_COMMENT_PREFIXES)) then ([], s)
      else let (pre, rest) := find_chars_or_comment (is_space c) chars s' in (c :: pre, rest)
  end.

(** [strncpy0] into an array of the given size: what is kept of a string. *)
Definition strncpy0 (size : nat) (src : text) : text := take (size - 1) src.

(** A call of the handler: section, and name and value unless they are null. *)
Record ini_call := mkCall { ic_section : text; ic_name : option text; ic_value : option text }.

(** The variables of [ini_parse_stream]. *)
Record ini_state := mkIni { ip_section : text; ip_prev_name : text; ip_lineno : Z; ip_error : Z }.

Section Parse.
Context {U : Type} (handler : U -> ini_call -> U * bool).

(** [if (!HANDLER (...) && !error) error = lineno] *)
Definition call_handler (st : ini_state) (u : U) (c : ini_call) : ini_state * U :=
  let (u, ok) := handler u c in
  (if negb ok && bool_decide (ip_error st = 0)
   then mkIni (ip_section st) (ip_prev_name st) (ip_lineno st) (ip_lineno st) else st, u).

Definition ini_error (st : ini_state) : ini_state :=
  if decide (ip_error st = 0) then mkIni (ip_section st) (ip_prev_name st) (ip_lineno st) (ip_lineno st) else st.

Definition set_prev (st : ini_state) (n : text) : ini_state := mkIni (ip_section st) n (ip_lineno st) (ip_error st).

Definition bom : text := ["239"%char; "187"%char; "191"%char].

(** The part of a C string in front of its end. *)
Fixpoint cstr (s : text) : text :=
  match s with
  | [] => []
  | c :: s => if decide (c = nul) then [] else c :: cstr s
  end.

(** One line.  [start > line]: something was skipped. *)
Definition ini_line (st : ini_state) (u : U) (raw : text) : ini_state * U :=
  let st := mkIni (ip_section st) (ip_prev_name st) (ip_lineno st + 1) (ip_error st) in
  let line := cstr raw in
  let body := if bool_decide (ip_lineno st = 1) && bool_decide (take 3 line = bom) then drop 3 line else line in
  let start := lskip (rstrip body) in
  let skipped := bool_decide (length start < length (rstrip line))%nat in
  match start with
  | [] => (st, u)
  | c :: start1 =>
      if bool_decide (c = ";"%char) || bool_decide (c = "#"%char) then (st, u)
      else if bool_decide (ip_prev_name st <> []) && skipped then
        call_handler st u (mkCall (ip_section st) (Some (ip_prev_name st)) (Some start))
      else if decide (c = "["%char) then
        match find_chars_or_comment false (str "]") start1 with
        | (pre, e :: _) =>
            if decide (e = "]"%char) then
              let st := mkIni (strncpy0 MAX_SECTION pre) [] (ip_lineno st) (ip_error st) in
              call_handler st u (mkCall (ip_section st) None None)
            else (ini_error st, u)
        | (_, []) => (ini_error st, u)
        end
      else
        let named (v : text) (pre : text) :=
          let name := rstrip pre in
          let (value, _) := find_chars_or_comment false [] v in
          let value := rstrip (lskip value) in
          call_handler (set_prev st (strncpy0 MAX_NAME name)) u (mkCall (ip_section st) (Some name) (Some value)) in
        let empty :=
          let (pre, _) := find_chars_or_comment false [] start in
          let name := rstrip pre in
          if bool_decide (name <> []) && forallb (fun c => negb (bool_decide (c ∈ str (String "009" " ")))) name
          then call_handler (set_prev st (strncpy0 MAX_NAME name)) u (mkCall (ip_section st) (Some name) None)
          else (ini_error st, u) in
        match find_chars_or_comment false (str "=:") start with
        | (pre, e :: v) => if bool_decide (e = "="%char) || bool_decide (e = ":"%char) then named v pre else empty
        | (_, []) => empty
        end
  end.

Fixpoint ini_lines (st : ini_state) (u : U) (ls : list text) : ini_state * U :=
  match ls with
  | [] => (st, u)
  | l :: ls => let (st, u) := ini_line st u l in ini_lines st u ls
  end.

End Parse.

(** ** The reader *)

(** The lines of a file; what follows the last newline is one if there is something. *)
Fixpoint file_lines (cur f : text) : list text :=
  match f with
  | [] => match cur with [] => [] | _ => [rev cur] end
  | c :: f => if decide (c = newline) then rev cur :: file_lines [] f else file_lines (c :: cur) f
  end.

(** [inidata_reader]: [getline] into 300 bytes fails for a longer line, and this is taken for the
    end of the file. *)
Fixpoint read_lines (ls : list text) : list text :=
  match ls with
  | [] => []
  | l :: ls => if decide (length l < INI_MAX_LINE)%nat then l :: read_lines ls else []
  end.

Definition ini_parse_stream {U} (handler : U -> ini_call -> U * bool) (u : U) (file : text) : Z * U :=
  let (st, u) := ini_lines handler (mkIni [] [] 0 0) u (read_lines (file_lines [] file)) in (ip_error st, u).

(** ** Maps *)

Fixpoint text_lt (a b : text) : bool :=
  match a, b with
  | [], [] => false
  | [], _ :: _ => true
  | _ :: _, [] => false
  | x :: a, y :: b =>
      if decide (N_of_ascii x < N_of_ascii y)%N then true else if decide (x = y) then text_lt a b else false
  end.

Definition omap (V : Type) : Type := list (text * V).

Fixpoint find {V} (k : text) (m : omap V) : option V :=
  match m with
  | [] => None
  | (k', v) :: m => if decide (k = k') then Some v else find k m
  end.

(** Insertion in front of the first greater key. *)
Fixpoint insert_ordered {V} (k : text) (v : V) (m : omap V) : omap V :=
  match m with
  | [] => [(k, v)]
  | (k', v') :: m' => if text_lt k k' then (k, v) :: m else (k', v') :: insert_ordered k v m'
  end.

(** [emplace]: nothing happens if the key is there. *)
Definition emplace {V} (k : text) (v : V) (m : omap V) : omap V * bool :=
  match find k m with Some _ => (m, false) | None => (insert_ordered k v m, true) end.

Fixpoint update {V} (k : text) (f : V -> V) (m : omap V) : omap V :=
  match m with
  | [] => []
  | (k', v) :: m => if decide (k = k') then (k', f v) :: m else (k', v) :: update k f m
  end.

(** ** [IniSection] and [IniData] *)

(** Values with a mark that says whether they were asked for; sections likewise. *)
Definition IniSection : Type := omap (text * bool).

Definition new_section : IniSection * bool := ([], false).

Record IniData := mkData { sections : omap (IniSection * bool); read_only : bool }.

Definition ini_new : IniData := mkData [] false.

Definition section_add (name : text) (value : option text) (s : IniSection) : IniSection * bool :=
  emplace name (default (str "TRUE") value, false) s.

(** [IniData::add]: the section is made if it is not there; a section line for one that is there
    is refused, a further value is not. *)
Definition ini_add (d : IniData) (c : ini_call) : IniData * bool :=
  let (secs, new) := emplace (ic_section c) new_section (sections d) in
  match ic_name c with
  | None => (mkData secs (read_only d), new)
  | Some n =>
      match find (ic_section c) secs with
      | Some (s, seen) =>
          let (s, ok) := section_add n (ic_value c) s in
          (mkData (update (ic_section c) (fun _ => (s, seen)) secs) (read_only d), ok)
      | None => (mkData secs (read_only d), false)
      end
  end.

Definition ini_parse (file : text) (d : IniData) : Z * IniData :=
  let (e, d) := ini_parse_stream ini_add d file in (e, mkData (sections d) true).

(** [IniSection::operator[]] and an assignment to its result: a new entry is made only in a section of
    [add_auto], or before the file was read. *)
Definition section_set (autogenerated ro : bool) (name v : text) (s : IniSection) : outcome IniSection :=
  let set := update name (fun e => (v, e.2)) in
  if negb autogenerated && ro then _ ← assert_ (bool_decide (find name s <> None)); Ret (set s)
  else Ret (set (emplace name ([], false) s).1).

(** [IniData::add_auto]: name and contents of the new section. *)
Definition add_auto (section : text) : text * IniSection := (section ++ str "_", []).

(** [IniData::operator[]]: a missing section is made, and marked. *)
Definition ini_index (d : IniData) (name : text) : IniData :=
  mkData (update name (fun s => (s.1, true)) (emplace name new_section (sections d)).1) (read_only d).

Definition section_of (d : IniData) (name : text) : IniSection :=
  match find name (sections d) with Some (s, _) => s | None => [] end.

Definition mark (sec name : text) (d : IniData) : IniData :=
  mkData (update sec (fun s => (update name (fun v => (v.1, true)) s.1, s.2)) (sections d)) (read_only d).

(** [IniSection::value], following [use] at most [fuel] times; [None] if this is not enough. *)
Fixpoint value (fuel : nat) (d : IniData) (sec name : text) (def : text) : option (IniData * text) :=
  match find name (section_of d sec) with
  | Some (v, _) => Some (mark sec name d, v)
  | None =>
      match find (str "use") (section_of d sec) with
      | None => Some (d, def)
      | Some (u, _) =>
          match fuel with
          | O => None
          | S fuel => value fuel (ini_index d u) u name def
          end
      end
  end.

(** ** Typed values *)

(** [value (name, bool)] *)
Definition bool_of (v : text) (def : bool) : bool :=
  if decide (v = []) then def
  else if decide (v = str "Y") then true else if decide (v = str "N") then false
  else if decide (v = str "y") then true else if decide (v = str "n") then false
  else if decide (v = str "1") then true else if decide (v = str "0") then false
  else if decide (v = str "true") then true else if decide (v = str "false") then false
  else if decide (v = str "True") then true else if decide (v = str "False") then false
  else if decide (v = str "TRUE") then true else if decide (v = str "FALSE") then false
  else def.

Definition digit_in (base : Z) (c : ascii) : option Z :=
  let n := Z.of_N (N_of_ascii c) in
  let d := if decide (48 <= n <= 57) then n - 48
           else if decide (97 <= n <= 122) then n - 87
           else if decide (65 <= n <= 90) then n - 55 else 99 in
  if decide (d < base) then Some d else None.

(** The digits in front, their value, and what is left. *)
Fixpoint digits (base acc : Z) (s : text) : Z * text :=
  match s with
  | c :: s' => match digit_in base c with Some d => digits base (acc * base + d) s' | None => (acc, s) end
  | [] => (acc, [])
  end.

Definition starts_digit (base : Z) (s : text) : bool :=
  match s with c :: _ => bool_decide (digit_in base c <> None) | [] => false end.

(** [std::stoi (v, &pos, 0)]: the number and what is left.  No number and a number that does not
    fit are exceptions, which nothing catches. *)
Definition stoi0 (v : text) : outcome (Z * text) :=
  let s := lskip v in
  let '(sign, s) := match s with
                    | c :: s' => if decide (c = "-"%char) then (-1, s') else if decide (c = "+"%char) then (1, s') else (1, s)
                    | [] => (1, s)
                    end in
  let '(base, s) :=
    match s with
    | c :: x :: s' =>
        if bool_decide (c = "0"%char) && (bool_decide (x = "x"%char) || bool_decide (x = "X"%char)) && starts_digit 16 s'
        then (16, s') else if decide (c = "0"%char) then (8, s) else (10, s)
    | [c] => if decide (c = "0"%char) then (8, s) else (10, s)
    | [] => (10, s)
    end in
  if starts_digit base s then
    let (n, rest) := digits base 0 s in
    if decide (- 2147483648 <= sign * n <= 2147483647) then Ret (sign * n, rest) else Fault Aborted
  else Fault Aborted.

(** [value (name, int)] *)
Definition int_of (v : text) (def : Z) : outcome Z :=
  if decide (v = []) then Ret def
  else '(res, rest) ← stoi0 v; Ret (match rest with [] => res | _ => def end).

(** [value (name, double)]: the result of [strtod] is stored in an [int]. *)
Definition double_of (strtod : text -> option Q * text) (v : text) (def : Q) : outcome Q :=
  if decide (v = []) then Ret def
  else
    let (q, rest) := strtod v in
    match q with
    | None => Fault Overflow
    | Some q =>
        let n := Z.quot (Qnum q) (Zpos (Qden q)) in
        if decide (- 2147483648 <= n <= 2147483647) then Ret (match rest with [] => inject_Z n | _ => def end)
        else Fault Overflow
    end.

(** [IniSection::sub]: the name of the section. *)
Definition sub (fuel : nat) (d : IniData) (sec name : text) (force : bool) : option (IniData * text) :=
  match value fuel d sec name [] with
  | None => None
  | Some (d, n) => if force && bool_decide (n = []) then Some (d, sec) else Some (ini_index d n, n)
  end.

(** ** Writing *)

Definition section_write (s : IniSection) : text :=
  concat (map (fun '(k, (v, _)) => k ++ str " = " ++ v ++ [newline]) s).

Definition ini_write (d : IniData) : text :=
  concat (map (fun '(k, (s, _)) => str "[" ++ k ++ str "]" ++ [newline] ++ section_write s) (sections d)).

(** ** Arguments nobody asked for *)

(** The entries [list_unseen] passes to its viewer: those of sections that were looked at. *)
Definition section_unseen (s : IniSection) : list (text * text) :=
  map (fun '(k, (v, _)) => (k, v)) (List.filter (fun '(_, (_, seen)) => negb seen) s).

Definition list_unseen (d : IniData) : list (text * text * text) :=
  concat (map (fun '(k, (s, _)) => map (fun '(n, v) => (k, n, v)) (section_unseen s))
            (List.filter (fun '(_, (_, seen)) => seen) (sections d))).

(** [unseen_lister] of router.cpp makes [Router::setup] fail for each of them. *)
Definition unseen_refused (unknown_ok : bool) (d : IniData) : bool :=
  existsb (fun _ => negb unknown_ok) (list_unseen d).
