(* ===== verification/IniSpec.v ===== *)
(** * Configuration files: theorems

    About [Ini]: maps stay in order; a configuration that is written is read back, and which ones
    are; a long line hides the rest of a file, a continued line is always refused; the look-up of a
    value ends if sections do not use each other in a circle; the entry [use] itself
    is never counted as used. *)

From Stdlib Require Import Ascii QArith.QArith Sorting.Sorted.
From S2P Require Import Prelude CArray Common Ini.

Local Open Scope Z_scope.

(** ** The order of the keys *)

Lemma text_lt_irrefl a : text_lt a a = false.
Proof. induction a as [|x a IH]; [done|]. cbn. rewrite decide_False by lia. by rewrite decide_True. Qed.

Lemma N_of_ascii_inj x y : N_of_ascii x = N_of_ascii y -> x = y.
Proof. intros E. by rewrite <-(ascii_N_embedding x), <-(ascii_N_embedding y), E. Qed.

Lemma text_lt_asym a b : text_lt a b = true -> text_lt b a = false.
Proof.
  revert b. induction a as [|x a IH]; intros [|y b]; cbn; try done.
  destruct (decide (N_of_ascii x < N_of_ascii y)%N); [rewrite (decide_False (P := (N_of_ascii y < N_of_ascii x)%N)) by lia|].
  - intros _. by rewrite decide_False by (intros ->; lia).
  - destruct (decide (x = y)) as [->|]; [|done]. rewrite decide_False by lia. rewrite decide_True by done. apply IH.
Qed.

Lemma text_lt_trans a b c : text_lt a b = true -> text_lt b c = true -> text_lt a c = true.
Proof.
  revert b c. induction a as [|x a IH]; intros [|y b] [|z c]; cbn; try done.
  destruct (decide (N_of_ascii x < N_of_ascii y)%N), (decide (N_of_ascii y < N_of_ascii z)%N).
  - by rewrite decide_True by lia.
  - intros _. destruct (decide (y = z)) as [->|]; [by rewrite decide_True|done].
  - destruct (decide (x = y)) as [->|]; [|done]. by rewrite decide_True.
  - destruct (decide (x = y)) as [->|]; [|done]. destruct (decide (y = z)) as [->|]; [|done].
    rewrite decide_False by done. apply IH.
Qed.

Lemma text_lt_total a b : a <> b -> text_lt a b = false -> text_lt b a = true.
Proof.
  revert b. induction a as [|x a IH]; intros [|y b]; cbn; try done.
  intros Hn. destruct (decide (N_of_ascii x < N_of_ascii y)%N); [done|].
  destruct (decide (x = y)) as [->|Hxy].
  - rewrite decide_False by lia. rewrite decide_True by done. apply IH. congruence.
  - intros _. destruct (decide (N_of_ascii y < N_of_ascii x)%N); [done|].
    destruct Hxy. apply N_of_ascii_inj. lia.
Qed.

(** ** Maps *)

Section Maps.
Context {V : Type}.
Implicit Types m : omap V.

(** The entries are in the order of their keys, which are different. *)
Definition ordered : omap V -> Prop := StronglySorted (fun a b => text_lt a.1 b.1 = true).

Lemma insert_last k v m : Forall (fun a => text_lt a.1 k = true) m -> insert_ordered k v m = m ++ [(k, v)].
Proof.
  induction 1 as [|[k' v'] m Hk _ IH]; [done|]. cbn in *. by rewrite (text_lt_asym _ _ Hk), IH.
Qed.

Lemma find_absent k m : Forall (fun a => text_lt a.1 k = true) m -> find k m = None.
Proof.
  induction 1 as [|[k' v'] m Hk _ IH]; [done|]. cbn in *. rewrite decide_False; [done|].
  intros ->. by rewrite text_lt_irrefl in Hk.
Qed.

Lemma find_last k v m : Forall (fun a => text_lt a.1 k = true) m -> find k (m ++ [(k, v)]) = Some v.
Proof.
  induction 1 as [|[k' v'] m Hk _ IH]; cbn in *; [by rewrite decide_True|]. rewrite decide_False; [done|].
  intros ->. by rewrite text_lt_irrefl in Hk.
Qed.

Lemma update_last k v f m : Forall (fun a => text_lt a.1 k = true) m -> update k f (m ++ [(k, v)]) = m ++ [(k, f v)].
Proof.
  induction 1 as [|[k' v'] m Hk _ IH]; cbn in *; [by rewrite decide_True|]. rewrite decide_False; [by rewrite IH|].
  intros ->. by rewrite text_lt_irrefl in Hk.
Qed.

Lemma find_some_in k v m : find k m = Some v -> (k, v) ∈ m.
Proof.
  induction m as [|[k' v'] m IH]; [done|]. cbn. case_decide as E; [intros [= ->]; subst; by left|]. intros ?. right. auto.
Qed.

Lemma find_none_keys k m : find k m = None -> Forall (fun a => a.1 <> k) m.
Proof.
  induction m as [|[k' v'] m IH]; [constructor|]. cbn. case_decide; [done|]. intros ?. constructor; [cbn; congruence|auto].
Qed.

Lemma insert_ordered_forall (P : text * V -> Prop) k v m :
  P (k, v) -> Forall P m -> Forall P (insert_ordered k v m).
Proof.
  intros Hk. induction 1 as [|[k' v'] m Hp Hm IH]; cbn; [by repeat constructor|].
  destruct (text_lt k k'); repeat constructor; auto.
Qed.

Lemma insert_ordered_ok k v m : ordered m -> find k m = None -> ordered (insert_ordered k v m).
Proof.
  unfold ordered. induction 1 as [|[k' v'] m Hs IH Hk]; cbn; [by repeat constructor|].
  case_decide as E; [done|]. intros Hf. destruct (text_lt k k') eqn:El.
  - constructor; [by constructor|]. constructor; [done|]. eapply List.Forall_impl; [|exact Hk]. intros [k2 v2] H2.
    cbn in *. by eapply text_lt_trans.
  - constructor; [auto|]. apply insert_ordered_forall; [|done]. cbn. by apply text_lt_total.
Qed.

Lemma emplace_ordered k v m : ordered m -> ordered (emplace k v m).1.
Proof. intros Hm. unfold emplace. destruct (find k m) eqn:E; [done|]. by apply insert_ordered_ok. Qed.

Lemma update_keys k f m : map fst (update k f m) = map fst m.
Proof. induction m as [|[k' v] m IH]; [done|]. cbn. case_decide; cbn; congruence. Qed.

Lemma ordered_keys m m' : map fst m = map fst m' -> ordered m -> ordered m'.
Proof.
  intros E Hm. revert m' E. induction Hm as [|[k v] m Hs IH Hk]; intros [|[k' v'] m'] E; try done; [constructor|].
  injection E as <- E. constructor; [by apply IH|]. clear - E Hk. revert m' E.
  induction Hk as [|[k1 v1] m Hk _ IH]; intros [|[k2 v2] m'] E; try done; constructor; injection E as E1 E2.
  - cbn in *. by subst.
  - by apply IH.
Qed.

Lemma update_ordered k f m : ordered m -> ordered (update k f m).
Proof. apply ordered_keys. by rewrite update_keys. Qed.

(** The keys in front of an entry are smaller than its own. *)
Lemma ordered_front m1 k v m2 : ordered (m1 ++ (k, v) :: m2) -> Forall (fun a => text_lt a.1 k = true) m1.
Proof.
  unfold ordered. induction m1 as [|a m1 IH]; [constructor|]. cbn. intros Hs. inversion_clear Hs as [|? ? Hs' Hf].
  constructor; [|by apply IH]. apply Forall_app in Hf as [_ Hf]. by inversion_clear Hf.
Qed.

End Maps.

(** ** Lines *)

Lemma file_lines_line l f : newline ∉ l -> file_lines [] (l ++ newline :: f) = l :: file_lines [] f.
Proof.
  assert (forall cur, newline ∉ l -> file_lines cur (l ++ newline :: f) = (rev cur ++ l) :: file_lines [] f) as H.
  { induction l as [|c l IH]; intros cur Hn; cbn [file_lines app]; [by rewrite decide_True, app_nil_r|].
    apply not_elem_of_cons in Hn as [Hc Hn]. rewrite decide_False by congruence. rewrite IH by done.
    cbn [rev]. by rewrite <-app_assoc. }
  intros Hn. by rewrite H.
Qed.

Lemma read_lines_short ls : Forall (fun l => (length l < INI_MAX_LINE)%nat) ls -> read_lines ls = ls.
Proof. induction 1 as [|l ls Hl _ IH]; [done|]. cbn [read_lines]. by rewrite decide_True, IH. Qed.

Lemma cstr_whole l : nul ∉ l -> cstr l = l.
Proof.
  induction l as [|c l IH]; [done|]. intros [Hc Hl]%not_elem_of_cons. cbn [cstr]. rewrite decide_False by congruence. by rewrite IH.
Qed.

(** A string without space at its start, or at its end. *)
Definition trimmed_left (s : text) : bool := match s with c :: _ => negb (is_space c) | [] => true end.
Definition trimmed_right (s : text) : bool := trimmed_left (rev s).

Lemma lskip_trimmed s : trimmed_left s = true -> lskip s = s.
Proof. destruct s as [|c s]; [done|]. cbn. by destruct (is_space c). Qed.

Lemma rstrip_trimmed s : trimmed_right s = true -> rstrip s = s.
Proof. intros Hs. unfold rstrip. rewrite lskip_trimmed by done. apply rev_involutive. Qed.

Lemma rstrip_space s c : is_space c = true -> rstrip (s ++ [c]) = rstrip s.
Proof. intros Hc. unfold rstrip. rewrite rev_app_distr. cbn. by rewrite Hc. Qed.

Lemma trimmed_right_app s t : t <> [] -> trimmed_right (s ++ t) = trimmed_right t.
Proof.
  intros Ht. unfold trimmed_right. rewrite rev_app_distr. destruct (rev t) eqn:E; [|done].
  destruct Ht. by rewrite <-(rev_involutive t), E.
Qed.

(** Nothing in the string ends it, when it follows a space or not. *)
Definition whole (was_space : bool) (chars s : text) : bool := bool_decide (find_chars_or_comment was_space chars s = (s, [])).

Fixpoint last_space (was_space : bool) (s : text) : bool :=
  match s with [] => was_space | c :: s => last_space (is_space c) s end.

Lemma whole_cons ws chars c s :
  whole ws chars (c :: s) = true <->
  (bool_decide (c ∈ chars) || (ws && bool_decide (c ∈ INI_INLINE_COMMENT_PREFIXES)) = false /\ whole (is_space c) chars s = true).
Proof.
  unfold whole. rewrite !bool_decide_eq_true. cbn [find_chars_or_comment]. destruct (_ || _); [by split; [|intros []]|].
  destruct (find_chars_or_comment (is_space c) chars s) as [pre rest]. split; [intros [= -> ->]; done|by intros [_ [= -> ->]]].
Qed.

Lemma find_app ws chars s t :
  whole ws chars s = true ->
  find_chars_or_comment ws chars (s ++ t) =
  (let (pre, rest) := find_chars_or_comment (last_space ws s) chars t in (s ++ pre, rest)).
Proof.
  revert ws. induction s as [|c s IH]; intros ws; cbn [app last_space].
  { intros _. by destruct (find_chars_or_comment ws chars t). }
  intros [Hc Hs]%whole_cons. cbn [find_chars_or_comment]. rewrite Hc, IH by done.
  by destruct (find_chars_or_comment _ chars t).
Qed.

Lemma find_whole ws chars s : whole ws chars s = true -> find_chars_or_comment ws chars s = (s, []).
Proof. apply bool_decide_eq_true. Qed.

Lemma find_stop ws chars c t : bool_decide (c ∈ chars) = true -> find_chars_or_comment ws chars (c :: t) = ([], c :: t).
Proof. intros Hc. cbn. by rewrite Hc. Qed.

(** ** What can be written *)

Definition printable (s : text) : bool := forallb (fun c => negb (bool_decide (c = newline)) && negb (bool_decide (c = nul))) s.

Lemma printable_spec s : printable s = true -> (newline ∉ s) /\ (nul ∉ s).
Proof.
  unfold printable. rewrite forallb_forall. intros H.
  split; intros Hi%list_elem_of_In%H; rewrite bool_decide_true in Hi by done; by rewrite ?andb_false_r in Hi.
Qed.

(** The name of a section. *)
Definition section_name_ok (k : text) : bool :=
  printable k && whole false (str "]") k && bool_decide (length k < MAX_SECTION)%nat.

(** The name of an entry: not taken for a comment or a section, without [=], [:] or a comment. *)
Definition name_ok (k : text) : bool :=
  match k with
  | c :: _ => negb (bool_decide (c ∈ str ";#[")) && negb (is_space c)
  | [] => false
  end && printable k && trimmed_right k && whole false (str "=:") k.

Definition value_ok (v : text) : bool :=
  printable v && trimmed_left v && trimmed_right v && whole true [] v.

Definition entry_line (k v : text) : text := k ++ str " = " ++ v.

Definition entry_ok (e : text * (text * bool)) : bool :=
  name_ok e.1 && value_ok e.2.1 && bool_decide (length (entry_line e.1 e.2.1) < INI_MAX_LINE)%nat.

Definition section_ok (e : text * (IniSection * bool)) : Prop :=
  section_name_ok e.1 = true /\ ordered e.2.1 /\ Forall (fun x => entry_ok x = true) e.2.1.

(** An ordered configuration whose names and values can be written in a line. *)
Record data_ok (d : IniData) : Prop := {
  do_ordered : ordered (sections d);
  do_sections : Forall section_ok (sections d)
}.

(** ** Reading the lines back *)

Section Lines.
Context {U : Type} (handler : U -> ini_call -> U * bool).

(** The state after a line that is accepted. *)
Lemma section_line (st : ini_state) (u u' : U) k :
  section_name_ok k = true -> handler u (mkCall k None None) = (u', true) ->
  ini_line handler st u (str "[" ++ k ++ str "]") = (mkIni k [] (ip_lineno st + 1) (ip_error st), u').
Proof.
  unfold section_name_ok. intros [[Hp Hw]%andb_true_iff Hl%bool_decide_eq_true]%andb_true_iff Hh.
  apply printable_spec in Hp as [_ Hnul].
  assert (trimmed_right (str "[" ++ k ++ str "]") = true) as Ht by (rewrite app_assoc; by apply trimmed_right_app).
  unfold ini_line. cbv zeta.
  rewrite cstr_whole.
  2: { cbn. rewrite elem_of_cons, elem_of_app. intros [?|[?|?%list_elem_of_singleton]]; done. }
  cbn [ip_lineno ip_section ip_prev_name ip_error].
  replace (bool_decide (take 3 (str "[" ++ k ++ str "]") = bom)) with false by (symmetry; by apply bool_decide_eq_false).
  rewrite andb_false_r, rstrip_trimmed by done. rewrite lskip_trimmed by done. cbn [app str String.list_ascii_of_string].
  rewrite !(bool_decide_false ("["%char = _)) by done. cbn [orb].
  rewrite (bool_decide_false (_ < _)%nat) by lia. rewrite andb_false_r, decide_True by done.
  change (k ++ ["]"%char]) with (k ++ str "]"). rewrite find_app by done.
  change (find_chars_or_comment _ _ (str "]")) with (@nil ascii, ["]"%char]). cbv beta iota. rewrite app_nil_r, decide_True by done.
  unfold strncpy0. rewrite take_ge by (unfold MAX_SECTION in *; lia).
  unfold call_handler. cbn. by rewrite Hh.
Qed.

Lemma find_equals ws t : find_chars_or_comment ws (str "=:") (" "%char :: "="%char :: t) = ([" "%char], "="%char :: t).
Proof. by destruct ws. Qed.

(** What is left of the line of an entry. *)
Definition entry_rest (v : text) : text := match v with [] => [] | _ => " "%char :: v end.

Definition entry_stripped (k v : text) : text := k ++ " "%char :: "="%char :: entry_rest v.

Lemma entry_rstrip k v : trimmed_right v = true -> rstrip (entry_line k v) = entry_stripped k v.
Proof.
  unfold entry_line, entry_stripped. destruct v as [|c v]; intros Hv.
  - rewrite app_nil_r. change (k ++ str " = ") with (k ++ [" "%char; "="%char] ++ [" "%char]).
    rewrite app_assoc, rstrip_space by done. apply rstrip_trimmed. by apply trimmed_right_app.
  - apply rstrip_trimmed. rewrite trimmed_right_app by done.
    etransitivity; [by apply (trimmed_right_app [" "%char; "="%char; " "%char] (c :: v))|done].
Qed.

Lemma entry_value v :
  value_ok v = true ->
  rstrip (lskip (find_chars_or_comment false [] (entry_rest v)).1) = v.
Proof.
  unfold value_ok. intros [[[_ Hl]%andb_true_iff Hr]%andb_true_iff Hw]%andb_true_iff.
  destruct v as [|c v]; [done|]. cbn [entry_rest]. rewrite (find_whole false [] (" "%char :: c :: v)) by (by apply whole_cons).
  cbn [fst]. change (lskip (" "%char :: c :: v)) with (lskip (c :: v)). rewrite lskip_trimmed by done. by apply rstrip_trimmed.
Qed.

Lemma entry_line_read (st : ini_state) (u u' : U) k v :
  name_ok k = true -> value_ok v = true -> 1 <= ip_lineno st ->
  handler u (mkCall (ip_section st) (Some k) (Some v)) = (u', true) ->
  ini_line handler st u (entry_line k v) =
  (mkIni (ip_section st) (strncpy0 MAX_NAME k) (ip_lineno st + 1) (ip_error st), u').
Proof.
  intros Hk Hv Hn Hh. pose proof Hv as Hv'.
  unfold name_ok in Hk. apply andb_true_iff in Hk as [[[Hc Hkp]%andb_true_iff Hkr]%andb_true_iff Hkw].
  unfold value_ok in Hv'. apply andb_true_iff in Hv' as [[[Hvp _]%andb_true_iff Hvr]%andb_true_iff _].
  destruct (printable_spec _ Hkp) as [_ Hk0], (printable_spec _ Hvp) as [_ Hv0].
  unfold ini_line. cbv zeta. rewrite cstr_whole.
  2: { unfold entry_line. rewrite !elem_of_app. intros [?|[E|?]]; try done.
       by apply (bool_decide_eq_true_2 (nul ∈ str " = ")) in E. }
  cbn [ip_lineno ip_section ip_prev_name ip_error]. rewrite (bool_decide_false (_ = 1)) by lia. cbn [andb].
  rewrite entry_rstrip by done. pose proof (entry_value v Hv) as Ev. unfold entry_stripped.
  destruct k as [|c k]; [done|]. apply andb_true_iff in Hc as [Hc Hs].
  rewrite lskip_trimmed by done. rewrite (bool_decide_false (_ < _)%nat) by lia. rewrite andb_false_r. cbn [app].
  apply negb_true_iff, bool_decide_eq_false in Hc.
  rewrite !(bool_decide_false (c = _)), decide_False by (intros ->; apply Hc; by apply (bool_decide_unpack _)). cbn [orb].
  change (c :: k ++ ?t) with ((c :: k) ++ t).
  rewrite find_app by done. rewrite find_equals. cbv beta iota. cbn [bool_decide orb].
  rewrite (bool_decide_true ("="%char = "="%char)) by done. cbn [orb].
  destruct (find_chars_or_comment false [] (entry_rest v)) as [val rst]. cbn [fst] in Ev. rewrite Ev.
  rewrite rstrip_space, rstrip_trimmed by done. unfold call_handler. cbn [ip_section set_prev]. by rewrite Hh.
Qed.
End Lines.

(** ** Adding at the end *)

Lemma ini_add_section secs ro k :
  Forall (fun a => text_lt a.1 k = true) secs ->
  ini_add (mkData secs ro) (mkCall k None None) = (mkData (secs ++ [(k, new_section)]) ro, true).
Proof. intros Hk. unfold ini_add, emplace. cbn [sections ic_section]. by rewrite find_absent, insert_last. Qed.

Lemma ini_add_entry secs ro k s n v :
  Forall (fun a => text_lt a.1 k = true) secs -> Forall (fun a => text_lt a.1 n = true) s ->
  ini_add (mkData (secs ++ [(k, (s, false))]) ro) (mkCall k (Some n) (Some v)) =
  (mkData (secs ++ [(k, (s ++ [(n, (v, false))], false))]) ro, true).
Proof.
  intros Hk Hn. unfold ini_add, emplace. cbn [sections ic_section ic_name ic_value read_only]. rewrite !find_last by done.
  unfold section_add, emplace. cbn [default from_option id]. rewrite find_absent, insert_last by done. by rewrite update_last.
Qed.

(** ** The round trip *)

Definition unmark_section (s : IniSection) : IniSection := map (fun '(k, (v, _)) => (k, (v, false))) s.
Definition unmark (secs : omap (IniSection * bool)) : omap (IniSection * bool) :=
  map (fun '(k, (s, _)) => (k, (unmark_section s, false))) secs.

Definition entries_lines (s : IniSection) : list text := map (fun '(k, (v, _)) => entry_line k v) s.
Definition section_lines (e : text * (IniSection * bool)) : list text :=
  (str "[" ++ e.1 ++ str "]") :: entries_lines e.2.1.

Lemma read_entries es s0 secs ro k st rest :
  Forall (fun x => entry_ok x = true) es -> ordered (s0 ++ es) ->
  Forall (fun a => text_lt a.1 k = true) secs ->
  ip_section st = k -> 1 <= ip_lineno st -> ip_error st = 0 ->
  exists st', ini_lines ini_add st (mkData (secs ++ [(k, (s0, false))]) ro) (entries_lines es ++ rest) =
              ini_lines ini_add st' (mkData (secs ++ [(k, (s0 ++ unmark_section es, false))]) ro) rest /\
              1 <= ip_lineno st' /\ ip_error st' = 0.
Proof.
  intros He. revert s0 st. induction He as [|[n [v b]] es Hn Hes IH]; intros s0 st Ho Hk Hs Hl Hz.
  { exists st. by rewrite app_nil_r. }
  unfold entry_ok in Hn. cbn [fst snd] in Hn. apply andb_true_iff in Hn as [[Hn Hv]%andb_true_iff _].
  change (entries_lines ((n, (v, b)) :: es)) with (entry_line n v :: entries_lines es). cbn [app ini_lines].
  rewrite (entry_line_read ini_add st _ (mkData (secs ++ [(k, (s0 ++ [(n, (v, false))], false))]) ro) n v Hn Hv Hl).
  2: { rewrite Hs. apply ini_add_entry; [done|]. by eapply ordered_front. }
  destruct (IH (s0 ++ [(n, (v, false))]) (mkIni (ip_section st) (strncpy0 MAX_NAME n) (ip_lineno st + 1) (ip_error st)))
    as (st' & E & ? & ?); try done.
  { eapply ordered_keys; [|exact Ho]. rewrite <-app_assoc, !map_app. done. }
  { cbn. lia. }
  exists st'. rewrite E. rewrite <-app_assoc. done.
Qed.

Lemma read_sections secs2 secs1 ro st :
  Forall section_ok secs2 -> ordered (secs1 ++ secs2) -> 0 <= ip_lineno st -> ip_error st = 0 ->
  exists st', ini_lines ini_add st (mkData secs1 ro) (concat (map section_lines secs2)) = (st', mkData (secs1 ++ unmark secs2) ro) /\
              ip_error st' = 0.
Proof.
  intros Hs. revert secs1 st. induction Hs as [|[k [s b]] secs2 (Hn & Ho & He) _ IH]; intros secs1 st Hord Hl Hz.
  { exists st. by rewrite app_nil_r. }
  cbn [fst snd] in *. pose proof (ordered_front _ _ _ _ Hord) as Hk.
  change (concat (map section_lines ((k, (s, b)) :: secs2)))
    with ((str "[" ++ k ++ str "]") :: entries_lines s ++ concat (map section_lines secs2)). cbn [ini_lines].
  rewrite (section_line _ _ _ _ _ Hn (ini_add_section secs1 ro k Hk)).
  destruct (read_entries s [] secs1 ro k (mkIni k [] (ip_lineno st + 1) (ip_error st)) (concat (map section_lines secs2)))
    as (st1 & E & Hl1 & Hz1); try done; [cbn; lia|].
  destruct (IH (secs1 ++ [(k, (unmark_section s, false))]) st1) as (st' & E' & ?); try done; [|lia|].
  { eapply ordered_keys; [|exact Hord]. rewrite <-app_assoc, !map_app. done. }
  exists st'. split; [|done]. etransitivity; [exact E|]. etransitivity; [exact E'|]. by rewrite <-app_assoc.
Qed.

Lemma entry_line_newline e : entry_ok e = true -> newline ∉ entry_line e.1 e.2.1.
Proof.
  unfold entry_ok, name_ok, value_ok. intros Hn.
  repeat match goal with H : _ && _ = true |- _ => apply andb_true_iff in H as [? ?] end.
  repeat match goal with H : printable _ = true |- _ => apply printable_spec in H as [? _] end.
  unfold entry_line. rewrite !elem_of_app. intros [?|[E|?]]; try done.
  by apply (bool_decide_eq_true_2 (newline ∈ str " = ")) in E.
Qed.

Lemma write_lines secs :
  Forall section_ok secs ->
  file_lines [] (concat (map (fun '(k, (s, _)) => str "[" ++ k ++ str "]" ++ [newline] ++ section_write s) secs)) =
  concat (map section_lines secs).
Proof.
  induction 1 as [|[k [s b]] secs (Hn & _ & He) _ IH]; [done|]. cbn [map concat fst snd] in *.
  rewrite <-!app_assoc. rewrite (app_assoc (str "[")), (app_assoc (str "[" ++ k)).
  cbn [app]. rewrite file_lines_line.
  2: { unfold section_name_ok in Hn. apply andb_true_iff in Hn as [[Hp _]%andb_true_iff _]. apply printable_spec in Hp as [Hp _].
       rewrite !elem_of_app. intros [[E|?]|E]; try done; by apply (bool_decide_eq_true_2 _) in E. }
  unfold section_lines at 1. cbn [fst snd app]. f_equal. unfold section_write, entries_lines.
  induction He as [|[n [v b']] es Hv _ IHe]; [exact IH|]. cbn [map concat]. rewrite <-!app_assoc.
  rewrite (app_assoc (str " = ")), (app_assoc n). cbn [app]. rewrite file_lines_line; [by rewrite IHe|].
  by apply (entry_line_newline (n, (v, b'))).
Qed.

Lemma write_read_back (d : IniData) :
  data_ok d -> ini_parse (ini_write d) ini_new = (0, mkData (unmark (sections d)) true).
Proof.
  intros [Ho Hs]. unfold ini_parse, ini_parse_stream, ini_write. rewrite write_lines by done.
  rewrite read_lines_short.
  2: { clear Ho. induction Hs as [|[k [s b]] secs (Hn & _ & He) _ IH]; cbn [map concat]; [constructor|].
       apply Forall_app. split; [|done]. cbn [section_lines fst snd] in *. constructor.
       - unfold section_name_ok in Hn. apply andb_true_iff in Hn as [_ Hl%bool_decide_eq_true].
         rewrite !length_app. cbn. unfold MAX_SECTION, INI_MAX_LINE in *. lia.
       - unfold entries_lines. induction He as [|[n [v b']] es Hv _ IHe]; cbn [map]; constructor; [|done].
         unfold entry_ok in Hv. by apply andb_true_iff in Hv as [_ Hv%bool_decide_eq_true]. }
  destruct (read_sections (sections d) [] false (mkIni [] [] 0 0)) as (st & E & Hz); try done.
  unfold ini_new. rewrite E. cbn [sections app]. by rewrite Hz.
Qed.

(** C40: a configuration that is written by [IniData::write] is read back by [IniData::parse]: the same sections
    with the same entries, and no error; provided its names and values fit into a line each and
    contain nothing the parser takes for a comment, an end of line or another entry. *)
Theorem ini_roundtrip (d : IniData) :
  data_ok d -> ini_parse (ini_write d) ini_new = (0, mkData (unmark (sections d)) true).
Proof. apply write_read_back. Qed.

Lemma sorted_ok {V} (m : omap V) : Sorted (fun a b => text_lt a.1 b.1 = true) m -> ordered m.
Proof. apply Sorted_StronglySorted. intros a b c. apply text_lt_trans. Qed.

(** Two sections, one of which uses the other; some entries have been looked at. *)
Definition sample : IniData :=
  mkData [(str "ip", ([(str "server", (str "ets_router", true)); (str "use", (str "main", false))], true));
          (str "main", ([(str "addr", (str "1.2.3", false)); (str "none", ([], false))], false))] true.

Lemma ini_roundtrip_witness : ini_parse (ini_write sample) ini_new = (0, mkData (unmark (sections sample)) true).
Proof.
  apply ini_roundtrip. constructor; [apply sorted_ok; repeat constructor|].
  repeat constructor; try (apply sorted_ok; repeat constructor); vm_compute; reflexivity.
Defined.

(** ** What reading does to the maps *)

Definition data_ordered (d : IniData) : Prop :=
  ordered (sections d) /\ Forall (fun e => ordered e.2.1) (sections d).

Lemma update_forall {V} (P : text * V -> Prop) k f (m : omap V) :
  Forall P m -> (forall v, find k m = Some v -> P (k, f v)) -> Forall P (update k f m).
Proof.
  induction 1 as [|[k' v'] m Hp Hm IH]; cbn; [constructor|]. case_decide as E.
  - intros Hf. subst. constructor; [by apply Hf|done].
  - intros Hf. constructor; auto.
Qed.

Lemma ini_add_ordered d c : data_ordered d -> data_ordered (ini_add d c).1.
Proof.
  intros [Ho Hs]. unfold ini_add.
  assert (data_ordered (mkData (emplace (ic_section c) new_section (sections d)).1 (read_only d))) as [Ho1 Hs1].
  { split; [by apply emplace_ordered|]. cbn [sections]. unfold emplace. destruct (find _ _); [done|].
    apply insert_ordered_forall; [constructor|done]. }
  destruct (emplace (ic_section c) new_section (sections d)) as [secs new]. cbn [sections fst] in *.
  destruct (ic_name c) as [n|]; [|done]. destruct (find (ic_section c) secs) as [[s seen]|] eqn:Ef; [|done].
  unfold section_add. pose proof (emplace_ordered n (default (str "TRUE") (ic_value c), false) s) as He.
  destruct (emplace n _ s) as [s' ok]. split; cbn [sections fst].
  - by apply update_ordered.
  - apply update_forall; [done|]. intros v Hv. cbn in *. apply He.
    apply find_some_in in Ef. by eapply (proj1 (list.Forall_forall _ _)) in Hs1; [|exact Ef].
Qed.

Section Invariant.
Context {U : Type} (handler : U -> ini_call -> U * bool) (P : U -> Prop).
Hypothesis handler_keeps : forall u c, P u -> P (handler u c).1.

Lemma ini_line_keeps st u l : P u -> P (ini_line handler st u l).2.
Proof using handler_keeps.
  intros Hu. assert (forall st c, P (call_handler handler st u c).2) as Hc.
  { intros st' c. unfold call_handler. pose proof (handler_keeps u c Hu) as H. by destruct (handler u c) as [u' []]. }
  unfold ini_line. cbv zeta. destruct (lskip _) as [|c start]; [done|]. repeat case_match; auto.
Qed.

Lemma ini_lines_keeps ls : forall st u, P u -> P (ini_lines handler st u ls).2.
Proof using handler_keeps.
  induction ls as [|l ls IH]; intros st u Hu; [done|]. cbn [ini_lines].
  pose proof (ini_line_keeps st u l Hu) as H. destruct (ini_line handler st u l) as [st1 u1]. by apply IH.
Qed.
End Invariant.

(** Whatever a file contains, reading it leaves the sections and the entries of each in order,
    every name once. *)
Theorem ini_parse_ordered (file : text) (d : IniData) : data_ordered d -> data_ordered (ini_parse file d).2.
Proof.
  intros Hd. unfold ini_parse, ini_parse_stream.
  pose proof (ini_lines_keeps ini_add data_ordered ini_add_ordered (read_lines (file_lines [] file)) (mkIni [] [] 0 0) d Hd) as H.
  by destruct (ini_lines _ _ _ _) as [st d'].
Qed.

Lemma ini_parse_ordered_witness : data_ordered (ini_parse (str "[b]") ini_new).2.
Proof. apply ini_parse_ordered. split; constructor. Defined.

(** ** Lines that are not read *)

Lemma file_lines_app cur a f :
  file_lines cur (a ++ newline :: f) = file_lines cur (a ++ [newline]) ++ file_lines [] f.
Proof.
  revert cur. induction a as [|c a IH]; intros cur; cbn [app file_lines]; [by rewrite !decide_True|].
  destruct (decide (c = newline)); by rewrite IH.
Qed.

Lemma file_lines_long cur l f :
  newline ∉ l -> cur <> [] \/ l <> [] -> exists x ls, file_lines cur (l ++ f) = (rev cur ++ l ++ x) :: ls.
Proof.
  revert cur. induction l as [|c l IH]; intros cur Hn Hne; cbn [app].
  - revert cur Hne. induction f as [|c f IHf]; intros cur Hne; cbn [file_lines].
    + exists [], []. rewrite app_nil_r. destruct cur; [by destruct Hne|done].
    + destruct (decide (c = newline)); [exists []; eexists; by rewrite app_nil_r|].
      destruct (IHf (c :: cur)) as (x & ls & ->); [by left|]. exists (c :: x), ls. cbn [rev]. by rewrite <-app_assoc.
  - apply not_elem_of_cons in Hn as [Hc Hn]. cbn [file_lines]. rewrite decide_False by congruence.
    destruct (IH (c :: cur) Hn) as (x & ls & ->); [by left|]. exists x, ls. cbn [rev]. by rewrite <-app_assoc.
Qed.

Lemma read_lines_stop a l ls : (INI_MAX_LINE <= length l)%nat -> read_lines (a ++ l :: ls) = read_lines a.
Proof.
  intros Hl. induction a as [|x a IH]; cbn [app read_lines]; [by rewrite decide_False by lia|]. by rewrite IH.
Qed.

(** A line of 300 characters or more ends the reading of a configuration without an error: the
    file counts as if it ended in front of that line. *)
Theorem long_line_hides (a l rest : text) (d : IniData) :
  newline ∉ l -> (INI_MAX_LINE <= length l)%nat ->
  ini_parse (a ++ newline :: l ++ rest) d = ini_parse (a ++ [newline]) d.
Proof.
  intros Hn Hl. unfold ini_parse, ini_parse_stream. rewrite file_lines_app.
  destruct (file_lines_long [] l rest Hn) as (x & ls & ->); [right; intros ->; unfold INI_MAX_LINE in Hl; cbn in Hl; lia|].
  cbn [rev app]. rewrite read_lines_stop by (rewrite length_app; lia). done.
Qed.

Lemma long_line_hides_witness :
  ini_parse (str "[main]" ++ newline :: replicate 300 "x"%char ++ str "[") ini_new = ini_parse (str "[main]" ++ [newline]) ini_new.
Proof.
  apply long_line_hides; [|by rewrite length_replicate].
  intros [E _]%elem_of_replicate. discriminate E.
Defined.

(** ** Continued lines *)

Lemma find_insert {V} k (v : V) m : find k (insert_ordered k v m) <> None.
Proof.
  induction m as [|[k' v'] m IH]; cbn; [by rewrite decide_True|]. destruct (text_lt k k'); cbn; [by rewrite decide_True|].
  by case_decide.
Qed.

Lemma find_update {V} k k' (f : V -> V) m : find k (update k' f m) = (if decide (k = k') then f <$> find k m else find k m).
Proof.
  induction m as [|[k1 v1] m IH]; cbn; [by case_decide|].
  destruct (decide (k' = k1)) as [->|Hk']; cbn; destruct (decide (k = k1)) as [->|Hk]; cbn; try rewrite decide_True by done; try done.
  by rewrite decide_False by congruence.
Qed.

Lemma find_emplace {V} k (v : V) m : find k (emplace k v m).1 <> None.
Proof. unfold emplace. destruct (find k m) eqn:E; [cbn; congruence|]. apply find_insert. Qed.

(** What was added is there, so that adding it again is refused. *)
Lemma ini_add_again d c c' n :
  ic_name c = Some n -> ic_section c' = ic_section c -> ic_name c' = Some n ->
  (ini_add (ini_add d c).1 c').2 = false.
Proof.
  intros Hn Hs Hn'. unfold ini_add at 2. pose proof (find_emplace (ic_section c) new_section (sections d)) as He.
  destruct (emplace (ic_section c) new_section (sections d)) as [secs new]. cbn [fst] in He. rewrite Hn.
  destruct (find (ic_section c) secs) as [[s seen]|] eqn:Ef; [|done].
  unfold section_add at 1. pose proof (find_emplace n (default (str "TRUE") (ic_value c), false) s) as He2.
  destruct (emplace n _ s) as [s' ok]. cbn [fst] in *. unfold ini_add. rewrite Hs, Hn'. cbn [sections].
  assert (find (ic_section c) (update (ic_section c) (fun _ : IniSection * bool => (s', seen)) secs) = Some (s', seen)) as E1
    by (rewrite find_update, decide_True by done; by rewrite Ef).
  unfold emplace at 1. unfold IniSection, omap in *. rewrite E1. cbv beta iota. rewrite E1. unfold section_add, emplace. by destruct (find n s').
Qed.

Definition is_comment (c : ascii) : bool := bool_decide (c = ";"%char) || bool_decide (c = "#"%char).

(** A value cannot be continued on the next line, although the parser passes such lines on as its
    documentation says: the continuation is a second entry of the same name, which is refused, and the line
    counts as an error. *)
Theorem continued_line_refused (st : ini_state) (d d1 : IniData) (k v w : text) (c : ascii) :
  name_ok k = true -> value_ok v = true -> (length k < MAX_NAME)%nat -> 1 <= ip_lineno st ->
  ini_add d (mkCall (ip_section st) (Some k) (Some v)) = (d1, true) ->
  printable w = true -> trimmed_left w = true -> trimmed_right w = true -> is_space c = true ->
  match w with x :: _ => is_comment x = false | [] => False end ->
  exists st1, ini_line ini_add st d (entry_line k v) = (st1, d1) /\ ip_error st1 = ip_error st /\
              ip_error (ini_line ini_add st1 d1 (c :: w)).1 <> 0.
Proof.
  intros Hk Hv Hl Hn Ha Hp Htl Htr Hc Hx. eexists. split; [by apply entry_line_read|]. split; [done|].
  apply printable_spec in Hp as [_ Hp0]. destruct w as [|x w]; [done|].
  unfold ini_line. cbv zeta. cbn [ip_lineno ip_section ip_prev_name ip_error].
  rewrite cstr_whole by (apply not_elem_of_cons; split; [by intros <-|done]).
  rewrite (bool_decide_false (_ = 1)) by lia. cbn [andb].
  rewrite rstrip_trimmed by (etransitivity; [by apply (trimmed_right_app [c] (x :: w))|done]).
  assert (lskip (c :: x :: w) = x :: w) as -> by (cbn [lskip]; rewrite Hc; exact (lskip_trimmed (x :: w) Htl)).
  unfold is_comment in Hx. rewrite Hx. unfold strncpy0. rewrite take_ge by (unfold MAX_NAME in *; lia).
  rewrite (bool_decide_true (_ < _)%nat) by (cbn; lia). rewrite (bool_decide_true (k <> [])) by (by destruct k).
  cbn [andb]. unfold call_handler.
  pose proof (ini_add_again d (mkCall (ip_section st) (Some k) (Some v)) (mkCall (ip_section st) (Some k) (Some (x :: w))) k) as E.
  rewrite Ha in E. cbn [fst] in E. destruct (ini_add d1 _) as [d2 ok]. cbn [snd] in E. rewrite E by done. cbn [negb andb ip_error].
  destruct (bool_decide (ip_error st = 0)) eqn:Ez; cbn [fst ip_error ip_lineno]; [lia|by apply bool_decide_eq_false in Ez].
Qed.

Lemma continued_line_refused_witness :
  exists st1, ini_line ini_add (mkIni (str "main") [] 1 0) ini_new (entry_line (str "filters") (str "pace,")) =
              (st1, (ini_add ini_new (mkCall (str "main") (Some (str "filters")) (Some (str "pace,")))).1) /\
              ip_error st1 = 0 /\
              ip_error (ini_line ini_add st1 (ini_add ini_new (mkCall (str "main") (Some (str "filters")) (Some (str "pace,")))).1
                          (" "%char :: str "queue")).1 <> 0.
Proof.
  apply (continued_line_refused (mkIni (str "main") [] 1 0)); try (vm_compute; reflexivity).
  - unfold MAX_NAME. cbn. lia.
  - cbn. lia.
Defined.

(** ** Following [use] *)

Lemma find_emplace_eq {V} k (v : V) m s :
  find s (emplace k v m).1 = (if decide (s = k) then Some (default v (find s m)) else find s m).
Proof.
  unfold emplace. destruct (find k m) as [x|] eqn:Eu; cbn [fst].
  { case_decide; [subst; by rewrite Eu|done]. }
  case_decide as E.
  - subst s. rewrite Eu. cbn [default from_option]. revert Eu.
    induction m as [|[k' v'] m IH]; cbn; [by rewrite decide_True|]. case_decide; [done|]. intros Hf.
    destruct (text_lt k k'); cbn; [by rewrite decide_True|]. rewrite decide_False by done. auto.
  - clear Eu. induction m as [|[k' v'] m IH]; cbn; [by rewrite decide_False|].
    destruct (text_lt k k'); cbn; [by rewrite decide_False by done|]. case_decide; [done|auto].
Qed.

Lemma section_of_index d u s : section_of (ini_index d u) s = section_of d s.
Proof.
  unfold section_of, ini_index. cbn [sections]. rewrite find_update, find_emplace_eq.
  destruct (decide (s = u)); [|done]. by destruct (find s (sections d)) as [[? ?]|].
Qed.

(** Looking up a value ends when no section uses itself, directly or through others: if sections can
    be numbered such that each uses one with a smaller number, that number bounds the steps. *)
Theorem value_ends (d : IniData) (rank : text -> nat) (fuel : nat) (sec name def : text) :
  (forall s u b, find (str "use") (section_of d s) = Some (u, b) -> (rank u < rank s)%nat) ->
  (rank sec <= fuel)%nat ->
  exists d' v, value fuel d sec name def = Some (d', v).
Proof.
  revert d sec. induction fuel as [|fuel IH]; intros d sec Hr Hf; cbn [value];
    (destruct (find name (section_of d sec)) as [[v b]|]; [by eauto|]);
    (destruct (find (str "use") (section_of d sec)) as [[u b]|] eqn:Eu; [|by eauto]); specialize (Hr sec u b Eu) as Hlt; [lia|].
  apply IH; [|lia]. intros s x b' E. rewrite section_of_index in E. by eapply Hr.
Qed.

Lemma value_ends_witness : exists d' v, value 1 sample (str "ip") (str "addr") [] = Some (d', v).
Proof.
  apply (value_ends sample (fun s => if decide (s = str "ip") then 1%nat else 0%nat)); [|done].
  intros s u b. unfold section_of. cbn [sections sample find]. destruct (decide (s = str "ip")) as [->|].
  - intros [= <- <-]. vm_compute. constructor.
  - destruct (decide (s = str "main")) as [->|]; done.
Defined.

(** ... and it never ends when sections use each other in a circle and none of them has the value:
    the daemon calls itself until its stack is used up. *)
Theorem use_circle (d : IniData) (C : text -> Prop) (name def : text) (fuel : nat) (sec : text) :
  (forall s, C s -> find name (section_of d s) = None /\ exists u b, find (str "use") (section_of d s) = Some (u, b) /\ C u) ->
  C sec -> value fuel d sec name def = None.
Proof.
  revert d sec. induction fuel as [|fuel IH]; intros d sec Hc Hs; cbn [value]; destruct (Hc sec Hs) as (-> & u & b & -> & Hu); [done|].
  apply IH; [|done]. intros s. by rewrite section_of_index; auto.
Qed.

Lemma use_circle_witness :
  value 100 (mkData [(str "a", ([(str "use", (str "a", false))], true))] true) (str "a") (str "addr") [] = None.
Proof.
  apply (use_circle _ (fun s => s = str "a")); [|done]. intros s ->. split; [done|]. by eexists _, _.
Defined.

(** ** Looking up does not change the configuration *)

Definition contents (d : IniData) (s n : text) : option text := fst <$> find n (section_of d s).

(** Two states of the data that differ in what has been looked at only. *)
Definition same_config (d d' : IniData) : Prop := forall s n, contents d' s n = contents d s n.

#[export] Instance same_config_po : PreOrder same_config.
Proof. split; [done|]. intros d1 d2 d3 H12 H23 s n. by rewrite H23. Qed.

Lemma index_same d u : same_config d (ini_index d u).
Proof. intros s n. unfold contents. by rewrite section_of_index. Qed.

Lemma mark_same sec name d : same_config d (mark sec name d).
Proof.
  intros s n. unfold contents, section_of, mark. cbn [sections]. rewrite find_update.
  case_decide; [|done]. destruct (find s (sections d)) as [[sv b]|]; [|done]. cbn [fmap option_fmap option_map fst].
  rewrite find_update. case_decide; [|done]. by destruct (find n sv).
Qed.

Lemma value_same fuel d sec name def d' v :
  value fuel d sec name def = Some (d', v) -> same_config d d'.
Proof.
  revert d sec. induction fuel as [|fuel IH]; intros d sec; cbn [value];
    (destruct (find name (section_of d sec)) as [[v1 b]|]; [intros [= <- <-]; apply mark_same|]);
    (destruct (find (str "use") (section_of d sec)) as [[x b]|]; [|by intros [= <- <-]]); [done|].
  intros E. transitivity (ini_index d x); [apply index_same|by eapply IH].
Qed.

(** The value as a function of the configuration. *)
Definition configured (fuel : nat) (d : IniData) (sec name def : text) : option text :=
  snd <$> value fuel d sec name def.

Lemma configured_same fuel d d' sec name def :
  same_config d d' -> configured fuel d' sec name def = configured fuel d sec name def.
Proof.
  intros Hs. unfold configured. revert d d' sec Hs. induction fuel as [|fuel IH]; intros d d' sec Hs; cbn [value];
    pose proof (Hs sec name) as Hn; pose proof (Hs sec (str "use")) as Hu; unfold contents in Hn, Hu;
    (destruct (find name (section_of d sec)) as [[v1 b1]|], (find name (section_of d' sec)) as [[v2 b2]|];
      [by simplify_eq/=|done|done|]);
    (destruct (find (str "use") (section_of d sec)) as [[x1 c1]|], (find (str "use") (section_of d' sec)) as [[x2 c2]|];
      [simplify_eq/=|done|done|done]); [done|].
  apply IH. intros s n. by rewrite (index_same d'), (index_same d).
Qed.

(** ** Arguments nobody asked for *)

(** The section [s] has been looked at, its entry [use] has not. *)
Definition use_unseen (s u : text) (d : IniData) : Prop :=
  exists sv, find s (sections d) = Some (sv, true) /\ find (str "use") sv = Some (u, false).

Lemma use_unseen_index s u d x : use_unseen s u d -> use_unseen s u (ini_index d x).
Proof.
  intros (sv & Hs & Hu). exists sv. split; [|done]. unfold ini_index. cbn [sections]. rewrite find_update, find_emplace_eq.
  case_decide; by rewrite Hs.
Qed.

Lemma use_unseen_mark s u d sec name : name <> str "use" -> use_unseen s u d -> use_unseen s u (mark sec name d).
Proof.
  intros Hn (sv & Hs & Hu). unfold use_unseen, mark. cbn [sections]. rewrite find_update. case_decide; [|by eauto].
  rewrite Hs. eexists. split; [reflexivity|]. cbn [fst]. rewrite find_update. by rewrite decide_False by congruence.
Qed.

Lemma value_use_unseen fuel d sec name def d' v s u :
  name <> str "use" -> value fuel d sec name def = Some (d', v) -> use_unseen s u d -> use_unseen s u d'.
Proof.
  intros Hn. revert d sec. induction fuel as [|fuel IH]; intros d sec; cbn [value];
    (destruct (find name (section_of d sec)) as [[v1 b]|]; [intros [= <- <-]; by apply use_unseen_mark|]);
    (destruct (find (str "use") (section_of d sec)) as [[x b]|]; [|by intros [= <- <-]]); [done|].
  intros E Hu. apply (IH _ _ E). by apply use_unseen_index.
Qed.

(** The entry that makes a section use another one is never counted as used: after any number of
    look-ups it is still among the arguments that [list_unseen] reports, for which the daemon refuses
    to start unless unknown arguments are allowed. *)
Theorem use_reported (lookups : list (nat * text * text * text)) (d d' : IniData) (s u : text) :
  use_unseen s u d ->
  Forall (fun q => q.1.2 <> str "use") lookups ->
  fold_left (fun d q => match d with Some d => fst <$> value q.1.1.1 d q.1.1.2 q.1.2 q.2 | None => None end) lookups (Some d) = Some d' ->
  (s, str "use", u) ∈ list_unseen d'.
Proof.
  intros Hu Hq E. assert (use_unseen s u d') as (sv & Hs & Hv).
  { revert d Hu E. induction Hq as [|[[[fuel sec] name] def] qs Hn _ IH]; intros d Hu; cbn [fold_left fst snd] in *; [by intros [= <-]|].
    destruct (value fuel d sec name def) as [[d1 v]|] eqn:Ev; cbn [fmap option_fmap option_map fst].
    - apply IH. by eapply value_use_unseen.
    - intros E. exfalso. clear - E. induction qs as [|q qs IH]; cbn in E; [done|auto]. }
  apply find_some_in in Hs, Hv. unfold list_unseen. apply list_elem_of_In, in_concat.
  exists (map (fun '(n, v) => (s, n, v)) (section_unseen sv)). split.
  - apply in_map_iff. exists (s, (sv, true)). split; [done|]. apply filter_In. split; [by apply list_elem_of_In|done].
  - apply in_map_iff. exists (str "use", u). split; [done|]. unfold section_unseen. apply in_map_iff.
    exists (str "use", (u, false)). split; [done|]. apply filter_In. split; [by apply list_elem_of_In|done].
Qed.

Lemma use_reported_witness :
  (str "ip", str "use", str "main") ∈
  list_unseen (default sample (fst <$> value 2 sample (str "ip") (str "addr") [])).
Proof.
  apply (use_reported [(2%nat, str "ip", str "addr", [])] sample); [|repeat constructor; discriminate|reflexivity].
  by eexists.
Defined.

(** ** Numbers *)

(** A number with a fraction is cut off: what [value (name, double)] returns is the default or
    an integer. *)
Lemma double_of_integral strtod v def q :
  double_of strtod v def = Ret q -> q = def \/ exists n, q = inject_Z n.
Proof.
  unfold double_of. case_decide; [intros [= <-]; by left|]. destruct (strtod v) as [[x|] rest]; [|done].
  case_decide; [|done]. intros [= <-]. destruct rest; [right; by eexists|by left].
Qed.

(** A value that does not start like a number ends the daemon by an exception. *)
Lemma int_of_word c v def :
  is_space c = false -> c <> "-"%char -> c <> "+"%char -> digit_in 10 c = None -> int_of (c :: v) def = Fault Aborted.
Proof.
  intros Hs Hm Hp Hd. unfold int_of. rewrite decide_False by done. unfold stoi0. cbn [lskip]. rewrite Hs.
  rewrite !decide_False by done. assert (c <> "0"%char) as H0 by (intros ->; done).
  assert (starts_digit 10 (c :: v) = false) as E by (cbn; rewrite Hd; by apply bool_decide_eq_false; auto).
  destruct v as [|x v]; [rewrite decide_False by done; by rewrite E|].
  rewrite (bool_decide_false (c = _)) by done. cbn [andb]. rewrite decide_False by done. by rewrite E.
Qed.
