(* ===== verification/Trace.v ===== *)
(** * Tracing

    Models src/src/libserver/trace.h and src/src/libserver/trace.cpp: the levels and
    layers of [class Trace], how its constructors and [setup] read them from the
    configuration, and which messages are shown.  The time stamps and the text of
    the messages are not modelled. *)

From Stdlib Require Import Ascii.
From S2P Require Import Prelude CArray Common Ini IniSpec.

Local Open Scope Z_scope.

Definition LEVEL_NONE : Z := 0.
Definition LEVEL_FATAL : Z := 1.
Definition LEVEL_CRITICAL : Z := 2.
Definition LEVEL_ERROR : Z := 3.
Definition LEVEL_WARNING : Z := 4.
Definition LEVEL_NOTICE : Z := 5.
Definition LEVEL_INFO : Z := 6.
Definition LEVEL_DEBUG : Z := 7.
Definition LEVEL_TRACE : Z := 8.

(** [trace_seq] and [trace_namelen]. *)
Record trace_globals := mkGlobals { g_seq : Z; g_namelen : nat }.

Record Trace := mkTrace {
  t_layers : Z;
  t_level : Z;
  t_timestamps : bool;
  t_servername : text;
  t_name : text;
  t_auxname : text;
  t_seq : Z
}.

Definition fullname (t : Trace) : text :=
  match t_auxname t with [] => t_name t | _ => t_name t ++ "/"%char :: t_auxname t end.

(** [setAuxName]: the width is computed from the previous auxiliary name. *)
Definition setAuxName (g : trace_globals) (t : Trace) (name : text) : trace_globals * Trace :=
  if decide (name = t_name t) then (g, t)
  else
    let len := (length (t_name t) + length (t_auxname t)
                + match t_auxname t with [] => 0 | _ => 1 end)%nat in
    (mkGlobals (g_seq g) (max (g_namelen g) len),
     mkTrace (t_layers t) (t_level t) (t_timestamps t) (t_servername t) (t_name t) name (t_seq t)).

Definition error_levels : list text :=
  [str "none"; str "fatal"; str "error"; str "warning"; str "note"; str "info"; str "debug"; str "trace"].

(** The index of the first entry that is equal. *)
Fixpoint index_of (x : text) (l : list text) (i : Z) : option Z :=
  match l with
  | [] => None
  | y :: l => if decide (x = y) then Some i else index_of x l (i + 1)
  end.

(** [strtoul (s, NULL, 0)] of a string that starts with a digit, converted to
    [int]. *)
Definition strtoul0 (s : text) : Z :=
  let '(base, s) :=
    match s with
    | c :: x :: s' =>
        if bool_decide (c = "0"%char) && (bool_decide (x = "x"%char) || bool_decide (x = "X"%char)) && starts_digit 16 s'
        then (16, s') else if decide (c = "0"%char) then (8, s) else (10, s)
    | _ => (10, s)
    end in
  let n := u32 (Z.min (digits base 0 s).1 18446744073709551615) in
  if decide (n < 2147483648) then n else n - 4294967296.

Definition error_level (level : text) (def : Z) : Z :=
  match level with
  | [] => def
  | c :: _ =>
      if decide (digit_in 10 c <> None) then strtoul0 level
      else match index_of level error_levels 0 with Some i => i | None => -1 end
  end.

Section Setup.
Context (fuel : nat).

Definition read_value (d : IniData) (sec name def : text) : outcome (IniData * text) :=
  match value fuel d sec name def with Some r => Ret r | None => Fault StackOverflow end.

(** [Trace::setup], with [cfg] for the section of the options. *)
Definition trace_setup (d : IniData) (cfg : text) (g : trace_globals) (t : Trace)
  : outcome (IniData * trace_globals * Trace) :=
  let g := mkGlobals (g_seq g) (max (g_namelen g) (length (t_name t))) in
  '(d, v) ← read_value d cfg (str "timestamps") [];
  let ts := bool_of v (t_timestamps t) in
  '(d, v) ← read_value d cfg (str "trace-mask") [];
  n ← int_of v (if decide (t_layers t < 2147483648) then t_layers t else t_layers t - 4294967296);
  '(d, v) ← read_value d cfg (str "error-level") [];
  let nlevel := error_level v (t_level t) in
  let t := mkTrace (u32 n) (t_level t) ts (t_servername t) (t_name t) (t_auxname t) (t_seq t) in
  if decide (nlevel = -1) then
    '(d, _) ← read_value d cfg (str "error-level") [];
    Ret (d, g, t)
  else
    let t := mkTrace (t_layers t) (u32 nlevel) (t_timestamps t) (t_servername t) (t_name t)
               (t_auxname t) (t_seq t) in
    '(d, v) ← read_value d cfg (str "name") (t_name t);
    let (g, t) := setAuxName g t v in
    Ret (d, g, t).

Definition next_seq (g : trace_globals) : trace_globals := mkGlobals (u32 (g_seq g + 1)) (g_namelen g).

(** [s->sub ("debug")]: without an entry, the section with the empty name. *)
Definition debug_section (d : IniData) (sec : text) : outcome (IniData * text) :=
  match sub fuel d sec (str "debug") false with Some r => Ret r | None => Fault StackOverflow end.

(** The constructor of the first trace of a daemon. *)
Definition trace_first (d : IniData) (sec servername : text) (g : trace_globals)
  : outcome (IniData * trace_globals * Trace) :=
  '(d, cfg) ← debug_section d sec;
  let g := next_seq g in
  trace_setup d cfg g (mkTrace 0 LEVEL_ERROR true servername sec [] (g_seq g)).

(** The constructor that takes a section: with [None] for one of [add_auto],
    which is empty. *)
Definition trace_new (d : IniData) (orig : Trace) (sec : option text) (name : text) (g : trace_globals)
  : outcome (IniData * trace_globals * Trace) :=
  '(d, cfg) ← match sec with
              | Some sec => debug_section d sec
              | None => Ret (ini_index d [], [])
              end;
  let g := next_seq g in
  trace_setup d cfg g
    (mkTrace (t_layers orig) (t_level orig) (t_timestamps orig) (t_servername orig) name [] (g_seq g)).

End Setup.

(** [ShowPrint] and [ShowError] *)
Definition ShowPrint (t : Trace) (layer : Z) : bool := nz (Z.land (t_layers t) (1 ≪ layer)).

Definition ShowError (t : Trace) (msgid : Z) : bool :=
  bool_decide (Z.land (msgid ≫ 28) 0x0f <= t_level t).

Definition get_level_char (level : Z) : ascii :=
  match List.find (fun e => bool_decide (e.1 = level))
          [(LEVEL_NONE, "X"); (LEVEL_FATAL, "F"); (LEVEL_CRITICAL, "C"); (LEVEL_ERROR, "E");
           (LEVEL_WARNING, "W"); (LEVEL_NOTICE, "N"); (LEVEL_INFO, "I"); (LEVEL_DEBUG, "D");
           (LEVEL_TRACE, "T")]%char with
  | Some e => e.2
  | None => "?"%char
  end.

(** ** What the configuration is read for

    The entries that a new trace looks up do not depend on the trace it is made
    from, so that a model without traces can make the same look-ups. *)
Definition trace_reads (fuel : nat) (d : IniData) (sec : option text) : outcome IniData :=
  '(d, _, _) ← trace_new fuel d (mkTrace 0 LEVEL_ERROR true [] [] [] 0) sec [] (mkGlobals 0 3); Ret d.

Lemma value_def fuel d sec name def def' :
  fst <$> value fuel d sec name def = fst <$> value fuel d sec name def'.
Proof.
  revert d sec. induction fuel as [|fuel IH]; intros d sec; cbn [value];
    (destruct (find name (section_of d sec)) as [[v b]|]; [done|]);
    (destruct (find (str "use") (section_of d sec)) as [[u b]|]; [|done]); [done|apply IH].
Qed.

Lemma int_of_def v def def' (k k' : Z -> outcome IniData) :
  (forall n n', k n = k' n') -> (int_of v def ≫= k) = (int_of v def' ≫= k').
Proof.
  intros Hk. unfold int_of. destruct (decide (v = [])); [apply Hk|].
  destruct (stoi0 v) as [[m [|c r]]|]; [apply Hk|apply Hk|done].
Qed.

Lemma error_level_bad v def def' : 0 <= def -> 0 <= def' -> (error_level v def = -1 <-> error_level v def' = -1).
Proof. intros. destruct v; [simpl; lia|done]. Qed.

Lemma trace_setup_reads fuel d cfg g t g' t' :
  0 <= t_level t -> 0 <= t_level t' ->
  ('(d, _, _) ← trace_setup fuel d cfg g t; Ret d) = ('(d, _, _) ← trace_setup fuel d cfg g' t'; Ret d).
Proof.
  intros Ht Ht'. unfold trace_setup. rewrite !bind_assoc.
  destruct (read_value fuel d cfg (str "timestamps") []) as [[d1 v1]|]; [|done]. rewrite !bind_Ret.
  destruct (read_value fuel d1 cfg (str "trace-mask") []) as [[d2 v2]|]; [|done]. rewrite !bind_Ret.
  rewrite !bind_assoc. apply int_of_def. intros n n'.
  destruct (read_value fuel d2 cfg (str "error-level") []) as [[d3 v3]|]; [|done]. rewrite !bind_Ret.
  pose proof (error_level_bad v3 _ _ Ht Ht') as Hb. cbv zeta.
  destruct (decide (error_level v3 (t_level t) = -1)) as [E|E];
    destruct (decide (error_level v3 (t_level t') = -1)) as [E'|E']; try tauto.
  - destruct (read_value fuel d3 cfg (str "error-level") []) as [[d4 v4]|]; done.
  - cbn [t_name]. unfold read_value. pose proof (value_def fuel d3 cfg (str "name") (t_name t) (t_name t')) as Hv.
    destruct (value fuel d3 cfg (str "name") (t_name t)) as [[d4 v4]|],
      (value fuel d3 cfg (str "name") (t_name t')) as [[d5 v5]|]; try done.
    simplify_eq/=. by destruct (setAuxName _ _ _), (setAuxName _ _ _).
Qed.

Lemma trace_new_reads fuel d orig sec name g :
  0 <= t_level orig ->
  ('(d, _, _) ← trace_new fuel d orig sec name g; Ret d) = trace_reads fuel d sec.
Proof.
  intros Ho. unfold trace_reads, trace_new.
  destruct sec as [sec|]; [destruct (debug_section fuel d sec) as [[d1 cfg]|]; [|done]|];
    rewrite !bind_Ret; by apply trace_setup_reads.
Qed.

(** The look-ups leave the configuration as it is, and end when every look-up
    does and the mask is a number. *)
Definition trace_fine (fuel : nat) (d : IniData) : Prop :=
  (forall sec name def, configured fuel d sec name def <> None) /\
  (forall sec def v, configured fuel d sec (str "trace-mask") [] = Some v -> returns (int_of v def)).

Lemma read_value_spec fuel d0 d sec name def :
  trace_fine fuel d0 -> same_config d0 d ->
  exists d' v, read_value fuel d sec name def = Ret (d', v) /\ same_config d0 d' /\
    configured fuel d0 sec name def = Some v.
Proof.
  intros [Hf _] Hs. specialize (Hf sec name def). rewrite <-(configured_same fuel d0 d) in Hf by done.
  rewrite <-(configured_same fuel d0 d) by done. unfold read_value, configured in *.
  destruct (value fuel d sec name def) as [[d' v]|] eqn:E; [|done]. exists d', v.
  split; [done|]. split; [|done]. etransitivity; [done|by eapply value_same].
Qed.

Lemma trace_setup_fine fuel d0 d cfg g t :
  trace_fine fuel d0 -> same_config d0 d ->
  exists d' g' t', trace_setup fuel d cfg g t = Ret (d', g', t') /\ same_config d0 d'.
Proof.
  intros Hf Hs. unfold trace_setup.
  destruct (read_value_spec fuel d0 d cfg (str "timestamps") [] Hf Hs) as (d1 & v1 & -> & Hs1 & _). rewrite bind_Ret.
  destruct (read_value_spec fuel d0 d1 cfg (str "trace-mask") [] Hf Hs1) as (d2 & v2 & -> & Hs2 & Hm). rewrite bind_Ret.
  destruct (proj2 Hf cfg (if decide (t_layers t < 2147483648) then t_layers t else t_layers t - 4294967296) v2 Hm)
    as [n ->]. rewrite bind_Ret.
  destruct (read_value_spec fuel d0 d2 cfg (str "error-level") [] Hf Hs2) as (d3 & v3 & -> & Hs3 & _). rewrite bind_Ret.
  cbv zeta. destruct (decide _).
  - destruct (read_value_spec fuel d0 d3 cfg (str "error-level") [] Hf Hs3) as (d4 & v4 & -> & Hs4 & _).
    rewrite bind_Ret. eauto 6.
  - cbn [t_name].
    destruct (read_value_spec fuel d0 d3 cfg (str "name") (t_name t) Hf Hs3) as (d4 & v4 & -> & Hs4 & _).
    rewrite bind_Ret. destruct (setAuxName _ _ _). eauto 6.
Qed.

Lemma trace_reads_fine fuel d0 d sec :
  trace_fine fuel d0 -> same_config d0 d ->
  exists d', trace_reads fuel d sec = Ret d' /\ same_config d0 d'.
Proof.
  intros Hf Hs. unfold trace_reads, trace_new.
  assert (exists d1 cfg, match sec with Some sec => debug_section fuel d sec | None => Ret (ini_index d [], []) end
            = Ret (d1, cfg) /\ same_config d0 d1) as (d1 & cfg & -> & Hs1).
  { destruct sec as [sec|].
    - unfold debug_section, sub.
      destruct (read_value_spec fuel d0 d sec (str "debug") [] Hf Hs) as (d1 & v & Hr & Hs1 & _).
      unfold read_value in Hr. destruct (value _ _ _ _ _) as [[d1' v']|]; simplify_eq. simpl.
      eexists _, _. split; [done|]. etransitivity; [done|apply index_same].
    - eexists _, _. split; [done|]. etransitivity; [done|apply index_same]. }
  rewrite bind_Ret. cbv zeta.
  destruct (trace_setup_fine fuel d0 d1 cfg (next_seq (mkGlobals 0 3))
    (mkTrace 0 LEVEL_ERROR true [] [] [] (g_seq (next_seq (mkGlobals 0 3))))) as (d' & g' & t' & Ht & Hs'); [done|done|].
  cbn [t_layers t_level t_timestamps t_servername] in *. rewrite Ht, bind_Ret. eauto.
Qed.

(** A configuration in which no section uses another one or sets the mask. *)
Definition plain_config (d : IniData) : bool :=
  forallb (fun s => bool_decide (find (str "use") s.2.1 = None) && bool_decide (find (str "trace-mask") s.2.1 = None))
    (sections d).

Lemma plain_lookup d s :
  plain_config d = true ->
  find (str "use") (section_of d s) = None /\ find (str "trace-mask") (section_of d s) = None.
Proof.
  intros Hp. unfold section_of. destruct (find s (sections d)) as [[sv b]|] eqn:E; [|done].
  apply find_some_in in E. apply list_elem_of_In in E. unfold plain_config in Hp.
  rewrite forallb_forall in Hp. apply Hp, andb_true_iff in E as [E1 E2].
  by apply bool_decide_eq_true in E1, E2.
Qed.

Lemma plain_fine fuel d : plain_config d = true -> trace_fine fuel d.
Proof.
  intros Hp. assert (forall sec name def, exists v, configured fuel d sec name def = Some v /\
    (find name (section_of d sec) = None -> v = def)) as Hc.
  { intros sec name def. destruct (plain_lookup d sec Hp) as [Hu _]. unfold configured.
    destruct fuel; cbn [value]; destruct (find name (section_of d sec)) as [[v b]|]; rewrite ?Hu; simpl; eexists; (split; [reflexivity|done]). }
  split.
  - intros sec name def. destruct (Hc sec name def) as (v & -> & _). done.
  - intros sec def v Hv. destruct (Hc sec (str "trace-mask") []) as (v' & Hv' & Hd).
    rewrite Hv in Hv'. injection Hv' as <-. rewrite Hd by apply (plain_lookup d sec Hp). by exists def.
Qed.

(** ** What is shown *)

Lemma ShowPrint_bit t layer :
  0 <= layer -> ShowPrint t layer = Z.testbit (t_layers t) layer.
Proof.
  intros Hl. unfold ShowPrint, nz. rewrite Z.shiftl_1_l. apply eq_true_iff_eq.
  rewrite negb_true_iff, Z.eqb_neq. split.
  - intros Hn. destruct (Z.testbit (t_layers t) layer) eqn:E; [done|]. exfalso. apply Hn.
    apply Z.bits_inj'. intros i Hi. rewrite Z.land_spec, Z.bits_0, Z.pow2_bits_eqb by done.
    destruct (Z.eqb_spec layer i) as [->|]; [by rewrite E|by rewrite andb_false_r].
  - intros Hb E. assert (Z.testbit (Z.land (t_layers t) (2 ^ layer)) layer = false) as Hf by (by rewrite E, Z.bits_0).
    by rewrite Z.land_spec, Hb, Z.pow2_bits_true in Hf.
Qed.

(** The names of the levels as the documentation has them, with the levels that
    messages of that kind have. *)
Definition documented_levels : list (text * Z) :=
  [(str "error", LEVEL_ERROR); (str "warning", LEVEL_WARNING); (str "note", LEVEL_NOTICE);
   (str "info", LEVEL_INFO); (str "debug", LEVEL_DEBUG); (str "trace", LEVEL_TRACE)].

(** The names of the error levels are off by one.  A trace whose options give
    a name as the level shows the messages of all levels below it, and none of the level
    that is named; a name of the list other than [none] and [fatal]. *)
Theorem named_level_not_shown fuel d cfg g t name level d' g' t' :
  configured fuel d cfg (str "error-level") [] = Some name -> (name, level) ∈ documented_levels ->
  trace_setup fuel d cfg g t = Ret (d', g', t') ->
  forall l number, 0 <= l < 16 -> 0 <= number < 2 ^ 28 ->
    ShowError t' (l ≪ 28 + number) = bool_decide (l < level).
Proof.
  intros Hc Hd Ht l number Hl Hn.
  assert (Z.land ((l ≪ 28 + number) ≫ 28) 0x0f = l) as Hlev.
  { rewrite Z.shiftl_mul_pow2, Z.shiftr_div_pow2, Z.div_add_l, Z.div_small, Z.add_0_r by lia.
    change 0x0f with (Z.ones 4). rewrite Z.land_ones, Z.mod_small; lia. }
  unfold ShowError. rewrite Hlev. clear Hlev.
  assert (error_level name (t_level t) = level - 1 /\ 0 < level < 9) as [He Hlv].
  { unfold documented_levels in Hd.
    repeat (apply elem_of_cons in Hd as [[= -> ->]|Hd]; [split; [by vm_compute|done]|]). by apply elem_of_nil in Hd. }
  unfold trace_setup in Ht. apply bind_Ret_inv in Ht as ([d1 v1] & H1 & Ht).
  apply bind_Ret_inv in Ht as ([d2 v2] & H2 & Ht). apply bind_Ret_inv in Ht as (n & _ & Ht).
  apply bind_Ret_inv in Ht as ([d3 v3] & H3 & Ht).
  assert (v3 = name) as ->.
  { unfold read_value in *. destruct (value fuel d cfg (str "timestamps") []) as [[? ?]|] eqn:E1; simplify_eq.
    destruct (value fuel d1 cfg (str "trace-mask") []) as [[? ?]|] eqn:E2; simplify_eq.
    destruct (value fuel d2 cfg (str "error-level") []) as [[? ?]|] eqn:E3; simplify_eq.
    rewrite <-(configured_same fuel d d2) in Hc by (etransitivity; by eapply value_same).
    unfold configured in Hc. rewrite E3 in Hc. by simplify_eq/=. }
  cbv zeta in Ht. rewrite decide_False in Ht by lia. apply bind_Ret_inv in Ht as ([d4 v4] & _ & Ht).
  unfold setAuxName in Ht. cbn [t_name t_auxname t_layers t_level t_timestamps t_servername t_seq] in Ht.
  assert (t_level t' = level - 1) as ->.
  { rewrite He in Ht. rewrite (u32_small (level - 1)) in Ht by (unfold is_u32; lia).
    destruct (decide (v4 = t_name t)); by simplify_eq/=. }
  apply bool_decide_ext. lia.
Qed.

Definition dbg_ini : IniData :=
  mkData [(str "dbg", ([(str "error-level", (str "error", false))], true))] true.

Definition main_trace : Trace := mkTrace 0 LEVEL_ERROR true [] (str "main") [] 1.

Lemma named_level_not_shown_witness :
  exists d' g' t', trace_setup 1 dbg_ini (str "dbg") (mkGlobals 0 3) main_trace = Ret (d', g', t') /\
    ShowError t' (LEVEL_ERROR ≪ 28 + 55) = false.
Proof.
  destruct (trace_setup 1 dbg_ini (str "dbg") (mkGlobals 0 3) main_trace) as [[[d' g'] t']|f] eqn:E; [|by vm_compute in E].
  exists d', g', t'. split; [done|].
  rewrite (named_level_not_shown 1 dbg_ini (str "dbg") (mkGlobals 0 3) main_trace (str "error") LEVEL_ERROR d' g' t').
  - done.
  - by vm_compute.
  - by left.
  - exact E.
  - by vm_compute.
  - by vm_compute.
Defined.
