(* ===== verification/Stack.v ===== *)
(** * The stack of filters of a link

    Models the objects of src/src/libserver/link.h and src/src/libserver/link.cpp
    that stand between the router and a bus: a [LinkConnect_] at the bottom, the
    filters, and the driver, joined by the shared pointers [send] towards the
    driver and the weak pointers [recv] towards the [LinkConnect_].

    The objects live in a heap.  A shared pointer is a reference or null; a weak
    pointer gives its reference if the object is still in the heap.  What the
    class of a filter or driver does in its [setup] besides the calls of the base
    class and of [assureFilter] is a parameter, the answer of its checks of the
    configuration.  The recursions along the chain take fuel; StackSpec.v shows
    how much is enough. *)

From Stdlib Require Import Ascii.
From stdpp Require Import gmap.
From S2P Require Import Prelude CArray Common Ini.

Abbreviation ref := nat (only parsing).

(** [RouterLow] is a [LinkConnect_] that is no [LinkConnect]. *)
Inductive link_class := C_LinkConnect | C_RouterLow | C_Filter | C_Driver.

#[export] Instance link_class_eq_dec : EqDecision link_class.
Proof. solve_decision. Defined.

(** The members of the classes [LinkBase], [LinkRecv], [LinkConnect_], [Filter]
    and [Driver] for the chain.  [o_name] is the result of [name ()], which the
    configuration fixes, [o_type] the name the factory made the object for. *)
Record LinkObj := mkObj {
  o_class : link_class;
  o_type : text;
  o_name : text;
  o_send : option ref;
  o_recv : option ref;
  o_conn : option ref;
  o_driver : option ref;
  o_setup_called : bool
}.

Abbreviation heap := (gmap ref LinkObj) (only parsing).

Definition set_send (o : LinkObj) (p : option ref) : LinkObj :=
  mkObj (o_class o) (o_type o) (o_name o) p (o_recv o) (o_conn o) (o_driver o) (o_setup_called o).
Definition set_recv (o : LinkObj) (p : option ref) : LinkObj :=
  mkObj (o_class o) (o_type o) (o_name o) (o_send o) p (o_conn o) (o_driver o) (o_setup_called o).
Definition set_driver_member (o : LinkObj) (p : option ref) : LinkObj :=
  mkObj (o_class o) (o_type o) (o_name o) (o_send o) (o_recv o) (o_conn o) p (o_setup_called o).
Definition set_called (o : LinkObj) : LinkObj :=
  mkObj (o_class o) (o_type o) (o_name o) (o_send o) (o_recv o) (o_conn o) (o_driver o) true.

(** [x->] *)
Definition deref (h : heap) (x : ref) : outcome LinkObj :=
  match h !! x with Some o => Ret o | None => Fault NullPointer end.

(** [p.lock ()] *)
Definition lock (h : heap) (p : option ref) : option ref :=
  match p with
  | Some x => match h !! x with Some _ => Some x | None => None end
  | None => None
  end.

(** ** Joining two objects *)

(** [LinkRecv::_link_] *)
Definition link_next (h : heap) (x : ref) (next : option ref) : outcome heap :=
  o ← deref h x; Ret (<[x := set_send o next]> h).

(** [_link] of [LinkBase], [Filter] and [Driver]. *)
Definition link_prev (h : heap) (x : ref) (prev : option ref) : outcome (heap * bool) :=
  o ← deref h x;
  match o_class o with
  | C_Filter | C_Driver =>
      match prev with
      | None => Ret (h, false)
      | Some p =>
          h ← link_next h p (Some x);
          o ← deref h x;
          Ret (<[x := set_recv o (Some p)]> h, true)
      end
  | _ => Ret (h, false)
  end.

(** [LinkRecv::link] *)
Definition link (h : heap) (x : ref) (next : option ref) : outcome (heap * bool) :=
  match next with
  | None => Fault AssertFailed
  | Some n =>
      '(h, ok) ← link_prev h n (Some x);
      match ok with
      | true =>
          o ← deref h x;
          _ ← assert_ (bool_decide (o_send o = next));
          Ret (h, true)
      | false => Ret (h, false)
      end
  end.

(** [LinkConnect_::set_driver] *)
Definition set_driver (h : heap) (c d : ref) : outcome heap :=
  o ← deref h c;
  '(h, _) ← link (<[c := set_driver_member o (Some d)]> h) c (Some d);
  Ret h.

(** [Filter::unlink] *)
Definition unlink (h : heap) (f : ref) : outcome heap :=
  o ← deref h f;
  h ← match lock h (o_recv o) with
      | Some r =>
          h ← match o_send o with
              | Some n => '(h, _) ← link_prev h n (Some r); Ret h
              | None => Ret h
              end;
          link_next h r (o_send o)
      | None => Ret h
      end;
  o ← deref h f;
  Ret (<[f := set_recv (set_send o None) None]> h).

(** [Driver::push_filter] *)
Definition push_filter (h : heap) (d f : ref) (first : bool) : outcome (heap * bool) :=
  o ← deref h d;
  e ← (if first then
         match lock h (o_conn o) with
         | None => Ret None
         | Some c => oc ← deref h c; Ret (Some (c, o_send oc))
         end
       else
         match lock h (o_recv o) with
         | None => Ret None
         | Some r => Ret (Some (r, Some d))
         end);
  match e with
  | None => Ret (h, false)
  | Some (r, t) =>
      '(h, ok) ← link h r (Some f);
      match ok with
      | true =>
          '(h, ok) ← link h f t;
          match ok with
          | true => Ret (h, true)
          | false => '(h, _) ← link h r t; Ret (h, false)
          end
      | false => Ret (h, false)
      end
  end.

(** [findFilter] of [LinkRecv], [Filter] and [Driver]. *)
Fixpoint findFilter (fuel : nat) (h : heap) (x : ref) (name : text) (skip_me : bool)
  : outcome (option ref) :=
  match fuel with
  | O => Fault StackOverflow
  | S fuel =>
      o ← deref h x;
      match o_class o with
      | C_Filter =>
          match lock h (o_recv o) with
          | None => Ret None
          | Some r =>
              if negb skip_me && bool_decide (o_name o = name) then Ret (Some x)
              else findFilter fuel h r name false
          end
      | C_Driver =>
          match lock h (o_recv o) with
          | None => Ret None
          | Some r => findFilter fuel h r name false
          end
      | _ => Ret None
      end
  end.

(** ** The way of a call through the chain

    [LinkRecv::send_L_Data], [LinkConnect_::start], [stop] and the address
    methods call the same method of [send]; [recv_L_Data], [recv_L_Busmonitor],
    [send_Next], [started], [stopped], [errored] and the system address methods of
    [Filter] and [Driver] call that of [recv].  These are the objects that are
    called, in order. *)
Fixpoint send_calls (fuel : nat) (h : heap) (x : ref) : outcome (list ref) :=
  match fuel with
  | O => Fault StackOverflow
  | S fuel =>
      o ← deref h x;
      match o_class o with
      | C_Driver => Ret [x]
      | _ =>
          match o_send o with
          | None => Fault NullPointer
          | Some n => l ← send_calls fuel h n; Ret (x :: l)
          end
      end
  end.

Fixpoint recv_calls (fuel : nat) (h : heap) (x : ref) : outcome (list ref) :=
  match fuel with
  | O => Fault StackOverflow
  | S fuel =>
      o ← deref h x;
      match o_class o with
      | C_LinkConnect | C_RouterLow => Ret [x]
      | _ =>
          match lock h (o_recv o) with
          | None => Ret [x]
          | Some r => l ← recv_calls fuel h r; Ret (x :: l)
          end
      end
  end.

(** ** Setting up *)

(** [LinkBase::setup] *)
Definition base_setup (h : heap) (x : ref) : outcome heap :=
  o ← deref h x;
  _ ← assert_ (negb (o_setup_called o));
  Ret (<[x := set_called o]> h).

(** The names in a list with commas: the loop over [find (',', pos)] and
    [substr], empty names being skipped. *)
Fixpoint comma_names (cur x : text) : list text :=
  match x with
  | [] => match cur with [] => [] | _ => [rev cur] end
  | c :: x =>
      if decide (c = ","%char) then
        match cur with [] => comma_names [] x | _ => rev cur :: comma_names [] x end
      else comma_names (c :: cur) x
  end.

(** A new object of the factory, at an address of its own. *)
Definition new_filter (type name : text) (c : ref) : LinkObj :=
  mkObj C_Filter type name None None (Some c) None false.

Definition alloc (h : heap) (o : LinkObj) : heap * ref :=
  let x := fresh (dom h) in (<[x := o]> h, x).

Record world := mkWorld { w_heap : heap; w_ini : IniData }.

Definition set_heap (w : world) (h : heap) : world := mkWorld h (w_ini w).

Section Setup.

(** What the constructor of a trace reads of the configuration, for a section or
    for one of [add_auto]; the names the factory of filters knows, the checks of a
    class in its [setup], and the filters that the [setup] of a class of drivers
    asks for before it calls that of the base class. *)
Context (trace : IniData -> option text -> outcome IniData)
  (known : text -> bool) (checks : heap -> ref -> bool)
  (assures : text -> list (text * bool)) (fuel : nat).

(** [cfg->value (name, def)] of the section [sec]. *)
Definition cfg_value (w : world) (sec name def : text) : outcome (world * text) :=
  match value fuel (w_ini w) sec name def with
  | Some (d, v) => Ret (mkWorld (w_heap w) d, v)
  | None => Fault StackOverflow
  end.

(** [setup] of a filter. *)
Definition filter_setup (w : world) (f : ref) : outcome (world * bool) :=
  if checks (w_heap w) f then h ← base_setup (w_heap w) f; Ret (set_heap w h, true)
  else Ret (w, false).

(** [Router::get_filter], with the constructor of [Filter]. *)
Definition get_filter (w : world) (c : ref) (sec : option text) (name filtername : text)
  : outcome (world * option ref) :=
  if known filtername then
    d ← trace (w_ini w) sec;
    let (h, x) := alloc (w_heap w) (new_filter filtername name c) in Ret (mkWorld h d, Some x)
  else Ret (w, None).

(** [Driver::assureFilter].  The section of [add_auto] is empty, so that the
    name of the new filter is that of the section. *)
Definition assureFilter (w : world) (d : ref) (name : text) (first : bool) : outcome (world * bool) :=
  r ← findFilter fuel (w_heap w) d name false;
  match r with
  | Some _ => Ret (w, true)
  | None =>
      o ← deref (w_heap w) d;
      match lock (w_heap w) (o_conn o) with
      | None => Ret (w, false)
      | Some c =>
          '(w, f) ← get_filter w c None (add_auto (o_name o ++ "."%char :: name)).1 name;
          match f with
          | None => Ret (w, false)
          | Some f =>
              '(h, ok) ← push_filter (w_heap w) d f first;
              match ok with
              | true => filter_setup (set_heap w h) f
              | false => Ret (set_heap w h, false)
              end
          end
      end
  end.

Fixpoint assure_all (w : world) (d : ref) (l : list (text * bool)) : outcome (world * bool) :=
  match l with
  | [] => Ret (w, true)
  | (name, first) :: l =>
      '(w, ok) ← assureFilter w d name first;
      match ok with true => assure_all w d l | false => Ret (w, false) end
  end.

(** [setup] of a driver. *)
Definition driver_setup (w : world) (d : ref) : outcome (world * bool) :=
  o ← deref (w_heap w) d;
  '(w, ok) ← assure_all w d (assures (o_type o));
  match ok with
  | true => h ← base_setup (w_heap w) d; Ret (set_heap w h, checks h d)
  | false => Ret (w, false)
  end.

(** The virtual [setup]. *)
Definition any_setup (w : world) (x : ref) : outcome (world * bool) :=
  o ← deref (w_heap w) x;
  match o_class o with
  | C_Filter => filter_setup w x
  | C_Driver => driver_setup w x
  | _ => h ← base_setup (w_heap w) x; Ret (set_heap w h, true)
  end.

(** [LinkConnect_::setup]: the loop over the configured filters. *)
Fixpoint push_configured (w : world) (c d : ref) (names : list text) : outcome (world * bool) :=
  match names with
  | [] => Ret (w, true)
  | name :: names =>
      let w := mkWorld (w_heap w) (ini_index (w_ini w) name) in
      '(w, type) ← cfg_value w name (str "filter") name;
      '(w, f) ← get_filter w c (Some name) type type;
      match f with
      | None => Ret (w, false)
      | Some f =>
          '(h, ok) ← push_filter (w_heap w) d f false;
          match ok with
          | true => push_configured (set_heap w h) c d names
          | false => Ret (set_heap w h, false)
          end
      end
  end.

(** [LinkConnect_::setup]: the loop that sets up the objects. *)
Fixpoint setup_walk (n : nat) (w : world) (s : option ref) (dr : ref) : outcome (world * bool) :=
  match n with
  | O => Fault StackOverflow
  | S n =>
      match s with
      | None => Ret (w, false)
      | Some x =>
          '(w, ok) ← any_setup w x;
          match ok with
          | true =>
              if decide (x = dr) then Ret (w, true)
              else
                o ← deref (w_heap w) x;
                match o_class o with
                | C_Filter => setup_walk n w (o_send o) dr
                | _ => Ret (w, false)
                end
          | false => Ret (w, false)
          end
      end
  end.

(** [LinkConnect_::setup], for the section [sec]. *)
Definition conn_setup (w : world) (c : ref) (sec : text) : outcome (world * bool) :=
  h ← base_setup (w_heap w) c;
  o ← deref h c;
  match o_driver o with
  | None => Ret (set_heap w h, false)
  | Some dr =>
      '(w, x) ← cfg_value (set_heap w h) sec (str "filters") [];
      '(w, ok) ← push_configured w c dr (comma_names [] x);
      match ok with
      | true => oc ← deref (w_heap w) c; setup_walk fuel w (o_send oc) dr
      | false => Ret (w, false)
      end
  end.

End Setup.

(** ** The classes of knxd *)

Definition knxd_filters : list text :=
  [str "dummy"; str "log"; str "single"; str "remap"; str "queue"; str "pace"].

Definition knxd_known (name : text) : bool := bool_decide (name ∈ knxd_filters).

(** The calls of [assureFilter] in [EIBNetIPTunnel::setup],
    [EIBNetIPRouter::setup], [ConnState::setup] and [EIBnetDriver::setup]; the
    last two classes are not made by the factory. *)
Definition knxd_assures (type : text) : list (text * bool) :=
  if decide (type = str "ipt" \/ type = str "ConnState") then [(str "queue", true)]
  else if decide (type = str "ip" \/ type = str "EIBnetDriver") then [(str "pace", false)]
  else [].

(** The checks of [QueueFilter::setup]: a queue belongs to a link, and to one
    that has no other queue below. *)
Definition queue_check (fuel : nat) (h : heap) (f : ref) : bool :=
  match h !! f with
  | None => false
  | Some o =>
      match lock h (o_conn o) ≫= (h !!.) with
      | Some c => bool_decide (o_class c = C_LinkConnect)
      | None => false
      end
      && match findFilter fuel h f (str "queue") true with Ret None => true | _ => false end
  end.

(** With [own] for the checks of the arguments of the other classes. *)
Definition knxd_checks (fuel : nat) (own : text -> bool) (h : heap) (x : ref) : bool :=
  match h !! x with
  | None => false
  | Some o =>
      if decide (o_class o = C_Filter /\ o_type o = str "queue") then queue_check fuel h x
      else own (o_type o)
  end.
