(* ===== verification/StackSpec.v ===== *)
(** * The stack of filters of a link: theorems

    The objects in the heap implement a list: [stack h c fs d] says that the chain
    of pointers between the connection [c] and the driver [d] runs through the
    filters [fs], in both directions.  The operations on the pointers are proved
    to be operations on that list, and [LinkConnect_::setup] to build the list
    the configuration asks for and to set up each of its objects exactly once. *)

From Stdlib Require Import Ascii.
From stdpp Require Import gmap.
From S2P Require Import Prelude CArray Common Ini IniSpec Trace Stack.

Local Set Warnings "-clear-no-such-hyp".

(** ** Reading the heap *)

Definition sendp (h : heap) (x : ref) : option ref := h !! x ≫= o_send.
Definition recvp (h : heap) (x : ref) : option ref := h !! x ≫= o_recv.

(** What an object is besides its place in the chain. *)
Definition erase (o : LinkObj) : LinkObj := set_recv (set_send o None) None.

Definition body (h : heap) (x : ref) : option LinkObj := erase <$> h !! x.

(** Two heaps with the same objects, whose pointers may differ. *)
Definition same_objects (h h' : heap) : Prop := forall x, body h' x = body h x.

#[export] Instance same_objects_po : PreOrder same_objects.
Proof. split; [done|]. intros h1 h2 h3 H12 H23 x. by rewrite H23. Qed.

Definition joined (h : heap) (x y : ref) : Prop := sendp h x = Some y /\ recvp h y = Some x.

Fixpoint joined_all (h : heap) (l : list ref) : Prop :=
  match l with
  | x :: l' => match l' with y :: _ => joined h x y /\ joined_all h l' | [] => True end
  | [] => True
  end.

Definition class_in (cs : list link_class) (h : heap) (x : ref) : Prop :=
  exists o, h !! x = Some o /\ o_class o ∈ cs.

(** The chain of the connection [c] and the driver [d] runs through [fs]. *)
Record stack (h : heap) (c : ref) (fs : list ref) (d : ref) : Prop := mkStack {
  st_nodup : NoDup (c :: fs ++ [d]);
  st_conn : class_in [C_LinkConnect; C_RouterLow] h c;
  st_filters : Forall (class_in [C_Filter] h) fs;
  st_driver : class_in [C_Driver] h d;
  st_back : h !! d ≫= o_conn = Some c;
  st_joined : joined_all h (c :: fs ++ [d])
}.

(** ** Lists of joined objects *)

Lemma joined_all_app h l1 x l2 :
  joined_all h (l1 ++ x :: l2) <-> joined_all h (l1 ++ [x]) /\ joined_all h (x :: l2).
Proof.
  induction l1 as [|a [|b l1] IH]; cbn [app joined_all] in *; [tauto| |].
  - destruct l2; simpl; tauto.
  - rewrite IH. tauto.
Qed.

Lemma joined_all_frame h h' l x y :
  (forall a, a ∈ l -> a <> x -> sendp h' a = sendp h a) ->
  (forall b, b ∈ l -> b <> y -> recvp h' b = recvp h b) ->
  (forall a b l1 l2, l = l1 ++ a :: b :: l2 -> a <> x /\ b <> y) ->
  joined_all h l -> joined_all h' l.
Proof.
  induction l as [|a [|b l] IH]; intros Hs Hr Hn Hj; [done|done|]. destruct Hj as [[Ha Hb] Hj].
  destruct (Hn a b [] l) as [Hax Hby]; [done|]. split.
  - split; [rewrite Hs by (done || by left); done|].
    rewrite Hr by (done || by right; left). done.
  - apply IH; [| | |done].
    + intros z Hz. apply Hs. by right.
    + intros z Hz. apply Hr. by right.
    + intros a' b' l1 l2 E. apply (Hn a' b' (a :: l1) l2). by rewrite E.
Qed.

(** ** The heap after two objects are joined *)

Definition rejoin (h : heap) (x y : ref) : heap :=
  alter (fun o => set_recv o (Some x)) y (alter (fun o => set_send o (Some y)) x h).

Lemma body_alter f h x : (forall o, erase (f o) = erase o) -> same_objects h (alter f x h).
Proof.
  intros Hf z. unfold body. destruct (decide (x = z)) as [->|Hz].
  - rewrite lookup_alter_eq. destruct (h !! z); simpl; [by rewrite Hf|done].
  - by rewrite lookup_alter_ne.
Qed.

Lemma rejoin_same h x y : same_objects h (rejoin h x y).
Proof.
  unfold rejoin. transitivity (alter (fun o => set_send o (Some y)) x h); by apply body_alter.
Qed.

Lemma sendp_rejoin h x y a :
  sendp (rejoin h x y) a = if decide (a = x) then h !! x ≫= fun _ => Some y else sendp h a.
Proof.
  unfold sendp, rejoin. destruct (decide (y = a)) as [->|Hy]; destruct (decide (a = x)) as [->|Hx];
    rewrite ?lookup_alter_eq, ?lookup_alter_ne by done;
    rewrite ?lookup_alter_eq, ?lookup_alter_ne by done; by destruct (h !! _).
Qed.

Lemma recvp_rejoin h x y b :
  recvp (rejoin h x y) b = if decide (b = y) then h !! y ≫= fun _ => Some x else recvp h b.
Proof.
  unfold recvp, rejoin. destruct (decide (b = y)) as [->|Hy].
  - rewrite lookup_alter_eq. destruct (decide (x = y)) as [->|Hx];
      rewrite ?lookup_alter_eq, ?lookup_alter_ne by done; by destruct (h !! y).
  - rewrite lookup_alter_ne by done. destruct (decide (x = b)) as [->|Hx];
      rewrite ?lookup_alter_eq, ?lookup_alter_ne by done; by destruct (h !! b).
Qed.

Lemma link_prev_rejoin h x y :
  is_Some (h !! x) -> class_in [C_Filter; C_Driver] h y ->
  link_prev h y (Some x) = Ret (rejoin h x y, true).
Proof.
  intros [ox Hx] (oy & Hy & Hc). unfold link_prev, link_next, deref. rewrite Hy, bind_Ret.
  assert (forall A (a b : A), match o_class oy with C_Filter | C_Driver => a | _ => b end = a) as Hm.
  { intros A a b. rewrite !elem_of_cons, elem_of_nil in Hc. destruct (o_class oy); try done;
      destruct Hc as [?|[?|?]]; done. }
  rewrite Hm, Hx, !bind_Ret. unfold rejoin.
  rewrite (alter_alt_Some _ _ x ox) by done. destruct (decide (x = y)) as [->|Hn].
  - rewrite lookup_insert_eq, bind_Ret. by rewrite (alter_alt_Some _ _ y (set_send ox (Some y)))
      by (by rewrite lookup_insert_eq).
  - rewrite lookup_insert_ne, Hy, bind_Ret by done.
    by rewrite (alter_alt_Some _ _ y oy) by (by rewrite lookup_insert_ne).
Qed.

Lemma link_rejoin h x y :
  is_Some (h !! x) -> class_in [C_Filter; C_Driver] h y ->
  link h x (Some y) = Ret (rejoin h x y, true).
Proof.
  intros Hx Hy. unfold link. rewrite link_prev_rejoin, bind_Ret by done. cbv iota.
  pose proof (sendp_rejoin h x y x) as Hs. rewrite decide_True in Hs by done.
  destruct Hx as [ox Hx]. rewrite Hx in Hs. unfold sendp, deref in *.
  destruct (rejoin h x y !! x) as [o|]; [|done]. simpl in Hs. rewrite bind_Ret.
  rewrite bool_decide_eq_true_2 by done. done.
Qed.

(** What depends on the objects only. *)
Lemma same_class cs h h' x : same_objects h h' -> class_in cs h x -> class_in cs h' x.
Proof.
  intros Hs (o & Ho & Hc). specialize (Hs x). unfold body in Hs. rewrite Ho in Hs.
  destruct (h' !! x) as [o'|] eqn:E; [|done]. exists o'. split; [done|].
  injection Hs as Hs. by rewrite Hs.
Qed.

Lemma class_is_Some cs h x : class_in cs h x -> is_Some (h !! x).
Proof. intros (o & -> & _). done. Qed.

Lemma class_weaken cs cs' h x : cs ⊆ cs' -> class_in cs h x -> class_in cs' h x.
Proof. intros Hs (o & Ho & Hc). exists o. split; [done|]. by apply Hs. Qed.

Lemma same_back h h' x : same_objects h h' -> h' !! x ≫= o_conn = h !! x ≫= o_conn.
Proof.
  intros Hs. specialize (Hs x). unfold body in Hs.
  destruct (h !! x), (h' !! x); by simplify_eq/=.
Qed.

(** A chain of the same objects is a stack when it is joined. *)
Lemma restack h h' c fs fs' d :
  stack h c fs d -> same_objects h h' -> NoDup (c :: fs' ++ [d]) ->
  Forall (class_in [C_Filter] h) fs' -> joined_all h' (c :: fs' ++ [d]) -> stack h' c fs' d.
Proof.
  intros [_ Hc _ Hd Hb _] Hs Hn Hf Hj. split; [done|by eapply same_class| |by eapply same_class| |done].
  - eapply Forall_impl; [|exact Hf]. intros x. by apply same_class.
  - by rewrite (same_back h).
Qed.

(** Joining two objects leaves the rest of a chain as it is. *)
Lemma joined_all_rejoin h x y l :
  (forall a b l1 l2, l = l1 ++ a :: b :: l2 -> a <> x /\ b <> y) ->
  joined_all h l -> joined_all (rejoin h x y) l.
Proof.
  intros Hn. apply (joined_all_frame _ _ l x y); [| |done].
  - intros a _ Ha. by rewrite sendp_rejoin, decide_False.
  - intros b _ Hb. by rewrite recvp_rejoin, decide_False.
Qed.

Lemma joined_rejoin h x y :
  is_Some (h !! x) -> is_Some (h !! y) -> joined (rejoin h x y) x y.
Proof.
  intros [ox Hx] [oy Hy]. split; [rewrite sendp_rejoin|rewrite recvp_rejoin];
    rewrite decide_True by done; [by rewrite Hx|by rewrite Hy].
Qed.

(** Neither [x] starts a pair of the front part nor does [y] end one of it. *)
Lemma pairs_front {A} (l1 : list A) x y a b p q :
  NoDup (l1 ++ [x]) -> y ∉ l1 ++ [x] -> l1 ++ [x] = p ++ a :: b :: q -> a <> x /\ b <> y.
Proof.
  intros Hn Hy E. assert (a ∈ l1 ++ [x] /\ b ∈ l1 ++ [x]) as [Ha Hb] by (rewrite E; set_solver).
  split; [|by intros ->].
  intros ->. rewrite E in Hn. apply list.NoDup_app in Hn as (_ & _ & Hn).
  apply list.NoDup_cons in Hn as [Hn _]. apply Hn.
  destruct (exists_last (l := b :: q)) as (q' & z & Eq); [done|]. rewrite Eq in E |- *.
  rewrite app_comm_cons, app_assoc in E. apply app_inj_tail in E as [_ ->]. set_solver.
Qed.

Lemma pairs_back {A} (l2 : list A) x y a b p q :
  NoDup (y :: l2) -> x ∉ y :: l2 -> y :: l2 = p ++ a :: b :: q -> a <> x /\ b <> y.
Proof.
  intros Hn Hx E. split.
  - intros ->. apply Hx. rewrite E. set_solver.
  - intros ->. rewrite E in Hn. destruct p as [|z p]; simpl in E; injection E as -> E.
    + apply list.NoDup_cons in Hn as [Hn _]. set_solver.
    + apply list.NoDup_cons in Hn as [Hn _]. set_solver.
Qed.

(** ** Insertion and deletion *)

Lemma insert_between h l1 x f y l2 :
  NoDup (l1 ++ x :: y :: l2) -> f ∉ l1 ++ x :: y :: l2 ->
  is_Some (h !! x) -> is_Some (h !! f) -> is_Some (h !! y) ->
  joined_all h (l1 ++ x :: y :: l2) ->
  joined_all (rejoin (rejoin h x f) f y) (l1 ++ x :: f :: y :: l2).
Proof.
  intros Hn Hf Hx Hff Hy Hj.
  assert (forall a, is_Some (h !! a) -> is_Some (rejoin h x f !! a)) as Hr.
  { intros a [o Ho]. pose proof (rejoin_same h x f a) as Hs. unfold body in Hs.
    rewrite Ho in Hs. by destruct (rejoin h x f !! a). }
  apply joined_all_app in Hj as [Hj1 Hj2]. rewrite joined_all_app.
  change (x :: y :: l2) with ([x] ++ y :: l2) in Hj2, Hn, Hf.
  rewrite joined_all_app in Hj2. destruct Hj2 as [_ Hj2].
  rewrite app_assoc in Hn, Hf. apply list.NoDup_app in Hn as (Hn1 & Hd & Hn2).
  apply not_elem_of_app in Hf as [Hf1 Hf2].
  split; [|split; [|split]].
  - apply joined_all_rejoin; [|apply joined_all_rejoin; [|done]].
    + intros a b p q E. pose proof E as E'. apply (pairs_front l1 x y) in E as [Ha Hb]; [|done|set_solver].
      split; [|done]. intros ->. apply Hf1. rewrite E'. set_solver.
    + intros a b p q E. by apply (pairs_front l1 x f) in E.
  - destruct (joined_rejoin h x f) as [H1 H2]; [done|done|]. split.
    + rewrite sendp_rejoin, decide_False; [done|set_solver].
    + rewrite recvp_rejoin, decide_False; [done|set_solver].
  - apply joined_rejoin; auto.
  - apply joined_all_rejoin; [|apply joined_all_rejoin; [|done]].
    + intros a b p q E. by apply (pairs_back l2 f y) in E.
    + intros a b p q E. pose proof E as E'. apply (pairs_back l2 x y) in E as [Ha Hb]; [|done|set_solver].
      split; [done|]. intros ->. apply Hf2. rewrite E'. set_solver.
Qed.

(** The new filter comes in front of all filters, or behind them. *)
Definition pushed (first : bool) (fs : list ref) (f : ref) : list ref :=
  if first then f :: fs else fs ++ [f].

Lemma lock_in h p x : p = Some x -> is_Some (h !! x) -> lock h p = Some x.
Proof. intros -> [o Ho]. simpl. by rewrite Ho. Qed.

Lemma pushed_elem first fs f x : x ∈ pushed first fs f <-> x = f \/ x ∈ fs.
Proof. destruct first; set_solver. Qed.

Lemma pushed_nodup first c fs f d :
  NoDup (c :: fs ++ [d]) -> f ∉ c :: fs ++ [d] -> NoDup (c :: pushed first fs f ++ [d]).
Proof.
  intros Hn Hf. apply (NoDup_Permutation_proper (c :: pushed first fs f ++ [d]) (f :: c :: fs ++ [d])).
  - destruct first; simpl; [apply Permutation_swap|].
    rewrite <-app_assoc. simpl. rewrite (Permutation_app_comm fs [f; d]). simpl.
    rewrite (Permutation_app_comm fs [d]). simpl. apply Permutation_swap.
  - by apply list.NoDup_cons.
Qed.

(** The object behind the connection, and the one in front of the driver. *)
Lemma stack_first h c fs d :
  stack h c fs d -> exists y l2, fs ++ [d] = y :: l2 /\ sendp h c = Some y /\ class_in [C_Filter; C_Driver] h y.
Proof.
  intros [_ _ Hf Hd _ Hj]. destruct fs as [|y fs].
  - exists d, []. split; [done|]. split; [apply Hj|]. eapply class_weaken; [|exact Hd]. set_solver.
  - exists y, (fs ++ [d]). split; [done|]. split; [apply Hj|]. apply Forall_cons_iff in Hf as [Hy _].
    eapply class_weaken; [|exact Hy]. set_solver.
Qed.

Lemma stack_last h c fs d :
  stack h c fs d ->
  exists l0 r, c :: fs = l0 ++ [r] /\ recvp h d = Some r /\ is_Some (h !! r).
Proof.
  intros [_ Hc Hf Hd _ Hj]. destruct (exists_last (l := c :: fs)) as (l0 & r & E); [done|].
  exists l0, r. split; [done|]. rewrite app_comm_cons, E, <-app_assoc in Hj. simpl in Hj.
  apply joined_all_app in Hj as [_ [[_ Hr] _]]. split; [done|].
  assert (r ∈ c :: fs) as Hin by (rewrite E; set_solver). apply elem_of_cons in Hin as [->|Hin].
  - by eapply class_is_Some.
  - rewrite list.Forall_forall in Hf. by eapply class_is_Some, Hf.
Qed.

(** Both ways of pushing join the new filter between its neighbours. *)
Lemma push_between h d c fs f first x y :
  stack h c fs d -> class_in [C_Filter] h f -> f ∉ c :: fs ++ [d] ->
  is_Some (h !! x) -> class_in [C_Filter; C_Driver] h y ->
  (exists l1 l2, c :: fs ++ [d] = l1 ++ x :: y :: l2 /\
                 c :: pushed first fs f ++ [d] = l1 ++ x :: f :: y :: l2) ->
  link h x (Some f) = Ret (rejoin h x f, true) /\
  link (rejoin h x f) f (Some y) = Ret (rejoin (rejoin h x f) f y, true) /\
  same_objects h (rejoin (rejoin h x f) f y) /\
  stack (rejoin (rejoin h x f) f y) c (pushed first fs f) d.
Proof.
  intros Hst Hf Hni Hx Hy (l1 & l2 & E & E').
  pose proof (rejoin_same h x f) as Hs1. pose proof (rejoin_same (rejoin h x f) f y) as Hs2.
  assert (same_objects h (rejoin (rejoin h x f) f y)) as Hs by (by etransitivity).
  split; [apply link_rejoin; [done|]; eapply class_weaken; [|exact Hf]; set_solver|].
  split; [apply link_rejoin; [eapply class_is_Some; by eapply same_class|by eapply same_class]|].
  split; [done|]. apply (restack h _ c fs); [done|done| | |].
  - by apply pushed_nodup; [apply Hst|].
  - apply list.Forall_forall. intros z [->|Hz]%pushed_elem; [done|].
    pose proof (st_filters _ _ _ _ Hst) as Hfs. rewrite list.Forall_forall in Hfs. auto.
  - rewrite E'. pose proof (st_nodup _ _ _ _ Hst) as Hn. pose proof (st_joined _ _ _ _ Hst) as Hj.
    rewrite E in Hn, Hj, Hni. apply insert_between; [done|done|done| | |done]; by eapply class_is_Some.
Qed.

Lemma push_filter_spec h c fs d f first :
  stack h c fs d -> class_in [C_Filter] h f -> f ∉ c :: fs ++ [d] ->
  exists h', push_filter h d f first = Ret (h', true) /\
    stack h' c (pushed first fs f) d /\ same_objects h h'.
Proof.
  intros Hst Hf Hni. pose proof (st_driver _ _ _ _ Hst) as (od & Hd & _).
  pose proof (class_is_Some _ _ _ (st_conn _ _ _ _ Hst)) as Hc.
  unfold push_filter, deref. rewrite Hd, bind_Ret. destruct first.
  - destruct (stack_first _ _ _ _ Hst) as (y & l2 & E & Hy & Hcy).
    rewrite (lock_in h (o_conn od) c); [|pose proof (st_back _ _ _ _ Hst) as Hb; by rewrite Hd in Hb|done].
    destruct Hc as [oc Hc]. rewrite Hc, !bind_Ret. unfold sendp in Hy. rewrite Hc in Hy. simpl in Hy.
    rewrite Hy. destruct (push_between h d c fs f true c y) as (-> & H2 & Hs & Hst'); try done.
    { exists [], l2. simpl. by rewrite E. }
    rewrite bind_Ret, H2, bind_Ret. eauto.
  - destruct (stack_last _ _ _ _ Hst) as (l0 & r & E & Hr & Hri).
    rewrite (lock_in h (o_recv od) r); [|unfold recvp in Hr; by rewrite Hd in Hr|done]. rewrite bind_Ret.
    destruct (push_between h d c fs f false r d) as (-> & H2 & Hs & Hst'); try done.
    { eapply class_weaken; [|apply Hst]. set_solver. }
    { exists l0, []. rewrite app_comm_cons, E, <-app_assoc. split; [done|]. unfold pushed.
      rewrite <-app_assoc, app_comm_cons, E, <-app_assoc. done. }
    rewrite bind_Ret, H2, bind_Ret. eauto.
Qed.

(** [push_filter] inserts into the chain: behind all filters, next to the
    driver, or in front of them, next to the connection.  The pointers of both
    directions run through the new list, the order of the other filters is kept,
    and no object is changed otherwise. *)
Theorem push_filter_inserts h c fs d f first :
  stack h c fs d -> class_in [C_Filter] h f -> f ∉ c :: fs ++ [d] ->
  exists h', push_filter h d f first = Ret (h', true) /\
    stack h' c (if first then f :: fs else fs ++ [f]) d /\ same_objects h h'.
Proof. apply push_filter_spec. Qed.

Lemma joined_all_insert h f o l : f ∉ l -> joined_all h l -> joined_all (<[f := o]> h) l.
Proof.
  intros Hf. apply (joined_all_frame _ _ l f f).
  - intros a _ Ha. unfold sendp. by rewrite lookup_insert_ne.
  - intros a _ Ha. unfold recvp. by rewrite lookup_insert_ne.
  - intros a b l1 l2 ->. set_solver.
Qed.

Lemma delete_between h l1 r f n l2 :
  NoDup (l1 ++ r :: f :: n :: l2) -> is_Some (h !! r) -> is_Some (h !! n) ->
  joined_all h (l1 ++ r :: f :: n :: l2) -> joined_all (rejoin h r n) (l1 ++ r :: n :: l2).
Proof.
  intros Hn Hr Hnn Hj. apply joined_all_app in Hj as [Hj1 (_ & _ & Hj2)].
  change (l1 ++ r :: f :: n :: l2) with (l1 ++ [r] ++ [f] ++ n :: l2) in Hn.
  rewrite app_assoc in Hn. apply list.NoDup_app in Hn as (Hn1 & Hd & Hn2).
  apply list.NoDup_app in Hn2 as (_ & _ & Hn2).
  rewrite joined_all_app. split; [|split; [by apply joined_rejoin|]].
  - apply joined_all_rejoin; [|done]. intros a b p q E. apply (pairs_front l1 r n) in E; [done|done|].
    set_solver.
  - apply joined_all_rejoin; [|done]. intros a b p q E. apply (pairs_back l2 r n) in E; [done|done|].
    set_solver.
Qed.

(** The heap after [unlink]: the neighbours are joined, the filter is alone. *)
Lemma unlink_eq h l1 r f n l2 ob :
  joined_all h (l1 ++ r :: f :: n :: l2) -> NoDup (r :: f :: n :: l2) -> h !! f = Some ob ->
  is_Some (h !! r) -> class_in [C_Filter; C_Driver] h n ->
  unlink h f = Ret (<[f := erase ob]> (rejoin h r n)).
Proof.
  intros Hj Hn Hf Hr Hc. apply joined_all_app in Hj as [_ ([_ Hfr] & [Hfn _] & _)].
  unfold unlink, deref. unfold recvp, sendp in *. rewrite Hf in *. simpl in Hfr, Hfn. rewrite !bind_Ret.
  rewrite (lock_in h (o_recv ob) r), Hfn by done.
  rewrite link_prev_rejoin, !bind_Ret by done. unfold link_next, deref.
  pose proof (sendp_rejoin h r n r) as Hs. rewrite decide_True in Hs by done.
  destruct Hr as [or Hr]. rewrite Hr in Hs. unfold sendp in Hs.
  destruct (rejoin h r n !! r) as [o|] eqn:Eo; [|done]. simpl in Hs. rewrite !bind_Ret.
  rewrite (insert_id _ r) by (rewrite Eo; f_equal; destruct o; simpl in *; by subst).
  assert (rejoin h r n !! f = Some ob) as ->.
  { unfold rejoin. rewrite !lookup_alter_ne; [done| |];
      apply list.NoDup_cons in Hn as [H1 [H2 _]%list.NoDup_cons]; set_solver. }
  by rewrite bind_Ret.
Qed.

(** [unlink] takes a filter out of the chain: its neighbours are joined, the
    order of the others is kept, and the filter has no neighbours any more. *)
Theorem unlink_deletes h c l1 f l2 d :
  stack h c (l1 ++ f :: l2) d ->
  exists h', unlink h f = Ret h' /\ stack h' c (l1 ++ l2) d /\ same_objects h h' /\
    sendp h' f = None /\ recvp h' f = None.
Proof.
  intros Hst. pose proof Hst as [Hn Hc Hf Hd Hb Hj].
  destruct (exists_last (l := c :: l1)) as (l0 & r & E); [done|].
  destruct (l2 ++ [d]) as [|n l3] eqn:E3; [by destruct l2|].
  assert (c :: (l1 ++ f :: l2) ++ [d] = l0 ++ r :: f :: n :: l3) as Eall.
  { rewrite <-app_assoc. simpl. rewrite E3, app_comm_cons, E, <-app_assoc. done. }
  assert (c :: (l1 ++ l2) ++ [d] = l0 ++ r :: n :: l3) as Edel.
  { rewrite <-app_assoc, E3, app_comm_cons, E, <-app_assoc. done. }
  rewrite Eall in Hn, Hj.
  assert (forall x, x ∈ l1 ++ f :: l2 -> class_in [C_Filter] h x) as Hall
    by (by apply list.Forall_forall).
  destruct (Hall f) as (ob & Hof & Hcf); [set_solver|].
  assert (is_Some (h !! r)) as Hr.
  { assert (r ∈ c :: l1) as Hin by (rewrite E; set_solver). apply elem_of_cons in Hin as [->|Hin].
    - by eapply class_is_Some.
    - eapply class_is_Some, Hall. set_solver. }
  assert (class_in [C_Filter; C_Driver] h n) as Hcn.
  { destruct l2 as [|y l2]; simplify_eq/=.
    - eapply class_weaken; [|exact Hd]. set_solver.
    - eapply class_weaken; [|apply Hall]; set_solver. }
  pose proof Hn as Hn'. apply list.NoDup_app in Hn' as (Hn0 & Hd0 & Hn').
  rewrite (unlink_eq h l0 r f n l3 ob) by done.
  eexists. split; [done|].
  assert (same_objects h (<[f := erase ob]> (rejoin h r n))) as Hs.
  { intros x. unfold body. destruct (decide (f = x)) as [<-|Hx].
    - by rewrite lookup_insert_eq, Hof.
    - rewrite lookup_insert_ne by done. apply rejoin_same. }
  assert (f ∉ l0 ++ r :: n :: l3) as Hnf.
  { apply list.NoDup_cons in Hn' as [H1 [H2 _]%list.NoDup_cons]. set_solver. }
  split; [|split; [done|]; unfold sendp, recvp; by rewrite lookup_insert_eq].
  apply (restack h _ c (l1 ++ f :: l2)); [done|done| | |].
  - rewrite Edel. apply list.NoDup_app in Hn as (H1 & H2 & H3). apply list.NoDup_app.
    apply list.NoDup_cons in H3 as [H3 [H4 H5]%list.NoDup_cons]. split; [done|]. split; [set_solver|].
    apply list.NoDup_cons. split; [set_solver|done].
  - apply list.Forall_forall. intros x Hx. apply Hall. set_solver.
  - rewrite Edel. apply joined_all_insert; [done|]. apply (delete_between h l0 r f); [done|done| |done].
    by eapply class_is_Some.
Qed.

(** ** Looking for a filter *)

Definition named (h : heap) (name : text) (f : ref) : bool :=
  bool_decide (o_name <$> h !! f = Some name).

(** Of the filters with a name, the one next to the driver. *)
Definition last_named (h : heap) (name : text) (fs : list ref) : option ref :=
  List.find (named h name) (rev fs).

Lemma class_one cl h x : class_in [cl] h x -> exists o, h !! x = Some o /\ o_class o = cl.
Proof. intros (o & Ho & Hc). exists o. split; [done|]. by apply list_elem_of_singleton in Hc. Qed.

Lemma conn_class h x :
  class_in [C_LinkConnect; C_RouterLow] h x ->
  exists o, h !! x = Some o /\ (o_class o = C_LinkConnect \/ o_class o = C_RouterLow).
Proof. intros (o & Ho & Hc). exists o. split; [done|]. set_solver. Qed.

(** The search from the last filter of a chain, or from the connection. *)
Lemma findFilter_from h c name fs : forall l0 x fuel,
  class_in [C_LinkConnect; C_RouterLow] h c -> Forall (class_in [C_Filter] h) fs ->
  joined_all h (c :: fs) -> c :: fs = l0 ++ [x] -> (length fs < fuel)%nat ->
  findFilter fuel h x name false = Ret (last_named h name fs).
Proof.
  induction fs as [|f fs IH] using rev_ind; intros l0 x fuel Hc Hf Hj E Hl;
    (destruct fuel as [|fuel]; [lia|]); cbn [findFilter].
  - destruct l0 as [|? [|]]; simplify_eq/=. destruct (conn_class _ _ Hc) as (o & Ho & Hcl).
    unfold deref. rewrite Ho, bind_Ret. by destruct Hcl as [-> | ->].
  - rewrite app_comm_cons in E. apply app_inj_tail in E as [<- <-].
    apply Forall_app in Hf as [Hf Hff]. apply Forall_cons_iff in Hff as [Hff _].
    destruct (class_one _ _ _ Hff) as (o & Ho & Hcl). unfold deref. rewrite Ho, bind_Ret, Hcl.
    destruct (exists_last (l := c :: fs)) as (l1 & r & E); [done|].
    rewrite app_comm_cons, E, <-app_assoc in Hj. cbn [app] in Hj. apply joined_all_app in Hj as [Hj [[_ Hr] _]].
    assert (is_Some (h !! r)) as Hri.
    { assert (r ∈ c :: fs) as Hin by (rewrite E; set_solver). apply elem_of_cons in Hin as [->|Hin].
      - by eapply class_is_Some.
      - rewrite list.Forall_forall in Hf. by eapply class_is_Some, Hf. }
    unfold recvp in Hr. rewrite Ho in Hr. simpl in Hr. rewrite (lock_in h (o_recv o) r) by done.
    unfold last_named. rewrite rev_unit. cbn [List.find]. unfold named at 1. rewrite Ho. simpl fmap.
    cbn [negb andb]. destruct (decide (o_name o = name)) as [En|En].
    { rewrite !bool_decide_eq_true_2 by congruence. done. }
    rewrite !bool_decide_eq_false_2 by congruence.
    apply (IH l1 r fuel); [done|done|by rewrite E|done|]. rewrite length_app in Hl. simpl in Hl. lia.
Qed.

Lemma findFilter_spec h c fs d name fuel skip :
  stack h c fs d -> (length fs + 1 < fuel)%nat ->
  findFilter fuel h d name skip = Ret (last_named h name fs).
Proof.
  intros Hst Hl. pose proof Hst as [Hn Hc Hf Hd Hb Hj]. destruct fuel as [|fuel]; [lia|].
  cbn [findFilter]. destruct (class_one _ _ _ Hd) as (o & Ho & Hcl). unfold deref.
  rewrite Ho, bind_Ret, Hcl. destruct (stack_last _ _ _ _ Hst) as (l0 & r & E & Hr & Hri).
  unfold recvp in Hr. rewrite Ho in Hr. simpl in Hr. rewrite (lock_in h (o_recv o) r) by done.
  rewrite app_comm_cons, E, <-app_assoc in Hj. simpl in Hj. apply joined_all_app in Hj as [Hj _].
  apply (findFilter_from h c name fs l0 r fuel); [done|done|by rewrite E|done|lia].
Qed.

(** [findFilter] of a driver finds the filter with that name that is next to
    the driver, and nothing exactly if there is none; a depth of calls of two more
    than the number of filters is enough. *)
Theorem findFilter_finds h c fs d name fuel skip :
  stack h c fs d -> (length fs + 1 < fuel)%nat ->
  findFilter fuel h d name skip = Ret (last_named h name fs).
Proof. apply findFilter_spec. Qed.

(** ** The way of the calls *)

Lemma send_calls_chain h d l : forall fuel x,
  Forall (fun y => exists o, h !! y = Some o /\ o_class o <> C_Driver) l ->
  class_in [C_Driver] h d -> joined_all h (l ++ [d]) -> head (l ++ [d]) = Some x ->
  (length l < fuel)%nat -> send_calls fuel h x = Ret (l ++ [d]).
Proof.
  induction l as [|y l IH]; intros fuel x Hf Hd Hj Hx Hl; (destruct fuel as [|fuel]; [simpl in Hl; lia|]);
    injection Hx as <-; cbn [send_calls].
  - destruct (class_one _ _ _ Hd) as (o & Ho & Hcl). unfold deref. by rewrite Ho, bind_Ret, Hcl.
  - apply Forall_cons_iff in Hf as [(o & Ho & Hcl) Hf]. unfold deref. rewrite Ho, bind_Ret.
    destruct (l ++ [d]) as [|z l'] eqn:E; [by destruct l|]. simpl in Hj. rewrite E in Hj.
    destruct Hj as [[Hs _] Hj]. unfold sendp in Hs. rewrite Ho in Hs. simpl in Hs. rewrite Hs.
    rewrite (IH fuel z), bind_Ret; [|done|done|done|done|simpl in Hl; lia].
    simpl. rewrite E. by destruct (o_class o).
Qed.

Lemma recv_calls_chain h c l : forall fuel x l0,
  Forall (fun y => exists o, h !! y = Some o /\ (o_class o = C_Filter \/ o_class o = C_Driver)) l ->
  class_in [C_LinkConnect; C_RouterLow] h c -> joined_all h (c :: l) -> c :: l = l0 ++ [x] ->
  (length l < fuel)%nat -> recv_calls fuel h x = Ret (rev (c :: l)).
Proof.
  induction l as [|f l IH] using rev_ind; intros fuel x l0 Hf Hc Hj E Hl;
    (destruct fuel as [|fuel]; [lia|]); cbn [recv_calls].
  - destruct l0 as [|? [|]]; simplify_eq/=. destruct (conn_class _ _ Hc) as (o & Ho & Hcl).
    unfold deref. rewrite Ho, bind_Ret. by destruct Hcl as [-> | ->].
  - rewrite app_comm_cons in E. apply app_inj_tail in E as [<- <-].
    apply Forall_app in Hf as [Hf Hff]. apply Forall_cons_iff in Hff as [(o & Ho & Hcl) _].
    unfold deref. rewrite Ho, bind_Ret. destruct (exists_last (l := c :: l)) as (l1 & r & E); [done|].
    rewrite app_comm_cons, E, <-app_assoc in Hj. cbn [app] in Hj. apply joined_all_app in Hj as [Hj [[_ Hr] _]].
    assert (is_Some (h !! r)) as Hri.
    { assert (r ∈ c :: l) as Hin by (rewrite E; set_solver). apply elem_of_cons in Hin as [->|Hin].
      - by eapply class_is_Some.
      - rewrite list.Forall_forall in Hf. destruct (Hf r Hin) as (? & -> & _). done. }
    unfold recvp in Hr. rewrite Ho in Hr. simpl in Hr. rewrite (lock_in h (o_recv o) r) by done.
    rewrite (IH fuel r l1), bind_Ret; [|done|done|by rewrite E|done|rewrite length_app in Hl; simpl in Hl; lia].
    rewrite app_comm_cons, rev_unit. by destruct Hcl as [-> | ->].
Qed.

(** A packet that the router sends passes all filters of the link in the order of
    the list and reaches the driver, and what the driver reports passes them in
    the opposite order and reaches the connection. *)
Theorem calls_pass_all_filters h c fs d fuel :
  stack h c fs d -> (length fs + 1 < fuel)%nat ->
  send_calls fuel h c = Ret (c :: fs ++ [d]) /\ recv_calls fuel h d = Ret (d :: rev fs ++ [c]).
Proof.
  intros [Hn Hc Hf Hd Hb Hj] Hl. split.
  - apply (send_calls_chain h d (c :: fs)); [|done|done|done|simpl; lia].
    apply Forall_cons_iff. split.
    + destruct (conn_class _ _ Hc) as (o & Ho & Hcl). exists o. split; [done|]. by destruct Hcl as [-> | ->].
    + eapply Forall_impl; [|exact Hf]. intros x Hx. destruct (class_one _ _ _ Hx) as (o & Ho & Hcl).
      exists o. by rewrite Hcl.
  - rewrite (recv_calls_chain h c (fs ++ [d]) fuel d (c :: fs)); [|..].
    + by rewrite app_comm_cons, rev_unit.
    + apply Forall_app. split; [|apply Forall_cons_iff; split; [|constructor]].
      * eapply Forall_impl; [|exact Hf]. intros x Hx. destruct (class_one _ _ _ Hx) as (o & Ho & Hcl).
        exists o. eauto.
      * destruct (class_one _ _ _ Hd) as (o & Ho & Hcl). eauto.
    + done.
    + done.
    + done.
    + rewrite length_app. simpl. lia.
Qed.

(** ** Setting up *)

Definition called (h : heap) (x : ref) : option bool := o_setup_called <$> h !! x.
Definition type_of (h : heap) (x : ref) : option text := o_type <$> h !! x.

(** Two heaps that differ in the flags [setup_called] only. *)
Definition stable (h h' : heap) : Prop := forall x, set_called <$> h' !! x = set_called <$> h !! x.

#[export] Instance stable_po : PreOrder stable.
Proof. split; [done|]. intros h1 h2 h3 H12 H23 x. by rewrite H23. Qed.

Lemma stable_lookup h h' x o :
  stable h h' -> h !! x = Some o -> exists b, h' !! x = Some
    (mkObj (o_class o) (o_type o) (o_name o) (o_send o) (o_recv o) (o_conn o) (o_driver o) b).
Proof.
  intros Hs Ho. specialize (Hs x). rewrite Ho in Hs. destruct (h' !! x) as [o'|]; [|done].
  exists (o_setup_called o'). injection Hs as H1 H2 H3 H4 H5 H6 H7. rewrite <-H1, <-H2, <-H3, <-H4, <-H5, <-H6, <-H7.
  by destruct o'.
Qed.

Lemma stable_sym h h' : stable h h' -> stable h' h.
Proof. intros Hs x. by rewrite Hs. Qed.

Lemma stable_bind {A} (f : LinkObj -> option A) h h' x :
  (forall o, f (set_called o) = f o) -> stable h h' -> h' !! x ≫= f = h !! x ≫= f.
Proof.
  intros Hf Hs. specialize (Hs x). destruct (h !! x) as [o|], (h' !! x) as [o'|]; try done.
  injection Hs as Hs1 Hs2 Hs3 Hs4 Hs5 Hs6 Hs7. simpl. rewrite <-(Hf o), <-(Hf o'). f_equal.
  unfold set_called. by rewrite Hs1, Hs2, Hs3, Hs4, Hs5, Hs6, Hs7.
Qed.

Lemma stable_class cs h h' x : stable h h' -> class_in cs h x -> class_in cs h' x.
Proof. intros Hs (o & Ho & Hc). destruct (stable_lookup _ _ _ _ Hs Ho) as [b Hb]. by eexists. Qed.

Lemma stack_stable h h' c fs d : stable h h' -> stack h c fs d -> stack h' c fs d.
Proof.
  intros Hs [Hn Hc Hf Hd Hb Hj]. split; [done|by eapply stable_class| |by eapply stable_class| |].
  - eapply Forall_impl; [|exact Hf]. intros x. by apply stable_class.
  - rewrite (stable_bind o_conn h) by done. done.
  - apply (joined_all_frame h h' (c :: fs ++ [d]) (S (list_max (c :: fs ++ [d]))) (S (list_max (c :: fs ++ [d])))); [| | |done].
    + intros a _ _. by apply (stable_bind o_send).
    + intros a _ _. by apply (stable_bind o_recv).
    + intros a b l1 l2 E. assert (forall z, z ∈ c :: fs ++ [d] -> z <> S (list_max (c :: fs ++ [d]))) as Hm.
      { intros z Hz. apply list_elem_of_In in Hz. pose proof (proj1 (list_max_le _ _) (le_n (list_max (c :: fs ++ [d])))) as Hall.
        rewrite List.Forall_forall in Hall. specialize (Hall z Hz). lia. }
      split; apply Hm; rewrite E; set_solver.
Qed.

Lemma base_setup_spec h x o :
  h !! x = Some o -> o_setup_called o = false ->
  base_setup h x = Ret (<[x := set_called o]> h) /\ stable h (<[x := set_called o]> h) /\
  called (<[x := set_called o]> h) x = Some true /\
  (forall y, y <> x -> <[x := set_called o]> h !! y = h !! y).
Proof.
  intros Ho Hc. unfold base_setup, deref. rewrite Ho, bind_Ret, Hc. simpl. split; [done|].
  split; [|split].
  - intros y. destruct (decide (x = y)) as [<-|Hy]; [by rewrite lookup_insert_eq, Ho|by rewrite lookup_insert_ne].
  - unfold called. by rewrite lookup_insert_eq.
  - intros y Hy. by rewrite lookup_insert_ne.
Qed.

(** The objects of [h] are those of [h'], apart from their pointers. *)
Definition kept (h h' : heap) : Prop := forall x, is_Some (h !! x) -> body h' x = body h x.

Lemma kept_some h h' x : kept h h' -> is_Some (h !! x) -> is_Some (h' !! x).
Proof. intros Hk Hx. specialize (Hk x Hx). destruct Hx as [o Ho]. unfold body in Hk. rewrite Ho in Hk. by destruct (h' !! x). Qed.

#[export] Instance kept_po : PreOrder kept.
Proof.
  split; [done|]. intros h1 h2 h3 H12 H23 x Hx. rewrite H23; [by apply H12|]. by apply (kept_some h1).
Qed.

Lemma kept_field {A} (f : LinkObj -> A) h h' x :
  (forall o, f (erase o) = f o) -> kept h h' -> is_Some (h !! x) -> f <$> h' !! x = f <$> h !! x.
Proof.
  intros Hf Hk Hx. specialize (Hk x Hx). destruct Hx as [o Ho]. unfold body in Hk. rewrite Ho in *.
  destruct (h' !! x) as [o'|]; [|done]. cbn [fmap option_fmap option_map] in *.
  apply (inj Some) in Hk. by rewrite <-(Hf o), <-(Hf o'), Hk.
Qed.

Lemma same_kept h h' : same_objects h h' -> kept h h'.
Proof. intros Hs x _. apply Hs. Qed.

Lemma stack_elem_some h c fs d x : stack h c fs d -> x ∈ c :: fs ++ [d] -> is_Some (h !! x).
Proof.
  intros [_ Hc Hf Hd _ _] Hx. rewrite elem_of_cons, elem_of_app, list_elem_of_singleton in Hx.
  destruct Hx as [->|[Hx| ->]]; [by eapply class_is_Some| |by eapply class_is_Some].
  rewrite list.Forall_forall in Hf. by eapply class_is_Some, Hf.
Qed.

(** A new object is outside the stack, and does not touch it. *)
Lemma stack_alloc h c fs d x o :
  h !! x = None -> stack h c fs d ->
  stack (<[x := o]> h) c fs d /\ (x ∉ c :: fs ++ [d]) /\ kept h (<[x := o]> h).
Proof.
  intros Hx Hst. assert (x ∉ c :: fs ++ [d]) as Hni.
  { intros Hin. destruct (stack_elem_some _ _ _ _ _ Hst Hin) as [? ?]. congruence. }
  assert (kept h (<[x := o]> h)) as Hk.
  { intros y [oy Hy]. unfold body. destruct (decide (x = y)) as [->|Hn]; [congruence|by rewrite lookup_insert_ne]. }
  split; [|done]. destruct Hst as [Hn Hc Hf Hd Hb Hj].
  assert (forall cs y, class_in cs h y -> class_in cs (<[x := o]> h) y) as Hcl.
  { intros cs y (oy & Hy & Hcy). exists oy. split; [|done]. rewrite lookup_insert_ne; [done|]. by intros ->; simplify_eq. }
  split; auto.
  - eapply Forall_impl; [|exact Hf]. intros y. apply Hcl.
  - rewrite lookup_insert_ne; [done|]. intros ->. set_solver.
  - by apply joined_all_insert.
Qed.

Section Setup.
Context (trace : IniData -> option text -> outcome IniData)
  (known : text -> bool) (checks : heap -> ref -> bool)
  (assures : text -> list (text * bool)) (fuel : nat).

(** The traces can be made, whatever has been looked at before. *)
Definition traceable (d0 : IniData) : Prop :=
  forall d sec, same_config d0 d -> exists d', trace d sec = Ret d' /\ same_config d0 d'.

Lemma filter_setup_spec w f o :
  w_heap w !! f = Some o -> o_setup_called o = false ->
  exists w' ok, filter_setup checks w f = Ret (w', ok) /\ w_ini w' = w_ini w /\
    stable (w_heap w) (w_heap w') /\ (forall y, y <> f -> w_heap w' !! y = w_heap w !! y) /\
    (ok = true -> called (w_heap w') f = Some true).
Proof.
  intros Ho Hc. unfold filter_setup. destruct (checks _ _).
  - destruct (base_setup_spec _ _ _ Ho Hc) as (-> & Hs & Hca & Hy). rewrite bind_Ret. eauto 8.
  - by exists w, false.
Qed.

(** A filter that was added by [assureFilter]. *)
Definition added (h0 h : heap) (name : text) (f : ref) : Prop :=
  h0 !! f = None /\ known name = true /\ type_of h f = Some name /\ called h f = Some true.

Lemma assureFilter_spec d0 w c fs d name first :
  traceable d0 -> same_config d0 (w_ini w) ->
  stack (w_heap w) c fs d -> (length fs + 1 < fuel)%nat ->
  exists w' ok, assureFilter trace known checks fuel w d name first = Ret (w', ok) /\
    same_config d0 (w_ini w') /\
    (ok = true -> kept (w_heap w) (w_heap w') /\
       ((w' = w /\ exists f, f ∈ fs /\ named (w_heap w) name f = true) \/
        exists f, stack (w_heap w') c (pushed first fs f) d /\ added (w_heap w) (w_heap w') name f)).
Proof.
  intros Htr Hcf Hst Hl. unfold assureFilter. rewrite (findFilter_spec _ c fs) by done. rewrite bind_Ret.
  unfold last_named. destruct (List.find _ _) as [f|] eqn:Ef.
  { apply find_some in Ef as [Hin Hn]. apply in_rev, list_elem_of_In in Hin.
    exists w, true. split; [done|]. split; [done|]. intros _. split; [done|]. left. eauto. }
  destruct (class_one _ _ _ (st_driver _ _ _ _ Hst)) as (o & Ho & Hcl). unfold deref. rewrite Ho, bind_Ret.
  pose proof (st_back _ _ _ _ Hst) as Hb. rewrite Ho in Hb.
  rewrite (lock_in _ (o_conn o) c) by (done || by eapply class_is_Some, Hst).
  unfold get_filter, alloc. destruct (known name) eqn:Hk; [|by exists w, false].
  destruct (Htr (w_ini w) None Hcf) as (d1 & -> & Hcf1). rewrite !bind_Ret.
  set (x := fresh _). set (ob := new_filter _ _ _). cbv beta iota zeta.
  assert (w_heap w !! x = None) as Hx by (apply not_elem_of_dom, is_fresh).
  destruct (stack_alloc _ _ _ _ x ob Hx Hst) as (Hst1 & Hni & Hk1).
  destruct (push_filter_spec (<[x := ob]> (w_heap w)) c fs d x first) as (h' & Hp & Hst2 & Hs2); [done| |done|].
  { exists ob. split; [by rewrite lookup_insert_eq|by left]. }
  cbn [set_heap w_heap]. rewrite Hp, bind_Ret. cbv iota beta.
  assert (exists o', h' !! x = Some o' /\ erase o' = erase ob) as (o' & Ho' & He).
  { specialize (Hs2 x). unfold body in Hs2. rewrite lookup_insert_eq in Hs2.
    destruct (h' !! x) as [o'|]; [|done]. exists o'. split; [done|].
    cbn [fmap option_fmap option_map] in Hs2. by apply (inj Some) in Hs2. }
  destruct (filter_setup_spec (mkWorld h' d1) x o') as (w' & ok & Hf & Hi & Hsb & Hoth & Hca).
  { done. } { change (o_setup_called (erase o') = false). by rewrite He. }
  exists w', ok. split; [done|]. split; [by rewrite Hi|]. intros ->. specialize (Hca eq_refl).
  assert (kept (w_heap w) (w_heap w')) as Hkept.
  { intros y [oy Hy]. assert (y <> x) as Hyx by congruence. unfold body. rewrite Hoth by done.
    cbn [w_heap]. transitivity (body (<[x := ob]> (w_heap w)) y); [apply Hs2|].
    unfold body. by rewrite lookup_insert_ne. }
  split; [done|]. right. exists x. split; [by eapply stack_stable|]. split; [done|]. split; [done|]. split; [|done].
  unfold type_of. destruct (stable_lookup _ _ _ _ Hsb Ho') as [b Hb']. rewrite Hb'. simpl.
  change (o_type o') with (o_type (erase o')). by rewrite He.
Qed.

End Setup.

Section Assured.
Context (known : text -> bool).

Definition satisfied (h : heap) (fs : list ref) (name : text) : Prop :=
  exists f, f ∈ fs /\ (named h name f = true \/ type_of h f = Some name).

Lemma added_later h0 h1 h2 name f :
  kept h1 h2 -> added known h0 h1 name f -> added known h0 h2 name f.
Proof.
  intros Hk (H0 & Hn & Ht & Hc). assert (is_Some (h1 !! f)) as Hf.
  { unfold called in Hc. by destruct (h1 !! f). }
  split; [done|]. split; [done|]. unfold type_of, called.
  by rewrite !(kept_field _ h1 h2 f).
Qed.

Lemma added_earlier h0 h1 h2 name f : kept h0 h1 -> added known h1 h2 name f -> added known h0 h2 name f.
Proof.
  intros Hk (H1 & Hr). split; [|done]. destruct (h0 !! f) eqn:E; [|done].
  destruct (kept_some h0 h1 f Hk) as [? ?]; [by rewrite E|congruence].
Qed.

Lemma satisfied_later h h' fs fs' name :
  kept h h' -> Forall (fun f => is_Some (h !! f)) fs -> fs ⊆ fs' ->
  satisfied h fs name -> satisfied h' fs' name.
Proof.
  intros Hk Hall Hsub (f & Hf & Hs). exists f. split; [by apply Hsub|].
  rewrite list.Forall_forall in Hall. specialize (Hall f Hf). unfold named, type_of in *.
  by rewrite !(kept_field _ h h' f).
Qed.

Lemma stack_filters_some h c fs d : stack h c fs d -> Forall (fun f => is_Some (h !! f)) fs.
Proof. intros Hst. eapply Forall_impl; [|apply (st_filters _ _ _ _ Hst)]. intros x. apply class_is_Some. Qed.

(** The filters [front] and [back] that were added around [fs] for [l]. *)
Definition assured (h h' : heap) (c d : ref) (fs front back : list ref) (l : list (text * bool)) : Prop :=
  stack h' c (front ++ fs ++ back) d /\ kept h h' /\
  Forall (fun f => exists q, q ∈ l /\ added known h h' q.1 f) (front ++ back) /\
  Forall (fun q => satisfied h' (front ++ fs ++ back) q.1) l /\
  (length (front ++ back) <= length l)%nat.

Lemma assured_skip h h' c d fs front back q l f :
  assured h h' c d fs front back l -> stack h c fs d -> f ∈ fs -> named h q.1 f = true ->
  assured h h' c d fs front back (q :: l).
Proof.
  intros (Hst & Hk & Ha & Hs & Hl) Hst0 Hf Hn. split; [done|]. split; [done|]. split; [|split].
  - eapply Forall_impl; [|exact Ha]. intros x (q' & Hq & Hx). exists q'. split; [by right|done].
  - apply Forall_cons_iff. split; [|done]. apply (satisfied_later h h' fs); [done| |set_solver|].
    + by eapply stack_filters_some.
    + exists f. eauto.
  - simpl. lia.
Qed.

Lemma assured_push h h1 h' c d fs front back name first l f :
  kept h h1 -> added known h h1 name f -> stack h1 c (pushed first fs f) d ->
  assured h1 h' c d (pushed first fs f) front back l ->
  exists front' back', assured h h' c d fs front' back' ((name, first) :: l).
Proof.
  intros Hk1 Had Hst1 (Hst & Hk & Ha & Hs & Hl).
  exists (if first then front ++ [f] else front), (if first then back else f :: back).
  assert ((if first then front ++ [f] else front) ++ fs ++ (if first then back else f :: back)
          = front ++ pushed first fs f ++ back) as Eq.
  { destruct first; simpl; by rewrite <-!app_assoc. }
  assert (kept h h') as Hkk by (by etransitivity).
  unfold assured. rewrite Eq. split; [done|]. split; [done|]. split; [|split].
  - assert (forall x, x = f \/ x ∈ front ++ back ->
      exists q, q ∈ (name, first) :: l /\ added known h h' q.1 x) as Hx.
    { intros x [->|Hx].
      - exists (name, first). split; [by left|]. by apply (added_later h h1).
      - rewrite list.Forall_forall in Ha. destruct (Ha x Hx) as (q & Hq & Hadd). exists q.
        split; [by right|]. by apply (added_earlier h h1). }
    apply list.Forall_forall. intros x Hin. apply Hx. destruct first; set_solver.
  - apply Forall_cons_iff. split; [|done]. exists f. split; [|right; apply (added_later h h1 h'); done].
    rewrite !elem_of_app, pushed_elem. tauto.
  - destruct first; rewrite !length_app in *; simpl; lia.
Qed.

End Assured.

Lemma pushed_length first fs (f : ref) : length (pushed first fs f) = S (length fs).
Proof. destruct first; simpl; [done|]. rewrite length_app. simpl. lia. Qed.

Section SetupAll.
Context (trace : IniData -> option text -> outcome IniData)
  (known : text -> bool) (checks : heap -> ref -> bool)
  (assures : text -> list (text * bool)) (fuel : nat)
  (d0 : IniData) (Htrace : traceable trace d0).

Lemma assure_all_spec l : forall w c fs d,
  same_config d0 (w_ini w) ->
  stack (w_heap w) c fs d -> (length fs + length l + 1 < fuel)%nat ->
  exists w' ok, assure_all trace known checks fuel w d l = Ret (w', ok) /\ same_config d0 (w_ini w') /\
    (ok = true -> exists front back, assured known (w_heap w) (w_heap w') c d fs front back l).
Proof using All.
  induction l as [|[name first] l IH]; intros w c fs d Hcf Hst Hl; cbn [assure_all].
  { exists w, true. split; [done|]. split; [done|]. intros _. exists [], []. unfold assured. rewrite !app_nil_r.
    split; [done|]. split; [done|]. split; [constructor|]. split; [constructor|done]. }
  simpl in Hl. destruct (assureFilter_spec trace known checks fuel d0 w c fs d name first) as (w1 & ok & -> & Hi & Hok); [done|done|done|lia|].
  rewrite bind_Ret. destruct ok; [|by exists w1, false].
  destruct (Hok eq_refl) as [Hk [[-> (f & Hf & Hn)]|(f & Hst1 & Had)]].
  - destruct (IH w c fs d) as (w' & ok & Hr & Hi' & Hok'); [done|done|lia|]. exists w', ok.
    split; [done|]. split; [done|]. intros E. destruct (Hok' E) as (front & back & Ha).
    exists front, back. by eapply assured_skip.
  - destruct (IH w1 c (pushed first fs f) d) as (w' & ok & Hr & Hi' & Hok'); [done|done|rewrite pushed_length; lia|].
    exists w', ok. split; [done|]. split; [done|]. intros E.
    destruct (Hok' E) as (front & back & Ha). by eapply assured_push.
Qed.

(** The result of the [setup] of the driver, and of that of the whole chain: the
    filters [fs] with those that were added for [l], all of them set up. *)
Definition set_up (h h' : heap) (c d : ref) (fs front back : list ref) (l : list (text * bool)) : Prop :=
  stack h' c (front ++ fs ++ back) d /\
  Forall (fun x => called h' x = Some true) (front ++ back ++ [d]) /\
  Forall (fun x => called h' x = called h x) (c :: fs) /\
  Forall (fun x => type_of h' x = type_of h x) fs /\
  Forall (fun f => exists q, q ∈ l /\ known q.1 = true /\ type_of h' f = Some q.1) (front ++ back) /\
  Forall (fun q => satisfied h' (front ++ fs ++ back) q.1) l /\
  (length (front ++ back) <= length l)%nat.

Lemma stable_type h h' x : stable h h' -> type_of h' x = type_of h x.
Proof.
  intros Hs. pose proof (stable_bind (fun o => Some (o_type o)) h h' x (fun _ => eq_refl) Hs) as H.
  unfold type_of. by destruct (h !! x), (h' !! x).
Qed.

Lemma stable_named h h' name x : stable h h' -> named h' name x = named h name x.
Proof.
  intros Hs. pose proof (stable_bind (fun o => Some (o_name o)) h h' x (fun _ => eq_refl) Hs) as H.
  unfold named. destruct (h !! x), (h' !! x); simplify_eq/=; try done. by rewrite H.
Qed.

Lemma driver_setup_spec w c fs d od :
  same_config d0 (w_ini w) ->
  stack (w_heap w) c fs d -> w_heap w !! d = Some od -> o_setup_called od = false ->
  (length fs + length (assures (o_type od)) + 1 < fuel)%nat ->
  exists w' ok, driver_setup trace known checks assures fuel w d = Ret (w', ok) /\ same_config d0 (w_ini w') /\
    (ok = true -> exists front back,
       set_up (w_heap w) (w_heap w') c d fs front back (assures (o_type od))).
Proof using All.
  intros Hcf Hst Hd Hc Hl. unfold driver_setup, deref. rewrite Hd, bind_Ret.
  destruct (assure_all_spec (assures (o_type od)) w c fs d) as (w1 & ok & -> & Hi & Hok); [done|done|done|].
  rewrite bind_Ret. destruct ok; [|by exists w1, false].
  destruct (Hok eq_refl) as (front & back & Hst1 & Hk & Ha & Hs & Hn).
  assert (called (w_heap w1) d = Some false) as Hc1.
  { unfold called. rewrite (kept_field o_setup_called (w_heap w)) by (done || by rewrite Hd).
    by rewrite Hd; simpl; rewrite Hc. }
  unfold called in Hc1. destruct (w_heap w1 !! d) as [o1|] eqn:Ho1; [|done]. injection Hc1 as Hc1.
  destruct (base_setup_spec _ _ _ Ho1 Hc1) as (-> & Hsb & Hca & Hoth). rewrite bind_Ret.
  eexists _, _. split; [done|]. split; [done|]. intros _. exists front, back.
  pose proof (st_nodup _ _ _ _ Hst1) as Hnd.
  assert (forall x, x ∈ c :: front ++ fs ++ back -> x <> d) as Hxd.
  { intros x Hx ->. rewrite app_comm_cons in Hnd. apply list.NoDup_app in Hnd as (_ & Hnd & _).
    apply (Hnd d Hx). by left. }
  cbn [set_heap w_heap]. split; [by eapply stack_stable|]. split; [|split; [|split; [|split; [|split]]]].
  - rewrite app_assoc. apply Forall_app. split; [|by repeat constructor].
    apply list.Forall_forall. intros x Hx. unfold called. rewrite Hoth by (apply Hxd; set_solver).
    rewrite list.Forall_forall in Ha. destruct (Ha x Hx) as (q & _ & _ & _ & _ & Hcx). exact Hcx.
  - apply list.Forall_forall. intros x Hx. unfold called. rewrite Hoth by (apply Hxd; set_solver).
    apply kept_field; [done|done|]. apply (stack_elem_some _ _ _ _ x Hst). set_solver.
  - apply list.Forall_forall. intros x Hx. rewrite (stable_type _ _ _ Hsb). apply kept_field; [done|done|].
    apply (stack_elem_some _ _ _ _ x Hst). set_solver.
  - eapply Forall_impl; [|exact Ha]. intros x (q & Hq & _ & Hkn & Hty & _). exists q.
    by rewrite (stable_type _ _ _ Hsb).
  - eapply Forall_impl; [|exact Hs]. intros q (f & Hf & Hor). exists f. split; [done|].
    by rewrite (stable_type _ _ _ Hsb), (stable_named _ _ _ _ Hsb).
  - done.
Qed.

(** Looking at the chain from the place the walk has come to. *)
Lemma walk_next h c fdone todo d x :
  stack h c (fdone ++ x :: todo) d -> sendp h x = head (todo ++ [d]).
Proof.
  intros Hst. pose proof (st_joined _ _ _ _ Hst) as Hj. rewrite <-app_assoc in Hj.
  apply (joined_all_app h (c :: fdone) x (todo ++ [d])) in Hj as [_ Hj]. destruct (todo ++ [d]) as [|y l] eqn:E; [by destruct todo|].
  apply Hj.
Qed.

Lemma setup_walk_spec od todo : forall fdone w n c d,
  same_config d0 (w_ini w) ->
  stack (w_heap w) c (fdone ++ todo) d -> w_heap w !! d = Some od -> o_setup_called od = false ->
  Forall (fun x => called (w_heap w) x = Some true) fdone ->
  Forall (fun x => called (w_heap w) x = Some false) todo ->
  (length todo < n)%nat ->
  (length (fdone ++ todo) + length (assures (o_type od)) + 1 < fuel)%nat ->
  exists w' ok,
    setup_walk trace known checks assures fuel n w (head (todo ++ [d])) d = Ret (w', ok) /\ same_config d0 (w_ini w') /\
    (ok = true -> exists front back h1,
       set_up h1 (w_heap w') c d (fdone ++ todo) front back (assures (o_type od)) /\
       stable (w_heap w) h1 /\ called h1 c = called (w_heap w) c /\
       Forall (fun x => called h1 x = Some true) (fdone ++ todo)).
Proof using All.
  induction todo as [|x todo IH]; intros fdone w n c d Hcf Hst Hd Hc Hdone Htodo Hn Hl;
    (destruct n as [|n]; [simpl in Hn; lia|]); cbn [setup_walk head app]; unfold any_setup, deref.
  - rewrite Hd, bind_Ret. destruct (class_one _ _ _ (st_driver _ _ _ _ Hst)) as (o' & Ho' & Hcl).
    simplify_eq. rewrite Hcl.
    destruct (driver_setup_spec w c (fdone ++ []) d od) as (w' & ok & -> & Hi & Hok); [done|done|done|done|done|].
    rewrite bind_Ret. destruct ok; [|by exists w', false]. rewrite decide_True by done.
    exists w', true. split; [done|]. split; [done|]. intros _. destruct (Hok eq_refl) as (front & back & Hsu).
    exists front, back, (w_heap w). split; [done|]. split; [done|]. split; [done|]. by rewrite app_nil_r.
  - assert (class_in [C_Filter] (w_heap w) x) as Hcx.
    { pose proof (st_filters _ _ _ _ Hst) as Hf. apply Forall_app in Hf as [_ Hf].
      by apply Forall_cons_iff in Hf as [Hf _]. }
    destruct (class_one _ _ _ Hcx) as (ox & Hox & Hclx). rewrite Hox, bind_Ret, Hclx.
    apply Forall_cons_iff in Htodo as [Hx Htodo]. unfold called in Hx. rewrite Hox in Hx. injection Hx as Hx.
    destruct (filter_setup_spec checks w x ox) as (w1 & ok & -> & Hi & Hs & Hoth & Hca); [done|done|].
    assert (same_config d0 (w_ini w1)) as Hcf1 by (by rewrite Hi).
    rewrite bind_Ret. destruct ok; [|by exists w1, false].
    pose proof (st_nodup _ _ _ _ Hst) as Hnd.
    assert (x <> d /\ x <> c /\ (x ∉ fdone) /\ x ∉ todo) as (Hxd & Hxc & Hx1 & Hx2).
    { rewrite <-app_assoc in Hnd. apply list.NoDup_cons in Hnd as [Hnc Hnd].
      apply list.NoDup_app in Hnd as (_ & H1 & H2). cbn [app] in H2. apply list.NoDup_cons in H2 as [H2 _].
      set_solver. }
    rewrite decide_False by done. destruct (stable_lookup _ _ _ _ Hs Hox) as [b Hb].
    rewrite Hb, bind_Ret. cbn [o_class o_send]. rewrite Hclx.
    assert (o_send ox = head (todo ++ [d])) as ->.
    { pose proof (walk_next _ _ _ _ _ _ Hst) as Hnx. unfold sendp in Hnx. by rewrite Hox in Hnx. }
    assert (stack (w_heap w1) c ((fdone ++ [x]) ++ todo) d) as Hst1.
    { rewrite <-app_assoc. cbn [app]. by apply (stack_stable (w_heap w)). }
    destruct (IH (fdone ++ [x]) w1 n c d) as (w' & ok & -> & Hi' & Hok); [done|done| |done| | |simpl in Hn; lia| |].
    { by rewrite Hoth. }
    { apply Forall_app. split; [|repeat constructor; by apply Hca].
      rewrite list.Forall_forall in Hdone |- *. intros y Hy. unfold called. rewrite Hoth by set_solver. by apply Hdone. }
    { rewrite list.Forall_forall in Htodo |- *. intros y Hy. unfold called. rewrite Hoth by set_solver. by apply Htodo. }
    { rewrite <-app_assoc. exact Hl. }
    exists w', ok. split; [done|]. split; [done|]. intros E.
    destruct (Hok E) as (front & back & h1 & Hsu & Hs1 & Hc1 & Hall). rewrite <-app_assoc in Hsu, Hall.
    exists front, back, h1. split; [done|]. split; [by etransitivity|]. split; [|done].
    rewrite Hc1. unfold called. by rewrite Hoth.
Qed.

Lemma cfg_value_spec w sec name def t :
  same_config d0 (w_ini w) -> configured fuel d0 sec name def = Some t ->
  exists w', cfg_value fuel w sec name def = Ret (w', t) /\ w_heap w' = w_heap w /\
    same_config d0 (w_ini w').
Proof using All.
  intros Hs Hc. rewrite <-(configured_same fuel d0 (w_ini w)) in Hc by done.
  unfold configured in Hc. unfold cfg_value. destruct (value _ _ _ _ _) as [[d v]|] eqn:E; [|done].
  simplify_eq/=. eexists. split; [done|]. split; [done|]. etransitivity; [done|]. by eapply value_same.
Qed.

(** A filter of the configuration, before it is set up. *)
Definition pushed_as (h h' : heap) (f : ref) (t : text) : Prop :=
  h !! f = None /\ type_of h' f = Some t /\ named h' t f = true /\ called h' f = Some false.

Lemma pushed_as_later h h1 h2 f t : kept h1 h2 -> pushed_as h h1 f t -> pushed_as h h2 f t.
Proof using.
  intros Hk (H0 & Ht & Hn & Hc). assert (is_Some (h1 !! f)) as Hf.
  { unfold called in Hc. by destruct (h1 !! f). }
  split; [done|]. unfold type_of, named, called in *. by rewrite !(kept_field _ h1 h2 f).
Qed.

Lemma push_configured_spec names types :
  Forall2 (fun n t => configured fuel d0 n (str "filter") n = Some t) names types ->
  forall w c fs d,
  stack (w_heap w) c fs d -> same_config d0 (w_ini w) ->
  exists w' ok, push_configured trace known fuel w c d names = Ret (w', ok) /\ same_config d0 (w_ini w') /\
    (ok = true -> exists new, stack (w_heap w') c (fs ++ new) d /\ kept (w_heap w) (w_heap w') /\
       Forall2 (pushed_as (w_heap w) (w_heap w')) new types /\ Forall (fun t => known t = true) types).
Proof using All.
  induction 1 as [|n t names types Ht _ IH]; intros w c fs d Hst Hcfg; cbn [push_configured].
  { exists w, true. split; [done|]. split; [done|]. intros _. exists []. by rewrite app_nil_r. }
  destruct (cfg_value_spec (mkWorld (w_heap w) (ini_index (w_ini w) n)) n (str "filter") n t)
    as (w1 & -> & Hh & Hc1); [|done|].
  { etransitivity; [done|]. apply index_same. }
  rewrite bind_Ret. unfold get_filter, alloc. cbn [w_heap] in Hh.
  destruct (known t) eqn:Hk; [|by exists w1, false].
  destruct (Htrace (w_ini w1) (Some n) Hc1) as (d1 & -> & Hcf1). rewrite !bind_Ret.
  set (x := fresh _). set (ob := new_filter _ _ _). cbv beta iota zeta. cbn [set_heap w_heap w_ini].
  assert (w_heap w1 !! x = None) as Hx by (apply not_elem_of_dom, is_fresh). rewrite Hh in *.
  destruct (stack_alloc _ _ _ _ x ob Hx Hst) as (Hst1 & Hni & Hk1).
  destruct (push_filter_spec (<[x := ob]> (w_heap w)) c fs d x false) as (h' & -> & Hst2 & Hs2); [done| |done|].
  { exists ob. split; [by rewrite lookup_insert_eq|by left]. }
  rewrite bind_Ret. cbn [pushed] in Hst2.
  assert (pushed_as (w_heap w) h' x t) as Hpx.
  { assert (is_Some (<[x := ob]> (w_heap w) !! x)) as Hsx by (by rewrite lookup_insert_eq).
    split; [done|]. unfold type_of, named, called.
    rewrite !(kept_field _ (<[x := ob]> (w_heap w)) h' x) by (done || by apply same_kept).
    rewrite !lookup_insert_eq. simpl. by rewrite bool_decide_eq_true_2. }
  assert (kept (w_heap w) h') as Hkh by (etransitivity; [exact Hk1|by apply same_kept]).
  destruct (IH (mkWorld h' d1) c (fs ++ [x]) d) as (w' & ok & Hr & Hcf & Hok); [done|done|].
  exists w', ok. split; [done|]. split; [done|]. intros E. destruct (Hok E) as (new & Hst' & Hk' & Hf & Hkn).
  cbn [w_heap] in *. exists (x :: new). rewrite <-app_assoc in Hst'. split; [done|].
  split; [by etransitivity|]. split; [|by constructor]. constructor; [by apply (pushed_as_later _ h')|].
  eapply Forall2_impl; [|exact Hf]. intros f u (H1 & H2). split; [|done].
  destruct (w_heap w !! f) eqn:Ef; [|done]. destruct (kept_some _ _ f Hkh) as [? ?]; [by rewrite Ef|congruence].
Qed.

(** C37: [LinkConnect_::setup] of a new link builds the stack that the configuration
    asks for and never fails an assertion: each object is set up exactly once,
    whoever put it into the chain.  If it succeeds, the chain consists of the
    filters of the entry [filters] in their order, in front of them and behind
    them those that the driver has asked for and that were not configured, and
    every filter of the configuration is of the type that its section gives. *)
Theorem setup_builds_stack w c d od oc sec x types :
  stack (w_heap w) c [] d -> w_heap w !! d = Some od -> o_setup_called od = false ->
  w_heap w !! c = Some oc -> o_setup_called oc = false -> o_driver oc = Some d ->
  same_config d0 (w_ini w) -> configured fuel d0 sec (str "filters") [] = Some x ->
  Forall2 (fun n t => configured fuel d0 n (str "filter") n = Some t) (comma_names [] x) types ->
  (length types + length (assures (o_type od)) + 1 < fuel)%nat ->
  exists w' ok, conn_setup trace known checks assures fuel w c sec = Ret (w', ok) /\
    (ok = true -> exists front fs back, stack (w_heap w') c (front ++ fs ++ back) d /\
       Forall2 (fun f t => type_of (w_heap w') f = Some t /\ known t = true) fs types /\
       Forall (fun f => called (w_heap w') f = Some true) (c :: (front ++ fs ++ back) ++ [d]) /\
       Forall (fun q => satisfied (w_heap w') (front ++ fs ++ back) q.1) (assures (o_type od)) /\
       (length (front ++ back) <= length (assures (o_type od)))%nat).
Proof using All.
  intros Hst Hd Hcd Hc Hcc Hdr Hcf Hx Ht Hl. unfold conn_setup.
  assert (c <> d) as Hcneq. { pose proof (st_nodup _ _ _ _ Hst) as Hn. apply list.NoDup_cons in Hn as [Hn _]. set_solver. }
  destruct (base_setup_spec _ _ _ Hc Hcc) as (-> & Hs0 & Hca & Hoth). rewrite bind_Ret.
  assert (deref (<[c := set_called oc]> (w_heap w)) c = Ret (set_called oc)) as ->
    by (unfold deref; by rewrite lookup_insert_eq).
  rewrite bind_Ret. change (o_driver (set_called oc)) with (o_driver oc). rewrite Hdr. unfold set_heap at 1.
  set (h0 := <[c := set_called oc]> (w_heap w)) in *.
  destruct (cfg_value_spec (mkWorld h0 (w_ini w)) sec (str "filters") [] x) as (w1 & -> & Hh1 & Hc1); [done|done|].
  rewrite bind_Ret. cbn [w_heap] in Hh1.
  assert (stack (w_heap w1) c [] d) as Hst1 by (rewrite Hh1; by eapply stack_stable).
  destruct (push_configured_spec _ _ Ht w1 c [] d Hst1 Hc1) as (w2 & ok & -> & Hc2 & Hok).
  rewrite bind_Ret. destruct ok; [|by eexists _, _].
  destruct (Hok eq_refl) as (fs & Hst2 & Hk & Hfs & Hkn). cbn [app] in Hst2.
  assert (w_heap w1 !! d = Some od) as Hd1 by (rewrite Hh1; unfold h0; by rewrite lookup_insert_ne).
  assert (body (w_heap w2) d = Some (erase od)) as Hbd.
  { rewrite (Hk d) by (by rewrite Hd1). unfold body. by rewrite Hd1. }
  unfold body in Hbd. destruct (w_heap w2 !! d) as [od2|] eqn:Hd2; [|done].
  cbn [fmap option_fmap option_map] in Hbd. apply (inj Some) in Hbd.
  assert (o_type od2 = o_type od) as Hty by (change (o_type (erase od2) = o_type (erase od)); by rewrite Hbd).
  assert (o_setup_called od2 = false) as Hcd2
    by (change (o_setup_called (erase od2) = false); by rewrite Hbd).
  assert (length fs = length types) as Hlen by (by eapply Forall2_length).
  pose proof (stack_first _ _ _ _ Hst2) as (y & l2 & Ey & Hsy & _).
  assert (is_Some (w_heap w2 !! c)) as [oc2 Hc2'] by (by eapply class_is_Some, Hst2).
  unfold deref. rewrite Hc2', bind_Ret. unfold sendp in Hsy. rewrite Hc2' in Hsy. simpl in Hsy. rewrite Hsy.
  destruct (setup_walk_spec od2 fs [] w2 fuel c d) as (w' & ok & Hr & _ & Hok2); [done|done|done|done|constructor| |lia| |].
  { clear -Hfs. induction Hfs as [|f t fs ts (_ & _ & _ & Hf) _ IH]; constructor; done. }
  { rewrite Hty. cbn [app]. lia. }
  rewrite Ey in Hr. cbn [head] in Hr. rewrite Hr. exists w', ok. split; [done|]. intros E.
  destruct (Hok2 E) as (front & back & h1 & Hsu & Hs1 & Hch & Hall). cbn [app] in Hsu, Hall.
  destruct Hsu as (Hst' & Hnew & Hcs & Htys & _ & Hsat & Hln). rewrite Hty in Hsat, Hln.
  exists front, fs, back. split; [done|]. split; [|split; [|split; [done|done]]].
  - clear -Hfs Htys Hs1 Hkn. induction Hfs as [|f t fs ts (_ & Hf & _) _ IH]; constructor.
    + apply Forall_cons_iff in Htys as [-> _]. apply Forall_cons_iff in Hkn as [Hk _].
      by rewrite (stable_type _ _ _ Hs1).
    + apply Forall_cons_iff in Htys as [_ Htys]. apply Forall_cons_iff in Hkn as [_ Hkn]. auto.
  - apply Forall_cons_iff in Hcs as [Hcc' Hcs]. apply Forall_cons_iff. split.
    + rewrite Hcc', Hch. unfold called. rewrite (kept_field o_setup_called (w_heap w1)) by
        (done || rewrite Hh1; unfold h0; by rewrite lookup_insert_eq).
      rewrite Hh1. exact Hca.
    + apply Forall_app in Hnew as [Hf Hb]. apply Forall_app in Hb as [Hb Hdd].
      rewrite !Forall_app. split_and!; try done.
      rewrite list.Forall_forall in Hcs, Hall |- *. intros z Hz. rewrite Hcs by done. auto.
Qed.

End SetupAll.

(** [setup] must not be called twice on a link, as link.h says: the second call
    fails the assertion before it changes anything. *)
Theorem setup_twice_asserts trace known checks assures fuel w c oc sec :
  w_heap w !! c = Some oc -> o_setup_called oc = true ->
  conn_setup trace known checks assures fuel w c sec = Fault AssertFailed.
Proof. intros Hc Hcc. unfold conn_setup, base_setup, deref. by rewrite Hc, bind_Ret, Hcc. Qed.

(** [set_driver] joins a new connection and a new driver to a stack without
    filters. *)
Lemma set_driver_spec h c d :
  class_in [C_LinkConnect; C_RouterLow] h c -> class_in [C_Driver] h d ->
  h !! d ≫= o_conn = Some c -> c <> d ->
  exists h', set_driver h c d = Ret h' /\ stack h' c [] d /\ h' !! c ≫= o_driver = Some d /\
    (forall x, called h' x = called h x) /\ (forall x, type_of h' x = type_of h x).
Proof.
  intros Hc Hd Hb Hn. destruct Hc as (oc & Hoc & Hcl). unfold set_driver, deref. rewrite Hoc, bind_Ret.
  set (h0 := <[c := set_driver_member oc (Some d)]> h).
  assert (class_in [C_LinkConnect; C_RouterLow] h0 c) as Hc0.
  { eexists. split; [by apply lookup_insert_eq|done]. }
  assert (h0 !! d = h !! d) as Hd0 by (unfold h0; by rewrite lookup_insert_ne).
  assert (class_in [C_Driver] h0 d) as Hcd. { destruct Hd as (od & ? & ?). exists od. by rewrite Hd0. }
  assert (class_in [C_Filter; C_Driver] h0 d) as Hcd' by (eapply class_weaken; [|exact Hcd]; set_solver).
  rewrite link_rejoin by (done || by eapply class_is_Some).
  rewrite bind_Ret. eexists. split; [done|]. pose proof (rejoin_same h0 c d) as Hs.
  split; [|split; [|split]].
  - split; [|by eapply same_class|constructor|by eapply same_class| |].
    + cbn [app]. apply list.NoDup_cons. split; [set_solver|]. apply NoDup_singleton.
    + rewrite (same_back h0) by done. by rewrite Hd0.
    + split; [|done]. apply joined_rejoin; by eapply class_is_Some.
  - pose proof (kept_field o_driver h0 (rejoin h0 c d) c (fun _ => eq_refl) (same_kept _ _ Hs)) as Hf.
    assert (h0 !! c = Some (set_driver_member oc (Some d))) as E by (unfold h0; by rewrite lookup_insert_eq).
    rewrite E in Hf. specialize (Hf (mk_is_Some _ _ eq_refl)).
    by destruct (rejoin h0 c d !! c); simplify_eq/=.
  - intros x. unfold called. transitivity (o_setup_called <$> h0 !! x).
    + specialize (Hs x). unfold body in Hs. destruct (h0 !! x), (rejoin h0 c d !! x); simplify_eq/=; try done. by f_equal.
    + unfold h0. destruct (decide (c = x)) as [<-|]; [by rewrite lookup_insert_eq, Hoc|by rewrite lookup_insert_ne].
  - intros x. unfold type_of. transitivity (o_type <$> h0 !! x).
    + specialize (Hs x). unfold body in Hs. destruct (h0 !! x), (rejoin h0 c d !! x); simplify_eq/=; try done. by f_equal.
    + unfold h0. destruct (decide (c = x)) as [<-|]; [by rewrite lookup_insert_eq, Hoc|by rewrite lookup_insert_ne].
Qed.

(** ** An example *)

(** The link of the section [tunnel] with the driver [ipt]. *)
Definition tunnel_ini : IniData :=
  mkData [(str "tunnel", ([(str "filters", (str "log,p1", false))], true));
          (str "p1", ([(str "filter", (str "pace", false))], true))] true.

Definition tunnel_conn : LinkObj :=
  mkObj C_LinkConnect (str "tunnel") (str "tunnel") (Some 1%nat) None None (Some 1%nat) false.

Definition tunnel_driver : LinkObj :=
  mkObj C_Driver (str "ipt") (str "ipt") None (Some 0%nat) (Some 0%nat) None false.

Definition tunnel_heap : heap :=
  <[0%nat := tunnel_conn]> (<[1%nat := tunnel_driver]>
  (<[2%nat := mkObj C_Filter (str "log") (str "log") None None (Some 0%nat) None false]> ∅)).

Definition all_pass (h : heap) (x : ref) : bool := knxd_checks 10 (fun _ => true) h x.

Lemma tunnel_stack : stack tunnel_heap 0%nat [] 1%nat.
Proof.
  split; [apply (bool_decide_unpack _); by vm_compute| |constructor| | |].
  - eexists. split; [reflexivity|by left].
  - eexists. split; [reflexivity|by left].
  - done.
  - done.
Qed.

Lemma tunnel_traceable : traceable (trace_reads 10) tunnel_ini.
Proof. intros d sec. apply trace_reads_fine, plain_fine. by vm_compute. Qed.

Lemma setup_builds_stack_witness :
  exists w' ok, conn_setup (trace_reads 10) knxd_known all_pass knxd_assures 10 (mkWorld tunnel_heap tunnel_ini) 0%nat (str "tunnel")
                = Ret (w', ok).
Proof.
  destruct (setup_builds_stack (trace_reads 10) knxd_known all_pass knxd_assures 10 tunnel_ini tunnel_traceable
              (mkWorld tunnel_heap tunnel_ini)
              0%nat 1%nat tunnel_driver tunnel_conn (str "tunnel") (str "log,p1") [str "log"; str "pace"]
              tunnel_stack) as (w' & ok & H & _);
    [reflexivity|reflexivity|reflexivity|reflexivity|reflexivity|reflexivity|by vm_compute| |by apply (bool_decide_unpack _); vm_compute|].
  - apply (bool_decide_unpack _). by vm_compute.
  - by exists w', ok.
Defined.

Lemma push_filter_inserts_witness :
  exists h', push_filter tunnel_heap 1%nat 2%nat false = Ret (h', true) /\ stack h' 0%nat [2%nat] 1%nat.
Proof.
  destruct (push_filter_inserts tunnel_heap 0%nat [] 1%nat 2%nat false tunnel_stack) as (h' & H1 & H2 & _).
  - eexists. split; [reflexivity|by left].
  - apply (bool_decide_unpack _). by vm_compute.
  - by exists h'.
Defined.

Definition logged_heap : heap := rejoin (rejoin tunnel_heap 0%nat 2%nat) 2%nat 1%nat.

Lemma logged_stack : stack logged_heap 0%nat [2%nat] 1%nat.
Proof.
  destruct (push_filter_spec tunnel_heap 0%nat [] 1%nat 2%nat false tunnel_stack) as (h' & H1 & H2 & _).
  - eexists. split; [reflexivity|by left].
  - apply (bool_decide_unpack _). by vm_compute.
  - assert (push_filter tunnel_heap 1%nat 2%nat false = Ret (logged_heap, true)) as E by (by vm_compute).
    rewrite E in H1. injection H1 as <-. exact H2.
Qed.

Lemma unlink_deletes_witness :
  exists h', unlink logged_heap 2%nat = Ret h' /\ stack h' 0%nat [] 1%nat.
Proof. destruct (unlink_deletes logged_heap 0%nat [] 2%nat [] 1%nat logged_stack) as (h' & H1 & H2 & _). by exists h'. Defined.

Lemma findFilter_finds_witness : findFilter 4 logged_heap 1%nat (str "log") false = Ret (Some 2%nat).
Proof. rewrite (findFilter_finds logged_heap 0%nat [2%nat] 1%nat); [by vm_compute|apply logged_stack|simpl; lia]. Defined.

Lemma calls_pass_all_filters_witness :
  send_calls 4 logged_heap 0%nat = Ret [0%nat; 2%nat; 1%nat] /\ recv_calls 4 logged_heap 1%nat = Ret [1%nat; 2%nat; 0%nat].
Proof. apply (calls_pass_all_filters logged_heap 0%nat [2%nat] 1%nat); [apply logged_stack|simpl; lia]. Defined.

Lemma setup_twice_asserts_witness :
  conn_setup (trace_reads 10) knxd_known all_pass knxd_assures 10
    (mkWorld (<[0%nat := set_called tunnel_conn]> tunnel_heap) tunnel_ini) 0%nat (str "tunnel") = Fault AssertFailed.
Proof. apply (setup_twice_asserts _ _ _ _ _ _ _ (set_called tunnel_conn)); reflexivity. Defined.

(** The types of the filters on the way from the connection to the driver. *)
Definition types_on_way (w : world) (c : ref) : outcome (list (option text)) :=
  l ← send_calls 10 (w_heap w) c; Ret (map (type_of (w_heap w)) l).

(** The tunnel driver gets its queue in front of the configured filters. *)
Example tunnel_types :
  ('(w, ok) ← conn_setup (trace_reads 10) knxd_known all_pass knxd_assures 10 (mkWorld tunnel_heap tunnel_ini) 0%nat (str "tunnel");
   types_on_way w 0%nat)
  = Ret (map (fun t => Some (str t)) ["tunnel"; "queue"; "log"; "pace"; "ipt"]%string).
Proof. by vm_compute. Qed.

(** A filter that [assureFilter] has added carries the name of its section and is
    not found by [findFilter]: a second call adds a second one. *)
Example assured_twice :
  ('(w, ok) ← assure_all (trace_reads 10) knxd_known all_pass 10 (mkWorld tunnel_heap tunnel_ini) 1%nat
                [(str "pace", false); (str "pace", false)];
   types_on_way w 0%nat)
  = Ret (map (fun t => Some (str t)) ["tunnel"; "pace"; "pace"; "ipt"]%string).
Proof. by vm_compute. Qed.

(** An unknown filter, and a second queue on a link, are refused. *)
Example unknown_refused :
  ('(w, ok) ← conn_setup (trace_reads 10) knxd_known all_pass knxd_assures 10
     (mkWorld tunnel_heap (mkData [(str "tunnel", ([(str "filters", (str "nat", false))], true))] true)) 0%nat (str "tunnel");
   Ret ok) = Ret false.
Proof. by vm_compute. Qed.

Example two_queues_refused :
  ('(w, ok) ← conn_setup (trace_reads 10) knxd_known all_pass knxd_assures 10
     (mkWorld tunnel_heap (mkData [(str "tunnel", ([(str "filters", (str "queue,,queue", false))], true))] true)) 0%nat (str "tunnel");
   Ret ok) = Ret false.
Proof. by vm_compute. Qed.
