(* ===== verification/RouterSetup.v ===== *)
(** * Setting up the router

    Models how src/src/libserver/router.cpp turns the configuration into the links of
    the router: [Router::setup], [setup_link], [do_server], [do_driver],
    [checkStack] and [unseen_lister], with [LinkConnect::setup] of
    src/src/libserver/link.cpp and [CreateGroupCache] of
    src/src/libserver/groupcacheclient.cpp.

    The objects of a link live in the heap of [Stack]; the router's table has
    their state of [Link], under the number of the connection.  The factories of
    servers and drivers are parameters that give the initial state of a driver, or
    nothing for an unknown name, and so is what the [setup] of a class of servers
    does with the configuration.  The sockets that systemd hands over are not
    modelled. *)

From Stdlib Require Import Ascii.
From stdpp Require Import gmap.
From S2P Require Import Prelude CArray Common Ini IniSpec Trace Lpdu Link Router Stack.

(** What a daemon is built with. *)
Record build (D : Type) := mkBuild {
  b_filters : text -> bool;
  b_checks : heap -> ref -> bool;
  b_assures : text -> list (text * bool);
  b_drivers : text -> option D;
  b_servers : text -> option D;
  b_server_setup : text -> text -> IniData -> IniData * bool;
  b_cache : D;
  b_fuel : nat
}.
Arguments mkBuild {D}.
Arguments b_filters {D}.
Arguments b_checks {D}.
Arguments b_assures {D}.
Arguments b_drivers {D}.
Arguments b_servers {D}.
Arguments b_server_setup {D}.
Arguments b_cache {D}.
Arguments b_fuel {D}.

(** The members of [Router] that [setup] sets, with the heap and the
    configuration. *)
Record setup_state (D : Type) := mkSetup {
  s_world : world;
  s_rt : Router D;
  s_unknown_ok : bool;
  s_start_timeout : Z;
  s_cache : bool
}.
Arguments mkSetup {D}.
Arguments s_world {D}.
Arguments s_rt {D}.
Arguments s_unknown_ok {D}.
Arguments s_start_timeout {D}.
Arguments s_cache {D}.

Section RouterSetup.
Context {D : Type} `{Driver D} (b : build D).

Local Abbreviation st := (setup_state D).
Local Abbreviation router := (Router D).
Local Abbreviation lconn := (LinkConnect D).

Definition with_world (s : st) (w : world) : st :=
  mkSetup w (s_rt s) (s_unknown_ok s) (s_start_timeout s) (s_cache s).
Definition with_rt (s : st) (r : router) : st :=
  mkSetup (s_world s) r (s_unknown_ok s) (s_start_timeout s) (s_cache s).

(** [cfg->value] for strings, truth values and numbers. *)
Definition text_value (w : world) (sec : text) (name : string) (def : text) : outcome (world * text) :=
  cfg_value (b_fuel b) w sec (str name) def.

Definition bool_value (w : world) (sec : text) (name : string) (def : bool) : outcome (world * bool) :=
  '(w, v) ← text_value w sec name []; Ret (w, bool_of v def).

Definition int_value (w : world) (sec : text) (name : string) (def : Z) : outcome (world * Z) :=
  '(w, v) ← text_value w sec name []; n ← int_of v def; Ret (w, n).

(** ** A link *)

(** [LinkConnect::setup]: the link as it is entered into the table. *)
Definition link_setup (w : world) (c : ref) (sec : text) (d : D) : outcome (world * option lconn) :=
  '(w, ok) ← conn_setup (trace_reads (b_fuel b)) (b_filters b) (b_checks b) (b_assures b) (b_fuel b) w c sec;
  match ok with
  | false => Ret (w, None)
  | true =>
      '(w, ignore) ← bool_value w sec "ignore" false;
      '(w, may_fail) ← bool_value w sec "may-fail" false;
      '(w, retry_delay) ← int_value w sec "retry-delay" 0;
      '(w, max_retries) ← int_value w sec "max-retry" 0;
      '(w, _) ← int_value w sec "send-timeout" 10;
      Ret (w, Some (mkLink K_LinkConnect (Z.of_nat c) ignore false may_fail false 0 L_down 0
                      retry_delay 0 max_retries false true d []))
  end.

(** A new connection and a new driver that belongs to it. *)
Definition new_conn (cl : link_class) (sec : text) : LinkObj :=
  mkObj cl sec sec None None None None false.

Definition new_driver (type name : text) (c : ref) : LinkObj :=
  mkObj C_Driver type name None None (Some c) None false.

(** The constructor of an object with its trace. *)
Definition new_object (w : world) (sec : text) (o : LinkObj) : outcome (world * ref) :=
  d ← trace_reads (b_fuel b) (w_ini w) (Some sec);
  let (h, x) := alloc (w_heap w) o in Ret (mkWorld h d, x).

(** The result of [Driver::name]. *)
Definition driver_name (w : world) (sec : text) : text :=
  default sec (configured (b_fuel b) (w_ini w) sec (str "driver") sec).

(** The constructor of a driver for the connection [c], [set_driver] and
    [setup]. *)
Definition attach_driver (w : world) (c : ref) (sec drivername : text) (d : D) : outcome (world * option lconn) :=
  '(w, x) ← new_object w sec (new_driver drivername (driver_name w sec) c);
  h ← set_driver (w_heap w) c x;
  link_setup (set_heap w h) c sec d.

(** [Router::do_driver]: the return value, and the link or null. *)
Definition do_driver (w : world) (sec drivername : text) : outcome (world * bool * option lconn) :=
  '(w, c) ← new_object w sec (new_conn C_LinkConnect sec);
  match b_drivers b drivername with
  | None => Ret (w, false, None)
  | Some d => '(w, l) ← attach_driver w c sec drivername d; Ret (w, true, l)
  end.

(** [Router::do_server].  A server is a connection without a driver. *)
Definition do_server (w : world) (sec servername : text) : outcome (world * bool * option lconn) :=
  match b_servers b servername with
  | None => Ret (w, false, None)
  | Some d =>
      '(w, c) ← new_object w sec (new_conn C_LinkConnect sec);
      let (ini, ok) := b_server_setup b servername sec (w_ini w) in
      Ret (mkWorld (w_heap w) ini, true,
           match ok with true => Some (new_link K_Server (Z.of_nat c) 0 0 0 d) | false => None end)
  end.

(** [Router::setup_link] *)
Definition setup_link (w : world) (name : text) : outcome (world * option lconn) :=
  let w := mkWorld (w_heap w) (ini_index (w_ini w) name) in
  '(w, servername) ← text_value w name "server" [];
  '(w, drivername) ← text_value w name "driver" [];
  '(w, done, l) ← match servername with [] => Ret (w, false, None) | _ => do_server w name servername end;
  match done with
  | true => Ret (w, l)
  | false =>
      '(w, done, l) ← match drivername with [] => Ret (w, false, None) | _ => do_driver w name drivername end;
      match done with
      | true => Ret (w, l)
      | false =>
          '(w, done, l) ← do_server w name name;
          match done with
          | true => Ret (w, l)
          | false => '(w, done, l) ← do_driver w name name; Ret (w, l)
          end
      end
  end.

(** The loop of [Router::setup] over the connections.  The router is not up, so
    that [registerLink] starts nothing. *)
Fixpoint setup_links (s : st) (names : list text) : outcome (st * bool) :=
  match names with
  | [] => Ret (s, true)
  | name :: names =>
      '(w, l) ← setup_link (s_world s) name;
      match l with
      | None => Ret (with_world s w, false)
      | Some l =>
          '(_, r) ← registerLink 0 (s_rt s) l false;
          setup_links (with_rt (with_world s w) r) names
      end
  end.

(** [CreateGroupCache] *)
Definition CreateGroupCache (s : st) (sec : text) : outcome (st * bool) :=
  '(w, c) ← new_object (s_world s) sec (new_conn C_LinkConnect sec);
  match s_cache s with
  | true => Ret (with_world s w, false)
  | false =>
      '(w, l) ← attach_driver w c sec (str "GroupCache") (b_cache b);
      match l with
      | None => Ret (with_world s w, false)
      | Some l =>
          '(ok, r) ← registerLink 0 (s_rt s) l false;
          match ok with
          | false => Ret (with_rt (with_world s w) r, false)
          | true => Ret (mkSetup w r (s_unknown_ok s) (s_start_timeout s) true, true)
          end
      end
  end.

(** ** The router *)

Definition set_address (r : router) (fb : bool) (a : Z) (p : Pool) : router :=
  mkRouter a fb (links r) (linkChanges r) (buf r) (mbuf r) (Router.r_ignore r) p
    (flow r) (running r) (busmonitor r) (vbusmonitor r) (r_seq r) (out r).

(** The part of [Router::setup] that reads the section [main]: the router with
    its addresses, or nothing. *)
Definition read_main (s : st) (main : text) : outcome (st * bool) :=
  let w := mkWorld (w_heap (s_world s)) (ini_index (w_ini (s_world s)) main) in
  '(w, fb) ← bool_value w main "force-broadcast" false;
  '(w, unknown_ok) ← bool_value w main "unknown-ok" false;
  '(w, timeout) ← int_value w main "timeout" 0;
  let s := mkSetup w (set_address (s_rt s) fb (r_addr (s_rt s)) (pool (s_rt s))) unknown_ok timeout (s_cache s) in
  if decide (timeout < 0) then Ret (s, false)
  else
    '(w, x) ← text_value w main "addr" [];
    let s := with_world s w in
    match x with
    | [] => Ret (s, false)
    | _ =>
        a ← readaddr (String.string_of_list_ascii x);
        match a with
        | None => Ret (s, false)
        | Some a =>
            let s := with_rt s (set_address (s_rt s) fb a (pool (s_rt s))) in
            '(w, x) ← text_value w main "client-addrs" [];
            let s := with_world s w in
            match x with
            | [] => Ret (s, true)
            | _ =>
                block ← readaddrblock (String.string_of_list_ascii x);
                match block with
                | None => Ret (s, false)
                | Some (start, len) =>
                    p ← setup_client_addrs start len;
                    Ret (with_rt s (set_address (s_rt s) fb a p), true)
                end
            end
        end
    end.

(** [s->sub ("cache", false)] and the group cache in that section. *)
Definition setup_cache (s : st) (main : text) : outcome (st * bool) :=
  match sub (b_fuel b) (w_ini (s_world s)) main (str "cache") false with
  | None => Fault StackOverflow
  | Some (d, gc) =>
      let s := with_world s (mkWorld (w_heap (s_world s)) d) in
      match gc with [] => Ret (s, true) | _ => CreateGroupCache s gc end
  end.

(** The rest of [Router::setup], with [r_low] for the connection of the global
    filters. *)
Definition setup_rest (s : st) (main : text) (r_low : ref) : outcome (st * bool) :=
  '(s, ok) ← setup_cache s main;
  match ok with
  | false => Ret (s, false)
  | true =>
      '(w, ok) ← conn_setup (trace_reads (b_fuel b)) (b_filters b) (b_checks b) (b_assures b) (b_fuel b) (s_world s) r_low main;
      let s := with_world s w in
      match ok with
      | false => Ret (s, false)
      | true =>
          '(w, x) ← text_value w main "connections" [];
          '(s, ok) ← setup_links (with_world s w) (comma_names [] x);
          match ok with
          | false => Ret (s, false)
          | true =>
              if decide (length (links (s_rt s)) < 2)%nat then Ret (s, false)
              else Ret (s, negb (unseen_refused (s_unknown_ok s) (w_ini (s_world s))))
          end
      end
  end.

Definition router_setup (s : st) (main : text) (r_low : ref) : outcome (st * bool) :=
  '(s, ok) ← read_main s main;
  match ok with true => setup_rest s main r_low | false => Ret (s, false) end.

(** [Router::checkStack]: a stack with the dummy driver, to check a section. *)
Definition checkStack (w : world) (cfg : text) : outcome (world * bool) :=
  '(w, c) ← new_object w cfg (new_conn C_LinkConnect cfg);
  match b_drivers b (str "dummy") with
  | None => Ret (w, false)
  | Some d =>
      '(w, l) ← attach_driver w c cfg (str "dummy") d;
      Ret (w, match l with Some _ => true | None => false end)
  end.

(** The constructor of [Router]: no links, and the connection and the driver of
    the global filters, [RouterLow] and [RouterHigh]. *)
Definition router_new (ini : IniData) (main : text) : outcome (st * ref) :=
  let ini := ini_index ini main in
  '(w, _) ← text_value (mkWorld ∅ ini) main "name" [];
  d ← trace_reads (b_fuel b) (w_ini w) (Some main);
  '(w, _) ← text_value (mkWorld (w_heap w) d) main "name" (str "knxd");
  '(w, low) ← new_object w main (new_conn C_RouterLow main);
  '(w, high) ← new_object w main (new_driver (str "RouterHigh") (driver_name w main) low);
  h ← set_driver (w_heap w) low high;
  Ret (mkSetup (set_heap w h)
         (mkRouter 0 false [] [] [] [] [] (mkPool 0 0 0 []) (mkFlow false false false false false false)
            (mkRunning false false false false) [] [] 1 [])
         false 0 false, low).

End RouterSetup.
