(* ===== verification/RouterSetupSpec.v ===== *)
(** * Setting up the router: theorems

    What a successful [Router::setup] leaves: a table of links that are all down and
    known under different numbers, one for the group cache if there is one and one
    per name of the entry [connections], at least two of them, a device address, and no
    argument of the configuration that nobody has asked for.  With the theorems on
    the running router this gives the way from the configuration to a daemon that is up. *)

From Stdlib Require Import Ascii.
From stdpp Require Import gmap.
From S2P Require Import Prelude CArray Common Ini IniSpec Trace Lpdu Link Router RouterSpec RouterRun RouterRunSpec Stack StackSpec RouterSetup.

Local Set Warnings "-clear-no-such-hyp".

(** ** The heap only grows *)

Definition grows (h h' : heap) : Prop := dom h ⊆ dom h'.

#[export] Instance grows_po : PreOrder grows.
Proof. split; [intros h; unfold grows; set_solver|]. intros h1 h2 h3. unfold grows. set_solver. Qed.

Lemma grows_insert (h : heap) x o : grows h (<[x := o]> h).
Proof. unfold grows. rewrite dom_insert. set_solver. Qed.

(** Take a run apart that has returned. *)
Ltac run_inv :=
  repeat match goal with
  | H : _ ≫= _ = Ret _ |- _ => let a := fresh "a" in let E := fresh "E" in apply bind_Ret_inv in H as (a & E & H)
  | H : Ret _ = Ret _ |- _ => injection H as H; subst
  | H : Fault _ = Ret _ |- _ => discriminate H
  | H : (_, _) = (_, _) |- _ => injection H as ? ?; subst
  | H : (let (_, _) := ?p in _) = Ret _ |- _ => destruct p eqn:?
  | H : match ?x with _ => _ end = Ret _ |- _ => destruct x eqn:?
  | p : _ * _ |- _ => destruct p
  end.

Lemma link_next_grows h x n h' : link_next h x n = Ret h' -> grows h h'.
Proof. unfold link_next. intros H. run_inv. apply grows_insert. Qed.

Lemma link_prev_grows h x p h' ok : link_prev h x p = Ret (h', ok) -> grows h h'.
Proof.
  unfold link_prev. intros H. run_inv; simplify_eq; try done;
    match goal with E : link_next _ _ _ = Ret ?h1 |- _ => apply link_next_grows in E; transitivity h1; [done|apply grows_insert] end.
Qed.

Lemma link_grows h x n h' ok : link h x n = Ret (h', ok) -> grows h h'.
Proof. unfold link. intros H. run_inv; simplify_eq; by eapply link_prev_grows. Qed.

Lemma set_driver_grows h c d h' : set_driver h c d = Ret h' -> grows h h'.
Proof.
  unfold set_driver. intros H. run_inv. simplify_eq. etransitivity; [apply grows_insert|by eapply link_grows].
Qed.

Lemma push_filter_grows h d f first h' ok : push_filter h d f first = Ret (h', ok) -> grows h h'.
Proof.
  unfold push_filter. intros H. apply bind_Ret_inv in H as (o & _ & H). apply bind_Ret_inv in H as (e & _ & H).
  run_inv; simplify_eq; try done;
    repeat match goal with E : link _ _ _ = Ret _ |- _ => apply link_grows in E end;
    repeat (first [done|etransitivity; [eassumption|]]).
Qed.

Lemma base_setup_grows h x h' : base_setup h x = Ret h' -> grows h h'.
Proof. unfold base_setup. intros H. run_inv. apply grows_insert. Qed.

Section Grow.
Context (trace : IniData -> option text -> outcome IniData)
  (known : text -> bool) (checks : heap -> ref -> bool)
  (assures : text -> list (text * bool)) (fuel : nat).

Lemma filter_setup_grows w f w' ok : filter_setup checks w f = Ret (w', ok) -> grows (w_heap w) (w_heap w').
Proof. unfold filter_setup. intros H. run_inv; simplify_eq; simpl; [by eapply base_setup_grows|done]. Qed.

Lemma get_filter_grows w c sec name type w' f :
  get_filter trace known w c sec name type = Ret (w', f) -> grows (w_heap w) (w_heap w').
Proof. unfold get_filter, alloc. intros H. run_inv; simplify_eq; simpl; [apply grows_insert|done]. Qed.

Lemma assureFilter_grows w d name first w' ok :
  assureFilter trace known checks fuel w d name first = Ret (w', ok) -> grows (w_heap w) (w_heap w').
Proof.
  unfold assureFilter. intros H. run_inv; simplify_eq; try done;
    repeat match goal with
    | E : get_filter _ _ _ _ _ _ _ = Ret _ |- _ => apply get_filter_grows in E
    | E : push_filter _ _ _ _ = Ret _ |- _ => apply push_filter_grows in E
    | E : filter_setup _ _ _ = Ret _ |- _ => apply filter_setup_grows in E
    end; simpl in *; repeat (first [done|etransitivity; [eassumption|]]).
Qed.

Lemma assure_all_grows l : forall w d w' ok,
  assure_all trace known checks fuel w d l = Ret (w', ok) -> grows (w_heap w) (w_heap w').
Proof.
  induction l as [|[name first] l IH]; intros w d w' ok H; cbn [assure_all] in H; run_inv; simplify_eq; [done| |].
  all: repeat match goal with
    | E : assureFilter _ _ _ _ _ _ _ _ = Ret _ |- _ => apply assureFilter_grows in E
    | E : assure_all _ _ _ _ _ _ _ = Ret _ |- _ => apply IH in E
    end; repeat (first [done|etransitivity; [eassumption|]]).
Qed.

Lemma driver_setup_grows w d w' ok :
  driver_setup trace known checks assures fuel w d = Ret (w', ok) -> grows (w_heap w) (w_heap w').
Proof.
  unfold driver_setup. intros H. run_inv; simplify_eq;
    repeat match goal with
    | E : assure_all _ _ _ _ _ _ _ = Ret _ |- _ => apply assure_all_grows in E
    | E : base_setup _ _ = Ret _ |- _ => apply base_setup_grows in E
    end; simpl in *; repeat (first [done|etransitivity; [eassumption|]]).
Qed.

Lemma any_setup_grows w x w' ok :
  any_setup trace known checks assures fuel w x = Ret (w', ok) -> grows (w_heap w) (w_heap w').
Proof.
  unfold any_setup. intros H. run_inv; simplify_eq; simpl in *;
    eauto using filter_setup_grows, driver_setup_grows, base_setup_grows.
Qed.

Lemma push_configured_grows names : forall w c d w' ok,
  push_configured trace known fuel w c d names = Ret (w', ok) -> grows (w_heap w) (w_heap w').
Proof.
  induction names as [|n names IH]; intros w c d w' ok H; cbn [push_configured] in H; [run_inv; by simplify_eq|].
  apply bind_Ret_inv in H as ([w1 type] & E1 & H).
  assert (w_heap w1 = w_heap w) as E1'.
  { unfold cfg_value in E1. destruct (value _ _ _ _ _) as [[? ?]|]; by simplify_eq. }
  clear E1. run_inv; simplify_eq;
    repeat match goal with
    | E : get_filter _ _ _ _ _ _ _ = Ret _ |- _ => apply get_filter_grows in E; rewrite E1' in E
    | E : push_filter _ _ _ _ = Ret _ |- _ => apply push_filter_grows in E
    | E : push_configured _ _ _ _ _ _ _ = Ret _ |- _ => apply IH in E
    end; simpl in *; repeat (first [done|etransitivity; [eassumption|]]).
Qed.

Lemma setup_walk_grows n : forall w s dr w' ok,
  setup_walk trace known checks assures fuel n w s dr = Ret (w', ok) -> grows (w_heap w) (w_heap w').
Proof.
  induction n as [|n IH]; intros w s dr w' ok H; cbn [setup_walk] in H; [done|].
  run_inv; simplify_eq; try done;
    repeat match goal with
    | E : any_setup _ _ _ _ _ _ _ = Ret _ |- _ => apply any_setup_grows in E
    | E : setup_walk _ _ _ _ _ _ _ _ _ = Ret _ |- _ => apply IH in E
    end; repeat (first [done|etransitivity; [eassumption|]]).
Qed.

Lemma conn_setup_grows w c sec w' ok :
  conn_setup trace known checks assures fuel w c sec = Ret (w', ok) -> grows (w_heap w) (w_heap w').
Proof.
  unfold conn_setup. intros H. apply bind_Ret_inv in H as (h & E0 & H). apply base_setup_grows in E0.
  apply bind_Ret_inv in H as (o & _ & H). destruct (o_driver o) as [dr|]; [|run_inv; by simplify_eq].
  apply bind_Ret_inv in H as ([w1 x] & E1 & H).
  assert (w_heap w1 = h) as E1'.
  { unfold cfg_value in E1. destruct (value _ _ _ _ _) as [[? ?]|]; by simplify_eq. }
  clear E1. run_inv; simplify_eq;
    repeat match goal with
    | E : push_configured _ _ _ _ _ _ _ = Ret _ |- _ => apply push_configured_grows in E
    | E : setup_walk _ _ _ _ _ _ _ _ _ = Ret _ |- _ => apply setup_walk_grows in E
    end; repeat (first [done|etransitivity; [eassumption|]]).
Qed.

End Grow.

(** ** The links *)

Section Setup.
Context {D : Type} `{Driver D} (b : build D).

Local Abbreviation lconn := (LinkConnect D).
Local Abbreviation st := (setup_state D).

(** A link as [setup] leaves it. *)
Definition as_new (l : lconn) : Prop :=
  state l = L_down /\ transient l = false /\ is_local l = false /\ seq l = 0 /\ retries l = 0 /\
  retry_timer l = false /\ send_more l = true /\ signals l = [].

Lemma text_value_heap w sec name def w' v : text_value b w sec name def = Ret (w', v) -> w_heap w' = w_heap w.
Proof. unfold text_value, cfg_value. destruct (value _ _ _ _ _) as [[? ?]|]; by intros [= <- <-]. Qed.

Lemma bool_value_heap w sec name def w' v : bool_value b w sec name def = Ret (w', v) -> w_heap w' = w_heap w.
Proof. unfold bool_value. intros E. run_inv. simplify_eq. by eapply text_value_heap. Qed.

Lemma int_value_heap w sec name def w' v : int_value b w sec name def = Ret (w', v) -> w_heap w' = w_heap w.
Proof. unfold int_value. intros E. run_inv. simplify_eq. by eapply text_value_heap. Qed.

Lemma link_setup_spec w c sec d w' l :
  link_setup b w c sec d = Ret (w', l) ->
  grows (w_heap w) (w_heap w') /\
  forall x, l = Some x -> as_new x /\ pos x = Z.of_nat c /\ kind x = K_LinkConnect /\ drv x = d.
Proof.
  unfold link_setup. intros E. apply bind_Ret_inv in E as ([w1 ok] & E1 & E). apply conn_setup_grows in E1.
  destruct ok; [|run_inv; simplify_eq; split; [done|by intros ?]].
  run_inv. simplify_eq.
  repeat match goal with
  | E : bool_value _ _ _ _ _ = Ret _ |- _ => apply bool_value_heap in E
  | E : int_value _ _ _ _ _ = Ret _ |- _ => apply int_value_heap in E
  end.
  split; [assert (w_heap w' = w_heap w1) as -> by congruence; done|]. by intros x [= <-].
Qed.

Lemma new_object_spec w sec o w' x :
  new_object b w sec o = Ret (w', x) ->
  grows (w_heap w) (w_heap w') /\ (x ∉ dom (w_heap w)) /\ x ∈ dom (w_heap w').
Proof.
  unfold new_object, alloc. intros E. run_inv. simplify_eq. simpl. split; [apply grows_insert|].
  split; [apply is_fresh|]. rewrite dom_insert. set_solver.
Qed.

Lemma attach_driver_spec w c sec dn d w' l :
  attach_driver b w c sec dn d = Ret (w', l) ->
  grows (w_heap w) (w_heap w') /\
  forall x, l = Some x -> as_new x /\ pos x = Z.of_nat c /\ kind x = K_LinkConnect /\ drv x = d.
Proof.
  unfold attach_driver. intros E. run_inv.
  match goal with E : new_object _ _ _ _ = Ret _ |- _ => apply new_object_spec in E as (G1 & _) end.
  match goal with E : set_driver _ _ _ = Ret _ |- _ => apply set_driver_grows in E end.
  match goal with E : link_setup _ _ _ _ _ = Ret _ |- _ => apply link_setup_spec in E as [G2 Hl] end.
  split; [|done]. simpl in G2. by repeat (first [done|etransitivity; [eassumption|]]).
Qed.

(** A new link is known under a number that is not in use. *)
Definition new_in (w w' : world) (l : lconn) : Prop :=
  as_new l /\ exists c, pos l = Z.of_nat c /\ (c ∉ dom (w_heap w)) /\ c ∈ dom (w_heap w').

Lemma new_in_grows w0 w w' w1 l : grows (w_heap w0) (w_heap w) -> grows (w_heap w') (w_heap w1) -> new_in w w' l -> new_in w0 w1 l.
Proof. intros G1 G2 (Hn & c & Hp & H1 & H2). split; [done|]. exists c. unfold grows in *. set_solver. Qed.

Lemma do_driver_spec w sec dn w' done l :
  do_driver b w sec dn = Ret (w', done, l) ->
  grows (w_heap w) (w_heap w') /\ forall x, l = Some x -> new_in w w' x.
Proof.
  unfold do_driver. intros E. apply bind_Ret_inv in E as ([w1 c] & E1 & E).
  apply new_object_spec in E1 as (G1 & Hc & Hc1). destruct (b_drivers b dn) as [d|]; run_inv; simplify_eq; [|by split].
  match goal with E : attach_driver _ _ _ _ _ _ = Ret _ |- _ => apply attach_driver_spec in E as [G2 Hl] end.
  split; [by etransitivity|]. intros x Hx. destruct (Hl x Hx) as (Hn & Hp & _). split; [done|].
  exists c. unfold grows in *. set_solver.
Qed.

Lemma do_server_spec w sec sn w' done l :
  do_server b w sec sn = Ret (w', done, l) ->
  grows (w_heap w) (w_heap w') /\ forall x, l = Some x -> new_in w w' x.
Proof.
  unfold do_server. intros E. destruct (b_servers b sn) as [d|]; [|run_inv; by simplify_eq].
  apply bind_Ret_inv in E as ([w1 c] & E1 & E). apply new_object_spec in E1 as (G1 & Hc & Hc1).
  destruct (b_server_setup b sn sec (w_ini w1)) as [ini ok]. run_inv. simplify_eq. simpl. split; [done|].
  intros x Hx. destruct ok; simplify_eq. split; [done|]. by exists c.
Qed.

Lemma setup_link_spec w name w' l :
  setup_link b w name = Ret (w', l) ->
  grows (w_heap w) (w_heap w') /\ forall x, l = Some x -> new_in w w' x.
Proof.
  unfold setup_link. intros E. apply bind_Ret_inv in E as ([w1 sn] & E1 & E). apply text_value_heap in E1.
  apply bind_Ret_inv in E as ([w2 dn] & E2 & E). apply text_value_heap in E2. simpl in E1.
  apply bind_Ret_inv in E as ([[w3 d3] l3] & E3 & E).
  assert (grows (w_heap w) (w_heap w3) /\ forall x, l3 = Some x -> new_in w w3 x) as [G3 H3].
  { destruct sn; [simplify_eq; rewrite E2, E1; by split|]. apply do_server_spec in E3 as [G3 H3].
    rewrite E2, E1 in G3. split; [done|]. intros x Hx. apply (new_in_grows w w2 w3 w3); [by rewrite E2, E1|done|by apply H3]. }
  destruct d3; [by injection E as <- <-|]. clear H3 E3.
  apply bind_Ret_inv in E as ([[w4 d4] l4] & E4 & E).
  assert (grows (w_heap w) (w_heap w4) /\ forall x, l4 = Some x -> new_in w w4 x) as [G4 H4].
  { destruct dn; [simplify_eq; by split|]. apply do_driver_spec in E4 as [G4 H4].
    split; [by etransitivity|]. intros x Hx. apply (new_in_grows w w3 w4 w4); [done|done|by apply H4]. }
  destruct d4; [by injection E as <- <-|]. clear H4 E4.
  apply bind_Ret_inv in E as ([[w5 d5] l5] & E5 & E). apply do_server_spec in E5 as [G5 H5].
  assert (grows (w_heap w) (w_heap w5)) as G5' by (by etransitivity).
  destruct d5.
  { injection E as <- <-. split; [done|]. intros x Hx. apply (new_in_grows w w4 w5 w5); [done|done|by apply H5]. }
  apply bind_Ret_inv in E as ([[w6 d6] l6] & E6 & E). injection E as <- <-.
  apply do_driver_spec in E6 as [G6 H6]. split; [by etransitivity|].
  intros x Hx. apply (new_in_grows w w5 w6 w6); [done|done|by apply H6].
Qed.

(** ** The table *)

Record table_ok (w : world) (r : Router D) : Prop := mkTable {
  tb_running : running r = mkRunning false false false false;
  tb_seq : r_seq r = 1;
  tb_changes : linkChanges r = [];
  tb_new : Forall as_new (links r);
  tb_nodup : NoDup (map pos (links r));
  tb_pos : Forall (fun l => exists c, pos l = Z.of_nat c /\ c ∈ dom (w_heap w)) (links r)
}.

Lemma table_grows w w' r : grows (w_heap w) (w_heap w') -> table_ok w r -> table_ok w' r.
Proof.
  intros G [H1 H2 H3 H4 H5 H6]. split; try done. eapply Forall_impl; [|exact H6].
  intros l (c & Hp & Hc). exists c. split; [done|]. by apply G.
Qed.

Lemma registerLink_spec w w' r l :
  table_ok w r -> grows (w_heap w) (w_heap w') -> new_in w w' l ->
  registerLink 0 r l false = Ret (true, set_links r (links r ++ [l])) /\
  table_ok w' (set_links r (links r ++ [l])).
Proof.
  intros Ht G (Hn & c & Hp & Hc & Hc'). unfold registerLink.
  assert (pos l ∉ map pos (links r)) as Hni.
  { intros Hin. apply list_elem_of_In, in_map_iff in Hin as (l' & El & Hl'). apply list_elem_of_In in Hl'.
    pose proof (tb_pos _ _ Ht) as Hps. rewrite list.Forall_forall in Hps. destruct (Hps l' Hl') as (c2 & Hp2 & Hc2).
    assert (c2 = c) by lia. by subst. }
  destruct (find_link r (pos l)) as [l'|] eqn:Ef.
  { exfalso. apply Hni. apply find_link_in in Ef. exact Ef. }
  cbn [set_links running]. rewrite (tb_running _ _ Ht). cbn [want_up]. split; [done|].
  destruct (table_grows _ w' _ G Ht) as [H1 H2 H3 H4 H5 H6]. split; try done; cbn [set_links links].
  - apply Forall_app. split; [done|]. by constructor.
  - rewrite map_app. apply list.NoDup_app. split; [done|]. split; [|apply NoDup_singleton]. set_solver.
  - apply Forall_app. split; [done|]. constructor; [|constructor]. by exists c.
Qed.

Lemma setup_links_spec names : forall s s' ok,
  table_ok (s_world s) (s_rt s) -> setup_links b s names = Ret (s', ok) ->
  grows (w_heap (s_world s)) (w_heap (s_world s')) /\ table_ok (s_world s') (s_rt s') /\
  s_unknown_ok s' = s_unknown_ok s /\ s_start_timeout s' = s_start_timeout s /\
  exists new, s_rt s' = set_links (s_rt s) (links (s_rt s) ++ new) /\ (ok = true -> length new = length names).
Proof.
  induction names as [|name names IH]; intros s s' ok Ht E; cbn [setup_links] in E.
  { run_inv. simplify_eq. split_and!; try done. exists []. rewrite app_nil_r. split; [by destruct (s_rt s')|done]. }
  apply bind_Ret_inv in E as ([w l] & E1 & E). apply setup_link_spec in E1 as [G Hl]. destruct l as [l|].
  - destruct (registerLink_spec (s_world s) w (s_rt s) l Ht G) as [Hr Ht']; [by apply Hl|].
    rewrite Hr, bind_Ret in E. apply IH in E as (G2 & Ht2 & Hu & Hs & new & Hnew & Hlen); [|done].
    cbn [with_rt with_world s_world s_rt s_unknown_ok s_start_timeout] in *.
    split; [by etransitivity|]. split; [done|]. split; [done|]. split; [done|]. exists (l :: new).
    rewrite Hnew. cbn [set_links links]. rewrite <-app_assoc. split; [done|]. intros Hok. simpl. by rewrite Hlen.
  - run_inv. simplify_eq. cbn [with_world s_world s_rt s_unknown_ok s_start_timeout].
    split; [done|]. split; [by eapply table_grows|]. split; [done|]. split; [done|]. exists [].
    rewrite app_nil_r. split; [by destruct (s_rt s)|done].
Qed.

Lemma readaddr_bound x a : readaddr x = Ret (Some a) -> is_u16 a.
Proof. unfold readaddr. intros E. run_inv; simplify_eq; apply u16_bound. Qed.

(** The client addresses that [setup] has made. *)
Definition pool_made (p : Pool) : Prop :=
  Z.of_nat (length (client_addrs p)) = client_addrs_len p /\ Forall (fun x => x = false) (client_addrs p).

Lemma setup_client_addrs_made start len p : setup_client_addrs start len = Ret p -> pool_made p.
Proof.
  unfold setup_client_addrs. destruct (decide _); [|done]. intros [= <-]. split; simpl.
  - rewrite length_replicate. lia.
  - by apply Forall_replicate.
Qed.

Lemma read_main_spec (s s' : st) main ok :
  read_main b s main = Ret (s', ok) ->
  w_heap (s_world s') = w_heap (s_world s) /\ s_cache s' = s_cache s /\
  exists fb a p, s_rt s' = set_address (s_rt s) fb a p /\
    (ok = true -> is_u16 a /\ 0 <= s_start_timeout s' /\ (p = pool (s_rt s) \/ pool_made p)).
Proof.
  unfold read_main. intros E.
  apply bind_Ret_inv in E as ([w1 fb] & E1 & E). apply bool_value_heap in E1. cbn [w_heap] in E1.
  apply bind_Ret_inv in E as ([w2 uo] & E2 & E). apply bool_value_heap in E2.
  apply bind_Ret_inv in E as ([w3 tm] & E3 & E). apply int_value_heap in E3. cbv zeta in E.
  destruct (decide (tm < 0)).
  { injection E as <- <-. split; [simpl; congruence|]. split; [done|]. eexists fb, _, _. split; [reflexivity|done]. }
  apply bind_Ret_inv in E as ([w4 x] & E4 & E). apply text_value_heap in E4.
  assert (w_heap w4 = w_heap (s_world s)) as Hw4 by congruence.
  destruct x as [|x0 x].
  { injection E as <- <-. split; [done|]. split; [done|]. eexists fb, _, _. split; [reflexivity|done]. }
  apply bind_Ret_inv in E as ([a|] & E5 & E).
  2: { injection E as <- <-. split; [done|]. split; [done|]. eexists fb, _, _. split; [reflexivity|done]. }
  apply readaddr_bound in E5.
  apply bind_Ret_inv in E as ([w6 y] & E6 & E). apply text_value_heap in E6.
  assert (w_heap w6 = w_heap (s_world s)) as Hw6 by congruence. destruct y as [|y0 y].
  { injection E as <- <-. split; [done|]. split; [done|]. exists fb, a, (pool (s_rt s)). split; [done|].
    intros _. split; [done|]. split; [simpl; lia|by left]. }
  apply bind_Ret_inv in E as ([[start len]|] & E7 & E).
  2: { injection E as <- <-. split; [done|]. split; [done|]. eexists fb, _, _. split; [reflexivity|done]. }
  apply bind_Ret_inv in E as (p & E8 & E). apply setup_client_addrs_made in E8. injection E as <- <-.
  split; [done|]. split; [done|]. exists fb, a, p. split; [done|]. intros _.
  split; [done|]. split; [simpl; lia|by right].
Qed.

Lemma setup_cache_spec (s s' : st) main ok :
  table_ok (s_world s) (s_rt s) -> setup_cache b s main = Ret (s', ok) ->
  table_ok (s_world s') (s_rt s') /\ s_unknown_ok s' = s_unknown_ok s /\ s_start_timeout s' = s_start_timeout s /\
  exists new, s_rt s' = set_links (s_rt s) (links (s_rt s) ++ new).
Proof.
  unfold setup_cache. intros Ht E. destruct (sub _ _ _ _ _) as [[d gc]|]; [|done].
  assert (exists new, s_rt s = set_links (s_rt s) (links (s_rt s) ++ new)) as Hsame.
  { exists []. rewrite app_nil_r. by destruct (s_rt s). }
  destruct gc as [|c0 gc]; [injection E as <- <-; split; [by apply (table_grows (s_world s))|done]|].
  unfold CreateGroupCache in E. apply bind_Ret_inv in E as ([w c] & E1 & E).
  apply new_object_spec in E1 as (G1 & Hc & Hc1). cbn [with_world s_world w_heap s_cache s_rt] in *.
  destruct (s_cache s).
  { injection E as <- <-. split; [by apply (table_grows (s_world s))|done]. }
  apply bind_Ret_inv in E as ([w2 l] & E2 & E). apply attach_driver_spec in E2 as [G2 Hl].
  assert (grows (w_heap (s_world s)) (w_heap w2)) as G by (by etransitivity).
  destruct l as [l|]; [|injection E as <- <-; split; [by apply (table_grows (s_world s))|done]].
  destruct (Hl l eq_refl) as (Hn & Hp & _).
  destruct (registerLink_spec (s_world s) w2 (s_rt s) l Ht G) as [Hr Ht'].
  { split; [done|]. exists c. unfold grows in *. set_solver. }
  rewrite Hr, bind_Ret in E. injection E as <- <-. split; [done|]. split; [done|]. split; [done|]. by exists [l].
Qed.

(** The state of the router after its constructor. *)
Lemma router_new_table ini main (s : st) low :
  router_new b ini main = Ret (s, low) -> table_ok (s_world s) (s_rt s) /\ links (s_rt s) = [] /\ pool_made (pool (s_rt s)).
Proof.
  unfold router_new. intros E. run_inv. simplify_eq. cbn [s_rt links pool]. split; [|done].
  split; try done; constructor.
Qed.

Lemma setup_rest_spec (s s' : st) main low :
  table_ok (s_world s) (s_rt s) -> setup_rest b s main low = Ret (s', true) ->
  table_ok (s_world s') (s_rt s') /\ (2 <= length (links (s_rt s')))%nat /\
  s_start_timeout s' = s_start_timeout s /\
  unseen_refused (s_unknown_ok s') (w_ini (s_world s')) = false /\
  exists new, s_rt s' = set_links (s_rt s) (links (s_rt s) ++ new).
Proof.
  unfold setup_rest. intros Ht E. apply bind_Ret_inv in E as ([s1 ok1] & E1 & E).
  destruct (setup_cache_spec _ _ _ _ Ht E1) as (Ht1 & Hu1 & Hs1 & new1 & Hn1). destruct ok1; [|done].
  apply bind_Ret_inv in E as ([w2 ok2] & E2 & E). apply conn_setup_grows in E2. destruct ok2; [|done].
  apply bind_Ret_inv in E as ([w3 x] & E3 & E). apply text_value_heap in E3.
  apply bind_Ret_inv in E as ([s4 ok4] & E4 & E).
  apply setup_links_spec in E4 as (G4 & Ht4 & Hu4 & Hs4 & new4 & Hn4 & Hl4).
  2: { simpl. eapply table_grows; [|exact Ht1]. by rewrite E3. }
  destruct ok4; [|done]. destruct (decide _) as [|Hlen]; [done|]. injection E as -> E.
  apply negb_true_iff in E. cbn [with_world s_rt s_start_timeout] in *.
  split; [done|]. split; [lia|]. split; [congruence|]. split; [done|]. exists (new1 ++ new4).
  rewrite Hn4, Hn1. cbn [set_links links]. by rewrite <-app_assoc.
Qed.

(** C29: what a successful set up leaves: at least two links, all of them down, not
    started yet and under different numbers, a device address of 16 bits, a pool
    of client addresses none of which is given out, and no argument of the
    sections that were looked at that nobody has asked for, unless unknown
    arguments are allowed. *)
Theorem router_setup_ready ini main low (s0 s : st) :
  router_new b ini main = Ret (s0, low) -> router_setup b s0 main low = Ret (s, true) ->
  (2 <= length (links (s_rt s)))%nat /\ Forall as_new (links (s_rt s)) /\
  NoDup (map pos (links (s_rt s))) /\ running (s_rt s) = mkRunning false false false false /\
  r_seq (s_rt s) = 1 /\ is_u16 (r_addr (s_rt s)) /\ pool_made (pool (s_rt s)) /\
  0 <= s_start_timeout s /\
  (s_unknown_ok s = false -> list_unseen (w_ini (s_world s)) = []).
Proof.
  intros E0 E. apply router_new_table in E0 as (Ht0 & Hl0 & Hp0). unfold router_setup in E.
  apply bind_Ret_inv in E as ([s1 ok] & E1 & E). apply read_main_spec in E1 as (Hw & Hc & fb & a & p & Hr & Hok).
  destruct ok; [|done]. destruct (Hok eq_refl) as (Ha & Hts & Hp).
  assert (table_ok (s_world s1) (s_rt s1)) as Ht1.
  { rewrite Hr. destruct Ht0. split; try done. cbn [set_address links]. by rewrite Hl0. }
  apply setup_rest_spec in E as (Ht & Hlen & Hs & Hun & new & Hn); [|done].
  destruct Ht as [H1 H2 H3 H4 H5 H6]. split_and!; try done.
  - rewrite Hn, Hr. done.
  - rewrite Hn, Hr. cbn [set_links set_address pool]. destruct Hp as [->|Hp]; done.
  - by rewrite Hs.
  - intros Hu. unfold unseen_refused in Hun. rewrite Hu in Hun. cbn [negb andb] in Hun.
    destruct (list_unseen _); [done|]. done.
Qed.

End Setup.

(** C36: from the configuration to a running daemon, for drivers that report [started] and
    [stopped] before [start] and [stop] return (as [BusDriver] with the methods of the dummy
    driver does) and servers that start at once. Take a configuration that is set up without an
    error and has no link marked to be ignored. The daemon that is started comes up, with every
    link up, those that servers register while they are started included, and reports that it is
    ready; when it is told to stop it takes every link down, while servers stop and unregister
    links of theirs, and leaves its event loop without an error code. *)
Theorem configured_daemon_runs `{TL : TableLaws BusDriver} (b : build BusDriver) ini main low (s0 s : setup_state BusDriver) :
  starts_new -> router_new b ini main = Ret (s0, low) -> router_setup b s0 main low = Ret (s, true) ->
  Forall (fun l => ignore l = false) (links (s_rt s)) ->
  exists s1 s2 s3 s4 fuel,
    start 3 (mkRun (s_rt s) false 0 (s_start_timeout s) false false) = Ret s1 /\
    state_trigger_cb fuel 3 s1 = Some (Ret s2) /\
    all_in L_up (rt s2) /\ running (rt s2) = mkRunning true true true true /\
    stop 3 s2 = Ret s3 /\ state_trigger_cb fuel 3 s3 = Some (Ret s4) /\
    all_in L_down (rt s4) /\ broken s4 = true /\ exitcode s4 = 0.
Proof.
  intros Hnew E0 E Hi. apply router_new_table in E0 as (Ht0 & Hl0 & _). unfold router_setup in E.
  apply bind_Ret_inv in E as ([s1 ok] & E1 & E). apply read_main_spec in E1 as (_ & _ & fb & a & p & Hr & _).
  destruct ok; [|done].
  apply setup_rest_spec in E as ([H1 H2 H3 H4 H5 H6] & Hlen & _).
  2: { rewrite Hr. destruct Ht0. split; try done. cbn [set_address links]. by rewrite Hl0. }
  rewrite list.Forall_forall in H4, Hi.
  apply lifecycle; cbn [rt is_started exitcode]; try done.
  - intros En. rewrite En in Hlen. simpl in Hlen. lia.
  - intros q ii [Hin _]%find_link_spec. destruct (H4 ii Hin) as (_ & _ & _ & -> & _). by rewrite H2.
  - intros q ii [Hin _]%find_link_spec. destruct (H4 ii Hin) as (-> & -> & _). by rewrite (Hi ii Hin).
Qed.

(** ** An example *)

Definition demo_build : build BusDriver :=
  mkBuild knxd_known (knxd_checks 10 (fun _ => true)) knxd_assures
    (fun n => if decide (n = str "dummy" \/ n = str "ipt") then Some (mkBus ∅) else None)
    (fun n => if decide (n = str "knxd_unix") then Some (mkBus ∅) else None)
    (fun _ _ d => (d, true)) (mkBus ∅) 10.

Definition demo_ini (main_entries : list (string * string)) : IniData :=
  mkData [(str "b", ([(str "driver", (str "dummy", false)); (str "filters", (str "log", false))], false));
          (str "main", (map (fun e => (str e.1, (str e.2, false))) main_entries, false))] true.

Definition demo_main : list (string * string) :=
  [("addr", "1.1.1"); ("client-addrs", "1.1.10:8"); ("connections", "b,knxd_unix,ipt")]%string.

Definition demo_setup (main_entries : list (string * string)) : outcome (setup_state BusDriver * bool) :=
  '(s, low) ← router_new demo_build (demo_ini main_entries) (str "main");
  router_setup demo_build s (str "main") low.

Definition demo_result : option (nat * list link_kind * Z * Z) :=
  match demo_setup demo_main with
  | Ret (s, true) =>
      Some (length (links (s_rt s)), map kind (links (s_rt s)), r_addr (s_rt s), client_addrs_len (pool (s_rt s)))
  | _ => None
  end.

Example demo_result_is :
  demo_result = Some (3%nat, [K_LinkConnect; K_Server; K_LinkConnect], 0x1101, 8).
Proof. by vm_compute. Qed.

(** One connection is not enough, an argument that is not known is refused, and so
    is a driver that is not. *)
Example demo_refused :
  forallb (fun entries => match demo_setup entries with Ret (_, ok) => negb ok | Fault _ => false end)
    [[("addr", "1.1.1"); ("connections", "b")]%string;
     [("addr", "1.1.1"); ("colour", "red"); ("connections", "b,ipt")]%string;
     [("addr", "1.1.1"); ("connections", "b,tp")]%string;
     [("connections", "b,ipt")]%string] = true.
Proof. by vm_compute. Qed.

Lemma demo_run_setup :
  exists s0 low s, router_new demo_build (demo_ini demo_main) (str "main") = Ret (s0, low) /\
    router_setup demo_build s0 (str "main") low = Ret (s, true) /\
    Forall (fun l => ignore l = false) (links (s_rt s)).
Proof.
  assert (match router_new demo_build (demo_ini demo_main) (str "main") with
          | Ret (s0, low) =>
              match router_setup demo_build s0 (str "main") low with
              | Ret (s, ok) => ok && forallb (fun l => negb (ignore l)) (links (s_rt s))
              | Fault _ => false
              end
          | Fault _ => false
          end = true) as E by (by vm_compute).
  destruct (router_new demo_build (demo_ini demo_main) (str "main")) as [[s0 low]|]; [|done].
  destruct (router_setup demo_build s0 (str "main") low) as [[s ok]|] eqn:E2; [|done].
  apply andb_true_iff in E as [-> E]. exists s0, low, s. split; [done|]. split; [done|].
  rewrite forallb_forall in E. apply list.Forall_forall. intros l Hl. apply negb_true_iff, E.
  by apply list_elem_of_In.
Qed.

Lemma router_setup_ready_witness :
  exists s0 low s, router_new demo_build (demo_ini demo_main) (str "main") = Ret (s0, low) /\
    router_setup demo_build s0 (str "main") low = Ret (s, true) /\ (2 <= length (links (s_rt s)))%nat.
Proof.
  destruct demo_run_setup as (s0 & low & s & E0 & E & _). exists s0, low, s. split; [done|]. split; [done|].
  apply (router_setup_ready demo_build (demo_ini demo_main) (str "main") low s0 s E0 E).
Defined.

Lemma configured_daemon_runs_witness :
  exists s0 low s s1, router_new demo_build (demo_ini demo_main) (str "main") = Ret (s0, low) /\
    router_setup demo_build s0 (str "main") low = Ret (s, true) /\
    start 3 (mkRun (s_rt s) false 0 (s_start_timeout s) false false) = Ret s1.
Proof.
  destruct demo_run_setup as (s0 & low & s & E0 & E & Hi).
  destruct (configured_daemon_runs demo_build (demo_ini demo_main) (str "main") low s0 s demo_starts_new E0 E Hi) as (s1 & _ & _ & _ & _ & Hs & _).
  by exists s0, low, s, s1.
Defined.
