(* ===== verification/Args.v ===== *)
(** * The command line

    Models src/src/server/knxd_args.cpp, the program that turns the command line
    of the daemon into a configuration file: [parse_opt] with every option, the class
    [arguments] with its pending filters and arguments, [link_to], [driver_args],
    and [main].

    [argp], which takes the command line apart, is a library: its calls of
    [parse_opt] are an input ([call]), each with the key, the argument unless it
    is null, and [argv[next]], to which [OPT_ARG] helps itself.  The global
    variables [ini], [link] and [arg] are the state.  A call of [die] ends the
    program with a message ([Died]); [Crashed] is undefined behaviour or an abort.
    The map of pending arguments has no order in the source; the order of [omap]
    is one of those it can have, and the assignments made from it are to
    different names. *)

From Stdlib Require Import Ascii.
From S2P Require Import Prelude CArray Common Ini.

Local Open Scope Z_scope.

(** ** Results *)

Inductive exec (A : Type) :=
| Done (a : A)
| Died (message : string)
| Crashed (f : fault).
Arguments Done {A} a.
Arguments Died {A} message.
Arguments Crashed {A} f.

#[export] Instance exec_ret : MRet exec := @Done.
#[export] Instance exec_bind : MBind exec :=
  fun A B f m => match m with Done a => f a | Died m => Died m | Crashed e => Crashed e end.

Definition lift {A} (m : outcome A) : exec A :=
  match m with Ret a => Done a | Fault f => Crashed f end.

(** A C string that must not be null. *)
Definition pointer (p : option text) : exec text :=
  match p with Some t => Done t | None => Crashed NullPointer end.

(** ** The C library *)

Definition s32 (z : Z) : Z :=
  let n := u32 z in if decide (n < 2147483648) then n else n - 4294967296.

Definition ULONG_MAX : Z := 18446744073709551615.
Definition LONG_MAX : Z := 9223372036854775807.

(** White space and sign in front of a number. *)
Definition signed (v : text) : Z * text :=
  match lskip v with
  | c :: s => if decide (c = "-"%char) then (-1, s) else if decide (c = "+"%char) then (1, s) else (1, c :: s)
  | [] => (1, [])
  end.

(** [strtoul (v, &x, 0)]: the number and [x]. *)
Definition strtoul (v : text) : Z * text :=
  let (sign, s) := signed v in
  let '(base, s) :=
    match s with
    | c :: x :: s' =>
        if bool_decide (c = "0"%char) && (bool_decide (x = "x"%char) || bool_decide (x = "X"%char)) && starts_digit 16 s'
        then (16, s') else if decide (c = "0"%char) then (8, s) else (10, s)
    | _ => (10, s)
    end in
  if starts_digit base s then
    let (n, rest) := digits base 0 s in
    (if decide (ULONG_MAX < n) then ULONG_MAX else (sign * n) mod (ULONG_MAX + 1), rest)
  else (0, v).

(** [atoi]: [strtol] converted to [int]. *)
Definition atoi (v : text) : Z :=
  let (sign, s) := signed v in
  s32 (Z.max (- LONG_MAX - 1) (Z.min LONG_MAX (sign * (digits 10 0 s).1))).

Definition lower_hexdigit (d : Z) : ascii := ascii_of_nat (Z.to_nat (if decide (d < 10) then 48 + d else 87 + d)).

Fixpoint hex_from (n : nat) (z : Z) (acc : text) : text :=
  match n with
  | O => acc
  | S n =>
      let acc := lower_hexdigit (z mod 16) :: acc in
      if decide (z / 16 = 0) then acc else hex_from n (z / 16) acc
  end.

(** [%x] of an [unsigned int] *)
Definition hexx (z : Z) : text := hex_from 8 z [].

(** [snprintf (buf, size, ...)]: what is kept. *)
Definition snprintf (size : nat) (s : text) : text := take (size - 1) s.

(** [strchr (s, c)]: the string up to the character, and what follows it. *)
Fixpoint strchr (c : ascii) (s : text) : text * option text :=
  match s with
  | [] => ([], None)
  | x :: s => if decide (x = c) then ([], Some s) else let (a, b) := strchr c s in (x :: a, b)
  end.

(** The same for [strstr (s, "]:")]. *)
Fixpoint bracket_colon (s : text) : option (text * text) :=
  match s with
  | x :: s' =>
      match s' with
      | y :: r =>
          if bool_decide (x = "]"%char) && bool_decide (y = ":"%char) then Some ([], r)
          else match bracket_colon s' with Some (a, b) => Some (x :: a, b) | None => None end
      | [] => None
      end
  | [] => None
  end.

(** ** The state *)

(** What has been said about the next server. *)
Record server_opts := mkSrv {
  want_server : bool; bT : bool; bR : bool; bD : bool;
  bOPT_SINGLE_PORT : bool; bOPT_MULTI_PORT : bool; bI : bool; intf : option text
}.

Record debug_opts := mkDbg { tracelevel : Z; errorlevel : Z; no_timestamps : bool }.

Record L2options := mkL2 { flags : Z; send_delay : Z }.

Record arguments := mkArgs {
  ini : IniData;
  link_letter : Z;
  link_rest : text;
  srv : server_opts;
  dbg : debug_opts;
  l2opts : L2options;
  filters : list text;
  more_args : omap text
}.

Definition set_ini (s : arguments) (d : IniData) : arguments :=
  mkArgs d (link_letter s) (link_rest s) (srv s) (dbg s) (l2opts s) (filters s) (more_args s).
Definition set_srv (s : arguments) (v : server_opts) : arguments :=
  mkArgs (ini s) (link_letter s) (link_rest s) v (dbg s) (l2opts s) (filters s) (more_args s).
Definition set_dbg (s : arguments) (v : debug_opts) : arguments :=
  mkArgs (ini s) (link_letter s) (link_rest s) (srv s) v (l2opts s) (filters s) (more_args s).
Definition set_l2opts (s : arguments) (v : L2options) : arguments :=
  mkArgs (ini s) (link_letter s) (link_rest s) (srv s) (dbg s) v (filters s) (more_args s).
Definition set_filters (s : arguments) (v : list text) : arguments :=
  mkArgs (ini s) (link_letter s) (link_rest s) (srv s) (dbg s) (l2opts s) v (more_args s).
Definition set_more_args (s : arguments) (v : omap text) : arguments :=
  mkArgs (ini s) (link_letter s) (link_rest s) (srv s) (dbg s) (l2opts s) (filters s) v.

Definition no_debug : debug_opts := mkDbg (-1) (-1) false.
Definition no_l2opts : L2options := mkL2 0 0.

(** The globals when [main] starts. *)
Definition arguments_new : arguments :=
  mkArgs ini_new 64 [] (mkSrv false false false false false false false None) no_debug no_l2opts [] [].

(** The string in the array [link]. *)
Definition link_name (s : arguments) : text :=
  cstr (ascii_of_N (Z.to_N (link_letter s)) :: "."%char :: link_rest s).

(** [strcpy] into the 97 bytes behind the dot. *)
Definition link_to (s : arguments) (arg : text) : exec arguments :=
  if decide (length arg < 97)%nat
  then Done (mkArgs (ini s) (u8 (link_letter s + 1)) (strchr ":"%char arg).1 (srv s) (dbg s) (l2opts s)
               (filters s) (more_args s))
  else Crashed OutOfRange.

(** [( *ini[sec])[key] = v] *)
Definition assign_ini (d : IniData) (sec key v : text) : outcome IniData :=
  let d := ini_index d sec in
  x ← section_set false (read_only d) key v (section_of d sec);
  Ret (mkData (update sec (fun e => (x, e.2)) (sections d)) (read_only d)).

Definition assign (s : arguments) (sec key v : text) : exec arguments :=
  d ← lift (assign_ini (ini s) sec key v); Done (set_ini s d).

(** The value of [( *ini[sec])[key]]: empty for a new entry. *)
Definition entry_value (d : IniData) (sec key : text) : text :=
  match find key (section_of d sec) with Some (v, _) => v | None => [] end.

Definition ADD (s : arguments) (sec key b : text) : exec arguments :=
  assign s sec key (match entry_value (ini s) sec key with [] => b | a => a ++ "," :: b end)%char.

Fixpoint add_all (s : arguments) (sec key : text) (bs : list text) : exec arguments :=
  match bs with
  | [] => Done s
  | b :: bs => s ← ADD s sec key b; add_all s sec key bs
  end.

Fixpoint assign_all (s : arguments) (sec : text) (m : omap text) : exec arguments :=
  match m with
  | [] => Done s
  | (k, v) :: m => s ← assign s sec k v; assign_all s sec m
  end.

Definition assign_if (b : bool) (s : arguments) (sec : text) (key v : string) : exec arguments :=
  match b with true => assign s sec (str key) (str v) | false => Done s end.

(** ** [class arguments] *)

Definition add_arg (s : arguments) (arg : text) : arguments :=
  let put k v := set_more_args s (emplace k v (more_args s)).1 in
  match arg with
  | [] => s
  | c :: r =>
      match strchr "="%char arg with
      | (k, Some v) => put k v
      | (_, None) =>
          if decide (c = "!"%char) then match r with [] => s | _ => put r (str "false") end
          else put arg (str "true")
      end
  end.

Definition push_filter_name (s : arguments) (name : text) : arguments := set_filters s (filters s ++ [name]).

Definition do_filter (s : arguments) (name : text) : exec arguments :=
  match more_args s with
  | [] => Done (push_filter_name s name)
  | _ =>
      s ← link_to s name;
      s ← assign_all s (link_name s) (more_args s);
      s ← assign s (link_name s) (str "filter") name;
      Done (push_filter_name (set_more_args s []) (link_name s))
  end.

Definition FLAG_B_TPUARTS_ACKGROUP : Z := 2.
Definition FLAG_B_TPUARTS_ACKINDIVIDUAL : Z := 4.
Definition FLAG_B_TPUARTS_DISCH_RESET : Z := 8.
Definition FLAG_B_NO_MONITOR : Z := 32.

Definition reset (s : arguments) : arguments := set_filters (set_l2opts (set_dbg s no_debug) no_l2opts) [].

(** The delay between packets becomes a filter. *)
Definition stack_delay (s : arguments) : exec arguments :=
  if nz (send_delay (l2opts s))
  then do_filter (add_arg s (snprintf 15 (str "delay=" ++ str (dec (s32 (send_delay (l2opts s))))))) (str "pace")
  else Done s.

(** The debug options get a section of their own. *)
Definition stack_debug (s : arguments) (sec : text) : exec arguments :=
  let o := dbg s in
  if bool_decide (0 <= tracelevel o) || bool_decide (0 <= errorlevel o) || no_timestamps o then
    let b2 := snprintf 50 (str "debug-" ++ sec) in
    let number n := snprintf 10 (str "0x" ++ hexx n) in
    s ← assign s sec (str "debug") b2;
    s ← (if decide (0 <= tracelevel o) then assign s b2 (str "trace-mask") (number (tracelevel o)) else Done s);
    s ← (if decide (0 <= errorlevel o) then assign s b2 (str "error-level") (number (errorlevel o)) else Done s);
    assign_if (no_timestamps o) s b2 "timestamps" "false"
  else Done s.

Definition stack (s : arguments) (sec : text) : exec arguments :=
  let has s f := nz (Z.land (flags (l2opts s)) f) in
  s ← stack_delay s;
  s ← add_all s sec (str "filters") (filters s);
  s ← assign_if (has s FLAG_B_TPUARTS_ACKGROUP) s sec "ack-group" "true";
  s ← assign_if (has s FLAG_B_TPUARTS_ACKINDIVIDUAL) s sec "ack-individual" "true";
  s ← assign_if (has s FLAG_B_TPUARTS_DISCH_RESET) s sec "reset" "true";
  s ← assign_if (has s FLAG_B_NO_MONITOR) s sec "monitor" "false";
  s ← assign_all s sec (more_args s);
  s ← stack_debug (set_more_args s []) sec;
  Done (reset s).

(** ** Arguments of drivers *)

(** The loop of [driver_argsv] over the arguments and their names, and the check
    that follows it; [seen] tells whether [pa] is set. *)
Fixpoint driver_argsv_loop (s : arguments) (ap : option text) (names : list text) (seen : bool) : exec arguments :=
  match ap with
  | None =>
      match seen, names with
      | true, ("!"%char :: _) :: _ => Died "requires an argument"
      | _, _ => Done s
      end
  | Some ap =>
      let (a, p2) := strchr ":"%char ap in
      match names with
      | [] => match a, p2 with [], None => Done s | _, _ => Died "Too many arguments" end
      | pa :: names =>
          let pa := match pa with "!"%char :: n => n | n => n end in
          s ← match a with [] => Done s | _ => assign s (link_name s) pa a end;
          driver_argsv_loop s p2 names true
      end
  end.

Definition driver_argsv (s : arguments) (arg : text) (ap : option text) (names : list string) : exec arguments :=
  s ← assign s (link_name s) (str "driver") arg;
  driver_argsv_loop s ap (map str names) false.

Definition strcmp_any (arg : text) (l : list string) : bool := bool_decide (arg ∈ map str l).

Definition driver_args (s : arguments) (arg : text) (ap : option text) : exec arguments :=
  if strcmp_any arg ["ip"%string] then driver_argsv s arg ap ["multicast-address"; "port"; "interface"]%string
  else if strcmp_any arg ["tpuarttcp"; "ft12tcp"; "ncn5120tcp"; "ft12cemitcp"]%string then
    driver_argsv s (take (length arg - 3) arg) ap ["!ip-address"; "!dest-port"]%string
  else if strcmp_any arg ["usb"%string] then driver_argsv s arg ap ["bus"; "device"; "config"; "interface"]%string
  else if strcmp_any arg ["ipt"%string] then driver_argsv s arg ap ["!ip-address"; "dest-port"; "src-port"]%string
  else if strcmp_any arg ["iptn"%string] then
    s ← driver_argsv s (str "ipt") ap ["!ip-address"; "dest-port"; "src-port"; "nat-ip"; "data-port"]%string;
    assign s (link_name s) (str "nat") (str "true")
  else if strcmp_any arg ["ft12"; "ncn5120"; "tpuarts"; "ft12cemi"]%string then
    driver_argsv s (if strcmp_any arg ["tpuarts"%string] then str "tpuart" else arg) ap ["!device"; "baudrate"]%string
  else if strcmp_any arg ["dummy"%string] then driver_argsv s arg ap []
  else Died "I don't know of options for it".

(** [readaddr] and [readaddrblock] check an address and store its text. *)
Definition args_readaddr (s : arguments) (addr : text) : exec arguments :=
  l ← lift (sscanf_ints ["."; "."]%char (String.string_of_list_ascii addr));
  if decide (length l = 3)%nat then assign s (str "main") (str "addr") addr
  else Died "Address needs to look like X.X.X".

Definition args_readaddrblock (s : arguments) (addr : text) : exec arguments :=
  l ← lift (sscanf_ints ["."; "."; ":"]%char (String.string_of_list_ascii addr));
  if decide (length l = 4)%nat then assign s (str "main") (str "client-addrs") addr
  else Died "Address block needs to look like X.X.X:X".

(** ** The options *)

Inductive opt_key :=
| O_T | O_R | O_D | OPT_SINGLE_PORT | OPT_MULTI_PORT | O_I | O_X | O_S | O_n | O_u | O_i | O_t
| OPT_NO_TIMESTAMP | O_f | O_e | O_E | O_p | O_d | O_c | OPT_FORCE_BROADCAST | OPT_STOP_NOW
| OPT_BACK_TUNNEL_NOQUEUE | OPT_BACK_EMI_NOQUEUE | OPT_BACK_SEND_DELAY | OPT_BACK_TPUARTS_ACKGROUP
| OPT_BACK_TPUARTS_ACKINDIVIDUAL | OPT_BACK_TPUARTS_DISCH_RESET | O_N | ARGP_KEY_ARG | O_b | O_B | O_A
| ARGP_KEY_FINI | O_other.

(** A call of [parse_opt] by [argp]. *)
Record call := mkOpt { key : opt_key; arg : option text; next : option text }.

(** [OPT_ARG]: the argument, or the next word of the command line if it is not an
    option, or the default. *)
Definition OPT_ARG (c : call) (def : option text) : option text :=
  match arg c with
  | Some a => Some a
  | None =>
      match next c with
      | Some (x :: a) => if decide (x = "-"%char) then def else Some (x :: a)
      | _ => def
      end
  end.

Definition set_want (o : server_opts) (b : bool) : server_opts :=
  mkSrv b (bT o) (bR o) (bD o) (bOPT_SINGLE_PORT o) (bOPT_MULTI_PORT o) (bI o) (intf o).

(** The options in front of [-S] and [-X]. *)
Definition server_options (s : arguments) (sec : text) (a : option text) : exec arguments :=
  let o := srv s in
  s ← assign_if (bT o) s sec "tunnel" "tunnel";
  s ← assign_if (bR o) s sec "router" "router";
  s ← assign_if (bD o) s sec "discover" "true";
  s ← assign_if (bOPT_SINGLE_PORT o) s sec "multi-port" "false";
  s ← assign_if (bOPT_MULTI_PORT o) s sec "multi-port" "true";
  s ← match bI o with true => a ← pointer a; assign s sec (str "interface") a | false => Done s end;
  Done (set_srv s (mkSrv (want_server o) false false false false false false (intf o))).

(** The name of a server in its log. *)
Definition servername : text := str "knxd".

Definition server_name (s : arguments) (sec debug prefix : text) : exec arguments :=
  s ← assign s debug (str "name") (prefix ++ ":"%char :: servername);
  s ← assign s sec (str "debug") debug;
  stack s sec.

(** Port and address of a server. *)
Definition server_address (s : arguments) (sec a : text) (b : option text) : exec arguments :=
  s ← match b with
      | Some b => if decide (0 < atoi b) then assign s sec (str "port") b else Done s
      | None => Done s
      end;
  match a with [] => Done s | _ => assign s sec (str "multicast-address") a end.

Definition opt_S (s : arguments) (c : call) : exec arguments :=
  let sec := str "server" in
  s ← server_options s sec (arg c);
  match filters s with
  | _ :: _ => Died "Use filters in front of -R or -T, not -S"
  | [] =>
      s ← ADD s (str "main") (str "connections") sec;
      s ← assign s sec (str "server") (str "ets_router");
      let s := set_srv s (set_want (srv s) false) in
      let (a, b) := strchr ":"%char (default [] (OPT_ARG c (Some []))) in
      s ← server_address s sec a b;
      server_name s sec (str "debug-server") (str "mcast")
  end.

Definition opt_X (s : arguments) (c : call) : exec arguments :=
  let sec := str "server6" in
  s ← server_options s sec (arg c);
  match filters s with
  | _ :: _ => Died "Use filters in front of -R or -T, not -S"
  | [] =>
      s ← ADD s (str "main") (str "connections") sec;
      s ← assign s sec (str "server") (str "ets_router6");
      s ← assign_if (want_server (srv s)) s sec "router" "router6";
      let s := set_srv s (set_want (srv s) false) in
      let a := default [] (OPT_ARG c (Some [])) in
      let a := match a with "["%char :: a' => a' | _ => a end in
      match bracket_colon a with
      | None => Crashed NullPointer
      | Some (a, b) =>
          s ← server_address s sec a (Some b);
          server_name s sec (str "debug-server6") (str "mcast6")
      end
  end.

Definition not_wanting (s : arguments) : exec unit :=
  if want_server (srv s) then Died "You need -S after -D/-T/-R" else Done tt.

(** A new link that the daemon is to connect. *)
Definition new_connection (s : arguments) (name : text) : exec arguments :=
  s ← link_to s name;
  ADD s (str "main") (str "connections") (link_name s).

Definition opt_u (s : arguments) (c : call) : exec arguments :=
  _ ← not_wanting s;
  s ← new_connection s (str "unix");
  s ← assign s (link_name s) (str "server") (str "knxd_unix");
  s ← match OPT_ARG c None with
      | Some name =>
          s ← assign s (link_name s) (str "path") name;
          assign s (link_name s) (str "systemd-ignore") (str "false")
      | None => assign s (link_name s) (str "systemd-ignore") (str "true")
      end;
  stack s (link_name s).

Definition opt_i (s : arguments) (c : call) : exec arguments :=
  _ ← not_wanting s;
  s ← new_connection s (str "tcp");
  s ← assign s (link_name s) (str "server") (str "knxd_tcp");
  let port := default [] (OPT_ARG c (Some [])) in
  s ← (if negb (bool_decide (port = [])) && bool_decide (0 < atoi port) then
         s ← assign s (link_name s) (str "port") port;
         assign s (link_name s) (str "systemd-ignore") (str "false")
       else assign s (link_name s) (str "systemd-ignore") (str "true"));
  stack s (link_name s).

Definition opt_b (s : arguments) (c : call) : exec arguments :=
  _ ← not_wanting s;
  a ← pointer (arg c);
  s ← new_connection s a;
  let (name, ap) := strchr ":"%char a in
  s ← driver_args s name ap;
  stack s (link_name s).

Definition opt_c (s : arguments) : exec arguments :=
  if nz (flags (l2opts s)) || nz (send_delay (l2opts s)) then Died "You cannot apply flags to the group cache."
  else
    s ← link_to s (str "cache");
    s ← assign s (str "main") (str "cache") (link_name s);
    stack s (link_name s).

(** [-T], [-R] and [-D] *)
Definition opt_server (s : arguments) (sec : string) (f : server_opts -> server_opts) : exec arguments :=
  s ← stack s (str sec); Done (set_srv s (set_want (f (srv s)) true)).

Definition add_flag (s : arguments) (f : Z) : arguments :=
  set_l2opts s (mkL2 (Z.lor (flags (l2opts s)) f) (send_delay (l2opts s))).

Definition set_delay (s : arguments) (n : Z) : arguments :=
  set_l2opts s (mkL2 (flags (l2opts s)) (u32 n)).

(** The end of the command line, of a program built with or without systemd. *)
Definition opt_fini (have_systemd : bool) (s : arguments) : exec arguments :=
  _ ← not_wanting s;
  s ← match have_systemd with
      | true => s ← assign s (str "main") (str "systemd") (str "systemd"); stack s (str "systemd")
      | false => Done s
      end;
  if negb (bool_decide (filters s = [])) || negb (bool_decide (more_args s = [])) then
    Died "You need to use filters and arguments in front of the affected backend"
  else if nz (flags (l2opts s)) || nz (send_delay (l2opts s)) then
    Died "You provided flags after specifying an interface."
  else Done s.

Definition parse_opt (have_systemd : bool) (s : arguments) (c : call) : exec arguments :=
  let o := srv s in
  match key c with
  | O_T => opt_server s "tunnel" (fun o => mkSrv (want_server o) true (bR o) (bD o) (bOPT_SINGLE_PORT o) (bOPT_MULTI_PORT o) (bI o) (intf o))
  | O_R => opt_server s "router" (fun o => mkSrv (want_server o) (bT o) true (bD o) (bOPT_SINGLE_PORT o) (bOPT_MULTI_PORT o) (bI o) (intf o))
  | O_D => opt_server s "server" (fun o => mkSrv (want_server o) (bT o) (bR o) true (bOPT_SINGLE_PORT o) (bOPT_MULTI_PORT o) (bI o) (intf o))
  | OPT_SINGLE_PORT => Done (set_srv s (mkSrv (want_server o) (bT o) (bR o) (bD o) true (bOPT_MULTI_PORT o) (bI o) (intf o)))
  | OPT_MULTI_PORT => Done (set_srv s (mkSrv (want_server o) (bT o) (bR o) (bD o) (bOPT_SINGLE_PORT o) true (bI o) (intf o)))
  | O_I => Done (set_srv s (mkSrv (want_server o) (bT o) (bR o) (bD o) (bOPT_SINGLE_PORT o) (bOPT_MULTI_PORT o) true (arg c)))
  | O_X => opt_X s c
  | O_S => opt_S s c
  | O_n =>
      a ← pointer (arg c);
      let a := match a with "="%char :: a' => a' | _ => a end in
      if decide (30 <= length a)%nat then Died "Server name must be shorter than 30 bytes"
      else assign s (str "main") (str "name") a
  | O_u => opt_u s c
  | O_i => opt_i s c
  | O_t =>
      match arg c with
      | Some a =>
          match strtoul a with
          | (level, []) => Done (set_dbg s (mkDbg (s32 level) (errorlevel (dbg s)) (no_timestamps (dbg s))))
          | (_, _ :: _) => Died "Trace level is not a number"
          end
      | None => Done (set_dbg s (mkDbg (-1) (errorlevel (dbg s)) (no_timestamps (dbg s))))
      end
  | OPT_NO_TIMESTAMP => Done (set_dbg s (mkDbg (tracelevel (dbg s)) (errorlevel (dbg s)) true))
  | O_f =>
      Done (set_dbg s (mkDbg (tracelevel (dbg s)) (match arg c with Some a => atoi a | None => 0 end)
                         (no_timestamps (dbg s))))
  | O_e =>
      if nz (flags (l2opts s)) || nz (send_delay (l2opts s)) then Died "You cannot use flags globally."
      else s ← stack s (str "main"); a ← pointer (arg c); args_readaddr s a
  | O_E => a ← pointer (arg c); args_readaddrblock s a
  | O_p => a ← pointer (arg c); assign s (str "main") (str "pidfile") a
  | O_d =>
      s ← assign s (str "main") (str "background") (str "true");
      match OPT_ARG c None with
      | Some file => assign s (str "main") (str "logfile") file
      | None => Done s
      end
  | O_c => opt_c s
  | OPT_FORCE_BROADCAST => assign s (str "main") (str "force-broadcast") (str "true")
  | OPT_STOP_NOW => assign s (str "main") (str "stop-after-setup") (str "true")
  | OPT_BACK_TUNNEL_NOQUEUE => Done (set_delay s 30)
  | OPT_BACK_EMI_NOQUEUE => Done (set_delay s 500)
  | OPT_BACK_SEND_DELAY => Done (set_delay s (atoi (default [] (OPT_ARG c (Some (str "30"))))))
  | OPT_BACK_TPUARTS_ACKGROUP => Done (add_flag s FLAG_B_TPUARTS_ACKGROUP)
  | OPT_BACK_TPUARTS_ACKINDIVIDUAL => Done (add_flag s FLAG_B_TPUARTS_ACKINDIVIDUAL)
  | OPT_BACK_TPUARTS_DISCH_RESET => Done (add_flag s FLAG_B_TPUARTS_DISCH_RESET)
  | O_N => Done (add_flag s FLAG_B_NO_MONITOR)
  | ARGP_KEY_ARG | O_b => opt_b s c
  | O_B => a ← pointer (arg c); do_filter s a
  | O_A => a ← pointer (arg c); Done (add_arg s a)
  | ARGP_KEY_FINI => opt_fini have_systemd s
  | O_other => Done s
  end.

Fixpoint parse_opts (have_systemd : bool) (s : arguments) (cs : list call) : exec arguments :=
  match cs with
  | [] => Done s
  | c :: cs => s ← parse_opt have_systemd s c; parse_opts have_systemd s cs
  end.

(** [main]: the calls for the command line and the one at its end, and what is
    written. *)
Definition args_main (have_systemd : bool) (cs : list call) : exec text :=
  s ← parse_opts have_systemd arguments_new (cs ++ [mkOpt ARGP_KEY_FINI None None]);
  Done (ini_write (ini s)).
