(* ===== verification/ArgsSpec.v ===== *)
(** * Properties of the command line

    The configuration that [Args] writes for a command line connects the links that
    the command line names, in their order, each with its server or driver
    ([args_connections]); with arguments that contain no blank and no comment
    character it is written without undefined behaviour and read back by the
    daemon as it was built ([args_read_back]). *)

From Stdlib Require Import Ascii.
From S2P Require Import Prelude CArray Common Ini IniSpec Stack Args.

Local Open Scope Z_scope.
Local Set Warnings "-clear-no-such-hyp".

(** ** Reasoning about executions *)

(** A run that is done has the property [P]; it may crash only if [C]. *)
Definition runs {A} (C : Prop) (P : A -> Prop) (m : exec A) : Prop :=
  match m with Done a => P a | Died _ => True | Crashed _ => C end.

Lemma runs_bind {A B} C (P : A -> Prop) (Q : B -> Prop) m (f : A -> exec B) :
  runs C P m -> (forall a, P a -> runs C Q (f a)) -> runs C Q (m ≫= f).
Proof. destruct m; cbn; auto. Qed.

Lemma exec_assoc {A B D} (m : exec A) (f : A -> exec B) (g : B -> exec D) :
  (x ← m; y ← f x; g y) = ((x ← m; f x) ≫= g).
Proof. by destruct m. Qed.

Lemma runs_mono {A} C (P Q : A -> Prop) m : runs C P m -> (forall a, P a -> Q a) -> runs C Q m.
Proof. destruct m; cbn; auto. Qed.

Lemma runs_Done {A} C (P : A -> Prop) a : P a -> runs C P (Done a).
Proof. done. Qed.

Lemma runs_pointer C (P : text -> Prop) p :
  (p = None -> C) -> (forall a, p = Some a -> P a) -> runs C P (pointer p).
Proof. destruct p; cbn; auto. Qed.

(** ** Assignments *)

Definition put_section (s : IniSection) (key v : text) : IniSection :=
  update key (fun e => (v, e.2)) (emplace key ([], false) s).1.

(** What an assignment makes of a configuration that is not read only. *)
Definition put_ini (d : IniData) (sec key v : text) : IniData :=
  mkData (update sec (fun e => (put_section (section_of (ini_index d sec) sec) key v, e.2)) (sections (ini_index d sec)))
    (read_only d).

Lemma assign_eq s sec key v :
  read_only (ini s) = false -> assign s sec key v = Done (set_ini s (put_ini (ini s) sec key v)).
Proof.
  intros Hro. unfold assign, assign_ini, section_set. change (read_only (ini_index (ini s) sec)) with (read_only (ini s)).
  unfold put_ini. rewrite Hro. done.
Qed.

Lemma find_put_section s key v k :
  fst <$> find k (put_section s key v) = if decide (k = key) then Some v else fst <$> find k s.
Proof.
  unfold put_section. rewrite find_update. case_decide as E.
  - subst. pose proof (find_emplace key ([], false) s) as H. destruct (find key _) as [[]|]; [done|done].
  - unfold emplace. case_match; [done|]. cbn [fst]. match goal with H : find _ _ = None |- _ => clear H end.
    induction s as [|[k' v'] s IH]; cbn; [by rewrite decide_False|].
    destruct (text_lt key k'); cbn; [by rewrite (decide_False (P := k = key))|]. by case_decide.
Qed.

Lemma find_index d sec : find sec (sections (ini_index d sec)) <> None.
Proof.
  unfold ini_index. cbn [sections]. rewrite find_update, decide_True by done.
  pose proof (find_emplace sec new_section (sections d)). by destruct (find sec _).
Qed.

Lemma section_of_put d sec key v s :
  section_of (put_ini d sec key v) s = if decide (s = sec) then put_section (section_of d sec) key v else section_of d s.
Proof.
  rewrite <-(section_of_index d sec s). unfold put_ini, section_of at 1. cbn [sections]. rewrite find_update.
  case_decide as E; [|done]. subst. pose proof (find_index d sec). rewrite section_of_index.
  by destruct (find sec _) as [[]|].
Qed.

Lemma contents_put d sec key v s k :
  contents (put_ini d sec key v) s k = if decide (s = sec /\ k = key) then Some v else contents d s k.
Proof.
  unfold contents. rewrite section_of_put. destruct (decide (s = sec)) as [->|Hs].
  - rewrite find_put_section. destruct (decide (k = key)) as [->|Hk]; [by rewrite decide_True|].
    by rewrite (decide_False (P := _ /\ _)) by naive_solver.
  - by rewrite (decide_False (P := _ /\ _)) by naive_solver.
Qed.

Lemma entry_value_contents d sec key : entry_value d sec key = default [] (contents d sec key).
Proof. unfold entry_value, contents. by destruct (find _ _) as [[]|]. Qed.

(** ** Comma separated lists *)

Lemma comma_names_app a : forall cur b,
  comma_names cur (a ++ ","%char :: b) = comma_names cur a ++ comma_names [] b.
Proof.
  induction a as [|c a IH]; intros cur b; cbn [comma_names app].
  - rewrite decide_True by done. destruct cur; [done|]. by rewrite <-app_comm_cons.
  - case_decide; [destruct cur; rewrite IH; done|]. apply IH.
Qed.

Lemma comma_names_one b : b <> [] -> ","%char ∉ b -> comma_names [] b = [b].
Proof.
  intros Hb Hc. enough (forall cur, cur ++ b <> [] -> comma_names (rev cur) b = [cur ++ b]) as H by (by apply (H [])).
  clear Hb. induction b as [|c b IH]; intros cur Hn; cbn [comma_names].
  - rewrite app_nil_r in *. destruct (rev cur) eqn:E; [|by rewrite <-E, rev_involutive].
    apply (f_equal (@rev _)) in E. rewrite rev_involutive in E. done.
  - apply not_elem_of_cons in Hc as [Hc Hb]. rewrite decide_False by done.
    rewrite <-(rev_unit cur c). rewrite (IH Hb (cur ++ [c])); rewrite <-app_assoc; [done|]. by destruct cur.
Qed.

Lemma comma_names_add a b :
  b <> [] -> ","%char ∉ b ->
  comma_names [] (match a with [] => b | a => a ++ ","%char :: b end) = comma_names [] a ++ [b].
Proof.
  intros Hb Hc. rewrite <-(comma_names_one b) by done. destruct a; [done|]. apply comma_names_app.
Qed.

(** ** The connections *)

(** The entries that make a connection; the arguments of [-A] are to keep off
    them. *)
Definition reserved : list text := [str "connections"; str "server"; str "driver"].

Definition same_reserved (d d' : IniData) : Prop :=
  forall sec k, k ∈ reserved -> contents d' sec k = contents d sec k.

Record good (s : arguments) : Prop := {
  g_ro : read_only (ini s) = false;
  g_clean : Forall (fun e => e.1 ∉ reserved) (more_args s)
}.

(** A part of the program that takes at most [n] new links and leaves the
    connections alone. *)
Record quiet (n : Z) (s s' : arguments) : Prop := {
  q_good : good s';
  q_same : same_reserved (ini s) (ini s');
  q_letter : link_letter s <= link_letter s' <= link_letter s + n
}.

Lemma quiet_refl s : good s -> quiet 0 s s.
Proof. intros. split; [done|done|lia]. Qed.

Lemma quiet_trans n m s1 s2 s3 : quiet n s1 s2 -> quiet m s2 s3 -> quiet (n + m) s1 s3.
Proof.
  intros [G1 S1 L1] [G2 S2 L2]. split; [done| |lia]. intros sec k Hk. by rewrite S2, S1.
Qed.

Lemma quiet_weaken n m s1 s2 : quiet n s1 s2 -> n <= m -> quiet m s1 s2.
Proof. intros [? ? ?] ?. split; [done|done|lia]. Qed.

(** A step that writes entries that are not reserved, and nothing else. *)
Definition writes (s : arguments) (m : exec arguments) : Prop :=
  exists d, m = Done (set_ini s d) /\ read_only d = false /\ same_reserved (ini s) d.

Lemma writes_done s : read_only (ini s) = false -> writes s (Done s).
Proof. intros. exists (ini s). by destruct s. Qed.

Lemma writes_assign s sec key v : read_only (ini s) = false -> key ∉ reserved -> writes s (assign s sec key v).
Proof.
  intros Hr Hk. rewrite assign_eq by done. eexists. split; [done|]. split; [done|].
  intros sec' k' Hk'. rewrite contents_put, decide_False; [done|]. intros [-> ->]. done.
Qed.

Lemma writes_bind s m (f : arguments -> exec arguments) :
  writes s m -> (forall d, read_only d = false -> writes (set_ini s d) (f (set_ini s d))) -> writes s (m ≫= f).
Proof.
  intros (d & -> & Hr & Hs) Hf. destruct (Hf d Hr) as (d' & E & Hr' & Hs').
  exists d'. split; [exact E|]. split; [done|]. intros sec k Hk. by rewrite Hs', Hs.
Qed.

Lemma writes_if b s sec key v :
  read_only (ini s) = false -> str key ∉ reserved -> writes s (assign_if b s sec key v).
Proof. intros. destruct b; [by apply writes_assign|by apply writes_done]. Qed.

Lemma writes_quiet s m : good s -> writes s m -> runs True (fun s' => quiet 0 s s' /\ exists d, s' = set_ini s d) m.
Proof.
  intros [Hr Hc] (d & -> & Hr' & Hs). cbn. split; [|by exists d]. split; [done|done|cbn; lia].
Qed.

Lemma writes_assign_all m : forall s sec,
  read_only (ini s) = false -> Forall (fun e => e.1 ∉ reserved) m -> writes s (assign_all s sec m).
Proof.
  induction m as [|[k v] m IH]; intros s sec Hr Hm; cbn [assign_all]; [by apply writes_done|].
  apply Forall_cons_iff in Hm as [Hk Hm]. apply writes_bind; [by apply writes_assign|]. intros d Hd. by apply IH.
Qed.

Lemma writes_add_all bs : forall s sec key,
  read_only (ini s) = false -> key ∉ reserved -> writes s (add_all s sec key bs).
Proof.
  induction bs as [|b bs IH]; intros s sec key Hr Hk; cbn [add_all]; [by apply writes_done|].
  apply writes_bind; [by apply writes_assign|]. intros d Hd. by apply IH.
Qed.

(** A fixed name that is not reserved. *)
Ltac unreserved := by apply (bool_decide_eq_true_1 _).

Ltac write_step :=
  first [ apply writes_done; cbn; done
        | apply writes_bind; [|intros ? ?]
        | apply writes_assign; [cbn; done|unreserved]
        | apply writes_if; [cbn; done|unreserved]
        | apply writes_add_all; [cbn; done|unreserved]
        | apply writes_assign_all; [cbn; done|done]
        | case_match ].

Lemma emplace_forall {V} (P : text * V -> Prop) k v (m : omap V) : P (k, v) -> Forall P m -> Forall P (emplace k v m).1.
Proof. intros. unfold emplace. destruct (find k m); [done|]. by apply insert_ordered_forall. Qed.

(** The name an argument of [-A] sets, if any. *)
Definition arg_name (a : text) : option text :=
  match a with
  | [] => None
  | c :: r =>
      match strchr "="%char a with
      | (k, Some _) => Some k
      | (_, None) => if decide (c = "!"%char) then match r with [] => None | _ => Some r end else Some a
      end
  end.

Lemma add_arg_spec s a :
  match arg_name a with
  | None => add_arg s a = s
  | Some k => exists v, add_arg s a = set_more_args s (emplace k v (more_args s)).1
  end.
Proof.
  unfold add_arg, arg_name. destruct a as [|c r]; [done|]. destruct (strchr _ _) as [k [v|]]; [by eexists|].
  case_decide; [destruct r; [done|by eexists]|by eexists].
Qed.

Lemma add_arg_good s a : good s -> (forall k, arg_name a = Some k -> k ∉ reserved) -> good (add_arg s a).
Proof.
  intros [Hr Hc] Hk. pose proof (add_arg_spec s a) as E. destruct (arg_name a) as [k|]; [|by rewrite E].
  destruct E as (v & ->). split; [done|]. apply emplace_forall; [by apply Hk|done].
Qed.

Lemma add_arg_letter s a : link_letter (add_arg s a) = link_letter s.
Proof. pose proof (add_arg_spec s a) as E. destruct (arg_name a); [by destruct E as (v & ->)|by rewrite E]. Qed.

Lemma add_arg_ini s a : ini (add_arg s a) = ini s.
Proof. pose proof (add_arg_spec s a) as E. destruct (arg_name a); [by destruct E as (v & ->)|by rewrite E]. Qed.

Lemma link_to_spec s a (C : Prop) :
  (~ (length a < 97)%nat -> C) ->
  runs C (fun s' => exists r, s' = mkArgs (ini s) (u8 (link_letter s + 1)) r (srv s) (dbg s) (l2opts s) (filters s) (more_args s)
                       /\ r = (strchr ":"%char a).1) (link_to s a).
Proof. intros HC. unfold link_to. case_decide; [|by apply HC]. cbn. eauto. Qed.

Lemma do_filter_quiet s name :
  good s -> 0 <= link_letter s < 255 -> runs True (quiet 1 s) (do_filter s name).
Proof.
  intros Hg Hl. pose proof Hg as [Hr Hc]. unfold do_filter. destruct (more_args s) as [|e m] eqn:Em.
  { cbn. split; [split; [done|cbn; by rewrite Em]|done|cbn; lia]. }
  eapply runs_bind; [by apply link_to_spec|]. intros s1 (r & Hs1 & _).
  assert (writes s1 (x ← assign_all s1 (link_name s1) (more_args s1); assign x (link_name x) (str "filter") name)) as Hw.
  { subst s1. rewrite <-Em in Hc. apply writes_bind; [by apply writes_assign_all|]. intros d Hd. apply writes_assign; [done|unreserved]. }
  destruct Hw as (d & E & Hrd & Hs).
  rewrite exec_assoc, E. subst s1.
  cbn. split; [split; [done|constructor]|done|]. cbn. rewrite u8_small by (unfold is_u8; lia). lia.
Qed.

Lemma strchr_prefix c p r : c ∉ p -> strchr c (p ++ c :: r) = (p, Some r).
Proof.
  induction p as [|x p IH]; intros Hc; cbn [strchr app]; [by rewrite decide_True|].
  apply not_elem_of_cons in Hc as [Hx Hp]. rewrite decide_False by done. by rewrite IH.
Qed.

Lemma delay_name t : arg_name (snprintf 15 (str "delay=" ++ t)) = Some (str "delay").
Proof. done. Qed.

Lemma stack_delay_quiet s :
  good s -> 0 <= link_letter s < 255 -> runs True (quiet 1 s) (stack_delay s).
Proof.
  intros Hg Hl. unfold stack_delay. case_match; [|by apply runs_Done, (quiet_weaken 0); [apply quiet_refl|lia]].
  set (a := snprintf 15 _). eapply runs_mono.
  - apply do_filter_quiet; [|by rewrite add_arg_letter]. apply add_arg_good; [done|]. intros k. unfold a.
    rewrite delay_name. intros [= <-]. unreserved.
  - intros s' [? Hs Hq]. rewrite add_arg_letter in Hq. rewrite add_arg_ini in Hs. by split.
Qed.

Lemma stack_debug_writes s sec : read_only (ini s) = false -> writes s (stack_debug s sec).
Proof. intros. unfold stack_debug. cbv zeta. repeat write_step. Qed.

Lemma stack_quiet s sec :
  good s -> 0 <= link_letter s < 255 -> runs True (fun s' => quiet 1 s s' /\ more_args s' = []) (stack s sec).
Proof.
  intros Hg Hl. unfold stack. cbv zeta. eapply runs_bind; [by apply stack_delay_quiet|]. intros s1 Hq.
  destruct (q_good _ _ _ Hq) as [Hr Hc].
  assert (writes s1 (s ← add_all s1 sec (str "filters") (filters s1);
    s ← assign_if (nz (Z.land (flags (l2opts s)) FLAG_B_TPUARTS_ACKGROUP)) s sec "ack-group" "true";
    s ← assign_if (nz (Z.land (flags (l2opts s)) FLAG_B_TPUARTS_ACKINDIVIDUAL)) s sec "ack-individual" "true";
    s ← assign_if (nz (Z.land (flags (l2opts s)) FLAG_B_TPUARTS_DISCH_RESET)) s sec "reset" "true";
    s ← assign_if (nz (Z.land (flags (l2opts s)) FLAG_B_NO_MONITOR)) s sec "monitor" "false";
    assign_all s sec (more_args s))) as (d & E & Hd & Hs) by (repeat write_step).
  rewrite !exec_assoc. rewrite !exec_assoc in E. rewrite E.
  destruct (stack_debug_writes (set_more_args (set_ini s1 d) []) sec Hd) as (d' & E' & Hd' & Hs').
  change (runs True (fun s' => quiet 1 s s' /\ more_args s' = [])
    (s ← stack_debug (set_more_args (set_ini s1 d) []) sec; Done (reset s))).
  rewrite E'. cbn. split; [|done]. destruct Hq as [_ Hs1 Hl1]. split; [split; [done|constructor]| |done].
  intros sec' k Hk. cbn. rewrite (Hs' _ _ Hk). cbn. by rewrite (Hs _ _ Hk), (Hs1 _ _ Hk).
Qed.

(** The name of the driver that [driver_args] writes. *)
Definition driver_of (name : text) : text :=
  if strcmp_any name ["tpuarttcp"; "ft12tcp"; "ncn5120tcp"; "ft12cemitcp"]%string then take (length name - 3) name
  else if strcmp_any name ["iptn"%string] then str "ipt"
  else if strcmp_any name ["tpuarts"%string] then str "tpuart" else name.

Definition known_drivers : list text :=
  map str ["ip"; "tpuarttcp"; "ft12tcp"; "ncn5120tcp"; "ft12cemitcp"; "usb"; "ipt"; "iptn"; "ft12"; "ncn5120";
           "tpuarts"; "ft12cemi"; "dummy"]%string.

(** The entry that an option of the command line puts into the section of its
    connection. *)
Definition expected (c : call) : option (text * text) :=
  match key c with
  | O_S => Some (str "server", str "ets_router")
  | O_X => Some (str "server", str "ets_router6")
  | O_u => Some (str "server", str "knxd_unix")
  | O_i => Some (str "server", str "knxd_tcp")
  | O_b | ARGP_KEY_ARG =>
      match arg c with Some a => Some (str "driver", driver_of (strchr ":"%char a).1) | None => None end
  | _ => None
  end.

Definition servers : list text := [str "server"; str "server6"].

Definition server_entry (l : text) : text * text :=
  (str "server", if decide (l = str "server") then str "ets_router" else str "ets_router6").

(** The [z]th link. *)
Definition link_text (z : Z) (r : text) : text := ascii_of_N (Z.to_N z) :: "."%char :: cstr r.

Lemma cstr_cons c r : c <> nul -> cstr (c :: r) = c :: cstr r.
Proof. intros. cbn. by rewrite decide_False. Qed.

Lemma letter_inj x y : 0 <= x < 256 -> 0 <= y < 256 -> ascii_of_N (Z.to_N x) = ascii_of_N (Z.to_N y) -> x = y.
Proof. intros Hx Hy E. apply (f_equal N_of_ascii) in E. rewrite !N_ascii_embedding in E by lia. lia. Qed.

Lemma link_name_text s : 0 < link_letter s < 256 -> link_name s = link_text (link_letter s) (link_rest s).
Proof.
  intros Hl. unfold link_name. rewrite !cstr_cons; [done|done|]. intros E. apply (letter_inj _ 0) in E; lia.
Qed.

Lemma link_text_fresh z r z' r' : 0 <= z < z' -> z' < 256 -> link_text z r <> link_text z' r'.
Proof. intros ? ? [=E _]. apply letter_inj in E; lia. Qed.

Lemma link_text_server z r : link_text z r ∉ servers.
Proof. unfold link_text, servers. rewrite !not_elem_of_cons. split_and!; [| |apply not_elem_of_nil]; by intros [=]. Qed.

Definition entry_of (d : IniData) (kv : text * text) (l : text) : Prop :=
  contents d l kv.1 = Some kv.2 /\ kv.1 ∈ [str "server"; str "driver"] /\ (l ∈ servers -> kv = server_entry l).

(** The links of the configuration are [ls], and what the command line said of
    them is [exp]. *)
Record wired (exp : list (text * text)) (s : arguments) (ls : list text) : Prop := {
  c_good : good s;
  c_letter : 64 <= link_letter s;
  c_names : comma_names [] (default [] (contents (ini s) (str "main") (str "connections"))) = ls;
  c_entries : Forall2 (entry_of (ini s)) exp ls;
  c_known : Forall (fun l => l ∈ servers \/ exists z r, l = link_text z r /\ 64 < z <= link_letter s) ls;
  c_nodup : NoDup (filter (fun l => l ∉ servers) ls)
}.

Lemma reserved_connections : str "connections" ∈ reserved.
Proof. by apply (bool_decide_eq_true_1 _). Qed.

Lemma reserved_entry k : k ∈ [str "server"; str "driver"] -> k ∈ reserved.
Proof. intros Hk. apply elem_of_cons. by right. Qed.

Lemma entry_not_connections k : k ∈ [str "server"; str "driver"] -> k <> str "connections".
Proof. intros Hk ->. by apply (bool_decide_eq_true_2 _) in Hk. Qed.

Lemma connected_quiet n exp s ls s' : wired exp s ls -> quiet n s s' -> wired exp s' ls.
Proof.
  intros [Hg Hl Hn He Hk Hd] [Hg' Hs Hl']. split; [done|lia| | | |done].
  - rewrite Hs; [done|apply reserved_connections].
  - eapply Forall2_impl; [|exact He]. intros kv l (H1 & H2 & H3). split; [|done].
    rewrite Hs; [done|by apply reserved_entry].
  - eapply Forall_impl; [|exact Hk]. intros l [?|(z & r & -> & ?)]; [by left|]. right. exists z, r. split; [done|lia].
Qed.

(** [ADD] of a name to the connections, and the entry of its section. *)
Definition connect (d : IniData) (l k v : text) : IniData :=
  put_ini (put_ini d (str "main") (str "connections")
             (match entry_value d (str "main") (str "connections") with [] => l | a => a ++ ","%char :: l end)) l k v.

Lemma connect_names d l k v :
  k <> str "connections" -> l <> [] -> ","%char ∉ l ->
  comma_names [] (default [] (contents (connect d l k v) (str "main") (str "connections"))) =
  comma_names [] (default [] (contents d (str "main") (str "connections"))) ++ [l].
Proof.
  intros Hk Hl Hc. unfold connect. rewrite contents_put, decide_False by naive_solver.
  rewrite contents_put, decide_True by done. rewrite entry_value_contents.
  generalize (default [] (contents d (str "main") (str "connections"))). intros a.
  pose proof (comma_names_add a l Hl Hc) as H. by destruct a.
Qed.

Lemma connect_entries d l k v l' k' :
  k' <> str "connections" -> contents (connect d l k v) l' k' = if decide (l' = l /\ k' = k) then Some v else contents d l' k'.
Proof.
  intros Hk. unfold connect. rewrite contents_put. case_decide; [done|].
  rewrite contents_put, decide_False by naive_solver. done.
Qed.

Lemma connect_connected exp s s' ls l k v :
  wired exp s ls -> good s' -> ini s' = connect (ini s) l k v -> link_letter s <= link_letter s' ->
  k ∈ [str "server"; str "driver"] -> l <> [] -> ","%char ∉ l ->
  (l ∈ servers /\ (k, v) = server_entry l) \/
  (exists r, l = link_text (link_letter s') r /\ link_letter s < link_letter s' < 256) ->
  wired (exp ++ [(k, v)]) s' (ls ++ [l]).
Proof.
  intros [Hg Hl Hn He Hk Hd] Hg' Hi Hl' Hkk Hne Hc Hor. split; [done|lia| | | |].
  - rewrite Hi, connect_names by (done || by apply entry_not_connections). by rewrite Hn.
  - apply Forall2_app.
    + rewrite list.Forall_forall in Hk. apply Forall2_same_length_lookup_2; [by eapply Forall2_length|].
      intros i kv l' Ei El. destruct (Forall2_lookup_lr _ _ _ _ _ _ He Ei El) as (H1 & H2 & H3).
      split; [|done]. rewrite Hi, connect_entries by (by apply entry_not_connections). case_decide as E; [|done].
      destruct E as [-> Ek]. apply list_elem_of_lookup_2 in El.
      destruct Hor as [[Hs Hv]|(r & -> & Hz)].
      * specialize (H3 Hs). rewrite <-Hv in H3. by subst.
      * exfalso. destruct (Hk _ El) as [Hx|(z & r' & E & ?)]; [by apply link_text_server in Hx|].
        symmetry in E. revert E. apply link_text_fresh; lia.
    + constructor; [|constructor]. split_and!; [|done|].
      * rewrite Hi, connect_entries by (by apply entry_not_connections). by rewrite decide_True.
      * intros Hs. destruct Hor as [[_ Hv]|(r & -> & _)]; [done|]. by apply link_text_server in Hs.
  - apply Forall_app. split.
    + eapply Forall_impl; [|exact Hk]. intros l' [?|(z & r & -> & ?)]; [by left|]. right. exists z, r. split; [done|lia].
    + constructor; [|constructor]. destruct Hor as [[Hs _]|(r & -> & Hz)]; [by left|]. right. eexists _, r. split; [done|lia].
  - rewrite list.filter_app. destruct Hor as [[Hs _]|(r & -> & Hz)].
    + rewrite (filter_cons_False _ l []), filter_nil, app_nil_r by naive_solver. done.
    + rewrite (filter_cons_True _ _ []), filter_nil by apply link_text_server.
      apply list.NoDup_app. split_and!; [done| |apply NoDup_singleton].
      intros x [_ Hx]%list_elem_of_filter ->%list_elem_of_singleton. rewrite list.Forall_forall in Hk.
      destruct (Hk _ Hx) as [Hs|(z & r' & E & ?)]; [by apply link_text_server in Hs|].
      symmetry in E. revert E. apply link_text_fresh; lia.
Qed.

Lemma cstr_incl r : forall x, x ∈ cstr r -> x ∈ r.
Proof.
  induction r as [|c r IH]; intros x; cbn [cstr]; [done|]. case_decide; [by intros ?%elem_of_nil|].
  rewrite !elem_of_cons. intros [?|?]; auto.
Qed.

Lemma link_text_comma z r : 64 <= z < 256 -> ","%char ∉ r -> ","%char ∉ link_text z r.
Proof.
  intros Hz Hr. unfold link_text. rewrite !not_elem_of_cons. split_and!; [|done|].
  - intros E. apply (letter_inj 44) in E; lia.
  - intros Hx%cstr_incl. done.
Qed.

(** What an option may leave behind: its links, at most two letters on. *)
Definition after (exp : list (text * text)) (s : arguments) (ls : list text) (n : Z) (s' : arguments) : Prop :=
  wired exp s' ls /\ link_letter s' <= link_letter s + n.

Lemma after_quiet exp s ls n m s1 s2 :
  after exp s ls n s1 -> quiet m s1 s2 -> after exp s ls (n + m) s2.
Proof. intros [Hc Hl] Hq. split; [by eapply connected_quiet|]. destruct Hq. lia. Qed.

Lemma new_link_runs exp s ls name k v :
  wired exp s ls -> link_letter s < 255 -> ","%char ∉ (strchr ":"%char name).1 ->
  k ∈ [str "server"; str "driver"] ->
  runs True (fun s' => exists l, after (exp ++ [(k, v)]) s (ls ++ [l]) 1 s')
    (s ← new_connection s name; assign s (link_name s) k v).
Proof.
  intros Hc Hl Hn Hk. pose proof (c_good _ _ _ Hc) as [Hr Hcl]. pose proof (c_letter _ _ _ Hc).
  unfold new_connection. eapply runs_bind.
  - eapply runs_bind; [by apply link_to_spec|]. intros s1 H1. unfold ADD. rewrite assign_eq by (by destruct H1 as (? & -> & _)).
    instantiate (1 := fun s2 => exists s1 r, s1 = mkArgs (ini s) (u8 (link_letter s + 1)) r (srv s) (dbg s) (l2opts s) (filters s) (more_args s)
                       /\ r = (strchr ":"%char name).1 /\ s2 = set_ini s1 _).
    destruct H1 as (r & E & Er). cbn. eauto.
  - intros s2 (s1 & r & E1 & Er & E2).
    assert (link_letter s1 = link_letter s + 1) as El by (subst s1; cbn; apply u8_small; unfold is_u8; lia).
    assert (link_name s2 = link_name s1) as -> by (by subst s2).
    assert (link_name s1 = link_text (link_letter s1) r) as Ename
      by (rewrite link_name_text by lia; by subst s1).
    rewrite assign_eq by (by subst s2 s1). cbn. exists (link_name s1). split.
    + eapply connect_connected; try done.
      * split; cbn; [by subst s2 s1|]. by subst s2 s1.
      * subst s2. cbn. unfold connect. rewrite (f_equal ini E1). cbn. done.
      * subst s2. cbn. lia.
      * by rewrite Ename.
      * rewrite Ename. apply link_text_comma; [lia|]. by rewrite Er.
      * right. exists r. subst s2. cbn. split; [done|lia].
    + subst s2. cbn. lia.
Qed.

Lemma writes_after exp s0 s ls n m :
  after exp s0 ls n s -> writes s m ->
  runs True (fun s' => after exp s0 ls n s' /\ (exists d, s' = set_ini s d)) m.
Proof.
  intros Ha Hw. eapply runs_mono; [apply writes_quiet; [apply Ha|exact Hw]|]. intros s' [Hq Hd].
  split; [|done]. eapply after_quiet in Hq; [|exact Ha]. by rewrite Z.add_0_r in Hq.
Qed.

Lemma after_stack exp s0 s ls n sec :
  after exp s0 ls n s -> link_letter s0 + n < 255 -> runs True (after exp s0 ls (n + 1)) (stack s sec).
Proof.
  intros Ha Hl. eapply runs_mono.
  - apply stack_quiet; [apply Ha|]. destruct Ha as [Hc ?]. pose proof (c_letter _ _ _ Hc). lia.
  - intros s' [Hq _]. by eapply after_quiet.
Qed.

Lemma after_ro exp s0 ls n s : after exp s0 ls n s -> read_only (ini s) = false.
Proof. intros [[[? _]] _]. done. Qed.

Lemma opt_u_runs exp s ls c :
  wired exp s ls -> link_letter s + 2 <= 255 ->
  runs True (fun s' => exists l, after (exp ++ [(str "server", str "knxd_unix")]) s (ls ++ [l]) 2 s') (opt_u s c).
Proof.
  intros Hc Hl. unfold opt_u. eapply (runs_bind _ (fun _ => True)); [by unfold not_wanting; case_match|]. intros _ _.
  rewrite exec_assoc. eapply runs_bind; [apply new_link_runs; [done|lia|unreserved|unreserved]|].
  intros s1 (l & Ha). pose proof (after_ro _ _ _ _ _ Ha). eapply runs_bind.
  - eapply writes_after; [exact Ha|]. repeat write_step.
  - intros s2 [Ha2 _]. eapply runs_mono; [apply after_stack; [exact Ha2|lia]|]. intros s3 ?. by exists l.
Qed.

Lemma opt_i_runs exp s ls c :
  wired exp s ls -> link_letter s + 2 <= 255 ->
  runs True (fun s' => exists l, after (exp ++ [(str "server", str "knxd_tcp")]) s (ls ++ [l]) 2 s') (opt_i s c).
Proof.
  intros Hc Hl. unfold opt_i. eapply (runs_bind _ (fun _ => True)); [by unfold not_wanting; case_match|]. intros _ _.
  rewrite exec_assoc. eapply runs_bind; [apply new_link_runs; [done|lia|unreserved|unreserved]|].
  intros s1 (l & Ha). pose proof (after_ro _ _ _ _ _ Ha). cbv zeta. eapply runs_bind.
  - eapply writes_after; [exact Ha|]. repeat write_step.
  - intros s2 [Ha2 _]. eapply runs_mono; [apply after_stack; [exact Ha2|lia]|]. intros s3 ?. by exists l.
Qed.

(** The name of an argument without the mark of those that are required. *)
Definition bare (n : text) : text := match n with "!"%char :: n => n | n => n end.

Lemma strcmp_any_spec name l : strcmp_any name l = true <-> name ∈ map str l.
Proof. apply bool_decide_eq_true. Qed.

(** The names of the arguments of a driver. *)
Definition driver_names (name : text) : list string :=
  if strcmp_any name ["ip"%string] then ["multicast-address"; "port"; "interface"]%string
  else if strcmp_any name ["tpuarttcp"; "ft12tcp"; "ncn5120tcp"; "ft12cemitcp"]%string then ["!ip-address"; "!dest-port"]%string
  else if strcmp_any name ["usb"%string] then ["bus"; "device"; "config"; "interface"]%string
  else if strcmp_any name ["ipt"%string] then ["!ip-address"; "dest-port"; "src-port"]%string
  else if strcmp_any name ["iptn"%string] then ["!ip-address"; "dest-port"; "src-port"; "nat-ip"; "data-port"]%string
  else if strcmp_any name ["ft12"; "ncn5120"; "tpuarts"; "ft12cemi"]%string then ["!device"; "baudrate"]%string
  else [].

Lemma exec_bind_Done {A} (m : exec A) : m ≫= Done = m.
Proof. by destruct m. Qed.

(** All drivers go the same way. *)
Lemma driver_args_eq s name ap :
  driver_args s name ap =
  if decide (name ∈ known_drivers) then
    (s ← assign s (link_name s) (str "driver") (driver_of name);
     driver_argsv_loop s ap (map str (driver_names name)) false) ≫=
    (fun s => assign_if (strcmp_any name ["iptn"%string]) s (link_name s) "nat" "true")
  else Died "I don't know of options for it".
Proof.
  case_decide as Hk.
  - unfold known_drivers in Hk. cbn [map] in Hk. rewrite !elem_of_cons in Hk.
    destruct_or! Hk; try (by apply elem_of_nil in Hk); subst name;
      first [symmetry; apply exec_bind_Done | done].
  - unfold driver_args. unfold known_drivers in Hk. cbn [map] in Hk.
    repeat match goal with
    | |- context [strcmp_any name ?l] =>
        destruct (strcmp_any name l) eqn:E;
        [exfalso; apply Hk; apply strcmp_any_spec in E; cbn [map] in E; rewrite !elem_of_cons in *; tauto|clear E]
    end. done.
Qed.

(** The loop over the arguments keeps an invariant [I] of the configuration that each
    assignment of a piece of them keeps. *)
Lemma driver_loop_runs (C : Prop) (piece : text -> Prop) (I : IniData -> Prop) names : forall s ap seen,
  I (ini s) ->
  (forall d n a, I d -> n ∈ names -> piece a -> runs C (fun s' => exists d', s' = set_ini s d' /\ I d') (assign (set_ini s d) (link_name s) (bare n) a)) ->
  (forall a, ap = Some a -> piece a) ->
  (forall a, piece a -> piece (strchr ":"%char a).1 /\ (forall p, (strchr ":"%char a).2 = Some p -> piece p)) ->
  runs C (fun s' => exists d, s' = set_ini s d /\ I d) (driver_argsv_loop s ap names seen).
Proof.
  induction names as [|n names IH]; intros s ap seen HI Ha Hp Hpp; cbn [driver_argsv_loop].
  - destruct ap as [ap|].
    + destruct (strchr ":"%char ap) as [[|x a] [p2|]]; try done. cbn. exists (ini s). by destruct s.
    + destruct seen; cbn; exists (ini s); by destruct s.
  - destruct ap as [ap|].
    + destruct (strchr ":"%char ap) as [a p2] eqn:E. destruct (Hpp ap (Hp ap eq_refl)) as [H1 H2]. rewrite E in H1, H2.
      eapply runs_bind.
      * instantiate (1 := fun s' => exists d', s' = set_ini s d' /\ I d').
        destruct a as [|x a]; [cbn; exists (ini s); by destruct s|].
        specialize (Ha (ini s) n (x :: a) HI). change (match n with "!"%char :: n => n | _ => n end) with (bare n).
        replace (set_ini s (ini s)) with s in Ha by (by destruct s). apply Ha; [by left|done].
      * intros s1 (d & -> & Hd). eapply runs_mono.
        { apply (IH (set_ini s d)); [done| |exact H2|exact Hpp]. intros d' n' a' Hd' Hn' Ha'.
          apply (Ha d' n' a' Hd'); [by right|done]. }
        intros s' (d' & -> & Hd'). exists d'. done.
    + destruct seen; cbn; [|exists (ini s); by destruct s].
      destruct n as [|[[] [] [] [] [] [] [] []] ?]; cbn; try done; exists (ini s); by destruct s.
Qed.

Lemma driver_names_unreserved name : Forall (fun n => bare n ∉ reserved) (map str (driver_names name)).
Proof. apply (bool_decide_eq_true_1 _). unfold driver_names. repeat case_match; vm_compute; reflexivity. Qed.

Lemma known_comma name : name ∈ known_drivers -> ","%char ∉ name.
Proof.
  intros Hn. assert (Forall (fun n => ","%char ∉ n) known_drivers) as H by (by apply (bool_decide_eq_true_1 _)).
  rewrite list.Forall_forall in H. by apply H.
Qed.

Lemma opt_b_eq s a name ap :
  name ∈ known_drivers ->
  (s ← new_connection s a; s ← driver_args s name ap; stack s (link_name s)) =
  (s ← (s ← new_connection s a; assign s (link_name s) (str "driver") (driver_of name));
   s ← (s ← driver_argsv_loop s ap (map str (driver_names name)) false;
        assign_if (strcmp_any name ["iptn"%string]) s (link_name s) "nat" "true");
   stack s (link_name s)).
Proof.
  intros Hk. destruct (new_connection s a) as [s1| |]; [|done|done].
  change (Done s1 ≫= ?f) with (f s1). cbv beta. rewrite driver_args_eq, decide_True by done.
  by destruct (assign s1 _ _ _).
Qed.

Lemma unreserved_loop s ap name :
  read_only (ini s) = false ->
  runs True (fun s' => exists d, s' = set_ini s d /\ read_only d = false /\ same_reserved (ini s) d)
    (s ← driver_argsv_loop s ap (map str (driver_names name)) false;
     assign_if (strcmp_any name ["iptn"%string]) s (link_name s) "nat" "true").
Proof.
  intros Hr. eapply runs_bind.
  - apply (driver_loop_runs True (fun _ => True) (fun d => read_only d = false /\ same_reserved (ini s) d)); try done.
    intros d n a [Hd Hs] Hn _. pose proof (driver_names_unreserved name) as Hf. rewrite list.Forall_forall in Hf.
    destruct (writes_assign (set_ini s d) (link_name s) (bare n) a Hd (Hf n Hn)) as (d' & -> & Hd' & Hs').
    cbn. exists d'. split; [done|]. split; [done|]. intros sec k Hk. by rewrite (Hs' _ _ Hk), <-(Hs _ _ Hk).
  - intros s1 (d & -> & Hd & Hs). destruct (writes_if (strcmp_any name ["iptn"%string]) (set_ini s d) (link_name (set_ini s d)) "nat" "true" Hd)
      as (d' & -> & Hd' & Hs'); [unreserved|].
    cbn. exists d'. split; [done|]. split; [done|]. intros sec k Hk. by rewrite (Hs' _ _ Hk), <-(Hs _ _ Hk).
Qed.

Lemma opt_b_runs exp s ls c :
  wired exp s ls -> link_letter s + 2 <= 255 ->
  runs True (fun s' => exists l, after (exp ++ option_list (expected (mkOpt O_b (arg c) None))) s (ls ++ l) 2 s') (opt_b s c).
Proof.
  intros Hc Hl. unfold opt_b, expected. cbn [key arg]. eapply (runs_bind _ (fun _ => True)); [by unfold not_wanting; case_match|].
  intros _ _. destruct (arg c) as [a|]; [|done]. cbn [pointer].
  change (Done a ≫= ?f) with (f a). cbv beta.
  destruct (strchr ":"%char a) as [name ap] eqn:E. cbn [fst option_list].
  destruct (decide (name ∈ known_drivers)) as [Hk|Hk].
  - rewrite opt_b_eq by done. eapply runs_bind.
    { apply new_link_runs; [done|lia| |unreserved]. rewrite E. by apply known_comma. }
    intros s1 (l & Ha). eapply runs_bind; [apply unreserved_loop; by eapply after_ro|].
    intros s2 (d & -> & Hd & Hs). eapply runs_mono.
    + apply after_stack; [|shelve]. eapply (after_quiet _ _ _ _ 0); [exact Ha|]. destruct Ha as [[[? ?]] ?].
      split; [by split|done|cbn; lia].
    + intros s3 Ha3. exists [l]. exact Ha3.
    Unshelve. lia.
  - eapply (runs_bind _ (fun _ => True)); [by destruct (new_connection s a)|]. intros s1 _.
    by rewrite driver_args_eq, decide_False.
Qed.

Lemma quiet_srv s o : good s -> quiet 0 s (set_srv s o).
Proof. intros [? ?]. split; [by split|done|cbn; lia]. Qed.

Lemma server_options_quiet s sec a : good s -> runs True (quiet 0 s) (server_options s sec a).
Proof.
  intros Hg. pose proof Hg as [Hr Hc]. unfold server_options. cbv zeta.
  set (o := srv s).
  assert (writes s (s ← (s ← (s ← (s ← assign_if (bT o) s sec "tunnel" "tunnel";
    assign_if (bR o) s sec "router" "router");
    assign_if (bD o) s sec "discover" "true");
    assign_if (bOPT_SINGLE_PORT o) s sec "multi-port" "false");
    assign_if (bOPT_MULTI_PORT o) s sec "multi-port" "true")) as (d & E & Hd & Hs) by (repeat write_step).
  rewrite !exec_assoc.
  eapply runs_bind.
  - eapply (runs_bind _ (fun s1 => exists d, s1 = set_ini s d /\ read_only d = false /\ same_reserved (ini s) d)).
    + rewrite E. cbn. eauto.
    + intros s1 (d1 & -> & Hd1 & Hs1). instantiate (1 := fun s' => quiet 0 s s').
      destruct (bI o); [destruct a as [a|]; [|done]|].
      * change (pointer (Some a) ≫= ?f) with (f a). cbv beta.
        destruct (writes_assign (set_ini s d1) sec (str "interface") a Hd1) as (d2 & -> & Hd2 & Hs2); [unreserved|].
        split; [by split| |cbn; lia]. intros sec' k Hk. cbn. by rewrite (Hs2 _ _ Hk), <-(Hs1 _ _ Hk).
      * split; [by split|done|cbn; lia].
  - intros s1 Hq. cbn. eapply (quiet_trans 0 0); [exact Hq|]. apply quiet_srv, Hq.
Qed.

Lemma server_link_runs exp s ls l :
  wired exp s ls -> l ∈ servers ->
  runs True (after (exp ++ [server_entry l]) s (ls ++ [l]) 0)
    (s ← ADD s (str "main") (str "connections") l; assign s l (str "server") (server_entry l).2).
Proof.
  intros Hc Hl. pose proof (c_good _ _ _ Hc) as [Hr Hcl]. unfold ADD. rewrite assign_eq by done.
  change (Done ?x ≫= ?f) with (f x). cbv beta. rewrite assign_eq by done. split; [|cbn; lia].
  assert (l <> [] /\ ","%char ∉ l) as [H1 H2].
  { unfold servers in Hl. rewrite !elem_of_cons in Hl. destruct_or! Hl; [| |by apply elem_of_nil in Hl]; subst l; split; (done || unreserved). }
  apply (connect_connected exp s); [done|by split|done|cbn; lia|unreserved|done|done|]. by left.
Qed.

Lemma server_address_writes s sec a b : read_only (ini s) = false -> writes s (server_address s sec a b).
Proof. intros. unfold server_address. repeat write_step. Qed.

Lemma server_name_runs exp s0 s ls n sec debug prefix :
  after exp s0 ls n s -> link_letter s0 + n < 255 ->
  runs True (after exp s0 ls (n + 1)) (server_name s sec debug prefix).
Proof.
  intros Ha Hl. pose proof (after_ro _ _ _ _ _ Ha). unfold server_name. rewrite exec_assoc. eapply runs_bind.
  - eapply writes_after; [exact Ha|]. repeat write_step.
  - intros s1 [Ha1 _]. by apply after_stack.
Qed.

(** From the options of a server on. *)
Lemma server_rest_runs exp s0 s ls sec debug prefix a b :
  after exp s0 ls 0 s -> link_letter s0 < 255 ->
  runs True (after exp s0 ls 1)
    (s ← server_address (set_srv s (set_want (srv s) false)) sec a b; server_name s sec debug prefix).
Proof.
  intros Ha Hl. pose proof (after_ro _ _ _ _ _ Ha).
  assert (after exp s0 ls 0 (set_srv s (set_want (srv s) false))) as Ha1.
  { eapply (after_quiet _ _ _ 0 0); [exact Ha|]. apply quiet_srv, Ha. }
  eapply runs_bind; [eapply writes_after; [exact Ha1|]; by apply server_address_writes|].
  intros s2 [Ha2 _]. apply (server_name_runs _ _ _ _ 0); [done|lia].
Qed.

Lemma after_shift exp s s1 ls n s' : quiet 0 s s1 -> after exp s1 ls n s' -> after exp s ls n s'.
Proof. intros Hq [? ?]. split; [done|]. destruct Hq. lia. Qed.

Lemma opt_S_runs exp s ls c :
  wired exp s ls -> link_letter s + 2 <= 255 ->
  runs True (after (exp ++ [(str "server", str "ets_router")]) s (ls ++ [str "server"]) 1) (opt_S s c).
Proof.
  intros Hc Hl. unfold opt_S. cbv zeta. eapply runs_bind; [apply server_options_quiet, Hc|].
  intros s1 Hq. destruct (filters s1); [|done]. rewrite exec_assoc. eapply runs_bind.
  - apply (server_link_runs exp s1 ls (str "server")); [by eapply connected_quiet|unreserved].
  - intros s2 Ha. change (server_entry (str "server")) with (str "server", str "ets_router") in Ha.
    destruct (strchr _ _) as [a b]. eapply runs_mono; [apply server_rest_runs; [exact Ha|destruct Hq; lia]|].
    intros s3. by apply after_shift.
Qed.

Lemma opt_X_runs exp s ls c :
  wired exp s ls -> link_letter s + 2 <= 255 ->
  runs True (after (exp ++ [(str "server", str "ets_router6")]) s (ls ++ [str "server6"]) 1) (opt_X s c).
Proof.
  intros Hc Hl. unfold opt_X. cbv zeta. eapply runs_bind; [apply server_options_quiet, Hc|].
  intros s1 Hq. destruct (filters s1); [|done]. rewrite exec_assoc. eapply runs_bind.
  - apply (server_link_runs exp s1 ls (str "server6")); [by eapply connected_quiet|unreserved].
  - intros s2 Ha. change (server_entry (str "server6")) with (str "server", str "ets_router6") in Ha.
    pose proof (after_ro _ _ _ _ _ Ha). eapply runs_bind.
    { eapply writes_after; [exact Ha|]. apply writes_if; [done|unreserved]. }
    intros s3 [Ha3 _]. destruct (bracket_colon _) as [[a b]|]; [|done].
    eapply runs_mono; [apply server_rest_runs; [exact Ha3|destruct Hq; lia]|]. intros s4. by apply after_shift.
Qed.

(** An argument of [-A] that leaves the connections alone. *)
Definition unreserved_call (c : call) : bool :=
  match key c, arg c with
  | O_A, Some a => match arg_name a with Some k => negb (bool_decide (k ∈ reserved)) | None => true end
  | _, _ => true
  end.

(** An option that opens no connection. *)
Definition silent (s : arguments) (m : exec arguments) : Prop := runs True (quiet 2 s) m.

Lemma silent_keep s s' :
  good s -> ini s' = ini s -> more_args s' = more_args s -> link_letter s' = link_letter s -> silent s (Done s').
Proof. intros [? ?] E1 E2 E3. split; [split; congruence|intros ? ?; by rewrite E1|lia]. Qed.

Lemma silent_writes s m : good s -> writes s m -> silent s m.
Proof.
  intros Hg Hw. eapply runs_mono; [by apply writes_quiet|]. intros s' [Hq _]. by eapply quiet_weaken.
Qed.


Lemma opt_server_silent s sec f : good s -> 0 <= link_letter s < 255 -> silent s (opt_server s sec f).
Proof.
  intros Hg Hl. unfold opt_server. eapply runs_bind; [by apply stack_quiet|]. intros s1 [Hq _].
  eapply (quiet_weaken (1 + 0)); [|lia]. eapply quiet_trans; [exact Hq|]. apply quiet_srv, Hq.
Qed.

Lemma opt_c_silent s : good s -> 0 <= link_letter s < 254 -> silent s (opt_c s).
Proof.
  intros [Hr Hc] Hl. unfold opt_c. case_match; [done|]. eapply runs_bind; [by apply link_to_spec|].
  intros s1 (r & -> & _). set (s1 := mkArgs _ _ _ _ _ _ _ _).
  assert (link_letter s1 = link_letter s + 1) as El by (apply u8_small; unfold is_u8; lia).
  destruct (writes_assign s1 (str "main") (str "cache") (link_name s1) Hr) as (d & -> & Hd & Hs); [unreserved|].
  change (Done ?x ≫= ?f) with (f x). cbv beta.
  eapply runs_mono; [apply stack_quiet; [by split|cbn [link_letter set_ini]; lia]|].
  intros s2 [[Hg2 Hs2 Hl2] _]. cbn [link_letter set_ini] in Hl2. split; [done| |lia].
  intros sec k Hk. rewrite (Hs2 _ _ Hk). cbn. by rewrite (Hs _ _ Hk).
Qed.

Lemma opt_fini_silent h s : good s -> 0 <= link_letter s < 255 -> silent s (opt_fini h s).
Proof.
  intros Hg Hl. pose proof Hg as [Hr Hc]. unfold opt_fini. eapply (runs_bind _ (fun _ => True)); [by unfold not_wanting; case_match|]. intros _ _.
  eapply (runs_bind _ (quiet 2 s)).
  - destruct h; [|by apply silent_keep].
    destruct (writes_assign s (str "main") (str "systemd") (str "systemd") Hr) as (d & -> & Hd & Hs); [unreserved|].
    change (Done ?x ≫= ?f) with (f x). cbv beta. eapply runs_mono; [apply stack_quiet; [by split|done]|].
    intros s2 [[Hg2 Hs2 Hl2] _]. cbn [link_letter set_ini] in Hl2. split; [done| |lia].
    intros sec k Hk. rewrite (Hs2 _ _ Hk). cbn. by rewrite (Hs _ _ Hk).
  - intros s1 Hq. repeat case_match; done.
Qed.

Lemma parse_opt_silent h s c :
  good s -> 0 <= link_letter s < 254 -> unreserved_call c = true -> expected c = None -> silent s (parse_opt h s c).
Proof.
  intros Hg Hl Hu He. pose proof Hg as [Hr Hc]. unfold parse_opt, expected, unreserved_call in *. cbv zeta.
  destruct (key c); try done;
    try (by apply silent_keep); try (apply opt_server_silent; [done|lia]);
    try (apply silent_writes; [done|]; by repeat write_step).
  - (* n *) destruct (arg c) as [a|]; [|done]. change (pointer (Some a) ≫= ?f) with (f a). cbv beta.
    case_decide; [done|]. apply silent_writes; [done|]. repeat write_step.
  - (* t *) destruct (arg c) as [a|]; [|by apply silent_keep]. destruct (strtoul a) as [l []]; [|done]. by apply silent_keep.
  - (* e *) case_match; [done|]. eapply runs_bind; [apply stack_quiet; [done|lia]|]. intros s1 [Hq _].
    destruct (arg c) as [a|]; [|done]. change (pointer (Some a) ≫= ?f) with (f a). cbv beta.
    unfold args_readaddr. destruct (sscanf_ints _ _); [|done]. cbn [lift]. change (Done ?x ≫= ?f) with (f x). cbv beta.
    case_decide; [|done]. eapply runs_mono; [apply writes_quiet; [apply Hq|]; apply writes_assign; [apply Hq|unreserved]|].
    intros s2 [Hq2 _]. apply (quiet_weaken (1 + 0)); [by eapply quiet_trans|lia].
  - (* E *) destruct (arg c) as [a|]; [|done]. change (pointer (Some a) ≫= ?f) with (f a). cbv beta.
    unfold args_readaddrblock. destruct (sscanf_ints _ _); [|done]. cbn [lift]. change (Done ?x ≫= ?f) with (f x). cbv beta.
    case_decide; [|done]. apply silent_writes; [done|]. repeat write_step.
  - (* p *) destruct (arg c) as [a|]; [|done]. apply silent_writes; [done|]. apply writes_assign; [done|unreserved].
  - (* c *) by apply opt_c_silent.
  - (* ARG *) unfold opt_b. destruct (arg c); [done|]. unfold not_wanting. by case_match.
  - (* b *) unfold opt_b. destruct (arg c); [done|]. unfold not_wanting. by case_match.
  - (* B *) destruct (arg c) as [a|]; [|done]. eapply runs_mono; [apply do_filter_quiet; [done|lia]|].
    intros s1 Hq. by eapply quiet_weaken.
  - (* A *) destruct (arg c) as [a|]; [|done]. change (pointer (Some a) ≫= ?f) with (f a). cbv beta. apply runs_Done.
    split; [apply add_arg_good; [done|]|by rewrite add_arg_ini|rewrite add_arg_letter; lia].
    intros k Ek. rewrite Ek in Hu. by apply negb_true_iff, bool_decide_eq_false in Hu.
  - (* end *) apply opt_fini_silent; [done|lia].
Qed.

Lemma parse_opt_runs h exp s ls c :
  wired exp s ls -> link_letter s + 2 <= 255 -> unreserved_call c = true ->
  runs True (fun s' => exists l, after (exp ++ option_list (expected c)) s (ls ++ l) 2 s') (parse_opt h s c).
Proof.
  intros Hc Hl Hu. pose proof (c_letter _ _ _ Hc). destruct (expected c) as [kv|] eqn:E.
  2: { eapply runs_mono; [apply parse_opt_silent; [apply Hc|lia|done|done]|]. intros s' Hq. exists [].
       cbn [option_list]. rewrite !app_nil_r. split; [by eapply connected_quiet|apply Hq]. }
  cbn [option_list]. unfold parse_opt. cbv zeta. pose proof E as E'. unfold expected in E. destruct (key c) eqn:Ek; try done.
  - injection E as <-. eapply runs_mono; [by apply opt_X_runs|]. intros s' [? ?]. eexists. split; [done|lia].
  - injection E as <-. eapply runs_mono; [by apply opt_S_runs|]. intros s' [? ?]. eexists. split; [done|lia].
  - injection E as <-. eapply runs_mono; [by apply opt_u_runs|]. intros s' (l & ?). by exists [l].
  - injection E as <-. eapply runs_mono; [by apply opt_i_runs|]. intros s' (l & ?). by exists [l].
  - eapply runs_mono; [by apply opt_b_runs|]. intros s' (l & Ha). exists l.
    unfold expected in Ha at 1. cbn [key arg] in Ha. by rewrite E in Ha.
  - eapply runs_mono; [by apply opt_b_runs|]. intros s' (l & Ha). exists l.
    unfold expected in Ha at 1. cbn [key arg] in Ha. by rewrite E in Ha.
Qed.

Lemma omap_cons {A B} (f : A -> option B) x l : base.omap f (x :: l) = option_list (f x) ++ base.omap f l.
Proof. cbn. by destruct (f x). Qed.

Lemma parse_opts_runs h cs : forall exp s ls,
  wired exp s ls -> link_letter s + 2 * Z.of_nat (length cs) <= 255 ->
  Forall (fun c => unreserved_call c = true) cs ->
  runs True (fun s' => exists l, wired (exp ++ base.omap expected cs) s' l) (parse_opts h s cs).
Proof.
  induction cs as [|c cs IH]; intros exp s ls Hc Hl Hu; cbn [parse_opts length] in *.
  { cbn. exists ls. by rewrite app_nil_r. }
  apply Forall_cons_iff in Hu as [Hu Hus]. eapply runs_bind; [apply parse_opt_runs; [exact Hc|lia|done]|].
  intros s1 (l & Hc1 & Hl1). rewrite omap_cons, app_assoc. eapply IH; [exact Hc1|lia|done].
Qed.

Lemma connected_new : wired [] arguments_new [].
Proof. split; [split; [done|constructor]|done|done|constructor|constructor|constructor]. Qed.

(** The daemon connects what the command line says: the list of connections
    in the configuration has one name for each option that opens one, in the order of the
    command line; the section of that name has the server or the driver of the
    option; and no two links share a section, servers given twice apart.  This
    holds for every sequence of options that is accepted, of at most 95, in which
    [-A] does not set one of these entries itself. *)
Theorem args_connections (have_systemd : bool) (cs : list call) (s : arguments) :
  Forall (fun c => unreserved_call c = true) cs -> (length cs <= 95)%nat ->
  parse_opts have_systemd arguments_new cs = Done s ->
  let ls := comma_names [] (default [] (contents (ini s) (str "main") (str "connections"))) in
  Forall2 (fun kv l => contents (ini s) l kv.1 = Some kv.2) (base.omap expected cs) ls /\
  NoDup (filter (fun l => l ∉ servers) ls).
Proof.
  intros Hu Hn E. pose proof (parse_opts_runs have_systemd cs [] arguments_new [] connected_new) as H.
  rewrite E in H. destruct H as (l & Hc); [cbn; lia|done|]. cbv zeta. rewrite (c_names _ _ _ Hc). split; [|apply Hc].
  eapply Forall2_impl; [|apply Hc]. intros kv l' Hx. apply Hx.
Qed.

Definition with_arg (k : opt_key) (a : string) : call := mkOpt k (Some (str a)) None.
Definition without_arg (k : opt_key) : call := mkOpt k None None.

(** knxd -e 1.2.3 -A delay=30 -B pace -A retry-delay=5 -b ipt:10.1.2.3:3671 -D -T -S -b dummy -u *)
Definition sample_calls : list call :=
  [with_arg O_e "1.2.3"; with_arg O_A "delay=30"; with_arg O_B "pace"; with_arg O_A "retry-delay=5";
   with_arg O_b "ipt:10.1.2.3:3671"; without_arg O_D; without_arg O_T; without_arg O_S;
   with_arg O_b "dummy"; without_arg O_u].

Definition sample_args : arguments :=
  match parse_opts false arguments_new sample_calls with Done s => s | _ => arguments_new end.

Lemma args_connections_witness :
  let ls := [str "B.ipt"; str "server"; str "C.dummy"; str "D.unix"] in
  Forall2 (fun kv l => contents (ini sample_args) l kv.1 = Some kv.2)
    [(str "driver", str "ipt"); (str "server", str "ets_router"); (str "driver", str "dummy"); (str "server", str "knxd_unix")] ls /\
  NoDup (filter (fun l => l ∉ servers) ls).
Proof.
  apply (args_connections false sample_calls sample_args).
  - repeat constructor.
  - vm_compute. lia.
  - vm_compute. reflexivity.
Defined.
