(* ===== verification/ArgsRead.v ===== *)
(** * From the command line to the configuration of the daemon

    The program of [Args] writes a file that the daemon parses ([Ini]).  For command
    lines whose arguments contain no blank and no comment character, and that are short
    enough for the lines of the file, it ends with a message, or at one of two known null
    pointers, or what the daemon reads is what the program built ([args_read_back]).  The invariant
    bounds each entry by the characters that were given so far ([weight]); the filters
    that wait for their device are counted in advance ([pend]). *)

From Stdlib Require Import Ascii.
From stdpp Require Import pretty.
From S2P Require Import Prelude CArray Common Ini IniSpec Stack Args ArgsSpec.

Local Open Scope Z_scope.

(** ** Plain text *)

Definition plain_char (c : ascii) : bool :=
  negb (is_space c) && negb (bool_decide (c = nul)) && negb (bool_decide (c ∈ INI_INLINE_COMMENT_PREFIXES)).

Definition plain (s : text) : bool := forallb plain_char s.

(** The name of an entry. *)
Definition plain_name (k : text) : bool :=
  match k with c :: _ => negb (bool_decide (c = "["%char)) | [] => false end
  && plain k && negb (bool_decide ("="%char ∈ k)) && negb (bool_decide (":"%char ∈ k)).

(** The name of a section. *)
Definition plain_section (k : text) : bool :=
  plain k && negb (bool_decide ("]"%char ∈ k)) && bool_decide (length k < MAX_SECTION)%nat.

Lemma plain_app a b : plain (a ++ b) = plain a && plain b.
Proof. apply forallb_app. Qed.

Lemma plain_forall s : plain s = true <-> Forall (fun c => plain_char c = true) s.
Proof.
  unfold plain. rewrite forallb_forall, list.Forall_forall. setoid_rewrite list_elem_of_In. done.
Qed.

Lemma plain_incl a b : (forall x, x ∈ a -> x ∈ b) -> plain b = true -> plain a = true.
Proof. rewrite !plain_forall, !list.Forall_forall. eauto. Qed.

Lemma plain_elem c s : plain s = true -> c ∈ s -> plain_char c = true.
Proof. rewrite plain_forall, list.Forall_forall. eauto. Qed.

Lemma plain_char_spec c : plain_char c = true -> is_space c = false /\ c <> nul /\ c ∉ INI_INLINE_COMMENT_PREFIXES.
Proof.
  unfold plain_char. intros [[H1%negb_true_iff H2%negb_true_iff]%andb_true_iff H3%negb_true_iff]%andb_true_iff.
  apply bool_decide_eq_false in H2, H3. done.
Qed.

Lemma plain_printable s : plain s = true -> printable s = true.
Proof.
  intros Hp. unfold printable. apply forallb_forall. intros x Hx%list_elem_of_In%(plain_elem _ _ Hp).
  apply plain_char_spec in Hx as (Hs & Hn & _). rewrite (bool_decide_eq_false_2 (x = nul)) by done.
  rewrite bool_decide_eq_false_2; [done|]. by intros ->.
Qed.

Lemma plain_trimmed s : plain s = true -> trimmed_left s = true.
Proof.
  destruct s as [|c s]; [done|]. intros Hp. destruct (plain_char_spec c) as (E & _); [eapply plain_elem; [done|by left]|].
  unfold trimmed_left. by rewrite E.
Qed.

Lemma plain_rev s : plain s = true -> plain (rev s) = true.
Proof. apply plain_incl. intros x. by rewrite !list_elem_of_In, <-in_rev. Qed.

(** Nothing in a plain text is a comment. *)
Lemma plain_whole chars s ws : plain s = true -> (forall c, c ∈ s -> c ∉ chars) -> whole ws chars s = true.
Proof.
  revert ws. induction s as [|c s IH]; intros ws Hp Hc; [done|]. apply bool_decide_eq_true. cbn [find_chars_or_comment].
  assert (plain_char c = true) as (_ & _ & Hi)%plain_char_spec by (eapply plain_elem; [done|by left]).
  rewrite (bool_decide_eq_false_2 (c ∈ chars)) by (apply Hc; by left). rewrite (bool_decide_eq_false_2 (c ∈ INI_INLINE_COMMENT_PREFIXES)) by done.
  rewrite andb_false_r. cbn [orb]. cbn [plain forallb] in Hp. apply andb_true_iff in Hp as [_ Hp].
  rewrite (find_whole _ _ _ (IH _ Hp (fun c' H => Hc c' (list_elem_of_further _ _ _ H)))). done.
Qed.

Lemma plain_value_ok v : plain v = true -> value_ok v = true.
Proof.
  intros Hp. unfold value_ok, trimmed_right. rewrite plain_printable, plain_trimmed, plain_trimmed by (done || by apply plain_rev).
  rewrite plain_whole; [done|done|]. intros c _. apply not_elem_of_nil.
Qed.

Lemma plain_name_spec k :
  plain_name k = true -> plain k = true /\ k <> [] /\ ("="%char ∉ k) /\ (":"%char ∉ k) /\ name_ok k = true.
Proof.
  unfold plain_name. intros H. repeat (apply andb_true_iff in H as [H ?]).
  repeat match goal with H : negb _ = true |- _ => apply negb_true_iff, bool_decide_eq_false in H end.
  destruct k as [|c k]; [done|]. apply negb_true_iff, bool_decide_eq_false in H. split_and!; try done.
  assert (plain_char c = true) as (Hs & _ & Hi)%plain_char_spec by (eapply plain_elem; [done|by left]).
  unfold name_ok, trimmed_right. rewrite plain_printable, plain_trimmed, Hs by (done || by apply plain_rev).
  rewrite plain_whole; [|done|].
  - rewrite bool_decide_eq_false_2; [done|]. intros Hc. apply Hi. unfold INI_INLINE_COMMENT_PREFIXES.
    change (str ";#[") with [";"; "#"; "["]%char in Hc. change (str "#;") with ["#"; ";"]%char.
    rewrite !elem_of_cons in *. destruct_or! Hc; auto; done.
  - intros x Hx Hc. change (str "=:") with ["="; ":"]%char in Hc. rewrite !elem_of_cons in Hc.
    destruct_or! Hc; subst; try done. by apply elem_of_nil in Hc.
Qed.

Lemma plain_section_ok k : plain_section k = true -> section_name_ok k = true.
Proof.
  unfold plain_section, section_name_ok. intros [[Hp Hb%negb_true_iff]%andb_true_iff Hl]%andb_true_iff.
  rewrite plain_printable, Hl by done. rewrite plain_whole; [done|done|]. apply bool_decide_eq_false in Hb.
  intros c Hc Hx. change (str "]") with ["]"]%char in Hx. apply list_elem_of_singleton in Hx. by subst.
Qed.

Lemma strchr_incl c s x : x ∈ (strchr c s).1 -> x ∈ s.
Proof.
  induction s as [|y s IH]; cbn [strchr]; [done|]. case_decide; [by intros ?%elem_of_nil|].
  destruct (strchr c s) as [a b]. cbn in *. rewrite !elem_of_cons. intros [?|?]; auto.
Qed.

Lemma strchr_length c s : (length (strchr c s).1 <= length s)%nat.
Proof. induction s as [|y s IH]; cbn [strchr]; [done|]. case_decide; [cbn; lia|]. destruct (strchr c s). cbn in *. lia. Qed.

Lemma strchr_snd c s p : (strchr c s).2 = Some p -> exists a, s = a ++ c :: p.
Proof.
  induction s as [|y s IH]; cbn [strchr]; [done|]. case_decide as E.
  - intros [= <-]. subst. by exists [].
  - destruct (strchr c s) as [a [b|]]; cbn in *; [|done]. intros [= <-]. destruct IH as (a' & ->); [done|]. by exists (y :: a').
Qed.

Lemma strchr_prefix_length c s :
  match (strchr c s).2 with
  | Some p => (length (strchr c s).1 + length p < length s)%nat
  | None => True
  end.
Proof.
  induction s as [|y s IH]; cbn [strchr]; [done|]. case_decide; [cbn; lia|].
  destruct (strchr c s) as [a [p|]]; cbn in *; lia || done.
Qed.

Lemma strchr_plain c s :
  plain s = true -> plain (strchr c s).1 = true /\ (forall p, (strchr c s).2 = Some p -> plain p = true).
Proof.
  intros Hp. split; [eapply plain_incl; [|exact Hp]; apply strchr_incl|].
  intros p (a & ->)%strchr_snd. rewrite plain_app in Hp. by repeat (apply andb_true_iff in Hp as [? Hp]).
Qed.

Lemma take_incl {A} (x : A) n l : x ∈ take n l -> x ∈ l.
Proof. intros (i & Hi & _)%elem_of_take. by eapply list_elem_of_lookup_2. Qed.

(** ** Numbers *)

Lemma hexdigit_plain z : plain_char (lower_hexdigit (z mod 16)) = true.
Proof.
  assert (forallb (fun z => plain_char (lower_hexdigit z)) (below 16) = true) as H by reflexivity.
  rewrite forallb_forall in H. apply H. apply list_elem_of_In, elem_of_seqZ. pose proof (Z.mod_pos_bound z 16). lia.
Qed.

Lemma hex_plain n : forall z acc, plain acc = true -> plain (hex_from n z acc) = true.
Proof.
  induction n as [|n IH]; intros z acc Ha; cbn [hex_from]; [done|].
  assert (plain (lower_hexdigit (z mod 16) :: acc) = true) by (apply andb_true_iff; split; [apply hexdigit_plain|done]).
  case_decide; auto.
Qed.

Lemma pretty_plain x s : plain (str s) = true -> plain (str (pretty_N_go x s)) = true.
Proof.
  revert s. induction (N.lt_wf_0 x) as [x _ IH]. intros s Hs. destruct (decide (0 < x)%N) as [Hx|Hx].
  - rewrite pretty_N_go_step by done. apply IH; [by apply N.div_lt|]. cbn [str String.list_ascii_of_string plain forallb].
    fold (str s). fold (plain (str s)). rewrite Hs, andb_true_r. unfold pretty_N_char. repeat case_match; done.
  - assert (x = 0%N) as -> by lia. by rewrite pretty_N_go_0.
Qed.

Lemma str_app a b : str (a +:+ b) = str a ++ str b.
Proof. unfold str. induction a as [|c a IH]; [done|]. exact (f_equal (cons c) IH). Qed.

Lemma dec_plain z : plain (str (dec z)) = true.
Proof.
  assert (forall x : N, plain (str (pretty x)) = true) as HN.
  { intros x. unfold pretty, pretty_N. case_decide; [done|]. by apply pretty_plain. }
  unfold dec. unfold pretty at 1, pretty_Z. destruct z as [|p|p]; [done|apply HN|].
  rewrite str_app, plain_app. exact (HN (Npos p)).
Qed.

(** ** The configuration *)

(** An entry that fits into a line, when [P] characters are still to come. *)
Definition fits (P W : nat) (k v : text) : Prop := (length k + length v + P <= W + 60)%nat.

Definition entry_plain (P W : nat) (x : text * (text * bool)) : Prop :=
  plain_name x.1 = true /\ plain x.2.1 = true /\ fits P W x.1 x.2.1.

Record cfg_ok (P W : nat) (d : IniData) : Prop := {
  k_ro : read_only d = false;
  k_ordered : ordered (sections d);
  k_sections : Forall (fun e => plain_section e.1 = true /\ ordered e.2.1 /\ Forall (entry_plain P W) e.2.1) (sections d)
}.

Lemma cfg_ok_mono P W P' W' d : cfg_ok P W d -> (P' + W <= P + W')%nat -> cfg_ok P' W' d.
Proof.
  intros [H1 H2 H3] Hle. split; [done|done|]. eapply Forall_impl; [|exact H3]. intros e (? & ? & He). split_and!; try done.
  eapply Forall_impl; [|exact He]. intros x (? & ? & Hf). split_and!; try done. unfold fits in *. lia.
Qed.

Lemma section_of_ok P W d sec : cfg_ok P W d -> ordered (section_of d sec) /\ Forall (entry_plain P W) (section_of d sec).
Proof.
  intros [_ _ H]. unfold section_of. destruct (find sec (sections d)) as [[x b]|] eqn:E; [|split; constructor].
  apply find_some_in in E. rewrite list.Forall_forall in H. by destruct (H _ E) as (_ & ? & ?).
Qed.

Lemma put_section_ok P W x key v :
  ordered x -> Forall (entry_plain P W) x -> plain_name key = true -> plain v = true -> fits P W key v ->
  ordered (put_section x key v) /\ Forall (entry_plain P W) (put_section x key v).
Proof.
  intros Ho Hx Hk Hv Hf. unfold put_section. split; [by apply update_ordered, emplace_ordered|].
  apply update_forall; [|done]. apply emplace_forall; [|done]. split_and!; try done. unfold fits in *. cbn. lia.
Qed.

Lemma put_ok P W d sec key v :
  cfg_ok P W d -> plain_section sec = true -> plain_name key = true -> plain v = true -> fits P W key v ->
  cfg_ok P W (put_ini d sec key v).
Proof.
  intros Hd Hs Hk Hv Hf. pose proof Hd as [Hr Ho Hx]. unfold put_ini.
  assert (Forall (fun e => plain_section e.1 = true /\ ordered e.2.1 /\ Forall (entry_plain P W) e.2.1) (sections (ini_index d sec))) as Hi.
  { unfold ini_index. cbn [sections].
    assert (Forall (fun e => plain_section e.1 = true /\ ordered e.2.1 /\ Forall (entry_plain P W) e.2.1) (emplace sec new_section (sections d)).1) as He.
    { apply emplace_forall; [|done]. split_and!; [done|constructor|constructor]. }
    apply update_forall; [done|]. intros e Ee%find_some_in. rewrite list.Forall_forall in He. by apply (He _ Ee). }
  split; [done| |].
  - apply update_ordered. unfold ini_index. cbn [sections]. by apply update_ordered, emplace_ordered.
  - apply update_forall; [done|]. intros e _. cbn [fst snd]. split; [done|]. rewrite section_of_index.
    apply put_section_ok; try done; by apply (section_of_ok P W d sec).
Qed.

Lemma entry_value_ok P W d sec key :
  cfg_ok P W d ->
  entry_value d sec key = [] \/ (plain (entry_value d sec key) = true /\ fits P W key (entry_value d sec key)).
Proof.
  intros [_ H]%(section_of_ok _ _ _ sec). unfold entry_value. destruct (find key _) as [[v b]|] eqn:E; [|by left].
  right. apply find_some_in in E. rewrite list.Forall_forall in H. by destruct (H _ E) as (_ & ? & ?).
Qed.

(** What is written in the end can be read. *)
Lemma cfg_ok_data W d : cfg_ok 0 W d -> (W <= 236)%nat -> data_ok d.
Proof.
  intros [_ Ho H] HW. split; [done|]. eapply Forall_impl; [|exact H]. intros e (Hs & Hoe & He).
  split_and!; [by apply plain_section_ok|done|]. eapply Forall_impl; [|exact He]. intros x (Hn & Hv & Hf).
  apply plain_name_spec in Hn as (_ & _ & _ & _ & Hn). unfold entry_ok. rewrite Hn, plain_value_ok by done.
  apply bool_decide_eq_true. unfold entry_line, fits, INI_MAX_LINE in *. rewrite !length_app. cbn [length str String.list_ascii_of_string]. lia.
Qed.

(** ** The state *)

(** The characters that the pending filters will take. *)
Fixpoint pend (l : list text) : nat :=
  match l with [] => 0 | f :: l => S (length f) + pend l end.

Lemma pend_app l l' : pend (l ++ l') = (pend l + pend l')%nat.
Proof. induction l as [|f l IH]; cbn; [done|]. rewrite IH. lia. Qed.

Record sound (useI : bool) (L : Z) (W : nat) (s : arguments) : Prop := {
  s_letter : 64 <= link_letter s <= L;
  s_filters : Forall (fun f => plain f = true) (filters s);
  s_pend : (pend (filters s) <= W)%nat;
  s_more : Forall (fun e => plain_name e.1 = true /\ plain e.2 = true /\ fits (pend (filters s)) W e.1 e.2) (more_args s);
  s_cfg : cfg_ok (pend (filters s)) W (ini s);
  s_interface : bI (srv s) = useI
}.

Lemma sound_mono u L W L' W' s : sound u L W s -> L <= L' -> (W <= W')%nat -> sound u L' W' s.
Proof.
  intros [H1 H2 H3 H4 H5 H6] HL HW. split; [lia|done|lia| | |done].
  - eapply Forall_impl; [|exact H4]. intros e (? & ? & ?). split_and!; try done. unfold fits in *. lia.
  - eapply cfg_ok_mono; [exact H5|lia].
Qed.

Lemma sound_set_ini u L W s d : sound u L W s -> cfg_ok (pend (filters s)) W d -> sound u L W (set_ini s d).
Proof. intros [? ? ? ? ? ?] ?. by split. Qed.

(** The section of a link. *)
Definition link_ok (s : arguments) : Prop := plain_section (link_name s) = true.

Lemma letter_plain z : 64 <= z <= 92 -> plain_char (ascii_of_N (Z.to_N z)) = true /\ ascii_of_N (Z.to_N z) <> "]"%char.
Proof.
  intros Hz.
  assert (forallb (fun z => plain_char (ascii_of_N (Z.to_N z)) && negb (bool_decide (ascii_of_N (Z.to_N z) = "]"%char))) (seqZ 64 29) = true)
    as H by reflexivity.
  rewrite forallb_forall in H. specialize (H z). apply andb_true_iff in H as [? H%negb_true_iff%bool_decide_eq_false]; [done|].
  apply list_elem_of_In, elem_of_seqZ. lia.
Qed.

Lemma link_section s :
  64 <= link_letter s <= 92 -> plain (link_rest s) = true -> "]"%char ∉ link_rest s -> (length (link_rest s) <= 46)%nat ->
  link_ok s /\ plain (link_name s) = true /\ (length (link_name s) <= length (link_rest s) + 2)%nat.
Proof.
  intros Hl Hp Hb Hn. destruct (letter_plain _ Hl) as [Hc Hx]. unfold link_ok. rewrite link_name_text by lia. unfold link_text.
  rewrite cstr_whole by (intros H%(plain_elem _ _ Hp); done).
  assert (plain (ascii_of_N (Z.to_N (link_letter s)) :: "."%char :: link_rest s) = true) as Ha.
  { cbn [plain forallb]. rewrite Hc. cbn. exact Hp. }
  split_and!; [|done|cbn; lia]. unfold plain_section. rewrite Ha. rewrite bool_decide_eq_false_2, bool_decide_eq_true_2; [done| |].
  - cbn. unfold MAX_SECTION. lia.
  - rewrite !not_elem_of_cons. done.
Qed.

(** ** The parts of the program *)

(** A step that writes entries that fit. *)
Definition places (P W : nat) (s : arguments) (m : exec arguments) : Prop :=
  exists d, m = Done (set_ini s d) /\ cfg_ok P W d.

Lemma places_done P W s : cfg_ok P W (ini s) -> places P W s (Done s).
Proof. intros. exists (ini s). by destruct s. Qed.

Lemma places_assign P W s sec key v :
  cfg_ok P W (ini s) -> plain_section sec = true -> plain_name key = true -> plain v = true -> fits P W key v ->
  places P W s (assign s sec key v).
Proof. intros. rewrite assign_eq by apply (k_ro P W), H. eexists. split; [done|]. by apply put_ok. Qed.

Lemma places_bind P W s m (f : arguments -> exec arguments) :
  places P W s m -> (forall d, cfg_ok P W d -> places P W (set_ini s d) (f (set_ini s d))) -> places P W s (m ≫= f).
Proof. intros (d & -> & Hd) Hf. destruct (Hf d Hd) as (d' & E & Hd'). by exists d'. Qed.

Lemma places_if P W b s sec key v :
  cfg_ok P W (ini s) -> plain_section sec = true -> plain_name (str key) = true -> plain (str v) = true -> fits P W (str key) (str v) ->
  places P W s (assign_if b s sec key v).
Proof. intros. destruct b; [by apply places_assign|by apply places_done]. Qed.

Lemma places_ADD P W s sec key b :
  cfg_ok (S (length b) + P) W (ini s) -> plain_section sec = true -> plain_name key = true -> plain b = true ->
  fits P W key b -> places P W s (ADD s sec key b).
Proof.
  intros Hc Hs Hk Hb Hf. unfold ADD. apply places_assign; try done.
  - eapply cfg_ok_mono; [exact Hc|lia].
  - destruct (entry_value_ok _ _ _ sec key Hc) as [->|[Hp _]]; [done|].
    destruct (entry_value _ _ _); [done|]. rewrite plain_app, Hp. done.
  - destruct (entry_value_ok _ _ _ sec key Hc) as [->|[_ Hl]]; [done|].
    destruct (entry_value _ _ _); [done|]. unfold fits in *. rewrite length_app. cbn [length] in *. lia.
Qed.

Lemma places_add_all W sec key bs : forall P s,
  cfg_ok (pend bs + P) W (ini s) -> (pend bs + P <= W)%nat -> (length key <= 60)%nat ->
  plain_section sec = true -> plain_name key = true ->
  Forall (fun b => plain b = true) bs -> places P W s (add_all s sec key bs).
Proof.
  induction bs as [|b bs IH]; intros P s Hc HP Hlk Hs Hk Hb; cbn [add_all pend] in *; [by apply places_done|].
  apply Forall_cons_iff in Hb as [Hb Hbs].
  destruct (places_ADD (pend bs + P) W s sec key b) as (d & -> & Hd); try done.
  { eapply cfg_ok_mono; [exact Hc|lia]. }
  { unfold fits. lia. }
  destruct (IH P (set_ini s d)) as (d' & E & Hd'); try done; [lia|]. by exists d'.
Qed.

Lemma places_assign_all P W sec m : forall s,
  cfg_ok P W (ini s) -> plain_section sec = true ->
  Forall (fun e => plain_name e.1 = true /\ plain e.2 = true /\ fits P W e.1 e.2) m -> places P W s (assign_all s sec m).
Proof.
  induction m as [|[k v] m IH]; intros s Hc Hs Hm; cbn [assign_all]; [by apply places_done|].
  apply Forall_cons_iff in Hm as [(? & ? & ?) Hm]. apply places_bind; [by apply places_assign|]. intros d Hd. by apply IH.
Qed.

Ltac fit := unfold fits; rewrite ?length_app; cbn -[Nat.add Nat.mul]; lia.

Ltac place_step :=
  first [ apply places_done; cbn; assumption
        | apply places_bind; [|intros ? ?]
        | apply places_assign; [cbn; assumption|done|done|done|fit]
        | apply places_if; [cbn; assumption|done|done|done|fit]
        | case_match ].

Lemma places_sound u L W s m :
  sound u L W s -> places (pend (filters s)) W s m ->
  runs False (fun s' => sound u L W s' /\ exists d, s' = set_ini s d) m.
Proof. intros Hs (d & -> & Hd). cbn. split; [by apply sound_set_ini|by exists d]. Qed.

Lemma add_arg_value s a k :
  arg_name a = Some k ->
  exists v, add_arg s a = set_more_args s (emplace k v (more_args s)).1 /\ (length k + length v <= length a + 4)%nat /\
            (plain a = true -> plain v = true).
Proof.
  unfold arg_name, add_arg. destruct a as [|c r]; [done|]. destruct (strchr "="%char (c :: r)) as [k' [v|]] eqn:E.
  - intros [= ->]. exists v. split; [done|]. pose proof (f_equal fst E) as E1. pose proof (f_equal snd E) as E2.
    destruct (strchr_snd _ _ _ E2) as (a & Ea). split.
    + pose proof (strchr_prefix_length "="%char (c :: r)) as Hl. rewrite E in Hl. cbn [fst snd] in Hl. lia.
    + rewrite Ea, plain_app. cbn [plain forallb]. intros H. by repeat (apply andb_true_iff in H as [? H]).
  - case_decide; [destruct r; [done|]|]; intros [= <-]; eexists; (split; [done|]); cbn [length str String.list_ascii_of_string]; split; (lia || done).
Qed.

Lemma link_to_sound u L W s name :
  sound u L W s -> L < 92 -> plain name = true -> (length name < 97)%nat ->
  runs False (fun s' => sound u (L + 1) W s' /\ filters s' = filters s /\ more_args s' = more_args s /\ srv s' = srv s /\
                        l2opts s' = l2opts s /\ link_rest s' = (strchr ":"%char name).1 /\ 65 <= link_letter s' <= 92) (link_to s name).
Proof.
  intros [H1 H2 H3 H4 H5 H6] HL Hp Hn. unfold link_to. rewrite decide_True by done.
  assert (u8 (link_letter s + 1) = link_letter s + 1) as E by (apply u8_small; unfold is_u8; lia).
  apply runs_Done. rewrite E. split_and!; try done; [|cbn; lia..]. by split; cbn; try lia.
Qed.

Lemma do_filter_sound u L W W' s name :
  sound u L W s -> L < 92 -> plain name = true -> "]"%char ∉ (strchr ":"%char name).1 -> (length name <= 46)%nat ->
  (W + length name + 3 <= W')%nat ->
  runs False (fun s' => sound u (L + 1) W' s' /\ more_args s' = []) (do_filter s name).
Proof.
  intros Hs HL Hp Hb Hn HW. unfold do_filter. pose proof (s_pend _ _ _ _ Hs) as HP. destruct (more_args s) as [|e m] eqn:Em.
  - apply runs_Done. split; [|done]. destruct Hs as [H1 H2 H3 H4 H5 H6]. unfold push_filter_name.
    split; cbn [filters set_filters link_letter more_args ini srv]; [lia| | | | |done]; rewrite ?pend_app; cbn [pend].
    + apply Forall_app. by repeat constructor.
    + lia.
    + rewrite Em. constructor.
    + eapply cfg_ok_mono; [exact H5|lia].
  - eapply runs_bind; [apply link_to_sound; [done|done|done|lia]|].
    intros s1 (Hs1 & Hf1 & Hm1 & Hv1 & Hl1 & Hr1 & Hz1).
    destruct (link_section s1) as (Hok & Hpl & Hlen); [lia|rewrite Hr1; by apply strchr_plain|by rewrite Hr1|..].
    { rewrite Hr1. pose proof (strchr_length ":"%char name). lia. }
    assert (length (link_rest s1) <= length name)%nat by (rewrite Hr1; apply strchr_length).
    assert (places (pend (filters s) + length name + 3) W' s1
      (x ← assign_all s1 (link_name s1) (more_args s1); assign x (link_name x) (str "filter") name)) as (d & E & Hd).
    { destruct Hs1 as [_ _ _ H4 H5 _]. rewrite Hf1 in H4, H5.
      assert (cfg_ok (pend (filters s) + length name + 3) W' (ini s1)) by (eapply cfg_ok_mono; [exact H5|lia]).
      apply places_bind.
      - apply places_assign_all; [done|done|]. eapply Forall_impl; [|exact H4]. intros x (? & ? & ?).
        split_and!; try done. unfold fits in *. lia.
      - intros d Hd. apply places_assign; [done|done|done|done|]. unfold fits. cbn [length str String.list_ascii_of_string]. lia. }
    rewrite exec_assoc, E. apply runs_Done. split; [|done]. destruct Hs1 as [H1 H2 H3 H4 H5 H6].
    change (link_name (set_ini s1 d)) with (link_name s1).
    split; cbn [filters set_filters push_filter_name set_more_args set_ini link_letter more_args ini srv]; [lia| | |constructor| |done];
      rewrite ?pend_app; cbn [pend]; rewrite ?Hf1.
    + apply Forall_app. rewrite <-Hf1. by repeat constructor.
    + lia.
    + eapply cfg_ok_mono; [exact Hd|lia].
Qed.

Lemma stack_delay_sound u L W s :
  sound u L W s -> L < 92 -> runs False (sound u (L + 1) (W + 7)) (stack_delay s).
Proof.
  intros Hs HL. unfold stack_delay. case_match; [|apply runs_Done; eapply sound_mono; [exact Hs|lia|lia]].
  set (a := snprintf 15 _). destruct (add_arg_value s a (str "delay")) as (v & -> & Hlen & Hpv); [by apply delay_name|].
  eapply runs_mono; [apply (do_filter_sound u L W (W + 7))|].
  - destruct Hs as [H1 H2 H3 H4 H5 H6]. split; try done. apply emplace_forall; [|done]. split_and!; [done|apply Hpv|].
    + unfold a, snprintf. eapply plain_incl; [intros x; apply take_incl|]. rewrite plain_app, dec_plain. done.
    + assert (length a <= 14)%nat by (unfold a, snprintf; rewrite length_take; lia).
      cbn [set_more_args filters]. unfold fits. cbn [fst snd]. lia.
  - done.
  - done.
  - by apply (bool_decide_eq_true_1 _).
  - cbn. lia.
  - cbn [length str String.list_ascii_of_string]. lia.
  - by intros s' [? _].
Qed.

Lemma number_plain n : plain (snprintf 10 (str "0x" ++ hexx n)) = true.
Proof.
  unfold snprintf. eapply plain_incl; [intros x; apply take_incl|]. rewrite plain_app. unfold hexx.
  by rewrite hex_plain.
Qed.

Lemma debug_section_plain sec : plain_section sec = true -> plain_section (snprintf 50 (str "debug-" ++ sec)) = true.
Proof.
  unfold plain_section, snprintf. intros [[Hp Hb%negb_true_iff%bool_decide_eq_false]%andb_true_iff _]%andb_true_iff.
  rewrite (plain_incl _ (str "debug-" ++ sec)); [|intros x; apply take_incl|by rewrite plain_app, Hp].
  rewrite bool_decide_eq_false_2, bool_decide_eq_true_2; [done| |].
  - rewrite length_take. unfold MAX_SECTION. lia.
  - intros [Hx|Hx]%take_incl%elem_of_app; [|done]. by apply (bool_decide_eq_true_2 _) in Hx.
Qed.

Lemma plain_section_spec sec : plain_section sec = true -> plain sec = true /\ (length sec < 50)%nat.
Proof. unfold plain_section. intros [[Hp _]%andb_true_iff Hl%bool_decide_eq_true]%andb_true_iff. done. Qed.

Lemma places_debug W s sec : cfg_ok 0 W (ini s) -> plain_section sec = true -> places 0 W s (stack_debug s sec).
Proof.
  intros Hc Hs. unfold stack_debug. cbv zeta. case_match; [|by apply places_done].
  pose proof (debug_section_plain sec Hs) as Hd. destruct (plain_section_spec _ Hd) as [Hdp Hdl].
  repeat first [ apply places_bind; [|intros ? ?] | case_decide | apply places_done; assumption
    | apply places_assign; [assumption|assumption|done|first [assumption|apply number_plain]|unfold fits, snprintf; rewrite length_take; cbn [length str String.list_ascii_of_string]; lia]
    | apply places_if; [assumption|assumption|done|done|fit] ].
Qed.

Lemma stack_sound u L W s sec :
  sound u L W s -> L < 92 -> plain_section sec = true -> runs False (sound u (L + 1) (W + 7)) (stack s sec).
Proof.
  intros Hs HL Hsec. unfold stack. cbv zeta. eapply runs_bind; [by apply stack_delay_sound|]. intros s1 Hs1.
  destruct Hs1 as [H1 H2 H3 H4 H5 H6].
  destruct (places_add_all (W + 7) sec (str "filters") (filters s1) 0 s1) as (d1 & E1 & Hd1); try done.
  { by rewrite Nat.add_0_r. } { lia. } { cbn. lia. }
  assert (Forall (fun e => plain_name e.1 = true /\ plain e.2 = true /\ fits 0 (W + 7) e.1 e.2) (more_args s1)) as Hm.
  { eapply Forall_impl; [|exact H4]. intros e (? & ? & ?). split_and!; try done. unfold fits in *. lia. }
  rewrite E1. change (Done ?x ≫= ?f) with (f x). cbv beta.
  assert (places 0 (W + 7) (set_ini s1 d1) (
    s ← assign_if (nz (Z.land (flags (l2opts (set_ini s1 d1))) FLAG_B_TPUARTS_ACKGROUP)) (set_ini s1 d1) sec "ack-group" "true";
    s ← assign_if (nz (Z.land (flags (l2opts s)) FLAG_B_TPUARTS_ACKINDIVIDUAL)) s sec "ack-individual" "true";
    s ← assign_if (nz (Z.land (flags (l2opts s)) FLAG_B_TPUARTS_DISCH_RESET)) s sec "reset" "true";
    s ← assign_if (nz (Z.land (flags (l2opts s)) FLAG_B_NO_MONITOR)) s sec "monitor" "false";
    assign_all s sec (more_args s))) as (d & E & Hd).
  { repeat (apply places_bind; [apply places_if; [assumption|done|done|done|fit]|intros ? ?]). by apply places_assign_all. }
  rewrite !exec_assoc. rewrite !exec_assoc in E. rewrite E.
  destruct (places_debug (W + 7) (set_more_args (set_ini (set_ini s1 d1) d) []) sec Hd Hsec) as (d' & E' & Hd').
  change (runs False (sound u (L + 1) (W + 7))
    (s ← stack_debug (set_more_args (set_ini (set_ini s1 d1) d) []) sec; Done (reset s))).
  rewrite E'. apply runs_Done. split; cbn; try done; try constructor; lia.
Qed.

(** ** The options *)

Definition base_cost (k : opt_key) : nat :=
  match k with
  | O_S | O_X | O_u | O_i => 15
  | O_b | ARGP_KEY_ARG => 10
  | O_T | O_R | O_D | O_e | O_c | ARGP_KEY_FINI => 7
  | O_B => 3
  | _ => 0
  end.

Definition opt_length (o : option text) : nat := match o with Some t => length t | None => 0 end.

(** What an option adds to the longest line. *)
Definition cost (c : call) : nat := (opt_length (arg c) + opt_length (next c) + base_cost (key c))%nat.

(** The argument of [-X] with its bracket and port. *)
Definition address6 (c : call) : option (text * text) :=
  let a := default [] (OPT_ARG c (Some [])) in
  bracket_colon (match a with "["%char :: a' => a' | _ => a end).

(** A call with plain arguments that [argp] makes: with the argument the option
    requires; addresses have numbers that fit, names are not too long. *)
Definition call_plain (c : call) : bool :=
  match arg c with Some a => plain a | None => true end && match next c with Some a => plain a | None => true end &&
  match key c, arg c with
  | (O_n | O_p | O_e | O_E | O_b | ARGP_KEY_ARG | O_B | O_A), None => false
  | O_e, Some a => match sscanf_ints ["."; "."]%char (String.string_of_list_ascii a) with Ret _ => true | Fault _ => false end
  | O_E, Some a => match sscanf_ints ["."; "."; ":"]%char (String.string_of_list_ascii a) with Ret _ => true | Fault _ => false end
  | (O_b | ARGP_KEY_ARG), Some a => bool_decide (length a < 97)%nat
  | O_B, Some a => negb (bool_decide ("]"%char ∈ (strchr ":"%char a).1)) && bool_decide (length a <= 46)%nat
  | O_A, Some a => match arg_name a with Some k => plain_name k | None => true end
  | _, _ => true
  end.

(** Where the program uses a null pointer, [i] telling whether an interface given with [-I]
    waits for its server: at [-S] and [-X] without an argument in the same word if one
    does, and at [-X] without an address in brackets and a port. *)
Definition null_at (i : bool) (c : call) : bool :=
  match key c with
  | O_S => i && bool_decide (arg c = None)
  | O_X => i && bool_decide (arg c = None) || bool_decide (address6 c = None)
  | _ => false
  end.

Definition waits (i : bool) (c : call) : bool :=
  match key c with O_I => true | O_S | O_X => false | _ => i end.

Fixpoint null_in (i : bool) (cs : list call) : bool :=
  match cs with [] => false | c :: cs => null_at i c || null_in (waits i c) cs end.

Lemma OPT_ARG_ok c def a :
  call_plain c = true -> OPT_ARG c def = Some a ->
  def = Some a \/ (plain a = true /\ (length a <= opt_length (arg c) + opt_length (next c))%nat).
Proof.
  unfold call_plain, OPT_ARG. intros [[Ha Hn]%andb_true_iff _]%andb_true_iff.
  destruct (arg c) as [b|]; [intros [= <-]; right; split; [done|cbn; lia]|].
  destruct (next c) as [[|x b]|]; [by left| |by left]. case_decide; [by left|]. intros [= <-]. right. split; [done|cbn; lia].
Qed.

Lemma new_connection_sound u L W s name :
  sound u L W s -> L < 92 -> plain name = true -> (length name < 97)%nat ->
  runs False (fun s' => sound u (L + 1) (W + length name + 3) s' /\ filters s' = filters s /\
                ("]"%char ∉ (strchr ":"%char name).1 -> (length (strchr ":"%char name).1 <= 46)%nat -> link_ok s'))
    (new_connection s name).
Proof.
  intros Hs HL Hp Hn. unfold new_connection. eapply runs_bind; [by apply link_to_sound|].
  intros s1 (Hs1 & Hf1 & _ & _ & _ & Hr1 & Hz1). pose proof (strchr_length ":"%char name) as Hl.
  destruct (strchr_plain ":"%char name Hp) as [Hpr _].
  assert (plain (link_name s1) = true /\ (length (link_name s1) <= length name + 2)%nat) as [Hpl Hll].
  { rewrite link_name_text by lia. unfold link_text. rewrite Hr1. destruct (letter_plain (link_letter s1)) as [Hc _]; [lia|].
    rewrite cstr_whole by (intros H%(plain_elem _ _ Hpr); done). cbn [length plain forallb]. rewrite Hc. cbn. split; [exact Hpr|lia]. }
  pose proof (s_pend _ _ _ _ Hs1) as HP.
  destruct (places_ADD (pend (filters s1)) (W + length name + 3) s1 (str "main") (str "connections") (link_name s1)) as (d & -> & Hd); try done.
  - eapply cfg_ok_mono; [apply Hs1|lia].
  - unfold fits. cbn [length str String.list_ascii_of_string]. lia.
  - apply runs_Done. split_and!; [|done|].
    + apply sound_set_ini; [|done]. eapply sound_mono; [exact Hs1|lia|lia].
    + intros Hb Hx. apply link_section; cbn [set_ini link_rest link_letter]; rewrite ?Hr1; (lia || done).
Qed.

(** The entries of a new link, and its stack. *)
Lemma places_stack u L W s m :
  sound u L W s -> L < 92 -> link_ok s -> places (pend (filters s)) W s m ->
  runs False (sound u (L + 1) (W + 7)) (s ← m; stack s (link_name s)).
Proof.
  intros Hs HL Hok Hm. eapply runs_bind; [by eapply places_sound|]. intros s1 [Hs1 (d & ->)].
  by apply stack_sound.
Qed.

(** A value of the command line. *)
Lemma fits_arg P W W' k v n : (P <= W)%nat -> (W + n <= W')%nat -> (length v <= n)%nat -> (length k <= 60)%nat -> fits P W' k v.
Proof. unfold fits. lia. Qed.

(** A link with a fixed name, up to its stack. *)
Lemma new_link_sound u L W W' s name (g : arguments -> exec arguments) :
  sound u L W s -> L < 91 -> plain_section (str name) = true -> (length (str name) <= 5)%nat -> ":"%char ∉ str name ->
  (W + length (str name) + 10 <= W')%nat ->
  (forall s1, sound u (L + 1) (W' - 7) s1 -> (pend (filters s1) <= W)%nat -> link_ok s1 ->
     exists m, g s1 = (s ← m; stack s (link_name s)) /\ places (pend (filters s1)) (W' - 7) s1 m) ->
  runs False (sound u (L + 2) W') (s ← new_connection s (str name); g s).
Proof.
  intros Hs HL Hn Hlen Hcol HW Hg. destruct (plain_section_spec _ Hn) as [Hp _].
  eapply runs_bind; [apply (new_connection_sound u L W s (str name)); [done|lia|done|lia]|].
  intros s1 (Hs1 & Hfi & Hok).
  assert (strchr ":"%char (str name) = (str name, None)) as E.
  { clear -Hcol. induction (str name) as [|x l IH]; cbn [strchr]; [done|]. apply not_elem_of_cons in Hcol as [? ?].
    rewrite decide_False by done. by rewrite IH. }
  assert (link_ok s1) as Hl.
  { apply Hok; rewrite E; cbn [fst]; [|lia]. unfold plain_section in Hn.
    apply andb_true_iff in Hn as [[_ Hb%negb_true_iff]%andb_true_iff _]. by apply bool_decide_eq_false in Hb. }
  assert (sound u (L + 1) (W' - 7) s1) as Hs2 by (eapply sound_mono; [exact Hs1|lia|lia]).
  destruct (Hg s1 Hs2) as (m & -> & Hm); [rewrite Hfi; apply Hs|done|].
  replace (L + 2) with (L + 1 + 1) by lia. replace W' with (W' - 7 + 7)%nat by lia.
  by apply (places_stack u (L + 1) (W' - 7) s1 m); [|lia| |].
Qed.

Ltac place_const := apply places_assign; [assumption|assumption|done|done|fit].

Ltac place_text := apply places_assign; [assumption|assumption|done|assumption|].

Lemma opt_u_sound u L W s c :
  sound u L W s -> L < 91 -> call_plain c = true -> key c = O_u -> runs False (sound u (L + 2) (W + cost c)) (opt_u s c).
Proof.
  intros Hs HL Hc Hk. unfold opt_u, cost. rewrite Hk. cbn [base_cost].
  eapply (runs_bind _ (fun _ => True)); [by unfold not_wanting; case_match|]. intros _ _.
  apply (new_link_sound u L W); [done|done|done|cbn; lia|by apply (bool_decide_eq_true_1 _)|cbn [length str String.list_ascii_of_string]; lia|].
  intros s1 Hs1 HP Hok. rewrite exec_assoc. eexists. split; [reflexivity|]. pose proof (s_cfg _ _ _ _ Hs1).
  apply places_bind; [place_const|]. intros d Hd. destruct (OPT_ARG c None) as [a|] eqn:E; [|place_const].
  destruct (OPT_ARG_ok c None a Hc E) as [?|[Ha Hla]]; [done|].
  apply places_bind; [place_text; fit|]. intros d' Hd'. place_const.
Qed.

Lemma opt_i_sound u L W s c :
  sound u L W s -> L < 91 -> call_plain c = true -> key c = O_i -> runs False (sound u (L + 2) (W + cost c)) (opt_i s c).
Proof.
  intros Hs HL Hc Hk. unfold opt_i, cost. rewrite Hk. cbn [base_cost].
  eapply (runs_bind _ (fun _ => True)); [by unfold not_wanting; case_match|]. intros _ _.
  apply (new_link_sound u L W); [done|done|done|cbn; lia|by apply (bool_decide_eq_true_1 _)|cbn [length str String.list_ascii_of_string]; lia|].
  intros s1 Hs1 HP Hok. cbv zeta. rewrite exec_assoc. eexists. split; [reflexivity|]. pose proof (s_cfg _ _ _ _ Hs1).
  apply places_bind; [place_const|]. intros d Hd. case_match eqn:Eb; [|place_const].
  destruct (OPT_ARG c (Some [])) as [a|] eqn:E; [|done]. cbn [default] in *. apply andb_true_iff in Eb as [Ea _].
  destruct (OPT_ARG_ok c _ a Hc E) as [[= <-]|[Ha Hla]]; [done|].
  apply places_bind; [place_text; fit|]. intros d' Hd'. place_const.
Qed.

Lemma opt_c_sound u L W s :
  sound u L W s -> L < 91 -> runs False (sound u (L + 2) (W + 7)) (opt_c s).
Proof.
  intros Hs HL. unfold opt_c. case_match; [done|]. eapply runs_bind; [apply (link_to_sound u L W); [done|lia|done|cbn; lia]|].
  intros s1 (Hs1 & Hf1 & _ & _ & _ & Hr1 & Hz1).
  change ((strchr ":"%char (str "cache")).1) with (str "cache") in Hr1.
  destruct (link_section s1) as (Hok & Hpl & Hlen); [lia|by rewrite Hr1|rewrite Hr1; by apply (bool_decide_eq_true_1 _)|rewrite Hr1; cbn; lia|].
  rewrite Hr1 in Hlen. cbn [str String.list_ascii_of_string length] in Hlen.
  pose proof (s_pend _ _ _ _ Hs1). replace (L + 2) with (L + 1 + 1) by lia.
  apply (places_stack u (L + 1) W s1); [done|lia|done|]. apply places_assign; [apply Hs1|done|done|done|].
  unfold fits. cbn [length str String.list_ascii_of_string]. lia.
Qed.

Lemma known_plain name :
  name ∈ known_drivers -> plain_section name = true /\ (length name <= 11)%nat /\ plain (driver_of name) = true /\ (length (driver_of name) <= 11)%nat.
Proof.
  intros Hn.
  assert (forallb (fun n => plain_section n && bool_decide (length n <= 11)%nat && plain (driver_of n) && bool_decide (length (driver_of n) <= 11)%nat) known_drivers = true)
    as H by reflexivity.
  rewrite forallb_forall in H. specialize (H name (proj1 (list_elem_of_In _ _) Hn)).
  apply andb_true_iff in H as [[[H1 H2%bool_decide_eq_true]%andb_true_iff H3]%andb_true_iff H4%bool_decide_eq_true]. done.
Qed.

Lemma driver_names_plain name n :
  n ∈ map str (driver_names name) -> plain_name (bare n) = true /\ (length (bare n) <= 20)%nat.
Proof.
  assert (forallb (fun n => plain_name (bare n) && bool_decide (length (bare n) <= 20)%nat) (map str (driver_names name)) = true) as H
    by (unfold driver_names; repeat case_match; reflexivity).
  rewrite forallb_forall in H. intros Hn%list_elem_of_In%H. apply andb_true_iff in Hn as [? ?%bool_decide_eq_true]. done.
Qed.

Lemma driver_loop_sound P W W' s ap name n :
  cfg_ok P W' (ini s) -> (P <= W)%nat -> (W + n <= W')%nat -> link_ok s ->
  (forall a, ap = Some a -> plain a = true /\ (length a <= n)%nat) ->
  runs False (fun s' => exists d, s' = set_ini s d /\ cfg_ok P W' d)
    (s ← driver_argsv_loop s ap (map str (driver_names name)) false;
     assign_if (strcmp_any name ["iptn"%string]) s (link_name s) "nat" "true").
Proof.
  intros Hc HP HW Hok Hap. eapply runs_bind.
  - apply (driver_loop_runs False (fun a => plain a = true /\ (length a <= n)%nat) (cfg_ok P W')); [done| |done|].
    + intros d k a Hd [Hk Hlk]%driver_names_plain [Ha Hla].
      destruct (places_assign P W' (set_ini s d) (link_name s) (bare k) a) as (d' & -> & Hd'); try done; [unfold fits; lia|].
      cbn. by exists d'.
    + intros a [Ha Hla]. destruct (strchr_plain ":"%char a Ha) as [H1 H2]. pose proof (strchr_length ":"%char a).
      split; [split; [done|lia]|]. intros p Hp. split; [by apply H2|]. destruct (strchr_snd _ _ _ Hp) as (x & ->).
      rewrite length_app in Hla. cbn in Hla. lia.
  - intros s1 (d & -> & Hd). destruct (places_if P W' (strcmp_any name ["iptn"%string]) (set_ini s d) (link_name (set_ini s d)) "nat" "true")
      as (d' & -> & Hd'); try done; [fit|]. cbn. by exists d'.
Qed.

Lemma opt_b_sound u L W s c a :
  sound u L W s -> L < 91 -> arg c = Some a -> plain a = true -> (length a < 97)%nat ->
  runs False (sound u (L + 2) (W + length a + 10)) (opt_b s c).
Proof.
  intros Hs HL Ea Ha Hla. unfold opt_b. eapply (runs_bind _ (fun _ => True)); [by unfold not_wanting; case_match|]. intros _ _.
  rewrite Ea. change (pointer (Some a) ≫= ?f) with (f a). cbv beta.
  pose proof (new_connection_sound u L W s a Hs ltac:(lia) Ha Hla) as Hnc.
  destruct (strchr ":"%char a) as [name ap] eqn:E. cbn [fst] in Hnc. destruct (decide (name ∈ known_drivers)) as [Hk|Hk].
  - destruct (known_plain name Hk) as (Hn1 & Hn2 & Hn3 & Hn4).
    rewrite opt_b_eq by done.
    apply (runs_bind _ (fun s' => sound u (L + 1) (W + length a + 3) s' /\ filters s' = filters s /\ link_ok s')).
    { eapply runs_bind; [exact Hnc|]. intros s1 (Hs1 & Hf1 & Hok).
      assert (link_ok s1) as Hl.
      { apply Hok; [|lia]. unfold plain_section in Hn1. apply andb_true_iff in Hn1 as [[_ Hb%negb_true_iff]%andb_true_iff _].
        by apply bool_decide_eq_false in Hb. }
      destruct (places_assign (pend (filters s1)) (W + length a + 3) s1 (link_name s1) (str "driver") (driver_of name)) as (d & -> & Hd);
        [apply Hs1|done|done|done| |].
      { pose proof (s_pend _ _ _ _ Hs1). unfold fits. cbn [length str String.list_ascii_of_string]. lia. }
      apply runs_Done. split_and!; [by apply sound_set_ini|done|done]. }
    intros s2 (Hs2 & Hf2 & Hl2). eapply runs_bind.
    { apply (driver_loop_sound (pend (filters s2)) W (W + length a + 3) s2 ap name (length a)); [apply Hs2|rewrite Hf2; apply Hs|lia|done|].
      intros p Ep. destruct (strchr_plain ":"%char a Ha) as [_ H2]. rewrite E in H2. split; [by apply H2|].
      destruct (strchr_snd ":"%char a p) as (x & Ex); [by rewrite E|]. rewrite Ex, length_app. cbn. lia. }
    intros s3 (d & -> & Hd). replace (L + 2) with (L + 1 + 1) by lia. replace (W + length a + 10)%nat with (W + length a + 3 + 7)%nat by lia.
    apply stack_sound; [by apply sound_set_ini|lia|done].
  - eapply runs_bind; [exact Hnc|]. intros s1 _. by rewrite driver_args_eq, decide_False.
Qed.

Lemma sound_srv u u' L W s o : sound u L W s -> bI o = u' -> sound u' L W (set_srv s o).
Proof. intros [? ? ? ? ? ?] ?. by split. Qed.

Lemma server_options_sound u L W s sec a n :
  sound u L W s -> plain_section sec = true -> (u = true -> a <> None) ->
  (forall t, a = Some t -> plain t = true /\ (length t <= n)%nat) ->
  runs False (fun s' => sound false L (W + n) s' /\ filters s' = filters s) (server_options s sec a).
Proof.
  intros Hs Hsec Hu Ha. unfold server_options. cbv zeta. set (o := srv s).
  assert (sound u L (W + n) s) as Hs' by (eapply sound_mono; [exact Hs|done|lia]). pose proof (s_pend _ _ _ _ Hs) as HP.
  assert (places (pend (filters s)) (W + n) s (s ← (s ← (s ← (s ← assign_if (bT o) s sec "tunnel" "tunnel";
    assign_if (bR o) s sec "router" "router");
    assign_if (bD o) s sec "discover" "true");
    assign_if (bOPT_SINGLE_PORT o) s sec "multi-port" "false");
    assign_if (bOPT_MULTI_PORT o) s sec "multi-port" "true")) as (d & E & Hd).
  { pose proof (s_cfg _ _ _ _ Hs'). repeat first [apply places_bind; [|intros ? ?]|apply places_if; [assumption|assumption|done|done|fit]]. }
  rewrite !exec_assoc.
  apply (runs_bind _ (fun s' => exists d, s' = set_ini s d /\ cfg_ok (pend (filters s)) (W + n) d)).
  - rewrite E. change (Done ?x ≫= ?f) with (f x). cbv beta. destruct (bI o) eqn:Eb; [|apply runs_Done; by exists d].
    destruct a as [t|]; [|destruct Hu; [rewrite <-(s_interface _ _ _ _ Hs); exact Eb|done]]. destruct (Ha t eq_refl) as [Hp Hl].
    change (pointer (Some t) ≫= ?f) with (f t). cbv beta.
    destruct (places_assign (pend (filters s)) (W + n) (set_ini s d) sec (str "interface") t) as (d' & -> & Hd'); try done; [fit|].
    apply runs_Done. by exists d'.
  - intros s1 (d1 & -> & Hd1). apply runs_Done. split; [|done]. apply (sound_srv u); [by apply sound_set_ini|done].
Qed.

Lemma server_link_sound u L W s l v :
  sound u L W s -> plain_section l = true -> (length l <= 7)%nat -> plain (str v) = true -> (length (str v) <= 12)%nat ->
  runs False (fun s' => sound u L (W + 8) s' /\ exists d, s' = set_ini s d)
    (s ← ADD s (str "main") (str "connections") l; assign s l (str "server") (str v)).
Proof.
  intros Hs Hl Hll Hv Hlv. pose proof (s_pend _ _ _ _ Hs) as HP. destruct (plain_section_spec _ Hl) as [Hpl _].
  eapply runs_mono; [apply (places_sound u L (W + 8)); [eapply sound_mono; [exact Hs|done|lia]|]|done].
  apply places_bind.
  - apply places_ADD; [eapply cfg_ok_mono; [apply Hs|lia]|done|done|done|]. unfold fits. cbn [length str String.list_ascii_of_string]. lia.
  - intros d Hd. apply places_assign; [done|done|done|done|]. unfold fits. cbn [length str String.list_ascii_of_string] in *. lia.
Qed.

(** From the address of a server on. *)
Lemma server_rest_sound u L W s sec debug prefix a b n :
  sound u L W s -> L < 92 -> plain_section sec = true -> plain_section debug = true -> plain prefix = true ->
  (length prefix <= 10)%nat -> filters s = [] ->
  (n <= W)%nat -> plain a = true -> (length a <= n)%nat -> (forall p, b = Some p -> plain p = true /\ (length p <= n)%nat) ->
  runs False (sound u (L + 1) (W + 7))
    (s ← server_address (set_srv s (set_want (srv s) false)) sec a b; server_name s sec debug prefix).
Proof.
  intros Hs HL Hsec Hdb Hpx Hlx Hf HnW Ha Hla Hb.
  assert (sound u L W (set_srv s (set_want (srv s) false))) as Hs1.
  { apply (sound_srv u); [exact Hs|apply Hs]. }
  set (s1 := set_srv s _) in *. destruct (plain_section_spec _ Hdb) as [Hpd Hld].
  unfold server_name. rewrite !exec_assoc.
  assert (places (pend (filters s1)) W s1 (s ← server_address s1 sec a b;
    s ← assign s debug (str "name") (prefix ++ ":"%char :: servername); assign s sec (str "debug") debug)) as (d & E & Hd).
  { pose proof (s_cfg _ _ _ _ Hs1). assert (pend (filters s1) = 0)%nat as E0 by (cbn; by rewrite Hf). rewrite E0 in *.
    apply places_bind.
    - unfold server_address. apply places_bind.
      + destruct b as [p|]; [|by apply places_done]. destruct (Hb p eq_refl). case_decide; [|by apply places_done].
        place_text. unfold fits. cbn [length str String.list_ascii_of_string]. lia.
      + intros d1 Hd1. destruct a as [|x a]; [by apply places_done|]. place_text. unfold fits. cbn [length str String.list_ascii_of_string] in *. lia.
    - intros d1 Hd1. apply places_bind.
      + apply places_assign; [done|done|done|by rewrite plain_app, Hpx|]. unfold fits. rewrite length_app. cbn [length str String.list_ascii_of_string servername]. lia.
      + intros d2 Hd2. apply places_assign; [done|done|done|done|]. unfold fits. cbn [length str String.list_ascii_of_string]. lia. }
  rewrite !exec_assoc in E. rewrite E. change (Done ?x ≫= ?f) with (f x). cbv beta.
  apply stack_sound; [by apply sound_set_ini|done|done].
Qed.

Lemma call_plain_args c :
  call_plain c = true ->
  (forall t, arg c = Some t -> plain t = true /\ (length t <= opt_length (arg c) + opt_length (next c))%nat).
Proof.
  unfold call_plain. intros [[Ha _]%andb_true_iff _]%andb_true_iff t E. rewrite E in *. split; [done|cbn; lia].
Qed.

Lemma server_arg c :
  call_plain c = true ->
  exists t, OPT_ARG c (Some []) = Some t /\ plain t = true /\ (length t <= opt_length (arg c) + opt_length (next c))%nat.
Proof.
  intros Hc. destruct (OPT_ARG c (Some [])) as [t|] eqn:Et; [|unfold OPT_ARG in Et; by repeat case_match].
  exists t. split; [done|]. destruct (OPT_ARG_ok c _ t Hc Et) as [[= <-]|[? ?]]; [split; [done|cbn; lia]|done].
Qed.

Lemma opt_S_sound u L W s c :
  sound u L W s -> L < 92 -> call_plain c = true -> key c = O_S -> null_at u c = false ->
  runs False (sound false (L + 1) (W + cost c)) (opt_S s c).
Proof.
  intros Hs HL Hc Hk Hnull. unfold opt_S, cost. rewrite Hk. cbn [base_cost]. cbv zeta. set (n := (opt_length (arg c) + opt_length (next c))%nat).
  eapply runs_bind; [apply (server_options_sound u L W s (str "server") (arg c) n); [done|done| |by eapply call_plain_args]|].
  { intros ->. unfold null_at in Hnull. rewrite Hk in Hnull. by apply bool_decide_eq_false in Hnull. }
  intros s1 [Hs1 Hf1]. destruct (filters s1) eqn:Ef; [|done]. rewrite exec_assoc.
  eapply runs_bind; [apply (server_link_sound false L (W + n) s1 (str "server") "ets_router"); [done|done|cbn; lia|done|cbn; lia]|].
  intros s2 (Hs2 & d & ->). destruct (strchr ":"%char (default [] (OPT_ARG c (Some [])))) as [a b] eqn:E.
  replace (W + (n + 15))%nat with (W + n + 8 + 7)%nat by lia.
  destruct (server_arg c Hc) as (t & Et & Hp & Hl).
  rewrite Et in E. change (default [] (Some t)) with t in E. destruct (strchr_plain ":"%char t Hp) as [H1 H2].
  pose proof (strchr_length ":"%char t) as H3. rewrite E in H1, H2, H3. cbn [fst snd] in *.
  apply (server_rest_sound false L (W + n + 8) _ _ _ _ _ _ n); try done; [cbn; lia|lia|lia|].
  intros p ->. split; [by apply H2|]. destruct (strchr_snd ":"%char t p) as (x & Ex); [by rewrite E|].
  rewrite Ex, length_app in Hl. cbn in Hl. lia.
Qed.

Lemma bracket_colon_incl s a b : bracket_colon s = Some (a, b) -> s = a ++ "]"%char :: ":"%char :: b.
Proof.
  revert a. induction s as [|x s IH]; intros a; [done|]. cbn [bracket_colon]. destruct s as [|y r]; [done|].
  destruct (bool_decide (x = "]"%char) && bool_decide (y = ":"%char)) eqn:E.
  - apply andb_true_iff in E as [->%bool_decide_eq_true ->%bool_decide_eq_true]. intros [= <- <-]. done.
  - destruct (bracket_colon (y :: r)) as [[a' b']|]; [|done]. intros [= <- <-]. cbn. f_equal. by apply IH.
Qed.

Lemma opt_X_sound u L W s c :
  sound u L W s -> L < 92 -> call_plain c = true -> key c = O_X -> null_at u c = false ->
  runs False (sound false (L + 1) (W + cost c)) (opt_X s c).
Proof.
  intros Hs HL Hc Hk Hnull. unfold opt_X, cost. rewrite Hk. cbn [base_cost]. cbv zeta. set (n := (opt_length (arg c) + opt_length (next c))%nat).
  assert (address6 c <> None /\ (u = true -> arg c <> None)) as [Hx Hu].
  { unfold null_at in Hnull. rewrite Hk in Hnull. apply orb_false_iff in Hnull as [H1 H2%bool_decide_eq_false].
    split; [done|]. intros ->. by apply bool_decide_eq_false in H1. }
  eapply runs_bind; [apply (server_options_sound u L W s (str "server6") (arg c) n); [done|done|done|by eapply call_plain_args]|].
  intros s1 [Hs1 Hf1]. destruct (filters s1) eqn:Ef; [|done]. rewrite exec_assoc.
  eapply runs_bind; [apply (server_link_sound false L (W + n) s1 (str "server6") "ets_router6"); [done|done|cbn; lia|done|cbn; lia]|].
  intros s2 (Hs2 & d & ->). eapply runs_bind.
  { apply (places_sound false L (W + n + 8)); [exact Hs2|]. apply places_if; [apply Hs2|done|done|done|]. cbn [filters set_ini]. rewrite Ef. fit. }
  intros s3 (Hs3 & d3 & ->). change (bracket_colon _) with (address6 c). destruct (address6 c) as [[a b]|] eqn:E; [|done].
  replace (W + (n + 15))%nat with (W + n + 8 + 7)%nat by lia.
  destruct (server_arg c Hc) as (t & Et & Hp & Hl).
  unfold address6 in E. rewrite Et in E. change (default [] (Some t)) with t in E. cbv zeta in E.
  assert (exists t', match t with "["%char :: a' => a' | _ => t end = t' /\ plain t' = true /\ (length t' <= n)%nat) as (t' & Et' & Hp' & Hl').
  { eexists. split; [reflexivity|]. destruct t as [|x t]; [done|]. assert (plain t = true) by (cbn in Hp; by apply andb_true_iff in Hp as [_ ?]).
    cbn [length] in Hl. destruct x as [[] [] [] [] [] [] [] []]; (split; [done|cbn [length]; lia]). }
  rewrite Et' in E. apply bracket_colon_incl in E. subst t'. rewrite plain_app in Hp'. cbn [plain forallb] in Hp'.
  apply andb_true_iff in Hp' as [Hpa Hpb]. rewrite length_app in Hl'. cbn [length] in Hl'.
  apply (server_rest_sound false L (W + n + 8) _ _ _ _ _ _ n); try done; [cbn; lia|lia|lia|].
  intros p [= <-]. split; [done|lia].
Qed.

Lemma places_main u L W W' s key v n :
  sound u L W s -> plain_name key = true -> (length key <= 60)%nat -> plain v = true -> (length v <= n)%nat -> (W + n <= W')%nat ->
  runs False (sound u L W') (assign s (str "main") key v).
Proof.
  intros Hs Hk Hlk Hv Hlv HW. eapply runs_mono; [apply (places_sound u L W'); [eapply sound_mono; [exact Hs|done|lia]|]|by intros s' [? _]].
  apply places_assign; [eapply cfg_ok_mono; [apply Hs|lia]|done|done|done|]. eapply fits_arg; [apply Hs|exact HW|done|done].
Qed.

Lemma places_fixed u L W s key v :
  sound u L W s -> plain_name (str key) = true -> plain (str v) = true -> (length (str key) + length (str v) <= 60)%nat ->
  runs False (sound u L W) (assign s (str "main") (str key) (str v)).
Proof.
  intros Hs Hk Hv Hl. eapply runs_mono; [apply (places_sound u L W s); [done|]|by intros s' [? _]].
  apply places_assign; [apply Hs|done|done|done|]. pose proof (s_pend _ _ _ _ Hs). unfold fits. lia.
Qed.

Lemma opt_server_sound u L W s sec f :
  sound u L W s -> L < 92 -> plain_section (str sec) = true -> (forall o, bI (f o) = bI o) ->
  runs False (sound u (L + 2) (W + 7)) (opt_server s sec f).
Proof.
  intros Hs HL Hsec Hf. eapply runs_bind; [by apply stack_sound|]. intros s1 Hs1. apply runs_Done. apply (sound_srv u).
  - eapply sound_mono; [exact Hs1|lia|lia].
  - cbn. rewrite Hf. apply Hs1.
Qed.

Lemma sound_dbg u L W s o : sound u L W s -> sound u L W (set_dbg s o).
Proof. intros [? ? ? ? ? ?]. by split. Qed.

Lemma sound_l2opts u L W s o : sound u L W s -> sound u L W (set_l2opts s o).
Proof. intros [? ? ? ? ? ?]. by split. Qed.

Lemma opt_fini_sound u L W h s : sound u L W s -> L < 92 -> runs False (sound u (L + 2) (W + 7)) (opt_fini h s).
Proof.
  intros Hs HL. unfold opt_fini. eapply (runs_bind _ (fun _ => True)); [by unfold not_wanting; case_match|]. intros _ _.
  eapply (runs_bind _ (sound u (L + 2) (W + 7))); [|intros s1 ?; by repeat case_match].
  destruct h; [|apply runs_Done; eapply sound_mono; [exact Hs|lia|lia]].
  eapply runs_bind; [apply (places_sound u L W s); [done|]|].
  - pose proof (s_pend _ _ _ _ Hs). apply places_assign; [apply Hs|done|done|done|fit].
  - intros s1 [Hs1 _]. eapply runs_mono; [by apply stack_sound|]. intros s2 ?. eapply sound_mono; [done|lia|lia].
Qed.

Lemma add_arg_sound u L W s a :
  sound u L W s -> plain a = true -> (forall k, arg_name a = Some k -> plain_name k = true) -> sound u L (W + length a) (add_arg s a).
Proof.
  intros Hs Ha Hk. pose proof (s_pend _ _ _ _ Hs) as HP. pose proof (add_arg_spec s a) as Hn.
  apply (sound_mono u L W L (W + length a)) in Hs; [|lia|lia]. destruct (arg_name a) as [k|] eqn:E; [|by rewrite Hn].
  destruct (add_arg_value s a k E) as (v & -> & Hl & Hv). destruct Hs as [H1 H2 H3 H4 H5 H6].
  split; try done. apply emplace_forall; [|done]. split_and!; [by apply Hk|by apply Hv|]. unfold fits. cbn [set_more_args filters fst snd]. lia.
Qed.

(** A call that changes a setting only. *)
Lemma keep_sound u u' L W s s' n : sound u L W s -> sound u' L W s' -> runs False (sound u' (L + 2) (W + n)) (Done s').
Proof. intros _ Hs. apply runs_Done. eapply sound_mono; [exact Hs|lia|lia]. Qed.

Ltac later := intros ? ?; eapply sound_mono; [eassumption|lia|lia].

Lemma parse_opt_sound u L W h s c :
  sound u L W s -> L < 91 -> call_plain c = true -> null_at u c = false ->
  runs False (sound (waits u c) (L + 2) (W + cost c)) (parse_opt h s c).
Proof.
  intros Hs HL Hc Hnull. pose proof (call_plain_args c Hc) as Ha. pose proof (s_interface _ _ _ _ Hs) as HI. unfold parse_opt, waits. cbv zeta.
  pose proof Hc as Hk'. unfold call_plain in Hk'. apply andb_true_iff in Hk' as [_ Hk'].
  destruct (key c) eqn:Hk;
    try (eapply runs_mono; [apply opt_server_sound; [exact Hs|lia|done|done]|unfold cost; rewrite Hk; cbn [base_cost]; later]);
    try (apply (keep_sound u _ L W s); [done|]; first [exact Hs|by apply sound_dbg|by apply sound_l2opts|by apply (sound_srv u)]);
    try (eapply runs_mono; [apply places_fixed; [exact Hs|done|done|cbn; lia]|later]).
  - (* X *) eapply runs_mono; [apply (opt_X_sound u L W); [exact Hs|lia|done|done|done]|later].
  - (* S *) eapply runs_mono; [apply (opt_S_sound u L W); [exact Hs|lia|done|done|done]|later].
  - (* n *) destruct (arg c) as [a|] eqn:E; [|done]. change (pointer (Some a) ≫= ?f) with (f a). cbv beta. case_decide; [done|].
    destruct (Ha a eq_refl) as [Hp Hl]. set (a' := match a with "="%char :: a' => a' | _ => a end).
    assert (plain a' = true /\ (length a' <= length a)%nat) as [Hp' Hl'].
    { unfold a'. destruct a as [|x a]; [done|]. assert (plain a = true) by (cbn in Hp; by apply andb_true_iff in Hp as [_ ?]).
      destruct x as [[] [] [] [] [] [] [] []]; (split; [done|cbn [length]; lia]). }
    eapply runs_mono; [apply (places_main u L W (W + cost c) s _ _ (length a)); [done|done|cbn; lia|done|done|]|later].
    unfold cost. rewrite E. cbn [opt_length]. lia.
  - (* u *) by apply opt_u_sound.
  - (* i *) by apply opt_i_sound.
  - (* t *) destruct (arg c) as [a|]; [destruct (strtoul a) as [l []]; [|done]|]; (apply (keep_sound u _ L W s); [done|by apply sound_dbg]).
  - (* e *) destruct (nz (flags (l2opts s)) || nz (send_delay (l2opts s))); [done|]. eapply runs_bind; [apply (stack_sound u L W); [done|lia|done]|]. intros s1 Hs1.
    destruct (arg c) as [a|] eqn:E; [|done]. change (pointer (Some a) ≫= ?f) with (f a). cbv beta. unfold args_readaddr.
    destruct (sscanf_ints _ _); [|done]. cbn [lift]. change (Done ?x ≫= ?f) with (f x). cbv beta. case_decide; [|done].
    destruct (Ha a eq_refl) as [Hp Hl].
    eapply runs_mono; [apply (places_main u (L + 1) (W + 7) (W + cost c) s1 _ _ (length a)); [done|done|cbn; lia|done|done|]|later].
    unfold cost. rewrite E, Hk. cbn [opt_length base_cost]. lia.
  - (* E *) destruct (arg c) as [a|] eqn:E; [|done]. change (pointer (Some a) ≫= ?f) with (f a). cbv beta. unfold args_readaddrblock.
    destruct (sscanf_ints _ _); [|done]. cbn [lift]. change (Done ?x ≫= ?f) with (f x). cbv beta. case_decide; [|done].
    destruct (Ha a eq_refl) as [Hp Hl].
    eapply runs_mono; [apply (places_main u L W (W + cost c) s _ _ (length a)); [done|done|cbn; lia|done|done|]|later].
    unfold cost. rewrite E. cbn [opt_length]. lia.
  - (* p *) destruct (arg c) as [a|] eqn:E; [|done]. change (pointer (Some a) ≫= ?f) with (f a). cbv beta.
    destruct (Ha a eq_refl) as [Hp Hl].
    eapply runs_mono; [apply (places_main u L W (W + cost c) s _ _ (length a)); [done|done|cbn; lia|done|done|]|later].
    unfold cost. rewrite E. cbn [opt_length]. lia.
  - (* d *) eapply runs_bind; [apply places_fixed; [exact Hs|done|done|cbn; lia]|]. intros s1 Hs1. destruct (OPT_ARG c None) as [a|] eqn:E; [|by apply (keep_sound u _ L W s1)].
    destruct (OPT_ARG_ok c None a Hc E) as [?|[Hp Hl]]; [done|].
    eapply runs_mono; [apply (places_main u L W (W + cost c) s1 _ _ (length a)); [done|done|cbn; lia|done|done|]|later]. unfold cost. lia.
  - (* c *) eapply runs_mono; [by apply (opt_c_sound u L W)|unfold cost; rewrite Hk; cbn [base_cost]; later].
  - (* ARG *) destruct (arg c) as [a|] eqn:E; [|done]. apply bool_decide_eq_true in Hk'. destruct (Ha a eq_refl) as [Hp _].
    eapply runs_mono; [by apply (opt_b_sound u L W s c a)|unfold cost; rewrite Hk, E; cbn [base_cost opt_length]; later].
  - (* b *) destruct (arg c) as [a|] eqn:E; [|done]. apply bool_decide_eq_true in Hk'. destruct (Ha a eq_refl) as [Hp _].
    eapply runs_mono; [by apply (opt_b_sound u L W s c a)|unfold cost; rewrite Hk, E; cbn [base_cost opt_length]; later].
  - (* B *) destruct (arg c) as [a|] eqn:E; [|done]. destruct (Ha a eq_refl) as [Hp _].
    apply andb_true_iff in Hk' as [Hb%negb_true_iff%bool_decide_eq_false Hl%bool_decide_eq_true].
    change (pointer (Some a) ≫= ?f) with (f a). cbv beta.
    eapply runs_mono; [apply (do_filter_sound u L W (W + length a + 3)); [done|lia|done|done|done|lia]|].
    intros s1 [Hs1 _]. unfold cost. rewrite Hk, E. cbn [base_cost opt_length]. eapply sound_mono; [done|lia|lia].
  - (* A *) destruct (arg c) as [a|] eqn:E; [|done]. destruct (Ha a eq_refl) as [Hp _].
    change (pointer (Some a) ≫= ?f) with (f a). cbv beta. apply runs_Done.
    eapply sound_mono; [apply (add_arg_sound u L W s a); [done|done|]|lia|unfold cost; rewrite E; cbn [opt_length]; lia].
    intros k Ek. by rewrite Ek in Hk'.
  - (* end *) eapply runs_mono; [apply (opt_fini_sound u L W); [done|lia]|unfold cost; rewrite Hk; cbn [base_cost]; later].
Qed.

(** ** The command line *)

Fixpoint total (cs : list call) : nat := match cs with [] => 0 | c :: cs => cost c + total cs end.

(** The interface of [-I] without one for the server. *)
Lemma server_options_null L W s sec :
  sound true L W s -> plain_section sec = true -> server_options s sec None = Crashed NullPointer.
Proof.
  intros Hs Hsec. unfold server_options. cbv zeta. rewrite (s_interface _ _ _ _ Hs). set (o := srv s).
  pose proof (s_pend _ _ _ _ Hs) as HP.
  assert (places (pend (filters s)) W s (s ← (s ← (s ← (s ← assign_if (bT o) s sec "tunnel" "tunnel";
    assign_if (bR o) s sec "router" "router");
    assign_if (bD o) s sec "discover" "true");
    assign_if (bOPT_SINGLE_PORT o) s sec "multi-port" "false");
    assign_if (bOPT_MULTI_PORT o) s sec "multi-port" "true")) as (d & E & Hd).
  { pose proof (s_cfg _ _ _ _ Hs). repeat first [apply places_bind; [|intros ? ?]|apply places_if; [assumption|assumption|done|done|fit]]. }
  rewrite !exec_assoc. by rewrite E.
Qed.

Definition ends_null {A} (m : exec A) : Prop :=
  match m with Done _ => False | Died _ => True | Crashed f => f = NullPointer end.

Lemma ends_null_bind {A B} (m : exec A) (f : A -> exec B) : ends_null m -> ends_null (m ≫= f).
Proof. by destruct m. Qed.

Lemma runs_null {A B} P (m : exec A) (f : A -> exec B) :
  runs False P m -> (forall a, P a -> ends_null (f a)) -> ends_null (m ≫= f).
Proof. intros Hm Hf. destruct m; [by apply Hf|done|done]. Qed.

(** A call that uses a null pointer does not return. *)
Lemma parse_opt_null u L W h s c :
  sound u L W s -> L < 91 -> call_plain c = true -> null_at u c = true -> ends_null (parse_opt h s c).
Proof.
  intros Hs HL Hc Hnull. unfold parse_opt. cbv zeta. unfold null_at in Hnull. destruct (key c) eqn:Hk; try done.
  - destruct (u && bool_decide (arg c = None)) eqn:E; cbn [orb] in Hnull.
    + apply andb_true_iff in E as [-> E%bool_decide_eq_true]. unfold opt_X. cbv zeta. rewrite E.
      by rewrite (server_options_null L W s) by done.
    + apply bool_decide_eq_true in Hnull. unfold opt_X. cbv zeta.
      set (n := (opt_length (arg c) + opt_length (next c))%nat).
      eapply runs_null; [apply (server_options_sound u L W s (str "server6") (arg c) n); [done|done| |by eapply call_plain_args]|].
      { intros ->. by apply bool_decide_eq_false in E. }
      intros s1 [Hs1 Hf1]. destruct (filters s1) eqn:Ef; [|done]. rewrite exec_assoc.
      eapply runs_null; [apply (server_link_sound false L (W + n) s1 (str "server6") "ets_router6"); [done|done|cbn; lia|done|cbn; lia]|].
      intros s2 (Hs2 & d & ->). eapply runs_null.
      { apply (places_sound false L (W + n + 8)); [exact Hs2|]. apply places_if; [apply Hs2|done|done|done|]. cbn [filters set_ini]. rewrite Ef. fit. }
      intros s3 _. change (bracket_colon _) with (address6 c). by rewrite Hnull.
  - apply andb_true_iff in Hnull as [-> E%bool_decide_eq_true]. unfold opt_S. cbv zeta. rewrite E.
    by rewrite (server_options_null L W s) by done.
Qed.

Lemma parse_opts_sound h cs : forall u L W s,
  sound u L W s -> L + 2 * Z.of_nat (length cs) < 93 -> Forall (fun c => call_plain c = true) cs ->
  if null_in u cs then ends_null (parse_opts h s cs)
  else runs False (fun s' => exists u' L', sound u' L' (W + total cs) s') (parse_opts h s cs).
Proof.
  induction cs as [|c cs IH]; intros u L W s Hs HL Hc; cbn [parse_opts total length null_in] in *.
  { apply runs_Done. exists u, L. by rewrite Nat.add_0_r. }
  apply Forall_cons_iff in Hc as [Hc Hcs]. destruct (null_at u c) eqn:En; cbn [orb].
  { apply ends_null_bind. by apply (parse_opt_null u L W); [|lia|..]. }
  pose proof (parse_opt_sound u L W h s c Hs ltac:(lia) Hc En) as Hr.
  destruct (parse_opt h s c) as [s1|m|f]; [|by destruct (null_in _ cs)|done].
  specialize (IH (waits u c) (L + 2) _ s1 Hr ltac:(lia) Hcs). by rewrite Nat.add_assoc.
Qed.

Lemma sound_new : sound false 64 0 arguments_new.
Proof. split; cbn; try done; try constructor; try lia; try done. constructor. Qed.

Lemma find_map {V W} (g : V -> W) k (m : omap V) : find k (map (fun '(k, v) => (k, g v)) m) = g <$> find k m.
Proof. induction m as [|[k' v] m IH]; [done|]. cbn. by case_decide. Qed.

Lemma contents_unmark d ro s n : contents (mkData (unmark (sections d)) ro) s n = contents d s n.
Proof.
  unfold contents, section_of. cbn [sections].
  replace (unmark (sections d)) with (map (fun '(k, v) => (k, (unmark_section v.1, false))) (sections d))
    by (unfold unmark; apply map_ext; by intros [k [x b]]).
  rewrite (find_map (fun v : IniSection * bool => (unmark_section v.1, false))).
  destruct (find s (sections d)) as [[x b]|]; [|done]. cbn [fmap option_fmap option_map fst].
  replace (unmark_section x) with (map (fun '(k, v) => (k, (v.1, false))) x)
    by (unfold unmark_section; apply map_ext; by intros [k [y b']]).
  rewrite (find_map (fun v : text * bool => (v.1, false))). by destruct (find n x) as [[]|].
Qed.

Lemma parse_opts_app h cs cs' : forall s, parse_opts h s (cs ++ cs') = (s ← parse_opts h s cs; parse_opts h s cs').
Proof. induction cs as [|c cs IH]; intros s; [done|]. cbn. destruct (parse_opt h s c); [|done|done]. apply IH. Qed.

(** At the end no filter is pending. *)
Lemma fini_filters h s c s' : key c = ARGP_KEY_FINI -> parse_opts h s [c] = Done s' -> filters s' = [].
Proof.
  intros Hk. cbn [parse_opts]. unfold parse_opt. rewrite Hk. cbv zeta. unfold opt_fini.
  destruct (not_wanting s); [|done|done]. change (Done ?x ≫= ?f) with (f x). cbv beta.
  destruct (match h with true => _ | false => Done s end) as [s1| |]; [|done|done]. change (Done ?x ≫= ?f) with (f x). cbv beta.
  destruct (negb (bool_decide (filters s1 = [])) || negb (bool_decide (more_args s1 = []))) eqn:E; [done|].
  destruct (nz _ || nz _); [done|]. intros [= <-]. apply orb_false_iff in E as [E%negb_false_iff%bool_decide_eq_true _]. done.
Qed.

(** C13: from the command line to the daemon.  Take a command line of at most 13 options
    and about 230 characters whose arguments contain neither blanks nor comment
    characters, have the numbers and lengths the options ask for, and, with [-A], set none of the
    entries the program writes itself ([reserved]).  The program ends with an error message; or it uses a null
    pointer, and then the line has a [-X] without an address in brackets and a port, or a
    [-S] or [-X] without an argument after a [-I] that still waits for its server; or
    neither of these is in the line and it writes a file that the daemon reads without an
    error, and the configuration the daemon then has connects exactly what the command
    line says, in its order, each with its server or driver. *)
Theorem args_read_back (have_systemd : bool) (cs : list call) :
  Forall (fun c => call_plain c = true) cs -> Forall (fun c => unreserved_call c = true) cs ->
  (length cs <= 13)%nat -> (total cs <= 229)%nat ->
  match args_main have_systemd cs with
  | Done file =>
      null_in false cs = false /\
      exists d, ini_parse file ini_new = (0, d) /\
        Forall2 (fun kv l => contents d l kv.1 = Some kv.2) (base.omap expected cs)
          (comma_names [] (default [] (contents d (str "main") (str "connections"))))
  | Died _ => True
  | Crashed f => f = NullPointer /\ null_in false cs = true
  end.
Proof.
  intros Hok Hun Hlen Htot. unfold args_main. set (fini := mkOpt ARGP_KEY_FINI None None).
  assert (Forall (fun c => call_plain c = true) (cs ++ [fini])) as Hok' by (apply Forall_app; by repeat constructor).
  assert (Forall (fun c => unreserved_call c = true) (cs ++ [fini])) as Hun' by (apply Forall_app; by repeat constructor).
  assert (length (cs ++ [fini]) <= 14)%nat as Hlen' by (rewrite length_app; cbn; lia).
  assert (total (cs ++ [fini]) <= 236)%nat as Htot'.
  { clear -Htot. enough (total (cs ++ [fini]) = total cs + 7)%nat by lia. induction cs as [|c cs IH]; cbn in *; [done|lia]. }
  assert (forall i, null_in i (cs ++ [fini]) = null_in i cs) as Hni.
  { clear. induction cs as [|c cs IH]; intros i; [done|]. cbn [null_in app]. by rewrite IH. }
  pose proof (parse_opts_sound have_systemd (cs ++ [fini]) false 64 0 _ sound_new ltac:(lia) Hok') as Hs. rewrite Hni in Hs.
  pose proof (parse_opts_runs have_systemd (cs ++ [fini]) [] _ [] connected_new ltac:(cbn [link_letter arguments_new]; lia) Hun') as Hc.
  destruct (null_in false cs); [destruct (parse_opts have_systemd arguments_new (cs ++ [fini])); done|].
  destruct (parse_opts have_systemd arguments_new (cs ++ [fini])) as [s| |] eqn:E; [|done|done].
  destruct Hs as (u & L & Hs). destruct Hc as (ls & Hc). change (Done ?x ≫= ?f) with (f x). cbv beta. split; [done|].
  exists (mkData (unmark (sections (ini s))) true). split.
  - apply write_read_back. eapply cfg_ok_data; [eapply cfg_ok_mono; [apply Hs|]|exact Htot'].
    rewrite parse_opts_app in E. destruct (parse_opts have_systemd arguments_new cs) as [s1| |]; [|done|done].
    apply (fini_filters _ s1) in E as Hf; [|done]. rewrite Hf. cbn [pend]. lia.
  - rewrite contents_unmark, (c_names _ _ _ Hc).
    assert (base.omap expected (cs ++ [fini]) = base.omap expected cs) as Ho.
    { clear. induction cs as [|c cs IH]; [done|]. rewrite <-app_comm_cons, !omap_cons. by f_equal. }
    pose proof (c_entries _ _ _ Hc) as He. rewrite Ho in He. eapply Forall2_impl; [|exact He].
    intros kv l (H1 & _). by rewrite contents_unmark.
Qed.

Lemma args_read_back_witness :
  match args_main false sample_calls with
  | Done file =>
      null_in false sample_calls = false /\
      exists d, ini_parse file ini_new = (0, d) /\
        Forall2 (fun kv l => contents d l kv.1 = Some kv.2) (base.omap expected sample_calls)
          (comma_names [] (default [] (contents d (str "main") (str "connections"))))
  | Died _ => True
  | Crashed f => f = NullPointer /\ null_in false sample_calls = true
  end.
Proof.
  apply (args_read_back false sample_calls).
  - repeat constructor.
  - repeat constructor.
  - vm_compute. lia.
  - vm_compute. lia.
Defined.

(** ** Examples *)

Example sample_written :
  args_main false sample_calls =
  Done (concat (map (fun l => str l ++ [newline])
    ["[A.pace]"; "delay = 30"; "filter = pace";
     "[B.ipt]"; "dest-port = 3671"; "driver = ipt"; "filters = A.pace"; "ip-address = 10.1.2.3"; "retry-delay = 5";
     "[C.dummy]"; "driver = dummy";
     "[D.unix]"; "server = knxd_unix"; "systemd-ignore = true";
     "[debug-server]"; "name = mcast:knxd";
     "[main]"; "addr = 1.2.3"; "connections = B.ipt,server,C.dummy,D.unix";
     "[server]"; "debug = debug-server"; "discover = true"; "server = ets_router"; "tunnel = tunnel"]%string)).
Proof. by vm_compute. Qed.

(** The configuration that a command line leads to, with its error. *)
Definition daemon_ini (cs : list call) : option (Z * IniData) :=
  match args_main false cs with Done f => Some (ini_parse f ini_new) | _ => None end.

Definition daemon_value (cs : list call) (sec name : string) : option text :=
  d ← daemon_ini cs; contents d.2 (str sec) (str name).

(** A trace mask of eight digits loses its last one. *)
Example mask_cut :
  daemon_value [with_arg O_t "0x7fffffff"; with_arg O_b "dummy"] "debug-A.dummy" "trace-mask" = Some (str "0x7ffffff").
Proof. by vm_compute. Qed.

(** The interface of [-I] is replaced by the argument of [-S], and without one
    the program reads through a null pointer. *)
Example interface_lost :
  daemon_value [with_arg O_I "eth1"; with_arg O_S "224.0.23.12"] "server" "interface" = Some (str "224.0.23.12") /\
  args_main false [with_arg O_I "eth1"; without_arg O_S] = Crashed NullPointer.
Proof. split; by vm_compute. Qed.

(** [-X] without a port, as its default, is not survived. *)
Example address6_needs_port :
  args_main false [without_arg O_X] = Crashed NullPointer /\
  args_main false [with_arg O_X "ff12::4242"] = Crashed NullPointer.
Proof. split; by vm_compute. Qed.

(** A required argument that is missing altogether is not noticed; one of two is. *)
Example required_argument :
  daemon_value [with_arg O_b "ft12"] "A.ft12" "driver" = Some (str "ft12") /\
  args_main false [with_arg O_b "ft12tcp:10.1.2.3"] = Died "requires an argument".
Proof. split; by vm_compute. Qed.

(** An argument for the device goes to the filter that a delay adds. *)
Example argument_to_pace :
  let cs := [with_arg O_A "retry-delay=5"; with_arg OPT_BACK_SEND_DELAY "30"; with_arg O_b "dummy"] in
  daemon_value cs "A.dummy" "retry-delay" = None /\ daemon_value cs "B.pace" "retry-delay" = Some (str "5").
Proof. split; by vm_compute. Qed.

(** The letter of the 29th link is a bracket, which ends the name of its
    section. *)
Example bracket_link :
  match daemon_ini (replicate 29 (with_arg O_b "dummy")) with
  | Some (e, d) => bool_decide (find (str "].dummy") (sections d) = None) = true /\ bool_decide (find [] (sections d) = None) = false
  | None => False
  end.
Proof. vm_compute. split; reflexivity. Qed.
