(* ===== verification/ArgsDaemon.v ===== *)
(** * From the command line to a running router

    The programs put together on an example: the command line ([Args]), the file it
    is turned into, the parser ([Ini]), and the set up of the router with its
    links ([RouterSetup]). *)

From Stdlib Require Import Ascii.
From stdpp Require Import gmap.
From S2P Require Import Prelude CArray Common Ini IniSpec Trace Lpdu Link Router Stack RouterSetup RouterSetupSpec Args ArgsSpec ArgsRead.

(** knxd -e 1.1.1 -E 1.1.10:8 -B log -b dummy -u -b ipt *)
Definition daemon_calls : list call :=
  [with_arg O_e "1.1.1"; with_arg O_E "1.1.10:8"; with_arg O_B "log"; with_arg O_b "dummy"; without_arg O_u;
   with_arg O_b "ipt"].

(** The entries that servers and drivers read in their own [setup]. *)
Definition mark_all (names : list string) (sec : text) (d : IniData) : IniData :=
  fold_left (fun d n => mark sec (str n) d) names d.

Definition daemon_build : build BusDriver :=
  mkBuild knxd_known (knxd_checks 10 (fun _ => true)) knxd_assures
    (fun n => if decide (n = str "dummy" \/ n = str "ipt") then Some (mkBus ∅) else None)
    (fun n => if decide (n = str "knxd_unix") then Some (mkBus ∅) else None)
    (fun _ sec d => (mark_all ["path"; "systemd-ignore"]%string sec d, true)) (mkBus ∅) 10.

(** What the daemon that this command line starts consists of. *)
Definition daemon_result : option (list link_kind * Z * Z) :=
  match daemon_ini daemon_calls with
  | Some (0, d) =>
      match ('(s, low) ← router_new daemon_build d (str "main"); router_setup daemon_build s (str "main") low) with
      | Ret (s, true) => Some (map kind (links (s_rt s)), r_addr (s_rt s), client_addrs_len (pool (s_rt s)))
      | _ => None
      end
  | _ => None
  end.

Example daemon_set_up : daemon_result = Some ([K_LinkConnect; K_Server; K_LinkConnect], 0x1101, 8).
Proof. by vm_compute. Qed.
