(* ===== verification/NetServer.v ===== *)
(** * Servers for clients

    Models src/src/libserver/server.h and src/src/libserver/server.cpp
    ([class NetServer]: the clients a server has accepted), with its subclasses in
    src/src/libserver/inetserver.cpp, src/src/libserver/localserver.cpp and
    src/src/libserver/systemdserver.cpp, composed with the clients of [Client] and
    the client addresses of [Router].

    The servers share the router and its block of addresses.  A client is an
    object on the heap: servers refer to it by number, from the list of their
    connections and from the queue of those to clean up, and it is destroyed when
    the last of these references goes.  What the system calls of an operation
    return is an argument of it; what is called, in order, is its output. *)

From Stdlib Require Import Ascii.
From stdpp Require Import gmap.
From S2P Require Import Prelude CArray Common Lpdu Link Router Ini Stack RouterSetup GroupCache Client ClientSpec.

(** ** The state *)

(** The subclass, with its own members. *)
Inductive server_kind :=
| InetServer (port : Z)
| LocalServer (path : text)
| SystemdServer.

(** [sv_fd]: the descriptor, [None] for -1.  [sv_io] and [sv_cleanup]: the watchers
    are active.  [sv_cfg_ignore] is the entry [systemd-ignore] of the section. *)
Record NetServer := mkServer {
  sv_kind : server_kind;
  sv_cfg_ignore : text;
  sv_ignore : bool;
  sv_may_fail : bool;
  sv_fd : option Z;
  sv_io : bool;
  sv_cleanup : bool;
  sv_connections : list nat;
  sv_cleanup_q : list nat
}.

Definition with_fd (s : NetServer) (fd : option Z) : NetServer :=
  mkServer (sv_kind s) (sv_cfg_ignore s) (sv_ignore s) (sv_may_fail s) fd (sv_io s) (sv_cleanup s)
    (sv_connections s) (sv_cleanup_q s).
Definition with_watchers (s : NetServer) (b : bool) : NetServer :=
  mkServer (sv_kind s) (sv_cfg_ignore s) (sv_ignore s) (sv_may_fail s) (sv_fd s) b b
    (sv_connections s) (sv_cleanup_q s).
Definition with_refs (s : NetServer) (cs q : list nat) : NetServer :=
  mkServer (sv_kind s) (sv_cfg_ignore s) (sv_ignore s) (sv_may_fail s) (sv_fd s) (sv_io s) (sv_cleanup s) cs q.
Definition with_ignore (s : NetServer) (b : bool) : NetServer :=
  mkServer (sv_kind s) (sv_cfg_ignore s) b (sv_may_fail s) (sv_fd s) (sv_io s) (sv_cleanup s)
    (sv_connections s) (sv_cleanup_q s).
Definition with_may_fail (s : NetServer) : NetServer :=
  mkServer (sv_kind s) (sv_cfg_ignore s) (sv_ignore s) true (sv_fd s) (sv_io s) (sv_cleanup s)
    (sv_connections s) (sv_cleanup_q s).

(** The constructors: a socket is only there for [SystemdServer]. *)
Definition new_server (k : server_kind) (cfg : text) (ignore : bool) (fd : option Z) : NetServer :=
  mkServer k cfg ignore false fd false false [] [].

(** What is called: the descriptors that are opened and closed, the socket files
    that are removed, the link's [started] and [stopped], and the calls of a client. *)
Inductive server_output :=
| SO_socket (fd : Z)
| SO_close (fd : Z)
| SO_unlink (path : text)
| SO_listen (fd : Z)
| SO_started
| SO_stopped
| SO_client (k : nat) (o : client_output).

#[export] Instance server_output_eq_dec : EqDecision server_output.
Proof. solve_decision. Defined.

Section NetServer.
Context {D : Type} `{Driver D}.

(** The router, its group cache, the servers, and the clients on the heap with
    the number of their server.  [dm_next] is the number of the next client. *)
Record daemon := mkDaemon {
  dm_router : Router D;
  dm_cache : option GroupCache;
  dm_systemd : bool;
  dm_servers : list NetServer;
  dm_clients : gmap nat (nat * ClientConnection);
  dm_next : nat
}.

Definition set_router (d : daemon) (r : Router D) : daemon :=
  mkDaemon r (dm_cache d) (dm_systemd d) (dm_servers d) (dm_clients d) (dm_next d).
Definition set_server (d : daemon) (i : nat) (s : NetServer) : daemon :=
  mkDaemon (dm_router d) (dm_cache d) (dm_systemd d) (<[i := s]> (dm_servers d)) (dm_clients d) (dm_next d).
Definition set_client (d : daemon) (k i : nat) (c : ClientConnection) : daemon :=
  mkDaemon (dm_router d) (dm_cache d) (dm_systemd d) (dm_servers d) (<[k := (i, c)]> (dm_clients d)) (dm_next d).
Definition del_client (d : daemon) (k : nat) : daemon :=
  mkDaemon (dm_router d) (dm_cache d) (dm_systemd d) (dm_servers d) (delete k (dm_clients d)) (dm_next d).

(** Access through the pointer to a server or to a client. *)
Definition get_server (d : daemon) (i : nat) : outcome NetServer :=
  match dm_servers d !! i with Some s => Ret s | None => Fault NullPointer end.
Definition get_client (d : daemon) (k : nat) : outcome (nat * ClientConnection) :=
  match dm_clients d !! k with Some c => Ret c | None => Fault NullPointer end.

(** ** Clients of a server *)

(** [NetServer::deregister] *)
Definition deregister (d : daemon) (i k : nat) : outcome daemon :=
  s ← get_server d i;
  Ret (set_server d i (with_refs s (sv_connections s) (sv_cleanup_q s ++ [k]))).

(** The calls of a client [k] that change the daemon: it gives its address back
    to the router, and deregisters. *)
Fixpoint client_calls (d : daemon) (i k : nat) (o : list client_output) : outcome daemon :=
  match o with
  | [] => Ret d
  | CO_release_client_addr a :: o => r ← release_client_addr (dm_router d) a; client_calls (set_router d r) i k o
  | CO_deregister :: o => d ← deregister d i k; client_calls d i k o
  | _ :: o => client_calls d i k o
  end.

(** [ClientConnection::stop] on the heap. *)
Definition stop_client (d : daemon) (k : nat) : outcome (daemon * list server_output) :=
  '(i, c) ← get_client d k;
  '(c, o) ← client_stop c;
  d ← client_calls (set_client d k i c) i k o;
  Ret (d, map (SO_client k) o).

Fixpoint stop_clients (d : daemon) (ks : list nat) : outcome (daemon * list server_output) :=
  match ks with
  | [] => Ret (d, [])
  | k :: ks => '(d, o) ← stop_client d k; '(d, o') ← stop_clients d ks; Ret (d, o ++ o')
  end.

(** A reference to the client [k] is gone; with the last one, [~ClientConnection]
    is called, which asserts that the client was stopped. *)
Definition drop_ref (d : daemon) (i k : nat) : outcome daemon :=
  s ← get_server d i;
  if decide (k ∈ sv_connections s ++ sv_cleanup_q s) then Ret d
  else
    '(_, c) ← get_client d k;
    if decide (cl_addr c = 0) then
      if cl_fd c then Fault AssertFailed else Ret (del_client d k)
    else Fault AssertFailed.

(** The first occurrence is erased. *)
Fixpoint erase (k : nat) (l : list nat) : list nat :=
  match l with
  | [] => []
  | x :: l => if decide (x = k) then l else x :: erase k l
  end.

(** The loop of [NetServer::cleanup_cb], with [q] for the queue. *)
Fixpoint cleanup_loop (d : daemon) (i : nat) (q : list nat) : outcome daemon :=
  match q with
  | [] => Ret d
  | k :: q =>
      s ← get_server d i;
      d ← drop_ref (set_server d i (with_refs s (erase k (sv_connections s)) q)) i k;
      cleanup_loop d i q
  end.

Definition cleanup_cb (d : daemon) (i : nat) : outcome daemon :=
  s ← get_server d i; cleanup_loop d i (sv_cleanup_q s).

(** [cleanup_q.pop()] until it is empty. *)
Fixpoint pop_all (d : daemon) (i : nat) (q : list nat) : outcome daemon :=
  match q with
  | [] => Ret d
  | k :: q =>
      s ← get_server d i;
      d ← drop_ref (set_server d i (with_refs s (sv_connections s) q)) i k;
      pop_all d i q
  end.

(** The references of [connections.clear()] are dropped one by one. *)
Fixpoint drop_refs (d : daemon) (i : nat) (ks : list nat) : outcome daemon :=
  match ks with
  | [] => Ret d
  | k :: ks => d ← drop_ref d i k; drop_refs d i ks
  end.

(** ** Start and stop *)

(** [close (fd); fd = -1;] if there is a descriptor. *)
Definition close_fd (d : daemon) (i : nat) : outcome (daemon * list server_output) :=
  s ← get_server d i;
  match sv_fd s with
  | Some fd => Ret (set_server d i (with_fd s None), [SO_close fd])
  | None => Ret (d, [])
  end.

(** [NetServer::stop_] *)
Definition net_stop_ (d : daemon) (i : nat) : outcome (daemon * list server_output) :=
  s ← get_server d i;
  let d := set_server d i (with_watchers s false) in
  d ← pop_all d i (sv_cleanup_q s);
  '(d, o) ← stop_clients d (sv_connections s);
  s ← get_server d i;
  d ← drop_refs (set_server d i (with_refs s [] (sv_cleanup_q s))) i (sv_connections s);
  '(d, o') ← close_fd d i;
  Ret (d, o ++ o').

(** [NetServer::stop] *)
Definition net_stop (d : daemon) (i : nat) : outcome (daemon * list server_output) :=
  '(d, o) ← net_stop_ d i; Ret (d, o ++ [SO_stopped]).

(** [NetServer::start] *)
Definition net_start (d : daemon) (i : nat) : outcome (daemon * list server_output) :=
  s ← get_server d i;
  match sv_fd s with
  | None => Ret (d, [SO_stopped])
  | Some _ => Ret (set_server d i (with_watchers s true), [SO_started])
  end.

(** The [stop] of the subclasses.  A local server removes its socket file. *)
Definition inet_stop (d : daemon) (i : nat) : outcome (daemon * list server_output) :=
  '(d, o) ← close_fd d i; '(d, o') ← net_stop d i; Ret (d, o ++ o').

Definition local_stop (path : text) (d : daemon) (i : nat) : outcome (daemon * list server_output) :=
  '(d, o) ← close_fd d i;
  let u := match o, path with _ :: _, _ :: _ => [SO_unlink path] | _, _ => [] end in
  '(d, o') ← net_stop d i; Ret (d, o ++ u ++ o').

Definition net_server_stop (d : daemon) (i : nat) : outcome (daemon * list server_output) :=
  s ← get_server d i;
  match sv_kind s with
  | InetServer _ => inet_stop d i
  | LocalServer path => local_stop path d i
  | SystemdServer => net_stop d i
  end.

(** The destructors: that of a subclass closes the descriptor, then that of
    [NetServer] calls [stop_]. *)
Definition net_server_delete (d : daemon) (i : nat) : outcome (daemon * list server_output) :=
  s ← get_server d i;
  let o := match sv_fd s with
           | None => []
           | Some fd =>
               SO_close fd :: match sv_kind s with LocalServer (c :: path) => [SO_unlink (c :: path)] | _ => [] end
           end in
  '(d, o') ← net_stop_ d i; Ret (d, o ++ o').

(** What the system calls of a start return: a descriptor or -1, 0 or an error
    number. *)
Inductive sysret := Success | Error (errno : Z).
Definition EADDRINUSE : Z := 98.
Definition ECONNREFUSED : Z := 111.

Record start_env := mkStart {
  e_socket : option Z;
  e_bind : sysret;
  e_connect : sysret;
  e_bind2 : sysret;
  e_listen : sysret
}.

(** A start that is left to systemd. *)
Definition leave_to_systemd (d : daemon) (i : nat) (s : NetServer) : outcome (daemon * list server_output) :=
  Ret (set_server d i (with_may_fail s), [SO_stopped]).

(** [ex2]: the new socket is closed before the [stop] of the server. *)
Definition start_failed (stop : daemon -> nat -> outcome (daemon * list server_output))
    (d : daemon) (i : nat) (s : NetServer) (fd : Z) (u : list server_output) : outcome (daemon * list server_output) :=
  '(d, o) ← stop (set_server d i (with_fd s None)) i;
  Ret (d, SO_socket fd :: u ++ SO_close fd :: o).

(** [listen] and the rest of a start. *)
Definition start_listen (stop : daemon -> nat -> outcome (daemon * list server_output)) (e : start_env)
    (d : daemon) (i : nat) (s : NetServer) (fd : Z) (u : list server_output) : outcome (daemon * list server_output) :=
  match e_listen e with
  | Error _ => start_failed stop d i s fd u
  | Success =>
      '(d, o) ← net_start (set_server d i (with_fd s (Some fd))) i;
      Ret (d, SO_socket fd :: u ++ SO_listen fd :: o)
  end.

(** [InetServer::start] *)
Definition inet_start (e : start_env) (d : daemon) (i : nat) : outcome (daemon * list server_output) :=
  s ← get_server d i;
  if sv_ignore s && dm_systemd d then leave_to_systemd d i s
  else
    match e_socket e with
    | None => inet_stop (set_server d i (with_fd s None)) i
    | Some fd =>
        match e_bind e with
        | Error _ => start_failed inet_stop d i s fd []
        | Success => start_listen inet_stop e d i s fd []
        end
    end.

(** [LocalServer::start].  A file nobody listens on is removed.  Other errors of
    the first [bind] are not errors here. *)
Definition local_start (path : text) (e : start_env) (d : daemon) (i : nat) : outcome (daemon * list server_output) :=
  s ← get_server d i;
  if sv_ignore s && dm_systemd d then leave_to_systemd d i s
  else
    match e_socket e with
    | None => net_stop (set_server d i (with_fd s None)) i
    | Some fd =>
        match e_bind e with
        | Success => start_listen net_stop e d i s fd []
        | Error n =>
            if decide (n = EADDRINUSE) then
              match e_connect e with
              | Success => start_failed net_stop d i s fd []
              | Error m =>
                  if decide (m = ECONNREFUSED) then
                    match e_bind2 e with
                    | Error _ => start_failed net_stop d i s fd [SO_unlink path]
                    | Success => start_listen net_stop e d i s fd [SO_unlink path]
                    end
                  else start_failed net_stop d i s fd []
              end
            else start_listen net_stop e d i s fd []
        end
    end.

(** [SystemdServer::start]: the socket is there. *)
Definition systemd_start (e : start_env) (d : daemon) (i : nat) : outcome (daemon * list server_output) :=
  s ← get_server d i;
  match sv_fd s with
  | None => Ret (d, [SO_stopped])
  | Some fd =>
      match e_listen e with
      | Error _ => net_stop d i
      | Success => '(d, o) ← net_start d i; Ret (d, SO_listen fd :: o)
      end
  end.

Definition net_server_start (e : start_env) (d : daemon) (i : nat) : outcome (daemon * list server_output) :=
  s ← get_server d i;
  match sv_kind s with
  | InetServer _ => inet_start e d i
  | LocalServer path => local_start path e d i
  | SystemdServer => systemd_start e d i
  end.

(** ** New clients *)

(** [setupConnection]: the options of the socket for TCP, otherwise the entry
    [systemd-ignore] once more. *)
Definition setupConnection (s : NetServer) : NetServer :=
  match sv_kind s with
  | InetServer _ => s
  | _ => with_ignore s (bool_of (sv_cfg_ignore s) (sv_ignore s))
  end.

(** The constructor of [ClientConnection], for the descriptor of a connection. *)
Definition new_client (d : daemon) (i : nat) : outcome (daemon * nat) :=
  '(a, r) ← get_client_addr (dm_router d);
  let k := dm_next d in
  let c := mkClient true false a (Z.of_nat k) None false in
  Ret (mkDaemon r (dm_cache d) (dm_systemd d) (dm_servers d) (<[k := (i, c)]> (dm_clients d)) (S k), k).

(** [NetServer::io_cb]; [accepted]: [accept] gave a connection. *)
Definition io_cb (accepted : bool) (d : daemon) (i : nat) : outcome (daemon * list server_output) :=
  if accepted then
    s ← get_server d i;
    '(d, k) ← new_client (set_server d i (setupConnection s)) i;
    '(_, c) ← get_client d k;
    '(c, o) ← client_start c;
    d ← client_calls (set_client d k i c) i k o;
    s ← get_server d i;
    if cl_running c then Ret (set_server d i (with_refs s (sv_connections s ++ [k]) (sv_cleanup_q s)), map (SO_client k) o)
    else d ← drop_ref d i k; Ret (d, map (SO_client k) o)
  else Ret (d, []).

(** What happens to the client [k]: a message, a frame, a time-out, or an error of
    its connection. *)
Definition client_happens (d : daemon) (k : nat) (ev : client_event) : outcome (daemon * list server_output) :=
  '(i, c) ← get_client d k;
  '((c, g), o) ← client_step (c, dm_cache d) ev;
  let d := mkDaemon (dm_router d) g (dm_systemd d) (dm_servers d) (<[k := (i, c)]> (dm_clients d)) (dm_next d) in
  d ← client_calls d i k o;
  Ret (d, map (SO_client k) o).

End NetServer.
Arguments daemon : clear implicits.

(** ** Setting up *)

Section NetServerSetup.
Context {D : Type} `{Driver D} (b : build D).

(** [Router::hasClientAddrs] *)
Definition hasClientAddrs (r : Router D) : bool := bool_decide (0 < client_addrs_len (pool r)).

(** [NetServer::setup] *)
Definition net_setup (r : Router D) (w : world) (sec : text) : outcome (world * bool) :=
  if hasClientAddrs r then checkStack b w sec else Ret (w, false).

(** [InetServer::setup]: the server, or nothing.  The port is kept in 16 bits. *)
Definition inet_setup (r : Router D) (w : world) (sec : text) : outcome (world * option NetServer) :=
  '(w, ok) ← net_setup r w sec;
  match ok with
  | false => Ret (w, None)
  | true =>
      '(w, n) ← int_value b w sec "port" 6720;
      let port := u16 n in
      '(w, v) ← text_value b w sec "systemd-ignore" [];
      Ret (w, Some (new_server (InetServer port) v (bool_of v (bool_decide (port = 6720))) None))
  end.

(** [LocalServer::setup] *)
Definition local_setup (r : Router D) (w : world) (sec : text) : outcome (world * option NetServer) :=
  '(w, path) ← text_value b w sec "path" (str "/run/knx");
  '(w, v) ← text_value b w sec "systemd-ignore" [];
  '(w, ok) ← net_setup r w sec;
  Ret (w, match ok with
          | false => None
          | true => Some (new_server (LocalServer path) v (bool_of v (bool_decide (path = str "/run/knx"))) None)
          end).

End NetServerSetup.
