(* ===== verification/NetServerSpec.v ===== *)
(** * Servers for clients: theorems

    Which clients there are, who refers to them, and which addresses they hold,
    over everything that can happen to the servers and their clients. *)

From Stdlib Require Import Ascii.
From stdpp Require Import gmap relations.
From S2P Require Import Prelude CArray Common Lpdu Link Router RouterSpec Ini Stack RouterSetup EibTypes GroupCache Client ClientSpec NetServer.

(** ** Calls of a client *)

(** A call that neither gives the address back nor deregisters the client. *)
Definition internal (o : client_output) : Prop :=
  match o with CO_release_client_addr _ | CO_deregister | CO_close => False | _ => True end.

(** The members of a client that belong to its connection. *)
Definition same_conn (c c' : ClientConnection) : Prop :=
  cl_fd c' = cl_fd c /\ cl_running c' = cl_running c /\ cl_addr c' = cl_addr c.

Definition keeps (c c' : ClientConnection) (o : list client_output) : Prop := same_conn c c' /\ Forall internal o.

Lemma neutral_internal o : Forall neutral o -> Forall internal o.
Proof. intros Ho. eapply list.Forall_impl; [exact Ho|]. by intros [| | |[]| | | | | | |]. Qed.

Lemma keeps_neutral c c' o : same_conn c c' -> Forall neutral o -> keeps c c' o.
Proof. intros Hs Ho. split; [done|by apply neutral_internal]. Qed.

Lemma keeps_app c c1 c2 o o' : keeps c c1 o -> keeps c1 c2 o' -> keeps c c2 (o ++ o').
Proof.
  intros [(?&?&?) Ho] [(?&?&?) Ho']. split; [split_and!; congruence|]. by apply Forall_app.
Qed.

Lemma exit_conn_keeps c c' o : exit_conn c = Ret (c', o) -> keeps c c' o.
Proof.
  unfold exit_conn. destruct (a_conn c) as [a|]; intros E; [|by injection E as <- <-].
  ret_inv E. injection E as <- <-. split; [done|].
  assert (Forall neutral x) as Hx.
  { destruct a; cbn [A_delete] in Ex; try (injection Ex as <-; by constructor).
    ret_inv Ex. injection Ex as <-. apply Forall_app; split; by eapply A_Individual_neutral. }
  rewrite !Forall_app. split_and!; [| |by apply neutral_internal].
  - destruct a as [| | | | | |v ts tx []]; by repeat constructor.
  - destruct (cl_lc c); by repeat constructor.
Qed.

Lemma refuse_keeps c c' o : refuse c = Ret (c', o) -> keeps c c' o.
Proof.
  unfold refuse. intros E. apply bind_Ret_inv in E as ([c1 o1] & E1 & E). ret_inv E. injection E as <- <-.
  eapply keeps_app; [by apply exit_conn_keeps|]. apply keeps_neutral; [done|by eapply sendreject_neutral].
Qed.

Lemma keeps_set_conn c a lc c' o : keeps (set_conn c a lc) c' o -> keeps c c' o.
Proof. done. Qed.

Lemma new_socket_keeps e c t buf len c' o : new_socket e c t buf len = Ret (c', o) -> keeps c c' o.
Proof.
  unfold new_socket. destruct (decide _); [apply refuse_keeps|]. intros E. ret_inv E.
  destruct (negb _); [by eapply keeps_set_conn, refuse_keeps|]. ret_inv E.
  apply sendmessage_neutral in Ex2. destruct (env_register e).
  - injection E as <- <-. split; [done|]. apply Forall_app. split; [by apply neutral_internal|by repeat constructor].
  - apply bind_Ret_inv in E as ([c1 o1] & E1 & E). injection E as <- <-. apply refuse_keeps, keeps_set_conn in E1.
    destruct E1 as [Hs Ho]. split; [done|]. apply Forall_app. split; [by apply neutral_internal|by constructor].
Qed.

Lemma new_busmonitor_keeps e c v ts text buf len c' o :
  new_busmonitor e c v ts text buf len = Ret (c', o) -> keeps c c' o.
Proof.
  unfold new_busmonitor. intros E. apply bind_Ret_inv in E as ([ok o1] & E1 & E).
  assert (Forall internal o1) as Ho1.
  { apply neutral_internal. unfold busmonitor_setup in E1. destruct (decide _); ret_inv E1; injection E1 as <- <-.
    - by eapply sendreject_neutral.
    - by eapply sendmessage_neutral. }
  destruct ok.
  - injection E as <- <-. split; [done|]. apply Forall_app. split; [done|by repeat constructor].
  - apply bind_Ret_inv in E as ([c1 o2] & E2 & E). injection E as <- <-. apply refuse_keeps, keeps_set_conn in E2.
    destruct E2 as [Hs Ho]. split; [done|]. by apply Forall_app.
Qed.

Lemma client_message_keeps e c g buf len c' g' o :
  client_message e (c, g) buf len = Ret ((c', g'), o) -> keeps c c' o.
Proof.
  intros E. unfold client_message in E. apply bind_Ret_inv in E as (t & _ & E).
  destruct (a_conn c) as [a|] eqn:Ea.
  - destruct (decide _).
    + apply bind_Ret_inv in E as ([c1 o1] & E1 & E). ret_inv E. injection E as <- <- <-.
      eapply keeps_app; [by apply exit_conn_keeps|]. apply keeps_neutral; [done|by eapply sendreject_neutral].
    + apply bind_Ret_inv in E as ([[a' o1]|] & E1 & E).
      * injection E as <- <- <-. apply recv_Data_kind in E1 as [Ho _]. by apply keeps_neutral.
      * apply bind_Ret_inv in E as ([c1 o1] & E2 & E). injection E as <- <- <-. by apply exit_conn_keeps.
  - assert (forall o, Forall neutral o -> keeps c c o) as Hsame by (intros; by apply keeps_neutral).
    destruct (open_busmonitor t) as [[| | | | | |v ts text r]|] eqn:Eb;
      [unfold open_busmonitor in Eb; repeat case_decide; done..| |].
    + apply bind_Ret_inv in E as ([c1 o1] & E1 & E). injection E as <- <- <-. by eapply new_busmonitor_keeps.
    + destruct (open_socket e t 0 0 0) as [a0|].
      * apply bind_Ret_inv in E as ([c1 o1] & E1 & E). injection E as <- <- <-. by eapply new_socket_keeps.
      * destruct (is_cache_request t).
        -- apply bind_Ret_inv in E as ([g1 o1] & _ & E). ret_inv E. injection E as <- <- <-.
           apply Hsame. by eapply cache_answers_neutral.
        -- destruct (decide _); ret_inv E; injection E as <- <- <-; apply Hsame; by eapply sendreject_neutral.
Qed.

Lemma on_conn_keeps c g f c' g' o :
  (forall a a' o, f a = Ret (a', o) -> Forall neutral o) -> on_conn (c, g) f = Ret ((c', g'), o) -> keeps c c' o.
Proof.
  intros Hf E. unfold on_conn in E. destruct (a_conn c) as [a|].
  - apply bind_Ret_inv in E as ([a' o'] & E1 & E). injection E as <- <- <-. apply keeps_neutral; [done|eauto].
  - injection E as <- <- <-. by apply keeps_neutral.
Qed.

(** Only a stop changes the connection of a client. *)
Lemma client_step_keeps c g ev c' g' o :
  ev <> CL_stop -> client_step (c, g) ev = Ret ((c', g'), o) -> keeps c c' o.
Proof.
  intros Hev. destruct ev as [e buf len|l|p| |]; cbn [client_step]; intros E; [by eapply client_message_keeps|..|done].
  - eapply on_conn_keeps; [|exact E]. intros a a' o' E1. by apply send_L_Data_kind in E1 as [? _].
  - eapply on_conn_keeps; [|exact E]. cbv beta. intros a a' o' E1. ret_inv E1. injection E1 as <- <-.
    by eapply busmonitor_neutral.
  - eapply on_conn_keeps; [|exact E]. intros a a' o' E1.
    destruct a; cbn in E1; try (injection E1 as <- <-; constructor).
    apply bind_Ret_inv in E1 as ([c1 o1] & _ & E1). ret_inv E1. injection E1 as <- <-.
    eapply l4_outputs_neutral; [|done]. apply A_Individual_neutral.
Qed.

(** The calls of [client_stop]: the address is given back if there is one, and the
    client deregisters once. *)
Lemma client_stop_calls c :
  exists c' o, client_stop c = Ret (c', (if decide (cl_addr c <> 0) then [CO_release_client_addr (cl_addr c)] else [])
                                         ++ o ++ CO_deregister :: (if cl_fd c then [CO_close] else [])) /\
    Forall internal o /\ stopped_client c' /\ (cl_fd c = true -> cl_running c' = false) /\
    (cl_fd c = false -> cl_running c' = cl_running c).
Proof.
  destruct (client_stop_post c) as (c' & o & E & Hs & _). exists c'. rewrite E.
  unfold client_stop in E. cbv zeta in E. apply bind_Ret_inv in E as ([c1 o2] & E1 & E).
  apply exit_conn_keeps in E1 as [(Hf & Hr & _) Ho]. cbn in Hf, Hr. exists o2.
  rewrite Hf in E. destruct (cl_fd c); injection E as <- <-; by split_and!.
Qed.

Section NetServerSpec.
Context {D : Type} `{Driver D} {HQ : QuietDriver D}.

Local Abbreviation router := (Router D).
Local Abbreviation dmn := (daemon D).

(** ** The addresses *)

(** The block of the router is used by the clients, [f] giving the address of
    each or 0, and by others (the connections of the EIBnet/IP server). *)
Record pool_ok (r : router) (f : nat -> Z) (others : list Z) : Prop := mkPoolOk {
  pool_ok_wf : pool_wf (pool r);
  pool_ok_client : forall k, f k <> 0 -> client_addrs_start (pool r) <= f k /\ taken r (f k) /\ f k ∉ others;
  pool_ok_inj : forall k k', f k <> 0 -> f k = f k' -> k = k';
  pool_ok_other : forall a, a ∈ others -> client_addrs_start (pool r) <= a /\ taken r a;
  pool_ok_nodup : NoDup others;
  pool_ok_taken : forall a, client_addrs_start (pool r) <= a -> taken r a -> a ∈ others \/ exists k, f k = a
}.

Lemma pool_ok_ext r r' f g others :
  pool r' = pool r -> (forall k, g k = f k) -> pool_ok r f others -> pool_ok r' g others.
Proof.
  intros Hr Hfg [H1 H2 H3 H4 H5 H6]. unfold taken in *. split; unfold taken; rewrite ?Hr; try done.
  - intros k. rewrite Hfg. apply H2.
  - intros k k'. rewrite !Hfg. apply H3.
  - intros a Ha Ht. destruct (H6 a Ha Ht) as [?|[k <-]]; eauto.
Qed.

Lemma pool_take r f others k a r' g :
  pool_ok r f others -> allocated r a r' -> f k = 0 -> (forall x, g x = if decide (x = k) then a else f x) ->
  pool_ok r' g others.
Proof.
  intros [H1 H2 H3 H4 H5 H6] Ha Hk Hg. pose proof (fun b => allocated_taken r a r' b H1 Ha) as Ht.
  pose proof Ha as (Hrange & Hfree & _ & _ & Hr'). pose proof H1 as (Hs & _).
  assert (client_addrs_start (pool r') = client_addrs_start (pool r)) as Hs' by by subst r'.
  assert (~ taken r a) as Hn by (unfold taken; by rewrite Hfree).
  split; rewrite ?Hs'; [by eapply allocated_wf| | | |done|].
  - intros x. rewrite Hg. case_decide as Hx; intros Hnz.
    + split_and!; [lia| |]. { apply Ht; [lia|]. by left. } intros Ho. by apply Hn, H4.
    + destruct (H2 x Hnz) as (? & ? & ?). split_and!; [done| |done]. apply Ht; [done|]. by right.
  - intros x y. rewrite !Hg. repeat case_decide; subst; try done; intros Hnz Heq.
    + exfalso. apply Hn. rewrite Heq. apply H2. congruence.
    + exfalso. apply Hn. rewrite <- Heq. by apply H2.
    + by apply H3.
  - intros b Hb. destruct (H4 b Hb). split; [done|]. apply Ht; [done|]. by right.
  - intros b Hb [->|Hbt]%Ht; [| |done].
    + right. exists k. rewrite Hg. by rewrite decide_True.
    + destruct (H6 b Hb Hbt) as [?|[x Hx]]; [by left|right]. exists x. rewrite Hg. case_decide; [|done].
      subst x. lia.
Qed.

Lemma pool_give r f others k r' g :
  pool_ok r f others -> f k <> 0 -> release_client_addr r (f k) = Ret r' ->
  (forall x, g x = if decide (x = k) then 0 else f x) -> pool_ok r' g others.
Proof.
  intros [H1 H2 H3 H4 H5 H6] Hk E Hg.
  destruct (release_client_addr_spec r (f k) H1) as (r1 & E1 & Hwf & Ht & Hs & _). rewrite E in E1. injection E1 as <-.
  destruct (H2 k Hk) as (Hka & Hkt & Hko).
  split; rewrite ?Hs; [done| | | |done|].
  - intros x. rewrite Hg. case_decide as Hx; [done|]. intros Hnz. destruct (H2 x Hnz) as (? & ? & ?).
    split_and!; [done| |done]. apply Ht; [done|]. split; [done|]. intros Heq. by apply Hx, H3.
  - intros x y. rewrite !Hg. repeat case_decide; subst; try done. by apply H3.
  - intros a Ha. destruct (H4 a Ha). split; [done|]. apply Ht; [done|]. split; [done|]. by intros ->.
  - intros a Ha [Hat Hne]%Ht; [|done]. destruct (H6 a Ha Hat) as [?|[x Hx]]; [by left|right].
    exists x. rewrite Hg. case_decide; [by subst|done].
Qed.

Lemma other_take r f others a r' :
  pool_ok r f others -> allocated r a r' -> pool_ok r' f (a :: others).
Proof.
  intros [H1 H2 H3 H4 H5 H6] Ha. pose proof (fun b => allocated_taken r a r' b H1 Ha) as Ht.
  pose proof Ha as (Hrange & Hfree & _ & _ & Hr').
  assert (client_addrs_start (pool r') = client_addrs_start (pool r)) as Hs' by by subst r'.
  assert (~ taken r a) as Hn by (unfold taken; by rewrite Hfree).
  split; rewrite ?Hs'; [by eapply allocated_wf| |done| | |].
  - intros x Hnz. destruct (H2 x Hnz) as (? & Hxt & ?). split_and!; [done| |].
    + apply Ht; [done|]. by right.
    + rewrite not_elem_of_cons. split; [|done]. by intros <-.
  - intros b [->|Hb]%elem_of_cons.
    + split; [lia|]. apply Ht; [lia|]. by left.
    + destruct (H4 b Hb). split; [done|]. apply Ht; [done|]. by right.
  - constructor; [|done]. intros Hin. by apply Hn, H4.
  - intros b Hb [->|Hbt]%Ht; [left; by left| |done]. destruct (H6 b Hb Hbt); [left; by right|by right].
Qed.

Lemma other_give r f others1 a others2 r' :
  pool_ok r f (others1 ++ a :: others2) -> release_client_addr r a = Ret r' -> pool_ok r' f (others1 ++ others2).
Proof.
  intros [H1 H2 H3 H4 H5 H6] E. rewrite <- (Permutation_middle others1 others2 a) in H5.
  apply list.NoDup_cons in H5 as [Hna Hnd].
  destruct (release_client_addr_spec r a H1) as (r1 & E1 & Hwf & Ht & Hs & _). rewrite E in E1. injection E1 as <-.
  assert (forall b, b ∈ others1 ++ a :: others2 <-> b = a \/ b ∈ others1 ++ others2) as Hin
    by (intros b; rewrite !elem_of_app, elem_of_cons; tauto).
  split; rewrite ?Hs; [done| |done| |done|].
  - intros x Hnz. destruct (H2 x Hnz) as (? & ? & Hno). rewrite Hin in Hno. split_and!; [done| |tauto].
    apply Ht; [done|]. split; [done|tauto].
  - intros b Hb. destruct (H4 b) as [? ?]; [apply Hin; by right|]. split; [done|]. apply Ht; [done|]. split; [done|].
    by intros ->.
  - intros b Hb [Hbt Hne]%Ht; [|done]. destruct (H6 b Hb Hbt) as [Ho|?]; [|by right].
    apply Hin in Ho as [->|?]; [done|by left].
Qed.

(** ** The references *)

(** A client with a connection, and one that was stopped. *)
Definition open_client (c : ClientConnection) : Prop :=
  cl_fd c = true /\ cl_running c = true /\ cl_addr c <> 0.
Definition gone_client (c : ClientConnection) : Prop := stopped_client c /\ cl_running c = false.

(** The references of each server: its connections and its queue. *)
Definition refs_of (sv : list NetServer) : list (list nat * list nat) :=
  map (fun s => (sv_connections s, sv_cleanup_q s)) sv.

(** Every client is open and in the list of its server, or stopped and referred to;
    nothing refers to a client that is not there, and what is queued is stopped. *)
Record refs_ok (cl : gmap nat (nat * ClientConnection)) (rs : list (list nat * list nat)) : Prop := mkRefsOk {
  refs_ok_client : forall k i c, cl !! k = Some (i, c) ->
    exists cs q, rs !! i = Some (cs, q) /\ (open_client c /\ k ∈ cs \/ gone_client c /\ (k ∈ cs \/ k ∈ q));
  refs_ok_nodup : forall i cs q, rs !! i = Some (cs, q) -> NoDup cs;
  refs_ok_conn : forall i cs q k, rs !! i = Some (cs, q) -> k ∈ cs -> exists c, cl !! k = Some (i, c);
  refs_ok_queue : forall i cs q k, rs !! i = Some (cs, q) -> k ∈ q -> exists c, cl !! k = Some (i, c) /\ gone_client c
}.

Lemma open_not_gone c : open_client c -> ~ gone_client c.
Proof. intros (E & _) ((E' & _) & _). congruence. Qed.

Lemma lookup_server_cases {A} (l : list A) i j (x y : A) :
  <[i := x]> l !! j = Some y -> is_Some (l !! i) -> (j = i /\ y = x) \/ (j <> i /\ l !! j = Some y).
Proof.
  intros Hj Hi. apply lookup_lt_is_Some in Hi. destruct (decide (j = i)) as [->|Hne].
  - rewrite list_lookup_insert_eq in Hj by done. left. by injection Hj.
  - rewrite list_lookup_insert_ne in Hj by done. by right.
Qed.

Lemma lookup_client_cases {A} (m : gmap nat A) k k' (x y : A) :
  <[k := x]> m !! k' = Some y -> (k' = k /\ y = x) \/ (k' <> k /\ m !! k' = Some y).
Proof. rewrite lookup_insert_Some. intros [[-> <-]|[? ?]]; auto. Qed.

(** The references of one server change, and one client, from one state to another. *)
Lemma refs_ok_update cl rs i cs q cs' q' k c' :
  refs_ok cl rs -> rs !! i = Some (cs, q) ->
  (forall x c, cl !! k = Some (x, c) -> x = i) ->
  (open_client c' /\ k ∈ cs' \/ gone_client c' /\ (k ∈ cs' \/ k ∈ q')) ->
  (k ∈ q' -> gone_client c') ->
  NoDup cs' -> (forall x, x <> k -> x ∈ cs' <-> x ∈ cs) -> (forall x, x <> k -> x ∈ q' <-> x ∈ q) ->
  refs_ok (<[k := (i, c')]> cl) (<[i := (cs', q')]> rs).
Proof.
  intros [H1 H2 H3 H4] Hi Hown Hc Hq Hnd Hcs Hqs.
  assert (is_Some (rs !! i)) as Hsi by eauto.
  assert (<[i := (cs', q')]> rs !! i = Some (cs', q')) as Hi' by (apply list_lookup_insert_eq, lookup_lt_is_Some; done).
  split.
  - intros x j c [[-> Hjc]|[Hne Hl]]%lookup_client_cases.
    + injection Hjc as -> ->. exists cs', q'. by split.
    + destruct (H1 x j c Hl) as (cs0 & q0 & Hj & Hx). destruct (decide (j = i)) as [->|Hji].
      * rewrite Hi in Hj. injection Hj as <- <-. exists cs', q'. split; [done|]. by rewrite Hcs, Hqs.
      * exists cs0, q0. by rewrite list_lookup_insert_ne.
  - intros j cs0 q0 [[-> Hjc]|[Hne Hl]]%lookup_server_cases; [|by eapply H2|done]. by injection Hjc as -> ->.
  - intros j cs0 q0 x Hj Hx. destruct (decide (x = k)) as [->|Hxk].
    + exists c'. apply lookup_server_cases in Hj as [[-> _]|[Hne Hj]]; [by rewrite lookup_insert_eq| |done].
      destruct (H3 j cs0 q0 k Hj Hx) as [c Hk]. by apply Hown in Hk.
    + rewrite lookup_insert_ne by done. apply lookup_server_cases in Hj as [[-> Hjc]|[Hne Hj]]; [| |done].
      * injection Hjc as -> ->. eapply H3; [done|]. by apply Hcs.
      * by eapply H3.
  - intros j cs0 q0 x Hj Hx. destruct (decide (x = k)) as [->|Hxk].
    + exists c'. apply lookup_server_cases in Hj as [[-> Hjc]|[Hne Hj]]; [| |done].
      * injection Hjc as -> ->. rewrite lookup_insert_eq. auto.
      * destruct (H4 j cs0 q0 k Hj Hx) as (c & Hk & _). by apply Hown in Hk.
    + rewrite lookup_insert_ne by done. apply lookup_server_cases in Hj as [[-> Hjc]|[Hne Hj]]; [| |done].
      * injection Hjc as -> ->. eapply H4; [done|]. by apply Hqs.
      * by eapply H4.
Qed.

(** One client loses references; without any it is removed. *)
Lemma refs_ok_drop cl rs i cs q cs' q' k c :
  refs_ok cl rs -> rs !! i = Some (cs, q) -> cl !! k = Some (i, c) -> gone_client c ->
  NoDup cs' -> (forall x, x <> k -> x ∈ cs' <-> x ∈ cs) -> (forall x, x <> k -> x ∈ q' <-> x ∈ q) ->
  refs_ok (if decide (k ∈ cs' ++ q') then cl else delete k cl) (<[i := (cs', q')]> rs).
Proof.
  intros Hok Hi Hk Hg Hnd Hcs Hqs. destruct (decide (k ∈ cs' ++ q')) as [Hin|Hin].
  - apply elem_of_app in Hin. rewrite <- (insert_id cl k (i, c)) by done.
    eapply refs_ok_update; try done; [|by right]. intros x c0 Hx. rewrite Hk in Hx. by injection Hx as <- _.
  - apply not_elem_of_app in Hin as [Hnc Hnq]. destruct Hok as [H1 H2 H3 H4].
    assert (is_Some (rs !! i)) as Hsi by eauto.
    assert (<[i := (cs', q')]> rs !! i = Some (cs', q')) as Hi' by (apply list_lookup_insert_eq, lookup_lt_is_Some; done).
    split.
    + intros x j c0 [Hne Hl]%lookup_delete_Some. destruct (H1 x j c0 Hl) as (cs0 & q0 & Hj & Hx).
      destruct (decide (j = i)) as [->|Hji].
      * rewrite Hi in Hj. injection Hj as <- <-. exists cs', q'. split; [done|]. by rewrite Hcs, Hqs.
      * exists cs0, q0. by rewrite list_lookup_insert_ne.
    + intros j cs0 q0 [[-> Hjc]|[Hne Hl]]%lookup_server_cases; [|by eapply H2|done]. by injection Hjc as -> ->.
    + intros j cs0 q0 x Hj Hx. assert (x <> k) as Hxk.
      { intros ->. apply lookup_server_cases in Hj as [[-> Hjc]|[Hne Hj]]; [by injection Hjc as -> ->| |done].
        destruct (H3 j cs0 q0 k Hj Hx) as [c0 Hc0]. congruence. }
      rewrite lookup_delete_ne by done. apply lookup_server_cases in Hj as [[-> Hjc]|[Hne Hj]]; [|by eapply H3|done].
      injection Hjc as -> ->. eapply H3; [done|]. by apply Hcs.
    + intros j cs0 q0 x Hj Hx. assert (x <> k) as Hxk.
      { intros ->. apply lookup_server_cases in Hj as [[-> Hjc]|[Hne Hj]]; [by injection Hjc as -> ->| |done].
        destruct (H4 j cs0 q0 k Hj Hx) as (c0 & Hc0 & _). congruence. }
      rewrite lookup_delete_ne by done. apply lookup_server_cases in Hj as [[-> Hjc]|[Hne Hj]]; [|by eapply H4|done].
      injection Hjc as -> ->. eapply H4; [done|]. by apply Hqs.
Qed.

(** The list of connections is cleared when all of them are queued. *)
Lemma refs_ok_clear cl rs i cs q :
  refs_ok cl rs -> rs !! i = Some (cs, q) -> (forall k, k ∈ cs -> k ∈ q) -> refs_ok cl (<[i := ([], q)]> rs).
Proof.
  intros [H1 H2 H3 H4] Hi Hall. assert (is_Some (rs !! i)) as Hsi by eauto.
  assert (<[i := ([], q)]> rs !! i = Some ([], q)) as Hi' by (apply list_lookup_insert_eq, lookup_lt_is_Some; done).
  split.
  - intros x j c Hx. destruct (H1 x j c Hx) as (cs0 & q0 & Hj & Hc). destruct (decide (j = i)) as [->|Hji].
    + rewrite Hi in Hj. injection Hj as <- <-. exists [], q. split; [done|]. right.
      assert (x ∈ q) as Hq by (destruct Hc as [[_ ?]|[_ [?|?]]]; auto).
      destruct (H4 i cs q x Hi Hq) as (c0 & Hc0 & Hg). assert (c0 = c) as -> by congruence. auto.
    + exists cs0, q0. by rewrite list_lookup_insert_ne.
  - intros j cs0 q0 [[-> Hjc]|[Hne Hl]]%lookup_server_cases; [|by eapply H2|done]. injection Hjc as -> ->. constructor.
  - intros j cs0 q0 x [[-> Hjc]|[Hne Hl]]%lookup_server_cases Hx; [|by eapply H3|done].
    injection Hjc as -> ->. by apply not_elem_of_nil in Hx.
  - intros j cs0 q0 x [[-> Hjc]|[Hne Hl]]%lookup_server_cases Hx; [|by eapply H4|done].
    injection Hjc as -> ->. by eapply H4.
Qed.

Lemma erase_elem k l x : x <> k -> x ∈ erase k l <-> x ∈ l.
Proof.
  intros Hx. induction l as [|y l IH]; [done|]. cbn [erase]. rewrite elem_of_cons. destruct (decide (y = k)) as [->|Hy].
  - split; [by right|]. by intros [?|?].
  - rewrite elem_of_cons. by rewrite IH.
Qed.

Lemma erase_gone k l : NoDup l -> k ∉ erase k l.
Proof.
  induction l as [|y l IH]; intros Hl; [apply not_elem_of_nil|]. apply list.NoDup_cons in Hl as [Hy Hl]. cbn [erase].
  destruct (decide (y = k)) as [->|Hne]; [done|]. rewrite not_elem_of_cons. auto.
Qed.

Lemma erase_NoDup k l : NoDup l -> NoDup (erase k l).
Proof.
  induction l as [|y l IH]; intros Hl; [done|]. pose proof Hl as [Hy Hl']%list.NoDup_cons. cbn [erase].
  destruct (decide (y = k)) as [->|Hne]; [done|]. constructor; [|auto]. by rewrite erase_elem.
Qed.

(** ** The daemon *)

Definition addr_of (d : dmn) (k : nat) : Z :=
  match dm_clients d !! k with Some (_, c) => cl_addr c | None => 0 end.

Record daemon_ok (d : dmn) (others : list Z) : Prop := mkDaemonOk {
  daemon_ok_pool : pool_ok (dm_router d) (addr_of d) others;
  daemon_ok_refs : refs_ok (dm_clients d) (refs_of (dm_servers d));
  daemon_ok_next : forall k, is_Some (dm_clients d !! k) -> (k < dm_next d)%nat
}.

Lemma refs_of_lookup sv i s : sv !! i = Some s -> refs_of sv !! i = Some (sv_connections s, sv_cleanup_q s).
Proof. intros E. unfold refs_of. by rewrite list_lookup_fmap, E. Qed.

Lemma refs_of_insert sv i s : refs_of (<[i := s]> sv) = <[i := (sv_connections s, sv_cleanup_q s)]> (refs_of sv).
Proof. apply (list_fmap_insert (fun s => (sv_connections s, sv_cleanup_q s))). Qed.

(** A server changes, but not its references. *)
Lemma refs_of_same sv i s s' :
  sv !! i = Some s -> sv_connections s' = sv_connections s -> sv_cleanup_q s' = sv_cleanup_q s ->
  refs_of (<[i := s']> sv) = refs_of sv.
Proof.
  intros E Hc Hq. rewrite refs_of_insert, Hc, Hq. apply list_insert_id. by apply refs_of_lookup.
Qed.

Lemma set_server_ok d others i s s' :
  daemon_ok d others -> dm_servers d !! i = Some s ->
  sv_connections s' = sv_connections s -> sv_cleanup_q s' = sv_cleanup_q s -> daemon_ok (set_server d i s') others.
Proof.
  intros [H1 H2 H3] E Hc Hq. split; [by eapply pool_ok_ext|cbn; by erewrite refs_of_same|done].
Qed.

Lemma get_server_Ret (d : dmn) i s : dm_servers d !! i = Some s -> get_server d i = Ret s.
Proof. unfold get_server. by intros ->. Qed.

Lemma get_client_Ret (d : dmn) k x : dm_clients d !! k = Some x -> get_client d k = Ret x.
Proof. unfold get_client. by intros ->. Qed.

Lemma set_server_lookup (d : dmn) i s s' :
  dm_servers d !! i = Some s -> dm_servers (set_server d i s') !! i = Some s'.
Proof. intros E. cbn. apply list_lookup_insert_eq. by apply lookup_lt_Some in E. Qed.

Lemma set_server_twice (d : dmn) i s s' : set_server (set_server d i s) i s' = set_server d i s'.
Proof. unfold set_server. cbn. by rewrite list_insert_insert_eq. Qed.

(** *** Stopping clients *)

Lemma client_calls_internal (d : dmn) i k o o' :
  Forall internal o -> client_calls d i k (o ++ o') = client_calls d i k o'.
Proof.
  intros Ho. induction Ho as [|x o Hx Ho IH]; [done|]. destruct x; cbn in Hx; try done; exact IH.
Qed.

Definition from_client (o : server_output) : Prop := match o with SO_client _ _ => True | _ => False end.

Lemma from_client_map k o : Forall from_client (map (SO_client k) o).
Proof. induction o; by constructor. Qed.

(** The address of a client that stops. *)
Definition released (r : router) (a : Z) : outcome router :=
  if decide (a <> 0) then release_client_addr r a else Ret r.

Lemma stop_pool_ok d others k i c c' :
  pool_ok (dm_router d) (addr_of d) others -> dm_clients d !! k = Some (i, c) -> cl_addr c' = 0 ->
  exists r, released (dm_router d) (cl_addr c) = Ret r /\
    pool_ok r (addr_of (set_client (set_router d r) k i c')) others.
Proof.
  intros Hp Hk Hz. assert (addr_of d k = cl_addr c) as Ha by (unfold addr_of; by rewrite Hk).
  assert (forall r x, addr_of (set_client (set_router d r) k i c') x = if decide (x = k) then 0 else addr_of d x) as Hx.
  { intros r x. unfold addr_of. cbn. destruct (decide (x = k)) as [->|Hxk].
    - by rewrite lookup_insert_eq.
    - by rewrite lookup_insert_ne. }
  unfold released. destruct (decide (cl_addr c <> 0)) as [Hne|Hz'].
  - destruct (release_client_addr_spec (dm_router d) (cl_addr c) (pool_ok_wf _ _ _ Hp)) as (r & Er & _).
    exists r. split; [done|]. rewrite <- Ha in *. eapply pool_give; [exact Hp|done|done|apply Hx].
  - exists (dm_router d). split; [done|]. eapply pool_ok_ext; [done| |exact Hp]. intros x. rewrite Hx.
    destruct (decide (x = k)) as [->|Hxk]; [|done]. rewrite Ha. lia.
Qed.

(** What the calls of [client_stop] do to the daemon. *)
Lemma stop_calls (d : dmn) i k s (a : Z) (fd : bool) o r :
  dm_servers d !! i = Some s -> released (dm_router d) a = Ret r -> Forall internal o ->
  client_calls d i k ((if decide (a <> 0) then [CO_release_client_addr a] else [])
                      ++ o ++ CO_deregister :: (if fd then [CO_close] else []))
  = Ret (set_server (set_router d r) i (with_refs s (sv_connections s) (sv_cleanup_q s ++ [k]))).
Proof.
  intros Hi Er Ho.
  assert (forall d1 : dmn, dm_servers d1 = dm_servers d ->
    client_calls d1 i k (o ++ CO_deregister :: (if fd then [CO_close] else []))
    = Ret (set_server d1 i (with_refs s (sv_connections s) (sv_cleanup_q s ++ [k])))) as Hcalls.
  { intros d1 Hd1. rewrite client_calls_internal by done. cbn [client_calls]. unfold deregister.
    rewrite (get_server_Ret d1 i s) by (by rewrite Hd1). rewrite !bind_Ret. by destruct fd. }
  unfold released in Er. destruct (decide (a <> 0)).
  - cbn [app client_calls]. rewrite Er, bind_Ret. by rewrite Hcalls.
  - injection Er as <-. rewrite app_nil_l, Hcalls by done. by destruct d.
Qed.

(** A client gives back its address and queues itself. *)
Lemma stop_client_ok d others k i c s :
  daemon_ok d others -> dm_clients d !! k = Some (i, c) -> dm_servers d !! i = Some s ->
  exists r c' o, let d' := set_server (set_client (set_router d r) k i c') i
      (with_refs s (sv_connections s) (sv_cleanup_q s ++ [k])) in
    stop_client d k = Ret (d', o) /\ Forall from_client o /\ gone_client c' /\ daemon_ok d' others.
Proof.
  intros [Hp Hr Hn] Hk Hi. destruct (client_stop_calls c) as (c' & o & E & Ho & Hs & Hrun & Hrun').
  assert (gone_client c') as Hg.
  { split; [done|]. destruct (refs_ok_client _ _ Hr k i c Hk) as (cs & q & _ & [[(Hf & _) _]|[((Hf & _) & Hfalse) _]]); [auto|].
    rewrite Hrun'; auto. }
  destruct (stop_pool_ok d others k i c c' Hp Hk ltac:(apply Hs)) as (r & Er & Hp').
  eexists r, c', _. cbv zeta. split_and!; [|apply from_client_map|done|].
  - unfold stop_client. rewrite (get_client_Ret _ _ _ Hk), bind_Ret, E, bind_Ret.
    rewrite (stop_calls (set_client d k i c') i k s (cl_addr c) (cl_fd c) o r Hi Er Ho). by rewrite bind_Ret.
  - split; cbn.
    + eapply pool_ok_ext; [| |exact Hp']; done.
    + rewrite refs_of_insert. cbn. eapply refs_ok_update; [exact Hr|by apply refs_of_lookup| | |done| | |].
      * intros x c0 Hx. rewrite Hk in Hx. by injection Hx as <- _.
      * right. split; [done|]. right. apply elem_of_app. right. by apply list_elem_of_singleton.
      * by eapply refs_ok_nodup, refs_of_lookup.
      * done.
      * intros x Hx. rewrite elem_of_app, list_elem_of_singleton. tauto.
    + intros x Hx. apply Hn. destruct (decide (x = k)) as [->|Hne]; [eauto|]. by rewrite lookup_insert_ne in Hx.
Qed.

(** What the operations on the server [i] leave alone: the clients of other servers,
    [systemd] and the group cache. *)
Definition only_server (i : nat) (d d' : dmn) : Prop :=
  dm_systemd d' = dm_systemd d /\ dm_cache d' = dm_cache d /\ dm_next d' = dm_next d /\
  forall k j c, j <> i -> dm_clients d' !! k = Some (j, c) <-> dm_clients d !! k = Some (j, c).

Lemma only_server_refl i d : only_server i d d.
Proof. by split_and!. Qed.

Lemma only_server_trans i d1 d2 d3 : only_server i d1 d2 -> only_server i d2 d3 -> only_server i d1 d3.
Proof.
  intros (A1 & A2 & A3 & A4) (B1 & B2 & B3 & B4). split_and!; [congruence..|].
  intros k j c Hj. by rewrite B4, A4.
Qed.

(** An update of the client [k] of the server [i]. *)
Lemma insert_other (m : gmap nat (nat * ClientConnection)) i k x y c c' j :
  m !! k = Some (i, c) -> j <> i -> <[k := (i, c')]> m !! x = Some (j, y) <-> m !! x = Some (j, y).
Proof.
  intros Hk Hj. rewrite lookup_insert_Some. split.
  - intros [[_ E]|[_ ?]]; [|done]. injection E as E _. by destruct Hj.
  - intros E. right. split; [|done]. intros ->. congruence.
Qed.

Lemma stop_clients_ok ks : forall d others i s,
  daemon_ok d others -> dm_servers d !! i = Some s -> (forall k, k ∈ ks -> exists c, dm_clients d !! k = Some (i, c)) ->
  exists d' o, stop_clients d ks = Ret (d', o) /\ daemon_ok d' others /\ only_server i d d' /\
    dm_servers d' = <[i := with_refs s (sv_connections s) (sv_cleanup_q s ++ ks)]> (dm_servers d) /\
    Forall from_client o.
Proof.
  induction ks as [|k ks IH]; intros d others i s Hok Hi Hks; cbn [stop_clients].
  { exists d, []. split_and!; try done. rewrite app_nil_r. symmetry. apply list_insert_id. by destruct s. }
  destruct (Hks k) as [c Hk]; [by left|].
  destruct (stop_client_ok d others k i c s Hok Hk Hi) as (r & c' & o & E & Ho & Hg & Hok').
  rewrite E, bind_Ret. set (d1 := set_server _ _ _) in *.
  destruct (IH d1 others i (with_refs s (sv_connections s) (sv_cleanup_q s ++ [k])) Hok') as (d' & o' & E' & Hd' & Hon & Hsv & Ho').
  - by eapply set_server_lookup.
  - intros x Hx. cbn. destruct (decide (x = k)) as [->|Hne].
    + rewrite lookup_insert_eq. eauto.
    + rewrite lookup_insert_ne by done. apply Hks. by right.
  - rewrite E', bind_Ret. exists d', (o ++ o'). split_and!; [done|done| | |by apply Forall_app].
    + eapply only_server_trans; [|exact Hon]. split_and!; try done. intros x j y Hj. cbn. by eapply insert_other.
    + rewrite Hsv. cbn. rewrite list_insert_insert_eq. by rewrite <- app_assoc.
Qed.

(** *** Dropping references *)

Lemma drop_ref_ok d others i s k c cs' q' :
  daemon_ok d others -> dm_servers d !! i = Some s -> dm_clients d !! k = Some (i, c) -> gone_client c ->
  NoDup cs' -> (forall x, x <> k -> x ∈ cs' <-> x ∈ sv_connections s) ->
  (forall x, x <> k -> x ∈ q' <-> x ∈ sv_cleanup_q s) ->
  exists d', drop_ref (set_server d i (with_refs s cs' q')) i k = Ret d' /\ daemon_ok d' others /\ only_server i d d' /\
    dm_servers d' = <[i := with_refs s cs' q']> (dm_servers d) /\ dm_router d' = dm_router d /\
    dm_clients d' ⊆ dm_clients d.
Proof.
  intros [Hp Hr Hn] Hi Hk Hg Hnd Hcs Hqs. pose proof Hg as ((Hf & Hz & _) & _).
  assert (refs_ok (if decide (k ∈ cs' ++ q') then dm_clients d else delete k (dm_clients d))
            (refs_of (<[i := with_refs s cs' q']> (dm_servers d)))) as Hr'.
  { rewrite refs_of_insert. cbn. eapply refs_ok_drop; [exact Hr|by apply refs_of_lookup|done..]. }
  unfold drop_ref. rewrite (get_server_Ret _ _ _ (set_server_lookup d i s _ Hi)), bind_Ret.
  cbn [sv_connections sv_cleanup_q with_refs]. destruct (decide (k ∈ cs' ++ q')).
  - eexists. by split_and!.
  - rewrite (get_client_Ret (set_server d i _) k (i, c) Hk), bind_Ret, decide_True, Hf by done.
    eexists. split_and!; try done.
    + split; [|done|].
      * eapply pool_ok_ext; [done| |exact Hp]. intros x. unfold addr_of. cbn. destruct (decide (x = k)) as [->|Hx].
        -- by rewrite lookup_delete_eq, Hk.
        -- by rewrite lookup_delete_ne.
      * intros x [y Hy]. cbn in Hy. apply lookup_delete_Some in Hy as [_ Hy]. eauto.
    + split_and!; try done. intros x j y Hj. cbn. rewrite lookup_delete_Some. split; [by intros [_ ?]|].
      intros E. split; [|done]. intros ->. congruence.
    + cbn. apply delete_subseteq.
Qed.

(** The queue is worked off: every client in it loses its references. *)
Lemma cleanup_loop_ok q : forall d others i s,
  daemon_ok d others -> dm_servers d !! i = Some s -> sv_cleanup_q s = q ->
  exists d' cs', cleanup_loop d i q = Ret d' /\ daemon_ok d' others /\ only_server i d d' /\
    dm_servers d' = <[i := with_refs s cs' []]> (dm_servers d) /\ dm_router d' = dm_router d /\
    dm_clients d' ⊆ dm_clients d /\
    forall x, x ∈ cs' <-> x ∈ sv_connections s /\ x ∉ q.
Proof.
  induction q as [|k q IH]; intros d others i s Hok Hi Hq; cbn [cleanup_loop].
  { exists d, (sv_connections s). split_and!; try done.
    - symmetry. apply list_insert_id. rewrite Hi. f_equal. destruct s. cbn in *. by subst.
    - intros x. split; [|by intros [? _]]. intros ?. split; [done|]. apply not_elem_of_nil. }
  pose proof (refs_of_lookup _ _ _ Hi) as Hrs. pose proof (daemon_ok_refs _ _ Hok) as Hr.
  assert (k ∈ sv_cleanup_q s) as Hkq by (rewrite Hq; by left).
  destruct (refs_ok_queue _ _ Hr _ _ _ _ Hrs Hkq) as (c & Hk & Hg).
  pose proof (refs_ok_nodup _ _ Hr _ _ _ Hrs) as Hnd.
  rewrite (get_server_Ret _ _ _ Hi), bind_Ret.
  destruct (drop_ref_ok d others i s k c (erase k (sv_connections s)) q Hok Hi Hk Hg) as (d1 & E1 & Hok1 & Hon1 & Hsv1 & Hr1 & Hsub1).
  - by apply erase_NoDup.
  - intros x Hx. by apply erase_elem.
  - intros x Hx. rewrite Hq, elem_of_cons. tauto.
  - rewrite E1, bind_Ret.
    destruct (IH d1 others i (with_refs s (erase k (sv_connections s)) q) Hok1) as (d' & cs' & E & Hd' & Hon & Hsv & Hr' & Hsub & Hcs).
    + rewrite Hsv1. apply list_lookup_insert_eq. by apply lookup_lt_Some in Hi.
    + done.
    + exists d', cs'. split_and!; [done|done|by eapply only_server_trans| |congruence|by etrans|].
      * rewrite Hsv, Hsv1. by rewrite list_insert_insert_eq.
      * intros x. rewrite Hcs. cbn. rewrite not_elem_of_cons. destruct (decide (x = k)) as [->|Hx].
        -- split; [|tauto]. intros [Hx _]. by apply erase_gone in Hx.
        -- rewrite erase_elem by done. tauto.
Qed.

Lemma pop_all_ok q : forall d others i s,
  daemon_ok d others -> dm_servers d !! i = Some s -> sv_cleanup_q s = q ->
  exists d', pop_all d i q = Ret d' /\ daemon_ok d' others /\ only_server i d d' /\
    dm_servers d' = <[i := with_refs s (sv_connections s) []]> (dm_servers d).
Proof.
  induction q as [|k q IH]; intros d others i s Hok Hi Hq; cbn [pop_all].
  { exists d. split_and!; try done. symmetry. apply list_insert_id. rewrite Hi. f_equal. destruct s. cbn in *. by subst. }
  pose proof (refs_of_lookup _ _ _ Hi) as Hrs. pose proof (daemon_ok_refs _ _ Hok) as Hr.
  assert (k ∈ sv_cleanup_q s) as Hkq by (rewrite Hq; by left).
  destruct (refs_ok_queue _ _ Hr _ _ _ _ Hrs Hkq) as (c & Hk & Hg).
  rewrite (get_server_Ret _ _ _ Hi), bind_Ret.
  destruct (drop_ref_ok d others i s k c (sv_connections s) q Hok Hi Hk Hg) as (d1 & E1 & Hok1 & Hon1 & Hsv1 & Hr1 & Hsub1).
  - by eapply refs_ok_nodup.
  - done.
  - intros x Hx. rewrite Hq, elem_of_cons. tauto.
  - rewrite E1, bind_Ret.
    destruct (IH d1 others i (with_refs s (sv_connections s) q) Hok1) as (d' & E & Hd' & Hon & Hsv).
    + rewrite Hsv1. apply list_lookup_insert_eq. by apply lookup_lt_Some in Hi.
    + done.
    + exists d'. split_and!; [done|done|by eapply only_server_trans|].
      rewrite Hsv, Hsv1. by rewrite list_insert_insert_eq.
Qed.

(** *** Start and stop *)

(** A server that was stopped: its clients wait to be removed. *)
Definition stopped_server (s : NetServer) : NetServer :=
  mkServer (sv_kind s) (sv_cfg_ignore s) (sv_ignore s) (sv_may_fail s) None false false [] (sv_connections s).

Definition closes (fd : option Z) : list server_output :=
  match fd with Some fd => [SO_close fd] | None => [] end.

Lemma set_server_id (d : dmn) i s : dm_servers d !! i = Some s -> set_server d i s = d.
Proof. intros E. unfold set_server. rewrite list_insert_id by done. by destruct d. Qed.

Lemma close_fd_eq (d : dmn) i s :
  dm_servers d !! i = Some s -> close_fd d i = Ret (set_server d i (with_fd s None), closes (sv_fd s)).
Proof.
  intros E. unfold close_fd. rewrite (get_server_Ret _ _ _ E), bind_Ret. destruct (sv_fd s) eqn:Ef; [done|].
  rewrite set_server_id; [done|]. rewrite E. f_equal. destruct s. cbn in *. by subst.
Qed.

Lemma drop_refs_kept (d : dmn) i s ks :
  dm_servers d !! i = Some s -> (forall k, k ∈ ks -> k ∈ sv_cleanup_q s) -> drop_refs d i ks = Ret d.
Proof.
  intros Hi Hks. induction ks as [|k ks IH]; [done|]. cbn [drop_refs]. unfold drop_ref.
  rewrite (get_server_Ret _ _ _ Hi), bind_Ret, decide_True.
  - rewrite bind_Ret. apply IH. intros x Hx. apply Hks. by right.
  - apply elem_of_app. right. apply Hks. by left.
Qed.

Lemma net_stop__ok d others i s :
  daemon_ok d others -> dm_servers d !! i = Some s ->
  exists d' o, net_stop_ d i = Ret (d', o ++ closes (sv_fd s)) /\ daemon_ok d' others /\ only_server i d d' /\
    dm_servers d' = <[i := stopped_server s]> (dm_servers d) /\ Forall from_client o.
Proof.
  intros Hok Hi. unfold net_stop_. rewrite (get_server_Ret _ _ _ Hi), bind_Ret. cbv zeta.
  set (d0 := set_server d i (with_watchers s false)).
  assert (daemon_ok d0 others) as Hok0 by (by eapply set_server_ok).
  destruct (pop_all_ok (sv_cleanup_q s) d0 others i (with_watchers s false)) as (d1 & E1 & Hok1 & Hon1 & Hsv1);
    [done|by eapply set_server_lookup|done|].
  rewrite E1, bind_Ret.
  assert (dm_servers d1 !! i = Some (with_refs (with_watchers s false) (sv_connections s) [])) as Hi1.
  { rewrite Hsv1. apply list_lookup_insert_eq. cbn. rewrite length_insert. by apply lookup_lt_Some in Hi. }
  destruct (stop_clients_ok (sv_connections s) d1 others i _ Hok1 Hi1) as (d2 & o & E2 & Hok2 & Hon2 & Hsv2 & Ho).
  { intros k Hk. eapply refs_ok_conn; [exact (daemon_ok_refs _ _ Hok1)|by apply refs_of_lookup|done]. }
  rewrite E2, bind_Ret.
  set (s2 := with_refs (with_watchers s false) (sv_connections s) (sv_connections s)).
  assert (dm_servers d2 !! i = Some s2) as Hi2.
  { rewrite Hsv2. apply list_lookup_insert_eq. by apply lookup_lt_Some in Hi1. }
  rewrite (get_server_Ret _ _ _ Hi2), bind_Ret.
  rewrite (drop_refs_kept _ i (with_refs s2 [] (sv_connections s))), bind_Ret; [|by eapply set_server_lookup|done].
  rewrite (close_fd_eq _ i (with_refs s2 [] (sv_connections s))), bind_Ret by (by eapply set_server_lookup).
  rewrite set_server_twice. eexists (set_server d2 i _), o. split_and!; [done| | | |].
  - destruct Hok2 as [Hp Hr Hn]. split; [done| |done]. cbn. rewrite refs_of_insert. cbn.
    eapply refs_ok_clear; [done|apply (refs_of_lookup _ _ _ Hi2)|done].
  - eapply (only_server_trans i d d0); [by split_and!|]. eapply only_server_trans; [exact Hon1|].
    eapply only_server_trans; [exact Hon2|]. by split_and!.
  - cbn. rewrite Hsv2, Hsv1. cbn. by rewrite !list_insert_insert_eq.
  - done.
Qed.

Lemma net_stop_ok d others i s :
  daemon_ok d others -> dm_servers d !! i = Some s ->
  exists d' o, net_stop d i = Ret (d', o ++ closes (sv_fd s) ++ [SO_stopped]) /\ daemon_ok d' others /\ only_server i d d' /\
    dm_servers d' = <[i := stopped_server s]> (dm_servers d) /\ Forall from_client o.
Proof.
  intros Hok Hi. destruct (net_stop__ok d others i s Hok Hi) as (d' & o & E & ?). exists d', o.
  unfold net_stop. rewrite E, bind_Ret. by rewrite <- app_assoc.
Qed.

(** The stop of every kind of server, with the system calls it makes. *)
Definition stop_unlinks (s : NetServer) : list server_output :=
  match sv_kind s, sv_fd s with LocalServer (c :: path), Some _ => [SO_unlink (c :: path)] | _, _ => [] end.

Lemma net_server_stop_ok d others i s :
  daemon_ok d others -> dm_servers d !! i = Some s ->
  exists d' o1 o2, net_server_stop d i = Ret (d', o1 ++ o2 ++ [SO_stopped]) /\ daemon_ok d' others /\ only_server i d d' /\
    dm_servers d' = <[i := stopped_server s]> (dm_servers d) /\
    (o1 = closes (sv_fd s) ++ stop_unlinks s /\ Forall from_client o2 \/
     Forall from_client o1 /\ sv_kind s = SystemdServer /\ o2 = closes (sv_fd s)).
Proof.
  intros Hok Hi. unfold net_server_stop. rewrite (get_server_Ret _ _ _ Hi), bind_Ret.
  set (d0 := set_server d i (with_fd s None)).
  destruct (net_stop_ok d0 others i (with_fd s None)) as (d' & o & E & Hok' & Hon & Hsv & Ho).
  { by eapply set_server_ok. } { by eapply set_server_lookup. }
  assert (only_server i d d') as Hon' by (eapply only_server_trans; [|exact Hon]; by split_and!).
  assert (dm_servers d' = <[i := stopped_server s]> (dm_servers d)) as Hsv'.
  { rewrite Hsv. cbn. by rewrite list_insert_insert_eq. }
  unfold stop_unlinks. destruct (sv_kind s) as [port|path|] eqn:Ek.
  - unfold inet_stop. rewrite (close_fd_eq _ _ _ Hi), bind_Ret. fold d0. rewrite E, bind_Ret.
    exists d', (closes (sv_fd s) ++ []), o. rewrite !app_nil_r. split_and!; try done. by left.
  - unfold local_stop. rewrite (close_fd_eq _ _ _ Hi), bind_Ret. fold d0. cbv zeta. rewrite E, bind_Ret.
    exists d', (closes (sv_fd s) ++ match path, sv_fd s with c :: p, Some _ => [SO_unlink (c :: p)] | _, _ => [] end), o.
    split_and!; try done; [|left; split; [by destruct path|done]].
    destruct (sv_fd s), path; cbn; by rewrite ?app_nil_r.
  - destruct (net_stop_ok d others i s Hok Hi) as (d1 & o1 & E1 & Hok1 & Hon1 & Hsv1 & Ho1).
    exists d1, o1, (closes (sv_fd s)). split_and!; try done. by right.
Qed.

(** A stopped client waits in the queue of its server. *)
Definition wait_ok (d : dmn) : Prop :=
  forall k i c, dm_clients d !! k = Some (i, c) -> gone_client c ->
    exists s, dm_servers d !! i = Some s /\ k ∈ sv_cleanup_q s.

Definition served_ok (d : dmn) (others : list Z) : Prop := daemon_ok d others /\ wait_ok d.

(** An operation on the server [i], which leaves it as [s']. *)
Definition serves (others : list Z) (i : nat) (d d' : dmn) (s' : NetServer) : Prop :=
  served_ok d' others /\ only_server i d d' /\ dm_servers d' = <[i := s']> (dm_servers d).

Lemma insert_server (d d' : dmn) i s s' :
  dm_servers d !! i = Some s -> dm_servers d' = <[i := s']> (dm_servers d) -> dm_servers d' !! i = Some s'.
Proof. intros Hi ->. apply list_lookup_insert_eq. by apply lookup_lt_Some in Hi. Qed.

(** The clients of a server are stopped and queued, or unchanged. *)
Lemma serves_stopped d d' others i s s' :
  wait_ok d -> dm_servers d !! i = Some s -> daemon_ok d' others -> only_server i d d' ->
  dm_servers d' = <[i := s']> (dm_servers d) -> sv_connections s' = [] -> serves others i d d' s'.
Proof.
  intros Hw Hi Hok Hon Hsv Hc. split_and!; [|done..]. split; [done|]. intros k j c Hk Hg.
  destruct (decide (j = i)) as [->|Hne].
  - pose proof (insert_server _ _ _ _ _ Hi Hsv) as Hi'. exists s'. split; [done|].
    destruct (refs_ok_client _ _ (daemon_ok_refs _ _ Hok) k i c Hk) as (cs & q & Hj & Hc').
    rewrite (refs_of_lookup _ _ _ Hi') in Hj. injection Hj as <- <-. rewrite Hc in Hc'.
    destruct Hc' as [[_ Hx]|[_ [Hx|Hx]]]; [by apply not_elem_of_nil in Hx..|done].
  - destruct Hon as (_ & _ & _ & Hcl). apply Hcl in Hk; [|done]. destruct (Hw k j c Hk Hg) as (x & Hx & Hq).
    exists x. split; [|done]. by rewrite Hsv, list_lookup_insert_ne.
Qed.

Lemma serves_same d others i s s' :
  served_ok d others -> dm_servers d !! i = Some s ->
  sv_connections s' = sv_connections s -> sv_cleanup_q s' = sv_cleanup_q s -> serves others i d (set_server d i s') s'.
Proof.
  intros [Hok Hw] Hi Hc Hq. split_and!; [|by split_and!|done]. split; [by eapply set_server_ok|].
  intros k j c Hk Hg. destruct (Hw k j c Hk Hg) as (x & Hx & Hxq). destruct (decide (j = i)) as [->|Hne].
  - exists s'. split; [by eapply set_server_lookup|]. rewrite Hq. congruence.
  - exists x. cbn. by rewrite list_lookup_insert_ne.
Qed.

Lemma serves_trans d d1 d2 others i s1 s2 : serves others i d d1 s1 -> serves others i d1 d2 s2 -> serves others i d d2 s2.
Proof.
  intros (_ & Hon & Hsv) (Hok & Hon' & Hsv'). split_and!; [done|by eapply only_server_trans|].
  rewrite Hsv', Hsv. by rewrite list_insert_insert_eq.
Qed.

(** *** Descriptors *)

Fixpoint close_one (fd : Z) (h : list Z) : option (list Z) :=
  match h with
  | [] => None
  | x :: h => if decide (x = fd) then Some h else cons x <$> close_one fd h
  end.

(** The descriptors that are open after some calls, if none of them is closed twice. *)
Fixpoint descriptors (h : list Z) (o : list server_output) : option (list Z) :=
  match o with
  | [] => Some h
  | SO_socket fd :: o => descriptors (fd :: h) o
  | SO_close fd :: o => close_one fd h ≫= fun h => descriptors h o
  | _ :: o => descriptors h o
  end.

Definition fds (fd : option Z) : list Z := match fd with Some fd => [fd] | None => [] end.

Lemma descriptors_app h o o' : descriptors h (o ++ o') = (descriptors h o ≫= fun h => descriptors h o').
Proof.
  revert h. induction o as [|x o IH]; intros h; [done|]. destruct x; cbn; try apply IH.
  destruct (close_one fd h) as [h'|]; [|done]. cbn. apply IH.
Qed.

Lemma descriptors_client h o : Forall from_client o -> descriptors h o = Some h.
Proof. induction 1 as [|[] o Hx Ho IH]; done. Qed.

Lemma descriptors_closes fd : descriptors (fds fd) (closes fd) = Some [].
Proof. destruct fd as [fd|]; [|done]. cbn. by rewrite decide_True. Qed.

(** A server has a socket exactly while it listens, but for a socket from
    systemd that is not used yet. *)
Definition fd_ok (s : NetServer) : Prop :=
  sv_cleanup s = sv_io s /\
  match sv_kind s with
  | SystemdServer => sv_io s = true -> is_Some (sv_fd s)
  | _ => sv_io s = bool_decide (is_Some (sv_fd s))
  end.

(** How a start ends: the server listens and reports that it is started, or it is
    stopped and reports that. *)
Definition start_result (e : start_env) (s s' : NetServer) (o : list server_output) : Prop :=
  descriptors (fds (sv_fd s)) o = Some (fds (sv_fd s')) /\ fd_ok s' /\ sv_kind s' = sv_kind s /\
  (sv_io s' = true /\ list.last o = Some SO_started /\ SO_stopped ∉ o \/
   sv_io s' = false /\ list.last o = Some SO_stopped /\ SO_started ∉ o) /\
  (forall p, SO_unlink p ∈ o -> e_bind e = Error EADDRINUSE /\ e_connect e = Error ECONNREFUSED /\ sv_kind s = LocalServer p).

(** A stop without a descriptor of its own. *)
Definition clean_stop (stop : dmn -> nat -> outcome (dmn * list server_output)) : Prop :=
  forall d others i s, served_ok d others -> dm_servers d !! i = Some s -> sv_fd s = None ->
    exists d' o, stop d i = Ret (d', o ++ [SO_stopped]) /\ serves others i d d' (stopped_server s) /\ Forall from_client o.

Lemma net_stop_clean : clean_stop net_stop.
Proof.
  intros d others i s [Hok Hw] Hi Hf. destruct (net_stop_ok d others i s Hok Hi) as (d' & o & E & Hok' & Hon & Hsv & Ho).
  rewrite Hf in E. exists d', o. split_and!; [done| |done]. by eapply serves_stopped.
Qed.

Lemma inet_stop_clean : clean_stop inet_stop.
Proof.
  intros d others i s Hok Hi Hf. unfold inet_stop. rewrite (close_fd_eq _ _ _ Hi), bind_Ret, Hf.
  assert (with_fd s None = s) as -> by (destruct s; cbn in *; by subst). rewrite (set_server_id _ _ _ Hi).
  destruct (net_stop_clean d others i s Hok Hi Hf) as (d' & o & E & ?). rewrite E, bind_Ret. by exists d', o.
Qed.

(** A call that is not in an explicit list. *)
Ltac not_in :=
  let Hx := fresh in intros Hx; repeat (apply elem_of_cons in Hx as [Hx|Hx]; [done|]); by apply elem_of_nil in Hx.

(** What a failed start leaves. *)
Lemma stopped_result e s u o :
  descriptors (fds (sv_fd s)) u = Some [] -> Forall from_client o -> SO_started ∉ u ->
  (forall p, SO_unlink p ∈ u -> e_bind e = Error EADDRINUSE /\ e_connect e = Error ECONNREFUSED /\ sv_kind s = LocalServer p) ->
  start_result e s (stopped_server s) (u ++ o ++ [SO_stopped]).
Proof.
  intros Hu Ho Hst Hun. split_and!.
  - rewrite descriptors_app, Hu. cbn [mbind option_bind]. rewrite descriptors_app, descriptors_client by done. done.
  - unfold fd_ok. cbn. by destruct (sv_kind s).
  - done.
  - right. split_and!; [done| |].
    + by rewrite app_assoc, list.last_snoc.
    + rewrite !not_elem_of_app, list_elem_of_singleton. split_and!; [done| |done].
      intros Hx. by eapply list.Forall_forall in Hx; [|exact Ho].
  - intros p. rewrite !elem_of_app, list_elem_of_singleton. intros [Hx|[Hx|?]]; [auto| |done].
    by eapply list.Forall_forall in Hx; [|exact Ho].
Qed.

Lemma start_failed_ok stop e d others i s fd u :
  clean_stop stop -> served_ok d others -> dm_servers d !! i = Some s -> sv_fd s = None ->
  (forall p, SO_unlink p ∈ u -> e_bind e = Error EADDRINUSE /\ e_connect e = Error ECONNREFUSED /\ sv_kind s = LocalServer p) ->
  u = [] \/ (exists p, u = [SO_unlink p]) ->
  exists d' s' o, start_failed stop d i s fd u = Ret (d', o) /\ serves others i d d' s' /\ start_result e s s' o.
Proof.
  intros Hstop Hok Hi Hf Hun Hu. unfold start_failed.
  assert (with_fd s None = s) as -> by (destruct s; cbn in *; by subst). rewrite (set_server_id _ _ _ Hi).
  destruct (Hstop d others i s Hok Hi Hf) as (d' & o & E & Hs & Ho). rewrite E, bind_Ret.
  exists d', (stopped_server s), ((SO_socket fd :: u ++ [SO_close fd]) ++ o ++ [SO_stopped]). split_and!; [|done|].
  - cbn. by rewrite <- app_assoc.
  - apply stopped_result; [|done| |].
    + rewrite Hf. destruct Hu as [->|[p ->]]; cbn; by rewrite decide_True.
    + destruct Hu as [->|[p ->]]; cbn [app]; not_in.
    + intros p. cbn. rewrite elem_of_cons, elem_of_app, list_elem_of_singleton. intros [?|[?|?]]; [done|auto|done].
Qed.

Lemma start_listen_ok stop e d others i s fd u :
  clean_stop stop -> served_ok d others -> dm_servers d !! i = Some s -> sv_fd s = None ->
  (forall p, SO_unlink p ∈ u -> e_bind e = Error EADDRINUSE /\ e_connect e = Error ECONNREFUSED /\ sv_kind s = LocalServer p) ->
  u = [] \/ (exists p, u = [SO_unlink p]) ->
  exists d' s' o, start_listen stop e d i s fd u = Ret (d', o) /\ serves others i d d' s' /\ start_result e s s' o.
Proof.
  intros Hstop Hok Hi Hf Hun Hu. unfold start_listen. destruct (e_listen e); [|by apply start_failed_ok].
  unfold net_start. rewrite (get_server_Ret _ _ _ (set_server_lookup d i s _ Hi)), bind_Ret.
  cbn [sv_fd with_fd]. rewrite bind_Ret, set_server_twice.
  eexists _, _, _. split_and!; [done|by eapply serves_same|]. split_and!.
  - rewrite Hf. by destruct Hu as [->|[p ->]].
  - unfold fd_ok. cbn. by destruct (sv_kind s).
  - done.
  - left. split_and!; [done| |]; destruct Hu as [->|[p ->]]; cbn; try done.
    + not_in.
    + not_in.
  - intros p. rewrite elem_of_cons, elem_of_app, !elem_of_cons, elem_of_nil.
    intros [?|[?|[?|[?|?]]]]; try done. by apply Hun.
Qed.

Lemma left_result e s : fd_ok s -> sv_io s = false -> start_result e s (with_may_fail s) [SO_stopped].
Proof. intros Hf Hio. split_and!; [done|done|done|right; split_and!; [done|done|not_in]|]. intros p Hp. exfalso. revert Hp. not_in. Qed.

Lemma idle_result e s : fd_ok s -> sv_io s = false -> start_result e s s [SO_stopped].
Proof. intros Hf Hio. split_and!; [done|done|done|right; split_and!; [done|done|not_in]|]. intros p Hp. exfalso. revert Hp. not_in. Qed.

Lemma idle_fd s : fd_ok s -> sv_io s = false -> sv_kind s <> SystemdServer -> sv_fd s = None.
Proof.
  intros [_ Hf] Hio Hk. rewrite Hio in Hf. destruct (sv_fd s) as [fd|]; [|done].
  destruct (sv_kind s); [..|done]; by rewrite bool_decide_true in Hf.
Qed.

Lemma not_in_nil (P : text -> Prop) : forall p, SO_unlink p ∈ [] -> P p.
Proof. intros p Hp. by apply not_elem_of_nil in Hp. Qed.

Lemma inet_start_ok e d others i s port :
  served_ok d others -> dm_servers d !! i = Some s -> fd_ok s -> sv_io s = false -> sv_kind s = InetServer port ->
  exists d' s' o, inet_start e d i = Ret (d', o) /\ serves others i d d' s' /\ start_result e s s' o.
Proof.
  intros Hok Hi Hfd Hio Ek. assert (sv_fd s = None) as Hf by (apply idle_fd; [done|done|by rewrite Ek]).
  unfold inet_start. rewrite (get_server_Ret _ _ _ Hi), bind_Ret. destruct (_ && _).
  { eexists _, _, _. split_and!; [done|by eapply serves_same|by apply left_result]. }
  destruct (e_socket e) as [fd|].
  - destruct (e_bind e).
    + apply start_listen_ok; [apply inet_stop_clean|done..|apply not_in_nil|by left].
    + apply start_failed_ok; [apply inet_stop_clean|done..|apply not_in_nil|by left].
  - assert (with_fd s None = s) as -> by (destruct s; cbn in *; by subst). rewrite (set_server_id _ _ _ Hi).
    destruct (inet_stop_clean d others i s Hok Hi Hf) as (d' & o & E & Hs & Ho).
    exists d', (stopped_server s), ([] ++ o ++ [SO_stopped]). split_and!; [done|done|].
    apply stopped_result; [by rewrite Hf|done|apply not_elem_of_nil|apply not_in_nil].
Qed.

Lemma local_start_ok e d others i s path :
  served_ok d others -> dm_servers d !! i = Some s -> fd_ok s -> sv_io s = false -> sv_kind s = LocalServer path ->
  exists d' s' o, local_start path e d i = Ret (d', o) /\ serves others i d d' s' /\ start_result e s s' o.
Proof.
  intros Hok Hi Hfd Hio Ek. assert (sv_fd s = None) as Hf by (apply idle_fd; [done|done|by rewrite Ek]).
  unfold local_start. rewrite (get_server_Ret _ _ _ Hi), bind_Ret. destruct (_ && _).
  { eexists _, _, _. split_and!; [done|by eapply serves_same|by apply left_result]. }
  pose proof net_stop_clean as Hclean. destruct (e_socket e) as [fd|].
  - destruct (e_bind e) as [|n] eqn:Eb; [by apply start_listen_ok; [..|apply not_in_nil|left]|].
    destruct (decide (n = EADDRINUSE)) as [->|Hn]; [|by apply start_listen_ok; [..|apply not_in_nil|left]].
    destruct (e_connect e) as [|m] eqn:Ec; [by apply start_failed_ok; [..|apply not_in_nil|left]|].
    destruct (decide (m = ECONNREFUSED)) as [->|Hm]; [|by apply start_failed_ok; [..|apply not_in_nil|left]].
    assert (forall p, SO_unlink p ∈ [SO_unlink path] ->
      e_bind e = Error EADDRINUSE /\ e_connect e = Error ECONNREFUSED /\ sv_kind s = LocalServer p) as Hu.
    { intros p Hp%list_elem_of_singleton. injection Hp as ->. by rewrite Eb, Ec. }
    destruct (e_bind2 e).
    + apply start_listen_ok; eauto.
    + apply start_failed_ok; eauto.
  - assert (with_fd s None = s) as -> by (destruct s; cbn in *; by subst). rewrite (set_server_id _ _ _ Hi).
    destruct (net_stop_clean d others i s Hok Hi Hf) as (d' & o & E & Hs & Ho).
    exists d', (stopped_server s), ([] ++ o ++ [SO_stopped]). split_and!; [done|done|].
    apply stopped_result; [by rewrite Hf|done|apply not_elem_of_nil|apply not_in_nil].
Qed.

Lemma systemd_start_ok e d others i s :
  served_ok d others -> dm_servers d !! i = Some s -> fd_ok s -> sv_io s = false -> sv_kind s = SystemdServer ->
  exists d' s' o, systemd_start e d i = Ret (d', o) /\ serves others i d d' s' /\ start_result e s s' o.
Proof.
  intros Hok Hi Hfd Hio Ek. unfold systemd_start, net_start. rewrite (get_server_Ret _ _ _ Hi), bind_Ret.
  destruct (sv_fd s) as [fd|] eqn:Ef.
  2:{ exists d, s, [SO_stopped]. split_and!; [done| |by apply idle_result]. rewrite <- (set_server_id d i s Hi) at 2.
      by eapply serves_same. }
  destruct (e_listen e).
  - rewrite !bind_Ret, Ef, bind_Ret. eexists _, _, _. split_and!; [done|by eapply serves_same|]. split_and!.
    + done.
    + split; [done|]. cbn. by rewrite Ek, Ef.
    + done.
    + left. split_and!; [done|done|]. not_in.
    + intros p Hp. exfalso. revert Hp. not_in.
  - destruct Hok as [Hok Hw]. destruct (net_stop_ok d others i s Hok Hi) as (d' & o & E & Hok' & Hon & Hsv & Ho).
    eexists d', _, _. split_and!; [done|by eapply serves_stopped|].
    assert (forall x, x ∈ o ++ closes (sv_fd s) ++ [SO_stopped] -> from_client x \/ x = SO_close fd \/ x = SO_stopped) as Hx.
    { rewrite Ef. intros x. cbn. rewrite elem_of_app, elem_of_cons, list_elem_of_singleton. intros [Hx|[?|?]]; [|tauto..].
      left. by eapply list.Forall_forall in Hx. }
    split_and!; [|by unfold fd_ok; cbn; rewrite Ek|done| |].
    + rewrite descriptors_app, descriptors_client by done. cbn [mbind option_bind].
      rewrite descriptors_app, descriptors_closes. done.
    + right. split_and!; [done|by rewrite app_assoc, list.last_snoc|]. intros Hin. by destruct (Hx _ Hin) as [?|[?|?]].
    + intros p Hin. by destruct (Hx _ Hin) as [?|[?|?]].
Qed.

Lemma net_server_start_ok e d others i s :
  served_ok d others -> dm_servers d !! i = Some s -> fd_ok s -> sv_io s = false ->
  exists d' s' o, net_server_start e d i = Ret (d', o) /\ serves others i d d' s' /\ start_result e s s' o.
Proof.
  intros Hok Hi Hfd Hio. unfold net_server_start. rewrite (get_server_Ret _ _ _ Hi), bind_Ret.
  destruct (sv_kind s) as [port|path|] eqn:Ek.
  - by eapply inet_start_ok.
  - by eapply local_start_ok.
  - by eapply systemd_start_ok.
Qed.

(** *** New clients *)

Lemma fresh_addr d others : daemon_ok d others -> dm_clients d !! dm_next d = None /\ addr_of d (dm_next d) = 0.
Proof.
  intros [_ _ Hn]. assert (dm_clients d !! dm_next d = None) as E.
  { destruct (dm_clients d !! dm_next d) eqn:E; [|done]. assert (dm_next d < dm_next d)%nat by (apply Hn; eauto). lia. }
  split; [done|]. unfold addr_of. by rewrite E.
Qed.

(** The new client [c] of the server [i], with the references [cs] and [q] of the server. *)
Definition add_client (d : dmn) (r : router) (i : nat) (s : NetServer) (c : ClientConnection) : dmn :=
  mkDaemon r (dm_cache d) (dm_systemd d) (<[i := s]> (dm_servers d)) (<[dm_next d := (i, c)]> (dm_clients d)) (S (dm_next d)).

Lemma add_client_ok d others i s r s' c :
  served_ok d others -> dm_servers d !! i = Some s ->
  pool_ok r (addr_of (add_client d r i s' c)) others ->
  (open_client c /\ sv_connections s' = sv_connections s ++ [dm_next d] /\ sv_cleanup_q s' = sv_cleanup_q s \/
   gone_client c /\ sv_connections s' = sv_connections s /\ sv_cleanup_q s' = sv_cleanup_q s ++ [dm_next d]) ->
  served_ok (add_client d r i s' c) others.
Proof.
  intros [Hok Hw] Hi Hp Hc. destruct (fresh_addr d others Hok) as [Hfresh _]. pose proof Hok as [_ Hr Hn].
  pose proof (refs_of_lookup _ _ _ Hi) as Hrs. pose proof (refs_ok_nodup _ _ Hr _ _ _ Hrs) as Hnd.
  assert (forall x l, x <> dm_next d -> (x ∈ l ++ [dm_next d]) <-> (x ∈ l)) as Hadd.
  { intros x l Hx. rewrite elem_of_app, list_elem_of_singleton. tauto. }
  assert (forall l, dm_next d ∈ (l ++ [dm_next d])) as Hin.
  { intros l. apply elem_of_app. right. by apply list_elem_of_singleton. }
  assert ((dm_next d ∉ sv_connections s) /\ (dm_next d ∉ sv_cleanup_q s)) as [Hnc Hnq].
  { split; intros Hx; [destruct (refs_ok_conn _ _ Hr _ _ _ _ Hrs Hx) as (? & ?)|
      destruct (refs_ok_queue _ _ Hr _ _ _ _ Hrs Hx) as (? & ? & _)]; congruence. }
  split; [split|].
  - done.
  - cbn. rewrite refs_of_insert. eapply refs_ok_update; [exact Hr|exact Hrs| | | | | |].
    + intros x c0 E. congruence.
    + destruct Hc as [(? & -> & ->)|(? & -> & ->)]; auto.
    + intros Hx. destruct Hc as [(_ & _ & Hq)|(? & _)]; [|done]. by rewrite Hq in Hx.
    + destruct Hc as [(_ & -> & _)|(_ & -> & _)]; [|done]. apply list.NoDup_app. split_and!; [done| |apply NoDup_singleton].
      intros x Hx ->%list_elem_of_singleton. done.
    + intros x Hx. destruct Hc as [(_ & -> & _)|(_ & -> & _)]; auto.
    + intros x Hx. destruct Hc as [(_ & _ & ->)|(_ & _ & ->)]; auto.
  - intros k [x Hx]. cbn in *. apply lookup_client_cases in Hx as [[-> _]|[_ Hx]]; [lia|].
    assert (k < dm_next d)%nat by (apply Hn; eauto). lia.
  - intros k j x Hk Hg. cbn in Hk. apply lookup_client_cases in Hk as [[-> E]|[Hne Hk]].
    + injection E as -> ->. exists s'. split; [by eapply (set_server_lookup d i s)|].
      destruct Hc as [[Ho _]|(_ & _ & ->)]; [|done]. by apply open_not_gone in Ho.
    + destruct (Hw k j x Hk Hg) as (s0 & Hs0 & Hq). cbn. destruct (decide (j = i)) as [->|Hji].
      * exists s'. split; [by eapply (set_server_lookup d i s)|]. rewrite Hi in Hs0. injection Hs0 as <-.
        destruct Hc as [(? & _ & ->)|(? & _ & ->)]; [done|]. apply elem_of_app. by left.
      * exists s0. by rewrite list_lookup_insert_ne.
Qed.

(** What a server keeps when clients come and go. *)
Definition same_server (s s' : NetServer) : Prop :=
  sv_kind s' = sv_kind s /\ sv_fd s' = sv_fd s /\ sv_io s' = sv_io s /\ sv_cleanup s' = sv_cleanup s.

Lemma same_server_fd_ok s s' : same_server s s' -> fd_ok s -> fd_ok s'.
Proof. unfold fd_ok. by intros (-> & -> & -> & ->). Qed.

Lemma setupConnection_same s :
  same_server s (setupConnection s) /\ sv_connections (setupConnection s) = sv_connections s /\
  sv_cleanup_q (setupConnection s) = sv_cleanup_q s.
Proof. unfold setupConnection. by destruct (sv_kind s). Qed.

(** A client without an address is told so, and stopped. *)
Lemma client_refused id :
  exists o, client_start (mkClient true false 0 id None false)
            = Ret (mkClient false false 0 id None false, o ++ [CO_deregister; CO_close]) /\ Forall internal o.
Proof.
  eexists (writes [u8 (EIB_RESET_CONNECTION ≫ 8); u8 EIB_RESET_CONNECTION]). split; [reflexivity|by repeat constructor].
Qed.

(** A connection gets an address of its own and is served, or it is refused. *)
Lemma io_cb_ok d others i s :
  served_ok d others -> dm_servers d !! i = Some s ->
  exists a r s' c o, get_client_addr (dm_router d) = Ret (a, r) /\
    io_cb true d i = Ret (add_client d r i s' c, o) /\ served_ok (add_client d r i s' c) others /\ same_server s s' /\
    cl_addr c = a /\ (a <> 0 -> open_client c) /\ (a = 0 -> gone_client c).
Proof.
  intros Hok Hi. pose proof Hok as [Hdk Hw]. destruct (fresh_addr d others Hdk) as [Hfresh Hz].
  destruct (setupConnection_same s) as (Hss & Hsc & Hsq). set (s0 := setupConnection s) in *.
  pose proof (daemon_ok_pool _ _ Hdk) as Hp. set (k := dm_next d) in *.
  destruct (get_client_addr_spec (dm_router d) (pool_ok_wf _ _ _ Hp)) as (a & r & Ea & Ha).
  assert (forall s' c x, addr_of (add_client d r i s' c) x = if decide (x = k) then cl_addr c else addr_of d x) as Haddr.
  { intros s' c x. unfold addr_of, add_client. cbn. fold k. destruct (decide (x = k)) as [->|Hne].
    - by rewrite lookup_insert_eq.
    - by rewrite lookup_insert_ne. }
  unfold io_cb. rewrite (get_server_Ret _ _ _ Hi), bind_Ret. fold s0. unfold new_client. cbn [dm_router set_server].
  rewrite Ea, bind_Ret. cbv zeta. rewrite bind_Ret. fold k. cbn [dm_clients set_server dm_next dm_cache dm_systemd dm_servers].
  fold k. rewrite (get_client_Ret _ k (i, mkClient true false a (Z.of_nat k) None false)) by (cbn; by rewrite lookup_insert_eq).
  rewrite bind_Ret. exists a, r. destruct (decide (a = 0)) as [->|Hne].
  - assert (r = dm_router d) as ->.
    { destruct Ha as [(_ & -> & _)|Ha]; [done|]. destruct Ha as (Hx & _), (pool_ok_wf _ _ _ Hp) as (? & _). lia. }
    destruct (client_refused (Z.of_nat k)) as (o & -> & Ho). rewrite bind_Ret.
    rewrite client_calls_internal by done. cbn [client_calls]. unfold deregister.
    rewrite (get_server_Ret _ i s0), !bind_Ret by (by apply (set_server_lookup d i s)).
    set (s1 := with_refs s0 (sv_connections s0) (sv_cleanup_q s0 ++ [k])).
    set (c := mkClient false false 0 (Z.of_nat k) None false).
    match goal with |- context [get_server ?x i] => assert (x = add_client d (dm_router d) i s1 c) as -> end.
    { unfold add_client, set_server, set_client. cbn. fold k. by rewrite list_insert_insert_eq, insert_insert_eq. }
    rewrite (get_server_Ret _ i s1), bind_Ret by (by apply (set_server_lookup d i s)). cbn [cl_running c].
    unfold drop_ref. rewrite (get_server_Ret _ i s1), bind_Ret by (by apply (set_server_lookup d i s)).
    rewrite decide_True, bind_Ret.
    2:{ apply elem_of_app. right. apply elem_of_app. right. by apply list_elem_of_singleton. }
    eexists s1, c, _. split_and!; [done|done| |done..].
    eapply add_client_ok; [done|done| |right; split_and!; [done|exact Hsc|cbn; by rewrite Hsq]].
    eapply pool_ok_ext; [done| |exact Hp]. intros x. rewrite Haddr. destruct (decide (x = k)) as [->|Hxk]; [by rewrite Hz|done].
  - unfold client_start. cbn [cl_running cl_fd cl_addr negb]. rewrite decide_False, bind_Ret by done. cbn [client_calls].
    rewrite bind_Ret. cbn [cl_id a_conn cl_lc].
    set (c := mkClient true true a (Z.of_nat k) None false).
    rewrite (get_server_Ret _ i s0), bind_Ret by (by apply (set_server_lookup d i s)). cbn [cl_running c].
    set (s1 := with_refs s0 (sv_connections s0 ++ [k]) (sv_cleanup_q s0)).
    match goal with |- context [Ret (set_server ?x ?j ?y, _)] => assert (set_server x j y = add_client d r i s1 c) as -> end.
    { unfold add_client, set_server, set_client. cbn. fold k. by rewrite list_insert_insert_eq, insert_insert_eq. }
    eexists s1, c, _. split_and!; [done|done| |done..].
    eapply add_client_ok; [done|done| |left; split_and!; [done|cbn; by rewrite Hsc|done]].
    destruct Ha as [(? & _)|Ha]; [done|]. eapply pool_take; [exact Hp|exact Ha|exact Hz|]. intros x. apply Haddr.
Qed.

(** The queue of a server is worked off. *)
Lemma cleanup_cb_ok d others i s :
  served_ok d others -> dm_servers d !! i = Some s ->
  exists d' cs', cleanup_cb d i = Ret d' /\ serves others i d d' (with_refs s cs' []) /\ dm_router d' = dm_router d /\
    (forall x, x ∈ cs' <-> x ∈ sv_connections s /\ x ∉ sv_cleanup_q s) /\
    (forall k c, dm_clients d' !! k = Some (i, c) -> open_client c).
Proof.
  intros [Hok Hw] Hi. unfold cleanup_cb. rewrite (get_server_Ret _ _ _ Hi), bind_Ret.
  destruct (cleanup_loop_ok (sv_cleanup_q s) d others i s Hok Hi eq_refl) as (d' & cs' & E & Hok' & Hon & Hsv & Hr & Hsub & Hcs).
  pose proof (insert_server _ _ _ _ _ Hi Hsv) as Hi'.
  assert (forall k c, dm_clients d' !! k = Some (i, c) -> open_client c) as Hopen.
  { intros k c Hk. destruct (refs_ok_client _ _ (daemon_ok_refs _ _ Hok') k i c Hk) as (cs & q & Hj & Hc).
    rewrite (refs_of_lookup _ _ _ Hi') in Hj. injection Hj as <- <-. cbn in Hc.
    destruct Hc as [[? _]|[Hg [Hx|Hx]]]; [done| |by apply not_elem_of_nil in Hx].
    apply Hcs in Hx as [Hx Hnq]. destruct (Hw k i c) as (s0 & Hs0 & Hq); [by eapply lookup_weaken|done|].
    rewrite Hi in Hs0. injection Hs0 as <-. done. }
  exists d', cs'. split_and!; [done| |done|done|done]. split_and!; [|done|done]. split; [done|]. intros k j c Hk Hg.
  destruct (decide (j = i)) as [->|Hne]; [by apply Hopen, open_not_gone in Hk|].
  destruct Hon as (_ & _ & _ & Hcl). apply Hcl in Hk; [|done]. destruct (Hw k j c Hk Hg) as (x & Hx & Hq).
  exists x. split; [|done]. by rewrite Hsv, list_lookup_insert_ne.
Qed.

(** *** What happens to a client *)

Lemma client_stops (d : dmn) k : client_happens d k CL_stop = stop_client d k.
Proof.
  unfold client_happens, stop_client. destruct (get_client d k) as [[i c]|]; [|done]. rewrite !bind_Ret.
  cbn [client_step]. destruct (client_stop_calls c) as (c' & o & -> & _). by rewrite !bind_Ret.
Qed.

Lemma client_happens_ok d others k i c ev d' o :
  served_ok d others -> dm_clients d !! k = Some (i, c) -> cl_fd c = true -> client_happens d k ev = Ret (d', o) ->
  served_ok d' others /\
  exists s s', dm_servers d !! i = Some s /\ dm_servers d' = <[i := s']> (dm_servers d) /\ same_server s s'.
Proof.
  intros [Hok Hw] Hk Hfd E.
  destruct (refs_ok_client _ _ (daemon_ok_refs _ _ Hok) k i c Hk) as (cs & q & Hrs & Hc).
  destruct Hc as [[Hopen Hcs]|[((Hf & _) & _) _]]; [|congruence].
  unfold refs_of in Hrs. rewrite list_lookup_fmap in Hrs.
  destruct (dm_servers d !! i) as [s|] eqn:Hi; [|done]. injection Hrs as <- <-.
  assert (ev = CL_stop \/ ev <> CL_stop) as [->|Hev] by (destruct ev; [by right..|by left]).
  - rewrite client_stops in E.
    destruct (stop_client_ok d others k i c s Hok Hk Hi) as (r & c' & o' & E' & _ & Hg & Hok').
    rewrite E in E'. injection E' as -> ->. split; [|by eexists s, _]. split; [done|].
    intros x j y Hx Hgy. cbn in Hx |- *. apply lookup_client_cases in Hx as [[-> Hjy]|[Hne Hx]].
    + injection Hjy as -> ->. eexists. split; [by apply (set_server_lookup d i s)|]. cbn.
      apply elem_of_app. right. by apply list_elem_of_singleton.
    + destruct (Hw x j y Hx Hgy) as (s0 & Hs0 & Hq). destruct (decide (j = i)) as [->|Hji].
      * eexists. split; [by apply (set_server_lookup d i s)|]. cbn. apply elem_of_app. left. congruence.
      * exists s0. by rewrite list_lookup_insert_ne.
  - unfold client_happens in E. rewrite (get_client_Ret _ _ _ Hk), bind_Ret in E.
    apply bind_Ret_inv in E as ([[c' g] o'] & E1 & E). apply client_step_keeps in E1 as [(Hf & Hr & Ha) Hint]; [|done].
    rewrite <- (app_nil_r o'), client_calls_internal in E by done. cbn [client_calls] in E. rewrite bind_Ret in E.
    injection E as <- _. assert (open_client c') as Hopen'.
    { destruct Hopen as (? & ? & ?). split_and!; congruence. }
    split; [|exists s, s; split_and!; [done| |done]; cbn; symmetry; by apply list_insert_id]. split; [split|]; cbn.
    + eapply pool_ok_ext; [done| |exact (daemon_ok_pool _ _ Hok)]. intros x. unfold addr_of. cbn.
      destruct (decide (x = k)) as [->|Hne]; [by rewrite lookup_insert_eq, Hk|by rewrite lookup_insert_ne].
    + change (refs_ok (<[k := (i, c')]> (dm_clients d)) (refs_of (dm_servers d))).
      rewrite <- (list_insert_id (refs_of (dm_servers d)) i _ (refs_of_lookup _ _ _ Hi)).
      eapply refs_ok_update; [exact (daemon_ok_refs _ _ Hok)|by apply refs_of_lookup| |by left| | |done|done].
      * intros x y Hx. rewrite Hk in Hx. by injection Hx as <- _.
      * intros Hq. destruct (refs_ok_queue _ _ (daemon_ok_refs _ _ Hok) i _ _ k (refs_of_lookup _ _ _ Hi) Hq) as (y & Hy & Hg).
        rewrite Hk in Hy. injection Hy as <-. by apply open_not_gone in Hopen.
      * by eapply refs_ok_nodup, refs_of_lookup; [exact (daemon_ok_refs _ _ Hok)|].
    + intros x [y Hy]. apply (daemon_ok_next _ _ Hok). apply lookup_client_cases in Hy as [[-> _]|[_ Hy]]; eauto.
    + intros x j y Hx Hgy. cbn in Hx |- *. apply lookup_client_cases in Hx as [[-> Hjy]|[Hne Hx]]; [|eauto].
      injection Hjy as -> ->. by apply open_not_gone in Hopen'.
Qed.

(** ** Everything that can happen *)

(** The daemon with the addresses that others than clients hold.  A server accepts
    a connection while it listens, its queue is worked off, something happens to a
    client whose connection is open, a server is started or stopped; the router does
    what leaves its block of addresses alone, and others get and give back addresses. *)
Inductive daemon_step : dmn * list Z -> dmn * list Z -> Prop :=
| step_accept d others i s accepted d' o :
    dm_servers d !! i = Some s -> sv_io s = true -> io_cb accepted d i = Ret (d', o) ->
    daemon_step (d, others) (d', others)
| step_cleanup d others i s d' :
    dm_servers d !! i = Some s -> sv_cleanup s = true -> cleanup_cb d i = Ret d' ->
    daemon_step (d, others) (d', others)
| step_client d others k i c ev d' o :
    dm_clients d !! k = Some (i, c) -> cl_fd c = true -> client_happens d k ev = Ret (d', o) ->
    daemon_step (d, others) (d', others)
| step_start d others i s e d' o :
    dm_servers d !! i = Some s -> sv_io s = false -> net_server_start e d i = Ret (d', o) ->
    daemon_step (d, others) (d', others)
| step_stop d others i s d' o :
    dm_servers d !! i = Some s -> net_server_stop d i = Ret (d', o) -> daemon_step (d, others) (d', others)
| step_router d others r :
    pool r = pool (dm_router d) -> daemon_step (d, others) (set_router d r, others)
| step_take d others a r :
    get_client_addr (dm_router d) = Ret (a, r) -> a <> 0 -> daemon_step (d, others) (set_router d r, a :: others)
| step_give d others1 a others2 r :
    release_client_addr (dm_router d) a = Ret r ->
    daemon_step (d, others1 ++ a :: others2) (set_router d r, others1 ++ others2).

(** The daemon before its servers are started. *)
Definition just_set_up (d : dmn) : Prop :=
  pool_wf (pool (dm_router d)) /\ Forall (fun x => x = false) (client_addrs (pool (dm_router d))) /\
  dm_clients d = ∅ /\ exists l, dm_servers d = map (fun '(k, cfg, ign, fd) => new_server k cfg ign fd) l /\
    Forall (fun '(k, cfg, ign, fd) => k = SystemdServer \/ fd = None) l.

Definition inv (x : dmn * list Z) : Prop :=
  served_ok (fst x) (snd x) /\ forall i s, dm_servers (fst x) !! i = Some s -> fd_ok s.

Lemma just_set_up_inv d : just_set_up d -> inv (d, []).
Proof.
  intros (Hp & Hfree & Hcl & l & Hsv & Hl).
  assert (forall a, ~ taken (dm_router d) a) as Hnt.
  { unfold taken. intros a Ht. apply list_elem_of_lookup_2 in Ht. by eapply list.Forall_forall in Ht; [|exact Hfree]. }
  assert (forall k, addr_of d k = 0) as Hz by (intros k; unfold addr_of; by rewrite Hcl, lookup_empty).
  assert (forall i s, dm_servers d !! i = Some s -> sv_connections s = [] /\ sv_cleanup_q s = [] /\ fd_ok s) as Hs.
  { intros i s Hi. rewrite Hsv in Hi. rewrite list_lookup_fmap in Hi. destruct (l !! i) as [[[[k cfg] ign] fd]|] eqn:El; [|done].
    injection Hi as <-. split_and!; [done..|]. split; [done|]. cbn. apply list_elem_of_lookup_2 in El.
    eapply list.Forall_forall in El; [|exact Hl]. cbn in El. destruct El as [->| ->]; [done|]. by destruct k. }
  assert (forall i cs q, refs_of (dm_servers d) !! i = Some (cs, q) -> cs = [] /\ q = []) as Hrs.
  { intros i cs q Hi. unfold refs_of in Hi. rewrite list_lookup_fmap in Hi. destruct (dm_servers d !! i) as [s|] eqn:Ei; [|done].
    injection Hi as <- <-. by destruct (Hs i s Ei) as (-> & -> & _). }
  split; [split; [split|]|].
  - split; cbn; [done| | | |constructor|].
    + intros k Hk. by rewrite Hz in Hk.
    + intros k k' Hk. by rewrite Hz in Hk.
    + intros a Ha. by apply not_elem_of_nil in Ha.
    + intros a _ Ht. by apply Hnt in Ht.
  - split; cbn.
    + intros k i c Hk. by rewrite Hcl, lookup_empty in Hk.
    + intros i cs q Hi. destruct (Hrs i cs q Hi) as [-> _]. constructor.
    + intros i cs q k Hi Hk. destruct (Hrs i cs q Hi) as [-> _]. by apply not_elem_of_nil in Hk.
    + intros i cs q k Hi Hk. destruct (Hrs i cs q Hi) as [_ ->]. by apply not_elem_of_nil in Hk.
  - cbn. intros k [x Hx]. by rewrite Hcl, lookup_empty in Hx.
  - intros k i c Hk. cbn in Hk. by rewrite Hcl, lookup_empty in Hk.
  - intros i s Hi. by apply (Hs i s).
Qed.

Lemma fd_ok_update (sv : list NetServer) i s' :
  (forall j s, sv !! j = Some s -> fd_ok s) -> fd_ok s' -> forall j s, <[i := s']> sv !! j = Some s -> fd_ok s.
Proof.
  intros Hall Hs j s Hj. destruct (decide (i < length sv)%nat) as [Hlt|Hge].
  - apply lookup_server_cases in Hj as [[_ ->]|[_ Hj]]; [done|by eapply Hall|by apply lookup_lt_is_Some].
  - rewrite list_insert_ge in Hj by lia. by eapply Hall.
Qed.

Lemma serves_inv others i d d' s' :
  (forall j s, dm_servers d !! j = Some s -> fd_ok s) -> serves others i d d' s' -> fd_ok s' -> inv (d', others).
Proof. intros Hall (Hok & _ & Hsv) Hs. split; [done|]. cbn. rewrite Hsv. by apply fd_ok_update. Qed.

Lemma router_inv d others r others' :
  inv (d, others) -> pool_ok r (addr_of d) others' -> inv (set_router d r, others').
Proof. intros [[[Hp Hr Hn] Hw] Hf] Hp'. by split; [split; [split|]|]. Qed.

Lemma daemon_step_inv x y : inv x -> daemon_step x y -> inv y.
Proof.
  intros Hx Hstep. destruct Hstep as [d others i s acc d' o Hi Hio E|d others i s d' Hi Hio E|
    d others k i c ev d' o Hk Hfd E|d others i s e d' o Hi Hio E|d others i s d' o Hi E|d others r Hr|
    d others a r E Ha|d others1 a others2 r E]; pose proof Hx as [Hok Hf]; cbn in Hok, Hf.
  - destruct acc; [|by injection E as <- <-].
    destruct (io_cb_ok d others i s Hok Hi) as (a & r & s' & c & o' & _ & E' & Hok' & Hss & _).
    rewrite E in E'. injection E' as -> _. split; [done|]. cbn. apply fd_ok_update; [done|].
    eapply same_server_fd_ok; [exact Hss|by eapply Hf].
  - destruct (cleanup_cb_ok d others i s Hok Hi) as (d1 & cs & E1 & Hs & _). rewrite E in E1. injection E1 as <-.
    eapply serves_inv; [done|exact Hs|]. eapply same_server_fd_ok; [|by eapply Hf]. done.
  - destruct (client_happens_ok d others k i c ev d' o Hok Hk Hfd E) as (Hok' & s & s' & Hi & Hsv & Hss).
    split; [done|]. cbn. rewrite Hsv. apply fd_ok_update; [done|]. eapply same_server_fd_ok; [exact Hss|by eapply Hf].
  - destruct (net_server_start_ok e d others i s Hok Hi (Hf i s Hi) Hio) as (d1 & s1 & o1 & E1 & Hs & Hres).
    rewrite E in E1. injection E1 as <- <-. eapply serves_inv; [done|exact Hs|apply Hres].
  - destruct Hok as [Hdk Hw]. destruct (net_server_stop_ok d others i s Hdk Hi) as (d1 & o1 & o2 & E1 & Hdk1 & Hon & Hsv & _).
    rewrite E in E1. injection E1 as <- _. eapply serves_inv; [done|by eapply serves_stopped|].
    split; [done|]. cbn. by destruct (sv_kind s).
  - apply (router_inv d others r others Hx). destruct Hok as [[Hp _ _] _]. by eapply pool_ok_ext.
  - eapply (router_inv d others); [done|]. destruct Hok as [[Hp _ _] _].
    destruct (get_client_addr_spec (dm_router d) (pool_ok_wf _ _ _ Hp)) as (a1 & r1 & E1 & Hcase).
    rewrite E in E1. injection E1 as <- <-. destruct Hcase as [(? & _)|Hall]; [done|]. by eapply other_take.
  - eapply (router_inv d (others1 ++ a :: others2)); [done|]. destruct Hok as [[Hp _ _] _]. by eapply other_give.
Qed.

Lemma reachable_inv d0 d others : just_set_up d0 -> rtc daemon_step (d0, []) (d, others) -> inv (d, others).
Proof.
  intros H0 Hr. remember (d0, []) as x eqn:Ex. remember (d, others) as y eqn:Ey. assert (inv x) as Hx.
  { subst x. by apply just_set_up_inv. }
  clear d0 d others H0 Ex Ey. induction Hr as [|x y z Hxy Hyz IH]; [done|]. apply IH. by eapply daemon_step_inv.
Qed.

(** ** Theorems *)

(** C6: whatever happens to the servers and their clients, every client is either open, with
    an address, and in the list of its server, or stopped and waiting to be removed; no two
    clients have the same address; an address of the router's block is taken exactly while a
    client or one of the other users has it, and never by both; and no operation of a server
    fails: connections are accepted, the queue is worked off (after which only open clients are
    left) without the assertions of a client's destructor being violated. *)
Theorem clients_served d0 d others :
  just_set_up d0 -> rtc daemon_step (d0, []) (d, others) ->
  (forall k i c, dm_clients d !! k = Some (i, c) -> exists s, dm_servers d !! i = Some s /\
     (open_client c /\ k ∈ sv_connections s \/ gone_client c /\ k ∈ sv_cleanup_q s)) /\
  (forall k k' x y, dm_clients d !! k = Some x -> dm_clients d !! k' = Some y ->
     cl_addr (snd x) <> 0 -> cl_addr (snd x) = cl_addr (snd y) -> k = k') /\
  (forall a, client_addrs_start (pool (dm_router d)) <= a ->
     taken (dm_router d) a <-> a ∈ others \/ exists k x, dm_clients d !! k = Some x /\ cl_addr (snd x) = a) /\
  (forall k x, dm_clients d !! k = Some x -> cl_addr (snd x) ∉ others) /\
  (forall i s, dm_servers d !! i = Some s ->
     (forall accepted, exists d' o, io_cb accepted d i = Ret (d', o)) /\
     exists d', cleanup_cb d i = Ret d' /\ forall k c, dm_clients d' !! k = Some (i, c) -> open_client c).
Proof.
  intros H0 Hr. destruct (reachable_inv d0 d others H0 Hr) as [Hok _]. cbn in Hok. pose proof Hok as [[Hp Href _] Hw].
  assert (forall k x, dm_clients d !! k = Some x -> addr_of d k = cl_addr (snd x)) as Ha.
  { intros k [i c] Hk. unfold addr_of. by rewrite Hk. }
  pose proof Hp as [Hwf Hcl Hinj Hoth _ Htk]. destruct Hwf as (Hpos & _). split_and!.
  - intros k i c Hk. destruct (refs_ok_client _ _ Href k i c Hk) as (cs & q & Hrs & Hc).
    unfold refs_of in Hrs. rewrite list_lookup_fmap in Hrs. destruct (dm_servers d !! i) as [s|] eqn:Hi; [|done].
    injection Hrs as <- <-. exists s. split; [done|]. destruct Hc as [?|[Hg _]]; [by left|right]. split; [done|].
    destruct (Hw k i c Hk Hg) as (s0 & Hs0 & Hq). congruence.
  - intros k k' x y Hx Hy. rewrite <- (Ha k x Hx), <- (Ha k' y Hy). apply Hinj.
  - intros a Hsa. split.
    + intros Ht. destruct (Htk a Hsa Ht) as [?|[k Hk]]; [by left|right]. unfold addr_of in Hk.
      destruct (dm_clients d !! k) as [[i c]|] eqn:E; [by exists k, (i, c)|lia].
    + intros [Ho|(k & x & Hx & Hax)]; [by apply Hoth|]. rewrite <- Hax, <- (Ha k x Hx). apply Hcl. rewrite (Ha k x Hx). lia.
  - intros k x Hx Hin. pose proof (Hoth _ Hin) as [? _]. rewrite <- (Ha k x Hx) in *. destruct (Hcl k) as (_ & _ & ?); [lia|done].
  - intros i s Hi. split.
    + intros []; [|by eexists _, _]. destruct (io_cb_ok d others i s Hok Hi) as (a & r & s' & c & o & _ & E & _). by eexists _, _.
    + destruct (cleanup_cb_ok d others i s Hok Hi) as (d' & cs & E & _ & _ & _ & Hopen). by exists d'.
Qed.

(** C26: a server that is stopped, whatever happened before, gives back everything: the stop
    returns, the server has no connections, every client it had is stopped, those of other
    servers are as they were, and of the router's block exactly the addresses of other
    servers' clients and of the other users stay taken.  A server for TCP or for local
    sockets (not one whose socket systemd has opened, which is to be kept) closes its
    socket exactly once and listens no more. *)
Theorem server_stop_gives_back d0 d others i s :
  just_set_up d0 -> rtc daemon_step (d0, []) (d, others) -> dm_servers d !! i = Some s ->
  exists d' o, net_server_stop d i = Ret (d', o) /\
    (exists s', dm_servers d' = <[i := s']> (dm_servers d) /\ sv_connections s' = [] /\
       (sv_kind s <> SystemdServer -> s' = stopped_server s /\ descriptors (fds (sv_fd s)) o = Some [])) /\
    (forall k c, dm_clients d' !! k = Some (i, c) -> gone_client c) /\
    (forall k j c, j <> i -> dm_clients d' !! k = Some (j, c) <-> dm_clients d !! k = Some (j, c)) /\
    (forall a, client_addrs_start (pool (dm_router d')) <= a ->
       taken (dm_router d') a <-> a ∈ others \/ exists k j c, j <> i /\ dm_clients d !! k = Some (j, c) /\ cl_addr c = a).
Proof.
  intros H0 Hr Hi. destruct (reachable_inv d0 d others H0 Hr) as [[Hdk Hw] _]. cbn in Hdk, Hw.
  destruct (net_server_stop_ok d others i s Hdk Hi) as (d' & o1 & o2 & E & Hdk' & Hon & Hsv & Ho).
  exists d', (o1 ++ o2 ++ [SO_stopped]). pose proof Hon as (_ & _ & _ & Hothers).
  assert (forall k c, dm_clients d' !! k = Some (i, c) -> gone_client c) as Hgone.
  { intros k c Hk. destruct (refs_ok_client _ _ (daemon_ok_refs _ _ Hdk') k i c Hk) as (cs & q & Hrs & Hc).
    rewrite (refs_of_lookup _ _ _ (insert_server _ _ _ _ _ Hi Hsv)) in Hrs. injection Hrs as <- <-.
    destruct Hc as [[_ Hx]|[? _]]; [by apply not_elem_of_nil in Hx|done]. }
  split_and!; [done| |done|done|].
  - exists (stopped_server s). split; [done|]. split; [by destruct s|]. intros _. split; [done|].
    destruct Ho as [[-> Ho]|(Ho & Hk & ->)].
    + rewrite <- app_assoc, descriptors_app, descriptors_closes. cbn [mbind option_bind].
      assert (descriptors [] (stop_unlinks s) = Some []) as Hu.
      { unfold stop_unlinks. by destruct (sv_kind s) as [|[|]|], (sv_fd s). }
      rewrite descriptors_app, Hu. cbn [mbind option_bind]. by rewrite descriptors_app, descriptors_client.
    + rewrite descriptors_app, descriptors_client by done. cbn [mbind option_bind].
      by rewrite descriptors_app, descriptors_closes.
  - pose proof (daemon_ok_pool _ _ Hdk') as [(Hpos & _) Hcl _ Hoth _ Htk]. intros a Ha. split.
    + intros Ht. destruct (Htk a Ha Ht) as [?|[k Hk]]; [by left|right]. unfold addr_of in Hk.
      destruct (dm_clients d' !! k) as [[j c]|] eqn:E'; [|lia]. destruct (decide (j = i)) as [->|Hj].
      * destruct (Hgone k c E') as ((_ & Hz & _) & _). lia.
      * exists k, j, c. split_and!; [done| |done]. by apply Hothers.
    + intros [Hin|(k & j & c & Hj & Hk & <-)]; [by apply Hoth|]. apply Hothers in Hk; [|done].
      assert (addr_of d' k = cl_addr c) as Hak by (unfold addr_of; by rewrite Hk). rewrite <- Hak. apply Hcl. rewrite Hak. lia.
Qed.

(** C28: a start of a server that does not listen returns and ends in one of two ways, of which
    the router is told exactly one: the server listens on its socket, or it is stopped.  Either
    way every socket opened on the way is closed exactly once or kept as the server's, and
    clients and addresses stay as consistent as they were.  The file of a local socket is
    removed only after [bind] found it in use and nobody answered a [connect] to it. *)
Theorem server_start_ends d0 d others i s e :
  just_set_up d0 -> rtc daemon_step (d0, []) (d, others) -> dm_servers d !! i = Some s -> sv_io s = false ->
  exists d' s' o, net_server_start e d i = Ret (d', o) /\
    dm_servers d' = <[i := s']> (dm_servers d) /\ sv_kind s' = sv_kind s /\
    descriptors (fds (sv_fd s)) o = Some (fds (sv_fd s')) /\
    (sv_io s' = true /\ is_Some (sv_fd s') /\ list.last o = Some SO_started /\ SO_stopped ∉ o \/
     sv_io s' = false /\ list.last o = Some SO_stopped /\ SO_started ∉ o) /\
    (forall p, SO_unlink p ∈ o ->
       e_bind e = Error EADDRINUSE /\ e_connect e = Error ECONNREFUSED /\ sv_kind s = LocalServer p) /\
    served_ok d' others.
Proof.
  intros H0 Hr Hi Hio. destruct (reachable_inv d0 d others H0 Hr) as [Hok Hf]. cbn in Hok, Hf.
  destruct (net_server_start_ok e d others i s Hok Hi (Hf i s Hi) Hio) as (d' & s' & o & E & (Hok' & _ & Hsv) & Hd & Hfd & Hk & Hres & Hu).
  exists d', s', o. split_and!; try done. destruct Hres as [(Hio' & Hl & Hn)|?]; [left|by right]. split_and!; try done.
  destruct Hfd as [_ Hfd]. rewrite Hio' in Hfd.
  destruct (sv_kind s'); [by symmetry in Hfd; apply bool_decide_eq_true in Hfd..|by apply Hfd].
Qed.

End NetServerSpec.

(** ** Examples *)

Definition demo_router : Router BusDriver :=
  mkRouter 0x1F00 false [] [] [] [] [] (mkPool 0x1F01 2 1 [false; false])
    (mkFlow true true false false false false) (mkRunning true true true true) [] [] 1 [].

Definition demo_path : text := str "/run/knx".

(** A TCP server and a local one, before they are started. *)
Definition demo_daemon : daemon BusDriver :=
  mkDaemon demo_router None false
    [new_server (InetServer 6720) [] true None; new_server (LocalServer demo_path) [] true None] ∅ 0.

Lemma demo_set_up : just_set_up demo_daemon.
Proof.
  split_and!; [unfold pool_wf; cbn; lia|by repeat constructor|done|].
  exists [(InetServer 6720, [], true, None); (LocalServer demo_path, [], true, None)]. split; [done|].
  repeat constructor; by right.
Qed.

Definition all_well (fd : Z) : start_env := mkStart (Some fd) Success Success Success Success.

(** The state after an operation that returns. *)
Definition after (d : daemon BusDriver) (m : outcome (daemon BusDriver * list server_output)) : daemon BusDriver :=
  fst (result (d, []) m).

(** Both servers are started and accept a client each; a third one is refused. *)
Definition demo_started : daemon BusDriver :=
  let d := after demo_daemon (net_server_start (all_well 5) demo_daemon 0) in after d (net_server_start (all_well 6) d 1).
Definition demo_accepted (d : daemon BusDriver) (i : nat) : daemon BusDriver := after d (io_cb true d i).
Definition served_demo : daemon BusDriver := demo_accepted (demo_accepted (demo_accepted demo_started 0) 1) 0.

Example demo_clients :
  map (fun k => option_map (fun x => (fst x, cl_addr (snd x), cl_running (snd x))) (dm_clients served_demo !! k)) [0; 1; 2]%nat
  = [Some (0%nat, 0x1F01, true); Some (1%nat, 0x1F02, true); Some (0%nat, 0, false)].
Proof. vm_compute. reflexivity. Qed.

(** The third client waits in the queue. *)
Example demo_refs :
  map (fun s => (sv_connections s, sv_cleanup_q s)) (dm_servers served_demo) = [([0], [2]); ([1], [])]%nat.
Proof. vm_compute. reflexivity. Qed.

Lemma demo_reached : rtc daemon_step (demo_daemon, []) (served_demo, []).
Proof.
  eapply rtc_l.
  { eapply (step_start demo_daemon [] 0 _ (all_well 5)); [reflexivity|reflexivity|vm_compute; reflexivity]. }
  eapply rtc_l.
  { eapply (step_start _ [] 1 _ (all_well 6)); [reflexivity|reflexivity|vm_compute; reflexivity]. }
  eapply rtc_l. { eapply (step_accept _ [] 0 _ true); [reflexivity|reflexivity|vm_compute; reflexivity]. }
  eapply rtc_l. { eapply (step_accept _ [] 1 _ true); [reflexivity|reflexivity|vm_compute; reflexivity]. }
  eapply rtc_l. { eapply (step_accept _ [] 0 _ true); [reflexivity|reflexivity|vm_compute; reflexivity]. }
  match goal with |- rtc _ (?x, _) (?y, _) => assert (x = y) as -> by (vm_compute; reflexivity) end.
  apply rtc_refl.
Qed.

Lemma clients_served_witness :
  just_set_up demo_daemon /\ rtc daemon_step (demo_daemon, []) (served_demo, []) /\
  forall k k' x y, dm_clients served_demo !! k = Some x -> dm_clients served_demo !! k' = Some y ->
    cl_addr (snd x) <> 0 -> cl_addr (snd x) = cl_addr (snd y) -> k = k'.
Proof.
  split_and!; [exact demo_set_up|exact demo_reached|].
  apply (clients_served demo_daemon served_demo [] demo_set_up demo_reached).
Defined.

Lemma server_stop_gives_back_witness :
  just_set_up demo_daemon /\ rtc daemon_step (demo_daemon, []) (served_demo, []) /\
  exists d' o, net_server_stop served_demo 0 = Ret (d', o) /\ forall k c, dm_clients d' !! k = Some (0%nat, c) -> gone_client c.
Proof.
  split_and!; [exact demo_set_up|exact demo_reached|].
  destruct (dm_servers served_demo !! 0%nat) as [s|] eqn:E; [|by vm_compute in E].
  destruct (server_stop_gives_back demo_daemon served_demo [] 0 s demo_set_up demo_reached E) as (d' & o & E' & _ & Hg & _).
  exists d', o. exact (conj E' Hg).
Defined.

Lemma server_start_ends_witness :
  just_set_up demo_daemon /\
  exists d' s' o, net_server_start (mkStart (Some 7) (Error EADDRINUSE) Success Success Success) demo_daemon 1 = Ret (d', o) /\
    descriptors [] o = Some (fds (sv_fd s')).
Proof.
  split; [exact demo_set_up|].
  destruct (server_start_ends demo_daemon demo_daemon [] 1 (new_server (LocalServer demo_path) [] true None)
    (mkStart (Some 7) (Error EADDRINUSE) Success Success Success) demo_set_up (rtc_refl _ _) eq_refl eq_refl)
    as (d' & s' & o & E & _ & _ & Hd & _).
  exists d', s', o. exact (conj E Hd).
Defined.

(** Somebody listens on the file: it is left alone, and the server is stopped. *)
Example demo_in_use :
  snd (result (demo_daemon, []) (net_server_start (mkStart (Some 7) (Error EADDRINUSE) Success Success Success) demo_daemon 1))
  = [SO_socket 7; SO_close 7; SO_stopped].
Proof. vm_compute. reflexivity. Qed.

(** Nobody does: the file is replaced. *)
Example demo_stale :
  snd (result (demo_daemon, [])
    (net_server_start (mkStart (Some 7) (Error EADDRINUSE) (Error ECONNREFUSED) Success Success) demo_daemon 1))
  = [SO_socket 7; SO_unlink demo_path; SO_listen 7; SO_started].
Proof. vm_compute. reflexivity. Qed.

(** An error of [bind] other than [EADDRINUSE] (here, no permission) is not noticed. *)
Example demo_bind_ignored :
  snd (result (demo_daemon, []) (net_server_start (mkStart (Some 7) (Error 13) Success Success Success) demo_daemon 1))
  = [SO_socket 7; SO_listen 7; SO_started].
Proof. vm_compute. reflexivity. Qed.

(** The clients of a server that was stopped stay in its queue, and refer to it. *)
Example demo_kept_after_stop :
  map (fun s => (sv_connections s, sv_cleanup_q s)) (dm_servers (after served_demo (net_server_stop served_demo 0)))
  = [([], [0]); ([1], [])]%nat.
Proof. vm_compute. reflexivity. Qed.

(** The destructors close the descriptor of a server that listens twice. *)
Example demo_closed_twice :
  let o := snd (result (served_demo, []) (net_server_delete served_demo 1)) in
  filter (fun x => x = SO_close 6) o = [SO_close 6; SO_close 6] /\ descriptors [6] o = None.
Proof. vm_compute. split; reflexivity. Qed.

(** A socket from systemd is closed by a stop, so that the next start fails. *)
Definition demo_systemd : daemon BusDriver :=
  mkDaemon demo_router None true [new_server SystemdServer [] false (Some 3)] ∅ 0.

Example demo_no_restart :
  let d1 := after demo_systemd (net_server_start (all_well 0) demo_systemd 0) in
  let d2 := after d1 (net_server_stop d1 0) in
  map sv_io (dm_servers d1) = [true] /\ snd (result (d2, []) (net_server_start (all_well 0) d2 0)) = [SO_stopped].
Proof. vm_compute. split; reflexivity. Qed.
